(* ===== verification/_CoqProject ===== *)
-Q . S2P
Prelude.v
GoStrings.v
GoTime.v
GoPath.v
Regex.v
GoNet.v
Encoding.v
GoIP.v
Validate.v
ConfigTypes.v
Secrets.v
Config.v
AgentRules.v
AgentOps.v
AgentServer.v
AgentClient.v
FirewallRender.v
FirewallService.v
Outbound.v
Sys.v
SystemService.v
Dns.v
Dhcp.v
Vpn.v
VpnLink.v
HealthCheck.v
WebAuth.v
Gate.v
Schedule.v
Update.v
Respond.v
Routing.v
Openvpn.v
Backup.v
BackupRuns.v
Pppoe.v
Ipv6.v
Network.v
Daemons.v
Qos.v
Doh.v
Nas.v
Storage.v
Tls.v
Acme.v
SystemPages.v
Remote.v
FirewallPages.v
Escape.v
VpnPages.v
Sse.v
Metrics.v
I18n.v
RateLimit.v
