(* ===== verification/Prelude.v ===== *)
(** * LANKeeper: a verification development

    LANKeeper turns a small computer into a home router.  An unprivileged web
    process keeps the configuration in router.yaml, renders what the system
    daemons need and serves the management pages; a root agent on a Unix
    socket carries out the privileged commands and file writes on its behalf;
    an update guard, started from the previous binary, reverts an update that
    is not confirmed.  This library models the parts that carry the safety of
    that arrangement and proves what each of them promises.

    ** How the parts interact

    config (internal/config) is read and written by every service.  A service
    that changes the machine calls internal/netutil, which forwards the
    command or the file to the agent over internal/agent/client.go; the agent
    (server.go, operations.go, argrules.go) authorizes the peer, checks the
    request against its tables and acts.  The firewall service
    (internal/services/firewall.go) loads rulesets under a watchdog; the
    routing, DNS, DHCP and VPN services write the files of their daemons and
    restart them; the backup scheduler, the health checks and the updater run
    beside them; internal/web decides who may log in and which request
    reaches which handler.

    ** Files

    - Prelude: results and errors, machine integers, the tactics [inv_ok] and
      [bool_hyps], the hint database golib.
    - GoStrings, GoTime, GoPath, Regex, GoNet, Encoding, GoIP: what the
      sources use of the Go standard library: strings and UTF-8 runes,
      strconv, times and dates, path/filepath, regexp by derivatives (with its
      language), IP addresses and prefixes as text and as bytes with their
      masks, hex, base64 and JSON decoding into structs.
    - Validate: internal/netutil/validate.go.
    - ConfigTypes: every struct of internal/config/config.go, with its zero
      value and the field assignments.
    - Secrets: internal/config/secrets.go and crypto.go: the key file and the
      encryption of every credential field.
    - Config: Load, Save, ValidateBytes, Validate and atomicWrite over a file
      system with a durable and a volatile view.
    - AgentRules: argrules.go and the tables, symlink resolution, path rules
      and command resolution of operations.go.
    - AgentOps: the five operations of the agent, from raw JSON parameters to
      the list of actions they take as root.
    - AgentServer: internal/agent/server.go: peer authorization, the socket's
      mode, frame limits, connection slots, dispatch, the connection loop.
    - AgentClient: internal/agent/client.go and internal/netutil/exec.go; the
      class [Peer] is what the client relies on of the server, and the
      instance [dispatch_peer] is the real dispatch.
    - FirewallRender: the rule lines and template data of firewall.go.
    - FirewallService: internal/netutil/atomic.go and the apply, confirm,
      rollback and restart protocol and edits of firewall.go, as a step
      function on the machine and the process.
    - Outbound: internal/services/safefetch.go, the guard of the downloads.
    - Sys: the monad of the services below: a program reads and replaces the
      configuration, asks the machine (a command, a file, a save) and gets an
      answer from the environment; triples over what was asked, and the
      predicate that every request passes the agent's checks.
    - SystemService, Dns, Dhcp, Vpn, VpnLink, HealthCheck, Routing, Openvpn:
      internal/services/system.go, dns.go with dns_blocklist_schedule.go and
      dns_querylog_rotate.go, dhcp.go, vpn.go, vpn_s2s.go (its subnets and
      addresses in Vpn, its invite wizard in VpnLink), healthcheck.go,
      routing.go, openvpn.go with openvpn_client_validate.go.
    - WebAuth: login_guard.go, login_budget.go, auth.go and handleLogin of
      internal/web.  Gate: middleware.go and the route table of server.go.
      Respond: the replies and form checks of internal/web/handlers.
    - Schedule: the cron dialect, search and scheduler of
      internal/services/backup_schedule.go.  Backup: backup.go, archives and
      their import.  BackupRuns: backup_orchestration.go and backup_local.go.
    - Update: internal/services/update.go and release_signing.go,
      internal/releasekey and cmd/lankeeper/update_guard.go.
    - Pppoe, Ipv6, Network, Daemons, Qos, Doh, Nas, Storage: pppoe.go; ipv6.go
      and sixinfour.go; network.go, usbtethering.go and firstboot.go; ntp.go
      and syslog.go; qos.go and qos_clients.go; doh.go, doh_resolvers.go and
      the probes of dns.go; nas.go; storage.go; each with its handlers.
    - Tls: internal/config/tls.go, internal/services/tls.go and
      internal/web/certreload.go (Module Reloader).  Acme: acme.go and
      acme_dns.go.  The class [X509] states what both rely on of the
      certificate encodings.
    - Remote: backup_s3.go and backup_sftp.go, the request signer, the object
      store and the SFTP target.  The SSH handshake is a parameter; what it
      is relied on for is [verifies_host_key], and [effect] states what the
      server's files may look like after each call.
    - SystemPages, FirewallPages, VpnPages: handlers/system.go; firewall.go;
      vpn.go, dhcp.go, download.go and healthcheck.go.  Escape: the writers of
      JSON strings and metric labels, with readers of both.
    - Sse: internal/web/sse.go, the broker as a labelled step relation over
      its subscribers, and static.go.  Metrics: monitor.go, metrics.go,
      metrics_collectors.go, metrics_exposition.go and their handler, with a
      reader of the exposition format; the class [Floats] stands for floating
      point.  I18n: internal/i18n, the error texts of internal/web and
      handlers/errors.go, and internal/tmpl/funcs.go.  RateLimit: the token
      buckets of middleware.go; the class [Float64] states the rounding
      bounds of the arithmetic they rely on.

    ** What the theorems show

    Privilege boundary (AgentRules, AgentOps, AgentServer): whatever a caller
    sends, every action the agent takes is a permitted one; the validators
    accept exactly a declarative grammar of command lines; opened files stay
    inside the directory of the rule that admits them after symlinks are
    resolved; one connection is served in order with bounded frames, time and
    connection count; only root, the agent's account and the service account
    get in.

    Transport (AgentClient): each call gets the reply to its own request
    through any history of failures, and file contents cross unaltered.

    Configuration (Config, Secrets): saving and loading round-trips with the
    credentials encrypted, a save is atomic at every crash point, a lost key
    costs only the encrypted values, the archive check is the load check, and
    a key once stored is the key read back.

    Firewall (FirewallRender, FirewallService): no configured text can leave
    its statement; rules end up in their chains in order; the watchdog
    restores the previous ruleset through edits, restarts and stale timers;
    one change is pending at a time; a confirmation persists what was
    applied; a rolled-back edit is not re-applied in the background.

    Login and access (WebAuth, Gate): the lockout schedule is exact and holds
    under any interleaving, no address can lock another out, the global
    budget counts the last hour and spaces the checks, sessions live exactly
    from their login to their end, a login request does what each branch
    says, and a request reaches a protected handler only through the filters.

    Names and addresses (Outbound, Dns, Dhcp, Vpn, VpnLink): no download
    reaches an address of the local network, blocklists and the query log are
    read as specified, leases and their records stay in step, allocated
    addresses are free and inside their subnet, an invite is consumed once
    and unaltered.

    Routing and tunnels (Routing, Openvpn): the generated chain steers a
    packet as the first matching policy says, the order of policies is
    exactly what was asked, the filter of a pasted OpenVPN file keeps exactly
    the listed directives, a fixed address is inside the tunnel network.

    Supervision (HealthCheck, Schedule, Update): a remediation needs its run of
    failures and respects the cooldown; schedules go from text to fire times,
    first match, once per fire time; only verified binaries are installed, a
    failure restores the old one, an update is settled the right way exactly
    once, and versions compare by number.

    Backups (Backup, BackupRuns): an import replaces everything or nothing, an
    exported archive imports back, every run is recorded, retention keeps
    the newest.

    Lines and networks (Pppoe, Ipv6, Network, Qos): the secrets files hold
    exactly the configured line; neither the tunnel nor the delegation client
    runs unless the configuration asks for it and sub-prefixes are distinct;
    interface and VLAN lists keep their invariants through any sequence of
    edits and restarts; the kernel's shaping objects are what the accepted
    form asks for.

    Daemons and files (Daemons, Doh, Nas, Storage): the chrony, rsyslog,
    dnscrypt-proxy and Samba files, read the way their daemon reads them, say
    what the settings say and nothing else; a playlist sync stays inside its
    media directories; Unbound never forwards to a stopped proxy; fstab keeps
    its records.

    Certificates (Tls, Acme): a mode is recorded only once its pair is in
    place; a challenge record is withdrawn once its validation is over and
    stays only where its deletion was refused; a renewal never overrides the
    operator; the reloader serves a matching pair and picks up a settled one,
    unless a replacement reproduced the modification times.

    Remote backups (Remote): a signature covers what is sent; an upload goes
    to the pinned host only and appears under its name only when complete;
    retention deletes old backups of the target and nothing else, and what it
    reports deleted was acknowledged.

    Pages (SystemPages, FirewallPages, VpnPages, I18n): passwords change only
    for their owner; the firewall page is a client of the protocol and an
    accepted rule is in the rendered ruleset; the wizard's answers are the
    JSON documents they should be; a request is answered in its language and
    never with the text of an agent failure.

    Limits (RateLimit): no address gets more than its burst and its rate over
    any stretch of time, rounding included, and a patient one is let through.

    Streams and metrics (Sse, Metrics, Escape): the broker never panics and
    keeps its bounds under any interleaving, and a stream misses a message
    only to a full queue; a scrape reads back as the table of what was
    measured, collections are the cache time apart, the history is the last
    sixty readings.

    Lemmas under a heading of behaviours worth knowing, and a few beside the
    theorem they limit, state where the code does less than it means to;
    lemmas named [..._allowed] show that the commands a service sends are
    ones the agent accepts.

    ** Modelling conventions

    A fallible function returns [result]; an error keeps its format literal
    and operands.  State is passed explicitly, or through the monad of Sys.
    Calls to the operating system, timers and other processes take their
    outcome from an environment, so a theorem quantifies over every failure;
    concurrency is an arbitrary sequence of the critical sections.  [int] and
    [time.Duration] are [Z] with the wrap-around or saturation written out
    where it can be reached.  Parameters stand for what is outside the
    sources: symlink resolution, the YAML codec, AES-GCM, scrypt, bcrypt,
    SHA-256, HMAC, ed25519, gzip and tar, JSON and RFC 3339 text,
    time.ParseDuration, the order of sort.Slice on equal keys and of map
    iteration, nft, the template engine with its templates, the cookie store
    and the time zone data; the laws they are assumed to satisfy are class
    fields or hypotheses with a concrete instance in the witnesses.

    Recursion that is not structural carries fuel that is shown to be enough:
    symlink resolution gets one unit per byte of the path
    ([resolveExistingPrefix_terminates]), the set loop of a schedule field 64
    turns for at most 60 values ([set_loop_spec]), the search for a fire time
    one turn per minute up to its cap ([Next_spec]), the search for a DNS
    zone one turn per byte of the name ([zone_loop_enough]), the unit of a
    size 64 turns ([unit_loop_spec]), and number printing one digit per bit.

    ** Not modelled

    Page rendering, the template texts and process start-up, which carry no
    logic of their own; the dashboard's page data and per-request write
    deadlines; the default configuration, which is read through the YAML
    codec; the request log and the journal lines;
    the wiring of the server and its ticker goroutines, whose ticks are the
    sequences of steps of the models. *)

From Stdlib Require Export ZArith Lia String Ascii.
From stdpp Require Export base gmap strings list fin_maps option.

(** stdpp blocks the reduction of [String.append]; the models evaluate it on
    literals, so it unfolds here when its first argument is a constructor. *)
#[global] Arguments String.append !_ _ / : simpl nomatch.

(** ** Errors and results

    A Go function that can fail returns a value and an [error].  An error is
    kept as the format literal of the [fmt.Errorf] (or [errors.New]) call that
    built it with its operands, so that two errors of the model are equal
    exactly when the calls are; [Errorw] is a call whose [%w] operand is
    another error. *)
Inductive error : Type :=
| Errorf (format : string) (args : list string)
| Errorw (format : string) (args : list string) (inner : error).

Inductive result (A : Type) : Type :=
| Ok (a : A)
| Err (e : error).
Arguments Ok {A} a.
Arguments Err {A} e.

Definition result_bind {A B} (r : result A) (k : A -> result B) : result B :=
  match r with
  | Ok a => k a
  | Err e => Err e
  end.

(** [if err := f(); err != nil { return fmt.Errorf(format, err) }]. *)
Definition wrap_err {A} (format : string) (args : list string) (r : result A) : result A :=
  match r with
  | Ok a => Ok a
  | Err e => Err (Errorw format args e)
  end.

Definition is_ok {A} (r : result A) : bool :=
  match r with Ok _ => true | Err _ => false end.

(** A guard: [if cond { return err }]. *)
Definition fail_if (cond : bool) (e : error) : result unit :=
  if cond then Err e else Ok tt.

Declare Scope go_scope.
Delimit Scope go_scope with go.

Notation "'let?' x ':=' e 'in' k" := (result_bind e (fun x => k))
  (at level 200, x pattern, e at level 99, k at level 200,
   format "'[v' 'let?'  x  ':='  e  'in' '/' k ']'") : go_scope.
Notation "'guard!' e ';;' k" := (result_bind e (fun _ : unit => k))
  (at level 200, e at level 99, k at level 200,
   format "'[v' 'guard!'  e  ';;' '/' k ']'") : go_scope.

#[export] Instance error_eq_dec : EqDecision error.
Proof. solve_decision. Defined.

(** ** Machine integers

    [int] and [int64] are 64 bits wide and two's complement; [uint32] and
    [os.FileMode] are 32 bits and unsigned. *)
Definition int64_min : Z := (- 2 ^ 63)%Z.
Definition int64_max : Z := (2 ^ 63 - 1)%Z.
Definition in_int64 (z : Z) : bool := ((int64_min <=? z) && (z <=? int64_max))%Z.

(** The signed value of the low 64 bits of [z]. *)
Definition wrap64 (z : Z) : Z := ((z + 2 ^ 63) mod 2 ^ 64 - 2 ^ 63)%Z.

(** The conversion [uint32(z)]. *)
Definition uint32 (z : Z) : Z := (z mod 2 ^ 32)%Z.

(** [x << n] on an [int64]: a shift count of 64 or more gives 0. *)
Definition shl64 (x n : Z) : Z :=
  if (64 <=? n)%Z then 0%Z else wrap64 (Z.shiftl x n).

(** ** Helper lemmas on results *)

Create HintDb golib.

Lemma result_bind_Ok {A B} (r : result A) (k : A -> result B) (b : B) :
  result_bind r k = Ok b <-> exists a, r = Ok a /\ k a = Ok b.
Proof. destruct r; simpl; naive_solver. Qed.

Lemma fail_if_Ok (c : bool) (e : error) (u : unit) :
  fail_if c e = Ok u <-> c = false.
Proof. destruct c, u; simpl; naive_solver. Qed.

Lemma wrap_err_Ok {A} (f : string) (args : list string) (r : result A) (a : A) :
  wrap_err f args r = Ok a <-> r = Ok a.
Proof. destruct r; simpl; naive_solver. Qed.

Lemma is_ok_Ok {A} (r : result A) : is_ok r = true <-> exists a, r = Ok a.
Proof. destruct r; simpl; naive_solver. Qed.

Lemma wrap64_id z : in_int64 z = true -> wrap64 z = z.
Proof.
  unfold in_int64, wrap64, int64_min, int64_max. intros H.
  apply andb_prop in H as [H1 H2]. apply Z.leb_le in H1, H2.
  rewrite Z.mod_small; lia.
Qed.

Lemma wrap64_range z : (int64_min <= wrap64 z <= int64_max)%Z.
Proof.
  unfold wrap64, int64_min, int64_max.
  pose proof (Z.mod_pos_bound (z + 2 ^ 63) (2 ^ 64) eq_refl). lia.
Qed.

Lemma uint32_range z : (0 <= uint32 z < 2 ^ 32)%Z.
Proof. unfold uint32. apply Z.mod_pos_bound. reflexivity. Qed.

Lemma Some_inj_eq {A} (x y : A) : Some x = Some y -> x = y.
Proof. congruence. Qed.

Lemma Ok_inj {A} (x y : A) : Ok x = Ok y -> x = y.
Proof. congruence. Qed.

(** Splits every hypothesis that says a chain of fallible calls succeeded
    into one hypothesis per call. *)
Ltac inv_ok :=
  repeat match goal with
  | H : result_bind _ _ = Ok _ |- _ =>
      apply result_bind_Ok in H; destruct H as [? [? H]]
  | H : fail_if _ _ = Ok _ |- _ => apply fail_if_Ok in H
  | H : wrap_err _ _ _ = Ok _ |- _ => apply wrap_err_Ok in H
  | H : Ok _ = Ok _ |- _ => apply Ok_inj in H
  | H : Err _ = Ok _ |- _ => discriminate H
  | H : Some _ = Some _ |- _ => apply Some_inj_eq in H
  | H : Some _ = None |- _ => discriminate H
  | H : None = Some _ |- _ => discriminate H
  end.

(** Turns boolean connectives of the hypotheses into propositions. *)
Ltac bool_hyps :=
  repeat match goal with
  | H : _ && _ = true |- _ => apply andb_prop in H; destruct H
  | H : _ || _ = false |- _ => apply orb_false_elim in H; destruct H
  | H : negb _ = true |- _ => apply negb_true_iff in H
  | H : negb _ = false |- _ => apply negb_false_iff in H
  | H : String.eqb _ _ = true |- _ => apply String.eqb_eq in H
  | H : String.eqb _ _ = false |- _ => apply String.eqb_neq in H
  | H : Ascii.eqb _ _ = true |- _ => apply Ascii.eqb_eq in H
  | H : Ascii.eqb _ _ = false |- _ => apply Ascii.eqb_neq in H
  | H : (_ <=? _)%Z = true |- _ => apply Z.leb_le in H
  | H : (_ <=? _)%Z = false |- _ => apply Z.leb_gt in H
  | H : (_ <? _)%Z = true |- _ => apply Z.ltb_lt in H
  | H : (_ <? _)%Z = false |- _ => apply Z.ltb_ge in H
  | H : (_ =? _)%Z = true |- _ => apply Z.eqb_eq in H
  | H : (_ =? _)%Z = false |- _ => apply Z.eqb_neq in H
  end.

#[export] Hint Resolve wrap64_range uint32_range : golib.

(** ** Helper lemmas on lists *)

(** Entries at different positions are related. *)
Definition pairwise {A} (R : A -> A -> Prop) (l : list A) : Prop :=
  forall i j x y, l !! i = Some x -> l !! j = Some y -> i <> j -> R x y.

Section Pairwise.
Context {A : Type} (R : A -> A -> Prop) (Hsym : forall x y, R x y -> R y x).

Lemma pairwise_snoc l x : pairwise R l -> Forall (R x) l -> pairwise R (l ++ [x]).
Proof using Hsym.
  intros Hl Hx i j a b Ha Hb Hij. rewrite List.Forall_forall in Hx.
  rewrite lookup_snoc_Some in Ha, Hb. destruct Ha as [[_ Ha]|[-> <-]], Hb as [[_ Hb]|[-> <-]]; [by eapply Hl|..|done].
  - apply Hsym, Hx. apply list_elem_of_In. by eapply list_elem_of_lookup_2.
  - apply Hx. apply list_elem_of_In. by eapply list_elem_of_lookup_2.
Qed.

Lemma pairwise_delete l k : pairwise R l -> pairwise R (delete k l).
Proof using.
  intros Hl i j a b Ha Hb Hij.
  assert (Hat : forall m c, delete k l !! m = Some c -> exists m', l !! m' = Some c /\ (m < k /\ m' = m \/ k <= m /\ m' = S m)%nat).
  { intros m c H. destruct (Nat.lt_ge_cases m k).
    - rewrite list_lookup_delete_lt in H by done. exists m. split; [done|]. by left.
    - rewrite list_lookup_delete_ge in H by done. exists (S m). split; [done|]. by right. }
  destruct (Hat i a Ha) as (i' & Hi & ?), (Hat j b Hb) as (j' & Hj & ?). apply (Hl i' j'); [done..|lia].
Qed.

Lemma pairwise_insert l k x :
  pairwise R l -> (forall j y, j <> k -> l !! j = Some y -> R x y) -> pairwise R (<[k:=x]> l).
Proof using Hsym.
  intros Hl Hx i j a b Ha Hb Hij. rewrite list_lookup_insert_Some in Ha, Hb.
  destruct Ha as [(-> & <- & _)|[Hi Ha]], Hb as [(-> & <- & _)|[Hj Hb]]; [done|by eapply Hx|..].
  - apply Hsym. by eapply Hx.
  - by eapply Hl.
Qed.

End Pairwise.
