(* ===== verification/GoStrings.v ===== *)
(** * The strings, unicode/utf8 and strconv functions the program calls

    A Go string is a sequence of bytes, here a [string] of 8-bit characters.
    Functions that Go defines over runes ([TrimSpace], [ContainsFunc],
    [utf8.Valid]) go through [runes], the left-to-right UTF-8 segmentation
    that a [range] loop performs. *)

From S2P Require Import Prelude.

Local Open Scope Z_scope.

(** ** Bytes *)

Definition byte_val (a : ascii) : Z := Z.of_N (N_of_ascii a).

Definition in_range (lo hi : Z) (a : ascii) : bool :=
  (lo <=? byte_val a) && (byte_val a <=? hi).

Definition is_digit (a : ascii) : bool := in_range 48 57 a.
Definition is_upper (a : ascii) : bool := in_range 65 90 a.
Definition is_lower (a : ascii) : bool := in_range 97 122 a.
Definition is_alpha (a : ascii) : bool := is_upper a || is_lower a.
Definition is_alnum (a : ascii) : bool := is_alpha a || is_digit a.

Definition lf : ascii := "010"%char.
Definition dquote : ascii := "034"%char.
Definition char_str (a : ascii) : string := String a "".

Fixpoint all_chars (P : ascii -> bool) (s : string) : bool :=
  match s with
  | "" => true
  | String a r => P a && all_chars P r
  end.

Fixpoint has_char (c : ascii) (s : string) : bool :=
  match s with
  | "" => false
  | String a r => Ascii.eqb a c || has_char c r
  end.

(** Membership of a byte in a literal set of bytes. *)
Definition char_in (set : string) (a : ascii) : bool := has_char a set.

Definition len (s : string) : Z := Z.of_nat (String.length s).

(** ** Prefixes and suffixes *)

Fixpoint drop_prefix (p s : string) : option string :=
  match p with
  | "" => Some s
  | String a p' =>
      match s with
      | String b s' => if Ascii.eqb a b then drop_prefix p' s' else None
      | "" => None
      end
  end.

Fixpoint drop_suffix (p s : string) : option string :=
  if String.eqb s p then Some ""
  else match s with
       | "" => None
       | String a r => String a <$> drop_suffix p r
       end.

Definition HasPrefix (s p : string) : bool :=
  match drop_prefix p s with Some _ => true | None => false end.
Definition CutPrefix (s p : string) : string * bool :=
  match drop_prefix p s with Some r => (r, true) | None => (s, false) end.
Definition TrimPrefix (s p : string) : string := default s (drop_prefix p s).

Definition HasSuffix (s p : string) : bool :=
  match drop_suffix p s with Some _ => true | None => false end.
Definition CutSuffix (s p : string) : string * bool :=
  match drop_suffix p s with Some r => (r, true) | None => (s, false) end.
Definition TrimSuffix (s p : string) : string := default s (drop_suffix p s).

(** ** Searching and splitting *)

(** [strings.Contains s sub]. *)
Fixpoint Contains (s sub : string) : bool :=
  HasPrefix s sub ||
  match s with
  | "" => false
  | String _ r => Contains r sub
  end.

(** [strings.Split s sep] for a one-byte separator. *)
Fixpoint split_byte (c : ascii) (s : string) : list string :=
  match s with
  | "" => [""]
  | String a r =>
      if Ascii.eqb a c then "" :: split_byte c r
      else match split_byte c r with
           | h :: t => String a h :: t
           | [] => [char_str a]
           end
  end.

Definition join (sep : string) (l : list string) : string := String.concat sep l.

(** [strings.Cut s sep] for a one-byte separator; [strings.SplitN s sep 2]
    has two elements exactly when it is [Some]. *)
Fixpoint cut_byte (c : ascii) (s : string) : option (string * string) :=
  match s with
  | "" => None
  | String a r =>
      if Ascii.eqb a c then Some ("", r)
      else match cut_byte c r with
           | Some (h, t) => Some (String a h, t)
           | None => None
           end
  end.

(** ** UTF-8 *)

Definition is_cont (a : ascii) : bool := in_range 128 191 a.

(** The segmentation of a string into runes.  [None] marks a byte that starts
    no valid encoding: Go decodes it as U+FFFD of width 1. *)
Fixpoint runes (s : string) : list (option Z * string) :=
  match s with
  | "" => []
  | String a r =>
      let b0 := byte_val a in
      let rest := runes r in
      let bad := (None, char_str a) :: rest in
      if b0 <? 128 then (Some b0, char_str a) :: rest
      else if in_range 194 223 a then
        match r with
        | String b r' =>
            if is_cont b
            then (Some ((b0 - 192) * 64 + (byte_val b - 128)), String a (char_str b)) :: runes r'
            else bad
        | _ => bad
        end
      else if in_range 224 239 a then
        match r with
        | String b (String c r') =>
            let lo := if b0 =? 224 then 160 else 128 in
            let hi := if b0 =? 237 then 159 else 191 in
            if in_range lo hi b && is_cont c
            then (Some ((b0 - 224) * 4096 + (byte_val b - 128) * 64 + (byte_val c - 128)),
                  String a (String b (char_str c))) :: runes r'
            else bad
        | _ => bad
        end
      else if in_range 240 244 a then
        match r with
        | String b (String c (String d r')) =>
            let lo := if b0 =? 240 then 144 else 128 in
            let hi := if b0 =? 244 then 143 else 191 in
            if in_range lo hi b && is_cont c && is_cont d
            then (Some ((b0 - 240) * 262144 + (byte_val b - 128) * 4096
                        + (byte_val c - 128) * 64 + (byte_val d - 128)),
                  String a (String b (String c (char_str d)))) :: runes r'
            else bad
        | _ => bad
        end
      else bad
  end.

Definition RuneError : Z := 65533.
Definition rune_of (seg : option Z * string) : Z := default RuneError (fst seg).
Definition bytes_of (segs : list (option Z * string)) : string :=
  String.concat "" (snd <$> segs).

(** [utf8.ValidString]. *)
Definition utf8_valid (s : string) : bool :=
  forallb (fun seg => match fst seg with Some _ => true | None => false end) (runes s).

(** [strings.ContainsFunc s f]. *)
Definition ContainsFunc (s : string) (f : Z -> bool) : bool :=
  existsb (fun seg => f (rune_of seg)) (runes s).

(** [unicode.IsControl]: category Cc. *)
Definition IsControl (r : Z) : bool :=
  (r <=? 31) || ((127 <=? r) && (r <=? 159)).

(** [unicode.IsSpace]: the White_Space property. *)
Definition IsSpace (r : Z) : bool :=
  ((9 <=? r) && (r <=? 13)) || (r =? 32) || (r =? 133) || (r =? 160) || (r =? 5760)
  || ((8192 <=? r) && (r <=? 8202)) || (r =? 8232) || (r =? 8233) || (r =? 8239)
  || (r =? 8287) || (r =? 12288).

Fixpoint drop_while {A} (P : A -> bool) (l : list A) : list A :=
  match l with
  | [] => []
  | x :: r => if P x then drop_while P r else l
  end.

Definition drop_while_end {A} (P : A -> bool) (l : list A) : list A :=
  reverse (drop_while P (reverse l)).

Definition TrimSpace (s : string) : string :=
  let space := fun seg => IsSpace (rune_of seg) in
  bytes_of (drop_while_end space (drop_while space (runes s))).

(** [strings.Fields]: the runs of bytes between white space. *)
Fixpoint fields_of (segs : list (option Z * string)) (cur : string) : list string :=
  match segs with
  | [] => if String.eqb cur "" then [] else [cur]
  | seg :: rest =>
      if IsSpace (rune_of seg)
      then (if String.eqb cur "" then [] else [cur]) ++ fields_of rest ""
      else fields_of rest (cur +:+ snd seg)
  end.

Definition Fields (s : string) : list string := fields_of (runes s) "".

(** [strings.Trim s cutset] for an ASCII cutset. *)
Fixpoint trim_left_set (set s : string) : string :=
  match s with
  | String a r => if char_in set a then trim_left_set set r else s
  | "" => ""
  end.
Definition Trim (s set : string) : string :=
  String.rev (trim_left_set set (String.rev (trim_left_set set s))).

(** ** strconv *)

Definition digit_char (d : Z) : ascii := ascii_of_N (Z.to_N (48 + d)).

Fixpoint digits (fuel : nat) (n : Z) (acc : string) : string :=
  match fuel with
  | O => acc
  | S f =>
      let acc' := String (digit_char (n mod 10)) acc in
      if n <? 10 then acc' else digits f (n / 10) acc'
  end.

(** [strconv.Itoa] and the [%d] verb. *)
Definition itoa (z : Z) : string :=
  let fuel := S (Z.to_nat (Z.log2 (Z.abs z))) in
  if z <? 0 then String "-" (digits fuel (- z) "") else digits fuel z "".

Fixpoint digits_value (acc : Z) (s : string) : option Z :=
  match s with
  | "" => Some acc
  | String a r => if is_digit a then digits_value (acc * 10 + (byte_val a - 48)) r else None
  end.

(** [strconv.Atoi]: an optional sign, at least one decimal digit, nothing
    else, and a value that fits in 64 bits. *)
Definition Atoi (s : string) : option Z :=
  let '(neg, body) :=
    match s with
    | String "-" r => (true, r)
    | String "+" r => (false, r)
    | _ => (false, s)
    end in
  match body with
  | "" => None
  | _ => match digits_value 0 body with
         | None => None
         | Some n => let z := if neg : bool then - n else n in
                     if in_int64 z then Some z else None
         end
  end.

(** The value of [strconv.Atoi] when its error is dropped: a number out of
    range is cut at the ends of int64, other text is 0. *)
Definition Atoi_value (s : string) : Z :=
  let '(neg, body) :=
    match s with
    | String "-" r => (true, r)
    | String "+" r => (false, r)
    | _ => (false, s)
    end in
  match body with
  | "" => 0
  | _ => match digits_value 0 body with
         | None => 0
         | Some n => Z.max int64_min (Z.min int64_max (if neg : bool then - n else n))
         end
  end.

(** ** Lemmas *)

Lemma byte_val_range a : 0 <= byte_val a < 256.
Proof. unfold byte_val. pose proof (N_ascii_bounded a). lia. Qed.

Lemma byte_val_inj a b : byte_val a = byte_val b -> a = b.
Proof.
  unfold byte_val. intros H. apply N2Z.inj in H.
  rewrite <- (ascii_N_embedding a), <- (ascii_N_embedding b). by rewrite H.
Qed.

Lemma append_empty_r s : s +:+ "" = s.
Proof. induction s; simpl; [done | by rewrite IHs]. Qed.

Lemma append_assoc a b c : (a +:+ b) +:+ c = a +:+ (b +:+ c).
Proof. induction a; simpl; [done | by rewrite IHa]. Qed.

Lemma append_length a b : String.length (a +:+ b) = (String.length a + String.length b)%nat.
Proof. induction a; simpl; [done | by rewrite IHa]. Qed.

Lemma append_inj_l a b c : a +:+ b = a +:+ c -> b = c.
Proof. induction a; simpl; [done | intros [=]; auto]. Qed.

Lemma drop_prefix_Some p s r : drop_prefix p s = Some r <-> s = p +:+ r.
Proof.
  revert s. induction p as [|a p IH]; intros s; simpl.
  { split; [by intros [= ->] | by intros ->]. }
  destruct s as [|b s]; [done |].
  destruct (Ascii.eqb_spec a b) as [->|Hne].
  - rewrite IH. split; [by intros -> | by intros [= ->]].
  - split; [done | congruence].
Qed.

Lemma HasPrefix_true s p : HasPrefix s p = true <-> exists r, s = p +:+ r.
Proof.
  unfold HasPrefix. destruct (drop_prefix p s) eqn:E.
  - apply drop_prefix_Some in E. naive_solver.
  - split; [done |]. intros [r ->].
    assert (drop_prefix p (p +:+ r) = Some r) by (by apply drop_prefix_Some). congruence.
Qed.

Lemma HasPrefix_append p r : HasPrefix (p +:+ r) p = true.
Proof. apply HasPrefix_true. eauto. Qed.

Lemma TrimPrefix_append p s : TrimPrefix (p +:+ s) p = s.
Proof. unfold TrimPrefix. by rewrite (proj2 (drop_prefix_Some p _ s) eq_refl). Qed.

Lemma HasPrefix_trans s p q : HasPrefix s p = true -> HasPrefix p q = true -> HasPrefix s q = true.
Proof.
  rewrite !HasPrefix_true. intros [r ->] [r' ->]. exists (r' +:+ r). by rewrite append_assoc.
Qed.

Lemma drop_suffix_cons p a s :
  drop_suffix p (String a s) =
  if String.eqb (String a s) p then Some "" else String a <$> drop_suffix p s.
Proof. reflexivity. Qed.

Lemma drop_suffix_Some p s r : drop_suffix p s = Some r <-> s = r +:+ p.
Proof.
  revert r. induction s as [|a s IH]; intros r.
  - destruct p as [|b p]; simpl.
    + rewrite append_empty_r. split; [by intros [= ->] | by intros ->].
    + split; [done |]. intros H. by destruct r.
  - rewrite drop_suffix_cons.
    destruct (String.eqb_spec (String a s) p) as [<-|Hne].
    { split; [by intros [= <-] |]. intros H.
      assert (String.length (String a s) = String.length (r +:+ String a s)) as HL by (by rewrite <- H).
      rewrite append_length in HL. destruct r; [done | simpl in HL; lia]. }
    rewrite fmap_Some. split.
    + intros [x [Hx ->]]. apply IH in Hx as ->. done.
    + destruct r as [|b r]; simpl; [congruence |]. intros [= -> Hs].
      exists r. split; [by apply IH | done].
Qed.

Lemma HasSuffix_true s p : HasSuffix s p = true <-> exists r, s = r +:+ p.
Proof.
  unfold HasSuffix. destruct (drop_suffix p s) eqn:E.
  - apply drop_suffix_Some in E. naive_solver.
  - split; [done |]. intros [r ->].
    assert (drop_suffix p (r +:+ p) = Some r) by (by apply drop_suffix_Some). congruence.
Qed.

Lemma TrimSuffix_append s p : TrimSuffix (s +:+ p) p = s.
Proof.
  unfold TrimSuffix. assert (drop_suffix p (s +:+ p) = Some s) as -> by (by apply drop_suffix_Some).
  done.
Qed.

(** *** Characters of a string *)

Lemma all_chars_append P s t : all_chars P (s +:+ t) = all_chars P s && all_chars P t.
Proof. induction s; simpl; [done |]. rewrite IHs. by rewrite andb_assoc. Qed.

Lemma all_chars_impl (P Q : ascii -> bool) s :
  (forall a, P a = true -> Q a = true) -> all_chars P s = true -> all_chars Q s = true.
Proof.
  intros HPQ. induction s as [|a s IH]; simpl; [done |].
  intros H. apply andb_prop in H as [Ha Hs]. by rewrite HPQ, IH.
Qed.

Lemma all_chars_not_has P c s :
  P c = false -> all_chars P s = true -> has_char c s = false.
Proof.
  intros Hc. induction s as [|a s IH]; simpl; [done |].
  intros H. apply andb_prop in H as [Ha Hs]. rewrite IH by done.
  destruct (Ascii.eqb_spec a c); [congruence | done].
Qed.

Lemma has_char_append c s t : has_char c (s +:+ t) = has_char c s || has_char c t.
Proof. induction s; simpl; [done |]. rewrite IHs. by rewrite orb_assoc. Qed.

Lemma has_char_all c s : has_char c s = false -> all_chars (fun a => negb (Ascii.eqb a c)) s = true.
Proof.
  induction s as [|a s IH]; simpl; [done |]. intros H.
  apply orb_false_elim in H as [Ha Hs]. by rewrite Ha, IH.
Qed.

Lemma all_chars_join P sep l :
  all_chars P sep = true -> Forall (fun s => all_chars P s = true) l ->
  all_chars P (join sep l) = true.
Proof.
  intros Hsep. induction 1 as [|s l Hs Hl IH]; [done |].
  unfold join in *. simpl. destruct l as [|s' l']; [done |].
  rewrite !all_chars_append, Hs, Hsep. simpl. exact IH.
Qed.

(** *** Splitting and joining *)

Lemma split_byte_nonnil c s : split_byte c s <> [].
Proof.
  destruct s; simpl; [done |]. destruct (Ascii.eqb _ _); [done |].
  destruct (split_byte c s); done.
Qed.

Lemma join_cons_char sep a h t : join sep (String a h :: t) = String a (join sep (h :: t)).
Proof. unfold join. destruct t; done. Qed.

Lemma join_cons sep h t : t <> [] -> join sep (h :: t) = h +:+ sep +:+ join sep t.
Proof. unfold join. destruct t; done. Qed.

Lemma join_split c s : join (char_str c) (split_byte c s) = s.
Proof.
  induction s as [|a s IH]; simpl; [done |].
  pose proof (split_byte_nonnil c s) as Hne.
  destruct (Ascii.eqb_spec a c) as [->|Hac].
  - rewrite join_cons by done. by rewrite IH.
  - destruct (split_byte c s) as [|h t]; [done |]. by rewrite join_cons_char, IH.
Qed.

Lemma split_byte_no_sep c s : Forall (fun x => has_char c x = false) (split_byte c s).
Proof.
  induction s as [|a s IH]; simpl; [by repeat constructor |].
  destruct (Ascii.eqb_spec a c) as [->|Hac]; [by constructor |].
  destruct (split_byte c s) as [|h t].
  - constructor; [| done]. simpl. destruct (Ascii.eqb_spec a c); done.
  - inversion IH; subst. constructor; [| done]. simpl.
    destruct (Ascii.eqb_spec a c); [done |]. assumption.
Qed.

Lemma split_byte_append c s t :
  has_char c s = false -> split_byte c (s +:+ String c t) = s :: split_byte c t.
Proof.
  induction s as [|a s IH]; simpl; intros H.
  - by rewrite Ascii.eqb_refl.
  - apply orb_false_elim in H as [Ha Hs]. rewrite Ha, IH by done. done.
Qed.

Lemma split_byte_none c s : has_char c s = false -> split_byte c s = [s].
Proof.
  induction s as [|a s IH]; simpl; intros H; [done |].
  apply orb_false_elim in H as [Ha Hs]. by rewrite Ha, IH.
Qed.

Lemma split_join c l :
  l <> [] -> Forall (fun x => has_char c x = false) l ->
  split_byte c (join (char_str c) l) = l.
Proof.
  intros Hne H. induction H as [|x l Hx Hl IH]; [done |].
  destruct l as [|y l'].
  - unfold join. simpl. by apply split_byte_none.
  - rewrite join_cons by done. simpl. rewrite split_byte_append by done.
    f_equal. apply IH. done.
Qed.

Lemma cut_byte_Some c s h t :
  cut_byte c s = Some (h, t) -> s = h +:+ String c t /\ has_char c h = false.
Proof.
  revert h t. induction s as [|a s IH]; intros h t; simpl; [done |].
  destruct (Ascii.eqb_spec a c) as [->|Hac].
  - by intros [= <- <-].
  - destruct (cut_byte c s) as [[h' t']|]; [| done]. intros [= <- <-].
    destruct (IH h' t' eq_refl) as [-> Hh]. split; [done |]. simpl.
    destruct (Ascii.eqb_spec a c); [done |]. by rewrite Hh.
Qed.

Lemma cut_byte_append c h t : has_char c h = false -> cut_byte c (h +:+ String c t) = Some (h, t).
Proof.
  induction h as [|a h IH]; simpl; intros H; [by rewrite Ascii.eqb_refl|].
  apply orb_false_elim in H as [Ha Hh]. by rewrite Ha, IH.
Qed.

Lemma cut_byte_none c s : has_char c s = false -> cut_byte c s = None.
Proof.
  induction s as [|a s IH]; simpl; intros H; [done|].
  apply orb_false_elim in H as [Ha Hs]. by rewrite Ha, IH.
Qed.

(** *** Runes *)

(** One step of the segmentation: it consumes a non-empty prefix. *)
Lemma runes_step a r :
  exists seg r', runes (String a r) = seg :: runes r' /\
                 String a r = snd seg +:+ r' /\ (String.length r' <= String.length r)%nat.
Proof.
  assert (Hbad : exists seg r', (None, char_str a) :: runes r = seg :: runes r' /\
             String a r = snd seg +:+ r' /\ (String.length r' <= String.length r)%nat)
    by (exists (None, char_str a), r; repeat split; simpl; lia).
  simpl. destruct (byte_val a <? 128); [by exists (Some (byte_val a), char_str a), r |].
  destruct (in_range 194 223 a).
  { destruct r as [|b r']; [done |]. destruct (is_cont b); [| done].
    (eexists (_, _), r'; repeat split; simpl; lia). }
  destruct (in_range 224 239 a).
  { destruct r as [|b [|c r']]; [done | done |].
    destruct (in_range _ _ b && is_cont c); [| done]. (eexists (_, _), r'; repeat split; simpl; lia). }
  destruct (in_range 240 244 a); [| done].
  destruct r as [|b [|c [|d r']]]; [done | done | done |].
  destruct (in_range _ _ b && is_cont c && is_cont d); [| done].
  (eexists (_, _), r'; repeat split; simpl; lia).
Qed.

Lemma bytes_of_cons seg segs : bytes_of (seg :: segs) = snd seg +:+ bytes_of segs.
Proof.
  unfold bytes_of. destruct segs as [|seg' segs]; simpl; [by rewrite append_empty_r | done].
Qed.

Lemma bytes_of_app l1 l2 : bytes_of (l1 ++ l2) = bytes_of l1 +:+ bytes_of l2.
Proof.
  induction l1 as [|x l1 IH]; [done |].
  rewrite <- app_comm_cons, !bytes_of_cons, IH. by rewrite append_assoc.
Qed.

(** Segmenting loses nothing. *)
Lemma bytes_of_runes s : bytes_of (runes s) = s.
Proof.
  remember (String.length s) as n eqn:Hn.
  revert s Hn. induction n as [n IH] using lt_wf_ind. intros s ->.
  destruct s as [|a r]; [done |].
  destruct (runes_step a r) as (seg & r' & -> & -> & Hle).
  rewrite bytes_of_cons. f_equal. eapply IH; [| done]. simpl. lia.
Qed.

Lemma drop_while_suffix {A} (P : A -> bool) l : exists l1, l = l1 ++ drop_while P l.
Proof.
  induction l as [|x l [l1 IH]]; simpl; [by exists [] |].
  destruct (P x); [| by exists []]. exists (x :: l1). simpl. by f_equal.
Qed.

Lemma drop_while_end_prefix {A} (P : A -> bool) l : exists l2, l = drop_while_end P l ++ l2.
Proof.
  unfold drop_while_end. destruct (drop_while_suffix P (reverse l)) as [l1 H].
  exists (reverse l1). rewrite <- reverse_app. rewrite <- H. by rewrite reverse_involutive.
Qed.

(** Trimming keeps a contiguous part of the string. *)
Lemma TrimSpace_infix s : exists l r, s = l +:+ TrimSpace s +:+ r.
Proof.
  unfold TrimSpace. set (P := fun seg => IsSpace (rune_of seg)).
  destruct (drop_while_suffix P (runes s)) as [l1 H1].
  destruct (drop_while_end_prefix P (drop_while P (runes s))) as [l2 H2].
  exists (bytes_of l1), (bytes_of l2).
  rewrite <- bytes_of_app, <- H2, <- bytes_of_app, <- H1. by rewrite bytes_of_runes.
Qed.

Lemma all_chars_TrimSpace P s : all_chars P s = true -> all_chars P (TrimSpace s) = true.
Proof.
  intros H. destruct (TrimSpace_infix s) as (l & r & E). rewrite E in H.
  rewrite !all_chars_append in H. by bool_hyps.
Qed.

(** A string of ASCII bytes is one rune per byte. *)
Lemma runes_ascii s :
  all_chars (fun a => byte_val a <? 128) s = true ->
  runes s = (fun a => (Some (byte_val a), char_str a)) <$> list_ascii_of_string s.
Proof.
  induction s as [|a s IH]; [done |]. intros H.
  cbn [all_chars] in H. apply andb_prop in H as [Ha Hs].
  simpl. by rewrite Ha, IH.
Qed.

Lemma utf8_valid_ascii s : all_chars (fun a => byte_val a <? 128) s = true -> utf8_valid s = true.
Proof.
  intros H. unfold utf8_valid. rewrite runes_ascii by done.
  induction (list_ascii_of_string s); done.
Qed.

(** *** Numbers *)

Lemma digit_char_is_digit d : 0 <= d < 10 -> is_digit (digit_char d) = true.
Proof.
  intros H. assert (d = 0 \/ d = 1 \/ d = 2 \/ d = 3 \/ d = 4 \/ d = 5 \/ d = 6 \/ d = 7
                    \/ d = 8 \/ d = 9) as Hd by lia.
  destruct_or! Hd; subst; reflexivity.
Qed.

Lemma digit_char_val d : 0 <= d < 10 -> byte_val (digit_char d) = 48 + d.
Proof.
  intros H. assert (d = 0 \/ d = 1 \/ d = 2 \/ d = 3 \/ d = 4 \/ d = 5 \/ d = 6 \/ d = 7
                    \/ d = 8 \/ d = 9) as Hd by lia.
  destruct_or! Hd; subst; reflexivity.
Qed.

Lemma digits_all_digit fuel n acc :
  all_chars is_digit acc = true -> all_chars is_digit (digits fuel n acc) = true.
Proof.
  revert n acc. induction fuel as [|f IH]; intros n acc H; simpl; [done |].
  assert (all_chars is_digit (String (digit_char (n mod 10)) acc) = true) as H'.
  { cbn [all_chars]. rewrite digit_char_is_digit, H by (apply Z.mod_pos_bound; lia). done. }
  destruct (n <? 10); [done | by apply IH].
Qed.

Lemma itoa_chars z : all_chars (fun a => is_digit a || Ascii.eqb a "-") (itoa z) = true.
Proof.
  unfold itoa. assert (forall f n, all_chars (fun a => is_digit a || Ascii.eqb a "-") (digits f n "") = true) as H.
  { intros f n. eapply all_chars_impl; [| by apply digits_all_digit]. intros a ->. done. }
  destruct (z <? 0); [| apply H]. cbn [all_chars]. by rewrite H.
Qed.

Lemma digits_value_app s t acc :
  digits_value acc (s +:+ t) =
  match digits_value acc s with Some v => digits_value v t | None => None end.
Proof.
  revert acc. induction s as [|a s IH]; intros acc; simpl; [done |].
  destruct (is_digit a); [apply IH | done].
Qed.

(** The decimal digits [digits] writes are read back by [digits_value]. *)
Lemma digits_value_digits fuel n t :
  0 <= n < 10 ^ Z.of_nat fuel -> 0 < n \/ (0 < fuel)%nat ->
  exists u, digits fuel n t = u +:+ t /\ digits_value 0 u = Some n /\ (u = "" -> fuel = O).
Proof.
  revert n t. induction fuel as [|f IH]; intros n t Hn Hpos.
  { simpl in Hn. lia. }
  simpl. destruct (Z.ltb_spec n 10) as [Hlt|Hge].
  - exists (char_str (digit_char (n mod 10))). split; [done |]. split; [| done].
    rewrite Z.mod_small by lia. simpl.
    rewrite digit_char_is_digit, digit_char_val by lia. f_equal. lia.
  - destruct (IH (n / 10) (String (digit_char (n mod 10)) t)) as (u & -> & Hu & Hne).
    + split; [apply Z.div_pos; lia |].
      rewrite Nat2Z.inj_succ, Z.pow_succ_r in Hn by lia. apply Z.div_lt_upper_bound; lia.
    + left. apply Z.div_str_pos. lia.
    + exists (u +:+ char_str (digit_char (n mod 10))). split; [by rewrite append_assoc |].
      split; [| by destruct u].
      rewrite digits_value_app, Hu. simpl.
      pose proof (Z.mod_pos_bound n 10). rewrite digit_char_is_digit, digit_char_val by lia.
      f_equal. pose proof (Z.div_mod n 10). lia.
Qed.

Lemma itoa_nonneg_value z :
  0 <= z -> itoa z <> "" /\ digits_value 0 (itoa z) = Some z /\ all_chars is_digit (itoa z) = true.
Proof.
  intros Hz. unfold itoa. rewrite Z.abs_eq by done.
  destruct (Z.ltb_spec z 0); [lia |].
  destruct (digits_value_digits (S (Z.to_nat (Z.log2 z))) z "") as (u & Hu & Hv & Hne).
  - split; [done |]. rewrite Nat2Z.inj_succ, Z2Nat.id by apply Z.log2_nonneg.
    destruct (Z.eq_dec z 0) as [->|]; [simpl; lia |].
    pose proof (Z.log2_spec z ltac:(lia)) as [_ Hlt].
    eapply Z.lt_le_trans; [apply Hlt |]. apply Z.pow_le_mono_l. lia.
  - right. lia.
  - rewrite append_empty_r in Hu. split; [rewrite Hu; intros ->; by specialize (Hne eq_refl) |].
    split; [by rewrite Hu | by apply digits_all_digit].
Qed.

Lemma Atoi_itoa z : 0 <= z <= int64_max -> Atoi (itoa z) = Some z.
Proof.
  intros [Hz Hm]. destruct (itoa_nonneg_value z Hz) as (Hne & Hv & Hd).
  unfold Atoi. destruct (itoa z) as [|a s]; [done |].
  cbn [all_chars] in Hd. apply andb_prop in Hd as [Ha _].
  assert ((match String a s with
           | String "-" r => (true, r) | String "+" r => (false, r) | _ => (false, String a s) end)
          = (false, String a s)) as ->.
  { destruct a as [[] [] [] [] [] [] [] []]; try done. }
  rewrite Hv. assert (in_int64 z = true) as ->; [| done].
  unfold in_int64, int64_min. apply andb_true_intro; split; apply Z.leb_le; lia.
Qed.

(** An ASCII byte is a rune of its own wherever it occurs. *)
Lemma runes_step_ascii a r :
  exists seg r', runes (String a r) = seg :: runes r' /\ String a r = snd seg +:+ r'
    /\ (String.length r' <= String.length r)%nat
    /\ (seg = (Some (byte_val a), char_str a)
        \/ all_chars (fun b => 128 <=? byte_val b) (snd seg) = true).
Proof.
  simpl. destruct (byte_val a <? 128) eqn:Ea.
  { exists (Some (byte_val a), char_str a), r. auto. }
  apply Z.ltb_ge, Z.leb_le in Ea.
  assert (Hbad : exists seg r', (None, char_str a) :: runes r = seg :: runes r' /\
             String a r = snd seg +:+ r' /\ (String.length r' <= String.length r)%nat /\
             (seg = (Some (byte_val a), char_str a)
              \/ all_chars (fun b => 128 <=? byte_val b) (snd seg) = true)).
  { exists (None, char_str a), r. simpl. rewrite Ea. auto. }
  assert (Hr : forall lo hi b, 128 <= lo -> in_range lo hi b = true -> (128 <=? byte_val b) = true).
  { unfold in_range. intros lo hi b Hlo Hb. bool_hyps. apply Z.leb_le. lia. }
  destruct (in_range 194 223 a).
  { destruct r as [|b r']; [done |]. destruct (is_cont b) eqn:Eb; [| done].
    eexists (_, _), r'. repeat split; simpl; [lia|]. right. by rewrite Ea, (Hr 128 191 b). }
  destruct (in_range 224 239 a).
  { destruct r as [|b [|c r']]; [done | done |].
    destruct (in_range _ _ b && is_cont c) eqn:Eb; [| done]. apply andb_prop in Eb as [Eb Ec].
    eexists (_, _), r'. repeat split; simpl; [lia|]. right. rewrite Ea, (Hr 128 191 c) by done.
    erewrite (Hr _ _ b); [done| |exact Eb]. by destruct (byte_val a =? 224). }
  destruct (in_range 240 244 a); [| done].
  destruct r as [|b [|c [|d r']]]; [done | done | done |].
  destruct (in_range _ _ b && is_cont c && is_cont d) eqn:Eb; [| done].
  apply andb_prop in Eb as [Eb Ed]. apply andb_prop in Eb as [Eb Ec].
  eexists (_, _), r'. repeat split; simpl; [lia|]. right.
  rewrite Ea, (Hr 128 191 c), (Hr 128 191 d) by done.
  erewrite (Hr _ _ b); [done| |exact Eb]. by destruct (byte_val a =? 240).
Qed.

Lemma ContainsFunc_ascii f c s :
  ContainsFunc s f = false -> byte_val c < 128 -> f (byte_val c) = true -> has_char c s = false.
Proof.
  intros HC Hc Hf. remember (String.length s) as n eqn:Hn. revert s Hn HC.
  induction n as [n IH] using lt_wf_ind. intros s -> HC. destruct s as [|a r]; [done|].
  destruct (runes_step_ascii a r) as (seg & r' & Hs & -> & Hle & Hseg).
  unfold ContainsFunc in HC. rewrite Hs in HC. cbn [existsb] in HC.
  apply orb_false_elim in HC as [H1 H2].
  rewrite has_char_append, (IH (String.length r') ltac:(cbn; lia) r' eq_refl H2), orb_false_r.
  destruct Hseg as [->|Hall].
  - cbn. rewrite orb_false_r. destruct (Ascii.eqb_spec a c) as [->|]; [|done].
    cbn in H1. congruence.
  - eapply all_chars_not_has; [|exact Hall]. cbn beta. apply Z.leb_gt. lia.
Qed.

(** ** Trim *)

Lemma trim_left_set_empty set s : trim_left_set set s = "" <-> all_chars (char_in set) s = true.
Proof.
  induction s as [|a s IH]; cbn; [done|]. destruct (char_in set a); cbn; [done|]. by split.
Qed.

Lemma all_chars_rev_app P s t : all_chars P (String.rev_app s t) = all_chars P s && all_chars P t.
Proof.
  revert t. induction s as [|a s IH]; intros t; [done|]. cbn. rewrite IH. cbn.
  destruct (P a), (all_chars P s); done.
Qed.

Lemma all_chars_rev P s : all_chars P (String.rev s) = all_chars P s.
Proof. unfold String.rev. rewrite all_chars_rev_app. apply andb_true_r. Qed.

Lemma rev_app_empty s t : String.rev_app s t = "" -> s = "" /\ t = "".
Proof. revert t. induction s as [|a s IH]; intros t; cbn; [done|]. by intros [_ ?]%IH. Qed.

Lemma trim_left_set_head set s : trim_left_set set s = "" \/ all_chars (char_in set) (trim_left_set set s) = false.
Proof.
  induction s as [|a s IH]; cbn; [by left|]. destruct (char_in set a) eqn:Ea; [done|].
  right. cbn. by rewrite Ea.
Qed.

Lemma Trim_empty set s : Trim s set = "" <-> all_chars (char_in set) s = true.
Proof.
  unfold Trim. rewrite <- trim_left_set_empty. split.
  - intros [Ht _]%rev_app_empty. apply trim_left_set_empty in Ht. rewrite all_chars_rev in Ht.
    destruct (trim_left_set_head set s); [done|congruence].
  - by intros ->.
Qed.

(** ** TrimSpace leaves nothing to trim *)

(** The first rune of a string does not depend on what follows it, as long
    as no byte is added. *)
Lemma runes_head_prefix a r seg tl :
  runes (String a r) = seg :: tl ->
  forall t t', r = t +:+ t' -> (String.length (snd seg) <= S (String.length t))%nat ->
  exists tl', runes (String a t) = seg :: tl'.
Proof.
  intros HR t t' -> Hle. simpl in HR |- *.
  destruct (byte_val a <? 128); [injection HR as <- _; eauto|].
  destruct (in_range 194 223 a).
  { destruct t as [|b t]; [|cbn in HR; destruct (is_cont b); injection HR as <- _; eauto].
    cbn in HR. destruct t' as [|b t']; [injection HR as <- _; eauto|].
    destruct (is_cont b); injection HR as <- _; [cbn in Hle; lia|eauto]. }
  destruct (in_range 224 239 a).
  { destruct t as [|b [|c t]]; [| |cbn in HR; destruct (_ && _); injection HR as <- _; eauto].
    - cbn in HR. destruct t' as [|b [|c t']]; [injection HR as <- _; eauto..|].
      destruct (_ && _); injection HR as <- _; [cbn in Hle; lia|eauto].
    - cbn in HR. destruct t' as [|c t']; [injection HR as <- _; eauto|].
      destruct (_ && _); injection HR as <- _; [cbn in Hle; lia|eauto]. }
  destruct (in_range 240 244 a); [|injection HR as <- _; eauto].
  destruct t as [|b [|c [|d t]]]; [| | |cbn in HR; destruct (_ && _ && _); injection HR as <- _; eauto].
  - cbn in HR. destruct t' as [|b [|c [|d t']]]; [injection HR as <- _; eauto..|].
    destruct (_ && _ && _); injection HR as <- _; [cbn in Hle; lia|eauto].
  - cbn in HR. destruct t' as [|c [|d t']]; [injection HR as <- _; eauto..|].
    destruct (_ && _ && _); injection HR as <- _; [cbn in Hle; lia|eauto].
  - cbn in HR. destruct t' as [|d t']; [injection HR as <- _; eauto|].
    destruct (_ && _ && _); injection HR as <- _; [cbn in Hle; lia|eauto].
Qed.

Lemma drop_while_runes P s :
  exists s', drop_while P (runes s) = runes s' /\ match runes s' with [] => True | x :: _ => P x = false end.
Proof.
  remember (String.length s) as n eqn:Hn. revert s Hn.
  induction n as [n IH] using lt_wf_ind. intros s ->. destruct s as [|a r]; [by exists ""|].
  destruct (runes_step a r) as (seg & r' & Hs & _ & Hle). rewrite Hs. cbn [drop_while].
  destruct (P seg) eqn:Ep.
  - apply (IH (String.length r')); [cbn; lia|done].
  - exists (String a r). by rewrite Hs.
Qed.

Lemma drop_while_end_cons {A} (P : A -> bool) x l :
  P x = false -> exists l', drop_while_end P (x :: l) = x :: l'.
Proof.
  intros Hx. unfold drop_while_end. rewrite reverse_cons.
  assert (Hd : forall m, exists m', drop_while P (m ++ [x]) = m' ++ [x]).
  { induction m as [|y m IH]; cbn; [rewrite Hx; by exists []|].
    destruct (P y); [done|]. by exists (y :: m). }
  destruct (Hd (reverse l)) as [m' ->]. exists (reverse m'). by rewrite reverse_app.
Qed.

Lemma runes_nonempty_seg a r seg tl : runes (String a r) = seg :: tl -> exists b, snd seg = String a b.
Proof.
  intros HR. destruct (runes_step a r) as (seg' & r' & Hs & Heq & _). rewrite Hs in HR.
  injection HR as -> _. simpl in Hs. repeat case_match; simplify_eq; by eexists.
Qed.

Lemma TrimSpace_trimmed s : TrimSpace s <> "" -> TrimSpace (TrimSpace s) <> "".
Proof.
  set (P := fun seg : option Z * string => IsSpace (rune_of seg)).
  intros Hne. change (bytes_of (drop_while_end P (drop_while P (runes s))) <> "") in Hne.
  change (bytes_of (drop_while_end P (drop_while P (runes
           (bytes_of (drop_while_end P (drop_while P (runes s))))))) <> "").
  destruct (drop_while_runes P s) as (s' & Hs' & Hhead). rewrite Hs' in *.
  destruct (runes s') as [|seg tl] eqn:Er; [done|].
  destruct (drop_while_end_prefix P (seg :: tl)) as [l2 Hl2].
  destruct (drop_while_end_cons P seg tl Hhead) as [l' Hl']. rewrite Hl' in *.
  destruct s' as [|a r]; [done|]. destruct (runes_nonempty_seg _ _ _ _ Er) as [b Hb].
  assert (Hr : r = (b +:+ bytes_of l') +:+ bytes_of l2).
  { pose proof (bytes_of_runes (String a r)) as HB. rewrite Er, Hl2, bytes_of_app, bytes_of_cons, Hb in HB.
    cbn in HB. injection HB as HB. done. }
  assert (Hbytes : bytes_of (seg :: l') = String a (b +:+ bytes_of l')) by (by rewrite bytes_of_cons, Hb).
  rewrite Hbytes. destruct (runes_head_prefix a r seg tl Er _ _ Hr) as [tl' Htl'].
  { rewrite Hb. cbn. rewrite append_length. lia. }
  rewrite Htl'. cbn [drop_while]. rewrite Hhead.
  destruct (drop_while_end_cons P seg tl' Hhead) as [l3 ->]. rewrite bytes_of_cons, Hb. done.
Qed.

(** Text without white space is not trimmed. *)
Lemma drop_while_none {A} (P : A -> bool) l : Forall (fun x => P x = false) l -> drop_while P l = l.
Proof. destruct 1 as [|x l Hx]; [done|]. simpl. by rewrite Hx. Qed.

Definition plain_char (a : ascii) : bool := (byte_val a <? 128) && negb (IsSpace (byte_val a)).

Lemma TrimSpace_plain s : all_chars plain_char s = true -> TrimSpace s = s.
Proof.
  intros H.
  assert (Ha : all_chars (fun a => byte_val a <? 128) s = true).
  { eapply all_chars_impl; [|exact H]. unfold plain_char. intros a Hp. by apply andb_prop in Hp as [? _]. }
  assert (Hf : Forall (fun seg => IsSpace (rune_of seg) = false) (runes s)).
  { rewrite runes_ascii by done. clear Ha. induction s as [|a s IH]; [constructor|]. cbn [all_chars] in H. bool_hyps.
    cbn [list_ascii_of_string]. rewrite fmap_cons. unfold plain_char in *. bool_hyps. constructor; [done|]. by apply IH. }
  unfold TrimSpace, drop_while_end. rewrite (drop_while_none _ _ Hf).
  rewrite drop_while_none, reverse_involutive; [apply bytes_of_runes|]. apply Forall_reverse, Hf.
Qed.
