(* ===== verification/GoTime.v ===== *)
(** * Go's time package

    A [time.Time] is a number of nanoseconds since 1970 and a
    [time.Duration] one of nanoseconds.  A location is its name and the UTC
    offset in force at each second; the zone data is not part of the program,
    so the offset is any function.  Dates are those of the proleptic
    Gregorian calendar. *)

From S2P Require Import Prelude GoStrings.

Local Open Scope Z_scope.

Definition second : Z := 1000000000.
Definition minute : Z := 60 * second.
Definition hour : Z := 60 * minute.

(** The zero [time.Time]: 1 January of year 1, UTC. *)
Definition zero_time : Z := -62135596800 * second.

Definition IsZero (t : Z) : bool := t =? zero_time.

(** [t.Sub(u)] saturates at the ends of int64. *)
Definition time_Sub (t u : Z) : Z := Z.max int64_min (Z.min int64_max (t - u)).

(** [t.Truncate(d)] rounds down to a multiple of [d] since the zero time. *)
Definition Truncate (d t : Z) : Z := t - (t - zero_time) mod d.

Record location : Type := mkLocation { loc_name : string; loc_offset : Z -> Z }.

Definition UTC : location := mkLocation "UTC" (fun _ => 0).

(** Seconds of the wall clock of [loc] at [t]. *)
Definition wall (loc : location) (t : Z) : Z :=
  let s := t / second in s + loc_offset loc s.

Definition Second (loc : location) (t : Z) : Z := wall loc t mod 60.
Definition Minute (loc : location) (t : Z) : Z := wall loc t / 60 mod 60.
Definition Hour (loc : location) (t : Z) : Z := wall loc t / 3600 mod 24.

(** 1 January 1970 was a Thursday; Sunday is 0. *)
Definition Weekday (loc : location) (t : Z) : Z := (wall loc t / 86400 + 4) mod 7.

(** The date of a day counted from 1 January 1970.  The calendar repeats
    every 400 years, which are 146097 days, and a year is counted from
    1 March so that the leap day comes last. *)
Definition civil (days : Z) : Z * Z * Z :=
  let z := days + 719468 in
  let era := z / 146097 in
  let doe := z mod 146097 in
  let yoe := (doe - doe / 1460 + doe / 36524 - doe / 146096) / 365 in
  let doy := doe - (365 * yoe + yoe / 4 - yoe / 100) in
  let mp := (5 * doy + 2) / 153 in
  let day := doy - (153 * mp + 2) / 5 + 1 in
  let month := if mp <? 10 then mp + 3 else mp - 9 in
  (yoe + era * 400 + (if month <=? 2 then 1 else 0), month, day).

Definition Month (loc : location) (t : Z) : Z := snd (fst (civil (wall loc t / 86400))).
Definition Day (loc : location) (t : Z) : Z := snd (civil (wall loc t / 86400)).

(** ** Lemmas *)

Lemma zero_time_minute t : (t - zero_time) mod minute = t mod minute.
Proof.
  unfold zero_time, minute, second.
  replace (t - -62135596800 * 1000000000) with (t + 1035593280 * (60 * 1000000000)) by lia.
  apply Z.mod_add. lia.
Qed.

Lemma Truncate_minute t : Truncate minute t = minute * (t / minute).
Proof.
  unfold Truncate. rewrite zero_time_minute. pose proof (Z.div_mod t minute ltac:(done)). lia.
Qed.

Lemma Minute_range loc t : 0 <= Minute loc t <= 59.
Proof. unfold Minute. pose proof (Z.mod_pos_bound (wall loc t / 60) 60). lia. Qed.

Lemma Hour_range loc t : 0 <= Hour loc t <= 23.
Proof. unfold Hour. pose proof (Z.mod_pos_bound (wall loc t / 3600) 24). lia. Qed.

Lemma Weekday_range loc t : 0 <= Weekday loc t <= 6.
Proof. unfold Weekday. pose proof (Z.mod_pos_bound (wall loc t / 86400 + 4) 7). lia. Qed.

(** Known dates: the epoch, two leap days and the last day of a year. *)
Example civil_epoch : civil 0 = (1970, 1, 1).
Proof. reflexivity. Qed.

Example civil_leap_2000 : civil 11016 = (2000, 2, 29).
Proof. reflexivity. Qed.

Example civil_leap_2024 : civil 19782 = (2024, 2, 29).
Proof. reflexivity. Qed.

Example civil_year_end : civil 20088 = (2024, 12, 31).
Proof. reflexivity. Qed.

Example civil_no_leap_2100 : civil 47541 = (2100, 3, 1) /\ civil 47540 = (2100, 2, 28).
Proof. split; reflexivity. Qed.
