(* ===== verification/GoPath.v ===== *)
(** * path/filepath on Unix

    The lexical path functions the program calls, on byte strings, and the
    component view of clean absolute paths that the path-rule proofs use:
    [abs_path cs] is the path with components [cs], and a clean absolute path
    is exactly one whose components are all [good_comp]. *)

From S2P Require Import Prelude GoStrings.

(** ** The functions *)

Definition sep : ascii := "/"%char.
Definition sep_str : string := "/".

(** [filepath.IsAbs]. *)
Definition IsAbs (p : string) : bool := HasPrefix p sep_str.

(** One component of the [filepath.Clean] scan; [out] is the output so far,
    last component first. *)
Definition clean_step (rooted : bool) (out : list string) (c : string) : list string :=
  if String.eqb c "" || String.eqb c "." then out
  else if String.eqb c ".." then
    match out with
    | d :: out' => if String.eqb d ".." then c :: out else out'
    | [] => if rooted then [] else [c]
    end
  else c :: out.

Definition clean_comps (p : string) : list string :=
  reverse (foldl (clean_step (IsAbs p)) [] (split_byte sep p)).

(** [filepath.Clean]. *)
Definition Clean (p : string) : string :=
  if String.eqb p "" then "."
  else
    let body := join sep_str (clean_comps p) in
    if IsAbs p then sep_str +:+ body
    else if String.eqb body "" then "." else body.

(** [filepath.Join]. *)
Fixpoint Join (elems : list string) : string :=
  match elems with
  | [] => ""
  | e :: rest => if String.eqb e "" then Join rest else Clean (join sep_str (e :: rest))
  end.

(** The non-empty elements of a path, in order. *)
Definition rel_elems (p : string) : list string :=
  List.filter (fun c => negb (String.eqb c "")) (split_byte sep p).

(** [filepath.Base]: the last element once trailing separators are gone. *)
Definition Base (p : string) : string :=
  if String.eqb p "" then "." else List.last (rel_elems p) sep_str.

(** The path up to and including its last separator. *)
Definition dir_part (p : string) : string :=
  match List.removelast (split_byte sep p) with
  | [] => ""
  | cs => join sep_str cs +:+ sep_str
  end.

(** [filepath.Dir]. *)
Definition Dir (p : string) : string := Clean (dir_part p).

Fixpoint strip_common (b t : list string) : list string * list string :=
  match b, t with
  | x :: b', y :: t' => if String.eqb x y then strip_common b' t' else (b, t)
  | _, _ => (b, t)
  end.

Definition rel_error (base targ : string) : error :=
  Errorf "Rel: can't make %s relative to %s" [targ; base].

(** [filepath.Rel]. *)
Definition Rel (basepath targpath : string) : result string :=
  let base := Clean basepath in
  let targ := Clean targpath in
  if String.eqb targ base then Ok "."
  else
    let base := if String.eqb base "." then "" else base in
    if negb (Bool.eqb (IsAbs base) (IsAbs targ)) then Err (rel_error basepath targpath)
    else match strip_common (rel_elems base) (rel_elems targ) with
         | (".." :: _, _ :: _) => Err (rel_error basepath targpath)
         | (b, t) => Ok (join sep_str (List.map (fun _ => "..") b ++ t))
         end.

(** ** Clean absolute paths as component lists *)

Definition good_comp (c : string) : bool :=
  negb (String.eqb c "") && negb (String.eqb c ".") && negb (String.eqb c "..")
  && negb (has_char sep c).

Definition abs_path (cs : list string) : string := sep_str +:+ join sep_str cs.

(** [p == filepath.Clean(p)] for an absolute [p]. *)
Definition clean_abs (p : string) : bool := IsAbs p && String.eqb p (Clean p).

Abbreviation good_comps cs := (Forall (fun c => good_comp c = true) cs).

Lemma good_comp_spec c :
  good_comp c = true <-> c <> "" /\ c <> "." /\ c <> ".." /\ has_char sep c = false.
Proof.
  unfold good_comp. split.
  - intros H. by bool_hyps.
  - intros (H1 & H2 & H3 & ->). apply String.eqb_neq in H1, H2, H3. by rewrite H1, H2, H3.
Qed.

Lemma good_comps_no_sep cs : good_comps cs -> Forall (fun c => has_char sep c = false) cs.
Proof. intros H. eapply Forall_impl; [| exact H]. intros c Hc. by apply good_comp_spec in Hc as (_ & _ & _ & ?). Qed.

Lemma clean_step_good rooted out c : good_comp c = true -> clean_step rooted out c = c :: out.
Proof.
  intros H. apply good_comp_spec in H as (H1 & H2 & H3 & _). unfold clean_step.
  apply String.eqb_neq in H1, H2, H3. by rewrite H1, H2, H3.
Qed.

Lemma foldl_clean_good rooted out cs :
  good_comps cs -> foldl (clean_step rooted) out cs = reverse cs ++ out.
Proof.
  revert out. induction cs as [|c cs IH]; intros out H; [done |].
  inversion H; subst. simpl. rewrite clean_step_good, IH by done.
  by rewrite reverse_cons, <- app_assoc.
Qed.

(** A rooted scan only ever keeps good components. *)
Lemma clean_step_keeps_good out c :
  has_char sep c = false -> good_comps out -> good_comps (clean_step true out c).
Proof.
  intros Hc Hout. unfold clean_step.
  destruct (String.eqb_spec c ""); [done |]. destruct (String.eqb_spec c "."); [done |]. simpl.
  destruct (String.eqb_spec c "..").
  - destruct out as [|d out]; [done |]. inversion Hout as [|? ? Hd Hout']; subst.
    apply good_comp_spec in Hd as (_ & _ & Hd & _). apply String.eqb_neq in Hd. by rewrite Hd.
  - constructor; [| done]. by apply good_comp_spec.
Qed.

Lemma foldl_clean_keeps_good out cs :
  Forall (fun c => has_char sep c = false) cs -> good_comps out ->
  good_comps (foldl (clean_step true) out cs).
Proof.
  revert out. induction cs as [|c cs IH]; intros out Hcs Hout; [done |].
  inversion Hcs; subst. simpl. apply IH; [done |]. by apply clean_step_keeps_good.
Qed.

Lemma split_abs_path cs : good_comps cs -> cs <> [] -> split_byte sep (abs_path cs) = "" :: cs.
Proof.
  intros H Hne. unfold abs_path, sep_str. simpl. f_equal.
  apply (split_join sep); [done |]. by apply good_comps_no_sep.
Qed.

Lemma IsAbs_abs_path cs : IsAbs (abs_path cs) = true.
Proof. apply HasPrefix_append. Qed.

Lemma clean_comps_abs cs : good_comps cs -> clean_comps (abs_path cs) = cs.
Proof.
  intros H. unfold clean_comps. rewrite IsAbs_abs_path.
  destruct cs as [|c cs]; [reflexivity |]. rewrite split_abs_path by done.
  change (foldl (clean_step true) [] ("" :: c :: cs)) with (foldl (clean_step true) [] (c :: cs)).
  rewrite foldl_clean_good by done. by rewrite app_nil_r, reverse_involutive.
Qed.

Lemma Clean_abs_path cs : good_comps cs -> Clean (abs_path cs) = abs_path cs.
Proof.
  intros H. unfold Clean. rewrite IsAbs_abs_path, clean_comps_abs by done. done.
Qed.

Lemma Clean_IsAbs p : IsAbs p = true -> exists cs, good_comps cs /\ Clean p = abs_path cs.
Proof.
  intros H. exists (clean_comps p). split.
  - unfold clean_comps. rewrite H. apply Forall_reverse, foldl_clean_keeps_good; [| done].
    apply split_byte_no_sep.
  - unfold Clean. rewrite H. destruct (String.eqb_spec p "") as [->|]; done.
Qed.

Lemma clean_abs_spec p : clean_abs p = true <-> exists cs, good_comps cs /\ p = abs_path cs.
Proof.
  unfold clean_abs. split.
  - intros H. bool_hyps. rewrite H0. by apply Clean_IsAbs.
  - intros (cs & H & ->). rewrite IsAbs_abs_path, Clean_abs_path by done. simpl. apply String.eqb_refl.
Qed.

(** [Clean] of an absolute path is in clean form, so cleaning is idempotent. *)
Lemma Clean_clean_abs p : IsAbs p = true -> clean_abs (Clean p) = true.
Proof. intros H. apply clean_abs_spec. destruct (Clean_IsAbs p H) as (cs & ? & ->). eauto. Qed.

Lemma abs_path_inj cs ds : good_comps cs -> good_comps ds -> abs_path cs = abs_path ds -> cs = ds.
Proof.
  intros Hc Hd H. rewrite <- (clean_comps_abs cs), <- (clean_comps_abs ds) by done. by rewrite H.
Qed.

Lemma split_byte_app c s t : split_byte c (s +:+ String c t) = split_byte c s ++ split_byte c t.
Proof.
  induction s as [|a s IH]; simpl; [by rewrite Ascii.eqb_refl |].
  destruct (Ascii.eqb a c); [by rewrite IH |].
  pose proof (split_byte_nonnil c s). rewrite IH. destruct (split_byte c s); done.
Qed.

(** The trailing separator keeps a directory prefix from matching a sibling
    whose name it starts. *)
Lemma abs_path_under cs ds :
  good_comps cs -> good_comps ds ->
  HasPrefix (abs_path cs) (abs_path ds +:+ sep_str) = true ->
  exists es, es <> [] /\ cs = ds ++ es.
Proof.
  intros Hc Hd [r Hr]%HasPrefix_true. rewrite append_assoc in Hr.
  assert (split_byte sep (abs_path cs) = split_byte sep (abs_path ds) ++ split_byte sep r) as HS.
  { rewrite Hr. apply split_byte_app. }
  destruct cs as [|c cs].
  { apply (f_equal String.length) in Hr. unfold abs_path in Hr.
    rewrite !append_length in Hr. simpl in Hr. lia. }
  rewrite split_abs_path in HS by done. destruct ds as [|d ds].
  { inversion Hc as [|? ? Hgood _]; subst. injection HS as Hbad _. subst. discriminate Hgood. }
  rewrite split_abs_path in HS by done. injection HS as -> ->.
  exists (split_byte sep r). split; [apply split_byte_nonnil | done].
Qed.

Lemma filter_good_comps cs :
  good_comps cs -> List.filter (fun c => negb (String.eqb c "")) cs = cs.
Proof.
  induction 1 as [|x l Hx Hl IH]; [done |]. simpl.
  apply good_comp_spec in Hx as (Hx & _). apply String.eqb_neq in Hx. by rewrite Hx, IH.
Qed.

Lemma rel_elems_abs cs : good_comps cs -> rel_elems (abs_path cs) = cs.
Proof.
  intros H. unfold rel_elems. destruct cs as [|c cs]; [reflexivity |].
  rewrite split_abs_path by done. exact (filter_good_comps _ H).
Qed.

Lemma abs_path_nonempty cs : String.eqb (abs_path cs) "" = false.
Proof. reflexivity. Qed.

Lemma Base_abs_path cs c : good_comps (cs ++ [c]) -> Base (abs_path (cs ++ [c])) = c.
Proof. intros H. unfold Base. rewrite abs_path_nonempty, rel_elems_abs by done. apply List.last_last. Qed.

Lemma Clean_abs_trailing cs : good_comps cs -> Clean (abs_path cs +:+ sep_str) = abs_path cs.
Proof.
  intros H. assert (IsAbs (abs_path cs +:+ sep_str) = true) as HA.
  { unfold abs_path. rewrite append_assoc. apply HasPrefix_append. }
  unfold Clean. rewrite HA. replace (String.eqb (abs_path cs +:+ sep_str) "") with false by done.
  unfold abs_path at 2. do 2 f_equal. unfold clean_comps. rewrite HA.
  unfold sep_str at 1. rewrite split_byte_app. destruct cs as [|c cs]; [reflexivity |].
  rewrite split_abs_path by done. rewrite foldl_app.
  change (foldl (clean_step true) [] ("" :: c :: cs)) with (foldl (clean_step true) [] (c :: cs)).
  rewrite (foldl_clean_good true [] (c :: cs)) by done. rewrite app_nil_r.
  change (foldl (clean_step true) (reverse (c :: cs)) (split_byte "/" "")) with (reverse (c :: cs)).
  by rewrite reverse_involutive.
Qed.

Lemma Dir_abs_path cs c : good_comps (cs ++ [c]) -> Dir (abs_path (cs ++ [c])) = abs_path cs.
Proof.
  intros H. unfold Dir, dir_part. rewrite split_abs_path; [| done | by destruct cs].
  rewrite app_comm_cons, List.removelast_last.
  apply Forall_app in H as [H _].
  replace (join sep_str ("" :: cs) +:+ sep_str) with
    (match cs with [] => sep_str | _ => abs_path cs +:+ sep_str end) by (by destruct cs).
  destruct cs; [reflexivity | by apply Clean_abs_trailing].
Qed.

Lemma Dir_root : Dir sep_str = sep_str.
Proof. reflexivity. Qed.

Lemma strip_common_prefix ds es : strip_common ds (ds ++ es) = ([], es).
Proof. induction ds as [|d ds IH]; simpl; [by destruct es |]. by rewrite String.eqb_refl, IH. Qed.

(** Relative to one of its ancestors a clean path is the rest of its
    components: no element of the result climbs. *)
Lemma Rel_abs_under ds es :
  good_comps (ds ++ es) -> es <> [] ->
  Rel (abs_path ds) (abs_path (ds ++ es)) = Ok (join sep_str es).
Proof.
  intros H Hne. pose proof H as Hsplit. apply Forall_app in Hsplit as [Hd He].
  unfold Rel. rewrite !Clean_abs_path by done.
  destruct (String.eqb_spec (abs_path (ds ++ es)) (abs_path ds)) as [Heq|_].
  { apply abs_path_inj in Heq; [| done | done].
    apply (f_equal length) in Heq. rewrite length_app in Heq. destruct es; [done | simpl in Heq; lia]. }
  replace (String.eqb (abs_path ds) ".") with false by done.
  rewrite !IsAbs_abs_path. simpl negb. cbn iota.
  rewrite !rel_elems_abs, strip_common_prefix by done. done.
Qed.

Lemma Join_abs ds es :
  good_comps (ds ++ es) -> es <> [] -> Join [abs_path ds; join sep_str es] = abs_path (ds ++ es).
Proof.
  intros H Hne. pose proof H as Hsplit. apply Forall_app in Hsplit as [Hd He].
  cbn [Join]. rewrite abs_path_nonempty.
  assert (join sep_str [abs_path ds; join sep_str es] =
          match ds with [] => sep_str +:+ sep_str +:+ join sep_str es | _ => abs_path (ds ++ es) end) as ->.
  { destruct ds as [|d ds]; [done |]. unfold abs_path at 2.
    assert (forall l, l <> [] -> join sep_str (l ++ es) = join sep_str l +:+ sep_str +:+ join sep_str es) as Happ.
    { clear -Hne. intros l Hl. induction l as [|x l IH]; [done |]. destruct l as [|y l].
      - change ([x] ++ es) with (x :: es). by rewrite join_cons.
      - rewrite <- app_comm_cons, !(join_cons sep_str x) by done. rewrite IH by done.
        by rewrite !append_assoc. }
    rewrite Happ by done. done. }
  destruct ds as [|d ds]; [| by apply Clean_abs_path].
  assert (split_byte sep (join sep_str es) = es) as Hs.
  { apply (split_join sep); [done | by apply good_comps_no_sep]. }
  unfold Clean. simpl. f_equal. unfold clean_comps. simpl. rewrite Hs.
  rewrite foldl_clean_good by done. by rewrite app_nil_r, reverse_involutive.
Qed.

Lemma good_comp_not_abs c s : good_comp c = true -> IsAbs (c +:+ s) = false.
Proof.
  intros Hc. apply good_comp_spec in Hc as (Hne & _ & _ & Hs). destruct c as [|a c]; [done|].
  cbn [has_char] in Hs. apply orb_false_elim in Hs as [Ha _].
  change (IsAbs (String a c +:+ s)) with
    (match (if Ascii.eqb sep a then Some (c +:+ s) else None) with Some _ => true | None => false end).
  by rewrite Ascii.eqb_sym, Ha.
Qed.

Lemma join_append_nonempty sep_s c cs : c <> "" -> join sep_s (c :: cs) <> "".
Proof. intros Hc. destruct c; [done|]. by destruct cs. Qed.

(** Joining a component with a clean relative path, possibly empty. *)
Lemma Join_rel c cs :
  good_comps (c :: cs) -> Join [c; join sep_str cs] = join sep_str (c :: cs).
Proof.
  intros Hg. pose proof Hg as Hg'. inversion Hg' as [|? ? Hc Hcs]; subst.
  pose proof (proj1 (good_comp_spec c) Hc) as (Hne & _ & _ & Hsep).
  cbn [Join]. rewrite (proj2 (String.eqb_neq _ _) Hne).
  change (join sep_str [c; join sep_str cs]) with (c +:+ sep_str +:+ join sep_str cs).
  unfold Clean. rewrite good_comp_not_abs by done.
  assert (clean_comps (c +:+ sep_str +:+ join sep_str cs) = c :: cs) as ->.
  { unfold clean_comps. rewrite good_comp_not_abs by done.
    unfold sep_str at 1. cbn [String.append]. rewrite split_byte_app, foldl_app.
    rewrite split_byte_none by done. change (foldl (clean_step false) [] [c]) with (clean_step false [] c).
    rewrite clean_step_good by done. destruct cs as [|d cs]; [done|].
    rewrite split_join by (done || by apply good_comps_no_sep).
    rewrite foldl_clean_good by done. by rewrite reverse_app, reverse_involutive. }
  rewrite (proj2 (String.eqb_neq (c +:+ _) "")) by (by destruct c).
  by rewrite (proj2 (String.eqb_neq _ _) (join_append_nonempty sep_str c cs Hne)).
Qed.

Lemma Join_abs_any ds es :
  good_comps (ds ++ es) -> Join [abs_path ds; join sep_str es] = abs_path (ds ++ es).
Proof.
  intros Hg. destruct es as [|e es]; [|by apply Join_abs].
  rewrite app_nil_r in *. cbn [Join]. rewrite abs_path_nonempty.
  change (join sep_str [abs_path ds; join sep_str []]) with (abs_path ds +:+ sep_str +:+ "").
  rewrite append_empty_r. by apply Clean_abs_trailing.
Qed.

Lemma split_abs_nosep cs :
  Forall (fun c => has_char sep c = false) cs -> cs <> [] -> split_byte sep (abs_path cs) = "" :: cs.
Proof.
  intros Hf Hne. unfold abs_path, sep_str. simpl. f_equal. by apply (split_join sep).
Qed.

(** A clean path that starts with a clean path has its components, the last
    one possibly longer. *)
Lemma abs_path_name_prefix cs ds d :
  good_comps cs -> good_comps (ds ++ [d]) ->
  HasPrefix (abs_path cs) (abs_path (ds ++ [d])) = true ->
  exists e es, cs = ds ++ e :: es /\ HasPrefix e d = true.
Proof.
  intros Hc Hd [r Hr]%HasPrefix_true.
  assert (exists r1 r2, r = r1 +:+ r2 /\ has_char sep r1 = false /\ (r2 = "" \/ exists r3, r2 = sep_str +:+ r3))
    as (r1 & r2 & -> & Hr1 & Hr2).
  { clear Hr. induction r as [|a r IH]; [by exists "", ""; auto|].
    destruct (Ascii.eqb_spec a sep) as [->|Ha].
    - exists "", (String sep r). split_and!; [done|done|]. right. by exists r.
    - destruct IH as (r1 & r2 & -> & H1 & H2). exists (String a r1), r2. split_and!; [done| |done].
      cbn. rewrite H1. by rewrite (proj2 (Ascii.eqb_neq _ _) Ha). }
  rewrite <- append_assoc in Hr.
  assert (Habs : abs_path (ds ++ [d]) +:+ r1 = abs_path (ds ++ [d +:+ r1])).
  { unfold abs_path. rewrite append_assoc. f_equal. clear. induction ds as [|x ds IH]; [done|].
    rewrite <- !app_comm_cons, !join_cons by (by destruct ds). by rewrite !append_assoc, IH. }
  rewrite Habs in Hr.
  assert (Hds : Forall (fun c => has_char sep c = false) (ds ++ [d +:+ r1])).
  { apply good_comps_no_sep, Forall_app in Hd as [Hd1 Hd2].
    apply Forall_app. split; [done|]. constructor; [|done]. inversion Hd2; subst.
    rewrite has_char_append, Hr1. by rewrite orb_false_r. }
  assert (Hne : ds ++ [d +:+ r1] <> []) by (by destruct ds).
  assert (Hcs : cs <> []). { intros ->. destruct ds as [|x ds]; inversion Hd as [|? ? Hx]; subst;
    apply good_comp_spec in Hx as (Hx & _); [by destruct d|]. destruct x; [done|]. by destruct ds. }
  apply (f_equal (split_byte sep)) in Hr. rewrite split_abs_path in Hr by done.
  exists (d +:+ r1). destruct Hr2 as [->|[r3 ->]].
  - rewrite append_empty_r, split_abs_nosep in Hr by done. injection Hr as ->.
    exists []. split; [done|apply HasPrefix_append].
  - change (sep_str +:+ r3) with (String sep r3) in Hr.
    rewrite split_byte_app, split_abs_nosep in Hr by done. injection Hr as ->.
    exists (split_byte sep r3). rewrite <- app_assoc. split; [done|apply HasPrefix_append].
Qed.

Lemma Clean_rel_trailing c cs :
  good_comps (c :: cs) -> Clean (join sep_str (c :: cs) +:+ sep_str) = join sep_str (c :: cs).
Proof.
  intros Hg. pose proof Hg as Hg'. inversion Hg' as [|? ? Hc Hcs]; subst.
  pose proof (proj1 (good_comp_spec c) Hc) as (Hne & _ & _ & _).
  assert (Hrel : exists t, join sep_str (c :: cs) +:+ sep_str = c +:+ t).
  { destruct cs as [|d cs]; [by eexists|]. rewrite join_cons by done. rewrite append_assoc. by eexists. }
  destruct Hrel as [t Ht]. unfold Clean. rewrite Ht, good_comp_not_abs by done.
  rewrite (proj2 (String.eqb_neq (c +:+ t) "")) by (by destruct c).
  assert (clean_comps (c +:+ t) = c :: cs) as ->.
  { unfold clean_comps. rewrite good_comp_not_abs by done. rewrite <- Ht.
    change (join sep_str (c :: cs) +:+ sep_str) with (join sep_str (c :: cs) +:+ String sep "").
    rewrite split_byte_app, split_join by (done || by apply good_comps_no_sep).
    rewrite foldl_app, (foldl_clean_good false []) by done. rewrite app_nil_r.
    change (foldl (clean_step false) (reverse (c :: cs)) (split_byte sep "")) with (reverse (c :: cs)).
    by rewrite reverse_involutive. }
  by rewrite (proj2 (String.eqb_neq _ _) (join_append_nonempty sep_str c cs Hne)).
Qed.

(** The directory of a clean relative path. *)
Lemma Dir_rel cs c : good_comps (cs ++ [c]) ->
  Dir (join sep_str (cs ++ [c])) = match cs with [] => "." | _ => join sep_str cs end.
Proof.
  intros Hg. unfold Dir, dir_part.
  assert (split_byte sep (join sep_str (cs ++ [c])) = cs ++ [c]) as ->.
  { apply (split_join sep); [by destruct cs|]. by apply good_comps_no_sep. }
  rewrite List.removelast_last. apply Forall_app in Hg as [Hg _].
  destruct cs as [|d cs]; [done|]. by apply Clean_rel_trailing.
Qed.
