(* ===== verification/Regex.v ===== *)
(** * Regular expressions

    The patterns the program compiles with [regexp.MustCompile] are all
    anchored on both sides ([^...$], no flags), so [MatchString] asks whether
    the whole string is in the language of the pattern.  Every class in them
    is a set of ASCII characters, which a byte at or above 0x80 never
    belongs to, so matching bytes and matching runes agree.

    [matchb] decides membership with Brzozowski derivatives; [lang] is the
    language a pattern denotes, and [matchb_lang] says the two agree. *)

From S2P Require Import Prelude GoStrings.

Inductive regex : Type :=
| RVoid
| REps
| RCls (P : ascii -> bool)
| RAlt (r1 r2 : regex)
| RSeq (r1 r2 : regex)
| RStar (r : regex).

Fixpoint nullable (r : regex) : bool :=
  match r with
  | RVoid | RCls _ => false
  | REps | RStar _ => true
  | RAlt r1 r2 => nullable r1 || nullable r2
  | RSeq r1 r2 => nullable r1 && nullable r2
  end.

(** Concatenation and choice with the empty language simplified away, so
    that derivatives stay small. *)
Definition mk_seq (r1 r2 : regex) : regex :=
  match r1 with RVoid => RVoid | REps => r2 | _ => RSeq r1 r2 end.
Definition mk_alt (r1 r2 : regex) : regex :=
  match r1, r2 with RVoid, _ => r2 | _, RVoid => r1 | _, _ => RAlt r1 r2 end.

Fixpoint deriv (a : ascii) (r : regex) : regex :=
  match r with
  | RVoid | REps => RVoid
  | RCls P => if P a then REps else RVoid
  | RAlt r1 r2 => mk_alt (deriv a r1) (deriv a r2)
  | RSeq r1 r2 =>
      let d := mk_seq (deriv a r1) r2 in
      if nullable r1 then mk_alt d (deriv a r2) else d
  | RStar r1 => mk_seq (deriv a r1) (RStar r1)
  end.

Fixpoint matchb (r : regex) (s : string) : bool :=
  match s with
  | "" => nullable r
  | String a s' => matchb (deriv a r) s'
  end.

(** ** Pattern syntax *)

Definition rchar (c : ascii) : regex := RCls (Ascii.eqb c).
Fixpoint rlit (s : string) : regex :=
  match s with "" => REps | String a r => RSeq (rchar a) (rlit r) end.
Definition rplus (r : regex) : regex := RSeq r (RStar r).
Definition ropt (r : regex) : regex := RAlt r REps.
Fixpoint rrep (n : nat) (r : regex) : regex :=
  match n with O => REps | S m => RSeq r (rrep m r) end.
(** [r{0,n}]. *)
Fixpoint rupto (n : nat) (r : regex) : regex :=
  match n with O => REps | S m => ropt (RSeq r (rupto m r)) end.
Fixpoint ralts (rs : list regex) : regex :=
  match rs with [] => RVoid | [r] => r | r :: rest => RAlt r (ralts rest) end.

(** ** Denotation *)

Inductive lang : regex -> string -> Prop :=
| LEps : lang REps ""
| LCls P a : P a = true -> lang (RCls P) (char_str a)
| LAltL r1 r2 s : lang r1 s -> lang (RAlt r1 r2) s
| LAltR r1 r2 s : lang r2 s -> lang (RAlt r1 r2) s
| LSeq r1 r2 s t : lang r1 s -> lang r2 t -> lang (RSeq r1 r2) (s +:+ t)
| LStarNil r : lang (RStar r) ""
| LStarCons r s t : lang r s -> lang (RStar r) t -> lang (RStar r) (s +:+ t).

(** Every class of the pattern is inside [P]. *)
Fixpoint over (P : ascii -> bool) (r : regex) : Prop :=
  match r with
  | RVoid | REps => True
  | RCls Q => forall a, Q a = true -> P a = true
  | RAlt r1 r2 | RSeq r1 r2 => over P r1 /\ over P r2
  | RStar r1 => over P r1
  end.

(** ** Deciding properties of all 256 bytes *)

Definition all_ascii : list ascii :=
  List.map (fun n => ascii_of_nat n) (List.seq 0 256).

Lemma ascii_forall (P : ascii -> bool) : forallb P all_ascii = true -> forall a, P a = true.
Proof.
  intros H a. rewrite forallb_forall in H. apply H.
  unfold all_ascii. apply List.in_map_iff. exists (nat_of_ascii a).
  split; [apply ascii_nat_embedding |]. apply List.in_seq. pose proof (nat_ascii_bounded a). lia.
Qed.

Lemma ascii_impl (P Q : ascii -> bool) :
  forallb (fun a => negb (P a) || Q a) all_ascii = true ->
  forall a, P a = true -> Q a = true.
Proof.
  intros H a HP. pose proof (ascii_forall _ H a) as Ha. simpl in Ha. by rewrite HP in Ha.
Qed.

(** ** The matcher decides the language *)

#[local] Hint Constructors lang : core.

Lemma lang_mk_seq r1 r2 s : lang (mk_seq r1 r2) s <-> lang (RSeq r1 r2) s.
Proof.
  destruct r1; simpl; try done; split; intros H.
  - inversion H.
  - inversion H; subst. by match goal with H : lang RVoid _ |- _ => inversion H end.
  - change s with ("" +:+ s). auto.
  - inversion H as [| | | | ? ? ? ? H1 H2 | |]; subst. inversion H1; subst. done.
Qed.

Lemma lang_mk_alt r1 r2 s : lang (mk_alt r1 r2) s <-> lang (RAlt r1 r2) s.
Proof.
  assert (forall r, ~ lang RVoid r) as Hv by (intros r H; inversion H).
  destruct r1, r2; simpl; try done; split; intros H; auto;
    inversion H; subst; try done; exfalso; by eapply Hv.
Qed.

Lemma nullable_lang r : nullable r = true <-> lang r "".
Proof.
  induction r; simpl; split; intros H; auto; try done; try (by inversion H).
  - apply orb_prop in H as [H|H]; [apply LAltL | apply LAltR]; tauto.
  - inversion H; subst; apply orb_true_intro; tauto.
  - apply andb_prop in H as [H1 H2]. change "" with ("" +:+ ""). apply LSeq; tauto.
  - inversion H as [| | | | ? ? s t H1 H2 E | |]; subst.
    destruct s, t; try done. apply andb_true_intro. tauto.
Qed.

Lemma lang_star_cons_inv r a s :
  lang (RStar r) (String a s) -> exists s1 s2, s = s1 +:+ s2 /\ lang r (String a s1) /\ lang (RStar r) s2.
Proof.
  remember (RStar r) as q eqn:Eq. remember (String a s) as w eqn:Ew.
  induction 1 as [| | | | | |r' s1 t H1 _ H2 IH]; try done.
  injection Eq as ->. destruct s1 as [|b s1]; simpl in Ew.
  - subst. by apply IH.
  - injection Ew as -> <-. eauto.
Qed.

Lemma lang_seq_cons_inv r1 r2 a s :
  lang (RSeq r1 r2) (String a s) ->
  (exists s1 s2, s = s1 +:+ s2 /\ lang r1 (String a s1) /\ lang r2 s2) \/
  (lang r1 "" /\ lang r2 (String a s)).
Proof.
  remember (RSeq r1 r2) as q eqn:Eq. remember (String a s) as w eqn:Ew. intros H.
  destruct H as [| | | | q1 q2 s1 s2 H1 H2 | |]; try done. injection Eq as -> ->.
  destruct s1 as [|b s1]; simpl in Ew; [right; by subst |].
  injection Ew as -> <-. left. eauto.
Qed.

Lemma deriv_lang a r s : lang (deriv a r) s <-> lang r (String a s).
Proof.
  revert s. induction r as [| | P | r1 IH1 r2 IH2 | r1 IH1 r2 IH2 | r IH]; intros s; simpl.
  - split; intros H; inversion H.
  - split; intros H; inversion H.
  - destruct (P a) eqn:E; split; intros H; inversion H; subst; try congruence.
    + by apply (LCls P a).
    + constructor.
  - rewrite lang_mk_alt. split; intros H; inversion H; subst; naive_solver.
  - assert (lang (mk_seq (deriv a r1) r2) s <->
            exists s1 s2, s = s1 +:+ s2 /\ lang r1 (String a s1) /\ lang r2 s2) as Hd.
    { rewrite lang_mk_seq. split.
      - intros H. inversion H; subst. do 2 eexists. split; [done |]. by rewrite <- IH1.
      - intros (s1 & s2 & -> & H1 & H2). apply LSeq; [by apply IH1 | done]. }
    destruct (nullable r1) eqn:En.
    + rewrite lang_mk_alt. apply nullable_lang in En. split.
      * intros H. inversion H as [| | ? ? ? H1 | ? ? ? H1 | | |]; subst.
        -- apply Hd in H1 as (s1 & s2 & -> & H1 & H2). by apply (LSeq r1 r2 (String a s1)).
        -- apply IH2 in H1. by apply (LSeq r1 r2 "").
      * intros [H|[_ H]]%lang_seq_cons_inv; [apply LAltL; by apply Hd | apply LAltR; by apply IH2].
    + split.
      * intros (s1 & s2 & -> & H1 & H2)%Hd. by apply (LSeq r1 r2 (String a s1)).
      * intros [H|[H _]]%lang_seq_cons_inv; [by apply Hd |].
        apply nullable_lang in H. congruence.
  - rewrite lang_mk_seq. split; intros H.
    + inversion H; subst. apply (LStarCons r (String a s0)); [by apply IH | done].
    + apply lang_star_cons_inv in H as (s1 & s2 & -> & H1 & H2). apply LSeq; [by apply IH | done].
Qed.

Lemma matchb_lang r s : matchb r s = true <-> lang r s.
Proof.
  revert r. induction s as [|a s IH]; intros r; simpl; [apply nullable_lang |].
  rewrite IH. apply deriv_lang.
Qed.

(** ** Consequences for the strings a pattern accepts *)

Lemma lang_over P r s : over P r -> lang r s -> all_chars P s = true.
Proof.
  intros Ho H. induction H; simpl in *; try done; try tauto.
  - rewrite (Ho a) by done. done.
  - rewrite all_chars_append, IHlang1, IHlang2 by tauto. done.
  - rewrite all_chars_append, IHlang1, IHlang2 by done. done.
Qed.

Lemma matchb_over P r s : over P r -> matchb r s = true -> all_chars P s = true.
Proof. intros Ho H. apply matchb_lang in H. by eapply lang_over. Qed.

Lemma matchb_star_cls P s : matchb (RStar (RCls P)) s = all_chars P s.
Proof.
  induction s as [|a s IH]; [done |]. simpl. destruct (P a); simpl; [apply IH |].
  clear. induction s; done.
Qed.

Lemma matchb_plus_cls P s : matchb (rplus (RCls P)) s = negb (String.eqb s "") && all_chars P s.
Proof.
  destruct s as [|a s]; [done |]. simpl. destruct (P a); simpl; [apply matchb_star_cls |].
  clear. induction s; done.
Qed.

(** Closes [over P r] for a pattern whose classes are literals, by evaluating
    them on every byte. *)
Ltac solve_over :=
  repeat match goal with
  | |- True => exact I
  | |- _ /\ _ => split
  | |- over _ _ => progress simpl
  | |- forall a, _ = true -> _ = true => apply ascii_impl; vm_compute; reflexivity
  end.
