(* ===== verification/GoNet.v ===== *)
(** * Addresses of package net

    [net.ParseIP], [net.ParseCIDR] and [IPNet.Contains] as the standard
    library defines them (through [netip.ParseAddr]).  An address is its list
    of bytes: 4 or 16 of them.  The callers of this program reject an address
    with a zone, so [ParseAddr] has no zone. *)

From S2P Require Import Prelude GoStrings.

Local Open Scope Z_scope.

Definition IP := list Z.

(** ** netip.ParseAddr *)

Definition hex_val (a : ascii) : option Z :=
  if is_digit a then Some (byte_val a - 48)
  else if in_range 97 102 a then Some (byte_val a - 87)
  else if in_range 65 70 a then Some (byte_val a - 55)
  else None.

(** One field of a dotted quad: no sign, no leading zero, at most 255. *)
Definition parse_octet (s : string) : option Z :=
  match s with
  | "" => None
  | String a r =>
      if Ascii.eqb a "0" && negb (String.eqb r "") then None
      else match digits_value 0 s with
           | Some v => if v <=? 255 then Some v else None
           | None => None
           end
  end.

Definition parseIPv4 (s : string) : option IP :=
  match split_byte "." s with
  | [a; b; c; d] =>
      match parse_octet a, parse_octet b, parse_octet c, parse_octet d with
      | Some a, Some b, Some c, Some d => Some [a; b; c; d]
      | _, _, _, _ => None
      end
  | _ => None
  end.

(** The run of hexadecimal digits at the head of [s]: how many, their value
    and the rest.  A fifth digit fails. *)
Fixpoint hex_run (off : nat) (acc : Z) (s : string) : option (nat * Z * string) :=
  match s with
  | "" => Some (off, acc, s)
  | String a r =>
      match hex_val a with
      | None => Some (off, acc, s)
      | Some v => if (3 <? off)%nat then None else hex_run (S off) (acc * 16 + v) r
      end
  end.

(** The loop of parseIPv6: [ip] is what has been parsed, [ell] the position
    of the ellipsis.  Each turn adds at least two bytes, so eight turns fill
    the address. *)
Fixpoint parse6_loop (fuel : nat) (ip : IP) (ell : option nat) (s : string)
  : option (IP * option nat * string) :=
  match fuel with
  | O => Some (ip, ell, s)
  | S f =>
      match hex_run 0 0 s with
      | None => None
      | Some (off, acc, rest) =>
          if (off =? 0)%nat then None
          else
            let ip' := ip ++ [acc / 256; acc mod 256] in
            match rest with
            | "" => Some (ip', ell, "")
            | String "." _ =>
                if match ell with None => negb (length ip =? 12)%nat | Some _ => false end then None
                else if (16 <? length ip + 4)%nat then None
                else match parseIPv4 s with
                     | Some v4 => Some (ip ++ v4, ell, "")
                     | None => None
                     end
            | String ":" "" => None
            | String ":" (String ":" rest') =>
                match ell with
                | Some _ => None
                | None => if String.eqb rest' "" then Some (ip', Some (length ip'), "")
                          else parse6_loop f ip' (Some (length ip')) rest'
                end
            | String ":" rest' => parse6_loop f ip' ell rest'
            | _ => None
            end
      end
  end.

Definition expand_ellipsis (ip : IP) (ell : option nat) : option IP :=
  if (length ip <? 16)%nat then
    match ell with
    | None => None
    | Some e => Some (take e ip ++ replicate (16 - length ip) 0 ++ drop e ip)
    end
  else match ell with Some _ => None | None => Some ip end.

Definition parseIPv6 (s : string) : option IP :=
  let '(ell, s') :=
    match drop_prefix "::" s with
    | Some r => (Some O, r)
    | None => (None, s)
    end in
  if match ell with Some _ => String.eqb s' "" | None => false end
  then Some (replicate 16 0)
  else match parse6_loop 8 [] ell s' with
       | Some (ip, ell', "") => expand_ellipsis ip ell'
       | _ => None
       end.

(** Which parser an address text goes to: the first of its dots and colons
    decides; a percent sign is a zone. *)
Fixpoint addr_kind (s : string) : option ascii :=
  match s with
  | "" => None
  | String a r => if char_in ".:%" a then Some a else addr_kind r
  end.

(** [netip.ParseAddr] of an address without a zone. *)
Definition ParseAddr (s : string) : option IP :=
  match addr_kind s with
  | Some "."%char => parseIPv4 s
  | Some ":"%char => if has_char "%" s then None else parseIPv6 s
  | _ => None
  end.

(** ** net.IP *)

Definition v4InV6Prefix : IP := [0; 0; 0; 0; 0; 0; 0; 0; 0; 0; 255; 255].

Definition As16 (ip : IP) : IP := if (length ip =? 4)%nat then v4InV6Prefix ++ ip else ip.

(** [net.ParseIP]. *)
Definition ParseIP (s : string) : option IP := As16 <$> ParseAddr s.

(** [IP.To4]. *)
Definition To4 (ip : IP) : option IP :=
  if (length ip =? 4)%nat then Some ip
  else if (length ip =? 16)%nat && bool_decide (take 12 ip = v4InV6Prefix) then Some (drop 12 ip)
  else None.

(** [IP.IsLoopback]. *)
Definition IsLoopback (ip : IP) : bool :=
  match To4 ip with
  | Some (b :: _) => b =? 127
  | Some [] => false
  | None => bool_decide (ip = replicate 15 0 ++ [1])
  end.

(** ** net.IPNet *)

Record IPNet : Type := { net_ip : IP; net_mask : list Z }.

(** [net.CIDRMask] for a byte count of [n]. *)
Fixpoint CIDRMask (n : nat) (ones : Z) : list Z :=
  match n with
  | O => []
  | S m => (if 8 <=? ones then 255 else 255 - 255 / 2 ^ Z.max 0 ones) :: CIDRMask m (ones - 8)
  end.

Definition mask_bytes (ip m : list Z) : list Z := zip_with Z.land ip m.

(** [dtoi] followed by the check that it consumed the whole text; [0xFFFFFF]
    is its overflow bound, above every prefix length. *)
Definition prefix_len (s : string) (bits : Z) : option Z :=
  match s with
  | "" => None
  | _ => match digits_value 0 s with
         | Some n => if n <=? bits then Some n else None
         | None => None
         end
  end.

(** [net.ParseCIDR]: the address and its network. *)
Definition ParseCIDR (s : string) : option (IP * IPNet) :=
  match cut_byte "/" s with
  | None => None
  | Some (addr, mask) =>
      match ParseAddr addr with
      | None => None
      | Some a =>
          match prefix_len mask (8 * Z.of_nat (length a)) with
          | None => None
          | Some n =>
              let m := CIDRMask (length a) n in
              Some (As16 a, {| net_ip := mask_bytes a m; net_mask := m |})
          end
      end
  end.

(** [IPNet.Contains].  The network number of a 4-in-6 network is compared on
    its last four bytes, like [networkNumberAndMask]. *)
Definition Contains_ip (n : IPNet) (ip : IP) : bool :=
  let '(nn, m) :=
    match To4 (net_ip n) with
    | Some v4 => (v4, if (length (net_mask n) =? 16)%nat then drop 12 (net_mask n) else net_mask n)
    | None => (net_ip n, net_mask n)
    end in
  let x := default ip (To4 ip) in
  (length x =? length nn)%nat && (length m =? length nn)%nat
  && bool_decide (mask_bytes nn m = mask_bytes x m).

(** ** The characters an address text is made of *)

Definition addr_char (a : ascii) : bool :=
  match hex_val a with Some _ => true | None => char_in ".:" a end.
Definition cidr_char (a : ascii) : bool := addr_char a || Ascii.eqb a "/".

Lemma digit_addr_char a : is_digit a = true -> addr_char a = true.
Proof. unfold addr_char, hex_val. by intros ->. Qed.

Lemma digits_value_chars acc s v : digits_value acc s = Some v -> all_chars is_digit s = true.
Proof.
  revert acc. induction s as [|a s IH]; intros acc; simpl; [done |].
  destruct (is_digit a); [| done]. apply IH.
Qed.

Lemma parse_octet_chars s v : parse_octet s = Some v -> all_chars addr_char s = true.
Proof.
  unfold parse_octet. destruct s as [|a r]; [done |].
  destruct (Ascii.eqb a "0" && negb (String.eqb r "")); [done |].
  destruct (digits_value 0 (String a r)) eqn:E; [| done]. intros _.
  eapply all_chars_impl; [apply digit_addr_char |]. by eapply digits_value_chars.
Qed.

Lemma parseIPv4_chars s ip : parseIPv4 s = Some ip -> all_chars addr_char s = true.
Proof.
  unfold parseIPv4. destruct (split_byte "." s) as [|a [|b [|c [|d []]]]] eqn:E; try done.
  destruct (parse_octet a) eqn:Ea; [| done]. destruct (parse_octet b) eqn:Eb; [| done].
  destruct (parse_octet c) eqn:Ec; [| done]. destruct (parse_octet d) eqn:Ed; [| done].
  intros _. rewrite <- (join_split "." s), E. apply all_chars_join; [done |].
  repeat constructor; by eapply parse_octet_chars.
Qed.

Lemma hex_run_chars off acc s off' acc' rest :
  hex_run off acc s = Some (off', acc', rest) ->
  exists pre, s = pre +:+ rest /\ all_chars addr_char pre = true.
Proof.
  revert off acc. induction s as [|a s IH]; intros off acc; simpl.
  - intros [= <- <- <-]. by exists "".
  - destruct (hex_val a) as [v|] eqn:Ea; [| intros [= <- <- <-]; by exists ""].
    destruct (3 <? off)%nat; [done |]. intros H. destruct (IH _ _ H) as (pre & -> & Hp).
    exists (String a pre). split; [done |]. simpl. unfold addr_char at 1. by rewrite Ea, Hp.
Qed.

Lemma parse6_loop_chars fuel ip ell s ip' ell' s' :
  parse6_loop fuel ip ell s = Some (ip', ell', s') ->
  exists pre, s = pre +:+ s' /\ all_chars addr_char pre = true.
Proof.
  revert ip ell s. induction fuel as [|f IH]; intros ip ell s; cbn [parse6_loop].
  { intros [= <- <- <-]. by exists "". }
  destruct (hex_run 0 0 s) as [[[off acc] rest]|] eqn:Er; [| done].
  destruct (off =? 0)%nat; [done |].
  apply hex_run_chars in Er as (pre & -> & Hp).
  assert (forall mid r, all_chars addr_char mid = true ->
            (exists p, r = p +:+ s' /\ all_chars addr_char p = true) ->
            exists p, pre +:+ mid +:+ r = p +:+ s' /\ all_chars addr_char p = true) as Hstep.
  { intros mid r Hm (p & -> & Hpp). exists (pre +:+ mid +:+ p).
    rewrite !append_assoc, !all_chars_append, Hp, Hm, Hpp. done. }
  destruct rest as [|c rest]; [intros [= <- <- <-]; by exists pre |].
  destruct (Ascii.eqb_spec c ".") as [->|Hdot].
  { destruct (match ell with None => _ | Some _ => _ end); [done |].
    destruct (16 <? length ip + 4)%nat; [done |].
    destruct (parseIPv4 (pre +:+ String "." rest)) eqn:E4; [| done].
    intros [= <- <- <-]. eexists. by rewrite append_empty_r; split; [| by eapply parseIPv4_chars]. }
  destruct (Ascii.eqb_spec c ":") as [->|Hcolon].
  2: { destruct c as [[] [] [] [] [] [] [] []]; done. }
  destruct rest as [|d rest]; [done |].
  destruct (Ascii.eqb_spec d ":") as [->|Hd].
  - destruct ell; [done |]. destruct (String.eqb_spec rest "") as [->|_].
    + intros [= <- <- <-]. apply (Hstep "::" ""); [done |]. by exists "".
    + intros H. apply IH in H. by apply (Hstep "::" rest).
  - intros H. apply (Hstep ":" (String d rest)); [done |].
    destruct d as [[] [] [] [] [] [] [] []]; solve [done | by eapply IH].
Qed.

Lemma ParseAddr_chars s ip : ParseAddr s = Some ip -> all_chars addr_char s = true.
Proof.
  unfold ParseAddr. destruct (addr_kind s) as [k|]; [| done].
  destruct (Ascii.eqb_spec k ".") as [->|]; [by apply parseIPv4_chars |].
  destruct (Ascii.eqb_spec k ":") as [->|].
  2: { destruct k as [[] [] [] [] [] [] [] []]; done. }
  destruct (has_char "%" s); [done |]. unfold parseIPv6.
  destruct (drop_prefix "::" s) as [r|] eqn:Ed.
  - apply drop_prefix_Some in Ed as ->. destruct (String.eqb_spec r "") as [->|]; [done |].
    destruct (parse6_loop 8 [] (Some 0%nat) r) as [[[ip' ell'] [|]]|] eqn:E; try done.
    apply parse6_loop_chars in E as (pre & -> & Hp). intros _.
    rewrite append_empty_r. by rewrite all_chars_append, Hp.
  - destruct (parse6_loop 8 [] None s) as [[[ip' ell'] [|]]|] eqn:E; try done.
    apply parse6_loop_chars in E as (pre & -> & Hp). intros _. by rewrite append_empty_r.
Qed.

Lemma ParseIP_chars s ip : ParseIP s = Some ip -> all_chars addr_char s = true.
Proof. unfold ParseIP. intros H. apply fmap_Some in H as (x & H & _). by eapply ParseAddr_chars. Qed.

Lemma addr_cidr_char a : addr_char a = true -> cidr_char a = true.
Proof. unfold cidr_char. by intros ->. Qed.

Lemma ParseCIDR_chars s r : ParseCIDR s = Some r -> all_chars cidr_char s = true.
Proof.
  unfold ParseCIDR. destruct (cut_byte "/" s) as [[addr mask]|] eqn:Ec; [| done].
  apply cut_byte_Some in Ec as [-> _].
  destruct (ParseAddr addr) eqn:Ea; [| done].
  destruct (prefix_len mask _) as [n|] eqn:Em; [| done]. intros _.
  rewrite all_chars_append. cbn [all_chars].
  rewrite (all_chars_impl addr_char cidr_char addr addr_cidr_char) by (by eapply ParseAddr_chars).
  simpl. unfold prefix_len in Em. destruct mask as [|b mask]; [done |].
  destruct (digits_value 0 (String b mask)) eqn:Ed; [| done].
  eapply all_chars_impl; [| by eapply digits_value_chars].
  intros a Ha. by apply addr_cidr_char, digit_addr_char.
Qed.

(** ** Well-formed addresses *)

Definition byte_ok (b : Z) : Prop := 0 <= b < 256.

Lemma hex_val_range a v : hex_val a = Some v -> 0 <= v < 16.
Proof.
  unfold hex_val, is_digit, in_range.
  destruct (_ && _) eqn:E1; [intros [= <-]; bool_hyps; lia |].
  destruct ((97 <=? _) && _) eqn:E2; [intros [= <-]; bool_hyps; lia |].
  destruct ((65 <=? _) && _) eqn:E3; [intros [= <-]; bool_hyps; lia | done].
Qed.

Lemma hex_run_range off acc s off' acc' rest :
  hex_run off acc s = Some (off', acc', rest) -> (off <= 4)%nat -> 0 <= acc < 16 ^ Z.of_nat off ->
  0 <= acc' < 65536.
Proof.
  revert off acc. induction s as [|a s IH]; intros off acc; simpl.
  - intros [= <- <- <-] Ho Ha. split; [lia |]. apply Z.lt_le_trans with (16 ^ Z.of_nat off); [lia |].
    change 65536 with (16 ^ 4). apply Z.pow_le_mono_r; lia.
  - destruct (hex_val a) as [v|] eqn:Ea.
    + destruct (Nat.ltb_spec 3 off) as [|Hlt]; [done |]. intros H Ho Ha.
      apply hex_val_range in Ea. eapply IH; [exact H | lia |].
      rewrite Nat2Z.inj_succ, Z.pow_succ_r by lia. lia.
    + intros [= <- <- <-] Ho Ha. split; [lia |].
      apply Z.lt_le_trans with (16 ^ Z.of_nat off); [lia |].
      change 65536 with (16 ^ 4). apply Z.pow_le_mono_r; lia.
Qed.

Lemma digits_value_nonneg acc s v : digits_value acc s = Some v -> 0 <= acc -> 0 <= v.
Proof.
  revert acc. induction s as [|a s IH]; intros acc; simpl; [intros [= <-]; done |].
  destruct (is_digit a) eqn:E; [| done]. intros H Ha.
  unfold is_digit, in_range in E. bool_hyps. eapply IH; [exact H | lia].
Qed.

Lemma parse_octet_range s v : parse_octet s = Some v -> byte_ok v.
Proof.
  unfold parse_octet. destruct s as [|a r]; [done |].
  destruct (Ascii.eqb a "0" && negb (String.eqb r "")); [done |].
  destruct (digits_value 0 (String a r)) eqn:E; [| done].
  destruct (z <=? 255) eqn:El; [| done]. intros [= <-]. bool_hyps.
  apply digits_value_nonneg in E; [| done]. unfold byte_ok. lia.
Qed.

Lemma parseIPv4_wf s ip : parseIPv4 s = Some ip -> length ip = 4%nat /\ Forall byte_ok ip.
Proof.
  unfold parseIPv4. destruct (split_byte "." s) as [|a [|b [|c [|d []]]]]; try done.
  destruct (parse_octet a) eqn:Ea; [| done]. destruct (parse_octet b) eqn:Eb; [| done].
  destruct (parse_octet c) eqn:Ec; [| done]. destruct (parse_octet d) eqn:Ed; [| done].
  intros [= <-]. split; [done |]. repeat constructor; try (by eapply parse_octet_range).
  all: eapply parse_octet_range; eassumption.
Qed.
