(* ===== verification/Encoding.v ===== *)
(** * Encodings: hex, base64 and JSON

    [encoding/hex], the standard alphabet of [encoding/base64] and the part
    of [encoding/json] the two processes speak: a JSON text is its syntax
    tree, and a struct is decoded from it field by field.  The round trips
    the callers rely on are proved here. *)

From S2P Require Import Prelude GoStrings GoNet.

Set Warnings "-register-all".

Local Open Scope Z_scope.

Definition byte_of (z : Z) : ascii := ascii_of_N (Z.to_N (z mod 256)).

(** ** encoding/hex *)

Definition hex_digit (d : Z) : ascii :=
  if d <? 10 then byte_of (48 + d) else byte_of (87 + d).

Fixpoint hex_encode (s : string) : string :=
  match s with
  | "" => ""
  | String a r =>
      String (hex_digit (byte_val a / 16)) (String (hex_digit (byte_val a mod 16)) (hex_encode r))
  end.

(** [hex.DecodeString]: [None] for a bad digit or an odd length. *)
Fixpoint hex_decode (s : string) : option string :=
  match s with
  | "" => Some ""
  | String _ "" => None
  | String a (String b r) =>
      match hex_val a, hex_val b, hex_decode r with
      | Some h, Some l, Some t => Some (String (byte_of (h * 16 + l)) t)
      | _, _, _ => None
      end
  end.

(** ** encoding/base64, StdEncoding *)

Definition b64_char (n : Z) : ascii :=
  if n <? 26 then byte_of (65 + n)
  else if n <? 52 then byte_of (71 + n)
  else if n <? 62 then byte_of (n - 4)
  else if n =? 62 then "+"%char else "/"%char.

Definition b64_val (a : ascii) : option Z :=
  if is_upper a then Some (byte_val a - 65)
  else if is_lower a then Some (byte_val a - 71)
  else if is_digit a then Some (byte_val a + 4)
  else if Ascii.eqb a "+" then Some 62
  else if Ascii.eqb a "/" then Some 63 else None.

Definition b64_quad (v : Z) (n : nat) (rest : string) : string :=
  let c3 := if (n <? 3)%nat then "="%char else b64_char (v mod 64) in
  let c2 := if (n <? 2)%nat then "="%char else b64_char (v / 64 mod 64) in
  String (b64_char (v / 262144)) (String (b64_char (v / 4096 mod 64)) (String c2 (String c3 rest))).

Fixpoint b64_encode (s : string) : string :=
  match s with
  | "" => ""
  | String a "" => b64_quad (byte_val a * 65536) 1 ""
  | String a (String b "") => b64_quad (byte_val a * 65536 + byte_val b * 256) 2 ""
  | String a (String b (String c r)) =>
      b64_quad (byte_val a * 65536 + byte_val b * 256 + byte_val c) 3 (b64_encode r)
  end.

Fixpoint strip_newlines (s : string) : string :=
  match s with
  | "" => ""
  | String a r => if Ascii.eqb a "010" || Ascii.eqb a "013" then strip_newlines r
                  else String a (strip_newlines r)
  end.

Fixpoint b64_decode_quads (s : string) : option string :=
  match s with
  | "" => Some ""
  | String a (String b (String c (String d r))) =>
      match b64_val a, b64_val b, b64_val c, b64_val d with
      | Some a, Some b, Some c, Some d =>
          let v := a * 262144 + b * 4096 + c * 64 + d in
          String (byte_of (v / 65536)) <$>
            (String (byte_of (v / 256)) <$> (String (byte_of v) <$> b64_decode_quads r))
      | Some a, Some b, Some c, None =>
          if Ascii.eqb d "=" && String.eqb r "" then
            let v := a * 262144 + b * 4096 + c * 64 in
            Some (String (byte_of (v / 65536)) (char_str (byte_of (v / 256))))
          else None
      | Some a, Some b, None, None =>
          if Ascii.eqb c "=" && Ascii.eqb d "=" && String.eqb r "" then
            Some (char_str (byte_of ((a * 262144 + b * 4096) / 65536)))
          else None
      | _, _, _, _ => None
      end
  | _ => None
  end.

(** [base64.StdEncoding.DecodeString]: newlines are ignored. *)
Definition b64_decode (s : string) : option string := b64_decode_quads (strip_newlines s).

(** ** encoding/json *)

(** The syntax tree of a JSON value; [JFloat] is a number that is not written
    as an integer. *)
Inductive json : Type :=
| JNull
| JBool (b : bool)
| JInt (z : Z)
| JFloat (text : string)
| JStr (s : string)
| JArr (l : list json)
| JObj (members : list (string * json)).

(** The marshalled form of a Go string: each invalid byte becomes U+FFFD. *)
Definition replacement : string := String "239" (String "191" (String "189" "")).
Definition to_valid_utf8 (s : string) : string :=
  String.concat "" (List.map (fun seg : option Z * string =>
    match fst seg with Some _ => snd seg | None => replacement end) (runes s)).
Definition marshal_string (s : string) : json := JStr (to_valid_utf8 s).
Definition marshal_bytes (s : string) : json := JStr (b64_encode s).

(** The smallest rune of the folding orbit, for the runes whose orbit reaches
    ASCII: U+017F folds to S and U+212A to K. *)
Definition fold_rune (r : Z) : Z :=
  if (97 <=? r) && (r <=? 122) then r - 32
  else if r =? 383 then 83 else if r =? 8490 then 75 else r.
Definition fold_name (s : string) : list Z := List.map (fun seg => fold_rune (rune_of seg)) (runes s).

(** Where a member is stored: a field with exactly its name, else one equal
    to it under folding. *)
Definition find_field {F} (fields : list (string * F)) (key : string) : option F :=
  match List.find (fun f => String.eqb (fst f) key) fields with
  | Some f => Some (snd f)
  | None => snd <$> List.find (fun f => bool_decide (fold_name (fst f) = fold_name key)) fields
  end.

(** [json.Unmarshal] into a struct: members in order, unknown ones ignored,
    null leaves the target alone.  [None] is an UnmarshalTypeError. *)
Fixpoint set_members {T} (fields : list (string * (json -> T -> option T)))
  (members : list (string * json)) (acc : T) : option T :=
  match members with
  | [] => Some acc
  | (k, v) :: rest =>
      match find_field fields k with
      | None => set_members fields rest acc
      | Some set => match set v acc with
                    | Some acc' => set_members fields rest acc'
                    | None => None
                    end
      end
  end.
Definition unmarshal_struct {T} (fields : list (string * (json -> T -> option T))) (zero : T)
  (j : json) : option T :=
  match j with
  | JNull => Some zero
  | JObj members => set_members fields members zero
  | _ => None
  end.

(** Decoders of the field types, as setters over the enclosing struct. *)
Definition dec_string {T} (set : string -> T -> T) (j : json) (t : T) : option T :=
  match j with JStr s => Some (set s t) | JNull => Some t | _ => None end.
Definition dec_int {T} (set : Z -> T -> T) (j : json) (t : T) : option T :=
  match j with
  | JInt z => if in_int64 z then Some (set z t) else None
  | JNull => Some t
  | _ => None
  end.
Definition dec_bool {T} (set : bool -> T -> T) (j : json) (t : T) : option T :=
  match j with JBool b => Some (set b t) | JNull => Some t | _ => None end.
Definition dec_strings {T} (set : list string -> T -> T) (j : json) (t : T) : option T :=
  match j with
  | JArr l => (fun ss => set ss t) <$>
      mapM (fun x => match x with JStr s => Some s | JNull => Some "" | _ => None end) l
  | JNull => Some (set [] t)
  | _ => None
  end.
(** A [[]byte] is a base64 string or an array of numbers; null is nil. *)
Definition dec_bytes {T} (set : option string -> T -> T) (j : json) (t : T) : option T :=
  match j with
  | JStr s => (fun b => set (Some b) t) <$> b64_decode s
  | JArr l => (fun bs => set (Some (string_of_list_ascii bs)) t) <$>
      mapM (fun x => match x with
                     | JInt z => if (0 <=? z) && (z <=? 255) then Some (byte_of z) else None
                     | JNull => Some (byte_of 0)
                     | _ => None end) l
  | JNull => Some (set None t)
  | _ => None
  end.

(** ** Round trips *)

Lemma byte_of_val a : byte_of (byte_val a) = a.
Proof.
  unfold byte_of. rewrite Z.mod_small by apply byte_val_range.
  unfold byte_val. rewrite N2Z.id. apply ascii_N_embedding.
Qed.

Lemma byte_of_eq a z : z mod 256 = byte_val a -> byte_of z = a.
Proof. intros H. unfold byte_of. rewrite H. unfold byte_val. rewrite N2Z.id. apply ascii_N_embedding. Qed.

(** A property of the integers below [n], by evaluating it on each. *)
Lemma Z_forall_below (P : Z -> bool) (n : nat) :
  forallb P (List.map Z.of_nat (List.seq 0 n)) = true -> forall z, 0 <= z < Z.of_nat n -> P z = true.
Proof.
  intros H z Hz. rewrite forallb_forall in H. apply H.
  apply List.in_map_iff. exists (Z.to_nat z). split; [lia |]. apply List.in_seq. lia.
Qed.

Definition opt_is (o : option Z) (d : Z) : bool :=
  match o with Some e => e =? d | None => false end.

Lemma opt_is_true o d : opt_is o d = true -> o = Some d.
Proof. destruct o; simpl; [| done]. intros H. bool_hyps. by subst. Qed.

Lemma hex_val_digit d : 0 <= d < 16 -> hex_val (hex_digit d) = Some d.
Proof.
  intros H. apply opt_is_true.
  by apply (Z_forall_below (fun d => opt_is (hex_val (hex_digit d)) d) 16).
Qed.

Lemma b64_val_char n : 0 <= n < 64 -> b64_val (b64_char n) = Some n.
Proof.
  intros H. apply opt_is_true.
  by apply (Z_forall_below (fun n => opt_is (b64_val (b64_char n)) n) 64).
Qed.

Lemma b64_char_not_newline n : 0 <= n < 64 ->
  Ascii.eqb (b64_char n) "010" || Ascii.eqb (b64_char n) "013" = false.
Proof.
  intros H. apply negb_true_iff.
  by apply (Z_forall_below (fun n => negb (Ascii.eqb (b64_char n) "010" || Ascii.eqb (b64_char n) "013")) 64).
Qed.

Lemma hex_roundtrip s : hex_decode (hex_encode s) = Some s.
Proof.
  induction s as [|a s IH]; [done |]. cbn [hex_encode hex_decode].
  pose proof (byte_val_range a).
  rewrite !hex_val_digit, IH;
    [| apply Z.mod_pos_bound; lia | split; [apply Z.div_pos; lia | apply Z.div_lt_upper_bound; lia]].
  do 2 f_equal. apply byte_of_eq. pose proof (Z.div_mod (byte_val a) 16).
  rewrite Z.mod_small; lia.
Qed.

Lemma hex_encode_length s : String.length (hex_encode s) = (2 * String.length s)%nat.
Proof. induction s; simpl in *; lia. Qed.

(** Three-at-a-time induction, the shape of the base64 encoder. *)
Lemma string_ind3 (P : string -> Prop) :
  P "" -> (forall a, P (char_str a)) -> (forall a b, P (String a (char_str b))) ->
  (forall a b c s, P s -> P (String a (String b (String c s)))) -> forall s, P s.
Proof.
  intros H0 H1 H2 H3 s. remember (String.length s) as n eqn:Hn. revert s Hn.
  induction n as [n IH] using lt_wf_ind. intros s ->.
  destruct s as [|a [|b [|c s]]]; [done | apply H1 | apply H2 |].
  apply H3. eapply IH; [| done]. simpl. lia.
Qed.

Lemma quad_split v :
  0 <= v < 16777216 ->
  0 <= v / 262144 < 64 /\ 0 <= v / 4096 mod 64 < 64 /\ 0 <= v / 64 mod 64 < 64 /\ 0 <= v mod 64 < 64 /\
  v / 262144 * 262144 + v / 4096 mod 64 * 4096 + v / 64 mod 64 * 64 + v mod 64 = v.
Proof. intros H. Z.div_mod_to_equations. lia. Qed.

Lemma b64_strip s : strip_newlines (b64_encode s) = b64_encode s.
Proof.
  assert (forall v n r, 0 <= v < 16777216 -> strip_newlines r = r ->
            strip_newlines (b64_quad v n r) = b64_quad v n r) as Hq.
  { intros v n r Hv Hr. pose proof (quad_split v Hv) as (H0 & H1 & H2 & H3 & _). unfold b64_quad.
    cbn [strip_newlines]. rewrite !b64_char_not_newline by done.
    destruct (n <? 2)%nat, (n <? 3)%nat; rewrite ?b64_char_not_newline by done; by rewrite Hr. }
  induction s as [|a|a b|a b c s IH] using string_ind3; [done | | |];
    pose proof (byte_val_range a); try pose proof (byte_val_range b); try pose proof (byte_val_range c);
    apply Hq; try done; lia.
Qed.

Lemma b64_roundtrip s : b64_decode (b64_encode s) = Some s.
Proof.
  unfold b64_decode. rewrite b64_strip.
  induction s as [|a|a b|a b c s IH] using string_ind3; [done | | |];
    cbn [b64_encode char_str]; unfold b64_quad;
    pose proof (byte_val_range a); try pose proof (byte_val_range b); try pose proof (byte_val_range c);
    match goal with |- context [b64_char (?v / 262144)] =>
      pose proof (quad_split v ltac:(lia)) as (H0' & H1' & H2' & H3' & Hv) end;
    cbn [b64_decode_quads Nat.ltb Nat.leb]; rewrite !b64_val_char by done.
  - cbn. do 2 f_equal. apply byte_of_eq. Z.div_mod_to_equations. lia.
  - cbn. f_equal. f_equal; [| f_equal]; apply byte_of_eq; Z.div_mod_to_equations; lia.
  - rewrite Hv, IH. simpl. f_equal. f_equal; [| f_equal; [| f_equal]]; apply byte_of_eq;
      Z.div_mod_to_equations; lia.
Qed.

(** A valid string is marshalled unaltered. *)
Lemma to_valid_utf8_id s : utf8_valid s = true -> to_valid_utf8 s = s.
Proof.
  intros H. rewrite <- (bytes_of_runes s) at 2. unfold to_valid_utf8, bytes_of. f_equal.
  unfold utf8_valid in H. induction (runes s) as [|[o b] l IH]; [done |].
  simpl in *. apply andb_prop in H as [Ho Hl]. rewrite IH by done. by destruct o.
Qed.

(** ** encoding/base64, RawURLEncoding *)

(** The URL alphabet writes [-] and [_] for the last two values. *)
Definition to_url (a : ascii) : ascii :=
  if Ascii.eqb a "+" then "-"%char else if Ascii.eqb a "/" then "_"%char else a.
Definition from_url (a : ascii) : ascii :=
  if Ascii.eqb a "-" then "+"%char else if Ascii.eqb a "_" then "/"%char else a.
Definition url_char (a : ascii) : bool := is_alnum a || char_in "-_" a.

Fixpoint smap (f : ascii -> ascii) (s : string) : string :=
  match s with "" => "" | String a r => String (f a) (smap f r) end.

Fixpoint drop_padding (s : string) : string :=
  match s with "" => "" | String a r => if Ascii.eqb a "=" then "" else String a (drop_padding r) end.

(** Pads to a multiple of four. *)
Fixpoint add_padding (s : string) : string :=
  match s with
  | "" => ""
  | String a "" => String a "==="
  | String a (String b "") => String a (String b "==")
  | String a (String b (String c "")) => String a (String b (String c "="))
  | String a (String b (String c (String d r))) => String a (String b (String c (String d (add_padding r))))
  end.

Definition rawurl_encode (s : string) : string := smap to_url (drop_padding (b64_encode s)).

Definition rawurl_decode (s : string) : option string :=
  let s := strip_newlines s in
  if all_chars url_char s then b64_decode_quads (add_padding (smap from_url s)) else None.

Lemma b64_char_check :
  forallb (fun n => let c := b64_char n in
     negb (Ascii.eqb c "=") && Ascii.eqb (from_url (to_url c)) c && url_char (to_url c))
    (List.map Z.of_nat (seq 0 64)) = true.
Proof. vm_compute. reflexivity. Qed.

Lemma b64_char_url n : 0 <= n < 64 ->
  Ascii.eqb (b64_char n) "=" = false /\ from_url (to_url (b64_char n)) = b64_char n
  /\ url_char (to_url (b64_char n)) = true.
Proof.
  intros Hn. pose proof b64_char_check as H. rewrite forallb_forall in H.
  specialize (H n). cbv zeta in H. rewrite !andb_true_iff in H. destruct H as [[H1 H2] H3].
  - rewrite <- (Z2Nat.id n) by lia. apply in_map, in_seq. lia.
  - apply negb_true_iff in H1. by apply Ascii.eqb_eq in H2.
Qed.

Lemma url_char_plain a : url_char a = true -> Ascii.eqb a "010" || Ascii.eqb a "013" = false.
Proof.
  intros H. apply negb_true_iff. destruct a as [[] [] [] [] [] [] [] []]; vm_compute in H |- *; done.
Qed.

Lemma url_no_newlines s : all_chars url_char s = true -> strip_newlines s = s.
Proof.
  induction s as [|a s IH]; [done|]. cbn [all_chars strip_newlines]. intros H. apply andb_prop in H as [Ha Hs].
  rewrite url_char_plain, IH by done. done.
Qed.

Lemma b64_quad_ranges v : 0 <= v < 16777216 ->
  0 <= v / 262144 < 64 /\ 0 <= v / 4096 mod 64 < 64 /\ 0 <= v / 64 mod 64 < 64 /\ 0 <= v mod 64 < 64.
Proof. intros. Z.div_mod_to_equations. lia. Qed.

Lemma byte_val_bound a : 0 <= byte_val a < 256.
Proof. unfold byte_val. pose proof (N_ascii_bounded a). lia. Qed.

(** The encoded text, in the URL alphabet and without padding, is what the
    decoder pads and maps back. *)
Lemma rawurl_text s :
  all_chars url_char (rawurl_encode s) = true
  /\ add_padding (smap from_url (rawurl_encode s)) = b64_encode s.
Proof.
  unfold rawurl_encode. induction s as [|a|a b|a b c r IH] using string_ind3; [done| | |];
    pose proof (byte_val_bound a) as Ba; try pose proof (byte_val_bound b) as Bb; try pose proof (byte_val_bound c) as Bc;
    unfold char_str; cbn [b64_encode]; unfold b64_quad; cbn [Nat.ltb Nat.leb].
  - destruct (b64_quad_ranges (byte_val a * 65536)) as (R1 & R2 & _); [lia|].
    destruct (b64_char_url _ R1) as (E1 & F1 & U1), (b64_char_url _ R2) as (E2 & F2 & U2).
    cbn [drop_padding]. rewrite E1, E2. change (Ascii.eqb "=" "=") with true. cbn [smap all_chars add_padding].
    by rewrite F1, F2, U1, U2.
  - destruct (b64_quad_ranges (byte_val a * 65536 + byte_val b * 256)) as (R1 & R2 & R3 & _); [lia|].
    destruct (b64_char_url _ R1) as (E1 & F1 & U1), (b64_char_url _ R2) as (E2 & F2 & U2), (b64_char_url _ R3) as (E3 & F3 & U3).
    cbn [drop_padding]. rewrite E1, E2, E3. change (Ascii.eqb "=" "=") with true. cbn [smap all_chars add_padding].
    by rewrite F1, F2, F3, U1, U2, U3.
  - destruct (b64_quad_ranges (byte_val a * 65536 + byte_val b * 256 + byte_val c)) as (R1 & R2 & R3 & R4); [lia|].
    destruct (b64_char_url _ R1) as (E1 & F1 & U1), (b64_char_url _ R2) as (E2 & F2 & U2), (b64_char_url _ R3) as (E3 & F3 & U3),
      (b64_char_url _ R4) as (E4 & F4 & U4). destruct IH as [IH1 IH2].
    cbn [drop_padding]. rewrite E1, E2, E3, E4. cbn [smap all_chars add_padding].
    rewrite F1, F2, F3, F4, U1, U2, U3, U4, IH1, IH2. done.
Qed.

Lemma rawurl_roundtrip s : rawurl_decode (rawurl_encode s) = Some s.
Proof.
  destruct (rawurl_text s) as [Hc Ht]. unfold rawurl_decode. rewrite url_no_newlines, Hc, Ht by done.
  pose proof (b64_roundtrip s) as H. unfold b64_decode in H. by rewrite b64_strip in H.
Qed.

(** ** Text that survives marshalling *)

Definition ascii7 (a : ascii) : bool := byte_val a <? 128.

Lemma to_valid_utf8_ascii s : all_chars ascii7 s = true -> to_valid_utf8 s = s.
Proof. intros H. by apply to_valid_utf8_id, utf8_valid_ascii. Qed.

Lemma all_chars_concat P l : all_chars P (String.concat "" l) = forallb (all_chars P) l.
Proof.
  induction l as [|s l IH]; [done|]. destruct l as [|t l].
  - cbn [String.concat forallb]. by rewrite andb_true_r.
  - change (String.concat "" (s :: t :: l)) with (s +:+ "" +:+ String.concat "" (t :: l)).
    rewrite !all_chars_append. cbn [all_chars andb]. by rewrite IH.
Qed.

(** What is marshalled to plain ASCII was plain ASCII. *)
Lemma to_valid_utf8_ascii_inv s : all_chars ascii7 (to_valid_utf8 s) = true -> to_valid_utf8 s = s.
Proof.
  intros H. apply to_valid_utf8_id. unfold to_valid_utf8 in H. rewrite all_chars_concat in H. unfold utf8_valid.
  induction (runes s) as [|[o b] l IH]; [done|]. cbn [List.map forallb fst snd] in H |- *.
  apply andb_prop in H as [H1 H2]. specialize (IH H2). destruct o; [exact IH|]. vm_compute in H1. discriminate H1.
Qed.
