(* ===== verification/GoIP.v ===== *)
(** * Package net: text of addresses, classes of addresses, arithmetic

    What the address-handling services use of package net beyond parsing:
    [IP.String] and [IPNet.String], [IP.IsPrivate] and its relatives,
    [IPMask.Size], [SplitHostPort], and addresses read as big-endian numbers.
    The lemmas relate a CIDR network to an interval of numbers, which is how
    the services' overlap and allocation rules are proved. *)

From S2P Require Import Prelude GoStrings Regex GoNet Encoding.

Local Open Scope Z_scope.

(** ** Text *)

Definition dotted (ip : IP) : string := join "." (List.map itoa ip).

(** [appendHex]: a 16-bit group without leading zeros. *)
Definition hex16 (g : Z) : string :=
  let d k := char_str (hex_digit ((g / 16 ^ k) mod 16)) in
  if g <? 16 then d 0
  else if g <? 256 then d 1 +:+ d 0
  else if g <? 4096 then d 2 +:+ d 1 +:+ d 0
  else d 3 +:+ d 2 +:+ d 1 +:+ d 0.

Fixpoint groups (ip : IP) : list Z :=
  match ip with
  | a :: b :: rest => a * 256 + b :: groups rest
  | _ => []
  end.

Fixpoint zero_run (gs : list Z) : nat :=
  match gs with
  | 0 :: rest => S (zero_run rest)
  | _ => O
  end.

(** The first of the longest runs of at least two zero groups, as its start
    and length. *)
Fixpoint best_run (i : nat) (gs : list Z) (best : nat * nat) : nat * nat :=
  match gs with
  | [] => best
  | _ :: rest =>
      let l := zero_run gs in
      best_run (S i) rest (if (2 <=? l)%nat && (snd best <? l)%nat then (i, l) else best)
  end.

Definition string6 (ip : IP) : string :=
  let gs := groups ip in
  match best_run 0 gs (0%nat, 0%nat) with
  | (_, O) => join ":" (List.map hex16 gs)
  | (start, l) => join ":" (List.map hex16 (take start gs)) +:+ "::" +:+ join ":" (List.map hex16 (drop (start + l) gs))
  end.

(** [IP.String]; the lengths that occur are 0, 4 and 16. *)
Definition IP_String (ip : IP) : string :=
  match ip with
  | [] => "<nil>"
  | _ => match To4 ip with Some v4 => dotted v4 | None => string6 ip end
  end.

(** [simpleMaskLength]; [None] is -1. *)
Definition leading_ones (v : Z) : option Z :=
  match v with
  | 0 => Some 0 | 128 => Some 1 | 192 => Some 2 | 224 => Some 3 | 240 => Some 4
  | 248 => Some 5 | 252 => Some 6 | 254 => Some 7 | _ => None
  end.

Fixpoint simpleMaskLength (m : list Z) : option Z :=
  match m with
  | [] => Some 0
  | v :: rest =>
      if v =? 255 then Z.add 8 <$> simpleMaskLength rest
      else if forallb (Z.eqb 0) rest then leading_ones v else None
  end.

(** [IPMask.Size]. *)
Definition Mask_Size (m : list Z) : Z * Z :=
  match simpleMaskLength m with
  | Some n => (n, 8 * Z.of_nat (length m))
  | None => (0, 0)
  end.

(** [networkNumberAndMask]: a 4-in-6 network is read on its last four bytes. *)
Definition networkNumberAndMask (n : IPNet) : IP * list Z :=
  match To4 (net_ip n) with
  | Some v4 => (v4, if (length (net_mask n) =? 16)%nat then drop 12 (net_mask n) else net_mask n)
  | None => (net_ip n, net_mask n)
  end.

(** [IPNet.String] of a network [ParseCIDR] gave, whose mask is always a
    prefix. *)
Definition IPNet_String (n : IPNet) : string :=
  let '(nn, m) := networkNumberAndMask n in
  match simpleMaskLength m with
  | Some l => IP_String nn +:+ "/" +:+ itoa l
  | None => IP_String nn
  end.

(** ** Classes *)

Definition byte_at (ip : IP) (i : nat) : Z := default 0 (ip !! i).

Definition IsPrivate (ip : IP) : bool :=
  match To4 ip with
  | Some v4 =>
      (byte_at v4 0 =? 10)
      || ((byte_at v4 0 =? 172) && (Z.land (byte_at v4 1) 240 =? 16))
      || ((byte_at v4 0 =? 192) && (byte_at v4 1 =? 168))
  | None => (length ip =? 16)%nat && (Z.land (byte_at ip 0) 254 =? 252)
  end.

Definition IsLinkLocalUnicast (ip : IP) : bool :=
  match To4 ip with
  | Some v4 => (byte_at v4 0 =? 169) && (byte_at v4 1 =? 254)
  | None => (length ip =? 16)%nat && (byte_at ip 0 =? 254) && (Z.land (byte_at ip 1) 192 =? 128)
  end.

(** [IP.Equal]: an IPv4 address equals its IPv6 form. *)
Definition IP_Equal (a b : IP) : bool := bool_decide (As16 a = As16 b).

Definition IsUnspecified (ip : IP) : bool := IP_Equal ip [0; 0; 0; 0] || bool_decide (ip = replicate 16 0).

(** ** SplitHostPort *)

(** Splits at the last occurrence of a byte. *)
Fixpoint cut_last (c : ascii) (s : string) : option (string * string) :=
  match s with
  | "" => None
  | String a rest =>
      match cut_last c rest with
      | Some (h, t) => Some (String a h, t)
      | None => if Ascii.eqb a c then Some ("", rest) else None
      end
  end.

Definition missingPort (s : string) : error := Errorf "missing port in address" [s].
Definition tooManyColons (s : string) : error := Errorf "too many colons in address" [s].

Definition SplitHostPort (s : string) : result (string * string) :=
  match cut_last ":" s with
  | None => Err (missingPort s)
  | Some (before, port) =>
      match s with
      | String "[" inner =>
          match cut_byte "]" inner with
          | None => Err (Errorf "missing ']' in address" [s])
          | Some (host, rest) =>
              match rest with
              | "" => Err (missingPort s)
              | String ":" p =>
                  if has_char ":" p then Err (tooManyColons s)
                  else if has_char "[" inner then Err (Errorf "unexpected '[' in address" [s])
                  else if has_char "]" rest then Err (Errorf "unexpected ']' in address" [s])
                  else Ok (host, p)
              | _ => Err (missingPort s)
              end
          end
      | _ =>
          if has_char ":" before then Err (tooManyColons s)
          else if has_char "[" s then Err (Errorf "unexpected '[' in address" [s])
          else if has_char "]" s then Err (Errorf "unexpected ']' in address" [s])
          else Ok (before, port)
      end
  end.

(** ** Addresses as numbers *)

Definition be (ip : IP) : Z := foldl (fun acc b => acc * 256 + b) 0 ip.

(** The big-endian bytes of a number. *)
Fixpoint of_be (n : nat) (v : Z) : IP :=
  match n with
  | O => []
  | S m => (v / 256 ^ Z.of_nat m) mod 256 :: of_be m v
  end.

(** The number of addresses of [n] bytes. *)
Definition space (n : nat) : Z := 256 ^ Z.of_nat n.

(** A network as [ParseCIDR] makes it: [n] address bytes, [ones] prefix bits,
    host bits cleared. *)
Definition cidr (ip : IP) (ones : Z) : IPNet :=
  {| net_ip := mask_bytes ip (CIDRMask (length ip) ones); net_mask := CIDRMask (length ip) ones |}.

Definition wf_ip (ip : IP) : Prop := Forall byte_ok ip.

(** The number of addresses of a network with [h] host bits is [2 ^ h], its
    base is a multiple of it. *)
Definition hostbits (n : nat) (ones : Z) : Z := 8 * Z.of_nat n - ones.

(** ** Lemmas: numbers *)

Lemma space_S n : space (S n) = 256 * space n.
Proof. unfold space. rewrite Nat2Z.inj_succ, Z.pow_succ_r; lia. Qed.

Lemma space_pos n : 0 < space n.
Proof. unfold space. apply Z.pow_pos_nonneg; lia. Qed.

Lemma space_pow2 n : space n = 2 ^ (8 * Z.of_nat n).
Proof. unfold space. change 256 with (2 ^ 8). rewrite <- Z.pow_mul_r by lia. done. Qed.

#[export] Hint Resolve space_pos : golib.

Lemma be_acc acc ip : foldl (fun acc b => acc * 256 + b) acc ip = acc * space (length ip) + be ip.
Proof.
  unfold be. revert acc. induction ip as [|b ip IH]; intros acc.
  - cbn. unfold space. cbn. lia.
  - cbn [foldl length]. rewrite IH, (IH (0 * 256 + b)), space_S. lia.
Qed.

Lemma be_cons b ip : be (b :: ip) = b * space (length ip) + be ip.
Proof. unfold be at 1. cbn [foldl]. rewrite be_acc. lia. Qed.

Lemma be_range ip : wf_ip ip -> 0 <= be ip < space (length ip).
Proof.
  induction 1 as [|b ip Hb _ IH]; [cbn; unfold space; cbn; lia|].
  rewrite be_cons. cbn [length]. rewrite space_S. unfold byte_ok in Hb. nia.
Qed.

Lemma be_inj a b : wf_ip a -> wf_ip b -> length a = length b -> be a = be b -> a = b.
Proof.
  intros Ha. revert b. induction Ha as [|x a Hx Ha IH]; intros [|y b] Hb Hl He; try done.
  inversion Hb as [|? ? Hy Hb']; subst. cbn [length] in Hl. injection Hl as Hl.
  rewrite !be_cons, Hl in He.
  pose proof (be_range a Ha). pose proof (be_range b Hb'). rewrite Hl in *.
  assert (x = y) as -> by nia. f_equal. apply IH; [done..|nia].
Qed.

Lemma of_be_length n v : length (of_be n v) = n.
Proof. induction n as [|n IH]; cbn; [done|]. by rewrite IH. Qed.

Lemma of_be_wf n v : wf_ip (of_be n v).
Proof.
  induction n as [|n IH]; [apply List.Forall_nil|]. apply List.Forall_cons; [|done].
  apply Z.mod_pos_bound. lia.
Qed.

Lemma be_of_be n v : be (of_be n v) = v mod space n.
Proof.
  induction n as [|n IH].
  - cbn. unfold space. cbn. by rewrite Z.mod_1_r.
  - cbn [of_be]. rewrite be_cons, of_be_length, IH, space_S.
    fold (space n). rewrite (Z.mul_comm 256), Z.rem_mul_r by (pose proof (space_pos n); lia). lia.
Qed.

Lemma of_be_be ip : wf_ip ip -> of_be (length ip) (be ip) = ip.
Proof.
  intros Hw. apply be_inj; [apply of_be_wf|done|apply of_be_length|].
  rewrite be_of_be. apply Z.mod_small. by apply be_range.
Qed.

(** ** Lemmas: masks *)

Lemma mask_byte_check :
  forallb (fun o => forallb (fun b => Z.land b (255 - 255 / 2 ^ o) =? b - b mod 2 ^ (8 - o))
     (List.map Z.of_nat (seq 0 256))) (List.map Z.of_nat (seq 0 8)) = true.
Proof. vm_compute. reflexivity. Qed.

Lemma in_below (z : Z) (n : nat) : 0 <= z < Z.of_nat n -> In z (List.map Z.of_nat (seq 0 n)).
Proof. intros Hz. apply in_map_iff. exists (Z.to_nat z). rewrite in_seq. lia. Qed.

Lemma mask_byte_partial o b : 0 <= o < 8 -> byte_ok b -> Z.land b (255 - 255 / 2 ^ o) = b - b mod 2 ^ (8 - o).
Proof.
  intros Ho Hb. pose proof mask_byte_check as H. rewrite forallb_forall in H.
  specialize (H o (in_below o 8 Ho)). rewrite forallb_forall in H. by apply Z.eqb_eq, H, (in_below b 256).
Qed.

Lemma mask_byte_full b : byte_ok b -> Z.land b 255 = b.
Proof. intros Hb. change 255 with (Z.ones 8). rewrite Z.land_ones by lia. apply Z.mod_small. exact Hb. Qed.

Lemma mask_byte_none b ones : ones <= 0 -> Z.land b (255 - 255 / 2 ^ Z.max 0 ones) = 0.
Proof. intros Ho. rewrite Z.max_l by lia. change (255 - 255 / 2 ^ 0) with 0. apply Z.land_0_r. Qed.

Lemma CIDRMask_length n ones : length (CIDRMask n ones) = n.
Proof. revert ones. induction n as [|n IH]; intros ones; cbn [CIDRMask length]; [done|]. by rewrite IH. Qed.

Lemma mask_bytes_length ip m : length m = length ip -> length (mask_bytes ip m) = length ip.
Proof. intros H. unfold mask_bytes. rewrite length_zip_with. lia. Qed.

Lemma mask_wf ip ones : wf_ip ip -> wf_ip (mask_bytes ip (CIDRMask (length ip) ones)).
Proof.
  intros Hw. revert ones. induction Hw as [|b ip Hb _ IH]; intros ones; [apply List.Forall_nil|].
  cbn [length CIDRMask mask_bytes zip_with]. apply List.Forall_cons; [|apply IH].
  destruct (Z.leb_spec 8 ones); [by rewrite mask_byte_full|].
  destruct (Z.le_gt_cases ones 0).
  - rewrite mask_byte_none by done. unfold byte_ok. lia.
  - rewrite Z.max_r, mask_byte_partial by (done || lia). unfold byte_ok in *.
    pose proof (Z.mod_pos_bound b (2 ^ (8 - ones)) ltac:(apply Z.pow_pos_nonneg; lia)).
    pose proof (Z.mod_le b (2 ^ (8 - ones)) ltac:(lia) ltac:(apply Z.pow_pos_nonneg; lia)). lia.
Qed.

Lemma mask_all_host ip ones : ones <= 0 -> be (mask_bytes ip (CIDRMask (length ip) ones)) = 0.
Proof.
  revert ones. induction ip as [|b ip IH]; intros ones Ho; [done|].
  cbn [length CIDRMask mask_bytes zip_with]. rewrite be_cons.
  destruct (Z.leb_spec 8 ones); [lia|]. rewrite mask_byte_none by done.
  fold (mask_bytes ip (CIDRMask (length ip) (ones - 8))). rewrite IH; lia.
Qed.

(** Masking clears the host bits. *)
Lemma be_mask ip ones : wf_ip ip -> 0 <= ones <= 8 * Z.of_nat (length ip) ->
  be (mask_bytes ip (CIDRMask (length ip) ones)) = be ip - be ip mod 2 ^ hostbits (length ip) ones.
Proof.
  intros Hw. revert ones. induction Hw as [|b ip Hb Hw IH]; intros ones Ho.
  { cbn. unfold hostbits. cbn in Ho. replace ones with 0 by lia. done. }
  cbn [length] in Ho |- *. unfold hostbits in *. set (n := length ip) in *.
  cbn [CIDRMask mask_bytes zip_with]. fold (mask_bytes ip (CIDRMask n (ones - 8))).
  rewrite !be_cons, (mask_bytes_length ip) by apply CIDRMask_length. fold n.
  pose proof (be_range ip Hw) as Hr. fold n in Hr. rewrite space_pow2 in *.
  destruct (Z.leb_spec 8 ones) as [H8|H8].
  - rewrite mask_byte_full, IH by (done || lia).
    replace (8 * Z.of_nat (S n) - ones) with (8 * Z.of_nat n - (ones - 8)) by lia.
    set (h := 8 * Z.of_nat n - (ones - 8)).
    replace (2 ^ (8 * Z.of_nat n)) with (2 ^ (8 * Z.of_nat n - h) * 2 ^ h)
      by (rewrite <- Z.pow_add_r by lia; f_equal; lia).
    rewrite Z.mul_assoc, (Z.add_comm (b * _ * _) (be ip)), Z_mod_plus_full. lia.
  - rewrite Z.max_r, mask_byte_partial by (done || lia).
    pose proof (mask_all_host ip (ones - 8) ltac:(lia)) as Hz. fold n in Hz. rewrite Hz.
    replace (8 * Z.of_nat (S n) - ones) with (8 * Z.of_nat n + (8 - ones)) by lia.
    rewrite Z.pow_add_r by lia.
    rewrite (Z.rem_mul_r (b * 2 ^ (8 * Z.of_nat n) + be ip))
      by (apply Z.pow_nonzero || apply Z.pow_pos_nonneg; lia).
    rewrite (Z.add_comm (b * _) (be ip)), Z_mod_plus_full, Z.div_add by (apply Z.pow_nonzero; lia).
    rewrite (Z.mod_small (be ip)), (Z.div_small (be ip)) by lia. rewrite Z.add_0_l.
    pose proof (Z.div_mod b (2 ^ (8 - ones)) ltac:(apply Z.pow_nonzero; lia)). nia.
Qed.

Lemma sub_mod_div x m : 0 < m -> x - x mod m = m * (x / m).
Proof. intros Hm. pose proof (Z.div_mod x m). lia. Qed.

(** ** Lemmas: networks *)

(** An address in the form the family checks compare: four bytes, or sixteen
    that are not an embedded IPv4 address. *)
Definition canon (ip : IP) : Prop := length ip = 4%nat \/ (length ip = 16%nat /\ To4 ip = None).

Lemma To4_four ip : length ip = 4%nat -> To4 ip = Some ip.
Proof. intros H. unfold To4. by rewrite H. Qed.

Lemma canon_default ip : canon ip -> default ip (To4 ip) = ip.
Proof. intros [H|[_ H]]; [by rewrite To4_four|by rewrite H]. Qed.

Lemma cidr_ip_length a ones : length (net_ip (cidr a ones)) = length a.
Proof. apply mask_bytes_length, CIDRMask_length. Qed.

Lemma network_number a ones : canon (net_ip (cidr a ones)) ->
  networkNumberAndMask (cidr a ones) = (net_ip (cidr a ones), CIDRMask (length a) ones).
Proof.
  unfold networkNumberAndMask. intros [H|[_ H]].
  - rewrite To4_four by done. rewrite cidr_ip_length in H. change (net_mask (cidr a ones)) with (CIDRMask (length a) ones).
    by rewrite CIDRMask_length, H.
  - by rewrite H.
Qed.

(** A network contains exactly the addresses that share its prefix bits. *)
Lemma Contains_iff a ones x :
  wf_ip a -> wf_ip x -> 0 <= ones <= 8 * Z.of_nat (length a) ->
  canon (net_ip (cidr a ones)) -> canon x -> length x = length a ->
  Contains_ip (cidr a ones) x = true <->
  be x / 2 ^ hostbits (length a) ones = be a / 2 ^ hostbits (length a) ones.
Proof.
  intros Ha Hx Ho Hc Hcx Hl. unfold Contains_ip.
  pose proof (network_number a ones Hc) as Hn. unfold networkNumberAndMask in Hn.
  rewrite Hn, canon_default by done.
  rewrite cidr_ip_length, CIDRMask_length, Hl, Nat.eqb_refl. cbn [andb].
  rewrite bool_decide_eq_true. cbn [net_ip cidr].
  set (h := hostbits (length a) ones). assert (0 < 2 ^ h) by (apply Z.pow_pos_nonneg; unfold h, hostbits; lia).
  pose proof (be_mask a ones Ha Ho) as Ha'. fold h in Ha'.
  pose proof (be_mask x ones Hx ltac:(rewrite Hl; lia)) as Hx'. rewrite Hl in Hx'. fold h in Hx'.
  rewrite sub_mod_div in Ha', Hx' by done.
  assert (Hla : length (mask_bytes a (CIDRMask (length a) ones)) = length a)
    by apply mask_bytes_length, CIDRMask_length.
  pose proof (mask_wf a ones Ha) as Hwa.
  pose proof (be_mask (mask_bytes a (CIDRMask (length a) ones)) ones Hwa ltac:(rewrite Hla; lia)) as Haa.
  rewrite Hla in Haa. fold h in Haa. rewrite sub_mod_div, Ha', (Z.mul_comm (2 ^ h) (be a / 2 ^ h)), Z.div_mul in Haa by lia.
  split.
  - intros He. rewrite He, Hx' in Haa. nia.
  - intros He. apply be_inj.
    + pose proof (mask_wf _ ones Hwa) as W. by rewrite Hla in W.
    + pose proof (mask_wf x ones Hx) as W. by rewrite Hl in W.
    + rewrite !mask_bytes_length; rewrite ?CIDRMask_length; congruence.
    + rewrite Haa, Hx', He. lia.
Qed.

(** ** Lemmas: parsed addresses *)

Lemma wf_app a b : wf_ip a -> wf_ip b -> wf_ip (a ++ b).
Proof. apply Forall_app_2. Qed.

Lemma parse6_loop_wf fuel ip ell s ip' ell' s' :
  parse6_loop fuel ip ell s = Some (ip', ell', s') -> wf_ip ip -> (length ip + 2 * fuel <= 16)%nat ->
  wf_ip ip' /\ (length ip' <= 16)%nat.
Proof.
  revert ip ell s. induction fuel as [|f IH]; intros ip ell s; cbn [parse6_loop].
  { intros [= <- <- <-] Hw Hl. split; [done|lia]. }
  destruct (hex_run 0 0 s) as [[[off acc] rest]|] eqn:Er; [|done].
  destruct (off =? 0)%nat; [done|].
  pose proof (hex_run_range _ _ _ _ _ _ Er ltac:(lia) ltac:(cbn; lia)) as Hacc.
  intros HE Hw Hl.
  set (ip1 := ip ++ [acc / 256; acc mod 256]) in *.
  assert (Hw' : wf_ip ip1).
  { apply wf_app; [done|]. repeat (apply List.Forall_cons || apply List.Forall_nil); unfold byte_ok.
    - split; [apply Z.div_pos; lia|apply Z.div_lt_upper_bound; lia].
    - apply Z.mod_pos_bound. lia. }
  assert (Hl' : (length ip1 + 2 * f <= 16)%nat) by (unfold ip1; rewrite length_app; cbn; lia).
  repeat first
    [ discriminate
    | match type of HE with
      | Some (ip1, _, _) = Some _ => injection HE as <- <- <-; split; [done|lia]
      | parse6_loop _ _ _ _ = _ => eapply IH; [exact HE|done|done]
      | context [if ?c then _ else _] => destruct c eqn:?
      | context [match ?c with _ => _ end] => destruct c eqn:?
      end ].
  all: match goal with H : parseIPv4 _ = Some _ |- _ => destruct (parseIPv4_wf _ _ H) as [H4 Hw4] end;
    injection HE as <- <- <-; split; [by apply wf_app|];
    match goal with H : (16 <? _)%nat = false |- _ => apply Nat.ltb_ge in H end;
    rewrite length_app, H4; lia.
Qed.

Lemma parseIPv6_wf s ip : parseIPv6 s = Some ip -> length ip = 16%nat /\ wf_ip ip.
Proof.
  assert (Hz : forall n, wf_ip (replicate n 0)).
  { intros n. unfold wf_ip. apply list.Forall_forall. intros x [-> _]%elem_of_replicate. unfold byte_ok. lia. }
  unfold parseIPv6. destruct (match drop_prefix "::" s with Some r => _ | None => _ end) as [ell s'].
  destruct (match ell with Some _ => _ | None => _ end).
  { intros [= <-]. split; [done|]. exact (Hz 16%nat). }
  destruct (parse6_loop 8 [] ell s') as [[[ip' ell'] r]|] eqn:El; [|done].
  destruct (parse6_loop_wf _ _ _ _ _ _ _ El (List.Forall_nil _) ltac:(cbn; lia)) as [Hw Hl].
  destruct r; [|done]. unfold expand_ellipsis. destruct (Nat.ltb_spec (length ip') 16).
  - destruct ell' as [e|]; [|done]. intros [= <-]. split.
    + rewrite !length_app, length_take, length_drop, length_replicate. lia.
    + apply wf_app; [by apply Forall_take|]. apply wf_app; [apply Hz|by apply Forall_drop].
  - destruct ell'; [done|]. intros [= <-]. split; [lia|done].
Qed.

Lemma ParseAddr_wf s a : ParseAddr s = Some a -> (length a = 4%nat \/ length a = 16%nat) /\ wf_ip a.
Proof.
  unfold ParseAddr. repeat case_match; try done; intros HE.
  all: try (destruct (parseIPv4_wf _ _ HE); by auto).
  destruct (parseIPv6_wf _ _ HE). by auto.
Qed.

(** What [ParseCIDR] gives. *)
Lemma ParseCIDR_cidr s ip n : ParseCIDR s = Some (ip, n) ->
  exists a ones, ip = As16 a /\ n = cidr a ones /\ wf_ip a /\ (length a = 4%nat \/ length a = 16%nat)
    /\ 0 <= ones <= 8 * Z.of_nat (length a).
Proof.
  unfold ParseCIDR. destruct (cut_byte "/" s) as [[addr mask]|]; [|done].
  destruct (ParseAddr addr) as [a|] eqn:Ea; [|done]. destruct (ParseAddr_wf _ _ Ea) as [Hl Hw].
  destruct (prefix_len mask _) as [ones|] eqn:Ep; [|done]. intros [= <- <-].
  exists a, ones. split_and!; try done.
  - unfold prefix_len in Ep. destruct mask; [done|]. destruct (digits_value 0 _) eqn:Ed; [|done].
    apply digits_value_nonneg in Ed; [|lia]. destruct (_ <=? _) eqn:El; [|done]. congruence.
  - unfold prefix_len in Ep. destruct mask; [done|]. destruct (digits_value 0 _) eqn:Ed; [|done].
    destruct (Z.leb_spec z (8 * Z.of_nat (length a))); [|done]. congruence.
Qed.

(** ** Lemmas: overlap *)

Lemma div_div_pow x p q : 0 <= p <= q -> x / 2 ^ p / 2 ^ (q - p) = x / 2 ^ q.
Proof.
  intros H. rewrite Z.div_div by (apply Z.pow_nonzero || apply Z.pow_pos_nonneg; lia).
  rewrite <- Z.pow_add_r by lia. do 2 f_equal. lia.
Qed.

Lemma coarser x y p q : 0 <= p <= q -> x / 2 ^ p = y / 2 ^ p -> x / 2 ^ q = y / 2 ^ q.
Proof. intros H He. rewrite <- (div_div_pow x p q), <- (div_div_pow y p q) by done. by rewrite He. Qed.

Definition member (x : IP) (a : IP) (ones : Z) : Prop := Contains_ip (cidr a ones) x = true.

(** What the overlap lemmas need of a network. *)
Definition wf_net (a : IP) (ones : Z) : Prop :=
  wf_ip a /\ 0 <= ones <= 8 * Z.of_nat (length a) /\ canon (net_ip (cidr a ones)).

Lemma member_iff x a ones : wf_net a ones -> wf_ip x -> canon x -> length x = length a ->
  member x a ones <-> be x / 2 ^ hostbits (length a) ones = be a / 2 ^ hostbits (length a) ones.
Proof. intros (Ha & Ho & Hc) Hx Hcx Hl. by apply Contains_iff. Qed.

Lemma base_prefix a ones h : wf_net a ones -> hostbits (length a) ones <= h ->
  be (net_ip (cidr a ones)) / 2 ^ h = be a / 2 ^ h.
Proof.
  intros (Ha & Ho & _) Hh. assert (0 <= hostbits (length a) ones) by (unfold hostbits; lia).
  apply coarser with (hostbits (length a) ones); [done|].
  cbn [net_ip cidr]. rewrite be_mask by done. rewrite sub_mod_div by (apply Z.pow_pos_nonneg; lia).
  rewrite Z.mul_comm, Z.div_mul by (apply Z.pow_nonzero; lia). done.
Qed.

Lemma base_member a ones b ob : wf_net a ones -> wf_net b ob -> length a = length b ->
  hostbits (length a) ones <= hostbits (length a) ob ->
  member (net_ip (cidr a ones)) b ob <-> be a / 2 ^ hostbits (length a) ob = be b / 2 ^ hostbits (length a) ob.
Proof.
  intros Ha Hb Hl Hh. rewrite member_iff.
  - rewrite <- Hl, base_prefix by done. done.
  - done.
  - apply mask_wf. apply Ha.
  - apply Ha.
  - by rewrite cidr_ip_length.
Qed.

Lemma base_in_own a ones : wf_net a ones -> member (net_ip (cidr a ones)) a ones.
Proof. intros Ha. apply base_member; try done. Qed.

(** Two networks of a family share an address exactly when one of them
    contains the other's base address. *)
Lemma overlap_iff a oa b ob : wf_net a oa -> wf_net b ob -> length a = length b ->
  (exists x, wf_ip x /\ canon x /\ length x = length a /\ member x a oa /\ member x b ob)
  <-> member (net_ip (cidr b ob)) a oa \/ member (net_ip (cidr a oa)) b ob.
Proof.
  intros Ha Hb Hl.
  assert (H0a : 0 <= hostbits (length a) oa) by (destruct Ha as (_ & ? & _); unfold hostbits; lia).
  assert (H0b : 0 <= hostbits (length a) ob)
    by (destruct Hb as (_ & ? & _); unfold hostbits; rewrite Hl; lia).
  split.
  - intros (x & Hx & Hcx & Hlx & Hma & Hmb).
    apply member_iff in Hma; [|done..]. apply member_iff in Hmb; [|try done..]; [|congruence].
    rewrite <- Hl in Hmb.
    destruct (Z.le_ge_cases (hostbits (length a) oa) (hostbits (length a) ob)) as [H|H].
    + right. apply base_member; try done. rewrite <- Hmb. symmetry.
      apply coarser with (hostbits (length a) oa); [lia|done].
    + left. apply base_member; try done; rewrite <- Hl; [done|]. rewrite <- Hma. symmetry.
      apply coarser with (hostbits (length a) ob); [lia|done].
  - intros [H|H].
    + exists (net_ip (cidr b ob)). split_and!; [apply mask_wf; apply Hb|apply Hb|by rewrite cidr_ip_length|done|].
      by apply base_in_own.
    + exists (net_ip (cidr a oa)). split_and!; [apply mask_wf; apply Ha|apply Ha|by rewrite cidr_ip_length| |done].
      by apply base_in_own.
Qed.

(** ** Lemmas: the text of an IPv4 address *)

Lemma octet_check :
  forallb (fun b => match parse_octet (itoa b) with Some v => v =? b | None => false end
                    && all_chars is_digit (itoa b)) (List.map Z.of_nat (seq 0 256)) = true.
Proof. vm_compute. reflexivity. Qed.

Lemma octet_text b : byte_ok b -> parse_octet (itoa b) = Some b /\ all_chars is_digit (itoa b) = true.
Proof.
  intros Hb. pose proof octet_check as H. rewrite forallb_forall in H.
  specialize (H b (in_below b 256 Hb)). apply andb_prop in H as [H1 H2].
  destruct (parse_octet (itoa b)); [|discriminate]. apply Z.eqb_eq in H1. by subst.
Qed.

Lemma digit_not_kind a : is_digit a = true -> char_in ".:%" a = false.
Proof.
  intros H. apply negb_true_iff. revert a H.
  apply (ascii_impl is_digit (fun a => negb (char_in ".:%" a))). vm_compute. reflexivity.
Qed.

Lemma addr_kind_digits s r : all_chars is_digit s = true -> addr_kind (s +:+ String "." r) = Some "."%char.
Proof.
  induction s as [|a s IH]; [done|]. cbn [all_chars String.append addr_kind]. intros H.
  apply andb_prop in H as [Ha Hs]. rewrite digit_not_kind by done. by apply IH.
Qed.

Lemma digits_no_dot s : all_chars is_digit s = true -> has_char "." s = false.
Proof. intros H. by apply (all_chars_not_has is_digit). Qed.

(** Printing an IPv4 address and parsing it back. *)
Lemma ParseAddr_dotted ip : length ip = 4%nat -> wf_ip ip -> ParseAddr (dotted ip) = Some ip.
Proof.
  destruct ip as [|a [|b [|c [|d []]]]]; try done. intros _ Hw.
  unfold wf_ip in Hw. repeat match goal with H : Forall _ (_ :: _) |- _ => inversion H; subst; clear H end.
  change (dotted [a; b; c; d]) with (join "." [itoa a; itoa b; itoa c; itoa d]).
  destruct (octet_text a), (octet_text b), (octet_text c), (octet_text d); try done.
  unfold ParseAddr.
  assert (addr_kind (join "." [itoa a; itoa b; itoa c; itoa d]) = Some "."%char) as ->.
  { rewrite join_cons by done. apply (addr_kind_digits (itoa a)). done. }
  unfold parseIPv4. change "." with (char_str ".").
  rewrite split_join; [|done|]; [|repeat (apply List.Forall_cons; [by apply digits_no_dot|]); apply List.Forall_nil].
  repeat match goal with H : parse_octet _ = _ |- _ => rewrite H; clear H end. done.
Qed.

Lemma dotted_inj a b : length a = 4%nat -> length b = 4%nat -> wf_ip a -> wf_ip b -> dotted a = dotted b -> a = b.
Proof.
  intros La Lb Ha Hb He. apply (f_equal ParseAddr) in He. rewrite !ParseAddr_dotted in He by done. congruence.
Qed.

Lemma IP_String_four ip : length ip = 4%nat -> IP_String ip = dotted ip.
Proof. intros H. unfold IP_String. rewrite To4_four by done. by destruct ip. Qed.

(** ** Lemmas: the size and the last address of a network *)

Lemma mask_length_check :
  forallb (fun n => forallb (fun o => match simpleMaskLength (CIDRMask n o) with Some l => l =? o | None => false end)
     (List.map Z.of_nat (seq 0 (S (8 * n))))) [4%nat; 16%nat] = true.
Proof. vm_compute. reflexivity. Qed.

Lemma Mask_Size_CIDR n ones : (n = 4%nat \/ n = 16%nat) -> 0 <= ones <= 8 * Z.of_nat n ->
  Mask_Size (CIDRMask n ones) = (ones, 8 * Z.of_nat n).
Proof.
  intros Hn Ho. unfold Mask_Size. rewrite CIDRMask_length.
  pose proof mask_length_check as H. rewrite forallb_forall in H.
  specialize (H n ltac:(destruct Hn; subst; cbn; auto)). rewrite forallb_forall in H.
  specialize (H ones (in_below ones (S (8 * n)) ltac:(lia))).
  destruct (simpleMaskLength (CIDRMask n ones)); [|discriminate]. apply Z.eqb_eq in H. by subst.
Qed.

(** Every host bit set. *)
Definition broadcast_of (ip m : list Z) : IP := zip_with (fun n k => Z.lor n (255 - k)) ip m.

Lemma broadcast_byte_check :
  forallb (fun o => forallb (fun b => Z.lor (Z.land b (255 - 255 / 2 ^ o)) (255 / 2 ^ o) =? b - b mod 2 ^ (8 - o) + 2 ^ (8 - o) - 1)
     (List.map Z.of_nat (seq 0 256))) (List.map Z.of_nat (seq 0 8)) = true.
Proof. vm_compute. reflexivity. Qed.

Lemma broadcast_byte o b : 0 <= o < 8 -> byte_ok b ->
  Z.lor (Z.land b (255 - 255 / 2 ^ o)) (255 - (255 - 255 / 2 ^ o)) = b - b mod 2 ^ (8 - o) + 2 ^ (8 - o) - 1.
Proof.
  intros Ho Hb. replace (255 - (255 - 255 / 2 ^ o)) with (255 / 2 ^ o) by lia.
  pose proof broadcast_byte_check as H. rewrite forallb_forall in H.
  specialize (H o (in_below o 8 Ho)). rewrite forallb_forall in H. by apply Z.eqb_eq, H, (in_below b 256).
Qed.

Definition broadcast_mask (ip : IP) (ones : Z) : IP :=
  broadcast_of (mask_bytes ip (CIDRMask (length ip) ones)) (CIDRMask (length ip) ones).

Lemma broadcast_cons b ip ones : byte_ok b ->
  broadcast_mask (b :: ip) ones =
  (if 8 <=? ones then b else if 0 <=? ones then b - b mod 2 ^ (8 - ones) + 2 ^ (8 - ones) - 1 else 255)
  :: broadcast_mask ip (ones - 8).
Proof.
  intros Hb. unfold broadcast_mask, broadcast_of, mask_bytes. cbn [length CIDRMask zip_with]. f_equal.
  destruct (Z.leb_spec 8 ones).
  - rewrite mask_byte_full by done. change (255 - 255) with 0. apply Z.lor_0_r.
  - destruct (Z.leb_spec 0 ones).
    + rewrite Z.max_r by lia. by apply broadcast_byte.
    + rewrite Z.max_l by lia. change (255 - 255 / 2 ^ 0) with 0. by rewrite Z.land_0_r.
Qed.

Lemma broadcast_length ip ones : length (broadcast_mask ip ones) = length ip.
Proof.
  unfold broadcast_mask, broadcast_of. rewrite length_zip_with, mask_bytes_length, CIDRMask_length; [lia|].
  apply CIDRMask_length.
Qed.

Lemma broadcast_wf ip ones : wf_ip ip -> wf_ip (broadcast_mask ip ones).
Proof.
  intros Hw. revert ones. induction Hw as [|b ip Hb Hw IH]; intros ones; [apply List.Forall_nil|].
  rewrite broadcast_cons by done. apply List.Forall_cons; [|apply IH]. unfold byte_ok in *.
  destruct (Z.leb_spec 8 ones); [lia|]. destruct (Z.leb_spec 0 ones); [|lia].
  assert (0 < 2 ^ (8 - ones)) by (apply Z.pow_pos_nonneg; lia).
  assert (Hp : 2 ^ (8 - ones) * 2 ^ ones = 256) by (rewrite <- Z.pow_add_r by lia; by replace (8 - ones + ones) with 8 by lia).
  rewrite sub_mod_div by done. pose proof (Z.div_pos b (2 ^ (8 - ones)) ltac:(lia) ltac:(lia)).
  assert (b / 2 ^ (8 - ones) < 2 ^ ones) by (apply Z.div_lt_upper_bound; lia).
  nia.
Qed.

(** The broadcast address is the last one of the network. *)
Lemma be_broadcast ip ones : wf_ip ip -> ones <= 8 * Z.of_nat (length ip) ->
  be (broadcast_mask ip ones) =
  (if 0 <=? ones then be ip - be ip mod 2 ^ hostbits (length ip) ones + 2 ^ hostbits (length ip) ones
   else space (length ip)) - 1.
Proof.
  intros Hw. revert ones. induction Hw as [|b ip Hb Hw IH]; intros ones Ho.
  { cbn [length] in *. destruct (Z.leb_spec 0 ones); [|reflexivity].
    assert (ones = 0) as -> by lia. reflexivity. }
  rewrite broadcast_cons by done. rewrite be_cons, broadcast_length.
  cbn [length] in *. rewrite space_S. set (n := length ip) in *.
  pose proof (be_range ip Hw) as Hr. fold n in Hr.
  pose proof (IH (ones - 8) ltac:(lia)) as IH'. clear IH. rewrite IH'. unfold hostbits in *. rewrite space_pow2 in *.
  destruct (Z.leb_spec 8 ones) as [H8|H8].
  - destruct (Z.leb_spec 0 (ones - 8)); [|lia]. destruct (Z.leb_spec 0 ones); [|lia].
    rewrite be_cons. fold n. rewrite space_pow2.
    replace (8 * Z.of_nat (S n) - ones) with (8 * Z.of_nat n - (ones - 8)) by lia.
    set (h := 8 * Z.of_nat n - (ones - 8)).
    replace (2 ^ (8 * Z.of_nat n)) with (2 ^ (8 * Z.of_nat n - h) * 2 ^ h)
      by (rewrite <- Z.pow_add_r by lia; f_equal; lia).
    rewrite Z.mul_assoc, (Z.add_comm (b * _ * _) (be ip)), Z_mod_plus_full. lia.
  - destruct (Z.leb_spec 0 (ones - 8)); [lia|]. destruct (Z.leb_spec 0 ones) as [H0|H0].
    + rewrite be_cons. fold n. rewrite space_pow2.
      replace (8 * Z.of_nat (S n) - ones) with (8 * Z.of_nat n + (8 - ones)) by lia.
      rewrite Z.pow_add_r by lia.
      rewrite (Z.rem_mul_r (b * 2 ^ (8 * Z.of_nat n) + be ip))
        by (apply Z.pow_nonzero || apply Z.pow_pos_nonneg; lia).
      rewrite (Z.add_comm (b * _) (be ip)), Z_mod_plus_full, Z.div_add by (apply Z.pow_nonzero; lia).
      rewrite (Z.mod_small (be ip)), (Z.div_small (be ip)) by lia. rewrite Z.add_0_l. nia.
    + lia.
Qed.

Lemma lor_low base h : 0 <= h -> base mod 2 ^ h = 0 -> Z.lor base (2 ^ h - 1) = base + 2 ^ h - 1.
Proof.
  intros Hh Hm. assert (Hl : Z.land base (2 ^ h - 1) = 0).
  { replace (2 ^ h - 1) with (Z.ones h) by (unfold Z.ones; rewrite Z.shiftl_1_l; lia). by rewrite Z.land_ones. }
  rewrite <- Z.lxor_lor, <- Z.add_nocarry_lxor by done. lia.
Qed.

Lemma To4_wf p x : wf_ip p -> To4 p = Some x -> wf_ip x /\ length x = 4%nat.
Proof.
  intros Hw. unfold To4. destruct (Nat.eqb_spec (length p) 4) as [H4|H4]; [by intros [= <-]|].
  destruct (Nat.eqb_spec (length p) 16) as [H16|H16]; [|done]. destruct (bool_decide _); [|done].
  intros [= <-]. split; [by apply Forall_drop|]. rewrite length_drop. lia.
Qed.

Lemma ParseIP_wf s p : ParseIP s = Some p -> wf_ip p.
Proof.
  unfold ParseIP. destruct (ParseAddr s) as [a|] eqn:E; [|done]. intros [= <-].
  destruct (ParseAddr_wf _ _ E) as [_ Hw]. unfold As16. destruct (_ =? _)%nat; [|done].
  apply wf_app; [|done]. repeat (apply List.Forall_cons || apply List.Forall_nil); unfold byte_ok; lia.
Qed.

(** ** Lemmas: IPv4 networks as ranges *)

(** The first and last number of an IPv4 network. *)
Definition first_of (a : IP) (ones : Z) : Z := be (net_ip (cidr a ones)).
Definition last_of (a : IP) (ones : Z) : Z := first_of a ones + 2 ^ (32 - ones) - 1.

Lemma v4_facts a ones : length a = 4%nat -> wf_ip a -> 0 <= ones <= 32 ->
  first_of a ones = 2 ^ (32 - ones) * (be a / 2 ^ (32 - ones))
  /\ 0 <= first_of a ones /\ last_of a ones < 2 ^ 32 /\ Mask_Size (net_mask (cidr a ones)) = (ones, 32)
  /\ To4 (net_ip (cidr a ones)) = Some (net_ip (cidr a ones)).
Proof.
  intros Hl Hw Ho. unfold last_of, first_of. cbn [net_ip net_mask cidr].
  rewrite be_mask, Hl by (rewrite ?Hl; done). unfold hostbits. change (8 * Z.of_nat 4) with 32.
  assert (Hp : 0 < 2 ^ (32 - ones)) by (apply Z.pow_pos_nonneg; lia).
  assert (Hs : 2 ^ (32 - ones) * 2 ^ ones = 2 ^ 32) by (rewrite <- Z.pow_add_r by lia; f_equal; lia).
  rewrite sub_mod_div by done. pose proof (be_range a Hw) as Hr. rewrite Hl in Hr. change (space 4) with (2 ^ 32) in Hr.
  assert (0 <= be a / 2 ^ (32 - ones)) by (apply Z.div_pos; lia).
  assert (be a / 2 ^ (32 - ones) < 2 ^ ones) by (apply Z.div_lt_upper_bound; lia).
  split_and!; [done|nia|nia| |].
  - apply (Mask_Size_CIDR 4); [by left|done].
  - apply To4_four. rewrite mask_bytes_length; [done|]. by rewrite CIDRMask_length.
Qed.

Lemma Contains_v4 a ones x : wf_ip a -> (length a = 4%nat \/ length a = 16%nat) ->
  0 <= ones <= 8 * Z.of_nat (length a) -> canon (net_ip (cidr a ones)) -> wf_ip x -> length x = 4%nat ->
  Contains_ip (cidr a ones) x = true ->
  length a = 4%nat /\ first_of a ones <= be x <= last_of a ones.
Proof.
  intros Hw Hl Ho Hc Hx Hlx Hin.
  assert (Hla : length a = 4%nat).
  { destruct Hl as [?|Hl]; [done|]. exfalso. unfold Contains_ip in Hin.
    pose proof (network_number a ones Hc) as Hn. unfold networkNumberAndMask in Hn. rewrite Hn in Hin.
    rewrite To4_four, cidr_ip_length, CIDRMask_length, Hl in Hin by done. cbn [default from_option id] in Hin.
    by rewrite Hlx in Hin. }
  split; [done|]. rewrite Hla in *. change (8 * Z.of_nat 4) with 32 in Ho.
  apply Contains_iff in Hin; [|rewrite ?Hla; try done..]; [|by left]. rewrite Hla in Hin. unfold hostbits in Hin.
  change (8 * Z.of_nat 4) with 32 in Hin.
  destruct (v4_facts a ones Hla Hw Ho) as (Hf & _). unfold last_of. rewrite Hf, <- Hin.
  pose proof (Z.div_mod (be x) (2 ^ (32 - ones)) ltac:(apply Z.pow_nonzero; lia)).
  pose proof (Z.mod_pos_bound (be x) (2 ^ (32 - ones)) ltac:(apply Z.pow_pos_nonneg; lia)). lia.
Qed.

(** An IPv4 network is the range from its first to its last number. *)
Lemma Contains_v4_iff a ones x : length a = 4%nat -> wf_ip a -> 0 <= ones <= 32 -> wf_ip x -> length x = 4%nat ->
  Contains_ip (cidr a ones) x = true <-> first_of a ones <= be x <= last_of a ones.
Proof.
  intros Hla Hw Ho Hx Hlx. rewrite Contains_iff; [|rewrite ?Hla; try done..]; try (by left); [|by left; rewrite cidr_ip_length].
  rewrite Hla. unfold hostbits. change (8 * Z.of_nat 4) with 32.
  destruct (v4_facts a ones Hla Hw Ho) as (Hf & _). unfold last_of. rewrite Hf.
  assert (Hp : 0 < 2 ^ (32 - ones)) by (apply Z.pow_pos_nonneg; lia).
  pose proof (Z.div_mod (be x) (2 ^ (32 - ones)) ltac:(lia)).
  pose proof (Z.mod_pos_bound (be x) (2 ^ (32 - ones)) ltac:(lia)). split; [intros <-; lia|].
  intros Hr. symmetry. apply (Z.div_unique _ _ _ (be x - 2 ^ (32 - ones) * (be a / 2 ^ (32 - ones)))); lia.
Qed.

(** A CIDR text that is not an IPv4 network in IPv6 clothing. *)
Definition plain_cidr (c : string) : Prop :=
  forall ip n, ParseCIDR c = Some (ip, n) -> canon (net_ip n).

(** ** Lemmas: networks as sets of addresses *)

(** The addresses of a network. *)
Definition inside (n : IPNet) (x : IP) : Prop := wf_ip x /\ canon x /\ Contains_ip n x = true.

Lemma Contains_family a ones x : wf_net a ones -> canon x -> Contains_ip (cidr a ones) x = true -> length x = length a.
Proof.
  intros (_ & _ & Hc) Hx Hin. unfold Contains_ip in Hin.
  pose proof (network_number a ones Hc) as Hn. unfold networkNumberAndMask in Hn. rewrite Hn in Hin.
  rewrite canon_default in Hin by done. apply andb_prop in Hin as [Hin _]. apply andb_prop in Hin as [Hin _].
  apply Nat.eqb_eq in Hin. by rewrite cidr_ip_length in Hin.
Qed.

(** Either network contains the other's base address exactly when they share
    an address. *)
Lemma nets_overlap a oa b ob : wf_net a oa -> wf_net b ob ->
  Contains_ip (cidr a oa) (net_ip (cidr b ob)) || Contains_ip (cidr b ob) (net_ip (cidr a oa)) = true
  <-> exists x, inside (cidr a oa) x /\ inside (cidr b ob) x.
Proof.
  intros Ha Hb. rewrite orb_true_iff. split.
  - intros H. assert (Hl : length a = length b).
    { destruct H as [H|H]; apply Contains_family in H; try apply Ha; try apply Hb; try done;
        rewrite cidr_ip_length in H; done. }
    apply overlap_iff in H as (x & Hx & Hc & _ & Hma & Hmb); try done. by exists x.
  - intros (x & (Hx & Hc & Hma) & (_ & _ & Hmb)).
    pose proof (Contains_family a oa x Ha Hc Hma) as H1. pose proof (Contains_family b ob x Hb Hc Hmb) as H2.
    apply overlap_iff; try done; [congruence|]. exists x. by split_and!.
Qed.

(** The addresses of a network lie between its base and its last address. *)
Lemma inside_range a ones x : wf_net a ones -> inside (cidr a ones) x ->
  length x = length a /\ be (net_ip (cidr a ones)) <= be x <= be (broadcast_mask a ones).
Proof.
  intros Hn (Hx & Hc & Hin). pose proof (Contains_family a ones x Hn Hc Hin) as Hl. split; [done|].
  pose proof (proj1 (member_iff x a ones Hn Hx Hc Hl) Hin) as Hm. destruct Hn as (Ha & Ho & _).
  rewrite be_broadcast by (done || lia). destruct (Z.leb_spec 0 ones); [|lia].
  cbn [net_ip cidr]. rewrite be_mask by done.
  set (h := hostbits (length a) ones) in *. assert (Hp : 0 < 2 ^ h) by (apply Z.pow_pos_nonneg; unfold h, hostbits; lia).
  pose proof (Z.div_mod (be x) (2 ^ h) ltac:(lia)). pose proof (Z.mod_pos_bound (be x) (2 ^ h) ltac:(lia)).
  rewrite sub_mod_div by done. rewrite <- Hm. lia.
Qed.

(** The private ranges as numbers. *)
Definition private4 (v : Z) : Prop :=
  10 * 2 ^ 24 <= v < 11 * 2 ^ 24 \/ 172 * 2 ^ 24 + 16 * 2 ^ 16 <= v < 172 * 2 ^ 24 + 32 * 2 ^ 16
  \/ 192 * 2 ^ 24 + 168 * 2 ^ 16 <= v < 192 * 2 ^ 24 + 169 * 2 ^ 16.

Lemma high_nibble_check :
  forallb (fun b => Bool.eqb (Z.land b 240 =? 16) ((16 <=? b) && (b <? 32))) (List.map Z.of_nat (seq 0 256)) = true.
Proof. vm_compute. reflexivity. Qed.

Lemma high_nibble b : byte_ok b -> Z.land b 240 = 16 <-> 16 <= b < 32.
Proof.
  intros Hb. pose proof high_nibble_check as H. rewrite forallb_forall in H.
  specialize (H b (in_below b 256 Hb)). apply Bool.eqb_prop in H.
  rewrite <- Z.eqb_eq, H, andb_true_iff, Z.leb_le, Z.ltb_lt. done.
Qed.

Lemma ula_check :
  forallb (fun b => Bool.eqb (Z.land b 254 =? 252) ((252 <=? b) && (b <? 254))) (List.map Z.of_nat (seq 0 256)) = true.
Proof. vm_compute. reflexivity. Qed.

Lemma ula_byte b : byte_ok b -> Z.land b 254 = 252 <-> 252 <= b < 254.
Proof.
  intros Hb. pose proof ula_check as H. rewrite forallb_forall in H.
  specialize (H b (in_below b 256 Hb)). apply Bool.eqb_prop in H.
  rewrite <- Z.eqb_eq, H, andb_true_iff, Z.leb_le, Z.ltb_lt. done.
Qed.

Lemma IsPrivate_four x : length x = 4%nat -> wf_ip x -> IsPrivate x = true <-> private4 (be x).
Proof.
  intros Hl Hw. unfold IsPrivate. rewrite To4_four by done.
  destruct x as [|b0 [|b1 [|b2 [|b3 [|]]]]]; try done. unfold wf_ip in Hw.
  repeat match goal with H : Forall _ (_ :: _) |- _ => inversion H; subst; clear H end.
  unfold byte_at. cbn [lookup list_lookup default from_option id].
  rewrite !orb_true_iff, !andb_true_iff, !Z.eqb_eq, high_nibble by done.
  unfold byte_ok in *. unfold private4, be. cbn [foldl]. lia.
Qed.

Lemma IsPrivate_sixteen x : length x = 16%nat -> To4 x = None -> wf_ip x ->
  IsPrivate x = true <-> 252 * space 15 <= be x < 254 * space 15.
Proof.
  intros Hl Ht Hw. unfold IsPrivate. rewrite Ht, Hl. cbn [Nat.eqb andb].
  destruct x as [|b0 r]; [done|]. cbn [length] in Hl. injection Hl as Hl. inversion Hw; subst.
  unfold byte_at. cbn [lookup list_lookup default from_option id]. rewrite Z.eqb_eq, ula_byte by done.
  rewrite be_cons, Hl. pose proof (be_range r ltac:(done)) as Hr. rewrite Hl in Hr. unfold byte_ok in *. nia.
Qed.

(** An aligned range with private ends is private throughout. *)
Lemma private4_range h base x : 0 <= h <= 32 -> base mod 2 ^ h = 0 -> private4 base -> private4 (base + 2 ^ h - 1) ->
  base <= x <= base + 2 ^ h - 1 -> private4 x.
Proof.
  intros Hh Hm Hb Hl Hx.
  assert (Hin : In h (List.map Z.of_nat (seq 0 33))) by (apply in_below; lia).
  assert (Hk : exists k, base = 2 ^ h * k) by (exists (base / 2 ^ h); pose proof (Z.div_mod base (2 ^ h) ltac:(apply Z.pow_nonzero; lia)); lia).
  destruct Hk as (k & ->). clear Hm Hh. unfold private4 in *.
  cbn [seq List.map] in Hin. repeat (destruct Hin as [<-|Hin]; [cbn -[Z.mul Z.add] in *; lia|]). destruct Hin.
Qed.

(** A network whose first and last address are private holds private addresses
    only. *)
Lemma private_net a ones x : wf_net a ones ->
  IsPrivate (net_ip (cidr a ones)) = true -> IsPrivate (broadcast_mask a ones) = true ->
  inside (cidr a ones) x -> IsPrivate x = true.
Proof.
  intros Hn Hb Hl Hin. destruct (inside_range a ones x Hn Hin) as [Hlx Hr]. destruct Hin as (Hx & Hcx & _).
  pose proof Hn as (Ha & Ho & Hc). rewrite <- (cidr_ip_length a ones) in Hlx.
  assert (Hbw : wf_ip (net_ip (cidr a ones))) by (by apply mask_wf).
  assert (Hlw : wf_ip (broadcast_mask a ones)) by (by apply broadcast_wf).
  destruct Hc as [H4|[H16 Ht]].
  - pose proof H4 as H4'. rewrite cidr_ip_length in H4'.
    rewrite IsPrivate_four in Hb by done. rewrite IsPrivate_four in Hl by (rewrite ?broadcast_length; done).
    rewrite IsPrivate_four by (congruence || done).
    rewrite be_broadcast in Hl, Hr by (done || lia). destruct (Z.leb_spec 0 ones); [|lia].
    cbn [net_ip cidr] in Hb, Hr. rewrite be_mask in Hb, Hr by done. rewrite H4' in *. unfold hostbits in *.
    change (8 * Z.of_nat 4) with 32 in *.
    apply (private4_range (32 - ones) (be a - be a mod 2 ^ (32 - ones))); try done; try lia.
    rewrite sub_mod_div by (apply Z.pow_pos_nonneg; lia). rewrite Z.mul_comm. apply Z_mod_mult.
  - rewrite H16 in Hlx. destruct Hcx as [?|[_ Htx]]; [lia|].
    rewrite IsPrivate_sixteen in Hb |- * by done.
    assert (Hll : length (broadcast_mask a ones) = 16%nat) by (rewrite broadcast_length, <- (cidr_ip_length a ones); done).
    destruct (To4 (broadcast_mask a ones)) as [v|] eqn:Et; [|rewrite IsPrivate_sixteen in Hl by done; lia].
    exfalso. unfold To4 in Et. rewrite Hll in Et. cbn [Nat.eqb andb] in Et.
    destruct (bool_decide _) eqn:Ed; [|done]. apply bool_decide_eq_true in Ed.
    rewrite <- (take_drop 12 (broadcast_mask a ones)), Ed in Hr, Hlw.
    assert (Hdl : length (drop 12 (broadcast_mask a ones)) = 4%nat) by (rewrite length_drop; lia).
    unfold v4InV6Prefix in Hr. cbn [app] in Hr. rewrite be_cons in Hr. cbn [length] in Hr. rewrite Hdl in Hr.
    assert (Hw' : wf_ip (0 :: 0 :: 0 :: 0 :: 0 :: 0 :: 0 :: 0 :: 0 :: 255 :: 255 :: drop 12 (broadcast_mask a ones)))
      by (by inversion Hlw).
    apply be_range in Hw'. cbn [length] in Hw'. rewrite Hdl in Hw'.
    pose proof (space_pos 15). lia.
Qed.
