(* ===== verification/Validate.v ===== *)
(** * internal/netutil/validate.go

    The validators every value passes before it is rendered into a file that
    a root daemon parses.  Each is the Go function with its early returns;
    the theorems say exactly which strings pass and that nothing that passes
    can leave the line or the quotes it is rendered into. *)

From S2P Require Import Prelude GoStrings Regex GoNet.

Local Open Scope Z_scope.

(** ** Patterns *)

Definition hex_class (a : ascii) : bool := is_digit a || in_range 97 102 a || in_range 65 70 a.
Definition hexPair : regex := RSeq (RCls hex_class) (RCls hex_class).

(** [^([0-9a-fA-F]{2}:){5}[0-9a-fA-F]{2}$] *)
Definition macRegex : regex := RSeq (rrep 5 (RSeq hexPair (rchar ":"))) hexPair.

Definition ifaceNameClass (a : ascii) : bool := is_alnum a || char_in "_.@-" a.
(** [^[A-Za-z0-9_.@-]+$] *)
Definition ifaceNameRegex : regex := rplus (RCls ifaceNameClass).

Definition ruleNameClass (a : ascii) : bool := is_alnum a || char_in " _.:/()-" a.
(** [^[A-Za-z0-9 _.:/()-]*$] *)
Definition ruleNameRegex : regex := RStar (RCls ruleNameClass).

Definition fsPathClass (a : ascii) : bool := is_alnum a || char_in "/._+~ -" a.
(** [^[A-Za-z0-9/._+~ -]+$] *)
Definition fsPathRegex : regex := rplus (RCls fsPathClass).

(** ** Validators *)

Local Open Scope go_scope.

Definition ValidateFilesystemPath (s : string) : result unit :=
  guard! fail_if (String.eqb s "") (Errorf "path is empty" []) ;;
  guard! fail_if (4096 <? len s) (Errorf "path is longer than 4096 characters" []) ;;
  fail_if (negb (matchb fsPathRegex s))
    (Errorf "path contains characters that are not allowed: %q" [s]).

Definition ValidateInterfaceName (s : string) : result unit :=
  guard! fail_if (String.eqb s "") (Errorf "interface name is empty" []) ;;
  guard! fail_if (15 <? len s)
    (Errorf "invalid interface name: %q (longer than 15 characters)" [s]) ;;
  fail_if (negb (matchb ifaceNameRegex s)) (Errorf "invalid interface name: %q" [s]).

Definition ValidateRuleName (s : string) : result unit :=
  guard! fail_if (64 <? len s) (Errorf "rule name is longer than 64 characters" []) ;;
  fail_if (negb (matchb ruleNameRegex s))
    (Errorf "rule name contains characters that are not allowed: %q" [s]).

Definition ValidateIP (s : string) : result unit :=
  match ParseIP s with
  | None => Err (Errorf "invalid IP address: %s" [s])
  | Some _ => Ok tt
  end.

Definition ValidateCIDR (s : string) : result unit :=
  match ParseCIDR s with
  | None => Err (Errorf "invalid CIDR: %s" [s])
  | Some _ => Ok tt
  end.

Definition ValidateMAC (s : string) : result unit :=
  fail_if (negb (matchb macRegex s)) (Errorf "invalid MAC address: %s" [s]).

Definition ValidatePort (port : Z) : result unit :=
  fail_if ((port <? 1) || (65535 <? port))
    (Errorf "invalid port: %d (must be 1-65535)" [itoa port]).

Definition ValidateVLANID (vid : Z) : result unit :=
  fail_if ((vid <? 1) || (4094 <? vid))
    (Errorf "invalid VLAN ID: %d (must be 1-4094)" [itoa vid]).

Definition ValidateMTU (mtu : Z) : result unit :=
  fail_if ((mtu <? 68) || (9000 <? mtu))
    (Errorf "invalid MTU: %d (must be 68-9000)" [itoa mtu]).

Definition ParseCIDRAddress (cidr : string) : result (string * Z) :=
  match cut_byte "/" cidr with
  | None => Err (Errorf "invalid CIDR: %s" [cidr])
  | Some (addr, mask) =>
      match ParseIP addr with
      | None => Err (Errorf "invalid IP in CIDR: %s" [addr])
      | Some _ =>
          match Atoi mask with
          | None => Err (Errorf "invalid prefix length in CIDR: %s" [mask])
          | Some p => if (p <? 0) || (128 <? p)
                      then Err (Errorf "invalid prefix length in CIDR: %s" [mask])
                      else Ok (addr, p)
          end
      end
  end.

(** ** What passes *)

(** Characters that carry no meaning to the parsers of the rendered files:
    no line break, quote, comment marker, separator or brace. *)
Definition inert_char (a : ascii) : bool :=
  in_range 32 126 a && negb (Ascii.eqb a dquote) && negb (char_in "#;{}\$`'" a).

Lemma ifaceNameClass_inert a : ifaceNameClass a = true -> inert_char a = true.
Proof. apply ascii_impl. vm_compute. reflexivity. Qed.

Lemma ruleNameClass_inert a : ruleNameClass a = true -> inert_char a = true.
Proof. apply ascii_impl. vm_compute. reflexivity. Qed.

Lemma fsPathClass_inert a : fsPathClass a = true -> inert_char a = true.
Proof. apply ascii_impl. vm_compute. reflexivity. Qed.

Lemma cidr_char_inert a : cidr_char a = true -> inert_char a = true.
Proof. apply ascii_impl. vm_compute. reflexivity. Qed.

Lemma addr_char_inert a : addr_char a = true -> inert_char a = true.
Proof. intros H. by apply cidr_char_inert, addr_cidr_char. Qed.

Lemma ValidateInterfaceName_iff s :
  ValidateInterfaceName s = Ok tt <-> s <> "" /\ len s <= 15 /\ all_chars ifaceNameClass s = true.
Proof.
  unfold ValidateInterfaceName, ifaceNameRegex. rewrite matchb_plus_cls.
  destruct (String.eqb_spec s "") as [->|Hs]; simpl; [naive_solver |].
  destruct (15 <? len s) eqn:El; bool_hyps; simpl; [split; [done | lia] |].
  destruct (all_chars ifaceNameClass s); simpl; naive_solver.
Qed.

Lemma ValidateRuleName_iff s :
  ValidateRuleName s = Ok tt <-> len s <= 64 /\ all_chars ruleNameClass s = true.
Proof.
  unfold ValidateRuleName, ruleNameRegex. rewrite matchb_star_cls.
  destruct (64 <? len s) eqn:El; bool_hyps; simpl; [split; [done | lia] |].
  destruct (all_chars ruleNameClass s); simpl; naive_solver.
Qed.

Lemma ValidateFilesystemPath_iff s :
  ValidateFilesystemPath s = Ok tt <-> s <> "" /\ len s <= 4096 /\ all_chars fsPathClass s = true.
Proof.
  unfold ValidateFilesystemPath, fsPathRegex. rewrite matchb_plus_cls.
  destruct (String.eqb_spec s "") as [->|Hs]; simpl; [naive_solver |].
  destruct (4096 <? len s) eqn:El; bool_hyps; simpl; [split; [done | lia] |].
  destruct (all_chars fsPathClass s); simpl; naive_solver.
Qed.

Lemma ValidatePort_iff p : ValidatePort p = Ok tt <-> 1 <= p <= 65535.
Proof.
  unfold ValidatePort. rewrite fail_if_Ok.
  destruct (Z.ltb_spec p 1), (Z.ltb_spec 65535 p); simpl; split; intros; try done; lia.
Qed.

Lemma ValidateInterfaceName_inert s :
  ValidateInterfaceName s = Ok tt -> all_chars inert_char s = true.
Proof.
  rewrite ValidateInterfaceName_iff. intros (_ & _ & H).
  by eapply all_chars_impl; [apply ifaceNameClass_inert |].
Qed.

Lemma ValidateRuleName_inert s : ValidateRuleName s = Ok tt -> all_chars inert_char s = true.
Proof.
  rewrite ValidateRuleName_iff. intros (_ & H).
  by eapply all_chars_impl; [apply ruleNameClass_inert |].
Qed.

Lemma ValidateIP_chars s : ValidateIP s = Ok tt -> all_chars addr_char s = true.
Proof.
  unfold ValidateIP. destruct (ParseIP s) eqn:E; [| done]. intros _. by eapply ParseIP_chars.
Qed.

Lemma ValidateCIDR_chars s : ValidateCIDR s = Ok tt -> all_chars cidr_char s = true.
Proof.
  unfold ValidateCIDR. destruct (ParseCIDR s) eqn:E; [| done]. intros _. by eapply ParseCIDR_chars.
Qed.

(** What [ValidateMAC] accepts: six hexadecimal pairs, joined by colons. *)
Definition mac_pair (s : string) : bool :=
  match s with
  | String a (String b "") => hex_class a && hex_class b
  | _ => false
  end.

Lemma hexPair_lang s : lang hexPair s <-> mac_pair s = true.
Proof.
  split.
  - intros H. inversion H as [| | | | ? ? u v Hu Hv | |]; subst.
    inversion Hu; subst. inversion Hv; subst. simpl. apply andb_true_intro. auto.
  - destruct s as [|a [|b []]]; try done. simpl. intros H. bool_hyps.
    change (String a (String b "")) with (char_str a +:+ char_str b). by repeat constructor.
Qed.

Lemma mac_pair_no_colon s : mac_pair s = true -> has_char ":" s = false.
Proof.
  destruct s as [|a [|b []]]; try done. simpl. intros H. bool_hyps.
  assert (forall c, hex_class c = true -> Ascii.eqb c ":" = false) as Hc.
  { intros c Hh. destruct (Ascii.eqb_spec c ":") as [->|]; [discriminate Hh | done]. }
  by rewrite !Hc.
Qed.

(** A run of [n] hexadecimal pairs, each followed by a colon, then [rest]:
    splitting at the colons gives the pairs back. *)
Lemma mac_run_split n s rest :
  lang (rrep n (RSeq hexPair (rchar ":"))) s ->
  exists l, length l = n /\ Forall (fun p => mac_pair p = true) l /\
            split_byte ":" (s +:+ rest) = l ++ split_byte ":" rest.
Proof.
  revert s. induction n as [|n IH]; intros s H; simpl in H.
  - inversion H; subst. by exists [].
  - inversion H as [| | | | ? ? u v Hu Hv | |]; subst. destruct (IH _ Hv) as (l & Hl & Hp & Hs).
    inversion Hu as [| | | | ? ? p c Hpair Hc | |]; subst. inversion Hc as [|? a Ha | | | | |]; subst.
    apply Ascii.eqb_eq in Ha. subst a. apply hexPair_lang in Hpair.
    exists (p :: l). split; [simpl; lia |]. split; [by constructor |].
    rewrite !append_assoc. change (char_str ":" +:+ v +:+ rest) with (String ":" (v +:+ rest)).
    rewrite split_byte_append by (by apply mac_pair_no_colon). by rewrite Hs.
Qed.

Lemma mac_run_join l rest :
  Forall (fun p => mac_pair p = true) l -> lang hexPair rest ->
  lang (RSeq (rrep (length l) (RSeq hexPair (rchar ":"))) hexPair)
       (join ":" (l ++ [rest])).
Proof.
  intros Hl Hr. induction Hl as [|p l Hp Hl IH].
  - change (join ":" ([] ++ [rest])) with ("" +:+ rest). repeat constructor. done.
  - rewrite <- app_comm_cons, join_cons by (by destruct l).
    inversion IH as [| | | | ? ? u v Hu Hv E | |]; subst.
    rewrite <- !append_assoc. constructor; [| done]. simpl.
    rewrite append_assoc. rewrite <- append_assoc. constructor; [| done].
    constructor; [by apply hexPair_lang |]. by apply (LCls _ ":"%char).
Qed.

Lemma ValidateMAC_iff s :
  ValidateMAC s = Ok tt <->
  length (split_byte ":" s) = 6%nat /\ Forall (fun p => mac_pair p = true) (split_byte ":" s).
Proof.
  unfold ValidateMAC. rewrite fail_if_Ok, negb_false_iff, matchb_lang. unfold macRegex. split.
  - intros H. inversion H as [| | | | ? ? u v Hu Hv | |]; subst.
    destruct (mac_run_split 5 u v Hu) as (l & Hl & Hp & ->).
    apply hexPair_lang in Hv. rewrite (split_byte_none ":" v) by (by apply mac_pair_no_colon).
    rewrite length_app, Hl. split; [done |]. apply Forall_app. by repeat constructor.
  - intros [Hlen Hall].
    destruct (split_byte ":" s) as [|a [|b [|c [|d [|e [|f []]]]]]] eqn:E; try done.
    rewrite <- (join_split ":" s), E.
    change [a; b; c; d; e; f] with ([a; b; c; d; e] ++ [f]) in Hall |- *.
    apply Forall_app in Hall as [Hl Hf]. inversion Hf; subst.
    apply (mac_run_join [a; b; c; d; e] f); [done |]. by apply hexPair_lang.
Qed.

Lemma ParseCIDRAddress_spec cidr addr p :
  ParseCIDRAddress cidr = Ok (addr, p) ->
  exists mask, cidr = addr +:+ String "/" mask /\ has_char "/" addr = false
    /\ ValidateIP addr = Ok tt /\ Atoi mask = Some p /\ 0 <= p <= 128.
Proof.
  unfold ParseCIDRAddress, ValidateIP.
  destruct (cut_byte "/" cidr) as [[h t]|] eqn:Ec; [| done].
  destruct (ParseIP h) eqn:Ei; [| done]. destruct (Atoi t) as [q|] eqn:Ea; [| done].
  destruct ((q <? 0) || (128 <? q)) eqn:Er; [done |]. intros [= <- <-].
  apply cut_byte_Some in Ec as [-> Hh]. exists t. rewrite Ei. bool_hyps. repeat split; done || lia.
Qed.
