(* ===== verification/ConfigTypes.v ===== *)
(** * internal/config/config.go: the configuration

    Every struct of the router.yaml schema as a record with the source's field
    names (prefixed by the struct's name), its zero value, and the field
    assignments the services perform.  A [time.Time] is a number of
    nanoseconds since the Unix epoch. *)

From S2P Require Import Prelude GoTime.

Local Open Scope Z_scope.

(** ** Structs *)

Record SelfSignedConfig : Type := mkSelfSignedConfig {
  SelfSignedConfig_CN : string;
  SelfSignedConfig_ValidDays : Z;
  SelfSignedConfig_SANs : list string
}.
Definition SelfSignedConfig_zero : SelfSignedConfig :=
  {| SelfSignedConfig_CN := "";
     SelfSignedConfig_ValidDays := 0;
     SelfSignedConfig_SANs := [] |}.

Record DNSChallengeConfig : Type := mkDNSChallengeConfig {
  DNSChallengeConfig_Provider : string;
  DNSChallengeConfig_APIToken : string
}.
Definition DNSChallengeConfig_zero : DNSChallengeConfig :=
  {| DNSChallengeConfig_Provider := "";
     DNSChallengeConfig_APIToken := "" |}.

Record ACMEConfig : Type := mkACMEConfig {
  ACMEConfig_Enabled : bool;
  ACMEConfig_Email : string;
  ACMEConfig_Domain : string;
  ACMEConfig_Provider : string;
  ACMEConfig_DirectoryURL : string;
  ACMEConfig_DNSChallenge : DNSChallengeConfig
}.
Definition ACMEConfig_zero : ACMEConfig :=
  {| ACMEConfig_Enabled := false;
     ACMEConfig_Email := "";
     ACMEConfig_Domain := "";
     ACMEConfig_Provider := "";
     ACMEConfig_DirectoryURL := "";
     ACMEConfig_DNSChallenge := DNSChallengeConfig_zero |}.

Record MkcertConfig : Type := mkMkcertConfig {
  MkcertConfig_SANs : list string
}.
Definition MkcertConfig_zero : MkcertConfig :=
  {| MkcertConfig_SANs := [] |}.

Record TLSConfig : Type := mkTLSConfig {
  TLSConfig_Mode : string;
  TLSConfig_CertFile : string;
  TLSConfig_KeyFile : string;
  TLSConfig_SelfSigned : SelfSignedConfig;
  TLSConfig_ACME : ACMEConfig;
  TLSConfig_Mkcert : MkcertConfig
}.
Definition TLSConfig_zero : TLSConfig :=
  {| TLSConfig_Mode := "";
     TLSConfig_CertFile := "";
     TLSConfig_KeyFile := "";
     TLSConfig_SelfSigned := SelfSignedConfig_zero;
     TLSConfig_ACME := ACMEConfig_zero;
     TLSConfig_Mkcert := MkcertConfig_zero |}.

Record SystemConfig : Type := mkSystemConfig {
  SystemConfig_Hostname : string;
  SystemConfig_Timezone : string;
  SystemConfig_Language : string;
  SystemConfig_AdminPasswordHash : string;
  SystemConfig_SessionSecret : string;
  SystemConfig_Domain : string;
  SystemConfig_WebPort : Z;
  SystemConfig_WebBind : string;
  SystemConfig_TLS : TLSConfig
}.
Definition SystemConfig_zero : SystemConfig :=
  {| SystemConfig_Hostname := "";
     SystemConfig_Timezone := "";
     SystemConfig_Language := "";
     SystemConfig_AdminPasswordHash := "";
     SystemConfig_SessionSecret := "";
     SystemConfig_Domain := "";
     SystemConfig_WebPort := 0;
     SystemConfig_WebBind := "";
     SystemConfig_TLS := TLSConfig_zero |}.

Record InterfaceConfig : Type := mkInterfaceConfig {
  InterfaceConfig_ID : string;
  InterfaceConfig_Device : string;
  InterfaceConfig_Label : string;
  InterfaceConfig_Role : string;
  InterfaceConfig_Type : string;
  InterfaceConfig_Address : string;
  InterfaceConfig_Address6 : string;
  InterfaceConfig_MTU : Z;
  InterfaceConfig_MAC : string;
  InterfaceConfig_CloneMAC : string;
  InterfaceConfig_IPv6 : string
}.
Definition InterfaceConfig_zero : InterfaceConfig :=
  {| InterfaceConfig_ID := "";
     InterfaceConfig_Device := "";
     InterfaceConfig_Label := "";
     InterfaceConfig_Role := "";
     InterfaceConfig_Type := "";
     InterfaceConfig_Address := "";
     InterfaceConfig_Address6 := "";
     InterfaceConfig_MTU := 0;
     InterfaceConfig_MAC := "";
     InterfaceConfig_CloneMAC := "";
     InterfaceConfig_IPv6 := "" |}.

Record VLANDHCPConfig : Type := mkVLANDHCPConfig {
  VLANDHCPConfig_Enabled : bool;
  VLANDHCPConfig_RangeStart : string;
  VLANDHCPConfig_RangeEnd : string;
  VLANDHCPConfig_LeaseTime : string
}.
Definition VLANDHCPConfig_zero : VLANDHCPConfig :=
  {| VLANDHCPConfig_Enabled := false;
     VLANDHCPConfig_RangeStart := "";
     VLANDHCPConfig_RangeEnd := "";
     VLANDHCPConfig_LeaseTime := "" |}.

Record VLANConfig : Type := mkVLANConfig {
  VLANConfig_ID : string;
  VLANConfig_Parent : string;
  VLANConfig_VID : Z;
  VLANConfig_Label : string;
  VLANConfig_Role : string;
  VLANConfig_Type : string;
  VLANConfig_Address : string;
  VLANConfig_MTU : Z;
  VLANConfig_Isolated : bool;
  VLANConfig_DHCP : VLANDHCPConfig
}.
Definition VLANConfig_zero : VLANConfig :=
  {| VLANConfig_ID := "";
     VLANConfig_Parent := "";
     VLANConfig_VID := 0;
     VLANConfig_Label := "";
     VLANConfig_Role := "";
     VLANConfig_Type := "";
     VLANConfig_Address := "";
     VLANConfig_MTU := 0;
     VLANConfig_Isolated := false;
     VLANConfig_DHCP := VLANDHCPConfig_zero |}.

Record HealthCheckTarget : Type := mkHealthCheckTarget {
  HealthCheckTarget_Type : string;
  HealthCheckTarget_Host : string;
  HealthCheckTarget_URL : string;
  HealthCheckTarget_ExpectStatus : Z
}.
Definition HealthCheckTarget_zero : HealthCheckTarget :=
  {| HealthCheckTarget_Type := "";
     HealthCheckTarget_Host := "";
     HealthCheckTarget_URL := "";
     HealthCheckTarget_ExpectStatus := 0 |}.

Record HealthCheckAction : Type := mkHealthCheckAction {
  HealthCheckAction_Type : string;
  HealthCheckAction_Delay : string
}.
Definition HealthCheckAction_zero : HealthCheckAction :=
  {| HealthCheckAction_Type := "";
     HealthCheckAction_Delay := "" |}.

Record HealthCheckEntry : Type := mkHealthCheckEntry {
  HealthCheckEntry_Name : string;
  HealthCheckEntry_Interface : string;
  HealthCheckEntry_Targets : list HealthCheckTarget;
  HealthCheckEntry_Interval : string;
  HealthCheckEntry_Timeout : string;
  HealthCheckEntry_FailureThreshold : Z;
  HealthCheckEntry_Actions : list HealthCheckAction;
  HealthCheckEntry_Cooldown : string
}.
Definition HealthCheckEntry_zero : HealthCheckEntry :=
  {| HealthCheckEntry_Name := "";
     HealthCheckEntry_Interface := "";
     HealthCheckEntry_Targets := [];
     HealthCheckEntry_Interval := "";
     HealthCheckEntry_Timeout := "";
     HealthCheckEntry_FailureThreshold := 0;
     HealthCheckEntry_Actions := [];
     HealthCheckEntry_Cooldown := "" |}.

Record HealthCheckConfig : Type := mkHealthCheckConfig {
  HealthCheckConfig_Enabled : bool;
  HealthCheckConfig_Checks : list HealthCheckEntry
}.
Definition HealthCheckConfig_zero : HealthCheckConfig :=
  {| HealthCheckConfig_Enabled := false;
     HealthCheckConfig_Checks := [] |}.

Record PPPoEConfig : Type := mkPPPoEConfig {
  PPPoEConfig_Username : string;
  PPPoEConfig_Password : string;
  PPPoEConfig_MTU : Z;
  PPPoEConfig_MRU : Z;
  PPPoEConfig_LCPEchoInterval : Z;
  PPPoEConfig_LCPEchoFailure : Z;
  PPPoEConfig_Persist : bool;
  PPPoEConfig_Holdoff : Z;
  PPPoEConfig_IPv6CP : bool
}.
Definition PPPoEConfig_zero : PPPoEConfig :=
  {| PPPoEConfig_Username := "";
     PPPoEConfig_Password := "";
     PPPoEConfig_MTU := 0;
     PPPoEConfig_MRU := 0;
     PPPoEConfig_LCPEchoInterval := 0;
     PPPoEConfig_LCPEchoFailure := 0;
     PPPoEConfig_Persist := false;
     PPPoEConfig_Holdoff := 0;
     PPPoEConfig_IPv6CP := false |}.

Record USBTetherConfig : Type := mkUSBTetherConfig {
  USBTetherConfig_Enabled : bool;
  USBTetherConfig_AutoFailover : bool;
  USBTetherConfig_Interface : string;
  USBTetherConfig_Metric : Z;
  USBTetherConfig_NAT : bool
}.
Definition USBTetherConfig_zero : USBTetherConfig :=
  {| USBTetherConfig_Enabled := false;
     USBTetherConfig_AutoFailover := false;
     USBTetherConfig_Interface := "";
     USBTetherConfig_Metric := 0;
     USBTetherConfig_NAT := false |}.

Record TTLFixConfig : Type := mkTTLFixConfig {
  TTLFixConfig_Enabled : bool;
  TTLFixConfig_Value : Z
}.
Definition TTLFixConfig_zero : TTLFixConfig :=
  {| TTLFixConfig_Enabled := false;
     TTLFixConfig_Value := 0 |}.

Record OpenPort : Type := mkOpenPort {
  OpenPort_Name : string;
  OpenPort_Protocol : string;
  OpenPort_Port : Z;
  OpenPort_Source : string;
  OpenPort_Enabled : bool;
  OpenPort_RateLimit : string
}.
Definition OpenPort_zero : OpenPort :=
  {| OpenPort_Name := "";
     OpenPort_Protocol := "";
     OpenPort_Port := 0;
     OpenPort_Source := "";
     OpenPort_Enabled := false;
     OpenPort_RateLimit := "" |}.

Record PortForward : Type := mkPortForward {
  PortForward_Name : string;
  PortForward_Protocol : string;
  PortForward_ExtPort : Z;
  PortForward_IntIP : string;
  PortForward_IntPort : Z;
  PortForward_Enabled : bool
}.
Definition PortForward_zero : PortForward :=
  {| PortForward_Name := "";
     PortForward_Protocol := "";
     PortForward_ExtPort := 0;
     PortForward_IntIP := "";
     PortForward_IntPort := 0;
     PortForward_Enabled := false |}.

Record FirewallRule : Type := mkFirewallRule {
  FirewallRule_Name : string;
  FirewallRule_Chain : string;
  FirewallRule_Action : string;
  FirewallRule_SrcIP : string;
  FirewallRule_DstIP : string;
  FirewallRule_Protocol : string;
  FirewallRule_Port : Z;
  FirewallRule_Interface : string;
  FirewallRule_Direction : string;
  FirewallRule_Enabled : bool;
  FirewallRule_Priority : Z
}.
Definition FirewallRule_zero : FirewallRule :=
  {| FirewallRule_Name := "";
     FirewallRule_Chain := "";
     FirewallRule_Action := "";
     FirewallRule_SrcIP := "";
     FirewallRule_DstIP := "";
     FirewallRule_Protocol := "";
     FirewallRule_Port := 0;
     FirewallRule_Interface := "";
     FirewallRule_Direction := "";
     FirewallRule_Enabled := false;
     FirewallRule_Priority := 0 |}.

Record FirewallConfig : Type := mkFirewallConfig {
  FirewallConfig_DefaultPolicy : string;
  FirewallConfig_TTLFix : TTLFixConfig;
  FirewallConfig_OpenPorts : list OpenPort;
  FirewallConfig_PortForwards : list PortForward;
  FirewallConfig_Rules : list FirewallRule
}.
Definition FirewallConfig_zero : FirewallConfig :=
  {| FirewallConfig_DefaultPolicy := "";
     FirewallConfig_TTLFix := TTLFixConfig_zero;
     FirewallConfig_OpenPorts := [];
     FirewallConfig_PortForwards := [];
     FirewallConfig_Rules := [] |}.

Record QoSConfig : Type := mkQoSConfig {
  QoSConfig_Enabled : bool;
  QoSConfig_Profile : string;
  QoSConfig_UploadKbps : Z;
  QoSConfig_DownloadKbps : Z;
  QoSConfig_CongestionControl : string;
  QoSConfig_PerDeviceLimits : gmap string Z
}.
Definition QoSConfig_zero : QoSConfig :=
  {| QoSConfig_Enabled := false;
     QoSConfig_Profile := "";
     QoSConfig_UploadKbps := 0;
     QoSConfig_DownloadKbps := 0;
     QoSConfig_CongestionControl := "";
     QoSConfig_PerDeviceLimits := ∅ |}.

Record QueryLogConfig : Type := mkQueryLogConfig {
  QueryLogConfig_Enabled : bool;
  QueryLogConfig_LogPath : string;
  QueryLogConfig_MaxSize : string;
  QueryLogConfig_Retention : string
}.
Definition QueryLogConfig_zero : QueryLogConfig :=
  {| QueryLogConfig_Enabled := false;
     QueryLogConfig_LogPath := "";
     QueryLogConfig_MaxSize := "";
     QueryLogConfig_Retention := "" |}.

Record StaticDNSRecord : Type := mkStaticDNSRecord {
  StaticDNSRecord_Name : string;
  StaticDNSRecord_IP : string;
  StaticDNSRecord_LocalZone : bool;
  StaticDNSRecord_Source : string;
  StaticDNSRecord_DisableAutoPTR : bool
}.
Definition StaticDNSRecord_zero : StaticDNSRecord :=
  {| StaticDNSRecord_Name := "";
     StaticDNSRecord_IP := "";
     StaticDNSRecord_LocalZone := false;
     StaticDNSRecord_Source := "";
     StaticDNSRecord_DisableAutoPTR := false |}.

Record DNSConfig : Type := mkDNSConfig {
  DNSConfig_Upstream : list string;
  DNSConfig_DoTUpstream : string;
  DNSConfig_EnableDoT : bool;
  DNSConfig_EnableDoH : bool;
  DNSConfig_DoHUpstream : string;
  DNSConfig_BlocklistURLs : list string;
  DNSConfig_BlocklistUpdateSchedule : string;
  DNSConfig_CacheSize : Z;
  DNSConfig_QueryLog : QueryLogConfig;
  DNSConfig_StaticRecords : list StaticDNSRecord
}.
Definition DNSConfig_zero : DNSConfig :=
  {| DNSConfig_Upstream := [];
     DNSConfig_DoTUpstream := "";
     DNSConfig_EnableDoT := false;
     DNSConfig_EnableDoH := false;
     DNSConfig_DoHUpstream := "";
     DNSConfig_BlocklistURLs := [];
     DNSConfig_BlocklistUpdateSchedule := "";
     DNSConfig_CacheSize := 0;
     DNSConfig_QueryLog := QueryLogConfig_zero;
     DNSConfig_StaticRecords := [] |}.

Record StaticLease : Type := mkStaticLease {
  StaticLease_MAC : string;
  StaticLease_IP : string;
  StaticLease_Hostname : string
}.
Definition StaticLease_zero : StaticLease :=
  {| StaticLease_MAC := "";
     StaticLease_IP := "";
     StaticLease_Hostname := "" |}.

Record DHCPConfig : Type := mkDHCPConfig {
  DHCPConfig_RangeStart : string;
  DHCPConfig_RangeEnd : string;
  DHCPConfig_LeaseTime : string;
  DHCPConfig_Gateway : string;
  DHCPConfig_DNSServer : string;
  DHCPConfig_StaticLeases : list StaticLease
}.
Definition DHCPConfig_zero : DHCPConfig :=
  {| DHCPConfig_RangeStart := "";
     DHCPConfig_RangeEnd := "";
     DHCPConfig_LeaseTime := "";
     DHCPConfig_Gateway := "";
     DHCPConfig_DNSServer := "";
     DHCPConfig_StaticLeases := [] |}.

Record IPv6WANConfig : Type := mkIPv6WANConfig {
  IPv6WANConfig_AcceptRA : bool;
  IPv6WANConfig_RequestPrefix : bool;
  IPv6WANConfig_PrefixHint : string;
  IPv6WANConfig_RapidCommit : bool
}.
Definition IPv6WANConfig_zero : IPv6WANConfig :=
  {| IPv6WANConfig_AcceptRA := false;
     IPv6WANConfig_RequestPrefix := false;
     IPv6WANConfig_PrefixHint := "";
     IPv6WANConfig_RapidCommit := false |}.

Record IPv6ULAConfig : Type := mkIPv6ULAConfig {
  IPv6ULAConfig_Enabled : bool;
  IPv6ULAConfig_Prefix : string
}.
Definition IPv6ULAConfig_zero : IPv6ULAConfig :=
  {| IPv6ULAConfig_Enabled := false;
     IPv6ULAConfig_Prefix := "" |}.

Record IPv6LANConfig : Type := mkIPv6LANConfig {
  IPv6LANConfig_Mode : string;
  IPv6LANConfig_ULA : IPv6ULAConfig;
  IPv6LANConfig_RAInterval : Z;
  IPv6LANConfig_RDNSS : bool;
  IPv6LANConfig_SubnetMap : gmap string Z
}.
Definition IPv6LANConfig_zero : IPv6LANConfig :=
  {| IPv6LANConfig_Mode := "";
     IPv6LANConfig_ULA := IPv6ULAConfig_zero;
     IPv6LANConfig_RAInterval := 0;
     IPv6LANConfig_RDNSS := false;
     IPv6LANConfig_SubnetMap := ∅ |}.

Record IPv6TunnelConfig : Type := mkIPv6TunnelConfig {
  IPv6TunnelConfig_Provider : string;
  IPv6TunnelConfig_ServerIPv4 : string;
  IPv6TunnelConfig_ClientIPv6 : string;
  IPv6TunnelConfig_RoutedPrefix : string;
  IPv6TunnelConfig_TunnelID : string;
  IPv6TunnelConfig_Username : string;
  IPv6TunnelConfig_UpdateKey : string;
  IPv6TunnelConfig_AutoUpdate : bool;
  IPv6TunnelConfig_Device : string
}.
Definition IPv6TunnelConfig_zero : IPv6TunnelConfig :=
  {| IPv6TunnelConfig_Provider := "";
     IPv6TunnelConfig_ServerIPv4 := "";
     IPv6TunnelConfig_ClientIPv6 := "";
     IPv6TunnelConfig_RoutedPrefix := "";
     IPv6TunnelConfig_TunnelID := "";
     IPv6TunnelConfig_Username := "";
     IPv6TunnelConfig_UpdateKey := "";
     IPv6TunnelConfig_AutoUpdate := false;
     IPv6TunnelConfig_Device := "" |}.

Record IPv6Config : Type := mkIPv6Config {
  IPv6Config_Enabled : string;
  IPv6Config_Mode : string;
  IPv6Config_WAN : IPv6WANConfig;
  IPv6Config_LAN : IPv6LANConfig;
  IPv6Config_Tunnel : IPv6TunnelConfig;
  IPv6Config_Privacy : bool
}.
Definition IPv6Config_zero : IPv6Config :=
  {| IPv6Config_Enabled := "";
     IPv6Config_Mode := "";
     IPv6Config_WAN := IPv6WANConfig_zero;
     IPv6Config_LAN := IPv6LANConfig_zero;
     IPv6Config_Tunnel := IPv6TunnelConfig_zero;
     IPv6Config_Privacy := false |}.

Record WGClientTunnel : Type := mkWGClientTunnel {
  WGClientTunnel_Name : string;
  WGClientTunnel_Endpoint : string;
  WGClientTunnel_PrivateKey : string;
  WGClientTunnel_PublicKey : string;
  WGClientTunnel_AllowedIPs : string;
  WGClientTunnel_DNS : string;
  WGClientTunnel_Table : Z;
  WGClientTunnel_Fwmark : Z;
  WGClientTunnel_Address : string;
  WGClientTunnel_MTU : Z;
  WGClientTunnel_PresharedKey : string;
  WGClientTunnel_Keepalive : Z
}.
Definition WGClientTunnel_zero : WGClientTunnel :=
  {| WGClientTunnel_Name := "";
     WGClientTunnel_Endpoint := "";
     WGClientTunnel_PrivateKey := "";
     WGClientTunnel_PublicKey := "";
     WGClientTunnel_AllowedIPs := "";
     WGClientTunnel_DNS := "";
     WGClientTunnel_Table := 0;
     WGClientTunnel_Fwmark := 0;
     WGClientTunnel_Address := "";
     WGClientTunnel_MTU := 0;
     WGClientTunnel_PresharedKey := "";
     WGClientTunnel_Keepalive := 0 |}.

Record WGServerPeer : Type := mkWGServerPeer {
  WGServerPeer_Name : string;
  WGServerPeer_PublicKey : string;
  WGServerPeer_PrivateKey : string;
  WGServerPeer_PresharedKey : string;
  WGServerPeer_AllowedIPs : string;
  WGServerPeer_Keepalive : Z;
  WGServerPeer_Endpoint : string;
  WGServerPeer_RemoteSubnets : list string;
  WGServerPeer_IsSiteToSite : bool;
  WGServerPeer_Pending : bool;
  WGServerPeer_InviteExpiresAt : Z
}.
Definition WGServerPeer_zero : WGServerPeer :=
  {| WGServerPeer_Name := "";
     WGServerPeer_PublicKey := "";
     WGServerPeer_PrivateKey := "";
     WGServerPeer_PresharedKey := "";
     WGServerPeer_AllowedIPs := "";
     WGServerPeer_Keepalive := 0;
     WGServerPeer_Endpoint := "";
     WGServerPeer_RemoteSubnets := [];
     WGServerPeer_IsSiteToSite := false;
     WGServerPeer_Pending := false;
     WGServerPeer_InviteExpiresAt := zero_time |}.

Record WGServerConfig : Type := mkWGServerConfig {
  WGServerConfig_Enabled : bool;
  WGServerConfig_ListenPort : Z;
  WGServerConfig_PrivateKey : string;
  WGServerConfig_PublicKey : string;
  WGServerConfig_Address : string;
  WGServerConfig_Address6 : string;
  WGServerConfig_DNS : string;
  WGServerConfig_PostUp : string;
  WGServerConfig_PostDown : string;
  WGServerConfig_MTU : Z;
  WGServerConfig_PublicEndpoint : string;
  WGServerConfig_Peers : list WGServerPeer
}.
Definition WGServerConfig_zero : WGServerConfig :=
  {| WGServerConfig_Enabled := false;
     WGServerConfig_ListenPort := 0;
     WGServerConfig_PrivateKey := "";
     WGServerConfig_PublicKey := "";
     WGServerConfig_Address := "";
     WGServerConfig_Address6 := "";
     WGServerConfig_DNS := "";
     WGServerConfig_PostUp := "";
     WGServerConfig_PostDown := "";
     WGServerConfig_MTU := 0;
     WGServerConfig_PublicEndpoint := "";
     WGServerConfig_Peers := [] |}.

Record VPNConfig : Type := mkVPNConfig {
  VPNConfig_Clients : list WGClientTunnel;
  VPNConfig_Server : WGServerConfig;
  VPNConfig_DeviceAssignments : gmap string string
}.
Definition VPNConfig_zero : VPNConfig :=
  {| VPNConfig_Clients := [];
     VPNConfig_Server := WGServerConfig_zero;
     VPNConfig_DeviceAssignments := ∅ |}.

Record OVPNClientConfig : Type := mkOVPNClientConfig {
  OVPNClientConfig_Name : string;
  OVPNClientConfig_ConfigFile : string;
  OVPNClientConfig_RemoteHost : string;
  OVPNClientConfig_RemotePort : Z;
  OVPNClientConfig_Protocol : string;
  OVPNClientConfig_Cipher : string;
  OVPNClientConfig_Auth : string;
  OVPNClientConfig_TLSAuth : bool;
  OVPNClientConfig_Username : string;
  OVPNClientConfig_Password : string;
  OVPNClientConfig_Table : Z;
  OVPNClientConfig_Fwmark : Z
}.
Definition OVPNClientConfig_zero : OVPNClientConfig :=
  {| OVPNClientConfig_Name := "";
     OVPNClientConfig_ConfigFile := "";
     OVPNClientConfig_RemoteHost := "";
     OVPNClientConfig_RemotePort := 0;
     OVPNClientConfig_Protocol := "";
     OVPNClientConfig_Cipher := "";
     OVPNClientConfig_Auth := "";
     OVPNClientConfig_TLSAuth := false;
     OVPNClientConfig_Username := "";
     OVPNClientConfig_Password := "";
     OVPNClientConfig_Table := 0;
     OVPNClientConfig_Fwmark := 0 |}.

Record OVPNClientEntry : Type := mkOVPNClientEntry {
  OVPNClientEntry_Name : string;
  OVPNClientEntry_CommonName : string;
  OVPNClientEntry_FixedIP : string;
  OVPNClientEntry_Enabled : bool;
  OVPNClientEntry_IsSiteToSite : bool;
  OVPNClientEntry_RemoteSubnets : list string
}.
Definition OVPNClientEntry_zero : OVPNClientEntry :=
  {| OVPNClientEntry_Name := "";
     OVPNClientEntry_CommonName := "";
     OVPNClientEntry_FixedIP := "";
     OVPNClientEntry_Enabled := false;
     OVPNClientEntry_IsSiteToSite := false;
     OVPNClientEntry_RemoteSubnets := [] |}.

Record OVPNServerConfig : Type := mkOVPNServerConfig {
  OVPNServerConfig_Enabled : bool;
  OVPNServerConfig_Protocol : string;
  OVPNServerConfig_Port : Z;
  OVPNServerConfig_Device : string;
  OVPNServerConfig_Subnet : string;
  OVPNServerConfig_Subnet6 : string;
  OVPNServerConfig_DNS : string;
  OVPNServerConfig_Cipher : string;
  OVPNServerConfig_Auth : string;
  OVPNServerConfig_TLSAuth : bool;
  OVPNServerConfig_Compression : bool;
  OVPNServerConfig_MaxClients : Z;
  OVPNServerConfig_Keepalive : string;
  OVPNServerConfig_ClientToClient : bool;
  OVPNServerConfig_DuplicateCN : bool;
  OVPNServerConfig_PublicEndpoint : string;
  OVPNServerConfig_Clients : list OVPNClientEntry;
  OVPNServerConfig_CCD : gmap string string
}.
Definition OVPNServerConfig_zero : OVPNServerConfig :=
  {| OVPNServerConfig_Enabled := false;
     OVPNServerConfig_Protocol := "";
     OVPNServerConfig_Port := 0;
     OVPNServerConfig_Device := "";
     OVPNServerConfig_Subnet := "";
     OVPNServerConfig_Subnet6 := "";
     OVPNServerConfig_DNS := "";
     OVPNServerConfig_Cipher := "";
     OVPNServerConfig_Auth := "";
     OVPNServerConfig_TLSAuth := false;
     OVPNServerConfig_Compression := false;
     OVPNServerConfig_MaxClients := 0;
     OVPNServerConfig_Keepalive := "";
     OVPNServerConfig_ClientToClient := false;
     OVPNServerConfig_DuplicateCN := false;
     OVPNServerConfig_PublicEndpoint := "";
     OVPNServerConfig_Clients := [];
     OVPNServerConfig_CCD := ∅ |}.

Record OpenVPNConfig : Type := mkOpenVPNConfig {
  OpenVPNConfig_Clients : list OVPNClientConfig;
  OpenVPNConfig_Server : OVPNServerConfig
}.
Definition OpenVPNConfig_zero : OpenVPNConfig :=
  {| OpenVPNConfig_Clients := [];
     OpenVPNConfig_Server := OVPNServerConfig_zero |}.

Record RoutingPolicy : Type := mkRoutingPolicy {
  RoutingPolicy_Name : string;
  RoutingPolicy_Enabled : bool;
  RoutingPolicy_Priority : Z;
  RoutingPolicy_SrcMACs : list string;
  RoutingPolicy_SrcIPs : list string;
  RoutingPolicy_DstIPs : list string;
  RoutingPolicy_DstPorts : list Z;
  RoutingPolicy_Domains : list string;
  RoutingPolicy_Protocol : string;
  RoutingPolicy_Tunnel : string;
  RoutingPolicy_KillSwitch : bool;
  RoutingPolicy_Schedule : string
}.
Definition RoutingPolicy_zero : RoutingPolicy :=
  {| RoutingPolicy_Name := "";
     RoutingPolicy_Enabled := false;
     RoutingPolicy_Priority := 0;
     RoutingPolicy_SrcMACs := [];
     RoutingPolicy_SrcIPs := [];
     RoutingPolicy_DstIPs := [];
     RoutingPolicy_DstPorts := [];
     RoutingPolicy_Domains := [];
     RoutingPolicy_Protocol := "";
     RoutingPolicy_Tunnel := "";
     RoutingPolicy_KillSwitch := false;
     RoutingPolicy_Schedule := "" |}.

Record RoutingConfig : Type := mkRoutingConfig {
  RoutingConfig_Policies : list RoutingPolicy
}.
Definition RoutingConfig_zero : RoutingConfig :=
  {| RoutingConfig_Policies := [] |}.

Record ShareConfig : Type := mkShareConfig {
  ShareConfig_Name : string;
  ShareConfig_Path : string;
  ShareConfig_GuestOK : bool;
  ShareConfig_ReadOnly : bool;
  ShareConfig_ValidUsers : list string
}.
Definition ShareConfig_zero : ShareConfig :=
  {| ShareConfig_Name := "";
     ShareConfig_Path := "";
     ShareConfig_GuestOK := false;
     ShareConfig_ReadOnly := false;
     ShareConfig_ValidUsers := [] |}.

Record M3USourceConfig : Type := mkM3USourceConfig {
  M3USourceConfig_URL : string;
  M3USourceConfig_DownloadPath : string;
  M3USourceConfig_Schedule : string;
  M3USourceConfig_IncludeGroups : list string;
  M3USourceConfig_ExcludeGroups : list string
}.
Definition M3USourceConfig_zero : M3USourceConfig :=
  {| M3USourceConfig_URL := "";
     M3USourceConfig_DownloadPath := "";
     M3USourceConfig_Schedule := "";
     M3USourceConfig_IncludeGroups := [];
     M3USourceConfig_ExcludeGroups := [] |}.

Record NASConfig : Type := mkNASConfig {
  NASConfig_Shares : list ShareConfig;
  NASConfig_M3USources : list M3USourceConfig
}.
Definition NASConfig_zero : NASConfig :=
  {| NASConfig_Shares := [];
     NASConfig_M3USources := [] |}.

Record SyslogServerConfig : Type := mkSyslogServerConfig {
  SyslogServerConfig_Enabled : bool;
  SyslogServerConfig_ListenUDP : string;
  SyslogServerConfig_ListenTCP : string;
  SyslogServerConfig_EnableTLS : bool;
  SyslogServerConfig_TLSCertFile : string;
  SyslogServerConfig_TLSKeyFile : string;
  SyslogServerConfig_TLSCAFile : string;
  SyslogServerConfig_LogPath : string;
  SyslogServerConfig_PerHostDirs : bool;
  SyslogServerConfig_MaxRetention : string
}.
Definition SyslogServerConfig_zero : SyslogServerConfig :=
  {| SyslogServerConfig_Enabled := false;
     SyslogServerConfig_ListenUDP := "";
     SyslogServerConfig_ListenTCP := "";
     SyslogServerConfig_EnableTLS := false;
     SyslogServerConfig_TLSCertFile := "";
     SyslogServerConfig_TLSKeyFile := "";
     SyslogServerConfig_TLSCAFile := "";
     SyslogServerConfig_LogPath := "";
     SyslogServerConfig_PerHostDirs := false;
     SyslogServerConfig_MaxRetention := "" |}.

Record SyslogClientConfig : Type := mkSyslogClientConfig {
  SyslogClientConfig_Enabled : bool;
  SyslogClientConfig_RemoteHost : string;
  SyslogClientConfig_Protocol : string;
  SyslogClientConfig_EnableTLS : bool;
  SyslogClientConfig_TLSCAFile : string;
  SyslogClientConfig_Facilities : list string
}.
Definition SyslogClientConfig_zero : SyslogClientConfig :=
  {| SyslogClientConfig_Enabled := false;
     SyslogClientConfig_RemoteHost := "";
     SyslogClientConfig_Protocol := "";
     SyslogClientConfig_EnableTLS := false;
     SyslogClientConfig_TLSCAFile := "";
     SyslogClientConfig_Facilities := [] |}.

Record SyslogConfig : Type := mkSyslogConfig {
  SyslogConfig_Server : SyslogServerConfig;
  SyslogConfig_Client : SyslogClientConfig
}.
Definition SyslogConfig_zero : SyslogConfig :=
  {| SyslogConfig_Server := SyslogServerConfig_zero;
     SyslogConfig_Client := SyslogClientConfig_zero |}.

Record NTPServerConfig : Type := mkNTPServerConfig {
  NTPServerConfig_Enabled : bool;
  NTPServerConfig_ListenAddress : string;
  NTPServerConfig_ListenPort : Z
}.
Definition NTPServerConfig_zero : NTPServerConfig :=
  {| NTPServerConfig_Enabled := false;
     NTPServerConfig_ListenAddress := "";
     NTPServerConfig_ListenPort := 0 |}.

Record NTPClientConfig : Type := mkNTPClientConfig {
  NTPClientConfig_Enabled : bool;
  NTPClientConfig_Sources : list string;
  NTPClientConfig_Fallback : string
}.
Definition NTPClientConfig_zero : NTPClientConfig :=
  {| NTPClientConfig_Enabled := false;
     NTPClientConfig_Sources := [];
     NTPClientConfig_Fallback := "" |}.

Record NTPConfig : Type := mkNTPConfig {
  NTPConfig_Server : NTPServerConfig;
  NTPConfig_Client : NTPClientConfig;
  NTPConfig_RTCSync : bool;
  NTPConfig_AllowSubnets : list string
}.
Definition NTPConfig_zero : NTPConfig :=
  {| NTPConfig_Server := NTPServerConfig_zero;
     NTPConfig_Client := NTPClientConfig_zero;
     NTPConfig_RTCSync := false;
     NTPConfig_AllowSubnets := [] |}.

Record RAIDConfig : Type := mkRAIDConfig {
  RAIDConfig_Device : string;
  RAIDConfig_Level : Z;
  RAIDConfig_Members : list string;
  RAIDConfig_MountPoint : string
}.
Definition RAIDConfig_zero : RAIDConfig :=
  {| RAIDConfig_Device := "";
     RAIDConfig_Level := 0;
     RAIDConfig_Members := [];
     RAIDConfig_MountPoint := "" |}.

Record StorageConfig : Type := mkStorageConfig {
  StorageConfig_RAID : RAIDConfig;
  StorageConfig_SMARTCheckInterval : Z
}.
Definition StorageConfig_zero : StorageConfig :=
  {| StorageConfig_RAID := RAIDConfig_zero;
     StorageConfig_SMARTCheckInterval := 0 |}.

Record BackupTarget : Type := mkBackupTarget {
  BackupTarget_Type : string;
  BackupTarget_Name : string;
  BackupTarget_Path : string;
  BackupTarget_Endpoint : string;
  BackupTarget_Region : string;
  BackupTarget_Bucket : string;
  BackupTarget_Prefix : string;
  BackupTarget_AccessKeyID : string;
  BackupTarget_SecretAccessKey : string;
  BackupTarget_UsePathStyle : bool;
  BackupTarget_Host : string;
  BackupTarget_Port : Z;
  BackupTarget_User : string;
  BackupTarget_Password : string;
  BackupTarget_KeyPath : string;
  BackupTarget_RemoteDir : string;
  BackupTarget_HostKeyFingerprint : string
}.
Definition BackupTarget_zero : BackupTarget :=
  {| BackupTarget_Type := "";
     BackupTarget_Name := "";
     BackupTarget_Path := "";
     BackupTarget_Endpoint := "";
     BackupTarget_Region := "";
     BackupTarget_Bucket := "";
     BackupTarget_Prefix := "";
     BackupTarget_AccessKeyID := "";
     BackupTarget_SecretAccessKey := "";
     BackupTarget_UsePathStyle := false;
     BackupTarget_Host := "";
     BackupTarget_Port := 0;
     BackupTarget_User := "";
     BackupTarget_Password := "";
     BackupTarget_KeyPath := "";
     BackupTarget_RemoteDir := "";
     BackupTarget_HostKeyFingerprint := "" |}.

Record BackupHistory : Type := mkBackupHistory {
  BackupHistory_StartedAt : Z;
  BackupHistory_CompletedAt : Z;
  BackupHistory_Bytes : Z;
  BackupHistory_Targets : list string;
  BackupHistory_Status : string;
  BackupHistory_Message : string
}.
Definition BackupHistory_zero : BackupHistory :=
  {| BackupHistory_StartedAt := zero_time;
     BackupHistory_CompletedAt := zero_time;
     BackupHistory_Bytes := 0;
     BackupHistory_Targets := [];
     BackupHistory_Status := "";
     BackupHistory_Message := "" |}.

Record BackupConfig : Type := mkBackupConfig {
  BackupConfig_Enabled : bool;
  BackupConfig_Schedule : string;
  BackupConfig_Passphrase : string;
  BackupConfig_Retention : Z;
  BackupConfig_Targets : list BackupTarget;
  BackupConfig_LastRun : Z;
  BackupConfig_LastStatus : string;
  BackupConfig_LastError : string;
  BackupConfig_History : list BackupHistory
}.
Definition BackupConfig_zero : BackupConfig :=
  {| BackupConfig_Enabled := false;
     BackupConfig_Schedule := "";
     BackupConfig_Passphrase := "";
     BackupConfig_Retention := 0;
     BackupConfig_Targets := [];
     BackupConfig_LastRun := zero_time;
     BackupConfig_LastStatus := "";
     BackupConfig_LastError := "";
     BackupConfig_History := [] |}.

Record Config : Type := mkConfig {
  Config_filePath : string;
  Config_System : SystemConfig;
  Config_Interfaces : list InterfaceConfig;
  Config_VLANs : list VLANConfig;
  Config_HealthCheck : HealthCheckConfig;
  Config_PPPoE : PPPoEConfig;
  Config_USBTether : USBTetherConfig;
  Config_Firewall : FirewallConfig;
  Config_QoS : QoSConfig;
  Config_DNS : DNSConfig;
  Config_DHCP : DHCPConfig;
  Config_IPv6 : IPv6Config;
  Config_VPN : VPNConfig;
  Config_OpenVPN : OpenVPNConfig;
  Config_Routing : RoutingConfig;
  Config_NAS : NASConfig;
  Config_Syslog : SyslogConfig;
  Config_NTP : NTPConfig;
  Config_Storage : StorageConfig;
  Config_Backup : BackupConfig
}.
Definition Config_zero : Config :=
  {| Config_filePath := "";
     Config_System := SystemConfig_zero;
     Config_Interfaces := [];
     Config_VLANs := [];
     Config_HealthCheck := HealthCheckConfig_zero;
     Config_PPPoE := PPPoEConfig_zero;
     Config_USBTether := USBTetherConfig_zero;
     Config_Firewall := FirewallConfig_zero;
     Config_QoS := QoSConfig_zero;
     Config_DNS := DNSConfig_zero;
     Config_DHCP := DHCPConfig_zero;
     Config_IPv6 := IPv6Config_zero;
     Config_VPN := VPNConfig_zero;
     Config_OpenVPN := OpenVPNConfig_zero;
     Config_Routing := RoutingConfig_zero;
     Config_NAS := NASConfig_zero;
     Config_Syslog := SyslogConfig_zero;
     Config_NTP := NTPConfig_zero;
     Config_Storage := StorageConfig_zero;
     Config_Backup := BackupConfig_zero |}.

(** ** Field assignments *)

Definition set_SystemConfig_SessionSecret (v : string) (r : SystemConfig) : SystemConfig :=
  {| SystemConfig_Hostname := SystemConfig_Hostname r;
     SystemConfig_Timezone := SystemConfig_Timezone r;
     SystemConfig_Language := SystemConfig_Language r;
     SystemConfig_AdminPasswordHash := SystemConfig_AdminPasswordHash r;
     SystemConfig_SessionSecret := v;
     SystemConfig_Domain := SystemConfig_Domain r;
     SystemConfig_WebPort := SystemConfig_WebPort r;
     SystemConfig_WebBind := SystemConfig_WebBind r;
     SystemConfig_TLS := SystemConfig_TLS r |}.

Definition set_SystemConfig_TLS (v : TLSConfig) (r : SystemConfig) : SystemConfig :=
  {| SystemConfig_Hostname := SystemConfig_Hostname r;
     SystemConfig_Timezone := SystemConfig_Timezone r;
     SystemConfig_Language := SystemConfig_Language r;
     SystemConfig_AdminPasswordHash := SystemConfig_AdminPasswordHash r;
     SystemConfig_SessionSecret := SystemConfig_SessionSecret r;
     SystemConfig_Domain := SystemConfig_Domain r;
     SystemConfig_WebPort := SystemConfig_WebPort r;
     SystemConfig_WebBind := SystemConfig_WebBind r;
     SystemConfig_TLS := v |}.

Definition set_TLSConfig_ACME (v : ACMEConfig) (r : TLSConfig) : TLSConfig :=
  {| TLSConfig_Mode := TLSConfig_Mode r;
     TLSConfig_CertFile := TLSConfig_CertFile r;
     TLSConfig_KeyFile := TLSConfig_KeyFile r;
     TLSConfig_SelfSigned := TLSConfig_SelfSigned r;
     TLSConfig_ACME := v;
     TLSConfig_Mkcert := TLSConfig_Mkcert r |}.

Definition set_ACMEConfig_DNSChallenge (v : DNSChallengeConfig) (r : ACMEConfig) : ACMEConfig :=
  {| ACMEConfig_Enabled := ACMEConfig_Enabled r;
     ACMEConfig_Email := ACMEConfig_Email r;
     ACMEConfig_Domain := ACMEConfig_Domain r;
     ACMEConfig_Provider := ACMEConfig_Provider r;
     ACMEConfig_DirectoryURL := ACMEConfig_DirectoryURL r;
     ACMEConfig_DNSChallenge := v |}.

Definition set_DNSChallengeConfig_APIToken (v : string) (r : DNSChallengeConfig) : DNSChallengeConfig :=
  {| DNSChallengeConfig_Provider := DNSChallengeConfig_Provider r;
     DNSChallengeConfig_APIToken := v |}.

Definition set_BackupConfig_Passphrase (v : string) (r : BackupConfig) : BackupConfig :=
  {| BackupConfig_Enabled := BackupConfig_Enabled r;
     BackupConfig_Schedule := BackupConfig_Schedule r;
     BackupConfig_Passphrase := v;
     BackupConfig_Retention := BackupConfig_Retention r;
     BackupConfig_Targets := BackupConfig_Targets r;
     BackupConfig_LastRun := BackupConfig_LastRun r;
     BackupConfig_LastStatus := BackupConfig_LastStatus r;
     BackupConfig_LastError := BackupConfig_LastError r;
     BackupConfig_History := BackupConfig_History r |}.

Definition set_BackupConfig_Targets (v : list BackupTarget) (r : BackupConfig) : BackupConfig :=
  {| BackupConfig_Enabled := BackupConfig_Enabled r;
     BackupConfig_Schedule := BackupConfig_Schedule r;
     BackupConfig_Passphrase := BackupConfig_Passphrase r;
     BackupConfig_Retention := BackupConfig_Retention r;
     BackupConfig_Targets := v;
     BackupConfig_LastRun := BackupConfig_LastRun r;
     BackupConfig_LastStatus := BackupConfig_LastStatus r;
     BackupConfig_LastError := BackupConfig_LastError r;
     BackupConfig_History := BackupConfig_History r |}.

Definition set_BackupTarget_SecretAccessKey (v : string) (r : BackupTarget) : BackupTarget :=
  {| BackupTarget_Type := BackupTarget_Type r;
     BackupTarget_Name := BackupTarget_Name r;
     BackupTarget_Path := BackupTarget_Path r;
     BackupTarget_Endpoint := BackupTarget_Endpoint r;
     BackupTarget_Region := BackupTarget_Region r;
     BackupTarget_Bucket := BackupTarget_Bucket r;
     BackupTarget_Prefix := BackupTarget_Prefix r;
     BackupTarget_AccessKeyID := BackupTarget_AccessKeyID r;
     BackupTarget_SecretAccessKey := v;
     BackupTarget_UsePathStyle := BackupTarget_UsePathStyle r;
     BackupTarget_Host := BackupTarget_Host r;
     BackupTarget_Port := BackupTarget_Port r;
     BackupTarget_User := BackupTarget_User r;
     BackupTarget_Password := BackupTarget_Password r;
     BackupTarget_KeyPath := BackupTarget_KeyPath r;
     BackupTarget_RemoteDir := BackupTarget_RemoteDir r;
     BackupTarget_HostKeyFingerprint := BackupTarget_HostKeyFingerprint r |}.

Definition set_BackupTarget_Password (v : string) (r : BackupTarget) : BackupTarget :=
  {| BackupTarget_Type := BackupTarget_Type r;
     BackupTarget_Name := BackupTarget_Name r;
     BackupTarget_Path := BackupTarget_Path r;
     BackupTarget_Endpoint := BackupTarget_Endpoint r;
     BackupTarget_Region := BackupTarget_Region r;
     BackupTarget_Bucket := BackupTarget_Bucket r;
     BackupTarget_Prefix := BackupTarget_Prefix r;
     BackupTarget_AccessKeyID := BackupTarget_AccessKeyID r;
     BackupTarget_SecretAccessKey := BackupTarget_SecretAccessKey r;
     BackupTarget_UsePathStyle := BackupTarget_UsePathStyle r;
     BackupTarget_Host := BackupTarget_Host r;
     BackupTarget_Port := BackupTarget_Port r;
     BackupTarget_User := BackupTarget_User r;
     BackupTarget_Password := v;
     BackupTarget_KeyPath := BackupTarget_KeyPath r;
     BackupTarget_RemoteDir := BackupTarget_RemoteDir r;
     BackupTarget_HostKeyFingerprint := BackupTarget_HostKeyFingerprint r |}.

Definition set_VPNConfig_Server (v : WGServerConfig) (r : VPNConfig) : VPNConfig :=
  {| VPNConfig_Clients := VPNConfig_Clients r;
     VPNConfig_Server := v;
     VPNConfig_DeviceAssignments := VPNConfig_DeviceAssignments r |}.

Definition set_VPNConfig_Clients (v : list WGClientTunnel) (r : VPNConfig) : VPNConfig :=
  {| VPNConfig_Clients := v;
     VPNConfig_Server := VPNConfig_Server r;
     VPNConfig_DeviceAssignments := VPNConfig_DeviceAssignments r |}.

Definition set_WGServerConfig_PrivateKey (v : string) (r : WGServerConfig) : WGServerConfig :=
  {| WGServerConfig_Enabled := WGServerConfig_Enabled r;
     WGServerConfig_ListenPort := WGServerConfig_ListenPort r;
     WGServerConfig_PrivateKey := v;
     WGServerConfig_PublicKey := WGServerConfig_PublicKey r;
     WGServerConfig_Address := WGServerConfig_Address r;
     WGServerConfig_Address6 := WGServerConfig_Address6 r;
     WGServerConfig_DNS := WGServerConfig_DNS r;
     WGServerConfig_PostUp := WGServerConfig_PostUp r;
     WGServerConfig_PostDown := WGServerConfig_PostDown r;
     WGServerConfig_MTU := WGServerConfig_MTU r;
     WGServerConfig_PublicEndpoint := WGServerConfig_PublicEndpoint r;
     WGServerConfig_Peers := WGServerConfig_Peers r |}.

Definition set_WGServerConfig_Peers (v : list WGServerPeer) (r : WGServerConfig) : WGServerConfig :=
  {| WGServerConfig_Enabled := WGServerConfig_Enabled r;
     WGServerConfig_ListenPort := WGServerConfig_ListenPort r;
     WGServerConfig_PrivateKey := WGServerConfig_PrivateKey r;
     WGServerConfig_PublicKey := WGServerConfig_PublicKey r;
     WGServerConfig_Address := WGServerConfig_Address r;
     WGServerConfig_Address6 := WGServerConfig_Address6 r;
     WGServerConfig_DNS := WGServerConfig_DNS r;
     WGServerConfig_PostUp := WGServerConfig_PostUp r;
     WGServerConfig_PostDown := WGServerConfig_PostDown r;
     WGServerConfig_MTU := WGServerConfig_MTU r;
     WGServerConfig_PublicEndpoint := WGServerConfig_PublicEndpoint r;
     WGServerConfig_Peers := v |}.

Definition set_WGServerPeer_PrivateKey (v : string) (r : WGServerPeer) : WGServerPeer :=
  {| WGServerPeer_Name := WGServerPeer_Name r;
     WGServerPeer_PublicKey := WGServerPeer_PublicKey r;
     WGServerPeer_PrivateKey := v;
     WGServerPeer_PresharedKey := WGServerPeer_PresharedKey r;
     WGServerPeer_AllowedIPs := WGServerPeer_AllowedIPs r;
     WGServerPeer_Keepalive := WGServerPeer_Keepalive r;
     WGServerPeer_Endpoint := WGServerPeer_Endpoint r;
     WGServerPeer_RemoteSubnets := WGServerPeer_RemoteSubnets r;
     WGServerPeer_IsSiteToSite := WGServerPeer_IsSiteToSite r;
     WGServerPeer_Pending := WGServerPeer_Pending r;
     WGServerPeer_InviteExpiresAt := WGServerPeer_InviteExpiresAt r |}.

Definition set_WGServerPeer_PresharedKey (v : string) (r : WGServerPeer) : WGServerPeer :=
  {| WGServerPeer_Name := WGServerPeer_Name r;
     WGServerPeer_PublicKey := WGServerPeer_PublicKey r;
     WGServerPeer_PrivateKey := WGServerPeer_PrivateKey r;
     WGServerPeer_PresharedKey := v;
     WGServerPeer_AllowedIPs := WGServerPeer_AllowedIPs r;
     WGServerPeer_Keepalive := WGServerPeer_Keepalive r;
     WGServerPeer_Endpoint := WGServerPeer_Endpoint r;
     WGServerPeer_RemoteSubnets := WGServerPeer_RemoteSubnets r;
     WGServerPeer_IsSiteToSite := WGServerPeer_IsSiteToSite r;
     WGServerPeer_Pending := WGServerPeer_Pending r;
     WGServerPeer_InviteExpiresAt := WGServerPeer_InviteExpiresAt r |}.

Definition set_WGClientTunnel_PrivateKey (v : string) (r : WGClientTunnel) : WGClientTunnel :=
  {| WGClientTunnel_Name := WGClientTunnel_Name r;
     WGClientTunnel_Endpoint := WGClientTunnel_Endpoint r;
     WGClientTunnel_PrivateKey := v;
     WGClientTunnel_PublicKey := WGClientTunnel_PublicKey r;
     WGClientTunnel_AllowedIPs := WGClientTunnel_AllowedIPs r;
     WGClientTunnel_DNS := WGClientTunnel_DNS r;
     WGClientTunnel_Table := WGClientTunnel_Table r;
     WGClientTunnel_Fwmark := WGClientTunnel_Fwmark r;
     WGClientTunnel_Address := WGClientTunnel_Address r;
     WGClientTunnel_MTU := WGClientTunnel_MTU r;
     WGClientTunnel_PresharedKey := WGClientTunnel_PresharedKey r;
     WGClientTunnel_Keepalive := WGClientTunnel_Keepalive r |}.

Definition set_WGClientTunnel_PresharedKey (v : string) (r : WGClientTunnel) : WGClientTunnel :=
  {| WGClientTunnel_Name := WGClientTunnel_Name r;
     WGClientTunnel_Endpoint := WGClientTunnel_Endpoint r;
     WGClientTunnel_PrivateKey := WGClientTunnel_PrivateKey r;
     WGClientTunnel_PublicKey := WGClientTunnel_PublicKey r;
     WGClientTunnel_AllowedIPs := WGClientTunnel_AllowedIPs r;
     WGClientTunnel_DNS := WGClientTunnel_DNS r;
     WGClientTunnel_Table := WGClientTunnel_Table r;
     WGClientTunnel_Fwmark := WGClientTunnel_Fwmark r;
     WGClientTunnel_Address := WGClientTunnel_Address r;
     WGClientTunnel_MTU := WGClientTunnel_MTU r;
     WGClientTunnel_PresharedKey := v;
     WGClientTunnel_Keepalive := WGClientTunnel_Keepalive r |}.

Definition set_Config_filePath (v : string) (r : Config) : Config :=
  {| Config_filePath := v;
     Config_System := Config_System r;
     Config_Interfaces := Config_Interfaces r;
     Config_VLANs := Config_VLANs r;
     Config_HealthCheck := Config_HealthCheck r;
     Config_PPPoE := Config_PPPoE r;
     Config_USBTether := Config_USBTether r;
     Config_Firewall := Config_Firewall r;
     Config_QoS := Config_QoS r;
     Config_DNS := Config_DNS r;
     Config_DHCP := Config_DHCP r;
     Config_IPv6 := Config_IPv6 r;
     Config_VPN := Config_VPN r;
     Config_OpenVPN := Config_OpenVPN r;
     Config_Routing := Config_Routing r;
     Config_NAS := Config_NAS r;
     Config_Syslog := Config_Syslog r;
     Config_NTP := Config_NTP r;
     Config_Storage := Config_Storage r;
     Config_Backup := Config_Backup r |}.

Definition set_Config_Backup (v : BackupConfig) (r : Config) : Config :=
  {| Config_filePath := Config_filePath r;
     Config_System := Config_System r;
     Config_Interfaces := Config_Interfaces r;
     Config_VLANs := Config_VLANs r;
     Config_HealthCheck := Config_HealthCheck r;
     Config_PPPoE := Config_PPPoE r;
     Config_USBTether := Config_USBTether r;
     Config_Firewall := Config_Firewall r;
     Config_QoS := Config_QoS r;
     Config_DNS := Config_DNS r;
     Config_DHCP := Config_DHCP r;
     Config_IPv6 := Config_IPv6 r;
     Config_VPN := Config_VPN r;
     Config_OpenVPN := Config_OpenVPN r;
     Config_Routing := Config_Routing r;
     Config_NAS := Config_NAS r;
     Config_Syslog := Config_Syslog r;
     Config_NTP := Config_NTP r;
     Config_Storage := Config_Storage r;
     Config_Backup := v |}.

Definition set_Config_VPN (v : VPNConfig) (r : Config) : Config :=
  {| Config_filePath := Config_filePath r;
     Config_System := Config_System r;
     Config_Interfaces := Config_Interfaces r;
     Config_VLANs := Config_VLANs r;
     Config_HealthCheck := Config_HealthCheck r;
     Config_PPPoE := Config_PPPoE r;
     Config_USBTether := Config_USBTether r;
     Config_Firewall := Config_Firewall r;
     Config_QoS := Config_QoS r;
     Config_DNS := Config_DNS r;
     Config_DHCP := Config_DHCP r;
     Config_IPv6 := Config_IPv6 r;
     Config_VPN := v;
     Config_OpenVPN := Config_OpenVPN r;
     Config_Routing := Config_Routing r;
     Config_NAS := Config_NAS r;
     Config_Syslog := Config_Syslog r;
     Config_NTP := Config_NTP r;
     Config_Storage := Config_Storage r;
     Config_Backup := Config_Backup r |}.

Definition set_Config_System (v : SystemConfig) (r : Config) : Config :=
  {| Config_filePath := Config_filePath r;
     Config_System := v;
     Config_Interfaces := Config_Interfaces r;
     Config_VLANs := Config_VLANs r;
     Config_HealthCheck := Config_HealthCheck r;
     Config_PPPoE := Config_PPPoE r;
     Config_USBTether := Config_USBTether r;
     Config_Firewall := Config_Firewall r;
     Config_QoS := Config_QoS r;
     Config_DNS := Config_DNS r;
     Config_DHCP := Config_DHCP r;
     Config_IPv6 := Config_IPv6 r;
     Config_VPN := Config_VPN r;
     Config_OpenVPN := Config_OpenVPN r;
     Config_Routing := Config_Routing r;
     Config_NAS := Config_NAS r;
     Config_Syslog := Config_Syslog r;
     Config_NTP := Config_NTP r;
     Config_Storage := Config_Storage r;
     Config_Backup := Config_Backup r |}.

Definition set_Config_Firewall (v : FirewallConfig) (r : Config) : Config :=
  {| Config_filePath := Config_filePath r;
     Config_System := Config_System r;
     Config_Interfaces := Config_Interfaces r;
     Config_VLANs := Config_VLANs r;
     Config_HealthCheck := Config_HealthCheck r;
     Config_PPPoE := Config_PPPoE r;
     Config_USBTether := Config_USBTether r;
     Config_Firewall := v;
     Config_QoS := Config_QoS r;
     Config_DNS := Config_DNS r;
     Config_DHCP := Config_DHCP r;
     Config_IPv6 := Config_IPv6 r;
     Config_VPN := Config_VPN r;
     Config_OpenVPN := Config_OpenVPN r;
     Config_Routing := Config_Routing r;
     Config_NAS := Config_NAS r;
     Config_Syslog := Config_Syslog r;
     Config_NTP := Config_NTP r;
     Config_Storage := Config_Storage r;
     Config_Backup := Config_Backup r |}.

Definition set_Config_DNS (v : DNSConfig) (r : Config) : Config :=
  {| Config_filePath := Config_filePath r;
     Config_System := Config_System r;
     Config_Interfaces := Config_Interfaces r;
     Config_VLANs := Config_VLANs r;
     Config_HealthCheck := Config_HealthCheck r;
     Config_PPPoE := Config_PPPoE r;
     Config_USBTether := Config_USBTether r;
     Config_Firewall := Config_Firewall r;
     Config_QoS := Config_QoS r;
     Config_DNS := v;
     Config_DHCP := Config_DHCP r;
     Config_IPv6 := Config_IPv6 r;
     Config_VPN := Config_VPN r;
     Config_OpenVPN := Config_OpenVPN r;
     Config_Routing := Config_Routing r;
     Config_NAS := Config_NAS r;
     Config_Syslog := Config_Syslog r;
     Config_NTP := Config_NTP r;
     Config_Storage := Config_Storage r;
     Config_Backup := Config_Backup r |}.

Definition set_FirewallConfig_TTLFix (v : TTLFixConfig) (r : FirewallConfig) : FirewallConfig :=
  {| FirewallConfig_DefaultPolicy := FirewallConfig_DefaultPolicy r;
     FirewallConfig_TTLFix := v;
     FirewallConfig_OpenPorts := FirewallConfig_OpenPorts r;
     FirewallConfig_PortForwards := FirewallConfig_PortForwards r;
     FirewallConfig_Rules := FirewallConfig_Rules r |}.

Definition set_FirewallConfig_OpenPorts (v : list OpenPort) (r : FirewallConfig) : FirewallConfig :=
  {| FirewallConfig_DefaultPolicy := FirewallConfig_DefaultPolicy r;
     FirewallConfig_TTLFix := FirewallConfig_TTLFix r;
     FirewallConfig_OpenPorts := v;
     FirewallConfig_PortForwards := FirewallConfig_PortForwards r;
     FirewallConfig_Rules := FirewallConfig_Rules r |}.

Definition set_FirewallConfig_PortForwards (v : list PortForward) (r : FirewallConfig) : FirewallConfig :=
  {| FirewallConfig_DefaultPolicy := FirewallConfig_DefaultPolicy r;
     FirewallConfig_TTLFix := FirewallConfig_TTLFix r;
     FirewallConfig_OpenPorts := FirewallConfig_OpenPorts r;
     FirewallConfig_PortForwards := v;
     FirewallConfig_Rules := FirewallConfig_Rules r |}.

Definition set_FirewallConfig_Rules (v : list FirewallRule) (r : FirewallConfig) : FirewallConfig :=
  {| FirewallConfig_DefaultPolicy := FirewallConfig_DefaultPolicy r;
     FirewallConfig_TTLFix := FirewallConfig_TTLFix r;
     FirewallConfig_OpenPorts := FirewallConfig_OpenPorts r;
     FirewallConfig_PortForwards := FirewallConfig_PortForwards r;
     FirewallConfig_Rules := v |}.

Definition set_OpenPort_Enabled (v : bool) (r : OpenPort) : OpenPort :=
  {| OpenPort_Name := OpenPort_Name r;
     OpenPort_Protocol := OpenPort_Protocol r;
     OpenPort_Port := OpenPort_Port r;
     OpenPort_Source := OpenPort_Source r;
     OpenPort_Enabled := v;
     OpenPort_RateLimit := OpenPort_RateLimit r |}.

Definition set_FirewallRule_Enabled (v : bool) (r : FirewallRule) : FirewallRule :=
  {| FirewallRule_Name := FirewallRule_Name r;
     FirewallRule_Chain := FirewallRule_Chain r;
     FirewallRule_Action := FirewallRule_Action r;
     FirewallRule_SrcIP := FirewallRule_SrcIP r;
     FirewallRule_DstIP := FirewallRule_DstIP r;
     FirewallRule_Protocol := FirewallRule_Protocol r;
     FirewallRule_Port := FirewallRule_Port r;
     FirewallRule_Interface := FirewallRule_Interface r;
     FirewallRule_Direction := FirewallRule_Direction r;
     FirewallRule_Enabled := v;
     FirewallRule_Priority := FirewallRule_Priority r |}.

Definition set_FirewallRule_Priority (v : Z) (r : FirewallRule) : FirewallRule :=
  {| FirewallRule_Name := FirewallRule_Name r;
     FirewallRule_Chain := FirewallRule_Chain r;
     FirewallRule_Action := FirewallRule_Action r;
     FirewallRule_SrcIP := FirewallRule_SrcIP r;
     FirewallRule_DstIP := FirewallRule_DstIP r;
     FirewallRule_Protocol := FirewallRule_Protocol r;
     FirewallRule_Port := FirewallRule_Port r;
     FirewallRule_Interface := FirewallRule_Interface r;
     FirewallRule_Direction := FirewallRule_Direction r;
     FirewallRule_Enabled := FirewallRule_Enabled r;
     FirewallRule_Priority := v |}.

Definition set_TTLFixConfig_Enabled (v : bool) (r : TTLFixConfig) : TTLFixConfig :=
  {| TTLFixConfig_Enabled := v;
     TTLFixConfig_Value := TTLFixConfig_Value r |}.

Definition set_TTLFixConfig_Value (v : Z) (r : TTLFixConfig) : TTLFixConfig :=
  {| TTLFixConfig_Enabled := TTLFixConfig_Enabled r;
     TTLFixConfig_Value := v |}.

Definition set_DNSConfig_StaticRecords (v : list StaticDNSRecord) (r : DNSConfig) : DNSConfig :=
  {| DNSConfig_Upstream := DNSConfig_Upstream r;
     DNSConfig_DoTUpstream := DNSConfig_DoTUpstream r;
     DNSConfig_EnableDoT := DNSConfig_EnableDoT r;
     DNSConfig_EnableDoH := DNSConfig_EnableDoH r;
     DNSConfig_DoHUpstream := DNSConfig_DoHUpstream r;
     DNSConfig_BlocklistURLs := DNSConfig_BlocklistURLs r;
     DNSConfig_BlocklistUpdateSchedule := DNSConfig_BlocklistUpdateSchedule r;
     DNSConfig_CacheSize := DNSConfig_CacheSize r;
     DNSConfig_QueryLog := DNSConfig_QueryLog r;
     DNSConfig_StaticRecords := v |}.

Definition set_StaticDNSRecord_Source (v : string) (r : StaticDNSRecord) : StaticDNSRecord :=
  {| StaticDNSRecord_Name := StaticDNSRecord_Name r;
     StaticDNSRecord_IP := StaticDNSRecord_IP r;
     StaticDNSRecord_LocalZone := StaticDNSRecord_LocalZone r;
     StaticDNSRecord_Source := v;
     StaticDNSRecord_DisableAutoPTR := StaticDNSRecord_DisableAutoPTR r |}.

Definition set_Config_DHCP (v : DHCPConfig) (r : Config) : Config :=
  {| Config_filePath := Config_filePath r;
     Config_System := Config_System r;
     Config_Interfaces := Config_Interfaces r;
     Config_VLANs := Config_VLANs r;
     Config_HealthCheck := Config_HealthCheck r;
     Config_PPPoE := Config_PPPoE r;
     Config_USBTether := Config_USBTether r;
     Config_Firewall := Config_Firewall r;
     Config_QoS := Config_QoS r;
     Config_DNS := Config_DNS r;
     Config_DHCP := v;
     Config_IPv6 := Config_IPv6 r;
     Config_VPN := Config_VPN r;
     Config_OpenVPN := Config_OpenVPN r;
     Config_Routing := Config_Routing r;
     Config_NAS := Config_NAS r;
     Config_Syslog := Config_Syslog r;
     Config_NTP := Config_NTP r;
     Config_Storage := Config_Storage r;
     Config_Backup := Config_Backup r |}.

Definition set_Config_Routing (v : RoutingConfig) (r : Config) : Config :=
  {| Config_filePath := Config_filePath r;
     Config_System := Config_System r;
     Config_Interfaces := Config_Interfaces r;
     Config_VLANs := Config_VLANs r;
     Config_HealthCheck := Config_HealthCheck r;
     Config_PPPoE := Config_PPPoE r;
     Config_USBTether := Config_USBTether r;
     Config_Firewall := Config_Firewall r;
     Config_QoS := Config_QoS r;
     Config_DNS := Config_DNS r;
     Config_DHCP := Config_DHCP r;
     Config_IPv6 := Config_IPv6 r;
     Config_VPN := Config_VPN r;
     Config_OpenVPN := Config_OpenVPN r;
     Config_Routing := v;
     Config_NAS := Config_NAS r;
     Config_Syslog := Config_Syslog r;
     Config_NTP := Config_NTP r;
     Config_Storage := Config_Storage r;
     Config_Backup := Config_Backup r |}.

Definition set_Config_HealthCheck (v : HealthCheckConfig) (r : Config) : Config :=
  {| Config_filePath := Config_filePath r;
     Config_System := Config_System r;
     Config_Interfaces := Config_Interfaces r;
     Config_VLANs := Config_VLANs r;
     Config_HealthCheck := v;
     Config_PPPoE := Config_PPPoE r;
     Config_USBTether := Config_USBTether r;
     Config_Firewall := Config_Firewall r;
     Config_QoS := Config_QoS r;
     Config_DNS := Config_DNS r;
     Config_DHCP := Config_DHCP r;
     Config_IPv6 := Config_IPv6 r;
     Config_VPN := Config_VPN r;
     Config_OpenVPN := Config_OpenVPN r;
     Config_Routing := Config_Routing r;
     Config_NAS := Config_NAS r;
     Config_Syslog := Config_Syslog r;
     Config_NTP := Config_NTP r;
     Config_Storage := Config_Storage r;
     Config_Backup := Config_Backup r |}.

Definition set_Config_VLANs (v : list VLANConfig) (r : Config) : Config :=
  {| Config_filePath := Config_filePath r;
     Config_System := Config_System r;
     Config_Interfaces := Config_Interfaces r;
     Config_VLANs := v;
     Config_HealthCheck := Config_HealthCheck r;
     Config_PPPoE := Config_PPPoE r;
     Config_USBTether := Config_USBTether r;
     Config_Firewall := Config_Firewall r;
     Config_QoS := Config_QoS r;
     Config_DNS := Config_DNS r;
     Config_DHCP := Config_DHCP r;
     Config_IPv6 := Config_IPv6 r;
     Config_VPN := Config_VPN r;
     Config_OpenVPN := Config_OpenVPN r;
     Config_Routing := Config_Routing r;
     Config_NAS := Config_NAS r;
     Config_Syslog := Config_Syslog r;
     Config_NTP := Config_NTP r;
     Config_Storage := Config_Storage r;
     Config_Backup := Config_Backup r |}.

Definition set_Config_Interfaces (v : list InterfaceConfig) (r : Config) : Config :=
  {| Config_filePath := Config_filePath r;
     Config_System := Config_System r;
     Config_Interfaces := v;
     Config_VLANs := Config_VLANs r;
     Config_HealthCheck := Config_HealthCheck r;
     Config_PPPoE := Config_PPPoE r;
     Config_USBTether := Config_USBTether r;
     Config_Firewall := Config_Firewall r;
     Config_QoS := Config_QoS r;
     Config_DNS := Config_DNS r;
     Config_DHCP := Config_DHCP r;
     Config_IPv6 := Config_IPv6 r;
     Config_VPN := Config_VPN r;
     Config_OpenVPN := Config_OpenVPN r;
     Config_Routing := Config_Routing r;
     Config_NAS := Config_NAS r;
     Config_Syslog := Config_Syslog r;
     Config_NTP := Config_NTP r;
     Config_Storage := Config_Storage r;
     Config_Backup := Config_Backup r |}.

Definition set_Config_OpenVPN (v : OpenVPNConfig) (r : Config) : Config :=
  {| Config_filePath := Config_filePath r;
     Config_System := Config_System r;
     Config_Interfaces := Config_Interfaces r;
     Config_VLANs := Config_VLANs r;
     Config_HealthCheck := Config_HealthCheck r;
     Config_PPPoE := Config_PPPoE r;
     Config_USBTether := Config_USBTether r;
     Config_Firewall := Config_Firewall r;
     Config_QoS := Config_QoS r;
     Config_DNS := Config_DNS r;
     Config_DHCP := Config_DHCP r;
     Config_IPv6 := Config_IPv6 r;
     Config_VPN := Config_VPN r;
     Config_OpenVPN := v;
     Config_Routing := Config_Routing r;
     Config_NAS := Config_NAS r;
     Config_Syslog := Config_Syslog r;
     Config_NTP := Config_NTP r;
     Config_Storage := Config_Storage r;
     Config_Backup := Config_Backup r |}.

Definition set_RoutingConfig_Policies (v : list RoutingPolicy) (r : RoutingConfig) : RoutingConfig :=
  {| RoutingConfig_Policies := v |}.

Definition set_RoutingPolicy_Priority (v : Z) (r : RoutingPolicy) : RoutingPolicy :=
  {| RoutingPolicy_Name := RoutingPolicy_Name r;
     RoutingPolicy_Enabled := RoutingPolicy_Enabled r;
     RoutingPolicy_Priority := v;
     RoutingPolicy_SrcMACs := RoutingPolicy_SrcMACs r;
     RoutingPolicy_SrcIPs := RoutingPolicy_SrcIPs r;
     RoutingPolicy_DstIPs := RoutingPolicy_DstIPs r;
     RoutingPolicy_DstPorts := RoutingPolicy_DstPorts r;
     RoutingPolicy_Domains := RoutingPolicy_Domains r;
     RoutingPolicy_Protocol := RoutingPolicy_Protocol r;
     RoutingPolicy_Tunnel := RoutingPolicy_Tunnel r;
     RoutingPolicy_KillSwitch := RoutingPolicy_KillSwitch r;
     RoutingPolicy_Schedule := RoutingPolicy_Schedule r |}.

Definition set_RoutingPolicy_Enabled (v : bool) (r : RoutingPolicy) : RoutingPolicy :=
  {| RoutingPolicy_Name := RoutingPolicy_Name r;
     RoutingPolicy_Enabled := v;
     RoutingPolicy_Priority := RoutingPolicy_Priority r;
     RoutingPolicy_SrcMACs := RoutingPolicy_SrcMACs r;
     RoutingPolicy_SrcIPs := RoutingPolicy_SrcIPs r;
     RoutingPolicy_DstIPs := RoutingPolicy_DstIPs r;
     RoutingPolicy_DstPorts := RoutingPolicy_DstPorts r;
     RoutingPolicy_Domains := RoutingPolicy_Domains r;
     RoutingPolicy_Protocol := RoutingPolicy_Protocol r;
     RoutingPolicy_Tunnel := RoutingPolicy_Tunnel r;
     RoutingPolicy_KillSwitch := RoutingPolicy_KillSwitch r;
     RoutingPolicy_Schedule := RoutingPolicy_Schedule r |}.

Definition set_DHCPConfig_StaticLeases (v : list StaticLease) (r : DHCPConfig) : DHCPConfig :=
  {| DHCPConfig_RangeStart := DHCPConfig_RangeStart r;
     DHCPConfig_RangeEnd := DHCPConfig_RangeEnd r;
     DHCPConfig_LeaseTime := DHCPConfig_LeaseTime r;
     DHCPConfig_Gateway := DHCPConfig_Gateway r;
     DHCPConfig_DNSServer := DHCPConfig_DNSServer r;
     DHCPConfig_StaticLeases := v |}.

Definition set_DNSConfig_EnableDoT (v : bool) (r : DNSConfig) : DNSConfig :=
  {| DNSConfig_Upstream := DNSConfig_Upstream r;
     DNSConfig_DoTUpstream := DNSConfig_DoTUpstream r;
     DNSConfig_EnableDoT := v;
     DNSConfig_EnableDoH := DNSConfig_EnableDoH r;
     DNSConfig_DoHUpstream := DNSConfig_DoHUpstream r;
     DNSConfig_BlocklistURLs := DNSConfig_BlocklistURLs r;
     DNSConfig_BlocklistUpdateSchedule := DNSConfig_BlocklistUpdateSchedule r;
     DNSConfig_CacheSize := DNSConfig_CacheSize r;
     DNSConfig_QueryLog := DNSConfig_QueryLog r;
     DNSConfig_StaticRecords := DNSConfig_StaticRecords r |}.

Definition set_DNSConfig_DoTUpstream (v : string) (r : DNSConfig) : DNSConfig :=
  {| DNSConfig_Upstream := DNSConfig_Upstream r;
     DNSConfig_DoTUpstream := v;
     DNSConfig_EnableDoT := DNSConfig_EnableDoT r;
     DNSConfig_EnableDoH := DNSConfig_EnableDoH r;
     DNSConfig_DoHUpstream := DNSConfig_DoHUpstream r;
     DNSConfig_BlocklistURLs := DNSConfig_BlocklistURLs r;
     DNSConfig_BlocklistUpdateSchedule := DNSConfig_BlocklistUpdateSchedule r;
     DNSConfig_CacheSize := DNSConfig_CacheSize r;
     DNSConfig_QueryLog := DNSConfig_QueryLog r;
     DNSConfig_StaticRecords := DNSConfig_StaticRecords r |}.

Definition set_DNSConfig_EnableDoH (v : bool) (r : DNSConfig) : DNSConfig :=
  {| DNSConfig_Upstream := DNSConfig_Upstream r;
     DNSConfig_DoTUpstream := DNSConfig_DoTUpstream r;
     DNSConfig_EnableDoT := DNSConfig_EnableDoT r;
     DNSConfig_EnableDoH := v;
     DNSConfig_DoHUpstream := DNSConfig_DoHUpstream r;
     DNSConfig_BlocklistURLs := DNSConfig_BlocklistURLs r;
     DNSConfig_BlocklistUpdateSchedule := DNSConfig_BlocklistUpdateSchedule r;
     DNSConfig_CacheSize := DNSConfig_CacheSize r;
     DNSConfig_QueryLog := DNSConfig_QueryLog r;
     DNSConfig_StaticRecords := DNSConfig_StaticRecords r |}.

Definition set_DNSConfig_DoHUpstream (v : string) (r : DNSConfig) : DNSConfig :=
  {| DNSConfig_Upstream := DNSConfig_Upstream r;
     DNSConfig_DoTUpstream := DNSConfig_DoTUpstream r;
     DNSConfig_EnableDoT := DNSConfig_EnableDoT r;
     DNSConfig_EnableDoH := DNSConfig_EnableDoH r;
     DNSConfig_DoHUpstream := v;
     DNSConfig_BlocklistURLs := DNSConfig_BlocklistURLs r;
     DNSConfig_BlocklistUpdateSchedule := DNSConfig_BlocklistUpdateSchedule r;
     DNSConfig_CacheSize := DNSConfig_CacheSize r;
     DNSConfig_QueryLog := DNSConfig_QueryLog r;
     DNSConfig_StaticRecords := DNSConfig_StaticRecords r |}.

Definition set_WGServerConfig_PublicKey (v : string) (r : WGServerConfig) : WGServerConfig :=
  {| WGServerConfig_Enabled := WGServerConfig_Enabled r;
     WGServerConfig_ListenPort := WGServerConfig_ListenPort r;
     WGServerConfig_PrivateKey := WGServerConfig_PrivateKey r;
     WGServerConfig_PublicKey := v;
     WGServerConfig_Address := WGServerConfig_Address r;
     WGServerConfig_Address6 := WGServerConfig_Address6 r;
     WGServerConfig_DNS := WGServerConfig_DNS r;
     WGServerConfig_PostUp := WGServerConfig_PostUp r;
     WGServerConfig_PostDown := WGServerConfig_PostDown r;
     WGServerConfig_MTU := WGServerConfig_MTU r;
     WGServerConfig_PublicEndpoint := WGServerConfig_PublicEndpoint r;
     WGServerConfig_Peers := WGServerConfig_Peers r |}.

Definition set_WGServerPeer_PublicKey (v : string) (r : WGServerPeer) : WGServerPeer :=
  {| WGServerPeer_Name := WGServerPeer_Name r;
     WGServerPeer_PublicKey := v;
     WGServerPeer_PrivateKey := WGServerPeer_PrivateKey r;
     WGServerPeer_PresharedKey := WGServerPeer_PresharedKey r;
     WGServerPeer_AllowedIPs := WGServerPeer_AllowedIPs r;
     WGServerPeer_Keepalive := WGServerPeer_Keepalive r;
     WGServerPeer_Endpoint := WGServerPeer_Endpoint r;
     WGServerPeer_RemoteSubnets := WGServerPeer_RemoteSubnets r;
     WGServerPeer_IsSiteToSite := WGServerPeer_IsSiteToSite r;
     WGServerPeer_Pending := WGServerPeer_Pending r;
     WGServerPeer_InviteExpiresAt := WGServerPeer_InviteExpiresAt r |}.

Definition set_WGServerPeer_Pending (v : bool) (r : WGServerPeer) : WGServerPeer :=
  {| WGServerPeer_Name := WGServerPeer_Name r;
     WGServerPeer_PublicKey := WGServerPeer_PublicKey r;
     WGServerPeer_PrivateKey := WGServerPeer_PrivateKey r;
     WGServerPeer_PresharedKey := WGServerPeer_PresharedKey r;
     WGServerPeer_AllowedIPs := WGServerPeer_AllowedIPs r;
     WGServerPeer_Keepalive := WGServerPeer_Keepalive r;
     WGServerPeer_Endpoint := WGServerPeer_Endpoint r;
     WGServerPeer_RemoteSubnets := WGServerPeer_RemoteSubnets r;
     WGServerPeer_IsSiteToSite := WGServerPeer_IsSiteToSite r;
     WGServerPeer_Pending := v;
     WGServerPeer_InviteExpiresAt := WGServerPeer_InviteExpiresAt r |}.

Definition set_WGServerPeer_InviteExpiresAt (v : Z) (r : WGServerPeer) : WGServerPeer :=
  {| WGServerPeer_Name := WGServerPeer_Name r;
     WGServerPeer_PublicKey := WGServerPeer_PublicKey r;
     WGServerPeer_PrivateKey := WGServerPeer_PrivateKey r;
     WGServerPeer_PresharedKey := WGServerPeer_PresharedKey r;
     WGServerPeer_AllowedIPs := WGServerPeer_AllowedIPs r;
     WGServerPeer_Keepalive := WGServerPeer_Keepalive r;
     WGServerPeer_Endpoint := WGServerPeer_Endpoint r;
     WGServerPeer_RemoteSubnets := WGServerPeer_RemoteSubnets r;
     WGServerPeer_IsSiteToSite := WGServerPeer_IsSiteToSite r;
     WGServerPeer_Pending := WGServerPeer_Pending r;
     WGServerPeer_InviteExpiresAt := v |}.

Definition set_BackupConfig_Schedule (v : string) (r : BackupConfig) : BackupConfig :=
  {| BackupConfig_Enabled := BackupConfig_Enabled r;
     BackupConfig_Schedule := v;
     BackupConfig_Passphrase := BackupConfig_Passphrase r;
     BackupConfig_Retention := BackupConfig_Retention r;
     BackupConfig_Targets := BackupConfig_Targets r;
     BackupConfig_LastRun := BackupConfig_LastRun r;
     BackupConfig_LastStatus := BackupConfig_LastStatus r;
     BackupConfig_LastError := BackupConfig_LastError r;
     BackupConfig_History := BackupConfig_History r |}.

Definition set_BackupConfig_Enabled (v : bool) (r : BackupConfig) : BackupConfig :=
  {| BackupConfig_Enabled := v;
     BackupConfig_Schedule := BackupConfig_Schedule r;
     BackupConfig_Passphrase := BackupConfig_Passphrase r;
     BackupConfig_Retention := BackupConfig_Retention r;
     BackupConfig_Targets := BackupConfig_Targets r;
     BackupConfig_LastRun := BackupConfig_LastRun r;
     BackupConfig_LastStatus := BackupConfig_LastStatus r;
     BackupConfig_LastError := BackupConfig_LastError r;
     BackupConfig_History := BackupConfig_History r |}.

Definition set_BackupConfig_Retention (v : Z) (r : BackupConfig) : BackupConfig :=
  {| BackupConfig_Enabled := BackupConfig_Enabled r;
     BackupConfig_Schedule := BackupConfig_Schedule r;
     BackupConfig_Passphrase := BackupConfig_Passphrase r;
     BackupConfig_Retention := v;
     BackupConfig_Targets := BackupConfig_Targets r;
     BackupConfig_LastRun := BackupConfig_LastRun r;
     BackupConfig_LastStatus := BackupConfig_LastStatus r;
     BackupConfig_LastError := BackupConfig_LastError r;
     BackupConfig_History := BackupConfig_History r |}.

Definition set_BackupConfig_LastRun (v : Z) (r : BackupConfig) : BackupConfig :=
  {| BackupConfig_Enabled := BackupConfig_Enabled r;
     BackupConfig_Schedule := BackupConfig_Schedule r;
     BackupConfig_Passphrase := BackupConfig_Passphrase r;
     BackupConfig_Retention := BackupConfig_Retention r;
     BackupConfig_Targets := BackupConfig_Targets r;
     BackupConfig_LastRun := v;
     BackupConfig_LastStatus := BackupConfig_LastStatus r;
     BackupConfig_LastError := BackupConfig_LastError r;
     BackupConfig_History := BackupConfig_History r |}.

Definition set_BackupConfig_LastStatus (v : string) (r : BackupConfig) : BackupConfig :=
  {| BackupConfig_Enabled := BackupConfig_Enabled r;
     BackupConfig_Schedule := BackupConfig_Schedule r;
     BackupConfig_Passphrase := BackupConfig_Passphrase r;
     BackupConfig_Retention := BackupConfig_Retention r;
     BackupConfig_Targets := BackupConfig_Targets r;
     BackupConfig_LastRun := BackupConfig_LastRun r;
     BackupConfig_LastStatus := v;
     BackupConfig_LastError := BackupConfig_LastError r;
     BackupConfig_History := BackupConfig_History r |}.

Definition set_BackupConfig_LastError (v : string) (r : BackupConfig) : BackupConfig :=
  {| BackupConfig_Enabled := BackupConfig_Enabled r;
     BackupConfig_Schedule := BackupConfig_Schedule r;
     BackupConfig_Passphrase := BackupConfig_Passphrase r;
     BackupConfig_Retention := BackupConfig_Retention r;
     BackupConfig_Targets := BackupConfig_Targets r;
     BackupConfig_LastRun := BackupConfig_LastRun r;
     BackupConfig_LastStatus := BackupConfig_LastStatus r;
     BackupConfig_LastError := v;
     BackupConfig_History := BackupConfig_History r |}.

Definition set_BackupConfig_History (v : list BackupHistory) (r : BackupConfig) : BackupConfig :=
  {| BackupConfig_Enabled := BackupConfig_Enabled r;
     BackupConfig_Schedule := BackupConfig_Schedule r;
     BackupConfig_Passphrase := BackupConfig_Passphrase r;
     BackupConfig_Retention := BackupConfig_Retention r;
     BackupConfig_Targets := BackupConfig_Targets r;
     BackupConfig_LastRun := BackupConfig_LastRun r;
     BackupConfig_LastStatus := BackupConfig_LastStatus r;
     BackupConfig_LastError := BackupConfig_LastError r;
     BackupConfig_History := v |}.

Definition set_WGClientTunnel_Name (v : string) (r : WGClientTunnel) : WGClientTunnel :=
  {| WGClientTunnel_Name := v;
     WGClientTunnel_Endpoint := WGClientTunnel_Endpoint r;
     WGClientTunnel_PrivateKey := WGClientTunnel_PrivateKey r;
     WGClientTunnel_PublicKey := WGClientTunnel_PublicKey r;
     WGClientTunnel_AllowedIPs := WGClientTunnel_AllowedIPs r;
     WGClientTunnel_DNS := WGClientTunnel_DNS r;
     WGClientTunnel_Table := WGClientTunnel_Table r;
     WGClientTunnel_Fwmark := WGClientTunnel_Fwmark r;
     WGClientTunnel_Address := WGClientTunnel_Address r;
     WGClientTunnel_MTU := WGClientTunnel_MTU r;
     WGClientTunnel_PresharedKey := WGClientTunnel_PresharedKey r;
     WGClientTunnel_Keepalive := WGClientTunnel_Keepalive r |}.

Definition set_WGClientTunnel_Fwmark (v : Z) (r : WGClientTunnel) : WGClientTunnel :=
  {| WGClientTunnel_Name := WGClientTunnel_Name r;
     WGClientTunnel_Endpoint := WGClientTunnel_Endpoint r;
     WGClientTunnel_PrivateKey := WGClientTunnel_PrivateKey r;
     WGClientTunnel_PublicKey := WGClientTunnel_PublicKey r;
     WGClientTunnel_AllowedIPs := WGClientTunnel_AllowedIPs r;
     WGClientTunnel_DNS := WGClientTunnel_DNS r;
     WGClientTunnel_Table := WGClientTunnel_Table r;
     WGClientTunnel_Fwmark := v;
     WGClientTunnel_Address := WGClientTunnel_Address r;
     WGClientTunnel_MTU := WGClientTunnel_MTU r;
     WGClientTunnel_PresharedKey := WGClientTunnel_PresharedKey r;
     WGClientTunnel_Keepalive := WGClientTunnel_Keepalive r |}.

Definition set_OVPNServerConfig_Clients (v : list OVPNClientEntry) (r : OVPNServerConfig) : OVPNServerConfig :=
  {| OVPNServerConfig_Enabled := OVPNServerConfig_Enabled r;
     OVPNServerConfig_Protocol := OVPNServerConfig_Protocol r;
     OVPNServerConfig_Port := OVPNServerConfig_Port r;
     OVPNServerConfig_Device := OVPNServerConfig_Device r;
     OVPNServerConfig_Subnet := OVPNServerConfig_Subnet r;
     OVPNServerConfig_Subnet6 := OVPNServerConfig_Subnet6 r;
     OVPNServerConfig_DNS := OVPNServerConfig_DNS r;
     OVPNServerConfig_Cipher := OVPNServerConfig_Cipher r;
     OVPNServerConfig_Auth := OVPNServerConfig_Auth r;
     OVPNServerConfig_TLSAuth := OVPNServerConfig_TLSAuth r;
     OVPNServerConfig_Compression := OVPNServerConfig_Compression r;
     OVPNServerConfig_MaxClients := OVPNServerConfig_MaxClients r;
     OVPNServerConfig_Keepalive := OVPNServerConfig_Keepalive r;
     OVPNServerConfig_ClientToClient := OVPNServerConfig_ClientToClient r;
     OVPNServerConfig_DuplicateCN := OVPNServerConfig_DuplicateCN r;
     OVPNServerConfig_PublicEndpoint := OVPNServerConfig_PublicEndpoint r;
     OVPNServerConfig_Clients := v;
     OVPNServerConfig_CCD := OVPNServerConfig_CCD r |}.

Definition set_OpenVPNConfig_Server (v : OVPNServerConfig) (r : OpenVPNConfig) : OpenVPNConfig :=
  {| OpenVPNConfig_Clients := OpenVPNConfig_Clients r;
     OpenVPNConfig_Server := v |}.

Definition set_OpenVPNConfig_Clients (v : list OVPNClientConfig) (r : OpenVPNConfig) : OpenVPNConfig :=
  {| OpenVPNConfig_Clients := v;
     OpenVPNConfig_Server := OpenVPNConfig_Server r |}.

Definition set_OVPNClientEntry_Enabled (v : bool) (r : OVPNClientEntry) : OVPNClientEntry :=
  {| OVPNClientEntry_Name := OVPNClientEntry_Name r;
     OVPNClientEntry_CommonName := OVPNClientEntry_CommonName r;
     OVPNClientEntry_FixedIP := OVPNClientEntry_FixedIP r;
     OVPNClientEntry_Enabled := v;
     OVPNClientEntry_IsSiteToSite := OVPNClientEntry_IsSiteToSite r;
     OVPNClientEntry_RemoteSubnets := OVPNClientEntry_RemoteSubnets r |}.

Definition set_OVPNServerConfig_Subnet (v : string) (r : OVPNServerConfig) : OVPNServerConfig :=
  {| OVPNServerConfig_Enabled := OVPNServerConfig_Enabled r;
     OVPNServerConfig_Protocol := OVPNServerConfig_Protocol r;
     OVPNServerConfig_Port := OVPNServerConfig_Port r;
     OVPNServerConfig_Device := OVPNServerConfig_Device r;
     OVPNServerConfig_Subnet := v;
     OVPNServerConfig_Subnet6 := OVPNServerConfig_Subnet6 r;
     OVPNServerConfig_DNS := OVPNServerConfig_DNS r;
     OVPNServerConfig_Cipher := OVPNServerConfig_Cipher r;
     OVPNServerConfig_Auth := OVPNServerConfig_Auth r;
     OVPNServerConfig_TLSAuth := OVPNServerConfig_TLSAuth r;
     OVPNServerConfig_Compression := OVPNServerConfig_Compression r;
     OVPNServerConfig_MaxClients := OVPNServerConfig_MaxClients r;
     OVPNServerConfig_Keepalive := OVPNServerConfig_Keepalive r;
     OVPNServerConfig_ClientToClient := OVPNServerConfig_ClientToClient r;
     OVPNServerConfig_DuplicateCN := OVPNServerConfig_DuplicateCN r;
     OVPNServerConfig_PublicEndpoint := OVPNServerConfig_PublicEndpoint r;
     OVPNServerConfig_Clients := OVPNServerConfig_Clients r;
     OVPNServerConfig_CCD := OVPNServerConfig_CCD r |}.

Definition set_OVPNClientConfig_RemotePort (v : Z) (r : OVPNClientConfig) : OVPNClientConfig :=
  {| OVPNClientConfig_Name := OVPNClientConfig_Name r;
     OVPNClientConfig_ConfigFile := OVPNClientConfig_ConfigFile r;
     OVPNClientConfig_RemoteHost := OVPNClientConfig_RemoteHost r;
     OVPNClientConfig_RemotePort := v;
     OVPNClientConfig_Protocol := OVPNClientConfig_Protocol r;
     OVPNClientConfig_Cipher := OVPNClientConfig_Cipher r;
     OVPNClientConfig_Auth := OVPNClientConfig_Auth r;
     OVPNClientConfig_TLSAuth := OVPNClientConfig_TLSAuth r;
     OVPNClientConfig_Username := OVPNClientConfig_Username r;
     OVPNClientConfig_Password := OVPNClientConfig_Password r;
     OVPNClientConfig_Table := OVPNClientConfig_Table r;
     OVPNClientConfig_Fwmark := OVPNClientConfig_Fwmark r |}.

Definition set_OVPNClientConfig_Protocol (v : string) (r : OVPNClientConfig) : OVPNClientConfig :=
  {| OVPNClientConfig_Name := OVPNClientConfig_Name r;
     OVPNClientConfig_ConfigFile := OVPNClientConfig_ConfigFile r;
     OVPNClientConfig_RemoteHost := OVPNClientConfig_RemoteHost r;
     OVPNClientConfig_RemotePort := OVPNClientConfig_RemotePort r;
     OVPNClientConfig_Protocol := v;
     OVPNClientConfig_Cipher := OVPNClientConfig_Cipher r;
     OVPNClientConfig_Auth := OVPNClientConfig_Auth r;
     OVPNClientConfig_TLSAuth := OVPNClientConfig_TLSAuth r;
     OVPNClientConfig_Username := OVPNClientConfig_Username r;
     OVPNClientConfig_Password := OVPNClientConfig_Password r;
     OVPNClientConfig_Table := OVPNClientConfig_Table r;
     OVPNClientConfig_Fwmark := OVPNClientConfig_Fwmark r |}.

Definition set_OVPNClientConfig_Cipher (v : string) (r : OVPNClientConfig) : OVPNClientConfig :=
  {| OVPNClientConfig_Name := OVPNClientConfig_Name r;
     OVPNClientConfig_ConfigFile := OVPNClientConfig_ConfigFile r;
     OVPNClientConfig_RemoteHost := OVPNClientConfig_RemoteHost r;
     OVPNClientConfig_RemotePort := OVPNClientConfig_RemotePort r;
     OVPNClientConfig_Protocol := OVPNClientConfig_Protocol r;
     OVPNClientConfig_Cipher := v;
     OVPNClientConfig_Auth := OVPNClientConfig_Auth r;
     OVPNClientConfig_TLSAuth := OVPNClientConfig_TLSAuth r;
     OVPNClientConfig_Username := OVPNClientConfig_Username r;
     OVPNClientConfig_Password := OVPNClientConfig_Password r;
     OVPNClientConfig_Table := OVPNClientConfig_Table r;
     OVPNClientConfig_Fwmark := OVPNClientConfig_Fwmark r |}.

Definition set_OVPNClientConfig_Auth (v : string) (r : OVPNClientConfig) : OVPNClientConfig :=
  {| OVPNClientConfig_Name := OVPNClientConfig_Name r;
     OVPNClientConfig_ConfigFile := OVPNClientConfig_ConfigFile r;
     OVPNClientConfig_RemoteHost := OVPNClientConfig_RemoteHost r;
     OVPNClientConfig_RemotePort := OVPNClientConfig_RemotePort r;
     OVPNClientConfig_Protocol := OVPNClientConfig_Protocol r;
     OVPNClientConfig_Cipher := OVPNClientConfig_Cipher r;
     OVPNClientConfig_Auth := v;
     OVPNClientConfig_TLSAuth := OVPNClientConfig_TLSAuth r;
     OVPNClientConfig_Username := OVPNClientConfig_Username r;
     OVPNClientConfig_Password := OVPNClientConfig_Password r;
     OVPNClientConfig_Table := OVPNClientConfig_Table r;
     OVPNClientConfig_Fwmark := OVPNClientConfig_Fwmark r |}.

Definition set_OVPNClientConfig_Name (v : string) (r : OVPNClientConfig) : OVPNClientConfig :=
  {| OVPNClientConfig_Name := v;
     OVPNClientConfig_ConfigFile := OVPNClientConfig_ConfigFile r;
     OVPNClientConfig_RemoteHost := OVPNClientConfig_RemoteHost r;
     OVPNClientConfig_RemotePort := OVPNClientConfig_RemotePort r;
     OVPNClientConfig_Protocol := OVPNClientConfig_Protocol r;
     OVPNClientConfig_Cipher := OVPNClientConfig_Cipher r;
     OVPNClientConfig_Auth := OVPNClientConfig_Auth r;
     OVPNClientConfig_TLSAuth := OVPNClientConfig_TLSAuth r;
     OVPNClientConfig_Username := OVPNClientConfig_Username r;
     OVPNClientConfig_Password := OVPNClientConfig_Password r;
     OVPNClientConfig_Table := OVPNClientConfig_Table r;
     OVPNClientConfig_Fwmark := OVPNClientConfig_Fwmark r |}.

Definition set_OVPNClientConfig_ConfigFile (v : string) (r : OVPNClientConfig) : OVPNClientConfig :=
  {| OVPNClientConfig_Name := OVPNClientConfig_Name r;
     OVPNClientConfig_ConfigFile := v;
     OVPNClientConfig_RemoteHost := OVPNClientConfig_RemoteHost r;
     OVPNClientConfig_RemotePort := OVPNClientConfig_RemotePort r;
     OVPNClientConfig_Protocol := OVPNClientConfig_Protocol r;
     OVPNClientConfig_Cipher := OVPNClientConfig_Cipher r;
     OVPNClientConfig_Auth := OVPNClientConfig_Auth r;
     OVPNClientConfig_TLSAuth := OVPNClientConfig_TLSAuth r;
     OVPNClientConfig_Username := OVPNClientConfig_Username r;
     OVPNClientConfig_Password := OVPNClientConfig_Password r;
     OVPNClientConfig_Table := OVPNClientConfig_Table r;
     OVPNClientConfig_Fwmark := OVPNClientConfig_Fwmark r |}.

Definition set_BackupTarget_Path (v : string) (r : BackupTarget) : BackupTarget :=
  {| BackupTarget_Type := BackupTarget_Type r;
     BackupTarget_Name := BackupTarget_Name r;
     BackupTarget_Path := v;
     BackupTarget_Endpoint := BackupTarget_Endpoint r;
     BackupTarget_Region := BackupTarget_Region r;
     BackupTarget_Bucket := BackupTarget_Bucket r;
     BackupTarget_Prefix := BackupTarget_Prefix r;
     BackupTarget_AccessKeyID := BackupTarget_AccessKeyID r;
     BackupTarget_SecretAccessKey := BackupTarget_SecretAccessKey r;
     BackupTarget_UsePathStyle := BackupTarget_UsePathStyle r;
     BackupTarget_Host := BackupTarget_Host r;
     BackupTarget_Port := BackupTarget_Port r;
     BackupTarget_User := BackupTarget_User r;
     BackupTarget_Password := BackupTarget_Password r;
     BackupTarget_KeyPath := BackupTarget_KeyPath r;
     BackupTarget_RemoteDir := BackupTarget_RemoteDir r;
     BackupTarget_HostKeyFingerprint := BackupTarget_HostKeyFingerprint r |}.

Definition set_Config_PPPoE (v : PPPoEConfig) (r : Config) : Config :=
  {| Config_filePath := Config_filePath r;
     Config_System := Config_System r;
     Config_Interfaces := Config_Interfaces r;
     Config_VLANs := Config_VLANs r;
     Config_HealthCheck := Config_HealthCheck r;
     Config_PPPoE := v;
     Config_USBTether := Config_USBTether r;
     Config_Firewall := Config_Firewall r;
     Config_QoS := Config_QoS r;
     Config_DNS := Config_DNS r;
     Config_DHCP := Config_DHCP r;
     Config_IPv6 := Config_IPv6 r;
     Config_VPN := Config_VPN r;
     Config_OpenVPN := Config_OpenVPN r;
     Config_Routing := Config_Routing r;
     Config_NAS := Config_NAS r;
     Config_Syslog := Config_Syslog r;
     Config_NTP := Config_NTP r;
     Config_Storage := Config_Storage r;
     Config_Backup := Config_Backup r |}.

Definition set_PPPoEConfig_Username (v : string) (r : PPPoEConfig) : PPPoEConfig :=
  {| PPPoEConfig_Username := v;
     PPPoEConfig_Password := PPPoEConfig_Password r;
     PPPoEConfig_MTU := PPPoEConfig_MTU r;
     PPPoEConfig_MRU := PPPoEConfig_MRU r;
     PPPoEConfig_LCPEchoInterval := PPPoEConfig_LCPEchoInterval r;
     PPPoEConfig_LCPEchoFailure := PPPoEConfig_LCPEchoFailure r;
     PPPoEConfig_Persist := PPPoEConfig_Persist r;
     PPPoEConfig_Holdoff := PPPoEConfig_Holdoff r;
     PPPoEConfig_IPv6CP := PPPoEConfig_IPv6CP r |}.

Definition set_PPPoEConfig_Password (v : string) (r : PPPoEConfig) : PPPoEConfig :=
  {| PPPoEConfig_Username := PPPoEConfig_Username r;
     PPPoEConfig_Password := v;
     PPPoEConfig_MTU := PPPoEConfig_MTU r;
     PPPoEConfig_MRU := PPPoEConfig_MRU r;
     PPPoEConfig_LCPEchoInterval := PPPoEConfig_LCPEchoInterval r;
     PPPoEConfig_LCPEchoFailure := PPPoEConfig_LCPEchoFailure r;
     PPPoEConfig_Persist := PPPoEConfig_Persist r;
     PPPoEConfig_Holdoff := PPPoEConfig_Holdoff r;
     PPPoEConfig_IPv6CP := PPPoEConfig_IPv6CP r |}.

Definition set_Config_IPv6 (v : IPv6Config) (r : Config) : Config :=
  {| Config_filePath := Config_filePath r;
     Config_System := Config_System r;
     Config_Interfaces := Config_Interfaces r;
     Config_VLANs := Config_VLANs r;
     Config_HealthCheck := Config_HealthCheck r;
     Config_PPPoE := Config_PPPoE r;
     Config_USBTether := Config_USBTether r;
     Config_Firewall := Config_Firewall r;
     Config_QoS := Config_QoS r;
     Config_DNS := Config_DNS r;
     Config_DHCP := Config_DHCP r;
     Config_IPv6 := v;
     Config_VPN := Config_VPN r;
     Config_OpenVPN := Config_OpenVPN r;
     Config_Routing := Config_Routing r;
     Config_NAS := Config_NAS r;
     Config_Syslog := Config_Syslog r;
     Config_NTP := Config_NTP r;
     Config_Storage := Config_Storage r;
     Config_Backup := Config_Backup r |}.

Definition set_IPv6Config_Enabled (v : string) (r : IPv6Config) : IPv6Config :=
  {| IPv6Config_Enabled := v;
     IPv6Config_Mode := IPv6Config_Mode r;
     IPv6Config_WAN := IPv6Config_WAN r;
     IPv6Config_LAN := IPv6Config_LAN r;
     IPv6Config_Tunnel := IPv6Config_Tunnel r;
     IPv6Config_Privacy := IPv6Config_Privacy r |}.

Definition set_IPv6Config_Mode (v : string) (r : IPv6Config) : IPv6Config :=
  {| IPv6Config_Enabled := IPv6Config_Enabled r;
     IPv6Config_Mode := v;
     IPv6Config_WAN := IPv6Config_WAN r;
     IPv6Config_LAN := IPv6Config_LAN r;
     IPv6Config_Tunnel := IPv6Config_Tunnel r;
     IPv6Config_Privacy := IPv6Config_Privacy r |}.

Definition set_IPv6Config_WAN (v : IPv6WANConfig) (r : IPv6Config) : IPv6Config :=
  {| IPv6Config_Enabled := IPv6Config_Enabled r;
     IPv6Config_Mode := IPv6Config_Mode r;
     IPv6Config_WAN := v;
     IPv6Config_LAN := IPv6Config_LAN r;
     IPv6Config_Tunnel := IPv6Config_Tunnel r;
     IPv6Config_Privacy := IPv6Config_Privacy r |}.

Definition set_IPv6Config_LAN (v : IPv6LANConfig) (r : IPv6Config) : IPv6Config :=
  {| IPv6Config_Enabled := IPv6Config_Enabled r;
     IPv6Config_Mode := IPv6Config_Mode r;
     IPv6Config_WAN := IPv6Config_WAN r;
     IPv6Config_LAN := v;
     IPv6Config_Tunnel := IPv6Config_Tunnel r;
     IPv6Config_Privacy := IPv6Config_Privacy r |}.

Definition set_IPv6Config_Tunnel (v : IPv6TunnelConfig) (r : IPv6Config) : IPv6Config :=
  {| IPv6Config_Enabled := IPv6Config_Enabled r;
     IPv6Config_Mode := IPv6Config_Mode r;
     IPv6Config_WAN := IPv6Config_WAN r;
     IPv6Config_LAN := IPv6Config_LAN r;
     IPv6Config_Tunnel := v;
     IPv6Config_Privacy := IPv6Config_Privacy r |}.

Definition set_IPv6WANConfig_RequestPrefix (v : bool) (r : IPv6WANConfig) : IPv6WANConfig :=
  {| IPv6WANConfig_AcceptRA := IPv6WANConfig_AcceptRA r;
     IPv6WANConfig_RequestPrefix := v;
     IPv6WANConfig_PrefixHint := IPv6WANConfig_PrefixHint r;
     IPv6WANConfig_RapidCommit := IPv6WANConfig_RapidCommit r |}.

Definition set_IPv6WANConfig_RapidCommit (v : bool) (r : IPv6WANConfig) : IPv6WANConfig :=
  {| IPv6WANConfig_AcceptRA := IPv6WANConfig_AcceptRA r;
     IPv6WANConfig_RequestPrefix := IPv6WANConfig_RequestPrefix r;
     IPv6WANConfig_PrefixHint := IPv6WANConfig_PrefixHint r;
     IPv6WANConfig_RapidCommit := v |}.

Definition set_IPv6WANConfig_PrefixHint (v : string) (r : IPv6WANConfig) : IPv6WANConfig :=
  {| IPv6WANConfig_AcceptRA := IPv6WANConfig_AcceptRA r;
     IPv6WANConfig_RequestPrefix := IPv6WANConfig_RequestPrefix r;
     IPv6WANConfig_PrefixHint := v;
     IPv6WANConfig_RapidCommit := IPv6WANConfig_RapidCommit r |}.

Definition set_IPv6LANConfig_ULA (v : IPv6ULAConfig) (r : IPv6LANConfig) : IPv6LANConfig :=
  {| IPv6LANConfig_Mode := IPv6LANConfig_Mode r;
     IPv6LANConfig_ULA := v;
     IPv6LANConfig_RAInterval := IPv6LANConfig_RAInterval r;
     IPv6LANConfig_RDNSS := IPv6LANConfig_RDNSS r;
     IPv6LANConfig_SubnetMap := IPv6LANConfig_SubnetMap r |}.

Definition set_IPv6LANConfig_SubnetMap (v : gmap string Z) (r : IPv6LANConfig) : IPv6LANConfig :=
  {| IPv6LANConfig_Mode := IPv6LANConfig_Mode r;
     IPv6LANConfig_ULA := IPv6LANConfig_ULA r;
     IPv6LANConfig_RAInterval := IPv6LANConfig_RAInterval r;
     IPv6LANConfig_RDNSS := IPv6LANConfig_RDNSS r;
     IPv6LANConfig_SubnetMap := v |}.

Definition set_IPv6ULAConfig_Prefix (v : string) (r : IPv6ULAConfig) : IPv6ULAConfig :=
  {| IPv6ULAConfig_Enabled := IPv6ULAConfig_Enabled r;
     IPv6ULAConfig_Prefix := v |}.

Definition set_Config_QoS (v : QoSConfig) (r : Config) : Config :=
  {| Config_filePath := Config_filePath r;
     Config_System := Config_System r;
     Config_Interfaces := Config_Interfaces r;
     Config_VLANs := Config_VLANs r;
     Config_HealthCheck := Config_HealthCheck r;
     Config_PPPoE := Config_PPPoE r;
     Config_USBTether := Config_USBTether r;
     Config_Firewall := Config_Firewall r;
     Config_QoS := v;
     Config_DNS := Config_DNS r;
     Config_DHCP := Config_DHCP r;
     Config_IPv6 := Config_IPv6 r;
     Config_VPN := Config_VPN r;
     Config_OpenVPN := Config_OpenVPN r;
     Config_Routing := Config_Routing r;
     Config_NAS := Config_NAS r;
     Config_Syslog := Config_Syslog r;
     Config_NTP := Config_NTP r;
     Config_Storage := Config_Storage r;
     Config_Backup := Config_Backup r |}.

Definition set_QoSConfig_Enabled (v : bool) (r : QoSConfig) : QoSConfig :=
  {| QoSConfig_Enabled := v;
     QoSConfig_Profile := QoSConfig_Profile r;
     QoSConfig_UploadKbps := QoSConfig_UploadKbps r;
     QoSConfig_DownloadKbps := QoSConfig_DownloadKbps r;
     QoSConfig_CongestionControl := QoSConfig_CongestionControl r;
     QoSConfig_PerDeviceLimits := QoSConfig_PerDeviceLimits r |}.

Definition set_Config_NTP (v : NTPConfig) (r : Config) : Config :=
  {| Config_filePath := Config_filePath r;
     Config_System := Config_System r;
     Config_Interfaces := Config_Interfaces r;
     Config_VLANs := Config_VLANs r;
     Config_HealthCheck := Config_HealthCheck r;
     Config_PPPoE := Config_PPPoE r;
     Config_USBTether := Config_USBTether r;
     Config_Firewall := Config_Firewall r;
     Config_QoS := Config_QoS r;
     Config_DNS := Config_DNS r;
     Config_DHCP := Config_DHCP r;
     Config_IPv6 := Config_IPv6 r;
     Config_VPN := Config_VPN r;
     Config_OpenVPN := Config_OpenVPN r;
     Config_Routing := Config_Routing r;
     Config_NAS := Config_NAS r;
     Config_Syslog := Config_Syslog r;
     Config_NTP := v;
     Config_Storage := Config_Storage r;
     Config_Backup := Config_Backup r |}.

Definition set_NTPConfig_Client (v : NTPClientConfig) (r : NTPConfig) : NTPConfig :=
  {| NTPConfig_Server := NTPConfig_Server r;
     NTPConfig_Client := v;
     NTPConfig_RTCSync := NTPConfig_RTCSync r;
     NTPConfig_AllowSubnets := NTPConfig_AllowSubnets r |}.

Definition set_NTPConfig_AllowSubnets (v : list string) (r : NTPConfig) : NTPConfig :=
  {| NTPConfig_Server := NTPConfig_Server r;
     NTPConfig_Client := NTPConfig_Client r;
     NTPConfig_RTCSync := NTPConfig_RTCSync r;
     NTPConfig_AllowSubnets := v |}.

Definition set_NTPClientConfig_Sources (v : list string) (r : NTPClientConfig) : NTPClientConfig :=
  {| NTPClientConfig_Enabled := NTPClientConfig_Enabled r;
     NTPClientConfig_Sources := v;
     NTPClientConfig_Fallback := NTPClientConfig_Fallback r |}.

Definition set_NTPClientConfig_Fallback (v : string) (r : NTPClientConfig) : NTPClientConfig :=
  {| NTPClientConfig_Enabled := NTPClientConfig_Enabled r;
     NTPClientConfig_Sources := NTPClientConfig_Sources r;
     NTPClientConfig_Fallback := v |}.

Definition set_Config_Syslog (v : SyslogConfig) (r : Config) : Config :=
  {| Config_filePath := Config_filePath r;
     Config_System := Config_System r;
     Config_Interfaces := Config_Interfaces r;
     Config_VLANs := Config_VLANs r;
     Config_HealthCheck := Config_HealthCheck r;
     Config_PPPoE := Config_PPPoE r;
     Config_USBTether := Config_USBTether r;
     Config_Firewall := Config_Firewall r;
     Config_QoS := Config_QoS r;
     Config_DNS := Config_DNS r;
     Config_DHCP := Config_DHCP r;
     Config_IPv6 := Config_IPv6 r;
     Config_VPN := Config_VPN r;
     Config_OpenVPN := Config_OpenVPN r;
     Config_Routing := Config_Routing r;
     Config_NAS := Config_NAS r;
     Config_Syslog := v;
     Config_NTP := Config_NTP r;
     Config_Storage := Config_Storage r;
     Config_Backup := Config_Backup r |}.

Definition set_SyslogConfig_Server (v : SyslogServerConfig) (r : SyslogConfig) : SyslogConfig :=
  {| SyslogConfig_Server := v;
     SyslogConfig_Client := SyslogConfig_Client r |}.

Definition set_SyslogConfig_Client (v : SyslogClientConfig) (r : SyslogConfig) : SyslogConfig :=
  {| SyslogConfig_Server := SyslogConfig_Server r;
     SyslogConfig_Client := v |}.

Definition set_SyslogClientConfig_Facilities (v : list string) (r : SyslogClientConfig) : SyslogClientConfig :=
  {| SyslogClientConfig_Enabled := SyslogClientConfig_Enabled r;
     SyslogClientConfig_RemoteHost := SyslogClientConfig_RemoteHost r;
     SyslogClientConfig_Protocol := SyslogClientConfig_Protocol r;
     SyslogClientConfig_EnableTLS := SyslogClientConfig_EnableTLS r;
     SyslogClientConfig_TLSCAFile := SyslogClientConfig_TLSCAFile r;
     SyslogClientConfig_Facilities := v |}.

Definition set_Config_USBTether (v : USBTetherConfig) (r : Config) : Config :=
  {| Config_filePath := Config_filePath r;
     Config_System := Config_System r;
     Config_Interfaces := Config_Interfaces r;
     Config_VLANs := Config_VLANs r;
     Config_HealthCheck := Config_HealthCheck r;
     Config_PPPoE := Config_PPPoE r;
     Config_USBTether := v;
     Config_Firewall := Config_Firewall r;
     Config_QoS := Config_QoS r;
     Config_DNS := Config_DNS r;
     Config_DHCP := Config_DHCP r;
     Config_IPv6 := Config_IPv6 r;
     Config_VPN := Config_VPN r;
     Config_OpenVPN := Config_OpenVPN r;
     Config_Routing := Config_Routing r;
     Config_NAS := Config_NAS r;
     Config_Syslog := Config_Syslog r;
     Config_NTP := Config_NTP r;
     Config_Storage := Config_Storage r;
     Config_Backup := Config_Backup r |}.

Definition set_USBTetherConfig_Enabled (v : bool) (r : USBTetherConfig) : USBTetherConfig :=
  {| USBTetherConfig_Enabled := v;
     USBTetherConfig_AutoFailover := USBTetherConfig_AutoFailover r;
     USBTetherConfig_Interface := USBTetherConfig_Interface r;
     USBTetherConfig_Metric := USBTetherConfig_Metric r;
     USBTetherConfig_NAT := USBTetherConfig_NAT r |}.

Definition set_USBTetherConfig_AutoFailover (v : bool) (r : USBTetherConfig) : USBTetherConfig :=
  {| USBTetherConfig_Enabled := USBTetherConfig_Enabled r;
     USBTetherConfig_AutoFailover := v;
     USBTetherConfig_Interface := USBTetherConfig_Interface r;
     USBTetherConfig_Metric := USBTetherConfig_Metric r;
     USBTetherConfig_NAT := USBTetherConfig_NAT r |}.

Definition set_Config_NAS (v : NASConfig) (r : Config) : Config :=
  {| Config_filePath := Config_filePath r;
     Config_System := Config_System r;
     Config_Interfaces := Config_Interfaces r;
     Config_VLANs := Config_VLANs r;
     Config_HealthCheck := Config_HealthCheck r;
     Config_PPPoE := Config_PPPoE r;
     Config_USBTether := Config_USBTether r;
     Config_Firewall := Config_Firewall r;
     Config_QoS := Config_QoS r;
     Config_DNS := Config_DNS r;
     Config_DHCP := Config_DHCP r;
     Config_IPv6 := Config_IPv6 r;
     Config_VPN := Config_VPN r;
     Config_OpenVPN := Config_OpenVPN r;
     Config_Routing := Config_Routing r;
     Config_NAS := v;
     Config_Syslog := Config_Syslog r;
     Config_NTP := Config_NTP r;
     Config_Storage := Config_Storage r;
     Config_Backup := Config_Backup r |}.

Definition set_Config_Storage (v : StorageConfig) (r : Config) : Config :=
  {| Config_filePath := Config_filePath r;
     Config_System := Config_System r;
     Config_Interfaces := Config_Interfaces r;
     Config_VLANs := Config_VLANs r;
     Config_HealthCheck := Config_HealthCheck r;
     Config_PPPoE := Config_PPPoE r;
     Config_USBTether := Config_USBTether r;
     Config_Firewall := Config_Firewall r;
     Config_QoS := Config_QoS r;
     Config_DNS := Config_DNS r;
     Config_DHCP := Config_DHCP r;
     Config_IPv6 := Config_IPv6 r;
     Config_VPN := Config_VPN r;
     Config_OpenVPN := Config_OpenVPN r;
     Config_Routing := Config_Routing r;
     Config_NAS := Config_NAS r;
     Config_Syslog := Config_Syslog r;
     Config_NTP := Config_NTP r;
     Config_Storage := v;
     Config_Backup := Config_Backup r |}.

Definition set_NASConfig_Shares (v : list ShareConfig) (r : NASConfig) : NASConfig :=
  {| NASConfig_Shares := v;
     NASConfig_M3USources := NASConfig_M3USources r |}.

Definition set_NASConfig_M3USources (v : list M3USourceConfig) (r : NASConfig) : NASConfig :=
  {| NASConfig_Shares := NASConfig_Shares r;
     NASConfig_M3USources := v |}.

Definition set_StorageConfig_RAID (v : RAIDConfig) (r : StorageConfig) : StorageConfig :=
  {| StorageConfig_RAID := v;
     StorageConfig_SMARTCheckInterval := StorageConfig_SMARTCheckInterval r |}.

Definition set_TLSConfig_Mode (v : string) (r : TLSConfig) : TLSConfig :=
  {| TLSConfig_Mode := v;
     TLSConfig_CertFile := TLSConfig_CertFile r;
     TLSConfig_KeyFile := TLSConfig_KeyFile r;
     TLSConfig_SelfSigned := TLSConfig_SelfSigned r;
     TLSConfig_ACME := TLSConfig_ACME r;
     TLSConfig_Mkcert := TLSConfig_Mkcert r |}.

Definition set_TLSConfig_SelfSigned (v : SelfSignedConfig) (r : TLSConfig) : TLSConfig :=
  {| TLSConfig_Mode := TLSConfig_Mode r;
     TLSConfig_CertFile := TLSConfig_CertFile r;
     TLSConfig_KeyFile := TLSConfig_KeyFile r;
     TLSConfig_SelfSigned := v;
     TLSConfig_ACME := TLSConfig_ACME r;
     TLSConfig_Mkcert := TLSConfig_Mkcert r |}.

Definition set_TLSConfig_Mkcert (v : MkcertConfig) (r : TLSConfig) : TLSConfig :=
  {| TLSConfig_Mode := TLSConfig_Mode r;
     TLSConfig_CertFile := TLSConfig_CertFile r;
     TLSConfig_KeyFile := TLSConfig_KeyFile r;
     TLSConfig_SelfSigned := TLSConfig_SelfSigned r;
     TLSConfig_ACME := TLSConfig_ACME r;
     TLSConfig_Mkcert := v |}.

Definition set_MkcertConfig_SANs (v : list string) (r : MkcertConfig) : MkcertConfig :=
  {| MkcertConfig_SANs := v |}.

Definition set_ACMEConfig_Enabled (v : bool) (r : ACMEConfig) : ACMEConfig :=
  {| ACMEConfig_Enabled := v;
     ACMEConfig_Email := ACMEConfig_Email r;
     ACMEConfig_Domain := ACMEConfig_Domain r;
     ACMEConfig_Provider := ACMEConfig_Provider r;
     ACMEConfig_DirectoryURL := ACMEConfig_DirectoryURL r;
     ACMEConfig_DNSChallenge := ACMEConfig_DNSChallenge r |}.

Definition set_ACMEConfig_Email (v : string) (r : ACMEConfig) : ACMEConfig :=
  {| ACMEConfig_Enabled := ACMEConfig_Enabled r;
     ACMEConfig_Email := v;
     ACMEConfig_Domain := ACMEConfig_Domain r;
     ACMEConfig_Provider := ACMEConfig_Provider r;
     ACMEConfig_DirectoryURL := ACMEConfig_DirectoryURL r;
     ACMEConfig_DNSChallenge := ACMEConfig_DNSChallenge r |}.

Definition set_ACMEConfig_Domain (v : string) (r : ACMEConfig) : ACMEConfig :=
  {| ACMEConfig_Enabled := ACMEConfig_Enabled r;
     ACMEConfig_Email := ACMEConfig_Email r;
     ACMEConfig_Domain := v;
     ACMEConfig_Provider := ACMEConfig_Provider r;
     ACMEConfig_DirectoryURL := ACMEConfig_DirectoryURL r;
     ACMEConfig_DNSChallenge := ACMEConfig_DNSChallenge r |}.

Definition set_ACMEConfig_DirectoryURL (v : string) (r : ACMEConfig) : ACMEConfig :=
  {| ACMEConfig_Enabled := ACMEConfig_Enabled r;
     ACMEConfig_Email := ACMEConfig_Email r;
     ACMEConfig_Domain := ACMEConfig_Domain r;
     ACMEConfig_Provider := ACMEConfig_Provider r;
     ACMEConfig_DirectoryURL := v;
     ACMEConfig_DNSChallenge := ACMEConfig_DNSChallenge r |}.

Definition set_SystemConfig_AdminPasswordHash (v : string) (r : SystemConfig) : SystemConfig :=
  {| SystemConfig_Hostname := SystemConfig_Hostname r;
     SystemConfig_Timezone := SystemConfig_Timezone r;
     SystemConfig_Language := SystemConfig_Language r;
     SystemConfig_AdminPasswordHash := v;
     SystemConfig_SessionSecret := SystemConfig_SessionSecret r;
     SystemConfig_Domain := SystemConfig_Domain r;
     SystemConfig_WebPort := SystemConfig_WebPort r;
     SystemConfig_WebBind := SystemConfig_WebBind r;
     SystemConfig_TLS := SystemConfig_TLS r |}.

Definition set_SystemConfig_Hostname (v : string) (r : SystemConfig) : SystemConfig :=
  {| SystemConfig_Hostname := v;
     SystemConfig_Timezone := SystemConfig_Timezone r;
     SystemConfig_Language := SystemConfig_Language r;
     SystemConfig_AdminPasswordHash := SystemConfig_AdminPasswordHash r;
     SystemConfig_SessionSecret := SystemConfig_SessionSecret r;
     SystemConfig_Domain := SystemConfig_Domain r;
     SystemConfig_WebPort := SystemConfig_WebPort r;
     SystemConfig_WebBind := SystemConfig_WebBind r;
     SystemConfig_TLS := SystemConfig_TLS r |}.

Definition set_SystemConfig_Domain (v : string) (r : SystemConfig) : SystemConfig :=
  {| SystemConfig_Hostname := SystemConfig_Hostname r;
     SystemConfig_Timezone := SystemConfig_Timezone r;
     SystemConfig_Language := SystemConfig_Language r;
     SystemConfig_AdminPasswordHash := SystemConfig_AdminPasswordHash r;
     SystemConfig_SessionSecret := SystemConfig_SessionSecret r;
     SystemConfig_Domain := v;
     SystemConfig_WebPort := SystemConfig_WebPort r;
     SystemConfig_WebBind := SystemConfig_WebBind r;
     SystemConfig_TLS := SystemConfig_TLS r |}.

Definition set_SystemConfig_Timezone (v : string) (r : SystemConfig) : SystemConfig :=
  {| SystemConfig_Hostname := SystemConfig_Hostname r;
     SystemConfig_Timezone := v;
     SystemConfig_Language := SystemConfig_Language r;
     SystemConfig_AdminPasswordHash := SystemConfig_AdminPasswordHash r;
     SystemConfig_SessionSecret := SystemConfig_SessionSecret r;
     SystemConfig_Domain := SystemConfig_Domain r;
     SystemConfig_WebPort := SystemConfig_WebPort r;
     SystemConfig_WebBind := SystemConfig_WebBind r;
     SystemConfig_TLS := SystemConfig_TLS r |}.

Definition set_DNSChallengeConfig_Provider (v : string) (r : DNSChallengeConfig) : DNSChallengeConfig :=
  {| DNSChallengeConfig_Provider := v;
     DNSChallengeConfig_APIToken := DNSChallengeConfig_APIToken r |}.
