(* ===== verification/Secrets.v ===== *)
(** * internal/config/secrets.go and crypto.go

    Encryption at rest of the credentials in router.yaml.  AES-GCM is a
    parameter: the interface [AEAD] says what the code relies on, that opening
    what was sealed under the same key and nonce gives the plaintext back.
    [secretFields] is the Go function's list of pointers, read and written
    through the pair [secretFields]/[setSecretFields]. *)

From S2P Require Import Prelude GoStrings Encoding ConfigTypes.

Local Open Scope Z_scope.
Local Open Scope go_scope.

(** ** The cipher *)

Class AEAD : Type := {
  gcm_seal : string -> string -> string -> string;
  gcm_open : string -> string -> string -> option string;
  gcm_open_seal : forall key nonce plaintext,
    String.length nonce = 12%nat ->
    gcm_open key nonce (gcm_seal key nonce plaintext) = Some plaintext;
}.

(** What the n-th read of [rand.Reader] returns. *)
Definition rng : Type := nat -> option string.

Definition nonceSize : nat := 12.

(** [aes.NewCipher] accepts 16, 24 and 32 byte keys. *)
Definition NewCipher (key : string) : result unit :=
  fail_if (negb ((len key =? 16) || (len key =? 24) || (len key =? 32)))
    (Errorf "crypto/aes: invalid key size %d" [itoa (len key)]).

Section Crypto.
Context `{AEAD}.

(** [Encrypt], with the bytes its one read of the random source returned. *)
Definition Encrypt (nonce : option string) (plaintext key : string) : result string :=
  guard! wrap_err "create cipher: %w" [] (NewCipher key) ;;
  match nonce with
  | None => Err (Errorf "generate nonce: %w" ["rand.Reader"])
  | Some n => Ok (n +:+ gcm_seal key n plaintext)
  end.

Definition Decrypt (ciphertext key : string) : result string :=
  guard! wrap_err "create cipher: %w" [] (NewCipher key) ;;
  guard! fail_if (len ciphertext <? Z.of_nat nonceSize) (Errorf "ciphertext too short" []) ;;
  let nonce := substring 0 nonceSize ciphertext in
  let body := substring nonceSize (String.length ciphertext - nonceSize) ciphertext in
  match gcm_open key nonce body with
  | Some p => Ok p
  | None => Err (Errorf "decrypt: %w" ["cipher: message authentication failed"])
  end.

(** ** The key file *)

Inductive read_result : Type :=
| ReadOk (data : string)
| ReadNotExist
| ReadFail (e : error).

Inductive key_result : Type :=
| KeyOk (key : string)
| KeyNotExist
| KeyErr (e : error).

(** [LoadKey]; [KeyNotExist] is the error that [errors.Is] matches with
    [os.ErrNotExist]. *)
Definition LoadKey (file : read_result) : key_result :=
  match file with
  | ReadNotExist => KeyNotExist
  | ReadFail e => KeyErr (Errorw "read key file: %w" [] e)
  | ReadOk data =>
      match hex_decode data with
      | None => KeyErr (Errorf "decode key hex: %w" [data])
      | Some key => if len key =? 32 then KeyOk key
                    else KeyErr (Errorf "invalid key length: got %d, want 32" [itoa (len key)])
      end
  end.

(** The bytes [SaveKey] writes. *)
Definition SaveKey_content (key : string) : string := hex_encode key.

(** The outcomes of the three file operations that install a key: MkdirAll of
    its directory, SaveKey and Chmod. *)
Record key_io : Type := {
  io_mkdir : result unit;
  io_save : result unit;
  io_chmod : result unit;
}.

(** [loadOrCreateConfigKey]: the key, and the content written to the key file
    when one was generated.  [random] is the read of [GenerateKey]. *)
Definition loadOrCreateConfigKey (file : read_result) (random : option string) (io : key_io)
  : result string * option string :=
  match LoadKey file with
  | KeyOk key => (Ok key, None)
  | KeyErr e => (Err e, None)
  | KeyNotExist =>
      match random with
      | None => (Err (Errorf "generate key: %w" ["rand.Read"]), None)
      | Some key =>
          match io_mkdir io with
          | Err e => (Err (Errorw "create key directory: %w" [] e), None)
          | Ok _ =>
              match io_save io with
              | Err e => (Err e, None)
              | Ok _ => (guard! wrap_err "restrict key file: %w" [] (io_chmod io) ;; Ok key,
                         Some (SaveKey_content key))
              end
          end
      end
  end.

(** [RestoreConfigKey]: its result and what it wrote to the key file. *)
Definition RestoreConfigKey (encoded : string) (io : key_io) : result unit * option string :=
  match hex_decode (TrimSpace encoded) with
  | None => (Err (Errorf "decode archived key: %w" [encoded]), None)
  | Some key =>
      if negb (len key =? 32)
      then (Err (Errorf "archived key has length %d, want 32" [itoa (len key)]), None)
      else match io_mkdir io with
           | Err e => (Err (Errorw "create key directory: %w" [] e), None)
           | Ok _ => match io_save io with
                     | Err e => (Err e, None)
                     | Ok _ => (io_chmod io, Some (SaveKey_content key))
                     end
           end
  end.

(** ** One secret *)

Definition secretPrefix : string := "enc:v1:".

Definition isEncrypted (value : string) : bool := HasPrefix value secretPrefix.

(** [encryptSecret]; the first component counts the reads of the random
    source it performed. *)
Definition encryptSecret (r : rng) (i : nat) (plaintext key : string) : nat * result string :=
  if String.eqb plaintext "" || isEncrypted plaintext then (i, Ok plaintext)
  else (S i, let? ciphertext := Encrypt (r i) plaintext key in
             Ok (secretPrefix +:+ b64_encode ciphertext)).

Definition decryptSecret (value key : string) : result string :=
  if negb (isEncrypted value) then Ok value
  else match b64_decode (TrimPrefix value secretPrefix) with
       | None => Err (Errorf "decode secret: %w" [value])
       | Some raw => Decrypt raw key
       end.

(** ** Every secret of a config *)

Definition target_secrets (t : BackupTarget) : list string :=
  [BackupTarget_SecretAccessKey t; BackupTarget_Password t].
Definition peer_secrets (p : WGServerPeer) : list string :=
  [WGServerPeer_PrivateKey p; WGServerPeer_PresharedKey p].
Definition client_secrets (t : WGClientTunnel) : list string :=
  [WGClientTunnel_PrivateKey t; WGClientTunnel_PresharedKey t].

(** The values behind the pointers of [Config.secretFields], in its order. *)
Definition secretFields (c : Config) : list string :=
  [BackupConfig_Passphrase (Config_Backup c);
   WGServerConfig_PrivateKey (VPNConfig_Server (Config_VPN c));
   SystemConfig_SessionSecret (Config_System c);
   DNSChallengeConfig_APIToken (ACMEConfig_DNSChallenge (TLSConfig_ACME (SystemConfig_TLS (Config_System c))))]
  ++ List.flat_map target_secrets (BackupConfig_Targets (Config_Backup c))
  ++ List.flat_map peer_secrets (WGServerConfig_Peers (VPNConfig_Server (Config_VPN c)))
  ++ List.flat_map client_secrets (VPNConfig_Clients (Config_VPN c)).

Definition set_target (a b : string) (t : BackupTarget) : BackupTarget :=
  set_BackupTarget_Password b (set_BackupTarget_SecretAccessKey a t).
Definition set_peer (a b : string) (p : WGServerPeer) : WGServerPeer :=
  set_WGServerPeer_PresharedKey b (set_WGServerPeer_PrivateKey a p).
Definition set_client (a b : string) (t : WGClientTunnel) : WGClientTunnel :=
  set_WGClientTunnel_PresharedKey b (set_WGClientTunnel_PrivateKey a t).

Definition set_APIToken (v : string) (s : SystemConfig) : SystemConfig :=
  let t := SystemConfig_TLS s in
  let a := TLSConfig_ACME t in
  set_SystemConfig_TLS (set_TLSConfig_ACME (set_ACMEConfig_DNSChallenge
    (set_DNSChallengeConfig_APIToken v (ACMEConfig_DNSChallenge a)) a) t) s.

(** The assignments of the secret-bearing places of a config. *)
Definition put_secrets (pass srv sess tok : string) (ts : list BackupTarget)
  (ps : list WGServerPeer) (cs : list WGClientTunnel) (c : Config) : Config :=
  let v := Config_VPN c in
  set_Config_Backup (set_BackupConfig_Targets ts (set_BackupConfig_Passphrase pass (Config_Backup c)))
  (set_Config_VPN (set_VPNConfig_Clients cs (set_VPNConfig_Server
     (set_WGServerConfig_Peers ps (set_WGServerConfig_PrivateKey srv (VPNConfig_Server v))) v))
  (set_Config_System (set_APIToken tok (set_SystemConfig_SessionSecret sess (Config_System c))) c)).

(** Writes two values per element and returns the values left over. *)
Fixpoint put_pairs {A} (put : string -> string -> A -> A) (l : list A) (vs : list string)
  : list A * list string :=
  match l, vs with
  | x :: l', a :: b :: vs' => let '(r, rest) := put_pairs put l' vs' in (put a b x :: r, rest)
  | _, _ => (l, vs)
  end.

(** Writing [vs] through the pointers of [secretFields]. *)
Definition setSecretFields (c : Config) (vs : list string) : Config :=
  match vs with
  | pass :: srv :: sess :: tok :: rest =>
      let '(ts, rest) := put_pairs set_target (BackupConfig_Targets (Config_Backup c)) rest in
      let '(ps, rest) := put_pairs set_peer (WGServerConfig_Peers (VPNConfig_Server (Config_VPN c))) rest in
      let '(cs, _) := put_pairs set_client (VPNConfig_Clients (Config_VPN c)) rest in
      put_secrets pass srv sess tok ts ps cs c
  | _ => c
  end.

Definition hasSecrets (c : Config) : bool :=
  existsb (fun f => negb (String.eqb f "")) (secretFields c).
Definition hasEncryptedSecrets (c : Config) : bool := existsb isEncrypted (secretFields c).

(** The loop of [withEncryptedSecrets]. *)
Fixpoint encryptFields (r : rng) (i : nat) (fields : list string) (key : string) : result (list string) :=
  match fields with
  | [] => Ok []
  | f :: rest =>
      let '(i', v) := encryptSecret r i f key in
      let? v := wrap_err "encrypt secret: %w" [] v in
      let? vs := encryptFields r i' rest key in
      Ok (v :: vs)
  end.

(** [withEncryptedSecrets]: the copy that is written to disk; [keyres] is what
    [loadOrCreateConfigKey] returned. *)
Definition withEncryptedSecrets (r : rng) (keyres : result string) (cfg : Config) : result Config :=
  if negb (hasSecrets cfg) then Ok cfg
  else let? key := wrap_err "credential encryption key: %w" [] keyres in
       let? vs := encryptFields r 0 (secretFields cfg) key in
       Ok (setSecretFields cfg vs).

(** [decryptInPlace]: a value that cannot be decrypted is cleared. *)
Definition decryptInPlace (key field : string) : string :=
  match decryptSecret field key with Ok v => v | Err _ => "" end.

Definition clearEncryptedSecrets (c : Config) : Config :=
  setSecretFields c (List.map (fun f => if isEncrypted f then "" else f) (secretFields c)).

(** [decryptVPNPeerSecrets]. *)
Definition decryptVPNPeerSecrets (key : string) (c : Config) : Config :=
  let v := Config_VPN c in
  let srv := VPNConfig_Server v in
  let ps := List.map (fun p => set_WGServerPeer_PresharedKey
              (decryptInPlace key (WGServerPeer_PresharedKey p)) p) (WGServerConfig_Peers srv) in
  let cs := List.map (fun t => set_client (decryptInPlace key (WGClientTunnel_PrivateKey t))
              (decryptInPlace key (WGClientTunnel_PresharedKey t)) t) (VPNConfig_Clients v) in
  set_Config_VPN (set_VPNConfig_Clients cs (set_VPNConfig_Server (set_WGServerConfig_Peers ps srv) v)) c.

(** [decryptSecretsInPlace], statement by statement; [key] is what
    [loadConfigKeyForRead] returned. *)
Definition decryptSecretsInPlace (keyres : key_result) (c : Config) : Config :=
  if negb (hasEncryptedSecrets c) then c
  else match keyres with
  | KeyNotExist | KeyErr _ => clearEncryptedSecrets c
  | KeyOk key =>
      let dec := decryptInPlace key in
      let c := set_Config_Backup (set_BackupConfig_Passphrase
                 (dec (BackupConfig_Passphrase (Config_Backup c))) (Config_Backup c)) c in
      let ts := List.map (fun t => set_target (dec (BackupTarget_SecretAccessKey t))
                  (dec (BackupTarget_Password t)) t) (BackupConfig_Targets (Config_Backup c)) in
      let c := set_Config_Backup (set_BackupConfig_Targets ts (Config_Backup c)) c in
      let v := Config_VPN c in
      let srv := set_WGServerConfig_PrivateKey (dec (WGServerConfig_PrivateKey (VPNConfig_Server v)))
                   (VPNConfig_Server v) in
      let ps := List.map (fun p => set_WGServerPeer_PrivateKey (dec (WGServerPeer_PrivateKey p)) p)
                  (WGServerConfig_Peers srv) in
      let c := set_Config_VPN (set_VPNConfig_Server (set_WGServerConfig_Peers ps srv) v) c in
      let c := decryptVPNPeerSecrets key c in
      let s := Config_System c in
      let s := set_SystemConfig_SessionSecret (dec (SystemConfig_SessionSecret s)) s in
      let tok := DNSChallengeConfig_APIToken
                   (ACMEConfig_DNSChallenge (TLSConfig_ACME (SystemConfig_TLS s))) in
      set_Config_System (set_APIToken (dec tok) s) c
  end.

(** ** Lemmas: the places of [secretFields] form a lens *)

Lemma put_pairs_map {A} (put : string -> string -> A -> A) (g1 g2 : A -> string)
  (f : string -> string) l rest :
  put_pairs put l (List.map f (List.flat_map (fun x => [g1 x; g2 x]) l) ++ rest)
  = (List.map (fun x => put (f (g1 x)) (f (g2 x)) x) l, rest).
Proof. induction l as [|x l IH]; [by destruct rest|]. cbn. by rewrite IH. Qed.

Lemma setSecretFields_map f c :
  setSecretFields c (List.map f (secretFields c)) =
  put_secrets (f (BackupConfig_Passphrase (Config_Backup c)))
    (f (WGServerConfig_PrivateKey (VPNConfig_Server (Config_VPN c))))
    (f (SystemConfig_SessionSecret (Config_System c)))
    (f (DNSChallengeConfig_APIToken
          (ACMEConfig_DNSChallenge (TLSConfig_ACME (SystemConfig_TLS (Config_System c))))))
    (List.map (fun t => set_target (f (BackupTarget_SecretAccessKey t)) (f (BackupTarget_Password t)) t)
       (BackupConfig_Targets (Config_Backup c)))
    (List.map (fun p => set_peer (f (WGServerPeer_PrivateKey p)) (f (WGServerPeer_PresharedKey p)) p)
       (WGServerConfig_Peers (VPNConfig_Server (Config_VPN c))))
    (List.map (fun t => set_client (f (WGClientTunnel_PrivateKey t)) (f (WGClientTunnel_PresharedKey t)) t)
       (VPNConfig_Clients (Config_VPN c))) c.
Proof.
  unfold setSecretFields, secretFields, target_secrets, peer_secrets, client_secrets.
  rewrite !map_app. cbn [List.map app].
  rewrite put_pairs_map, put_pairs_map.
  rewrite <- (app_nil_r (List.map f (List.flat_map _ (VPNConfig_Clients _)))).
  by rewrite put_pairs_map.
Qed.

(** Writing values, reading them back, and writing the old ones again. *)
Lemma put_pairs_get {A} (put : string -> string -> A -> A) (g1 g2 : A -> string)
  (Hg : forall a b x, g1 (put a b x) = a /\ g2 (put a b x) = b /\ put (g1 x) (g2 x) (put a b x) = x)
  l vs rest :
  length vs = (2 * length l)%nat ->
  exists l', put_pairs put l (vs ++ rest) = (l', rest)
             /\ List.flat_map (fun x => [g1 x; g2 x]) l' = vs
             /\ (forall rest', put_pairs put l' (List.flat_map (fun x => [g1 x; g2 x]) l ++ rest') = (l, rest')).
Proof.
  revert vs. induction l as [|x l IH]; intros vs Hl; cbn in Hl.
  - destruct vs; [|done]. exists []. split; [by destruct rest|]. split; [done|]. by intros [].
  - destruct vs as [|a [|b vs]]; cbn in Hl; try lia.
    destruct (IH vs ltac:(lia)) as (l' & H1 & H2 & H3).
    exists (put a b x :: l'). cbn. rewrite H1. cbn.
    destruct (Hg a b x) as (-> & -> & Hx). rewrite H2.
    split_and!; try done. intros rest'. by rewrite H3, Hx.
Qed.

Lemma flat_map_pair_length {A} (g1 g2 : A -> string) l :
  length (List.flat_map (fun x => [g1 x; g2 x]) l) = (2 * length l)%nat.
Proof. induction l; cbn; lia. Qed.

Lemma split_at {A} n (l : list A) m :
  length l = (n + m)%nat -> exists l1 l2, l = l1 ++ l2 /\ length l1 = n /\ length l2 = m.
Proof.
  intros Hl. exists (firstn n l), (skipn n l).
  rewrite firstn_skipn, length_firstn, length_skipn. split; [done|lia].
Qed.

Lemma put_secrets_restore pass srv sess tok ts ps cs c :
  put_secrets (BackupConfig_Passphrase (Config_Backup c))
    (WGServerConfig_PrivateKey (VPNConfig_Server (Config_VPN c)))
    (SystemConfig_SessionSecret (Config_System c))
    (DNSChallengeConfig_APIToken
       (ACMEConfig_DNSChallenge (TLSConfig_ACME (SystemConfig_TLS (Config_System c)))))
    (BackupConfig_Targets (Config_Backup c))
    (WGServerConfig_Peers (VPNConfig_Server (Config_VPN c)))
    (VPNConfig_Clients (Config_VPN c))
    (put_secrets pass srv sess tok ts ps cs c) = c.
Proof.
  destruct c as [? s ? ? ? ? ? ? ? ? ? ? v ? ? ? ? ? ? b].
  destruct s as [? ? ? ? ? ? ? ? t], t as [? ? ? ? a ?].
  destruct a as [? ? ? ? ? []], v as [? []], b. reflexivity.
Qed.

(** [setSecretFields] writes exactly what [secretFields] reads, and writing
    the old values back restores the config, so nothing else changed. *)
Lemma setSecretFields_lens c vs :
  length vs = length (secretFields c) ->
  secretFields (setSecretFields c vs) = vs
  /\ setSecretFields (setSecretFields c vs) (secretFields c) = c.
Proof.
  unfold secretFields at 1, target_secrets, peer_secrets, client_secrets.
  rewrite !length_app, !flat_map_pair_length. cbn [length]. intros Hl.
  destruct vs as [|pass [|srv [|sess [|tok vs]]]]; cbn [length] in Hl; try lia.
  apply Nat.succ_inj in Hl. do 3 apply Nat.succ_inj in Hl.
  destruct (split_at _ _ _ Hl) as (v1 & w & -> & H1 & Hw).
  destruct (split_at _ _ _ Hw) as (v2 & v3 & -> & H2 & H3).
  edestruct (put_pairs_get set_target BackupTarget_SecretAccessKey BackupTarget_Password
    ltac:(by intros ?? []) _ v1 (v2 ++ v3) H1) as (ts & Ht & Ht' & Ht'').
  edestruct (put_pairs_get set_peer WGServerPeer_PrivateKey WGServerPeer_PresharedKey
    ltac:(by intros ?? []) _ v2 v3 H2) as (ps & Hp & Hp' & Hp'').
  edestruct (put_pairs_get set_client WGClientTunnel_PrivateKey WGClientTunnel_PresharedKey
    ltac:(by intros ?? []) _ v3 [] H3) as (cs & Hc & Hc' & Hc'').
  rewrite app_nil_r in Hc.
  cbn [setSecretFields]. rewrite Ht, Hp, Hc.
  split.
  - unfold secretFields, target_secrets, peer_secrets, client_secrets. cbn. by rewrite Ht', Hp', Hc'.
  - unfold secretFields, target_secrets, peer_secrets, client_secrets, setSecretFields. cbn.
    rewrite Ht'', Hp''. rewrite <- (app_nil_r (List.flat_map _ _)), Hc''.
    apply put_secrets_restore.
Qed.

Lemma put_pairs_put {A} (put : string -> string -> A -> A)
  (Hput : forall a b a' b' x, put a' b' (put a b x) = put a' b' x) l l' vs ws rest rest' rest'' :
  length vs = (2 * length l)%nat -> length ws = (2 * length l)%nat -> put_pairs put l (vs ++ rest) = (l', rest'') ->
  put_pairs put l' (ws ++ rest') = put_pairs put l (ws ++ rest').
Proof.
  revert l' vs ws. induction l as [|x l IH]; intros l' vs ws Hv Hw; cbn in Hv, Hw.
  - destruct vs; [|done]. cbn. destruct rest; by intros [= <- _].
  - destruct vs as [|a [|b vs]], ws as [|a' [|b' ws]]; cbn in Hv, Hw; try lia. cbn.
    destruct (put_pairs put l (vs ++ rest)) as [k r] eqn:E. intros [= <- <-]. cbn.
    rewrite (IH k vs ws ltac:(lia) ltac:(lia) E). destruct (put_pairs put l (ws ++ rest')). by rewrite Hput.
Qed.

(** Writing twice is writing the last values. *)
Lemma setSecretFields_twice c vs ws : length vs = length (secretFields c) -> length ws = length (secretFields c) ->
  setSecretFields (setSecretFields c vs) ws = setSecretFields c ws.
Proof.
  unfold secretFields, target_secrets, peer_secrets, client_secrets.
  rewrite !length_app, !flat_map_pair_length. cbn [length]. intros Hl Hl'.
  destruct vs as [|pass [|srv [|sess [|tok vs]]]]; cbn [length] in Hl; try lia.
  destruct ws as [|pass' [|srv' [|sess' [|tok' ws]]]]; cbn [length] in Hl'; try lia.
  do 4 apply Nat.succ_inj in Hl. do 4 apply Nat.succ_inj in Hl'.
  destruct (split_at _ _ _ Hl) as (v1 & w & -> & H1 & Hw). destruct (split_at _ _ _ Hw) as (v2 & v3 & -> & H2 & H3).
  destruct (split_at _ _ _ Hl') as (w1 & w' & -> & H1' & Hw'). destruct (split_at _ _ _ Hw') as (w2 & w3 & -> & H2' & H3').
  edestruct (put_pairs_get set_target BackupTarget_SecretAccessKey BackupTarget_Password
    ltac:(by intros ?? []) _ v1 (v2 ++ v3) H1) as (ts & Ht & _).
  edestruct (put_pairs_get set_peer WGServerPeer_PrivateKey WGServerPeer_PresharedKey
    ltac:(by intros ?? []) _ v2 v3 H2) as (ps & Hp & _).
  edestruct (put_pairs_get set_client WGClientTunnel_PrivateKey WGClientTunnel_PresharedKey
    ltac:(by intros ?? []) _ v3 [] H3) as (cs & Hc & _).
  pose proof (fun rest' => put_pairs_put set_target ltac:(by intros ???? []) _ _ v1 w1 _ rest' _ H1 H1' Ht) as Et.
  pose proof (fun rest' => put_pairs_put set_peer ltac:(by intros ???? []) _ _ v2 w2 _ rest' _ H2 H2' Hp) as Ep.
  pose proof (fun rest' => put_pairs_put set_client ltac:(by intros ???? []) _ _ v3 w3 _ rest' _ H3 H3' Hc) as Ec.
  specialize (Ec []). rewrite app_nil_r in Hc, Ec.
  cbn [setSecretFields]. rewrite Ht, Hp, Hc. cbn. rewrite Et.
  destruct (put_pairs set_target _ (w1 ++ _)) as [ts' r1] eqn:E1.
  edestruct (put_pairs_get set_target BackupTarget_SecretAccessKey BackupTarget_Password
    ltac:(by intros ?? []) _ w1 (w2 ++ w3) H1') as (? & E1' & _). rewrite E1 in E1'. injection E1' as <- ->.
  rewrite Ep. destruct (put_pairs set_peer _ (w2 ++ _)) as [ps' r2] eqn:E2.
  edestruct (put_pairs_get set_peer WGServerPeer_PrivateKey WGServerPeer_PresharedKey
    ltac:(by intros ?? []) _ w2 w3 H2') as (? & E2' & _). rewrite E2 in E2'. injection E2' as <- ->.
  rewrite Ec. by destruct (put_pairs set_client _ w3).
Qed.

(** ** Lemmas: one secret *)

Lemma NewCipher_32 key : len key = 32 -> NewCipher key = Ok tt.
Proof. unfold NewCipher. by intros ->. Qed.

Lemma substring_all s : substring 0 (String.length s) s = s.
Proof. induction s; cbn; congruence. Qed.

Lemma substring_append_l a b : substring 0 (String.length a) (a +:+ b) = a.
Proof. induction a; cbn; [by destruct b|congruence]. Qed.

Lemma substring_append_r a b :
  substring (String.length a) (String.length b) (a +:+ b) = b.
Proof. induction a; cbn; [apply substring_all|done]. Qed.

Lemma Decrypt_Encrypt nonce plaintext key c :
  (forall n, nonce = Some n -> String.length n = nonceSize) ->
  Encrypt nonce plaintext key = Ok c -> Decrypt c key = Ok plaintext.
Proof.
  unfold Encrypt, Decrypt. intros Hn HE. inv_ok.
  rewrite H0. destruct nonce as [n|]; inv_ok. subst c. cbn [wrap_err result_bind].
  specialize (Hn n eq_refl). unfold len. rewrite append_length, Hn.
  replace (_ <? _) with false by (symmetry; apply Z.ltb_ge; lia). cbn [fail_if result_bind].
  rewrite <- Hn, substring_append_l.
  replace (String.length n + _ - String.length n)%nat with (String.length (gcm_seal key n plaintext)) by lia.
  by rewrite substring_append_r, gcm_open_seal.
Qed.

Lemma isEncrypted_sealed s : isEncrypted (secretPrefix +:+ s) = true.
Proof. apply HasPrefix_append. Qed.

Lemma decryptSecret_plain v key : isEncrypted v = false -> decryptSecret v key = Ok v.
Proof. unfold decryptSecret. by intros ->. Qed.

Lemma decryptInPlace_plain key v : isEncrypted v = false -> decryptInPlace key v = v.
Proof. intros H1. unfold decryptInPlace. by rewrite decryptSecret_plain. Qed.

(** What the code needs from the random source: the reads it makes are the
    size of a nonce. *)
Definition rng_ok (r : rng) : Prop :=
  forall i n, r i = Some n -> String.length n = nonceSize.

(** An encrypted value is marked or empty, and decrypts to the plaintext. *)
Lemma encryptSecret_spec r i p key j v :
  rng_ok r -> isEncrypted p = false -> encryptSecret r i p key = (j, Ok v) ->
  decryptSecret v key = Ok p /\ (p = "" /\ v = "" \/ p <> "" /\ isEncrypted v = true).
Proof.
  unfold encryptSecret. intros Hr Hp HE. rewrite Hp, orb_false_r in HE.
  destruct (String.eqb_spec p "") as [->|Hne].
  - injection HE as <- <-. split; [done|by left].
  - injection HE as <- HE. inv_ok.
    change (secretPrefix +:+ b64_encode x = v) in HE. subst v. split.
    + unfold decryptSecret. rewrite isEncrypted_sealed. cbn [negb].
      rewrite TrimPrefix_append, b64_roundtrip. eapply Decrypt_Encrypt; [|done]. by apply Hr.
    + right. split; [done|apply isEncrypted_sealed].
Qed.

(** ** Lemmas: the whole config *)

(** Read back with the same key, what is written for a field is what the field
    itself reads as: an unmarked one as it is, a marked one as it would have
    been decrypted. *)
Lemma encryptFields_reread r key : rng_ok r -> forall fields i vs, encryptFields r i fields key = Ok vs ->
  length vs = length fields /\ List.map (decryptInPlace key) vs = List.map (decryptInPlace key) fields.
Proof.
  intros Hr. induction fields as [|f fields IH]; intros i vs HE; cbn in HE; inv_ok.
  - by subst.
  - destruct (encryptSecret r i f key) as [j v] eqn:Ev. inv_ok. subst. cbn.
    match goal with H : encryptFields _ _ _ _ = Ok _ |- _ => destruct (IH _ _ H) as [-> ->] end.
    split; [done|]. f_equal. destruct (isEncrypted f) eqn:Ef.
    + unfold encryptSecret in Ev. rewrite Ef, orb_true_r in Ev. by simplify_eq.
    + rewrite (decryptInPlace_plain key f Ef). unfold decryptInPlace. by destruct (encryptSecret_spec r i f key j _ Hr Ef Ev) as [-> _].
Qed.

Lemma existsb_false_Forall {A} (P : A -> bool) l :
  existsb P l = false <-> Forall (fun x => P x = false) l.
Proof.
  induction l; cbn; [by split|]. rewrite orb_false_iff, IHl.
  split; [intros []; by constructor|by inversion 1].
Qed.

Lemma map_Forall_id {A} (f : A -> A) l : Forall (fun x => f x = x) l -> List.map f l = l.
Proof. induction 1; cbn; congruence. Qed.

Lemma map_self {A} (f : A -> A) (Hf : forall x, f x = x) l : List.map f l = l.
Proof. apply map_Forall_id, Forall_forall. auto. Qed.

Lemma setSecretFields_id c : setSecretFields c (secretFields c) = c.
Proof.
  rewrite <- (List.map_id (secretFields c)), setSecretFields_map.
  rewrite !map_self by (by intros []).
  destruct c as [? s ? ? ? ? ? ? ? ? ? ? v ? ? ? ? ? ? b].
  destruct s as [? ? ? ? ? ? ? ? t], t as [? ? ? ? a ?].
  destruct a as [? ? ? ? ? []], v as [? []], b. reflexivity.
Qed.

(** The statements of [decryptSecretsInPlace] reach exactly the fields that
    [secretFields] lists: the enumeration kept for its log lines agrees with
    the list encryption works from. *)
Lemma decryptSecretsInPlace_fields key c :
  decryptSecretsInPlace (KeyOk key) c
  = setSecretFields c (List.map (decryptInPlace key) (secretFields c)).
Proof.
  unfold decryptSecretsInPlace.
  destruct (hasEncryptedSecrets c) eqn:Eh; cbn [negb].
  - rewrite setSecretFields_map. unfold decryptVPNPeerSecrets, put_secrets. cbn.
    by rewrite List.map_map.
  - symmetry. rewrite map_Forall_id, setSecretFields_id; [done|].
    apply existsb_false_Forall in Eh. eapply Forall_impl; [|exact Eh].
    intros f. apply decryptInPlace_plain.
Qed.

Lemma Forall2_same {A} (R : A -> A -> Prop) l : Forall (fun x => R x x) l -> Forall2 R l l.
Proof. induction 1; by constructor. Qed.

(** What is written: the same config except for its secrets, which read back
    as the config's own. *)
Lemma withEncryptedSecrets_reread r key c c' : rng_ok r -> withEncryptedSecrets r (Ok key) c = Ok c' ->
  exists vs, c' = setSecretFields c vs /\ length vs = length (secretFields c)
    /\ List.map (decryptInPlace key) vs = List.map (decryptInPlace key) (secretFields c).
Proof.
  unfold withEncryptedSecrets. intros Hr HE. destruct (hasSecrets c); cbn [negb] in HE; inv_ok.
  - subst. eexists. split; [done|]. by eapply encryptFields_reread.
  - subst. exists (secretFields c'). by rewrite setSecretFields_id.
Qed.

(** Whatever the config held, an encrypted field is empty or marked. *)
Lemma encryptFields_sealed r key : forall fields i vs,
  encryptFields r i fields key = Ok vs ->
  length vs = length fields /\ Forall (fun v => v = "" \/ isEncrypted v = true) vs.
Proof.
  induction fields as [|f fields IH]; intros i vs HE; cbn in HE; inv_ok.
  - by subst.
  - destruct (encryptSecret r i f key) as [j v] eqn:Ev. inv_ok. subst. cbn.
    destruct (IH _ _ H1) as [-> Hs]. split; [done|]. constructor; [|done].
    unfold encryptSecret in Ev. destruct (String.eqb_spec f ""), (isEncrypted f) eqn:Ef;
      cbn in Ev; simplify_eq; auto.
    right. inv_ok. subst. apply isEncrypted_sealed.
Qed.

Lemma withEncryptedSecrets_sealed r keyres c c' :
  withEncryptedSecrets r keyres c = Ok c' ->
  setSecretFields c' (secretFields c) = c
  /\ Forall (fun v => v = "" \/ isEncrypted v = true) (secretFields c').
Proof.
  unfold withEncryptedSecrets. intros HE. destruct (hasSecrets c) eqn:Eh; cbn [negb] in HE; inv_ok.
  - destruct (encryptFields_sealed _ _ _ _ _ H1) as [Hl Hs]. subst c'.
    destruct (setSecretFields_lens c _ Hl) as [-> ->]. done.
  - subst c'. rewrite setSecretFields_id. split; [done|].
    apply existsb_false_Forall in Eh. eapply Forall_impl; [|exact Eh].
    intros f Hf. cbn beta in Hf. bool_hyps. by left.
Qed.

Lemma encryptFields_total r key : len key = 32 -> (forall i, is_Some (r i)) -> forall fields i,
  exists vs, encryptFields r i fields key = Ok vs.
Proof.
  intros Hk Hr. induction fields as [|f fields IH]; intros i; [by eexists|].
  cbn. unfold encryptSecret. destruct (_ || _); cbn.
  - destruct (IH i) as [vs ->]. by eexists.
  - unfold Encrypt. rewrite NewCipher_32 by done. destruct (Hr i) as [n ->]. cbn.
    destruct (IH (S i)) as [vs ->]. by eexists.
Qed.

Lemma withEncryptedSecrets_total r key c : len key = 32 -> (forall i, is_Some (r i)) ->
  exists c', withEncryptedSecrets r (Ok key) c = Ok c'.
Proof.
  intros Hk Hr. unfold withEncryptedSecrets. destruct (negb _); [by eexists|]. cbn [wrap_err result_bind].
  destruct (encryptFields_total r key Hk Hr (secretFields c) 0) as [vs ->]. by eexists.
Qed.

Lemma LoadKey_SaveKey key : len key = 32 -> LoadKey (ReadOk (SaveKey_content key)) = KeyOk key.
Proof. intros Hk. unfold LoadKey, SaveKey_content. by rewrite hex_roundtrip, Hk. Qed.

Lemma LoadKey_length kf key : LoadKey kf = KeyOk key -> len key = 32.
Proof.
  unfold LoadKey. destruct kf; try discriminate. destruct (hex_decode _); [|discriminate].
  destruct (len s =? 32) eqn:E; [|discriminate]. injection 1 as <-. bool_hyps. done.
Qed.

End Crypto.

(** A cipher to run the model with: it checks a tag made of the key. *)
Lemma drop_prefix_append p s : drop_prefix p (p +:+ s) = Some s.
Proof. by apply drop_prefix_Some. Qed.

Definition tag_aead : AEAD := {|
  gcm_seal key nonce p := key +:+ p;
  gcm_open key nonce c := drop_prefix key c;
  gcm_open_seal key nonce p _ := drop_prefix_append key p;
|}.

(** The credential key survives.  Whenever [loadOrCreateConfigKey] or
    [RestoreConfigKey] succeeds, reading the key file afterwards gives a
    usable 32-byte key: the one returned, and for a key that was already
    installed nothing is written; an unreadable or malformed key file is an
    error and is never replaced by a fresh key. *)
Theorem config_key_persists kf random io encoded
  (Hrand : forall k, random = Some k -> len k = 32) :
  (forall key w, loadOrCreateConfigKey kf random io = (Ok key, w) ->
     LoadKey (match w with Some c => ReadOk c | None => kf end) = KeyOk key
     /\ (w <> None -> LoadKey kf = KeyNotExist))
  /\ (forall e, LoadKey kf = KeyErr e -> loadOrCreateConfigKey kf random io = (Err e, None))
  /\ (forall w, RestoreConfigKey encoded io = (Ok tt, w) ->
        exists c key, w = Some c /\ hex_decode (TrimSpace encoded) = Some key
                      /\ LoadKey (ReadOk c) = KeyOk key).
Proof.
  split_and!.
  - intros key w. unfold loadOrCreateConfigKey.
    destruct (LoadKey kf) eqn:E; intros HL; simplify_eq; [by split|].
    destruct random as [k|] eqn:Er; [|done].
    repeat case_match; simplify_eq. destruct (io_chmod io); simplify_eq/=.
    split; [|done]. apply LoadKey_SaveKey. by apply Hrand.
  - intros e E. unfold loadOrCreateConfigKey. by rewrite E.
  - intros w. unfold RestoreConfigKey. repeat case_match; intros HR; simplify_eq.
    bool_hyps. do 2 eexists. split; [done|]. split; [done|]. by apply LoadKey_SaveKey.
Qed.

Definition sample_random : string := "0123456789abcdef0123456789abcdef".
Definition sample_io : key_io := {| io_mkdir := Ok tt; io_save := Ok tt; io_chmod := Ok tt |}.

Lemma config_key_persists_witness :
  loadOrCreateConfigKey ReadNotExist (Some sample_random) sample_io
    = (Ok sample_random, Some (hex_encode sample_random))
  /\ LoadKey (ReadOk (hex_encode sample_random)) = KeyOk sample_random.
Proof.
  split; [reflexivity|].
  apply (proj1 (config_key_persists ReadNotExist (Some sample_random) sample_io ""
    (fun k H => match H in _ = o return match o with Some k => len k = 32 | None => True end
                with eq_refl => eq_refl end))
    sample_random (Some (hex_encode sample_random))).
  reflexivity.
Defined.
