(* ===== verification/Config.v ===== *)
(** * internal/config: validation, loading and saving router.yaml

    [Validate] and its parts are translated from validate.go; [Load],
    [ValidateBytes], [SaveToFile], [Save] and [atomicWrite] from config.go.
    The YAML codec is a parameter.  [atomicWrite] runs against a file system
    that separates what a file contains from what has reached the disk, and
    returns every intermediate state, so that a theorem can quantify over the
    point where the machine loses power. *)

From S2P Require Import Prelude GoStrings GoPath Encoding ConfigTypes Secrets.

Local Open Scope Z_scope.
Local Open Scope go_scope.

(** ** validate.go *)

(** [if cond { errs = append(errs, fmt.Errorf(...)) }] *)
Definition err_if (cond : bool) (format : string) (args : list string) : list error :=
  if cond then [Errorf format args] else [].

(** [m[s]] for a [map[string]bool] literal whose values are all true. *)
Definition in_map (l : list string) (s : string) : bool := existsb (String.eqb s) l.

Definition validTLSModes : list string := ["self-signed"; "mkcert"; "acme"; ""].
Definition validRoles : list string := ["wan"; "lan"; "unused"].
Definition validIPv6 : list string := ["auto"; "on"; "off"; ""].
Definition validQoS : list string := ["cake"; "fq_codel"; "none"; ""].
Definition validCC : list string := ["bbr"; "cubic"; ""].

Definition validateSystem (c : Config) : list error :=
  let s := Config_System c in
  err_if (String.eqb (SystemConfig_Hostname s) "") "system.hostname is required" []
  ++ err_if ((SystemConfig_WebPort s <? 1) || (65535 <? SystemConfig_WebPort s))
       "system.webPort must be 1-65535" []
  ++ err_if (negb (String.eqb (SystemConfig_Language s) "") && negb (String.eqb (SystemConfig_Language s) "tr")
             && negb (String.eqb (SystemConfig_Language s) "en"))
       "system.language must be 'tr' or 'en'" []
  ++ err_if (negb (in_map validTLSModes (TLSConfig_Mode (SystemConfig_TLS s))))
       "system.tls.mode must be self-signed, mkcert, or acme" [].

(** The errors of a loop over a slice: the body sees the index and the element. *)
Fixpoint for_errs {A} (i : Z) (body : Z -> A -> list error) (l : list A) : list error :=
  match l with
  | [] => []
  | x :: r => body i x ++ for_errs (i + 1) body r
  end.

Definition validateInterface (i : Z) (iface : InterfaceConfig) : list error :=
  err_if (String.eqb (InterfaceConfig_ID iface) "") "interfaces[%d].id is required" [itoa i]
  ++ err_if (String.eqb (InterfaceConfig_Device iface) "") "interfaces[%d].device is required" [itoa i]
  ++ err_if (negb (in_map validRoles (InterfaceConfig_Role iface)))
       "interfaces[%d].role must be wan, lan, or unused" [itoa i].

Definition validateInterfaces (c : Config) : list error :=
  for_errs 0 validateInterface (Config_Interfaces c).

Definition validateModes (c : Config) : list error :=
  let mtu := PPPoEConfig_MTU (Config_PPPoE c) in
  err_if ((0 <? mtu) && ((mtu <? 68) || (1500 <? mtu))) "pppoe.mtu must be 68-1500" []
  ++ err_if (negb (in_map validIPv6 (IPv6Config_Enabled (Config_IPv6 c))))
       "ipv6.enabled must be auto, on, or off" []
  ++ err_if (negb (in_map validQoS (QoSConfig_Profile (Config_QoS c))))
       "qos.profile must be cake, fq_codel, or none" []
  ++ err_if (negb (in_map validCC (QoSConfig_CongestionControl (Config_QoS c))))
       "qos.congestionControl must be bbr or cubic" [].

Definition validateVLAN (i : Z) (v : VLANConfig) : list error :=
  err_if ((VLANConfig_VID v <? 1) || (4094 <? VLANConfig_VID v)) "vlans[%d].vid must be 1-4094" [itoa i]
  ++ err_if (String.eqb (VLANConfig_Parent v) "") "vlans[%d].parent is required" [itoa i].

Definition validateVLANs (c : Config) : list error := for_errs 0 validateVLAN (Config_VLANs c).

Definition Validate (c : Config) : list error :=
  validateSystem c ++ validateInterfaces c ++ validateModes c ++ validateVLANs c.

(** ** atomicWrite

    A file has contents, as a reader sees them, and durable contents, which
    are what is left after a power failure; fsync makes them equal.  A rename
    is atomic and journalled: after a crash the name refers to the old file or
    to the new one. *)

Record file : Type := mkFile { contents : string; durable : string }.
Abbreviation fs := (gmap string file).

(** What a crash leaves under a name. *)
Definition crash_view (f : fs) (path : string) : option string := durable <$> f !! path.

(** [os.Rename]: the file moves with what it holds, flushed or not. *)
Definition fs_rename (old new : string) (f : fs) : fs :=
  match f !! old with
  | Some x => delete old (<[new := x]> f)
  | None => f
  end.

(** The outcome of each call of [atomicWrite]; a failed write may have written
    a prefix of the data. *)
Record aw_env : Type := {
  aw_create : result string;
  aw_write : option (nat * error);
  aw_sync : result unit;
  aw_close : result unit;
  aw_rename : result unit;
  aw_removed : bool;
}.

(** The deferred cleanup of [atomicWrite]. *)
Definition aw_cleanup (env : aw_env) (tmp : string) (f : fs) : fs :=
  if aw_removed env then delete tmp f else f.

(** [atomicWrite]: the file system after each call, in order, and the result.
    The head of the list is the state it starts from. *)
Definition atomicWrite (env : aw_env) (path data : string) (f0 : fs) : list fs * result unit :=
  match aw_create env with
  | Err e => ([f0], Err (Errorw "create temp file: %w" [] e))
  | Ok tmp =>
      let f1 := <[tmp := mkFile "" ""]> f0 in
      match aw_write env with
      | Some (n, e) =>
          let f2 := <[tmp := mkFile (substring 0 n data) ""]> f1 in
          ([f0; f1; f2; aw_cleanup env tmp f2], Err (Errorw "write temp: %w" [] e))
      | None =>
          let f2 := <[tmp := mkFile data ""]> f1 in
          match aw_sync env with
          | Err e => ([f0; f1; f2; aw_cleanup env tmp f2], Err (Errorw "fsync temp: %w" [] e))
          | Ok _ =>
              let f3 := <[tmp := mkFile data data]> f2 in
              match aw_close env with
              | Err e => ([f0; f1; f2; f3; aw_cleanup env tmp f3], Err (Errorw "close temp: %w" [] e))
              | Ok _ =>
                  match aw_rename env with
                  | Err e => ([f0; f1; f2; f3; aw_cleanup env tmp f3],
                              Err (Errorw "rename temp to config: %w" [] e))
                  | Ok _ => ([f0; f1; f2; f3; fs_rename tmp path f3], Ok tt)
                  end
              end
          end
      end
  end.

Definition final (f0 : fs) (t : list fs) : fs := List.last t f0.

(** [os.CreateTemp] opens a name that did not exist, and its pattern never
    gives the name of the file being replaced. *)
Definition aw_env_ok (env : aw_env) (path : string) (f0 : fs) : Prop :=
  forall tmp, aw_create env = Ok tmp -> tmp <> path /\ f0 !! tmp = None.

(** ** config.go: Load, ValidateBytes, Save *)

(** gopkg.in/yaml.v3, as the code calls it. *)
Class YAML : Type := {
  yaml_unmarshal : string -> result Config;
  yaml_marshal : Config -> result string;
}.

Definition DNSSourceUser : string := "user".

(** The migration loop of [Load]. *)
Definition migrateRecord (r : StaticDNSRecord) : StaticDNSRecord :=
  if String.eqb (StaticDNSRecord_Source r) "" then set_StaticDNSRecord_Source DNSSourceUser r else r.
Definition migrateDNS (c : Config) : Config :=
  set_Config_DNS (set_DNSConfig_StaticRecords
    (List.map migrateRecord (DNSConfig_StaticRecords (Config_DNS c))) (Config_DNS c)) c.

(** The text of [errors.Join]. *)
Fixpoint error_text (e : error) : list string :=
  match e with
  | Errorf f args => f :: args
  | Errorw f args i => f :: args ++ error_text i
  end.
Definition errors_Join (errs : list error) : error := Errorf "errors.Join" (List.flat_map error_text errs).

Section Store.
Context `{AEAD} `{YAML}.

(** [Load]: [opened] and [content] are what opening and reading [path] gave,
    [keyfile] what reading the credential key gave. *)
Definition Load (path : string) (opened : result unit) (content : result string)
  (keyfile : read_result) : result Config :=
  guard! wrap_err "open config: %w" [] opened ;;
  let? data := wrap_err "read config: %w" [] content in
  let? cfg := wrap_err "parse config: %w" [] (yaml_unmarshal data) in
  let cfg := migrateDNS cfg in
  let cfg := decryptSecretsInPlace (LoadKey keyfile) cfg in
  match Validate cfg with
  | [] => Ok (set_Config_filePath path cfg)
  | errs => Err (Errorw "invalid config %s: %w" [path] (errors_Join errs))
  end.

Definition ValidateBytes (data : string) : result unit :=
  let? cfg := wrap_err "parse config: %w" [] (yaml_unmarshal data) in
  match Validate cfg with
  | [] => Ok tt
  | errs => Err (Errorw "invalid config: %w" [] (errors_Join errs))
  end.

Definition SetFilePath (c : Config) (path : string) : Config := set_Config_filePath path c.

(** The bytes [Save] hands to [atomicWrite]. *)
Definition Save_data (r : rng) (keyres : result string) (cfg : Config) : result string :=
  let? toWrite := withEncryptedSecrets r keyres cfg in
  wrap_err "marshal config: %w" [] (yaml_marshal toWrite).

(** [Save] and [SaveToFile], on the file system. *)
Definition Save (r : rng) (keyres : result string) (env : aw_env) (path : string) (cfg : Config)
  (f0 : fs) : list fs * result unit :=
  match Save_data r keyres cfg with
  | Err e => ([f0], Err e)
  | Ok data => atomicWrite env path data f0
  end.

Definition SaveToFile (r : rng) (keyres : result string) (env : aw_env) (cfg : Config) (f0 : fs)
  : list fs * result unit :=
  if String.eqb (Config_filePath cfg) "" then ([f0], Err (Errorf "config file path not set" []))
  else Save r keyres env (Config_filePath cfg) cfg f0.

End Store.

(** ** Lemmas: validation *)

Lemma err_if_nil b f args : err_if b f args = [] <-> b = false.
Proof. by destruct b. Qed.

Lemma for_errs_nil {A} (body : Z -> A -> list error) (P : A -> Prop) i l :
  (forall i x, body i x = [] <-> P x) -> for_errs i body l = [] <-> Forall P l.
Proof.
  intros Hb. revert i. induction l as [|x l IH]; intros i; cbn; [by split|].
  split.
  - intros [H1 H2]%app_eq_nil. constructor; [by eapply Hb|by apply (IH (i + 1))].
  - inversion 1; subst. rewrite (proj2 (Hb i x)), (proj2 (IH (i + 1))); done.
Qed.

Lemma in_map_In l s : in_map l s = true <-> In s l.
Proof.
  unfold in_map. rewrite existsb_exists. split.
  - intros (x & Hx & E). apply String.eqb_eq in E. by subst.
  - intros Hs. exists s. split; [done|apply String.eqb_refl].
Qed.

(** What a valid configuration is, field by field. *)
Record wf_config (c : Config) : Prop := {
  wf_hostname : SystemConfig_Hostname (Config_System c) <> "";
  wf_webPort : 1 <= SystemConfig_WebPort (Config_System c) <= 65535;
  wf_language : In (SystemConfig_Language (Config_System c)) [""; "tr"; "en"];
  wf_tls : In (TLSConfig_Mode (SystemConfig_TLS (Config_System c))) validTLSModes;
  wf_interfaces : Forall (fun i => InterfaceConfig_ID i <> "" /\ InterfaceConfig_Device i <> ""
                                   /\ In (InterfaceConfig_Role i) validRoles) (Config_Interfaces c);
  wf_mtu : PPPoEConfig_MTU (Config_PPPoE c) <= 0 \/ 68 <= PPPoEConfig_MTU (Config_PPPoE c) <= 1500;
  wf_ipv6 : In (IPv6Config_Enabled (Config_IPv6 c)) validIPv6;
  wf_qos : In (QoSConfig_Profile (Config_QoS c)) validQoS;
  wf_cc : In (QoSConfig_CongestionControl (Config_QoS c)) validCC;
  wf_vlans : Forall (fun v => 1 <= VLANConfig_VID v <= 4094 /\ VLANConfig_Parent v <> "") (Config_VLANs c);
}.

Lemma negb_in_map l s : negb (in_map l s) = false <-> In s l.
Proof. rewrite negb_false_iff. apply in_map_In. Qed.

Lemma out_of_range_false a x b : (x <? a) || (b <? x) = false <-> a <= x <= b.
Proof. rewrite orb_false_iff, !Z.ltb_ge. tauto. Qed.

Lemma language_ok s :
  negb (String.eqb s "") && negb (String.eqb s "tr") && negb (String.eqb s "en") = false
  <-> In s [""; "tr"; "en"].
Proof.
  rewrite <- in_map_In. unfold in_map. cbn [existsb].
  destruct (String.eqb s ""), (String.eqb s "tr"), (String.eqb s "en"); cbn; split; congruence.
Qed.

Lemma mtu_ok m : (0 <? m) && ((m <? 68) || (1500 <? m)) = false <-> m <= 0 \/ 68 <= m <= 1500.
Proof. rewrite andb_false_iff, out_of_range_false, Z.ltb_ge. tauto. Qed.

Lemma app_nil_iff {A} (l1 l2 : list A) : l1 ++ l2 = [] <-> l1 = [] /\ l2 = [].
Proof. split; [apply app_eq_nil|by intros [-> ->]]. Qed.

Lemma validateInterface_nil i x :
  validateInterface i x = [] <->
  InterfaceConfig_ID x <> "" /\ InterfaceConfig_Device x <> "" /\ In (InterfaceConfig_Role x) validRoles.
Proof.
  unfold validateInterface. rewrite !app_nil_iff, !err_if_nil, !String.eqb_neq, negb_in_map. tauto.
Qed.

Lemma validateVLAN_nil i v :
  validateVLAN i v = [] <-> 1 <= VLANConfig_VID v <= 4094 /\ VLANConfig_Parent v <> "".
Proof.
  unfold validateVLAN. rewrite !app_nil_iff, !err_if_nil, String.eqb_neq, out_of_range_false. tauto.
Qed.

Lemma Validate_nil c : Validate c = [] <-> wf_config c.
Proof.
  unfold Validate, validateSystem, validateInterfaces, validateModes, validateVLANs.
  rewrite !app_nil_iff, !err_if_nil, !negb_in_map, String.eqb_neq, out_of_range_false,
    language_ok, mtu_ok.
  rewrite (for_errs_nil _ _ 0 _ validateInterface_nil), (for_errs_nil _ _ 0 _ validateVLAN_nil).
  split; [intros H; constructor; tauto|intros []; tauto].
Qed.

(** [Validate] does not read the secrets, the static records or the path. *)
Lemma Validate_setSecretFields c vs : Validate (setSecretFields c vs) = Validate c.
Proof.
  unfold setSecretFields. destruct vs as [|? [|? [|? [|? ?]]]]; try done.
  do 3 (case_match; simplify_eq). reflexivity.
Qed.

Lemma Validate_migrateDNS c : Validate (migrateDNS c) = Validate c.
Proof. reflexivity. Qed.

Lemma Validate_decrypt `{AEAD} k c : Validate (decryptSecretsInPlace k c) = Validate c.
Proof.
  destruct k as [key| |].
  - rewrite decryptSecretsInPlace_fields. apply Validate_setSecretFields.
  - unfold decryptSecretsInPlace. destruct (negb _); [done|apply Validate_setSecretFields].
  - unfold decryptSecretsInPlace. destruct (negb _); [done|apply Validate_setSecretFields].
Qed.

(** ** Lemmas: atomicWrite *)

Section AtomicWrite.
Variables (env : aw_env) (path data : string) (f0 : fs).
Hypothesis env_ok : aw_env_ok env path f0.

Lemma cleanup_other tmp f p : p <> tmp -> aw_cleanup env tmp f !! p = f !! p.
Proof. intros Hp. unfold aw_cleanup. destruct (aw_removed env); [|done]. by rewrite lookup_delete_ne. Qed.

(** Reads a map at a key that the updates in between do not touch. *)
Ltac map_at :=
  repeat first [ rewrite cleanup_other by congruence
               | rewrite lookup_insert_ne by congruence
               | rewrite lookup_delete_ne by congruence
               | rewrite lookup_insert_eq ].

Ltac run_write :=
  unfold atomicWrite; destruct (aw_create env) as [tm|] eqn:Etmp;
  [destruct (env_ok tm Etmp) as [Hne Hfresh]; clear env_ok; unfold aw_env_ok in *;
   destruct (aw_write env) as [[]|], (aw_sync env) as [[]|], (aw_close env) as [[]|],
     (aw_rename env) as [[]|]; cbn [fst snd]; unfold fs_rename; rewrite ?lookup_insert_eq; cbn iota beta
  |cbn [fst snd]].

(** At every point of the run the name holds the old file or the new data,
    contents and durable contents alike. *)
Lemma atomicWrite_states :
  Forall (fun f => f !! path = f0 !! path \/ f !! path = Some (mkFile data data))
    (fst (atomicWrite env path data f0)).
Proof.
  run_write; repeat first [apply List.Forall_nil | apply List.Forall_cons]; map_at; auto.
Qed.

Lemma atomicWrite_others p tmp :
  aw_create env = Ok tmp -> p <> path -> p <> tmp ->
  Forall (fun f => f !! p = f0 !! p) (fst (atomicWrite env path data f0)).
Proof.
  intros Ht Hp Hpt. run_write; simplify_eq; repeat first [apply List.Forall_nil | apply List.Forall_cons]; map_at; auto.
Qed.

Lemma atomicWrite_Ok :
  snd (atomicWrite env path data f0) = Ok tt ->
  final f0 (fst (atomicWrite env path data f0)) = <[path := mkFile data data]> f0.
Proof.
  run_write; cbn; try discriminate. intros _.
  apply map_eq. intros p.
  destruct (decide (p = tm)) as [->|Hp].
  - rewrite lookup_delete_eq, lookup_insert_ne by congruence. done.
  - rewrite lookup_delete_ne by congruence.
    destruct (decide (p = path)) as [->|Hp']; map_at; done.
Qed.

Lemma atomicWrite_Err e :
  snd (atomicWrite env path data f0) = Err e -> aw_removed env = true ->
  final f0 (fst (atomicWrite env path data f0)) = f0.
Proof.
  run_write; cbn; intros He Hr; try done; unfold aw_cleanup; rewrite Hr;
  apply map_eq; intros p; destruct (decide (p = tm)) as [->|Hp];
  rewrite ?lookup_delete_eq; map_at; auto.
Qed.

Lemma atomicWrite_total :
  is_ok (aw_create env) = true -> aw_write env = None -> aw_sync env = Ok tt ->
  aw_close env = Ok tt -> aw_rename env = Ok tt ->
  snd (atomicWrite env path data f0) = Ok tt.
Proof.
  intros Hc. unfold atomicWrite. destruct (aw_create env); [|done].
  by intros -> -> -> ->.
Qed.

End AtomicWrite.

(** ** Lemmas: saving and loading *)

Lemma setSecretFields_migrateDNS c vs : setSecretFields (migrateDNS c) vs = migrateDNS (setSecretFields c vs).
Proof.
  unfold setSecretFields. destruct vs as [|? [|? [|? [|? ?]]]]; try done. cbn.
  do 3 (case_match; simplify_eq). reflexivity.
Qed.

Lemma setSecretFields_filePath p c vs :
  setSecretFields (set_Config_filePath p c) vs = set_Config_filePath p (setSecretFields c vs).
Proof.
  unfold setSecretFields. destruct vs as [|? [|? [|? [|? ?]]]]; try done. cbn.
  do 3 (case_match; simplify_eq). reflexivity.
Qed.

Lemma migrateDNS_id c :
  Forall (fun r => StaticDNSRecord_Source r <> "") (DNSConfig_StaticRecords (Config_DNS c)) ->
  migrateDNS c = c.
Proof.
  intros Hr. unfold migrateDNS. rewrite map_Forall_id; [by destruct c as [? ? ? ? ? ? ? ? ? []]|].
  eapply Forall_impl; [|exact Hr]. intros x Hx. unfold migrateRecord.
  apply String.eqb_neq in Hx. by rewrite Hx.
Qed.

Lemma Load_valid `{AEAD} `{YAML} path data kf cfg :
  yaml_unmarshal data = Ok cfg ->
  Load path (Ok tt) (Ok data) kf
  = match Validate cfg with
    | [] => Ok (set_Config_filePath path (decryptSecretsInPlace (LoadKey kf) (migrateDNS cfg)))
    | errs => Err (Errorw "invalid config %s: %w" [path] (errors_Join errs))
    end.
Proof.
  intros Hy. unfold Load. cbn [wrap_err result_bind]. rewrite Hy. cbn [wrap_err result_bind].
  by rewrite Validate_decrypt, Validate_migrateDNS.
Qed.

Section Claims.
Context `{AEAD} `{YAML}.

(** C4: What a saved configuration loads as.  For a valid configuration,
    [Save] on a working disk succeeds, and [Load] of the file it left, with the
    same key file, returns the configuration with the missing sources of DNS
    records filled in and each secret as it reads: a secret that does not start
    with the ciphertext mark unchanged, one that does start with it decrypted,
    or empty when it is no ciphertext of this key.  So a configuration without
    marked secrets and with every source set comes back unchanged. *)
Theorem Save_then_Load r kf key env path c f0
  (Hr : rng_ok r) (Hrs : forall i, is_Some (r i)) (Hk : LoadKey kf = KeyOk key)
  (Hv : Validate c = [])
  (Hy : forall c', withEncryptedSecrets r (Ok key) c = Ok c' ->
        exists d, yaml_marshal c' = Ok d /\ yaml_unmarshal d = Ok (set_Config_filePath "" c'))
  (He : aw_env_ok env path f0)
  (Hw : is_ok (aw_create env) = true /\ aw_write env = None /\ aw_sync env = Ok tt
        /\ aw_close env = Ok tt /\ aw_rename env = Ok tt) :
  let '(states, res) := Save r (Ok key) env path c f0 in
  let reads_as f := if isEncrypted f then match decryptSecret f key with Ok v => v | Err _ => "" end else f in
  res = Ok tt /\
  exists f c', final f0 states !! path = Some f
    /\ Load path (Ok tt) (Ok (contents f)) kf = Ok c'
    /\ c' = set_Config_filePath path (setSecretFields (migrateDNS c) (List.map reads_as (secretFields c)))
    /\ (Forall (fun f => isEncrypted f = false) (secretFields c) ->
        Forall (fun r => StaticDNSRecord_Source r <> "") (DNSConfig_StaticRecords (Config_DNS c)) ->
        c' = set_Config_filePath path c).
Proof.
  pose proof (LoadKey_length _ _ Hk) as Hlen.
  destruct (withEncryptedSecrets_total r key c Hlen Hrs) as [c' Hc'].
  destruct (Hy c' Hc') as (d & Hm & Hu).
  destruct (withEncryptedSecrets_reread r key c c' Hr Hc') as (vs & -> & Hl & HF).
  unfold Save, Save_data. rewrite Hc'. cbn [result_bind]. rewrite Hm. cbn [wrap_err].
  destruct (atomicWrite env path d f0) as [states res] eqn:Ea. cbv zeta.
  destruct Hw as (Hw1 & Hw2 & Hw3 & Hw4 & Hw5).
  pose proof (atomicWrite_total env path d f0 Hw1 Hw2 Hw3 Hw4 Hw5) as Hok.
  pose proof (atomicWrite_Ok env path d f0 He) as Hf. rewrite Ea in Hok, Hf. cbn [fst snd] in Hok, Hf.
  assert (Hread : forall l, List.map (fun f => if isEncrypted f then match decryptSecret f key with Ok v => v | Err _ => "" end else f) l
                            = List.map (decryptInPlace key) l).
  { intros l. apply List.map_ext. intros f. unfold decryptInPlace. destruct (isEncrypted f) eqn:E; [done|]. by rewrite decryptSecret_plain. }
  split; [done|]. exists (mkFile d d). eexists. rewrite (Hf Hok), lookup_insert_eq. split; [done|]. cbn [contents].
  rewrite (Load_valid path d kf _ Hu), Hk, decryptSecretsInPlace_fields.
  change (Validate (set_Config_filePath _ ?x)) with (Validate x).
  rewrite Validate_setSecretFields, Hv. split; [reflexivity|].
  destruct (setSecretFields_lens c vs Hl) as [Hget Hset].
  change (secretFields (migrateDNS (set_Config_filePath _ ?x))) with (secretFields x).
  rewrite Hget, HF, Hread, setSecretFields_migrateDNS, setSecretFields_filePath, setSecretFields_twice by (by rewrite ?length_map).
  split; [by rewrite setSecretFields_migrateDNS|]. intros Hp Hd.
  rewrite map_Forall_id, setSecretFields_id; [by rewrite migrateDNS_id|]. eapply List.Forall_impl; [|exact Hp]. apply decryptInPlace_plain.
Qed.

(** No credential reaches the disk in the clear.  Whenever [Save] has
    bytes to write, they are the marshalled form of a configuration that
    differs from the live one only in its secret fields, each of which is
    empty or carries the ciphertext marker. *)
Theorem Save_seals_secrets r keyres c data (Hs : Save_data r keyres c = Ok data) :
  exists c', yaml_marshal c' = Ok data
    /\ setSecretFields c' (secretFields c) = c
    /\ Forall (fun v => v = "" \/ isEncrypted v = true) (secretFields c').
Proof.
  unfold Save_data in Hs. inv_ok. exists x. split; [done|]. by eapply withEncryptedSecrets_sealed.
Qed.

(** Losing the key does not stop the router.  Without a readable key,
    [Load] accepts exactly what it would accept with one; every ciphertext is
    cleared, every cleartext value kept and nothing else touched. *)
Theorem Load_without_key path data kf cfg
  (Hu : yaml_unmarshal data = Ok cfg) (Hv : Validate cfg = [])
  (Hk : forall key, LoadKey kf <> KeyOk key) :
  exists c, Load path (Ok tt) (Ok data) kf = Ok c
    /\ secretFields c = List.map (fun f => if isEncrypted f then "" else f) (secretFields cfg)
    /\ setSecretFields c (secretFields cfg) = set_Config_filePath path (migrateDNS cfg).
Proof.
  rewrite (Load_valid path data kf cfg Hu), Hv. eexists. split; [done|].
  set (m := List.map _ _). set (cfg1 := migrateDNS cfg).
  assert (decryptSecretsInPlace (LoadKey kf) cfg1 = setSecretFields cfg1 m) as ->.
  { unfold decryptSecretsInPlace. destruct (hasEncryptedSecrets cfg1) eqn:E; cbn [negb].
    - destruct (LoadKey kf) as [k| |]; [by destruct (Hk k)|done|done].
    - unfold m. rewrite map_Forall_id; [symmetry; apply (setSecretFields_id cfg1)|].
      apply existsb_false_Forall in E. eapply Forall_impl; [|exact E].
      intros f Hf. cbn beta in Hf |- *. by rewrite Hf. }
  destruct (setSecretFields_lens cfg1 m) as [H1 H2]; [apply List.length_map|].
  split; [exact H1|]. rewrite setSecretFields_filePath. f_equal. exact H2.
Qed.

(** The check an archived configuration goes through is the check [Load]
    applies: [ValidateBytes] accepts the bytes exactly when [Load] does,
    whatever the state of the key, and both accept exactly the well-formed
    configurations. *)
Theorem ValidateBytes_iff_Load path data kf :
  (ValidateBytes data = Ok tt <-> exists c, Load path (Ok tt) (Ok data) kf = Ok c)
  /\ (ValidateBytes data = Ok tt <-> exists cfg, yaml_unmarshal data = Ok cfg /\ wf_config cfg).
Proof.
  unfold ValidateBytes. destruct (yaml_unmarshal data) as [cfg|e] eqn:Hu; cbn [wrap_err result_bind].
  - rewrite (Load_valid path data kf cfg Hu). destruct (Validate cfg) eqn:Ev.
    + split; split; try naive_solver. intros _. exists cfg. by rewrite <- Validate_nil.
    + split; split; try naive_solver. intros (cfg' & [= ->] & Hw). apply Validate_nil in Hw. congruence.
  - unfold Load. cbn [wrap_err result_bind]. rewrite Hu. naive_solver.
Qed.

End Claims.

(** C12: [atomicWrite] is atomic against a power failure.  At every point of
    the run, and so after a crash at any point, the file's name holds the old
    file or the complete new data, both as readers see it and on the disk; no
    other file but the temporary one changes; success means the new data is
    in place and the temporary name gone, and after an error the old file
    system is back once the temporary file is removed. *)
Theorem atomicWrite_crash_safe env path data f0 (He : aw_env_ok env path f0) :
  let '(states, res) := atomicWrite env path data f0 in
  Forall (fun f => f !! path = f0 !! path \/ f !! path = Some (mkFile data data)) states
  /\ (forall p, p <> path -> aw_create env <> Ok p -> Forall (fun f => f !! p = f0 !! p) states)
  /\ (res = Ok tt -> final f0 states = <[path := mkFile data data]> f0)
  /\ (res <> Ok tt -> aw_removed env = true -> final f0 states = f0).
Proof.
  pose proof (atomicWrite_states env path data f0 He) as H1.
  pose proof (atomicWrite_others env path data f0 He) as H2.
  pose proof (atomicWrite_Ok env path data f0 He) as H3.
  pose proof (atomicWrite_Err env path data f0 He) as H4.
  destruct (atomicWrite env path data f0) as [states res] eqn:Ea. cbn [fst snd] in *.
  split_and!; [done| |done|].
  - intros p Hp Hc. destruct (aw_create env) as [tmp|] eqn:Et.
    + eapply H2; [done|done|]. intros ->. by apply Hc.
    + unfold atomicWrite in Ea. rewrite Et in Ea. simplify_eq. by repeat constructor.
  - destruct res as [[]|e]; [done|]. intros _. by apply (H4 e).
Qed.

(** ** Concrete runs *)

Definition sample_key : string := "0123456789abcdef0123456789abcdef".
Definition sample_nonce : string := "nonce-bytes!".
Definition sample_rng : rng := fun _ => Some sample_nonce.

(** The smallest valid configuration, with a backup passphrase. *)
Definition sample_config : Config :=
  set_Config_Backup (set_BackupConfig_Passphrase "correct horse" BackupConfig_zero)
  {| Config_filePath := "";
     Config_System := {| SystemConfig_Hostname := "gw"; SystemConfig_Timezone := "";
       SystemConfig_Language := "en"; SystemConfig_AdminPasswordHash := "";
       SystemConfig_SessionSecret := ""; SystemConfig_Domain := ""; SystemConfig_WebPort := 8443;
       SystemConfig_WebBind := ""; SystemConfig_TLS := TLSConfig_zero |};
     Config_Interfaces := []; Config_VLANs := []; Config_HealthCheck := HealthCheckConfig_zero;
     Config_PPPoE := PPPoEConfig_zero; Config_USBTether := USBTetherConfig_zero;
     Config_Firewall := FirewallConfig_zero; Config_QoS := QoSConfig_zero; Config_DNS := DNSConfig_zero;
     Config_DHCP := DHCPConfig_zero; Config_IPv6 := IPv6Config_zero; Config_VPN := VPNConfig_zero;
     Config_OpenVPN := OpenVPNConfig_zero; Config_Routing := RoutingConfig_zero;
     Config_NAS := NASConfig_zero; Config_Syslog := SyslogConfig_zero; Config_NTP := NTPConfig_zero;
     Config_Storage := StorageConfig_zero; Config_Backup := BackupConfig_zero |}.

(** The configuration with its one secret sealed by [tag_aead]. *)
Definition sealed_config : Config :=
  set_Config_Backup (set_BackupConfig_Passphrase
    (secretPrefix +:+ b64_encode (sample_nonce +:+ sample_key +:+ "correct horse")) BackupConfig_zero)
    sample_config.

(** A codec that writes every config as its passphrase and reads the sealed
    sample back. *)
Definition sample_yaml : YAML := {|
  yaml_unmarshal d := if String.eqb d "" then Err (Errorf "empty" [])
    else Ok (set_Config_Backup (set_BackupConfig_Passphrase d BackupConfig_zero) sample_config);
  yaml_marshal c := Ok (BackupConfig_Passphrase (Config_Backup c));
|}.

Definition good_env : aw_env := {|
  aw_create := Ok "/etc/.config-1.tmp"; aw_write := None; aw_sync := Ok tt; aw_close := Ok tt;
  aw_rename := Ok tt; aw_removed := true |}.

Lemma good_env_ok : aw_env_ok good_env "/etc/router.yaml" ∅.
Proof. intros tmp [= <-]. split; [discriminate|reflexivity]. Qed.

Lemma Save_then_Load_witness :
  let '(states, res) := @Save tag_aead sample_yaml sample_rng (Ok sample_key) good_env
                          "/etc/router.yaml" sample_config ∅ in
  res = Ok tt /\
  exists f, final ∅ states !! "/etc/router.yaml" = Some f
    /\ @Load tag_aead sample_yaml "/etc/router.yaml" (Ok tt) (Ok (contents f))
         (ReadOk (hex_encode sample_key)) = Ok (set_Config_filePath "/etc/router.yaml" sample_config).
Proof.
  assert (Hall := @Save_then_Load tag_aead sample_yaml sample_rng (ReadOk (hex_encode sample_key)) sample_key good_env "/etc/router.yaml" sample_config ∅).
  destruct (@Save tag_aead sample_yaml sample_rng (Ok sample_key) good_env "/etc/router.yaml" sample_config ∅) as [states res].
  destruct Hall as (Hok & f & c' & Hf & Hl & _ & Hc).
  - intros i n [= <-]. reflexivity.
  - intros i. by eexists.
  - vm_compute. reflexivity.
  - vm_compute. reflexivity.
  - intros c' Hc. exists (BackupConfig_Passphrase (Config_Backup c')). split; [reflexivity|].
    vm_compute in Hc. injection Hc as <-. vm_compute. reflexivity.
  - apply good_env_ok.
  - repeat split.
  - split; [exact Hok|]. exists f. split; [exact Hf|]. rewrite Hl, Hc by repeat constructor. reflexivity.
Defined.

Lemma Save_seals_secrets_witness :
  exists c', @yaml_marshal sample_yaml c' = Ok (BackupConfig_Passphrase (Config_Backup sealed_config))
    /\ setSecretFields c' (secretFields sample_config) = sample_config
    /\ Forall (fun v => v = "" \/ isEncrypted v = true) (secretFields c').
Proof.
  apply (@Save_seals_secrets tag_aead sample_yaml sample_rng (Ok sample_key)). vm_compute. reflexivity.
Defined.

Lemma Load_without_key_witness :
  exists c, @Load tag_aead sample_yaml "/etc/router.yaml" (Ok tt)
              (Ok (BackupConfig_Passphrase (Config_Backup sealed_config))) ReadNotExist = Ok c
    /\ secretFields c = List.map (fun f => if isEncrypted f then "" else f) (secretFields sealed_config)
    /\ setSecretFields c (secretFields sealed_config)
       = set_Config_filePath "/etc/router.yaml" (migrateDNS sealed_config).
Proof.
  apply (@Load_without_key tag_aead sample_yaml).
  - vm_compute. reflexivity.
  - vm_compute. reflexivity.
  - discriminate.
Defined.

Lemma atomicWrite_crash_safe_witness :
  let '(states, res) := atomicWrite good_env "/etc/router.yaml" "new" ∅ in
  Forall (fun f => f !! "/etc/router.yaml" = (∅ : fs) !! "/etc/router.yaml"
                   \/ f !! "/etc/router.yaml" = Some (mkFile "new" "new")) states
  /\ (forall p, p <> "/etc/router.yaml" -> aw_create good_env <> Ok p ->
       Forall (fun f => f !! p = (∅ : fs) !! p) states)
  /\ (res = Ok tt -> final ∅ states = <["/etc/router.yaml" := mkFile "new" "new"]> ∅)
  /\ (res <> Ok tt -> aw_removed good_env = true -> final ∅ states = ∅).
Proof. apply (atomicWrite_crash_safe good_env "/etc/router.yaml" "new" ∅), good_env_ok. Defined.
