(* ===== verification/AgentRules.v ===== *)
(** * internal/agent: path rules, command whitelist and argument rules

    The privileged agent runs as root and distrusts its caller.  This file
    translates the tables and checks of operations.go and argrules.go that
    decide which paths a request may touch and which command lines it may
    start.  [filepath.EvalSymlinks] is a parameter: one function for the
    moment the rule tables are resolved and another for the moment a request
    is checked, because links change in between. *)

From S2P Require Import Prelude GoStrings GoPath.

Local Open Scope Z_scope.
Local Open Scope go_scope.

(** ** Tables *)

Definition allowedCommands : list string :=
  ["nft"; "ip"; "tc"; "sysctl"; "wg"; "wg-quick"; "pppd"; "pppoe-server"; "openvpn"; "systemctl";
   "hostnamectl"; "timedatectl"; "unbound-control"; "chronyc"; "smbcontrol"; "mdadm"; "mkfs.ext4";
   "mount"; "lsblk"; "findmnt"; "smartctl"; "hdparm"; "tar"; "dig"; "ping"; "pgrep"; "pkill";
   "killall"; "dhclient"; "df"; "cp"; "chmod"; "rm"; "kill"; "chpasswd"; "localectl"; "loadkeys";
   "easyrsa"; "mkdir"; "tail"; "update-grub"; "dhcp6c"; "dhcp6ctl"; "mkcert"; "systemd-run"].

Definition mem (s : string) (l : list string) : bool := existsb (String.eqb s) l.

Definition UpdateGuardUnit : string := "lankeeper-update-guard".
Definition UpdateGuardBinary : string := "/usr/local/bin/lankeeper.bak".
Definition installedBinary : string := "/usr/local/bin/lankeeper".
Definition preUpdateSnapshotPrefix : string := "/var/backups/lankeeper-pre-update-".
Definition backupSourceDirs : list string := ["/etc/lankeeper"; "/etc/unbound"; "/etc/openvpn"].
Definition MkcertCARoot : string := "/var/lib/lankeeper-mkcert".
Definition dhcp6cScript : string := "/etc/wide-dhcpv6/dhcp6c-script".
Definition trustedBinDirs : list string := ["/usr/sbin"; "/usr/bin"; "/sbin"; "/bin"].

(** [commandOverrides[name]]. *)
Definition commandOverrides (name : string) : option string :=
  if String.eqb name "easyrsa" then Some "/usr/share/easy-rsa/easyrsa" else None.

(** [serviceUnits[verb]]; a missing key gives the nil slice. *)
Definition serviceUnits (verb : string) : list string :=
  if String.eqb verb "start" then ["openvpn@server"]
  else if String.eqb verb "stop" then
    ["openvpn@server"; "dnscrypt-proxy"; "lankeeper-dhcp6c.service"; UpdateGuardUnit +:+ ".timer"]
  else if String.eqb verb "restart" then
    ["lankeeper.target"; "chrony"; "rsyslog"; "dnscrypt-proxy"; "lankeeper-dhcp6c.service"]
  else if String.eqb verb "reload-or-restart" then ["dnsmasq"; "lankeeper-dhcp6c.service"]
  else if String.eqb verb "enable" then ["dnscrypt-proxy"]
  else if String.eqb verb "enable --now" then ["lankeeper-dhcp6c.service"; "smbd"; "nmbd"]
  else if String.eqb verb "disable --now" then ["smbd"; "nmbd"]
  else [].

Inductive pathRuleKind : Type := dirPrefix | exactFile | filenamePrefix.

Record pathRule : Type := mkRule { pattern : string; kind : pathRuleKind }.

#[export] Instance pathRuleKind_eq_dec : EqDecision pathRuleKind.
Proof. solve_decision. Defined.

(** The tables as written; [init] replaces them by their resolved form. *)
Definition allowedWriteRules : list pathRule :=
  [mkRule "/etc/ppp/options" exactFile;
   mkRule "/etc/ppp/peers/wan" exactFile;
   mkRule "/etc/ppp/chap-secrets" exactFile;
   mkRule "/etc/ppp/pap-secrets" exactFile;
   mkRule "/etc/openvpn/" dirPrefix;
   mkRule "/etc/nftables.conf" exactFile;
   mkRule "/etc/unbound/" dirPrefix;
   mkRule "/etc/dnsmasq.conf" exactFile;
   mkRule "/etc/dnsmasq.d/lankeeper-ipv6-ra.conf" exactFile;
   mkRule "/etc/wireguard/" dirPrefix;
   mkRule "/etc/samba/" dirPrefix;
   mkRule "/etc/chrony/" dirPrefix;
   mkRule "/etc/rsyslog.d/" dirPrefix;
   mkRule "/etc/lankeeper/" dirPrefix;
   mkRule "/etc/default/grub.d/lankeeper.cfg" exactFile;
   mkRule "/etc/wide-dhcpv6/dhcp6c.conf" exactFile;
   mkRule dhcp6cScript exactFile;
   mkRule "/etc/wide-dhcpv6/lankeeper-dhcp6c.env" exactFile;
   mkRule "/etc/dnscrypt-proxy/" dirPrefix;
   mkRule "/etc/fstab" exactFile;
   mkRule "/etc/pppoe-server-options" exactFile;
   mkRule "/var/lib/lankeeper/" dirPrefix;
   mkRule "/var/log/" dirPrefix;
   mkRule "/var/backups/lankeeper-pre-update-" filenamePrefix;
   mkRule MkcertCARoot exactFile;
   mkRule (MkcertCARoot +:+ "/staged.crt") exactFile;
   mkRule (MkcertCARoot +:+ "/staged.key") exactFile].

Definition allowedReadRules : list pathRule :=
  [mkRule "/etc/ppp/" dirPrefix;
   mkRule "/etc/openvpn/" dirPrefix;
   mkRule "/etc/wireguard/" dirPrefix;
   mkRule "/etc/lankeeper/" dirPrefix;
   mkRule "/etc/unbound/" dirPrefix;
   mkRule "/etc/dnsmasq.conf" exactFile;
   mkRule "/etc/dnsmasq.d/" dirPrefix;
   mkRule "/etc/samba/" dirPrefix;
   mkRule "/etc/chrony/" dirPrefix;
   mkRule "/etc/rsyslog.d/" dirPrefix;
   mkRule "/etc/wide-dhcpv6/" dirPrefix;
   mkRule "/etc/dnscrypt-proxy/" dirPrefix;
   mkRule "/etc/fstab" exactFile;
   mkRule "/var/lib/lankeeper/" dirPrefix;
   mkRule "/var/log/" dirPrefix;
   mkRule "/var/run/" dirPrefix;
   mkRule (MkcertCARoot +:+ "/staged.crt") exactFile;
   mkRule (MkcertCARoot +:+ "/staged.key") exactFile;
   mkRule (MkcertCARoot +:+ "/rootCA.pem") exactFile;
   mkRule "/proc/mdstat" exactFile].

(** ** Symlink resolution *)

(** [filepath.EvalSymlinks]: [None] is its error. *)
Abbreviation symlinks := (string -> option string).

(** The documented behaviour the code relies on: the result of resolving a
    clean absolute path is clean and absolute. *)
Definition symlinks_ok (ev : symlinks) : Prop :=
  forall p q, clean_abs p = true -> ev p = Some q -> clean_abs q = true.

(** The loop of [resolveExistingPrefix]; [None] is running out of fuel. *)
Fixpoint resolve_loop (ev : symlinks) (fuel : nat) (path dir rest : string) : option string :=
  match fuel with
  | O => None
  | S fuel =>
      match ev dir with
      | Some resolved => Some (Join [resolved; rest])
      | None =>
          let parent := Dir dir in
          if String.eqb parent dir then Some path
          else resolve_loop ev fuel path parent (Join [Base dir; rest])
      end
  end.

Definition resolveExistingPrefix (ev : symlinks) (path : string) : string :=
  default path (resolve_loop ev (S (String.length path)) path path "").

Definition resolveRule (ev : symlinks) (r : pathRule) : pathRule :=
  match kind r with
  | dirPrefix => mkRule (resolveExistingPrefix ev (TrimSuffix (pattern r) "/") +:+ "/") (kind r)
  | exactFile => mkRule (resolveExistingPrefix ev (pattern r)) (kind r)
  | filenamePrefix =>
      mkRule (Join [resolveExistingPrefix ev (Dir (pattern r)); Base (pattern r)]) (kind r)
  end.

Definition resolveRulePatterns (ev : symlinks) (rules : list pathRule) : list pathRule :=
  List.map (resolveRule ev) rules.

(** ** Matching a path against the rules *)

Definition admits (r : pathRule) (p : string) : bool :=
  match kind r with
  | exactFile => String.eqb p (pattern r)
  | _ => HasPrefix p (pattern r)
  end.

Definition base (r : pathRule) : string :=
  match kind r with
  | dirPrefix => TrimSuffix (pattern r) "/"
  | _ => Dir (pattern r)
  end.

(** [ruleMatch]: the resolved path and the directory of the rule that admits
    it. *)
Definition ruleMatch (ev : symlinks) (path : string) (rules : list pathRule)
  : option (string * string) :=
  if negb (IsAbs path) || negb (String.eqb path (Clean path)) then None
  else
    let resolved := resolveExistingPrefix ev path in
    match List.find (fun r => admits r resolved) rules with
    | Some r => Some (resolved, base r)
    | None => None
    end.

Definition checkPathRules (ev : symlinks) (path : string) (rules : list pathRule) : bool :=
  match ruleMatch ev path rules with Some _ => true | None => false end.

(** ** argrules.go *)

Definition cleanAbs (p : string) : result string :=
  if negb (IsAbs p) || mem ".." (split_byte sep p)
  then Err (Errorf "path %q is not a plain absolute path" [p])
  else Ok (Clean p).

Section Args.
Variables (ev : symlinks) (writeRules readRules : list pathRule).

Definition writablePath (p : string) : bool :=
  match cleanAbs p with
  | Err _ => false
  | Ok clean =>
      if String.eqb clean installedBinary || String.eqb clean UpdateGuardBinary then true
      else if HasPrefix clean preUpdateSnapshotPrefix then true
      else checkPathRules ev clean writeRules
  end.

Definition readablePath (p : string) : bool :=
  match cleanAbs p with
  | Err _ => false
  | Ok clean =>
      if String.eqb clean installedBinary || String.eqb clean UpdateGuardBinary then true
      else checkPathRules ev clean readRules
  end.

Definition validateCpArgs (args : list string) : result unit :=
  match args with
  | [a0; a1; a2] =>
      if negb (String.eqb a0 "-f") && negb (String.eqb a0 "--")
      then Err (Errorf "cp: expected -f or -- and two paths" [])
      else fail_if (negb (readablePath a1) || negb (writablePath a2))
             (Errorf "cp: %s -> %s is outside the permitted paths" [a1; a2])
  | _ => Err (Errorf "cp: expected -f or -- and two paths" [])
  end.

(** The loop over the paths of rm. *)
Fixpoint rm_paths (paths : list string) : result unit :=
  match paths with
  | [] => Ok tt
  | p :: rest =>
      if negb (writablePath p) then Err (Errorf "rm: %s is outside the permitted paths" [p])
      else rm_paths rest
  end.

Definition validateRmArgs (args : list string) : result unit :=
  match args with
  | a0 :: a1 :: rest =>
      if negb (String.eqb a0 "-f") then Err (Errorf "rm: expected -f and at least one path" [])
      else
        let paths := if String.eqb a1 "--" then rest else a1 :: rest in
        match paths with
        | [] => Err (Errorf "rm: no path given" [])
        | _ => rm_paths paths
        end
  | _ => Err (Errorf "rm: expected -f and at least one path" [])
  end.

Definition validateChmodArgs (args : list string) : result unit :=
  match args with
  | [mode; path] =>
      if (String.eqb mode "600" || String.eqb mode "640") && writablePath path then Ok tt
      else if String.eqb mode "+x" && String.eqb path installedBinary then Ok tt
      else Err (Errorf "chmod: %s %s is not permitted" [mode; path])
  | _ => Err (Errorf "chmod: expected a mode and one path" [])
  end.

Definition validateChpasswdArgs (args : list string) : result unit :=
  match args with
  | [] => Ok tt
  | _ => Err (Errorf "chpasswd: no arguments are permitted" [])
  end.

Definition validateChpasswdStdin (stdin : string) : result unit :=
  let '(line, ok) := CutSuffix stdin (char_str "010") in
  let '(pw, isRoot) := CutPrefix line "root:" in
  fail_if (negb ok || negb isRoot || String.eqb pw "" || ContainsFunc pw IsControl)
    (Errorf "chpasswd: only one root:<password> line is permitted" []).

Definition nameRunes : string :=
  "abcdefghijklmnopqrstuvwxyzABCDEFGHIJKLMNOPQRSTUVWXYZ0123456789.-:*".

Definition notNameRune (r : Z) : bool := negb (existsb (fun seg => rune_of seg =? r) (runes nameRunes)).

Fixpoint mkcert_names (names : list string) : result unit :=
  match names with
  | [] => Ok tt
  | name :: rest =>
      if String.eqb name "" || HasPrefix name "-" || ContainsFunc name notNameRune
      then Err (Errorf "mkcert: %q is not a hostname or address" [name])
      else mkcert_names rest
  end.

Definition validateMkcertArgs (args : list string) : result unit :=
  match args with
  | a0 :: a1 :: a2 :: a3 :: ((_ :: _) as names) =>
      if negb (String.eqb a0 "-cert-file") || negb (String.eqb a1 (MkcertCARoot +:+ "/staged.crt"))
         || negb (String.eqb a2 "-key-file") || negb (String.eqb a3 (MkcertCARoot +:+ "/staged.key"))
      then Err (Errorf "mkcert: only the staged pair under %s is permitted" [MkcertCARoot])
      else mkcert_names names
  | _ => Err (Errorf "mkcert: only the staged pair under %s is permitted" [MkcertCARoot])
  end.

Definition validateSystemctlArgs (args : list string) : result unit :=
  if (Nat.eqb (length args) 1) && String.eqb (List.nth 0 args "") "reboot" then Ok tt
  else if (Nat.leb 2 (length args))
          && mem (List.last args "") (serviceUnits (join " " (List.removelast args))) then Ok tt
  else Err (Errorf "systemctl: %s is not permitted" [join " " args]).

Definition mediaPath (p : string) : bool :=
  match cleanAbs p with
  | Err _ => false
  | Ok clean => HasPrefix clean "/mnt/" || HasPrefix clean "/srv/"
  end.

Definition validateMkdirArgs (args : list string) : result unit :=
  match args with
  | [a0; a1] => fail_if (negb (String.eqb a0 "-p") || negb (mediaPath a1))
                  (Errorf "mkdir: only -p below /mnt or /srv is permitted" [])
  | _ => Err (Errorf "mkdir: only -p below /mnt or /srv is permitted" [])
  end.

Definition validateMountArgs (args : list string) : result unit :=
  match args with
  | [a0; a1] =>
      guard! fail_if (negb (mediaPath a1))
        (Errorf "mount: only a device onto /mnt or /srv is permitted" []) ;;
      match cleanAbs a0 with
      | Ok dev => fail_if (negb (HasPrefix dev "/dev/")) (Errorf "mount: %s is not a device" [a0])
      | Err _ => Err (Errorf "mount: %s is not a device" [a0])
      end
  | _ => Err (Errorf "mount: only a device onto /mnt or /srv is permitted" [])
  end.

(** The loop of [validateTarArgs] over the triples after OUT. *)
Fixpoint tar_triples (args : list string) : result unit :=
  match args with
  | c :: parent :: name :: rest =>
      let src := Join [parent; name] in
      if negb (String.eqb c "-C") || negb (mem src backupSourceDirs)
      then Err (Errorf "tar: %s is not a backup source directory" [src])
      else tar_triples rest
  | _ => Ok tt
  end.

Definition validateTarArgs (args : list string) : result unit :=
  match args with
  | a0 :: out :: triples =>
      guard! fail_if ((Z.of_nat (length args) <? 5) || negb (String.eqb a0 "czf")
                      || negb (Z.of_nat (length triples) mod 3 =? 0))
        (Errorf "tar: only the backup export shape is permitted" []) ;;
      guard! fail_if (negb (writablePath out))
        (Errorf "tar: %s is outside the permitted paths" [out]) ;;
      tar_triples triples
  | _ => Err (Errorf "tar: only the backup export shape is permitted" [])
  end.

(** ** operations.go: the guard of the update, and the dispatch by command *)

Definition digitSet : string := "0123456789".

Definition validateUpdateGuardArgs (args : list string) : result unit :=
  match args with
  | [a0; a1; a2; a3] =>
      if negb (String.eqb a0 ("--unit=" +:+ UpdateGuardUnit)) || negb (String.eqb a2 UpdateGuardBinary)
         || negb (String.eqb a3 "update-guard")
      then Err (Errorf "systemd-run: only the OTA update guard may be started" [])
      else
        let '(secs, ok) := CutPrefix a1 "--on-active=" in
        fail_if (negb ok || String.eqb secs "" || negb (String.eqb (Trim secs digitSet) ""))
          (Errorf "systemd-run: --on-active must be a number of seconds" [])
  | _ => Err (Errorf "systemd-run: only the OTA update guard may be started" [])
  end.

Definition argValidators (cmd : string) : option (list string -> result unit) :=
  if String.eqb cmd "systemd-run" then Some validateUpdateGuardArgs
  else if String.eqb cmd "cp" then Some validateCpArgs
  else if String.eqb cmd "rm" then Some validateRmArgs
  else if String.eqb cmd "chmod" then Some validateChmodArgs
  else if String.eqb cmd "chpasswd" then Some validateChpasswdArgs
  else if String.eqb cmd "systemctl" then Some validateSystemctlArgs
  else if String.eqb cmd "mkdir" then Some validateMkdirArgs
  else if String.eqb cmd "mount" then Some validateMountArgs
  else if String.eqb cmd "tar" then Some validateTarArgs
  else if String.eqb cmd "mkcert" then Some validateMkcertArgs
  else None.

Definition stdinValidators (cmd : string) : option (string -> result unit) :=
  if String.eqb cmd "chpasswd" then Some validateChpasswdStdin else None.

Definition validateInvocation (baseName : string) (args : list string) (stdin : string) : result unit :=
  guard! (match argValidators baseName with Some validate => validate args | None => Ok tt end) ;;
  match stdinValidators baseName with
  | Some validate => validate stdin
  | None => Ok tt
  end.

End Args.

(** [openBeneath]: the rule's directory and the path relative to it, which is
    all the operating system sees.  [mkdir] and [openroot] are what creating
    and opening the directory gave. *)
Definition openBeneath (ev : symlinks) (mkdir openroot : string -> result unit)
  (path : string) (rules : list pathRule) (refusal : string) : result (string * string) :=
  match ruleMatch ev path rules with
  | None => Err (Errorf (refusal +:+ ": %s") [path])
  | Some (resolved, b) =>
      let? rel := Rel b resolved in
      guard! wrap_err "create %s: %w" [b] (mkdir b) ;;
      guard! wrap_err "open %s: %w" [b] (openroot b) ;;
      Ok (b, rel)
  end.

(** ** Resolving a command *)

(** [os.Stat] of a candidate: is it a directory, and its permission bits. *)
Record stat_info : Type := { st_isDir : bool; st_perm : Z }.

Definition executable (st : option stat_info) : bool :=
  match st with
  | None => false
  | Some i => negb (st_isDir i) && negb (Z.land (st_perm i) 73 =? 0)
  end.

Definition candidates (name : string) : list string :=
  match commandOverrides name with
  | Some p => [p]
  | None => List.map (fun dir => Join [dir; name]) trustedBinDirs
  end.

(** [resolveAllowedCommand]; the map is the cache [resolvedCmds]. *)
Definition resolveAllowedCommand (stat : string -> option stat_info) (cache : gmap string string)
  (name : string) : result string * gmap string string :=
  if negb (mem name allowedCommands) then (Err (Errorf "command not allowed: %s" [name]), cache)
  else match cache !! name with
  | Some p => (Ok p, cache)
  | None =>
      match List.find (fun p => executable (stat p)) (candidates name) with
      | Some p => (Ok p, <[name := p]> cache)
      | None => (Err (Errorf "command %q is allowed but was not found in a trusted directory" [name]), cache)
      end
  end.

(** ** Lemmas: resolving the existing prefix *)

Section Resolve.
Variable ev : symlinks.
Hypothesis ev_ok : symlinks_ok ev.

(** What the loop computes for a clean path with components [pre ++ rest] once
    it has given up on everything longer than [pre]: the longest prefix that
    resolves, resolved, with the rest appended, or the path itself. *)
Inductive resolves (cs : list string) : string -> Prop :=
| resolves_prefix pre rest qs :
    cs = pre ++ rest -> good_comps qs -> ev (abs_path pre) = Some (abs_path qs) ->
    (forall pre' rest', rest' <> [] -> rest = rest' ++ pre' -> ev (abs_path (pre ++ rest')) = None) ->
    resolves cs (abs_path (qs ++ rest))
| resolves_none :
    (forall pre rest, cs = pre ++ rest -> ev (abs_path pre) = None) -> resolves cs (abs_path cs).

Lemma resolve_loop_spec cs : good_comps cs -> forall fuel pre rest,
  cs = pre ++ rest -> (length pre < fuel)%nat ->
  (forall pre' rest', rest' <> [] -> rest = rest' ++ pre' -> ev (abs_path (pre ++ rest')) = None) ->
  exists q, resolve_loop ev fuel (abs_path cs) (abs_path pre) (join sep_str rest) = Some q
            /\ resolves cs q.
Proof.
  intros Hg. induction fuel as [|fuel IH]; intros pre rest Hcs Hf Hlong; [lia|]. cbn [resolve_loop].
  pose proof Hg as Hg'. rewrite Hcs in Hg'. pose proof (proj1 (Forall_app _ _ _) Hg') as [Hpre Hrest].
  destruct (ev (abs_path pre)) as [q|] eqn:Eq.
  - assert (Hq : clean_abs q = true).
    { eapply ev_ok; [|exact Eq]. apply clean_abs_spec. eauto. }
    apply clean_abs_spec in Hq as (qs & Hqs & ->). eexists. split; [done|].
    rewrite Join_abs_any by (apply Forall_app; done). by eapply resolves_prefix.
  - destruct pre as [|c pre' _] using rev_ind.
    + eexists. split; [done|]. apply resolves_none. intros p r Hpr. cbn in Hcs.
      destruct p as [|x p]; [done|]. apply (Hlong r (x :: p)); congruence.
    + rewrite Dir_abs_path, Base_abs_path by done.
      destruct (String.eqb_spec (abs_path pre') (abs_path (pre' ++ [c]))) as [Heq|_].
      { apply abs_path_inj in Heq; [|by apply Forall_app in Hpre as []|done].
        apply (f_equal length) in Heq. rewrite length_app in Heq. cbn in Heq. lia. }
      assert (Hc : good_comp c = true) by (apply Forall_app in Hpre as [_ Hc]; by inversion Hc).
      rewrite Join_rel by (by constructor).
      rewrite length_app in Hf. cbn in Hf.
      apply IH; [by rewrite Hcs, <- app_assoc|lia|].
      intros p' r' Hr' Heq. destruct r' as [|y r']; [done|]. injection Heq as <- ->.
      destruct r' as [|z r']; [done|].
      replace (pre' ++ c :: z :: r') with ((pre' ++ [c]) ++ z :: r') by (by rewrite <- app_assoc).
      by eapply (Hlong p').
Qed.

Lemma join_length_ge cs : good_comps cs -> (length cs <= String.length (abs_path cs))%nat.
Proof.
  intros Hg. unfold abs_path. rewrite append_length. cbn [String.length sep_str].
  induction Hg as [|c cs Hc Hcs IH]; [cbn; lia|].
  apply good_comp_spec in Hc as (Hc & _). destruct c as [|a c]; [done|].
  destruct cs as [|d cs]; [cbn; lia|].
  rewrite join_cons by done. rewrite !append_length. cbn [length String.length] in IH |- *. lia.
Qed.

(** The loop ends: its fuel is never what stops it. *)
Lemma resolveExistingPrefix_terminates path :
  clean_abs path = true ->
  exists q, resolve_loop ev (S (String.length path)) path path "" = Some q.
Proof.
  intros (cs & Hg & ->)%clean_abs_spec. pose proof (join_length_ge cs Hg).
  destruct (resolve_loop_spec cs Hg (S (String.length (abs_path cs))) cs []) as (q & Hq & _).
  - by rewrite app_nil_r.
  - lia.
  - intros pre' rest' Hr Heq. by destruct rest'.
  - by exists q.
Qed.

Lemma resolveExistingPrefix_spec cs :
  good_comps cs -> resolves cs (resolveExistingPrefix ev (abs_path cs)).
Proof.
  intros Hg. unfold resolveExistingPrefix. pose proof (join_length_ge cs Hg).
  destruct (resolve_loop_spec cs Hg (S (String.length (abs_path cs))) cs []) as (q & Hq & Hr).
  - by rewrite app_nil_r.
  - lia.
  - intros pre' rest' Hr Heq. by destruct rest'.
  - change (join sep_str []) with "" in Hq. by rewrite Hq.
Qed.

Lemma resolves_clean cs q : good_comps cs -> resolves cs q -> exists qs, good_comps qs /\ q = abs_path qs.
Proof.
  intros Hg [pre rest qs -> Hqs _ _|_]; [|by eauto].
  apply Forall_app in Hg as [_ Hr]. eexists. split; [|done]. by apply Forall_app.
Qed.

End Resolve.

(** ** Lemmas: rules *)

(** A rule in the form the matching relies on. *)
Definition wf_rule (r : pathRule) : Prop :=
  match kind r with
  | dirPrefix => exists ds, good_comps ds /\ pattern r = abs_path ds +:+ sep_str
  | exactFile => exists ds, good_comps ds /\ pattern r = abs_path ds
  | filenamePrefix => exists ds d, good_comps (ds ++ [d]) /\ pattern r = abs_path (ds ++ [d])
  end.

Definition wf_ruleb (r : pathRule) : bool :=
  match kind r with
  | dirPrefix => clean_abs (TrimSuffix (pattern r) sep_str) && HasSuffix (pattern r) sep_str
  | exactFile => clean_abs (pattern r)
  | filenamePrefix => clean_abs (pattern r) && negb (String.eqb (pattern r) sep_str)
  end.

Lemma wf_ruleb_sound r : wf_ruleb r = true -> wf_rule r.
Proof.
  unfold wf_ruleb, wf_rule. destruct (kind r); intros Hw; bool_hyps.
  - apply HasSuffix_true in H0 as [p Hp]. rewrite Hp, TrimSuffix_append in H.
    apply clean_abs_spec in H as (ds & Hd & ->). eauto.
  - by apply clean_abs_spec in Hw.
  - apply clean_abs_spec in H as (ds & Hd & Hp). destruct ds as [|d ds _] using rev_ind; eauto.
    by rewrite Hp in H0.
Qed.

Lemma tables_wf : Forall wf_rule (allowedWriteRules ++ allowedReadRules).
Proof.
  eapply Forall_impl; [exact wf_ruleb_sound|].
  repeat (apply List.Forall_cons; [vm_compute; reflexivity|]). apply List.Forall_nil.
Qed.

Lemma resolve_clean ev cs : symlinks_ok ev -> good_comps cs ->
  exists qs, good_comps qs /\ resolveExistingPrefix ev (abs_path cs) = abs_path qs.
Proof. intros He Hg. eapply resolves_clean; [done|]. by apply resolveExistingPrefix_spec. Qed.

Lemma resolveRule_wf ev r : symlinks_ok ev -> wf_rule r -> wf_rule (resolveRule ev r).
Proof.
  intros He. unfold wf_rule, resolveRule. destruct (kind r) eqn:Ek; cbn [kind pattern].
  - intros (ds & Hd & ->). rewrite TrimSuffix_append.
    destruct (resolve_clean ev ds He Hd) as (qs & Hq & ->). eauto.
  - intros (ds & Hd & ->). destruct (resolve_clean ev ds He Hd) as (qs & Hq & ->). eauto.
  - intros (ds & d & Hd & ->). rewrite Dir_abs_path, Base_abs_path by done.
    apply Forall_app in Hd as [Hds Hd].
    destruct (resolve_clean ev ds He Hds) as (qs & Hq & ->).
    exists qs, d. assert (good_comps (qs ++ [d])) by (by apply Forall_app).
    split; [done|]. by apply (Join_abs qs [d]).
Qed.

Lemma resolveRulePatterns_wf ev rules :
  symlinks_ok ev -> Forall wf_rule rules -> Forall wf_rule (resolveRulePatterns ev rules).
Proof. intros He. induction 1; constructor; [by apply resolveRule_wf|done]. Qed.

(** A path a rule admits lies under the rule's directory. *)
Lemma admits_under r cs :
  wf_rule r -> good_comps cs -> admits r (abs_path cs) = true ->
  exists ds es, base r = abs_path ds /\ cs = ds ++ es /\ (es = [] -> cs = []).
Proof.
  unfold wf_rule, admits, base. destruct (kind r).
  - intros (ds & Hd & ->) Hc Ha. rewrite TrimSuffix_append.
    destruct (abs_path_under cs ds Hc Hd Ha) as (es & Hne & ->). exists ds, es. naive_solver.
  - intros (ds & Hd & ->) Hc Ha. bool_hyps. apply abs_path_inj in Ha as <-; [|done..].
    destruct cs as [|c pre _] using rev_ind; [by exists [], []|].
    exists pre, [c]. by rewrite Dir_abs_path.
  - intros (ds & d & Hd & ->) Hc Ha.
    destruct (abs_path_name_prefix cs ds d Hc Hd Ha) as (e & es & -> & _).
    exists ds, (e :: es). by rewrite Dir_abs_path.
Qed.

Lemma ruleMatch_Some ev path rules resolved b :
  ruleMatch ev path rules = Some (resolved, b) <->
  clean_abs path = true /\ resolved = resolveExistingPrefix ev path /\
  exists r, List.find (fun r => admits r resolved) rules = Some r /\ b = base r.
Proof.
  unfold ruleMatch, clean_abs. destruct (IsAbs path), (String.eqb path (Clean path)); cbn;
    try (by split; [|intros (? & _)]).
  destruct (List.find _ rules) eqn:E; naive_solver.
Qed.

Lemma Rel_self cs : good_comps cs -> Rel (abs_path cs) (abs_path cs) = Ok ".".
Proof. intros Hg. unfold Rel. by rewrite String.eqb_refl. Qed.

(** The relative path handed to the operating system never climbs. *)
Lemma Rel_under ds es : good_comps (ds ++ es) ->
  Rel (abs_path ds) (abs_path (ds ++ es)) = Ok (match es with [] => "." | _ => join sep_str es end).
Proof.
  intros Hg. destruct es as [|e es]; [|by apply Rel_abs_under].
  rewrite app_nil_r in *. by apply Rel_self.
Qed.

(** ** What the argument rules promise *)

(** A path an argument may carry: absolute, so that no command reads it as an
    option, and without a component that climbs. *)
Definition plain_path (p : string) : Prop := IsAbs p = true /\ ~ In ".." (split_byte sep p).

Lemma mem_In s l : mem s l = true <-> In s l.
Proof.
  unfold mem. rewrite existsb_exists. split.
  - intros (x & Hx & E). apply String.eqb_eq in E. by subst.
  - intros Hs. exists s. split; [done|apply String.eqb_refl].
Qed.

Lemma cleanAbs_Ok p q : cleanAbs p = Ok q <-> plain_path p /\ q = Clean p.
Proof.
  unfold cleanAbs, plain_path. rewrite <- mem_In.
  destruct (IsAbs p), (mem ".." (split_byte sep p)); cbn; naive_solver.
Qed.

Section Spec.
Variables (ev : symlinks) (writeRules readRules : list pathRule).

Definition covered (rules : list pathRule) (p : string) : Prop :=
  exists r, In r rules /\ admits r (resolveExistingPrefix ev (Clean p)) = true.

Definition may_write (p : string) : Prop :=
  plain_path p /\
  (In (Clean p) [installedBinary; UpdateGuardBinary] \/ HasPrefix (Clean p) preUpdateSnapshotPrefix = true
   \/ covered writeRules p).

Definition may_read (p : string) : Prop :=
  plain_path p /\ (In (Clean p) [installedBinary; UpdateGuardBinary] \/ covered readRules p).

Definition media (p : string) : Prop :=
  plain_path p /\ (HasPrefix (Clean p) "/mnt/" = true \/ HasPrefix (Clean p) "/srv/" = true).

Definition host_name (s : string) : Prop :=
  s <> "" /\ HasPrefix s "-" = false /\ ContainsFunc s notNameRune = false.

(** The (-C PARENT NAME) triples of a backup export. *)
Inductive export_triples : list string -> Prop :=
| triples_nil : export_triples []
| triples_cons parent name rest :
    In (Join [parent; name]) backupSourceDirs -> export_triples rest ->
    export_triples ("-C" :: parent :: name :: rest).

(** The command lines the services send. *)
Inductive permitted : string -> list string -> Prop :=
| permit_guard secs :
    secs <> "" -> all_chars (char_in digitSet) secs = true ->
    permitted "systemd-run" ["--unit=" +:+ UpdateGuardUnit; "--on-active=" +:+ secs; UpdateGuardBinary; "update-guard"]
| permit_cp opt src dst :
    In opt ["-f"; "--"] -> may_read src -> may_write dst -> permitted "cp" [opt; src; dst]
| permit_rm opts paths :
    In opts [[]; ["--"]] -> paths <> [] -> Forall may_write paths -> permitted "rm" ("-f" :: opts ++ paths)
| permit_chmod mode p : In mode ["600"; "640"] -> may_write p -> permitted "chmod" [mode; p]
| permit_chmod_x : permitted "chmod" ["+x"; installedBinary]
| permit_chpasswd : permitted "chpasswd" []
| permit_reboot : permitted "systemctl" ["reboot"]
| permit_unit verb unit :
    verb <> [] -> In unit (serviceUnits (join " " verb)) -> permitted "systemctl" (verb ++ [unit])
| permit_mkdir p : media p -> permitted "mkdir" ["-p"; p]
| permit_mount dev p :
    plain_path dev -> HasPrefix (Clean dev) "/dev/" = true -> media p -> permitted "mount" [dev; p]
| permit_tar out triples :
    may_write out -> triples <> [] -> export_triples triples -> permitted "tar" ("czf" :: out :: triples)
| permit_mkcert names :
    names <> [] -> Forall host_name names ->
    permitted "mkcert" ("-cert-file" :: (MkcertCARoot +:+ "/staged.crt") :: "-key-file"
                        :: (MkcertCARoot +:+ "/staged.key") :: names).

Lemma checkPathRules_covered p rules : plain_path p ->
  checkPathRules ev (Clean p) rules = true <-> covered rules p.
Proof.
  intros [Ha _]. unfold checkPathRules, covered.
  pose proof (Clean_clean_abs p Ha) as Hc.
  destruct (ruleMatch ev (Clean p) rules) as [[q b]|] eqn:E.
  - apply ruleMatch_Some in E as (_ & -> & r & Hf & _). apply List.find_some in Hf. split; eauto.
  - split; [done|]. intros (r & Hr & Had). exfalso.
    destruct (List.find (fun r => admits r (resolveExistingPrefix ev (Clean p))) rules) as [r'|] eqn:Ef.
    + assert (ruleMatch ev (Clean p) rules = Some (resolveExistingPrefix ev (Clean p), base r')); [|congruence].
      apply ruleMatch_Some. eauto.
    + by rewrite (List.find_none _ _ Ef r Hr) in Had.
Qed.

Lemma writablePath_spec p : writablePath ev writeRules p = true <-> may_write p.
Proof.
  unfold writablePath, may_write. destruct (cleanAbs p) as [q|e] eqn:E.
  - apply cleanAbs_Ok in E as [Hp ->]. rewrite <- (checkPathRules_covered p writeRules Hp). cbn [In].
    destruct (String.eqb_spec (Clean p) installedBinary), (String.eqb_spec (Clean p) UpdateGuardBinary),
      (HasPrefix (Clean p) preUpdateSnapshotPrefix); cbn; naive_solver.
  - split; [done|]. intros [Hp _]. by rewrite (proj2 (cleanAbs_Ok p _) (conj Hp eq_refl)) in E.
Qed.

Lemma readablePath_spec p : readablePath ev readRules p = true <-> may_read p.
Proof.
  unfold readablePath, may_read. destruct (cleanAbs p) as [q|e] eqn:E.
  - apply cleanAbs_Ok in E as [Hp ->]. rewrite <- (checkPathRules_covered p readRules Hp). cbn [In].
    destruct (String.eqb_spec (Clean p) installedBinary), (String.eqb_spec (Clean p) UpdateGuardBinary);
      cbn; naive_solver.
  - split; [done|]. intros [Hp _]. by rewrite (proj2 (cleanAbs_Ok p _) (conj Hp eq_refl)) in E.
Qed.

Lemma mediaPath_spec p : mediaPath p = true <-> media p.
Proof.
  unfold mediaPath, media. destruct (cleanAbs p) as [q|e] eqn:E.
  - apply cleanAbs_Ok in E as [Hp ->]. rewrite orb_true_iff. tauto.
  - split; [done|]. intros [Hp _]. by rewrite (proj2 (cleanAbs_Ok p _) (conj Hp eq_refl)) in E.
Qed.


Lemma cp_iff args : validateCpArgs ev writeRules readRules args = Ok tt <-> permitted "cp" args.
Proof.
  split.
  - unfold validateCpArgs. destruct args as [|a0 [|a1 [|a2 [|]]]]; try discriminate.
    destruct (String.eqb_spec a0 "-f"), (String.eqb_spec a0 "--"); cbn; try discriminate;
    intros HE; inv_ok; bool_hyps; constructor; cbn; auto;
    by rewrite <- ?readablePath_spec, <- ?writablePath_spec.
  - inversion 1 as [|? ? ? Ho Hr Hw| | | | | | | | | |]; subst.
    unfold validateCpArgs. apply readablePath_spec in Hr. apply writablePath_spec in Hw.
    rewrite Hr, Hw. destruct Ho as [<-|[<-|[]]]; done.
Qed.

Lemma rm_paths_iff paths : rm_paths ev writeRules paths = Ok tt <-> Forall may_write paths.
Proof.
  induction paths as [|p ps IH]; cbn; [by split|].
  destruct (writablePath ev writeRules p) eqn:E; cbn.
  - rewrite IH. apply writablePath_spec in E. split; [by constructor|by inversion 1].
  - split; [done|]. inversion 1 as [|? ? Hp]; subst. apply writablePath_spec in Hp. congruence.
Qed.

Lemma not_may_write p : IsAbs p = false -> ~ may_write p.
Proof. intros Hp [[Ha _] _]. congruence. Qed.

Lemma rm_iff args : validateRmArgs ev writeRules args = Ok tt <-> permitted "rm" args.
Proof.
  split.
  - unfold validateRmArgs. destruct args as [|a0 [|a1 rest]]; try discriminate.
    destruct (String.eqb_spec a0 "-f") as [->|]; cbn [negb]; [|discriminate].
    destruct (String.eqb_spec a1 "--") as [->|].
    + destruct rest as [|p ps]; [discriminate|]. intros HE%rm_paths_iff.
      apply (permit_rm ["--"] (p :: ps)); cbn; auto.
    + intros HE%rm_paths_iff. apply (permit_rm [] (a1 :: rest)); cbn; auto.
  - inversion 1 as [| |opts paths Ho Hne Hw| | | | | | | | |]; subst.
    destruct paths as [|p ps]; [done|]. apply rm_paths_iff in Hw.
    destruct Ho as [<-|[<-|[]]]; cbn [app]; unfold validateRmArgs.
    + rewrite (proj2 (String.eqb_neq p "--")); [done|]. intros ->.
      apply rm_paths_iff in Hw. inversion Hw as [|? ? Hp]. by apply not_may_write in Hp.
    + done.
Qed.

Lemma chmod_iff args : validateChmodArgs ev writeRules args = Ok tt <-> permitted "chmod" args.
Proof.
  split.
  - unfold validateChmodArgs. destruct args as [|m [|p [|]]]; try discriminate.
    destruct ((String.eqb m "600" || String.eqb m "640") && writablePath ev writeRules p) eqn:E.
    + intros _. bool_hyps. apply writablePath_spec in H0. apply orb_true_iff in H.
      apply permit_chmod; [|done]. destruct H as [->%String.eqb_eq| ->%String.eqb_eq]; cbn; auto.
    + destruct (String.eqb m "+x" && String.eqb p installedBinary) eqn:E2; [|discriminate].
      intros _. bool_hyps. subst. apply permit_chmod_x.
  - inversion 1 as [| | |? ? Ho Hw| | | | | | | |]; subst; [|done].
    apply writablePath_spec in Hw. unfold validateChmodArgs. rewrite Hw.
    destruct Ho as [<-|[<-|[]]]; done.
Qed.

Lemma chpasswd_iff args : validateChpasswdArgs args = Ok tt <-> permitted "chpasswd" args.
Proof.
  destruct args; cbn; [by split; [constructor|]|]. split; [discriminate|inversion 1].
Qed.

Lemma systemctl_iff args : validateSystemctlArgs args = Ok tt <-> permitted "systemctl" args.
Proof.
  unfold validateSystemctlArgs. split.
  - destruct (Nat.eqb (length args) 1 && _) eqn:E1.
    { intros _. bool_hyps. destruct args as [|a [|]]; try discriminate. cbn in H0. subst. constructor. }
    destruct (Nat.leb 2 (length args) && _) eqn:E2; [|discriminate]. intros _. bool_hyps.
    apply mem_In in H0. apply Nat.leb_le in H.
    destruct args as [|u verb _] using rev_ind; [cbn in H; lia|].
    rewrite List.last_last, List.removelast_last in H0. rewrite length_app in H. cbn in H.
    apply permit_unit; [|done]. intros ->. cbn in H. lia.
  - inversion 1 as [| | | | | | |verb unit Hv Hu| | | |]; subst; [done|].
    rewrite List.last_last, List.removelast_last, (proj2 (mem_In _ _) Hu), andb_true_r.
    destruct verb as [|v verb]; [done|].
    assert (Nat.leb 2 (length ((v :: verb) ++ [unit])) = true) as ->.
    { apply Nat.leb_le. rewrite length_app. cbn. lia. }
    by destruct (_ && _).
Qed.

Lemma mkdir_iff args : validateMkdirArgs args = Ok tt <-> permitted "mkdir" args.
Proof.
  split.
  - unfold validateMkdirArgs. destruct args as [|a0 [|a1 [|]]]; try discriminate.
    intros HE; inv_ok; bool_hyps. subst. constructor. by apply mediaPath_spec.
  - inversion 1 as [| | | | | | | |p Hm| | |]; subst. apply mediaPath_spec in Hm. cbn. by rewrite Hm.
Qed.

Lemma mount_iff args : validateMountArgs args = Ok tt <-> permitted "mount" args.
Proof.
  split.
  - unfold validateMountArgs. destruct args as [|a0 [|a1 [|]]]; try discriminate.
    intros HE; inv_ok; bool_hyps. destruct (cleanAbs a0) as [dev|] eqn:E; [|discriminate].
    inv_ok; bool_hyps. apply cleanAbs_Ok in E as [Hp ->]. constructor; auto. by apply mediaPath_spec.
  - inversion 1 as [| | | | | | | | |dev p Hp Hd Hm| |]; subst. apply mediaPath_spec in Hm.
    unfold validateMountArgs. rewrite Hm. cbn [negb fail_if result_bind].
    by rewrite (proj2 (cleanAbs_Ok dev _) (conj Hp eq_refl)), Hd.
Qed.

Lemma mkcert_names_iff names : mkcert_names names = Ok tt <-> Forall host_name names.
Proof.
  induction names as [|n ns IH]; cbn; [by split|]. unfold host_name at 1.
  destruct (_ || _) eqn:E.
  - split; [done|]. inversion 1 as [|? ? (H1 & H2 & H3)]; subst.
    apply String.eqb_neq in H1. by rewrite H1, H2, H3 in E.
  - bool_hyps. rewrite IH. split; [by constructor|by inversion 1].
Qed.

Lemma mkcert_iff args : validateMkcertArgs args = Ok tt <-> permitted "mkcert" args.
Proof.
  split.
  - unfold validateMkcertArgs. destruct args as [|a0 [|a1 [|a2 [|a3 [|n ns]]]]]; try discriminate.
    destruct (_ || _) eqn:E; [discriminate|]. bool_hyps. subst.
    intros HE%mkcert_names_iff. by constructor.
  - inversion 1 as [| | | | | | | | | | |names Hne Hn]; subst.
    destruct names as [|n ns]; [done|]. apply mkcert_names_iff in Hn. exact Hn.
Qed.

Lemma tar_triples_iff args : (Z.of_nat (length args)) mod 3 = 0 ->
  tar_triples args = Ok tt <-> export_triples args.
Proof.
  remember (length args) as n eqn:Hn. revert args Hn.
  induction n as [n IH] using lt_wf_ind. intros args -> Hm.
  destruct args as [|c [|parent [|name rest]]]; cbn [length] in *; try done.
  - split; [constructor|done].
  - cbn [tar_triples]. destruct (_ || _) eqn:E.
    + split; [done|]. inversion 1 as [|? ? ? Hs]; subst. apply mem_In in Hs. by rewrite Hs in E.
    + bool_hyps. subst. apply mem_In in H0.
      rewrite (IH (length rest)); [|lia|done|].
      * split; [by constructor|by inversion 1].
      * rewrite <- Hm, !Nat2Z.inj_succ. replace (Z.succ (Z.succ (Z.succ (Z.of_nat (length rest)))))
          with (Z.of_nat (length rest) + 1 * 3) by lia. by rewrite Z.mod_add.
Qed.

Lemma export_triples_length l : export_triples l -> Z.of_nat (length l) mod 3 = 0.
Proof.
  induction 1; [done|]. rewrite <- IHexport_triples. cbn [length].
  rewrite !Nat2Z.inj_succ. replace (Z.succ (Z.succ (Z.succ (Z.of_nat (length rest)))))
    with (Z.of_nat (length rest) + 1 * 3) by lia. by rewrite Z.mod_add.
Qed.

Lemma tar_iff args : validateTarArgs ev writeRules args = Ok tt <-> permitted "tar" args.
Proof.
  split.
  - unfold validateTarArgs. destruct args as [|a0 [|out triples]]; try discriminate.
    intros HE; inv_ok; bool_hyps. subst. apply permit_tar.
    + by apply writablePath_spec.
    + intros ->. cbn in *. lia.
    + by apply tar_triples_iff.
  - inversion 1 as [| | | | | | | | | |out triples Hw Hne Ht|]; subst.
    pose proof (export_triples_length _ Ht) as Hl. apply tar_triples_iff in Ht; [|done].
    apply writablePath_spec in Hw. unfold validateTarArgs. rewrite Hw, Hl.
    assert ((Z.of_nat (length ("czf" :: out :: triples)) <? 5) = false) as ->.
    { apply Z.ltb_ge. destruct triples as [|? [|? [|? ?]]]; try done. cbn [length]. lia. }
    cbn [negb orb fail_if result_bind String.eqb]. exact Ht.
Qed.

Lemma guard_iff args : validateUpdateGuardArgs args = Ok tt <-> permitted "systemd-run" args.
Proof.
  split.
  - unfold validateUpdateGuardArgs. destruct args as [|a0 [|a1 [|a2 [|a3 [|]]]]]; try discriminate.
    destruct (_ || _) eqn:E; [discriminate|]. bool_hyps. subst. unfold CutPrefix.
    destruct (drop_prefix "--on-active=" a1) as [secs|] eqn:E1; [|discriminate].
    intros HE. inv_ok. cbn [negb orb] in HE. bool_hyps. apply drop_prefix_Some in E1 as ->.
    apply permit_guard; [done|]. by apply Trim_empty.
  - inversion 1 as [secs Hne Hd| | | | | | | | | | |]; subst.
    unfold validateUpdateGuardArgs, CutPrefix.
    rewrite (proj2 (drop_prefix_Some "--on-active=" _ secs) eq_refl).
    rewrite (proj2 (Trim_empty _ _) Hd), (proj2 (String.eqb_neq _ _) Hne). done.
Qed.

End Spec.

(** ** Lemmas: stdin of chpasswd *)

Definition newline : ascii := "010".

Definition one_root_line (stdin : string) : Prop :=
  exists pw, stdin = "root:" +:+ pw +:+ char_str newline /\ pw <> "" /\ ContainsFunc pw IsControl = false.

Lemma chpasswd_stdin_iff stdin : validateChpasswdStdin stdin = Ok tt <-> one_root_line stdin.
Proof.
  unfold validateChpasswdStdin, CutSuffix, CutPrefix, one_root_line. split.
  - destruct (drop_suffix _ stdin) as [line|] eqn:E1; cbn [negb orb].
    + destruct (drop_prefix "root:" line) as [pw|] eqn:E2; intros HE; inv_ok; cbn [negb orb] in HE;
        [|discriminate].
      bool_hyps. apply drop_suffix_Some in E1 as ->. apply drop_prefix_Some in E2 as ->.
      exists pw. by rewrite append_assoc.
    + destruct (drop_prefix _ _); discriminate.
  - intros (pw & -> & Hne & Hc). rewrite <- append_assoc.
    rewrite (proj2 (drop_suffix_Some _ _ ("root:" +:+ pw)) eq_refl).
    rewrite (proj2 (drop_prefix_Some "root:" _ pw) eq_refl), Hc, (proj2 (String.eqb_neq _ _) Hne). done.
Qed.

(** ** The properties *)

(** What a served path and the pair handed to the operating system satisfy:
    the path is clean, its resolution is admitted by a rule, the directory is
    that rule's and the relative path consists of the remaining components,
    none of which climbs. *)
Definition confined (ev : symlinks) (rules : list pathRule) (path b rel : string) : Prop :=
  exists cs ds es r, path = abs_path cs /\ good_comps cs /\ good_comps (ds ++ es)
    /\ resolves ev cs (abs_path (ds ++ es))
    /\ In r rules /\ admits r (abs_path (ds ++ es)) = true
    /\ b = base r /\ b = abs_path ds
    /\ rel = match es with [] => "." | _ => join sep_str es end.

Lemma ruleMatch_confined ev rules path resolved b :
  symlinks_ok ev -> Forall wf_rule rules -> ruleMatch ev path rules = Some (resolved, b) ->
  exists rel, Rel b resolved = Ok rel /\ confined ev rules path b rel.
Proof.
  intros He Hwf (Hc & -> & r & Hf & ->)%ruleMatch_Some.
  apply clean_abs_spec in Hc as (cs & Hg & ->).
  pose proof (resolveExistingPrefix_spec ev He cs Hg) as Hres.
  destruct (resolves_clean ev cs _ Hg Hres) as (qs & Hq & Heq).
  apply List.find_some in Hf as [Hin Had]. rewrite Heq in *.
  rewrite List.Forall_forall in Hwf.
  destruct (admits_under r qs (Hwf r Hin) Hq Had) as (ds & es & Hb & -> & _).
  rewrite Hb, Rel_under by done. eexists. split; [done|].
  exists cs, ds, es, r. by rewrite Hb.
Qed.

Lemma openBeneath_Ok ev mkdir openroot path rules refusal b rel :
  symlinks_ok ev -> Forall wf_rule rules ->
  openBeneath ev mkdir openroot path rules refusal = Ok (b, rel) -> confined ev rules path b rel.
Proof.
  intros He Hwf. unfold openBeneath. destruct (ruleMatch ev path rules) as [[q b']|] eqn:E; [|done].
  destruct (ruleMatch_confined _ _ _ _ _ He Hwf E) as (rel' & Hrel & Hc).
  rewrite Hrel. intros HE. cbn [result_bind] in HE. inv_ok. by simplify_eq.
Qed.

Lemma openBeneath_serves ev mkdir openroot path rules refusal r :
  symlinks_ok ev -> Forall wf_rule rules -> clean_abs path = true -> In r rules ->
  admits r (resolveExistingPrefix ev path) = true ->
  (forall b, mkdir b = Ok tt /\ openroot b = Ok tt) ->
  exists b rel, openBeneath ev mkdir openroot path rules refusal = Ok (b, rel).
Proof.
  intros He Hwf Hc Hin Had Hos. unfold openBeneath.
  destruct (List.find (fun r => admits r (resolveExistingPrefix ev path)) rules) as [r'|] eqn:Ef.
  - assert (Hm : ruleMatch ev path rules = Some (resolveExistingPrefix ev path, base r'))
      by (apply ruleMatch_Some; eauto).
    rewrite Hm. destruct (ruleMatch_confined _ _ _ _ _ He Hwf Hm) as (rel & -> & _).
    destruct (Hos (base r')) as [-> ->]. cbn. eauto.
  - by rewrite (List.find_none _ _ Ef r Hin) in Had.
Qed.

Lemma resolved_tables_wf ev table :
  symlinks_ok ev -> table = allowedWriteRules \/ table = allowedReadRules ->
  Forall wf_rule (resolveRulePatterns ev table).
Proof.
  intros He Ht. apply resolveRulePatterns_wf; [done|]. pose proof tables_wf as Hall.
  apply Forall_app in Hall as [? ?]. by destruct Ht as [->| ->].
Qed.

(** C7: The files a request touches stay inside the rule that admits it.
    When [openBeneath] hands out a directory and a relative path, the request
    was a clean absolute path; its longest existing prefix, with symlinks
    resolved, and the rest of it form a path that some rule of the table
    admits; the directory is that rule's own, the relative path is the rest
    of the components, and none of them climbs.  Conversely every clean path
    whose resolution a rule admits is served when the directory can be
    opened. *)
Theorem openBeneath_confined ev0 ev mkdir openroot table path refusal
  (H0 : symlinks_ok ev0) (H1 : symlinks_ok ev)
  (Ht : table = allowedWriteRules \/ table = allowedReadRules) :
  let rules := resolveRulePatterns ev0 table in
  (forall b rel, openBeneath ev mkdir openroot path rules refusal = Ok (b, rel) ->
     confined ev rules path b rel)
  /\ (forall r, clean_abs path = true -> In r rules ->
        admits r (resolveExistingPrefix ev path) = true ->
        (forall b, mkdir b = Ok tt /\ openroot b = Ok tt) ->
        exists b rel, openBeneath ev mkdir openroot path rules refusal = Ok (b, rel)).
Proof.
  pose proof (resolved_tables_wf ev0 table H0 Ht) as Hwf. split.
  - intros b rel. by apply openBeneath_Ok.
  - intros r. by apply openBeneath_serves.
Qed.

Definition no_links : symlinks := fun p => Some p.
Definition io_ok : string -> result unit := fun _ => Ok tt.

Lemma no_links_ok : symlinks_ok no_links.
Proof. intros p q Hp [= <-]. done. Qed.

Lemma openBeneath_confined_witness :
  exists b rel, openBeneath no_links io_ok io_ok "/etc/unbound/local/x.conf"
                  (resolveRulePatterns no_links allowedWriteRules) "write not allowed to path" = Ok (b, rel).
Proof.
  apply (openBeneath_confined no_links no_links io_ok io_ok allowedWriteRules
           "/etc/unbound/local/x.conf" "write not allowed to path" no_links_ok no_links_ok
           (or_introl eq_refl)) with (r := mkRule "/etc/unbound/" dirPrefix).
  - vm_compute. reflexivity.
  - vm_compute. tauto.
  - vm_compute. reflexivity.
  - done.
Defined.

(** C17: The command lines accepted for the commands that would otherwise hand
    the caller root are exactly the ones the services send: for each of the
    ten guarded commands [validateInvocation] accepts an invocation if and
    only if it is one of the listed shapes, paths being absolute, free of
    climbing components and covered by the path rules, and the input of
    chpasswd being one line for root.  The pairs of verb and unit are those of
    the code's table, which has --now on disable as well for the two Samba
    daemons, against the comment on its validator. *)
Theorem argument_rules_exact ev writeRules readRules cmd args stdin
  (Hg : argValidators ev writeRules readRules cmd <> None) :
  validateInvocation ev writeRules readRules cmd args stdin = Ok tt <->
  permitted ev writeRules readRules cmd args /\ (cmd = "chpasswd" -> one_root_line stdin).
Proof.
  unfold validateInvocation, stdinValidators. revert Hg. unfold argValidators.
  repeat match goal with
  | |- context [String.eqb cmd ?c] =>
      destruct (String.eqb_spec cmd c) as [->|?]; [intros _; cbn [String.eqb Ascii.eqb Bool.eqb]|]
  end; [..|done];
  rewrite result_bind_Ok;
  rewrite <- ?cp_iff, <- ?rm_iff, <- ?chmod_iff, <- ?chpasswd_iff, <- ?systemctl_iff, <- ?mkdir_iff,
    <- ?mount_iff, <- ?tar_iff, <- ?mkcert_iff, <- ?guard_iff, <- ?chpasswd_stdin_iff.
  all: split; [intros ([] & Hv & Hs); split; [done|intros Hc; by try discriminate Hc]
              |intros [Hv Hs]; exists tt; split; [done|by try (apply Hs; reflexivity)]].
Qed.

Lemma argument_rules_exact_witness :
  validateInvocation no_links (resolveRulePatterns no_links allowedWriteRules)
    (resolveRulePatterns no_links allowedReadRules) "rm" ["-f"; "--"; "/etc/wireguard/wg0.conf"] "" = Ok tt
  <-> permitted no_links (resolveRulePatterns no_links allowedWriteRules)
        (resolveRulePatterns no_links allowedReadRules) "rm" ["-f"; "--"; "/etc/wireguard/wg0.conf"]
      /\ ("rm" = "chpasswd" -> one_root_line "").
Proof. apply argument_rules_exact. discriminate. Defined.

(** The comment on [validateSystemctlArgs] allows --now only on enable; the
    table has it on disable too. *)
Lemma disable_now_accepted : validateSystemctlArgs ["disable"; "--now"; "smbd"] = Ok tt /\ validateSystemctlArgs ["disable"; "--now"; "nmbd"] = Ok tt.
Proof. split; vm_compute; reflexivity. Qed.

(** chpasswd can change the password of root and of nobody else.  An
    accepted input is the one line root:PASSWORD, with a password that is not
    empty and holds no control character, so that a reader splitting it into
    lines sees that line and nothing after it. *)
Theorem chpasswd_only_root stdin (Hok : validateChpasswdStdin stdin = Ok tt) :
  exists pw, split_byte newline stdin = ["root:" +:+ pw; ""] /\ pw <> "" /\ has_char newline pw = false.
Proof.
  apply chpasswd_stdin_iff in Hok as (pw & -> & Hne & Hc). exists pw.
  assert (Hnl : has_char newline pw = false) by (by eapply ContainsFunc_ascii).
  split_and!; try done. rewrite <- append_assoc. unfold char_str.
  rewrite split_byte_app, split_byte_none; [done|]. rewrite has_char_append, Hnl. done.
Qed.

Definition sample_stdin : string := "root:hunter2" +:+ char_str newline.

Lemma chpasswd_only_root_witness :
  exists pw, split_byte newline sample_stdin = ["root:" +:+ pw; ""] /\ pw <> "" /\ has_char newline pw = false.
Proof. apply chpasswd_only_root. vm_compute. reflexivity. Defined.

(** The argument rule of tar looks only at the cleaned join of PARENT and
    NAME, so NAME itself may begin with a dash: an invocation that hands tar
    an option of the caller's choosing is accepted. *)
Lemma tar_accepts_option :
  validateInvocation no_links (resolveRulePatterns no_links allowedWriteRules)
    (resolveRulePatterns no_links allowedReadRules) "tar"
    ["czf"; "/var/lib/lankeeper/x.tgz"; "-C"; "/etc/lankeeper"; "--checkpoint-action=exec=id/.."] "" = Ok tt.
Proof. vm_compute. reflexivity. Qed.
