(* ===== verification/AgentOps.v ===== *)
(** * internal/agent/operations.go: the operations of the agent

    Each handler of [RegisterBuiltinOps] is a function from the operating
    system's answers, the cache of resolved commands, the time left to the
    caller and the JSON parameters to the new cache, the list of actions it
    performed as root, in order, and its reply.  The actions are what the
    theorems speak about. *)

From S2P Require Import Prelude GoStrings GoTime GoPath Encoding AgentRules.

Local Open Scope Z_scope.
Local Open Scope go_scope.

(** ** Parameters and replies *)

Record ExecParams : Type := mkExecParams { Cmd : string; Args : list string; Stdin : string }.

Definition ExecParams_fields : list (string * (json -> ExecParams -> option ExecParams)) :=
  [("cmd", dec_string (fun v p => mkExecParams v (Args p) (Stdin p)));
   ("args", dec_strings (fun v p => mkExecParams (Cmd p) v (Stdin p)));
   ("stdin", dec_string (fun v p => mkExecParams (Cmd p) (Args p) v))].

Record FileWriteParams : Type := mkFileWriteParams {
  FW_Path : string; FW_Content : string; FW_ContentBytes : option string; FW_Mode : Z; FW_MkdirP : bool }.

Definition FileWriteParams_fields : list (string * (json -> FileWriteParams -> option FileWriteParams)) :=
  [("path", dec_string (fun v p =>
      mkFileWriteParams v (FW_Content p) (FW_ContentBytes p) (FW_Mode p) (FW_MkdirP p)));
   ("content", dec_string (fun v p =>
      mkFileWriteParams (FW_Path p) v (FW_ContentBytes p) (FW_Mode p) (FW_MkdirP p)));
   ("contentBytes", dec_bytes (fun v p =>
      mkFileWriteParams (FW_Path p) (FW_Content p) v (FW_Mode p) (FW_MkdirP p)));
   ("mode", dec_int (fun v p =>
      mkFileWriteParams (FW_Path p) (FW_Content p) (FW_ContentBytes p) v (FW_MkdirP p)));
   ("mkdirp", dec_bool (fun v p =>
      mkFileWriteParams (FW_Path p) (FW_Content p) (FW_ContentBytes p) (FW_Mode p) v))].

Definition FileReadParams_fields : list (string * (json -> string -> option string)) :=
  [("path", dec_string (fun v _ => v))].

Definition FileMkdirParams_fields : list (string * (json -> string * Z -> option (string * Z))) :=
  [("path", dec_string (fun v p => (v, snd p))); ("mode", dec_int (fun v p => (fst p, v)))].

(** [json.Unmarshal] of the raw parameters; a request without the member has
    empty parameters, which is not a JSON value. *)
Definition unmarshal_params {T} (fields : list (string * (json -> T -> option T))) (zero : T)
  (raw : option json) : result T :=
  match raw ≫= unmarshal_struct fields zero with
  | Some p => Ok p
  | None => Err (Errorf "invalid params: %w" [])
  end.

Record ExecResult : Type := mkExecResult { Stdout : string; Stderr : string; ExitCode : Z }.

Definition ExecResult_json (r : ExecResult) : json :=
  JObj [("stdout", marshal_string (Stdout r)); ("stderr", marshal_string (Stderr r));
        ("exitCode", JInt (ExitCode r))].

(** [FileContent] and its two functions; [None] is a nil slice. *)
Record FileContent : Type := mkFileContent { Content : string; ContentBytes : option string }.

Definition NewFileContent (data : string) : FileContent :=
  if utf8_valid data then mkFileContent data None else mkFileContent "" (Some data).

Definition Bytes (c : FileContent) : string :=
  match ContentBytes c with Some b => b | None => Content c end.

(** An optional member, with omitempty: a nil or empty slice is left out. *)
Definition omitempty_bytes (name : string) (b : option string) : list (string * json) :=
  match b with
  | Some s => if String.eqb s "" then [] else [(name, marshal_bytes s)]
  | None => []
  end.

Definition FileContent_json (c : FileContent) : json :=
  JObj (("content", marshal_string (Content c)) :: omitempty_bytes "contentBytes" (ContentBytes c)).

Definition status_json (s : string) : json := JObj [("status", marshal_string s)].

(** ** Actions and the operating system *)

Inductive action : Type :=
| AExec (path : string) (args : list string) (stdin : option string) (env : list string) (timeout : Z)
| AMkdirBase (base : string)
| AMkdirAll (base rel : string) (mode : Z)
| AWrite (base rel body : string) (mode : Z)
| ARead (base rel : string).

(** The outcome of [cmd.Run]; [proc_exit] is [None] when no process state was
    recorded, and [run_err] the error. *)
Record run_outcome : Type := {
  run_stdout : string; run_stderr : string; proc_exit : option Z; run_err : option error }.

Record os : Type := {
  os_symlinks : symlinks;
  os_stat : string -> option stat_info;
  os_run : string -> list string -> run_outcome;
  os_mkdirBase : string -> result unit;
  os_openRoot : string -> result unit;
  os_mkdirAll : string -> string -> Z -> result unit;
  os_write : string -> string -> string -> Z -> result unit;
  os_read : string -> string -> result string;
}.

(** ** Modes *)

Definition validateFileMode (mode : Z) : result unit :=
  guard! fail_if (negb (Z.ldiff mode 511 =? 0))
    (Errorf "mode %v carries bits outside the permission set" [itoa mode]) ;;
  fail_if (negb (Z.land mode 18 =? 0)) (Errorf "mode %v is group- or world-writable" [itoa mode]).

Definition validateFileExec (path : string) (mode : Z) : result unit :=
  fail_if (negb (Z.land mode 73 =? 0) && negb (String.eqb path dhcp6cScript))
    (Errorf "mode %v makes %s executable" [itoa mode; path]).

(** [mode := os.FileMode(v); if mode == 0 { mode = default }]. *)
Definition fileMode (v default : Z) : Z := let m := uint32 v in if m =? 0 then default else m.

(** ** Handlers *)

Definition commandEnv (cmd : string) : list string :=
  if String.eqb cmd "easyrsa" then ["EASYRSA_PKI=/etc/openvpn/pki"]
  else if String.eqb cmd "mkcert" then ["CAROOT=" +:+ MkcertCARoot]
  else [].

Definition envFor (params : ExecParams) : list string := commandEnv (Base (Cmd params)).

Abbreviation cache := (gmap string string).

Section Ops.
(** The rule tables as [init] left them. *)
Variables (writeRules readRules : list pathRule).

Definition handler : Type := os -> cache -> option Z -> option json -> cache * list action * result json.

Definition opPing : handler := fun _ c _ _ => (c, [], Ok (status_json "pong")).

Definition opExecRun : handler := fun o c deadline raw =>
  match unmarshal_params ExecParams_fields (mkExecParams "" [] "") raw with
  | Err e => (c, [], Err e)
  | Ok params =>
      let baseName := Base (Cmd params) in
      let '(cmdPath, c') := resolveAllowedCommand (os_stat o) c baseName in
      match cmdPath with
      | Err e => (c', [], Err e)
      | Ok cmdPath =>
          match validateInvocation (os_symlinks o) writeRules readRules baseName (Args params) (Stdin params) with
          | Err e => (c', [], Err e)
          | Ok _ =>
              let timeout := match deadline with Some d => d | None => 30 * second end in
              let stdin := if String.eqb (Stdin params) "" then None else Some (Stdin params) in
              let r := os_run o cmdPath (Args params) in
              let result := mkExecResult (run_stdout r) (run_stderr r)
                              (match proc_exit r with Some code => code | None => 0 end) in
              (c', [AExec cmdPath (Args params) stdin (envFor params) timeout],
               match run_err r with
               | Some e => Err (Errorw "exec %s: %w (stderr: %s)" [baseName; run_stderr r] e)
               | None => Ok (ExecResult_json result)
               end)
          end
      end
  end.

(** [openBeneath] as an action: the base directory is created before it is
    opened, once the path has been admitted. *)
Definition openBeneath_actions (o : os) (path : string) (rules : list pathRule) : list action :=
  match ruleMatch (os_symlinks o) path rules with
  | Some (resolved, b) => if is_ok (Rel b resolved) then [AMkdirBase b] else []
  | None => []
  end.

Definition opFileWrite : handler := fun o c _ raw =>
  match unmarshal_params FileWriteParams_fields (mkFileWriteParams "" "" None 0 false) raw with
  | Err e => (c, [], Err e)
  | Ok params =>
      let mode := fileMode (FW_Mode params) 420 in
      match (guard! validateFileMode mode ;; validateFileExec (FW_Path params) mode) with
      | Err e => (c, [], Err e)
      | Ok _ =>
          let acts := openBeneath_actions o (FW_Path params) writeRules in
          match openBeneath (os_symlinks o) (os_mkdirBase o) (os_openRoot o) (FW_Path params)
                  writeRules "write not allowed to path" with
          | Err e => (c, acts, Err e)
          | Ok (b, rel) =>
              let needs := FW_MkdirP params && negb (String.eqb (Dir rel) ".") in
              let mk := if needs then [AMkdirAll b (Dir rel) 493] else [] in
              match (if needs then os_mkdirAll o b (Dir rel) 493 else Ok tt) with
              | Err e => (c, acts ++ mk, Err (Errorw "mkdir parent: %w" [] e))
              | Ok _ =>
                  let body := Bytes (mkFileContent (FW_Content params) (FW_ContentBytes params)) in
                  (c, acts ++ mk ++ [AWrite b rel body mode],
                   match os_write o b rel body mode with
                   | Err e => Err (Errorw "write file: %w" [] e)
                   | Ok _ => Ok (status_json "ok")
                   end)
              end
          end
      end
  end.

Definition opFileRead : handler := fun o c _ raw =>
  match unmarshal_params FileReadParams_fields "" raw with
  | Err e => (c, [], Err e)
  | Ok path =>
      let acts := openBeneath_actions o path readRules in
      match openBeneath (os_symlinks o) (os_mkdirBase o) (os_openRoot o) path readRules
              "read not allowed for path" with
      | Err e => (c, acts, Err e)
      | Ok (b, rel) =>
          (c, acts ++ [ARead b rel],
           match os_read o b rel with
           | Err e => Err (Errorw "read file: %w" [] e)
           | Ok data => Ok (FileContent_json (NewFileContent data))
           end)
      end
  end.

Definition opFileMkdir : handler := fun o c _ raw =>
  match unmarshal_params FileMkdirParams_fields ("", 0) raw with
  | Err e => (c, [], Err e)
  | Ok (path, m) =>
      let mode := fileMode m 493 in
      match validateFileMode mode with
      | Err e => (c, [], Err e)
      | Ok _ =>
          let acts := openBeneath_actions o path writeRules in
          match openBeneath (os_symlinks o) (os_mkdirBase o) (os_openRoot o) path writeRules
                  "mkdir not allowed for path" with
          | Err e => (c, acts, Err e)
          | Ok (b, rel) =>
              (c, acts ++ [AMkdirAll b rel mode],
               match os_mkdirAll o b rel mode with
               | Err e => Err (Errorw "mkdir: %w" [] e)
               | Ok _ => Ok (status_json "ok")
               end)
          end
      end
  end.

(** [RegisterBuiltinOps]. *)
Definition builtinOps (method : string) : option handler :=
  if String.eqb method "ping" then Some opPing
  else if String.eqb method "exec.run" then Some opExecRun
  else if String.eqb method "file.write" then Some opFileWrite
  else if String.eqb method "file.read" then Some opFileRead
  else if String.eqb method "file.mkdir" then Some opFileMkdir
  else None.

End Ops.

(** ** Lemmas: modes *)

(** A mode the agent creates anything with: permission bits only, and neither
    group nor world may write. *)
Definition mode_ok (mode : Z) : Prop :=
  (forall i, 9 <= i -> Z.testbit mode i = false)
  /\ Z.testbit mode 1 = false /\ Z.testbit mode 4 = false.

Lemma ldiff_511 m : Z.ldiff m 511 = 0 -> forall i, 9 <= i -> Z.testbit m i = false.
Proof.
  intros Hm i Hi. assert (Hb : Z.testbit (Z.ldiff m 511) i = false) by (rewrite Hm; apply Z.bits_0).
  rewrite Z.ldiff_spec in Hb. change 511 with (Z.ones 9) in Hb.
  rewrite Z.ones_spec_high in Hb by lia. by rewrite andb_true_r in Hb.
Qed.

Lemma land_bit m k i : Z.land m k = 0 -> Z.testbit k i = true -> Z.testbit m i = false.
Proof.
  intros Hm Hk. assert (Hb : Z.testbit (Z.land m k) i = false) by (rewrite Hm; apply Z.bits_0).
  rewrite Z.land_spec, Hk in Hb. by rewrite andb_true_r in Hb.
Qed.

Lemma validateFileMode_Ok m : validateFileMode m = Ok tt -> mode_ok m.
Proof.
  unfold validateFileMode. intros HE. inv_ok. bool_hyps. split_and!.
  - by apply ldiff_511.
  - by apply (land_bit m 18).
  - by apply (land_bit m 18).
Qed.

Lemma validateFileExec_Ok p m : validateFileExec p m = Ok tt ->
  p <> dhcp6cScript -> Z.testbit m 0 = false /\ Z.testbit m 3 = false /\ Z.testbit m 6 = false.
Proof.
  unfold validateFileExec. intros HE Hp. inv_ok.
  rewrite (proj2 (String.eqb_neq _ _) Hp), andb_true_r in HE. bool_hyps.
  split_and!; by apply (land_bit m 73).
Qed.

(** ** Lemmas: command resolution *)

(** Every path in the cache is a trusted location of an allowed command. *)
Definition cache_ok (c : cache) : Prop :=
  map_Forall (fun name p => In name allowedCommands /\ In p (candidates name)) c.

Lemma resolveAllowedCommand_spec stat c name r c' :
  cache_ok c -> resolveAllowedCommand stat c name = (r, c') ->
  cache_ok c' /\
  (forall p, r = Ok p -> In name allowedCommands /\ In p (candidates name) /\ c' !! name = Some p).
Proof.
  unfold resolveAllowedCommand. intros Hc HE.
  destruct (mem name allowedCommands) eqn:Em; cbn [negb] in HE; [|by simplify_eq].
  apply mem_In in Em. destruct (c !! name) as [p|] eqn:El.
  { simplify_eq. split; [done|]. intros p' [= <-]. by destruct (Hc _ _ El). }
  destruct (List.find _ (candidates name)) as [p|] eqn:Ef; simplify_eq; [|done].
  apply List.find_some in Ef as [Hin _]. split.
  - by apply map_Forall_insert_2.
  - intros p' [= <-]. by rewrite lookup_insert_eq.
Qed.

(** A trusted location is a file directly inside a directory only root
    writes, or the pinned easyrsa script. *)
Lemma candidates_trusted name p :
  In name allowedCommands -> In p (candidates name) ->
  p = "/usr/share/easy-rsa/easyrsa" \/ exists dir, In dir trustedBinDirs /\ p = dir +:+ "/" +:+ name.
Proof.
  intros Hn. unfold candidates, commandOverrides.
  destruct (String.eqb name "easyrsa"); [intros [<-|[]]; by left|].
  intros (dir & <- & Hd)%in_map_iff. right. exists dir. split; [done|].
  assert (Hall : forallb (fun n => forallb (fun d => String.eqb (Join [d; n]) (d +:+ "/" +:+ n)) trustedBinDirs)
                   allowedCommands = true) by (vm_compute; reflexivity).
  rewrite forallb_forall in Hall. specialize (Hall _ Hn).
  rewrite forallb_forall in Hall. specialize (Hall _ Hd). by apply String.eqb_eq in Hall.
Qed.

(** ** What the agent does as root *)

Section Safety.
Variables (o : os) (writeRules readRules : list pathRule).
Hypothesis links_ok : symlinks_ok (os_symlinks o).
Hypothesis write_wf : Forall wf_rule writeRules.
Hypothesis read_wf : Forall wf_rule readRules.

(** A directory below the one of a rule. *)
Definition below (rules : list pathRule) (b rel : string) : Prop :=
  exists ds es r, In r rules /\ b = base r /\ b = abs_path ds /\ good_comps (ds ++ es)
    /\ rel = match es with [] => "." | _ => join sep_str es end.

Inductive safe_action : action -> Prop :=
| safe_exec name path args stdin timeout :
    In name allowedCommands ->
    (path = "/usr/share/easy-rsa/easyrsa" \/ exists dir, In dir trustedBinDirs /\ path = dir +:+ "/" +:+ name) ->
    validateInvocation (os_symlinks o) writeRules readRules name args (default "" stdin) = Ok tt ->
    safe_action (AExec path args stdin (commandEnv name) timeout)
| safe_base r rules : rules = writeRules \/ rules = readRules -> In r rules -> safe_action (AMkdirBase (base r))
| safe_mkdir b rel mode : below writeRules b rel -> mode_ok mode -> safe_action (AMkdirAll b rel mode)
| safe_write path b rel body mode :
    confined (os_symlinks o) writeRules path b rel -> mode_ok mode ->
    (path <> dhcp6cScript -> Z.testbit mode 0 = false /\ Z.testbit mode 3 = false /\ Z.testbit mode 6 = false) ->
    safe_action (AWrite b rel body mode)
| safe_read path b rel : confined (os_symlinks o) readRules path b rel -> safe_action (ARead b rel).

Lemma confined_below rules path b rel :
  confined (os_symlinks o) rules path b rel -> below rules b rel.
Proof. intros (cs & ds & es & r & _ & _ & Hg & _ & Hin & _ & Hb & Hd & Hr). by exists ds, es, r. Qed.

Lemma below_dir rules b rel : below rules b rel -> below rules b (Dir rel).
Proof.
  intros (ds & es & r & Hin & Hb & Hd & Hg & ->).
  destruct es as [|e es _] using rev_ind.
  - exists ds, [], r. by rewrite app_nil_r in *.
  - assert (Hes : good_comps (es ++ [e])) by (by apply Forall_app in Hg as [_ ?]).
    exists ds, es, r. rewrite app_assoc in Hg. apply Forall_app in Hg as [Hg _].
    split_and!; try done. transitivity (Dir (join sep_str (es ++ [e]))); [by destruct es|by apply Dir_rel].
Qed.

Lemma openBeneath_actions_safe path rules :
  rules = writeRules \/ rules = readRules -> Forall safe_action (openBeneath_actions o path rules).
Proof.
  intros Hr. unfold openBeneath_actions. destruct (ruleMatch _ path rules) as [[q b]|] eqn:E; [|done].
  apply ruleMatch_Some in E as (_ & _ & r & Hf & ->). apply List.find_some in Hf as [Hin _].
  destruct (is_ok _); [|done]. constructor; [|done]. by eapply safe_base.
Qed.

Lemma opExecRun_safe c d raw c' acts res :
  cache_ok c -> opExecRun writeRules readRules o c d raw = (c', acts, res) ->
  cache_ok c' /\ Forall safe_action acts.
Proof.
  unfold opExecRun. intros Hc HE. destruct (unmarshal_params _ _ raw) as [p|]; [|by simplify_eq].
  destruct (resolveAllowedCommand (os_stat o) c (Base (Cmd p))) as [cp c1] eqn:Er.
  destruct (resolveAllowedCommand_spec _ _ _ _ _ Hc Er) as [Hc1 Hp].
  destruct cp as [path|]; [|by simplify_eq].
  destruct (validateInvocation _ _ _ _ _ _) as [[]|] eqn:Ev; simplify_eq; [|done].
  destruct (Hp _ eq_refl) as (Hn & Hin & _). split; [done|]. constructor; [|done].
  eapply safe_exec; [done|by apply candidates_trusted|].
  destruct (String.eqb_spec (Stdin p) "") as [E|]; cbn; [by rewrite E in Ev|done].
Qed.

Lemma mode_755 : mode_ok 493.
Proof. apply validateFileMode_Ok. reflexivity. Qed.

Lemma opFileWrite_safe c d raw c' acts res :
  opFileWrite writeRules o c d raw = (c', acts, res) -> c' = c /\ Forall safe_action acts.
Proof.
  unfold opFileWrite. intros HE. destruct (unmarshal_params _ _ raw) as [p|]; [|by simplify_eq].
  destruct (result_bind _ _) as [[]|] eqn:Em; [|by simplify_eq]. inv_ok.
  pose proof (openBeneath_actions_safe (FW_Path p) writeRules (or_introl eq_refl)) as Ha.
  destruct x. apply validateFileMode_Ok in H.
  destruct (openBeneath _ _ _ _ _ _) as [[b rel]|] eqn:Eo; [|by simplify_eq].
  apply openBeneath_Ok in Eo; [|done..].
  assert (Hmk : safe_action (AMkdirAll b (Dir rel) 493)).
  { apply safe_mkdir; [|apply mode_755]. by eapply below_dir, confined_below. }
  assert (Hw : forall body, safe_action (AWrite b rel body (fileMode (FW_Mode p) 420))).
  { intros body. eapply safe_write; [done|done|]. by apply validateFileExec_Ok. }
  destruct (FW_MkdirP p && _).
  - destruct (os_mkdirAll o b (Dir rel) 493); simplify_eq; (split; [done|]);
      repeat (apply Forall_app; split); auto.
  - simplify_eq. split; [done|]. repeat (apply Forall_app; split); auto.
Qed.

Lemma opFileRead_safe c d raw c' acts res :
  opFileRead readRules o c d raw = (c', acts, res) -> c' = c /\ Forall safe_action acts.
Proof.
  unfold opFileRead. intros HE. destruct (unmarshal_params _ _ raw) as [p|]; [|by simplify_eq].
  pose proof (openBeneath_actions_safe p readRules (or_intror eq_refl)) as Ha.
  destruct (openBeneath _ _ _ _ _ _) as [[b rel]|] eqn:Eo; simplify_eq; [|done].
  apply openBeneath_Ok in Eo; [|done..]. split; [done|]. apply Forall_app. split; [done|].
  constructor; [|done]. by eapply safe_read.
Qed.

Lemma opFileMkdir_safe c d raw c' acts res :
  opFileMkdir writeRules o c d raw = (c', acts, res) -> c' = c /\ Forall safe_action acts.
Proof.
  unfold opFileMkdir. intros HE. destruct (unmarshal_params _ _ raw) as [[p m]|]; [|by simplify_eq].
  destruct (validateFileMode _) as [[]|] eqn:Em; [|by simplify_eq]. apply validateFileMode_Ok in Em.
  pose proof (openBeneath_actions_safe p writeRules (or_introl eq_refl)) as Ha.
  destruct (openBeneath _ _ _ _ _ _) as [[b rel]|] eqn:Eo; simplify_eq; [|done].
  apply openBeneath_Ok in Eo; [|done..]. split; [done|]. apply Forall_app. split; [done|].
  constructor; [|done]. apply safe_mkdir; [|done]. by eapply confined_below.
Qed.

End Safety.

(** C1: The privilege boundary.  Whatever a caller sends to a built-in
    operation, everything the agent then does as root is safe: it runs only a
    whitelisted command, from a directory only root writes to, with arguments
    and input the rules accept and the environment the agent itself chose;
    it writes, reads and creates only below the directory of a rule that
    admits the path once symlinks are resolved; nothing it creates is group-
    or world-writable or carries set-id bits, and no file but the known script
    gets an execute bit.  The command cache keeps holding trusted paths. *)
Theorem agent_actions_safe ev0 o c d method raw h c' acts res
  (H0 : symlinks_ok ev0) (H1 : symlinks_ok (os_symlinks o)) (Hc : cache_ok c) :
  let W := resolveRulePatterns ev0 allowedWriteRules in
  let R := resolveRulePatterns ev0 allowedReadRules in
  builtinOps W R method = Some h -> h o c d raw = (c', acts, res) ->
  cache_ok c' /\ Forall (safe_action o W R) acts.
Proof.
  intros W R. pose proof (resolved_tables_wf ev0 allowedWriteRules H0 (or_introl eq_refl)) as HW.
  pose proof (resolved_tables_wf ev0 allowedReadRules H0 (or_intror eq_refl)) as HR.
  unfold builtinOps. intros Hm HE. repeat case_match; simplify_eq.
  - unfold opPing in HE. by simplify_eq.
  - by eapply opExecRun_safe.
  - destruct (opFileWrite_safe o W R H1 HW _ _ _ _ _ _ HE) as [-> ?]. done.
  - destruct (opFileRead_safe o W R H1 HR _ _ _ _ _ _ HE) as [-> ?]. done.
  - destruct (opFileMkdir_safe o W R H1 HW _ _ _ _ _ _ HE) as [-> ?]. done.
Qed.

(** A machine where every path is its own resolution, every candidate is an
    executable file and every call succeeds. *)
Definition sample_os : os := {|
  os_symlinks := no_links;
  os_stat := fun _ => Some {| st_isDir := false; st_perm := 493 |};
  os_run := fun _ _ => {| run_stdout := "up"; run_stderr := ""; proc_exit := Some 0; run_err := None |};
  os_mkdirBase := io_ok; os_openRoot := io_ok;
  os_mkdirAll := fun _ _ _ => Ok tt; os_write := fun _ _ _ _ => Ok tt; os_read := fun _ _ => Ok "data" |}.

Definition sample_write : json :=
  JObj [("path", JStr "/etc/wireguard/wg0.conf"); ("content", JStr "[Interface]"); ("mode", JInt 384);
        ("mkdirp", JBool true)].

Lemma agent_actions_safe_witness :
  cache_ok ∅ /\
  Forall (safe_action sample_os (resolveRulePatterns no_links allowedWriteRules)
            (resolveRulePatterns no_links allowedReadRules))
    [AMkdirBase "/etc/wireguard"; AWrite "/etc/wireguard" "wg0.conf" "[Interface]" 384].
Proof.
  apply (agent_actions_safe no_links sample_os ∅ None "file.write" (Some sample_write)
           (opFileWrite (resolveRulePatterns no_links allowedWriteRules)) ∅ _ (Ok (status_json "ok"))
           no_links_ok no_links_ok (map_Forall_empty _)).
  - reflexivity.
  - vm_compute. reflexivity.
Defined.
