(* ===== verification/AgentServer.v ===== *)
(** * internal/agent/server.go: connections, framing and dispatch

    Authorization of the peer, the socket's mode, the byte budget of a frame,
    the caller's time budget, dispatch of a request to a handler, the serial
    service of one connection and the bound on open connections. *)

From S2P Require Import Prelude GoStrings GoTime GoPath Encoding AgentRules AgentOps.

Local Open Scope Z_scope.
Local Open Scope go_scope.

(** ** Messages *)

Record Request : Type := mkRequest {
  Req_JSONRPC : string; Req_Method : string; Req_Params : option json; Req_ID : json; Req_TimeoutMS : Z }.

Record RPCError : Type := mkRPCError { Code : Z; Message : error }.

Record Response : Type := mkResponse {
  Resp_Result : option json; Resp_Error : option RPCError; Resp_ID : json }.

Definition maxRequestedTimeout : Z := 15 * 60 * second.

(** [requestedTimeout]: the product is a 64-bit multiplication. *)
Definition requestedTimeout (ms : Z) : Z :=
  if ms <=? 0 then 0
  else let d := wrap64 (ms * 1000000) in
       if maxRequestedTimeout <? d then maxRequestedTimeout else d.

Section Server.
Variables (writeRules readRules : list pathRule).

(** [dispatch] with the built-in operations registered; the server's own
    context carries no deadline. *)
Definition dispatch (o : os) (c : cache) (req : Request) : cache * list action * Response :=
  if negb (String.eqb (Req_JSONRPC req) "2.0")
  then (c, [], mkResponse None (Some (mkRPCError (-32600) (Errorf "invalid JSON-RPC version" []))) (Req_ID req))
  else match builtinOps writeRules readRules (Req_Method req) with
  | None =>
      (c, [], mkResponse None
        (Some (mkRPCError (-32601) (Errorf "method not found: %s" [Req_Method req]))) (Req_ID req))
  | Some h =>
      let d := requestedTimeout (Req_TimeoutMS req) in
      let deadline := if 0 <? d then Some d else None in
      let '(c', acts, res) := h o c deadline (Req_Params req) in
      match res with
      | Err e => (c', acts, mkResponse None (Some (mkRPCError (-32000) e)) (Req_ID req))
      | Ok r => (c', acts, mkResponse (Some r) None (Req_ID req))
      end
  end.

(** ** The peer *)

Inductive peer_cred : Type :=
| PeerUID (uid : Z)
| PeerUnsupported
| PeerErr (e : error).

(** [authorizePeer]; [lookup] is the uid string [user.Lookup] gave. *)
Definition authorizePeer (cred : peer_cred) (euid : Z) (lookup : option string) (serviceUser : string)
  : result unit :=
  match cred with
  | PeerUnsupported => Ok tt
  | PeerErr e => Err (Errorw "read peer credentials: %w" [] e)
  | PeerUID uid =>
      if uid =? 0 then Ok tt
      else if uid =? euid then Ok tt
      else match lookup with
           | Some u => fail_if (negb (String.eqb u (itoa uid)))
                         (Errorf "uid %d is neither root, %s, nor the agent's own account" [itoa uid; serviceUser])
           | None => Err (Errorf "uid %d is neither root, %s, nor the agent's own account" [itoa uid; serviceUser])
           end
  end.

(** One turn of the loop of [handleConn]: what the decoder returned, whether
    [watchPeer] saw the peer go, and whether the reply could be sent. *)
Record turn : Type := { t_decoded : result Request; t_peerGone : bool; t_encode : result unit }.

(** The loop of [handleConn]: the replies sent and the actions performed. *)
Fixpoint serve_turns (o : os) (c : cache) (turns : list turn) : cache * list action * list Response :=
  match turns with
  | [] => (c, [], [])
  | t :: rest =>
      match t_decoded t with
      | Err _ => (c, [], [])
      | Ok req =>
          let '(c1, acts, resp) := dispatch o c req in
          if t_peerGone t then (c1, acts, [])
          else match t_encode t with
               | Err _ => (c1, acts, [])
               | Ok _ => let '(c2, acts2, resps) := serve_turns o c1 rest in
                         (c2, acts ++ acts2, resp :: resps)
               end
      end
  end.

Definition handleConn (o : os) (c : cache) (auth : result unit) (turns : list turn)
  : cache * list action * list Response :=
  match auth with
  | Err _ => (c, [], [])
  | Ok _ => serve_turns o c turns
  end.

End Server.

(** [watchPeer] over the reads it performs: the bytes, whether the read
    failed, and whether stopping was set by then. *)
Definition frame_byte (a : ascii) : bool :=
  negb (Ascii.eqb a " ") && negb (Ascii.eqb a "010") && negb (Ascii.eqb a "013") && negb (Ascii.eqb a "009").

Fixpoint hasFrameByte (b : string) : bool :=
  match b with "" => false | String a r => frame_byte a || hasFrameByte r end.

Fixpoint watchPeer (reads : list (string * bool * bool)) : bool :=
  match reads with
  | [] => false
  | (bytes, failed, stopping) :: rest =>
      if hasFrameByte bytes then true
      else if failed then negb stopping
      else watchPeer rest
  end.

(** ** The socket *)

Inductive socket_event : Type :=
| Chown (uid gid : Z)
| Chmod (mode : Z).

(** [restrictSocket]; [gid] is what [lookupGID] returned. *)
Definition restrictSocket (gid : result Z) (euid : Z) (chown chmod : result unit) (serviceGroup : string)
  : list socket_event * result unit :=
  match gid with
  | Ok g =>
      if euid =? 0 then
        match chown with
        | Err e => ([], Err (Errorw "chown socket to group %s: %w" [serviceGroup] e))
        | Ok _ =>
            match chmod with
            | Err e => ([Chown 0 g], Err (Errorw "chmod socket: %w" [] e))
            | Ok _ => ([Chown 0 g; Chmod 432], Ok tt)
            end
        end
      else match chmod with
           | Err e => ([], Err (Errorw "chmod socket: %w" [] e))
           | Ok _ => ([Chmod 384], Ok tt)
           end
  | Err _ =>
      match chmod with
      | Err e => ([], Err (Errorw "chmod socket: %w" [] e))
      | Ok _ => ([Chmod 384], Ok tt)
      end
  end.

Definition lookupGID (group : result string) : result Z :=
  let? s := group in
  match Atoi s with
  | Some g => Ok g
  | None => Err (Errorf "parse gid %q: %w" [s])
  end.

(** ** Framing *)

Inductive read_err : Type := ErrFrameTooLarge | ErrConn.

Record frameReader : Type := mkFrameReader { fr_max : Z; fr_read : Z; fr_armed : bool }.

(** How many bytes the underlying read is asked for. *)
Definition fr_request (f : frameReader) (want : Z) : Z := Z.min want (fr_max f - fr_read f).

(** [frameReader.Read] into a buffer of [want] bytes, when the connection
    returned [data] and maybe an error; the bytes and the error handed to the
    decoder. *)
Definition fr_Read (f : frameReader) (want : Z) (data : string) (err : option read_err)
  : frameReader * string * option read_err :=
  if fr_max f <=? fr_read f then (f, "", Some ErrFrameTooLarge)
  else
    let armed := fr_armed f || hasFrameByte data in
    let read := fr_read f + len data in
    let f' := mkFrameReader (fr_max f) read armed in
    if (fr_max f <=? read) && (match err with None => true | Some _ => false end)
    then (f', data, Some ErrFrameTooLarge)
    else (f', data, err).

Definition endFrame (f : frameReader) : frameReader := mkFrameReader (fr_max f) 0 false.

(** ** Connection slots *)

Definition defaultMaxConns : nat := 16.

Inductive conn_event : Type := Accept | Exit.

(** The accept loop and the deferred release, on the number of tokens in
    [connSlots] and the number of refused connections. *)
Inductive slot_step : nat * nat -> conn_event -> nat * nat -> Prop :=
| step_accept n r : (n < defaultMaxConns)%nat -> slot_step (n, r) Accept (S n, r)
| step_refuse n r : (defaultMaxConns <= n)%nat -> slot_step (n, r) Accept (n, S r)
| step_exit n r : slot_step (S n, r) Exit (n, r).

Inductive slot_run : nat * nat -> list conn_event -> nat * nat -> Prop :=
| run_nil s : slot_run s [] s
| run_cons s e s' es s'' : slot_step s e s' -> slot_run s' es s'' -> slot_run s (e :: es) s''.

(** ** Lemmas: the time budget *)

Lemma requestedTimeout_le ms : requestedTimeout ms <= maxRequestedTimeout.
Proof.
  unfold requestedTimeout. destruct (ms <=? 0); [done|].
  destruct (maxRequestedTimeout <? _) eqn:E; [done|]. by bool_hyps.
Qed.

(** The largest number of milliseconds whose nanoseconds fit an int64. *)
Definition maxMS : Z := 9223372036854.

Lemma requestedTimeout_exact ms : 0 < ms <= maxMS ->
  requestedTimeout ms = Z.min (ms * 1000000) maxRequestedTimeout.
Proof.
  intros Hms. unfold requestedTimeout, maxMS in *.
  rewrite (proj2 (Z.leb_gt ms 0)) by lia. rewrite wrap64_id.
  - destruct (maxRequestedTimeout <? _) eqn:E; bool_hyps; lia.
  - unfold in_int64, int64_min, int64_max. apply andb_true_intro. rewrite !Z.leb_le. lia.
Qed.

(** ** Lemmas: dispatch and connections *)

Definition exec_bounded (a : action) : Prop :=
  match a with AExec _ _ _ _ t => 0 < t <= maxRequestedTimeout | _ => True end.

Definition no_exec (a : action) : Prop := match a with AExec _ _ _ _ _ => False | _ => True end.

Lemma openBeneath_actions_no_exec o path rules : Forall no_exec (openBeneath_actions o path rules).
Proof.
  unfold openBeneath_actions. destruct (ruleMatch _ _ _) as [[? ?]|]; [|done].
  destruct (is_ok _); by repeat constructor.
Qed.

Lemma no_exec_bounded acts : Forall no_exec acts -> Forall exec_bounded acts.
Proof. intros Hn. eapply Forall_impl; [|exact Hn]. by intros []. Qed.

(** A handler other than exec.run starts no process; exec.run gives its one
    process the caller's budget or thirty seconds. *)
Lemma handler_exec_bounded W R method h o c d raw c' acts res :
  (forall t, d = Some t -> 0 < t <= maxRequestedTimeout) ->
  builtinOps W R method = Some h -> h o c d raw = (c', acts, res) -> Forall exec_bounded acts.
Proof.
  intros Hd Hm HE. unfold builtinOps in Hm.
  pose proof (openBeneath_actions_no_exec o) as Hno.
  repeat case_match; simplify_eq.
  - unfold opPing in HE. by simplify_eq.
  - unfold opExecRun in HE. repeat case_match; simplify_eq; try done;
      (apply List.Forall_cons; [|apply List.Forall_nil]); cbn; auto; unfold maxRequestedTimeout, second; lia.
  - apply no_exec_bounded. unfold opFileWrite in HE. repeat case_match; simplify_eq; try done;
      repeat (apply Forall_app; split); auto; by repeat constructor.
  - apply no_exec_bounded. unfold opFileRead in HE. repeat case_match; simplify_eq; try done;
      repeat (apply Forall_app; split); auto; by repeat constructor.
  - apply no_exec_bounded. unfold opFileMkdir in HE. repeat case_match; simplify_eq; try done;
      repeat (apply Forall_app; split); auto; by repeat constructor.
Qed.

Lemma dispatch_spec W R o c req c' acts resp :
  dispatch W R o c req = (c', acts, resp) ->
  Resp_ID resp = Req_ID req /\ Forall exec_bounded acts /\
  ((c' = c /\ acts = []) \/
   exists h d res, builtinOps W R (Req_Method req) = Some h /\ h o c d (Req_Params req) = (c', acts, res)).
Proof.
  unfold dispatch. intros HE. destruct (negb _); [simplify_eq; auto|].
  destruct (builtinOps W R (Req_Method req)) as [h|] eqn:Eh; [|simplify_eq; auto].
  set (d := if 0 <? _ then _ else _) in HE.
  destruct (h o c d (Req_Params req)) as [[c1 a1] res] eqn:Er.
  assert (Hb : Forall exec_bounded a1).
  { eapply handler_exec_bounded; [|exact Eh|exact Er]. intros t Ht. unfold d in Ht.
    destruct (0 <? _) eqn:E0; simplify_eq. apply Z.ltb_lt in E0.
    pose proof (requestedTimeout_le (Req_TimeoutMS req)). lia. }
  destruct res; simplify_eq; split_and!; try done; right; eauto.
Qed.

Definition served (W R : list pathRule) (t : turn) (resp : Response) : Prop :=
  exists req, t_decoded t = Ok req /\ Resp_ID resp = Req_ID req.

Section Connection.
Variables (ev0 : symlinks) (o : os).
Hypothesis init_ok : symlinks_ok ev0.
Hypothesis links_ok : symlinks_ok (os_symlinks o).
Let W := resolveRulePatterns ev0 allowedWriteRules.
Let R := resolveRulePatterns ev0 allowedReadRules.

Lemma builtin_safe c d method raw h c' acts res :
  cache_ok c -> builtinOps W R method = Some h -> h o c d raw = (c', acts, res) ->
  cache_ok c' /\ Forall (safe_action o W R) acts.
Proof.
  pose proof (resolved_tables_wf ev0 allowedWriteRules init_ok (or_introl eq_refl)) as HW.
  pose proof (resolved_tables_wf ev0 allowedReadRules init_ok (or_intror eq_refl)) as HR.
  intros Hc Hm HE. unfold builtinOps in Hm. repeat case_match; simplify_eq.
  - unfold opPing in HE. by simplify_eq.
  - by eapply opExecRun_safe.
  - by destruct (opFileWrite_safe o W R links_ok HW _ _ _ _ _ _ HE) as [-> ?].
  - by destruct (opFileRead_safe o W R links_ok HR _ _ _ _ _ _ HE) as [-> ?].
  - by destruct (opFileMkdir_safe o W R links_ok HW _ _ _ _ _ _ HE) as [-> ?].
Qed.

Lemma serve_turns_spec turns : forall c c' acts resps,
  cache_ok c -> serve_turns W R o c turns = (c', acts, resps) ->
  cache_ok c' /\ Forall (safe_action o W R) acts /\ Forall exec_bounded acts
  /\ Forall2 (served W R) (take (length resps) turns) resps.
Proof.
  induction turns as [|t turns IH]; intros c c' acts resps Hc HE; cbn [serve_turns] in HE.
  { by simplify_eq. }
  destruct (t_decoded t) as [req|] eqn:Et; [|by simplify_eq].
  destruct (dispatch W R o c req) as [[c1 a1] resp] eqn:Ed.
  destruct (dispatch_spec _ _ _ _ _ _ _ _ Ed) as (Hid & Hb & Hcase).
  assert (Hs : cache_ok c1 /\ Forall (safe_action o W R) a1).
  { destruct Hcase as [[-> ->]|(h & d & res & Hm & Hr)]; [done|]. by eapply builtin_safe. }
  destruct Hs as [Hc1 Hs]. destruct (t_peerGone t); [by simplify_eq|].
  destruct (t_encode t); [|by simplify_eq].
  destruct (serve_turns W R o c1 turns) as [[c2 a2] rs] eqn:Es. simplify_eq.
  destruct (IH _ _ _ _ Hc1 Es) as (? & ? & ? & ?). split_and!; [done|by apply Forall_app|by apply Forall_app|].
  cbn [length firstn]. constructor; [|done]. by exists req.
Qed.

End Connection.

(** ** The properties *)

(** One connection, start to end.  A peer that is not authorized causes
    no action and gets no reply.  For an authorized one the replies answer
    the requests one by one in the order they arrived, each carrying its
    request's id; every action is safe, every process the agent starts has a
    deadline of at most fifteen minutes, and the command cache stays
    trusted. *)
Theorem handleConn_serves ev0 o c auth turns c' acts resps
  (H0 : symlinks_ok ev0) (H1 : symlinks_ok (os_symlinks o)) (Hc : cache_ok c) :
  let W := resolveRulePatterns ev0 allowedWriteRules in
  let R := resolveRulePatterns ev0 allowedReadRules in
  handleConn W R o c auth turns = (c', acts, resps) ->
  (auth <> Ok tt -> c' = c /\ acts = [] /\ resps = [])
  /\ cache_ok c' /\ Forall (safe_action o W R) acts /\ Forall exec_bounded acts
  /\ Forall2 (served W R) (take (length resps) turns) resps.
Proof.
  intros W R. unfold handleConn. destruct auth as [[]|e].
  - intros HE. split; [done|]. by apply (serve_turns_spec ev0 o H0 H1 turns c).
  - intros HE. simplify_eq. by split_and!.
Qed.

Definition sample_turn : turn := {|
  t_decoded := Ok (mkRequest "2.0" "exec.run"
    (Some (JObj [("cmd", JStr "wg"); ("args", JArr [JStr "show"])])) (JInt 7) 2000);
  t_peerGone := false; t_encode := Ok tt |}.

Lemma handleConn_serves_witness :
  cache_ok (<["wg" := "/usr/sbin/wg"]> ∅)
  /\ Forall (safe_action sample_os (resolveRulePatterns no_links allowedWriteRules)
       (resolveRulePatterns no_links allowedReadRules)) [AExec "/usr/sbin/wg" ["show"] None [] (2 * second)]
  /\ Forall exec_bounded [AExec "/usr/sbin/wg" ["show"] None [] (2 * second)]
  /\ Forall2 (served (resolveRulePatterns no_links allowedWriteRules)
       (resolveRulePatterns no_links allowedReadRules)) (take 1 [sample_turn])
       [mkResponse (Some (ExecResult_json (mkExecResult "up" "" 0))) None (JInt 7)].
Proof.
  refine (proj2 (handleConn_serves no_links sample_os ∅ (Ok tt) [sample_turn] (<["wg" := "/usr/sbin/wg"]> ∅)
    [AExec "/usr/sbin/wg" ["show"] None [] (2 * second)]
    [mkResponse (Some (ExecResult_json (mkExecResult "up" "" 0))) None (JInt 7)]
    no_links_ok no_links_ok (map_Forall_empty _) _)).
  vm_compute. reflexivity.
Defined.

(** Who may drive the agent.  A connection is accepted exactly when the
    kernel reports the peer as root, as the account the agent runs as or as
    the service account, or when it cannot report credentials at all; and
    once the socket is restricted, its mode admits nobody but its owner,
    except that a root agent opens it to the service group it has handed it
    to. *)
Theorem agent_access cred euid lookup user gid chown chmod group :
  (authorizePeer cred euid lookup user = Ok tt <->
   cred = PeerUnsupported
   \/ exists uid, cred = PeerUID uid /\ (uid = 0 \/ uid = euid \/ lookup = Some (itoa uid)))
  /\ (forall evs, restrictSocket gid euid chown chmod group = (evs, Ok tt) ->
        (evs = [Chmod 384] /\ ~ (euid = 0 /\ exists g, gid = Ok g))
        \/ exists g, gid = Ok g /\ euid = 0 /\ evs = [Chown 0 g; Chmod 432]).
Proof.
  split.
  - destruct cred as [uid| |e]; cbn; [|naive_solver|naive_solver].
    destruct (Z.eqb_spec uid 0); [naive_solver|]. destruct (Z.eqb_spec uid euid); [naive_solver|].
    destruct lookup as [u|]; [|naive_solver].
    destruct (String.eqb_spec u (itoa uid)) as [->|]; cbn; naive_solver.
  - intros evs. unfold restrictSocket. destruct gid as [g|].
    + destruct (Z.eqb_spec euid 0); repeat case_match; intros; simplify_eq; [right; eauto|].
      left. split; [done|]. naive_solver.
    + repeat case_match; intros; simplify_eq. left. split; [done|]. naive_solver.
Qed.

(** The caller's time budget.  For every number of milliseconds whose
    value in nanoseconds fits a duration the agent grants exactly that, cut
    at fifteen minutes; no value at all makes it grant more. *)
Theorem requestedTimeout_clamped ms :
  requestedTimeout ms <= maxRequestedTimeout
  /\ (ms <= 0 -> requestedTimeout ms = 0)
  /\ (0 < ms <= maxMS -> requestedTimeout ms = Z.min (ms * 1000000) maxRequestedTimeout).
Proof.
  split_and!.
  - apply requestedTimeout_le.
  - intros Hm. unfold requestedTimeout. by rewrite (proj2 (Z.leb_le ms 0)).
  - apply requestedTimeout_exact.
Qed.

(** Above that the multiplication wraps: a request for the longest time can
    come out negative, which means no preference, or as half a
    millisecond. *)
Lemma requestedTimeout_wraps :
  requestedTimeout (maxMS + 1) < 0 /\ requestedTimeout 18446744073710 = 448384.
Proof. vm_compute. split; reflexivity. Qed.

(** ** Framing and slots *)

(** The reads that serve one frame: each returns at most what it was asked
    for, as [net.Conn.Read] does. *)
Inductive fr_reads : frameReader -> list (string * option read_err) -> frameReader -> Prop :=
| reads_nil f : fr_reads f [] f
| reads_cons f want data err f' d' e' rest f'' :
    0 <= want -> (fr_max f <= fr_read f -> data = "") ->
    (fr_read f < fr_max f -> len data <= fr_request f want) ->
    fr_Read f want data err = (f', d', e') -> fr_reads f' rest f'' ->
    fr_reads f ((d', e') :: rest) f''.

Definition chunks_len (l : list (string * option read_err)) : Z :=
  List.fold_right (fun ch acc => len (fst ch) + acc) 0 l.

Lemma len_nonneg s : 0 <= len s.
Proof. unfold len. lia. Qed.

Lemma fr_Read_spec f want data err f' d' e' :
  0 <= fr_read f <= fr_max f -> 0 <= want -> (fr_max f <= fr_read f -> data = "") ->
  (fr_read f < fr_max f -> len data <= fr_request f want) ->
  fr_Read f want data err = (f', d', e') ->
  fr_max f' = fr_max f /\ 0 <= fr_read f' <= fr_max f' /\ fr_read f' = fr_read f + len d'
  /\ fr_armed f' = fr_armed f || hasFrameByte d'
  /\ (fr_read f' = fr_max f' -> e' <> None).
Proof.
  intros Hr Hw Hz Hd HE. unfold fr_Read in HE. destruct (fr_max f <=? fr_read f) eqn:E.
  - simplify_eq. bool_hyps. rewrite orb_false_r. change (len "") with 0. split_and!; try done; lia.
  - bool_hyps. specialize (Hd E). unfold fr_request in Hd. pose proof (len_nonneg data).
    destruct (fr_max f <=? fr_read f + len data) eqn:E2; cbn [andb] in HE; bool_hyps.
    + destruct err; simplify_eq; cbn; split_and!; try done; lia.
    + simplify_eq; cbn; split_and!; try done; lia.
Qed.

(** One request cannot make the root process buffer more than its frame
    budget, and an idle connection is never timed out.  Starting from a
    finished frame, the bytes all reads together hand to the decoder never
    exceed the limit, the reader reports an error as soon as the limit is
    reached, and the deadline is armed exactly when a byte other than JSON
    whitespace has arrived. *)
Theorem frame_budget f0 chunks f'
  (Hmax : 0 <= fr_max f0) (Hrun : fr_reads (endFrame f0) chunks f') :
  chunks_len chunks <= fr_max f0
  /\ (chunks <> [] -> chunks_len chunks = fr_max f0 -> exists ch, List.last chunks ("", None) = ch /\ snd ch <> None)
  /\ fr_armed f' = existsb (fun ch => hasFrameByte (fst ch)) chunks.
Proof.
  assert (Hgen : forall f, fr_reads f chunks f' -> 0 <= fr_read f <= fr_max f ->
    fr_read f' = fr_read f + chunks_len chunks /\ fr_read f' <= fr_max f
    /\ fr_armed f' = fr_armed f || existsb (fun ch => hasFrameByte (fst ch)) chunks
    /\ (chunks <> [] -> fr_read f' = fr_max f -> snd (List.last chunks ("", None)) <> None)).
  { clear Hrun Hmax f0. intros f Hrun. induction Hrun as [f|f w d e f1 d1 e1 rest f2 Hw Hz Hd HE Hrun IH];
      intros Hr; [cbn; rewrite orb_false_r; split_and!; done || lia|].
    destruct (fr_Read_spec _ _ _ _ _ _ _ Hr Hw Hz Hd HE) as (Hm & Hr1 & Hl & Ha & Herr).
    destruct (IH Hr1) as (H1 & H2 & H3 & H4). cbn [chunks_len List.fold_right fst existsb].
    split_and!; [unfold chunks_len in *; lia|lia|rewrite H3, Ha; by rewrite orb_assoc|].
    intros _ Hfull. destruct rest as [|r rest].
    - inversion Hrun; subst. cbn. apply Herr. lia.
    - apply H4; [done|lia]. }
  destruct (Hgen _ Hrun) as (H1 & H2 & H3 & H4); [cbn; lia|]. cbn in H1, H2, H3, H4.
  split_and!; [lia| |done]. intros Hne Hfull. eexists. split; [done|]. apply H4; [done|lia].
Qed.

Lemma frame_budget_witness :
  chunks_len [("{}", Some ErrFrameTooLarge)] <= 2
  /\ ([("{}", Some ErrFrameTooLarge)] <> [] -> chunks_len [("{}", Some ErrFrameTooLarge)] = 2 ->
      exists ch, List.last [("{}", Some ErrFrameTooLarge)] ("", None) = ch /\ snd ch <> None)
  /\ fr_armed (mkFrameReader 2 2 true)
     = existsb (fun ch => hasFrameByte (fst ch)) [("{}", Some ErrFrameTooLarge)].
Proof.
  apply (frame_budget (mkFrameReader 2 2 true)); [cbn; lia|].
  eapply (reads_cons _ 512 "{}" None); [lia|cbn; lia|cbn; intros; vm_compute; congruence|reflexivity|].
  apply reads_nil.
Defined.

Lemma slot_step_inv s e s' : (fst s <= defaultMaxConns)%nat -> slot_step s e s' -> (fst s' <= defaultMaxConns)%nat.
Proof. intros Hs Hst. inversion Hst; subst; cbn in *; lia. Qed.

(** The agent never serves more than sixteen connections at once.  In
    every interleaving of accepted connections and finished handlers the
    number of open ones stays within the limit, and a connection is refused
    only when the limit is in use. *)
Theorem connections_bounded events n r (Hrun : slot_run (0%nat, 0%nat) events (n, r)) :
  (n <= defaultMaxConns)%nat
  /\ (forall n' r', slot_step (n, r) Accept (n', r') -> r' <> r -> n = defaultMaxConns).
Proof.
  assert (Hn : (n <= defaultMaxConns)%nat).
  { assert (Hgen : forall s s', slot_run s events s' -> (fst s <= defaultMaxConns)%nat ->
      (fst s' <= defaultMaxConns)%nat).
    { clear. intros s s' Hrun. induction Hrun as [|s e s1 es s2 Hst _ IH]; [done|].
      intros Hs. by apply IH, (slot_step_inv s e). }
    apply (Hgen _ _ Hrun). cbn. lia. }
  split; [done|]. intros n' r' Hst Hne. inversion Hst; subst; [done|lia].
Qed.

Lemma connections_bounded_witness :
  (1 <= defaultMaxConns)%nat
  /\ (forall n' r', slot_step (1%nat, 0%nat) Accept (n', r') -> r' <> 0%nat -> 1%nat = defaultMaxConns).
Proof.
  apply (connections_bounded [Accept; Accept; Exit]).
  eapply run_cons; [apply step_accept; unfold defaultMaxConns; lia|].
  eapply run_cons; [apply step_accept; unfold defaultMaxConns; lia|].
  eapply run_cons; [apply step_exit|]. apply run_nil.
Defined.
