(* ===== verification/AgentClient.v ===== *)
(** * internal/agent/client.go and internal/netutil/exec.go

    The unprivileged side.  [Client] keeps one connection and uses it as a
    pipe: requests go out one at a time and the next value decoded is taken
    as the reply, whatever its id.  The pipe is the list of replies not read
    yet.  The server is an interface, [Peer], that the dispatcher of
    AgentServer implements; the functions of exec.go are clients of [Call]. *)

From S2P Require Import Prelude GoStrings GoPath Encoding AgentRules AgentOps AgentServer.

Local Open Scope Z_scope.
Local Open Scope go_scope.

(** ** The interface between client and server *)

(** What the client relies on: the reply to a request carries its id. *)
Class Peer : Type := {
  answer : Request -> Response;
  answer_id : forall req, Resp_ID (answer req) = Req_ID req;
}.

Section DispatchPeer.
Variables (W R : list pathRule) (o : os) (c : cache).

Lemma dispatch_id req : Resp_ID (snd (dispatch W R o c req)) = Req_ID req.
Proof.
  destruct (dispatch W R o c req) as [[c' acts] resp] eqn:E.
  cbn [snd]. by destruct (dispatch_spec _ _ _ _ _ _ _ _ E) as [-> _].
Qed.

#[export] Instance dispatch_peer : Peer := {|
  answer := fun req => snd (dispatch W R o c req);
  answer_id := dispatch_id;
|}.

End DispatchPeer.

(** ** The client *)

Record client : Type := mkClient { cl_conn : option (list Response); cl_nextID : Z }.

(** What the surroundings of one [Call] do: the context's error before and
    after waiting for the lock, dialling, marshalling the parameters, the
    context's deadline as the time left, sending, receiving, and the context's
    error when a failed call looks at it. *)
Record call_env : Type := {
  ce_ctx1 : option error;
  ce_ctx2 : option error;
  ce_dial : result unit;
  ce_params : result (option json);
  ce_remaining : option Z;
  ce_send : result unit;
  ce_recv : result unit;
  ce_ctx3 : option error;
}.

Definition ensureConn (dial : result unit) (st : client) : client * result unit :=
  match cl_conn st with
  | Some _ => (st, Ok tt)
  | None => match dial with
            | Err e => (st, Err (Errorw "dial agent: %w" [] e))
            | Ok _ => (mkClient (Some []) (cl_nextID st), Ok tt)
            end
  end.

Definition close (st : client) : client := mkClient None (cl_nextID st).

(** [newRequest] and the id it draws. *)
Definition newRequest (method : string) (params : result (option json)) (st : client)
  : client * result Request :=
  match params with
  | Err e => (st, Err (Errorw "marshal params: %w" [] e))
  | Ok p => let id := cl_nextID st + 1 in
            (mkClient (cl_conn st) id, Ok (mkRequest "2.0" method p (JInt id) 0))
  end.

(** [applyDeadline]: the budget it records on the request.  [Milliseconds]
    truncates. *)
Definition applyDeadline (remaining : option Z) (req : Request) : Request :=
  match remaining with
  | Some r => if 0 <? r
              then mkRequest (Req_JSONRPC req) (Req_Method req) (Req_Params req) (Req_ID req) (Z.quot r 1000000)
              else req
  | None => req
  end.

Definition failCall (ctxErr : option error) (op : string) (e : error) (st : client) : client * error :=
  (close st, match ctxErr with Some ce => ce | None => Errorw (op +:+ ": %w") [] e end).

Section Client.
Context `{Peer}.

(** [roundTrip]: the server's answer joins the pipe, and the oldest unread
    reply is what the decoder returns. *)
Definition roundTrip (env : call_env) (req : Request) (st : client) : client * result Response :=
  match ce_send env with
  | Err e => let '(st', err) := failCall (ce_ctx3 env) "send request" e st in (st', Err err)
  | Ok _ =>
      let pipe := default [] (cl_conn st) ++ [answer req] in
      match ce_recv env, pipe with
      | Ok _, resp :: rest => (mkClient (Some rest) (cl_nextID st), Ok resp)
      | Ok _, [] => let '(st', err) := failCall (ce_ctx3 env) "read response" (Errorf "EOF" []) st in (st', Err err)
      | Err e, _ => let '(st', err) := failCall (ce_ctx3 env) "read response" e st in (st', Err err)
      end
  end.

Definition Call (env : call_env) (method : string) (st : client) : client * result json :=
  match ce_ctx1 env with
  | Some e => (st, Err e)
  | None =>
  match ce_ctx2 env with
  | Some e => (st, Err e)
  | None =>
  let '(st1, conn) := ensureConn (ce_dial env) st in
  match conn with
  | Err e => (st1, Err e)
  | Ok _ =>
  let '(st2, req) := newRequest method (ce_params env) st1 in
  match req with
  | Err e => (st2, Err e)
  | Ok req =>
  let '(st3, resp) := roundTrip env (applyDeadline (ce_remaining env) req) st2 in
  match resp with
  | Err e => (st3, Err e)
  | Ok resp =>
      match Resp_Error resp with
      | Some e => (st3, Err (Errorw "rpc error %d: %s" [itoa (Code e)] (Message e)))
      | None => (st3, Ok (default JNull (Resp_Result resp)))
      end
  end end end end end.

(** A sequence of calls, with the id each one drew when it sent a request. *)
Fixpoint Calls (st : client) (cs : list (call_env * string)) : client * list (result json) :=
  match cs with
  | [] => (st, [])
  | (env, method) :: rest =>
      let '(st1, r) := Call env method st in
      let '(st2, rs) := Calls st1 rest in
      (st2, r :: rs)
  end.

(** Between calls no reply is waiting in the pipe. *)
Definition drained (st : client) : Prop := cl_conn st = None \/ cl_conn st = Some [].

(** The reply of a call is the answer to the request of that very call. *)
Definition own_reply (id : Z) (env : call_env) (method : string) (r : result json) : Prop :=
  forall v, r = Ok v -> exists p req,
    ce_params env = Ok p /\ req = applyDeadline (ce_remaining env) (mkRequest "2.0" method p (JInt id) 0)
    /\ Resp_Error (answer req) = None /\ v = default JNull (Resp_Result (answer req)).

Lemma Call_spec env method st st' r :
  drained st -> Call env method st = (st', r) ->
  drained st' /\ cl_nextID st <= cl_nextID st' <= cl_nextID st + 1
  /\ own_reply (cl_nextID st + 1) env method r.
Proof.
  unfold Call, own_reply. intros Hd HE.
  destruct (ce_ctx1 env); [simplify_eq; split_and!; done || lia|].
  destruct (ce_ctx2 env); [simplify_eq; split_and!; done || lia|].
  assert (Hconn : forall st1 res, ensureConn (ce_dial env) st = (st1, res) ->
    drained st1 /\ cl_nextID st1 = cl_nextID st /\ (res = Ok tt -> cl_conn st1 = Some [])).
  { unfold ensureConn. intros st1 res Hen.
    destruct (cl_conn st) eqn:Ec; [|destruct (ce_dial env)]; simplify_eq; split_and!; try done.
    - intros _. destruct Hd; congruence.
    - by right. }
  destruct (ensureConn (ce_dial env) st) as [st1 conn] eqn:Een.
  destruct (Hconn _ _ eq_refl) as (Hd1 & Hid1 & Hc1). clear Hconn Een.
  destruct conn as [[]|]; [|simplify_eq; split_and!; done || lia].
  specialize (Hc1 eq_refl). unfold newRequest in HE.
  destruct (ce_params env) as [p|] eqn:Ep; [|simplify_eq; split_and!; done || lia].
  unfold roundTrip, failCall, close in HE. cbn [cl_conn cl_nextID] in HE. rewrite Hc1, Hid1 in HE.
  cbn [default from_option id app] in HE.
  destruct (ce_send env); [|simplify_eq; split_and!; cbn; try done; try lia; by left].
  destruct (ce_recv env); [|simplify_eq; split_and!; cbn; try done; try lia; by left].
  destruct (Resp_Error (answer _)) eqn:Ee; simplify_eq; cbn; (split; [by right|]); (split; [lia|]); [done|].
  intros v [= <-]. by exists p, (applyDeadline (ce_remaining env) (mkRequest "2.0" method p (JInt (cl_nextID st + 1)) 0)).
Qed.

End Client.

(** ** netutil/exec.go *)

(** [AgentError] marks a failure that came back from the agent. *)
Definition AgentError (op target : string) (e : error) : error := Errorw "agent %s %s: %v" [op; target] e.

(** The parameter structs as the client marshals them. *)
Definition execParams_json (cmd : string) (args : list string) (stdin : string) : json :=
  JObj ([("cmd", marshal_string cmd); ("args", JArr (List.map marshal_string args))]
        ++ if String.eqb stdin "" then [] else [("stdin", marshal_string stdin)]).

Definition fileWriteParams_json (path content : string) (mode : Z) : json :=
  let params := if utf8_valid content then (content, None) else ("", Some content) in
  JObj ([("path", marshal_string path); ("content", marshal_string (fst params))]
        ++ omitempty_bytes "contentBytes" (snd params)
        ++ [("mode", JInt mode); ("mkdirp", JBool true)]).

Definition mkdirParams_json (path : string) (mode : Z) : json :=
  JObj [("path", marshal_string path); ("mode", JInt mode)].

Definition readParams_json (path : string) : json := JObj [("path", marshal_string path)].

Definition ExecResult_fields : list (string * (json -> ExecResult -> option ExecResult)) :=
  [("stdout", dec_string (fun v r => mkExecResult v (Stderr r) (ExitCode r)));
   ("stderr", dec_string (fun v r => mkExecResult (Stdout r) v (ExitCode r)));
   ("exitCode", dec_int (fun v r => mkExecResult (Stdout r) (Stderr r) v))].

Definition FileContent_fields : list (string * (json -> FileContent -> option FileContent)) :=
  [("content", dec_string (fun v c => mkFileContent v (ContentBytes c)));
   ("contentBytes", dec_bytes (fun v c => mkFileContent (Content c) v))].

Section Netutil.
(** [agentClient], and the local file system and process runner used without
    one. *)
Variable agentClient : option (string -> json -> result json).
Variable local_run : string -> list string -> option string -> result ExecResult.
Variable local_mkdirAll : string -> Z -> result unit.
Variable local_write : string -> string -> Z -> result unit.
Variable local_read : string -> result string.

Definition runViaAgentFull (call : string -> json -> result json) (stdin name : string) (args : list string)
  : result ExecResult :=
  match call "exec.run" (execParams_json name args stdin) with
  | Err e => Err (AgentError "exec.run" name e)
  | Ok raw => match unmarshal_struct ExecResult_fields (mkExecResult "" "" 0) raw with
              | Some r => Ok r
              | None => Err (Errorf "decode exec result: %w" [])
              end
  end.

Definition Run (name : string) (args : list string) : result ExecResult :=
  match agentClient with
  | Some call => runViaAgentFull call "" name args
  | None => local_run name args None
  end.

Definition RunSimple (name : string) (args : list string) : result string :=
  let? r := Run name args in Ok (Stdout r).

Definition RunWithStdin (stdin name : string) (args : list string) : result string :=
  match agentClient with
  | Some call => let? r := runViaAgentFull call stdin name args in Ok (Stdout r)
  | None => let? r := local_run name args (Some stdin) in Ok (Stdout r)
  end.

Definition WriteFile (path content : string) (mode : Z) : result unit :=
  match agentClient with
  | Some call =>
      match call "file.write" (fileWriteParams_json path content mode) with
      | Err e => Err (AgentError "file.write" path e)
      | Ok _ => Ok tt
      end
  | None =>
      guard! wrap_err "mkdir parent: %w" [] (local_mkdirAll (Dir path) 493) ;;
      local_write path content mode
  end.

Definition MkdirAll (path : string) (mode : Z) : result unit :=
  match agentClient with
  | Some call =>
      match call "file.mkdir" (mkdirParams_json path mode) with
      | Err e => Err (AgentError "file.mkdir" path e)
      | Ok _ => Ok tt
      end
  | None => local_mkdirAll path mode
  end.

Definition ReadFile (path : string) : result string :=
  match agentClient with
  | Some call =>
      match call "file.read" (readParams_json path) with
      | Err e => Err (AgentError "file.read" path e)
      | Ok raw => match unmarshal_struct FileContent_fields (mkFileContent "" None) raw with
                  | Some c => Ok (Bytes c)
                  | None => Err (Errorf "decode file.read: %w" [])
                  end
      end
  | None => local_read path
  end.

End Netutil.

(** ** Lemmas: values survive the wire *)

Lemma invalid_nonempty s : utf8_valid s = false -> s <> "".
Proof. by intros H ->. Qed.

Lemma write_params_roundtrip path content mode :
  utf8_valid path = true -> in_int64 mode = true ->
  exists p, unmarshal_params FileWriteParams_fields (mkFileWriteParams "" "" None 0 false)
              (Some (fileWriteParams_json path content mode)) = Ok p
    /\ FW_Path p = path /\ FW_Mode p = mode
    /\ Bytes (mkFileContent (FW_Content p) (FW_ContentBytes p)) = content.
Proof.
  intros Hp Hm. unfold fileWriteParams_json, unmarshal_params.
  destruct (utf8_valid content) eqn:Hc; cbn [fst snd omitempty_bytes app option_bind].
  - cbn -[to_valid_utf8 b64_encode b64_decode in_int64]. rewrite Hm. cbn -[to_valid_utf8 b64_encode b64_decode in_int64]. rewrite !to_valid_utf8_id by done. eexists. split; [done|]. done.
  - rewrite (proj2 (String.eqb_neq _ _) (invalid_nonempty _ Hc)). cbn -[to_valid_utf8 b64_encode b64_decode in_int64].
    rewrite b64_roundtrip. cbn -[to_valid_utf8 b64_encode b64_decode in_int64]. rewrite Hm. cbn -[to_valid_utf8 b64_encode b64_decode in_int64]. rewrite !to_valid_utf8_id by done.
    eexists. split; [done|]. done.
Qed.

Lemma read_params_roundtrip path : utf8_valid path = true ->
  unmarshal_params FileReadParams_fields "" (Some (readParams_json path)) = Ok path.
Proof. intros Hp. cbn -[to_valid_utf8 b64_encode b64_decode in_int64]. by rewrite to_valid_utf8_id. Qed.

Lemma FileContent_roundtrip data :
  Bytes <$> unmarshal_struct FileContent_fields (mkFileContent "" None) (FileContent_json (NewFileContent data))
  = Some data.
Proof.
  unfold NewFileContent. destruct (utf8_valid data) eqn:Hd.
  - cbn -[to_valid_utf8 b64_encode b64_decode in_int64]. by rewrite to_valid_utf8_id.
  - unfold FileContent_json. cbn [Content ContentBytes omitempty_bytes].
    rewrite (proj2 (String.eqb_neq _ _) (invalid_nonempty _ Hd)). cbn -[to_valid_utf8 b64_encode b64_decode in_int64]. by rewrite b64_roundtrip.
Qed.

Lemma fileMode_id mode d : 0 < mode < 2 ^ 32 -> fileMode mode d = mode.
Proof.
  intros Hm. unfold fileMode, uint32. rewrite Z.mod_small by lia.
  by rewrite (proj2 (Z.eqb_neq mode 0)) by lia.
Qed.

Section EndToEnd.
Variables (W R : list pathRule) (o : os) (c : cache).

(** A call that reaches the agent and whose reply comes back. *)
Definition agent_call (method : string) (params : json) : result json :=
  let '(_, _, resp) := dispatch W R o c (mkRequest "2.0" method (Some params) (JInt 1) 0) in
  match Resp_Error resp with
  | Some e => Err (Errorw "rpc error %d: %s" [itoa (Code e)] (Message e))
  | None => Ok (default JNull (Resp_Result resp))
  end.

Definition agent_actions (method : string) (params : json) : list action :=
  snd (fst (dispatch W R o c (mkRequest "2.0" method (Some params) (JInt 1) 0))).

Lemma write_end_to_end lm lw path content mode :
  utf8_valid path = true -> 0 < mode < 2 ^ 32 ->
  WriteFile (Some agent_call) lm lw path content mode = Ok tt ->
  exists b rel, openBeneath (os_symlinks o) (os_mkdirBase o) (os_openRoot o) path W
                  "write not allowed to path" = Ok (b, rel)
    /\ os_write o b rel content mode = Ok tt
    /\ In (AWrite b rel content mode) (agent_actions "file.write" (fileWriteParams_json path content mode)).
Proof.
  intros Hp Hm. unfold WriteFile, agent_call, agent_actions.
  destruct (write_params_roundtrip path content mode) as (p & Hu & Hpath & Hmode & Hbody); [done| |].
  { unfold in_int64, int64_min, int64_max. apply andb_true_intro. rewrite !Z.leb_le. lia. }
  remember (fileWriteParams_json path content mode) as j eqn:Hj. clear Hj.
  unfold dispatch. cbn [Req_JSONRPC Req_Method Req_Params Req_TimeoutMS negb String.eqb Ascii.eqb Bool.eqb].
  change (builtinOps W R "file.write") with (Some (opFileWrite W)). cbv beta iota zeta.
  unfold opFileWrite. rewrite Hu, Hpath, Hmode, fileMode_id, Hbody by done.
  destruct (result_bind (validateFileMode mode) _) as [[]|]; [|discriminate].
  destruct (openBeneath _ _ _ _ _ _) as [[b rel]|]; [|discriminate].
  destruct (if _ && _ then os_mkdirAll o b (Dir rel) 493 else Ok tt) as [u|]; [|discriminate].
  destruct (os_write o b rel content mode) as [[]|] eqn:Ew; [|discriminate].
  intros _. exists b, rel. split_and!; [done|done|]. cbn [fst snd].
  rewrite !in_app_iff. right. right. by left.
Qed.

Lemma read_end_to_end lr path b rel data :
  utf8_valid path = true ->
  openBeneath (os_symlinks o) (os_mkdirBase o) (os_openRoot o) path R "read not allowed for path" = Ok (b, rel) ->
  os_read o b rel = Ok data ->
  ReadFile (Some agent_call) lr path = Ok data.
Proof.
  intros Hp Ho Hr. unfold ReadFile, agent_call. pose proof (read_params_roundtrip path Hp) as Hu.
  remember (readParams_json path) as j eqn:Hj. clear Hj.
  unfold dispatch. cbn [Req_JSONRPC Req_Method Req_Params Req_TimeoutMS negb String.eqb Ascii.eqb Bool.eqb].
  change (builtinOps W R "file.read") with (Some (opFileRead R)). cbv beta iota zeta.
  unfold opFileRead. rewrite Hu, Ho, Hr. cbn [Resp_Error Resp_Result default from_option id].
  pose proof (FileContent_roundtrip data) as Hf.
  change (default JNull (Some ?x)) with x.
  destruct (unmarshal_struct _ _ _) as [fc|]; [|discriminate]. cbn in Hf. by simplify_eq.
Qed.

End EndToEnd.

(** ** The properties *)

(** C11: Every successful call gets the reply to its own request.  However the
    calls before it ended, by a reply, a refusal, an I/O failure or a
    cancelled context, a call that returns a value returns the result the
    agent computed for that call's request: a failed call drops the
    connection, so no stale reply is left in the pipe. *)
Theorem Calls_own_reply `{Peer} cs st st' rs
  (Hd : drained st) (Hrun : Calls st cs = (st', rs)) :
  drained st' /\ cl_nextID st <= cl_nextID st' /\
  Forall2 (fun c r => exists id, own_reply id (fst c) (snd c) r) cs rs.
Proof.
  revert st st' rs Hd Hrun. induction cs as [|[env method] cs IH]; intros st st' rs Hd Hrun.
  { cbn in Hrun. simplify_eq. split_and!; [done|lia|constructor]. }
  cbn [Calls] in Hrun. destruct (Call env method st) as [st1 r] eqn:Ec.
  destruct (Calls st1 cs) as [st2 rs'] eqn:Es. simplify_eq.
  destruct (Call_spec env method st st1 r Hd Ec) as (Hd1 & Hid & Hown).
  destruct (IH _ _ _ Hd1 Es) as (Hd2 & Hid2 & HF).
  split_and!; [done|lia|]. constructor; [|done]. by eexists.
Qed.

Definition sample_env (recv : result unit) : call_env := {|
  ce_ctx1 := None; ce_ctx2 := None; ce_dial := Ok tt; ce_params := Ok None; ce_remaining := Some 5000000;
  ce_send := Ok tt; ce_recv := recv; ce_ctx3 := None |}.

Lemma Calls_own_reply_witness :
  exists st rs, @Calls (dispatch_peer [] [] sample_os ∅) (mkClient None 0)
      [(sample_env (Err (Errorf "timeout" [])), "ping"); (sample_env (Ok tt), "ping")] = (st, rs)
    /\ rs = [Err (Errorw "read response: %w" [] (Errorf "timeout" [])); Ok (status_json "pong")]
    /\ drained st.
Proof.
  eexists _, _. split; [vm_compute; reflexivity|]. split; [reflexivity|].
  apply (@Calls_own_reply (dispatch_peer [] [] sample_os ∅)
    [(sample_env (Err (Errorf "timeout" [])), "ping"); (sample_env (Ok tt), "ping")] (mkClient None 0)
    _ [Err (Errorw "read response: %w" [] (Errorf "timeout" [])); Ok (status_json "pong")]).
  - by left.
  - vm_compute. reflexivity.
Defined.

(** File contents cross the boundary byte for byte, text or not.  When
    [WriteFile] reports success through the agent, the agent wrote exactly
    the caller's bytes with the caller's mode under the rule that admits the
    path; and [ReadFile] returns exactly the bytes the agent read. *)
Theorem file_bytes_unaltered W R o c lm lw lr path content mode
  (Hp : utf8_valid path = true) (Hm : 0 < mode < 2 ^ 32) :
  (WriteFile (Some (agent_call W R o c)) lm lw path content mode = Ok tt ->
   exists b rel, openBeneath (os_symlinks o) (os_mkdirBase o) (os_openRoot o) path W
                   "write not allowed to path" = Ok (b, rel)
     /\ os_write o b rel content mode = Ok tt
     /\ In (AWrite b rel content mode)
          (agent_actions W R o c "file.write" (fileWriteParams_json path content mode)))
  /\ (forall b rel data,
        openBeneath (os_symlinks o) (os_mkdirBase o) (os_openRoot o) path R
          "read not allowed for path" = Ok (b, rel) ->
        os_read o b rel = Ok data ->
        ReadFile (Some (agent_call W R o c)) lr path = Ok data).
Proof.
  split.
  - by apply write_end_to_end.
  - intros b rel data. by apply read_end_to_end.
Qed.

Lemma file_bytes_unaltered_witness :
  exists b rel, openBeneath no_links io_ok io_ok "/var/log/latin1" allowedWriteRules
                  "write not allowed to path" = Ok (b, rel)
    /\ os_write sample_os b rel (char_str "233") 416 = Ok tt
    /\ In (AWrite b rel (char_str "233") 416)
         (agent_actions allowedWriteRules allowedReadRules sample_os ∅ "file.write"
            (fileWriteParams_json "/var/log/latin1" (char_str "233") 416)).
Proof.
  apply (proj1 (file_bytes_unaltered allowedWriteRules allowedReadRules sample_os ∅
    (fun _ _ => Ok tt) (fun _ _ _ => Ok tt) (fun _ => Ok "") "/var/log/latin1" (char_str "233") 416
    eq_refl (conj eq_refl eq_refl))).
  vm_compute. reflexivity.
Defined.
