(* ===== verification/FirewallRender.v ===== *)
(** * internal/services/firewall.go: rendering

    From the configuration to the lines of the nftables file.  The values of
    custom rules and open ports are interpolated into a file that nft parses
    as a whole, so the theorems are about the shape of every rendered line.
    The text/template engine is a parameter of FirewallService. *)

From S2P Require Import Prelude GoStrings Regex GoNet Validate ConfigTypes.

Local Open Scope Z_scope.
Local Open Scope go_scope.

(** ** Open ports *)

Definition rateUnits : list string := ["second"; "minute"; "hour"; "day"; "week"].

(** [^[1-9][0-9]{0,5}/(second|minute|hour|day|week)$] *)
Definition openPortRateLimitPattern : regex :=
  RSeq (RCls (in_range 49 57)) (RSeq (rupto 5 (RCls is_digit)) (RSeq (rchar "/") (ralts (List.map rlit rateUnits)))).

Definition ErrInvalidRateLimit : error :=
  Errorf "rate limit must look like 3/minute (second, minute, hour, day or week)" [].

Definition ValidateOpenPortRateLimit (s : string) : result unit :=
  if String.eqb (TrimSpace s) "" then Ok tt
  else fail_if (negb (matchb openPortRateLimitPattern s)) ErrInvalidRateLimit.

Definition openPortProtocols (protocol : string) : result (list string) :=
  if String.eqb protocol "tcp" || String.eqb protocol "udp" then Ok [protocol]
  else if String.eqb protocol "both" then Ok ["tcp"; "udp"]
  else Err (Errorf "unsupported protocol %q" [protocol]).

Definition addressFamilyMatcher (s : string) : string :=
  let addr := match cut_byte "/" s with Some (h, _) => h | None => s end in
  match ParseIP addr with
  | Some ip => match To4 ip with None => "ip6" | Some _ => "ip" end
  | None => "ip"
  end.

Definition validateAddressOrCIDR (s : string) : result unit :=
  if is_ok (ValidateCIDR s) then Ok tt
  else if is_ok (ValidateIP s) then Ok tt
  else Err (Errorf "invalid address %q" [s]).

Definition openPortSourcePrefix (source : string) : result string :=
  let src := TrimSpace source in
  if String.eqb src "" then Ok ""
  else guard! wrap_err "source: %w" [] (validateAddressOrCIDR src) ;;
       Ok (addressFamilyMatcher src +:+ " saddr " +:+ src +:+ " ").

Definition openPortComment (name : string) : result string :=
  let name := TrimSpace name in
  if String.eqb name "" then Ok ""
  else guard! ValidateRuleName name ;; Ok (" # " +:+ name).

Definition openPortLimit (rateLimit : string) : result string :=
  let rate := TrimSpace rateLimit in
  if String.eqb rate "" then Ok ""
  else guard! wrap_err "rate limit: %w" [] (ValidateOpenPortRateLimit rate) ;;
       Ok ("limit rate " +:+ rate +:+ " ").

Definition indent : string := "        ".

Definition renderOpenPortRules (op : OpenPort) : result (list string) :=
  guard! ValidatePort (OpenPort_Port op) ;;
  let? protocols := openPortProtocols (OpenPort_Protocol op) in
  let? prefix := openPortSourcePrefix (OpenPort_Source op) in
  let? comment := openPortComment (OpenPort_Name op) in
  let? limit := openPortLimit (OpenPort_RateLimit op) in
  Ok (List.map (fun proto =>
        indent +:+ prefix +:+ proto +:+ " dport " +:+ itoa (OpenPort_Port op) +:+ " ct state new "
        +:+ limit +:+ "accept" +:+ comment) protocols).

(** [buildOpenPortRules]: an entry that does not validate is skipped. *)
Definition buildOpenPortRules (cfg : Config) : list string :=
  List.flat_map (fun op =>
    if OpenPort_Enabled op
    then match renderOpenPortRules op with Ok lines => lines | Err _ => [] end
    else []) (FirewallConfig_OpenPorts (Config_Firewall cfg)).

(** ** Custom rules *)

(** [fmt.Sprintf("%q", s)] of a string that needs no escape. *)
Definition quote (s : string) : string := char_str dquote +:+ s +:+ char_str dquote.

Definition interfaceCondition (r : FirewallRule) : result string :=
  if String.eqb (FirewallRule_Interface r) "" then Ok ""
  else guard! ValidateInterfaceName (FirewallRule_Interface r) ;;
       if String.eqb (FirewallRule_Direction r) "in"
       then Ok ("iifname " +:+ quote (FirewallRule_Interface r))
       else Ok ("oifname " +:+ quote (FirewallRule_Interface r)).

Definition addressCondition (label selector addr : string) : result string :=
  if String.eqb addr "" then Ok ""
  else guard! wrap_err "%s: %w" [label] (validateAddressOrCIDR addr) ;;
       Ok (addressFamilyMatcher addr +:+ " " +:+ selector +:+ " " +:+ addr).

Definition ruleProtocols : list string := ["tcp"; "udp"; "icmp"].

Definition protocolCondition (r : FirewallRule) : result string :=
  let p := FirewallRule_Protocol r in
  if String.eqb p "" then Ok ""
  else if negb (String.eqb p "tcp") && negb (String.eqb p "udp") && negb (String.eqb p "icmp")
  then Err (Errorf "unsupported protocol %q" [p])
  else if FirewallRule_Port r <=? 0 then Ok ("meta l4proto " +:+ p)
  else guard! ValidatePort (FirewallRule_Port r) ;;
       Ok (p +:+ " dport " +:+ itoa (FirewallRule_Port r)).

Definition nonempty (s : string) : bool := negb (String.eqb s "").

Definition customRuleConditions (r : FirewallRule) : result (list string) :=
  let? iface := interfaceCondition r in
  let? src := addressCondition "source" "saddr" (FirewallRule_SrcIP r) in
  let? dst := addressCondition "destination" "daddr" (FirewallRule_DstIP r) in
  let? proto := protocolCondition r in
  Ok (List.filter nonempty [iface; src; dst; proto]).

Definition renderCustomRule (r : FirewallRule) : result string :=
  guard! ValidateRuleName (FirewallRule_Name r) ;;
  let? conditions := customRuleConditions r in
  let action := if String.eqb (FirewallRule_Action r) "" then "accept" else FirewallRule_Action r in
  if negb (String.eqb action "accept") && negb (String.eqb action "drop") && negb (String.eqb action "reject")
  then Err (Errorf "unsupported action %q" [action])
  else match conditions with
  | [] => Ok ""
  | _ =>
      let line := indent +:+ join " " conditions +:+ " " +:+ action in
      Ok (if String.eqb (FirewallRule_Name r) "" then line else line +:+ " # " +:+ FirewallRule_Name r)
  end.

Record customRules : Type := mkCustomRules { Input : list string; Forward : list string; Output : list string }.

(** One turn of the loop of [buildCustomRules]. *)
Definition addCustomRule (out : customRules) (r : FirewallRule) : customRules :=
  if negb (FirewallRule_Enabled r) then out
  else match renderCustomRule r with
  | Err _ => out
  | Ok line =>
      if String.eqb line "" then out
      else if String.eqb (FirewallRule_Chain r) "forward"
      then mkCustomRules (Input out) (Forward out ++ [line]) (Output out)
      else if String.eqb (FirewallRule_Chain r) "output"
      then mkCustomRules (Input out) (Forward out) (Output out ++ [line])
      else mkCustomRules (Input out ++ [line]) (Forward out) (Output out)
  end.

Definition buildCustomRules (cfg : Config) : customRules :=
  foldl addCustomRule (mkCustomRules [] [] []) (FirewallConfig_Rules (Config_Firewall cfg)).

(** ** Template data *)

Record nftTemplateData : Type := mkTemplateData {
  LANInterfaces : list string;
  WANInterfaces : list string;
  IPv6WANInterfaces : list string;
  LANDevice : string;
  WANDevice : string;
  IsolatedVLANs : list string;
  PortForwards : list PortForward;
  CustomInputRules : list string;
  CustomForwardRules : list string;
  CustomOutputRules : list string;
  OpenPortRules : list string;
  WebPort : Z;
  IPv6Enabled : bool;
  SixInFourEnabled : bool;
  SixInFourServer : string;
  USBNATEnabled : bool;
  USBInterface : string;
  TTLFixEnabled : bool;
  TTLFixValue : Z;
  WGServerEnabled : bool;
  WGServerIface : string;
  WGClientIfaces : list string;
  OVPNServerEnabled : bool;
  OVPNServerIface : string;
}.

(** [deviceByID] of dhcp.go. *)
Definition deviceByID (ifaces : list InterfaceConfig) (id : string) : string :=
  match List.find (fun i => String.eqb (InterfaceConfig_ID i) id) ifaces with
  | Some i => InterfaceConfig_Device i
  | None => ""
  end.

Definition wanIPDevice (iface : InterfaceConfig) : string :=
  if String.eqb (InterfaceConfig_Type iface) "pppoe" then "ppp0" else InterfaceConfig_Device iface.

Definition firstDevice (ifaces : list string) : string := default "" (List.find nonempty ifaces).

Definition role_is (role : string) (i : InterfaceConfig) : bool := String.eqb (InterfaceConfig_Role i) role.

(** The loop of [addInterfaces]: the WAN and the LAN list. *)
Definition wanInterfaces (cfg : Config) : list string :=
  List.map wanIPDevice (List.filter (role_is "wan") (Config_Interfaces cfg)).
Definition lanInterfaces (cfg : Config) : list string :=
  List.map InterfaceConfig_Device (List.filter (role_is "lan") (Config_Interfaces cfg)).

Definition isolatedVLANs (cfg : Config) : list string :=
  List.flat_map (fun v =>
    if VLANConfig_Isolated v then
      let parentDev := deviceByID (Config_Interfaces cfg) (VLANConfig_Parent v) in
      if nonempty parentDev then [parentDev +:+ "." +:+ itoa (VLANConfig_VID v)] else []
    else []) (Config_VLANs cfg).

(** [addSixInFour]: the IPv6-only WANs and the tunnel server. *)
Definition sixInFour (cfg : Config) : list string * option string :=
  let v6 := Config_IPv6 cfg in
  if negb (String.eqb (IPv6Config_Mode v6) "6in4") || String.eqb (IPv6Config_Enabled v6) "off"
  then ([], None)
  else
    let dev := TrimSpace (IPv6TunnelConfig_Device (IPv6Config_Tunnel v6)) in
    let dev := if String.eqb dev "" then "lkt6in4" else dev in
    let srv := TrimSpace (IPv6TunnelConfig_ServerIPv4 (IPv6Config_Tunnel v6)) in
    ([dev], if String.eqb srv "" then None else Some srv).

Fixpoint wgClients (i : Z) (clients : list WGClientTunnel) : list string :=
  match clients with
  | [] => []
  | _ :: rest => ("wg" +:+ itoa i) :: wgClients (i + 1) rest
  end.

Definition orDefault (s d : string) : string := if String.eqb s "" then d else s.

Definition buildTemplateData (cfg : Config) : nftTemplateData :=
  let fw := Config_Firewall cfg in
  let custom := buildCustomRules cfg in
  let tunnel := sixInFour cfg in
  let usb := Config_USBTether cfg in
  let nat := USBTetherConfig_Enabled usb && USBTetherConfig_NAT usb in
  let wg := WGServerConfig_Enabled (VPNConfig_Server (Config_VPN cfg)) in
  let ovpn := OpenVPNConfig_Server (Config_OpenVPN cfg) in
  let ttl := TTLFixConfig_Value (FirewallConfig_TTLFix fw) in
  {| LANInterfaces := lanInterfaces cfg;
     WANInterfaces := wanInterfaces cfg;
     IPv6WANInterfaces := fst tunnel;
     LANDevice := firstDevice (lanInterfaces cfg);
     WANDevice := firstDevice (wanInterfaces cfg);
     IsolatedVLANs := isolatedVLANs cfg;
     PortForwards := FirewallConfig_PortForwards fw;
     CustomInputRules := Input custom;
     CustomForwardRules := Forward custom;
     CustomOutputRules := Output custom;
     OpenPortRules := buildOpenPortRules cfg;
     WebPort := SystemConfig_WebPort (Config_System cfg);
     IPv6Enabled := negb (String.eqb (IPv6Config_Enabled (Config_IPv6 cfg)) "off");
     SixInFourEnabled := match snd tunnel with Some _ => true | None => false end;
     SixInFourServer := default "" (snd tunnel);
     USBNATEnabled := nat;
     USBInterface := if nat then orDefault (USBTetherConfig_Interface usb) "usb0" else "";
     TTLFixEnabled := TTLFixConfig_Enabled (FirewallConfig_TTLFix fw);
     TTLFixValue := if ttl =? 0 then 64 else ttl;
     WGServerEnabled := wg;
     WGServerIface := if wg then "wgs0" else "";
     WGClientIfaces := wgClients 0 (VPNConfig_Clients (Config_VPN cfg));
     OVPNServerEnabled := OVPNServerConfig_Enabled ovpn;
     OVPNServerIface := if OVPNServerConfig_Enabled ovpn
                        then orDefault (OVPNServerConfig_Device ovpn) "tun0" else "" |}.

(** ** The language of rendered lines *)

(** The match expressions a rendered rule may contain.  Every free position
    is filled by a value from a closed alphabet. *)
Inductive nft_match : string -> Prop :=
| match_iface side name :
    In side ["iifname "; "oifname "] -> ValidateInterfaceName name = Ok tt -> nft_match (side +:+ quote name)
| match_addr fam sel addr :
    In fam ["ip"; "ip6"] -> In sel ["saddr"; "daddr"] -> addr <> "" -> validateAddressOrCIDR addr = Ok tt ->
    nft_match (fam +:+ " " +:+ sel +:+ " " +:+ addr)
| match_l4 p : In p ruleProtocols -> nft_match ("meta l4proto " +:+ p)
| match_port p n : In p ruleProtocols -> 1 <= n <= 65535 -> nft_match (p +:+ " dport " +:+ itoa n).

(** A trailing comment, or nothing. *)
Definition nft_comment (s : string) : Prop :=
  s = "" \/ exists name, s = " # " +:+ name /\ name <> "" /\ all_chars inert_char name = true.

(** A custom rule's line: at least one match, a verdict, a comment. *)
Definition custom_line (line : string) : Prop :=
  exists conds action comment,
    line = indent +:+ join " " conds +:+ " " +:+ action +:+ comment
    /\ conds <> [] /\ Forall nft_match conds /\ In action ["accept"; "drop"; "reject"] /\ nft_comment comment.

(** An open port's line accepts new connections to one port. *)
Definition open_port_line (line : string) : Prop :=
  exists src proto port limit comment,
    line = indent +:+ src +:+ proto +:+ " dport " +:+ itoa port +:+ " ct state new " +:+ limit +:+ "accept" +:+ comment
    /\ (src = "" \/ exists fam addr, src = fam +:+ " saddr " +:+ addr +:+ " " /\ In fam ["ip"; "ip6"]
                                      /\ validateAddressOrCIDR addr = Ok tt)
    /\ In proto ["tcp"; "udp"] /\ 1 <= port <= 65535
    /\ (limit = "" \/ exists rate, limit = "limit rate " +:+ rate +:+ " " /\ matchb openPortRateLimitPattern rate = true)
    /\ nft_comment comment.

(** The characters a line is made of outside its comment: nothing that ends
    the line or starts another statement, block, variable or comment. *)
Definition line_char (a : ascii) : bool := inert_char a || Ascii.eqb a dquote || Ascii.eqb a "#".

(** ** Lemmas: shapes *)

Lemma validateAddressOrCIDR_chars s : validateAddressOrCIDR s = Ok tt -> all_chars inert_char s = true.
Proof.
  unfold validateAddressOrCIDR. intros HE.
  destruct (ValidateCIDR s) as [[]|] eqn:E1; cbn in HE.
  - eapply all_chars_impl; [apply cidr_char_inert|]. by apply ValidateCIDR_chars.
  - destruct (ValidateIP s) as [[]|] eqn:E2; cbn in HE; [|done].
    eapply all_chars_impl; [apply addr_char_inert|]. by apply ValidateIP_chars.
Qed.

Lemma addressFamilyMatcher_In s : In (addressFamilyMatcher s) ["ip"; "ip6"].
Proof. unfold addressFamilyMatcher. cbn. repeat case_match; auto. Qed.

(** What each condition renderer returns. *)
Definition empty_or_match (s : string) : Prop := s = "" \/ nft_match s.

Lemma interfaceCondition_shape r s : interfaceCondition r = Ok s -> empty_or_match s.
Proof.
  unfold interfaceCondition. intros HE. destruct (String.eqb _ ""); inv_ok; [by left|].
  right. destruct x. destruct (String.eqb _ "in"); inv_ok; subst s; apply match_iface; cbn; auto.
Qed.

Lemma addressCondition_shape label sel addr s :
  In sel ["saddr"; "daddr"] -> addressCondition label sel addr = Ok s -> empty_or_match s.
Proof.
  intros Hsel. unfold addressCondition. destruct (String.eqb_spec addr "") as [|Hne]; intros HE; inv_ok; [by left|].
  right. subst s. destruct x. apply match_addr; auto. apply addressFamilyMatcher_In.
Qed.

Lemma protocolCondition_shape r s : protocolCondition r = Ok s -> empty_or_match s.
Proof.
  unfold protocolCondition. set (p := FirewallRule_Protocol r). intros HE.
  destruct (String.eqb_spec p ""); inv_ok; [by left|]. right.
  assert (Hp : In p ruleProtocols).
  { unfold ruleProtocols. cbn. destruct (String.eqb_spec p "tcp"), (String.eqb_spec p "udp"),
      (String.eqb_spec p "icmp"); cbn in HE; auto. discriminate. }
  destruct (negb _ && _ && _); [discriminate|].
  destruct (_ <=? 0); inv_ok; subst s; [by apply match_l4|].
  apply match_port; [done|]. destruct x. by apply ValidatePort_iff.
Qed.

Lemma filter_nonempty_match l :
  Forall empty_or_match l -> Forall nft_match (List.filter nonempty l).
Proof.
  induction 1 as [|s l Hs Hl IH]; cbn; [done|]. unfold nonempty at 1.
  destruct (String.eqb_spec s "") as [|Hne]; cbn; [done|]. constructor; [|done]. by destruct Hs.
Qed.

Lemma customRuleConditions_shape r conds : customRuleConditions r = Ok conds -> Forall nft_match conds.
Proof.
  unfold customRuleConditions. intros HE. inv_ok. subst conds. apply filter_nonempty_match.
  repeat first [apply List.Forall_nil | apply List.Forall_cons].
  - by eapply interfaceCondition_shape.
  - eapply addressCondition_shape; [|done]. cbn; auto.
  - eapply addressCondition_shape; [|done]. cbn; auto.
  - by eapply protocolCondition_shape.
Qed.

Lemma comment_of_name name : ValidateRuleName name = Ok tt ->
  nft_comment (if String.eqb name "" then "" else " # " +:+ name).
Proof.
  intros Hn. destruct (String.eqb_spec name ""); [by left|]. right. exists name.
  split_and!; [done..|]. by apply ValidateRuleName_inert.
Qed.

Lemma renderCustomRule_shape r line : renderCustomRule r = Ok line -> line = "" \/ custom_line line.
Proof.
  unfold renderCustomRule. intros HE. inv_ok. destruct x.
  set (action := if String.eqb _ "" then _ else _) in HE.
  assert (Ha : negb (String.eqb action "accept") && negb (String.eqb action "drop")
               && negb (String.eqb action "reject") = false -> In action ["accept"; "drop"; "reject"]).
  { destruct (String.eqb_spec action "accept"), (String.eqb_spec action "drop"),
      (String.eqb_spec action "reject"); cbn; auto. discriminate. }
  destruct (_ && _ && _); [discriminate|]. specialize (Ha eq_refl).
  destruct x0 as [|c cs]; inv_ok; [by left|]. right.
  exists (c :: cs), action, (if String.eqb (FirewallRule_Name r) "" then "" else " # " +:+ FirewallRule_Name r).
  split_and!; [|done|by eapply customRuleConditions_shape|done|by apply comment_of_name].
  subst line. destruct (String.eqb (FirewallRule_Name r) ""); [by rewrite append_empty_r|].
  by rewrite !append_assoc.
Qed.

(** A line is never empty, so an empty result means there is nothing to match. *)
Lemma custom_line_nonempty line : custom_line line -> line <> "".
Proof. intros (conds & action & comment & -> & _) H. discriminate H. Qed.

(** ** Lemmas: open ports *)

Lemma openPortComment_shape name s : openPortComment name = Ok s -> nft_comment s.
Proof.
  unfold openPortComment. destruct (String.eqb_spec (TrimSpace name) "") as [|Hne]; intros HE; inv_ok; [by left|].
  subst s. destruct x. right. exists (TrimSpace name). split_and!; [done..|]. by apply ValidateRuleName_inert.
Qed.

Lemma renderOpenPortRules_shape op lines :
  renderOpenPortRules op = Ok lines -> Forall open_port_line lines.
Proof.
  unfold renderOpenPortRules. intros HE. inv_ok. destruct x. rename x0 into protos, x1 into src, x2 into comment, x3 into limit.
  apply ValidatePort_iff in H. subst lines.
  assert (Hprotos : Forall (fun p => In p ["tcp"; "udp"]) protos).
  { unfold openPortProtocols in H0. destruct (String.eqb_spec (OpenPort_Protocol op) "tcp"),
      (String.eqb_spec (OpenPort_Protocol op) "udp"); cbn in H0; inv_ok; try subst protos;
      try (apply List.Forall_cons; [cbn; naive_solver|done]).
    destruct (String.eqb _ "both"); inv_ok; subst protos. repeat (apply List.Forall_cons; [cbn; auto|]). apply List.Forall_nil. }
  assert (Hsrc : src = "" \/ exists fam addr, src = fam +:+ " saddr " +:+ addr +:+ " " /\ In fam ["ip"; "ip6"]
                                      /\ validateAddressOrCIDR addr = Ok tt).
  { unfold openPortSourcePrefix in H1. destruct (String.eqb _ ""); inv_ok; [by left|]. subst src. destruct x.
    right. do 2 eexists. split; [done|]. split; [apply addressFamilyMatcher_In|done]. }
  assert (Hlim : limit = "" \/ exists rate, limit = "limit rate " +:+ rate +:+ " "
                                            /\ matchb openPortRateLimitPattern rate = true).
  { unfold openPortLimit in H3. destruct (String.eqb_spec (TrimSpace (OpenPort_RateLimit op)) ""); inv_ok; [by left|].
    subst limit. right. eexists. split; [done|]. unfold ValidateOpenPortRateLimit in H4.
    rewrite (proj2 (String.eqb_neq _ _) (TrimSpace_trimmed _ n)) in H4. destruct x. inv_ok. by bool_hyps. }
  apply openPortComment_shape in H2.
  clear H0. induction Hprotos as [|p l Hp Hl IH]; cbn; [done|]. constructor; [|done].
  exists src, p, (OpenPort_Port op), limit, comment. destruct H; by split_and!.
Qed.

(** ** Lemmas: characters *)

Lemma inert_line_char a : inert_char a = true -> line_char a = true.
Proof. unfold line_char. by intros ->. Qed.

Lemma inert_line s : all_chars inert_char s = true -> all_chars line_char s = true.
Proof. apply all_chars_impl, inert_line_char. Qed.

Lemma itoa_line z : all_chars line_char (itoa z) = true.
Proof. eapply all_chars_impl; [|apply itoa_chars]. apply ascii_impl. vm_compute. reflexivity. Qed.

Lemma In_line s l : In s l -> forallb (all_chars line_char) l = true -> all_chars line_char s = true.
Proof. intros Hin Hall. rewrite forallb_forall in Hall. by apply Hall. Qed.

(** Proves that a concatenation of literals and checked values stays on its
    line. *)
Ltac line_chars :=
  rewrite ?all_chars_append;
  repeat (apply andb_true_intro; split);
  try (vm_compute; reflexivity);
  try (apply itoa_line);
  try (eapply In_line; [eassumption|vm_compute; reflexivity]);
  try (by apply inert_line, validateAddressOrCIDR_chars).

Lemma nft_match_chars s : nft_match s -> all_chars line_char s = true.
Proof.
  destruct 1 as [side name Hs Hn|fam sel addr Hf Hsel Hne Ha|p Hp|p n Hp Hn]; unfold quote; line_chars.
  by apply inert_line, ValidateInterfaceName_inert.
Qed.

Lemma nft_comment_chars s : nft_comment s -> all_chars line_char s = true.
Proof. intros [->|(name & -> & _ & Hn)]; line_chars. by apply inert_line. Qed.

Lemma custom_line_chars line : custom_line line -> all_chars line_char line = true.
Proof.
  intros (conds & action & comment & -> & _ & Hc & Ha & Hcom). line_chars.
  - apply all_chars_join; [reflexivity|]. eapply Forall_impl; [|exact Hc]. apply nft_match_chars.
  - by apply nft_comment_chars.
Qed.

Lemma rate_chars rate : matchb openPortRateLimitPattern rate = true -> all_chars line_char rate = true.
Proof.
  intros Hm. apply inert_line. eapply matchb_over; [|exact Hm].
  unfold openPortRateLimitPattern. solve_over.
Qed.

Lemma open_port_line_chars line : open_port_line line -> all_chars line_char line = true.
Proof.
  intros (src & proto & port & limit & comment & -> & Hsrc & Hproto & _ & Hlim & Hcom). line_chars.
  - destruct Hsrc as [->|(fam & addr & -> & Hf & Ha)]; line_chars.
  - destruct Hlim as [->|(rate & -> & Hr)]; line_chars. by apply rate_chars.
  - by apply nft_comment_chars.
Qed.

(** ** Lemmas: the loop of buildCustomRules *)

(** The line a rule contributes, if it contributes one. *)
Definition rule_line (r : FirewallRule) : list string :=
  if FirewallRule_Enabled r then
    match renderCustomRule r with
    | Ok line => if String.eqb line "" then [] else [line]
    | Err _ => []
    end
  else [].

Definition chain_is (chain : string) (r : FirewallRule) : bool := String.eqb (FirewallRule_Chain r) chain.
Definition chain_input (r : FirewallRule) : bool := negb (chain_is "forward" r) && negb (chain_is "output" r).

Definition lines_of (keep : FirewallRule -> bool) (rules : list FirewallRule) : list string :=
  List.flat_map rule_line (List.filter keep rules).

Lemma addCustomRule_spec out r :
  addCustomRule out r
  = mkCustomRules (Input out ++ lines_of chain_input [r]) (Forward out ++ lines_of (chain_is "forward") [r])
      (Output out ++ lines_of (chain_is "output") [r]).
Proof.
  unfold addCustomRule, lines_of, chain_input, chain_is, rule_line. cbn [List.filter].
  destruct (String.eqb_spec (FirewallRule_Chain r) "forward") as [->|];
    destruct (String.eqb (FirewallRule_Chain r) "output"); cbn;
    destruct (FirewallRule_Enabled r), (renderCustomRule r) as [line|]; cbn;
    try (destruct (String.eqb line "")); cbn; rewrite ?app_nil_r; by destruct out.
Qed.

Lemma lines_of_cons keep r rules : lines_of keep (r :: rules) = lines_of keep [r] ++ lines_of keep rules.
Proof.
  unfold lines_of. cbn [List.filter]. destruct (keep r); [|done]. cbn. by rewrite app_nil_r.
Qed.

Lemma foldl_addCustomRule rules : forall out,
  foldl addCustomRule out rules
  = mkCustomRules (Input out ++ lines_of chain_input rules) (Forward out ++ lines_of (chain_is "forward") rules)
      (Output out ++ lines_of (chain_is "output") rules).
Proof.
  induction rules as [|r rules IH]; intros out.
  - cbn. rewrite !app_nil_r. by destruct out.
  - cbn [foldl]. rewrite IH, addCustomRule_spec. cbn [Input Forward Output].
    rewrite !(lines_of_cons _ r rules), !app_assoc. done.
Qed.

Lemma rule_line_custom r : Forall custom_line (rule_line r).
Proof.
  unfold rule_line. destruct (FirewallRule_Enabled r); [|done].
  destruct (renderCustomRule r) as [line|] eqn:E; [|done].
  destruct (String.eqb_spec line "") as [|Hne]; [done|]. constructor; [|done].
  by destruct (renderCustomRule_shape _ _ E).
Qed.

Lemma lines_of_custom keep rules : Forall custom_line (lines_of keep rules).
Proof.
  unfold lines_of. induction (List.filter keep rules) as [|r l IH]; cbn; [done|].
  apply Forall_app. split; [apply rule_line_custom|done].
Qed.

Lemma buildOpenPortRules_lines cfg : Forall open_port_line (buildOpenPortRules cfg).
Proof.
  unfold buildOpenPortRules. induction (FirewallConfig_OpenPorts _) as [|op ops IH]; cbn; [done|].
  apply Forall_app. split; [|done]. destruct (OpenPort_Enabled op); [|done].
  destruct (renderOpenPortRules op) eqn:E; [|done]. by eapply renderOpenPortRules_shape.
Qed.

Lemma Forall_line_chars (P : string -> Prop) l :
  (forall s, P s -> all_chars line_char s = true) -> Forall P l ->
  Forall (fun s => all_chars line_char s = true) l.
Proof. intros HP HF. eapply Forall_impl; [|exact HF]. exact HP. Qed.

(** ** The properties *)

(** C16: No value of the configuration can inject a statement into the
    firewall file through a custom rule or an open port.  Whatever strings
    the configuration holds, every rendered custom line consists of at least
    one match from the closed list of forms, one of the three verdicts and at
    most a comment, every open port line accepts new connections to one port
    between 1 and 65535, and no line contains a character that ends it or
    opens a block, a variable or a second statement. *)
Theorem rendered_lines_closed cfg :
  let d := buildTemplateData cfg in
  let custom := CustomInputRules d ++ CustomForwardRules d ++ CustomOutputRules d in
  Forall custom_line custom /\ Forall open_port_line (OpenPortRules d)
  /\ Forall (fun s => all_chars line_char s = true) (custom ++ OpenPortRules d).
Proof.
  intros d custom.
  assert (Hc : Forall custom_line custom).
  { unfold custom, d, buildTemplateData, buildCustomRules. cbn. rewrite foldl_addCustomRule. cbn.
    repeat (apply Forall_app; split); apply lines_of_custom. }
  pose proof (buildOpenPortRules_lines cfg) as Ho. split_and!; [done|exact Ho|].
  apply Forall_app. split.
  - by eapply Forall_line_chars; [apply custom_line_chars|].
  - by eapply Forall_line_chars; [apply open_port_line_chars|].
Qed.

(** Every enabled custom rule ends up in its own chain, in the order of
    the configuration.  A rule naming forward or output goes there and every
    other one into input; a rule that is disabled, invalid or without any
    match contributes nothing, so no rule is ever rendered as an
    unconditional verdict and one bad rule does not displace another. *)
Theorem custom_rules_by_chain cfg :
  let rules := FirewallConfig_Rules (Config_Firewall cfg) in
  buildCustomRules cfg
  = mkCustomRules (lines_of chain_input rules) (lines_of (chain_is "forward") rules)
      (lines_of (chain_is "output") rules).
Proof. intros rules. unfold buildCustomRules. by rewrite foldl_addCustomRule. Qed.

Definition icmp_rule : FirewallRule :=
  {| FirewallRule_Name := "x"; FirewallRule_Chain := "input"; FirewallRule_Action := "accept";
     FirewallRule_SrcIP := ""; FirewallRule_DstIP := ""; FirewallRule_Protocol := "icmp"; FirewallRule_Port := 80;
     FirewallRule_Interface := ""; FirewallRule_Direction := ""; FirewallRule_Enabled := true;
     FirewallRule_Priority := 0 |}.

(** icmp with a port renders a match on a field ICMP does not have. *)
Lemma icmp_port_rendered : renderCustomRule icmp_rule = Ok "        icmp dport 80 accept # x".
Proof. vm_compute. reflexivity. Qed.

(** An IPv4-mapped address is matched as IPv4 although it is written as IPv6. *)
Lemma mapped_address_family :
  addressCondition "source" "saddr" "::ffff:192.0.2.1" = Ok "ip saddr ::ffff:192.0.2.1".
Proof. vm_compute. reflexivity. Qed.
