(* ===== verification/FirewallService.v ===== *)
(** * internal/netutil/atomic.go and the service of internal/services/firewall.go

    The apply/confirm/rollback protocol with its watchdog.  The state is the
    machine (kernel ruleset, the pending record, the rolled-back marker and
    the boot file on disk, the clock) and the process (configuration, pending
    change).  A restart loses the process and keeps the machine.  nft and the
    template engine are parameters; every call that can fail takes its
    outcome from the environment of the step. *)

From S2P Require Import Prelude GoStrings GoTime ConfigTypes FirewallRender.

Local Open Scope Z_scope.
Local Open Scope go_scope.

(** ** nft *)

Definition newline_str : string := char_str "010".
Definition flushPrefix : string := "flush ruleset" +:+ newline_str.
Definition emptyRulesetSnapshot : string := "# empty ruleset" +:+ newline_str.

(** The program nft: listing the ruleset, checking and loading a file as one
    transaction ([None] leaves the ruleset in force).  What the code relies
    on: the listing of a ruleset, loaded after a flush, gives it back, and a
    ruleset whose listing is blank is what a flush alone leaves. *)
Class NFT : Type := {
  ruleset : Type;
  nft_list : ruleset -> string;
  nft_check : string -> ruleset -> bool;
  nft_load : string -> ruleset -> option ruleset;
  nft_reload : forall k k', TrimSpace (nft_list k) <> "" ->
    nft_load (flushPrefix +:+ nft_list k) k' = Some k;
  nft_reload_empty : forall k k', TrimSpace (nft_list k) = "" ->
    nft_load (flushPrefix +:+ emptyRulesetSnapshot) k' = Some k;
}.

(** ** AtomicChange *)

(** A pending change; [ac_id] is the identity of the pointer and [ac_timer]
    the deadline of its watchdog. *)
Record AtomicChange : Type := mkChange {
  ac_id : nat; ac_snapshot : string; ac_applied : bool; ac_timer : option Z }.

Definition set_timer (t : option Z) (ac : AtomicChange) : AtomicChange :=
  mkChange (ac_id ac) (ac_snapshot ac) (ac_applied ac) t.

Definition firewallConfirmWindow : Z := 30 * second.

(** The outcomes the surroundings choose for one step: of the agent's runs of
    nft (list, check, load) and of its file writes (candidate, rollback,
    boot), and of the process's own file operations. *)
Record env : Type := {
  e_list : result unit;
  e_check : result unit;
  e_load : result unit;
  e_stage : result unit;
  e_stageRollback : result unit;
  e_boot : result unit;
  e_writeState : result unit;
  e_clearState : result unit;
  e_mark : result unit;
  e_unmark : result unit;
}.

Section Firewall.
Context `{NFT}.

(** [AtomicChange.Snapshot]. *)
Definition Snapshot (e : env) (k : ruleset) : result string :=
  guard! wrap_err "snapshot firewall: %w" [] (e_list e) ;;
  let out := nft_list k in
  Ok (if String.eqb (TrimSpace out) "" then emptyRulesetSnapshot else out).

(** Runs of nft through the agent: the agent's failure, then nft's own. *)
Definition run_check (e : env) (file : string) (k : ruleset) : result unit :=
  guard! e_check e ;; fail_if (negb (nft_check file k)) (Errorf "nft -c" [file]).
Definition run_load (e : env) (file : string) (k : ruleset) : result ruleset :=
  guard! e_load e ;;
  match nft_load file k with Some k' => Ok k' | None => Err (Errorf "nft -f" [file]) end.

(** [AtomicChange.Rollback]: the kernel after it and its error. *)
Definition AtomicRollback (e : env) (ac : AtomicChange) (k : ruleset) : ruleset * result unit :=
  if String.eqb (ac_snapshot ac) "" then (k, Err (Errorf "no snapshot to rollback to" []))
  else match wrap_err "write rollback: %w" [] (e_stageRollback e) with
  | Err er => (k, Err er)
  | Ok _ =>
      match wrap_err "apply rollback: %w" [] (run_load e (flushPrefix +:+ ac_snapshot ac) k) with
      | Err er => (k, Err er)
      | Ok k' => (k', Ok tt)
      end
  end.

(** ** The machine and the process *)

(** The state file: a record that decodes, with its snapshot and time, or one
    that does not. *)
Inductive pending_file : Type :=
| PendingRecord (snapshot : string) (appliedAt : Z)
| PendingInvalid.

Record machine : Type := mkMachine {
  m_kernel : ruleset;
  m_pending : option pending_file;
  m_rolledBack : bool;
  m_boot : option string;
  m_now : Z;
}.

Record process : Type := mkProcess {
  p_cfg : Config;
  p_change : option AtomicChange;
  p_applied : string;
  p_nextId : nat;
}.

Definition state : Type := (machine * process)%type.

Definition set_kernel (k : ruleset) (m : machine) : machine :=
  mkMachine k (m_pending m) (m_rolledBack m) (m_boot m) (m_now m).
Definition set_pending (p : option pending_file) (m : machine) : machine :=
  mkMachine (m_kernel m) p (m_rolledBack m) (m_boot m) (m_now m).
Definition set_rolledBack (b : bool) (m : machine) : machine :=
  mkMachine (m_kernel m) (m_pending m) b (m_boot m) (m_now m).
Definition set_boot (b : option string) (m : machine) : machine :=
  mkMachine (m_kernel m) (m_pending m) (m_rolledBack m) b (m_now m).

(** The template engine, and what the services whose chains live inside the
    ruleset do to it in [afterReload]. *)
Variable execute : nftTemplateData -> result string.
Variable afterReload : ruleset -> ruleset.

Definition RenderConfig (cfg : Config) : result string :=
  wrap_err "render: %w" [] (execute (buildTemplateData cfg)).

Definition runAfterReload (m : machine) : machine := set_kernel (afterReload (m_kernel m)) m.

(** File operations whose failure is only logged. *)
Definition clearPendingState (e : env) (m : machine) : machine :=
  if is_ok (e_clearState e) then set_pending None m else m.
Definition markRolledBack (e : env) (m : machine) : machine :=
  if is_ok (e_mark e) then set_rolledBack true m else m.
Definition clearRolledBack (e : env) (m : machine) : machine :=
  if is_ok (e_unmark e) then set_rolledBack false m else m.
Definition persistPendingState (e : env) (snapshot : string) (m : machine) : machine :=
  if String.eqb snapshot "" then m
  else if is_ok (e_writeState e) then set_pending (Some (PendingRecord snapshot (m_now m))) m else m.

(** [armWatchdog]. *)
Definition armWatchdog (m : machine) (timeout : Z) (ac : AtomicChange) : AtomicChange :=
  set_timer (Some (m_now m + timeout)) ac.

Definition ErrChangePending : error := Errorf "a firewall change is still awaiting confirmation" [].
Definition ErrRolledBack : error :=
  Errorf "the saved firewall config holds a rolled-back change; confirm or revert it on the firewall page first" [].

(** [renderToFile]: the candidate is staged where the agent reads it. *)
Definition renderToFile (e : env) (cfg : Config) : result string :=
  let? rendered := RenderConfig cfg in
  guard! wrap_err "stage ruleset: %w" [] (e_stage e) ;;
  Ok rendered.

(** Everything [Apply] does before it owns the change. *)
Definition tryApply (e : env) (cfg : Config) (k : ruleset) : result (string * string * ruleset) :=
  let? rendered := wrap_err "render nftables: %w" [] (renderToFile e cfg) in
  let? snap := wrap_err "snapshot current ruleset: %w" [] (Snapshot e k) in
  guard! wrap_err "validate nftables: %w" [] (wrap_err "validate firewall: %w" [] (run_check e rendered k)) ;;
  let? k' := wrap_err "apply nftables: %w" [] (wrap_err "apply firewall: %w" [] (run_load e rendered k)) in
  Ok (rendered, snap, k').

Definition Apply (e : env) (st : state) : state * result unit :=
  let '(m, p) := st in
  match p_change p with
  | Some _ => (st, Err ErrChangePending)
  | None =>
      match tryApply e (p_cfg p) (m_kernel m) with
      | Err er => (st, Err er)
      | Ok (rendered, snap, k') =>
          let m1 := persistPendingState e snap (set_kernel k' m) in
          let ac := armWatchdog m1 firewallConfirmWindow (mkChange (p_nextId p) snap true None) in
          ((runAfterReload m1, mkProcess (p_cfg p) (Some ac) rendered (S (p_nextId p))), Ok tt)
      end
  end.

Definition bootRulesetPath : string := "/etc/nftables.conf".

(** [persistConfirmedRuleset]. *)
Definition persistConfirmedRuleset (e : env) (m : machine) (p : process) : machine * process :=
  let p' := mkProcess (p_cfg p) (p_change p) "" (p_nextId p) in
  let ruleset := if String.eqb (p_applied p) "" then RenderConfig (p_cfg p) else Ok (p_applied p) in
  match ruleset with
  | Err _ => (m, p')
  | Ok r => (if is_ok (e_boot e) then set_boot (Some r) m else m, p')
  end.

Definition Confirm (e : env) (st : state) : state :=
  let '(m, p) := st in
  match p_change p with
  | Some _ =>
      let '(m1, p1) := persistConfirmedRuleset e m (mkProcess (p_cfg p) None (p_applied p) (p_nextId p)) in
      (clearPendingState e (clearRolledBack e m1), p1)
  | None => (clearPendingState e m, p)
  end.

Definition Rollback (e : env) (st : state) : state * result unit :=
  let '(m, p) := st in
  match p_change p with
  | Some ac =>
      let '(k, err) := AtomicRollback e ac (m_kernel m) in
      ((runAfterReload (clearPendingState e (set_kernel k m)),
        mkProcess (p_cfg p) None (p_applied p) (p_nextId p)), err)
  | None => (st, Ok tt)
  end.

(** The callback of [armWatchdog] for the change with identity [id]. *)
Definition watchdogFired (e : env) (id : nat) (st : state) : state * result unit :=
  let '(m, p) := st in
  match p_change p with
  | Some ac =>
      if Nat.eqb (ac_id ac) id then
        let '(k, err) := AtomicRollback e ac (m_kernel m) in
        ((runAfterReload (markRolledBack e (clearPendingState e (set_kernel k m))),
          mkProcess (p_cfg p) None (p_applied p) (p_nextId p)), err)
      else (st, Ok tt)
  | None => (st, Ok tt)
  end.

Definition ApplyAndConfirm (e : env) (st : state) : state * result unit :=
  if m_rolledBack (fst st) then (st, Err ErrRolledBack)
  else match Apply e st with
       | (st', Err er) => (st', Err er)
       | (st', Ok _) => (Confirm e st', Ok tt)
       end.

(** [newFirewallService] with [restorePendingChange], in a new process; ids
    of the old process are never used again. *)
Definition restart (e : env) (cfg : Config) (st : state) : state :=
  let '(m, p) := st in
  let fresh := mkProcess cfg None "" (p_nextId p) in
  match m_pending m with
  | None | Some PendingInvalid => (m, fresh)
  | Some (PendingRecord snap appliedAt) =>
      if String.eqb snap "" then (clearPendingState e m, fresh)
      else
        let remaining := Z.max (firewallConfirmWindow - (m_now m - appliedAt)) 0 in
        let ac := armWatchdog m remaining (mkChange (p_nextId p) snap true None) in
        (m, mkProcess cfg (Some ac) "" (S (p_nextId p)))
  end.

(** [stopWatchdog]. *)
Definition stopWatchdog (st : state) : state :=
  let '(m, p) := st in
  (m, mkProcess (p_cfg p) (set_timer None <$> p_change p) (p_applied p) (p_nextId p)).

Definition HasPendingChange (st : state) : bool :=
  match p_change (snd st) with Some _ => true | None => false end.

End Firewall.

(** ** Editing the configuration *)

Section Edits.
(** [SaveToFile] of the configuration. *)
Variable save : Config -> result unit.

(** [mutate]: the closure changes the configuration in place and may fail
    afterwards. *)
Definition mutate (change : FirewallConfig -> FirewallConfig * result unit) (cfg : Config) : Config * result unit :=
  let '(fw, err) := change (Config_Firewall cfg) in
  let cfg' := set_Config_Firewall fw cfg in
  match err with
  | Err e => (cfg', Err e)
  | Ok _ => (cfg', save cfg')
  end.

(** [removeAt]: on a bad index it returns the nil slice with the error. *)
Definition removeAt {A} (l : list A) (index : Z) (what : string) : list A * result unit :=
  if (index <? 0) || (Z.of_nat (length l) <=? index)
  then ([], Err (Errorf "invalid %s index: %d" [what; itoa index]))
  else (take (Z.to_nat index) l ++ drop (S (Z.to_nat index)) l, Ok tt).

(** [l[index].field = v], after the bounds check. *)
Definition updateAt {A} (l : list A) (index : Z) (what : string) (f : A -> A) : list A * result unit :=
  if (index <? 0) || (Z.of_nat (length l) <=? index)
  then (l, Err (Errorf "invalid %s index: %d" [what; itoa index]))
  else (alter f (Z.to_nat index) l, Ok tt).

Definition AddOpenPort (op : OpenPort) : Config -> Config * result unit :=
  mutate (fun fw => (set_FirewallConfig_OpenPorts (FirewallConfig_OpenPorts fw ++ [op]) fw, Ok tt)).

Definition RemoveOpenPort (index : Z) : Config -> Config * result unit :=
  mutate (fun fw => let '(l, err) := removeAt (FirewallConfig_OpenPorts fw) index "open port" in
                    (set_FirewallConfig_OpenPorts l fw, err)).

Definition ToggleOpenPort (index : Z) (enabled : bool) : Config -> Config * result unit :=
  mutate (fun fw => let '(l, err) := updateAt (FirewallConfig_OpenPorts fw) index "open port" (set_OpenPort_Enabled enabled) in
                    (set_FirewallConfig_OpenPorts l fw, err)).

Definition AddPortForward (pf : PortForward) : Config -> Config * result unit :=
  mutate (fun fw => (set_FirewallConfig_PortForwards (FirewallConfig_PortForwards fw ++ [pf]) fw, Ok tt)).

Definition RemovePortForward (index : Z) : Config -> Config * result unit :=
  mutate (fun fw => let '(l, err) := removeAt (FirewallConfig_PortForwards fw) index "port forward" in
                    (set_FirewallConfig_PortForwards l fw, err)).

Definition maxPriority (rules : list FirewallRule) : Z :=
  foldl (fun acc r => Z.max acc (FirewallRule_Priority r)) 0 rules.

Definition AddRule (rule : FirewallRule) : Config -> Config * result unit :=
  mutate (fun fw =>
    let rule := if FirewallRule_Priority rule =? 0
                then set_FirewallRule_Priority (wrap64 (maxPriority (FirewallConfig_Rules fw) + 10)) rule
                else rule in
    (set_FirewallConfig_Rules (FirewallConfig_Rules fw ++ [rule]) fw, Ok tt)).

Definition RemoveRule (index : Z) : Config -> Config * result unit :=
  mutate (fun fw => let '(l, err) := removeAt (FirewallConfig_Rules fw) index "rule" in
                    (set_FirewallConfig_Rules l fw, err)).

Definition ToggleRule (index : Z) (enabled : bool) : Config -> Config * result unit :=
  mutate (fun fw => let '(l, err) := updateAt (FirewallConfig_Rules fw) index "rule" (set_FirewallRule_Enabled enabled) in
                    (set_FirewallConfig_Rules l fw, err)).

Definition ErrInvalidTTL : error := Errorf "ttl value must be between 1 and 255" [].

Definition SetTTLFix (enabled : bool) (value : Z) (cfg : Config) : Config * result unit :=
  if (value <? 1) || (255 <? value) then (cfg, Err (Errorw "%w: %d" [itoa value] ErrInvalidTTL))
  else mutate (fun fw =>
         (set_FirewallConfig_TTLFix (set_TTLFixConfig_Value value
            (set_TTLFixConfig_Enabled enabled (FirewallConfig_TTLFix fw))) fw, Ok tt)) cfg.

(** The edits of the page. *)
Inductive edit : Type :=
| EAddOpenPort (op : OpenPort) | ERemoveOpenPort (i : Z) | EToggleOpenPort (i : Z) (b : bool)
| EAddPortForward (pf : PortForward) | ERemovePortForward (i : Z)
| EAddRule (r : FirewallRule) | ERemoveRule (i : Z) | EToggleRule (i : Z) (b : bool)
| ESetTTLFix (b : bool) (v : Z).

Definition run_edit (x : edit) : Config -> Config * result unit :=
  match x with
  | EAddOpenPort op => AddOpenPort op | ERemoveOpenPort i => RemoveOpenPort i
  | EToggleOpenPort i b => ToggleOpenPort i b | EAddPortForward pf => AddPortForward pf
  | ERemovePortForward i => RemovePortForward i | EAddRule r => AddRule r | ERemoveRule i => RemoveRule i
  | EToggleRule i b => ToggleRule i b | ESetTTLFix b v => SetTTLFix b v
  end.

End Edits.

(** ** The protocol as a transition system *)

Section Protocol.
Context `{NFT}.
Variable execute : nftTemplateData -> result string.
Variable afterReload : ruleset -> ruleset.
Variable save : Config -> result unit.

(** What can happen, in any order.  A timer that was stopped after it fired
    may still run its callback, so a firing of any identity is possible at
    any time; other services change the kernel ruleset behind the firewall's
    back. *)
Inductive event : Type :=
| EvApply (e : env) | EvConfirm (e : env) | EvRollback (e : env) | EvFire (e : env) (id : nat)
| EvApplyAndConfirm (e : env) | EvRestart (e : env) (cfg : Config) | EvStop | EvEdit (x : edit)
| EvTick (d : Z) | EvKernel (k : ruleset).

Definition step (ev : event) (st : state) : state * result unit :=
  match ev with
  | EvApply e => Apply execute afterReload e st
  | EvConfirm e => (Confirm execute e st, Ok tt)
  | EvRollback e => Rollback afterReload e st
  | EvFire e id => watchdogFired afterReload e id st
  | EvApplyAndConfirm e => ApplyAndConfirm execute afterReload e st
  | EvRestart e cfg => (restart e cfg st, Ok tt)
  | EvStop => (stopWatchdog st, Ok tt)
  | EvEdit x => let '(m, p) := st in
                let '(cfg, err) := run_edit save x (p_cfg p) in
                ((m, mkProcess cfg (p_change p) (p_applied p) (p_nextId p)), err)
  | EvTick d => let '(m, p) := st in
                ((mkMachine (m_kernel m) (m_pending m) (m_rolledBack m) (m_boot m) (m_now m + Z.max d 0), p), Ok tt)
  | EvKernel k => let '(m, p) := st in ((set_kernel k m, p), Ok tt)
  end.

Definition run (evs : list event) (st : state) : state :=
  foldl (fun st ev => fst (step ev st)) st evs.

(** The environment of an event keeps the process's own files working. *)
Definition disk_ok (e : env) : Prop :=
  e_writeState e = Ok tt /\ e_clearState e = Ok tt /\ e_mark e = Ok tt /\ e_unmark e = Ok tt.

Definition event_ok (ev : event) : Prop :=
  match ev with
  | EvApply e | EvConfirm e | EvRollback e | EvFire e _ | EvApplyAndConfirm e | EvRestart e _ => disk_ok e
  | _ => True
  end.

(** The text a snapshot of [k] holds. *)
Definition snap_of (k : ruleset) : string :=
  if String.eqb (TrimSpace (nft_list k)) "" then emptyRulesetSnapshot else nft_list k.

Lemma snap_of_nonempty k : snap_of k <> "".
Proof.
  unfold snap_of. destruct (String.eqb_spec (TrimSpace (nft_list k)) "") as [|Hne]; [done|].
  intros Hl. rewrite Hl in Hne. by apply Hne.
Qed.

Lemma load_snapshot k k' : nft_load (flushPrefix +:+ snap_of k) k' = Some k.
Proof.
  unfold snap_of. destruct (String.eqb_spec (TrimSpace (nft_list k)) "").
  - by apply nft_reload_empty.
  - by apply nft_reload.
Qed.

(** A change applied at time [t] on top of the ruleset [good] is pending. *)
Record pending (good : ruleset) (t : Z) (st : state) : Prop := {
  pend_change : exists ac, p_change (snd st) = Some ac /\ ac_snapshot ac = snap_of good
    /\ (ac_id ac < p_nextId (snd st))%nat
    /\ (ac_timer ac = None \/ exists d, ac_timer ac = Some d /\ t + firewallConfirmWindow <= d);
  pend_record : m_pending (fst st) = Some (PendingRecord (snap_of good) t);
  pend_time : t <= m_now (fst st);
}.

Lemma tryApply_Ok e cfg k rendered snap k' :
  tryApply execute e cfg k = Ok (rendered, snap, k') ->
  snap = snap_of k /\ RenderConfig execute cfg = Ok rendered /\ nft_load rendered k = Some k'.
Proof.
  unfold tryApply, renderToFile, Snapshot, run_check, run_load. intros HE. inv_ok. simplify_eq.
  split; [done|]. split; [done|]. destruct (nft_load rendered k); [|done]. inv_ok. by subst.
Qed.

Lemma Apply_Ok e st st' :
  disk_ok e -> Apply execute afterReload e st = (st', Ok tt) ->
  p_change (snd st) = None /\ pending (m_kernel (fst st)) (m_now (fst st)) st'
  /\ m_boot (fst st') = m_boot (fst st) /\ m_now (fst st') = m_now (fst st)
  /\ exists k', RenderConfig execute (p_cfg (snd st)) = Ok (p_applied (snd st'))
                /\ nft_load (p_applied (snd st')) (m_kernel (fst st)) = Some k'
                /\ m_kernel (fst st') = afterReload k'.
Proof.
  destruct st as [m p]. unfold Apply. intros (Hws & _) HE.
  destruct (p_change p) eqn:Ec; [by simplify_eq|].
  destruct (tryApply execute e (p_cfg p) (m_kernel m)) as [[[rendered snap] k']|] eqn:Et; [|by simplify_eq].
  apply tryApply_Ok in Et as (-> & Hr & Hl).
  unfold persistPendingState in HE. rewrite Hws, (proj2 (String.eqb_neq _ _) (snap_of_nonempty (m_kernel m))) in HE.
  cbn in HE. simplify_eq. cbn. split_and!; try done.
  - constructor; cbn; [|done|lia]. eexists. split; [done|]. cbn. split_and!; [done|lia|].
    right. eexists. split; [done|lia].
  - eauto.
Qed.

(** Whether an event settles the pending change of a state. *)
Definition settles (ev : event) (st : state) : Prop :=
  match ev with
  | EvConfirm _ | EvRollback _ => True
  | EvFire _ id => exists ac, p_change (snd st) = Some ac /\ ac_id ac = id
  | _ => False
  end.

(** A run of allowed events during which nobody settles the pending change. *)
Inductive waits (allowed : event -> Prop) : state -> state -> Prop :=
| waits_refl st : waits allowed st st
| waits_step st ev st' :
    event_ok ev -> allowed ev -> ~ settles ev st -> waits allowed (fst (step ev st)) st' ->
    waits allowed st st'.

Definition any_event (ev : event) : Prop := True.
Definition no_restart (ev : event) : Prop := match ev with EvRestart _ _ => False | _ => True end.

Lemma Apply_pending e st ac :
  p_change (snd st) = Some ac -> Apply execute afterReload e st = (st, Err ErrChangePending).
Proof. destruct st as [m p]. cbn. by intros ->. Qed.

Lemma restart_pending good t st e cfg :
  pending good t st -> pending good t (restart e cfg st) /\
  exists ac, p_change (snd (restart e cfg st)) = Some ac
    /\ ac_timer ac = Some (Z.max (m_now (fst st)) (t + firewallConfirmWindow))
    /\ m_boot (fst (restart e cfg st)) = m_boot (fst st).
Proof.
  destruct st as [m p]. intros [_ Hrec Ht]. cbn in Hrec, Ht. unfold restart.
  rewrite Hrec, (proj2 (String.eqb_neq _ _) (snap_of_nonempty good)).
  assert (Hmax : m_now m + Z.max (firewallConfirmWindow - (m_now m - t)) 0
                 = Z.max (m_now m) (t + firewallConfirmWindow)) by lia.
  split.
  - constructor; cbn; [|done|done]. eexists. split; [done|]. cbn. split_and!; [done|lia|].
    right. eexists. split; [done|]. rewrite Hmax. lia.
  - eexists. split; [done|]. cbn. by rewrite Hmax.
Qed.

Lemma step_pending good t ev st :
  event_ok ev -> ~ settles ev st -> pending good t st ->
  pending good t (fst (step ev st)) /\ m_boot (fst (fst (step ev st))) = m_boot (fst st).
Proof.
  intros Hok Hns Hp. pose proof Hp as Hp'. destruct Hp' as [(ac & Hc & Hs & Hid & Htim) Hrec Ht].
  destruct ev as [e|e|e|e id|e|e cfg| |x|d|k]; cbn [step].
  - by rewrite (Apply_pending e st ac Hc).
  - by destruct Hns.
  - by destruct Hns.
  - destruct st as [m p]. cbn in Hc. unfold watchdogFired. rewrite Hc.
    destruct (Nat.eqb_spec (ac_id ac) id); [|done]. destruct Hns. by exists ac.
  - unfold ApplyAndConfirm. destruct (m_rolledBack (fst st)); [done|]. by rewrite (Apply_pending e st ac Hc).
  - destruct (restart_pending good t st e cfg Hp) as (Hp1 & ac' & _ & _ & Hb). done.
  - destruct st as [m p]. cbn in *. split; [|done]. constructor; cbn; [|done|done].
    exists (set_timer None ac). rewrite Hc. cbn. by split_and!; [| | |left].
  - destruct st as [m p]. cbn in *. destruct (run_edit save x (p_cfg p)) as [cfg err]. cbn.
    split; [|done]. constructor; cbn; [eauto|done|done].
  - destruct st as [m p]. cbn in *. split; [|done]. constructor; cbn; [eauto|done|lia].
  - destruct st as [m p]. cbn in *. split; [|done]. constructor; cbn; [eauto|done|done].
Qed.

Lemma waits_pending allowed good t st st' :
  waits allowed st st' -> pending good t st -> pending good t st' /\ m_boot (fst st') = m_boot (fst st).
Proof.
  induction 1 as [st|st ev st' Hok _ Hns _ IH]; intros Hp; [done|].
  destruct (step_pending good t ev st Hok Hns Hp) as [Hp1 Hb]. destruct (IH Hp1) as [? ->]. done.
Qed.

(** Within one process the text of the applied ruleset is kept. *)
Lemma waits_applied good t st st' :
  waits no_restart st st' -> pending good t st -> p_applied (snd st') = p_applied (snd st).
Proof.
  induction 1 as [st|st ev st' Hok Hnr Hns _ IH]; intros Hp; [done|].
  destruct (step_pending good t ev st Hok Hns Hp) as [Hp1 _]. rewrite (IH Hp1).
  destruct Hp as [(ac & Hc & _) _ _].
  destruct ev as [e|e|e|e id|e|e cfg| |x|d|k]; cbn [step]; try done.
  - by rewrite (Apply_pending e st ac Hc).
  - destruct st as [m p]. cbn in Hc. unfold watchdogFired. rewrite Hc.
    destruct (Nat.eqb_spec (ac_id ac) id); [|done]. destruct Hns. by exists ac.
  - unfold ApplyAndConfirm. destruct (m_rolledBack (fst st)); [done|]. by rewrite (Apply_pending e st ac Hc).
  - by destruct st.
  - destruct st as [m p]. by destruct (run_edit save x (p_cfg p)).
  - by destruct st.
  - by destruct st.
Qed.

Lemma AtomicRollback_pending good e ac k :
  ac_snapshot ac = snap_of good -> e_stageRollback e = Ok tt -> e_load e = Ok tt ->
  AtomicRollback e ac k = (good, Ok tt).
Proof.
  intros Hs Hst Hl. unfold AtomicRollback, run_load.
  rewrite Hs, (proj2 (String.eqb_neq _ _) (snap_of_nonempty good)), Hst, Hl. cbn [wrap_err result_bind].
  by rewrite load_snapshot.
Qed.

End Protocol.

(** ** The properties *)

Section Claims.
Context `{NFT}.
Variable execute : nftTemplateData -> result string.
Variable afterReload : ruleset -> ruleset.
Variable save : Config -> result unit.

(** C2: The watchdog brings the operator back.  After a successful apply, as
    long as nobody confirms or reverts, and whatever else happens meanwhile,
    further applies, background applies, edits, restarts, stale timers or
    changes to the kernel by other services, the firing of the watchdog
    restores the ruleset that was in force before the apply, clears the
    pending record, records the rollback, and leaves the boot file as it
    was; the watchdog is never armed for earlier than the full window. *)
Theorem watchdog_reverts e st0 st1 st2
  (He : disk_ok e) (Ha : Apply execute afterReload e st0 = (st1, Ok tt))
  (Hw : waits execute afterReload save any_event st1 st2) :
  exists ac, p_change (snd st2) = Some ac
    /\ (forall d, ac_timer ac = Some d -> m_now (fst st0) + firewallConfirmWindow <= d)
    /\ forall e', disk_ok e' -> e_stageRollback e' = Ok tt -> e_load e' = Ok tt ->
       let '(st3, r) := watchdogFired afterReload e' (ac_id ac) st2 in
       r = Ok tt /\ m_kernel (fst st3) = afterReload (m_kernel (fst st0))
       /\ m_pending (fst st3) = None /\ m_rolledBack (fst st3) = true
       /\ m_boot (fst st3) = m_boot (fst st0) /\ p_change (snd st3) = None.
Proof.
  destruct (Apply_Ok execute afterReload e st0 st1 He Ha) as (_ & Hp & Hb & _).
  destruct (waits_pending execute afterReload save _ _ _ _ _ Hw Hp) as [[(ac & Hc & Hs & _ & Ht) _ _] Hb2].
  exists ac. split; [done|]. split.
  { intros d Hd. destruct Ht as [Ht|(d' & Ht & Hle)]; [congruence|]. rewrite Hd in Ht. by injection Ht as ->. }
  intros e' (_ & Hcl & Hmk & _) Hst Hl. destruct st2 as [m p]. cbn in Hc. unfold watchdogFired.
  rewrite Hc, Nat.eqb_refl, (AtomicRollback_pending _ e' ac (m_kernel m) Hs Hst Hl).
  unfold clearPendingState, markRolledBack. rewrite Hcl, Hmk. cbn. split_and!; try done. cbn in Hb2. congruence.
Qed.

(** C3: A restart does not cancel the watchdog.  If the process dies while a
    change is pending, the one that replaces it holds the same snapshot and
    is armed for the original deadline, or for now when that has passed. *)
Theorem restart_rearms_watchdog e st0 st1 st2 e' cfg
  (He : disk_ok e) (Ha : Apply execute afterReload e st0 = (st1, Ok tt))
  (Hw : waits execute afterReload save any_event st1 st2) :
  exists ac, p_change (snd (restart e' cfg st2)) = Some ac
    /\ ac_snapshot ac = snap_of (m_kernel (fst st0))
    /\ ac_timer ac = Some (Z.max (m_now (fst st2)) (m_now (fst st0) + firewallConfirmWindow)).
Proof.
  destruct (Apply_Ok execute afterReload e st0 st1 He Ha) as (_ & Hp & _).
  destruct (waits_pending execute afterReload save _ _ _ _ _ Hw Hp) as [Hp2 _].
  destruct (restart_pending _ _ _ e' cfg Hp2) as ([(ac & Hc & Hs & _) _ _] & ac' & Hc' & Ht & _).
  exists ac. rewrite Hc in Hc'. injection Hc' as <-. done.
Qed.

(** One change at a time.  While a change is pending a second apply is
    refused and changes nothing, so its watchdog is never orphaned; and a
    timer callback of a change that is no longer the pending one does
    nothing. *)
Theorem single_pending_change e st ac id
  (Hc : p_change (snd st) = Some ac) (Hid : id <> ac_id ac) :
  Apply execute afterReload e st = (st, Err ErrChangePending)
  /\ watchdogFired afterReload e id st = (st, Ok tt)
  /\ (m_rolledBack (fst st) = false -> ApplyAndConfirm execute afterReload e st = (st, Err ErrChangePending)).
Proof.
  pose proof (Apply_pending execute afterReload e st ac Hc) as HA. split_and!; [done| |].
  - destruct st as [m p]. cbn in Hc. unfold watchdogFired. rewrite Hc.
    by rewrite (proj2 (Nat.eqb_neq _ _) (not_eq_sym Hid)).
  - intros Hm. unfold ApplyAndConfirm. by rewrite Hm, HA.
Qed.

(** Confirming makes exactly the applied ruleset permanent.  If the
    process has not been restarted since the apply, then even when the
    configuration was edited in between, the boot file receives the very text
    that was loaded into the kernel; the pending record and the rolled-back
    marker are cleared and no change is pending. *)
Theorem confirm_persists_applied e st0 st1 st2 e'
  (He : disk_ok e) (Ha : Apply execute afterReload e st0 = (st1, Ok tt))
  (Hw : waits execute afterReload save no_restart st1 st2)
  (Hne : p_applied (snd st1) <> "") (He' : disk_ok e') (Hboot : e_boot e' = Ok tt) :
  let st3 := Confirm execute e' st2 in
  exists rendered k, m_boot (fst st3) = Some rendered
    /\ RenderConfig execute (p_cfg (snd st0)) = Ok rendered
    /\ nft_load rendered (m_kernel (fst st0)) = Some k /\ m_kernel (fst st1) = afterReload k
    /\ m_pending (fst st3) = None /\ m_rolledBack (fst st3) = false /\ p_change (snd st3) = None
    /\ m_kernel (fst st3) = m_kernel (fst st2).
Proof.
  destruct (Apply_Ok execute afterReload e st0 st1 He Ha) as (_ & Hp & _ & _ & k' & Hr & Hl & Hk).
  pose proof (waits_applied execute afterReload save _ _ _ _ Hw Hp) as Hsame.
  destruct (waits_pending execute afterReload save _ _ _ _ _ Hw Hp) as [[(ac & Hc & _) _ _] _].
  intros st3. exists (p_applied (snd st1)), k'. unfold st3, Confirm. destruct st2 as [m p]. cbn in Hsame, Hc.
  rewrite Hc. unfold persistConfirmedRuleset. cbn [p_applied p_cfg].
  rewrite Hsame, (proj2 (String.eqb_neq _ _) Hne), Hboot.
  destruct He' as (_ & Hcl & _ & Hun). unfold clearPendingState, clearRolledBack. rewrite Hcl, Hun. cbn.
  by split_and!.
Qed.

(** A rolled-back edit is not re-installed behind the operator's back.
    Once the watchdog has fired, every background apply is refused without
    touching anything, through any sequence of events, restarts included,
    in which the operator does not confirm a change. *)
Theorem rollback_blocks_background evs e st
  (Hm : m_rolledBack (fst st) = true) (Hok : Forall event_ok evs)
  (Hnc : Forall (fun ev => match ev with EvConfirm _ => False | _ => True end) evs) :
  let st' := run execute afterReload save evs st in
  m_rolledBack (fst st') = true
  /\ ApplyAndConfirm execute afterReload e st' = (st', Err ErrRolledBack).
Proof.
  intros st'. assert (Hm' : m_rolledBack (fst st') = true).
  { unfold st'. clear st'. revert st Hm. induction evs as [|ev evs IH]; intros st Hm; [done|].
    inversion Hok as [|? ? Hok1 Hok2]; subst. inversion Hnc as [|? ? Hnc1 Hnc2]; subst.
    apply (IH Hok2 Hnc2). clear IH. destruct st as [m p]. cbn in Hm.
    destruct ev as [x|x|x|x id|x|x cfg| |x|d|k]; cbn [step]; try done.
    - unfold Apply, persistPendingState. repeat case_match; cbn; done.
    - unfold Rollback, clearPendingState. repeat case_match; cbn; done.
    - unfold watchdogFired, clearPendingState, markRolledBack. repeat case_match; cbn; done.
    - unfold ApplyAndConfirm. cbn [fst]. by rewrite Hm.
    - unfold restart, clearPendingState. repeat case_match; cbn; done.
    - destruct (run_edit save x (p_cfg p)). done. }
  split; [done|]. unfold ApplyAndConfirm. by rewrite Hm'.
Qed.

(** After a restart the boot file is rendered again from the configuration,
    which may have been edited since the apply. *)
Lemma confirm_after_restart_rerenders e st0 st1 st2 e' cfg rendered
  (He : disk_ok e) (Ha : Apply execute afterReload e st0 = (st1, Ok tt))
  (Hw : waits execute afterReload save any_event st1 st2) (Hboot : e_boot e' = Ok tt)
  (Hr : RenderConfig execute cfg = Ok rendered) :
  m_boot (fst (Confirm execute e' (restart e' cfg st2))) = Some rendered.
Proof.
  destruct (Apply_Ok execute afterReload e st0 st1 He Ha) as (_ & Hp & _).
  destruct (waits_pending execute afterReload save _ _ _ _ _ Hw Hp) as [[_ Hrec _] _].
  destruct st2 as [m p]. cbn in Hrec. unfold restart.
  rewrite Hrec, (proj2 (String.eqb_neq _ _) (snap_of_nonempty (m_kernel (fst st0)))).
  unfold Confirm, persistConfirmedRuleset, clearPendingState, clearRolledBack. cbn. rewrite Hr, Hboot.
  by repeat case_match.
Qed.

(** A rollback that fails is given up: the change is dropped and its record
    removed although the new ruleset is still in force. *)
Lemma failed_rollback_gives_up e m p ac er
  (Hc : p_change p = Some ac) (Hs : ac_snapshot ac <> "") (Hst : e_stageRollback e = Err er)
  (Hd : disk_ok e) :
  let '(st', r) := watchdogFired afterReload e (ac_id ac) (m, p) in
  r <> Ok tt /\ m_kernel (fst st') = afterReload (m_kernel m)
  /\ m_pending (fst st') = None /\ p_change (snd st') = None.
Proof.
  unfold watchdogFired, AtomicRollback. rewrite Hc, Nat.eqb_refl, (proj2 (String.eqb_neq _ _) Hs), Hst.
  destruct Hd as (_ & Hcl & Hmk & _). cbn. unfold clearPendingState, markRolledBack. rewrite Hcl, Hmk. done.
Qed.

End Claims.

(** ** Edits *)

Lemma removeAt_spec {A} (l : list A) i what :
  (0 <= i < Z.of_nat (length l) ->
     removeAt l i what = (take (Z.to_nat i) l ++ drop (S (Z.to_nat i)) l, Ok tt))
  /\ (~ (0 <= i < Z.of_nat (length l)) -> exists e, removeAt l i what = ([], Err e)).
Proof.
  unfold removeAt. destruct (Z.ltb_spec i 0), (Z.leb_spec (Z.of_nat (length l)) i); cbn; split; intros; try lia; eauto.
Qed.

Lemma updateAt_spec {A} (l : list A) i what f :
  (0 <= i < Z.of_nat (length l) -> updateAt l i what f = (alter f (Z.to_nat i) l, Ok tt))
  /\ (~ (0 <= i < Z.of_nat (length l)) -> exists e, updateAt l i what f = (l, Err e)).
Proof.
  unfold updateAt. destruct (Z.ltb_spec i 0), (Z.leb_spec (Z.of_nat (length l)) i); cbn; split; intros; try lia; eauto.
Qed.

Lemma maxPriority_spec rules acc ub :
  Forall (fun x => FirewallRule_Priority x <= ub) rules -> 0 <= acc <= ub ->
  let m := foldl (fun acc r => Z.max acc (FirewallRule_Priority r)) acc rules in
  Forall (fun x => FirewallRule_Priority x <= m) rules /\ acc <= m <= ub.
Proof.
  revert acc. induction rules as [|r rules IH]; intros acc Hub Hacc; cbn; [split; [constructor|lia]|].
  inversion Hub; subst. destruct (IH (Z.max acc (FirewallRule_Priority r))) as [Hall Hm]; [done|lia|].
  cbv zeta in *. split; [|lia]. constructor; [lia|done].
Qed.

(** An edit touches the firewall section alone. *)
Lemma run_edit_frame save x cfg : exists fw, fst (run_edit save x cfg) = set_Config_Firewall fw cfg.
Proof.
  assert (Hm : forall change, exists fw, fst (mutate save change cfg) = set_Config_Firewall fw cfg).
  { intros change. unfold mutate. destruct (change (Config_Firewall cfg)) as [fw err]. exists fw. by destruct err. }
  destruct x; cbn [run_edit]; try (by apply Hm). unfold SetTTLFix. destruct (_ || _); [|by apply Hm].
  exists (Config_Firewall cfg). by destruct cfg.
Qed.

Definition ttl_ok (cfg : Config) : Prop :=
  0 <= TTLFixConfig_Value (FirewallConfig_TTLFix (Config_Firewall cfg)) <= 255.

Lemma run_edit_ttl save x cfg : ttl_ok cfg -> ttl_ok (fst (run_edit save x cfg)).
Proof.
  unfold ttl_ok. intros Ht. destruct x; cbn [run_edit];
    unfold AddOpenPort, RemoveOpenPort, ToggleOpenPort, AddPortForward, RemovePortForward, AddRule, RemoveRule,
      ToggleRule, SetTTLFix, mutate; repeat case_match; simplify_eq; cbn; try done.
  bool_hyps. lia.
Qed.

(** What the firewall edits do.  Removing an element at a valid index
    removes exactly that element, toggling one changes only its flag; adding
    a rule appends it, and one without a priority gets a priority ten above
    every other; every edit leaves the rest of the configuration alone, and any
    sequence of edits keeps the hop limit the template renders within what
    an IP header can carry. *)
Theorem firewall_edits save xs cfg
  (Ht : ttl_ok cfg) :
  let cfg' := foldl (fun c x => fst (run_edit save x c)) cfg xs in
  1 <= TTLFixValue (buildTemplateData cfg') <= 255
  /\ (exists fw, cfg' = set_Config_Firewall fw cfg)
  /\ (forall i, 0 <= i < Z.of_nat (length (FirewallConfig_OpenPorts (Config_Firewall cfg))) ->
        FirewallConfig_OpenPorts (Config_Firewall (fst (RemoveOpenPort save i cfg)))
        = take (Z.to_nat i) (FirewallConfig_OpenPorts (Config_Firewall cfg))
          ++ drop (S (Z.to_nat i)) (FirewallConfig_OpenPorts (Config_Firewall cfg)))
  /\ (forall i b, 0 <= i < Z.of_nat (length (FirewallConfig_OpenPorts (Config_Firewall cfg))) ->
        FirewallConfig_OpenPorts (Config_Firewall (fst (ToggleOpenPort save i b cfg)))
        = alter (set_OpenPort_Enabled b) (Z.to_nat i) (FirewallConfig_OpenPorts (Config_Firewall cfg)))
  /\ (forall r, FirewallRule_Priority r <> 0 ->
        FirewallConfig_Rules (Config_Firewall (fst (AddRule save r cfg)))
        = FirewallConfig_Rules (Config_Firewall cfg) ++ [r])
  /\ (forall r, FirewallRule_Priority r = 0 ->
        Forall (fun x => FirewallRule_Priority x <= int64_max - 10) (FirewallConfig_Rules (Config_Firewall cfg)) ->
        exists prio, FirewallConfig_Rules (Config_Firewall (fst (AddRule save r cfg)))
          = FirewallConfig_Rules (Config_Firewall cfg) ++ [set_FirewallRule_Priority prio r]
          /\ Forall (fun x => FirewallRule_Priority x + 10 <= prio) (FirewallConfig_Rules (Config_Firewall cfg))).
Proof.
  refine (conj _ (conj _ (conj _ (conj _ (conj _ _))))).
  - assert (Hk : forall c, ttl_ok c -> ttl_ok (foldl (fun c x => fst (run_edit save x c)) c xs)).
    { induction xs as [|x xs IH]; intros c Hc; [done|]. cbn. by apply IH, run_edit_ttl. }
    specialize (Hk cfg Ht). unfold ttl_ok in Hk. cbn. destruct (_ =? 0) eqn:E; bool_hyps; lia.
  - clear Ht. revert cfg. induction xs as [|x xs IH]; intros cfg; cbn.
    + exists (Config_Firewall cfg). by destruct cfg.
    + destruct (run_edit_frame save x cfg) as [fw ->]. destruct (IH (set_Config_Firewall fw cfg)) as [fw' ->].
      by exists fw'.
  - intros i Hi. unfold RemoveOpenPort, mutate. by rewrite (proj1 (removeAt_spec _ i "open port") Hi).
  - intros i b Hi. unfold ToggleOpenPort, mutate. by rewrite (proj1 (updateAt_spec _ i "open port" _) Hi).
  - intros r Hr. unfold AddRule, mutate. rewrite (proj2 (Z.eqb_neq _ _) Hr). by cbn.
  - intros r Hr Hmax. unfold AddRule, mutate. rewrite Hr. cbn. eexists. split; [done|].
    destruct (maxPriority_spec (FirewallConfig_Rules (Config_Firewall cfg)) 0 (int64_max - 10)) as [Hle Hub]; [done| |].
    { unfold int64_max. lia. }
    rewrite wrap64_id; [|unfold in_int64, maxPriority, int64_min, int64_max in *; apply andb_true_iff; rewrite !Z.leb_le; lia].
    eapply Forall_impl; [|exact Hle]. cbn. unfold maxPriority. lia.
Qed.

(** A remove with an index out of range empties the list in memory: the nil
    slice returned beside the error is assigned before the error is looked
    at. *)
Lemma remove_out_of_range_empties save i cfg :
  ~ (0 <= i < Z.of_nat (length (FirewallConfig_OpenPorts (Config_Firewall cfg)))) ->
  FirewallConfig_OpenPorts (Config_Firewall (fst (RemoveOpenPort save i cfg))) = []
  /\ exists e, snd (RemoveOpenPort save i cfg) = Err e.
Proof.
  intros Hi. unfold RemoveOpenPort, mutate.
  destruct (proj2 (removeAt_spec (FirewallConfig_OpenPorts (Config_Firewall cfg)) i "open port") Hi) as [e ->].
  cbn. eauto.
Qed.

(** ** Concrete runs *)

(** A toy nft with three rulesets. *)
Inductive toy : Type := TEmpty | TOld | TNew.

Definition toy_list (k : toy) : string := match k with TEmpty => "" | TOld => "old" | TNew => "new" end.

Definition toy_load (f : string) (k : toy) : option toy :=
  if String.eqb f "new" || String.eqb f (flushPrefix +:+ "new") then Some TNew
  else if String.eqb f (flushPrefix +:+ "old") then Some TOld
  else if String.eqb f (flushPrefix +:+ emptyRulesetSnapshot) then Some TEmpty
  else None.

#[export] Instance toy_nft : NFT.
Proof.
  refine {| ruleset := toy; nft_list := toy_list; nft_check := fun _ _ => true; nft_load := toy_load |}.
  - intros [] k'; cbn; intros Hne; try reflexivity. by destruct Hne.
  - intros [] k'; cbn; intros He; try discriminate He. reflexivity.
Defined.

Definition good : env := {|
  e_list := Ok tt; e_check := Ok tt; e_load := Ok tt; e_stage := Ok tt; e_stageRollback := Ok tt;
  e_boot := Ok tt; e_writeState := Ok tt; e_clearState := Ok tt; e_mark := Ok tt; e_unmark := Ok tt |}.

Definition toy_render (d : nftTemplateData) : result string := Ok "new".
Definition no_hook (k : @ruleset toy_nft) : @ruleset toy_nft := k.
Definition save_ok (c : Config) : result unit := Ok tt.

Definition toy_state : @state toy_nft :=
  (@mkMachine toy_nft TOld None false None 1000, mkProcess Config_zero None "" 0).
Definition toy_applied : @state toy_nft := fst (@Apply toy_nft toy_render no_hook good toy_state).

Lemma good_disk : disk_ok good.
Proof. by repeat split. Qed.

(** The operator loses access, the process restarts, the watchdog fires. *)
Definition toy_restarted : @state toy_nft := restart good Config_zero toy_applied.

Lemma toy_waits : waits toy_render no_hook save_ok any_event toy_applied toy_restarted.
Proof.
  apply (waits_step _ _ _ _ _ (EvRestart good Config_zero)); [apply good_disk|done|by intros []|].
  apply waits_refl.
Qed.

Lemma watchdog_reverts_witness :
  exists ac, p_change (snd toy_restarted) = Some ac
    /\ (forall d, ac_timer ac = Some d -> m_now (fst toy_state) + firewallConfirmWindow <= d)
    /\ forall e', disk_ok e' -> e_stageRollback e' = Ok tt -> e_load e' = Ok tt ->
       let '(st3, r) := watchdogFired no_hook e' (ac_id ac) toy_restarted in
       r = Ok tt /\ m_kernel (fst st3) = no_hook (m_kernel (fst toy_state))
       /\ m_pending (fst st3) = None /\ m_rolledBack (fst st3) = true
       /\ m_boot (fst st3) = m_boot (fst toy_state) /\ p_change (snd st3) = None.
Proof.
  apply (watchdog_reverts toy_render no_hook save_ok good toy_state toy_applied toy_restarted good_disk).
  - reflexivity.
  - apply toy_waits.
Defined.

Lemma restart_rearms_watchdog_witness :
  exists ac, p_change (snd (restart good Config_zero toy_restarted)) = Some ac
    /\ ac_snapshot ac = snap_of (m_kernel (fst toy_state))
    /\ ac_timer ac = Some (Z.max (m_now (fst toy_restarted)) (m_now (fst toy_state) + firewallConfirmWindow)).
Proof.
  apply (restart_rearms_watchdog toy_render no_hook save_ok good toy_state toy_applied toy_restarted
           good Config_zero good_disk).
  - reflexivity.
  - apply toy_waits.
Defined.

Lemma single_pending_change_witness :
  Apply toy_render no_hook good toy_applied = (toy_applied, Err ErrChangePending)
  /\ watchdogFired no_hook good 7 toy_applied = (toy_applied, Ok tt)
  /\ (m_rolledBack (fst toy_applied) = false ->
      ApplyAndConfirm toy_render no_hook good toy_applied = (toy_applied, Err ErrChangePending)).
Proof.
  apply (single_pending_change toy_render no_hook good toy_applied
           (mkChange 0 "old" true (Some (1000 + firewallConfirmWindow))) 7).
  - reflexivity.
  - discriminate.
Defined.

Lemma confirm_persists_applied_witness :
  exists rendered k, m_boot (fst (Confirm toy_render good toy_applied)) = Some rendered
    /\ RenderConfig toy_render Config_zero = Ok rendered
    /\ nft_load rendered TOld = Some k /\ m_kernel (fst toy_applied) = no_hook k
    /\ m_pending (fst (Confirm toy_render good toy_applied)) = None
    /\ m_rolledBack (fst (Confirm toy_render good toy_applied)) = false
    /\ p_change (snd (Confirm toy_render good toy_applied)) = None
    /\ m_kernel (fst (Confirm toy_render good toy_applied)) = m_kernel (fst toy_applied).
Proof.
  apply (confirm_persists_applied toy_render no_hook save_ok good toy_state toy_applied toy_applied good good_disk).
  - reflexivity.
  - apply waits_refl.
  - discriminate.
  - apply good_disk.
  - reflexivity.
Defined.

Definition toy_rolledback : @state toy_nft := fst (watchdogFired no_hook good 0 toy_applied).

Lemma rollback_blocks_background_witness :
  m_rolledBack (fst (run toy_render no_hook save_ok [EvRestart good Config_zero; EvApply good] toy_rolledback)) = true
  /\ ApplyAndConfirm toy_render no_hook good
       (run toy_render no_hook save_ok [EvRestart good Config_zero; EvApply good] toy_rolledback)
     = (run toy_render no_hook save_ok [EvRestart good Config_zero; EvApply good] toy_rolledback, Err ErrRolledBack).
Proof.
  apply (rollback_blocks_background toy_render no_hook save_ok
           [EvRestart good Config_zero; EvApply good] good toy_rolledback).
  - reflexivity.
  - apply List.Forall_cons; [apply good_disk|]. apply List.Forall_cons; [apply good_disk|apply List.Forall_nil].
  - by repeat constructor.
Defined.

Lemma firewall_edits_witness :
  1 <= TTLFixValue (buildTemplateData
        (foldl (fun c x => fst (run_edit save_ok x c)) Config_zero [ESetTTLFix true 300; ESetTTLFix true 65])) <= 255.
Proof.
  apply (firewall_edits save_ok [ESetTTLFix true 300; ESetTTLFix true 65] Config_zero).
  vm_compute. split; discriminate.
Defined.
