(* ===== verification/Outbound.v ===== *)
(** * internal/services/safefetch.go and the address guard of dns.go

    Which destinations the router may be talked into connecting to.  The
    networks of its own interfaces come from the operating system, so they are
    an argument; [net.LookupIP] and [url.Parse] are arguments too. *)

From S2P Require Import Prelude GoStrings GoNet GoIP.

Local Open Scope Z_scope.
Local Open Scope go_scope.

Section Guard.

(** [localInterfaceNets]: the networks of this host's interfaces, or the error
    of listing them. *)
Variable localInterfaceNets : result (list IPNet).

Definition onLocalNetwork (ip : IP) : bool :=
  match localInterfaceNets with
  | Err _ => true
  | Ok nets => existsb (fun n => Contains_ip n ip) nets
  end.

(** [isInternalIP]; the nil address is [None]. *)
Definition isInternalIP (ip : option IP) : bool :=
  match ip with
  | None => true
  | Some ip =>
      if IsLoopback ip || IsLinkLocalUnicast ip || IsUnspecified ip then true
      else if IsPrivate ip then true
      else onLocalNetwork ip
  end.

(** The dialer's Control hook. *)
Definition refuseInternalAddress (network address : string) : result unit :=
  if negb (existsb (String.eqb network) ["tcp"; "tcp4"; "tcp6"])
  then Err (Errorf "refusing to dial network %q" [network])
  else
    let? (host, _) := wrap_err "parse dial address %q: %w" [address] (SplitHostPort address) in
    match ParseIP host with
    | None => Err (Errorf "dial address %q is not an IP address" [address])
    | Some ip => fail_if (isInternalIP (Some ip)) (Errorf "refusing to connect to internal address %s" [IP_String ip])
    end.

(** ** The addresses a name may resolve to *)

Variable LookupIP : string -> result (list IP).

Definition validateDoTHostNotInternal (host : string) : result unit :=
  let? addrs :=
    match ParseIP host with
    | Some ip => Ok [ip]
    | None =>
        let? ips := wrap_err "resolve %q: %w" [host] (LookupIP host) in
        guard! fail_if (match ips with [] => true | _ => false end) (Errorf "no addresses for %q" [host]) ;;
        Ok ips
    end in
  match List.find (fun ip => isInternalIP (Some ip)) addrs with
  | Some ip =>
      Err (Errorf "DoT upstream %q resolves to a private/loopback/link-local address (%s); refusing to probe internal hosts"
             [host; IP_String ip])
  | None => Ok tt
  end.

End Guard.

(** ** Bodies *)

Definition maxFetchBytes : Z := Z.shiftl 32 20.

Fixpoint take_bytes (n : Z) (s : string) : string :=
  match s with
  | "" => ""
  | String a r => if n <=? 0 then "" else String a (take_bytes (n - 1) r)
  end.

(** What a parser reads of a response: at most one byte past the limit, and
    whether that byte was there. *)
Definition limitedBody (body : string) : string * bool :=
  (take_bytes (maxFetchBytes + 1) body, maxFetchBytes <? len body).

Definition errFetchTooLarge : error := Errorf "response exceeds the %d byte limit" [itoa maxFetchBytes].

(** [validateOutboundURL]; the scheme and host are what [url.Parse] gave for
    the trimmed text. *)
Definition validateOutboundURL (parse : string -> result (string * string)) (raw : string) : result unit :=
  let? (scheme, host) := wrap_err "parse URL: %w" [] (parse (TrimSpace raw)) in
  guard! fail_if (negb (String.eqb scheme "http") && negb (String.eqb scheme "https"))
    (Errorf "URL must use http or https, got %q" [scheme]) ;;
  fail_if (String.eqb host "") (Errorf "URL %q has no host" [raw]).

(** ** What the guard lets through *)

(** An address of the public Internet, seen from a host on the networks
    [nets]. *)
Definition public (nets : result (list IPNet)) (ip : IP) : Prop :=
  IsLoopback ip = false /\ IsLinkLocalUnicast ip = false /\ IsUnspecified ip = false /\ IsPrivate ip = false
  /\ exists ns, nets = Ok ns /\ Forall (fun n => Contains_ip n ip = false) ns.

Lemma isInternalIP_public nets ip : isInternalIP nets (Some ip) = false <-> public nets ip.
Proof.
  unfold isInternalIP, public, onLocalNetwork.
  destruct (IsLoopback ip), (IsLinkLocalUnicast ip), (IsUnspecified ip), (IsPrivate ip); cbn [orb];
    try (split; [done|]; by intros (? & ? & ? & ? & _)).
  destruct nets as [ns|e].
  - rewrite <- not_true_iff_false, existsb_exists. split.
    + intros H. split_and!; try done. exists ns. split; [done|]. rewrite list.Forall_forall. intros n Hn.
      destruct (Contains_ip n ip) eqn:E; [|done]. exfalso. apply H. exists n. split; [by apply list_elem_of_In|done].
    + intros (_ & _ & _ & _ & ns' & [= <-] & HF) (n & Hin & Hc). rewrite list.Forall_forall in HF.
      rewrite HF in Hc; [done|]. by apply list_elem_of_In.
  - split; [done|]. by intros (_ & _ & _ & _ & ns' & ? & _).
Qed.

(** A dial passes exactly when it is a TCP dial to a literal public address. *)
Lemma refuseInternalAddress_iff nets network address :
  refuseInternalAddress nets network address = Ok tt <->
  In network ["tcp"; "tcp4"; "tcp6"]
  /\ exists host port ip, SplitHostPort address = Ok (host, port) /\ ParseIP host = Some ip /\ public nets ip.
Proof.
  unfold refuseInternalAddress. destruct (existsb (String.eqb network) _) eqn:En; cbn [negb].
  - assert (Hin : In network ["tcp"; "tcp4"; "tcp6"]).
    { apply existsb_exists in En as (x & Hx & He). apply String.eqb_eq in He as <-. done. }
    destruct (SplitHostPort address) as [[host port]|e]; cbn [wrap_err result_bind].
    + destruct (ParseIP host) as [ip|] eqn:Ep.
      * rewrite fail_if_Ok, isInternalIP_public. split.
        -- intros H. split; [done|]. by exists host, port, ip.
        -- intros (_ & h & p & i & [= <- <-] & Hp & H). congruence.
      * split; [done|]. intros (_ & h & p & i & [= <- <-] & Hp & H). congruence.
    + split; [done|]. by intros (_ & h & p & i & ? & _).
  - split; [done|]. intros (Hin & _). exfalso.
    rewrite <- not_true_iff_false in En. apply En. apply existsb_exists. exists network.
    split; [done|]. apply String.eqb_refl.
Qed.

Lemma validateDoTHost_public nets lookup host :
  validateDoTHostNotInternal nets lookup host = Ok tt ->
  exists addrs, (ParseIP host = None -> lookup host = Ok addrs) /\ (forall ip, ParseIP host = Some ip -> addrs = [ip])
    /\ addrs <> [] /\ Forall (public nets) addrs.
Proof.
  unfold validateDoTHostNotInternal. intros HE. inv_ok.
  destruct (List.find _ x) eqn:Ef; [discriminate|]. exists x.
  assert (HF : Forall (public nets) x).
  { rewrite List.Forall_forall. intros ip Hin. apply isInternalIP_public. exact (List.find_none _ _ Ef ip Hin). }
  destruct (ParseIP host) as [ip|].
  - inv_ok. subst. split_and!; [done| |done|done]. by intros ? [= <-].
  - inv_ok. subst. split_and!; [done|done| |done]. intros ->. done.
Qed.
