(* ===== verification/Sys.v ===== *)
(** * Services as programs over the calls they make

    A service of internal/services reaches the machine through netutil, which
    forwards to the root agent, through its own process and through
    [Config.SaveToFile].  This file gives the monad its operations are written
    in: a program reads and writes the service's state, makes calls and
    receives an answer to each.  The world is any function from the calls made
    so far and the next call to its answer, so a theorem about a program
    quantifies over every behaviour of the machine.  [triple] is the program
    logic, and [allowedb] decides whether the agent's tables let a call
    through. *)

From S2P Require Import Prelude GoStrings GoPath Encoding ConfigTypes AgentRules AgentOps AgentServer AgentClient.

Local Open Scope Z_scope.

(** ** Calls *)

(** [netutil.Run] and its variants, [netutil.WriteFile], [netutil.ReadFile],
    [netutil.MkdirAll], [Config.SaveToFile], and what a process does on its
    own account (files of its own, network connections), by name. *)
Inductive call : Type :=
| CRun (name : string) (args : list string) (stdin : string)
| CWriteFile (path content : string) (mode : Z)
| CReadFile (path : string)
| CMkdirAll (path : string) (mode : Z)
| CSave (cfg : Config)
| CLocal (what : string) (args : list string).

Definition world : Type := list call -> call -> result string.

(** ** The monad *)

Definition svc (S A : Type) : Type := world -> list call -> S -> A * S * list call.

#[export] Instance svc_ret S : MRet (svc S) := fun A a w h s => (a, s, h).
#[export] Instance svc_bind S : MBind (svc S) := fun A B k m w h s =>
  let '(a, s', h') := m w h s in k a w h' s'.

Definition get {S} : svc S S := fun w h s => (s, s, h).
Definition put {S} (s : S) : svc S unit := fun w h _ => (tt, s, h).

(** Makes one call and gives its answer. *)
Definition perform {S} (c : call) : svc S (result string) := fun w h s => (w h c, s, h ++ [c]).

Definition discard {A} (r : result A) : result unit :=
  match r with Ok _ => Ok tt | Err e => Err e end.

Definition Run {S} (name : string) (args : list string) : svc S (result string) := perform (CRun name args "").
Definition RunWithStdin {S} (stdin name : string) (args : list string) : svc S (result string) :=
  perform (CRun name args stdin).
Definition WriteFile {S} (path content : string) (mode : Z) : svc S (result unit) :=
  r ← perform (CWriteFile path content mode); mret (discard r).
Definition ReadFile {S} (path : string) : svc S (result string) := perform (CReadFile path).
Definition MkdirAll {S} (path : string) (mode : Z) : svc S (result unit) :=
  r ← perform (CMkdirAll path mode); mret (discard r).
Definition LocalCall {S} (what : string) (args : list string) : svc S (result string) := perform (CLocal what args).
Definition SaveToFile {S} (cfg : Config) : svc S (result unit) :=
  r ← perform (CSave cfg); mret (discard r).

(** [x, err := m(); if err != nil { return err }]. *)
Definition try_bind {S A B} (m : svc S (result A)) (k : A -> svc S (result B)) : svc S (result B) :=
  r ← m; match r with Ok a => k a | Err e => mret (Err e) end.

(** [fmt.Errorf] with a wrapped error around what [m] gives. *)
Definition wrapping {S A} (format : string) (args : list string) (m : svc S (result A)) : svc S (result A) :=
  r ← m; mret (wrap_err format args r).

Declare Scope sys_scope.
Delimit Scope sys_scope with sys.
Notation "'try!' x ':=' m 'in' k" := (try_bind m (fun x => k))
  (at level 200, x pattern, m at level 99, k at level 200,
   format "'[v' 'try!'  x  ':='  m  'in' '/' k ']'") : sys_scope.

(** [for _, x := range l { body }], the body's result dropped. *)
Fixpoint for_each {S A B} (l : list A) (body : A -> svc S B) : svc S unit :=
  match l with
  | [] => mret tt
  | x :: l => body x ;; for_each l body
  end.

(** The same loop with a body that returns on an error. *)
Fixpoint for_try {S A} (l : list A) (body : A -> svc S (result unit)) : svc S (result unit) :=
  match l with
  | [] => mret (Ok tt)
  | x :: l => try_bind (body x) (fun _ => for_try l body)
  end.

(** Running from a fresh history. *)
Definition outcome {S A} (m : svc S A) (w : world) (s : S) : A := fst (fst (m w [] s)).
Definition state_after {S A} (m : svc S A) (w : world) (s : S) : S := snd (fst (m w [] s)).
Definition calls_of {S A} (m : svc S A) (w : world) (s : S) : list call := snd (m w [] s).

(** ** The agent's verdict on a call *)

Abbreviation W0 := (resolveRulePatterns no_links allowedWriteRules).
Abbreviation R0 := (resolveRulePatterns no_links allowedReadRules).

(** The tables of the agent let the call through, on a machine where none of
    the managed directories is a symbolic link. *)
Definition allowedb (c : call) : bool :=
  match c with
  | CRun name args stdin =>
      mem (Base name) allowedCommands && is_ok (validateInvocation no_links W0 R0 (Base name) args stdin)
  | CWriteFile path _ mode =>
      let m := fileMode mode 420 in
      is_ok (validateFileMode m) && is_ok (validateFileExec path m) && checkPathRules no_links path W0
  | CReadFile path => checkPathRules no_links path R0
  | CMkdirAll path mode => is_ok (validateFileMode (fileMode mode 493)) && checkPathRules no_links path W0
  | CSave _ | CLocal _ _ => true
  end.

Definition allowed (c : call) : Prop := allowedb c = true.

(** A world behind the agent: a call its tables refuse fails. *)
Definition behind_agent (w : world) : Prop := forall h c, allowedb c = false -> is_ok (w h c) = false.

Lemma bind_run {S A B} (m : svc S A) (k : A -> svc S B) w h s a s' h' :
  m w h s = (a, s', h') -> mbind k m w h s = k a w h' s'.
Proof. intros Hm. unfold mbind, svc_bind. by rewrite Hm. Qed.

(** ** The program logic *)

(** From a state in [I], the program ends in a result and state in [Q], and
    every call it makes satisfies [P], whatever the world answers. *)
Definition triple {S A} (P : call -> Prop) (I : S -> Prop) (m : svc S A) (Q : A -> S -> Prop) : Prop :=
  forall w h s, I s ->
    Q (fst (fst (m w h s))) (snd (fst (m w h s))) /\ exists t, snd (m w h s) = h ++ t /\ Forall P t.

(** Every call satisfies [P] and every state in [I] stays in [I]. *)
Definition keeps {S A} (P : call -> Prop) (I : S -> Prop) (m : svc S A) : Prop :=
  triple P I m (fun _ => I).

Create HintDb sys.

Section Logic.
Context {S : Type} (P : call -> Prop) (I : S -> Prop).

Lemma triple_ret {A} (a : A) (Q : A -> S -> Prop) : (forall s, I s -> Q a s) -> triple P I (mret a) Q.
Proof. intros H w h s Hs. split; [by apply H|]. exists []. split; [by rewrite app_nil_r|constructor]. Qed.

Lemma triple_bind {A B} (m : svc S A) (k : A -> svc S B) (Q : A -> S -> Prop) (R : B -> S -> Prop) :
  triple P I m Q -> (forall a, triple P (Q a) (k a) R) -> triple P I (mbind k m) R.
Proof.
  intros Hm Hk w h s Hs. specialize (Hm w h s Hs). unfold mbind, svc_bind.
  destruct (m w h s) as [[a s'] h']. cbn in Hm. destruct Hm as [HQ (t & -> & Ht)].
  destruct (Hk a w (h ++ t) s' HQ) as [HR (t' & Ht' & HP)]. split; [done|].
  exists (t ++ t'). split; [by rewrite Ht', app_assoc|]. by apply Forall_app_2.
Qed.

Lemma triple_conseq {A} (m : svc S A) (Q R : A -> S -> Prop) :
  triple P I m Q -> (forall a s, Q a s -> R a s) -> triple P I m R.
Proof. intros H HQ w h s Hs. destruct (H w h s Hs) as [HQ' Ht]. split; [by apply HQ|done]. Qed.

Lemma triple_perform c (Q : result string -> S -> Prop) :
  P c -> (forall r s, I s -> Q r s) -> triple P I (perform c) Q.
Proof. intros Hc HQ w h s Hs. split; [by apply HQ|]. exists [c]. split; [done|]. by constructor. Qed.

Lemma triple_weaken {A} (P' : call -> Prop) (m : svc S A) (Q : A -> S -> Prop) :
  (forall c, P c -> P' c) -> triple P I m Q -> triple P' I m Q.
Proof.
  intros HP H w h s Hs. destruct (H w h s Hs) as [HQ (t & Ht & HF)]. split; [done|].
  exists t. split; [done|]. eapply List.Forall_impl; [|exact HF]. exact HP.
Qed.

Lemma keeps_ret {A} (a : A) : keeps P I (mret a).
Proof. by apply triple_ret. Qed.

Lemma keeps_bind {A B} (m : svc S A) (k : A -> svc S B) :
  keeps P I m -> (forall a, keeps P I (k a)) -> keeps P I (mbind k m).
Proof. intros Hm Hk. exact (triple_bind _ _ _ _ Hm Hk). Qed.

Lemma keeps_perform c : P c -> keeps P I (perform c).
Proof. intros Hc. by apply triple_perform. Qed.

Lemma keeps_get_bind {A} (k : S -> svc S A) : (forall s, I s -> keeps P I (k s)) -> keeps P I (mbind k get).
Proof. intros H w h s Hs. exact (H s Hs w h s Hs). Qed.

Lemma triple_get_bind {A} (k : S -> svc S A) (Q : A -> S -> Prop) :
  (forall s, I s -> triple P I (k s) Q) -> triple P I (mbind k get) Q.
Proof. intros H w h s Hs. exact (H s Hs w h s Hs). Qed.

Lemma triple_put_bind {A} s (k : unit -> svc S A) (Q : A -> S -> Prop) :
  triple P (eq s) (k tt) Q -> triple P I (mbind k (put s)) Q.
Proof. intros H w h s' _. exact (H w h s eq_refl). Qed.

Lemma keeps_put s : I s -> keeps P I (put s).
Proof. intros Hs w h s' _. split; [done|]. exists []. split; [by rewrite app_nil_r|constructor]. Qed.

Lemma keeps_try {A B} (m : svc S (result A)) (k : A -> svc S (result B)) :
  keeps P I m -> (forall a, keeps P I (k a)) -> keeps P I (try_bind m k).
Proof. intros Hm Hk. apply keeps_bind; [done|]. intros [a|e]; [apply Hk|apply keeps_ret]. Qed.

Lemma keeps_wrapping {A} f args (m : svc S (result A)) : keeps P I m -> keeps P I (wrapping f args m).
Proof. intros Hm. apply keeps_bind; [done|]. intros r. apply keeps_ret. Qed.

Lemma keeps_for_each {A B} (l : list A) (body : A -> svc S B) :
  (forall x, In x l -> keeps P I (body x)) -> keeps P I (for_each l body).
Proof.
  induction l as [|x l IH]; intros H; cbn [for_each]; [apply keeps_ret|].
  apply keeps_bind; [apply H; by left|]. intros _. apply IH. intros y Hy. apply H. by right.
Qed.

Lemma keeps_for_try {A} (l : list A) (body : A -> svc S (result unit)) :
  (forall x, In x l -> keeps P I (body x)) -> keeps P I (for_try l body).
Proof.
  induction l as [|x l IH]; intros H; cbn [for_try]; [apply keeps_ret|].
  apply keeps_try; [apply H; by left|]. intros _. apply IH. intros y Hy. apply H. by right.
Qed.

Lemma keeps_Run name args stdin : P (CRun name args stdin) -> keeps P I (RunWithStdin stdin name args).
Proof. apply keeps_perform. Qed.

Lemma keeps_Run0 name args : P (CRun name args "") -> keeps P I (Run name args).
Proof. apply keeps_perform. Qed.

Lemma keeps_WriteFile path content mode : P (CWriteFile path content mode) -> keeps P I (WriteFile path content mode).
Proof. intros H. apply keeps_bind; [by apply keeps_perform|]. intros r. apply keeps_ret. Qed.

Lemma keeps_ReadFile path : P (CReadFile path) -> keeps P I (ReadFile path).
Proof. apply keeps_perform. Qed.

Lemma keeps_MkdirAll path mode : P (CMkdirAll path mode) -> keeps P I (MkdirAll path mode).
Proof. intros H. apply keeps_bind; [by apply keeps_perform|]. intros r. apply keeps_ret. Qed.

Lemma keeps_LocalCall what args : P (CLocal what args) -> keeps P I (LocalCall what args).
Proof. apply keeps_perform. Qed.

Lemma keeps_SaveToFile cfg : P (CSave cfg) -> keeps P I (SaveToFile cfg).
Proof. intros H. apply keeps_bind; [by apply keeps_perform|]. intros r. apply keeps_ret. Qed.

(** What a triple says of a run from the start. *)
Lemma keeps_calls {A} (m : svc S A) w s : keeps P I m -> I s -> Forall P (calls_of m w s) /\ I (state_after m w s).
Proof.
  intros Hm Hs. destruct (Hm w [] s Hs) as [HI (t & Ht & HP)].
  unfold calls_of, state_after. rewrite Ht. by split.
Qed.

End Logic.

#[export] Hint Resolve keeps_ret keeps_perform keeps_put keeps_Run keeps_Run0 keeps_WriteFile keeps_ReadFile
  keeps_MkdirAll keeps_LocalCall keeps_SaveToFile : sys.

(** Walks through a program, leaving the calls and the state updates whose
    side condition needs an argument. *)
Ltac keeps_step :=
  lazymatch goal with
  | |- keeps _ _ (mret _) => apply keeps_ret
  | |- keeps _ _ (mbind _ get) => apply keeps_get_bind; intros
  | |- keeps _ _ (mbind _ _) => apply keeps_bind; [|intros]
  | |- keeps _ _ (try_bind _ _) => apply keeps_try; [|intros]
  | |- keeps _ _ (wrapping _ _ _) => apply keeps_wrapping
  | |- keeps _ _ (for_each _ _) => apply keeps_for_each; intros
  | |- keeps _ _ (for_try _ _) => apply keeps_for_try; intros
  | |- keeps _ _ (Run _ _) => apply keeps_Run0
  | |- keeps _ _ (RunWithStdin _ _ _) => apply keeps_Run
  | |- keeps _ _ (WriteFile _ _ _) => apply keeps_WriteFile
  | |- keeps _ _ (ReadFile _) => apply keeps_ReadFile
  | |- keeps _ _ (MkdirAll _ _) => apply keeps_MkdirAll
  | |- keeps _ _ (LocalCall _ _) => apply keeps_LocalCall
  | |- keeps _ _ (SaveToFile _) => apply keeps_SaveToFile
  | |- keeps _ _ (put _) => apply keeps_put
  | |- keeps _ _ (match ?x with _ => _ end) => destruct x eqn:?
  end.
Ltac walk := repeat keeps_step.

(** ** Lemmas: calls the agent lets through *)

(** A command without an argument rule is allowed whatever its arguments. *)
Definition unguarded (name : string) : bool :=
  mem name allowedCommands && String.eqb (Base name) name
  && negb (existsb (String.eqb name)
       ["systemd-run"; "cp"; "rm"; "chmod"; "chpasswd"; "systemctl"; "mkdir"; "mount"; "tar"; "mkcert"]).

Lemma argValidators_unguarded ev W R name :
  unguarded name = true -> argValidators ev W R name = None /\ stdinValidators name = None.
Proof.
  unfold unguarded. intros H. apply andb_prop in H as [_ H]. apply negb_true_iff in H. cbn [existsb] in H.
  bool_hyps. unfold argValidators, stdinValidators.
  repeat match goal with H : name <> _ |- _ => apply String.eqb_neq in H; rewrite H; clear H end. done.
Qed.

Lemma allowed_unguarded name args stdin : unguarded name = true -> allowed (CRun name args stdin).
Proof.
  intros H. destruct (argValidators_unguarded no_links W0 R0 name H) as [Ha Hs].
  unfold unguarded in H. apply andb_prop in H as [H _]. apply andb_prop in H as [Hm Hb].
  apply String.eqb_eq in Hb. unfold allowed, allowedb. rewrite Hb, Hm. unfold validateInvocation.
  by rewrite Ha, Hs.
Qed.

Lemma allowed_local what args : allowed (CLocal what args).
Proof. done. Qed.

Lemma allowed_save cfg : allowed (CSave cfg).
Proof. done. Qed.

(** Paths and modes of a call that do not depend on its content. *)
Lemma allowed_write path content mode :
  allowedb (CWriteFile path "" mode) = true -> allowed (CWriteFile path content mode).
Proof. done. Qed.

#[export] Hint Resolve allowed_local allowed_save : sys.

(** Closes the admission of a call whose name, arguments or path are given. *)
Ltac allow_call :=
  lazymatch goal with
  | |- allowed (CLocal _ _) => exact eq_refl
  | |- allowed (CSave _) => exact eq_refl
  | |- allowed (CWriteFile _ _ _) => apply allowed_write; vm_compute; reflexivity
  | |- allowed (CRun _ _ _) => first [apply allowed_unguarded; vm_compute; reflexivity | vm_compute; reflexivity]
  | |- allowed _ => vm_compute; reflexivity
  end.

(** ** Lemmas: files below a managed directory *)

Lemma resolve_no_links cs : good_comps cs -> resolveExistingPrefix no_links (abs_path cs) = abs_path cs.
Proof.
  intros Hg. unfold resolveExistingPrefix. cbn [resolve_loop no_links default].
  pose proof (Join_abs_any cs []) as H. rewrite app_nil_r in H. exact (H Hg).
Qed.

Lemma resolve_dir_rule ds : good_comps ds ->
  resolveRule no_links (mkRule (abs_path ds +:+ sep_str) dirPrefix) = mkRule (abs_path ds +:+ sep_str) dirPrefix.
Proof. intros Hg. unfold resolveRule. cbn [kind pattern]. by rewrite TrimSuffix_append, resolve_no_links. Qed.

(** A path strictly below the directory of a rule is admitted. *)
Lemma checkPathRules_below table ds es :
  In (mkRule (abs_path ds +:+ sep_str) dirPrefix) table -> ds <> [] -> es <> [] -> good_comps (ds ++ es) ->
  checkPathRules no_links (abs_path (ds ++ es)) (resolveRulePatterns no_links table) = true.
Proof.
  intros Hin Hd He Hg. pose proof Hg as Hg'. apply Forall_app in Hg' as [Hgd Hge].
  unfold checkPathRules, ruleMatch. rewrite IsAbs_abs_path, Clean_abs_path, String.eqb_refl by done. cbn [negb orb].
  rewrite resolve_no_links by done.
  destruct (List.find _ (resolveRulePatterns no_links table)) as [r|] eqn:Ef; [done|]. exfalso.
  pose proof (List.find_none _ _ Ef (mkRule (abs_path ds +:+ sep_str) dirPrefix)) as Hn.
  cbn beta in Hn.
  assert (Had : admits (mkRule (abs_path ds +:+ sep_str) dirPrefix) (abs_path (ds ++ es)) = true).
  { unfold admits. cbn [kind pattern]. apply HasPrefix_true. exists (join sep_str es).
    unfold abs_path. rewrite !append_assoc. f_equal.
    clear -Hd He. induction ds as [|x ds IH]; [done|]. destruct ds as [|y ds].
    - cbn [app]. by rewrite join_cons.
    - cbn [app] in *. rewrite (join_cons sep_str x (y :: ds ++ es)), (join_cons sep_str x (y :: ds)) by done.
      rewrite IH by done. by rewrite !append_assoc. }
  rewrite Had in Hn. discriminate Hn. apply in_map_iff. eexists. split; [|exact Hin]. by apply resolve_dir_rule.
Qed.

Lemma allowed_rm p : writablePath no_links W0 p = true -> allowed (CRun "rm" ["-f"; "--"; p] "").
Proof.
  intros H. unfold allowed, allowedb. change (Base "rm") with "rm". change (mem "rm" allowedCommands) with true.
  unfold validateInvocation. change (argValidators no_links W0 R0 "rm") with (Some (validateRmArgs no_links W0)).
  unfold validateRmArgs. cbn [String.eqb Ascii.eqb Bool.eqb negb rm_paths]. by rewrite H.
Qed.

Lemma allowed_cp a b : readablePath no_links R0 a = true -> writablePath no_links W0 b = true ->
  allowed (CRun "cp" ["--"; a; b] "").
Proof.
  intros Ha Hb. unfold allowed, allowedb. change (Base "cp") with "cp". change (mem "cp" allowedCommands) with true.
  unfold validateInvocation. change (argValidators no_links W0 R0 "cp") with (Some (validateCpArgs no_links W0 R0)).
  unfold validateCpArgs. cbn [String.eqb Ascii.eqb Bool.eqb negb andb]. by rewrite Ha, Hb.
Qed.

(** A write without execute bits or write bits for others. *)
Lemma allowed_write_path p content mode :
  checkPathRules no_links p W0 = true ->
  is_ok (validateFileMode (fileMode mode 420)) && (Z.land (fileMode mode 420) 73 =? 0) = true ->
  allowed (CWriteFile p content mode).
Proof.
  intros Hp Hm. apply andb_prop in Hm as [Hm Hx]. unfold allowed, allowedb. rewrite Hm, Hp.
  unfold validateFileExec. rewrite Hx. done.
Qed.

(** ** Lemmas: the agent carries out an allowed call *)

(** The parameters of a command survive the trip when they are text. *)
Lemma exec_params_roundtrip cmd args stdin :
  utf8_valid cmd = true -> Forall (fun a => utf8_valid a = true) args -> utf8_valid stdin = true ->
  unmarshal_params ExecParams_fields (mkExecParams "" [] "") (Some (execParams_json cmd args stdin))
  = Ok (mkExecParams cmd args stdin).
Proof.
  intros Hc Ha Hs. unfold execParams_json.
  assert (Hargs : mapM (fun x => match x with JStr s => Some s | JNull => Some "" | _ => None end)
                    (List.map marshal_string args) = Some args).
  { induction Ha as [|a args Ha _ IH]; [done|]. cbn [List.map]. unfold marshal_string at 1. cbn [mapM].
    rewrite IH. cbn. by rewrite to_valid_utf8_id. }
  unfold unmarshal_params. destruct (String.eqb_spec stdin "") as [->|Hne]; cbn -[to_valid_utf8 mapM List.map];
    rewrite ?Hargs; cbn -[to_valid_utf8]; by rewrite !to_valid_utf8_id by done.
Qed.

(** A machine without symbolic links that has every command and whose
    directories can be created and opened. *)
Definition ready (o : os) : Prop :=
  os_symlinks o = no_links /\ (forall p, executable (os_stat o p) = true)
  /\ (forall d, os_mkdirBase o d = Ok tt /\ os_openRoot o d = Ok tt).

Lemma checkPathRules_served table path mkdir openroot refusal :
  table = allowedWriteRules \/ table = allowedReadRules ->
  (forall d, mkdir d = Ok tt /\ openroot d = Ok tt) ->
  checkPathRules no_links path (resolveRulePatterns no_links table) = true ->
  exists b rel, openBeneath no_links mkdir openroot path (resolveRulePatterns no_links table) refusal = Ok (b, rel).
Proof.
  intros Ht Hos Hc. pose proof (resolved_tables_wf no_links table no_links_ok Ht) as Hwf.
  unfold checkPathRules in Hc. destruct (ruleMatch no_links path _) as [[q b]|] eqn:Em; [|discriminate].
  destruct (proj1 (ruleMatch_Some _ _ _ _ _) Em) as (Hca & -> & r & Hf & _).
  apply List.find_some in Hf as [Hin Had].
  exact (openBeneath_serves no_links mkdir openroot path _ refusal r no_links_ok Hwf Hca Hin Had Hos).
Qed.

Lemma resolve_found stat name :
  (forall p, executable (stat p) = true) -> mem name allowedCommands = true ->
  exists p c, resolveAllowedCommand stat ∅ name = (Ok p, c) /\ In p (candidates name).
Proof.
  intros Hx Hm. unfold resolveAllowedCommand. rewrite Hm, lookup_empty. cbn [negb].
  destruct (List.find _ (candidates name)) as [p|] eqn:Ef.
  - eexists _, _. split; [done|]. by apply List.find_some in Ef as [? _].
  - exfalso. destruct (candidates name) as [|p l] eqn:El.
    + unfold candidates in El. by destruct (commandOverrides name).
    + specialize (Hx p). pose proof (List.find_none _ _ Ef p (or_introl eq_refl)) as Hf. cbn beta in Hf. congruence.
Qed.

(** The agent runs an allowed command, with its arguments and input. *)
Lemma allowed_run_executed o name args stdin :
  ready o -> utf8_valid name = true -> Forall (fun a => utf8_valid a = true) args -> utf8_valid stdin = true ->
  allowed (CRun name args stdin) ->
  exists p timeout, In p (candidates (Base name))
    /\ agent_actions W0 R0 o ∅ "exec.run" (execParams_json name args stdin)
       = [AExec p args (if String.eqb stdin "" then None else Some stdin) (commandEnv (Base name)) timeout].
Proof.
  intros (Hl & Hx & _) Hn Ha Hs Hal. unfold allowed, allowedb in Hal. apply andb_prop in Hal as [Hm Hv].
  pose proof (exec_params_roundtrip name args stdin Hn Ha Hs) as Hu. unfold agent_actions.
  remember (execParams_json name args stdin) as j eqn:Hj. clear Hj. unfold dispatch.
  cbn [Req_JSONRPC Req_Method Req_Params Req_TimeoutMS negb String.eqb Ascii.eqb Bool.eqb].
  change (builtinOps W0 R0 "exec.run") with (Some (opExecRun W0 R0)). cbv beta iota zeta.
  unfold opExecRun. rewrite Hu. cbn [Cmd Args Stdin].
  destruct (resolve_found (os_stat o) (Base name) Hx Hm) as (p & c & -> & Hin). rewrite Hl.
  destruct (validateInvocation no_links W0 R0 (Base name) args stdin); [|discriminate Hv].
  unfold envFor. cbn [Cmd]. eexists p, _. split; [done|]. by destruct (run_err _).
Qed.

(** The agent writes an allowed file, with the bytes and mode of the call. *)
Lemma allowed_write_written o path content mode :
  ready o -> (forall b d m, os_mkdirAll o b d m = Ok tt) -> utf8_valid path = true -> 0 < mode < 2 ^ 32 ->
  allowed (CWriteFile path content mode) ->
  exists b rel, confined no_links W0 path b rel
    /\ In (AWrite b rel content mode)
         (agent_actions W0 R0 o ∅ "file.write" (fileWriteParams_json path content mode)).
Proof.
  intros (Hl & _ & Hos) Hmk Hp Hm Hal. unfold allowed, allowedb in Hal.
  apply andb_prop in Hal as [Hal Hc]. apply andb_prop in Hal as [Hmode Hexec].
  rewrite fileMode_id in Hmode, Hexec by done.
  destruct (checkPathRules_served allowedWriteRules path (os_mkdirBase o) (os_openRoot o)
    "write not allowed to path" (or_introl eq_refl) Hos Hc) as (b & rel & Ho).
  exists b, rel. split.
  { eapply openBeneath_Ok; [exact no_links_ok| |exact Ho]. apply resolved_tables_wf; [exact no_links_ok|by left]. }
  destruct (write_params_roundtrip path content mode) as (q & Hu & Hpath & Hmq & Hbody); [done| |].
  { unfold in_int64, int64_min, int64_max. apply andb_true_intro. rewrite !Z.leb_le. lia. }
  unfold agent_actions. remember (fileWriteParams_json path content mode) as j eqn:Hj. clear Hj.
  unfold dispatch. cbn [Req_JSONRPC Req_Method Req_Params Req_TimeoutMS negb String.eqb Ascii.eqb Bool.eqb].
  change (builtinOps W0 R0 "file.write") with (Some (opFileWrite W0)). cbv beta iota zeta.
  unfold opFileWrite. rewrite Hu, Hpath, Hmq, fileMode_id, Hbody, Hl by done.
  destruct (validateFileMode mode) as [[]|]; [|discriminate].
  destruct (validateFileExec path mode) as [[]|]; [|discriminate]. cbn [result_bind]. rewrite Ho.
  assert ((if FW_MkdirP q && negb (String.eqb (Dir rel) ".") then os_mkdirAll o b (Dir rel) 493 else Ok tt) = Ok tt)
    as -> by (destruct (_ && _); [apply Hmk|done]).
  destruct (os_write o b rel content mode); cbn [fst snd]; rewrite !in_app_iff; right; right; by left.
Qed.
