(* ===== verification/SystemService.v ===== *)
(** * internal/services/system.go

    The settings page's privileged operations (root password, hostname,
    timezone, reboot) and the validators of host names, domains and time zones
    that the other services share. *)

From S2P Require Import Prelude GoStrings GoPath Regex GoNet Validate AgentRules Sys.

Local Open Scope Z_scope.
Local Open Scope go_scope.
Local Open Scope sys_scope.

(** ** Patterns *)

Definition label_char (a : ascii) : bool := is_alnum a || Ascii.eqb a "-".

(** [[a-zA-Z0-9]([a-zA-Z0-9-]{0,61}[a-zA-Z0-9])?]. *)
Definition rlabel : regex :=
  RSeq (RCls is_alnum) (ropt (RSeq (rupto 61 (RCls label_char)) (RCls is_alnum))).

Definition hostnamePattern : regex := rlabel.
Definition domainPattern : regex := RSeq rlabel (RStar (RSeq (rchar ".") rlabel)).

Definition tz_char (a : ascii) : bool := is_alnum a || char_in "+_-" a.
Definition timezonePattern : regex :=
  RSeq (rplus (RCls tz_char)) (rupto 2 (RSeq (rchar "/") (rplus (RCls tz_char)))).

Definition maxDomainLength : Z := 253.
Definition minRootPasswordLength : Z := 8.

Definition ErrInvalidHostname : error :=
  Errorf "hostname must be 1-63 characters of letters, digits and interior hyphens" [].
Definition ErrInvalidDomain : error :=
  Errorf "domain must be dot-separated labels of letters, digits and interior hyphens" [].
Definition ErrInvalidTimezone : error := Errorf "timezone must be a tz database name such as Europe/Istanbul" [].
Definition ErrPasswordTooShort : error :=
  Errorf "password must be at least %d characters" [itoa minRootPasswordLength].
Definition ErrPasswordInvalid : error := Errorf "password must not contain control characters" [].

(** ** Validators *)

Definition ValidateHostname (s : string) : result unit :=
  fail_if (negb (matchb hostnamePattern s)) ErrInvalidHostname.

Definition ValidateDomain (s : string) : result unit :=
  fail_if ((maxDomainLength <? len s) || negb (matchb domainPattern s)) ErrInvalidDomain.

Definition ValidateTimezone (s : string) : result unit :=
  fail_if (negb (matchb timezonePattern s)) ErrInvalidTimezone.

(** ** Operations *)

Section Operations.
Context {S : Type}.

Definition SetRootPassword (plaintext : string) : svc S (result unit) :=
  if len plaintext <? minRootPasswordLength then mret (Err ErrPasswordTooShort)
  else if ContainsFunc plaintext IsControl then mret (Err ErrPasswordInvalid)
  else
    try! _ := wrapping "set root password: %w" []
                (RunWithStdin ("root:" +:+ plaintext +:+ char_str "010") "chpasswd" []) in
    mret (Ok tt).

Definition SetHostname (hostname : string) : svc S (result unit) :=
  match ValidateHostname hostname with
  | Err e => mret (Err e)
  | Ok _ =>
      try! _ := wrapping "set hostname: %w" [] (Run "hostnamectl" ["set-hostname"; hostname]) in
      mret (Ok tt)
  end.

Definition SetTimezone (tz : string) : svc S (result unit) :=
  match ValidateTimezone tz with
  | Err e => mret (Err e)
  | Ok _ =>
      try! _ := wrapping "set timezone: %w" [] (Run "timedatectl" ["set-timezone"; tz]) in
      mret (Ok tt)
  end.

Definition Reboot : svc S (result unit) :=
  try! _ := wrapping "reboot: %w" [] (Run "systemctl" ["reboot"]) in mret (Ok tt).

End Operations.

(** ** Lemmas: what passes *)

Definition domain_char (a : ascii) : bool := label_char a || Ascii.eqb a ".".

Lemma over_label (P : ascii -> bool) : (forall a, label_char a = true -> P a = true) -> over P rlabel.
Proof.
  intros H. assert (Ha : forall a, is_alnum a = true -> P a = true).
  { intros a Ha. apply H. unfold label_char. by rewrite Ha. }
  cbn [rlabel over]. split; [done|]. split; [split; [|done]|done].
  generalize 61%nat. intros n. induction n as [|n IH]; [done|]. cbn [rupto over]. by split.
Qed.

Lemma domain_over : over domain_char domainPattern.
Proof.
  assert (H : forall a, label_char a = true -> domain_char a = true)
    by (intros a Ha; unfold domain_char; by rewrite Ha).
  split; [by apply over_label|]. cbn [over]. split; [|by apply over_label].
  intros a Ha. apply Ascii.eqb_eq in Ha as <-. done.
Qed.

Lemma ValidateDomain_chars s : ValidateDomain s = Ok tt -> all_chars domain_char s = true.
Proof.
  unfold ValidateDomain. rewrite fail_if_Ok. intros H. bool_hyps. by eapply matchb_over; [exact domain_over|].
Qed.

Lemma ValidateHostname_chars s : ValidateHostname s = Ok tt -> all_chars label_char s = true.
Proof.
  unfold ValidateHostname. rewrite fail_if_Ok. intros H. bool_hyps.
  eapply matchb_over; [|exact H]. by apply over_label.
Qed.

Lemma matchb_seq_head P r s : matchb (RSeq (RCls P) r) s = true -> exists a t, s = String a t /\ P a = true /\ matchb r t = true.
Proof.
  destruct s as [|a t]; cbn; [done|]. destruct (P a) eqn:E; cbn.
  - intros H. by exists a, t.
  - intros H. exfalso. revert H. clear. induction t as [|b t IH]; cbn; done.
Qed.

(** A validated name is never read as an option. *)
Lemma hostname_head s : ValidateHostname s = Ok tt -> exists a t, s = String a t /\ is_alnum a = true.
Proof.
  unfold ValidateHostname. rewrite fail_if_Ok. intros H. bool_hyps.
  destruct (matchb_seq_head _ _ _ H) as (a & t & -> & Ha & _). eauto.
Qed.

Lemma domain_char_inert a : domain_char a = true -> inert_char a = true.
Proof. apply ascii_impl. vm_compute. reflexivity. Qed.

Lemma label_char_inert a : label_char a = true -> inert_char a = true.
Proof. apply ascii_impl. vm_compute. reflexivity. Qed.

Lemma ValidateDomain_inert s : ValidateDomain s = Ok tt -> all_chars inert_char s = true.
Proof. intros H. eapply all_chars_impl; [apply domain_char_inert|]. by apply ValidateDomain_chars. Qed.

Lemma ValidateDomain_head s : ValidateDomain s = Ok tt -> exists a t, s = String a t /\ is_alnum a = true.
Proof.
  unfold ValidateDomain. rewrite fail_if_Ok. intros H. bool_hyps.
  apply matchb_lang in H0.
  assert (Hseq : forall r1 r2 w, lang (RSeq r1 r2) w -> exists u v, w = u +:+ v /\ lang r1 u).
  { intros r1 r2 w Hw. inversion Hw; subst. eauto. }
  destruct (Hseq _ _ _ H0) as (u & v & -> & Hu). destruct (Hseq _ _ _ Hu) as (x & y & -> & Hx).
  inversion Hx; subst. cbn. eauto.
Qed.

(** ** Lemmas: the calls *)

(** The password rule of the service is the one the agent applies to the
    input of chpasswd. *)
Lemma SetRootPassword_allowed {S} (I : S -> Prop) plaintext : keeps allowed I (SetRootPassword plaintext).
Proof.
  unfold SetRootPassword. walk; try done. unfold allowed, allowedb.
  change (Base "chpasswd") with "chpasswd".
  change (mem "chpasswd" allowedCommands) with true. unfold validateInvocation.
  change (argValidators no_links W0 R0 "chpasswd") with (Some validateChpasswdArgs).
  change (stdinValidators "chpasswd") with (Some validateChpasswdStdin). cbn [andb validateChpasswdArgs].
  rewrite (proj2 (chpasswd_stdin_iff _)); [done|]. exists plaintext. split_and!; [done| |done].
  intros ->. discriminate.
Qed.

Lemma SetHostname_allowed {S} (I : S -> Prop) h : keeps allowed I (SetHostname h).
Proof. unfold SetHostname. walk; allow_call. Qed.

Lemma SetTimezone_allowed {S} (I : S -> Prop) tz : keeps allowed I (SetTimezone tz).
Proof. unfold SetTimezone. walk; allow_call. Qed.

Lemma Reboot_allowed {S} (I : S -> Prop) : keeps allowed I (@Reboot S).
Proof. unfold Reboot. walk; allow_call. Qed.

#[export] Hint Resolve SetRootPassword_allowed SetHostname_allowed SetTimezone_allowed Reboot_allowed : sys.
