(* ===== verification/Dns.v ===== *)
(** * internal/services/dns.go and dns_querylog_rotate.go

    The resolver's service: the data of unbound.conf, the blocklist, the DoT
    upstream, static records, the query log with its tail, ring buffer, top
    lists and rotation.  Outside the sources and therefore parameters: the
    template engine, HTTP responses, name lookups, the host's interface
    addresses, the iteration order of a map, Unicode case folding beyond ASCII
    and [time.ParseDuration]. *)

From Stdlib Require Import Sorted.
From S2P Require Import Prelude GoStrings GoPath GoTime Regex GoNet GoIP Encoding ConfigTypes Outbound.
From S2P Require Import AgentRules FirewallRender Sys SystemService.

Local Open Scope Z_scope.
Local Open Scope go_scope.
Local Open Scope sys_scope.

Definition nl : string := char_str lf.

(** ** The cache size *)

Definition defaultDNSCacheSizeMB : Z := 64.
Definition minDNSCacheSizeMB : Z := 4.
Definition maxDNSCacheSizeMB : Z := 256.

Definition clampCacheSize (mb : Z) : Z :=
  if mb =? 0 then defaultDNSCacheSizeMB
  else if mb <? minDNSCacheSizeMB then minDNSCacheSizeMB
  else if maxDNSCacheSizeMB <? mb then maxDNSCacheSizeMB
  else mb.

(** ** Static records *)

Record renderStaticRecord : Type := mkRender { rr_Name : string; rr_IP : string; rr_LocalZone : bool; rr_PTR : string }.

Definition ipv4PTR (ip : string) : string :=
  match ParseIP ip with
  | None => ""
  | Some parsed =>
      match To4 parsed with
      | Some [a; b; c; d] =>
          itoa d +:+ "." +:+ itoa c +:+ "." +:+ itoa b +:+ "." +:+ itoa a +:+ ".in-addr.arpa."
      | _ => ""
      end
  end.

Definition renderRecord (r : StaticDNSRecord) : renderStaticRecord :=
  mkRender (StaticDNSRecord_Name r) (StaticDNSRecord_IP r) (StaticDNSRecord_LocalZone r)
    (if StaticDNSRecord_DisableAutoPTR r then "" else ipv4PTR (StaticDNSRecord_IP r)).

Definition buildRenderStaticRecords (records : list StaticDNSRecord) : list renderStaticRecord :=
  List.map renderRecord records.

(** ** Served networks *)

(** Appends the network of a CIDR unless it does not parse or is listed. *)
Definition addSubnet (out : list string) (c : string) : list string :=
  match ParseCIDR (TrimSpace c) with
  | None => out
  | Some (_, subnet) =>
      if existsb (String.eqb (IPNet_String subnet)) out then out else out ++ [IPNet_String subnet]
  end.

Definition servedCIDRs (cfg : Config) : list string :=
  let vpn := VPNConfig_Server (Config_VPN cfg) in
  let ovpn := OpenVPNConfig_Server (Config_OpenVPN cfg) in
  List.map InterfaceConfig_Address (List.filter (role_is "lan") (Config_Interfaces cfg))
  ++ List.map VLANConfig_Address (Config_VLANs cfg)
  ++ (if WGServerConfig_Enabled vpn then [WGServerConfig_Address vpn] else [])
  ++ (if OVPNServerConfig_Enabled ovpn then [OVPNServerConfig_Subnet ovpn] else []).

Definition servedClientSubnets (cfg : Config) : list string := foldl addSubnet [] (servedCIDRs cfg).

Record unboundTemplateData : Type := mkUnbound {
  ub_IPv6Enabled : bool;
  ub_AllowSubnets : list string;
  ub_ULAPrefix : string;
  ub_CacheSize : Z;
  ub_QueryLogEnabled : bool;
  ub_QueryLogPath : string;
  ub_EnableDoT : bool;
  ub_DoTUpstream : string;
  ub_EnableDoH : bool;
  ub_StaticRecords : list renderStaticRecord;
}.

(** The data [RenderConfig] hands to the template. *)
Definition unboundData (cfg : Config) : unboundTemplateData :=
  let dns := Config_DNS cfg in
  {| ub_IPv6Enabled := negb (String.eqb (IPv6Config_Enabled (Config_IPv6 cfg)) "off");
     ub_AllowSubnets := servedClientSubnets cfg;
     ub_ULAPrefix := IPv6ULAConfig_Prefix (IPv6LANConfig_ULA (IPv6Config_LAN (Config_IPv6 cfg)));
     ub_CacheSize := clampCacheSize (DNSConfig_CacheSize dns);
     ub_QueryLogEnabled := QueryLogConfig_Enabled (DNSConfig_QueryLog dns);
     ub_QueryLogPath := orDefault (QueryLogConfig_LogPath (DNSConfig_QueryLog dns)) "/var/log/unbound-query.log";
     ub_EnableDoT := DNSConfig_EnableDoT dns;
     ub_DoTUpstream := DNSConfig_DoTUpstream dns;
     ub_EnableDoH := DNSConfig_EnableDoH dns && negb (DNSConfig_EnableDoT dns);
     ub_StaticRecords := buildRenderStaticRecords (DNSConfig_StaticRecords dns) |}.

(** ** The blocklist *)

Definition block_char (a : ascii) : bool := is_alnum a || char_in "_-" a.
Definition blocklistDomainPattern : regex :=
  RSeq (rplus (RCls block_char)) (RStar (RSeq (rchar ".") (rplus (RCls block_char)))).

Definition validBlocklistDomain (domain : string) : bool :=
  (len domain <=? maxDomainLength) && matchb blocklistDomainPattern domain.

Definition parseHostsLine (line : string) : option string :=
  let line := TrimSpace line in
  if String.eqb line "" || HasPrefix line "#" then None
  else match Fields line with
  | addr :: domain :: _ =>
      if negb (String.eqb addr "0.0.0.0") && negb (String.eqb addr "127.0.0.1") then None
      else if String.eqb domain "localhost" || String.eqb domain "0.0.0.0" then None
      else Some domain
  | _ => None
  end.

(** [bufio.ScanLines]: the lines of the input, a final carriage return
    dropped, no line after a trailing newline. *)
Definition scanned_lines (s : string) : list string :=
  let raw := split_byte lf s in
  let raw := if String.eqb (List.last raw "") "" then removelast raw else raw in
  raw.

Definition MaxScanTokenSize : Z := 65536.
Definition ErrTooLong : error := Errorf "bufio.Scanner: token too long" [].

(** The valid domains of one list, in order. *)
Definition listed_domains (s : string) : list string :=
  List.filter validBlocklistDomain
    (omap (fun l => parseHostsLine (TrimSuffix l (char_str "013"))) (scanned_lines s)).

(** An HTTP response: the body and the error its reader ends with, if any. *)
Definition response : Type := (string * option error)%type.

Section Dns.

(** The template engine, the URL parser and the HTTP client. *)
Variable execute : unboundTemplateData -> result string.
Variable url_parse : string -> result (string * string).
Variable fetch : string -> result response.
(** The host's networks and its resolver. *)
Variable localInterfaceNets : result (list IPNet).
Variable LookupIP : string -> result (list IP).

Definition downloadBlocklist (url : string) : result (list string) :=
  guard! validateOutboundURL url_parse url ;;
  let? (body, rderr) := fetch url in
  let '(data, over) := limitedBody body in
  guard! fail_if (existsb (fun l => MaxScanTokenSize <=? len l) (scanned_lines data)) ErrTooLong ;;
  match rderr with
  | Some e => Err e
  | None => if over then Err errFetchTooLarge else Ok (listed_domains data)
  end.

(** The order-preserving removal of repeated names through the map [seen]. *)
Fixpoint dedupe (seen : list string) (l : list string) : list string :=
  match l with
  | [] => []
  | d :: l => if existsb (String.eqb d) seen then dedupe seen l else d :: dedupe (d :: seen) l
  end.

Definition zoneLine (domain : string) : string :=
  "local-zone: " +:+ quote domain +:+ " always_refuse" +:+ nl.

(** The domains of every list that could be downloaded. *)
Definition allDomains (urls : list string) : list string :=
  List.flat_map (fun url => match downloadBlocklist url with Ok ds => ds | Err _ => [] end) urls.

Definition blocklistFile (urls : list string) : string :=
  String.concat "" (List.map zoneLine (dedupe [] (allDomains urls))).

(** ** DNS over TLS *)

Definition parseDoTSpec (spec : string) : string * string * string :=
  let '(spec, sni) := match cut_byte "#" spec with Some (h, t) => (h, t) | None => (spec, "") end in
  let '(spec, port) := match cut_byte "@" spec with Some (h, t) => (h, t) | None => (spec, "853") end in
  (spec, port, sni).

Definition dotSpecChar (a : ascii) : bool := is_alnum a || char_in ".-:@#" a.
Definition hasOnlyDoTSpecChars (s : string) : bool := all_chars dotSpecChar s.

Definition parseAndValidateDoTSpec (spec : string) : result (string * string * string) :=
  guard! fail_if (negb (hasOnlyDoTSpecChars spec))
    (Errorf "DoT upstream contains characters that could inject unbound.conf directives" []) ;;
  let '(host, port, sni) := parseDoTSpec spec in
  guard! fail_if (String.eqb host "") (Errorf "empty or invalid upstream" []) ;;
  guard! fail_if (String.eqb sni "")
    (Errorf "DoT upstream must include #hostname for certificate validation (e.g. %q#cloudflare-dns.com)" [host]) ;;
  guard! fail_if (negb (String.eqb port "853")) (Errorf "DoT upstream port must be 853, got %q" [port]) ;;
  guard! validateDoTHostNotInternal localInterfaceNets LookupIP host ;;
  Ok (host, port, sni).

(** ** The query log *)

Record QueryLogEntry : Type := mkEntry {
  q_Timestamp : Z; q_ClientIP : string; q_Domain : string; q_QueryType : string; q_Status : string; q_Blocked : bool }.

Record DNSStats : Type := mkStats {
  st_TotalQueries : Z; st_CacheHits : Z; st_CacheMisses : Z; st_BlockedCount : Z;
  st_TopDomains : list (string * Z); st_TopClients : list (string * Z); st_TopBlocked : list (string * Z) }.

Definition DNSStats_zero : DNSStats := mkStats 0 0 0 0 [] [] [].

Definition is_ws (a : ascii) : bool := char_in (String "009" (String "010" (String "012" (String "013" " ")))) a.

(** The longest prefix of characters in [P] and the rest. *)
Fixpoint span (P : ascii -> bool) (s : string) : string * string :=
  match s with
  | "" => ("", "")
  | String a r => if P a then let '(h, t) := span P r in (String a h, t) else ("", s)
  end.

(** One or more characters of [P]; what follows each of the pattern's runs is
    outside the run's class, so the longest run is the only one to try. *)
Definition run1 (P : ascii -> bool) (s : string) : option (string * string) :=
  match span P s with ("", _) => None | hr => Some hr end.

Definition nonws (a : ascii) : bool := negb (is_ws a).

(** A match of [queryLogRegex] that starts at the head of [s]: the time and the
    four fields after "info:". *)
Definition query_match_here (s : string) : option (string * string * string * string * string) :=
  s ← drop_prefix "[" s; '(ts, s) ← run1 is_digit s; s ← drop_prefix "]" s;
  '(_, s) ← run1 is_ws s; '(_, s) ← run1 nonws s; '(_, s) ← run1 is_ws s;
  s ← drop_prefix "info:" s; '(_, s) ← run1 is_ws s;
  '(f2, s) ← run1 nonws s; '(_, s) ← run1 is_ws s; '(f3, s) ← run1 nonws s; '(_, s) ← run1 is_ws s;
  '(f4, s) ← run1 nonws s; '(_, s) ← run1 is_ws s; '(f5, _) ← run1 nonws s;
  Some (ts, f2, f3, f4, f5).

(** [FindStringSubmatch]: the leftmost match. *)
Fixpoint query_match (s : string) : option (string * string * string * string * string) :=
  match query_match_here s with
  | Some m => Some m
  | None => match s with "" => None | String _ r => query_match r end
  end.

(** [fmt.Sscanf(s, "%d", &x)] into a 64-bit integer: the value stored, [cur]
    when nothing could be read. *)
Definition Sscanf_d (cur : Z) (s : string) : Z :=
  let s := trim_left_set " " s in
  let '(neg, body) := match s with
    | String "-" r => (true, r) | String "+" r => (false, r) | _ => (false, s) end in
  match run1 is_digit body with
  | None => cur
  | Some (ds, _) =>
      match digits_value 0 ds with
      | Some v => let v := if neg then - v else v in if in_int64 v then v else cur
      | None => cur
      end
  end.

Definition parseQueryLogLine (line : string) : option QueryLogEntry :=
  match query_match line with
  | None => None
  | Some (ts, f2, f3, f4, _) =>
      let '(status, blocked) :=
        if Contains line "REFUSED" then ("REFUSED", true)
        else if Contains line "NXDOMAIN" then ("NXDOMAIN", false)
        else ("NOERROR", false) in
      Some (mkEntry (Sscanf_d 0 ts * second) f2 (TrimSuffix f3 ".") f4 status blocked)
  end.

(** ** State *)

Definition bufSize : nat := Z.to_nat 10000.

Record dns : Type := mkDns {
  dn_cfg : Config; dn_buf : list QueryLogEntry; dn_stats : DNSStats; dn_blocklistRunning : bool }.

Definition set_cfg (c : Config) (s : dns) : dns := mkDns c (dn_buf s) (dn_stats s) (dn_blocklistRunning s).
Definition set_running (b : bool) (s : dns) : dns := mkDns (dn_cfg s) (dn_buf s) (dn_stats s) b.

Definition NewDNSService (cfg : Config) : dns := mkDns cfg [] DNSStats_zero false.

Definition count_blocked (st : DNSStats) : DNSStats :=
  mkStats (st_TotalQueries st) (st_CacheHits st) (st_CacheMisses st) (st_BlockedCount st + 1)
    (st_TopDomains st) (st_TopClients st) (st_TopBlocked st).

Definition recordQuery (line : string) (s : dns) : dns :=
  match parseQueryLogLine line with
  | None => s
  | Some entry =>
      let buf := if (bufSize <=? length (dn_buf s))%nat then tail (dn_buf s) else dn_buf s in
      mkDns (dn_cfg s) (buf ++ [entry])
        (if q_Blocked entry then count_blocked (dn_stats s) else dn_stats s) (dn_blocklistRunning s)
  end.

(** The lines that end in a newline, each with it, and the rest. *)
Fixpoint complete_lines (cur : string) (s : string) : list string * string :=
  match s with
  | "" => ([], cur)
  | String a r =>
      if Ascii.eqb a lf then let '(ls, rest) := complete_lines "" r in ((cur +:+ nl) :: ls, rest)
      else complete_lines (cur +:+ char_str a) r
  end.

Fixpoint drop_bytes (n : Z) (s : string) : string :=
  if n <=? 0 then s else match s with "" => "" | String _ r => drop_bytes (n - 1) r end.

Definition total_len (ls : list string) : Z := foldr (fun l acc => len l + acc) 0 ls.

(** [readQueryLog] on the content the file has, or the error of opening it: the
    new offset, the lines recorded, the error. *)
Definition readQueryLog (file : result string) (offset : Z) : Z * list string * result unit :=
  match file with
  | Err e => (offset, [], Err e)
  | Ok content =>
      if offset <? 0 then (len content, [], Ok tt)
      else
        let offset := if len content <? offset then 0 else offset in
        let lines := fst (complete_lines "" (drop_bytes offset content)) in
        (offset + total_len lines, lines, Ok tt)
  end.

(** One turn of the loop of [tailQueryLog]. *)
Definition tailStep (file : result string) (st : Z * dns) : Z * dns :=
  let '(offset, s) := st in
  let '(next, lines, err) := readQueryLog file offset in
  (match err with Ok _ => next | Err _ => offset end, foldl (fun s l => recordQuery l s) s lines).

Definition tailPath (cfg : Config) : string :=
  orDefault (QueryLogConfig_LogPath (DNSConfig_QueryLog (Config_DNS cfg))) "/var/log/unbound/queries.log".

(** [GetRecentQueries]; [None] when the slice bounds lie outside the buffer's
    length. *)
Definition GetRecentQueries (limit offset : Z) (s : dns) : option (list QueryLogEntry) :=
  let total := Z.of_nat (length (dn_buf s)) in
  if total <=? offset then Some []
  else
    let e := total - offset in
    let start := Z.max (e - limit) 0 in
    if (e <=? total) && (start <=? e)
    then Some (rev (take (Z.to_nat (e - start)) (drop (Z.to_nat start) (dn_buf s))))
    else None.

(** The offset of the page a request names, in [int] arithmetic. *)
Definition pageOffset (p : string) : Z :=
  let page := default 0 (Atoi p) in
  if String.eqb p "" then 0 else if 0 <? page then wrap64 ((page - 1) * 50) else 0.

(** ** Top lists *)

(** The inner loop of [topN] for one [i]: the entry left at [i] and the rest. *)
Fixpoint selectMax (x : string * Z) (l : list (string * Z)) : (string * Z) * list (string * Z) :=
  match l with
  | [] => (x, [])
  | y :: l =>
      if snd x <? snd y then let '(m, r) := selectMax y l in (m, x :: r)
      else let '(m, r) := selectMax x l in (m, y :: r)
  end.

Fixpoint selectTop (n : nat) (l : list (string * Z)) : list (string * Z) :=
  match n, l with
  | S n, x :: l => let '(m, r) := selectMax x l in m :: selectTop n r
  | _, _ => l
  end.

(** [topN] of the map's entries in the order the range visits them. *)
Definition topN (entries : list (string * Z)) (n : nat) : list (string * Z) := take n (selectTop n entries).

Definition bump (k : string) (m : gmap string Z) : gmap string Z := <[k := default 0 (m !! k) + 1]> m.

Definition tally {A} (key : A -> string) (l : list A) : gmap string Z := foldl (fun m x => bump (key x) m) ∅ l.

(** The order a range visits a map in. *)
Variable map_order : gmap string Z -> list (string * Z).

Definition computeTopLists (s : dns) : dns :=
  let st := dn_stats s in
  mkDns (dn_cfg s) (dn_buf s)
    (mkStats (st_TotalQueries st) (st_CacheHits st) (st_CacheMisses st) (st_BlockedCount st)
       (topN (map_order (tally q_Domain (dn_buf s))) 10)
       (topN (map_order (tally q_ClientIP (dn_buf s))) 10)
       (topN (map_order (tally q_Domain (List.filter q_Blocked (dn_buf s)))) 10))
    (dn_blocklistRunning s).

(** ** Operations *)

(** Case folding of the runes whose orbit does not reach ASCII. *)
Variable unicode_fold : Z -> Z.

Definition fold_canon (r : Z) : Z :=
  if (r <? 128) || (r =? 383) || (r =? 8490) then fold_rune r else unicode_fold r.

(** [strings.EqualFold]. *)
Definition EqualFold (s t : string) : bool :=
  bool_decide (List.map (fun seg => fold_canon (rune_of seg)) (runes s)
               = List.map (fun seg => fold_canon (rune_of seg)) (runes t)).

Definition RenderConfig (cfg : Config) : result string :=
  wrap_err "render unbound.conf: %w" [] (execute (unboundData cfg)).

Definition RenderToDisk : svc dns (result unit) :=
  s ← get;
  match RenderConfig (dn_cfg s) with
  | Err e => mret (Err e)
  | Ok rendered => WriteFile "/etc/unbound/unbound.conf" rendered 420
  end.

Definition Reload : svc dns (result unit) :=
  try! _ := wrapping "unbound reload: %w" [] (Run "unbound-control" ["reload"]) in mret (Ok tt).

Definition ApplyConfig : svc dns (result unit) :=
  try! _ := RenderToDisk in Reload.

(** One line of the statistics. *)
Definition statLine (st : DNSStats) (line : string) : DNSStats :=
  match cut_byte "=" line with
  | None => st
  | Some (k, v) =>
      let key := TrimSpace k in
      let val := TrimSpace v in
      if String.eqb key "total.num.queries" then
        mkStats (Sscanf_d (st_TotalQueries st) val) (st_CacheHits st) (st_CacheMisses st) (st_BlockedCount st)
          (st_TopDomains st) (st_TopClients st) (st_TopBlocked st)
      else if String.eqb key "total.num.cachehits" then
        mkStats (st_TotalQueries st) (Sscanf_d (st_CacheHits st) val) (st_CacheMisses st) (st_BlockedCount st)
          (st_TopDomains st) (st_TopClients st) (st_TopBlocked st)
      else if String.eqb key "total.num.cachemiss" then
        mkStats (st_TotalQueries st) (st_CacheHits st) (Sscanf_d (st_CacheMisses st) val) (st_BlockedCount st)
          (st_TopDomains st) (st_TopClients st) (st_TopBlocked st)
      else st
  end.

Definition GetStats : svc dns (result DNSStats) :=
  try! out := wrapping "unbound stats: %w" [] (Run "unbound-control" ["stats_noreset"]) in
  s ← get;
  let st := foldl statLine DNSStats_zero (split_byte lf out) in
  let own := dn_stats s in
  mret (Ok (mkStats (st_TotalQueries st) (st_CacheHits st) (st_CacheMisses st) (st_BlockedCount own)
              (st_TopDomains own) (st_TopClients own) (st_TopBlocked own))).

Definition ErrBlocklistUpdateRunning : error := Errorf "a blocklist update is already running" [].

Definition UpdateBlocklist : svc dns (result unit) :=
  s ← get;
  if dn_blocklistRunning s then mret (Err ErrBlocklistUpdateRunning)
  else
    put (set_running true s) ;;
    r ← (try! _ := wrapping "write blocklist: %w" []
                     (WriteFile "/etc/unbound/blocklist.conf"
                        (blocklistFile (DNSConfig_BlocklistURLs (Config_DNS (dn_cfg s)))) 420) in
         Reload);
    s ← get;
    put (set_running false s) ;;
    mret r.

Definition ClearQueryLog : svc dns (result unit) :=
  s ← get;
  put (mkDns (dn_cfg s) [] DNSStats_zero (dn_blocklistRunning s)) ;;
  let logPath := QueryLogConfig_LogPath (DNSConfig_QueryLog (Config_DNS (dn_cfg s))) in
  if String.eqb logPath "" then mret (Ok tt)
  else LocalCall "os.Truncate" [logPath; "0"] ;; mret (Ok tt).

Definition with_dns (f : DNSConfig -> DNSConfig) (s : dns) : dns :=
  set_cfg (set_Config_DNS (f (Config_DNS (dn_cfg s))) (dn_cfg s)) s.

(** Replaces the configuration and saves it. *)
Definition save_dns (f : DNSConfig -> DNSConfig) : svc dns (result unit) :=
  s ← get;
  put (with_dns f s) ;;
  SaveToFile (dn_cfg (with_dns f s)).

Definition SaveDNSSettings (enableDoT : bool) (dotUpstream : string) (enableDoH : bool) (dohUpstream : string)
  : svc dns (result unit) :=
  let dotUpstream := TrimSpace dotUpstream in
  let dohUpstream := TrimSpace dohUpstream in
  if enableDoT && enableDoH then mret (Err (Errorf "DoT and DoH cannot both be enabled" []))
  else match (if enableDoT then parseAndValidateDoTSpec dotUpstream else Ok ("", "", "")) with
  | Err e => mret (Err e)
  | Ok _ =>
      save_dns (fun d =>
        set_DNSConfig_DoHUpstream dohUpstream
          (set_DNSConfig_EnableDoH enableDoH
             (set_DNSConfig_DoTUpstream dotUpstream (set_DNSConfig_EnableDoT enableDoT d))))
  end.

Definition static_records (s : dns) : list StaticDNSRecord := DNSConfig_StaticRecords (Config_DNS (dn_cfg s)).

(** The index of the first record that satisfies [P], -1 when there is none. *)
Fixpoint index_of {A} (P : A -> bool) (i : Z) (l : list A) : Z :=
  match l with
  | [] => -1
  | x :: l => if P x then i else index_of P (i + 1) l
  end.

Definition FindStaticRecordIndexBySource (source name : string) (s : dns) : Z :=
  index_of (fun r => String.eqb (StaticDNSRecord_Source r) source && EqualFold (StaticDNSRecord_Name r) name) 0
    (static_records s).

Definition MaxStaticDNSRecords : Z := 500.

Definition AddStaticRecord (rec : StaticDNSRecord) : svc dns (result unit) :=
  s ← get;
  if MaxStaticDNSRecords <=? Z.of_nat (length (static_records s))
  then mret (Err (Errorf "maximum %d static DNS records reached" [itoa MaxStaticDNSRecords]))
  else if existsb (fun r => EqualFold (StaticDNSRecord_Name r) (StaticDNSRecord_Name rec)) (static_records s)
  then mret (Err (Errorf "DNS record %s already exists" [StaticDNSRecord_Name rec]))
  else save_dns (fun d => set_DNSConfig_StaticRecords (DNSConfig_StaticRecords d ++ [rec]) d).

(** [append(l[:i], l[i+1:]...)]. *)
Definition remove_at {A} (i : Z) (l : list A) : list A := take (Z.to_nat i) l ++ drop (S (Z.to_nat i)) l.

Definition RemoveStaticRecord (index : Z) : svc dns (result unit) :=
  s ← get;
  if (index <? 0) || (Z.of_nat (length (static_records s)) <=? index)
  then mret (Err (Errorf "invalid static record index: %d" [itoa index]))
  else save_dns (fun d => set_DNSConfig_StaticRecords (remove_at index (DNSConfig_StaticRecords d)) d).

(** ** Rotation of the query log *)

(** [strings.ToUpper] on the text of a size: ASCII letters, and the runes that
    map to ASCII, as far as a size can hold them. *)
Fixpoint ToUpper_ascii (s : string) : string :=
  match s with
  | "" => ""
  | String a r => String (if is_lower a then byte_of (byte_val a - 32) else a) (ToUpper_ascii r)
  end.

(** [strconv.ParseInt(s, 10, 64)] has the syntax and range of [Atoi]. *)
Definition parseByteSize (s : string) : result Z :=
  let s := TrimSpace (ToUpper_ascii s) in
  let '(mult, s) :=
    if HasSuffix s "K" then (Z.shiftl 1 10, TrimSuffix s "K")
    else if HasSuffix s "M" then (Z.shiftl 1 20, TrimSuffix s "M")
    else if HasSuffix s "G" then (Z.shiftl 1 30, TrimSuffix s "G")
    else (1, s) in
  match Atoi s with
  | Some n => if n <=? 0 then Err (Errorf "invalid size %q" [s]) else Ok (wrap64 (n * mult))
  | None => Err (Errorf "invalid size %q" [s])
  end.

Variable ParseDuration : string -> option Z.

Definition parseRetention (s : string) : result Z :=
  let s := TrimSpace s in
  let invalid := Err (Errorf "invalid retention %q" [s]) in
  match CutSuffix s "d" with
  | (days, true) =>
      match Atoi days with
      | Some n => if n <=? 0 then invalid else Ok (wrap64 (wrap64 (n * 24) * hour))
      | None => invalid
      end
  | (_, false) =>
      match ParseDuration s with
      | Some d => if d <=? 0 then invalid else Ok d
      | None => invalid
      end
  end.

(** [os.Stat] of the log and of its previous generation: the size and the age,
    [None] when the call fails. *)
Record stats : Type := mkStat { fs_size : option Z; fs_age : option Z }.

Definition expireRotatedQueryLog (f : stats) (path retention : string) : svc dns (result unit) :=
  match parseRetention retention with
  | Err e => mret (Err e)
  | Ok keep =>
      match fs_age f with
      | Some age =>
          if age <=? keep then mret (Ok tt)
          else
            try! _ := wrapping "expire previous query log: %w" [] (Run "rm" ["-f"; "--"; path]) in
            mret (Ok tt)
      | None => mret (Ok tt)
      end
  end.

Definition rotateQueryLog (f : stats) : svc dns (result unit) :=
  s ← get;
  let qc := DNSConfig_QueryLog (Config_DNS (dn_cfg s)) in
  let path := QueryLogConfig_LogPath qc in
  if negb (QueryLogConfig_Enabled qc) || String.eqb path "" then mret (Ok tt)
  else
    try! _ := expireRotatedQueryLog f (path +:+ ".1") (QueryLogConfig_Retention qc) in
    match parseByteSize (QueryLogConfig_MaxSize qc) with
    | Err e => mret (Err e)
    | Ok limit =>
        match fs_size f with
        | Some size =>
            if size <=? limit then mret (Ok tt)
            else
              try! _ := wrapping "keep previous query log: %w" [] (Run "cp" ["--"; path; path +:+ ".1"]) in
              try! _ := wrapping "empty query log: %w" [] (WriteFile path "" 416) in
              mret (Ok tt)
        | None => mret (Ok tt)
        end
    end.

End Dns.

(** ** Lemmas: the blocklist *)

Definition block_name_char (a : ascii) : bool := block_char a || Ascii.eqb a ".".

Lemma blocklist_over : over block_name_char blocklistDomainPattern.
Proof.
  assert (H : forall a, block_char a = true -> block_name_char a = true)
    by (intros a Ha; unfold block_name_char; by rewrite Ha).
  cbn [blocklistDomainPattern over rplus]. split_and!; try done.
  intros a Ha. apply Ascii.eqb_eq in Ha as <-. done.
Qed.

Lemma validBlocklistDomain_chars d :
  validBlocklistDomain d = true -> d <> "" /\ len d <= 253 /\ all_chars block_name_char d = true.
Proof.
  unfold validBlocklistDomain, maxDomainLength. intros H. bool_hyps. split_and!; [|done|].
  - intros ->. discriminate H0.
  - by eapply matchb_over; [exact blocklist_over|].
Qed.

Lemma dedupe_In seen l d : In d (dedupe seen l) <-> In d l /\ ~ In d seen.
Proof.
  revert seen. induction l as [|x l IH]; intros seen; cbn [dedupe]; [by cbn; tauto|].
  destruct (existsb (String.eqb x) seen) eqn:E.
  - apply existsb_exists in E as (y & Hy & He). apply String.eqb_eq in He as <-.
    rewrite IH. cbn [In]. split; [tauto|]. intros ([<-|?] & ?); tauto.
  - assert (~ In x seen).
    { intros Hx. rewrite <- not_true_iff_false in E. apply E. apply existsb_exists. exists x.
      split; [done|apply String.eqb_refl]. }
    cbn [In]. rewrite IH. cbn [In]. split.
    + intros [<-|(? & ?)]; tauto.
    + intros ([<-|?] & ?); [tauto|]. destruct (String.eqb_spec x d) as [->|]; tauto.
Qed.

Lemma dedupe_NoDup seen l : List.NoDup (dedupe seen l).
Proof.
  revert seen. induction l as [|x l IH]; intros seen; cbn [dedupe]; [constructor|].
  destruct (existsb _ _); [apply IH|]. constructor; [|apply IH]. rewrite dedupe_In. cbn. tauto.
Qed.

(** The names a list maps to nowhere, one line at a time. *)
Definition blocks (data d : string) : Prop :=
  exists l, In l (scanned_lines data) /\ parseHostsLine (TrimSuffix l (char_str "013")) = Some d
    /\ validBlocklistDomain d = true.

Lemma listed_domains_In data d : In d (listed_domains data) <-> blocks data d.
Proof.
  unfold listed_domains, blocks. rewrite filter_In, <- list_elem_of_In, list_elem_of_omap.
  split.
  - intros ((l & Hl & Hp) & Hv). exists l. by rewrite <- list_elem_of_In.
  - intros (l & Hl & Hp & Hv). split; [|done]. exists l. by rewrite list_elem_of_In.
Qed.

(** What a successful download is. *)
Lemma downloadBlocklist_Ok parse fetch url ds :
  downloadBlocklist parse fetch url = Ok ds ->
  exists body, fetch url = Ok (body, None) /\ len body <= maxFetchBytes /\ ds = listed_domains body.
Proof.
  unfold downloadBlocklist, limitedBody. intros HE. inv_ok. destruct x0 as [body rd]. inv_ok.
  destruct rd; [discriminate|]. destruct (Z.ltb_spec maxFetchBytes (len body)) as [|Hle]; [discriminate|].
  inv_ok. exists body. split_and!; [done..|]. subst ds. f_equal. clear -Hle.
  assert (H : forall n s, len s <= n -> take_bytes n s = s).
  { intros n s. revert n. induction s as [|a s IH]; intros n Hl; cbn [take_bytes]; [done|].
    unfold len in *. cbn [String.length] in Hl. destruct (Z.leb_spec n 0); [lia|]. f_equal. apply IH. lia. }
  apply H. lia.
Qed.

Lemma allDomains_In parse fetch urls d :
  In d (allDomains parse fetch urls) <->
  exists url ds, In url urls /\ downloadBlocklist parse fetch url = Ok ds /\ In d ds.
Proof.
  unfold allDomains. rewrite in_flat_map. split.
  - intros (url & Hu & Hd). destruct (downloadBlocklist parse fetch url) as [ds|] eqn:E; [|done]. eauto.
  - intros (url & ds & Hu & E & Hd). exists url. by rewrite E.
Qed.

(** ** Lemmas: reading the log *)

Lemma complete_lines_app cur s t :
  complete_lines cur (s +:+ t)
  = let '(ls, rest) := complete_lines cur s in
    let '(ls', rest') := complete_lines rest t in (ls ++ ls', rest').
Proof.
  revert cur. induction s as [|a s IH]; intros cur; cbn [complete_lines String.append].
  - by destruct (complete_lines cur t).
  - destruct (Ascii.eqb a lf).
    + rewrite IH. destruct (complete_lines "" s) as [ls rest]. by destruct (complete_lines rest t).
    + by rewrite IH.
Qed.

Lemma complete_lines_cur cur s :
  complete_lines cur s =
  match complete_lines "" s with
  | ([], rest) => ([], cur +:+ rest)
  | (l :: ls, rest) => ((cur +:+ l) :: ls, rest)
  end.
Proof.
  assert (H : forall s cur pre, complete_lines (pre +:+ cur) s =
    match complete_lines cur s with
    | ([], rest) => ([], pre +:+ rest) | (l :: ls, rest) => ((pre +:+ l) :: ls, rest) end).
  { clear. induction s as [|a s IH]; intros cur pre; cbn [complete_lines]; [done|].
    destruct (Ascii.eqb a lf).
    - destruct (complete_lines "" s). by rewrite append_assoc.
    - rewrite append_assoc. apply IH. }
  rewrite <- (H s "" cur). by rewrite append_empty_r.
Qed.

(** The lines and the rest make up the text. *)
Lemma complete_lines_concat s ls rest : complete_lines "" s = (ls, rest) -> s = String.concat "" ls +:+ rest.
Proof.
  revert ls rest. induction s as [|a s IH]; intros ls rest; cbn [complete_lines]; [by intros [= <- <-]|].
  destruct (Ascii.eqb a lf) eqn:Ea.
  - apply Ascii.eqb_eq in Ea as ->. destruct (complete_lines "" s) as [ls' rest'].
    intros [= <- <-]. specialize (IH _ _ eq_refl). rewrite IH at 1. destruct ls' as [|l ls']; done.
  - rewrite complete_lines_cur. destruct (complete_lines "" s) as [[|l ls'] rest'];
      intros [= <- <-]; specialize (IH _ _ eq_refl); rewrite IH at 1; [done|].
    destruct ls'; done.
Qed.

Lemma concat_length ls : len (String.concat "" ls) = total_len ls.
Proof.
  induction ls as [|l ls IH]; [done|]. change (total_len (l :: ls)) with (len l + total_len ls). rewrite <- IH.
  unfold len.
  destruct ls as [|l' ls]; cbn [String.concat String.length]; [cbn; lia|].
  rewrite append_length. cbn [String.append]. rewrite Nat2Z.inj_add. done.
Qed.

Lemma drop_bytes_app s t : drop_bytes (len s) (s +:+ t) = t.
Proof.
  unfold len. induction s as [|a s IH]; [by destruct t|].
  cbn [String.length String.append drop_bytes]. destruct (Z.leb_spec (Z.of_nat (S (String.length s))) 0); [lia|].
  replace (Z.of_nat (S (String.length s)) - 1) with (Z.of_nat (String.length s)) by lia. done.
Qed.

Lemma drop_bytes_prefix n s t : 0 <= n <= len s -> drop_bytes n (s +:+ t) = drop_bytes n s +:+ t.
Proof.
  revert n. unfold len. induction s as [|a s IH]; intros n Hn; cbn [String.length String.append] in *.
  - assert (n = 0) as -> by lia. by destruct t.
  - cbn [drop_bytes]. destruct (Z.leb_spec n 0); [done|]. apply IH. lia.
Qed.

Lemma drop_bytes_length n s : 0 <= n <= len s -> len (drop_bytes n s) = len s - n.
Proof.
  revert n. unfold len. induction s as [|a s IH]; intros n Hn; cbn [String.length] in *.
  - assert (n = 0) as -> by lia. done.
  - cbn [drop_bytes]. destruct (Z.leb_spec n 0); [cbn [String.length]; lia|]. rewrite IH; lia.
Qed.

Lemma drop_bytes_add n m s : 0 <= n -> 0 <= m -> drop_bytes m (drop_bytes n s) = drop_bytes (n + m) s.
Proof.
  revert n. induction s as [|a s IH]; intros n Hn Hm.
  - assert (He : forall k, drop_bytes k "" = "") by (intros k; cbn; by destruct (k <=? 0)). by rewrite !He.
  - cbn [drop_bytes]. destruct (Z.leb_spec n 0).
    + assert (n = 0) as -> by lia. done.
    + destruct (Z.leb_spec (n + m) 0); [lia|]. rewrite IH by lia. f_equal. lia.
Qed.

(** The polls of a log that is only appended to: each sees the file or fails. *)
Inductive grows : string -> list (result string) -> string -> Prop :=
| grows_nil c : grows c [] c
| grows_err c e ps c' : grows c ps c' -> grows c (Err e :: ps) c'
| grows_ok c d ps c' : grows (c +:+ d) ps c' -> grows c (Ok (c +:+ d) :: ps) c'.

(** The complete lines after an offset. *)
Definition lines_after (o : Z) (c : string) : list string := fst (complete_lines "" (drop_bytes o c)).

Definition caught_up (o : Z) (c : string) : Prop := 0 <= o <= len c /\ lines_after o c = [].

Lemma len_app s t : len (s +:+ t) = len s + len t.
Proof. unfold len. rewrite append_length. lia. Qed.

Lemma len_pos s : 0 <= len s.
Proof. unfold len. lia. Qed.

Lemma lines_after_rest o c : 0 <= o <= len c ->
  0 <= o + total_len (lines_after o c) <= len c
  /\ drop_bytes (o + total_len (lines_after o c)) c = snd (complete_lines "" (drop_bytes o c)).
Proof.
  intros Ho. unfold lines_after. destruct (complete_lines "" (drop_bytes o c)) as [ls rest] eqn:E. cbn [fst snd].
  apply complete_lines_concat in E.
  assert (Hl : len (drop_bytes o c) = len c - o) by (by apply drop_bytes_length).
  rewrite E, len_app, concat_length in Hl. pose proof (len_pos rest).
  assert (0 <= total_len ls) by (rewrite <- concat_length; apply len_pos). split; [lia|].
  rewrite <- drop_bytes_add, E by lia. rewrite <- concat_length. apply drop_bytes_app.
Qed.

(** Reading at an offset consumes exactly the complete lines. *)
Lemma read_catches_up o c : 0 <= o <= len c ->
  readQueryLog (Ok c) o = (o + total_len (lines_after o c), lines_after o c, Ok tt)
  /\ caught_up (o + total_len (lines_after o c)) c.
Proof.
  intros Ho. destruct (lines_after_rest o c Ho) as [Hr Hd]. split.
  - unfold readQueryLog. destruct (Z.ltb_spec o 0); [lia|]. destruct (Z.ltb_spec (len c) o); [lia|]. done.
  - split; [done|]. unfold lines_after at 1. rewrite Hd.
    pose proof (complete_lines_app "" (drop_bytes o c) "") as H. rewrite append_empty_r in H.
    destruct (complete_lines "" (drop_bytes o c)) as [ls rest] eqn:E. cbn [snd].
    rewrite complete_lines_cur in H. cbn in H.
    (* the rest holds no newline *)
    assert (Hno : forall s cur ls rest, complete_lines cur s = (ls, rest) -> has_char lf cur = false ->
              has_char lf rest = false).
    { clear. induction s as [|a s IH]; intros cur ls rest; cbn [complete_lines]; [by intros [= <- <-]|].
      destruct (Ascii.eqb a lf) eqn:Ea.
      - destruct (complete_lines "" s) as [l r] eqn:E. intros [= <- <-] _. by eapply IH.
      - intros HE Hc. eapply IH; [exact HE|]. rewrite has_char_append, Hc. cbn.
        by rewrite Ea. }
    pose proof (Hno _ _ _ _ E eq_refl) as Hn. clear -Hn.
    assert (H : forall s cur, has_char lf s = false -> fst (complete_lines cur s) = []).
    { clear. induction s as [|a s IH]; intros cur; cbn [complete_lines has_char]; [done|].
      intros H. destruct (Ascii.eqb a lf); [done|]. by apply IH. }
    by apply H.
Qed.

Lemma lines_after_app o c d : caught_up o c ->
  lines_after o (c +:+ d) = fst (complete_lines (drop_bytes o c) d).
Proof.
  intros [Ho Hn]. unfold lines_after. rewrite drop_bytes_prefix, complete_lines_app by done.
  unfold lines_after in Hn. destruct (complete_lines "" (drop_bytes o c)) as [ls rest] eqn:E. cbn in Hn. subst ls.
  apply complete_lines_concat in E. cbn in E. subst rest. by destruct (complete_lines (drop_bytes o c) d).
Qed.

Lemma total_len_app a b : total_len (a ++ b) = total_len a + total_len b.
Proof. unfold total_len. induction a as [|x a IH]; cbn [foldr app]; [done|]. rewrite IH. lia. Qed.

Lemma grows_prefix c ps c' : grows c ps c' -> exists d, c' = c +:+ d.
Proof.
  induction 1 as [c|c e ps c' _ IH|c d ps c' _ [d' IH]]; [|done|].
  - exists "". by rewrite append_empty_r.
  - exists (d +:+ d'). by rewrite IH, append_assoc.
Qed.

Lemma lines_after_split o c d : 0 <= o <= len c ->
  lines_after o (c +:+ d) = lines_after o c ++ lines_after (o + total_len (lines_after o c)) (c +:+ d).
Proof.
  intros Ho. destruct (read_catches_up o c Ho) as [_ Hcu]. rewrite (lines_after_app _ _ _ Hcu).
  destruct (lines_after_rest o c Ho) as [_ ->].
  unfold lines_after. rewrite drop_bytes_prefix, complete_lines_app by done.
  destruct (complete_lines "" (drop_bytes o c)) as [ls rest]. cbn [fst snd].
  by destruct (complete_lines rest d).
Qed.

Definition record_all (s : dns) (ls : list string) : dns := foldl (fun s l => recordQuery l s) s ls.

(** Over any polls of a growing log, each complete line is recorded once, in
    order. *)
Lemma tail_grows c ps c' : grows c ps c' -> forall o s, caught_up o c ->
  foldl (fun st p => tailStep p st) (o, s) ps
  = (o + total_len (lines_after o c'), record_all s (lines_after o c')).
Proof.
  induction 1 as [c|c e ps c' _ IH|c d ps c' Hg IH]; intros o s Hcu.
  - destruct Hcu as [_ ->]. cbn. f_equal. lia.
  - cbn [foldl]. rewrite <- IH by done. done.
  - destruct Hcu as [Ho _]. assert (Ho' : 0 <= o <= len (c +:+ d))
      by (rewrite len_app; pose proof (len_pos d); lia).
    destruct (read_catches_up o (c +:+ d) Ho') as [Hread Hcu']. cbn [foldl].
    unfold tailStep at 2. rewrite Hread. fold (record_all s (lines_after o (c +:+ d))). rewrite IH by done.
    destruct (grows_prefix _ _ _ Hg) as [d' ->].
    rewrite (lines_after_split o (c +:+ d) d' Ho'), total_len_app. f_equal; [lia|].
    unfold record_all. by rewrite foldl_app.
Qed.

(** ** Lemmas: the ring buffer *)

(** The last [n] elements. *)
Definition lastn {A} (n : nat) (l : list A) : list A := drop (length l - n) l.

Lemma lastn_length {A} n (l : list A) : (length (lastn n l) <= n)%nat.
Proof. unfold lastn. rewrite length_drop. lia. Qed.

Lemma lastn_snoc {A} n (l : list A) x : (0 < n)%nat ->
  lastn n (l ++ [x]) = (if (n <=? length (lastn n l))%nat then tail (lastn n l) else lastn n l) ++ [x].
Proof.
  intros Hn. unfold lastn. rewrite length_app, length_drop. cbn [length].
  destruct (Nat.leb_spec n (length l - (length l - n))) as [H|H].
  - rewrite drop_app_le by lia. f_equal.
    replace (length l + 1 - n)%nat with (S (length l - n)) by lia.
    assert (Htl : forall k (m : list A), tail (drop k m) = drop (S k) m).
    { clear. intros k m. revert m. induction k as [|k IH]; intros [|y m]; try done. cbn [drop]. apply IH. }
    by rewrite Htl.
  - replace (length l + 1 - n)%nat with O by lia. replace (length l - n)%nat with O by lia. done.
Qed.

Lemma lastn_all {A} n (l : list A) : (length l <= n)%nat -> lastn n l = l.
Proof. intros H. unfold lastn. replace (length l - n)%nat with O by lia. done. Qed.

Definition blocked_in (es : list QueryLogEntry) : Z := Z.of_nat (length (List.filter q_Blocked es)).

Definition entries (ls : list string) : list QueryLogEntry := omap parseQueryLogLine ls.

(** Recording lines keeps the last entries and counts every blocked one. *)
Lemma record_all_spec all ls s :
  dn_buf s = lastn bufSize all ->
  dn_buf (record_all s ls) = lastn bufSize (all ++ entries ls)
  /\ st_BlockedCount (dn_stats (record_all s ls)) = st_BlockedCount (dn_stats s) + blocked_in (entries ls)
  /\ dn_cfg (record_all s ls) = dn_cfg s.
Proof.
  assert (Hpos : (0 < bufSize)%nat) by (unfold bufSize; lia).
  revert all s. induction ls as [|l ls IH]; intros all s Hb.
  { cbn. rewrite app_nil_r. unfold blocked_in. cbn. split_and!; [done|lia|done]. }
  cbn [record_all foldl]. fold (record_all (recordQuery l s) ls).
  unfold recordQuery, entries. cbn [omap list_omap]. destruct (parseQueryLogLine l) as [x|] eqn:E.
  - assert (Hb' : dn_buf (recordQuery l s) = lastn bufSize (all ++ [x])).
    { unfold recordQuery. rewrite E. cbn [dn_buf]. rewrite Hb. by rewrite lastn_snoc. }
    unfold recordQuery in Hb'. rewrite E in Hb'.
    destruct (IH _ _ Hb') as (H1 & H2 & H3). rewrite H1, H2, H3. cbn [dn_stats dn_cfg].
    rewrite <- app_assoc. split_and!; [done| |done].
    unfold blocked_in. cbn [List.filter]. fold (entries ls).
    destruct (q_Blocked x); cbn [length count_blocked st_BlockedCount]; [|lia].
    rewrite Nat2Z.inj_succ. lia.
  - apply IH. done.
Qed.

(** ** Lemmas: top lists *)

Lemma selectMax_spec x l m r : selectMax x l = (m, r) ->
  Permutation (x :: l) (m :: r) /\ Forall (fun y => snd y <= snd m) (x :: l).
Proof.
  revert x m r. induction l as [|y l IH]; intros x m r; cbn [selectMax].
  - intros [= <- <-]. split; [done|]. repeat constructor. lia.
  - destruct (Z.ltb_spec (snd x) (snd y)) as [Hlt|Hge].
    + destruct (selectMax y l) as [m' r'] eqn:E. intros [= <- <-]. destruct (IH _ _ _ E) as [Hp HF].
      split.
      * rewrite Hp. apply perm_swap.
      * constructor; [|done]. inversion HF; subst. lia.
    + destruct (selectMax x l) as [m' r'] eqn:E. intros [= <- <-]. destruct (IH _ _ _ E) as [Hp HF].
      split.
      * rewrite (perm_swap y x l), Hp. apply perm_swap.
      * inversion HF; subst. constructor; [done|]. constructor; [lia|done].
Qed.

(** The first [n] entries: sorted, and none after them counts more. *)
Definition is_top (n : nat) (all top : list (string * Z)) : Prop :=
  exists rest, Permutation all (top ++ rest) /\ length top = Nat.min n (length all)
    /\ StronglySorted (fun a b => snd b <= snd a) top
    /\ Forall (fun y => Forall (fun x => snd y <= snd x) top) rest.

Lemma topN_is_top n l : is_top n l (topN l n).
Proof.
  unfold topN. revert l. induction n as [|n IH]; intros l.
  { exists l. cbn [take app]. rewrite take_0. split_and!; [done|done|constructor|].
    apply List.Forall_forall. intros. constructor. }
  destruct l as [|x l]; cbn [selectTop].
  { exists []. cbn. split_and!; [done|lia|constructor|constructor]. }
  destruct (selectMax x l) as [m r] eqn:E. destruct (selectMax_spec _ _ _ _ E) as [Hp HF].
  destruct (IH r) as (rest & Hr & Hl & Hs & Hd). cbn [take].
  assert (HFm : Forall (fun y => snd y <= snd m) (take n (selectTop n r) ++ rest)).
  { rewrite <- Hr. rewrite Hp in HF. by inversion HF. }
  apply Forall_app in HFm as [HF1 HF2]. exists rest. split_and!.
  - rewrite Hp. cbn [app]. by constructor.
  - cbn [length]. rewrite Hl. apply Permutation_length in Hp. cbn [length] in Hp. lia.
  - by constructor.
  - rewrite list.Forall_forall in Hd, HF2 |- *. intros y Hy. constructor; [by apply HF2|by apply Hd].
Qed.

Definition times_in {A} (key : A -> string) (k : string) (l : list A) : Z :=
  Z.of_nat (length (List.filter (fun x => String.eqb (key x) k) l)).

Lemma tally_lookup {A} (key : A -> string) l k :
  tally key l !! k = if times_in key k l =? 0 then None else Some (times_in key k l).
Proof.
  unfold tally. induction l as [|x l IH] using rev_ind.
  { cbn [foldl]. by rewrite lookup_empty. }
  rewrite foldl_app. cbn [foldl]. unfold bump, times_in in *.
  rewrite List.filter_app, length_app. cbn [List.filter].
  destruct (String.eqb_spec (key x) k) as [<-|Hne].
  - rewrite lookup_insert_eq, IH. cbn [length].
    destruct (Z.eqb_spec (Z.of_nat (length (List.filter (fun y => String.eqb (key y) (key x)) l))) 0) as [H0|H0].
    + cbn [default from_option id]. rewrite (proj2 (Z.eqb_neq _ 0)) by lia. f_equal. lia.
    + cbn [default from_option id]. rewrite (proj2 (Z.eqb_neq _ 0)) by lia. f_equal. lia.
  - rewrite lookup_insert_ne by done. rewrite IH. cbn [length]. by rewrite Nat.add_0_r.
Qed.

(** ** Lemmas: pages *)

Lemma GetRecentQueries_page limit offset s : 0 <= limit -> 0 <= offset ->
  GetRecentQueries limit offset s
  = Some (take (Z.to_nat limit) (drop (Z.to_nat offset) (rev (dn_buf s)))).
Proof.
  intros Hl Ho. unfold GetRecentQueries. set (b := dn_buf s). set (n := length b).
  destruct (Z.leb_spec (Z.of_nat n) offset) as [H|H].
  { rewrite drop_ge; [by rewrite take_nil|]. rewrite length_rev. fold n. lia. }
  destruct (Z.leb_spec (Z.of_nat n - offset) (Z.of_nat n)); [|lia].
  destruct (Z.leb_spec (Z.max (Z.of_nat n - offset - limit) 0) (Z.of_nat n - offset)); [|lia].
  cbn [andb]. f_equal.
  set (o := Z.to_nat offset). set (k := Z.to_nat limit).
  set (st := Z.to_nat (Z.max (Z.of_nat n - offset - limit) 0)).
  replace (Z.to_nat (Z.of_nat n - offset - Z.max (Z.of_nat n - offset - limit) 0)) with (n - o - st)%nat by lia.
  assert (Hst : st = (n - o - k)%nat) by lia. assert (Ho' : (o < n)%nat) by lia.
  rewrite <- (rev_involutive b) at 1. set (rb := rev b). assert (Hrb : length rb = n) by apply length_rev.
  clearbody rb st o k. subst st. rewrite <- Hrb in *. clear -Ho'.
  rewrite skipn_rev, firstn_rev, rev_involutive, length_firstn.
  destruct (Nat.le_gt_cases (o + k) (length rb)) as [H|H].
  - rewrite firstn_skipn_comm. f_equal; [lia|]. f_equal. lia.
  - rewrite (firstn_all2 rb) by lia. rewrite (firstn_all2 (skipn o rb)) by (rewrite length_skipn; lia).
    f_equal. lia.
Qed.

(** ** Lemmas: static records *)

Section Records.
Variable unicode_fold : Z -> Z.

Definition folded (s : string) : list Z := List.map (fun seg => fold_canon unicode_fold (rune_of seg)) (runes s).

Lemma EqualFold_folded s t : EqualFold unicode_fold s t = true <-> folded s = folded t.
Proof. unfold EqualFold, folded. apply bool_decide_eq_true. Qed.

(** No two records share a name, and there are not more than the maximum. *)
Definition records_ok (rs : list StaticDNSRecord) : Prop :=
  List.NoDup (List.map (fun r => folded (StaticDNSRecord_Name r)) rs) /\ Z.of_nat (length rs) <= MaxStaticDNSRecords.

Lemma remove_at_split {A} i (l : list A) : 0 <= i < Z.of_nat (length l) ->
  exists x, l = take (Z.to_nat i) l ++ x :: drop (S (Z.to_nat i)) l
    /\ remove_at i l = take (Z.to_nat i) l ++ drop (S (Z.to_nat i)) l.
Proof.
  intros Hi. destruct (lookup_lt_is_Some_2 l (Z.to_nat i)) as [x Hx]; [lia|]. exists x. split; [|done].
  symmetry. by apply take_drop_middle.
Qed.

Lemma remove_at_ok i rs : 0 <= i < Z.of_nat (length rs) -> records_ok rs -> records_ok (remove_at i rs).
Proof.
  intros Hi [Hn Hl]. destruct (remove_at_split i rs Hi) as (x & Hs & ->). rewrite Hs in Hn, Hl.
  rewrite List.map_app in Hn. cbn [List.map] in Hn. apply NoDup_remove_1 in Hn.
  rewrite <- List.map_app in Hn. split; [done|]. rewrite length_app in *. cbn [length] in Hl. lia.
Qed.

Lemma add_record_ok rs r :
  records_ok rs -> Z.of_nat (length rs) < MaxStaticDNSRecords ->
  existsb (fun x => EqualFold unicode_fold (StaticDNSRecord_Name x) (StaticDNSRecord_Name r)) rs = false ->
  records_ok (rs ++ [r]).
Proof.
  intros [Hn Hl] Hlt Hex. split; [|rewrite length_app; cbn; lia].
  rewrite List.map_app. apply List.NoDup_app; [done|constructor; [by intros []|constructor]|].
  intros k Hk [Hk'|[]]. subst k. apply in_map_iff in Hk as (x & Hx & Hin).
  rewrite <- not_true_iff_false in Hex. apply Hex. apply existsb_exists. exists x. split; [done|].
  by apply EqualFold_folded.
Qed.

Lemma remove_at_length {A} i (l : list A) : 0 <= i < Z.of_nat (length l) ->
  S (length (remove_at i l)) = length l.
Proof.
  intros Hi. destruct (remove_at_split i l Hi) as (x & Hs & ->). apply (f_equal length) in Hs.
  rewrite Hs, !length_app. cbn [length]. lia.
Qed.

(** The records of the service's configuration stay well formed. *)
Definition dns_ok (s : dns) : Prop := records_ok (static_records s).

Lemma records_with_dns f s : static_records (with_dns f s) = DNSConfig_StaticRecords (f (Config_DNS (dn_cfg s))).
Proof. done. Qed.

(** What saving does: the new configuration is in force and is what is
    written, whether or not the write succeeds. *)
Lemma save_dns_run f w h s :
  save_dns f w h s = (discard (w h (CSave (dn_cfg (with_dns f s)))), with_dns f s, h ++ [CSave (dn_cfg (with_dns f s))]).
Proof. done. Qed.

Definition add_record (rec : StaticDNSRecord) (d : DNSConfig) : DNSConfig :=
  set_DNSConfig_StaticRecords (DNSConfig_StaticRecords d ++ [rec]) d.
Definition del_record (i : Z) (d : DNSConfig) : DNSConfig :=
  set_DNSConfig_StaticRecords (remove_at i (DNSConfig_StaticRecords d)) d.

(** A record can be added: there is room and the name is free. *)
Definition addable (rec : StaticDNSRecord) (s : dns) : bool :=
  (Z.of_nat (length (static_records s)) <? MaxStaticDNSRecords)
  && negb (existsb (fun r => EqualFold unicode_fold (StaticDNSRecord_Name r) (StaticDNSRecord_Name rec)) (static_records s)).

Lemma AddStaticRecord_run rec w h s :
  (addable rec s = true /\ AddStaticRecord unicode_fold rec w h s = save_dns (add_record rec) w h s)
  \/ (addable rec s = false /\ exists e, AddStaticRecord unicode_fold rec w h s = (Err e, s, h)).
Proof.
  unfold AddStaticRecord, addable, mbind, svc_bind, get. rewrite Z.leb_antisym.
  destruct (_ <? MaxStaticDNSRecords); cbn [negb andb]; [|right; split; [done|by eexists]].
  destruct (existsb _ _); cbn [negb]; [right; split; [done|by eexists]|by left].
Qed.

Lemma RemoveStaticRecord_run i w h s :
  (0 <= i < Z.of_nat (length (static_records s)) /\ RemoveStaticRecord i w h s = save_dns (del_record i) w h s)
  \/ (~ 0 <= i < Z.of_nat (length (static_records s)) /\ exists e, RemoveStaticRecord i w h s = (Err e, s, h)).
Proof.
  unfold RemoveStaticRecord, mbind, svc_bind, get.
  destruct (Z.ltb_spec i 0); cbn [orb]; [right; split; [lia|by eexists]|].
  destruct (Z.leb_spec (Z.of_nat (length (static_records s))) i); [right; split; [lia|by eexists]|left].
  split; [lia|done].
Qed.

Lemma add_record_dns_ok rec s : dns_ok s -> addable rec s = true -> dns_ok (with_dns (add_record rec) s).
Proof.
  intros Hs Ha. unfold addable in Ha. bool_hyps. unfold dns_ok. rewrite records_with_dns. by apply add_record_ok.
Qed.

Lemma del_record_dns_ok i s : dns_ok s -> 0 <= i < Z.of_nat (length (static_records s)) ->
  dns_ok (with_dns (del_record i) s).
Proof. intros Hs Hi. unfold dns_ok. rewrite records_with_dns. by apply remove_at_ok. Qed.

End Records.

(** ** Lemmas: the calls *)

Lemma save_dns_allowed (I : dns -> Prop) f : (forall s, I s -> I (with_dns f s)) -> keeps allowed I (save_dns f).
Proof. intros HI. unfold save_dns. walk; [by apply HI|allow_call]. Qed.

Section Calls.
Context {I : dns -> Prop} (execute : unboundTemplateData -> result string).

Lemma Reload_allowed : keeps allowed I Reload.
Proof. unfold Reload. walk; allow_call. Qed.

Lemma RenderToDisk_allowed : keeps allowed I (RenderToDisk execute).
Proof. unfold RenderToDisk. walk; allow_call. Qed.

Lemma ApplyConfig_allowed : keeps allowed I (ApplyConfig execute).
Proof. unfold ApplyConfig. apply keeps_try; [apply RenderToDisk_allowed|intros _; apply Reload_allowed]. Qed.

Lemma GetStats_allowed : keeps allowed I GetStats.
Proof. unfold GetStats. walk; allow_call. Qed.

Lemma UpdateBlocklist_allowed parse fetch :
  (forall s b, I s -> I (set_running b s)) -> keeps allowed I (UpdateBlocklist parse fetch).
Proof.
  intros HI. unfold UpdateBlocklist. apply keeps_get_bind. intros s Hs. destruct (dn_blocklistRunning s); [apply keeps_ret|].
  apply keeps_bind; [apply keeps_put; by apply HI|]. intros _. apply keeps_bind; [|intros r; walk; by apply HI].
  walk; first [apply Reload_allowed|allow_call].
Qed.

Lemma ClearQueryLog_allowed :
  (forall s, I s -> I (mkDns (dn_cfg s) [] DNSStats_zero (dn_blocklistRunning s))) -> keeps allowed I ClearQueryLog.
Proof. intros HI. unfold ClearQueryLog. walk; first [by apply HI|allow_call]. Qed.

End Calls.

(** A log below /var/log is one the agent may copy, remove and empty. *)
Definition log_path (p : string) : Prop :=
  exists cs, cs <> [] /\ good_comps (["var"; "log"] ++ cs) /\ p = abs_path (["var"; "log"] ++ cs).

Lemma log_path_rules p : log_path p -> checkPathRules no_links p W0 = true /\ checkPathRules no_links p R0 = true.
Proof.
  intros (cs & Hne & Hg & ->). split; apply checkPathRules_below; try done;
    cbn; repeat first [by left|right].
Qed.

Lemma abs_path_suffix cs c s : abs_path (cs ++ [c]) +:+ s = abs_path (cs ++ [c +:+ s]).
Proof.
  unfold abs_path. rewrite append_assoc. f_equal. induction cs as [|x cs IH]; [done|].
  destruct cs as [|y cs]; cbn [app] in *.
  - rewrite !join_cons by done. by rewrite !append_assoc.
  - rewrite (join_cons sep_str x), (join_cons sep_str x (y :: cs ++ [c +:+ s])) by (by destruct cs).
    rewrite !append_assoc. by rewrite IH.
Qed.

Lemma good_comp_rotated c : good_comp c = true -> good_comp (c +:+ ".1") = true.
Proof.
  rewrite !good_comp_spec. intros (H1 & H2 & H3 & H4). rewrite has_char_append, H4.
  destruct c as [|a [|b c]]; [done| |]; split_and!; try done.
  by destruct c.
Qed.

Lemma log_path_rotated p : log_path p -> log_path (p +:+ ".1").
Proof.
  intros (cs & Hne & Hg & ->). destruct cs as [|c cs _] using rev_ind; [done|].
  exists (cs ++ [c +:+ ".1"]). rewrite !app_assoc in *. split_and!; [by destruct cs| |by rewrite abs_path_suffix].
  apply Forall_app in Hg as [Hg Hc]. apply Forall_app. split; [done|]. inversion Hc; subst.
  apply List.Forall_cons; [by apply good_comp_rotated|apply List.Forall_nil].
Qed.

Lemma cleanAbs_log p : log_path p -> cleanAbs p = Ok p.
Proof.
  intros (cs & Hne & Hg & ->). apply cleanAbs_Ok. split; [|by rewrite Clean_abs_path].
  split; [apply IsAbs_abs_path|]. rewrite split_abs_path by done. intros [H|H]; [done|].
  apply list_elem_of_In in H. rewrite list.Forall_forall in Hg.
  apply Hg, good_comp_spec in H as (_ & _ & H & _). done.
Qed.

Lemma log_writable p : log_path p -> writablePath no_links W0 p = true /\ readablePath no_links R0 p = true.
Proof.
  intros Hp. destruct (log_path_rules p Hp) as [Hw Hr]. unfold writablePath, readablePath.
  rewrite (cleanAbs_log p Hp), Hw, Hr. split; repeat case_match; done.
Qed.

(** Rotation asks the agent for nothing it refuses. *)
Lemma rotateQueryLog_allowed pd f (I : dns -> Prop) :
  (forall s, I s -> let p := QueryLogConfig_LogPath (DNSConfig_QueryLog (Config_DNS (dn_cfg s))) in p = "" \/ log_path p) ->
  keeps allowed I (rotateQueryLog pd f).
Proof.
  intros HI. unfold rotateQueryLog. apply keeps_get_bind. intros s Hs. specialize (HI s Hs). cbn zeta in HI.
  destruct (_ || _) eqn:E; [apply keeps_ret|]. apply orb_false_elim in E as [_ E]. apply String.eqb_neq in E.
  destruct HI as [HI|Hp]; [done|].
  destruct (log_writable _ Hp) as [Hw Hr]. pose proof (log_path_rotated _ Hp) as Hp1.
  destruct (log_writable _ Hp1) as [Hw1 _]. destruct (log_path_rules _ Hp) as [Hc _].
  unfold expireRotatedQueryLog.
  walk; first [by apply allowed_rm | by apply allowed_cp | apply allowed_write_path; [done|reflexivity]].
Qed.

(** ** The properties *)

(** The run of an update that is let in. *)
Lemma UpdateBlocklist_run parse fetch w s : dn_blocklistRunning s = false ->
  let c := CWriteFile "/etc/unbound/blocklist.conf"
             (blocklistFile parse fetch (DNSConfig_BlocklistURLs (Config_DNS (dn_cfg s)))) 420 in
  exists r t, UpdateBlocklist parse fetch w [] s = (r, s, c :: t).
Proof.
  intros Hr c. unfold UpdateBlocklist, mbind, svc_bind, get, put. rewrite Hr. fold c.
  assert (Hs : set_running false (set_running true s) = s) by (destruct s; cbn in Hr; by subst).
  unfold try_bind, wrapping, WriteFile, Reload, Run, perform, mbind, svc_bind, mret, svc_ret. fold c.
  destruct (w [] c); cbn [discard wrap_err app]; [|by rewrite Hs; eauto].
  unfold try_bind, wrapping, mbind, svc_bind, mret, svc_ret.
  destruct (w [c] _); cbn [wrap_err app]; rewrite Hs; eauto.
Qed.

(** The blocklist file is exactly the union of the lists that could be
    fetched, each name once, and no line of a list can reach past its quotes.
    While an update runs a second one is refused.  Otherwise the file written
    is one refusing zone per name of a duplicate-free list; a name is in it
    exactly when a configured URL was downloaded whole and maps it to
    nowhere; every name is made of letters, digits, hyphens, underscores and
    dots, whatever the servers sent; and the service is left as it was. *)
Theorem blocklist_update_exact parse fetch w s :
  let urls := DNSConfig_BlocklistURLs (Config_DNS (dn_cfg s)) in
  let run := UpdateBlocklist parse fetch w [] s in
  (dn_blocklistRunning s = true -> run = (Err ErrBlocklistUpdateRunning, s, []))
  /\ (dn_blocklistRunning s = false ->
      snd (fst run) = s /\
      exists ds, hd_error (snd run)
          = Some (CWriteFile "/etc/unbound/blocklist.conf" (String.concat "" (List.map zoneLine ds)) 420)
        /\ List.NoDup ds
        /\ (forall d, In d ds <-> exists url body, In url urls /\ fetch url = Ok (body, None)
              /\ downloadBlocklist parse fetch url = Ok (listed_domains body) /\ blocks body d)
        /\ Forall (fun d => d <> "" /\ len d <= 253 /\ all_chars block_name_char d = true) ds).
Proof.
  intros urls run. split.
  - intros Hr. subst run. unfold UpdateBlocklist, mbind, svc_bind, get. by rewrite Hr.
  - intros Hr.
    assert (HIn : forall d, In d (dedupe [] (allDomains parse fetch urls)) <-> exists url body, In url urls
              /\ fetch url = Ok (body, None)
              /\ downloadBlocklist parse fetch url = Ok (listed_domains body) /\ blocks body d).
    { intros d. rewrite dedupe_In, allDomains_In. split.
      - intros [(url & ds & Hu & Hd & Hin) _]. destruct (downloadBlocklist_Ok _ _ _ _ Hd) as (body & Hf & _ & ->).
        exists url, body. split_and!; [done..|]. by apply listed_domains_In.
      - intros (url & body & Hu & _ & Hd & Hb). split; [|by intros []].
        exists url, (listed_domains body). by rewrite listed_domains_In. }
    destruct (UpdateBlocklist_run parse fetch w s Hr) as (r & t & Hrun). subst run. rewrite Hrun. split; [done|].
    exists (dedupe [] (allDomains parse fetch urls)). split_and!; [done|apply dedupe_NoDup|done|].
    rewrite List.Forall_forall. intros d Hd. apply HIn in Hd as (url & body & _ & _ & _ & l & _ & _ & Hv).
    by apply validBlocklistDomain_chars.
Qed.

(** No query is lost and none is counted twice.  From the first poll of
    the log, through any polls and failures while Unbound appends to it, the
    buffer holds the last [bufSize] of the entries it held and the entries of
    the complete lines written since, in order, and the blocked counter grew
    by exactly the blocked ones among them.  A line still without its newline
    is left for a later poll. *)
Theorem query_log_exact c polls c' s0
  (Hg : grows c polls c') (Hb : (length (dn_buf s0) <= bufSize)%nat) :
  let s := snd (foldl (fun st p => tailStep p st) (-1, s0) (Ok c :: polls)) in
  let new := entries (lines_after (len c) c') in
  dn_buf s = lastn bufSize (dn_buf s0 ++ new)
  /\ st_BlockedCount (dn_stats s) = st_BlockedCount (dn_stats s0) + blocked_in new
  /\ (length (dn_buf s) <= bufSize)%nat.
Proof.
  intros s new. assert (Hcu : caught_up (len c) c).
  { split; [pose proof (len_pos c); lia|]. unfold lines_after.
    rewrite <- (append_empty_r c) at 2. by rewrite drop_bytes_app. }
  assert (Hs : s = record_all s0 (lines_after (len c) c')).
  { subst s. cbn [foldl]. unfold tailStep at 2. cbn [readQueryLog]. cbn [foldl].
    change (-1 <? 0) with true. cbn [foldl]. by rewrite (tail_grows _ _ _ Hg (len c) s0 Hcu). }
  rewrite Hs. destruct (record_all_spec (dn_buf s0) (lines_after (len c) c') s0) as (H1 & H2 & _).
  { by rewrite lastn_all. }
  rewrite H1, H2. split_and!; [done..|]. apply lastn_length.
Qed.

Definition sample_line : string :=
  "[1700000000] unbound[7:0] info: 10.0.0.5 ads.example. A IN REFUSED" +:+ nl.

Lemma query_log_exact_witness :
  let s := snd (foldl (fun st p => tailStep p st) (-1, NewDNSService Config_zero)
                  [Ok ""; Ok "[17000"; Err (Errorf "gone" []); Ok sample_line]) in
  dn_buf s = lastn bufSize [mkEntry (1700000000 * second) "10.0.0.5" "ads.example" "A" "REFUSED" true]
  /\ st_BlockedCount (dn_stats s) = 1.
Proof.
  assert (Hg : grows "" [Ok "[17000"; Err (Errorf "gone" []); Ok sample_line] sample_line).
  { apply (grows_ok "" "[17000"). apply grows_err.
    apply (grows_ok "[17000" ("00000] unbound[7:0] info: 10.0.0.5 ads.example. A IN REFUSED" +:+ nl)).
    apply grows_nil. }
  destruct (query_log_exact "" _ _ (NewDNSService Config_zero) Hg ltac:(cbn; lia)) as (H1 & H2 & _).
  split; [exact H1|exact H2].
Defined.

(** What the DNS page shows is what the buffer holds.  A page is that
    stretch of the queries, newest first, and the pages cover them without
    gap or overlap; a top list holds at most ten names, every one with the
    number of queries it has in the buffer, in falling order, and no name
    outside the list has more than one in it. *)
Theorem query_views_exact map_order s limit offset
  (Hord : forall m, Permutation (map_order m) (map_to_list m)) (Hl : 0 <= limit) (Ho : 0 <= offset) :
  GetRecentQueries limit offset s = Some (take (Z.to_nat limit) (drop (Z.to_nat offset) (rev (dn_buf s))))
  /\ (forall p, (p < length (dn_buf s))%nat -> exists page l, 0 <= page
        /\ GetRecentQueries 50 (50 * page) s = Some l /\ l !! (p mod 50)%nat = rev (dn_buf s) !! p)
  /\ let st := dn_stats (computeTopLists map_order s) in
     let shows top key l :=
       exists all, is_top 10 all top /\ List.NoDup (List.map fst all)
         /\ forall k n, In (k, n) all <-> n = times_in key k l /\ 0 < n in
     shows (st_TopDomains st) q_Domain (dn_buf s)
     /\ shows (st_TopClients st) q_ClientIP (dn_buf s)
     /\ shows (st_TopBlocked st) q_Domain (List.filter q_Blocked (dn_buf s)).
Proof.
  split; [by apply GetRecentQueries_page|]. split.
  - intros p Hp. exists (Z.of_nat (p / 50)). eexists. split; [lia|]. split; [apply GetRecentQueries_page; lia|].
    pose proof (Nat.div_mod p 50 ltac:(lia)) as Hdm. pose proof (Nat.mod_upper_bound p 50 ltac:(lia)) as Hm.
    rewrite lookup_take_lt by lia. rewrite lookup_drop. f_equal. lia.
  - intros st shows.
    assert (Hgen : forall key l, shows (topN (map_order (tally key l)) 10) key l).
    { intros key l. exists (map_order (tally key l)). split; [apply topN_is_top|]. split.
      - eapply Permutation_NoDup; [symmetry; apply Permutation_map, Hord|].
        apply NoDup_ListNoDup. apply NoDup_fst_map_to_list.
      - intros k n. rewrite <- list_elem_of_In, Hord, elem_of_map_to_list, tally_lookup.
        destruct (Z.eqb_spec (times_in key k l) 0) as [H0|H0].
        + split; [done|]. intros [-> ?]. lia.
        + split; [intros [= <-]; unfold times_in in *; lia|]. by intros [-> _]. }
    split_and!; apply Hgen.
Qed.

Definition three_queries : dns :=
  mkDns Config_zero
    [mkEntry 0 "10.0.0.5" "a.example" "A" "NOERROR" false; mkEntry 1 "10.0.0.6" "b.example" "A" "REFUSED" true;
     mkEntry 2 "10.0.0.5" "b.example" "A" "REFUSED" true] DNSStats_zero false.

Lemma query_views_exact_witness :
  GetRecentQueries 2 1 three_queries = Some (take 2 (drop 1 (rev (dn_buf three_queries))))
  /\ st_TopDomains (dn_stats (computeTopLists map_to_list three_queries)) = [("b.example", 2); ("a.example", 1)].
Proof.
  split; [|vm_compute; reflexivity].
  exact (proj1 (query_views_exact map_to_list three_queries 2 1 (fun m => reflexivity _) ltac:(lia) ltac:(lia))).
Defined.

(** The effect of saving the resolver settings. *)
Definition dns_settings (enableDoT : bool) (dot : string) (enableDoH : bool) (doh : string) (d : DNSConfig) : DNSConfig :=
  set_DNSConfig_DoHUpstream (TrimSpace doh)
    (set_DNSConfig_EnableDoH enableDoH
       (set_DNSConfig_DoTUpstream (TrimSpace dot) (set_DNSConfig_EnableDoT enableDoT d))).

(** A DoT upstream the resolver may be pointed at: the text is a host, the
    port 853 and a certificate name over an alphabet that cannot leave its
    line, and every address the host stands for is public. *)
Definition dot_upstream_ok (nets : result (list IPNet)) (lookup : string -> result (list IP)) (spec : string) : Prop :=
  exists host sni, all_chars dotSpecChar spec = true /\ host <> "" /\ sni <> ""
    /\ (spec = host +:+ "#" +:+ sni \/ spec = host +:+ "@853#" +:+ sni)
    /\ exists addrs, (ParseIP host = None -> lookup host = Ok addrs) /\ (forall ip, ParseIP host = Some ip -> addrs = [ip])
         /\ addrs <> [] /\ Forall (public nets) addrs.

Lemma parseAndValidateDoTSpec_ok nets lookup spec r :
  parseAndValidateDoTSpec nets lookup spec = Ok r -> dot_upstream_ok nets lookup spec.
Proof.
  unfold parseAndValidateDoTSpec, parseDoTSpec. intros HE.
  destruct (cut_byte "#" spec) as [[h sni]|] eqn:E1.
  - apply cut_byte_Some in E1 as [-> Hh].
    destruct (cut_byte "@" h) as [[host port]|] eqn:E2; inv_ok; bool_hyps;
      match goal with H : validateDoTHostNotInternal _ _ _ = Ok ?u |- _ =>
        destruct u; apply validateDoTHost_public in H end.
    + apply cut_byte_Some in E2 as [-> _]. subst port. exists host, sni. split_and!; try done.
      right. by rewrite append_assoc.
    + exists h, sni. split_and!; try done. by left.
  - destruct (cut_byte "@" spec) as [[host port]|]; inv_ok; by bool_hyps.
Qed.

(** The resolver is never pointed at an upstream it was not checked for.
    Saving the settings either is refused, changes nothing and makes no call,
    or puts exactly the new settings in force and writes that configuration;
    then DoT and DoH are not both on, and a DoT upstream carries a certificate
    name, port 853 and only public addresses. *)
Theorem dns_settings_checked nets lookup enableDoT dot enableDoH doh w h s :
  let run := SaveDNSSettings nets lookup enableDoT dot enableDoH doh w h s in
  (exists e, run = (Err e, s, h))
  \/ (let s' := with_dns (dns_settings enableDoT dot enableDoH doh) s in
      run = (discard (w h (CSave (dn_cfg s'))), s', h ++ [CSave (dn_cfg s')])
      /\ ub_EnableDoT (unboundData (dn_cfg s')) && ub_EnableDoH (unboundData (dn_cfg s')) = false
      /\ ~ (DNSConfig_EnableDoT (Config_DNS (dn_cfg s')) = true /\ DNSConfig_EnableDoH (Config_DNS (dn_cfg s')) = true)
      /\ (ub_EnableDoT (unboundData (dn_cfg s')) = true ->
          dot_upstream_ok nets lookup (ub_DoTUpstream (unboundData (dn_cfg s'))))).
Proof.
  intros run. subst run. unfold SaveDNSSettings.
  destruct (enableDoT && enableDoH) eqn:Eb; [left; by eexists|].
  destruct (if enableDoT then _ else _) as [r|e] eqn:Ev; [right|left; by eexists].
  cbv zeta. split_and!.
  - done.
  - change (ub_EnableDoT _) with enableDoT. change (ub_EnableDoH _) with (enableDoH && negb enableDoT).
    by destruct enableDoT, enableDoH.
  - change (DNSConfig_EnableDoT _) with enableDoT. change (DNSConfig_EnableDoH _) with enableDoH.
    intros [-> ->]. discriminate.
  - change (ub_EnableDoT _) with enableDoT. change (ub_DoTUpstream _) with (TrimSpace dot).
    intros ->. by eapply parseAndValidateDoTSpec_ok.
Qed.

(** ** Behaviours worth knowing *)

(** With no log path configured Unbound is told to write one file and the tail
    reads another, so the query log stays empty. *)
Lemma tail_reads_another_file cfg :
  QueryLogConfig_LogPath (DNSConfig_QueryLog (Config_DNS cfg)) = "" ->
  ub_QueryLogPath (unboundData cfg) = "/var/log/unbound-query.log" /\ tailPath cfg = "/var/log/unbound/queries.log".
Proof. intros H. unfold unboundData, tailPath, orDefault. cbn [ub_QueryLogPath]. by rewrite H. Qed.

(** A size is multiplied without an overflow check: this one is negative, so
    every log exceeds it. *)
Lemma size_limit_overflows : parseByteSize "8589934592G" = Ok int64_min.
Proof. reflexivity. Qed.

(** A list that cannot be fetched is skipped, and when none can be, the file is
    written empty and blocking ends. *)
Lemma failed_downloads_empty_blocklist parse fetch urls :
  (forall url, In url urls -> exists e, fetch url = Err e) -> blocklistFile parse fetch urls = "".
Proof.
  intros H. unfold blocklistFile, allDomains.
  assert (List.flat_map (fun url => match downloadBlocklist parse fetch url with Ok ds => ds | Err _ => [] end) urls = [])
    as ->; [|done].
  induction urls as [|u urls IH]; [done|]. cbn [List.flat_map]. rewrite IH by (intros; apply H; by right).
  destruct (H u (or_introl eq_refl)) as [e He].
  destruct (downloadBlocklist parse fetch u) eqn:E; [|done].
  apply downloadBlocklist_Ok in E as (b & Hf & _). congruence.
Qed.

(** The page number of a request is multiplied without an overflow check: the
    largest one gives a negative offset, which reads past the buffer. *)
Lemma page_overflows s : pageOffset "9223372036854775807" = -100 /\ GetRecentQueries 50 (-100) s = None.
Proof.
  split; [vm_compute; reflexivity|]. unfold GetRecentQueries.
  destruct (Z.leb_spec (Z.of_nat (length (dn_buf s))) (-100)); [lia|].
  destruct (Z.leb_spec (Z.of_nat (length (dn_buf s)) - -100) (Z.of_nat (length (dn_buf s)))); [lia|]. done.
Qed.
