(* ===== verification/Dhcp.v ===== *)
(** * internal/services/dhcp.go

    The DHCP service: the data of dnsmasq.conf, the address range of a VLAN,
    the lease file, static leases and their mirror in the static DNS records.
    The service and the DNS service share one configuration, so the operations
    run on the state of [Dns]; [mirror] says whether a DNS service is wired
    in. *)

From S2P Require Import Prelude GoStrings GoTime Regex GoNet GoIP Encoding ConfigTypes AgentRules FirewallRender.
From S2P Require Import Sys SystemService Dns.

Local Open Scope Z_scope.
Local Open Scope go_scope.
Local Open Scope sys_scope.

Definition DNSSourceDHCPStatic : string := "dhcp-static".

Definition staticLeaseFQDN (cfg : Config) (hostname : string) : string :=
  hostname +:+ "." +:+ orDefault (SystemConfig_Domain (Config_System cfg)) "lan".

(** ** dnsmasq.conf *)

Record vlanDHCPRange : Type := mkVlanRange {
  vr_Device : string; vr_RangeStart : string; vr_RangeEnd : string; vr_LeaseTime : string;
  vr_Gateway : string; vr_DNSServer : string }.

Record dnsmasqTemplateData : Type := mkDnsmasq {
  dm_LANDevice : string; dm_RangeStart : string; dm_RangeEnd : string; dm_LeaseTime : string;
  dm_Gateway : string; dm_DNSServer : string; dm_Domain : string;
  dm_StaticLeases : list StaticLease; dm_VLANDHCPRanges : list vlanDHCPRange }.

(** [firstRoleDevice] of pppoe.go. *)
Definition firstRoleDevice (ifaces : list InterfaceConfig) (role : string) : string :=
  match List.find (role_is role) ifaces with Some i => InterfaceConfig_Device i | None => "" end.

(** [uint32IP]: the address held as a 32-bit number. *)
Definition uint32IP (v : Z) : string := IP_String (of_be 4 (uint32 v)).

Definition vlanRangeBounds (vlan : VLANConfig) : option (string * string) :=
  let dhcp := VLANConfig_DHCP vlan in
  if nonempty (VLANDHCPConfig_RangeStart dhcp) && nonempty (VLANDHCPConfig_RangeEnd dhcp)
  then Some (VLANDHCPConfig_RangeStart dhcp, VLANDHCPConfig_RangeEnd dhcp)
  else match ParseCIDR (VLANConfig_Address vlan) with
  | None => None
  | Some (_, subnet) =>
      match To4 (net_ip subnet) with
      | None => None
      | Some v4 =>
          let '(ones, bits) := Mask_Size (net_mask subnet) in
          let hostBits := bits - ones in
          let base := be v4 in
          if 8 <=? hostBits then Some (uint32IP (base + 100), uint32IP (base + 200))
          else if hostBits <? 2 then None
          else
            let broadcast := Z.lor base (uint32 (Z.shiftl 1 hostBits - 1)) in
            Some (uint32IP (base + 2), uint32IP (broadcast - 1))
      end
  end.

(** One VLAN's range, when it serves DHCP and has what a range needs. *)
Definition vlanRange (cfg : Config) (leaseTime : string) (vlan : VLANConfig) : option vlanDHCPRange :=
  if negb (VLANDHCPConfig_Enabled (VLANConfig_DHCP vlan)) || String.eqb (VLANConfig_Address vlan) "" then None
  else
    let parentDev := deviceByID (Config_Interfaces cfg) (VLANConfig_Parent vlan) in
    match vlanRangeBounds vlan, ParseCIDR (VLANConfig_Address vlan) with
    | Some (start, e), Some (routerIP, _) =>
        if String.eqb parentDev "" then None
        else Some (mkVlanRange (parentDev +:+ "." +:+ itoa (VLANConfig_VID vlan)) start e
                     (orDefault (VLANDHCPConfig_LeaseTime (VLANConfig_DHCP vlan)) leaseTime)
                     (IP_String routerIP) (IP_String routerIP))
    | _, _ => None
    end.

Definition vlanDHCPRanges (cfg : Config) (leaseTime : string) : list vlanDHCPRange :=
  omap (vlanRange cfg leaseTime) (Config_VLANs cfg).

Definition dnsmasqData (cfg : Config) : dnsmasqTemplateData :=
  let dhcp := Config_DHCP cfg in
  let gateway := orDefault (DHCPConfig_Gateway dhcp) "10.10.10.1" in
  let leaseTime := orDefault (DHCPConfig_LeaseTime dhcp) "12h" in
  {| dm_LANDevice := firstRoleDevice (Config_Interfaces cfg) "lan";
     dm_RangeStart := DHCPConfig_RangeStart dhcp;
     dm_RangeEnd := DHCPConfig_RangeEnd dhcp;
     dm_LeaseTime := leaseTime;
     dm_Gateway := gateway;
     dm_DNSServer := orDefault (DHCPConfig_DNSServer dhcp) gateway;
     dm_Domain := orDefault (SystemConfig_Domain (Config_System cfg)) "lan";
     dm_StaticLeases := DHCPConfig_StaticLeases dhcp;
     dm_VLANDHCPRanges := vlanDHCPRanges cfg leaseTime |}.

(** ** The lease file *)

Record Lease : Type := mkLease {
  le_Expiry : Z; le_MAC : string; le_IP : string; le_Hostname : string; le_Active : bool }.

(** One line of the file, at the time [now]. *)
Definition parseLease (now : Z) (line : string) : option Lease :=
  let line := TrimSpace line in
  if String.eqb line "" then None
  else match Fields line with
  | f0 :: f1 :: f2 :: f3 :: _ =>
      let expiry := Atoi_value f0 in
      Some (mkLease (expiry * second) f1 f2 (if String.eqb f3 "*" then "" else f3)
              ((expiry =? 0) || (now <? expiry * second)))
  | _ => None
  end.

(** [ParseLeaseFile] on the outcome of opening the file: [Ok None] when it does
    not exist.  The leases read before an overlong line are returned with its
    error. *)
Definition ParseLeaseFile (now : Z) (file : result (option string)) : list Lease * result unit :=
  match file with
  | Err e => ([], Err (Errorw "open lease file: %w" [] e))
  | Ok None => ([], Ok tt)
  | Ok (Some data) =>
      let lines := scanned_lines data in
      let fits := fun l => len l <? MaxScanTokenSize in
      if forallb fits lines then (omap (fun l => parseLease now (TrimSuffix l (char_str "013"))) lines, Ok tt)
      else
        let before := (fix pre ls := match ls with [] => [] | l :: ls => if fits l then l :: pre ls else [] end) lines in
        (omap (fun l => parseLease now (TrimSuffix l (char_str "013"))) before, Err ErrTooLong)
  end.

Definition ParseLeaseData (now : Z) (data : string) : list Lease := omap (parseLease now) (split_byte lf data).

Record DeviceInfo : Type := mkDevice { dv_MAC : string; dv_IP : string; dv_Hostname : string }.

Definition GetDeviceList (leases : list Lease) : list DeviceInfo :=
  List.map (fun l => mkDevice (le_MAC l) (le_IP l) (le_Hostname l)) (List.filter le_Active leases).

(** ** Static leases *)

Definition ErrStaticLeaseAddress : error :=
  Errorf "static lease address is not a host on a served subnet" [].

Definition isNetworkOrBroadcast (addr : IP) (subnet : IPNet) : bool :=
  let '(ones, _) := Mask_Size (net_mask subnet) in
  if 31 <=? ones then false
  else
    let network := default [] (To4 (net_ip subnet)) in
    let broadcast := zip_with (fun n m => Z.lor n (255 - m)) network (net_mask subnet) in
    IP_Equal addr network || IP_Equal addr broadcast.

Definition dhcpSubnets (cfg : Config) : list string :=
  List.map InterfaceConfig_Address (List.filter (role_is "lan") (Config_Interfaces cfg))
  ++ List.map VLANConfig_Address (List.filter (fun v => VLANDHCPConfig_Enabled (VLANConfig_DHCP v)) (Config_VLANs cfg)).

(** The subnets of a list that contain the address, in order. *)
Definition containing (addr : IP) (cidrs : list string) : list IPNet :=
  omap (fun c => match ParseCIDR c with
                 | Some (_, subnet) => if Contains_ip subnet addr then Some subnet else None
                 | None => None
                 end) cidrs.

Definition validateStaticLease (cfg : Config) (ip hostname : string) : result unit :=
  guard! (if nonempty hostname then ValidateHostname hostname else Ok tt) ;;
  match (match ParseIP ip with Some a => To4 a | None => None end) with
  | None => Err (Errorw "%w: %q is not an IPv4 address" [ip] ErrStaticLeaseAddress)
  | Some addr =>
      match containing addr (dhcpSubnets cfg) with
      | subnet :: _ =>
          fail_if (isNetworkOrBroadcast addr subnet)
            (Errorw "%w: %s is the network or broadcast address of %s" [ip; IPNet_String subnet] ErrStaticLeaseAddress)
      | [] => Err (Errorw "%w: %s is outside every LAN and DHCP-enabled VLAN subnet" [ip] ErrStaticLeaseAddress)
      end
  end.

(** ** Operations *)

Definition static_leases (s : dns) : list StaticLease := DHCPConfig_StaticLeases (Config_DHCP (dn_cfg s)).

Definition with_leases (ls : list StaticLease) (s : dns) : dns :=
  set_cfg (set_Config_DHCP (set_DHCPConfig_StaticLeases ls (Config_DHCP (dn_cfg s))) (dn_cfg s)) s.

(** Replaces the leases and saves the configuration. *)
Definition save_leases (ls : list StaticLease) : svc dns (result unit) :=
  s ← get;
  put (with_leases ls s) ;;
  SaveToFile (dn_cfg (with_leases ls s)).

Definition mirrorRecord (cfg : Config) (hostname ip : string) : StaticDNSRecord :=
  mkStaticDNSRecord (staticLeaseFQDN cfg hostname) ip false DNSSourceDHCPStatic false.

Section Operations.
Variable unicode_fold : Z -> Z.
(** Whether a DNS service is wired in. *)
Variable mirror : bool.
(** The template engines of unbound.conf and dnsmasq.conf. *)
Variable execute_unbound : unboundTemplateData -> result string.
Variable execute : dnsmasqTemplateData -> result string.

Definition RenderToDisk : svc dns (result unit) :=
  s ← get;
  match wrap_err "render dnsmasq.conf: %w" [] (execute (dnsmasqData (dn_cfg s))) with
  | Err e => mret (Err e)
  | Ok rendered => WriteFile "/etc/dnsmasq.conf" rendered 420
  end.

Definition Reload : svc dns (result unit) :=
  try! _ := wrapping "reload dnsmasq: %w" [] (Run "killall" ["-HUP"; "dnsmasq"]) in mret (Ok tt).

Definition ApplyConfig : svc dns (result unit) := try! _ := RenderToDisk in Reload.

(** The first lease with the MAC address or the address decides the error. *)
Fixpoint lease_conflict (mac ip : string) (ls : list StaticLease) : result unit :=
  match ls with
  | [] => Ok tt
  | l :: ls =>
      if EqualFold unicode_fold (StaticLease_MAC l) mac
      then Err (Errorf "MAC address %s already has a static lease" [mac])
      else if String.eqb (StaticLease_IP l) ip then Err (Errorf "IP address %s already reserved" [ip])
      else lease_conflict mac ip ls
  end.

Definition AddStaticLease (mac ip hostname : string) : svc dns (result unit) :=
  s ← get;
  match (guard! validateStaticLease (dn_cfg s) ip hostname ;; lease_conflict mac ip (static_leases s))%go with
  | Err e => mret (Err e)
  | Ok _ =>
      try! _ := save_leases (static_leases s ++ [mkStaticLease mac ip hostname]) in
      (if mirror && nonempty hostname
       then AddStaticRecord unicode_fold (mirrorRecord (dn_cfg s) hostname ip) ;; mret (Ok tt)
       else mret (Ok tt))
  end.

Definition RemoveStaticLease (index : Z) : svc dns (result unit) :=
  s ← get;
  match static_leases s !! Z.to_nat index with
  | Some removed =>
      if index <? 0 then mret (Err (Errorf "invalid static lease index: %d" [itoa index]))
      else
        try! _ := save_leases (remove_at index (static_leases s)) in
        (if mirror && nonempty (StaticLease_Hostname removed)
         then
           s ← get;
           (let idx := FindStaticRecordIndexBySource unicode_fold DNSSourceDHCPStatic
                         (staticLeaseFQDN (dn_cfg s) (StaticLease_Hostname removed)) s in
            if 0 <=? idx then RemoveStaticRecord idx ;; mret (Ok tt) else mret (Ok tt))
         else mret (Ok tt))
  | None => mret (Err (Errorf "invalid static lease index: %d" [itoa index]))
  end.

Definition ApplyDNSMirror : svc dns (result unit) :=
  if mirror then Dns.ApplyConfig execute_unbound else mret (Ok tt).

Definition is_mirror (r : StaticDNSRecord) : bool := String.eqb (StaticDNSRecord_Source r) DNSSourceDHCPStatic.

(** The loop that strips the mirrored records; [None] is running out of fuel. *)
Fixpoint strip_loop (fuel : nat) : svc dns (option (result unit)) :=
  match fuel with
  | O => mret None
  | S fuel =>
      s ← get;
      let idx := index_of is_mirror 0 (static_records s) in
      if idx <? 0 then mret (Some (Ok tt))
      else
        r ← RemoveStaticRecord idx;
        match wrap_err "strip dns mirror: %w" [] r with
        | Err e => mret (Some (Err e))
        | Ok _ => strip_loop fuel
        end
  end.

(** The loop that mirrors every lease with a host name. *)
Definition mirror_leases (ls : list StaticLease) : svc dns unit :=
  for_each ls (fun lease =>
    if String.eqb (StaticLease_Hostname lease) "" then mret (Ok tt)
    else
      s ← get;
      AddStaticRecord unicode_fold (mirrorRecord (dn_cfg s) (StaticLease_Hostname lease) (StaticLease_IP lease))).

Definition SyncStaticDNSRecords : svc dns (result unit) :=
  if negb mirror then mret (Ok tt)
  else
    s ← get;
    r ← strip_loop (S (length (static_records s)));
    match r with
    | Some (Ok _) =>
        s ← get;
        mirror_leases (static_leases s) ;;
        Dns.ApplyConfig execute_unbound
    | Some (Err e) => mret (Err e)
    | None => mret (Err (Errorf "strip dns mirror: out of fuel" []))
    end.

Definition injectLeaseRecords (domain : string) (l : Lease) : svc dns unit :=
  let fqdn := le_Hostname l +:+ "." +:+ domain in
  Run "unbound-control" ["local_data"; fqdn +:+ ". 300 IN A " +:+ le_IP l] ;;
  Run "unbound-control" ["local_data"; le_Hostname l +:+ ". 300 IN A " +:+ le_IP l] ;;
  match split_byte "." (le_IP l) with
  | [a; b; c; d] =>
      Run "unbound-control"
        ["local_data"; d +:+ "." +:+ c +:+ "." +:+ b +:+ "." +:+ a +:+ ".in-addr.arpa." +:+ " 300 IN PTR " +:+ fqdn +:+ "."] ;;
      mret tt
  | _ => mret tt
  end.

Definition RebuildDNSRecords (now : Z) (file : result (option string)) (domain : string) : svc dns (result unit) :=
  SyncStaticDNSRecords ;;
  s ← get;
  let leases := fst (ParseLeaseFile now file) in
  let resolveDomain := orDefault (orDefault domain (SystemConfig_Domain (Config_System (dn_cfg s)))) "lan" in
  Run "unbound-control" ["flush_zone"; resolveDomain] ;;
  for_each leases (fun l =>
    if String.eqb (le_Hostname l) "" || negb (le_Active l) then mret tt else injectLeaseRecords resolveDomain l) ;;
  mret (Ok tt).

End Operations.

(** ** Lemmas: ranges *)

Definition default_range (vlan : VLANConfig) : Prop :=
  nonempty (VLANDHCPConfig_RangeStart (VLANConfig_DHCP vlan)) && nonempty (VLANDHCPConfig_RangeEnd (VLANConfig_DHCP vlan)) = false.

Lemma uint32IP_dotted v : 0 <= v < 2 ^ 32 -> uint32IP v = dotted (of_be 4 v).
Proof.
  intros Hv. unfold uint32IP, uint32. rewrite Z.mod_small by lia. apply IP_String_four. apply of_be_length.
Qed.

Lemma vlan_range_default vlan ip a ones : default_range vlan ->
  ParseCIDR (VLANConfig_Address vlan) = Some (ip, cidr a ones) -> length a = 4%nat -> wf_ip a -> 0 <= ones <= 32 ->
  (30 < ones -> vlanRangeBounds vlan = None)
  /\ (ones <= 30 -> exists lo hi, vlanRangeBounds vlan = Some (dotted (of_be 4 lo), dotted (of_be 4 hi))
        /\ first_of a ones < lo <= hi /\ hi < last_of a ones).
Proof.
  intros Hd Hp Hl Hw Ho. destruct (v4_facts a ones Hl Hw Ho) as (Hf & H0 & Hlast & Hm & Ht).
  unfold vlanRangeBounds. rewrite Hd, Hp, Ht, Hm. fold (first_of a ones).
  split; intros Hh.
  - destruct (Z.leb_spec 8 (32 - ones)); [lia|]. destruct (Z.ltb_spec (32 - ones) 2); [done|lia].
  - unfold last_of in *. assert (Hpow : 4 <= 2 ^ (32 - ones)).
    { change 4 with (2 ^ 2). apply Z.pow_le_mono_r; lia. }
    destruct (Z.leb_spec 8 (32 - ones)).
    + assert (256 <= 2 ^ (32 - ones)) by (change 256 with (2 ^ 8); apply Z.pow_le_mono_r; lia).
      exists (first_of a ones + 100), (first_of a ones + 200). rewrite !uint32IP_dotted by lia. split; [done|lia].
    + destruct (Z.ltb_spec (32 - ones) 2); [lia|].
      assert (Hsmall : 2 ^ (32 - ones) < 2 ^ 32) by (apply Z.pow_lt_mono_r; lia).
      rewrite Z.shiftl_1_l. unfold uint32 at 1. rewrite (Z.mod_small (2 ^ (32 - ones) - 1)) by lia.
      rewrite lor_low; [|lia|rewrite Hf, Z.mul_comm; apply Z_mod_mult].
      exists (first_of a ones + 2), (first_of a ones + 2 ^ (32 - ones) - 1 - 1).
      rewrite !uint32IP_dotted by lia. split; [done|lia].
Qed.

(** ** Lemmas: lease addresses *)

Lemma IP_Equal_four a b : length a = 4%nat -> length b = 4%nat -> IP_Equal a b = true <-> a = b.
Proof.
  intros Ha Hb. unfold IP_Equal, As16. rewrite Ha, Hb. cbn [Nat.eqb]. rewrite bool_decide_eq_true.
  split; [|congruence]. apply app_inv_head.
Qed.

Lemma network_or_broadcast a ones x : length a = 4%nat -> wf_ip a -> 0 <= ones < 31 -> length x = 4%nat -> wf_ip x ->
  isNetworkOrBroadcast x (cidr a ones) = false <-> be x <> first_of a ones /\ be x <> last_of a ones.
Proof.
  intros Hl Hw Ho Hlx Hx. destruct (v4_facts a ones Hl Hw ltac:(lia)) as (Hf & _ & _ & Hm & Ht).
  unfold isNetworkOrBroadcast. rewrite Hm, Ht. destruct (Z.leb_spec 31 ones); [lia|]. cbn [default from_option id].
  change (zip_with _ (net_ip (cidr a ones)) (net_mask (cidr a ones))) with (broadcast_mask a ones).
  rewrite orb_false_iff, <- !not_true_iff_false.
  rewrite !IP_Equal_four; [|done|by rewrite broadcast_length|done|by rewrite cidr_ip_length].
  assert (Hbl : be (broadcast_mask a ones) = last_of a ones).
  { rewrite be_broadcast by (rewrite ?Hl; done || lia). rewrite Hl. destruct (Z.leb_spec 0 ones); [|lia].
    unfold last_of, first_of. cbn [net_ip cidr]. rewrite be_mask by (rewrite ?Hl; done || lia). rewrite Hl.
    unfold hostbits. change (8 * Z.of_nat 4) with 32. lia. }
  split; intros [H1 H2]; split; intros He.
  - apply H1. apply be_inj; [done|by apply mask_wf|by rewrite cidr_ip_length, Hl|done].
  - apply H2. apply be_inj; [done|by apply broadcast_wf|by rewrite broadcast_length, Hl|congruence].
  - apply H1. by rewrite He.
  - apply H2. by rewrite He.
Qed.

Lemma containing_In x cs n : In n (containing x cs) ->
  exists c ip, In c cs /\ ParseCIDR c = Some (ip, n) /\ Contains_ip n x = true.
Proof.
  unfold containing. rewrite <- list_elem_of_In, list_elem_of_omap. intros (c & Hc & Hp).
  destruct (ParseCIDR c) as [[ip m]|] eqn:E; [|done]. destruct (Contains_ip m x) eqn:Em; [|done].
  injection Hp as <-. exists c, ip. by rewrite <- list_elem_of_In.
Qed.

(** What an accepted reservation is. *)
Definition lease_served (cfg : Config) (ip : string) : Prop :=
  exists p x c q a ones, ParseIP ip = Some p /\ To4 p = Some x
    /\ In c (dhcpSubnets cfg) /\ ParseCIDR c = Some (q, cidr a ones) /\ length a = 4%nat
    /\ first_of a ones <= be x <= last_of a ones
    /\ (ones < 31 -> first_of a ones < be x < last_of a ones).

Lemma validateStaticLease_ok cfg ip hostname : Forall plain_cidr (dhcpSubnets cfg) ->
  validateStaticLease cfg ip hostname = Ok tt ->
  (hostname = "" \/ ValidateHostname hostname = Ok tt) /\ lease_served cfg ip.
Proof.
  intros Hpl HE. unfold validateStaticLease in HE. inv_ok. split.
  { unfold nonempty in H. destruct (String.eqb_spec hostname ""); [by left|]. right. by destruct x. }
  destruct (ParseIP ip) as [p|] eqn:Ep; [|discriminate]. destruct (To4 p) as [y|] eqn:Ey; [|discriminate].
  destruct (To4_wf p y (ParseIP_wf _ _ Ep) Ey) as [Hwy Hly].
  destruct (containing y (dhcpSubnets cfg)) as [|n ns] eqn:Ec; [discriminate|]. inv_ok.
  destruct (containing_In y (dhcpSubnets cfg) n) as (c & q & Hin & Hp & Hcon); [rewrite Ec; by left|].
  destruct (ParseCIDR_cidr _ _ _ Hp) as (a & ones & _ & -> & Hwa & Hla & Ho).
  rewrite List.Forall_forall in Hpl. pose proof (Hpl c Hin _ _ Hp) as Hcan.
  destruct (Contains_v4 a ones y Hwa Hla Ho Hcan Hwy Hly Hcon) as [Hl4 Hr].
  rewrite Hl4 in Ho. change (8 * Z.of_nat 4) with 32 in Ho.
  assert (Hb : ones < 31 -> first_of a ones < be y < last_of a ones).
  { intros H31. apply network_or_broadcast in HE as [H1 H2]; try done; lia. }
  by exists p, y, c, q, a, ones.
Qed.

(** ** Lemmas: the mirror *)

Definition set_records (rs : list StaticDNSRecord) (s : dns) : dns := with_dns (set_DNSConfig_StaticRecords rs) s.

Lemma set_records_twice a b s : set_records a (set_records b s) = set_records a s.
Proof. done. Qed.

Lemma set_records_self s : set_records (static_records s) s = s.
Proof. destruct s as [c ? ? ?], c as [? ? ? ? ? ? ? ? ? d]. by destruct d. Qed.

Lemma static_records_set rs s : static_records (set_records rs s) = rs.
Proof. done. Qed.

Lemma static_leases_set rs s : static_leases (set_records rs s) = static_leases s.
Proof. done. Qed.

Lemma del_record_set i s : with_dns (del_record i) s = set_records (remove_at i (static_records s)) s.
Proof. done. Qed.

Lemma add_record_set r s : with_dns (add_record r) s = set_records (static_records s ++ [r]) s.
Proof. done. Qed.

Lemma index_of_spec {A} (P : A -> bool) i l : 0 <= i ->
  (index_of P i l = -1 /\ List.filter P l = [])
  \/ (exists k x, index_of P i l = i + Z.of_nat k /\ l !! k = Some x /\ P x = true).
Proof.
  revert i. induction l as [|y l IH]; intros i Hi; cbn [index_of List.filter]; [by left|].
  destruct (P y) eqn:E.
  - right. exists 0%nat, y. split_and!; [lia|done|done].
  - destruct (IH (i + 1)) as [[H1 H2]|(k & x & H1 & H2 & H3)]; [lia|by left|].
    right. exists (S k), x. split_and!; [lia|done|done].
Qed.

Lemma remove_at_filter {A} (P : A -> bool) k x l : l !! k = Some x -> P x = true ->
  List.filter (fun y => negb (P y)) (remove_at (Z.of_nat k) l) = List.filter (fun y => negb (P y)) l
  /\ S (length (List.filter P (remove_at (Z.of_nat k) l))) = length (List.filter P l).
Proof.
  intros Hk Hx. unfold remove_at. rewrite Nat2Z.id. rewrite <- (take_drop_middle l k x Hk) at 3 6.
  rewrite !List.filter_app. cbn [List.filter]. rewrite Hx. cbn [negb]. split; [done|].
  rewrite !length_app. cbn [length]. lia.
Qed.

Definition user_records (rs : list StaticDNSRecord) : list StaticDNSRecord :=
  List.filter (fun r => negb (is_mirror r)) rs.

(** The strip loop ends within its fuel; when every save succeeded, it leaves
    exactly the records it does not own. *)
Lemma strip_loop_spec fuel w h s : (length (List.filter is_mirror (static_records s)) < fuel)%nat ->
  exists r rs h', strip_loop fuel w h s = (Some r, set_records rs s, h')
    /\ user_records rs = user_records (static_records s)
    /\ (r = Ok tt -> rs = user_records (static_records s))
    /\ ((forall h c, is_ok (w h (CSave c)) = true) -> r = Ok tt).
Proof.
  revert h s. induction fuel as [|fuel IH]; intros h s Hf; [lia|].
  cbn [strip_loop]. unfold mbind at 1, svc_bind at 1, get.
  destruct (index_of_spec is_mirror 0 (static_records s) ltac:(lia)) as [[-> Hn]|(k & x & -> & Hk & Hx)].
  { exists (Ok tt), (static_records s), h. rewrite set_records_self. split_and!; try done.
    intros _. unfold user_records. clear -Hn. induction (static_records s) as [|y l IH]; [done|].
    cbn [List.filter] in *. destruct (is_mirror y); [done|]. cbn [negb]. f_equal. by apply IH. }
  rewrite Z.add_0_l. destruct (Z.ltb_spec (Z.of_nat k) 0); [lia|].
  pose proof (lookup_lt_Some _ _ _ Hk) as Hlt.
  destruct (remove_at_filter is_mirror k x _ Hk Hx) as [Hu Hm].
  unfold mbind, svc_bind.
  destruct (RemoveStaticRecord_run (Z.of_nat k) w h s) as [[_ ->]|[Hno _]]; [|lia].
  rewrite save_dns_run, del_record_set.
  destruct (w h _) as [v|e] eqn:Ew; cbn [discard wrap_err].
  - destruct (IH (h ++ [CSave (dn_cfg (set_records (remove_at (Z.of_nat k) (static_records s)) s))])
                 (set_records (remove_at (Z.of_nat k) (static_records s)) s)) as (r & rs & h' & -> & H1 & H2 & H3).
    { rewrite static_records_set. lia. }
    exists r, rs, h'. rewrite set_records_twice, static_records_set in *. fold (user_records (remove_at (Z.of_nat k) (static_records s))) in Hu.
    rewrite Hu in *. split_and!; try done.
  - eexists _, _, _. split; [done|]. split; [exact Hu|]. split; [done|].
    intros Hall. specialize (Hall h (dn_cfg (set_records (remove_at (Z.of_nat k) (static_records s)) s))).
    by rewrite Ew in Hall.
Qed.

Section Mirror.
Variable unicode_fold : Z -> Z.

(** One lease mirrored into a list of records. *)
Definition mirror_one (cfg : Config) (rs : list StaticDNSRecord) (l : StaticLease) : list StaticDNSRecord :=
  let r := mirrorRecord cfg (StaticLease_Hostname l) (StaticLease_IP l) in
  if String.eqb (StaticLease_Hostname l) ""
     || (MaxStaticDNSRecords <=? Z.of_nat (length rs))
     || existsb (fun x => EqualFold unicode_fold (StaticDNSRecord_Name x) (StaticDNSRecord_Name r)) rs
  then rs else rs ++ [r].

(** The records a synchronisation aims at: the user's own, then the mirror. *)
Definition mirrored (cfg : Config) (rs : list StaticDNSRecord) : list StaticDNSRecord :=
  foldl (mirror_one cfg) (user_records rs) (DHCPConfig_StaticLeases (Config_DHCP cfg)).

Lemma mirror_one_user cfg rs l : user_records (mirror_one cfg rs l) = user_records rs.
Proof.
  unfold mirror_one. destruct (_ || _); [done|]. unfold user_records. rewrite List.filter_app. cbn.
  apply app_nil_r.
Qed.

Lemma foldl_mirror_user cfg ls rs : user_records (foldl (mirror_one cfg) rs ls) = user_records rs.
Proof.
  revert rs. induction ls as [|l ls IH]; intros rs; cbn [foldl]; [done|]. by rewrite IH, mirror_one_user.
Qed.

Lemma user_records_idem rs : user_records (user_records rs) = user_records rs.
Proof. unfold user_records. induction rs as [|r rs IH]; cbn; [done|]. destruct (negb (is_mirror r)) eqn:E; cbn; rewrite ?E, ?IH; done. Qed.

Lemma mirrored_user cfg rs : user_records (mirrored cfg rs) = user_records rs.
Proof. unfold mirrored. by rewrite foldl_mirror_user, user_records_idem. Qed.

Lemma mirror_one_incl cfg rs l x : In x rs -> In x (mirror_one cfg rs l).
Proof. intros H. unfold mirror_one. destruct (_ || _); [done|]. apply in_app_iff. by left. Qed.

Lemma foldl_mirror_incl cfg ls rs x : In x rs -> In x (foldl (mirror_one cfg) rs ls).
Proof. revert rs. induction ls as [|l ls IH]; intros rs H; cbn [foldl]; [done|]. by apply IH, mirror_one_incl. Qed.

Lemma mirror_one_length cfg rs l : (length rs <= length (mirror_one cfg rs l))%nat.
Proof. unfold mirror_one. destruct (_ || _); [lia|]. rewrite length_app. lia. Qed.

Lemma foldl_mirror_length cfg ls rs : (length rs <= length (foldl (mirror_one cfg) rs ls))%nat.
Proof.
  revert rs. induction ls as [|l ls IH]; intros rs; cbn [foldl]; [lia|].
  pose proof (IH (mirror_one cfg rs l)). pose proof (mirror_one_length cfg rs l). lia.
Qed.

(** Whether some record carries the name a lease is mirrored under. *)
Definition named (cfg : Config) (l : StaticLease) (rs : list StaticDNSRecord) : Prop :=
  exists r, In r rs
    /\ EqualFold unicode_fold (StaticDNSRecord_Name r) (staticLeaseFQDN cfg (StaticLease_Hostname l)) = true.

(** Every lease with a host name has a record, unless the table is full. *)
Lemma foldl_mirror_named cfg ls rs l : In l ls -> StaticLease_Hostname l <> "" ->
  named cfg l (foldl (mirror_one cfg) rs ls)
  \/ MaxStaticDNSRecords <= Z.of_nat (length (foldl (mirror_one cfg) rs ls)).
Proof.
  revert rs. induction ls as [|l' ls IH]; intros rs; [done|]. cbn [foldl]. intros [->|Hin] Hne; [|by apply IH].
  pose proof (foldl_mirror_length cfg ls (mirror_one cfg rs l)) as Hlen.
  unfold mirror_one in Hlen at 1. destruct (String.eqb_spec (StaticLease_Hostname l) ""); [done|]. cbn [orb] in Hlen.
  destruct (Z.leb_spec MaxStaticDNSRecords (Z.of_nat (length rs))) as [Hfull|Hroom].
  { right. cbn [orb] in Hlen. lia. }
  left. cbn [orb] in Hlen. destruct (existsb _ rs) eqn:Ex.
  - apply existsb_exists in Ex as (r & Hr & Hf). exists r. split; [|done]. by apply foldl_mirror_incl, mirror_one_incl.
  - exists (mirrorRecord cfg (StaticLease_Hostname l) (StaticLease_IP l)).
    split; [|by apply EqualFold_folded]. apply foldl_mirror_incl. unfold mirror_one.
    destruct (String.eqb_spec (StaticLease_Hostname l) ""); [done|].
    destruct (Z.leb_spec MaxStaticDNSRecords (Z.of_nat (length rs))); [lia|]. cbn [orb]. rewrite Ex.
    apply in_app_iff. right. by left.
Qed.

(** The loop over the leases computes the fold: a record that cannot be added
    and a save that fails are ignored alike. *)
Lemma mirror_leases_run ls w h s :
  exists h', mirror_leases unicode_fold ls w h s
    = (tt, set_records (foldl (mirror_one (dn_cfg s)) (static_records s) ls) s, h').
Proof.
  revert h s. unfold mirror_leases.
  induction ls as [|l ls IH]; intros h s; cbn [for_each foldl].
  { exists h. by rewrite set_records_self. }
  unfold mbind at 1, svc_bind at 1. unfold mirror_one at 2.
  destruct (String.eqb_spec (StaticLease_Hostname l) "") as [Hz|Hz]; cbn [orb]; [exact (IH h s)|].
  unfold mbind at 1, svc_bind at 1, get.
  set (r := mirrorRecord (dn_cfg s) (StaticLease_Hostname l) (StaticLease_IP l)).
  destruct (AddStaticRecord_run unicode_fold r w h s) as [[Ha ->]|[Ha (e & ->)]];
    unfold addable in Ha; rewrite Z.ltb_antisym, <- negb_orb in Ha.
  - apply negb_true_iff in Ha. rewrite Ha, save_dns_run, add_record_set.
    destruct (IH (h ++ [CSave (dn_cfg (set_records (static_records s ++ [r]) s))])
                 (set_records (static_records s ++ [r]) s)) as (h' & Hrun).
    exists h'. etransitivity; [exact Hrun|]. done.
  - apply negb_false_iff in Ha. rewrite Ha. exact (IH h s).
Qed.

Lemma dns_apply_state execute w h s : snd (fst (Dns.ApplyConfig execute w h s)) = s.
Proof. exact (eq_sym (proj1 (ApplyConfig_allowed (I := eq s) execute w h s eq_refl))). Qed.

(** Synchronising the DNS records with the static leases always ends: the
    loop that strips the mirrored records never runs out of its bound, the
    number of records plus one.  Whatever fails on the way, only mirrored
    records are touched: the user's own are all kept, in order.  When the
    configuration can be saved, the records afterwards are exactly the user's
    own followed by one per lease with a host name that is neither taken nor
    over the limit of 500, so that every such lease has a record under its
    name unless the table is full, and synchronising again changes nothing. *)
Theorem sync_mirror_exact execute w h s :
  exists rs,
    snd (fst (SyncStaticDNSRecords unicode_fold true execute w h s)) = set_records rs s
    /\ fst (fst (strip_loop (S (length (static_records s))) w h s)) <> None
    /\ user_records rs = user_records (static_records s)
    /\ ((forall h c, is_ok (w h (CSave c)) = true) ->
          rs = mirrored (dn_cfg s) (static_records s)
          /\ mirrored (dn_cfg s) rs = rs
          /\ (forall l, In l (static_leases s) -> StaticLease_Hostname l <> "" ->
                named (dn_cfg s) l rs \/ MaxStaticDNSRecords <= Z.of_nat (length rs))).
Proof.
  destruct (strip_loop_spec (S (length (static_records s))) w h s) as (r & rs & h' & Hstrip & Hu & Hok & Hall).
  { pose proof (filter_length_le is_mirror (static_records s)). lia. }
  unfold SyncStaticDNSRecords. cbn [negb]. unfold mbind at 1, svc_bind at 1, get at 1.
  unfold mbind at 1, svc_bind at 1. rewrite Hstrip.
  destruct r as [[]|e].
  - unfold mbind at 1, svc_bind at 1, get. unfold mbind, svc_bind. rewrite static_leases_set.
    destruct (mirror_leases_run (static_leases s) w h' (set_records rs s)) as (h'' & ->).
    rewrite dns_apply_state, set_records_twice, static_records_set, (Hok eq_refl).
    exists (mirrored (dn_cfg s) (static_records s)). split_and!; [done|done|apply mirrored_user|].
    intros _. split_and!; [done| |].
    + unfold mirrored at 1. by rewrite mirrored_user.
    + intros l Hl Hne. by apply foldl_mirror_named.
  - exists rs. split_and!; [done|done|done|]. intros Hs. by specialize (Hall Hs).
Qed.

End Mirror.

(** ** Lemmas: static leases *)

Section Leases.
Variable unicode_fold : Z -> Z.

(** No two leases share a MAC address, in any case, or an address. *)
Definition leases_ok (ls : list StaticLease) : Prop :=
  List.NoDup (List.map (fun l => folded unicode_fold (StaticLease_MAC l)) ls)
  /\ List.NoDup (List.map StaticLease_IP ls).

Lemma NoDup_snoc {A} (l : list A) x : List.NoDup l -> ~ In x l -> List.NoDup (l ++ [x]).
Proof.
  intros Hl Hx. apply List.NoDup_app; [done|constructor; [by intros []|constructor]|]. intros y Hy [->|[]]. done.
Qed.

Lemma NoDup_remove_at {A B} (f : A -> B) i l : List.NoDup (List.map f l) -> List.NoDup (List.map f (remove_at i l)).
Proof.
  intros H. unfold remove_at. destruct (l !! Z.to_nat i) as [x|] eqn:E.
  - rewrite <- (take_drop_middle l _ x E), List.map_app in H. cbn [List.map] in H.
    rewrite List.map_app. by apply NoDup_remove_1 in H.
  - apply lookup_ge_None in E. rewrite take_ge, drop_ge, app_nil_r by lia. done.
Qed.

Lemma leases_ok_remove i ls : leases_ok ls -> leases_ok (remove_at i ls).
Proof. intros [H1 H2]. split; by apply NoDup_remove_at. Qed.

Lemma lease_conflict_ok mac ip ls : lease_conflict unicode_fold mac ip ls = Ok tt ->
  ~ In (folded unicode_fold mac) (List.map (fun l => folded unicode_fold (StaticLease_MAC l)) ls)
  /\ ~ In ip (List.map StaticLease_IP ls).
Proof.
  induction ls as [|l ls IH]; cbn [lease_conflict List.map]; [by intros _; split; intros []|].
  destruct (EqualFold unicode_fold (StaticLease_MAC l) mac) eqn:Em; [done|].
  destruct (String.eqb_spec (StaticLease_IP l) ip); [done|]. intros H. destruct (IH H) as [H1 H2].
  split; intros [Heq|Hin]; try done.
  apply EqualFold_folded in Heq. congruence.
Qed.

Lemma lease_conflict_err mac ip ls e : lease_conflict unicode_fold mac ip ls = Err e ->
  In (folded unicode_fold mac) (List.map (fun l => folded unicode_fold (StaticLease_MAC l)) ls)
  \/ In ip (List.map StaticLease_IP ls).
Proof.
  induction ls as [|l ls IH]; cbn [lease_conflict List.map]; [done|].
  destruct (EqualFold unicode_fold (StaticLease_MAC l) mac) eqn:Em.
  { intros _. left. left. by apply EqualFold_folded. }
  destruct (String.eqb_spec (StaticLease_IP l) ip); [intros _; right; by left|]. intros H.
  destruct (IH H); [left|right]; by right.
Qed.

(** Records may change, leases do not. *)
Lemma AddStaticRecord_leases rec w h s :
  static_leases (snd (fst (AddStaticRecord unicode_fold rec w h s))) = static_leases s.
Proof. by destruct (AddStaticRecord_run unicode_fold rec w h s) as [[_ ->]|[_ (e & ->)]]. Qed.

Lemma RemoveStaticRecord_leases i w h s :
  static_leases (snd (fst (RemoveStaticRecord i w h s))) = static_leases s.
Proof. by destruct (RemoveStaticRecord_run i w h s) as [[_ ->]|[_ (e & ->)]]. Qed.

Lemma save_leases_run ls w h s :
  save_leases ls w h s
  = (discard (w h (CSave (dn_cfg (with_leases ls s)))), with_leases ls s, h ++ [CSave (dn_cfg (with_leases ls s))]).
Proof. done. Qed.

Lemma AddStaticLease_leases mirror mac ip hostname w h s :
  let s' := snd (fst (AddStaticLease unicode_fold mirror mac ip hostname w h s)) in
  let accepted := (guard! validateStaticLease (dn_cfg s) ip hostname ;; lease_conflict unicode_fold mac ip (static_leases s))%go in
  static_leases s' = static_leases s ++ (if is_ok accepted then [mkStaticLease mac ip hostname] else [])
  /\ (is_ok accepted = false -> fst (fst (AddStaticLease unicode_fold mirror mac ip hostname w h s)) = accepted /\ s' = s).
Proof.
  cbv zeta. unfold AddStaticLease. unfold mbind at 1 3 5, svc_bind at 1 3 5, get.
  destruct (result_bind _ _) as [[]|e]; cbn [is_ok]; [|by rewrite app_nil_r].
  split; [|done]. unfold try_bind, mbind at 1, svc_bind at 1. rewrite save_leases_run.
  destruct (discard _); [|done]. destruct (mirror && nonempty hostname); [|done].
  unfold mbind, svc_bind.
  match goal with |- context [AddStaticRecord unicode_fold ?r ?w ?h ?s0] =>
    pose proof (AddStaticRecord_leases r w h s0) as Hl; destruct (AddStaticRecord unicode_fold r w h s0) as [[? ?] ?] end.
  exact Hl.
Qed.

Lemma RemoveStaticLease_leases mirror i w h s :
  let s' := snd (fst (RemoveStaticLease unicode_fold mirror i w h s)) in
  static_leases s' = if (0 <=? i) && (i <? Z.of_nat (length (static_leases s)))
                     then remove_at i (static_leases s) else static_leases s.
Proof.
  cbv zeta. unfold RemoveStaticLease. unfold mbind at 1, svc_bind at 1, get at 1.
  destruct (static_leases s !! Z.to_nat i) as [x|] eqn:E.
  2:{ apply lookup_ge_None in E. destruct (Z.leb_spec 0 i), (Z.ltb_spec i (Z.of_nat (length (static_leases s)))); try done. lia. }
  apply lookup_lt_Some in E. destruct (Z.ltb_spec i 0), (Z.leb_spec 0 i); try lia; [done|].
  destruct (Z.ltb_spec i (Z.of_nat (length (static_leases s)))); [|lia]. cbn [andb].
  unfold try_bind, mbind at 1, svc_bind at 1. rewrite save_leases_run. destruct (discard _); [|done].
  destruct (mirror && _); [|done]. unfold mbind at 1, svc_bind at 1, get. destruct (0 <=? _); [|done].
  unfold mbind, svc_bind.
  match goal with |- context [RemoveStaticRecord ?r ?w ?h ?s0] =>
    pose proof (RemoveStaticRecord_leases r w h s0) as Hl; destruct (RemoveStaticRecord r w h s0) as [[? ?] ?] end.
  exact Hl.
Qed.

(** Reserving an address appends exactly the requested lease or changes
    nothing, and it is refused exactly when the address is not acceptable or
    the MAC address (in any case) or the address is already reserved; an
    accepted lease is an IPv4 host address inside a LAN or DHCP-enabled VLAN
    subnet, never the network or broadcast address of a subnet that has them.
    Removing takes out the lease at the index, or nothing when the index is out
    of range.  So no two leases ever share a MAC address or an address. *)
Theorem static_leases_exact mirror mac ip hostname i w h s :
  Forall plain_cidr (dhcpSubnets (dn_cfg s)) -> leases_ok (static_leases s) ->
  let s1 := snd (fst (AddStaticLease unicode_fold mirror mac ip hostname w h s)) in
  let s2 := snd (fst (RemoveStaticLease unicode_fold mirror i w h s)) in
  leases_ok (static_leases s1) /\ leases_ok (static_leases s2)
  /\ ((static_leases s1 = static_leases s ++ [mkStaticLease mac ip hostname]
       /\ lease_served (dn_cfg s) ip /\ (hostname = "" \/ ValidateHostname hostname = Ok tt))
      \/ (s1 = s /\ exists e, fst (fst (AddStaticLease unicode_fold mirror mac ip hostname w h s)) = Err e
          /\ (validateStaticLease (dn_cfg s) ip hostname = Err e
              \/ In (folded unicode_fold mac) (List.map (fun l => folded unicode_fold (StaticLease_MAC l)) (static_leases s))
              \/ In ip (List.map StaticLease_IP (static_leases s)))))
  /\ static_leases s2 = (if (0 <=? i) && (i <? Z.of_nat (length (static_leases s)))
                         then remove_at i (static_leases s) else static_leases s).
Proof.
  intros Hpl Hok s1 s2. pose proof (RemoveStaticLease_leases mirror i w h s) as H2. fold s2 in H2. cbv zeta in H2.
  destruct (AddStaticLease_leases mirror mac ip hostname w h s) as [H1 Hr]. fold s1 in H1, Hr.
  assert (Hs2 : leases_ok (static_leases s2)).
  { rewrite H2. destruct (_ && _); [by apply leases_ok_remove|done]. }
  destruct (validateStaticLease (dn_cfg s) ip hostname) as [[]|e] eqn:Ev; cbn [result_bind] in H1, Hr.
  2:{ cbn [is_ok] in H1, Hr. rewrite app_nil_r in H1. destruct (Hr eq_refl) as [He Hs].
      split_and!; [by rewrite H1|done| |done]. right. split; [done|]. exists e. split; [done|]. by left. }
  destruct (lease_conflict unicode_fold mac ip (static_leases s)) as [[]|e] eqn:Ec; cbn [is_ok] in H1, Hr.
  - destruct (lease_conflict_ok _ _ _ Ec) as [Hm Hi].
    split_and!; [|done| |done].
    + rewrite H1. unfold leases_ok. rewrite !List.map_app. destruct Hok as [Hn1 Hn2]. split; by apply NoDup_snoc.
    + left. destruct (validateStaticLease_ok _ _ _ Hpl Ev) as [Hh Hsv]. done.
  - rewrite app_nil_r in H1. destruct (Hr eq_refl) as [He Hs]. split_and!; [by rewrite H1|done| |done].
    right. split; [done|]. exists e. split; [done|]. right. by apply (lease_conflict_err _ _ _ e).
Qed.

End Leases.

(** A DHCP-enabled VLAN without a configured range is given one inside its
    own subnet: a non-empty stretch of host addresses, strictly between the
    network and the broadcast address, with no wrap-around at 32 bits; a
    subnet too small to hold one (a /31 or /32) is given none.  A range the
    user configured is used as it is. *)
Theorem vlan_range_bounds vlan ip n :
  ParseCIDR (VLANConfig_Address vlan) = Some (ip, n) ->
  let dhcp := VLANConfig_DHCP vlan in
  (VLANDHCPConfig_RangeStart dhcp <> "" -> VLANDHCPConfig_RangeEnd dhcp <> "" ->
     vlanRangeBounds vlan = Some (VLANDHCPConfig_RangeStart dhcp, VLANDHCPConfig_RangeEnd dhcp))
  /\ (default_range vlan -> length (net_ip n) = 4%nat ->
      exists a ones, n = cidr a ones /\ 0 <= ones <= 32
      /\ ((30 < ones /\ vlanRangeBounds vlan = None)
          \/ (ones <= 30 /\ exists lo hi, vlanRangeBounds vlan = Some (dotted (of_be 4 lo), dotted (of_be 4 hi))
                /\ first_of a ones < lo <= hi /\ hi < last_of a ones /\ last_of a ones < 2 ^ 32))).
Proof.
  intros Hp dhcp. split.
  - intros Hs He. unfold vlanRangeBounds. fold dhcp. unfold nonempty.
    by rewrite (proj2 (String.eqb_neq _ _) Hs), (proj2 (String.eqb_neq _ _) He).
  - intros Hd Hl4. destruct (ParseCIDR_cidr _ _ _ Hp) as (a & ones & _ & -> & Hwa & Hla & Ho).
    rewrite cidr_ip_length in Hl4. rewrite Hl4 in Ho. change (8 * Z.of_nat 4) with 32 in Ho.
    destruct (vlan_range_default vlan ip a ones Hd Hp Hl4 Hwa Ho) as [Hsmall Hbig].
    destruct (v4_facts a ones Hl4 Hwa Ho) as (_ & _ & Hlast & _).
    exists a, ones. split_and!; [done|lia|lia|]. destruct (Z.le_gt_cases ones 30) as [H|H].
    + right. destruct (Hbig H) as (lo & hi & H1 & H2 & H3). split; [done|]. by exists lo, hi.
    + left. split; [lia|]. apply Hsmall. lia.
Qed.

(** ** Witnesses *)

Definition sample_vlan : VLANConfig :=
  mkVLANConfig "iot" "lan0" 20 "IoT" "lan" "static" "10.10.20.1/29" 1500 false (mkVLANDHCPConfig true "" "" "").

Definition sample_lan : InterfaceConfig :=
  mkInterfaceConfig "lan0" "eth1" "LAN" "lan" "static" "10.10.10.1/24" "" 1500 "" "" "".

Definition sample_state : dns :=
  NewDNSService (set_Config_VLANs [sample_vlan] (set_Config_Interfaces [sample_lan] Config_zero)).

Lemma vlan_range_bounds_witness :
  vlanRangeBounds sample_vlan = Some ("10.10.20.2", "10.10.20.6")
  /\ exists a ones lo hi, ones <= 30 /\ vlanRangeBounds sample_vlan = Some (dotted (of_be 4 lo), dotted (of_be 4 hi))
     /\ first_of a ones < lo <= hi /\ hi < last_of a ones.
Proof.
  split; [vm_compute; reflexivity|].
  destruct (vlan_range_bounds sample_vlan (As16 [10; 10; 20; 1]) (cidr [10; 10; 20; 1] 29) eq_refl) as [_ H].
  destruct (H eq_refl eq_refl) as (a & ones & _ & _ & [[_ Hn]|(Ho & lo & hi & H1 & H2 & H3 & _)]).
  - exfalso. vm_compute in Hn. discriminate Hn.
  - by exists a, ones, lo, hi.
Defined.

Lemma static_leases_exact_witness :
  exists s1, snd (fst (AddStaticLease (fun r => r) true "AA:BB:CC:00:11:22" "10.10.10.9" "printer" (fun _ _ => Ok "") [] sample_state)) = s1
  /\ leases_ok (fun r => r) (static_leases s1)
  /\ static_leases s1 = [mkStaticLease "AA:BB:CC:00:11:22" "10.10.10.9" "printer"]
  /\ static_records s1 = [mirrorRecord (dn_cfg sample_state) "printer" "10.10.10.9"].
Proof.
  eexists. split; [reflexivity|].
  assert (Hpl : Forall plain_cidr (dhcpSubnets (dn_cfg sample_state))).
  { change (dhcpSubnets _) with ["10.10.10.1/24"; "10.10.20.1/29"].
    repeat (apply List.Forall_cons || apply List.Forall_nil); intros ip n H; vm_compute in H; injection H as <- <-; by left. }
  destruct (static_leases_exact (fun r => r) true "AA:BB:CC:00:11:22" "10.10.10.9" "printer" 0 (fun _ _ => Ok "") [] sample_state
    Hpl ltac:(split; apply List.NoDup_nil)) as (H1 & _ & H3 & _).
  split; [exact H1|]. split; reflexivity.
Defined.

(** ** Lemmas: the calls *)

Section Calls.
Context (unicode_fold : Z -> Z) (mirror : bool) (execute_unbound : unboundTemplateData -> result string)
  (execute : dnsmasqTemplateData -> result string).
Local Abbreviation any := (fun _ : dns => True).

Lemma dhcp_RenderToDisk_allowed : keeps allowed any (RenderToDisk execute).
Proof. unfold RenderToDisk. walk; allow_call. Qed.

Lemma dhcp_ApplyConfig_allowed : keeps allowed any (ApplyConfig execute).
Proof. unfold ApplyConfig, Reload. apply keeps_try; [apply dhcp_RenderToDisk_allowed|]. intros. walk. allow_call. Qed.

Lemma AddStaticRecord_allowed r : keeps allowed any (AddStaticRecord unicode_fold r).
Proof. unfold AddStaticRecord. walk. by apply save_dns_allowed. Qed.

Lemma RemoveStaticRecord_allowed i : keeps allowed any (RemoveStaticRecord i).
Proof. unfold RemoveStaticRecord. walk. by apply save_dns_allowed. Qed.

Lemma AddStaticLease_allowed mac ip hostname : keeps allowed any (AddStaticLease unicode_fold mirror mac ip hostname).
Proof. unfold AddStaticLease, save_leases. walk; first [exact I|apply AddStaticRecord_allowed|allow_call]. Qed.

Lemma RemoveStaticLease_allowed i : keeps allowed any (RemoveStaticLease unicode_fold mirror i).
Proof. unfold RemoveStaticLease, save_leases. walk; first [exact I|apply RemoveStaticRecord_allowed|allow_call]. Qed.

Lemma strip_loop_allowed fuel : keeps allowed any (strip_loop fuel).
Proof. induction fuel; cbn [strip_loop]; walk; first [exact I|assumption|apply RemoveStaticRecord_allowed]. Qed.

Lemma SyncStaticDNSRecords_allowed : keeps allowed any (SyncStaticDNSRecords unicode_fold mirror execute_unbound).
Proof.
  unfold SyncStaticDNSRecords, mirror_leases.
  walk; first [exact I|apply strip_loop_allowed|apply AddStaticRecord_allowed|apply Dns.ApplyConfig_allowed].
Qed.

Lemma RebuildDNSRecords_allowed now file domain :
  keeps allowed any (RebuildDNSRecords unicode_fold mirror execute_unbound now file domain).
Proof.
  unfold RebuildDNSRecords, injectLeaseRecords. walk; first [exact I|apply SyncStaticDNSRecords_allowed|allow_call].
Qed.

End Calls.

(** ** Behaviours worth knowing *)

(** Two leases may carry one host name; only the first is mirrored, and
    removing the second takes the first one's record with it. *)
Lemma shared_hostname_loses_record :
  let add mac ip s := snd (fst (AddStaticLease (fun r => r) true mac ip "printer" (fun _ _ => Ok "") [] s)) in
  let s2 := add "AA:BB:CC:00:11:23" "10.10.10.10" (add "AA:BB:CC:00:11:22" "10.10.10.9" sample_state) in
  let s3 := snd (fst (RemoveStaticLease (fun r => r) true 1 (fun _ _ => Ok "") [] s2)) in
  static_records s2 = [mirrorRecord (dn_cfg sample_state) "printer" "10.10.10.9"]
  /\ static_leases s3 = [mkStaticLease "AA:BB:CC:00:11:22" "10.10.10.9" "printer"] /\ static_records s3 = [].
Proof. repeat split. Qed.
