(* ===== verification/Vpn.v ===== *)
(** * internal/services/vpn.go and the subnets of internal/services/vpn_s2s.go

    The WireGuard service: client tunnels, the server and its key pair, the
    peer list, the allocation of tunnel addresses and the networks a peer may
    claim.  A peer is added in two steps, a check that does not hold the lock
    and a commit that does, and [AddPeer] is their composition; the invite
    wizard that builds on this file is in [VpnLink]. *)

From S2P Require Import Prelude GoStrings GoTime GoPath Regex GoNet GoIP Encoding Validate ConfigTypes AgentRules.
From S2P Require Import FirewallRender Sys SystemService Dns.

Local Open Scope Z_scope.
Local Open Scope go_scope.
Local Open Scope sys_scope.

Record vpn : Type := mkVpn { vp_cfg : Config; vp_running : bool }.

Definition NewVPNService (cfg : Config) : vpn := mkVpn cfg false.

Definition server (s : vpn) : WGServerConfig := VPNConfig_Server (Config_VPN (vp_cfg s)).
Definition clients (s : vpn) : list WGClientTunnel := VPNConfig_Clients (Config_VPN (vp_cfg s)).
Definition Peers (s : vpn) : list WGServerPeer := WGServerConfig_Peers (server s).

Definition with_server (f : WGServerConfig -> WGServerConfig) (s : vpn) : vpn :=
  mkVpn (set_Config_VPN (set_VPNConfig_Server (f (server s)) (Config_VPN (vp_cfg s))) (vp_cfg s)) (vp_running s).
Definition with_peers (ps : list WGServerPeer) (s : vpn) : vpn := with_server (set_WGServerConfig_Peers ps) s.
Definition with_running (b : bool) (s : vpn) : vpn := mkVpn (vp_cfg s) b.

Definition persist : svc vpn (result unit) := s ← get; SaveToFile (vp_cfg s).

(** ** Subnets *)

Definition addressToSubnet (addr : string) : string :=
  let addr := TrimSpace addr in
  let addr := if negb (has_char "/" addr) && has_char "." addr then addr +:+ "/24" else addr in
  match ParseCIDR addr with
  | None => addr
  | Some (_, n) => IPNet_String n
  end.

Definition lanSubnets (cfg : Config) : list string :=
  List.map (fun i => addressToSubnet (InterfaceConfig_Address i))
    (List.filter (fun i => role_is "lan" i && nonempty (InterfaceConfig_Address i)) (Config_Interfaces cfg)).

Definition reservedSubnets (cfg : Config) : list string :=
  let addr := WGServerConfig_Address (VPNConfig_Server (Config_VPN cfg)) in
  lanSubnets cfg ++ (if nonempty addr then [addressToSubnet addr] else []).

(** The entries of a peer's AllowedIPs. *)
Definition allowed_entries (p : WGServerPeer) : list string :=
  List.filter nonempty (List.map TrimSpace (split_byte "," (WGServerPeer_AllowedIPs p))).

Definition claimedSubnets (cfg : Config) : list string :=
  let ovpn := OpenVPNConfig_Server (Config_OpenVPN cfg) in
  reservedSubnets cfg
  ++ List.map (fun v => addressToSubnet (VLANConfig_Address v))
       (List.filter (fun v => nonempty (VLANConfig_Address v)) (Config_VLANs cfg))
  ++ (if OVPNServerConfig_Enabled ovpn && nonempty (OVPNServerConfig_Subnet ovpn)
      then [OVPNServerConfig_Subnet ovpn] else [])
  ++ List.flat_map (fun p => allowed_entries p ++ WGServerPeer_RemoteSubnets p)
       (WGServerConfig_Peers (VPNConfig_Server (Config_VPN cfg))).

Definition privateLANPrefix (c : string) : bool :=
  match ParseCIDR (TrimSpace c) with
  | None => false
  | Some (_, n) => IsPrivate (net_ip n) && IsPrivate (broadcast_of (net_ip n) (net_mask n))
  end.

(** One pair of the double loop of [subnetsConflict]. *)
Definition pair_conflict (r l : string) : bool :=
  match ParseCIDR (TrimSpace r), ParseCIDR (TrimSpace l) with
  | Some (_, rNet), Some (_, lNet) => Contains_ip rNet (net_ip lNet) || Contains_ip lNet (net_ip rNet)
  | _, _ => false
  end.

Definition subnetsConflict (cfg : Config) (remote : list string) : option string :=
  List.find (fun r => existsb (pair_conflict r) (claimedSubnets cfg)) remote.

Definition ErrPeerSubnetNotPrivate : error := Errorf "a remote subnet must be a private LAN range" [].
Definition ErrPeerSubnetConflict : error := Errorf "s2s peer subnet conflicts with a local subnet" [].
Definition ErrPeerNameInUse : error := Errorf "a peer with that name already exists" [].
Definition ErrPeerNotFound : error := Errorf "peer not found" [].
Definition ErrPeerKeyUnavailable : error :=
  Errorf "peer private key is not stored, so its config cannot be re-issued" [].
Definition ErrVPNAlreadyRunning : error := Errorf "wireguard server already running" [].
Definition ErrVPNAlreadyStopped : error := Errorf "wireguard server already stopped" [].

Definition checkRemoteSubnets (cfg : Config) (remote : list string) : result unit :=
  match List.find (fun r => negb (privateLANPrefix r)) remote with
  | Some r => Err (Errorw "%w: %s" [r] ErrPeerSubnetNotPrivate)
  | None =>
      match subnetsConflict cfg remote with
      | Some conflict => Err (Errorw "%w: %s" [conflict] ErrPeerSubnetConflict)
      | None => Ok tt
      end
  end.

(** ** Tunnel addresses *)

(** The carry of [nextIP], on the bytes from the last to the first. *)
Fixpoint increment (bytes : list Z) : list Z :=
  match bytes with
  | [] => []
  | b :: r => let b' := (b + 1) mod 256 in if b' =? 0 then b' :: increment r else b' :: r
  end.

Definition nextIP (ip : IP) : IP := rev (increment (rev ip)).

(** The tunnel address of a peer: the first entry of its AllowedIPs, without
    the prefix length. *)
Definition tunnelIP (p : WGServerPeer) : string :=
  let first := match cut_byte "," (WGServerPeer_AllowedIPs p) with Some (h, _) => h | None => WGServerPeer_AllowedIPs p end in
  let first := TrimSpace first in
  match cut_byte "/" first with Some (h, _) => h | None => first end.

Definition usedTunnelIPs (s : vpn) : list string := List.map tunnelIP (Peers s).

(** The loop of [nextTunnelIP]: [None] is running out of fuel, [Some None] the
    end of the pool. *)
Fixpoint scanPool (fuel : nat) (pool : IPNet) (used : list string) (ip : IP) : option (option IP) :=
  match fuel with
  | O => None
  | S fuel =>
      if negb (Contains_ip pool ip) then Some None
      else if negb (Contains_ip pool (nextIP ip)) then Some None
      else if existsb (String.eqb (IP_String ip)) used then scanPool fuel pool used (nextIP ip)
      else Some (Some ip)
  end.

(** The fuel is enough: every step past a taken address uses up one entry. *)
Definition scanFuel (used : list string) : nat := S (length used).

Definition nextTunnelIP (s : vpn) : result string :=
  let addr := WGServerConfig_Address (server s) in
  match ParseCIDR (TrimSpace addr) with
  | None => Err (Errorf "parse WireGuard server address %q: %w" [addr])
  | Some (serverIP, pool) =>
      let used := IP_String serverIP :: usedTunnelIPs s in
      match scanPool (scanFuel used) pool used (nextIP (net_ip pool)) with
      | Some (Some ip) => Ok (IP_String ip +:+ "/32")
      | _ => Err (Errorf "no free tunnel IPs in %s" [IPNet_String pool])
      end
  end.

(** ** Endpoints *)

Definition validateS2SEndpoint (endpoint : string) : result unit :=
  match SplitHostPort endpoint with
  | Err e => Err (Errorw "invalid endpoint %q: %w" [endpoint] e)
  | Ok (host, port) =>
      match Atoi port with
      | Some n =>
          if is_ok (ValidatePort n)
          then fail_if (match ParseIP host with None => negb (is_ok (ValidateDomain host)) | Some _ => false end)
                 (Errorf "invalid endpoint host %q" [host])
          else Err (Errorf "invalid endpoint port %q" [port])
      | None => Err (Errorf "invalid endpoint port %q" [port])
      end
  end.

Definition ValidatePeerEndpoint (endpoint : string) : result unit := validateS2SEndpoint endpoint.

(** ** Keys *)

Definition GenerateKeypair : svc vpn (result (string * string)) :=
  try! privOut := wrapping "genkey: %w" [] (Run "wg" ["genkey"]) in
  let privateKey := TrimSpace privOut in
  try! pubOut := wrapping "pubkey: %w" [] (RunWithStdin (privateKey +:+ nl) "wg" ["pubkey"]) in
  mret (Ok (privateKey, TrimSpace pubOut)).

Definition GeneratePresharedKey : svc vpn (result string) :=
  try! out := wrapping "genpsk: %w" [] (Run "wg" ["genpsk"]) in
  mret (Ok (TrimSpace out)).

Definition set_keys (priv pub : string) (srv : WGServerConfig) : WGServerConfig :=
  set_WGServerConfig_PublicKey pub (set_WGServerConfig_PrivateKey priv srv).

(** The check and save that close [ensureServerKeypairLocked]. *)
Definition saveKeypair : svc vpn (result unit) :=
  s ← get;
  if String.eqb (WGServerConfig_PrivateKey (server s)) "" || String.eqb (WGServerConfig_PublicKey (server s)) ""
  then mret (Err (Errorf "wg returned an empty server key" []))
  else wrapping "persist server key pair: %w" [] persist.

Definition EnsureServerKeypair : svc vpn (result unit) :=
  s ← get;
  let srv := server s in
  if nonempty (WGServerConfig_PrivateKey srv) && nonempty (WGServerConfig_PublicKey srv) then mret (Ok tt)
  else if String.eqb (WGServerConfig_PrivateKey srv) ""
  then
    try! (priv, pub) := wrapping "generate server key pair: %w" [] GenerateKeypair in
    put (with_server (set_keys priv pub) s) ;;
    saveKeypair
  else
    try! pub := wrapping "derive server public key: %w" []
                  (RunWithStdin (WGServerConfig_PrivateKey srv +:+ nl) "wg" ["pubkey"]) in
    put (with_server (set_WGServerConfig_PublicKey (TrimSpace pub)) s) ;;
    saveKeypair.

(** ** Client tunnels *)

Record WGTunnelStatus : Type := mkTunnelStatus {
  wt_Name : string; wt_Active : bool; wt_PublicKey : string; wt_Endpoint : string; wt_Transfer : string;
  wt_Handshake : string }.

(** The value of a line of [wg show], when the line has the label. *)
Definition labelled (label line : string) (old : string) : string :=
  if HasPrefix line (label +:+ ":") then TrimPrefix line (label +:+ ": ") else old.

Definition tunnelLine (st : WGTunnelStatus) (line : string) : WGTunnelStatus :=
  let line := TrimSpace line in
  mkTunnelStatus (wt_Name st) (wt_Active st) (labelled "public key" line (wt_PublicKey st)) (wt_Endpoint st)
    (labelled "transfer" line (wt_Transfer st)) (labelled "latest handshake" line (wt_Handshake st)).

Definition tunnelStatus (client : WGClientTunnel) (answer : result string) : WGTunnelStatus :=
  let idle := mkTunnelStatus (WGClientTunnel_Name client) false "" (WGClientTunnel_Endpoint client) "" "" in
  match answer with
  | Ok out =>
      if Contains out "public key"
      then foldl tunnelLine
             (mkTunnelStatus (WGClientTunnel_Name client) true "" (WGClientTunnel_Endpoint client) "" "")
             (split_byte lf out)
      else idle
  | Err _ => idle
  end.

Definition wgName (i : nat) : string := "wg" +:+ itoa (Z.of_nat i).
Definition clientPath (i : nat) : string := "/etc/wireguard/" +:+ wgName i +:+ ".conf".

Fixpoint tunnels_from (i : nat) (cs : list WGClientTunnel) : svc vpn (list WGTunnelStatus) :=
  match cs with
  | [] => mret []
  | c :: cs =>
      answer ← Run "wg" ["show"; wgName i];
      rest ← tunnels_from (S i) cs;
      mret (tunnelStatus c answer :: rest)
  end.

Definition ListClientTunnels : svc vpn (list WGTunnelStatus) := s ← get; tunnels_from 0 (clients s).

(** The first client with the name, with its index. *)
Fixpoint findClient_from (i : nat) (name : string) (cs : list WGClientTunnel) : option (nat * WGClientTunnel) :=
  match cs with
  | [] => None
  | c :: cs => if String.eqb (WGClientTunnel_Name c) name then Some (i, c) else findClient_from (S i) name cs
  end.

Definition findClient (name : string) (s : vpn) : option (nat * WGClientTunnel) := findClient_from 0 name (clients s).

Section Operations.
(** The template engines of wireguard-client.conf and wireguard-server.conf. *)
Variable execute_client : WGClientTunnel -> result string.
Variable execute_server : WGServerConfig -> result string.

Definition renderClientConfig (client : WGClientTunnel) (path : string) : svc vpn (result unit) :=
  match wrap_err "render wg client config: %w" [] (execute_client client) with
  | Err e => mret (Err e)
  | Ok text => WriteFile path text 384
  end.

Definition renderServerConfig (path : string) : svc vpn (result unit) :=
  s ← get;
  match wrap_err "render wg server config: %w" [] (execute_server (server s)) with
  | Err e => mret (Err e)
  | Ok text => WriteFile path text 384
  end.

Definition ConnectClient (name : string) : svc vpn (result unit) :=
  s ← get;
  match findClient name s with
  | None => mret (Err (Errorf "tunnel %q not found" [name]))
  | Some (idx, client) =>
      try! _ := renderClientConfig client (clientPath idx) in
      try! _ := wrapping "wg-quick up %s: %w" [wgName idx] (Run "wg-quick" ["up"; wgName idx]) in
      Run "ip" ["route"; "add"; "default"; "dev"; wgName idx; "table"; itoa (WGClientTunnel_Table client)] ;;
      Run "ip" ["rule"; "add"; "fwmark"; itoa (WGClientTunnel_Fwmark client); "lookup"; itoa (WGClientTunnel_Table client)] ;;
      mret (Ok tt)
  end.

Definition DisconnectClient (name : string) : svc vpn (result unit) :=
  s ← get;
  match findClient name s with
  | None => mret (Err (Errorf "tunnel %q not found" [name]))
  | Some (idx, client) =>
      Run "ip" ["rule"; "del"; "fwmark"; itoa (WGClientTunnel_Fwmark client)] ;;
      Run "ip" ["route"; "del"; "default"; "dev"; wgName idx; "table"; itoa (WGClientTunnel_Table client)] ;;
      r ← Run "wg-quick" ["down"; wgName idx];
      mret (discard r)
  end.

Fixpoint render_clients (i : nat) (cs : list WGClientTunnel) : svc vpn (result unit) :=
  match cs with
  | [] => mret (Ok tt)
  | c :: cs =>
      try! _ := wrapping "render client %s: %w" [WGClientTunnel_Name c] (renderClientConfig c (clientPath i)) in
      render_clients (S i) cs
  end.

Definition RenderAllClientConfigs : svc vpn (result unit) := s ← get; render_clients 0 (clients s).

(** ** The server *)

Record WGPeerStatus : Type := mkPeerStatus {
  wp_Name : string; wp_PublicKey : string; wp_AllowedIPs : string; wp_Handshake : string; wp_Transfer : string;
  wp_Online : bool; wp_IsSiteToSite : bool; wp_RemoteSubnets : list string }.

Record WGServerStatus : Type := mkServerStatus {
  ws_Enabled : bool; ws_Active : bool; ws_ListenPort : Z; ws_PublicKey : string; ws_PeerCount : Z;
  ws_Peers : list WGPeerStatus }.

Definition peerStatus (p : WGServerPeer) : WGPeerStatus :=
  mkPeerStatus (WGServerPeer_Name p) (WGServerPeer_PublicKey p) (WGServerPeer_AllowedIPs p)
    "" "" false (WGServerPeer_IsSiteToSite p) (WGServerPeer_RemoteSubnets p).

Definition ServerStatus : svc vpn WGServerStatus :=
  s ← get;
  answer ← Run "wg" ["show"; "wgs0"];
  let active := match answer with Ok out => Contains out "public key" | Err _ => false end in
  let key := match answer with
             | Ok out => if active then foldl (fun k line => labelled "public key" (TrimSpace line) k) "" (split_byte lf out)
                         else ""
             | Err _ => "" end in
  mret (mkServerStatus (WGServerConfig_Enabled (server s)) active (WGServerConfig_ListenPort (server s)) key
          (Z.of_nat (length (Peers s))) (List.map peerStatus (Peers s))).

Definition serverConf : string := "/etc/wireguard/wgs0.conf".

Definition ServerUp : svc vpn (result unit) :=
  s ← get;
  if vp_running s then mret (Err ErrVPNAlreadyRunning)
  else
    try! _ := EnsureServerKeypair in
    try! _ := renderServerConfig serverConf in
    try! _ := Run "wg-quick" ["up"; "wgs0"] in
    s ← get;
    put (with_running true s) ;;
    mret (Ok tt).

Definition ServerDown : svc vpn (result unit) :=
  s ← get;
  if negb (vp_running s) then mret (Err ErrVPNAlreadyStopped)
  else
    try! _ := Run "wg-quick" ["down"; "wgs0"] in
    s ← get;
    put (with_running false s) ;;
    mret (Ok tt).

Definition RenderServerConfig : svc vpn (result unit) :=
  try! _ := EnsureServerKeypair in renderServerConfig serverConf.

Definition SyncWGServer : svc vpn (result unit) :=
  try! _ := RenderServerConfig in
  try! stripped := wrapping "wg-quick strip: %w" [] (Run "wg-quick" ["strip"; "wgs0"]) in
  try! _ := wrapping "wg syncconf: %w" [] (RunWithStdin stripped "wg" ["syncconf"; "wgs0"; "/dev/stdin"]) in
  mret (Ok tt).

(** ** Peers *)

Definition peerNameTaken (name : string) (s : vpn) : bool :=
  existsb (fun p => String.eqb (WGServerPeer_Name p) name) (Peers s).

(** What [AddPeer] checks before it takes the lock. *)
Definition addPeerCheck (remoteSubnets : list string) (endpoint : string) : svc vpn (result unit) :=
  s ← get;
  mret (guard! checkRemoteSubnets (vp_cfg s) remoteSubnets ;;
        (if nonempty endpoint then ValidatePeerEndpoint endpoint else Ok tt))%go.

(** What [AddPeer] does under the lock. *)
Definition addPeerCommit (name : string) (siteToSite : bool) (remoteSubnets : list string)
  (endpoint privKey pubKey psk : string) : svc vpn (result (WGServerPeer * string)) :=
  s ← get;
  if peerNameTaken name s then mret (Err (Errorw "%w: %s" [name] ErrPeerNameInUse))
  else match nextTunnelIP s with
  | Err e => mret (Err e)
  | Ok next =>
      let allowedIPs := if siteToSite && negb (bool_decide (remoteSubnets = []))
                        then next +:+ ", " +:+ join ", " remoteSubnets else next in
      let peer := mkWGServerPeer name pubKey privKey psk allowedIPs 25 endpoint remoteSubnets siteToSite false zero_time in
      put (with_peers (Peers s ++ [peer]) s) ;;
      try! _ := wrapping "persist: %w" [] persist in
      mret (Ok (peer, privKey))
  end.

Definition AddPeer (name : string) (siteToSite : bool) (remoteSubnets : list string) (endpoint : string)
  : svc vpn (result (WGServerPeer * string)) :=
  try! _ := addPeerCheck remoteSubnets endpoint in
  try! (privKey, pubKey) := GenerateKeypair in
  psk ← GeneratePresharedKey;
  addPeerCommit name siteToSite remoteSubnets endpoint privKey pubKey (match psk with Ok k => k | Err _ => "" end).

Definition removePeerAt (i : nat) (s : vpn) : vpn := with_peers (remove_at (Z.of_nat i) (Peers s)) s.

(** The first peer with the name. *)
Definition peer_index (name : string) (s : vpn) : option (nat * WGServerPeer) :=
  list_find (fun p => WGServerPeer_Name p = name) (Peers s).

Definition RemovePeer (name : string) : svc vpn (result unit) :=
  s ← get;
  match peer_index name s with
  | Some (i, _) => put (removePeerAt i s) ;; persist
  | None => mret (Err (Errorf "peer %q not found" [name]))
  end.

(** ** The peer's own configuration *)

Definition peerAllowedIPs (cfg : Config) (peer : WGServerPeer) : string :=
  if negb (WGServerPeer_IsSiteToSite peer) then "0.0.0.0/0, ::/0" else join ", " (reservedSubnets cfg).

Definition conf_line (key value : string) : string := key +:+ " = " +:+ value +:+ nl.

Definition GeneratePeerConfig (cfg : Config) (peer : WGServerPeer) (peerPrivKey : string) : string :=
  let server := VPNConfig_Server (Config_VPN cfg) in
  let ips := WGServerPeer_AllowedIPs peer in
  let peerTunnelIP := match cut_byte "," ips with Some (h, _) => TrimSpace h | None => ips end in
  "[Interface]" +:+ nl
  +:+ conf_line "PrivateKey" peerPrivKey
  +:+ conf_line "Address" peerTunnelIP
  +:+ (if negb (WGServerPeer_IsSiteToSite peer) then conf_line "DNS" (WGServerConfig_DNS server) else "")
  +:+ (if 0 <? WGServerConfig_MTU server then conf_line "MTU" (itoa (WGServerConfig_MTU server)) else "")
  +:+ nl +:+ "[Peer]" +:+ nl
  +:+ conf_line "PublicKey" (WGServerConfig_PublicKey server)
  +:+ (if nonempty (WGServerPeer_PresharedKey peer) then conf_line "PresharedKey" (WGServerPeer_PresharedKey peer) else "")
  +:+ conf_line "Endpoint" (orDefault (WGServerConfig_PublicEndpoint server) "<YOUR_PUBLIC_IP>" +:+ ":"
                            +:+ itoa (WGServerConfig_ListenPort server))
  +:+ conf_line "AllowedIPs" (peerAllowedIPs cfg peer)
  +:+ (if 0 <? WGServerPeer_Keepalive peer then conf_line "PersistentKeepalive" (itoa (WGServerPeer_Keepalive peer)) else "").

Definition PeerConfig (name : string) (s : vpn) : result string :=
  match peer_index name s with
  | None => Err (Errorw "%w: %s" [name] ErrPeerNotFound)
  | Some (_, peer) =>
      if String.eqb (WGServerPeer_PrivateKey peer) "" then Err (Errorw "%w: %s" [name] ErrPeerKeyUnavailable)
      else Ok (GeneratePeerConfig (vp_cfg s) peer (WGServerPeer_PrivateKey peer))
  end.

End Operations.

(** ** Lemmas: the next address *)

Lemma be_snoc ip b : be (ip ++ [b]) = be ip * 256 + b.
Proof. unfold be. by rewrite foldl_app. Qed.

Lemma wf_rev ip : wf_ip ip -> wf_ip (rev ip).
Proof. unfold wf_ip. rewrite !List.Forall_forall. intros H x Hx. apply H. by apply in_rev. Qed.

Lemma increment_spec l : wf_ip l ->
  length (increment l) = length l /\ wf_ip (increment l)
  /\ be (rev (increment l)) = (be (rev l) + 1) mod space (length l).
Proof.
  induction l as [|b l IH]; intros Hw.
  { split_and!; [done|done|]. cbn [rev length]. by rewrite Z.mod_1_r. }
  inversion Hw as [|? ? Hb Hl]; subst. destruct (IH Hl) as (H1 & H2 & H3). cbn [increment].
  pose proof (be_range (rev l) (wf_rev _ Hl)) as Hr. rewrite length_rev in Hr. unfold byte_ok in Hb.
  cbn [rev length]. rewrite be_snoc, space_S. destruct (Z.eq_dec b 255) as [->|Hne].
  - change ((255 + 1) mod 256 =? 0) with true. cbv iota. change ((255 + 1) mod 256) with 0. cbn [rev length].
    rewrite be_snoc, H3. split_and!; [lia|apply List.Forall_cons; [unfold byte_ok; lia|done]|].
    replace (be (rev l) * 256 + 255 + 1) with (256 * (be (rev l) + 1)) by lia.
    rewrite Z.mul_mod_distr_l by (try pose proof (space_pos (length l)); lia). lia.
  - rewrite Z.mod_small by lia. destruct (Z.eqb_spec (b + 1) 0); [lia|]. cbn [rev length].
    rewrite be_snoc. split_and!; [lia|apply List.Forall_cons; [unfold byte_ok; lia|done]|].
    symmetry. rewrite Z.mod_small; [lia|]. nia.
Qed.

Lemma nextIP_spec ip : wf_ip ip ->
  length (nextIP ip) = length ip /\ wf_ip (nextIP ip) /\ be (nextIP ip) = (be ip + 1) mod space (length ip).
Proof.
  intros Hw. destruct (increment_spec (rev ip) (wf_rev _ Hw)) as (H1 & H2 & H3). unfold nextIP.
  rewrite rev_involutive, length_rev in H3. split_and!; [by rewrite length_rev, H1, length_rev|by apply wf_rev|done].
Qed.

(** ** Lemmas: the scan of an IPv4 pool *)

Section Pool.
Variables (a : IP) (ones : Z) (used : list string).
Hypothesis Hla : length a = 4%nat.
Hypothesis Hwa : wf_ip a.
Hypothesis Ho : 0 < ones <= 32.

Local Abbreviation lo := (first_of a ones).
Local Abbreviation hi := (last_of a ones).

(** The address with the number is in use. *)
Definition taken (v : Z) : Prop := In (dotted (of_be 4 v)) used.

(** Distinct taken addresses need distinct entries. *)
Lemma taken_count n v : 0 <= v -> v + Z.of_nat n <= 2 ^ 32 ->
  (forall y, v <= y < v + Z.of_nat n -> taken y) -> (n <= length used)%nat.
Proof.
  intros Hv Hmax Ht.
  set (names := List.map (fun i => dotted (of_be 4 (v + Z.of_nat i))) (seq 0 n)).
  replace n with (length names) by (unfold names; by rewrite length_map, length_seq).
  apply NoDup_incl_length.
  - unfold names. apply NoDup_map_NoDup_ForallPairs; [|apply seq_NoDup].
    intros i j Hi Hj Heq. apply in_seq in Hi, Hj.
    apply dotted_inj in Heq; [|apply of_be_length..|apply of_be_wf|apply of_be_wf].
    apply (f_equal be) in Heq. rewrite !be_of_be in Heq. change (space 4) with (2 ^ 32) in Heq.
    rewrite !Z.mod_small in Heq by lia. lia.
  - intros x Hx. unfold names in Hx. apply in_map_iff in Hx as (i & <- & Hi). apply in_seq in Hi. apply Ht. lia.
Qed.

(** What the scan finds from [x] on, when every address before it is taken. *)
Lemma scanPool_spec fuel x : length x = 4%nat -> wf_ip x -> lo < be x <= hi ->
  (forall y, lo < y < be x -> taken y) -> Z.of_nat (length used) < Z.of_nat fuel + (be x - lo - 1) ->
  (exists v, lo < v < hi /\ scanPool fuel (cidr a ones) used x = Some (Some (of_be 4 v))
     /\ ~ taken v /\ forall y, lo < y < v -> taken y)
  \/ (scanPool fuel (cidr a ones) used x = Some None /\ forall y, lo < y < hi -> taken y).
Proof.
  destruct (v4_facts a ones Hla Hwa ltac:(lia)) as (_ & H0 & Hlast & _).
  revert x. induction fuel as [|fuel IH]; intros x Hl Hw Hx Hb Hf.
  { exfalso. pose proof (taken_count (Z.to_nat (be x - lo - 1)) (lo + 1)) as Hc.
    assert (Z.to_nat (be x - lo - 1) <= length used)%nat; [|lia]. apply Hc; [lia|lia|]. intros y Hy. apply Hb. lia. }
  cbn [scanPool].
  assert (Hin : Contains_ip (cidr a ones) x = true) by (apply Contains_v4_iff; try done; lia).
  rewrite Hin. cbn [negb].
  destruct (nextIP_spec x Hw) as (Hnl & Hnw & Hnb). rewrite Hl in Hnl, Hnb. change (space 4) with (2 ^ 32) in Hnb.
  destruct (Z.eq_dec (be x) hi) as [Heq|Hne].
  - assert (Hn : Contains_ip (cidr a ones) (nextIP x) = false).
    { apply not_true_iff_false. rewrite Contains_v4_iff by (try done; lia). rewrite Hnb, Heq.
      destruct (Z.eq_dec (hi + 1) (2 ^ 32)) as [Hm|Hm]; [|rewrite Z.mod_small by lia; lia].
      rewrite Hm, Z_mod_same_full. intros [Hz _]. unfold last_of in *.
      assert (2 ^ (32 - ones) < 2 ^ 32) by (apply Z.pow_lt_mono_r; lia). lia. }
    rewrite Hn. cbn [negb]. right. split; [done|]. intros y Hy. apply Hb. lia.
  - rewrite Z.mod_small in Hnb by lia.
    assert (Hn : Contains_ip (cidr a ones) (nextIP x) = true) by (apply Contains_v4_iff; try done; lia).
    rewrite Hn. cbn [negb].
    assert (Hxv : x = of_be 4 (be x)) by (rewrite <- Hl; symmetry; by apply of_be_be).
    destruct (existsb (String.eqb (IP_String x)) used) eqn:Eu.
    + apply IH; try done; try lia. intros y Hy. destruct (Z.eq_dec y (be x)) as [->|Hny]; [|apply Hb; lia].
      apply existsb_exists in Eu as (t & Ht & Heq). apply String.eqb_eq in Heq. subst t.
      unfold taken. rewrite <- Hxv. by rewrite IP_String_four in Ht.
    + left. exists (be x). rewrite <- Hxv. split_and!; [lia|lia|done| |done].
      intros Ht. rewrite <- not_true_iff_false in Eu. apply Eu. apply existsb_exists. exists (IP_String x).
      split; [|by apply String.eqb_refl]. rewrite IP_String_four by done. unfold taken in Ht. by rewrite <- Hxv in Ht.
Qed.

End Pool.

(** C25: The address given to a new peer.  For an IPv4 pool the search always
    ends within its bound, and it is the lowest host address of the pool, past
    the network address and before the broadcast address, that neither the
    server nor a peer uses; it reports that the pool is full exactly when every
    host address is in use. *)
Theorem tunnel_ip_lowest_free s serverIP a ones (used := IP_String serverIP :: usedTunnelIPs s)
  (Hp : ParseCIDR (TrimSpace (WGServerConfig_Address (server s))) = Some (serverIP, cidr a ones))
  (Hla : length a = 4%nat) (Hwa : wf_ip a) (Ho : 0 < ones <= 32) :
  scanPool (scanFuel used) (cidr a ones) used (nextIP (net_ip (cidr a ones))) <> None
  /\ ((exists v, nextTunnelIP s = Ok (dotted (of_be 4 v) +:+ "/32")
         /\ first_of a ones < v < last_of a ones /\ ~ taken used v
         /\ forall y, first_of a ones < y < v -> taken used y)
      \/ (nextTunnelIP s = Err (Errorf "no free tunnel IPs in %s" [IPNet_String (cidr a ones)])
         /\ forall y, first_of a ones < y < last_of a ones -> taken used y)).
Proof.
  unfold nextTunnelIP. rewrite Hp. fold used.
  destruct (v4_facts a ones Hla Hwa ltac:(lia)) as (_ & H0 & Hlast & _).
  set (base := net_ip (cidr a ones)).
  assert (Hbw : wf_ip base) by (unfold base; by apply mask_wf).
  assert (Hbl : length base = 4%nat) by (unfold base; by rewrite cidr_ip_length).
  destruct (nextIP_spec base Hbw) as (Hnl & Hnw & Hnb). rewrite Hbl in Hnl, Hnb. change (space 4) with (2 ^ 32) in Hnb.
  fold (first_of a ones) in Hnb. change (be base) with (first_of a ones) in Hnb.
  assert (Hsz : 2 ^ (32 - ones) < 2 ^ 32) by (apply Z.pow_lt_mono_r; lia).
  assert (Hpos : 0 < 2 ^ (32 - ones)) by (apply Z.pow_pos_nonneg; lia).
  destruct (Z.eq_dec ones 32) as [H32|H32].
  { (* a single address: the scan stops at once *)
    assert (Hs : scanPool (scanFuel used) (cidr a ones) used (nextIP base) = Some None).
    { unfold scanFuel. cbn [scanPool].
      assert (Contains_ip (cidr a ones) (nextIP base) = false) as ->; [|done].
      apply not_true_iff_false. rewrite Contains_v4_iff by (try done; lia). rewrite Hnb. unfold last_of in *.
      rewrite H32 in *. change (2 ^ (32 - 32)) with 1 in *.
      destruct (Z.eq_dec (first_of a 32 + 1) (2 ^ 32)) as [E|E]; [rewrite E, Z_mod_same_full; lia|rewrite Z.mod_small; lia]. }
    rewrite Hs. split; [done|]. right. split; [done|]. intros y Hy. unfold last_of in *. rewrite H32 in *.
    change (2 ^ (32 - 32)) with 1 in *. lia. }
  assert (H2 : 2 <= 2 ^ (32 - ones)) by (change 2 with (2 ^ 1) at 1; apply Z.pow_le_mono_r; lia).
  unfold last_of in Hlast |- *. rewrite Z.mod_small in Hnb by lia.
  destruct (scanPool_spec a ones used Hla Hwa Ho (scanFuel used) (nextIP base)) as [(v & Hv & Hs & Hn & Hall)|[Hs Hall]];
    try done; unfold last_of in *; try lia; rewrite ?Hs; try (intros y Hy; lia).
  - unfold scanFuel. rewrite Nat2Z.inj_succ. lia.
  - split; [done|]. left. exists v. rewrite IP_String_four by apply of_be_length. done.
  - split; [done|]. by right.
Qed.

(** ** Lemmas: the subnets of a peer *)

Lemma parsed_net c ip n : plain_cidr c -> ParseCIDR c = Some (ip, n) -> exists a ones, n = cidr a ones /\ wf_net a ones.
Proof.
  intros Hpl Hp. destruct (ParseCIDR_cidr _ _ _ Hp) as (a & ones & _ & -> & Hw & _ & Ho).
  exists a, ones. split; [done|]. split_and!; [done|lia|lia|]. by apply (Hpl ip).
Qed.

Lemma privateLANPrefix_private c : plain_cidr (TrimSpace c) -> privateLANPrefix c = true ->
  exists ip n, ParseCIDR (TrimSpace c) = Some (ip, n) /\ forall x, inside n x -> IsPrivate x = true.
Proof.
  intros Hpl. unfold privateLANPrefix. destruct (ParseCIDR (TrimSpace c)) as [[ip n]|] eqn:Hp; [|done].
  intros H. apply andb_prop in H as [Hb Hl]. destruct (parsed_net _ _ _ Hpl Hp) as (a & ones & -> & Hn).
  exists ip, (cidr a ones). split; [done|]. intros x Hx. by apply (private_net a ones).
Qed.

(** Two subnet texts name networks with a common address. *)
Definition overlapping (r l : string) : Prop :=
  exists ip n ip' n' x, ParseCIDR (TrimSpace r) = Some (ip, n) /\ ParseCIDR (TrimSpace l) = Some (ip', n')
    /\ inside n x /\ inside n' x.

Lemma pair_conflict_iff r l : plain_cidr (TrimSpace r) -> plain_cidr (TrimSpace l) ->
  pair_conflict r l = true <-> overlapping r l.
Proof.
  intros Hr Hl. unfold pair_conflict, overlapping.
  destruct (ParseCIDR (TrimSpace r)) as [[ip n]|] eqn:Er.
  2:{ split; [done|]. intros (? & ? & ? & ? & ? & H & _). done. }
  destruct (ParseCIDR (TrimSpace l)) as [[ip' n']|] eqn:El.
  2:{ split; [done|]. intros (? & ? & ? & ? & ? & _ & H & _). done. }
  destruct (parsed_net _ _ _ Hr Er) as (a & oa & -> & Ha). destruct (parsed_net _ _ _ Hl El) as (b & ob & -> & Hb).
  rewrite nets_overlap by done. split.
  - intros (x & Hx). by exists ip, (cidr a oa), ip', (cidr b ob), x.
  - intros (? & ? & ? & ? & x & [= <- <-] & [= <- <-] & H1 & H2). by exists x.
Qed.

Lemma find_None_iff {A} (P : A -> bool) l : List.find P l = None <-> forall x, In x l -> P x = false.
Proof.
  split; [apply List.find_none|]. intros H. destruct (List.find P l) as [x|] eqn:E; [|done].
  apply List.find_some in E as [Hin Hx]. by rewrite H in Hx.
Qed.

Lemma checkRemoteSubnets_iff cfg remote :
  checkRemoteSubnets cfg remote = Ok tt <->
  (forall r, In r remote -> privateLANPrefix r = true)
  /\ (forall r l, In r remote -> In l (claimedSubnets cfg) -> pair_conflict r l = false).
Proof.
  unfold checkRemoteSubnets. destruct (List.find (fun r => negb (privateLANPrefix r)) remote) as [r|] eqn:E.
  { split; [done|]. intros [H _]. apply List.find_some in E as [Hin Hn]. by rewrite H in Hn. }
  rewrite find_None_iff in E. unfold subnetsConflict.
  destruct (List.find (fun r => existsb (pair_conflict r) (claimedSubnets cfg)) remote) as [r|] eqn:Ec.
  { split; [done|]. intros [_ H]. apply List.find_some in Ec as [Hin Hex].
    apply existsb_exists in Hex as (l & Hl & Hc). by rewrite H in Hc. }
  rewrite find_None_iff in Ec. split; [intros _|done]. split.
  - intros r Hr. specialize (E r Hr). by apply negb_false_iff in E.
  - intros r l Hr Hl. apply not_true_iff_false. intros Hc. specialize (Ec r Hr).
    rewrite <- not_true_iff_false in Ec. apply Ec. apply existsb_exists. by exists l.
Qed.

(** The networks a new peer may claim.  When no text on either side writes
    an IPv4 network in IPv6 form, a list of remote subnets is accepted exactly
    when each of them lies in a private block and no address of one belongs to
    a LAN, a VLAN, the tunnel pool, the OpenVPN pool of a running server or a
    network of an existing peer; every address of an accepted subnet is
    private, so no accepted subnet can pull public traffic into the tunnel. *)
Theorem remote_subnets_checked cfg remote
  (Hr : Forall (fun r => plain_cidr (TrimSpace r)) remote)
  (Hl : Forall (fun l => plain_cidr (TrimSpace l)) (claimedSubnets cfg)) :
  (checkRemoteSubnets cfg remote = Ok tt <->
     (forall r, In r remote -> privateLANPrefix r = true)
     /\ (forall r l, In r remote -> In l (claimedSubnets cfg) -> ~ overlapping r l))
  /\ (forall r, In r remote -> privateLANPrefix r = true ->
        exists ip n, ParseCIDR (TrimSpace r) = Some (ip, n) /\ forall x, inside n x -> IsPrivate x = true).
Proof.
  rewrite List.Forall_forall in Hr, Hl. split.
  - rewrite checkRemoteSubnets_iff. split; intros [H1 H2]; split; try done; intros r l Hin Hin'.
    + rewrite <- pair_conflict_iff by auto. by rewrite H2.
    + apply not_true_iff_false. rewrite pair_conflict_iff by auto. by apply H2.
  - intros r Hin. by apply privateLANPrefix_private, Hr.
Qed.

(** ** Witnesses *)

Definition sample_key : string := "AAAAAAAAAAAAAAAAAAAAAAAAAAAAAAAAAAAAAAAAAAA=".

Definition sample_peer (name ips : string) : WGServerPeer :=
  mkWGServerPeer name sample_key "" "" ips 25 "" [] false false zero_time.

(** A router with one LAN and a WireGuard server. *)
Definition sample_router (lan tunnel : string) (peers : list WGServerPeer) : vpn :=
  NewVPNService (set_Config_VPN (mkVPNConfig []
      (mkWGServerConfig true 51820 sample_key sample_key tunnel "" "" "" "" 1420 "" peers) ∅)
    (set_Config_Interfaces [mkInterfaceConfig "lan0" "eth1" "LAN" "lan" "static" lan "" 1500 "" "" ""] Config_zero)).

Definition sample_hub : vpn :=
  sample_router "192.168.1.1/24" "10.99.0.1/29" [sample_peer "phone" "10.99.0.2/32"; sample_peer "lap" "10.99.0.4/32"].

Lemma tunnel_ip_lowest_free_witness :
  nextTunnelIP sample_hub = Ok "10.99.0.3/32"
  /\ exists v, nextTunnelIP sample_hub = Ok (dotted (of_be 4 v) +:+ "/32")
     /\ first_of [10; 99; 0; 1] 29 < v < last_of [10; 99; 0; 1] 29.
Proof.
  split; [reflexivity|].
  destruct (tunnel_ip_lowest_free sample_hub (As16 [10; 99; 0; 1]) [10; 99; 0; 1] 29 eq_refl eq_refl
    ltac:(repeat (apply List.Forall_cons || apply List.Forall_nil); unfold byte_ok; lia) ltac:(lia))
    as [_ [(v & H1 & H2 & _)|[H _]]].
  - by exists v.
  - exfalso. assert (Hx : nextTunnelIP sample_hub = Ok "10.99.0.3/32") by reflexivity. congruence.
Defined.

Lemma remote_subnets_checked_witness :
  checkRemoteSubnets (vp_cfg sample_hub) ["192.168.7.0/24"] = Ok tt
  /\ (forall l, In l (claimedSubnets (vp_cfg sample_hub)) -> ~ overlapping "192.168.7.0/24" l)
  /\ is_ok (checkRemoteSubnets (vp_cfg sample_hub) ["192.168.0.0/16"]) = false.
Proof.
  assert (Hok : checkRemoteSubnets (vp_cfg sample_hub) ["192.168.7.0/24"] = Ok tt) by reflexivity.
  split; [exact Hok|]. split; [|reflexivity].
  destruct (remote_subnets_checked (vp_cfg sample_hub) ["192.168.7.0/24"]) as [[H _] _].
  - apply List.Forall_cons; [|apply List.Forall_nil]. intros ip n Hp. vm_compute in Hp. injection Hp as <- <-. by left.
  - change (claimedSubnets (vp_cfg sample_hub)) with ["192.168.1.0/24"; "10.99.0.0/29"; "10.99.0.2/32"; "10.99.0.4/32"].
    repeat (apply List.Forall_cons || apply List.Forall_nil); intros ip n Hp; vm_compute in Hp; injection Hp as <- <-; by left.
  - intros l Hl. apply (proj2 (H Hok)); [by left|done].
Defined.

(** ** Lemmas: the calls *)

Section Calls.
Context (execute_client : WGClientTunnel -> result string) (execute_server : WGServerConfig -> result string).
Local Abbreviation any := (fun _ : vpn => True).

Lemma client_file_name i : good_comp (wgName i +:+ ".conf") = true.
Proof.
  apply good_comp_spec. split_and!; try done. unfold wgName.
  apply (all_chars_not_has (fun a => is_digit a || Ascii.eqb a "-" || char_in "wgconf." a)); [done|].
  rewrite !all_chars_append. rewrite !andb_true_iff. split_and!; [done| |done].
  eapply all_chars_impl; [|apply itoa_chars]. intros a ->. done.
Qed.

Lemma clientPath_allowed i content : allowed (CWriteFile (clientPath i) content 384).
Proof.
  apply allowed_write_path; [|done]. pose proof (client_file_name i) as Hg.
  change (clientPath i) with (abs_path (["etc"; "wireguard"] ++ [wgName i +:+ ".conf"])).
  apply checkPathRules_below; [|done|done|by repeat constructor].
  change (abs_path ["etc"; "wireguard"] +:+ sep_str) with "/etc/wireguard/". unfold allowedWriteRules. cbn [In]. tauto.
Qed.

Lemma GenerateKeypair_allowed : keeps allowed any GenerateKeypair.
Proof. unfold GenerateKeypair. walk; allow_call. Qed.

Lemma GeneratePresharedKey_allowed : keeps allowed any GeneratePresharedKey.
Proof. unfold GeneratePresharedKey. walk; allow_call. Qed.

Lemma EnsureServerKeypair_allowed : keeps allowed any EnsureServerKeypair.
Proof.
  unfold EnsureServerKeypair, saveKeypair, persist.
  walk; first [exact I|apply GenerateKeypair_allowed|allow_call].
Qed.

Lemma RenderServerConfig_allowed : keeps allowed any (RenderServerConfig execute_server).
Proof.
  unfold RenderServerConfig, renderServerConfig. walk; first [exact I|apply EnsureServerKeypair_allowed|allow_call].
Qed.

Lemma ServerUp_allowed : keeps allowed any (ServerUp execute_server).
Proof. unfold ServerUp, renderServerConfig. walk; first [exact I|apply EnsureServerKeypair_allowed|allow_call]. Qed.

Lemma ServerDown_allowed : keeps allowed any ServerDown.
Proof. unfold ServerDown. walk; first [exact I|allow_call]. Qed.

Lemma SyncWGServer_allowed : keeps allowed any (SyncWGServer execute_server).
Proof. unfold SyncWGServer. walk; first [exact I|apply RenderServerConfig_allowed|allow_call]. Qed.

Lemma ConnectClient_allowed name : keeps allowed any (ConnectClient execute_client name).
Proof. unfold ConnectClient, renderClientConfig. walk; first [exact I|apply clientPath_allowed|allow_call]. Qed.

Lemma DisconnectClient_allowed name : keeps allowed any (DisconnectClient name).
Proof. unfold DisconnectClient. walk; first [exact I|allow_call]. Qed.

Lemma AddPeer_allowed name s2s remote ep : keeps allowed any (AddPeer name s2s remote ep).
Proof.
  unfold AddPeer, addPeerCheck, addPeerCommit, persist.
  walk; first [exact I|apply GenerateKeypair_allowed|apply GeneratePresharedKey_allowed|allow_call].
Qed.

Lemma RemovePeer_allowed name : keeps allowed any (RemovePeer name).
Proof. unfold RemovePeer, persist. walk; first [exact I|allow_call]. Qed.

End Calls.

(** ** Behaviours worth knowing *)

(** The subnets are checked before the lock is taken: two requests that are
    both checked before either is added leave two peers that claim one
    network. *)
Lemma concurrent_peers_overlap :
  let w : world := fun _ _ => Ok "" in
  let remote := ["192.168.7.0/24"] in
  let add name s := snd (fst (addPeerCommit name true remote "" sample_key sample_key "" w [] s)) in
  let s := sample_router "192.168.1.1/24" "10.99.0.1/24" [] in
  fst (fst (addPeerCheck remote "" w [] s)) = Ok tt
  /\ List.map WGServerPeer_AllowedIPs (Peers (add "b" (add "a" s)))
     = ["10.99.0.2/32, 192.168.7.0/24"; "10.99.0.3/32, 192.168.7.0/24"]
  /\ is_ok (fst (fst (addPeerCheck remote "" w [] (add "a" s)))) = false.
Proof. split_and!; reflexivity. Qed.

(** The /32 is appended to an IPv6 address too. *)
Lemma ipv6_tunnel_is_a_network :
  nextTunnelIP (sample_router "192.168.1.1/24" "fd00::1/64" []) = Ok "fd00::2/32".
Proof. reflexivity. Qed.
