(* ===== verification/VpnLink.v ===== *)
(** * internal/services/vpn_s2s.go: linking two routers

    The site-to-site wizard: one router issues an invite, the other consumes
    it and answers with an ack, the first finalises the link.  JSON is a tree
    here; its text, the text of a time and HMAC-SHA256 are parameters, and a
    theorem that needs a text to be read back says so for the texts it is
    about. *)

From S2P Require Import Prelude GoStrings GoTime Regex GoNet GoIP Encoding Validate ConfigTypes AgentRules.
From S2P Require Import FirewallRender Sys SystemService Dns Vpn.

Local Open Scope Z_scope.
Local Open Scope go_scope.
Local Open Scope sys_scope.

Definition inviteSchemaVersion : Z := 2.
Definition inviteDefaultTTL : Z := 60 * minute.
Definition tokenKindInvite : string := "invite".
Definition tokenKindAck : string := "ack".

Definition name_char (a : ascii) : bool := is_alnum a || char_in "_-" a.
Definition s2sNamePattern : regex := RSeq (RCls name_char) (rupto 63 (RCls name_char)).

Record S2SInvite : Type := mkInvite {
  iv_Version : Z; iv_Kind : string; iv_Name : string; iv_SiteName : string; iv_Endpoint : string;
  iv_PublicKey : string; iv_PresharedKey : string; iv_RemoteSubnets : list string;
  iv_ExpectedSubnets : list string; iv_CreatedAt : Z; iv_ExpiresAt : Z }.

Definition S2SInvite_zero : S2SInvite := mkInvite 0 "" "" "" "" "" "" [] [] zero_time zero_time.

Record S2SAck : Type := mkAck {
  ak_Version : Z; ak_Kind : string; ak_Name : string; ak_PublicKey : string; ak_CreatedAt : Z }.

Definition S2SAck_zero : S2SAck := mkAck 0 "" "" "" zero_time.

Definition ErrInviteExpired : error := Errorf "s2s invite token expired" [].
Definition ErrInviteSignature : error := Errorf "s2s invite signature invalid" [].
Definition ErrInviteSchema : error := Errorf "s2s invite schema version unsupported" [].
Definition ErrInviteMalformed : error := Errorf "s2s invite token malformed" [].
Definition ErrPeerNotPending : error := Errorf "s2s peer is not in pending state" [].
Definition ErrPeerSubnetMismatch : error := Errorf "s2s invite expects LAN subnets this router does not have" [].
Definition ErrS2SServerKeyMissing : error :=
  Errorf "the WireGuard server has no key pair; set up the server before a site-to-site link" [].

(** ** Validation *)

Definition checkTokenHeader (version : Z) (kind want : string) : result unit :=
  guard! fail_if (negb (version =? inviteSchemaVersion))
    (Errorw "%w: got %d want %d" [itoa version; itoa inviteSchemaVersion] ErrInviteSchema) ;;
  fail_if (negb (String.eqb kind want)) (Errorw "%w: kind %q" [kind] ErrInviteMalformed).

Definition validateWGKey (key : string) : result unit :=
  match b64_decode key with
  | Some raw => fail_if (negb (len raw =? 32)) (Errorf "not a WireGuard key" [])
  | None => Err (Errorf "not a WireGuard key" [])
  end.

Fixpoint validateSubnetList (subnets : list string) : result unit :=
  match subnets with
  | [] => Ok tt
  | c :: cs => guard! ValidateCIDR c ;; validateSubnetList cs
  end.

Definition validateInvite (inv : S2SInvite) : result unit :=
  guard! fail_if (negb (matchb s2sNamePattern (iv_Name inv))) (Errorf "invalid peer name %q" [iv_Name inv]) ;;
  guard! wrap_err "public key: %w" [] (validateWGKey (iv_PublicKey inv)) ;;
  guard! wrap_err "preshared key: %w" [] (validateWGKey (iv_PresharedKey inv)) ;;
  guard! validateS2SEndpoint (iv_Endpoint inv) ;;
  guard! fail_if (bool_decide (iv_RemoteSubnets inv = []) || bool_decide (iv_ExpectedSubnets inv = []))
    (Errorf "the invite names no LAN subnets" []) ;;
  validateSubnetList (iv_RemoteSubnets inv ++ iv_ExpectedSubnets inv).

(** [slices.Sort] and [slices.Compact] on strings. *)
Fixpoint insert_sorted (x : string) (l : list string) : list string :=
  match l with
  | [] => [x]
  | y :: r => if String.leb x y then x :: l else y :: insert_sorted x r
  end.
Definition sort_strings (l : list string) : list string := List.fold_right insert_sorted [] l.
Fixpoint compact (l : list string) : list string :=
  match l with
  | x :: ((y :: _) as r) => if String.eqb x y then compact r else x :: compact r
  | _ => l
  end.

Definition canonSubnets (l : list string) : list string :=
  compact (sort_strings (omap (fun c => match ParseCIDR (TrimSpace c) with
                                       | Some (_, n) => Some (IPNet_String n)
                                       | None => None end) l)).

Definition sameSubnets (a b : list string) : bool := bool_decide (canonSubnets a = canonSubnets b).

Definition checkInviteSubnets (cfg : Config) (inv : S2SInvite) : result unit :=
  guard! fail_if (negb (sameSubnets (iv_ExpectedSubnets inv) (lanSubnets cfg)))
    (Errorw "%w: the invite expects %s, this router's LANs are %s"
       [join ", " (iv_ExpectedSubnets inv); join ", " (lanSubnets cfg)] ErrPeerSubnetMismatch) ;;
  checkRemoteSubnets cfg (iv_RemoteSubnets inv).

Definition validateInviteRequest (cfg : Config) (peerName endpoint : string) (expectedRemote : list string) : result unit :=
  guard! fail_if (negb (matchb s2sNamePattern peerName)) (Errorf "invalid peer name %q" [peerName]) ;;
  guard! validateS2SEndpoint endpoint ;;
  guard! fail_if (String.eqb (WGServerConfig_PublicKey (VPNConfig_Server (Config_VPN cfg))) "") ErrS2SServerKeyMissing ;;
  guard! fail_if (bool_decide (expectedRemote = []) || bool_decide (lanSubnets cfg = []))
    (Errorf "a site-to-site link needs a LAN subnet on each side" []) ;;
  checkRemoteSubnets cfg expectedRemote.

(** ** Tokens *)

Section Tokens.
(** The text of a JSON tree, of a time, and HMAC-SHA256. *)
Variables (json_text : json -> string) (json_read : string -> option json).
Variables (time_text : Z -> string) (time_read : string -> option Z).
Variable hmac : string -> string -> string.

Definition strings_json (l : list string) : json :=
  match l with [] => JNull | _ => JArr (List.map marshal_string l) end.

Definition opt_member (key value : string) : list (string * json) :=
  if String.eqb value "" then [] else [(key, marshal_string value)].

Definition invite_json (i : S2SInvite) : json :=
  JObj ([("v", JInt (iv_Version i)); ("kind", marshal_string (iv_Kind i)); ("name", marshal_string (iv_Name i))]
        ++ opt_member "siteName" (iv_SiteName i)
        ++ [("endpoint", marshal_string (iv_Endpoint i)); ("publicKey", marshal_string (iv_PublicKey i))]
        ++ opt_member "presharedKey" (iv_PresharedKey i)
        ++ [("remoteSubnets", strings_json (iv_RemoteSubnets i))]
        ++ (match iv_ExpectedSubnets i with [] => [] | l => [("expectedSubnets", strings_json l)] end)
        ++ [("createdAt", JStr (time_text (iv_CreatedAt i))); ("expiresAt", JStr (time_text (iv_ExpiresAt i)))]).

Definition ack_json (a : S2SAck) : json :=
  JObj [("v", JInt (ak_Version a)); ("kind", marshal_string (ak_Kind a)); ("name", marshal_string (ak_Name a));
        ("publicKey", marshal_string (ak_PublicKey a)); ("createdAt", JStr (time_text (ak_CreatedAt a)))].

(** [Time.UnmarshalJSON]. *)
Definition dec_time {T} (set : Z -> T -> T) (j : json) (t : T) : option T :=
  match j with
  | JStr s => match time_read s with Some v => Some (set v t) | None => None end
  | JNull => Some t
  | _ => None
  end.

Definition invite_fields : list (string * (json -> S2SInvite -> option S2SInvite)) :=
  [("v", dec_int (fun v i => mkInvite v (iv_Kind i) (iv_Name i) (iv_SiteName i) (iv_Endpoint i) (iv_PublicKey i) (iv_PresharedKey i) (iv_RemoteSubnets i) (iv_ExpectedSubnets i) (iv_CreatedAt i) (iv_ExpiresAt i)));
   ("kind", dec_string (fun v i => mkInvite (iv_Version i) v (iv_Name i) (iv_SiteName i) (iv_Endpoint i) (iv_PublicKey i) (iv_PresharedKey i) (iv_RemoteSubnets i) (iv_ExpectedSubnets i) (iv_CreatedAt i) (iv_ExpiresAt i)));
   ("name", dec_string (fun v i => mkInvite (iv_Version i) (iv_Kind i) v (iv_SiteName i) (iv_Endpoint i) (iv_PublicKey i) (iv_PresharedKey i) (iv_RemoteSubnets i) (iv_ExpectedSubnets i) (iv_CreatedAt i) (iv_ExpiresAt i)));
   ("siteName", dec_string (fun v i => mkInvite (iv_Version i) (iv_Kind i) (iv_Name i) v (iv_Endpoint i) (iv_PublicKey i) (iv_PresharedKey i) (iv_RemoteSubnets i) (iv_ExpectedSubnets i) (iv_CreatedAt i) (iv_ExpiresAt i)));
   ("endpoint", dec_string (fun v i => mkInvite (iv_Version i) (iv_Kind i) (iv_Name i) (iv_SiteName i) v (iv_PublicKey i) (iv_PresharedKey i) (iv_RemoteSubnets i) (iv_ExpectedSubnets i) (iv_CreatedAt i) (iv_ExpiresAt i)));
   ("publicKey", dec_string (fun v i => mkInvite (iv_Version i) (iv_Kind i) (iv_Name i) (iv_SiteName i) (iv_Endpoint i) v (iv_PresharedKey i) (iv_RemoteSubnets i) (iv_ExpectedSubnets i) (iv_CreatedAt i) (iv_ExpiresAt i)));
   ("presharedKey", dec_string (fun v i => mkInvite (iv_Version i) (iv_Kind i) (iv_Name i) (iv_SiteName i) (iv_Endpoint i) (iv_PublicKey i) v (iv_RemoteSubnets i) (iv_ExpectedSubnets i) (iv_CreatedAt i) (iv_ExpiresAt i)));
   ("remoteSubnets", dec_strings (fun v i => mkInvite (iv_Version i) (iv_Kind i) (iv_Name i) (iv_SiteName i) (iv_Endpoint i) (iv_PublicKey i) (iv_PresharedKey i) v (iv_ExpectedSubnets i) (iv_CreatedAt i) (iv_ExpiresAt i)));
   ("expectedSubnets", dec_strings (fun v i => mkInvite (iv_Version i) (iv_Kind i) (iv_Name i) (iv_SiteName i) (iv_Endpoint i) (iv_PublicKey i) (iv_PresharedKey i) (iv_RemoteSubnets i) v (iv_CreatedAt i) (iv_ExpiresAt i)));
   ("createdAt", dec_time (fun v i => mkInvite (iv_Version i) (iv_Kind i) (iv_Name i) (iv_SiteName i) (iv_Endpoint i) (iv_PublicKey i) (iv_PresharedKey i) (iv_RemoteSubnets i) (iv_ExpectedSubnets i) v (iv_ExpiresAt i)));
   ("expiresAt", dec_time (fun v i => mkInvite (iv_Version i) (iv_Kind i) (iv_Name i) (iv_SiteName i) (iv_Endpoint i) (iv_PublicKey i) (iv_PresharedKey i) (iv_RemoteSubnets i) (iv_ExpectedSubnets i) (iv_CreatedAt i) v))].

Definition ack_fields : list (string * (json -> S2SAck -> option S2SAck)) :=
  [("v", dec_int (fun v a => mkAck v (ak_Kind a) (ak_Name a) (ak_PublicKey a) (ak_CreatedAt a)));
   ("kind", dec_string (fun v a => mkAck (ak_Version a) v (ak_Name a) (ak_PublicKey a) (ak_CreatedAt a)));
   ("name", dec_string (fun v a => mkAck (ak_Version a) (ak_Kind a) v (ak_PublicKey a) (ak_CreatedAt a)));
   ("publicKey", dec_string (fun v a => mkAck (ak_Version a) (ak_Kind a) (ak_Name a) v (ak_CreatedAt a)));
   ("createdAt", dec_time (fun v a => mkAck (ak_Version a) (ak_Kind a) (ak_Name a) (ak_PublicKey a) v))].

Definition encodeInvite (inv : S2SInvite) : string := rawurl_encode (json_text (invite_json inv)).

Definition ParseInviteToken (now : Z) (token : string) : result S2SInvite :=
  match rawurl_decode (TrimSpace token) with
  | None => Err (Errorw "%w: decode: %v" [] ErrInviteMalformed)
  | Some body =>
      match json_read body ≫= unmarshal_struct invite_fields S2SInvite_zero with
      | None => Err (Errorw "%w: json: %v" [] ErrInviteMalformed)
      | Some inv =>
          guard! checkTokenHeader (iv_Version inv) (iv_Kind inv) tokenKindInvite ;;
          guard! fail_if (negb (IsZero (iv_ExpiresAt inv)) && (iv_ExpiresAt inv <? now)) ErrInviteExpired ;;
          match validateInvite inv with
          | Err _ => Err (Errorw "%w: %v" [] ErrInviteMalformed)
          | Ok _ => Ok inv
          end
      end
  end.

Definition ackMAC (body psk : string) : result string :=
  match b64_decode psk with
  | Some key => if len key =? 32 then Ok (hmac key body)
                else Err (Errorf "the preshared key is not a WireGuard key" [])
  | None => Err (Errorf "the preshared key is not a WireGuard key" [])
  end.

Definition signAck (ack : S2SAck) (psk : string) : result string :=
  let body := json_text (ack_json ack) in
  let? mac := ackMAC body psk in
  Ok (rawurl_encode body +:+ "." +:+ rawurl_encode mac).

Definition ParseAckToken (token : string) : result (S2SAck * string * string) :=
  match cut_byte "." (TrimSpace token) with
  | None => Err ErrInviteMalformed
  | Some (bodyPart, macPart) =>
      match rawurl_decode bodyPart with
      | None => Err (Errorw "%w: body decode: %v" [] ErrInviteMalformed)
      | Some body =>
          match rawurl_decode macPart with
          | None => Err (Errorw "%w: mac decode: %v" [] ErrInviteMalformed)
          | Some mac =>
              match json_read body ≫= unmarshal_struct ack_fields S2SAck_zero with
              | None => Err (Errorw "%w: json: %v" [] ErrInviteMalformed)
              | Some ack =>
                  guard! checkTokenHeader (ak_Version ack) (ak_Kind ack) tokenKindAck ;;
                  match validateWGKey (ak_PublicKey ack) with
                  | Err _ => Err (Errorw "%w: public key: %v" [] ErrInviteMalformed)
                  | Ok _ => Ok (ack, body, mac)
                  end
              end
          end
      end
  end.

Definition verifyAck (body mac psk : string) : result unit :=
  let? want := ackMAC body psk in
  fail_if (negb (String.eqb want mac)) ErrInviteSignature.

(** ** The wizard *)

Definition appendPeer (peer : WGServerPeer) : svc vpn (result unit) :=
  s ← get;
  if peerNameTaken (WGServerPeer_Name peer) s
  then mret (Err (Errorw "%w: %s" [WGServerPeer_Name peer] ErrPeerNameInUse))
  else put (with_peers (Peers s ++ [peer]) s) ;; persist.

Definition pendingPeer (peerName psk : string) (expectedRemote : list string) (expires : Z) : WGServerPeer :=
  mkWGServerPeer peerName "" "" psk (join ", " expectedRemote) 25 "" expectedRemote true true expires.

Definition CreateS2SInvite (clock : Z) (peerName siteName endpoint : string) (expectedRemote : list string)
  : svc vpn (result (string * WGServerPeer)) :=
  s ← get;
  match validateInviteRequest (vp_cfg s) peerName endpoint expectedRemote with
  | Err e => mret (Err e)
  | Ok _ =>
      try! psk := wrapping "psk: %w" [] GeneratePresharedKey in
      let now := Truncate second clock in
      let expires := now + inviteDefaultTTL in
      let pending := pendingPeer peerName psk expectedRemote expires in
      try! _ := wrapping "add pending peer: %w" [] (appendPeer pending) in
      s ← get;
      mret (Ok (encodeInvite (mkInvite inviteSchemaVersion tokenKindInvite peerName siteName endpoint
                  (WGServerConfig_PublicKey (server s)) psk (lanSubnets (vp_cfg s)) expectedRemote now expires),
                pending))
  end.

Definition invitedPeer (inv : S2SInvite) : WGServerPeer :=
  mkWGServerPeer (iv_Name inv) (iv_PublicKey inv) "" (iv_PresharedKey inv) (join ", " (iv_RemoteSubnets inv)) 25
    (iv_Endpoint inv) (iv_RemoteSubnets inv) true false zero_time.

Definition ConsumeInvite (clock : Z) (token : string) : svc vpn (result (string * string * WGServerPeer)) :=
  s ← get;
  match ParseInviteToken clock token with
  | Err e => mret (Err e)
  | Ok inv =>
      let pub := WGServerConfig_PublicKey (server s) in
      match (guard! fail_if (String.eqb pub "") ErrS2SServerKeyMissing ;; checkInviteSubnets (vp_cfg s) inv)%go with
      | Err e => mret (Err e)
      | Ok _ =>
          try! _ := wrapping "add peer: %w" [] (appendPeer (invitedPeer inv)) in
          mret (let? ackToken := signAck (mkAck inviteSchemaVersion tokenKindAck (iv_Name inv) pub (Truncate second clock))
                                   (iv_PresharedKey inv) in
                Ok (ackToken, pub, invitedPeer inv))%go
      end
  end.

Definition pendingPeerIndex (now : Z) (name : string) (s : vpn) : result (nat * WGServerPeer) :=
  match peer_index name s with
  | None => Err (Errorf "peer %q not found" [name])
  | Some (i, p) =>
      guard! fail_if (negb (WGServerPeer_Pending p)) ErrPeerNotPending ;;
      guard! fail_if (negb (IsZero (WGServerPeer_InviteExpiresAt p)) && (WGServerPeer_InviteExpiresAt p <? now))
        (Errorw "%w: expired at %s" [] ErrInviteExpired) ;;
      Ok (i, p)
  end.

Definition finalized (key : string) (p : WGServerPeer) : WGServerPeer :=
  set_WGServerPeer_InviteExpiresAt zero_time (set_WGServerPeer_Pending false (set_WGServerPeer_PublicKey key p)).

Definition FinalizeInvite (now : Z) (peerName ackToken : string) : svc vpn (result WGServerPeer) :=
  match ParseAckToken ackToken with
  | Err e => mret (Err e)
  | Ok (ack, body, mac) =>
      if negb (String.eqb (ak_Name ack) peerName)
      then mret (Err (Errorw "%w: ack name %q does not match peer %q" [ak_Name ack; peerName] ErrInviteMalformed))
      else
        s ← get;
        match (let? (i, p) := pendingPeerIndex now peerName s in
               guard! verifyAck body mac (WGServerPeer_PresharedKey p) ;; Ok (i, p))%go with
        | Err e => mret (Err e)
        | Ok (i, p) =>
            put (with_peers (<[i := finalized (ak_PublicKey ack) p]> (Peers s)) s) ;;
            try! _ := wrapping "persist finalize: %w" [] persist in
            mret (Ok (finalized (ak_PublicKey ack) p))
        end
  end.

End Tokens.

Definition CancelInvite (peerName : string) : svc vpn (result unit) :=
  s ← get;
  match peer_index peerName s with
  | None => mret (Ok tt)
  | Some (i, p) =>
      if negb (WGServerPeer_Pending p) then mret (Err ErrPeerNotPending)
      else put (removePeerAt i s) ;; persist
  end.

Definition expired (now : Z) (p : WGServerPeer) : bool :=
  WGServerPeer_Pending p && negb (IsZero (WGServerPeer_InviteExpiresAt p)) && (WGServerPeer_InviteExpiresAt p <? now).

Definition GCExpiredInvites (now : Z) : svc vpn Z :=
  s ← get;
  let kept := List.filter (fun p => negb (expired now p)) (Peers s) in
  let reaped := Z.of_nat (length (Peers s)) - Z.of_nat (length kept) in
  if reaped =? 0 then mret 0
  else put (with_peers kept s) ;; persist ;; mret reaped.

(** ** Health of a link *)

Record S2SHealthInfo : Type := mkHealth {
  sh_Name : string; sh_Online : bool; sh_HandshakeAgeSec : Z; sh_RxBytes : Z; sh_TxBytes : Z;
  sh_Endpoint : string; sh_RemoteSubnets : list string }.

Definition findS2SPeer (name : string) (s : vpn) : option WGServerPeer :=
  List.find (fun p => String.eqb (WGServerPeer_Name p) name && WGServerPeer_IsSiteToSite p) (Peers s).

(** The first row of the dump with the peer's key. *)
Definition peerRow (key : string) (out : string) : option (string * string * string) :=
  head (omap (fun line => match split_byte "009" line with
                          | f0 :: _ :: _ :: _ :: f4 :: f5 :: f6 :: _ :: _ =>
                              if String.eqb f0 key then Some (f4, f5, f6) else None
                          | _ => None
                          end) (split_byte lf out)).

(** [fmt.Sscanf(s, "%d", &v)] into an unsigned 64-bit integer that is zero. *)
Definition Sscanf_u (s : string) : Z :=
  match run1 is_digit (trim_left_set " " s) with
  | None => 0
  | Some (ds, _) => match digits_value 0 ds with Some v => if v <? 2 ^ 64 then v else 0 | None => 0 end
  end.

Definition S2SHealth (nowUnix : Z) (peerName : string) : svc vpn (result S2SHealthInfo) :=
  try! out := wrapping "wg show dump: %w" [] (Run "wg" ["show"; "wgs0"; "dump"]) in
  s ← get;
  match findS2SPeer peerName s with
  | None => mret (Err (Errorf "s2s peer %q not found" [peerName]))
  | Some want =>
      let idle := mkHealth peerName false (-1) 0 0 (WGServerPeer_Endpoint want) (WGServerPeer_RemoteSubnets want) in
      mret (Ok match peerRow (WGServerPeer_PublicKey want) out with
               | None => idle
               | Some (f4, f5, f6) =>
                   let hs := Sscanf_d 0 f4 in
                   let age := if 0 <? hs then nowUnix - hs else -1 in
                   mkHealth peerName ((0 <? hs) && (age <? 180)) age (Sscanf_u f5) (Sscanf_u f6)
                     (WGServerPeer_Endpoint want) (WGServerPeer_RemoteSubnets want)
               end)
  end.

Definition gatewayOfSubnet (c : string) : result string :=
  match ParseCIDR (TrimSpace c) with
  | None => Err (Errorf "parse cidr: %w" [])
  | Some (_, n) =>
      Ok (IP_String (match rev (net_ip n) with b :: r => rev (Z.lor b 1 :: r) | [] => [] end))
  end.

Fixpoint lanSource (ifaces : list InterfaceConfig) : result string :=
  match ifaces with
  | [] => Err (Errorf "no LAN interface address to send the probe from" [])
  | i :: r =>
      if negb (role_is "lan" i) || String.eqb (InterfaceConfig_Address i) "" then lanSource r
      else match ParseCIDR (TrimSpace (InterfaceConfig_Address i)) with
           | None => Err (Errorf "parse LAN address %q: %w" [InterfaceConfig_Address i])
           | Some (ip, _) => Ok (IP_String ip)
           end
  end.

Definition S2SReachability (peerName : string) : svc vpn (result unit) :=
  s ← get;
  match findS2SPeer peerName s with
  | None => mret (Err (Errorf "s2s peer %q not found" [peerName]))
  | Some peer =>
      match WGServerPeer_RemoteSubnets peer with
      | [] => mret (Err (Errorf "peer has no remote subnets" []))
      | first :: _ =>
          match (let? target := gatewayOfSubnet first in
                 let? source := lanSource (Config_Interfaces (vp_cfg s)) in Ok (target, source))%go with
          | Err e => mret (Err e)
          | Ok (target, source) =>
              try! _ := wrapping "ping %s from %s: %w" [target; source]
                          (Run "ping" ["-c"; "1"; "-W"; "2"; "-I"; source; target]) in
              mret (Ok tt)
          end
      end
  end.

(** ** Lemmas: what a token carries *)

Definition valid := to_valid_utf8.

(** An invite as the other side reads it. *)
Definition as_read (i : S2SInvite) : S2SInvite :=
  mkInvite (iv_Version i) (valid (iv_Kind i)) (valid (iv_Name i)) (valid (iv_SiteName i)) (valid (iv_Endpoint i))
    (valid (iv_PublicKey i)) (valid (iv_PresharedKey i)) (List.map valid (iv_RemoteSubnets i))
    (List.map valid (iv_ExpectedSubnets i)) (iv_CreatedAt i) (iv_ExpiresAt i).

Lemma read_strings l :
  mapM (fun x => match x with JStr s => Some s | JNull => Some "" | _ => None end) (List.map marshal_string l)
  = Some (List.map valid l).
Proof.
  induction l as [|x l IH]; [done|]. cbn [List.map]. unfold marshal_string at 1. cbn [mapM].
  rewrite IH. done.
Qed.

Lemma dec_strings_json {T} (set : list string -> T -> T) l t :
  dec_strings set (strings_json l) t = Some (set (List.map valid l) t).
Proof.
  destruct l as [|x l]; [done|]. unfold strings_json, dec_strings. by rewrite read_strings.
Qed.

Section Read.
Variables (time_text : Z -> string) (time_read : string -> option Z).

Definition readable (t : Z) : Prop := time_read (time_text t) = Some t.

Ltac read_members :=
  cbv [unmarshal_struct set_members find_field ack_fields invite_fields List.find fst snd String.eqb Ascii.eqb Bool.eqb app
    ak_Version ak_Kind ak_Name ak_PublicKey ak_CreatedAt iv_Version iv_Kind iv_Name iv_SiteName iv_Endpoint iv_PublicKey
    iv_PresharedKey iv_RemoteSubnets iv_ExpectedSubnets iv_CreatedAt iv_ExpiresAt];
  unfold dec_int, dec_string, dec_time, marshal_string; rewrite ?dec_strings_json;
  repeat (cbv beta iota; match goal with
         | H : in_int64 _ = true |- _ => rewrite H
         | H : time_read (time_text _) = Some _ |- _ => rewrite H
         | |- context [dec_strings _ (strings_json _) _] => rewrite dec_strings_json
         end); cbv beta iota; reflexivity.

Lemma unmarshal_ack a : in_int64 (ak_Version a) = true -> readable (ak_CreatedAt a) ->
  unmarshal_struct (ack_fields time_read) S2SAck_zero (ack_json time_text a)
  = Some (mkAck (ak_Version a) (valid (ak_Kind a)) (valid (ak_Name a)) (valid (ak_PublicKey a)) (ak_CreatedAt a)).
Proof.
  unfold readable. destruct a as [v k n pk ca]. cbn [ak_Version ak_CreatedAt]. intros Hv Ht. unfold ack_json. read_members.
Qed.

Lemma unmarshal_invite i : in_int64 (iv_Version i) = true -> readable (iv_CreatedAt i) -> readable (iv_ExpiresAt i) ->
  unmarshal_struct (invite_fields time_read) S2SInvite_zero (invite_json time_text i) = Some (as_read i).
Proof.
  unfold readable. destruct i as [v k n sn ep pk psk rs es ca ex].
  cbn [iv_Version iv_CreatedAt iv_ExpiresAt]. intros Hv Hc He. unfold invite_json, opt_member, as_read.
  cbn [iv_Version iv_Kind iv_Name iv_SiteName iv_Endpoint iv_PublicKey iv_PresharedKey iv_RemoteSubnets
    iv_ExpectedSubnets iv_CreatedAt iv_ExpiresAt].
  destruct (String.eqb_spec sn "") as [->|_], (String.eqb_spec psk "") as [->|_], es as [|e es]; read_members.
Qed.

End Read.

(** ** Lemmas: keys and names are plain text *)

Definition b64_text (a : ascii) : bool := is_alnum a || char_in "+/=" a.

Lemma b64_val_text a v : b64_val a = Some v -> b64_text a = true.
Proof.
  unfold b64_val, b64_text, is_alnum, is_alpha.
  destruct (is_upper a); [done|]. destruct (is_lower a); [done|]. destruct (is_digit a); [done|]. cbn [orb].
  destruct (Ascii.eqb_spec a "+") as [->|_]; [done|]. by destruct (Ascii.eqb_spec a "/") as [->|_].
Qed.

Lemma b64_decode_quads_text n s r : (String.length s <= n)%nat -> b64_decode_quads s = Some r -> all_chars b64_text s = true.
Proof.
  revert s r. induction n as [|n IH]; intros s r Hn; [by destruct s; [|cbn in Hn; lia]|].
  destruct s as [|a [|b [|c [|d s]]]]; try done. cbn [b64_decode_quads all_chars]. cbn [String.length] in Hn.
  destruct (b64_val a) eqn:Ea; [|done]. destruct (b64_val b) eqn:Eb; [|by destruct (b64_val c), (b64_val d)].
  rewrite (b64_val_text _ _ Ea), (b64_val_text _ _ Eb). cbn [andb].
  destruct (b64_val c) eqn:Ec.
  - rewrite (b64_val_text _ _ Ec). cbn [andb]. destruct (b64_val d) eqn:Ed.
    + rewrite (b64_val_text _ _ Ed). cbn [andb]. destruct (b64_decode_quads s) eqn:Es; [|done]. intros _.
      by apply (IH s s0 ltac:(lia)).
    + destruct (Ascii.eqb_spec d "=") as [->|_]; [|done]. cbn [andb]. by destruct (String.eqb_spec s "") as [->|_].
  - destruct (b64_val d); [done|]. destruct (Ascii.eqb_spec c "=") as [->|_]; [|done].
    destruct (Ascii.eqb_spec d "=") as [->|_]; [|done]. cbn [andb]. by destruct (String.eqb_spec s "") as [->|_].
Qed.

Lemma strip_newlines_chars P s : P "010"%char = true -> P "013"%char = true ->
  all_chars P (strip_newlines s) = true -> all_chars P s = true.
Proof.
  intros Hn Hr. induction s as [|a s IH]; [done|]. cbn [strip_newlines all_chars].
  destruct (Ascii.eqb_spec a "010") as [->|]; cbn [orb]; [by rewrite Hn|].
  destruct (Ascii.eqb_spec a "013") as [->|]; [by rewrite Hr|]. cbn [all_chars].
  intros H. apply andb_prop in H as [-> H]. by apply IH.
Qed.

Lemma b64_text_ascii a : b64_text a = true -> ascii7 a = true.
Proof. revert a. apply ascii_impl. vm_compute. reflexivity. Qed.

(** A WireGuard key is plain text, apart from line breaks, which base64
    ignores. *)
Lemma validateWGKey_ascii key : validateWGKey key = Ok tt -> all_chars ascii7 key = true.
Proof.
  unfold validateWGKey, b64_decode. destruct (b64_decode_quads (strip_newlines key)) as [raw|] eqn:E; [|done]. intros _.
  apply strip_newlines_chars; [done|done|]. apply (all_chars_impl b64_text); [apply b64_text_ascii|].
  by apply (b64_decode_quads_text _ _ raw (Nat.le_refl _)).
Qed.

Lemma name_char_ascii a : name_char a = true -> ascii7 a = true.
Proof. revert a. apply ascii_impl. vm_compute. reflexivity. Qed.

Lemma s2sName_chars s : matchb s2sNamePattern s = true -> all_chars name_char s = true.
Proof. apply matchb_over. unfold s2sNamePattern. cbn. repeat split; done. Qed.

Lemma s2sName_ascii s : matchb s2sNamePattern s = true -> all_chars ascii7 s = true.
Proof. intros H. apply s2sName_chars in H. by apply (all_chars_impl name_char); [apply name_char_ascii|]. Qed.

(** ** Lemmas: reading a token back *)

Lemma url_char_trim a : url_char a = true -> plain_char a = true.
Proof. revert a. apply ascii_impl. vm_compute. reflexivity. Qed.

Lemma url_char_no_dot s : all_chars url_char s = true -> has_char "." s = false.
Proof. intros H. by apply (all_chars_not_has url_char). Qed.

Lemma rawurl_plain s : all_chars plain_char (rawurl_encode s) = true.
Proof. eapply all_chars_impl; [apply url_char_trim|]. apply rawurl_text. Qed.

Lemma cut_byte_app c h t : has_char c h = false -> cut_byte c (h +:+ String c t) = Some (h, t).
Proof.
  induction h as [|a h IH]; cbn [has_char String.append cut_byte].
  - intros _. by rewrite Ascii.eqb_refl.
  - intros H. apply orb_false_elim in H as [-> H]. by rewrite IH.
Qed.

Section Codec.
Variables (json_text : json -> string) (json_read : string -> option json).
Variables (time_text : Z -> string) (time_read : string -> option Z).
Variable hmac : string -> string -> string.

Local Abbreviation Create := (CreateS2SInvite json_text time_text).
Local Abbreviation Consume := (ConsumeInvite json_text json_read time_text time_read hmac).
Local Abbreviation Finalize := (FinalizeInvite json_read time_read hmac).
Local Abbreviation readable := (readable time_text time_read).

(** [json.Unmarshal] reads the text of the tree. *)
Definition rereads (j : json) : Prop := json_read (json_text j) = Some j.

Lemma ParseInviteToken_encoded now inv : rereads (invite_json time_text inv) ->
  in_int64 (iv_Version inv) = true -> readable (iv_CreatedAt inv) -> readable (iv_ExpiresAt inv) ->
  forall inv', ParseInviteToken json_read time_read now (encodeInvite json_text time_text inv) = Ok inv' ->
  inv' = as_read inv /\ validateInvite inv' = Ok tt.
Proof.
  intros Hj Hv Hc He inv'. unfold ParseInviteToken, encodeInvite.
  rewrite TrimSpace_plain, rawurl_roundtrip by apply rawurl_plain. rewrite Hj. cbn [mbind option_bind].
  rewrite unmarshal_invite by done. intros H. inv_ok.
  destruct (validateInvite (as_read inv)) as [[]|] eqn:Ev; [|done]. by injection H as <-.
Qed.

Lemma ParseAckToken_signed ack psk tok : rereads (ack_json time_text ack) ->
  ak_Version ack = inviteSchemaVersion -> ak_Kind ack = tokenKindAck ->
  all_chars ascii7 (ak_Name ack) = true -> validateWGKey (ak_PublicKey ack) = Ok tt -> readable (ak_CreatedAt ack) ->
  signAck json_text time_text hmac ack psk = Ok tok ->
  exists mac, ackMAC hmac (json_text (ack_json time_text ack)) psk = Ok mac
    /\ ParseAckToken json_read time_read tok = Ok (ack, json_text (ack_json time_text ack), mac).
Proof.
  intros Hj Hv Hk Hn Hp Ht Hs. unfold signAck in Hs. inv_ok. exists x. split; [done|]. unfold ParseAckToken.
  set (body := json_text (ack_json time_text ack)).
  assert (Hpl : TrimSpace (rawurl_encode body +:+ "." +:+ rawurl_encode x) = rawurl_encode body +:+ String "." (rawurl_encode x)).
  { apply TrimSpace_plain. rewrite all_chars_append, rawurl_plain. cbn [String.append all_chars andb]. by rewrite rawurl_plain. }
  rewrite <- Hs. fold body. rewrite Hpl, cut_byte_app by (apply url_char_no_dot, rawurl_text). rewrite !rawurl_roundtrip.
  unfold body. rewrite Hj. cbn [mbind option_bind]. rewrite unmarshal_ack by (rewrite ?Hv; done).
  unfold valid. rewrite Hk, Hv. rewrite (to_valid_utf8_ascii (ak_Name ack)) by done.
  rewrite (to_valid_utf8_ascii (ak_PublicKey ack)) by (by apply validateWGKey_ascii).
  change (to_valid_utf8 tokenKindAck) with tokenKindAck. unfold checkTokenHeader. cbn [ak_Version ak_Kind ak_PublicKey].
  rewrite Z.eqb_refl, String.eqb_refl. cbn [negb fail_if result_bind]. rewrite Hp.
  destruct ack. cbn in *. by subst.
Qed.

(** Runs a program in a hypothesis, one case per answer of the world. *)
Ltac run_in H :=
  cbv [mbind svc_bind mret svc_ret try_bind wrapping get put persist SaveToFile perform Run RunWithStdin
       GeneratePresharedKey appendPeer] in H;
  repeat (case_match; simplify_eq/=; try discriminate).

Lemma Create_ok clock name site ep remote w h s tok p s1 h1 :
  Create clock name site ep remote w h s = (Ok (tok, p), s1, h1) ->
  exists psk, let now := Truncate second clock in let expires := now + inviteDefaultTTL in
    p = pendingPeer name psk remote expires /\ s1 = with_peers (Peers s ++ [p]) s
    /\ peerNameTaken name s = false /\ validateInviteRequest (vp_cfg s) name ep remote = Ok tt
    /\ tok = encodeInvite json_text time_text
         (mkInvite inviteSchemaVersion tokenKindInvite name site ep (WGServerConfig_PublicKey (server s)) psk
            (lanSubnets (vp_cfg s)) remote now expires).
Proof.
  unfold CreateS2SInvite. intros H. unfold mbind at 1, svc_bind at 1, get at 1 in H.
  destruct (validateInviteRequest (vp_cfg s) name ep remote) as [[]|e] eqn:Ev; [|discriminate].
  run_in H. eexists. split_and!; try done.
Qed.

Lemma Consume_ok clock tok w h s ack pub p s1 h1 :
  Consume clock tok w h s = (Ok (ack, pub, p), s1, h1) ->
  exists inv, ParseInviteToken json_read time_read clock tok = Ok inv /\ checkInviteSubnets (vp_cfg s) inv = Ok tt
    /\ pub = WGServerConfig_PublicKey (server s) /\ p = invitedPeer inv /\ s1 = with_peers (Peers s ++ [p]) s
    /\ peerNameTaken (iv_Name inv) s = false
    /\ signAck json_text time_text hmac
         (mkAck inviteSchemaVersion tokenKindAck (iv_Name inv) pub (Truncate second clock)) (iv_PresharedKey inv) = Ok ack.
Proof.
  unfold ConsumeInvite. intros H. unfold mbind at 1, svc_bind at 1, get at 1 in H.
  destruct (ParseInviteToken json_read time_read clock tok) as [inv|e] eqn:Ep; [|discriminate].
  destruct (result_bind _ _) as [[]|e] eqn:Ec in H; [|discriminate]. apply result_bind_Ok in Ec as (u & _ & Hs).
  exists inv. run_in H. apply result_bind_Ok in H as (tk & Htk & [= <- <- <-]). split_and!; done.
Qed.

Lemma validateInviteRequest_name cfg name ep remote :
  validateInviteRequest cfg name ep remote = Ok tt -> matchb s2sNamePattern name = true.
Proof. unfold validateInviteRequest. intros H. inv_ok. by apply negb_false_iff. Qed.

Lemma validateInvite_psk inv : validateInvite inv = Ok tt -> validateWGKey (iv_PresharedKey inv) = Ok tt.
Proof. unfold validateInvite. intros H. inv_ok. by match goal with H : validateWGKey (iv_PresharedKey _) = Ok ?x |- _ => destruct x end. Qed.

Lemma checkInviteSubnets_same cfg inv : checkInviteSubnets cfg inv = Ok tt ->
  canonSubnets (iv_ExpectedSubnets inv) = canonSubnets (lanSubnets cfg).
Proof. unfold checkInviteSubnets. intros H. inv_ok. by apply (bool_decide_eq_true _), negb_false_iff. Qed.

(** The invite a router issues, and the ack the other one answers with. *)
Definition issued (a : vpn) (name site ep : string) (remote : list string) (clock : Z) (psk : string) : S2SInvite :=
  mkInvite inviteSchemaVersion tokenKindInvite name site ep (WGServerConfig_PublicKey (server a)) psk
    (lanSubnets (vp_cfg a)) remote (Truncate second clock) (Truncate second clock + inviteDefaultTTL).
Definition answered (b : vpn) (name : string) (clock : Z) : S2SAck :=
  mkAck inviteSchemaVersion tokenKindAck name (WGServerConfig_PublicKey (server b)) (Truncate second clock).

Lemma taken_false name s : peerNameTaken name s = false -> Forall (fun p => WGServerPeer_Name p <> name) (Peers s).
Proof.
  intros H. apply List.Forall_forall. intros p Hp Heq. rewrite <- not_true_iff_false in H. apply H.
  apply existsb_exists. exists p. split; [done|]. by apply String.eqb_eq.
Qed.

Lemma peer_index_last name s p : peerNameTaken name s = false -> WGServerPeer_Name p = name ->
  peer_index name (with_peers (Peers s ++ [p]) s) = Some (length (Peers s), p).
Proof.
  intros Ht Hn. unfold peer_index. change (Peers (with_peers _ s)) with (Peers s ++ [p]).
  apply list_find_Some. split_and!; [|done|].
  - by rewrite lookup_app_r, Nat.sub_diag by lia.
  - intros j y Hj Hlt. apply taken_false in Ht. rewrite lookup_app_l in Hj by done.
    rewrite Forall_lookup in Ht. by apply (Ht j).
Qed.

(** A verified answer to a pending invite completes the peer. *)
Lemma Finalize_run now name tok w h s ack body mac i p :
  ParseAckToken json_read time_read tok = Ok (ack, body, mac) -> ak_Name ack = name ->
  pendingPeerIndex now name s = Ok (i, p) -> verifyAck hmac body mac (WGServerPeer_PresharedKey p) = Ok tt ->
  let s' := with_peers (<[i := finalized (ak_PublicKey ack) p]> (Peers s)) s in
  snd (fst (Finalize now name tok w h s)) = s'
  /\ (is_ok (w h (CSave (vp_cfg s'))) = true ->
      fst (fst (Finalize now name tok w h s)) = Ok (finalized (ak_PublicKey ack) p)).
Proof.
  intros Hp Hn Hi Hv s'. unfold FinalizeInvite. rewrite Hp, Hn, String.eqb_refl. cbn [negb].
  cbv [mbind svc_bind get]. rewrite Hi. cbn [result_bind]. rewrite Hv. cbn [result_bind].
  cbv [put try_bind wrapping persist SaveToFile mbind svc_bind get perform mret svc_ret]. fold s'.
  by destruct (w h _).
Qed.

(** C23: Two routers that follow the wizard are linked.  When one router has
    issued an invite, another has accepted it and the answer comes back before
    the invite expires, finalising succeeds (or fails only to save): the first
    router's pending peer now carries the second one's server key and routes
    the subnets it asked for, the second router's peer carries the first one's
    key and routes its LANs, both hold the same preshared key under the same
    name, and the subnets the first expects are the second one's real LANs. *)
Theorem link_established clock name site ep remote w h a tok pa a1 h1 clock' wb hb b ack pub pb b1 hb1 now w' h'
  (HA : Create clock name site ep remote w h a = (Ok (tok, pa), a1, h1))
  (HB : Consume clock' tok wb hb b = (Ok (ack, pub, pb), b1, hb1))
  (Hkey : validateWGKey (WGServerConfig_PublicKey (server b)) = Ok tt)
  (Hnow : now <= Truncate second clock + inviteDefaultTTL)
  (inv := issued a name site ep remote clock (WGServerPeer_PresharedKey pa))
  (Htimes : readable (iv_CreatedAt inv) /\ readable (iv_ExpiresAt inv) /\ readable (Truncate second clock'))
  (Hjson : rereads (invite_json time_text inv) /\ rereads (ack_json time_text (answered b name clock'))) :
  let pf := finalized (WGServerConfig_PublicKey (server b)) pa in
  snd (fst (Finalize now name ack w' h' a1)) = with_peers (Peers a ++ [pf]) a
  /\ (is_ok (w' h' (CSave (vp_cfg (with_peers (Peers a ++ [pf]) a)))) = true ->
      fst (fst (Finalize now name ack w' h' a1)) = Ok pf)
  /\ WGServerPeer_Pending pf = false /\ WGServerPeer_RemoteSubnets pf = remote
  /\ Peers b1 = Peers b ++ [pb]
  /\ WGServerPeer_Name pf = name /\ WGServerPeer_Name pb = name
  /\ WGServerPeer_PresharedKey pf = WGServerPeer_PresharedKey pb
  /\ WGServerPeer_PublicKey pf = WGServerConfig_PublicKey (server b)
  /\ WGServerPeer_PublicKey pb = valid (WGServerConfig_PublicKey (server a))
  /\ WGServerPeer_RemoteSubnets pb = List.map valid (lanSubnets (vp_cfg a))
  /\ canonSubnets (List.map valid remote) = canonSubnets (lanSubnets (vp_cfg b)).
Proof.
  intros pf. destruct (Create_ok _ _ _ _ _ _ _ _ _ _ _ _ HA) as (psk & Hpa & Ha1 & Hfree & Hreq & Htok).
  destruct (Consume_ok _ _ _ _ _ _ _ _ _ _ HB) as (inv' & Hparse & Hsub & Hpub & Hpb & Hb1 & _ & Hsign).
  assert (Hpsk : WGServerPeer_PresharedKey pa = psk) by (by rewrite Hpa). unfold inv in *. rewrite Hpsk in *.
  destruct Htimes as (Hc & He & Hc'), Hjson as (Hji & Hja). rewrite Htok in Hparse.
  destruct (ParseInviteToken_encoded clock' (issued a name site ep remote clock psk) Hji eq_refl Hc He inv' Hparse) as [-> Hval].
  pose proof (validateInviteRequest_name _ _ _ _ Hreq) as Hname.
  assert (Hnv : valid name = name) by (by apply to_valid_utf8_ascii, s2sName_ascii).
  assert (Hpv : valid psk = psk) by (apply to_valid_utf8_ascii_inv, validateWGKey_ascii, (validateInvite_psk _ Hval)).
  pose proof (checkInviteSubnets_same _ _ Hsub) as Hsame.
  assert (Hsign' : signAck json_text time_text hmac (answered b name clock') psk = Ok ack).
  { rewrite <- Hpv. unfold answered. rewrite <- Hpub. rewrite <- Hnv at 1. exact Hsign. }
  destruct (ParseAckToken_signed _ _ _ Hja eq_refl eq_refl (s2sName_ascii _ Hname) Hkey Hc' Hsign') as (mac & Hmac & Hack).
  assert (Hidx : pendingPeerIndex now name a1 = Ok (length (Peers a), pa)).
  { unfold pendingPeerIndex. rewrite Ha1, peer_index_last by (done || by rewrite Hpa). rewrite Hpa. cbn [pendingPeer
      WGServerPeer_Pending WGServerPeer_InviteExpiresAt negb fail_if result_bind].
    destruct (Z.ltb_spec (Truncate second clock + inviteDefaultTTL) now); [lia|]. by rewrite andb_false_r. }
  assert (Hins : with_peers (<[length (Peers a) := pf]> (Peers a1)) a1 = with_peers (Peers a ++ [pf]) a).
  { rewrite Ha1. change (Peers (with_peers _ a)) with (Peers a ++ [pa]).
    by rewrite insert_app_r_alt, Nat.sub_diag by lia. }
  destruct (Finalize_run now name ack w' h' a1 (answered b name clock') _ mac (length (Peers a)) pa Hack eq_refl Hidx
    ltac:(unfold verifyAck; rewrite Hpsk, Hmac; cbn [result_bind]; by rewrite String.eqb_refl)) as (Hst & Hout).
  cbn [answered ak_PublicKey] in Hst, Hout. fold pf in Hst, Hout. rewrite Hins in Hst, Hout.
  split_and!; try done; try (by rewrite ?Hpb, ?Hpa).
  - unfold pf. by rewrite Hpa.
  - by rewrite Hb1.
  - unfold pf. by rewrite Hpa.
  - rewrite Hpb. change (WGServerPeer_PresharedKey pf) with (WGServerPeer_PresharedKey pa). by rewrite Hpsk.
Qed.

(** Only a proven answer completes an invite.  Whatever token is presented,
    finalising either leaves the peer list as it was, or the named peer was
    pending and not expired, the token names it and carries the HMAC of its
    body under that peer's own preshared key, and then only that peer changes:
    its key is set and it is no longer pending. *)
Theorem finalize_needs_proof now name tok w h s :
  let s' := snd (fst (Finalize now name tok w h s)) in
  s' = s
  \/ exists ack body mac i p,
       ParseAckToken json_read time_read tok = Ok (ack, body, mac) /\ ak_Name ack = name
       /\ Peers s !! i = Some p /\ WGServerPeer_Name p = name /\ WGServerPeer_Pending p = true
       /\ (IsZero (WGServerPeer_InviteExpiresAt p) = true \/ now <= WGServerPeer_InviteExpiresAt p)
       /\ ackMAC hmac body (WGServerPeer_PresharedKey p) = Ok mac
       /\ s' = with_peers (<[i := finalized (ak_PublicKey ack) p]> (Peers s)) s.
Proof.
  cbv zeta. destruct (ParseAckToken json_read time_read tok) as [[[ack body] mac]|e] eqn:Ep.
  2:{ left. unfold FinalizeInvite. by rewrite Ep. }
  destruct (String.eqb_spec (ak_Name ack) name) as [Hn|Hn].
  2:{ left. unfold FinalizeInvite. rewrite Ep. by rewrite (proj2 (String.eqb_neq _ _) Hn). }
  destruct (pendingPeerIndex now name s) as [[i p]|e] eqn:Ei.
  2:{ left. unfold FinalizeInvite. rewrite Ep, Hn, String.eqb_refl. cbv [mbind svc_bind get]. cbn [negb]. by rewrite Ei. }
  destruct (verifyAck hmac body mac (WGServerPeer_PresharedKey p)) as [[]|e] eqn:Ev.
  2:{ left. unfold FinalizeInvite. rewrite Ep, Hn, String.eqb_refl. cbv [mbind svc_bind get]. cbn [negb]. rewrite Ei.
      cbn [result_bind]. by rewrite Ev. }
  right. exists ack, body, mac, i, p.
  destruct (Finalize_run now name tok w h s ack body mac i p Ep Hn Ei Ev) as [Hs _].
  unfold pendingPeerIndex in Ei. destruct (peer_index name s) as [[j q]|] eqn:Ej; [|done]. inv_ok. simplify_eq/=.
  apply list_find_Some in Ej as (Hl & Hq & _). unfold verifyAck in Ev. inv_ok.
  split_and!; try done.
  - by apply negb_false_iff.
  - match goal with H : negb (IsZero _) && _ = false |- _ => apply andb_false_iff in H as [H|H] end.
    + left. by apply negb_false_iff.
    + right. by apply Z.ltb_ge.
  - match goal with H : negb (String.eqb _ _) = false |- _ => apply negb_false_iff, String.eqb_eq in H end. by subst.
Qed.

(** ** The peer list over time *)

Inductive vpn_op : Type :=
| OpAddPeer (name : string) (siteToSite : bool) (remote : list string) (endpoint : string)
| OpRemovePeer (name : string)
| OpServerUp | OpServerDown | OpRenderServerConfig | OpSyncWGServer | OpEnsureServerKeypair
| OpConnect (name : string) | OpDisconnect (name : string)
| OpCreateInvite (clock : Z) (name site endpoint : string) (remote : list string)
| OpConsumeInvite (clock : Z) (token : string)
| OpFinalizeInvite (clock : Z) (name token : string)
| OpCancelInvite (name : string)
| OpGC (clock : Z).

Variables (execute_client : WGClientTunnel -> result string) (execute_server : WGServerConfig -> result string).

Definition drop_result {A} (m : svc vpn A) : svc vpn unit := m ;; mret tt.

Definition run_op (o : vpn_op) : svc vpn unit :=
  match o with
  | OpAddPeer name s2s remote ep => drop_result (AddPeer name s2s remote ep)
  | OpRemovePeer name => drop_result (RemovePeer name)
  | OpServerUp => drop_result (ServerUp execute_server)
  | OpServerDown => drop_result ServerDown
  | OpRenderServerConfig => drop_result (RenderServerConfig execute_server)
  | OpSyncWGServer => drop_result (SyncWGServer execute_server)
  | OpEnsureServerKeypair => drop_result EnsureServerKeypair
  | OpConnect name => drop_result (ConnectClient execute_client name)
  | OpDisconnect name => drop_result (DisconnectClient name)
  | OpCreateInvite clock name site ep remote => drop_result (Create clock name site ep remote)
  | OpConsumeInvite clock tok => drop_result (Consume clock tok)
  | OpFinalizeInvite clock name tok => drop_result (Finalize clock name tok)
  | OpCancelInvite name => drop_result (CancelInvite name)
  | OpGC clock => drop_result (GCExpiredInvites clock)
  end.

(** The states a service can be in after operations in any order, whatever the
    machine answers. *)
Inductive reachable_from (s0 : vpn) : vpn -> Prop :=
| rf_start : reachable_from s0 s0
| rf_step s o w h : reachable_from s0 s -> reachable_from s0 (snd (fst (run_op o w h s))).

(** Names are unique, a pending invite has no key yet, and the server's private
    key is [k]. *)
Definition peers_ok (k : string) (s : vpn) : Prop :=
  List.NoDup (List.map WGServerPeer_Name (Peers s))
  /\ Forall (fun p => WGServerPeer_Pending p = true -> WGServerPeer_PublicKey p = "") (Peers s)
  /\ WGServerConfig_PrivateKey (server s) = k.

Local Abbreviation any_call := (fun _ : call => True).

Lemma peers_ok_append k s p : peers_ok k s -> peerNameTaken (WGServerPeer_Name p) s = false ->
  (WGServerPeer_Pending p = true -> WGServerPeer_PublicKey p = "") -> peers_ok k (with_peers (Peers s ++ [p]) s).
Proof.
  intros (Hn & Hp & Hk) Ht Hq. split_and!; [| |done]; change (Peers (with_peers _ s)) with (Peers s ++ [p]).
  - rewrite List.map_app. apply List.NoDup_app; [done|constructor; [by intros []|constructor]|].
    intros x Hx [<-|[]]. apply in_map_iff in Hx as (y & Hy & Hin). apply taken_false in Ht.
    rewrite List.Forall_forall in Ht. by apply (Ht y).
  - apply Forall_app. split; [done|]. by repeat constructor.
Qed.

Lemma NoDup_sub {A B} (f : A -> B) l1 l2 : sublist l1 l2 -> List.NoDup (List.map f l2) -> List.NoDup (List.map f l1).
Proof.
  intros Hs. rewrite <- !NoDup_ListNoDup. intros Hn. apply (sublist_NoDup (f <$> l1) (f <$> l2)); [done|].
  by apply fmap_sublist.
Qed.

Lemma peers_ok_sublist k s ps : peers_ok k s -> sublist ps (Peers s) -> peers_ok k (with_peers ps s).
Proof.
  intros (Hn & Hp & Hk) Hs. split_and!; [| |done]; change (Peers (with_peers _ s)) with ps.
  - by apply (NoDup_sub _ _ (Peers s)).
  - rewrite List.Forall_forall in Hp |- *. intros x Hx. apply Hp. apply list_elem_of_In. apply list_elem_of_In in Hx.
    by eapply elem_of_sublist.
Qed.

Lemma remove_at_sublist {A} i (l : list A) : sublist (remove_at i l) l.
Proof.
  unfold remove_at. rewrite <- (take_drop (Z.to_nat i) l) at 3. apply sublist_app; [done|].
  rewrite <- Nat.add_1_r. rewrite <- drop_drop. apply sublist_drop.
Qed.

Lemma filter_sublist {A} (P : A -> bool) l : sublist (List.filter P l) l.
Proof. induction l as [|x l IH]; cbn [List.filter]; [done|]. destruct (P x); by constructor. Qed.

Lemma EnsureServerKeypair_ok k : k <> "" -> keeps any_call (peers_ok k) EnsureServerKeypair.
Proof.
  intros Hk. unfold EnsureServerKeypair. apply keeps_get_bind. intros s (Hn & Hp & Hs).
  destruct (nonempty _ && nonempty _); [apply keeps_ret|].
  rewrite Hs. rewrite (proj2 (String.eqb_neq k "") Hk).
  unfold saveKeypair, persist. walk; try done.
Qed.

Lemma appendPeer_ok k p : (WGServerPeer_Pending p = true -> WGServerPeer_PublicKey p = "") ->
  keeps any_call (peers_ok k) (appendPeer p).
Proof. intros Hp. unfold appendPeer, persist. walk; try done. by apply peers_ok_append. Qed.

Lemma Finalize_ok k now name tok : keeps any_call (peers_ok k) (Finalize now name tok).
Proof.
  unfold FinalizeInvite, persist. walk; try done.
  match goal with H : result_bind (pendingPeerIndex _ _ ?s) _ = Ok (?i, ?p), Hs : peers_ok k ?s |- _ =>
    apply result_bind_Ok in H as ([j q] & Hj & H); inv_ok; simplify_eq; destruct Hs as (Hn & Hp & Hk) end.
  unfold pendingPeerIndex in Hj. destruct (peer_index _ _) as [[j' q']|] eqn:Ei; [|done]. inv_ok. simplify_eq.
  apply list_find_Some in Ei as (Hl & _).
  split_and!; [| |done]; change (Peers (with_peers ?l _)) with l.
  - change (List.map ?f ?l) with (f <$> l). rewrite list_fmap_insert, list_insert_id; [done|].
    rewrite list_lookup_fmap, Hl. done.
  - apply Forall_insert; [done|]. done.
Qed.

Lemma run_op_keeps k o : k <> "" -> keeps any_call (peers_ok k) (run_op o).
Proof.
  intros Hk.
  destruct o; cbn [run_op]; unfold drop_result; (apply keeps_bind; [|intros; apply keeps_ret]).
  - unfold AddPeer, addPeerCheck, GenerateKeypair, GeneratePresharedKey, addPeerCommit, persist. walk; try done.
    by apply peers_ok_append.
  - unfold RemovePeer, persist. walk; try done. apply peers_ok_sublist; [done|]. apply remove_at_sublist.
  - unfold ServerUp, renderServerConfig. walk; try done. by apply EnsureServerKeypair_ok.
  - unfold ServerDown. walk; done.
  - unfold RenderServerConfig, renderServerConfig. walk; try done. by apply EnsureServerKeypair_ok.
  - unfold SyncWGServer, RenderServerConfig, renderServerConfig. walk; try done. by apply EnsureServerKeypair_ok.
  - by apply EnsureServerKeypair_ok.
  - unfold ConnectClient, renderClientConfig. walk; done.
  - unfold DisconnectClient. walk; done.
  - unfold CreateS2SInvite, GeneratePresharedKey. walk; try done. by apply appendPeer_ok.
  - unfold ConsumeInvite. walk; try done. by apply appendPeer_ok.
  - apply Finalize_ok.
  - unfold CancelInvite, persist. walk; try done. apply peers_ok_sublist; [done|]. apply remove_at_sublist.
  - unfold GCExpiredInvites, persist. walk; try done. apply peers_ok_sublist; [done|]. apply filter_sublist.
Qed.

(** C24: The peer list over any sequence of operations, in any order and
    whatever the machine answers: two peers never share a name, so removing
    and re-issuing by name are unambiguous; an invite waiting for its answer
    has no key, so it is never rendered into the server's configuration; and a
    server private key, once there, is never replaced, so the links bound to it
    keep working. *)
Theorem peer_list_invariant k s0 s (Hk : k <> "") (H0 : peers_ok k s0) : reachable_from s0 s -> peers_ok k s.
Proof. induction 1 as [|s o w h _ IH]; [done|]. by apply (run_op_keeps k o Hk w h s IH). Qed.

(** Dropping the result changes neither the calls nor the state. *)
Lemma keeps_dropped {A} (m : svc vpn A) P I : keeps P I (drop_result m) -> keeps P I m.
Proof.
  intros Hm w h s Hs. specialize (Hm w h s Hs). unfold drop_result, mbind, svc_bind, mret, svc_ret in Hm.
  by destruct (m w h s) as [[a s'] h'].
Qed.

End Codec.

(** ** Witnesses *)

(** Two routers, a machine whose [wg genpsk] answers with a key, and codecs that
    know the two tokens of one run. *)
Definition site_a : vpn := sample_router "192.168.1.1/24" "10.99.0.1/24" [].
Definition site_b : vpn := sample_router "192.168.2.1/24" "10.88.0.1/24" [].
Definition key_world : world := fun _ c => match c with CRun _ _ _ => Ok sample_key | _ => Ok "" end.

Definition sample_clock : Z := 1700000000 * second.
Definition sample_invite : S2SInvite :=
  issued site_a "branch" "HQ" "vpn.example.com:51820" ["192.168.2.0/24"] sample_clock sample_key.
Definition sample_ack : S2SAck := answered site_b "branch" (sample_clock + minute).

Definition text_of (j : json) : string :=
  match j with JObj (_ :: (_, JStr kind) :: _) => kind | _ => "" end.
Definition tree_of (s : string) : option json :=
  if String.eqb s "invite" then Some (invite_json itoa sample_invite) else Some (ack_json itoa sample_ack).
Definition key_hmac (key body : string) : string := key +:+ body.

Definition sample_token : string := rawurl_encode "invite".
Definition sample_pending : WGServerPeer :=
  pendingPeer "branch" sample_key ["192.168.2.0/24"] (sample_clock + inviteDefaultTTL).
Definition sample_joined : WGServerPeer := invitedPeer (as_read sample_invite).
Definition sample_answer : string :=
  rawurl_encode "ack" +:+ "." +:+ rawurl_encode (key_hmac (default "" (b64_decode sample_key)) "ack").

Lemma link_established_witness :
  let a1 := with_peers [sample_pending] site_a in
  CreateS2SInvite text_of itoa sample_clock "branch" "HQ" "vpn.example.com:51820" ["192.168.2.0/24"] key_world [] site_a
    = (Ok (sample_token, sample_pending), a1, [CRun "wg" ["genpsk"] ""; CSave (vp_cfg a1)])
  /\ snd (fst (FinalizeInvite tree_of Atoi key_hmac (sample_clock + 2 * minute) "branch" sample_answer key_world [] a1))
     = with_peers [finalized sample_key sample_pending] site_a
  /\ WGServerPeer_RemoteSubnets sample_joined = ["192.168.1.0/24"].
Proof.
  intros a1.
  assert (HA : CreateS2SInvite text_of itoa sample_clock "branch" "HQ" "vpn.example.com:51820" ["192.168.2.0/24"]
                 key_world [] site_a
               = (Ok (sample_token, sample_pending), a1, [CRun "wg" ["genpsk"] ""; CSave (vp_cfg a1)])) by reflexivity.
  assert (HB : ConsumeInvite text_of tree_of itoa Atoi key_hmac (sample_clock + minute) sample_token key_world [] site_b
               = (Ok (sample_answer, sample_key, sample_joined), with_peers [sample_joined] site_b,
                  [CSave (vp_cfg (with_peers [sample_joined] site_b))])) by reflexivity.
  destruct (link_established text_of tree_of itoa Atoi key_hmac sample_clock "branch" "HQ" "vpn.example.com:51820"
      ["192.168.2.0/24"] key_world [] site_a _ sample_pending a1 _ (sample_clock + minute) key_world [] site_b
      sample_answer _ sample_joined _ _ (sample_clock + 2 * minute) key_world [] HA HB eq_refl
      ltac:(vm_compute; discriminate) ltac:(split_and!; reflexivity) ltac:(split; reflexivity)) as (H1 & _).
  split; [exact HA|]. split; [exact H1|reflexivity].
Defined.

Lemma peer_list_invariant_witness :
  peers_ok sample_key (snd (fst (run_op text_of tree_of itoa Atoi key_hmac (fun _ => Ok "") (fun _ => Ok "")
    (OpAddPeer "tablet" false [] "") key_world [] sample_hub))).
Proof.
  apply (peer_list_invariant text_of tree_of itoa Atoi key_hmac (fun _ => Ok "") (fun _ => Ok "") sample_key sample_hub).
  - discriminate.
  - split_and!; [|repeat constructor; discriminate|reflexivity].
    repeat constructor; cbn; intuition discriminate.
  - apply rf_step. apply rf_start.
Defined.

(** ** Lemmas: the calls *)

Section Calls.
Variables (json_text : json -> string) (json_read : string -> option json).
Variables (time_text : Z -> string) (time_read : string -> option Z).
Variable hmac : string -> string -> string.
Variables (execute_client : WGClientTunnel -> result string) (execute_server : WGServerConfig -> result string).
Local Abbreviation any := (fun _ : vpn => True).

Lemma vpn_op_allowed o :
  keeps allowed any (run_op json_text json_read time_text time_read hmac execute_client execute_server o).
Proof.
  destruct o; cbn [run_op]; unfold drop_result; (apply keeps_bind; [|intros; apply keeps_ret]);
    first [apply AddPeer_allowed | apply RemovePeer_allowed | apply ServerUp_allowed | apply ServerDown_allowed
          | apply RenderServerConfig_allowed | apply SyncWGServer_allowed | apply EnsureServerKeypair_allowed
          | apply ConnectClient_allowed | apply DisconnectClient_allowed
          | unfold CreateS2SInvite, ConsumeInvite, FinalizeInvite, CancelInvite, GCExpiredInvites, appendPeer, persist;
            walk; first [exact I|apply GeneratePresharedKey_allowed|allow_call]].
Qed.

Lemma S2SHealth_allowed now name : keeps allowed any (S2SHealth now name).
Proof. unfold S2SHealth. walk; first [exact I|allow_call]. Qed.

Lemma S2SReachability_allowed name : keeps allowed any (S2SReachability name).
Proof. unfold S2SReachability. walk; first [exact I|allow_call]. Qed.

End Calls.

(** ** Behaviours worth knowing *)

(** Base64 decoding skips line breaks, so a key that holds some is accepted as
    it is, and written into the configuration as several lines. *)
Lemma key_with_newline_accepted :
  validateWGKey ("AAAAAAAAAAAAAAAAAAAAAAAAAAAAAAAAAAAAA" +:+ nl +:+ "PostUA=") = Ok tt.
Proof. reflexivity. Qed.
