(* ===== verification/HealthCheck.v ===== *)
(** * internal/services/healthcheck.go

    Periodic probes with a failure counter, remediation actions and a
    cooldown.  One tick of a check is a program over the calls it makes; the
    readings of the clock are arguments, a wait and an HTTP probe are calls the
    process makes itself, and [time.ParseDuration] is a parameter. *)

From S2P Require Import Prelude GoStrings GoTime GoNet GoIP ConfigTypes AgentRules FirewallRender Outbound Sys.

Local Open Scope Z_scope.
Local Open Scope go_scope.
Local Open Scope sys_scope.

Record CheckResult : Type := mkCheck {
  cr_Name : string; cr_Status : string; cr_LastCheck : Z; cr_FailureCount : Z; cr_LastAction : string;
  cr_LastActionAt : Z; cr_InCooldown : bool; cr_cooldownUntil : Z }.

Definition CheckResult_new (name status : string) : CheckResult :=
  mkCheck name status zero_time 0 "" zero_time false zero_time.

Definition inCooldown (now : Z) (r : CheckResult) : bool := now <? cr_cooldownUntil r.

Definition snapshot (now : Z) (r : CheckResult) : CheckResult :=
  mkCheck (cr_Name r) (cr_Status r) (cr_LastCheck r) (cr_FailureCount r) (cr_LastAction r) (cr_LastActionAt r)
    (inCooldown now r) (cr_cooldownUntil r).

Record hc : Type := mkHc { hc_cfg : Config; hc_results : gmap string CheckResult }.

Definition NewHealthCheckService (cfg : Config) : hc := mkHc cfg ∅.

Definition with_results (f : gmap string CheckResult -> gmap string CheckResult) (s : hc) : hc :=
  mkHc (hc_cfg s) (f (hc_results s)).

(** What [Start] seeds before it spawns a goroutine per check. *)
Definition Start (s : hc) : hc :=
  let h := Config_HealthCheck (hc_cfg s) in
  if negb (HealthCheckConfig_Enabled h) then s
  else foldl (fun s c => with_results <[HealthCheckEntry_Name c := CheckResult_new (HealthCheckEntry_Name c) "unknown"]> s)
         s (HealthCheckConfig_Checks h).

Definition GetResults (now : Z) (s : hc) : gmap string CheckResult := snapshot now <$> hc_results s.
Definition GetResult (now : Z) (name : string) (s : hc) : option CheckResult := snapshot now <$> hc_results s !! name.

Definition ResetCounter (name : string) : hc -> hc :=
  with_results (fun m => match m !! name with
    | Some r => <[name := mkCheck (cr_Name r) "ok" (cr_LastCheck r) 0 (cr_LastAction r) (cr_LastActionAt r) false zero_time]> m
    | None => m end).

(** The clock of one tick. *)
Record tick : Type := mkTick { tk_start : Z; tk_probed : Z; tk_action : nat -> Z; tk_cooled : Z }.

Section Check.
Variable ParseDuration : string -> option Z.
Variable url_parse : string -> result (string * string).

Definition orDuration (spec : string) (d : Z) : Z :=
  let v := default 0 (ParseDuration spec) in if v =? 0 then d else v.

(** Interval, timeout and cooldown of [runCheck]. *)
Definition check_interval (c : HealthCheckEntry) : Z := orDuration (HealthCheckEntry_Interval c) (30 * second).
Definition check_timeout (c : HealthCheckEntry) : Z := orDuration (HealthCheckEntry_Timeout c) (5 * second).
Definition check_cooldown (c : HealthCheckEntry) : Z := orDuration (HealthCheckEntry_Cooldown c) (5 * minute).

(** ** Probes *)

(** The answer of the call is the status code in decimal. *)
Definition httpProbe (url : string) (expectStatus : Z) : svc hc (result unit) :=
  let expect := if expectStatus =? 0 then 204 else expectStatus in
  match wrap_err "rejected probe URL: %w" [] (validateOutboundURL url_parse url) with
  | Err e => mret (Err e)
  | Ok _ =>
      try! status := LocalCall "http.get" [url] in
      mret (fail_if (negb (Atoi_value status =? expect))
              (Errorf "status %d, want %d" [status; itoa expect]))
  end.

Definition probe (target : HealthCheckTarget) : svc hc (result unit) :=
  if String.eqb (HealthCheckTarget_Type target) "ping"
  then r ← Run "ping" ["-c"; "1"; "-W"; "3"; HealthCheckTarget_Host target]; mret (discard r)
  else if String.eqb (HealthCheckTarget_Type target) "http"
  then httpProbe (HealthCheckTarget_URL target) (HealthCheckTarget_ExpectStatus target)
  else mret (Err (Errorf "unsupported target type %q" [HealthCheckTarget_Type target])).

(** Stops at the first target that answers. *)
Fixpoint probeTargets (targets : list HealthCheckTarget) : svc hc (bool * list (HealthCheckTarget * error)) :=
  match targets with
  | [] => mret (false, [])
  | t :: ts =>
      r ← probe t;
      match r with
      | Ok _ => mret (true, [])
      | Err e => '(ok, failures) ← probeTargets ts; mret (ok, if ok : bool then [] else (t, e) :: failures)
      end
  end.

(** ** Actions *)

Definition actionRestartInterface (ifaceID : string) : svc hc (result unit) :=
  s ← get;
  let device := deviceByID (Config_Interfaces (hc_cfg s)) ifaceID in
  if String.eqb device "" then mret (Err (Errorf "interface %s not found" [ifaceID]))
  else
    Run "ip" ["link"; "set"; device; "down"] ;;
    r ← Run "ip" ["link"; "set"; device; "up"]; mret (discard r).

Definition actionRestartPPPoE : svc hc (result unit) :=
  Run "killall" ["pppd"] ;;
  r ← Run "pppd" ["call"; "wan"]; mret (discard r).

Definition errUSBFailoverDisabled : error := Errorf "USB failover is disabled" [].

Definition actionFailoverUSB : svc hc (result unit) :=
  s ← get;
  let usb := Config_USBTether (hc_cfg s) in
  if negb (USBTetherConfig_Enabled usb) || negb (USBTetherConfig_AutoFailover usb)
  then mret (Err errUSBFailoverDisabled)
  else
    let iface := orDefault (USBTetherConfig_Interface usb) "usb0" in
    state ← LocalCall "operstate" [iface];
    if match state with Ok st => negb (String.eqb st "up") | Err _ => true end
    then mret (Err (Errorf "USB interface %s not available" [iface]))
    else
      try! _ := wrapping "dhclient USB: %w" [] (Run "dhclient" ["-1"; iface]) in
      let metric := if USBTetherConfig_Metric usb =? 0 then 100 else USBTetherConfig_Metric usb in
      r ← Run "ip" ["route"; "replace"; "default"; "dev"; iface; "metric"; itoa metric]; mret (discard r).

Definition actionReboot : svc hc (result unit) := r ← Run "systemctl" ["reboot"]; mret (discard r).

Definition errUnknownHealthAction : error := Errorf "unknown action" [].

Definition runAction (check : HealthCheckEntry) (actionType : string) : svc hc (result unit) :=
  if String.eqb actionType "restartInterface" then actionRestartInterface (HealthCheckEntry_Interface check)
  else if String.eqb actionType "restartPppoe" then actionRestartPPPoE
  else if String.eqb actionType "failoverUsb" then actionFailoverUSB
  else if String.eqb actionType "rebootSystem" then actionReboot
  else mret (Err (Errorw "%w %s" [actionType] errUnknownHealthAction)).

(** [false] when the context ended during the wait. *)
Definition waitActionDelay (spec : string) : svc hc bool :=
  if String.eqb spec "" then mret true
  else match ParseDuration spec with
  | None => mret true
  | Some delay => if delay <=? 0 then mret true else r ← LocalCall "wait" [spec]; mret (is_ok r)
  end.

Definition recordAction (now : Z) (name actionType : string) : hc -> hc :=
  with_results (fun m => match m !! name with
    | Some r => <[name := mkCheck (cr_Name r) (cr_Status r) (cr_LastCheck r) (cr_FailureCount r) actionType now
                            (cr_InCooldown r) (cr_cooldownUntil r)]> m
    | None => m end).

Definition startCooldown (now : Z) (name : string) (cooldown : Z) : hc -> hc :=
  with_results (fun m => match m !! name with
    | Some r => <[name := mkCheck (cr_Name r) (cr_Status r) (cr_LastCheck r) 0 (cr_LastAction r) (cr_LastActionAt r)
                            true (now + cooldown)]> m
    | None => m end).

Definition modify (f : hc -> hc) : svc hc unit := s ← get; put (f s).

(** The actions in order until one succeeds, which starts the cooldown. *)
Fixpoint executeActions (t : tick) (check : HealthCheckEntry) (i : nat) (actions : list HealthCheckAction) : svc hc unit :=
  match actions with
  | [] => mret tt
  | a :: actions =>
      waited ← waitActionDelay (HealthCheckAction_Delay a);
      if negb waited then mret tt
      else
        modify (recordAction (tk_action t i) (HealthCheckEntry_Name check) (HealthCheckAction_Type a)) ;;
        r ← runAction check (HealthCheckAction_Type a);
        match r with
        | Err _ => executeActions t check (S i) actions
        | Ok _ => modify (startCooldown (tk_cooled t) (HealthCheckEntry_Name check) (check_cooldown check))
        end
  end.

(** ** One tick *)

(** The result after the probes. *)
Definition record_probe (t : tick) (name : string) (ok : bool) (old : option CheckResult) : CheckResult :=
  let r := default (CheckResult_new name "") old in
  mkCheck (cr_Name r) (if ok then "ok" else "failing") (tk_probed t) (if ok then 0 else cr_FailureCount r + 1)
    (cr_LastAction r) (cr_LastActionAt r) (cr_InCooldown r) (cr_cooldownUntil r).

Definition executeCheck (t : tick) (check : HealthCheckEntry) : svc hc unit :=
  s ← get;
  let name := HealthCheckEntry_Name check in
  let result := hc_results s !! name in
  if match result with Some r => inCooldown (tk_start t) r | None => false end then mret tt
  else
    x ← probeTargets (HealthCheckEntry_Targets check);
    modify (with_results (fun m => <[name := record_probe t name (fst x) (m !! name)]> m)) ;;
    s ← get;
    let count := match hc_results s !! name with Some r => cr_FailureCount r | None => 0 end in
    if (HealthCheckEntry_FailureThreshold check <=? count) && (0 <? HealthCheckEntry_FailureThreshold check)
    then executeActions t check 0 (HealthCheckEntry_Actions check)
    else mret tt.

(** ** What is observed of a check *)

Definition probe_call (c : call) : bool :=
  match c with
  | CRun "ping" _ _ => true
  | CLocal "http.get" _ => true
  | _ => false
  end.

Inductive label : Type := LHeld | LOk | LFail (acted : bool) | LReset.

Inductive event : Type := ETick (t : tick) (w : world) | EReset.

(** One event: the state after it, and what was seen. *)
Definition observe (check : HealthCheckEntry) (s : hc) (e : event) : hc * label :=
  match e with
  | EReset => (ResetCounter (HealthCheckEntry_Name check) s, LReset)
  | ETick t w =>
      let s' := state_after (executeCheck t check) w s in
      (s', if match hc_results s !! HealthCheckEntry_Name check with Some r => inCooldown (tk_start t) r | None => false end
           then LHeld
           else if fst (outcome (probeTargets (HealthCheckEntry_Targets check)) w s) then LOk
           else LFail (existsb (fun c => negb (probe_call c)) (calls_of (executeCheck t check) w s)))
  end.

Fixpoint observe_all (check : HealthCheckEntry) (s : hc) (es : list event) : hc * list label :=
  match es with
  | [] => (s, [])
  | e :: es => let '(s1, l) := observe check s e in let '(s2, ls) := observe_all check s1 es in (s2, l :: ls)
  end.

(** The failures in a row at the end of what was seen. *)
Definition streak_step (n : Z) (l : label) : Z :=
  match l with LHeld => n | LFail _ => n + 1 | LOk | LReset => 0 end.
Definition streak (ls : list label) : Z := foldl streak_step 0 ls.

(** ** Lemmas *)

(** The failures counted for a check. *)
Definition failures_of (name : string) (s : hc) : Z :=
  match hc_results s !! name with Some r => cr_FailureCount r | None => 0 end.

Definition held (t : tick) (check : HealthCheckEntry) (s : hc) : bool :=
  match hc_results s !! HealthCheckEntry_Name check with Some r => inCooldown (tk_start t) r | None => false end.

Lemma probeTargets_keeps (s0 : hc) targets :
  keeps (fun c => probe_call c = true) (eq s0) (probeTargets targets).
Proof.
  induction targets as [|t ts IH]; cbn [probeTargets]; [apply keeps_ret|]. unfold probe, httpProbe.
  walk; done.
Qed.

Lemma probeTargets_run targets w h s :
  exists x tr, probeTargets targets w h s = (x, s, h ++ tr) /\ existsb (fun c => negb (probe_call c)) tr = false.
Proof.
  destruct (probeTargets_keeps s targets w h s eq_refl) as [Hs (tr & Ht & HP)].
  destruct (probeTargets targets w h s) as [[x s'] h']. cbn in Hs, Ht. subst. eexists _, _. split; [done|].
  clear -HP. induction HP as [|c tr Hc _ IH]; [done|]. cbn [existsb]. by rewrite Hc.
Qed.

(** Actions never raise the counter. *)
Lemma executeActions_count t check name n i actions :
  0 <= n ->
  keeps (fun _ => True) (fun s => 0 <= failures_of name s <= n) (executeActions t check i actions).
Proof.
  intros Hn. revert i. induction actions as [|a actions IH]; intros i; cbn [executeActions]; [apply keeps_ret|].
  unfold waitActionDelay, modify, runAction, actionRestartInterface, actionRestartPPPoE, actionFailoverUSB, actionReboot.
  walk; try done; try apply IH;
    unfold failures_of, recordAction, startCooldown, with_results in *; cbn [hc_results] in *;
    (destruct (hc_results _ !! HealthCheckEntry_Name check) as [r|] eqn:Er; [|done]);
    (destruct (decide (name = HealthCheckEntry_Name check)) as [->|Hne];
      [rewrite lookup_insert_eq, ?Er in *|rewrite lookup_insert_ne by done]; cbn in *; lia || done).
Qed.

(** A tick during the cooldown does nothing at all. *)
Lemma executeCheck_held t check w h s : held t check s = true -> executeCheck t check w h s = (tt, s, h).
Proof. intros H. unfold executeCheck, mbind, svc_bind, get. unfold held in H. by rewrite H. Qed.

(** A tick outside the cooldown: the counter, and what it takes to act. *)
Lemma executeCheck_ran t check w s :
  held t check s = false ->
  let ok := fst (outcome (probeTargets (HealthCheckEntry_Targets check)) w s) in
  let count := if ok then 0 else failures_of (HealthCheckEntry_Name check) s + 1 in
  let acted := existsb (fun c => negb (probe_call c)) (calls_of (executeCheck t check) w s) in
  (0 <= count -> 0 <= failures_of (HealthCheckEntry_Name check) (state_after (executeCheck t check) w s) <= count)
  /\ (acted = true -> 0 < HealthCheckEntry_FailureThreshold check <= count).
Proof.
  intros Hh. cbv zeta. unfold outcome, calls_of, state_after, executeCheck.
  destruct (probeTargets_run (HealthCheckEntry_Targets check) w [] s) as (x & tr & Hp & Hc).
  unfold modify, mbind, svc_bind, get, put. unfold held in Hh. rewrite Hh, Hp. cbn [fst snd].
  unfold with_results. cbn [hc_results hc_cfg]. rewrite lookup_insert_eq.
  assert (Hcount : cr_FailureCount (record_probe t (HealthCheckEntry_Name check) (fst x)
                      (hc_results s !! HealthCheckEntry_Name check))
                   = if fst x then 0 else failures_of (HealthCheckEntry_Name check) s + 1).
  { unfold record_probe, failures_of. cbn. by destruct (hc_results s !! _). }
  rewrite Hcount. set (n := if fst x then _ else _) in *.
  set (s1 := mkHc _ _). assert (H1 : failures_of (HealthCheckEntry_Name check) s1 = n).
  { unfold failures_of, s1. cbn [hc_results]. rewrite lookup_insert_eq. exact Hcount. }
  destruct ((HealthCheckEntry_FailureThreshold check <=? n) && (0 <? HealthCheckEntry_FailureThreshold check)) eqn:Et.
  - apply andb_prop in Et as [Et1%Z.leb_le Et2%Z.ltb_lt]. split; [|lia]. intros Hn.
    apply (executeActions_count t check (HealthCheckEntry_Name check) n 0 _ Hn w). lia.
  - cbn [fst snd mret svc_ret app]. split; [lia|]. intros H. congruence.
Qed.

Lemma ResetCounter_count name s :
  0 <= failures_of name s -> failures_of name (ResetCounter name s) = 0.
Proof.
  unfold failures_of, ResetCounter, with_results. cbn [hc_results].
  destruct (hc_results s !! name) as [r|] eqn:Er; [by rewrite lookup_insert_eq|]. by rewrite Er.
Qed.

(** One event, against the failures in a row seen so far. *)
Lemma observe_streak check n s e :
  0 <= failures_of (HealthCheckEntry_Name check) s <= n ->
  let s' := fst (observe check s e) in let l := snd (observe check s e) in
  0 <= failures_of (HealthCheckEntry_Name check) s' <= streak_step n l
  /\ (l = LFail true -> 0 < HealthCheckEntry_FailureThreshold check <= n + 1).
Proof.
  intros Hs. destruct e as [t w|]; cbn [observe fst snd].
  - destruct (held t check s) eqn:Eh; unfold held in Eh; rewrite Eh.
    + unfold state_after. rewrite executeCheck_held by done. by split.
    + destruct (executeCheck_ran t check w s Eh) as [Hc Ha]. cbv zeta in Hc, Ha.
      destruct (fst (outcome _ w s)); cbn [streak_step]; (split; [lia|]); [done|].
      intros [= Hl]. specialize (Ha Hl). lia.
  - rewrite ResetCounter_count by lia. by split.
Qed.

(** The counter never exceeds the failures in a row that were seen. *)
Lemma streak_bounds check es n s :
  0 <= failures_of (HealthCheckEntry_Name check) s <= n ->
  forall pre post, snd (observe_all check s es) = pre ++ LFail true :: post ->
  0 < HealthCheckEntry_FailureThreshold check <= foldl streak_step n (pre ++ [LFail true]).
Proof.
  revert n s. induction es as [|e es IH]; intros n s Hs pre post; cbn [observe_all]; [by destruct pre|].
  destruct (observe_streak check n s e Hs) as [Hs' Ha]. cbv zeta in Hs', Ha.
  destruct (observe check s e) as [s1 l]. cbn [fst snd] in *.
  specialize (IH _ _ Hs'). destruct (observe_all check s1 es) as [s2 ls]. cbn [snd] in *.
  destruct pre as [|l' pre]; cbn [app]; intros [= -> H]; [by apply Ha|]. cbn [foldl]. by eapply IH.
Qed.

Lemma runAction_state s0 check ty : keeps (fun _ => True) (eq s0) (runAction check ty).
Proof.
  unfold runAction, actionRestartInterface, actionRestartPPPoE, actionFailoverUSB, actionReboot. walk; done.
Qed.

(** The first action succeeding ends the round, clears the counter and holds
    the check for its cooldown. *)
Lemma executeActions_cools t check a actions w h s :
  HealthCheckAction_Delay a = "" -> is_Some (hc_results s !! HealthCheckEntry_Name check) ->
  let s1 := recordAction (tk_action t 0) (HealthCheckEntry_Name check) (HealthCheckAction_Type a) s in
  let '(r, _, h1) := runAction check (HealthCheckAction_Type a) w h s1 in
  is_ok r = true ->
  let '(_, s', h') := executeActions t check 0 (a :: actions) w h s in
  h' = h1 /\ failures_of (HealthCheckEntry_Name check) s' = 0
  /\ forall t', tk_start t' < tk_cooled t + check_cooldown check -> held t' check s' = true.
Proof.
  intros Hd [r0 Hr]. cbv zeta. cbn [executeActions]. unfold waitActionDelay. rewrite Hd.
  cbn [String.eqb]. unfold modify, mbind, svc_bind, get, put. cbn [mret svc_ret negb].
  set (s1 := recordAction _ _ _ s).
  destruct (runAction_state s1 check (HealthCheckAction_Type a) w h s1 eq_refl) as [Hs _].
  destruct (runAction check (HealthCheckAction_Type a) w h s1) as [[r s2] h1]. cbn in Hs. subst s2.
  destruct r as [u|e]; [|done]. intros _. split; [done|].
  unfold failures_of, held, startCooldown, s1, recordAction, with_results. cbn [hc_results]. rewrite Hr.
  rewrite !lookup_insert_eq. unfold inCooldown. cbn. split; [done|]. intros t' Ht. by apply Z.ltb_lt.
Qed.

Lemma Start_count cfg name : failures_of name (Start (NewHealthCheckService cfg)) = 0.
Proof.
  unfold Start. destruct (negb _); [done|].
  assert (H : forall l s, failures_of name s = 0 -> failures_of name
    (foldl (fun s c => with_results <[HealthCheckEntry_Name c := CheckResult_new (HealthCheckEntry_Name c) "unknown"]> s) s l) = 0).
  { induction l as [|c l IH]; intros s Hs; cbn [foldl]; [done|]. apply IH. unfold failures_of, with_results in *.
    cbn [hc_results]. destruct (decide (name = HealthCheckEntry_Name c)) as [->|Hne];
      [by rewrite lookup_insert_eq|by rewrite lookup_insert_ne]. }
  by apply H.
Qed.

(** Every command of a tick is one the agent runs. *)
Lemma executeCheck_allowed t check (I : hc -> Prop) :
  (forall f s, I s -> I (with_results f s)) -> keeps allowed I (executeCheck t check).
Proof.
  intros HI. unfold executeCheck, modify. walk; try (by apply HI).
  - generalize (HealthCheckEntry_Targets check) as ts. induction ts as [|x ts IH]; cbn [probeTargets]; [apply keeps_ret|].
    unfold probe, httpProbe. walk; first [exact IH|allow_call].
  - generalize 0%nat, (HealthCheckEntry_Actions check) as acts. intros i acts. revert i.
    induction acts as [|act acts IH]; intros i; cbn [executeActions]; [apply keeps_ret|].
    unfold waitActionDelay, modify, runAction, actionRestartInterface, actionRestartPPPoE, actionFailoverUSB, actionReboot,
      recordAction, startCooldown.
    walk; first [by apply HI|apply IH|allow_call].
Qed.

(** ** Properties *)


End Check.

Section Samples.

Definition noDuration : string -> option Z := fun _ => None.
Definition noURL : string -> result (string * string) := fun _ => Err (Errorf "no URL" []).
Definition sample_check : HealthCheckEntry :=
  mkHealthCheckEntry "wan" "" [mkHealthCheckTarget "ping" "192.0.2.1" "" 0] "" "" 2
    [mkHealthCheckAction "rebootSystem" ""] "".
Definition sample_world : world := fun _ c =>
  match c with CRun "ping" _ _ => Err (Errorf "unreachable" []) | _ => Ok "" end.
Definition sample_tick (now : Z) : tick := mkTick now now (fun _ => now) now.

(** The second failure reaches the threshold and reboots; the counter is zero
    and the next tick is held. *)
Example sample_round :
  let es := [ETick (sample_tick 1) sample_world; ETick (sample_tick 2) sample_world; ETick (sample_tick 3) sample_world] in
  let run := observe_all noDuration noURL sample_check (NewHealthCheckService Config_zero) es in
  snd run = [LFail false; LFail true; LHeld] /\ failures_of "wan" (fst run) = 0.
Proof. vm_compute. done. Qed.

(** A negative interval reaches [time.NewTicker], which panics on it. *)
Example negative_interval_reaches_ticker :
  check_interval (fun _ => Some (-30 * second)) sample_check < 0.
Proof. reflexivity. Qed.

End Samples.
