(* ===== verification/WebAuth.v ===== *)
(** * internal/web: logging in

    login_guard.go (per-address lockout), login_budget.go (global spacing of
    password checks), auth.go (sessions) and handleLogin of server.go.  A time is a number of nanoseconds;
    every reading of the clock is an argument.  bcrypt and the cookie store
    are parameters. *)

From stdpp Require Import sorting.
From S2P Require Import Prelude GoStrings GoTime GoNet Encoding.

Local Open Scope Z_scope.
Local Open Scope go_scope.

(** ** login_guard.go *)

Definition loginFailureThreshold : Z := 5.
Definition loginLockoutBase : Z := minute.
Definition loginLockoutMax : Z := 15 * minute.
Definition loginFailureIdleReset : Z := hour.

Record loginRecord : Type := mkLoginRecord { lr_failures : Z; lr_lockedUntil : Z; lr_lastSeen : Z }.

Abbreviation guard := (gmap string loginRecord).

(** One pass of the sweeper. *)
Definition guard_cleanup (now : Z) (g : guard) : guard :=
  filter (fun kv : string * loginRecord =>
    ~ (loginFailureIdleReset < time_Sub now (lr_lastSeen kv.2) /\ lr_lockedUntil kv.2 < now)) g.

(** [LockedFor]; [now] and [now'] are its two readings of the clock. *)
Definition LockedFor (now now' : Z) (ip : string) (g : guard) : guard * Z :=
  match g !! ip with
  | None => (g, 0)
  | Some rec =>
      if loginFailureIdleReset <? time_Sub now (lr_lastSeen rec) then (delete ip g, 0)
      else let remaining := time_Sub (lr_lockedUntil rec) now' in
           (g, if 0 <? remaining then remaining else 0)
  end.

(** The lockout earned by the [failures]-th failure in a row. *)
Definition lockoutFor (failures : Z) : Z :=
  let lockout := shl64 loginLockoutBase (failures - loginFailureThreshold) in
  if (loginLockoutMax <? lockout) || (lockout <=? 0) then loginLockoutMax else lockout.

Definition RecordFailure (now : Z) (ip : string) (g : guard) : guard * Z :=
  let rec := match g !! ip with
             | Some r => if loginFailureIdleReset <? time_Sub now (lr_lastSeen r)
                         then mkLoginRecord 0 zero_time zero_time else r
             | None => mkLoginRecord 0 zero_time zero_time
             end in
  let failures := lr_failures rec + 1 in
  if failures <? loginFailureThreshold
  then (<[ip := mkLoginRecord failures (lr_lockedUntil rec) now]> g, 0)
  else let lockout := lockoutFor failures in
       (<[ip := mkLoginRecord failures (now + lockout) now]> g, lockout).

Definition RecordSuccess (ip : string) (g : guard) : guard := delete ip g.

Definition failureCount (ip : string) (g : guard) : Z :=
  match g !! ip with Some r => lr_failures r | None => 0 end.

(** ** login_budget.go *)

Definition loginBudgetFailures : nat := 30.
Definition loginBudgetWindow : Z := hour.
Definition loginBudgetSpacing : Z := 30 * second.
Definition loginBudgetMaxWait : Z := 30 * second.

Record loginBudget : Type := mkBudget { lb_failures : list Z; lb_next : Z; lb_warned : Z }.

Fixpoint prune_list (now : Z) (l : list Z) : list Z :=
  match l with
  | [] => []
  | t :: rest => if loginBudgetWindow <? time_Sub now t then prune_list now rest else l
  end.

Definition prune (now : Z) (b : loginBudget) : loginBudget :=
  mkBudget (prune_list now (lb_failures b)) (lb_next b) (lb_warned b).

(** [Reserve]: the wait and whether a slot was granted. *)
Definition Reserve (now : Z) (b : loginBudget) : loginBudget * Z * bool :=
  let b := prune now b in
  if (length (lb_failures b) <? loginBudgetFailures)%nat then (b, 0, true)
  else
    let start := if now <? lb_next b then lb_next b else now in
    let wait := time_Sub start now in
    if loginBudgetMaxWait <? wait then (b, wait, false)
    else (mkBudget (lb_failures b) (start + loginBudgetSpacing) (lb_warned b), wait, true).

Definition budget_RecordFailure (now : Z) (b : loginBudget) : loginBudget :=
  let b := prune now b in
  let fs := lb_failures b ++ [now] in
  let warn := (loginBudgetFailures <=? length fs)%nat && (loginBudgetWindow <? time_Sub now (lb_warned b)) in
  mkBudget fs (lb_next b) (if warn then now else lb_warned b).

(** ** auth.go *)

(** What [store.Get] made of the request's cookie: an error, or the two
    values it carries. *)
Inductive cookie : Type :=
| CookieErr
| CookieOk (auth : option bool) (sid : option string).

Record Auth : Type := mkAuth { au_hash : string; au_sessions : gset string }.

Definition sessionID (c : cookie) : string :=
  match c with CookieErr => "" | CookieOk _ sid => default "" sid end.

Definition SetPasswordHash (hash : string) (a : Auth) : Auth := mkAuth hash (au_sessions a).

Definition ChangePassword (c : cookie) (hash : string) (a : Auth) : Auth :=
  let keep := sessionID c in
  mkAuth hash (filter (fun id => id = keep) (au_sessions a)).

(** [Login]: the random bytes read, and the outcome of saving the cookie. *)
Definition Login (raw : option string) (saved : result unit) (a : Auth) : Auth * result string :=
  match raw with
  | None => (a, Err (Errorf "rand.Read" []))
  | Some bytes =>
      let id := hex_encode bytes in
      (mkAuth (au_hash a) ({[id]} ∪ au_sessions a), guard! saved ;; Ok id)
  end.

Definition Logout (c : cookie) (saved : result unit) (a : Auth) : Auth * result unit :=
  match c with
  | CookieErr => (a, Err (Errorf "securecookie" []))
  | CookieOk _ sid =>
      (match sid with Some id => mkAuth (au_hash a) (au_sessions a ∖ {[id]}) | None => a end, saved)
  end.

Definition IsAuthenticated (c : cookie) (a : Auth) : bool :=
  match c with
  | CookieOk (Some true) sid => bool_decide (default "" sid ∈ au_sessions a)
  | _ => false
  end.

(** ** handleLogin of server.go

    Requests are handled concurrently, so the handler is split where it
    gives up the locks: [login_begin] up to the password check and
    [login_finish] from its result on. *)

Record web : Type := mkWeb { w_guard : guard; w_budget : loginBudget; w_auth : Auth }.

Inductive login_reply : Type :=
| LockedOut (wait : Z)
| BudgetSpent (wait : Z)
| ClientGone
| WrongPassword (lockout : Z)
| InternalError
| LoggedIn (id : string).

(** The clock readings of one request, in order. *)
Record clock : Type := mkClock { c_locked : Z; c_until : Z; c_reserve : Z; c_budget : Z; c_guard : Z }.

(** The wait for a slot of the budget; [None] when it has come up.  [gone] is
    whether the client gave up while waiting. *)
Definition awaitLoginBudget (now : Z) (gone : bool) (b : loginBudget) : loginBudget * option login_reply :=
  let '(b', wait, ok) := Reserve now b in
  (b', if negb ok then Some (BudgetSpent wait)
       else if wait =? 0 then None
       else if gone then Some ClientGone else None).

(** [None] means the password goes on to be checked. *)
Definition login_begin (t : clock) (gone : bool) (ip : string) (s : web) : web * option login_reply :=
  let '(g, wait) := LockedFor (c_locked t) (c_until t) ip (w_guard s) in
  if 0 <? wait then (mkWeb g (w_budget s) (w_auth s), Some (LockedOut wait))
  else
    let '(b, r) := awaitLoginBudget (c_reserve t) gone (w_budget s) in
    (mkWeb g b (w_auth s), r).

(** The outcomes of [rotateCSRFToken], of the random source and of saving the
    session cookie. *)
Record session_io : Type := { s_csrf : result unit; s_random : option string; s_save : result unit }.

Definition login_finish (t : clock) (io : session_io) (verified : bool) (ip : string) (s : web) : web * login_reply :=
  if negb verified then
    let b := budget_RecordFailure (c_budget t) (w_budget s) in
    let '(g, lockout) := RecordFailure (c_guard t) ip (w_guard s) in
    (mkWeb g b (w_auth s), WrongPassword lockout)
  else
    let g := RecordSuccess ip (w_guard s) in
    match s_csrf io with
    | Err _ => (mkWeb g (w_budget s) (w_auth s), InternalError)
    | Ok _ =>
        let '(a, r) := Login (s_random io) (s_save io) (w_auth s) in
        (mkWeb g (w_budget s) a, match r with Ok id => LoggedIn id | Err _ => InternalError end)
    end.

Section Handle.
(** [bcrypt.CompareHashAndPassword(hash, password) == nil]. *)
Variable bcrypt_compare : string -> string -> bool.

Definition VerifyPassword (password : string) (a : Auth) : bool := bcrypt_compare (au_hash a) password.

Definition handleLogin (t : clock) (gone : bool) (io : session_io) (ip password : string) (s : web)
  : web * login_reply :=
  match login_begin t gone ip s with
  | (s', Some r) => (s', r)
  | (s', None) => login_finish t io (VerifyPassword password (w_auth s')) ip s'
  end.

End Handle.

(** The status each reply is sent with; nothing is sent to a client that has
    gone.  [hx] is whether the request carries [HX-Request: true]. *)
Definition reply_status (hx : bool) (r : login_reply) : Z :=
  match r with
  | LockedOut _ | BudgetSpent _ => 429
  | ClientGone => 0
  | WrongPassword l => if 0 <? l then 429 else 401
  | InternalError => 500
  | LoggedIn _ => if hx then 200 else 303
  end.

(** ** Lemmas: the lockout *)

Definition lockout_spec (failures : Z) : Z := Z.min (minute * 2 ^ (failures - 5)) (15 * minute).

Lemma lockoutFor_exact f : 5 <= f -> lockoutFor f = lockout_spec f.
Proof.
  intros Hf. unfold lockoutFor, lockout_spec, loginFailureThreshold.
  destruct (Z.le_gt_cases 64 (f - 5)) as [Hbig|Hsmall].
  - unfold shl64. rewrite (proj2 (Z.leb_le 64 (f - 5)) Hbig).
    change ((loginLockoutMax <? 0) || (0 <=? 0)) with true. cbv iota.
    assert (Hp : 2 ^ 64 <= 2 ^ (f - 5)) by (apply Z.pow_le_mono_r; lia).
    change (2 ^ 64) with 18446744073709551616 in Hp. unfold loginLockoutMax, minute, second in *. lia.
  - assert (Hall : forallb (fun n => let l := shl64 loginLockoutBase (Z.of_nat n) in
        (if (loginLockoutMax <? l) || (l <=? 0) then loginLockoutMax else l)
        =? Z.min (minute * 2 ^ Z.of_nat n) (15 * minute)) (seq 0 64) = true) by (vm_compute; reflexivity).
    rewrite forallb_forall in Hall. specialize (Hall (Z.to_nat (f - 5))).
    rewrite Z2Nat.id in Hall by lia. apply Z.eqb_eq, Hall, in_seq. lia.
Qed.

Lemma lockout_spec_mono f f' : 5 <= f <= f' -> lockout_spec f <= lockout_spec f'.
Proof.
  intros Hf. unfold lockout_spec. assert (2 ^ (f - 5) <= 2 ^ (f' - 5)) by (apply Z.pow_le_mono_r; lia).
  unfold minute, second. lia.
Qed.

Lemma lockout_spec_range f : 5 <= f -> minute <= lockout_spec f <= 15 * minute.
Proof.
  intros Hf. unfold lockout_spec. assert (2 ^ 0 <= 2 ^ (f - 5)) by (apply Z.pow_le_mono_r; lia).
  unfold minute, second in *. lia.
Qed.

(** What can happen to the guard, whatever the interleaving of requests. *)
Inductive guard_event : Type :=
| GCheck (now now' : Z) (ip : string)
| GFail (now : Z) (ip : string)
| GSuccess (ip : string)
| GSweep (now : Z).

Definition guard_step (g : guard) (ev : guard_event) : guard :=
  match ev with
  | GCheck now now' ip => fst (LockedFor now now' ip g)
  | GFail now ip => fst (RecordFailure now ip g)
  | GSuccess ip => RecordSuccess ip g
  | GSweep now => guard_cleanup now g
  end.

(** The clock readings of an event lie in an interval. *)
Definition within (t u : Z) (ev : guard_event) : Prop :=
  match ev with
  | GCheck now now' _ => t <= now <= now' /\ now' < u
  | GFail now _ | GSweep now => t <= now < u
  | GSuccess _ => True
  end.

(** The record of [ip] shows at least [f] failures, the last no earlier than
    [t], and locks it at least until [u]. *)
Definition locked (ip : string) (f t u : Z) (g : guard) : Prop :=
  exists rec, g !! ip = Some rec /\ f <= lr_failures rec /\ t <= lr_lastSeen rec /\ u <= lr_lockedUntil rec.

Lemma not_idle now t seen u :
  t <= seen -> t <= now < u -> u <= t + 15 * minute -> (loginFailureIdleReset <? time_Sub now seen) = false.
Proof.
  intros. apply Z.ltb_ge. unfold time_Sub, loginFailureIdleReset, hour, minute, second, int64_min, int64_max in *. lia.
Qed.

Lemma guard_step_locked ip f t u g ev :
  5 <= f -> u = t + lockout_spec f -> within t u ev -> ev <> GSuccess ip ->
  locked ip f t u g -> locked ip f t u (guard_step g ev).
Proof.
  intros Hf Hu Hw Hne (rec & Hr & Hfail & Hseen & Hlock).
  assert (Hu' : u <= t + 15 * minute) by (pose proof (lockout_spec_range f Hf); lia).
  destruct ev as [now now' ip'|now ip'|ip'|now]; cbn [guard_step].
  - unfold LockedFor. destruct (decide (ip' = ip)) as [->|Hip].
    + rewrite Hr. cbn in Hw. rewrite (not_idle now t _ u) by lia. cbn [fst]. by exists rec.
    + destruct (g !! ip') as [r'|]; [|by exists rec]. destruct (_ <? _); cbn [fst]; [|by exists rec].
      exists rec. rewrite lookup_delete_ne by done. done.
  - cbn in Hw. unfold RecordFailure. destruct (decide (ip' = ip)) as [->|Hip].
    + rewrite Hr. rewrite (not_idle now t _ u) by lia.
      rewrite (proj2 (Z.ltb_ge _ _)) by (unfold loginFailureThreshold; lia). cbn [fst].
      eexists. rewrite lookup_insert_eq. split; [done|]. cbn. split; [lia|]. split; [lia|].
      rewrite lockoutFor_exact by lia. pose proof (lockout_spec_mono f (lr_failures rec + 1)). lia.
    + exists rec. split; [|done]. by case_match; cbn [fst]; rewrite lookup_insert_ne.
  - exists rec. unfold RecordSuccess. rewrite lookup_delete_ne by congruence. done.
  - cbn in Hw. exists rec. split; [|done]. unfold guard_cleanup. apply map_lookup_filter_Some. split; [done|].
    cbn. intros [Hidle _]. pose proof (not_idle now t (lr_lastSeen rec) u Hseen Hw Hu') as Hn.
    apply Z.ltb_ge in Hn. lia.
Qed.

Lemma guard_steps_locked ip f t u evs g :
  5 <= f -> u = t + lockout_spec f -> Forall (within t u) evs -> GSuccess ip ∉ evs ->
  locked ip f t u g -> locked ip f t u (foldl guard_step g evs).
Proof.
  intros Hf Hu. revert g. induction evs as [|ev evs IH]; intros g Hw Hne Hl; [done|].
  inversion Hw; subst. apply not_elem_of_cons in Hne as [? ?]. apply IH; [done..|].
  by apply guard_step_locked.
Qed.

Lemma RecordFailure_locks t ip g g1 lockout :
  RecordFailure t ip g = (g1, lockout) -> 5 <= failureCount ip g1 ->
  lockout = lockout_spec (failureCount ip g1) /\ locked ip (failureCount ip g1) t (t + lockout) g1.
Proof.
  unfold RecordFailure, failureCount. intros H.
  destruct (_ <? loginFailureThreshold) eqn:E; inversion H; subst; rewrite lookup_insert_eq; cbn; intros Hf.
  - apply Z.ltb_lt in E. unfold loginFailureThreshold in E. lia.
  - rewrite lockoutFor_exact by done. split; [done|]. eexists. rewrite lookup_insert_eq. split; [done|]. cbn. lia.
Qed.

(** The failures of [ip] since its last success, in a history. *)
Fixpoint fails_since (ip : string) (n : Z) (evs : list guard_event) : Z :=
  match evs with
  | [] => n
  | GFail _ i :: r => fails_since ip (if decide (i = ip) then n + 1 else n) r
  | GSuccess i :: r => fails_since ip (if decide (i = ip) then 0 else n) r
  | _ :: r => fails_since ip n r
  end.

(** A record counts no more failures than happened, and locks only from the
    threshold on. *)
Definition counted (ip : string) (n : Z) (g : guard) : Prop :=
  0 <= n /\ forall rec, g !! ip = Some rec ->
    0 <= lr_failures rec <= n /\ (lr_failures rec < 5 -> lr_lockedUntil rec = zero_time).

Lemma counted_weaken ip n g g' : counted ip n g -> (forall r, g' !! ip = Some r -> g !! ip = Some r) -> counted ip n g'.
Proof. intros [Hn H] Hs. split; [done|]. intros r Hr. by apply H, Hs. Qed.

Lemma counted_fail ip n now g : counted ip n g -> counted ip (n + 1) (fst (RecordFailure now ip g)).
Proof.
  intros [Hn H]. split; [lia|]. intros rec. unfold RecordFailure. cbv zeta.
  set (r0 := match g !! ip with Some r => _ | None => _ end).
  assert (Hr0 : 0 <= lr_failures r0 <= n /\ (lr_failures r0 < 5 -> lr_lockedUntil r0 = zero_time)).
  { subst r0. destruct (g !! ip) as [r|] eqn:E; [|cbn; lia]. destruct (_ <? _); [cbn; lia|]. by apply H. }
  clearbody r0. destruct (_ <? loginFailureThreshold) eqn:E; cbn [fst]; rewrite lookup_insert_eq; intros [= <-]; cbn.
  - split; [lia|]. intros. apply Hr0. lia.
  - apply Z.ltb_ge in E. unfold loginFailureThreshold in E. lia.
Qed.

Lemma counted_run ip evs n g : counted ip n g -> counted ip (fails_since ip n evs) (foldl guard_step g evs).
Proof.
  revert n g. induction evs as [|ev evs IH]; intros n g Hc; [done|]. cbn [foldl fails_since].
  destruct ev as [now now' i|now i|i|now]; cbn [guard_step].
  - apply IH. eapply counted_weaken; [exact Hc|]. intros r. unfold LockedFor.
    destruct (g !! i) as [r'|]; [|done]. destruct (_ <? _); cbn [fst]; [|done]. apply lookup_delete_Some.
  - destruct (decide (i = ip)) as [->|Hi]; apply IH; [by apply counted_fail|].
    eapply counted_weaken; [exact Hc|]. intros r. unfold RecordFailure.
    destruct (_ <? loginFailureThreshold); cbn [fst]; by rewrite lookup_insert_ne.
  - unfold RecordSuccess. destruct (decide (i = ip)) as [->|Hi]; apply IH.
    + split; [lia|]. intros r. by rewrite lookup_delete_eq.
    + eapply counted_weaken; [exact Hc|]. intros r. by rewrite lookup_delete_ne.
  - apply IH. eapply counted_weaken; [exact Hc|]. intros r Hr. by apply map_lookup_filter_Some in Hr as [? _].
Qed.

(** ** Lemmas: the budget *)

Inductive budget_event : Type :=
| BReserve (now : Z)
| BFail (now : Z).

Definition event_time (ev : budget_event) : Z := match ev with BReserve t | BFail t => t end.

Definition budget_step (b : loginBudget) (ev : budget_event) : loginBudget :=
  match ev with
  | BReserve now => fst (fst (Reserve now b))
  | BFail now => budget_RecordFailure now b
  end.

Definition fail_times (evs : list budget_event) : list Z :=
  omap (fun ev => match ev with BFail t => Some t | BReserve _ => None end) evs.

(** The instants at which the password checks granted with the budget spent
    begin. *)
Fixpoint slots (b : loginBudget) (evs : list budget_event) : list Z :=
  match evs with
  | [] => []
  | ev :: r =>
      (match ev with
       | BReserve now =>
           if (length (lb_failures (prune now b)) <? loginBudgetFailures)%nat then []
           else let '(_, wait, ok) := Reserve now b in if ok then [now + wait] else []
       | BFail _ => []
       end) ++ slots (budget_step b ev) r
  end.

Definition spaced (x y : Z) : Prop := x + loginBudgetSpacing <= y.

Lemma time_Sub_exact t u : 0 <= t - u -> time_Sub t u <= loginBudgetMaxWait -> time_Sub t u = t - u.
Proof. unfold time_Sub, loginBudgetMaxWait, second, int64_min, int64_max. lia. Qed.

Lemma Reserve_spec now b b' wait ok :
  Reserve now b = (b', wait, ok) ->
  lb_failures b' = prune_list now (lb_failures b) /\ lb_next b <= lb_next b' /\
  (ok = true -> 0 <= wait <= loginBudgetMaxWait) /\
  (ok = true -> (loginBudgetFailures <= length (lb_failures b'))%nat ->
     lb_next b <= now + wait /\ lb_next b' = now + wait + loginBudgetSpacing) /\
  (ok = false -> loginBudgetMaxWait < wait /\ lb_next b' = lb_next b).
Proof.
  unfold Reserve. cbn [prune lb_failures lb_next]. destruct (_ <? loginBudgetFailures)%nat eqn:E.
  - apply Nat.ltb_lt in E. intros [= <- <- <-]. cbn.
    split_and!; try done; try (unfold loginBudgetMaxWait, second; lia).
  - apply Nat.ltb_ge in E. set (start := if now <? lb_next b then lb_next b else now).
    assert (Hs : now <= start /\ lb_next b <= start).
    { subst start. destruct (Z.ltb_spec now (lb_next b)); lia. }
    clearbody start. destruct (loginBudgetMaxWait <? time_Sub start now) eqn:Hw; intros [= <- <- <-]; cbn.
    + apply Z.ltb_lt in Hw. split_and!; try done; lia.
    + apply Z.ltb_ge in Hw. rewrite time_Sub_exact in Hw |- * by lia.
      unfold loginBudgetSpacing, second. split_and!; intros; try done; try split; lia.
Qed.

Lemma budget_step_next b ev : lb_next b <= lb_next (budget_step b ev).
Proof.
  destruct ev as [now|now]; cbn [budget_step]; [|cbn; lia].
  destruct (Reserve now b) as [[b' w] ok] eqn:E. apply Reserve_spec in E. cbn. lia.
Qed.

Lemma slots_from b evs : Forall (fun x => lb_next b <= x) (slots b evs) /\ StronglySorted spaced (slots b evs).
Proof.
  revert b. induction evs as [|ev evs IH]; intros b; [split; constructor|]. cbn [slots].
  destruct (IH (budget_step b ev)) as [Hlow Hsort].
  assert (Hlow' : Forall (fun x => lb_next b <= x) (slots (budget_step b ev) evs)).
  { eapply Forall_impl; [|exact Hlow]. pose proof (budget_step_next b ev). cbn. lia. }
  destruct ev as [now|now]; [|done]. destruct (_ <? loginBudgetFailures)%nat eqn:E; [done|].
  cbn [budget_step] in *. destruct (Reserve now b) as [[b' w] ok] eqn:HR.
  destruct ok; [|done]. apply Reserve_spec in HR as (Hf & _ & _ & Hs & _).
  apply Nat.ltb_ge in E. cbn [prune lb_failures] in E. rewrite Hf in Hs. destruct (Hs eq_refl E) as [Hs1 Hs2].
  cbn [fst app] in *. split; [by constructor|]. constructor; [done|].
  eapply Forall_impl; [|exact Hlow]. unfold spaced. intros x Hx. cbn in Hx. lia.
Qed.

(** Values at least 30 seconds apart fill an interval no faster than that. *)
Lemma spaced_count l lo hi :
  StronglySorted spaced l -> Forall (fun x => lo <= x <= hi) l ->
  loginBudgetSpacing * (Z.of_nat (length l) - 1) <= Z.max (- loginBudgetSpacing) (hi - lo).
Proof.
  revert lo. induction l as [|x l IH]; intros lo Hs Hb; [cbn; unfold loginBudgetSpacing, second; lia|].
  apply StronglySorted_inv in Hs as [Hs Hx]. inversion Hb as [|? ? Hxb Hlb]; subst.
  destruct l as [|y l]; [cbn; lia|].
  assert (Hl' : Forall (fun z => x + loginBudgetSpacing <= z <= hi) (y :: l)).
  { apply list.Forall_forall. intros z Hz. rewrite list.Forall_forall in Hx, Hlb. split; [by apply Hx|]. apply Hlb, Hz. }
  specialize (IH (x + loginBudgetSpacing) Hs Hl'). inversion Hl'; subst.
  cbn [length] in IH |- *. unfold loginBudgetSpacing, second in *. lia.
Qed.

Lemma StronglySorted_filter {A} (R : A -> A -> Prop) (P : A -> Prop) `{forall x, Decision (P x)} l :
  StronglySorted R l -> StronglySorted R (filter P l).
Proof.
  induction 1 as [|x l Hs IH Hx]; [constructor|]. rewrite filter_cons. destruct (decide (P x)); [|done].
  constructor; [done|]. rewrite list.Forall_forall in Hx |- *. intros y Hy. apply Hx. by apply list_elem_of_filter in Hy as [_ ?].
Qed.

Lemma filter_all {A} (P : A -> Prop) `{forall x, Decision (P x)} l : Forall P l -> filter P l = l.
Proof. induction 1; [done|]. rewrite filter_cons, decide_True by done. by f_equal. Qed.

Definition in_window (now t : Z) : Prop := now - t <= loginBudgetWindow.

#[export] Instance in_window_dec now t : Decision (in_window now t) := Z_le_dec _ _.

Lemma time_Sub_window now t : (loginBudgetWindow <? time_Sub now t) = negb (bool_decide (in_window now t)).
Proof.
  unfold in_window. destruct (Z.ltb_spec loginBudgetWindow (time_Sub now t)) as [H|H];
    case_bool_decide as H'; try done; exfalso; revert H H';
    unfold time_Sub, loginBudgetWindow, hour, minute, second, int64_min, int64_max; lia.
Qed.

Lemma prune_filter now l : StronglySorted Z.le l -> prune_list now l = filter (in_window now) l.
Proof.
  induction 1 as [|x l Hs IH Hx]; [done|]. cbn [prune_list]. rewrite time_Sub_window, filter_cons.
  case_bool_decide as Hd; rewrite ?decide_True, ?decide_False by done; cbn [negb]; [|done].
  f_equal. symmetry. apply filter_all. rewrite list.Forall_forall in Hx |- *. intros y Hy. specialize (Hx y Hy).
  unfold in_window in *. lia.
Qed.

Lemma filter_in_window now now' (l : list Z) :
  now <= now' -> filter (in_window now') (filter (in_window now) l) = filter (in_window now') l.
Proof.
  intros Hle. rewrite list_filter_filter. apply list_filter_iff. intros t. unfold in_window. split; [tauto|]. split; [done|lia].
Qed.

Lemma StronglySorted_snoc (l : list Z) x :
  StronglySorted Z.le l -> Forall (fun y => y <= x) l -> StronglySorted Z.le (l ++ [x]).
Proof.
  induction 1 as [|y l Hs IH Hy]; intros Hx; [repeat constructor|]. inversion Hx; subst. cbn [app].
  constructor; [by apply IH|]. apply list.Forall_app. split; [done|]. by constructor.
Qed.

Lemma budget_step_failures b ev :
  StronglySorted Z.le (lb_failures b) ->
  lb_failures (budget_step b ev) =
    filter (in_window (event_time ev)) (lb_failures b) ++ fail_times [ev].
Proof.
  intros Hs. rewrite <- prune_filter by done. destruct ev as [now|now]; cbn [budget_step event_time].
  - destruct (Reserve now b) as [[b' w] ok] eqn:E. apply Reserve_spec in E as [E _]. cbn. by rewrite E, app_nil_r.
  - reflexivity.
Qed.

Lemma budget_run_failures evs b now :
  StronglySorted Z.le (lb_failures b) -> StronglySorted Z.le (map event_time evs) ->
  Forall (fun t => t <= now) (map event_time evs) ->
  Forall (fun t => Forall (Z.le t) (map event_time evs)) (lb_failures b) ->
  StronglySorted Z.le (lb_failures (foldl budget_step b evs)) /\
  filter (in_window now) (lb_failures (foldl budget_step b evs))
    = filter (in_window now) (lb_failures b ++ fail_times evs).
Proof.
  revert b. induction evs as [|ev evs IH]; intros b Hb Hevs Hnow Hle; [by rewrite app_nil_r|].
  cbn [map foldl] in *. apply StronglySorted_inv in Hevs as [Hevs Hev]. inversion Hnow as [|? ? Hn Hnow']; subst.
  pose proof (budget_step_failures b ev Hb) as Hf.
  assert (Hold : Forall (fun t => t <= event_time ev) (filter (in_window (event_time ev)) (lb_failures b))).
  { rewrite list.Forall_forall in Hle |- *. intros t Ht. apply list_elem_of_filter in Ht as [_ Ht].
    specialize (Hle t Ht). by inversion Hle. }
  assert (Hs' : StronglySorted Z.le (lb_failures (budget_step b ev))).
  { rewrite Hf. destruct ev; cbn [fail_times]; [rewrite app_nil_r; by apply StronglySorted_filter|].
    apply StronglySorted_snoc; [by apply StronglySorted_filter|done]. }
  assert (Hle' : Forall (fun t => Forall (Z.le t) (map event_time evs)) (lb_failures (budget_step b ev))).
  { rewrite Hf. apply list.Forall_app. split.
    - rewrite list.Forall_forall in Hle |- *. intros t Ht. apply list_elem_of_filter in Ht as [_ Ht].
      specialize (Hle t Ht). by inversion Hle.
    - destruct ev; cbn; [constructor|]. by repeat constructor. }
  destruct (IH _ Hs' Hevs Hnow' Hle') as [Hr Hw]. split; [done|]. rewrite Hw, Hf.
  change (fail_times (ev :: evs)) with (fail_times ([ev] ++ evs)). unfold fail_times. rewrite omap_app.
  rewrite !list.filter_app, filter_in_window by done. by rewrite <- app_assoc.
Qed.

(** ** Lemmas: sessions *)

(** What changes the set of live sessions: a login with the bytes drawn, a
    logout and a password change with the cookie of their request. *)
Inductive auth_event : Type :=
| ELogin (raw : option string) (saved : result unit)
| ELogout (c : cookie) (saved : result unit)
| EChangePassword (c : cookie) (hash : string)
| ESetPasswordHash (hash : string).

Definition auth_step (a : Auth) (ev : auth_event) : Auth :=
  match ev with
  | ELogin raw saved => fst (Login raw saved a)
  | ELogout c saved => fst (Logout c saved a)
  | EChangePassword c hash => ChangePassword c hash a
  | ESetPasswordHash hash => SetPasswordHash hash a
  end.

(** [NewAuth]. *)
Definition NewAuth (hash : string) : Auth := mkAuth hash ∅.

Definition starts (id : string) (ev : auth_event) : Prop :=
  exists raw saved, ev = ELogin (Some raw) saved /\ id = hex_encode raw.

Definition ends (id : string) (ev : auth_event) : Prop :=
  match ev with
  | ELogout (CookieOk _ (Some id')) _ => id' = id
  | EChangePassword c _ => sessionID c <> id
  | _ => False
  end.

Lemma auth_step_live id a ev :
  id ∈ au_sessions (auth_step a ev) <-> starts id ev \/ (id ∈ au_sessions a /\ ~ ends id ev).
Proof.
  unfold starts. destruct ev as [[raw|] saved|[|auth [sid|]] saved|c hash|hash]; cbn.
  - rewrite elem_of_union, elem_of_singleton. naive_solver.
  - naive_solver.
  - naive_solver.
  - rewrite elem_of_difference, elem_of_singleton. naive_solver.
  - naive_solver.
  - rewrite elem_of_filter. split; [intros [-> ?]; right; naive_solver|].
    intros [(? & ? & [=] & _)|[? Hn]]. split; [|done]. apply dec_stable. intros Hne. apply Hn. congruence.
  - naive_solver.
Qed.

Lemma auth_run_live id evs a :
  id ∈ au_sessions (foldl auth_step a evs) <->
  (id ∈ au_sessions a /\ Forall (fun ev => ~ ends id ev) evs) \/
  (exists before ev after, evs = before ++ ev :: after /\ starts id ev /\ Forall (fun ev => ~ ends id ev) after).
Proof.
  revert a. induction evs as [|ev evs IH]; intros a; cbn [foldl].
  - split; [intros; left; split; [done|constructor]|]. intros [[? _]|(before & ? & ? & H & _)]; [done|].
    by destruct before.
  - rewrite IH, auth_step_live. split.
    + intros [[[Hs|[Hl Hn]] Hf]|(before & e & after & -> & Hs & Hf)].
      * right. exists [], ev, evs. done.
      * left. split; [done|]. by constructor.
      * right. exists (ev :: before), e, after. done.
    + intros [[Hl Hf]|(before & e & after & Heq & Hs & Hf)].
      * inversion Hf; subst. left. split; [right|]; done.
      * destruct before as [|e0 before]; simplify_eq/=.
        -- left. split; [left|]; done.
        -- right. by exists before, e, after.
Qed.

(** ** Lemmas: one request *)

Lemma LockedFor_others now now' ip g ip' : ip' <> ip -> fst (LockedFor now now' ip g) !! ip' = g !! ip'.
Proof.
  intros Hne. unfold LockedFor. destruct (g !! ip); [|done]. destruct (_ <? _); [|done].
  cbn [fst]. by rewrite lookup_delete_ne.
Qed.

Lemma LockedFor_nonneg now now' ip g : 0 <= snd (LockedFor now now' ip g).
Proof.
  unfold LockedFor. destruct (g !! ip); [|cbn; lia]. destruct (_ <? _); [cbn; lia|]. cbn [snd].
  destruct (0 <? time_Sub _ _) eqn:E; [apply Z.ltb_lt in E|]; lia.
Qed.

Lemma RecordFailure_others now ip g ip' : ip' <> ip -> fst (RecordFailure now ip g) !! ip' = g !! ip'.
Proof.
  intros Hne. unfold RecordFailure. destruct (_ <? loginFailureThreshold); cbn [fst]; by rewrite lookup_insert_ne.
Qed.

(** From the password check on. *)
Lemma login_finish_outcomes t io verified ip s s' r :
  login_finish t io verified ip s = (s', r) ->
  au_hash (w_auth s') = au_hash (w_auth s) /\
  (forall ip', ip' <> ip -> w_guard s' !! ip' = w_guard s !! ip') /\
  match r with
  | WrongPassword l =>
      verified = false /\ w_auth s' = w_auth s /\ (w_guard s', l) = RecordFailure (c_guard t) ip (w_guard s) /\
      lb_failures (w_budget s') = prune_list (c_budget t) (lb_failures (w_budget s)) ++ [c_budget t]
  | InternalError => verified = true
  | LoggedIn id =>
      verified = true /\ au_sessions (w_auth s') = {[id]} ∪ au_sessions (w_auth s) /\
      w_guard s' !! ip = None /\ w_budget s' = w_budget s
  | _ => False
  end.
Proof.
  unfold login_finish. destruct verified; cbn [negb].
  - assert (Hdel : forall ip', ip' <> ip -> RecordSuccess ip (w_guard s) !! ip' = w_guard s !! ip').
    { intros ip' Hne. unfold RecordSuccess. by rewrite lookup_delete_ne. }
    destruct (s_csrf io) as [[]|e]; [|intros [= <- <-]; done].
    unfold Login. destruct (s_random io) as [raw|]; [|intros [= <- <-]; done].
    destruct (s_save io) as [[]|e]; intros [= <- <-]; cbn; [|done].
    unfold RecordSuccess. by rewrite lookup_delete_eq.
  - pose proof (RecordFailure_others (c_guard t) ip (w_guard s)) as Ho.
    destruct (RecordFailure _ _ _) as [g l]. intros [= <- <-]. done.
Qed.

(** ** The properties *)

(** C21: once a wrong password brings an address to its [f]-th failure in a
    row, [f >= 5], the lockout is exactly [min (2^(f-5) minutes) 15 minutes],
    and until it has passed every attempt from that address is refused before
    its password is looked at, whatever other checks, failures, logins from
    other addresses and sweeps happen meanwhile: only a success of the same
    address already under way lifts it. *)
Theorem lockout_enforced (t : Z) (ip : string) (g g1 : guard) (lockout : Z) (evs : list guard_event)
    (clk : clock) (gone : bool) (b : loginBudget) (a : Auth) :
  RecordFailure t ip g = (g1, lockout) -> 5 <= failureCount ip g1 ->
  Forall (within t (t + lockout)) evs -> GSuccess ip ∉ evs ->
  t <= c_locked clk <= c_until clk -> c_until clk < t + lockout ->
  lockout = lockout_spec (failureCount ip g1) /\
  exists wait, t + lockout - c_until clk <= wait /\ 0 < wait /\
    login_begin clk gone ip (mkWeb (foldl guard_step g1 evs) b a)
    = (mkWeb (foldl guard_step g1 evs) b a, Some (LockedOut wait)).
Proof.
  intros HR Hf Hw Hne Hc1 Hc2. destruct (RecordFailure_locks _ _ _ _ _ HR Hf) as [Hl Hlock].
  split; [done|]. pose proof (lockout_spec_range _ Hf) as Hr.
  destruct (guard_steps_locked ip (failureCount ip g1) t (t + lockout) evs g1 Hf) as (rec & Hrec & _ & Hseen & Hu);
    [lia|done..|].
  unfold login_begin, LockedFor. cbn [w_guard w_budget w_auth]. rewrite Hrec.
  rewrite (not_idle (c_locked clk) t _ (t + lockout)) by lia.
  assert (Hrem : t + lockout - c_until clk <= time_Sub (lr_lockedUntil rec) (c_until clk)).
  { unfold time_Sub, minute, second, int64_min, int64_max in *. lia. }
  exists (time_Sub (lr_lockedUntil rec) (c_until clk)). split; [done|]. split; [lia|].
  assert (Hpos : (0 <? time_Sub (lr_lockedUntil rec) (c_until clk)) = true) by (apply Z.ltb_lt; lia).
  cbv zeta. by rewrite !Hpos.
Qed.

Definition five_fails : guard :=
  foldl guard_step ∅ [GFail 10 "192.168.1.7"; GFail 20 "192.168.1.7"; GFail 30 "192.168.1.7"; GFail 40 "192.168.1.7"].

Lemma lockout_enforced_witness :
  exists wait, 30 * second <= wait /\ 0 < wait /\
    login_begin (mkClock (30 * second) (30 * second + 50) 0 0 0) false "192.168.1.7"
      (mkWeb (foldl guard_step (fst (RecordFailure 50 "192.168.1.7" five_fails)) [GSuccess "192.168.1.8"; GSweep 60])
         (mkBudget [] 0 0) (NewAuth ""))
    = (mkWeb (foldl guard_step (fst (RecordFailure 50 "192.168.1.7" five_fails)) [GSuccess "192.168.1.8"; GSweep 60])
         (mkBudget [] 0 0) (NewAuth ""), Some (LockedOut wait)).
Proof.
  destruct (lockout_enforced 50 "192.168.1.7" five_fails (fst (RecordFailure 50 "192.168.1.7" five_fails)) minute
    [GSuccess "192.168.1.8"; GSweep 60] (mkClock (30 * second) (30 * second + 50) 0 0 0) false
    (mkBudget [] 0 0) (NewAuth "")) as [_ (wait & H1 & H2 & H3)].
  - reflexivity.
  - by vm_compute.
  - apply List.Forall_cons; [exact I|]. apply List.Forall_cons; [|apply List.Forall_nil].
    cbn. unfold minute, second. lia.
  - intros H. apply elem_of_cons in H as [H|H]; [discriminate H|].
    apply elem_of_cons in H as [H|H]; [discriminate H|]. by apply elem_of_nil in H.
  - cbn. unfold second. lia.
  - cbn. unfold minute, second. lia.
  - exists wait. split; [|split; [exact H2|exact H3]]. cbn in H1. unfold minute, second in *. lia.
Defined.

(** an address is locked out only by its own failures: after any history
    of checks, failures, successes and sweeps, with any clock readings, an
    address with fewer than five wrong passwords since its last successful
    login may attempt at once, so no device can lock another out. *)
Theorem lockout_needs_own_failures (ip : string) (evs : list guard_event) (now now' : Z) :
  fails_since ip 0 evs < 5 -> zero_time <= now' ->
  snd (LockedFor now now' ip (foldl guard_step ∅ evs)) = 0.
Proof.
  intros Hn Hz. destruct (counted_run ip evs 0 ∅) as [_ Hc].
  { split; [lia|]. intros rec. by rewrite lookup_empty. }
  unfold LockedFor. destruct (_ !! ip) as [rec|] eqn:E; [|done]. destruct (Hc rec eq_refl) as [Hf Hl].
  rewrite Hl by lia. destruct (_ <? _); [done|]. cbn [snd].
  rewrite (proj2 (Z.ltb_ge _ _)); [done|]. unfold time_Sub, int64_min, int64_max. lia.
Qed.

Lemma lockout_needs_own_failures_witness :
  snd (LockedFor 100 100 "192.168.1.8"
    (foldl guard_step ∅ [GFail 1 "192.168.1.7"; GFail 2 "192.168.1.8"; GFail 3 "192.168.1.7"; GFail 4 "192.168.1.7";
       GFail 5 "192.168.1.7"; GFail 6 "192.168.1.7"])) = 0.
Proof. apply (lockout_needs_own_failures "192.168.1.8" _ 100 100); vm_compute; congruence. Defined.

(** the global budget counts what it promises.  After any history with a
    clock that does not go back, an attempt at [now] goes ahead at once when
    fewer than 30 passwords failed in the hour before, on whatever addresses;
    otherwise it waits at most 30 seconds, or is refused and told a longer
    wait. *)
Theorem budget_counts_last_hour (evs : list budget_event) (now nxt warned : Z) :
  StronglySorted Z.le (map event_time evs ++ [now]) ->
  let b := foldl budget_step (mkBudget [] nxt warned) evs in
  let recent := filter (in_window now) (fail_times evs) in
  let '(b', wait, ok) := Reserve now b in
  lb_failures b' = recent /\
  ((length recent < 30)%nat -> wait = 0 /\ ok = true) /\
  (ok = true -> 0 <= wait <= 30 * second) /\ (ok = false -> 30 * second < wait /\ lb_next b' = lb_next b).
Proof.
  intros Hs b recent.
  assert (Hparts : StronglySorted Z.le (map event_time evs) /\ Forall (fun t => t <= now) (map event_time evs)).
  { revert Hs. clear. induction (map event_time evs) as [|x l IH]; [split; constructor|]. cbn [app].
    intros [Hs Hx]%StronglySorted_inv. destruct (IH Hs). apply list.Forall_app in Hx as [Hx Hn].
    inversion Hn; subst. split; constructor; done. }
  destruct Hparts as [Hsort Hnow].
  destruct (budget_run_failures evs (mkBudget [] nxt warned) now) as [Hsb Hwin]; [constructor|done|done|constructor|].
  fold b in Hsb, Hwin. cbn [lb_failures app] in Hwin.
  destruct (Reserve now b) as [[b' wait] ok] eqn:HR. pose proof HR as HR'.
  apply Reserve_spec in HR' as (Hf & _ & Hok & _ & Hno). rewrite prune_filter in Hf by done.
  split; [by rewrite Hf|]. split; [|done]. intros Hlen. revert HR. unfold Reserve. cbn [prune lb_failures].
  rewrite prune_filter, Hwin by done. fold recent. rewrite (proj2 (Nat.ltb_lt _ _)); [|exact Hlen].
  by intros [= _ <- <-].
Qed.

Lemma budget_counts_last_hour_witness :
  let '(b', wait, ok) := Reserve 200 (foldl budget_step (mkBudget [] 0 0) (map BFail (repeat 100%Z 30))) in
  lb_failures b' = filter (in_window 200) (fail_times (map BFail (repeat 100%Z 30))) /\
  ((length (filter (in_window 200) (fail_times (map BFail (repeat 100%Z 30)))) < 30)%nat -> wait = 0 /\ ok = true) /\
  (ok = true -> 0 <= wait <= 30 * second) /\
  (ok = false -> 30 * second < wait /\ lb_next b' = lb_next (foldl budget_step (mkBudget [] 0 0) (map BFail (repeat 100%Z 30)))).
Proof.
  apply (budget_counts_last_hour (map BFail (repeat 100%Z 30)) 200 0 0).
  repeat first [apply SSorted_cons | apply SSorted_nil | apply List.Forall_cons | apply List.Forall_nil | (vm_compute; congruence)].
Defined.

(** while the budget is spent the password checks granted, over every
    address and in any history, begin at least 30 seconds apart; so at most
    one more than [d / 30s] of them begin in any stretch of length [d]. *)
Theorem spent_budget_spaces_checks (evs : list budget_event) (b : loginBudget) :
  StronglySorted spaced (slots b evs) /\
  forall lo hi, lo <= hi ->
    loginBudgetSpacing * (Z.of_nat (length (filter (fun x => lo <= x <= hi) (slots b evs))) - 1) <= hi - lo.
Proof.
  destruct (slots_from b evs) as [_ Hs]. split; [done|]. intros lo hi Hle.
  pose proof (spaced_count (filter (fun x => lo <= x <= hi) (slots b evs)) lo hi) as Hc.
  assert (Hin : Forall (fun x => lo <= x <= hi) (filter (fun x => lo <= x <= hi) (slots b evs))).
  { apply list.Forall_forall. intros x Hx. by apply list_elem_of_filter in Hx as [? _]. }
  specialize (Hc (StronglySorted_filter _ _ _ Hs) Hin). unfold loginBudgetSpacing, second in *. lia.
Qed.

(** C22: a cookie authenticates exactly when it says so and its session is one
    that some login opened and nothing has ended since: neither a logout with
    a cookie of that session nor a password change made from another one.
    So every copy of a cookie dies with its session, and a cookie without a
    session id is never accepted. *)
Theorem session_live_iff (hash : string) (evs : list auth_event) (c : cookie) :
  Forall (fun ev => match ev with ELogin (Some raw) _ => String.length raw = 32%nat | _ => True end) evs ->
  IsAuthenticated c (foldl auth_step (NewAuth hash) evs) = true <->
  exists id before ev after, c = CookieOk (Some true) (Some id) /\
    evs = before ++ ev :: after /\ starts id ev /\ Forall (fun e => ~ ends id e) after.
Proof.
  intros Hraw. destruct c as [|[[]|] sid]; [naive_solver| |naive_solver..]. cbn [IsAuthenticated].
  rewrite bool_decide_eq_true, auth_run_live. cbn [NewAuth au_sessions].
  assert (Hne : forall before ev after, evs = before ++ ev :: after -> ~ starts "" ev).
  { intros before ev after -> (raw & saved & -> & Hid). apply list.Forall_app in Hraw as [_ Hraw].
    inversion Hraw as [|? ? Hlen _]; subst. cbn in Hlen.
    pose proof (hex_encode_length raw) as Hl. rewrite <- Hid, Hlen in Hl. discriminate Hl. }
  split.
  - intros [[H _]|(before & ev & after & Heq & Hs & Hf)]; [by apply elem_of_empty in H|].
    destruct sid as [id|]; [|by destruct (Hne _ _ _ Heq)]. exists id, before, ev, after. done.
  - intros (id & before & ev & after & [= ->] & Heq & Hs & Hf). right. by exists before, ev, after.
Qed.

Lemma session_live_iff_witness :
  let raw := String.string_of_list_ascii (repeat "a"%char 32) in
  IsAuthenticated (CookieOk (Some true) (Some (hex_encode raw)))
    (foldl auth_step (NewAuth "h") [ELogin (Some raw) (Ok tt); EChangePassword CookieErr "h2"]) = true <->
  exists id before ev after, CookieOk (Some true) (Some (hex_encode raw)) = CookieOk (Some true) (Some id) /\
    [ELogin (Some raw) (Ok tt); EChangePassword CookieErr "h2"] = before ++ ev :: after /\
    starts id ev /\ Forall (fun e => ~ ends id e) after.
Proof.
  intros raw. apply (session_live_iff "h" [ELogin (Some raw) (Ok tt); EChangePassword CookieErr "h2"]).
  apply List.Forall_cons; [reflexivity|]. apply List.Forall_cons; [exact I|apply List.Forall_nil].
Defined.

(** one login request, on every branch.  A session is granted only to an
    address that is not locked out, in a slot of the budget, with a password
    the stored hash accepts, and it clears the address's record; a wrong
    password counts once in the address's record and once in the budget; every
    refusal leaves the sessions as they were, no request changes the stored
    hash, and none changes another address's record. *)
Theorem handleLogin_outcomes (bcrypt_compare : string -> string -> bool)
    (t : clock) (gone : bool) (io : session_io) (ip password : string) (s s' : web) (r : login_reply) :
  handleLogin bcrypt_compare t gone io ip password s = (s', r) ->
  au_hash (w_auth s') = au_hash (w_auth s) /\
  (forall ip', ip' <> ip -> w_guard s' !! ip' = w_guard s !! ip') /\
  let '(g, locked) := LockedFor (c_locked t) (c_until t) ip (w_guard s) in
  let '(b, wait, granted) := Reserve (c_reserve t) (w_budget s) in
  match r with
  | LockedOut w => w = locked /\ 0 < w /\ w_budget s' = w_budget s /\ w_auth s' = w_auth s
  | BudgetSpent w => locked = 0 /\ granted = false /\ w = wait /\ s' = mkWeb g b (w_auth s)
  | ClientGone => locked = 0 /\ granted = true /\ gone = true /\ s' = mkWeb g b (w_auth s)
  | WrongPassword l =>
      locked = 0 /\ granted = true /\ bcrypt_compare (au_hash (w_auth s)) password = false /\
      w_auth s' = w_auth s /\ (w_guard s', l) = RecordFailure (c_guard t) ip g /\
      lb_failures (w_budget s') = prune_list (c_budget t) (lb_failures b) ++ [c_budget t]
  | InternalError => locked = 0 /\ granted = true /\ bcrypt_compare (au_hash (w_auth s)) password = true
  | LoggedIn id =>
      locked = 0 /\ granted = true /\ bcrypt_compare (au_hash (w_auth s)) password = true /\
      au_sessions (w_auth s') = {[id]} ∪ au_sessions (w_auth s) /\ w_guard s' !! ip = None /\ w_budget s' = b
  end.
Proof.
  unfold handleLogin, login_begin, awaitLoginBudget, VerifyPassword. pose proof (LockedFor_others (c_locked t) (c_until t) ip (w_guard s)) as Ho.
  destruct (LockedFor _ _ _ _) as [g locked] eqn:HL. cbn [fst] in Ho.
  assert (Hl0 : (0 <? locked) = false -> locked = 0).
  { pose proof (LockedFor_nonneg (c_locked t) (c_until t) ip (w_guard s)) as Hn. rewrite HL in Hn. cbn in Hn.
    intros H. apply Z.ltb_ge in H. lia. }
  destruct (0 <? locked) eqn:Hlock.
  - destruct (Reserve _ _) as [[b wait] granted]. intros [= <- <-]. cbn. apply Z.ltb_lt in Hlock. done.
  - specialize (Hl0 eq_refl). destruct (Reserve _ _) as [[b wait] granted].
    destruct granted; cbn [negb]; [|intros [= <- <-]; done].
    destruct (wait =? 0); [|destruct gone; [intros [= <- <-]; done|]]; cbn [w_auth];
      intros Hfin; apply login_finish_outcomes in Hfin as (Hh & Hg & Hr); cbn [w_auth w_guard w_budget] in *;
      (split; [done|]); (split; [intros ip' Hne; rewrite Hg by done; by apply Ho|]);
      destruct r; naive_solver.
Qed.

Lemma handleLogin_outcomes_witness :
  let raw := String.string_of_list_ascii (repeat "a"%char 32) in
  let s := mkWeb ∅ (mkBudget [] 0 0) (NewAuth "h") in
  let out := handleLogin (fun h p => String.eqb h p) (mkClock 1 1 1 1 1) false
               {| s_csrf := Ok tt; s_random := Some raw; s_save := Ok tt |} "192.168.1.7" "h" s in
  au_sessions (w_auth (fst out)) = {[hex_encode raw]} ∪ ∅ /\ w_guard (fst out) !! "192.168.1.7" = None.
Proof.
  intros raw s out.
  destruct (handleLogin_outcomes (fun h p => String.eqb h p) (mkClock 1 1 1 1 1) false
    {| s_csrf := Ok tt; s_random := Some raw; s_save := Ok tt |} "192.168.1.7" "h" s (fst out) (LoggedIn (hex_encode raw)))
    as (_ & _ & H); [reflexivity|].
  destruct H as (_ & _ & _ & Hs & Hg & _). split; [exact Hs|exact Hg].
Defined.
