(* ===== verification/Gate.v ===== *)
(** * internal/web: who reaches a handler

    middleware.go (session, CSRF and LAN checks, body limits, headers), the
    chain NewServer wraps around the router, and the route table of
    [Server.routes] with the matching rules of [http.ServeMux].  The rate
    limiters' verdicts are arguments; their buckets are modelled in
    RateLimit. *)

From S2P Require Import Prelude GoStrings GoNet GoIP Encoding ConfigTypes AgentRules FirewallRender WebAuth.

Local Open Scope Z_scope.
Local Open Scope go_scope.

(** ** Requests *)

Inductive method : Type := GET | HEAD | POST | PUT | PATCH | DELETE | OPTIONS | OTHER.

#[export] Instance method_eq_dec : EqDecision method.
Proof. solve_decision. Defined.

(** What the middleware and the router look at.  [rq_segments] are the
    unescaped segments of the path; [rq_redirect] is the path the router
    redirects to when the path is not in clean form. *)
Record request : Type := mkRequest {
  rq_method : method;
  rq_segments : list string;
  rq_slash : bool;
  rq_redirect : option string;
  rq_remoteAddr : string;
  rq_csrfCookie : option string;
  rq_csrfHeader : string;
  rq_mediaType : string;
  rq_multipart : bool;
  rq_formToken : string;
  rq_session : cookie;
  rq_hx : bool;
  rq_accept : string }.

(** What the client gets: an error page, a redirect, an htmx redirect, or
    what the named handler writes. *)
Inductive reply : Type :=
| RError (status : Z) (key : string)
| RRedirect (status : Z) (location : string)
| RHXRedirect (status : Z) (location : string)
| RStatus (status : Z)
| RServe (handler : string).

(** ** middleware.go *)

Definition AuthRequired (auth : Auth) (next : reply) (r : request) : reply :=
  if negb (IsAuthenticated (rq_session r) auth)
  then if rq_hx r then RHXRedirect 401 "/login"
       else if Contains (rq_accept r) "text/event-stream" then RStatus 401
       else RRedirect 303 "/login"
  else next.

Definition maxRequestBodyBytes : Z := Z.shiftl 1 20.
Definition maxImportBodyBytes : Z := Z.shiftl 64 20.

Definition requestBodyLimit (r : request) : Z :=
  if bool_decide (rq_method r = POST) && bool_decide (rq_segments r = ["system"; "backup"; "import"]) && negb (rq_slash r)
  then maxImportBodyBytes else maxRequestBodyBytes.

(** The token of the form; [rq_multipart] says whether a multipart body parses
    within the limits. *)
Definition formCSRFToken (r : request) : string :=
  if String.eqb (rq_mediaType r) "multipart/form-data" && negb (rq_multipart r) then "" else rq_formToken r.

(** [rotateCSRFToken] on what the random source gives. *)
Definition rotateCSRFToken (rand : result string) : result string :=
  let? b := wrap_err "generate csrf token: %w" [] rand in Ok (hex_encode b).

Definition getOrCreateCSRFToken (rand : result string) (r : request) : result string :=
  match rq_csrfCookie r with Some v => Ok v | None => rotateCSRFToken rand end.

Definition CSRFProtect (rand : result string) (next : reply) (r : request) : reply :=
  if bool_decide (rq_method r = GET) || bool_decide (rq_method r = HEAD)
  then match getOrCreateCSRFToken rand r with
       | Err _ => RError 500 "error.internal"
       | Ok _ => next
       end
  else match rq_csrfCookie r with
  | None => RError 403 "error.csrfMissing"
  | Some cookie =>
      let token := if String.eqb (rq_csrfHeader r) "" then formCSRFToken r else rq_csrfHeader r in
      if String.eqb token "" || negb (String.eqb token cookie) then RError 403 "error.csrfInvalid" else next
  end.

Definition clientIP (r : request) : string :=
  match SplitHostPort (rq_remoteAddr r) with Ok (host, _) => host | Err _ => rq_remoteAddr r end.

Definition LANOnly (allowedNets : list IPNet) (next : reply) (r : request) : reply :=
  match ParseIP (clientIP r) with
  | None => RError 403 "error.forbidden"
  | Some ip =>
      if IsLoopback ip then next
      else if existsb (fun n => Contains_ip n ip) allowedNets then next
      else RError 403 "error.forbidden"
  end.

(** The limiter's middleware, on its verdict. *)
Definition limited (allowed : bool) (next : reply) : reply :=
  if allowed then next else RError 429 "error.tooManyRequests".

(** The headers every handler's response starts with. *)
Definition SecurityHeaders : list (string * string) :=
  [("Content-Security-Policy", "default-src 'self'; script-src 'self'; style-src 'self' 'unsafe-inline'; img-src 'self' data:; connect-src 'self'; font-src 'self'; base-uri 'self'; form-action 'self'; frame-ancestors 'none'");
   ("X-Content-Type-Options", "nosniff"); ("X-Frame-Options", "DENY");
   ("Referrer-Policy", "strict-origin-when-cross-origin"); ("Cache-Control", "no-store")].

(** The status the request log carries: the first one written, 200 when a body
    or nothing was written. *)
Inductive write_event : Type := WHeader (code : Z) | WBody.
Record statusRecorder : Type := mkRecorder { sr_status : Z; sr_written : bool }.
Definition recorder_step (s : statusRecorder) (ev : write_event) : statusRecorder :=
  if sr_written s then s
  else match ev with WHeader code => mkRecorder code true | WBody => mkRecorder 200 true end.
Definition statusOrDefault (s : statusRecorder) : Z := if sr_written s then sr_status s else 200.

(** ** The routes of server.go *)

Inductive segment : Type := Lit (s : string) | Wild.
Inductive extent : Type := Exact | Root | Subtree.
Inductive limiter : Type := LoginLimiter | ProbeLimiter.

#[export] Instance extent_eq_dec : EqDecision extent.
Proof. solve_decision. Defined.

Record route : Type := mkRoute {
  rt_method : method; rt_segments : list segment; rt_extent : extent; rt_authed : bool;
  rt_limiter : option limiter; rt_handler : string }.

Definition routes : list route :=
  [
   mkRoute GET [Lit "static"] Subtree false None "static";
   mkRoute GET [Lit "login"] Exact false None "handleLoginPage";
   mkRoute POST [Lit "login"] Exact false (Some LoginLimiter) "handleLogin";
   mkRoute POST [Lit "logout"] Exact false None "handleLogout";
   mkRoute POST [Lit "settings"; Lit "lang"] Exact false None "handleLangSwitch";
   mkRoute GET [] Root true None "dashboard.HandlePage";
   mkRoute GET [Lit "events"; Lit "stats"] Exact true None "sse.ServeHTTP";
   mkRoute GET [Lit "events"; Lit "qos"] Exact true None "qosSse.ServeHTTP";
   mkRoute GET [Lit "settings"] Exact true None "settings.HandleSettingsPage";
   mkRoute POST [Lit "settings"; Lit "web-password"] Exact true None "settings.HandleChangeWebPassword";
   mkRoute POST [Lit "settings"; Lit "root-password"] Exact true None "settings.HandleChangeRootPassword";
   mkRoute POST [Lit "settings"; Lit "hostname"] Exact true None "settings.HandleUpdateHostname";
   mkRoute POST [Lit "settings"; Lit "timezone"] Exact true None "settings.HandleUpdateTimezone";
   mkRoute POST [Lit "settings"; Lit "tls"; Lit "regenerate"] Exact true None "settings.HandleRegenerateTLS";
   mkRoute POST [Lit "settings"; Lit "tls"; Lit "mode"] Exact true None "settings.HandleSetTLSMode";
   mkRoute GET [Lit "settings"; Lit "tls"; Lit "ca"] Exact true None "settings.HandleDownloadMkcertCA";
   mkRoute POST [Lit "settings"; Lit "tls"; Lit "acme"] Exact true None "settings.HandleConfigureACME";
   mkRoute POST [Lit "system"; Lit "reboot"] Exact true None "settings.HandleReboot";
   mkRoute POST [Lit "system"; Lit "factory-reset"] Exact true None "settings.HandleFactoryReset";
   mkRoute GET [Lit "system"; Lit "backup"; Lit "export"] Exact true None "settings.HandleExport";
   mkRoute POST [Lit "system"; Lit "backup"; Lit "import"] Exact true None "settings.HandleImport";
   mkRoute GET [Lit "backup"] Exact true None "backuph.HandleBackupPage";
   mkRoute POST [Lit "backup"; Lit "schedule"] Exact true None "backuph.HandleSaveSchedule";
   mkRoute POST [Lit "backup"; Lit "target"] Exact true None "backuph.HandleAddTarget";
   mkRoute DELETE [Lit "backup"; Lit "target"; Wild] Exact true None "backuph.HandleDeleteTarget";
   mkRoute POST [Lit "backup"; Lit "run"] Exact true None "backuph.HandleRunNow";
   mkRoute GET [Lit "backup"; Lit "history"] Exact true None "backuph.HandleHistory";
   mkRoute GET [Lit "system"; Lit "update"; Lit "check"] Exact true None "settings.HandleCheckUpdate";
   mkRoute POST [Lit "system"; Lit "update"; Lit "apply"] Exact true None "settings.HandleApplyUpdate";
   mkRoute POST [Lit "system"; Lit "update"; Lit "confirm"] Exact true None "settings.HandleConfirmUpdate";
   mkRoute POST [Lit "system"; Lit "update"; Lit "rollback"] Exact true None "settings.HandleRollbackUpdate";
   mkRoute GET [Lit "api"; Lit "version"] Exact false None "settings.HandleVersion";
   mkRoute GET [Lit "metrics"] Exact false None "metricsh.HandleMetrics";
   mkRoute GET [Lit "network"] Exact true None "network.HandlePage";
   mkRoute POST [Lit "network"; Lit "pppoe"; Lit "connect"] Exact true None "pppoe.HandleConnect";
   mkRoute POST [Lit "network"; Lit "pppoe"; Lit "disconnect"] Exact true None "pppoe.HandleDisconnect";
   mkRoute POST [Lit "network"; Lit "pppoe"; Lit "sniff"; Lit "start"] Exact true None "pppoe.HandleSniffStart";
   mkRoute POST [Lit "network"; Lit "pppoe"; Lit "sniff"; Lit "stop"] Exact true None "pppoe.HandleSniffStop";
   mkRoute POST [Lit "network"; Lit "first-boot"; Lit "complete"] Exact true None "network.HandleCompleteFirstBoot";
   mkRoute POST [Lit "network"; Lit "interface"] Exact true None "network.HandleSetInterface";
   mkRoute DELETE [Lit "network"; Lit "interface"; Wild] Exact true None "network.HandleRemoveInterface";
   mkRoute POST [Lit "network"; Lit "usb"; Lit "enable"] Exact true None "network.HandleUSBEnable";
   mkRoute POST [Lit "network"; Lit "usb"; Lit "disable"] Exact true None "network.HandleUSBDisable";
   mkRoute POST [Lit "network"; Lit "usb"; Lit "auto-failover"] Exact true None "network.HandleUSBAutoFailover";
   mkRoute POST [Lit "network"; Lit "usb"; Lit "activate"] Exact true None "network.HandleUSBActivate";
   mkRoute POST [Lit "network"; Lit "usb"; Lit "deactivate"] Exact true None "network.HandleUSBDeactivate";
   mkRoute GET [Lit "network"; Lit "healthcheck"; Lit "status"] Exact true None "health.HandleStatus";
   mkRoute POST [Lit "network"; Lit "healthcheck"; Wild; Lit "reset"] Exact true None "health.HandleReset";
   mkRoute POST [Lit "network"; Lit "vlan"] Exact true None "vlan.HandleAdd";
   mkRoute DELETE [Lit "network"; Lit "vlan"; Wild] Exact true None "vlan.HandleDelete";
   mkRoute GET [Lit "firewall"] Exact true None "firewall.HandlePage";
   mkRoute POST [Lit "firewall"; Lit "apply"] Exact true None "firewall.HandleApply";
   mkRoute POST [Lit "firewall"; Lit "confirm"] Exact true None "firewall.HandleConfirm";
   mkRoute POST [Lit "firewall"; Lit "rollback"] Exact true None "firewall.HandleRollback";
   mkRoute POST [Lit "firewall"; Lit "ttl-fix"] Exact true None "firewall.HandleSetTTLFix";
   mkRoute POST [Lit "firewall"; Lit "port-forwards"] Exact true None "firewall.HandleAddPortForward";
   mkRoute DELETE [Lit "firewall"; Lit "port-forwards"; Wild] Exact true None "firewall.HandleDeletePortForward";
   mkRoute POST [Lit "firewall"; Lit "open-ports"] Exact true None "firewall.HandleAddOpenPort";
   mkRoute DELETE [Lit "firewall"; Lit "open-ports"; Wild] Exact true None "firewall.HandleDeleteOpenPort";
   mkRoute POST [Lit "firewall"; Lit "open-ports"; Wild; Lit "toggle"] Exact true None "firewall.HandleToggleOpenPort";
   mkRoute POST [Lit "firewall"; Lit "rules"] Exact true None "firewall.HandleAddRule";
   mkRoute DELETE [Lit "firewall"; Lit "rules"; Wild] Exact true None "firewall.HandleDeleteRule";
   mkRoute POST [Lit "firewall"; Lit "rules"; Wild; Lit "toggle"] Exact true None "firewall.HandleToggleRule";
   mkRoute GET [Lit "dns"] Exact true None "dns.HandlePage";
   mkRoute POST [Lit "dns"; Lit "clear-log"] Exact true None "dns.HandleClearLog";
   mkRoute POST [Lit "dns"; Lit "blocklist"; Lit "update"] Exact true None "dns.HandleUpdateBlocklist";
   mkRoute POST [Lit "dns"; Lit "dot"] Exact true None "dns.HandleSaveDoT";
   mkRoute POST [Lit "dns"; Lit "dot"; Lit "probe"] Exact true (Some ProbeLimiter) "dns.HandleProbeDoT";
   mkRoute POST [Lit "dns"; Lit "doh"; Lit "probe"] Exact true (Some ProbeLimiter) "dns.HandleProbeDoH";
   mkRoute POST [Lit "dns"; Lit "records"] Exact true None "dns.HandleAddRecord";
   mkRoute DELETE [Lit "dns"; Lit "records"; Wild] Exact true None "dns.HandleDeleteRecord";
   mkRoute GET [Lit "dhcp"] Exact true None "dhcp.HandlePage";
   mkRoute POST [Lit "dhcp"; Lit "static"] Exact true None "dhcp.HandleAddStatic";
   mkRoute DELETE [Lit "dhcp"; Lit "static"; Wild] Exact true None "dhcp.HandleDeleteStatic";
   mkRoute GET [Lit "ipv6"] Exact true None "ipv6.HandlePage";
   mkRoute POST [Lit "ipv6"; Lit "save"] Exact true None "ipv6.HandleSave";
   mkRoute POST [Lit "ipv6"; Lit "renew"] Exact true None "ipv6.HandleRenew";
   mkRoute POST [Lit "ipv6"; Lit "release"] Exact true None "ipv6.HandleRelease";
   mkRoute POST [Lit "ipv6"; Lit "start"] Exact true None "ipv6.HandleStart";
   mkRoute POST [Lit "ipv6"; Lit "stop"] Exact true None "ipv6.HandleStop";
   mkRoute POST [Lit "ipv6"; Lit "tunnel"; Lit "update"] Exact true None "ipv6.HandleTunnelUpdateNow";
   mkRoute POST [Lit "ipv6"; Lit "subnet-map"] Exact true None "ipv6.HandleSubnetMap";
   mkRoute GET [Lit "qos"] Exact true None "qos.HandlePage";
   mkRoute POST [Lit "qos"; Lit "apply"] Exact true None "qos.HandleApply";
   mkRoute POST [Lit "qos"; Lit "clear"] Exact true None "qos.HandleClear";
   mkRoute GET [Lit "vpn"] Exact true None "vpn.HandlePage";
   mkRoute POST [Lit "vpn"; Lit "server"; Lit "peer"] Exact true None "vpn.HandleAddPeer";
   mkRoute GET [Lit "vpn"; Lit "server"; Lit "peer"; Wild; Lit "config"] Exact true None "vpn.HandleDownloadPeerConfig";
   mkRoute DELETE [Lit "vpn"; Lit "server"; Lit "peer"; Wild] Exact true None "vpn.HandleRemovePeer";
   mkRoute POST [Lit "vpn"; Lit "server"; Lit "start"] Exact true None "vpn.HandleServerStart";
   mkRoute POST [Lit "vpn"; Lit "server"; Lit "stop"] Exact true None "vpn.HandleServerStop";
   mkRoute POST [Lit "vpn"; Lit "client"; Wild; Lit "connect"] Exact true None "vpn.HandleConnectClient";
   mkRoute POST [Lit "vpn"; Lit "client"; Wild; Lit "disconnect"] Exact true None "vpn.HandleDisconnectClient";
   mkRoute GET [Lit "vpn"; Lit "s2s"] Exact true None "vpn.HandleS2SWizardPage";
   mkRoute POST [Lit "vpn"; Lit "s2s"; Lit "invite"] Exact true None "vpn.HandleS2SInvite";
   mkRoute POST [Lit "vpn"; Lit "s2s"; Lit "join"] Exact true None "vpn.HandleS2SJoin";
   mkRoute POST [Lit "vpn"; Lit "s2s"; Lit "finalize"] Exact true None "vpn.HandleS2SFinalize";
   mkRoute DELETE [Lit "vpn"; Lit "s2s"; Wild] Exact true None "vpn.HandleS2SCancel";
   mkRoute GET [Lit "vpn"; Lit "s2s"; Wild; Lit "health"] Exact true None "vpn.HandleS2SHealth";
   mkRoute POST [Lit "vpn"; Lit "s2s"; Wild; Lit "reachability"] Exact true None "vpn.HandleS2SReachability";
   mkRoute GET [Lit "openvpn"] Exact true None "ovpn.HandlePage";
   mkRoute POST [Lit "openvpn"; Lit "init-pki"] Exact true None "ovpn.HandleInitPKI";
   mkRoute POST [Lit "openvpn"; Lit "server"; Lit "start"] Exact true None "ovpn.HandleServerStart";
   mkRoute POST [Lit "openvpn"; Lit "server"; Lit "stop"] Exact true None "ovpn.HandleServerStop";
   mkRoute POST [Lit "openvpn"; Lit "server"; Lit "client"] Exact true None "ovpn.HandleAddClient";
   mkRoute DELETE [Lit "openvpn"; Lit "server"; Lit "client"; Wild] Exact true None "ovpn.HandleRevokeClient";
   mkRoute GET [Lit "openvpn"; Lit "server"; Lit "client"; Wild; Lit "config"] Exact true None "ovpn.HandleDownloadOVPN";
   mkRoute POST [Lit "openvpn"; Lit "client"] Exact true None "ovpn.HandleAddOutboundClient";
   mkRoute POST [Lit "openvpn"; Lit "client"; Wild; Lit "connect"] Exact true None "ovpn.HandleConnectOutbound";
   mkRoute POST [Lit "openvpn"; Lit "client"; Wild; Lit "disconnect"] Exact true None "ovpn.HandleDisconnectOutbound";
   mkRoute GET [Lit "routing"] Exact true None "routing.HandlePage";
   mkRoute POST [Lit "routing"; Lit "policy"] Exact true None "routing.HandleAddPolicy";
   mkRoute DELETE [Lit "routing"; Lit "policy"; Wild] Exact true None "routing.HandleDeletePolicy";
   mkRoute POST [Lit "routing"; Lit "reorder"] Exact true None "routing.HandleReorder";
   mkRoute GET [Lit "nas"] Exact true None "nas.HandlePage";
   mkRoute POST [Lit "nas"; Lit "shares"] Exact true None "nas.HandleAddShare";
   mkRoute DELETE [Lit "nas"; Lit "shares"; Wild] Exact true None "nas.HandleDeleteShare";
   mkRoute POST [Lit "nas"; Lit "m3u"; Lit "sync"] Exact true None "nas.HandleSyncM3U";
   mkRoute POST [Lit "nas"; Lit "m3u"; Lit "discover-groups"] Exact true None "nas.HandleDiscoverGroups";
   mkRoute GET [Lit "storage"] Exact true None "storageh.HandlePage";
   mkRoute GET [Lit "syslog"] Exact true None "syslogh.HandlePage";
   mkRoute POST [Lit "syslog"; Lit "server"] Exact true None "syslogh.HandleSaveServerConfig";
   mkRoute POST [Lit "syslog"; Lit "client"] Exact true None "syslogh.HandleSaveClientConfig";
   mkRoute POST [Lit "syslog"; Lit "client"; Lit "facilities"] Exact true None "syslogh.HandleAddFacility";
   mkRoute DELETE [Lit "syslog"; Lit "client"; Lit "facilities"; Wild] Exact true None "syslogh.HandleRemoveFacility";
   mkRoute GET [Lit "ntp"] Exact true None "ntph.HandlePage";
   mkRoute POST [Lit "ntp"; Lit "force-sync"] Exact true None "ntph.HandleForceSync";
   mkRoute POST [Lit "ntp"; Lit "sources"] Exact true None "ntph.HandleAddSource";
   mkRoute DELETE [Lit "ntp"; Lit "sources"; Wild] Exact true None "ntph.HandleRemoveSource";
   mkRoute POST [Lit "ntp"; Lit "allow"] Exact true None "ntph.HandleAddAllowSubnet";
   mkRoute DELETE [Lit "ntp"; Lit "allow"; Wild] Exact true None "ntph.HandleRemoveAllowSubnet";
   mkRoute POST [Lit "ntp"; Lit "settings"] Exact true None "ntph.HandleSaveSettings"].

(** A GET pattern serves HEAD as well. *)
Definition method_ok (m : method) (r : route) : bool :=
  bool_decide (rt_method r = m) || (bool_decide (rt_method r = GET) && bool_decide (m = HEAD)).

Fixpoint segments_match (ps : list segment) (ss : list string) : option (list string) :=
  match ps, ss with
  | [], rest => Some rest
  | Lit p :: ps, s :: ss => if String.eqb p s then segments_match ps ss else None
  | Wild :: ps, _ :: ss => segments_match ps ss
  | _ :: _, [] => None
  end.

Definition path_ok (rq : request) (r : route) : bool :=
  match segments_match (rt_segments r) (rq_segments rq) with
  | None => false
  | Some rest =>
      match rt_extent r with
      | Exact => bool_decide (rest = []) && negb (rq_slash rq)
      | Root => bool_decide (rest = []) && rq_slash rq
      | Subtree => negb (bool_decide (rest = [])) || rq_slash rq
      end
  end.

(** The router: a redirect to the clean path, 404, 405, or the route. *)
Inductive mux_result : Type := MRedirect (location : string) | MNotFound | MMethodNotAllowed | MRoute (r : route).

(** A subtree asked for without its slash. *)
Definition subtree_root (rq : request) (r : route) : bool :=
  bool_decide (rt_extent r = Subtree) && method_ok (rq_method rq) r && negb (rq_slash rq)
  && bool_decide (segments_match (rt_segments r) (rq_segments rq) = Some []).

Definition mux (rq : request) : mux_result :=
  match rq_redirect rq with
  | Some location => MRedirect location
  | None =>
      match List.filter (path_ok rq) routes with
      | [] => if existsb (subtree_root rq) routes then MRedirect ("/" +:+ join "/" (rq_segments rq) +:+ "/") else MNotFound
      | candidates => match List.find (method_ok (rq_method rq)) candidates with
                      | Some r => MRoute r
                      | None => MMethodNotAllowed
                      end
      end
  end.

(** The verdicts of the three limiters on a request. *)
Record verdicts : Type := mkVerdicts { vd_global : bool; vd_login : bool; vd_probe : bool }.

Definition limiter_ok (v : verdicts) (l : option limiter) : bool :=
  match l with None => true | Some LoginLimiter => vd_login v | Some ProbeLimiter => vd_probe v end.

Definition serve_route (auth : Auth) (v : verdicts) (r : route) (rq : request) : reply :=
  let inner := limited (limiter_ok v (rt_limiter r)) (RServe (rt_handler r)) in
  if rt_authed r then AuthRequired auth inner rq else inner.

Definition route_reply (auth : Auth) (v : verdicts) (rq : request) : reply :=
  match mux rq with
  | MRedirect location => RRedirect 301 location
  | MNotFound => RStatus 404
  | MMethodNotAllowed => RStatus 405
  | MRoute r => serve_route auth v r rq
  end.

Definition lanAllowedNets (cfg : Config) : list IPNet :=
  match ParseCIDR "10.10.10.0/24" with Some (_, n) => [n] | None => [] end
  ++ omap (fun i => if negb (role_is "lan" i) || String.eqb (InterfaceConfig_Address i) "" then None
                    else match ParseCIDR (InterfaceConfig_Address i) with Some (_, n) => Some n | None => None end)
       (Config_Interfaces cfg).

(** The whole chain of NewServer, outermost check first. *)
Definition Handler (cfg : Config) (auth : Auth) (v : verdicts) (rand : result string) (rq : request) : reply :=
  LANOnly (lanAllowedNets cfg)
    (limited (vd_global v)
      (CSRFProtect rand (route_reply auth v rq) rq)) rq.

(** ** Lemmas: a request has one route *)

Definition seg_compat (a b : segment) : bool :=
  match a, b with Lit x, Lit y => String.eqb x y | _, _ => true end.

Fixpoint prefix_compat (a b : list segment) : bool :=
  match a, b with x :: a, y :: b => seg_compat x y && prefix_compat a b | _, _ => true end.

Definition is_subtree (r : route) : bool := bool_decide (rt_extent r = Subtree).

(** Whether some path could match both routes. *)
Definition route_compat (a b : route) : bool :=
  prefix_compat (rt_segments a) (rt_segments b)
  && (if is_subtree a then true else (length (rt_segments b) <=? length (rt_segments a))%nat)
  && (if is_subtree b then true else (length (rt_segments a) <=? length (rt_segments b))%nat)
  && (is_subtree a || is_subtree b || bool_decide (rt_extent a = rt_extent b)).

Lemma segments_match_compat a b ss r1 r2 :
  segments_match a ss = Some r1 -> segments_match b ss = Some r2 -> prefix_compat a b = true.
Proof.
  revert b ss. induction a as [|x a IH]; intros b ss H1 H2; [done|].
  destruct b as [|y b]; [done|]. destruct ss as [|s ss]; [by destruct x|]. cbn in *.
  destruct x as [x|], y as [y|]; cbn in *.
  - destruct (String.eqb_spec x s) as [->|]; [|done]. destruct (String.eqb_spec y s) as [->|]; [|done].
    rewrite String.eqb_refl. by apply (IH b ss).
  - destruct (String.eqb_spec x s); [|done]. by apply (IH b ss).
  - destruct (String.eqb_spec y s); [|done]. by apply (IH b ss).
  - by apply (IH b ss).
Qed.

Lemma segments_match_length a ss r : segments_match a ss = Some r -> length ss = (length a + length r)%nat.
Proof.
  revert ss. induction a as [|x a IH]; intros ss; cbn; [by intros [= <-]|].
  destruct x as [x|], ss as [|s ss]; try done; cbn; [destruct (String.eqb x s); [|done]|]; intros H; by rewrite (IH ss H).
Qed.

Lemma path_ok_length rq r : path_ok rq r = true ->
  exists rest, segments_match (rt_segments r) (rq_segments rq) = Some rest
    /\ (is_subtree r = false -> rest = [] /\ rq_slash rq = bool_decide (rt_extent r = Root)).
Proof.
  unfold path_ok, is_subtree. destruct (segments_match _ _) as [rest|]; [|done]. intros H. exists rest. split; [done|].
  destruct (rt_extent r); cbn; intros Hs; try done; apply andb_prop in H as [H1 H2]; apply bool_decide_eq_true in H1.
  - by apply negb_true_iff in H2.
  - done.
Qed.

Lemma paths_compat rq a b : path_ok rq a = true -> path_ok rq b = true -> route_compat a b = true.
Proof.
  intros Ha Hb. destruct (path_ok_length _ _ Ha) as (ra & Ma & Ea), (path_ok_length _ _ Hb) as (rb & Mb & Eb).
  pose proof (segments_match_length _ _ _ Ma) as La. pose proof (segments_match_length _ _ _ Mb) as Lb.
  unfold route_compat. rewrite (segments_match_compat _ _ _ _ _ Ma Mb). cbn [andb].
  destruct (is_subtree a) eqn:Sa, (is_subtree b) eqn:Sb; cbn [orb andb]; try done.
  - destruct (Eb eq_refl) as [-> _]. cbn in Lb. rewrite !andb_true_r. apply Nat.leb_le. lia.
  - destruct (Ea eq_refl) as [-> _]. cbn in La. rewrite !andb_true_r. apply Nat.leb_le. lia.
  - destruct (Ea eq_refl) as [-> Hra], (Eb eq_refl) as [-> Hrb]. cbn in La, Lb.
    rewrite (proj2 (Nat.leb_le _ _)), (proj2 (Nat.leb_le _ _)) by lia. cbn [andb].
    rewrite Hra in Hrb. apply bool_decide_eq_true.
    unfold is_subtree in Sa, Sb. destruct (rt_extent a), (rt_extent b); done.
Qed.

(** No two routes of the table serve one method and could match one path. *)
Fixpoint table_ok (rs : list route) : bool :=
  match rs with
  | [] => true
  | r :: rs => forallb (fun r' => negb (bool_decide (rt_method r = rt_method r') && route_compat r r')) rs && table_ok rs
  end.

Lemma routes_disjoint : table_ok routes = true.
Proof. vm_compute. reflexivity. Qed.

Lemma table_ok_unique rs a b : table_ok rs = true -> In a rs -> In b rs ->
  rt_method a = rt_method b -> route_compat a b = true -> route_compat b a = true -> a = b.
Proof.
  induction rs as [|r rs IH]; [done|]. cbn [table_ok]. intros Hok Ha Hb Hm Hc Hc'.
  apply andb_prop in Hok as [Hr Hrs]. rewrite forallb_forall in Hr.
  destruct Ha as [<-|Ha], Hb as [<-|Hb]; [done| | |by apply IH].
  - specialize (Hr b Hb). rewrite bool_decide_eq_true_2 in Hr by done. by rewrite Hc in Hr.
  - specialize (Hr a Ha). rewrite bool_decide_eq_true_2 in Hr by done. by rewrite Hc' in Hr.
Qed.

Lemma route_methods : forallb (fun r => negb (bool_decide (rt_method r = HEAD))) routes = true.
Proof. vm_compute. reflexivity. Qed.

Lemma method_ok_same m a b : In a routes -> In b routes -> method_ok m a = true -> method_ok m b = true ->
  rt_method a = rt_method b.
Proof.
  intros Ha Hb. pose proof route_methods as Hm. rewrite forallb_forall in Hm.
  pose proof (Hm a Ha) as Ga. pose proof (Hm b Hb) as Gb. apply negb_true_iff, bool_decide_eq_false in Ga, Gb.
  unfold method_ok. rewrite !orb_true_iff, !andb_true_iff, !bool_decide_eq_true. intuition congruence.
Qed.

(** The route a request is served by, independently of the table's order. *)
Definition routed (rq : request) (r : route) : Prop :=
  rq_redirect rq = None /\ In r routes /\ path_ok rq r = true /\ method_ok (rq_method rq) r = true.

Lemma mux_routed rq r : mux rq = MRoute r <-> routed rq r.
Proof.
  unfold mux, routed. destruct (rq_redirect rq); [split; [done|by intros [? _]]|].
  set (cs := List.filter (path_ok rq) routes). split.
  - destruct cs as [|c cs'] eqn:Ec; [by destruct (existsb _ _)|]. rewrite <- Ec.
    destruct (List.find _ cs) as [r'|] eqn:Ef; [|done]. intros [= ->]. apply List.find_some in Ef as [Hin Hm].
    unfold cs in Hin. apply List.filter_In in Hin as [Hin Hp]. done.
  - intros (_ & Hin & Hp & Hm). assert (Hc : In r cs) by (by apply List.filter_In).
    destruct cs as [|c cs'] eqn:Ec; [done|]. rewrite <- Ec in *.
    destruct (List.find (method_ok (rq_method rq)) cs) as [r'|] eqn:Ef.
    + apply List.find_some in Ef as [Hin' Hm']. unfold cs in Hin'. apply List.filter_In in Hin' as [Hin' Hp'].
      f_equal. apply (table_ok_unique routes); [exact routes_disjoint|done|done| | |].
      * by apply (method_ok_same (rq_method rq)).
      * by apply (paths_compat rq).
      * by apply (paths_compat rq).
    + pose proof (List.find_none _ _ Ef r Hc). congruence.
Qed.

(** ** Lemmas: the checks *)

Definition from_lan (cfg : Config) (rq : request) : Prop :=
  exists ip, ParseIP (clientIP rq) = Some ip
    /\ (IsLoopback ip = true \/ exists n, In n (lanAllowedNets cfg) /\ Contains_ip n ip = true).

Lemma LANOnly_serves cfg next rq h :
  LANOnly (lanAllowedNets cfg) next rq = RServe h <-> from_lan cfg rq /\ next = RServe h.
Proof.
  unfold LANOnly, from_lan. destruct (ParseIP (clientIP rq)) as [ip|].
  2:{ split; [done|]. by intros [(ip & ? & _) _]. }
  destruct (IsLoopback ip) eqn:El.
  { split; [|by intros [_ ?]]. intros H. split; [|done]. exists ip. split; [done|by left]. }
  destruct (existsb _ _) eqn:Ee.
  - split; [|by intros [_ ?]]. intros H. split; [|done]. exists ip. split; [done|]. right. by apply existsb_exists in Ee.
  - split; [done|]. intros [(ip' & [= <-] & [?|Hn]) _]; [congruence|]. apply existsb_exists in Hn. congruence.
Qed.

Definition safe_method (m : method) : bool := bool_decide (m = GET) || bool_decide (m = HEAD).

(** The double-submit check of a request that may change something. *)
Definition csrf_ok (rand : result string) (rq : request) : Prop :=
  if safe_method (rq_method rq) then is_ok (getOrCreateCSRFToken rand rq) = true
  else exists token, token <> "" /\ rq_csrfCookie rq = Some token
    /\ (rq_csrfHeader rq = token \/ (rq_csrfHeader rq = "" /\ formCSRFToken rq = token)).

Lemma CSRFProtect_serves rand next rq h :
  CSRFProtect rand next rq = RServe h <-> csrf_ok rand rq /\ next = RServe h.
Proof.
  unfold CSRFProtect, csrf_ok, safe_method. destruct (_ || _).
  { destruct (getOrCreateCSRFToken rand rq); cbn [is_ok]; [|by split; [|intros []]]. by split; [|intros []]. }
  destruct (rq_csrfCookie rq) as [c|]; [|by split; [|intros [(? & _ & ? & _) _]]].
  set (token := if String.eqb (rq_csrfHeader rq) "" then formCSRFToken rq else rq_csrfHeader rq).
  assert (Ht : token = c /\ c <> "" <-> exists t, t <> "" /\ Some c = Some t
    /\ (rq_csrfHeader rq = t \/ (rq_csrfHeader rq = "" /\ formCSRFToken rq = t))).
  { unfold token. destruct (String.eqb_spec (rq_csrfHeader rq) "") as [He|He]; split.
    - intros [H1 H2]. exists c. auto.
    - intros (t & H1 & [= ->] & [H|[_ H]]); [congruence|done].
    - intros [H1 H2]. exists c. auto.
    - intros (t & H1 & [= ->] & [H|[? _]]); done. }
  rewrite <- Ht. destruct (String.eqb_spec token "") as [Hz|Hz]; cbn [orb].
  - split; [done|]. intros [[H1 H2] _]. congruence.
  - destruct (String.eqb_spec token c) as [Hc|Hc]; cbn [negb].
    + split; [|by intros []]. intros H. split; [|done]. split; [done|congruence].
    + split; [done|]. by intros [[? _] _].
Qed.

(** The handlers that serve a request without a session. *)
Definition public_handlers : list string :=
  ["static"; "handleLoginPage"; "handleLogin"; "handleLogout"; "handleLangSwitch"; "settings.HandleVersion";
   "metricsh.HandleMetrics"].

Lemma public_routes :
  forallb (fun r => rt_authed r || (mem (rt_handler r) public_handlers
                                    && (bool_decide (rt_method r = GET)
                                        || mem (rt_handler r) ["handleLogin"; "handleLogout"; "handleLangSwitch"]))) routes = true.
Proof. vm_compute. reflexivity. Qed.

(** C8: Who reaches a handler of the web interface.  A handler runs exactly
    when the client's address is a loopback or LAN address, the limiters let
    the request through, the request is a GET or HEAD or carries the CSRF token
    of its own cookie, and it matches the one route of the table that names the
    handler, with a live session when the route requires one.  So without a
    live session nothing but the seven public handlers runs, and the only ones
    of them that a changing request can reach are login, logout and the
    language switch. *)
Theorem request_gate cfg auth v rand rq h :
  (Handler cfg auth v rand rq = RServe h <->
     from_lan cfg rq /\ vd_global v = true /\ csrf_ok rand rq
     /\ exists r, routed rq r /\ rt_handler r = h /\ limiter_ok v (rt_limiter r) = true
          /\ (rt_authed r = true -> IsAuthenticated (rq_session rq) auth = true))
  /\ (Handler cfg auth v rand rq = RServe h -> IsAuthenticated (rq_session rq) auth = false ->
        In h public_handlers
        /\ (safe_method (rq_method rq) = false -> In h ["handleLogin"; "handleLogout"; "handleLangSwitch"])).
Proof.
  assert (Hiff : Handler cfg auth v rand rq = RServe h <->
     from_lan cfg rq /\ vd_global v = true /\ csrf_ok rand rq
     /\ exists r, routed rq r /\ rt_handler r = h /\ limiter_ok v (rt_limiter r) = true
          /\ (rt_authed r = true -> IsAuthenticated (rq_session rq) auth = true)).
  { unfold Handler. rewrite LANOnly_serves. apply and_iff_compat_l. unfold limited at 1.
    destruct (vd_global v); [|by split; [|intros [? _]]].
    rewrite CSRFProtect_serves. split.
    - intros [Hc Hr]. split; [done|]. split; [done|]. unfold route_reply in Hr.
      destruct (mux rq) as [| | |r] eqn:Em; try done. apply mux_routed in Em. exists r. split; [done|].
      unfold serve_route, AuthRequired, limited in Hr.
      destruct (rt_authed r), (IsAuthenticated (rq_session rq) auth), (limiter_ok v (rt_limiter r)), (rq_hx rq),
        (Contains (rq_accept rq) "text/event-stream"); cbn [negb] in Hr; try done; injection Hr as ->; done.
    - intros (_ & Hc & r & Hr & <- & Hl & Ha). split; [done|]. unfold route_reply.
      apply mux_routed in Hr. rewrite Hr. unfold serve_route, AuthRequired, limited. rewrite Hl.
      destruct (rt_authed r); [|done]. by rewrite (Ha eq_refl). }
  split; [exact Hiff|]. intros H Hna. apply Hiff in H as (_ & _ & _ & r & (_ & Hin & _ & Hm) & Hh & _ & Ha).
  pose proof public_routes as Hp. rewrite forallb_forall in Hp. specialize (Hp r Hin).
  destruct (rt_authed r); [by rewrite (Ha eq_refl) in Hna|]. cbn [orb] in Hp. apply andb_prop in Hp as [Hp Hg].
  subst h. split; [by apply mem_In|]. intros Hs. apply orb_prop in Hg as [Hg|Hg]; [|by apply mem_In].
  apply bool_decide_eq_true in Hg. unfold method_ok in Hm. rewrite Hg in Hm. unfold safe_method in Hs.
  destruct (rq_method rq); done.
Qed.
