(* ===== verification/Schedule.v ===== *)
(** * internal/services/backup_schedule.go: the cron dialect and the scheduler

    Parsing of a schedule into five bit sets, the search for its next fire
    time and one tick of the scheduler.  A run-time panic is a value of its
    own; [RunNow] is what a tick reports, since its outcome only reaches the
    log. *)

From stdpp Require Import sorting.
From S2P Require Import Prelude GoStrings GoTime.

Local Open Scope Z_scope.
Local Open Scope go_scope.

(** A call returns or panics. *)
Inductive outcome (A : Type) : Type :=
| Returns (a : A)
| Panics (why : string).
Arguments Returns {A} a.
Arguments Panics {A} why.

(** ** Field sets: a [uint64] with one bit per value *)

Definition fieldSet : Type := Z.

(** [1 << n] on a [uint64]. *)
Definition bit64 (n : Z) : Z := if n <? 64 then Z.shiftl 1 n else 0.

Definition has (f : fieldSet) (n : Z) : bool :=
  (0 <=? n) && (n <? 64) && negb (Z.land f (bit64 n) =? 0).

(** [for i := lo; i <= hi; i += step { out |= 1 << i }]: the addition wraps,
    and a negative shift count panics. *)
Fixpoint set_loop (fuel : nat) (i hi step : Z) (out : fieldSet) : outcome fieldSet :=
  match fuel with
  | O => Returns out
  | S k =>
      if hi <? i then Returns out
      else if i <? 0 then Panics "negative shift amount"
      else set_loop k (wrap64 (i + step)) hi step (Z.lor out (bit64 i))
  end.

(** No field has more than sixty values, so sixty-four turns are enough. *)
Definition loop_fuel : nat := 64.

Definition makeFieldSet (min max : Z) (all : bool) : fieldSet :=
  if all then match set_loop loop_fuel min max 1 0 with Returns f => f | Panics _ => 0 end else 0.

(** ** Parsing *)

Definition bad (format : string) (args : list string) : error := Errorf format args.

Definition splitStep (atom : string) : result (string * Z) :=
  match cut_byte "/" atom with
  | None => Ok (atom, 1)
  | Some (base, raw) =>
      match Atoi raw with
      | Some s => if s <? 1 then Err (bad "bad step %q" [atom]) else Ok (base, s)
      | None => Err (bad "bad step %q" [atom])
      end
  end.

Definition parseRange (base : string) (min max : Z) : result (Z * Z) :=
  if String.eqb base "*" then Ok (min, max)
  else match cut_byte "-" base with
       | Some (l, r) =>
           match Atoi l, Atoi r with
           | Some a, Some b => Ok (a, b)
           | _, _ => Err (bad "bad range %q" [base])
           end
       | None =>
           match Atoi base with
           | Some n => Ok (n, n)
           | None => Err (bad "bad number %q" [base])
           end
       end.

Definition parseAtom (atom : string) (min max : Z) : result (Z * Z * Z) :=
  let? (base, step) := splitStep atom in
  let? (lo, hi) := parseRange base min max in
  guard! fail_if ((lo <? min) || (max <? hi) || (hi <? lo))
    (bad "out-of-range field %d-%d (allowed %d-%d)" [itoa lo; itoa hi; itoa min; itoa max]) ;;
  Ok (lo, hi, step).

(** The loop of [parseField] over the elements of the list. *)
Fixpoint parse_atoms (atoms : list string) (min max : Z) (out : fieldSet) : outcome (result fieldSet) :=
  match atoms with
  | [] => Returns (Ok out)
  | a :: rest =>
      let atom := TrimSpace a in
      if String.eqb atom "" then parse_atoms rest min max out
      else match parseAtom atom min max with
           | Err e => Returns (Err e)
           | Ok (lo, hi, step) =>
               match set_loop loop_fuel lo hi step out with
               | Panics w => Panics w
               | Returns out' => parse_atoms rest min max out'
               end
           end
  end.

Definition parseField (spec : string) (min max : Z) : outcome (result fieldSet) :=
  if String.eqb spec "*" then Returns (Ok (makeFieldSet min max true))
  else match parse_atoms (split_byte "," spec) min max 0 with
       | Panics w => Panics w
       | Returns (Err e) => Returns (Err e)
       | Returns (Ok out) =>
           Returns (if out =? 0 then Err (bad "empty field %q" [spec]) else Ok out)
       end.

Record Schedule : Type := mkSchedule {
  sc_minute : fieldSet; sc_hour : fieldSet; sc_dayOfMonth : fieldSet;
  sc_month : fieldSet; sc_dayOfWeek : fieldSet; sc_loc : location }.

(** Continues with the value of a field, or ends with its wrapped error. *)
Definition field_bind {A} (what : string) (r : outcome (result fieldSet))
  (k : fieldSet -> outcome (result A)) : outcome (result A) :=
  match r with
  | Panics w => Panics w
  | Returns (Err e) => Returns (Err (Errorw what [] e))
  | Returns (Ok f) => k f
  end.

Definition parseFields (spec : string) (loc : location) : outcome (result Schedule) :=
  match Fields spec with
  | [p0; p1; p2; p3; p4] =>
      field_bind "minute: %w" (parseField p0 0 59) (fun min =>
      field_bind "hour: %w" (parseField p1 0 23) (fun hr =>
      field_bind "day-of-month: %w" (parseField p2 1 31) (fun dom =>
      field_bind "month: %w" (parseField p3 1 12) (fun mo =>
      field_bind "day-of-week: %w" (parseField p4 0 6) (fun dow =>
      Returns (Ok (mkSchedule min hr dom mo dow loc)))))))
  | parts => Returns (Err (bad "schedule must have 5 fields, got %d" [itoa (Z.of_nat (length parts))]))
  end.

Definition alias (spec : string) : option string :=
  if String.eqb spec "@hourly" then Some "0 * * * *"
  else if String.eqb spec "@daily" || String.eqb spec "@midnight" then Some "0 0 * * *"
  else if String.eqb spec "@weekly" then Some "0 0 * * 0"
  else if String.eqb spec "@monthly" then Some "0 0 1 * *"
  else if String.eqb spec "@yearly" || String.eqb spec "@annually" then Some "0 0 1 1 *"
  else None.

(** [local] is [time.Local]. *)
Definition ParseSchedule (local : location) (spec : string) (loc : option location) : outcome (result Schedule) :=
  let spec := TrimSpace spec in
  if String.eqb spec "" then Returns (Err (bad "empty schedule" []))
  else parseFields (default spec (alias spec)) (default local loc).

(** ** The next fire time *)

Definition matches (s : Schedule) (t : Z) : bool :=
  if negb (has (sc_minute s) (Minute (sc_loc s) t)) then false
  else if negb (has (sc_hour s) (Hour (sc_loc s) t)) then false
  else if negb (has (sc_month s) (Month (sc_loc s) t)) then false
  else
    let dom := has (sc_dayOfMonth s) (Day (sc_loc s) t) in
    let dow := has (sc_dayOfWeek s) (Weekday (sc_loc s) t) in
    let dayOfMonthAll := sc_dayOfMonth s =? makeFieldSet 1 31 true in
    let dayOfWeekAll := sc_dayOfWeek s =? makeFieldSet 0 6 true in
    if dayOfMonthAll && dayOfWeekAll then true
    else if dayOfMonthAll then dow
    else if dayOfWeekAll then dom
    else dom || dow.

(** [for t.Before(cap)]. *)
Fixpoint next_loop (fuel : nat) (s : Schedule) (cap t : Z) : Z :=
  match fuel with
  | O => zero_time
  | S k => if t <? cap then (if matches s t then t else next_loop k s cap (t + minute)) else zero_time
  end.

Definition fourYears : Z := 4 * 365 * 24 * hour.

(** [Next]; [here] is the location [after] carries.  The search moves a
    minute per turn from at most a minute after [after] up to four years
    later. *)
Definition Next (here : location) (s : Schedule) (after : Z) : Z :=
  let t := Truncate minute (after + (minute - Second here after * second)) in
  let cap := after + fourYears in
  next_loop (Z.to_nat ((cap - t) / minute + 1)) s cap t.

(** ** One tick of the scheduler *)

Record backupSnapshot : Type := mkSnapshot {
  bs_Enabled : bool; bs_Schedule : string; bs_Location : option location; bs_LastRun : Z }.

Record scheduledFire : Type := mkFire { sf_at : Z; sf_source : string }.

Definition noFire : scheduledFire := mkFire zero_time "".

Definition scheduleSource (snap : backupSnapshot) : string :=
  bs_Schedule snap +:+ "|" +:+ match bs_Location snap with Some l => loc_name l | None => "" end.

(** The new state and whether the backup ran.  [here] is the location of the
    ticker's times. *)
Definition schedulerTick (local here : location) (snap : backupSnapshot) (now : Z) (next : scheduledFire)
  : outcome (scheduledFire * bool) :=
  if negb (bs_Enabled snap) || String.eqb (bs_Schedule snap) "" then Returns (noFire, false)
  else match ParseSchedule local (bs_Schedule snap) (bs_Location snap) with
       | Panics w => Panics w
       | Returns (Err _) => Returns (next, false)
       | Returns (Ok sched) =>
           let source := scheduleSource snap in
           let next := if IsZero (sf_at next) || (sf_at next <? bs_LastRun snap)
                          || negb (String.eqb (sf_source next) source)
                       then mkFire (Next here sched now) source else next in
           if IsZero (sf_at next) || (now <? sf_at next) then Returns (next, false)
           else Returns (mkFire (Next here sched (now + minute)) source, true)
       end.

(** ** Lemmas: field sets *)

Lemma bit64_testbit i n : 0 <= i < 64 -> 0 <= n -> Z.testbit (bit64 i) n = (n =? i).
Proof.
  intros Hi Hn. unfold bit64. rewrite (proj2 (Z.ltb_lt i 64)) by lia.
  rewrite Z.shiftl_1_l, Z.pow2_bits_eqb by lia. apply Z.eqb_sym.
Qed.

Lemma has_testbit f n : has f n = (0 <=? n) && (n <? 64) && Z.testbit f n.
Proof.
  unfold has. destruct (0 <=? n) eqn:H0; [|done]. destruct (n <? 64) eqn:H1; [|done]. bool_hyps. cbn [andb].
  destruct (Z.testbit f n) eqn:Ht.
  - apply negb_true_iff, Z.eqb_neq. intros Hz. apply (f_equal (fun z => Z.testbit z n)) in Hz.
    rewrite Z.land_spec, bit64_testbit, Ht, Z.eqb_refl, Z.bits_0 in Hz by lia. done.
  - apply negb_false_iff, Z.eqb_eq, Z.bits_inj_0. intros m. rewrite Z.land_spec.
    destruct (Z.lt_decidable m 0); [rewrite Z.testbit_neg_r by done; done|].
    rewrite bit64_testbit by lia. destruct (Z.eqb_spec m n) as [->|]; [by rewrite Ht|apply andb_false_r].
Qed.

(** [n] is one of [i], [i + step], ... up to [hi]. *)
Definition stepped (i hi step n : Z) : bool := (i <=? n) && (n <=? hi) && ((n - i) mod step =? 0).

Lemma stepped_unfold i hi step n :
  1 <= step -> i <= hi -> stepped i hi step n = (n =? i) || stepped (i + step) hi step n.
Proof.
  intros Hs Hi. unfold stepped.
  replace (n - (i + step)) with (n - i + (-1) * step) by lia. rewrite Z.mod_add by lia.
  destruct (Z.eqb_spec n i) as [->|Hn].
  - rewrite Z.sub_diag, Z.mod_0_l by lia. rewrite (proj2 (Z.leb_le i i)), (proj2 (Z.leb_le i hi)) by lia. done.
  - cbn [orb]. destruct ((n - i) mod step =? 0) eqn:E; [|by rewrite !andb_false_r]. rewrite !andb_true_r. bool_hyps.
    destruct (n <=? hi); [|by rewrite !andb_false_r]. rewrite !andb_true_r.
    apply Z.mod_divide in E as [q Hq]; [|lia].
    destruct (Z.leb_spec i n), (Z.leb_spec (i + step) n); try done; [|lia].
    exfalso. destruct (Z.le_gt_cases q 0); nia.
Qed.

Lemma stepped_none i hi step n : hi < i -> stepped i hi step n = false.
Proof.
  intros Hlt. unfold stepped. destruct (Z.leb_spec i n); [|done]. by rewrite (proj2 (Z.leb_gt n hi)) by lia.
Qed.

(** The loop either panics, which takes a step near the end of int64, or adds
    exactly the values it walks over. *)
Lemma set_loop_spec fuel i hi step out :
  0 <= i -> hi <= 59 -> 1 <= step <= int64_max -> hi - i + 1 < Z.of_nat fuel ->
  match set_loop fuel i hi step out with
  | Returns out' => forall n, 0 <= n -> Z.testbit out' n = Z.testbit out n || stepped i hi step n
  | Panics _ => int64_max - 59 < step
  end.
Proof.
  revert i out. induction fuel as [|fuel IH]; intros i out Hi Hhi Hs Hf; cbn [set_loop].
  { intros n Hn. by rewrite stepped_none, orb_false_r by lia. }
  destruct (Z.ltb_spec hi i) as [Hlt|Hle].
  - intros n Hn. by rewrite stepped_none, orb_false_r by lia.
  - rewrite (proj2 (Z.ltb_ge i 0)) by lia.
    destruct (Z.le_gt_cases (i + step) int64_max) as [Hfit|Hwrap].
    + rewrite wrap64_id by (unfold in_int64, int64_min, int64_max in *; apply andb_true_iff; rewrite !Z.leb_le; lia).
      specialize (IH (i + step) (Z.lor out (bit64 i)) ltac:(lia) Hhi Hs ltac:(lia)).
      destruct (set_loop fuel _ _ _ _); [|done]. intros n Hn.
      rewrite IH, Z.lor_spec, bit64_testbit, (stepped_unfold i) by lia. by rewrite orb_assoc.
    + assert (Hneg : wrap64 (i + step) < 0).
      { unfold wrap64, int64_max in *. replace (i + step + 2 ^ 63) with (i + step - 2 ^ 63 + 1 * 2 ^ 64) by lia.
        rewrite Z.mod_add, Z.mod_small by lia. lia. }
      destruct fuel as [|fuel]; [lia|]. cbn [set_loop].
      rewrite (proj2 (Z.ltb_ge hi _)), (proj2 (Z.ltb_lt (wrap64 _) 0)) by lia. lia.
Qed.

Lemma stepped_range i hi step n : stepped i hi step n = true -> i <= n <= hi.
Proof. unfold stepped. intros H. bool_hyps. lia. Qed.

Lemma makeFieldSet_spec min max n :
  0 <= min -> max <= 59 -> 0 <= n ->
  Z.testbit (makeFieldSet min max true) n = (min <=? n) && (n <=? max).
Proof.
  intros Hmin Hmax Hn. unfold makeFieldSet.
  pose proof (set_loop_spec loop_fuel min max 1 0 Hmin Hmax) as Hl. unfold int64_max, loop_fuel in *.
  specialize (Hl ltac:(lia) ltac:(lia)). destruct (set_loop _ _ _ _ _); [|lia].
  rewrite Hl, Z.bits_0 by done. unfold stepped. by rewrite Z.mod_1_r, andb_true_r.
Qed.

(** ** Lemmas: parsing *)

Lemma Atoi_range s z : Atoi s = Some z -> int64_min <= z <= int64_max.
Proof.
  unfold Atoi. destruct (match s with String "-" r => _ | String "+" r => _ | _ => _ end) as [neg body].
  destruct body; [done|]. destruct (digits_value _ _) as [v|]; [|done]. destruct (in_int64 _) eqn:E; [|done].
  intros [= <-]. unfold in_int64 in E. by bool_hyps.
Qed.

Lemma parseAtom_Ok atom min max lo hi step :
  parseAtom atom min max = Ok (lo, hi, step) -> min <= lo <= hi /\ hi <= max /\ 1 <= step <= int64_max.
Proof.
  unfold parseAtom. intros H. apply result_bind_Ok in H as ([base st] & Hs & H). 
  apply result_bind_Ok in H as ([l h] & Hr & H). inv_ok. simplify_eq. bool_hyps.
  split; [lia|]. split; [lia|]. unfold splitStep in Hs. destruct (cut_byte "/" atom) as [[b raw]|]; inv_ok; simplify_eq.
  - destruct (Atoi raw) as [v|] eqn:E; [|done]. destruct (v <? 1) eqn:E1; inv_ok; simplify_eq.
    apply Atoi_range in E. bool_hyps. lia.
  - unfold int64_max. lia.
Qed.

(** What an element of a field covers. *)
Definition covers (min max : Z) (text : string) (n : Z) : bool :=
  if String.eqb (TrimSpace text) "" then false
  else match parseAtom (TrimSpace text) min max with
       | Ok (lo, hi, step) => stepped lo hi step n
       | Err _ => false
       end.

Lemma parse_atoms_spec min max atoms out :
  0 <= min -> max <= 59 ->
  match parse_atoms atoms min max out with
  | Returns (Ok f) => forall n, 0 <= n -> Z.testbit f n = Z.testbit out n || existsb (fun a => covers min max a n) atoms
  | Returns (Err e) => exists a, In a atoms /\ parseAtom (TrimSpace a) min max = Err e
  | Panics _ => exists a lo hi step, In a atoms /\ parseAtom (TrimSpace a) min max = Ok (lo, hi, step)
                  /\ int64_max - 59 < step
  end.
Proof.
  intros Hmin Hmax. revert out. induction atoms as [|a atoms IH]; intros out; cbn [parse_atoms existsb].
  - intros n _. by rewrite orb_false_r.
  - unfold covers at 1. destruct (String.eqb (TrimSpace a) "") eqn:He.
    + specialize (IH out). destruct (parse_atoms atoms min max out) as [[f|e]|w]; [done|naive_solver..].
    + destruct (parseAtom (TrimSpace a) min max) as [[[lo hi] step]|e] eqn:Ha; [|naive_solver].
      pose proof (parseAtom_Ok _ _ _ _ _ _ Ha) as Hr.
      pose proof (set_loop_spec loop_fuel lo hi step out) as Hl. unfold loop_fuel in *.
      specialize (Hl ltac:(lia) ltac:(lia) ltac:(lia) ltac:(lia)).
      destruct (set_loop 64 lo hi step out) as [out'|w]; [|naive_solver].
      specialize (IH out'). destruct (parse_atoms atoms min max out') as [[f|e]|w]; [|naive_solver..].
      intros n Hn. by rewrite IH, Hl, orb_assoc.
Qed.

(** The elements of a field as a schedule's author means them: every value,
    one value or a range, and a step. *)
Record element : Type := mkElement { el_range : option (Z * option Z); el_step : option Z }.

Definition print_element (e : element) : string :=
  match el_range e with
  | None => "*"
  | Some (a, None) => itoa a
  | Some (a, Some b) => itoa a +:+ "-" +:+ itoa b
  end +:+ match el_step e with None => "" | Some k => "/" +:+ itoa k end.

Definition element_lo (min : Z) (e : element) : Z := match el_range e with None => min | Some (a, _) => a end.
Definition element_hi (max : Z) (e : element) : Z :=
  match el_range e with None => max | Some (a, None) => a | Some (_, Some b) => b end.

Definition denotes (min max : Z) (e : element) (n : Z) : Prop :=
  element_lo min e <= n <= element_hi max e /\ (n - element_lo min e) mod default 1 (el_step e) = 0.

Definition valid_element (min max : Z) (e : element) : Prop :=
  min <= element_lo min e <= element_hi max e /\ element_hi max e <= max
  /\ 1 <= default 1 (el_step e) <= int64_max - 59.

Definition element_char (a : ascii) : bool := is_digit a || char_in "*-/" a.

Lemma digits_no c s : is_digit c = false -> all_chars is_digit s = true -> has_char c s = false.
Proof. intros Hc Hs. by apply (all_chars_not_has is_digit). Qed.

Lemma itoa_digits z : 0 <= z -> all_chars is_digit (itoa z) = true.
Proof. intros Hz. by destruct (itoa_nonneg_value z Hz) as (_ & _ & ?). Qed.

Lemma digit_element_char s : all_chars is_digit s = true -> all_chars element_char s = true.
Proof. apply all_chars_impl. unfold element_char. by intros a ->. Qed.

Lemma print_element_chars min max e :
  0 <= min -> valid_element min max e -> all_chars element_char (print_element e) = true.
Proof.
  intros Hmin (Hlo & Hhi & Hst). unfold print_element. rewrite all_chars_append. apply andb_true_intro. split.
  - unfold element_lo, element_hi in *. destruct (el_range e) as [[a [b|]]|]; [| |done].
    + rewrite !all_chars_append, (digit_element_char (itoa a)), (digit_element_char (itoa b))
        by (apply itoa_digits; lia). reflexivity.
    + apply digit_element_char, itoa_digits. lia.
  - destruct (el_step e) as [k|]; [|done]. cbn in Hst. rewrite all_chars_append, (digit_element_char (itoa k)); [done|].
    apply itoa_digits. lia.
Qed.

Lemma element_char_plain s : all_chars element_char s = true -> all_chars plain_char s = true.
Proof.
  apply all_chars_impl. intros a Ha. destruct a as [[] [] [] [] [] [] [] []]; first [discriminate Ha | reflexivity].
Qed.

Lemma parseRange_print min max e :
  0 <= min -> max <= 59 -> valid_element min max e ->
  let base := match el_range e with
              | None => "*" | Some (a, None) => itoa a | Some (a, Some b) => itoa a +:+ "-" +:+ itoa b end in
  has_char "/" base = false /\ parseRange base min max = Ok (element_lo min e, element_hi max e).
Proof.
  intros Hmin Hmax (Hlo & Hhi & _). unfold element_lo, element_hi in *.
  assert (Hi64 : 59 <= int64_max) by (unfold int64_max; lia).
  destruct (el_range e) as [[a [b|]]|]; cbn zeta in *; [| |done].
  - pose proof (itoa_digits a ltac:(lia)) as Da. pose proof (itoa_digits b ltac:(lia)) as Db.
    split; [by rewrite !has_char_append, (digits_no "/" (itoa a)), (digits_no "/" (itoa b)) by done|].
    unfold parseRange.
    destruct (String.eqb_spec (itoa a +:+ "-" +:+ itoa b) "*") as [Heq|_].
    { apply (f_equal (has_char "-")) in Heq. rewrite has_char_append in Heq. cbn in Heq. by rewrite orb_true_r in Heq. }
    change ("-" +:+ itoa b) with (String "-" (itoa b)). rewrite cut_byte_append by (by apply digits_no).
    rewrite !Atoi_itoa by lia. done.
  - pose proof (itoa_digits a ltac:(lia)) as Da. split; [by apply digits_no|]. unfold parseRange.
    destruct (String.eqb_spec (itoa a) "*") as [Heq|_]; [rewrite Heq in Da; discriminate Da|].
    rewrite cut_byte_none by (by apply digits_no). by rewrite Atoi_itoa by lia.
Qed.

Lemma parseAtom_print min max e :
  0 <= min -> max <= 59 -> valid_element min max e ->
  parseAtom (print_element e) min max = Ok (element_lo min e, element_hi max e, default 1 (el_step e)).
Proof.
  intros Hmin Hmax Hv. destruct (parseRange_print min max e Hmin Hmax Hv) as [Hns Hr].
  destruct Hv as (Hlo & Hhi & Hst). unfold parseAtom, print_element, splitStep.
  set (base := match el_range e with None => _ | Some _ => _ end) in *.
  assert (Hchk : (element_lo min e <? min) || (max <? element_hi max e) || (element_hi max e <? element_lo min e) = false).
  { rewrite !orb_false_iff, !Z.ltb_ge. lia. }
  destruct (el_step e) as [k|].
  - change (default 1 (Some k)) with k in *. change ("/" +:+ itoa k) with (String "/" (itoa k)). rewrite cut_byte_append by done.
    rewrite Atoi_itoa by (unfold int64_max in *; lia). rewrite (proj2 (Z.ltb_ge k 1)) by lia.
    cbn [result_bind]. rewrite Hr. cbn [result_bind]. by rewrite Hchk.
  - rewrite append_empty_r, cut_byte_none by done. cbn [result_bind]. rewrite Hr. cbn [result_bind]. by rewrite Hchk.
Qed.

Lemma covers_print min max e n :
  0 <= min -> max <= 59 -> valid_element min max e -> covers min max (print_element e) n = true <-> denotes min max e n.
Proof.
  intros Hmin Hmax Hv. unfold covers, denotes, stepped.
  rewrite TrimSpace_plain by (eapply element_char_plain, print_element_chars; done).
  destruct (String.eqb_spec (print_element e) "") as [Heq|_].
  - exfalso. pose proof (parseAtom_print min max e Hmin Hmax Hv) as H. rewrite Heq in H. discriminate H.
  - rewrite parseAtom_print by done. rewrite !andb_true_iff, !Z.leb_le, Z.eqb_eq. lia.
Qed.

Lemma parseField_sound spec min max f :
  0 <= min <= max -> max <= 59 -> parseField spec min max = Returns (Ok f) ->
  (exists n, has f n = true) /\
  forall n, has f n = true <->
    min <= n <= max /\ (spec = "*" \/ exists a, In a (split_byte "," spec) /\ covers min max a n = true).
Proof.
  intros Hmin Hmax. unfold parseField. destruct (String.eqb_spec spec "*") as [->|Hs].
  - intros Hf. assert (f = makeFieldSet min max true) as -> by congruence. clear Hf.
    assert (Hall : forall n, has (makeFieldSet min max true) n = true <-> min <= n <= max).
    { intros n. rewrite has_testbit, !andb_true_iff, Z.leb_le, Z.ltb_lt. split.
      - intros [[H0 H1] Ht]. rewrite makeFieldSet_spec, andb_true_iff, !Z.leb_le in Ht by lia. lia.
      - intros Hn. rewrite makeFieldSet_spec, andb_true_iff, !Z.leb_le by lia. lia. }
    split; [exists min; apply Hall; lia|]. intros n. rewrite Hall.
    split; [intros Hn; split; [exact Hn|by left]|intros [Hn _]; exact Hn].
  - pose proof (parse_atoms_spec min max (split_byte "," spec) 0 ltac:(lia) Hmax) as Hp.
    destruct (parse_atoms _ _ _ _) as [[out|e]|w]; [|done..]. destruct (Z.eqb_spec out 0) as [->|Hne]; [done|].
    intros [= <-].
    assert (Hcov : forall n, 0 <= n -> Z.testbit out n = true <->
              min <= n <= max /\ exists a, In a (split_byte "," spec) /\ covers min max a n = true).
    { intros n Hn. rewrite Hp, Z.bits_0 by done. cbn [orb]. rewrite existsb_exists. split; [|naive_solver].
      intros (a & Ha & Hc). split; [|naive_solver]. revert Hc. unfold covers.
      destruct (String.eqb _ _); [done|]. destruct (parseAtom _ _ _) as [[[lo hi] st]|] eqn:E; [|done].
      intros Hst%stepped_range. apply parseAtom_Ok in E. lia. }
    split.
    + destruct (existsb (fun n => has out (Z.of_nat n)) (seq 0 60)) eqn:E.
      { apply existsb_exists in E as (n & _ & Hn). by exists (Z.of_nat n). }
      exfalso. apply Hne, Z.bits_inj_0. intros n. destruct (Z.testbit out n) eqn:Ht; [|done]. exfalso.
      assert (Hn : 0 <= n) by (destruct (Z.lt_decidable n 0); [rewrite Z.testbit_neg_r in Ht by done; done|lia]).
      pose proof (proj1 (Hcov n Hn) Ht) as [? _].
      apply not_true_iff_false in E. apply E, existsb_exists. exists (Z.to_nat n).
      split; [apply in_seq; lia|]. rewrite Z2Nat.id, has_testbit, Ht by done.
      rewrite (proj2 (Z.leb_le 0 n)), (proj2 (Z.ltb_lt n 64)) by lia. done.
    + intros n. rewrite has_testbit. destruct (Z.leb_spec 0 n) as [Hn|Hn]; cbn [andb].
      2: { split; [done|]. intros [? _]. lia. }
      destruct (Z.ltb_spec n 64); cbn [andb]; [rewrite Hcov by done; naive_solver|].
      split; [done|]. intros [? _]. lia.
Qed.

(** A parsed field has no bit outside its range. *)
Lemma parseField_bits spec min max f n :
  0 <= min <= max -> max <= 59 -> parseField spec min max = Returns (Ok f) -> Z.testbit f n = has f n.
Proof.
  intros Hmin Hmax Hp. rewrite has_testbit. destruct (Z.leb_spec 0 n) as [Hn|Hn].
  2: { by rewrite Z.testbit_neg_r. }
  destruct (Z.ltb_spec n 64) as [Hlt|Hge]; [done|]. change (Z.testbit f n = false). revert Hp. unfold parseField.
  destruct (String.eqb spec "*").
  - intros Hf. assert (f = makeFieldSet min max true) as -> by congruence.
    rewrite makeFieldSet_spec by lia. rewrite (proj2 (Z.leb_gt n max)) by lia. apply andb_false_r.
  - pose proof (parse_atoms_spec min max (split_byte "," spec) 0 ltac:(lia) Hmax) as Hp.
    destruct (parse_atoms _ _ _ _) as [[out|e]|w]; [|done..]. destruct (out =? 0); [done|]. intros [= <-].
    rewrite Hp, Z.bits_0 by done. apply not_true_iff_false. intros Hex. apply existsb_exists in Hex as (a & _ & Hc).
    revert Hc. unfold covers. destruct (String.eqb _ _); [done|].
    destruct (parseAtom _ _ _) as [[[lo hi] st]|] eqn:E; [|done].
    intros Hst%stepped_range. apply parseAtom_Ok in E. lia.
Qed.

(** ** From the elements of a field to its set *)

Definition in_field (min max : Z) (es : list element) (n : Z) : Prop := exists e, e ∈ es /\ denotes min max e n.

Definition field_text (es : list element) : string := join "," (map print_element es).

Definition valid_field (min max : Z) (es : list element) : Prop := es <> [] /\ Forall (valid_element min max) es.

Lemma print_no_comma min max e : 0 <= min -> valid_element min max e -> has_char "," (print_element e) = false.
Proof.
  intros Hmin Hv. apply (all_chars_not_has element_char); [done|]. by eapply print_element_chars.
Qed.

Lemma split_field_text min max es :
  0 <= min -> valid_field min max es -> split_byte "," (field_text es) = map print_element es.
Proof.
  intros Hmin [Hne Hv]. unfold field_text. apply split_join; [by destruct es|].
  apply Forall_map. eapply Forall_impl; [|exact Hv]. intros e He. by eapply print_no_comma.
Qed.

Lemma denotes_lo min max e : valid_element min max e -> denotes min max e (element_lo min e).
Proof. intros (Hlo & _ & Hst). split; [lia|]. rewrite Z.sub_diag. apply Z.mod_0_l. lia. Qed.

(** Every well-formed field is accepted. *)
Lemma parseField_accepts min max es :
  0 <= min <= max -> max <= 59 -> valid_field min max es ->
  exists f, parseField (field_text es) min max = Returns (Ok f).
Proof.
  intros Hmin Hmax Hv. unfold parseField. destruct (String.eqb (field_text es) "*"); [by eexists|].
  rewrite (split_field_text min max) by (done || lia). destruct Hv as [Hne Hv].
  assert (Hatom : forall a, In a (map print_element es) -> exists e, a = print_element e /\ valid_element min max e
            /\ parseAtom (TrimSpace a) min max = Ok (element_lo min e, element_hi max e, default 1 (el_step e))).
  { intros a Ha. apply in_map_iff in Ha as (e & <- & He). rewrite List.Forall_forall in Hv. specialize (Hv e He).
    exists e. split; [done|]. split; [done|].
    rewrite TrimSpace_plain by (eapply element_char_plain, print_element_chars; [|exact Hv]; lia).
    apply parseAtom_print; [lia|done..]. }
  pose proof (parse_atoms_spec min max (map print_element es) 0 ltac:(lia) Hmax) as Hp.
  destruct (parse_atoms _ _ _ _) as [[out|e]|w].
  - destruct (Z.eqb_spec out 0) as [->|]; [|by eexists]. exfalso. destruct es as [|e es]; [done|].
    inversion Hv as [|? ? He _]; subst. specialize (Hp (element_lo min e) ltac:(destruct He; lia)).
    rewrite Z.bits_0 in Hp. cbn [map existsb orb] in Hp.
    rewrite (proj2 (covers_print min max e _ ltac:(lia) Hmax He) (denotes_lo _ _ _ He)) in Hp. done.
  - destruct Hp as (a & Ha & He). destruct (Hatom a Ha) as (e' & _ & _ & Heq). congruence.
  - destruct Hp as (a & lo & hi & st & Ha & He & Hst). destruct (Hatom a Ha) as (e & _ & (_ & _ & Hs) & Heq).
    rewrite Heq in He. simplify_eq. lia.
Qed.

Lemma parseField_means min max es f n :
  0 <= min <= max -> max <= 59 -> valid_field min max es -> parseField (field_text es) min max = Returns (Ok f) ->
  has f n = true <-> in_field min max es n.
Proof.
  intros Hmin Hmax Hv Hp. destruct (parseField_sound _ _ _ _ Hmin Hmax Hp) as [_ Hs]. rewrite Hs. clear Hs.
  rewrite (split_field_text min max) by (done || lia). destruct Hv as [Hne Hv].
  assert (Hin : (exists a, In a (map print_element es) /\ covers min max a n = true) <-> in_field min max es n).
  { unfold in_field. split.
    - intros (a & Ha & Hc). apply in_map_iff in Ha as (e & <- & He). exists e. split; [by apply list_elem_of_In|].
      rewrite List.Forall_forall in Hv. apply covers_print in Hc; [done|lia|done|by apply Hv].
    - intros (e & He & Hd). exists (print_element e). apply list_elem_of_In in He.
      rewrite List.Forall_forall in Hv. split; [by apply in_map|]. apply covers_print; [lia|done|by apply Hv|done]. }
  rewrite Hin. split; [|intros Hf; split; [|by right]].
  - intros [Hr [Hstar|?]]; [|done]. apply Hin.
    pose proof (split_field_text min max es ltac:(lia) (conj Hne Hv)) as Hsp. rewrite Hstar in Hsp. cbn in Hsp.
    exists "*". rewrite <- Hsp. split; [by left|]. unfold covers. change (TrimSpace "*") with "*". cbn [String.eqb].
    change (parseAtom "*" min max) with (parseAtom (print_element (mkElement None None)) min max).
    rewrite parseAtom_print; [|lia|done|].
    + unfold stepped. cbn. rewrite Z.mod_1_r. rewrite !andb_true_iff, !Z.leb_le. lia.
    + split; cbn; unfold int64_max; lia.
  - destruct Hf as (e & He & Hd & _). apply list_elem_of_In in He. rewrite List.Forall_forall in Hv.
    destruct (Hv e He) as (? & ? & _). lia.
Qed.

(** ** Lemmas: the search *)

Lemma next_loop_spec fuel s cap t :
  cap - t <= Z.of_nat fuel * minute ->
  let r := next_loop fuel s cap t in
  (r = zero_time /\ forall k, 0 <= k -> t + k * minute < cap -> matches s (t + k * minute) = false) \/
  (exists k, 0 <= k /\ r = t + k * minute /\ r < cap /\ matches s r = true /\
     forall j, 0 <= j < k -> matches s (t + j * minute) = false).
Proof.
  revert t. induction fuel as [|fuel IH]; intros t Hf; cbn [next_loop].
  - left. split; [done|]. unfold minute, second in *. intros. lia.
  - destruct (Z.ltb_spec t cap) as [Hlt|Hge].
    2: { left. split; [done|]. unfold minute, second in *. intros. lia. }
    destruct (matches s t) eqn:Hm.
    { right. exists 0. rewrite Z.mul_0_l, Z.add_0_r. split_and!; try done; lia. }
    destruct (IH (t + minute)) as [[Hz Hno]|(k & Hk & Hr & Hc & Hmt & Hbefore)]; [lia|left|right].
    + split; [done|]. intros k Hk Hlt'. destruct (Z.eq_dec k 0) as [->|]; [by rewrite Z.mul_0_l, Z.add_0_r|].
      replace (t + k * minute) with (t + minute + (k - 1) * minute) by lia. apply Hno; lia.
    + exists (k + 1). split; [lia|]. split; [rewrite Hr; lia|]. split; [done|]. split; [done|].
      intros j Hj. destruct (Z.eq_dec j 0) as [->|]; [by rewrite Z.mul_0_l, Z.add_0_r|].
      replace (t + j * minute) with (t + minute + (j - 1) * minute) by lia. apply Hbefore. lia.
Qed.

(** Zones whose offset is a whole number of minutes. *)
Definition minute_offsets (loc : location) : Prop := forall s, loc_offset loc s mod 60 = 0.

Lemma first_minute here after :
  minute_offsets here ->
  Truncate minute (after + (minute - Second here after * second)) = minute * (after / minute + 1).
Proof.
  intros Hoff. rewrite Truncate_minute. f_equal. unfold Second, wall.
  pose proof (Z.div_mod (loc_offset here (after / second)) 60 ltac:(done)) as Ho. rewrite Hoff in Ho.
  replace ((after / second + loc_offset here (after / second)) mod 60) with ((after / second) mod 60)
    by (rewrite Ho, Z.add_0_r, (Z.mul_comm 60), Z.mod_add by done; done).
  clear Ho. pose proof (Z.div_mod after second ltac:(done)) as H1.
  pose proof (Z.mod_pos_bound after second ltac:(done)) as H2.
  pose proof (Z.div_mod (after / second) 60 ltac:(done)) as H3.
  pose proof (Z.mod_pos_bound (after / second) 60 ltac:(done)) as H4.
  assert (Hq : after / minute = after / second / 60).
  { unfold minute. rewrite (Z.mul_comm 60 second), Z.div_div by done. done. }
  rewrite Hq. symmetry. apply Z.div_unique with (r := after mod second).
  - left. unfold minute, second in *. lia.
  - unfold minute, second in *. lia.
Qed.

Lemma Next_spec here s after :
  minute_offsets here ->
  let r := Next here s after in
  (r = zero_time /\
   forall t, t mod minute = 0 -> after < t < after + fourYears -> matches s t = false) \/
  (r mod minute = 0 /\ after < r < after + fourYears /\ matches s r = true /\
   forall t, t mod minute = 0 -> after < t < r -> matches s t = false).
Proof.
  intros Hoff. unfold Next. rewrite first_minute by done. set (t0 := minute * (after / minute + 1)).
  set (cap := after + fourYears).
  assert (Ht0 : after < t0 <= after + minute).
  { pose proof (Z.div_mod after minute ltac:(done)). pose proof (Z.mod_pos_bound after minute ltac:(done)). lia. }
  assert (Hgrid : forall t, t mod minute = 0 -> after < t -> exists k, 0 <= k /\ t = t0 + k * minute).
  { intros t Ht Hlt. exists (t / minute - (after / minute + 1)).
    pose proof (Z.div_mod t minute ltac:(done)) as Hd. rewrite Ht in Hd.
    assert (after / minute < t / minute).
    { pose proof (Z.div_mod after minute ltac:(done)).
      pose proof (Z.mod_pos_bound after minute ltac:(done)). unfold minute, second in *. lia. }
    split; [lia|]. unfold t0. lia. }
  assert (Hfuel : cap - t0 <= Z.of_nat (Z.to_nat ((cap - t0) / minute + 1)) * minute).
  { pose proof (Z.div_mod (cap - t0) minute ltac:(done)). pose proof (Z.mod_pos_bound (cap - t0) minute ltac:(done)).
    assert (0 <= (cap - t0) / minute) by (apply Z.div_pos; unfold cap, fourYears, hour, minute, second in *; lia).
    rewrite Z2Nat.id by lia. lia. }
  destruct (next_loop_spec _ s cap t0 Hfuel) as [[Hz Hno]|(k & Hk & Hr & Hc & Hm & Hbefore)]; [left|right].
  - split; [done|]. intros t Ht Hr. destruct (Hgrid t Ht ltac:(lia)) as (k & Hk & ->). apply Hno; [done|]. unfold cap. lia.
  - cbv zeta in *. set (r := next_loop _ _ _ _) in *.
    assert (Hrm : r mod minute = 0).
    { rewrite Hr. unfold t0. rewrite Z.mod_add, Z.mul_comm, Z.mod_mul by done. done. }
    split; [done|]. split; [unfold cap, minute, second in *; lia|].
    split; [done|].
    intros t Ht Hb. destruct (Hgrid t Ht ltac:(lia)) as (j & Hj & ->). apply Hbefore.
    rewrite Hr in Hb. unfold minute, second in *. lia.
Qed.

(** ** From the text of a schedule to its fields *)

Lemma chars_append s t : list_ascii_of_string (s +:+ t) = list_ascii_of_string s ++ list_ascii_of_string t.
Proof. induction s as [|a s IH]; [done|]. cbn. by rewrite IH. Qed.

Definition ascii_seg (a : ascii) : option Z * string := (Some (byte_val a), char_str a).

Lemma char_str_append a s cur : (cur +:+ char_str a) +:+ s = cur +:+ String a s.
Proof. by rewrite append_assoc. Qed.

Lemma fields_of_plain s rest cur :
  all_chars plain_char s = true ->
  fields_of ((ascii_seg <$> list_ascii_of_string s) ++ rest) cur = fields_of rest (cur +:+ s).
Proof.
  revert cur. induction s as [|a s IH]; intros cur Hs; [by rewrite append_empty_r|].
  cbn [all_chars] in Hs. apply andb_prop in Hs as [Ha Hs]. unfold plain_char in Ha. bool_hyps.
  cbn [list_ascii_of_string]. rewrite fmap_cons. cbn [app fields_of].
  change (rune_of (ascii_seg a)) with (byte_val a). rewrite H0. change (snd (ascii_seg a)) with (char_str a).
  by rewrite IH, char_str_append.
Qed.

Lemma plain_ascii s : all_chars plain_char s = true -> all_chars (fun a => byte_val a <? 128) s = true.
Proof. apply all_chars_impl. unfold plain_char. intros a Ha. by apply andb_prop in Ha as [? _]. Qed.

(** A field of a schedule: text that is not empty and has no white space. *)
Definition field_ok (s : string) : Prop := s <> "" /\ all_chars plain_char s = true.

Lemma join_ascii l : Forall field_ok l -> all_chars (fun a => byte_val a <? 128) (join " " l) = true.
Proof.
  intros H. apply all_chars_join; [done|]. eapply Forall_impl; [|exact H]. intros s [_ Hs]. by apply plain_ascii.
Qed.

Lemma fields_of_join l :
  Forall field_ok l -> fields_of (ascii_seg <$> list_ascii_of_string (join " " l)) "" = l.
Proof.
  induction 1 as [|s l [Hne Hs] Hl IH]; [done|]. destruct l as [|s' l].
  - change (join " " [s]) with s. rewrite <- (app_nil_r (_ <$> _)), fields_of_plain by done. cbn [fields_of String.append].
    by destruct (String.eqb_spec s "").
  - rewrite join_cons, chars_append, fmap_app, fields_of_plain by done. cbn [String.append list_ascii_of_string].
    rewrite fmap_cons. cbn [fields_of]. change (IsSpace (rune_of (ascii_seg " "))) with true. cbn iota.
    destruct (String.eqb_spec s ""); [done|]. cbn [app]. f_equal. exact IH.
Qed.

Lemma Fields_join l : Forall field_ok l -> Fields (join " " l) = l.
Proof. intros H. unfold Fields. rewrite runes_ascii by (by apply join_ascii). by apply fields_of_join. Qed.

Lemma last_char s : s <> "" -> exists h b, s = h +:+ String b "".
Proof.
  induction s as [|a s IH]; [done|]. intros _. destruct s as [|a' s]; [by exists "", a|].
  destruct IH as (h & b & ->); [done|]. by exists (String a h), b.
Qed.

(** Text that begins and ends with something other than white space is not
    trimmed. *)
Lemma TrimSpace_ends a r h b :
  String a r = h +:+ String b "" -> plain_char a = true -> plain_char b = true ->
  all_chars (fun c => byte_val c <? 128) (String a r) = true -> TrimSpace (String a r) = String a r.
Proof.
  intros Heq Ha Hb Hasc. unfold plain_char in Ha, Hb. apply andb_prop in Ha as [_ Ha]. apply andb_prop in Hb as [_ Hb].
  apply negb_true_iff in Ha, Hb. unfold TrimSpace, drop_while_end.
  pose proof (runes_ascii _ Hasc) as Hr.
  assert (Hhead : forall (P : option Z * string -> bool) x l, P x = false -> drop_while P (x :: l) = x :: l).
  { intros P x l Hx. cbn [drop_while]. by rewrite Hx. }
  assert (H1 : drop_while (fun seg => IsSpace (rune_of seg)) (runes (String a r)) = runes (String a r)).
  { rewrite Hr. cbn [list_ascii_of_string]. rewrite fmap_cons. apply Hhead, Ha. }
  rewrite H1. clear H1.
  assert (H2 : drop_while (fun seg => IsSpace (rune_of seg)) (reverse (runes (String a r))) = reverse (runes (String a r))).
  { rewrite Hr, Heq, chars_append, fmap_app, reverse_app. apply Hhead, Hb. }
  by rewrite H2, reverse_involutive, bytes_of_runes.
Qed.

Lemma TrimSpace_join s l : Forall field_ok (s :: l) -> TrimSpace (join " " (s :: l)) = join " " (s :: l).
Proof.
  intros Hall.
  assert (Hlast : exists h b, join " " (s :: l) = h +:+ String b "" /\ plain_char b = true).
  { clear -Hall. revert s Hall. induction l as [|s' l IH]; intros s Hall; inversion Hall as [|? ? [Hne Hs] Hl]; subst.
    - change (join " " [s]) with s. destruct (last_char s Hne) as (h & b & ->). exists h, b. split; [done|].
      rewrite all_chars_append in Hs. cbn in Hs. by bool_hyps.
    - destruct (IH s' Hl) as (h & b & Heq & Hb). rewrite join_cons, Heq by done.
      exists (s +:+ " " +:+ h), b. by rewrite !append_assoc. }
  destruct Hlast as (h & b & Heq & Hb). pose proof (join_ascii _ Hall) as Hasc.
  inversion Hall as [|? ? [Hne Hs] _]; subst. destruct s as [|a s]; [done|].
  cbn [all_chars] in Hs. apply andb_prop in Hs as [Ha _].
  assert (Hjoin : exists r, join " " (String a s :: l) = String a r).
  { destruct l; [by exists s|]. rewrite join_cons by done. by eexists. }
  destruct Hjoin as [r Hr]. rewrite Hr in *. by eapply TrimSpace_ends.
Qed.

Lemma field_text_ok min max es : 0 <= min -> max <= 59 -> valid_field min max es -> field_ok (field_text es).
Proof.
  intros Hmin Hmax [Hne Hv]. split.
  - intros He. pose proof (split_field_text min max es Hmin (conj Hne Hv)) as Hsp. rewrite He in Hsp. cbn in Hsp.
    destruct es as [|e es]; [done|]. cbn in Hsp. simplify_eq. inversion Hv as [|? ? Hev _]; subst.
    pose proof (parseAtom_print min max e Hmin Hmax Hev) as Hp. rewrite <- H in Hp. discriminate Hp.
  - unfold field_text. apply all_chars_join; [done|]. apply Forall_map. eapply Forall_impl; [|exact Hv].
    intros e He. by eapply element_char_plain, print_element_chars.
Qed.

(** A schedule as its author means it. *)
Record cron : Type := mkCron { cr_minute : list element; cr_hour : list element; cr_dom : list element;
  cr_month : list element; cr_dow : list element }.

Definition cron_text (c : cron) : string :=
  join " " [field_text (cr_minute c); field_text (cr_hour c); field_text (cr_dom c);
            field_text (cr_month c); field_text (cr_dow c)].

Definition valid_cron (c : cron) : Prop :=
  valid_field 0 59 (cr_minute c) /\ valid_field 0 23 (cr_hour c) /\ valid_field 1 31 (cr_dom c)
  /\ valid_field 1 12 (cr_month c) /\ valid_field 0 6 (cr_dow c).

(** A field names every value of its range. *)
Definition full (min max : Z) (es : list element) : Prop := forall n, min <= n <= max -> in_field min max es n.

(** When it fires: a day is taken when it is in the fields that restrict the
    day, in either when both do. *)
Definition fires (c : cron) (loc : location) (t : Z) : Prop :=
  in_field 0 59 (cr_minute c) (Minute loc t) /\ in_field 0 23 (cr_hour c) (Hour loc t)
  /\ in_field 1 12 (cr_month c) (Month loc t)
  /\ (full 1 31 (cr_dom c) \/ full 0 6 (cr_dow c) \/
      in_field 1 31 (cr_dom c) (Day loc t) \/ in_field 0 6 (cr_dow c) (Weekday loc t))
  /\ (full 1 31 (cr_dom c) -> full 0 6 (cr_dow c) \/ in_field 0 6 (cr_dow c) (Weekday loc t))
  /\ (full 0 6 (cr_dow c) -> full 1 31 (cr_dom c) \/ in_field 1 31 (cr_dom c) (Day loc t)).

Lemma full_set min max es f :
  0 <= min <= max -> max <= 59 -> valid_field min max es -> parseField (field_text es) min max = Returns (Ok f) ->
  (f =? makeFieldSet min max true) = true <-> full min max es.
Proof.
  intros Hmin Hmax Hv Hp.
  assert (Hm : forall n, has f n = true <-> in_field min max es n) by (intros; by eapply parseField_means).
  rewrite Z.eqb_eq. split.
  - intros Heq n Hn. apply Hm. rewrite has_testbit, Heq, makeFieldSet_spec by lia.
    rewrite !andb_true_iff, !Z.leb_le, Z.ltb_lt. lia.
  - intros Hf. apply Z.bits_inj_iff. intros n.
    destruct (Z.lt_decidable n 0) as [Hneg|Hn]; [by rewrite !Z.testbit_neg_r by done|].
    rewrite (parseField_bits _ min max) by done. rewrite makeFieldSet_spec by lia.
    apply eq_true_iff_eq. rewrite andb_true_iff, !Z.leb_le. split; [|intros Hr; by apply Hm, Hf].
    intros Hh. destruct (parseField_sound _ _ _ _ Hmin Hmax Hp) as [_ Hs]. by apply Hs in Hh as [? _].
Qed.

Lemma alias_none c s : has_char "@" (String c s) = false -> alias (String c s) = None.
Proof.
  intros H. assert (Hne : forall x, has_char "@" x = true -> String.eqb (String c s) x = false).
  { intros x Hx. apply String.eqb_neq. intros Heq. rewrite Heq in H. congruence. }
  unfold alias. by rewrite !Hne by done.
Qed.

Lemma ParseSchedule_fields local loc p0 p1 p2 p3 p4 :
  Forall field_ok [p0; p1; p2; p3; p4] -> has_char "@" (join " " [p0; p1; p2; p3; p4]) = false ->
  ParseSchedule local (join " " [p0; p1; p2; p3; p4]) loc =
    field_bind "minute: %w" (parseField p0 0 59) (fun min =>
    field_bind "hour: %w" (parseField p1 0 23) (fun hr =>
    field_bind "day-of-month: %w" (parseField p2 1 31) (fun dom =>
    field_bind "month: %w" (parseField p3 1 12) (fun mo =>
    field_bind "day-of-week: %w" (parseField p4 0 6) (fun dow =>
    Returns (Ok (mkSchedule min hr dom mo dow (default local loc)))))))).
Proof.
  intros Hf Hat. unfold ParseSchedule. cbv zeta. rewrite TrimSpace_join by done.
  destruct (join " " [p0; p1; p2; p3; p4]) as [|c s] eqn:E.
  - exfalso. inversion Hf as [|? ? [Hne _] _]; subst. rewrite join_cons in E by done. by destruct p0.
  - rewrite alias_none by done. cbn [String.eqb default]. rewrite <- E. unfold parseFields.
    change (default (join " " [p0; p1; p2; p3; p4]) None) with (join " " [p0; p1; p2; p3; p4]).
    by rewrite Fields_join.
Qed.

Lemma cron_text_ok c :
  valid_cron c ->
  Forall field_ok [field_text (cr_minute c); field_text (cr_hour c); field_text (cr_dom c);
                   field_text (cr_month c); field_text (cr_dow c)]
  /\ has_char "@" (cron_text c) = false.
Proof.
  intros (H0 & H1 & H2 & H3 & H4). split.
  - repeat (apply List.Forall_cons; [eapply field_text_ok; [| |eassumption]; lia|]). apply List.Forall_nil.
  - assert (Hat : forall min max es, 0 <= min -> valid_field min max es ->
              all_chars (fun a => element_char a || char_in ", " a) (field_text es) = true).
    { intros min max es Hmin [_ Hv]. apply all_chars_join; [done|]. apply Forall_map.
      eapply Forall_impl; [|exact Hv]. intros e He. eapply all_chars_impl; [|by eapply print_element_chars].
      by intros a ->. }
    apply (all_chars_not_has (fun a => element_char a || char_in ", " a)); [done|].
    apply all_chars_join; [done|].
    repeat (apply List.Forall_cons; [eapply Hat; [|eassumption]; lia|]). apply List.Forall_nil.
Qed.

Lemma matches_fires c s loc t :
  valid_cron c ->
  parseField (field_text (cr_minute c)) 0 59 = Returns (Ok (sc_minute s)) ->
  parseField (field_text (cr_hour c)) 0 23 = Returns (Ok (sc_hour s)) ->
  parseField (field_text (cr_dom c)) 1 31 = Returns (Ok (sc_dayOfMonth s)) ->
  parseField (field_text (cr_month c)) 1 12 = Returns (Ok (sc_month s)) ->
  parseField (field_text (cr_dow c)) 0 6 = Returns (Ok (sc_dayOfWeek s)) ->
  sc_loc s = loc -> matches s t = true <-> fires c loc t.
Proof.
  intros (V0 & V1 & V2 & V3 & V4) P0 P1 P2 P3 P4 Hloc. unfold matches, fires. rewrite Hloc. clear Hloc.
  pose proof (parseField_means 0 59 _ _ (Minute loc t) ltac:(lia) ltac:(lia) V0 P0) as M0.
  pose proof (parseField_means 0 23 _ _ (Hour loc t) ltac:(lia) ltac:(lia) V1 P1) as M1.
  pose proof (parseField_means 1 31 _ _ (Day loc t) ltac:(lia) ltac:(lia) V2 P2) as M2.
  pose proof (parseField_means 1 12 _ _ (Month loc t) ltac:(lia) ltac:(lia) V3 P3) as M3.
  pose proof (parseField_means 0 6 _ _ (Weekday loc t) ltac:(lia) ltac:(lia) V4 P4) as M4.
  pose proof (full_set 1 31 _ _ ltac:(lia) ltac:(lia) V2 P2) as F2.
  pose proof (full_set 0 6 _ _ ltac:(lia) ltac:(lia) V4 P4) as F4.
  rewrite <- M0, <- M1, <- M2, <- M3, <- M4, <- F2, <- F4. clear.
  destruct (has (sc_minute s) _), (has (sc_hour s) _), (has (sc_month s) _), (has (sc_dayOfMonth s) _),
    (has (sc_dayOfWeek s) _), (sc_dayOfMonth s =? _), (sc_dayOfWeek s =? _); cbn; intuition congruence.
Qed.

(** ** Lemmas: the scheduler *)

Section Scheduler.
Variables local here : location.
Hypothesis here_ok : minute_offsets here.

(** A tick: the settings it reads and its time. *)
Definition tick : Type := backupSnapshot * Z.

(** The ticks of the loop, each with whether the backup ran; a panic ends
    it. *)
Fixpoint run_ticks (next : scheduledFire) (ticks : list tick) : list (tick * bool) :=
  match ticks with
  | [] => []
  | (snap, now) :: rest =>
      match schedulerTick local here snap now next with
      | Panics _ => []
      | Returns (next', ran) => ((snap, now), ran) :: run_ticks next' rest
      end
  end.

(** The zone data: locations are told apart by their names. *)
Variable zone : string -> location.
Hypothesis zone_name : forall n, loc_name (zone n) = n.

Definition snap_ok (snap : backupSnapshot) : Prop :=
  exists n, has_char "|" n = false /\ bs_Location snap = Some (zone n).

Lemma source_inj snap snap' :
  snap_ok snap -> snap_ok snap' -> scheduleSource snap = scheduleSource snap' ->
  bs_Schedule snap = bs_Schedule snap' /\ bs_Location snap = bs_Location snap'.
Proof.
  intros (n & Hn & Hl) (n' & Hn' & Hl'). unfold scheduleSource. rewrite Hl, Hl', !zone_name.
  generalize (bs_Schedule snap) (bs_Schedule snap'). intros a. clear -Hn Hn'.
  assert (Hno : forall u v : string, has_char "|" (u +:+ String "|" v) = true).
  { intros u v. rewrite has_char_append. cbn. apply orb_true_r. }
  induction a as [|x a IH]; intros [|y b] Heq; cbn [String.append] in Heq; injection Heq.
  - intros ->. done.
  - intros Hb _. rewrite Hb, Hno in Hn. done.
  - intros Hb _. rewrite <- Hb, Hno in Hn'. done.
  - intros Hb ->. by destruct (IH b Hb) as [-> ->].
Qed.

(** The stored fire time is the first one after [since] of the settings it
    was computed from. *)
Definition fire_ok (since : Z) (next : scheduledFire) : Prop :=
  IsZero (sf_at next) = true \/
  exists snap s, snap_ok snap /\ sf_source next = scheduleSource snap
    /\ ParseSchedule local (bs_Schedule snap) (bs_Location snap) = Returns (Ok s)
    /\ sf_at next mod minute = 0 /\ since < sf_at next /\ matches s (sf_at next) = true.

Lemma Next_fire_ok snap s t since :
  snap_ok snap -> ParseSchedule local (bs_Schedule snap) (bs_Location snap) = Returns (Ok s) -> since <= t ->
  fire_ok since (mkFire (Next here s t) (scheduleSource snap)).
Proof.
  intros Hs Hp Hle. destruct (Next_spec here s t here_ok) as [[Hz _]|(Hm & Hr & Hmt & _)].
  - left. cbn. rewrite Hz. apply Z.eqb_refl.
  - right. exists snap, s. cbn. split_and!; try done. lia.
Qed.

(** What a tick reports when it runs the backup. *)
Definition due (since : Z) (t : tick) : Prop :=
  bs_Enabled (fst t) = true /\ exists s at_, ParseSchedule local (bs_Schedule (fst t)) (bs_Location (fst t)) = Returns (Ok s)
    /\ matches s at_ = true /\ at_ mod minute = 0 /\ since < at_ <= snd t.

Lemma tick_spec since snap now next next' ran :
  snap_ok snap -> since <= now -> fire_ok since next ->
  schedulerTick local here snap now next = Returns (next', ran) ->
  if ran then due since (snap, now) /\ fire_ok now next' else fire_ok since next'.
Proof.
  intros Hs Hle Hn. unfold schedulerTick. destruct (negb _ || _) eqn:Hen; [intros [= <- <-]; by left|].
  bool_hyps. destruct (ParseSchedule _ _ _) as [[s|e]|w] eqn:Hp; [|intros [= <- <-]; done|done].
  set (nx := if (_ || _ || negb _) then mkFire _ _ else next).
  assert (Hnx : fire_ok since nx /\ sf_source nx = scheduleSource snap).
  { subst nx. destruct (_ || _) eqn:E; [split; [by apply Next_fire_ok|done]|]. bool_hyps. split; [done|]. done. }
  destruct Hnx as [Hnx Hsrc]. clearbody nx.
  destruct (IsZero (sf_at nx) || (now <? sf_at nx)) eqn:Hd; intros [= <- <-]; [done|]. bool_hyps.
  split; [|apply Next_fire_ok; try done; unfold minute, second; lia]. split; [by cbn; destruct (bs_Enabled snap)|].
  destruct Hnx as [Hz|(snap' & s' & Hs' & Hsrc' & Hp' & Hm & Hlt & Hmt)]; [congruence|].
  destruct (source_inj snap snap' Hs Hs') as [E1 E2]; [congruence|]. cbn [fst snd].
  exists s', (sf_at nx). rewrite E1, E2. split_and!; done || lia.
Qed.

(** Every run among the reported ticks is due to a fire time later than
    [since], and later than the run before it. *)
Fixpoint all_due (since : Z) (reports : list (tick * bool)) : Prop :=
  match reports with
  | [] => True
  | (t, true) :: rest => due since t /\ all_due (snd t) rest
  | (_, false) :: rest => all_due since rest
  end.

Lemma run_ticks_due ticks since next :
  Forall (fun t => snap_ok (fst t)) ticks -> fire_ok since next ->
  Forall (fun t => since <= snd t) ticks -> StronglySorted (fun t u => snd t <= snd u) ticks ->
  all_due since (run_ticks next ticks).
Proof.
  revert since next. induction ticks as [|[snap now] ticks IH]; intros since next Hs Hn Ht Ho; [done|].
  inversion Hs; inversion Ht; subst. apply StronglySorted_inv in Ho as [Ho Hnow]. cbn [run_ticks].
  destruct (schedulerTick local here snap now next) as [[next' ran]|w] eqn:E; [|done].
  apply (tick_spec since) in E; [|done..]. destruct ran; cbn [all_due snd].
  - destruct E as [Hd Hf]. split; [done|]. by apply IH.
  - by apply IH.
Qed.

End Scheduler.

(** ** The properties *)

(** C19: A schedule means what it says.  Every expression of five fields, each
    a comma list of all values, one value or a range with an optional step
    within the field's bounds, is accepted, and the schedule it becomes fires
    at a minute of its location exactly when the minute, hour and month are
    named and the day is: by the day fields that restrict it, by either when
    both do.  This includes ranges with a step, which the comment on the
    schedule type calls unsupported. *)
Theorem schedule_means_its_text (local : location) (loc : option location) (c : cron) (Hc : valid_cron c) :
  exists s, ParseSchedule local (cron_text c) loc = Returns (Ok s)
    /\ sc_loc s = default local loc
    /\ forall t, matches s t = true <-> fires c (default local loc) t.
Proof.
  destruct (cron_text_ok c Hc) as [Hf Hat]. pose proof Hc as (V0 & V1 & V2 & V3 & V4).
  destruct (parseField_accepts 0 59 _ ltac:(lia) ltac:(lia) V0) as [f0 P0].
  destruct (parseField_accepts 0 23 _ ltac:(lia) ltac:(lia) V1) as [f1 P1].
  destruct (parseField_accepts 1 31 _ ltac:(lia) ltac:(lia) V2) as [f2 P2].
  destruct (parseField_accepts 1 12 _ ltac:(lia) ltac:(lia) V3) as [f3 P3].
  destruct (parseField_accepts 0 6 _ ltac:(lia) ltac:(lia) V4) as [f4 P4].
  exists (mkSchedule f0 f1 f2 f3 f4 (default local loc)). split.
  - unfold cron_text in *. rewrite ParseSchedule_fields by done. by rewrite P0, P1, P2, P3, P4.
  - split; [done|]. intros t. by apply matches_fires.
Qed.

(** Every Sunday and every fifteenth at 3:30 and 15:30. *)
Definition sample_cron : cron :=
  mkCron [mkElement (Some (30, None)) None] [mkElement (Some (3, Some 23)) (Some 12)]
    [mkElement (Some (15, None)) None] [mkElement None None] [mkElement (Some (0, None)) None].

Lemma sample_cron_valid : valid_cron sample_cron.
Proof.
  repeat split; try discriminate; (apply List.Forall_cons; [|apply List.Forall_nil]);
    repeat split; cbn; unfold int64_max; lia.
Defined.

Example sample_cron_text : cron_text sample_cron = "30 3-23/12 15 * 0".
Proof. reflexivity. Qed.

Lemma schedule_means_its_text_witness :
  exists s, ParseSchedule UTC "30 3-23/12 15 * 0" None = Returns (Ok s)
    /\ sc_loc s = UTC /\ forall t, matches s t = true <-> fires sample_cron UTC t.
Proof. apply (schedule_means_its_text UTC None sample_cron). exact sample_cron_valid. Defined.

(** The comment on the type says that ranges with steps are not supported;
    they are parsed. *)
Lemma range_with_step_accepted :
  match ParseSchedule UTC "0 8-18/2 * * *" None with
  | Returns (Ok s) => List.map (has (sc_hour s)) [8; 9; 10; 18; 19; 20] = [true; false; true; true; false; false]
  | _ => False
  end.
Proof. vm_compute. reflexivity. Qed.

(** C20: [Next] finds the first fire time.  The search always ends; it returns
    a whole minute later than [after] and less than four years later at which
    the schedule matches, with no matching minute in between, or the zero
    time exactly when no minute of the four years matches. *)
Theorem Next_first_match (here : location) (s : Schedule) (after : Z)
  (Hh : minute_offsets here) (Hz : zero_time <= after) :
  let r := Next here s after in
  (r = zero_time <->
   forall t, t mod minute = 0 -> after < t < after + fourYears -> matches s t = false) /\
  (r <> zero_time ->
   r mod minute = 0 /\ after < r < after + fourYears /\ matches s r = true /\
   forall t, t mod minute = 0 -> after < t < r -> matches s t = false).
Proof.
  destruct (Next_spec here s after Hh) as [[Hr Hno]|(Hm & Hb & Hmt & Hbefore)]; cbv zeta in *.
  - split; [done|]. intros Hne. by destruct Hne.
  - split; [|done]. split; [lia|]. intros Hall. rewrite (Hall _ Hm Hb) in Hmt. done.
Qed.

(** The schedule of the sample, and 4 October 2024. *)
Definition sample_schedule : Schedule := mkSchedule (bit64 30) (Z.lor (bit64 3) (bit64 15)) (bit64 15)
  (makeFieldSet 1 12 true) (bit64 0) UTC.
Definition sample_day : Z := 20000 * 86400 * second.

Lemma Next_first_match_witness :
  let r := Next UTC sample_schedule sample_day in
  (r = zero_time <->
   forall t, t mod minute = 0 -> sample_day < t < sample_day + fourYears -> matches sample_schedule t = false) /\
  (r <> zero_time ->
   r mod minute = 0 /\ sample_day < r < sample_day + fourYears /\ matches sample_schedule r = true /\
   forall t, t mod minute = 0 -> sample_day < t < r -> matches sample_schedule t = false).
Proof. apply (Next_first_match UTC sample_schedule sample_day); [intros s; reflexivity|vm_compute; discriminate]. Defined.

(** The scheduler runs a backup when one is due, once.  Over any run of
    ticks with a clock that does not go back, whatever edits to the settings
    happen between them, a backup runs only while backups are enabled and
    when a minute of the schedule read by that very tick has come; that
    minute is later than the tick of the run before, so no fire time is used
    twice. *)
Theorem scheduler_runs_when_due (local here : location) (zone : string -> location) (ticks : list tick) (start : Z)
  (Hh : minute_offsets here) (Hz : forall n, loc_name (zone n) = n)
  (Hs : Forall (fun t => snap_ok zone (fst t)) ticks)
  (Ht : Forall (fun t => start <= snd t) ticks)
  (Ho : StronglySorted (fun t u => snd t <= snd u) ticks) :
  all_due local start (run_ticks local here noFire ticks).
Proof. apply (run_ticks_due local here Hh zone Hz); try done. by left. Qed.

Definition named_utc (n : string) : location := mkLocation n (fun _ => 0).
Definition sample_snap : backupSnapshot := mkSnapshot true "@hourly" (Some (named_utc "UTC")) zero_time.
Definition sample_ticks : list tick :=
  [(sample_snap, sample_day + 1); (sample_snap, sample_day + hour); (sample_snap, sample_day + hour + 30 * second)].

Lemma scheduler_runs_when_due_witness :
  all_due UTC sample_day (run_ticks UTC UTC noFire sample_ticks)
  /\ map snd (run_ticks UTC UTC noFire sample_ticks) = [false; true; false].
Proof.
  split; [|reflexivity].
  apply (scheduler_runs_when_due UTC UTC named_utc sample_ticks sample_day).
  - intros s. reflexivity.
  - intros n. reflexivity.
  - repeat (apply List.Forall_cons; [exists "UTC"; split; reflexivity|]). apply List.Forall_nil.
  - repeat (apply List.Forall_cons; [vm_compute; discriminate|]). apply List.Forall_nil.
  - repeat first [apply SSorted_cons | apply SSorted_nil | apply List.Forall_cons | apply List.Forall_nil
                 | (vm_compute; discriminate)].
Defined.

(** ** Behaviours worth knowing *)

(** A step close to the largest integer wraps the loop counter, and the shift
    by the wrapped value panics: a schedule can stop the process that parses
    it. *)
Lemma huge_step_panics :
  ParseSchedule UTC "0 0 */9223372036854775807 * *" None = Panics "negative shift amount".
Proof. reflexivity. Qed.

(** After a run the next fire time is searched from a minute later, so a
    schedule that names every minute runs in every other one at most. *)
Lemma next_minute_skipped local here snap now next next' :
  minute_offsets here -> schedulerTick local here snap now next = Returns (next', true) ->
  sf_at next' = zero_time \/ now + minute < sf_at next'.
Proof.
  intros Hh. unfold schedulerTick. destruct (negb _ || _); [done|].
  destruct (ParseSchedule _ _ _) as [[s|e]|w]; [|done..]. destruct (_ || (now <? _)); [done|].
  intros Heq. assert (next' = mkFire (Next here s (now + minute)) (scheduleSource snap)) as -> by congruence.
  cbn [sf_at]. destruct (Next_spec here s (now + minute) Hh) as [[? _]|(_ & Hb & _)]; [by left|right; lia].
Qed.
