(* ===== verification/Update.v ===== *)
(** * The software update

    internal/services/update.go, internal/services/release_signing.go,
    internal/releasekey and cmd/lankeeper/update_guard.go.  The state is the
    disk (installed binary, its backup, the update state file, the pre-update
    archives, the armed guard unit) and the fields of the process.  Every
    command and download takes its outcome from the environment of the call;
    SHA-256, ed25519 and the archive reader are parameters.  The state file
    is kept as the record it encodes: its strings are tags and paths, which
    JSON carries unchanged. *)

From S2P Require Import Prelude GoStrings GoTime GoPath Regex Encoding AgentRules.

Local Open Scope Z_scope.
Local Open Scope go_scope.

(** ** Versions and tags *)

(** [releaseTagPattern]. *)
Definition rdigit : regex := RCls is_digit.
Definition suffix_char (a : ascii) : bool := is_alnum a || char_in ".-" a.
Definition releaseTagPattern : regex :=
  RSeq (ropt (rchar "v")) (RSeq (rplus rdigit)
    (RSeq (rupto 3 (RSeq (rchar ".") (rplus rdigit)))
      (ropt (RSeq (rchar "-") (RSeq (RCls is_alnum) (RStar (RCls suffix_char))))))).

Definition maxReleaseTagLength : Z := 64.

Definition ErrInvalidReleaseTag : error := Errorf "release tag is not a version string" [].

Definition validateReleaseTag (tag : string) : result unit :=
  fail_if ((maxReleaseTagLength <? len tag) || negb (matchb releaseTagPattern tag))
    (Errorw "%w: %q" [tag] ErrInvalidReleaseTag).

Definition parseSemver (v : string) : Z * Z * Z :=
  let v := TrimPrefix v "v" in
  let v := match cut_byte "-" v with Some (h, _) => h | None => v end in
  let parts := split_byte "." v in
  let part i := match parts !! i with Some p => Atoi_value p | None => 0 end in
  (part 0%nat, part 1%nat, part 2%nat).

(** The loop over the three numbers. *)
Fixpoint compare_parts (a b : list Z) : Z :=
  match a, b with
  | x :: a', y :: b' => if y <? x then 1 else if x <? y then -1 else compare_parts a' b'
  | _, _ => 0
  end.

Definition CompareSemver (a b : string) : Z :=
  let '(a0, a1, a2) := parseSemver a in
  let '(b0, b1, b2) := parseSemver b in
  compare_parts [a0; a1; a2] [b0; b1; b2].

(** ** Releases *)

Record ghAsset : Type := mkAsset { as_Name : string; as_Size : Z; as_URL : string }.
Record ghRelease : Type := mkRelease {
  rl_TagName : string; rl_Body : string; rl_Published : location * Z; rl_Assets : list ghAsset }.

Record UpdateInfo : Type := mkInfo {
  ui_Available : bool; ui_CurrentVersion : string; ui_LatestVersion : string; ui_Architecture : string;
  ui_ReleaseNotes : string; ui_DownloadURL : string; ui_ChecksumURL : string; ui_SignatureURL : string;
  ui_AssetName : string; ui_PublishedAt : string; ui_AssetSize : Z }.

(** One turn of the loop of [selectAssets]. *)
Definition selectAsset (arch : string) (info : UpdateInfo) (a : ghAsset) : UpdateInfo :=
  let archive := Contains (as_Name a) ("linux-" +:+ arch) && HasSuffix (as_Name a) ".tar.gz" in
  mkInfo (ui_Available info) (ui_CurrentVersion info) (ui_LatestVersion info) (ui_Architecture info)
    (ui_ReleaseNotes info)
    (if archive then as_URL a else ui_DownloadURL info)
    (if String.eqb (as_Name a) "SHA256SUMS" then as_URL a else ui_ChecksumURL info)
    (if String.eqb (as_Name a) "SHA256SUMS.sig" then as_URL a else ui_SignatureURL info)
    (if archive then as_Name a else ui_AssetName info)
    (ui_PublishedAt info)
    (if archive then as_Size a else ui_AssetSize info).

Definition selectAssets (arch : string) (info : UpdateInfo) (assets : list ghAsset) : UpdateInfo :=
  foldl (selectAsset arch) info assets.

(** [t.Format("2006-01-02")]. *)
Definition pad (width : nat) (s : string) : string := String.concat "" (repeat "0" (width - String.length s)) +:+ s.
Definition format_date (t : location * Z) : string :=
  let '(y, m, d) := civil (wall (fst t) (snd t) / 86400) in
  pad 4 (itoa y) +:+ "-" +:+ pad 2 (itoa m) +:+ "-" +:+ pad 2 (itoa d).

(** [fetchLatestRelease] with the answer of the API: a failure, or a status
    and the release its body decodes to. *)
Definition fetchLatestRelease (answer : result (Z * result ghRelease)) : result ghRelease :=
  let? (status, body) := wrap_err "fetch releases: %w" [] answer in
  guard! fail_if (negb (status =? 200)) (Errorf "GitHub API returned %d" [itoa status]) ;;
  let? release := wrap_err "decode release: %w" [] body in
  guard! validateReleaseTag (rl_TagName release) ;;
  Ok release.

Definition CheckForUpdate (version arch : string) (answer : result (Z * result ghRelease)) : result UpdateInfo :=
  let? release := fetchLatestRelease answer in
  let info := mkInfo false version (rl_TagName release) arch (rl_Body release) "" "" "" ""
    (format_date (rl_Published release)) 0 in
  let info := selectAssets arch info (rl_Assets release) in
  Ok (mkInfo (0 <? CompareSemver (rl_TagName release) version) (ui_CurrentVersion info) (ui_LatestVersion info)
        (ui_Architecture info) (ui_ReleaseNotes info) (ui_DownloadURL info) (ui_ChecksumURL info)
        (ui_SignatureURL info) (ui_AssetName info) (ui_PublishedAt info) (ui_AssetSize info)).

(** ** Downloading and checking *)

Definition maxUpdateArchiveBytes : Z := Z.shiftl 256 20.
Definition maxUpdateBinaryBytes : Z := Z.shiftl 512 20.
Definition errUpdateTooLarge : error := Errorf "update payload exceeds the size limit" [].

(** [copyCapped]: what was written, and an error when the source had more. *)
Definition copyCapped (src : string) (limit : Z) : result string :=
  guard! fail_if (limit <? len src) (Errorw "%w (%d bytes)" [itoa limit] errUpdateTooLarge) ;;
  Ok src.

(** [downloadFile]: the body of the answer ends up in the file. *)
Definition downloadFile (declaredSize : Z) (answer : result (Z * string)) (create : result unit) : result string :=
  guard! fail_if (maxUpdateArchiveBytes <? declaredSize)
    (Errorw "%w: asset declares %d bytes, limit is %d" [itoa declaredSize; itoa maxUpdateArchiveBytes] errUpdateTooLarge) ;;
  let? (status, body) := answer in
  guard! fail_if (negb (status =? 200)) (Errorf "download returned %d" [itoa status]) ;;
  guard! create ;;
  let? written := copyCapped body maxUpdateArchiveBytes in
  guard! fail_if ((0 <? declaredSize) && negb (len written =? declaredSize))
    (Errorf "downloaded %d bytes, asset declares %d" [itoa (len written); itoa declaredSize]) ;;
  Ok written.

(** A member of the archive; the reader may stop at an error. *)
Record tar_entry : Type := mkEntry { te_Name : string; te_regular : bool; te_Size : Z; te_data : string }.
Inductive tar_stream : Type :=
| TarEOF
| TarErr (e : error)
| TarNext (entry : tar_entry) (rest : tar_stream).

Definition writeUpdateBinary (entry : tar_entry) (io : result unit) : result string :=
  guard! fail_if (maxUpdateBinaryBytes <? te_Size entry)
    (Errorw "%w: archive entry declares %d bytes, limit is %d" [itoa (te_Size entry); itoa maxUpdateBinaryBytes]
       errUpdateTooLarge) ;;
  let? data := copyCapped (te_data entry) maxUpdateBinaryBytes in
  guard! io ;;
  Ok data.

Fixpoint extract_loop (s : tar_stream) (io : result unit) : result string :=
  match s with
  | TarEOF => Err (Errorf "binary 'lankeeper' not found in archive" [])
  | TarErr e => Err (Errorw "tar read: %w" [] e)
  | TarNext entry rest =>
      if String.eqb (Base (te_Name entry)) "lankeeper" && te_regular entry
      then writeUpdateBinary entry io
      else extract_loop rest io
  end.

(** A bounded read of a small file: [io.LimitReader(resp.Body, 64<<10)]. *)
Definition fetchChecksumFile (answer : result (Z * string)) : result string :=
  let? (status, body) := wrap_err "download checksum file: %w" [] answer in
  guard! fail_if (negb (status =? 200)) (Errorf "checksum file returned HTTP %d" [itoa status]) ;;
  Ok (substring 0 (Z.to_nat (Z.shiftl 64 10)) body).

Section Verify.
(** [strings.ToLower] outside ASCII, and ed25519. *)
Variable unicode_lower : string -> string.
Variable ed25519_verify : string -> string -> string -> bool.

Definition lower_char (a : ascii) : ascii := if is_upper a then byte_of (byte_val a + 32) else a.
Fixpoint lower_ascii (s : string) : string :=
  match s with "" => "" | String a r => String (lower_char a) (lower_ascii r) end.
Definition ToLower (s : string) : string :=
  if all_chars (fun a => byte_val a <? 128) s then lower_ascii s else unicode_lower s.

Definition PublicKeyB64 : string := "sI0C6bdE7SGWEL5zJ1ZkdwSdTIGcJsFlSvBwIbVjFPY=".

(** [PublicKey]; the constant decodes, so it does not panic. *)
Definition PublicKey : string := default "" (b64_decode PublicKeyB64).

Definition ErrMalformedSignature : error := Errorf "SHA256SUMS.sig is not a base64 ed25519 signature" [].
Definition ErrBadSignature : error := Errorf "SHA256SUMS signature does not verify against the release key" [].

(** [releasekey.Verify]. *)
Definition Verify (pub sums sigB64 : string) : result unit :=
  match b64_decode (TrimSpace sigB64) with
  | Some sig =>
      if negb (len sig =? 64) then Err ErrMalformedSignature
      else fail_if (negb (ed25519_verify pub sums sig)) ErrBadSignature
  | None => Err ErrMalformedSignature
  end.

Definition verifyChecksumSignature (sigURL sums : string) (answer : result (Z * string)) : result unit :=
  guard! fail_if (String.eqb sigURL "")
    (Errorf "release has no SHA256SUMS.sig asset, refusing to install an unsigned binary" []) ;;
  let? raw := wrap_err "signature: %w" [] (fetchChecksumFile answer) in
  Verify PublicKey sums raw.

(** The first line that names the archive. *)
Fixpoint checksum_line (lines : list string) (archiveName : string) : string :=
  match lines with
  | [] => ""
  | line :: rest =>
      match Fields line with
      | hash :: name :: _ => if Contains name archiveName then ToLower hash else checksum_line rest archiveName
      | _ => checksum_line rest archiveName
      end
  end.

Definition expectedChecksum (body archiveName : string) : string :=
  checksum_line (split_byte (ascii_of_nat 10) body) archiveName.

(** [verifyChecksum]; [actual] is what hashing the archive gave. *)
Definition verifyChecksum (info : UpdateInfo) (archivePath : string) (sums sig : result (Z * string))
  (actual : result string) : result unit :=
  guard! fail_if (String.eqb (ui_ChecksumURL info) "")
    (Errorf "release has no SHA256SUMS asset, refusing to install an unverified binary" []) ;;
  guard! fail_if (negb (Contains (ui_AssetName info) ("-" +:+ ui_LatestVersion info +:+ "-linux-")))
    (Errorf "asset %q is not built for release %s" [ui_AssetName info; ui_LatestVersion info]) ;;
  let? body := fetchChecksumFile sums in
  guard! verifyChecksumSignature (ui_SignatureURL info) body sig ;;
  let archiveName := Base archivePath in
  let expectedHash := expectedChecksum body archiveName in
  guard! fail_if (String.eqb expectedHash "")
    (Errorf "no checksum found for %s in release checksum file" [archiveName]) ;;
  let? actualHash := actual in
  fail_if (negb (String.eqb actualHash expectedHash))
    (Errorf "SHA-256 mismatch: expected %s, got %s" [expectedHash; actualHash]).

End Verify.

(** ** The state *)

(** The update state file: unreadable as JSON, or its record. *)
Inductive state_file : Type :=
| StateInvalid
| StateRecord (pending previous backup snapshot : string).

Record disk : Type := mkDisk {
  d_binary : string;              (* content of the installed binary *)
  d_backup : option string;       (* content of the .bak file *)
  d_state : option state_file;
  d_snapshots : gset string;      (* pre-update archives, by path *)
  d_guard : bool;                 (* the guard's timer unit is armed *)
  d_branding : string }.

Record service : Type := mkService {
  u_version : string; u_pending : string; u_previous : string; u_backup : string; u_snapshot : string }.

Abbreviation command := (string * list string)%type.

(** A [cp] that fails may have replaced the destination's content. *)
Inductive cp_outcome : Type :=
| CpOk
| CpFail (left_ : option string) (e : error).

Definition set_binary (b : string) (d : disk) : disk :=
  mkDisk b (d_backup d) (d_state d) (d_snapshots d) (d_guard d) (d_branding d).
Definition set_backup (b : option string) (d : disk) : disk :=
  mkDisk (d_binary d) b (d_state d) (d_snapshots d) (d_guard d) (d_branding d).
Definition set_state (s : option state_file) (d : disk) : disk :=
  mkDisk (d_binary d) (d_backup d) s (d_snapshots d) (d_guard d) (d_branding d).
Definition set_snapshots (s : gset string) (d : disk) : disk :=
  mkDisk (d_binary d) (d_backup d) (d_state d) s (d_guard d) (d_branding d).
Definition set_guard (g : bool) (d : disk) : disk :=
  mkDisk (d_binary d) (d_backup d) (d_state d) (d_snapshots d) g (d_branding d).
Definition set_branding (b : string) (d : disk) : disk :=
  mkDisk (d_binary d) (d_backup d) (d_state d) (d_snapshots d) (d_guard d) b.

Definition binaryPath : string := "/usr/local/bin/lankeeper".
Definition backupPath : string := binaryPath +:+ ".bak".
Definition stagedPath : string := "/var/lib/lankeeper/update/lankeeper-new".

Definition preUpdateSnapshotDir : string := "/var/backups".

Definition preUpdateSnapshotPath (version : string) : string :=
  Join [preUpdateSnapshotDir; "lankeeper-pre-update-" +:+ version +:+ ".tar.gz"].

Definition safeUpdateFileName (name : string) : string :=
  let name := Base (TrimSpace name) in
  if String.eqb name "." || String.eqb name "/" || String.eqb name "" then "lankeeper-update.tar.gz" else name.

(** ** The commands and their effects *)

(** The outcomes of everything one operation does outside the process.
    [e_export] is [None] when there is no backup service. *)
Record env : Type := mkEnv {
  e_export : option (result unit);
  e_download : result (Z * string); e_create : result unit;
  e_sums : result (Z * string); e_sig : result (Z * string);
  e_hash : result unit; e_open : result unit; e_stage : result unit; e_stageIO : result unit;
  e_cpBackup : cp_outcome; e_cpNew : cp_outcome; e_chmod : result unit; e_version : result string;
  e_cpRestore : cp_outcome;
  e_save : result unit; e_saveLeft : option state_file;
  e_arm : result unit; e_stop : result unit; e_rmBackup : result unit; e_rmSnapshot : result unit;
  e_clear : result unit; e_brand : result unit }.

(** [restoreBinary]: best effort. *)
Definition restoreBinary (e : env) (d : disk) : disk :=
  match e_cpRestore e, d_backup d with
  | CpOk, Some b => set_binary b d
  | CpFail (Some junk) _, _ => set_binary junk d
  | _, _ => d
  end.

Definition cmd_restore : command := ("cp", ["-f"; backupPath; binaryPath]).

Definition installBinary (e : env) (new version : string) (d : disk) : disk * list command * result unit :=
  let c1 : command := ("cp", ["-f"; binaryPath; backupPath]) in
  let c2 : command := ("cp", ["-f"; stagedPath; binaryPath]) in
  let c3 : command := ("chmod", ["+x"; binaryPath]) in
  match e_cpBackup e with
  | CpFail l er => (match l with Some j => set_backup (Some j) d | None => d end, [c1],
                    Err (Errorw "backup binary: %w" [] er))
  | CpOk =>
      let d1 := set_backup (Some (d_binary d)) d in
      match e_cpNew e with
      | CpFail l er =>
          let d2 := match l with Some j => set_binary j d1 | None => d1 end in
          (restoreBinary e d2, [c1; c2; cmd_restore], Err (Errorw "install binary: %w" [] er))
      | CpOk =>
          let d2 := set_binary new d1 in
          match e_chmod e with
          | Err er => (restoreBinary e d2, [c1; c2; c3; cmd_restore], Err (Errorw "chmod: %w" [] er))
          | Ok _ =>
              match e_version e with
              | Ok out =>
                  if Contains out (TrimPrefix version "v") then (d2, [c1; c2; c3], Ok tt)
                  else (restoreBinary e d2, [c1; c2; c3; cmd_restore], Err (Errorf "version verification failed" []))
              | Err _ => (restoreBinary e d2, [c1; c2; c3; cmd_restore], Err (Errorf "version verification failed" []))
              end
          end
      end
  end.

Definition snapshotConfig (e : env) (version : string) (d : disk) : disk * string :=
  match e_export e with
  | None => (d, "")
  | Some (Err _) => (d, "")
  | Some (Ok _) => let p := preUpdateSnapshotPath version in (set_snapshots ({[p]} ∪ d_snapshots d) d, p)
  end.

Definition clearUpdateState (e : env) (d : disk) : disk := if is_ok (e_clear e) then set_state None d else d.

Definition cmd_arm : command :=
  ("systemd-run", ["--unit=" +:+ UpdateGuardUnit; "--on-active=" +:+ itoa 60; UpdateGuardBinary; "update-guard"]).
Definition cmd_stop : command := ("systemctl", ["stop"; UpdateGuardUnit +:+ ".timer"]).
Definition cmd_restart : command := ("systemctl", ["restart"; "lankeeper.target"]).

Definition armUpdateGuard (e : env) (d : disk) : disk * result unit :=
  (if is_ok (e_arm e) then set_guard true d else d, e_arm e).

Definition stopUpdateGuard (e : env) (d : disk) : disk := if is_ok (e_stop e) then set_guard false d else d.

(** [updateBootBranding]. *)
Definition updateBootBranding (e : env) (version : string) (d : disk) : disk * list command :=
  let version := TrimSpace version in
  if String.eqb version "" then (d, [])
  else if is_ok (e_brand e) then (set_branding version d, [("update-grub", [])]) else (d, []).

Definition removeConfigSnapshot (e : env) (s : service) (d : disk) : disk * list command :=
  if String.eqb (u_snapshot s) "" then (d, [])
  else (if is_ok (e_rmSnapshot e) then set_snapshots (d_snapshots d ∖ {[u_snapshot s]}) d else d,
        [("rm", ["-f"; u_snapshot s])]).

Definition resetPendingUpdate (s : service) : service := mkService (u_version s) "" "" "" "".

(** [restorePendingUpdate] in [NewUpdateService]. *)
Definition NewUpdateService (version : string) (d : disk) : service :=
  match d_state d with
  | Some (StateRecord pending previous backup snapshot) =>
      if String.eqb pending "" || String.eqb backup "" then mkService version "" "" "" ""
      else mkService version pending previous backup snapshot
  | _ => mkService version "" "" "" ""
  end.

Section Apply.
(** SHA-256 in hex, and the reader of a gzip-compressed tar archive. *)
Variable sha256 : string -> string.
Variable untar : string -> result tar_stream.
Variable unicode_lower : string -> string.
Variable ed25519_verify : string -> string -> string -> bool.

Definition extractBinary (e : env) (archive : string) : result string :=
  guard! e_open e ;;
  let? s := wrap_err "gzip open: %w" [] (untar archive) in
  extract_loop s (e_stageIO e).

Definition stageBinary (e : env) (archive : string) : result string :=
  guard! wrap_err "create staging directory: %w" [] (e_stage e) ;;
  extractBinary e archive.

(** Everything before the running binary is touched: the new binary. *)
Definition fetchBinary (e : env) (info : UpdateInfo) : result string :=
  let tmpArchive := Join ["/tmp"; safeUpdateFileName (ui_AssetName info)] in
  let? archive := wrap_err "download: %w" [] (downloadFile (ui_AssetSize info) (e_download e) (e_create e)) in
  guard! wrap_err "checksum verification: %w" []
    (verifyChecksum unicode_lower ed25519_verify info tmpArchive (e_sums e) (e_sig e)
       (guard! e_hash e ;; Ok (sha256 archive))) ;;
  wrap_err "extract: %w" [] (stageBinary e archive).

Definition ApplyUpdate (arch : string) (e : env) (info : UpdateInfo) (s : service) (d : disk)
  : service * disk * list command * result unit :=
  if String.eqb (ui_DownloadURL info) ""
  then (s, d, [], Err (Errorf "no download URL for linux-%s asset" [arch]))
  else
    let '(d1, configSnapshot) := snapshotConfig e (ui_LatestVersion info) d in
    match fetchBinary e info with
    | Err er => (s, d1, [], Err er)
    | Ok new =>
        match installBinary e new (ui_LatestVersion info) d1 with
        | (d2, cmds, Err er) => (s, d2, cmds, Err er)
        | (d2, cmds, Ok _) =>
            match e_save e with
            | Err er =>
                let d3 := match e_saveLeft e with Some l => set_state (Some l) d2 | None => d2 end in
                (s, restoreBinary e d3, cmds ++ [cmd_restore], Err (Errorw "save update state: %w" [] er))
            | Ok _ =>
                let d3 := set_state (Some (StateRecord (ui_LatestVersion info) (u_version s) backupPath configSnapshot)) d2 in
                let s1 := mkService (u_version s) (ui_LatestVersion info) (u_version s) backupPath configSnapshot in
                match armUpdateGuard e d3 with
                | (d4, Err er) =>
                    (resetPendingUpdate s1, clearUpdateState e (restoreBinary e d4), cmds ++ [cmd_arm; cmd_restore],
                     Err (Errorw "arm update guard: %w" [] er))
                | (d4, Ok _) =>
                    let '(d5, brand) := updateBootBranding e (ui_LatestVersion info) d4 in
                    (s1, d5, cmds ++ [cmd_arm] ++ brand ++ [cmd_restart], Ok tt)
                end
            end
        end
    end.

End Apply.

Definition ConfirmUpdate (e : env) (s : service) (d : disk) : service * disk * list command :=
  let d1 := stopUpdateGuard e d in
  let '(d2, c2) := if String.eqb (u_backup s) "" then (d1, [])
                   else (if is_ok (e_rmBackup e) then set_backup None d1 else d1, [("rm", ["-f"; u_backup s])]) in
  let '(d3, c3) := removeConfigSnapshot e s d2 in
  (resetPendingUpdate s, clearUpdateState e d3, [cmd_stop] ++ c2 ++ c3).

Definition ErrNoPendingUpdate : error := Errorf "no update is pending" [].

(** [Rollback].  The recorded backup is always the .bak file. *)
Definition Rollback (e : env) (s : service) (d : disk) : service * disk * list command * result unit :=
  if String.eqb (u_pending s) "" || String.eqb (u_backup s) "" then (s, d, [], Err ErrNoPendingUpdate)
  else
    let d1 := stopUpdateGuard e d in
    let c1 : command := ("cp", ["-f"; u_backup s; binaryPath]) in
    match e_cpRestore e, d_backup d1 with
    | CpFail l er, _ => (s, match l with Some j => set_binary j d1 | None => d1 end, [cmd_stop; c1],
                         Err (Errorw "rollback: %w" [] er))
    | CpOk, None => (s, d1, [cmd_stop; c1], Err (Errorw "rollback: %w" [] (Errorf "no such file" [])))
    | CpOk, Some b =>
        let d2 := set_binary b d1 in
        let d3 := if is_ok (e_rmBackup e) then set_backup None d2 else d2 in
        let '(d4, c4) := removeConfigSnapshot e s d3 in
        let '(d5, c5) := if String.eqb (u_previous s) "" then (d4, []) else updateBootBranding e (u_previous s) d4 in
        (resetPendingUpdate s, clearUpdateState e d5,
         [cmd_stop; c1; ("rm", ["-f"; u_backup s])] ++ c4 ++ c5 ++ [cmd_restart], Ok tt)
    end.

(** ** The guard unit: cmd/lankeeper/update_guard.go *)

(** [rollbackUnconfirmedUpdate]: [stat] is an error other than a missing
    file, [replace] the outcome of copying beside and renaming over. *)
Record guard_env : Type := mkGuardEnv {
  g_stat : result unit; g_replace : result unit; g_rmBackup : bool; g_rmState : bool; g_restart : result unit }.

Definition rollbackUnconfirmedUpdate (g : guard_env) (d : disk) : disk * result unit :=
  match d_state d with
  | None => (d, Ok tt)
  | Some _ =>
      match g_stat g with
      | Err er => (d, Err (Errorw "stat update state: %w" [] er))
      | Ok _ =>
          match g_replace g, d_backup d with
          | Err er, _ => (d, Err (Errorw "restore previous binary: %w" [] er))
          | Ok _, None => (d, Err (Errorw "restore previous binary: %w" [] (Errorf "no such file" [])))
          | Ok _, Some b =>
              let d1 := set_binary b d in
              let d2 := if g_rmBackup g then set_backup None d1 else d1 in
              let d3 := if g_rmState g then set_state None d2 else d2 in
              (d3, g_restart g)
          end
      end
  end.

(** The timer fires once and the unit is gone. *)
Definition guardFired (g : guard_env) (d : disk) : disk * result unit :=
  if d_guard d then rollbackUnconfirmedUpdate g (set_guard false d) else (d, Ok tt).

(** ** Lemmas: applying *)

(** The branding touches nothing the update relies on. *)
Lemma updateBootBranding_frame e v d :
  let d' := fst (updateBootBranding e v d) in
  d_binary d' = d_binary d /\ d_backup d' = d_backup d /\ d_state d' = d_state d
  /\ d_snapshots d' = d_snapshots d /\ d_guard d' = d_guard d.
Proof. unfold updateBootBranding. cbv zeta. destruct (String.eqb _ _); [done|]. by destruct (is_ok (e_brand e)). Qed.

Lemma snapshotConfig_frame e v d d1 p :
  snapshotConfig e v d = (d1, p) ->
  d_binary d1 = d_binary d /\ d_backup d1 = d_backup d /\ d_state d1 = d_state d /\ d_guard d1 = d_guard d
  /\ (p = "" \/ p = preUpdateSnapshotPath v /\ p ∈ d_snapshots d1).
Proof.
  unfold snapshotConfig. destruct (e_export e) as [[]|]; intros [= <- <-]; cbn; split_and!; auto.
  right. split; [done|]. set_solver.
Qed.

Lemma restoreBinary_Ok e d b : e_cpRestore e = CpOk -> d_backup d = Some b -> d_binary (restoreBinary e d) = b.
Proof. intros He Hb. unfold restoreBinary. by rewrite He, Hb. Qed.

Lemma restoreBinary_frame e d :
  d_backup (restoreBinary e d) = d_backup d /\ d_state (restoreBinary e d) = d_state d
  /\ d_guard (restoreBinary e d) = d_guard d /\ d_snapshots (restoreBinary e d) = d_snapshots d.
Proof. destruct d as [b []]; unfold restoreBinary; by destruct (e_cpRestore e) as [|[]]. Qed.

(** Closes a branch that ends by putting the backup back. *)
Ltac by_restore Hr :=
  intros [= <- <- <-];
  match goal with |- context [restoreBinary _ ?d2] =>
    destruct (Hr d2 eq_refl eq_refl eq_refl eq_refl) as (? & ? & ? & ?) end;
  split_and!; auto; done.

Lemma installBinary_spec e new v d d' cmds r :
  installBinary e new v d = (d', cmds, r) ->
  d_state d' = d_state d /\ d_guard d' = d_guard d /\ d_snapshots d' = d_snapshots d /\
  (r = Ok tt -> d_binary d' = new /\ d_backup d' = Some (d_binary d)) /\
  (r <> Ok tt -> e_cpRestore e = CpOk -> d_binary d' = d_binary d).
Proof.
  unfold installBinary. destruct (e_cpBackup e) as [|[j|] er].
  2-3: intros [= <- <- <-]; cbn; split_and!; done.
  set (d1 := set_backup _ d).
  assert (Hr : forall d2, d_backup d2 = Some (d_binary d) -> d_state d2 = d_state d -> d_guard d2 = d_guard d ->
    d_snapshots d2 = d_snapshots d ->
    d_state (restoreBinary e d2) = d_state d /\ d_guard (restoreBinary e d2) = d_guard d
    /\ d_snapshots (restoreBinary e d2) = d_snapshots d
    /\ (e_cpRestore e = CpOk -> d_binary (restoreBinary e d2) = d_binary d)).
  { intros d2 Hb Hs Hg Hn. destruct (restoreBinary_frame e d2) as (_ & -> & -> & ->). split_and!; try done.
    intros He. by apply restoreBinary_Ok. }
  destruct (e_cpNew e) as [|[j|] er]; [|by_restore Hr..].
  destruct (e_chmod e) as [[]|er]; [|by_restore Hr].
  destruct (e_version e) as [out|er]; [|by_restore Hr].
  destruct (Contains out _); [by intros [= <- <- <-]|by_restore Hr].
Qed.

(** What a verified archive is: the release's own, listed under its name in
    a checksum file that carries a valid signature of the release key. *)
Definition verified (unicode_lower : string -> string) (ed25519_verify : string -> string -> string -> bool)
  (sha256 : string -> string) (e : env) (info : UpdateInfo) (archive : string) : Prop :=
  exists sums raw sig,
    fetchChecksumFile (e_sums e) = Ok sums /\ fetchChecksumFile (e_sig e) = Ok raw
    /\ b64_decode (TrimSpace raw) = Some sig /\ len sig = 64 /\ ed25519_verify PublicKey sums sig = true
    /\ sha256 archive = expectedChecksum unicode_lower sums (Base (Join ["/tmp"; safeUpdateFileName (ui_AssetName info)]))
    /\ Contains (ui_AssetName info) ("-" +:+ ui_LatestVersion info +:+ "-linux-") = true.

(** A binary is a regular member named lankeeper of the archive. *)
Fixpoint member_of (s : tar_stream) (data : string) : Prop :=
  match s with
  | TarNext entry rest =>
      (Base (te_Name entry) = "lankeeper" /\ te_regular entry = true /\ te_data entry = data) \/ member_of rest data
  | _ => False
  end.

Lemma extract_loop_Ok s io data :
  extract_loop s io = Ok data -> member_of s data /\ len data <= maxUpdateBinaryBytes.
Proof.
  induction s as [|e|entry rest IH]; cbn [extract_loop member_of]; [done..|].
  destruct (String.eqb (Base (te_Name entry)) "lankeeper" && te_regular entry) eqn:E.
  - intros H. unfold writeUpdateBinary, copyCapped in H. inv_ok. bool_hyps. subst. split; [|done]. left. done.
  - intros H. destruct (IH H) as [Hm Hl]. split; [by right|done].
Qed.

Section Applied.
Variables (sha256 : string -> string) (untar : string -> result tar_stream)
  (unicode_lower : string -> string) (ed25519_verify : string -> string -> string -> bool).

Local Abbreviation Apply := (ApplyUpdate sha256 untar unicode_lower ed25519_verify).

Lemma fetchBinary_Ok e info new :
  fetchBinary sha256 untar unicode_lower ed25519_verify e info = Ok new ->
  exists archive stream,
    e_download e = Ok (200, archive) /\ len archive <= maxUpdateArchiveBytes
    /\ verified unicode_lower ed25519_verify sha256 e info archive
    /\ untar archive = Ok stream /\ member_of stream new /\ len new <= maxUpdateBinaryBytes.
Proof.
  unfold fetchBinary. intros H. inv_ok. rename x into archive.
  unfold stageBinary, extractBinary in H. inv_ok. exists archive.
  apply extract_loop_Ok in H as [Hm Hlen].
  unfold downloadFile, copyCapped in H0. apply result_bind_Ok in H0 as ([] & _ & H0).
  apply result_bind_Ok in H0 as ([status body] & Hd & H0). inv_ok. bool_hyps. subst.
  eexists. split; [done|]. split; [done|]. split; [|done].
  unfold verifyChecksum, verifyChecksumSignature, Verify in H1. inv_ok. bool_hyps.
  destruct (b64_decode (TrimSpace _)) as [sig|] eqn:Hsig; [|done].
  destruct (negb (len sig =? 64)) eqn:Hlen64; [done|]. inv_ok. bool_hyps. subst.
  do 3 eexists. split_and!; try eassumption.
Qed.

(** The branches of [ApplyUpdate]. *)
Lemma Apply_spec arch e info s d s' d' cmds r :
  Apply arch e info s d = (s', d', cmds, r) ->
  (r = Ok tt ->
     exists new snap, fetchBinary sha256 untar unicode_lower ed25519_verify e info = Ok new
       /\ d_binary d' = new /\ d_backup d' = Some (d_binary d) /\ d_guard d' = true
       /\ d_state d' = Some (StateRecord (ui_LatestVersion info) (u_version s) backupPath snap)
       /\ s' = mkService (u_version s) (ui_LatestVersion info) (u_version s) backupPath snap
       /\ (snap = "" \/ snap = preUpdateSnapshotPath (ui_LatestVersion info) /\ snap ∈ d_snapshots d'))
  /\ (r <> Ok tt -> (s' = s \/ s' = resetPendingUpdate s) /\ d_guard d' = d_guard d
        /\ (e_cpRestore e = CpOk -> d_binary d' = d_binary d)).
Proof.
  unfold ApplyUpdate. destruct (String.eqb _ _).
  { intros [= <- <- <- <-]. split; [done|]. intros _. auto. }
  destruct (snapshotConfig e _ d) as [d1 snap] eqn:Hsn. apply snapshotConfig_frame in Hsn as (Hb & Hk & Hst & Hg & Hp).
  destruct (fetchBinary _ _ _ _ e info) as [new|er] eqn:Hf.
  2: { intros [= <- <- <- <-]. split; [done|]. intros _. split; [by left|]. by rewrite Hg, Hb. }
  destruct (installBinary e new _ d1) as [[d2 c2] r2] eqn:Hi.
  apply installBinary_spec in Hi as (Hs2 & Hg2 & Hn2 & Hok & Hbad).
  destruct r2 as [[]|er].
  2: { intros [= <- <- <- <-]. split; [done|]. intros _. rewrite Hg2, Hg. split; [by left|]. split; [done|].
       intros He. rewrite Hbad by done. done. }
  destruct (Hok eq_refl) as [Hbin Hbak]. rewrite Hb in Hbak.
  destruct (e_save e) as [[]|er].
  - destruct (e_arm e) as [[]|er] eqn:Harm; unfold armUpdateGuard; rewrite Harm.
    + cbn [is_ok fst snd].
      match goal with |- context [updateBootBranding e ?v ?dd] =>
        destruct (updateBootBranding e v dd) as [d5 brand] eqn:Hbr;
        pose proof (updateBootBranding_frame e v dd) as Hfr; rewrite Hbr in Hfr; cbn in Hfr end.
      destruct Hfr as (F1 & F2 & F3 & F4 & F5). intros [= <- <- <- <-]. split; [|done]. intros _.
      exists new, snap. rewrite F1, F2, F3, F4, F5, Hn2. split_and!; done.
    + cbn [is_ok fst snd]. intros [= <- <- <- <-]. split; [done|]. intros _. split; [by right|].
      match goal with |- context [clearUpdateState e (restoreBinary e ?dd)] =>
        assert (Hcl : d_guard (clearUpdateState e (restoreBinary e dd)) = d_guard dd
                      /\ d_binary (clearUpdateState e (restoreBinary e dd)) = d_binary (restoreBinary e dd));
        [destruct (restoreBinary_frame e dd) as (_ & _ & <- & _); unfold clearUpdateState; by destruct (is_ok (e_clear e))|] end.
      destruct Hcl as [-> ->]. split; [cbn; congruence|]. intros He. by apply restoreBinary_Ok.
  - intros [= <- <- <- <-]. split; [done|]. intros _. split; [by left|].
    set (d3 := match e_saveLeft e with Some _ => _ | None => d2 end).
    assert (Hd3 : d_guard d3 = d_guard d2 /\ d_backup d3 = d_backup d2) by (subst d3; by destruct (e_saveLeft e)).
    destruct Hd3 as [G3 B3]. destruct (restoreBinary_frame e d3) as (_ & _ & -> & _). split; [congruence|].
    intros He. apply restoreBinary_Ok; [done|congruence].
Qed.

End Applied.

(** ** Lemmas: settling *)

(** An update waits for confirmation: what a process started now knows, and
    what is on the disk. *)
Definition awaiting (old new version previous snap : string) (d : disk) : Prop :=
  d_binary d = new /\ d_backup d = Some old /\ d_guard d = true
  /\ d_state d = Some (StateRecord version previous backupPath snap).

Lemma NewUpdateService_awaiting old new version previous snap d v :
  awaiting old new version previous snap d -> version <> "" ->
  NewUpdateService v d = mkService v version previous backupPath snap.
Proof.
  intros (_ & _ & _ & Hs) Hv. unfold NewUpdateService. rewrite Hs.
  destruct (String.eqb_spec version ""); [done|]. reflexivity.
Qed.

Lemma guard_reverts old new version previous snap d g :
  awaiting old new version previous snap d -> g_stat g = Ok tt -> g_replace g = Ok tt ->
  let d' := fst (guardFired g d) in
  d_binary d' = old /\ (g_rmState g = true -> d_state d' = None) /\ d_guard d' = false.
Proof.
  intros (_ & Hb & Hg & Hs) Hst Hr. unfold guardFired, rollbackUnconfirmedUpdate. rewrite Hg. cbn [set_guard d_state d_backup].
  rewrite Hs, Hst, Hr, Hb. cbv zeta. destruct (g_rmBackup g), (g_rmState g); done.
Qed.

Lemma Rollback_reverts old new version previous snap d e v :
  awaiting old new version previous snap d -> version <> "" -> e_cpRestore e = CpOk ->
  let '(s', d', _, r) := Rollback e (NewUpdateService v d) d in
  r = Ok tt /\ d_binary d' = old /\ u_pending s' = "" /\ (e_clear e = Ok tt -> d_state d' = None).
Proof.
  intros Ha Hv He. rewrite (NewUpdateService_awaiting _ _ _ _ _ _ _ Ha Hv). destruct Ha as (_ & Hb & _ & _).
  unfold Rollback. cbn [u_pending u_backup u_snapshot u_previous]. destruct (String.eqb_spec version ""); [done|].
  change (String.eqb backupPath "") with false. cbn [orb]. rewrite He.
  assert (Hb1 : d_backup (stopUpdateGuard e d) = Some old) by (unfold stopUpdateGuard; by destruct (is_ok _)).
  rewrite Hb1. set (d3 := if is_ok (e_rmBackup e) then _ else _).
  assert (Hd3 : d_binary d3 = old) by (subst d3; by destruct (is_ok _)). clearbody d3.
  destruct (removeConfigSnapshot e _ d3) as [d4 c4] eqn:Hrm.
  assert (Hd4 : d_binary d4 = old).
  { revert Hrm. unfold removeConfigSnapshot. cbn [u_snapshot]. destruct (String.eqb snap ""); intros [= <- _]; [done|].
    by destruct (is_ok (e_rmSnapshot e)). }
  destruct (if String.eqb previous "" then (d4, []) else updateBootBranding e previous d4) as [d5 c5] eqn:H5.
  assert (Hd5 : d_binary d5 = old).
  { destruct (String.eqb previous ""); [by simplify_eq|].
    pose proof (updateBootBranding_frame e previous d4) as (F & _). rewrite H5 in F. cbn in F. congruence. }
  split; [done|]. unfold clearUpdateState. split; [by destruct (is_ok (e_clear e))|]. split; [done|].
  intros ->. done.
Qed.

Lemma Confirm_keeps old new version previous snap d e v :
  awaiting old new version previous snap d -> version <> "" -> e_clear e = Ok tt ->
  let '(s', d', _) := ConfirmUpdate e (NewUpdateService v d) d in
  d_binary d' = new /\ d_state d' = None /\ u_pending s' = ""
  /\ (e_rmBackup e = Ok tt -> d_backup d' = None)
  /\ (e_rmSnapshot e = Ok tt -> snap <> "" -> snap ∉ d_snapshots d').
Proof.
  intros Ha Hv He. rewrite (NewUpdateService_awaiting _ _ _ _ _ _ _ Ha Hv). destruct Ha as (Hn & Hb & _ & _).
  unfold ConfirmUpdate. cbn [u_backup]. change (String.eqb backupPath "") with false. cbn iota.
  set (d2 := if is_ok (e_rmBackup e) then _ else _).
  assert (Hd2 : d_binary d2 = new /\ (e_rmBackup e = Ok tt -> d_backup d2 = None)).
  { subst d2. unfold stopUpdateGuard. split; [by destruct (is_ok (e_rmBackup e)), (is_ok (e_stop e))|].
    intros ->. by destruct (is_ok (e_stop e)). }
  clearbody d2. unfold removeConfigSnapshot. cbn [u_snapshot]. unfold clearUpdateState. rewrite He. cbn [is_ok].
  destruct Hd2 as [H1 H2].
  destruct (String.eqb_spec snap ""); cbn; [split_and!; done|].
  destruct (e_rmSnapshot e) as [[]|er]; cbn; split_and!; try done. set_solver.
Qed.

(** ** Lemmas: tags, paths and commands *)

Definition tag_char (a : ascii) : bool := is_alnum a || char_in ".-" a.

Lemma tag_chars tag : validateReleaseTag tag = Ok tt -> all_chars tag_char tag = true.
Proof.
  unfold validateReleaseTag. intros H. inv_ok. bool_hyps. revert H0. apply matchb_over.
  cbn [over releaseTagPattern ropt rplus rupto rdigit rchar].
  split_and!; try exact I; apply ascii_impl; vm_compute; reflexivity.
Qed.

Definition snapshot_name (version : string) : string := "lankeeper-pre-update-" +:+ version +:+ ".tar.gz".

Lemma snapshot_path version :
  validateReleaseTag version = Ok tt ->
  good_comps ["var"; "backups"; snapshot_name version]
  /\ preUpdateSnapshotPath version = abs_path ["var"; "backups"; snapshot_name version].
Proof.
  intros Hv. assert (Hg : good_comps ["var"; "backups"; snapshot_name version]).
  { apply List.Forall_cons; [done|]. apply List.Forall_cons; [done|]. apply List.Forall_cons; [|apply List.Forall_nil].
    apply good_comp_spec. unfold snapshot_name. cbn [String.append].
    split_and!; try discriminate. change (has_char sep (snapshot_name version) = false). unfold snapshot_name.
    rewrite !has_char_append. rewrite (all_chars_not_has tag_char sep version) by (try done; by apply tag_chars). done. }
  split; [done|]. exact (Join_abs ["var"; "backups"] [snapshot_name version] Hg ltac:(done)).
Qed.

Abbreviation W0 := (resolveRulePatterns no_links allowedWriteRules).
Abbreviation R0 := (resolveRulePatterns no_links allowedReadRules).

(** The agent runs the command: it is whitelisted and its arguments pass. *)
Definition accepted (c : command) : Prop :=
  mem (fst c) allowedCommands = true /\ validateInvocation no_links W0 R0 (fst c) (snd c) "" = Ok tt.

Lemma snapshot_writable version :
  validateReleaseTag version = Ok tt -> writablePath no_links W0 (preUpdateSnapshotPath version) = true.
Proof.
  intros Hv. destruct (snapshot_path version Hv) as [Hg ->]. unfold writablePath.
  rewrite (proj2 (cleanAbs_Ok _ (abs_path ["var"; "backups"; snapshot_name version]))).
  - assert (HasPrefix (abs_path ["var"; "backups"; snapshot_name version]) preUpdateSnapshotPrefix = true) as ->.
    { change (abs_path ["var"; "backups"; snapshot_name version])
        with (preUpdateSnapshotPrefix +:+ (version +:+ ".tar.gz")). apply HasPrefix_append. }
    by destruct (_ || _).
  - rewrite Clean_abs_path by done. split; [|done]. split; [apply IsAbs_abs_path|].
    rewrite split_abs_path by done. intros Hin.
    by destruct Hin as [?|[?|[?|[Hin|[]]]]].
Qed.

Lemma accepted_const name args :
  mem name allowedCommands && is_ok (validateInvocation no_links W0 R0 name args "") = true -> accepted (name, args).
Proof.
  intros H. apply andb_prop in H as [H1 H2]. split; [done|]. cbn [fst snd].
  destruct (validateInvocation _ _ _ _ _ _) as [[]|]; [done|discriminate H2].
Qed.

(** The fields of a process that its own operations and its state file gave
    it. *)
Definition service_ok (s : service) : Prop :=
  (u_backup s = "" \/ u_backup s = backupPath)
  /\ (u_snapshot s = "" \/ exists v, validateReleaseTag v = Ok tt /\ u_snapshot s = preUpdateSnapshotPath v).

Lemma accepted_rm_snapshot v : validateReleaseTag v = Ok tt -> accepted ("rm", ["-f"; preUpdateSnapshotPath v]).
Proof.
  intros Hv. split; [reflexivity|]. cbn [fst snd]. unfold validateInvocation.
  change (argValidators no_links W0 R0 "rm") with (Some (validateRmArgs no_links W0)).
  change (stdinValidators "rm") with (@None (string -> result unit)).
  unfold validateRmArgs. cbn [String.eqb negb].
  destruct (String.eqb_spec (preUpdateSnapshotPath v) "--") as [Heq|_].
  - destruct (snapshot_path v Hv) as [_ Hp]. rewrite Hp in Heq. discriminate Heq.
  - cbn [rm_paths]. by rewrite snapshot_writable.
Qed.

Lemma install_commands_accepted e new v d : Forall accepted (snd (fst (installBinary e new v d))).
Proof.
  assert (H1 : accepted ("cp", ["-f"; binaryPath; backupPath])) by (apply accepted_const; reflexivity).
  assert (H2 : accepted ("cp", ["-f"; stagedPath; binaryPath])) by (apply accepted_const; reflexivity).
  assert (H3 : accepted ("chmod", ["+x"; binaryPath])) by (apply accepted_const; reflexivity).
  assert (H4 : accepted cmd_restore) by (apply accepted_const; reflexivity).
  unfold installBinary. repeat case_match; cbn [fst snd]; repeat first [apply List.Forall_nil | apply List.Forall_cons]; done.
Qed.

(** ** Lemmas: versions *)

(** A version as it is published. *)
Record version : Type := mkVersion { v_prefix : bool; v_major : Z; v_minor : Z; v_patch : Z; v_suffix : option string }.

Definition version_text (v : version) : string :=
  (if v_prefix v then "v" else "") +:+
  (join "." [itoa (v_major v); itoa (v_minor v); itoa (v_patch v)]) +:+
  match v_suffix v with None => "" | Some s => "-" +:+ s end.

Definition version_ok (v : version) : Prop :=
  0 <= v_major v <= int64_max /\ 0 <= v_minor v <= int64_max /\ 0 <= v_patch v <= int64_max.

Lemma Atoi_value_itoa z : 0 <= z <= int64_max -> Atoi_value (itoa z) = z.
Proof.
  intros [Hz Hm]. destruct (itoa_nonneg_value z Hz) as (Hne & Hv & Hd). unfold Atoi_value.
  destruct (itoa z) as [|a s]; [done|]. cbn [all_chars] in Hd. apply andb_prop in Hd as [Ha _].
  assert ((match String a s with
           | String "-" r => (true, r) | String "+" r => (false, r) | _ => (false, String a s) end)
          = (false, String a s)) as ->.
  { destruct a as [[] [] [] [] [] [] [] []]; try done. }
  rewrite Hv. unfold int64_min, int64_max in *. lia.
Qed.

Lemma parseSemver_text v : version_ok v -> parseSemver (version_text v) = (v_major v, v_minor v, v_patch v).
Proof.
  intros (H0 & H1 & H2). unfold parseSemver, version_text.
  set (num := join "." [itoa (v_major v); itoa (v_minor v); itoa (v_patch v)]).
  assert (Hdig : forall z, 0 <= z -> all_chars is_digit (itoa z) = true).
  { intros z Hz. by destruct (itoa_nonneg_value z Hz) as (_ & _ & ?). }
  assert (Hsplit : split_byte "." num = [itoa (v_major v); itoa (v_minor v); itoa (v_patch v)]).
  { apply (split_join "."); [done|].
    repeat (apply List.Forall_cons; [apply (all_chars_not_has is_digit); [done|apply Hdig; lia]|]). apply List.Forall_nil. }
  assert (Hnum : all_chars (fun a => is_digit a || Ascii.eqb a ".") num = true).
  { apply all_chars_join; [done|].
    repeat (apply List.Forall_cons; [eapply all_chars_impl; [|apply Hdig; lia]; by intros a ->|]). apply List.Forall_nil. }
  assert (Htrim : TrimPrefix ((if v_prefix v then "v" else "") +:+ num +:+
      match v_suffix v with None => "" | Some s => "-" +:+ s end) "v"
    = num +:+ match v_suffix v with None => "" | Some s => "-" +:+ s end).
  { destruct (v_prefix v); [apply TrimPrefix_append|]. cbn [String.append].
    destruct num as [|a n]; [done|]. cbn [all_chars] in Hnum. apply andb_prop in Hnum as [Ha _].
    destruct a as [[] [] [] [] [] [] [] []]; first [discriminate Ha | reflexivity]. }
  rewrite Htrim. assert (Hno : has_char "-" num = false) by (eapply all_chars_not_has; [|exact Hnum]; done).
  destruct (v_suffix v) as [s|].
  - change ("-" +:+ s) with (String "-" s). rewrite cut_byte_append by done. rewrite Hsplit. cbn.
    by rewrite !Atoi_value_itoa.
  - rewrite append_empty_r, cut_byte_none by done. rewrite Hsplit. cbn. by rewrite !Atoi_value_itoa.
Qed.

(** The order of two triples, most significant number first. *)
Definition newer (a b : Z * Z * Z) : Prop :=
  let '(a0, a1, a2) := a in let '(b0, b1, b2) := b in
  b0 < a0 \/ (a0 = b0 /\ (b1 < a1 \/ (a1 = b1 /\ b2 < a2))).

Lemma CompareSemver_spec a b :
  (CompareSemver a b = 1 <-> newer (parseSemver a) (parseSemver b))
  /\ (CompareSemver a b = -1 <-> newer (parseSemver b) (parseSemver a))
  /\ (CompareSemver a b = 0 <-> parseSemver a = parseSemver b).
Proof.
  unfold CompareSemver, newer. destruct (parseSemver a) as [[a0 a1] a2], (parseSemver b) as [[b0 b1] b2].
  cbn [compare_parts].
  destruct (Z.ltb_spec b0 a0), (Z.ltb_spec a0 b0), (Z.ltb_spec b1 a1), (Z.ltb_spec a1 b1),
    (Z.ltb_spec b2 a2), (Z.ltb_spec a2 b2); split_and!; split; intros Hx; simplify_eq; try lia; try (by destruct_or?; lia);
    repeat f_equal; lia.
Qed.

Lemma CompareSemver_cases a b : CompareSemver a b = 1 \/ CompareSemver a b = 0 \/ CompareSemver a b = -1.
Proof.
  unfold CompareSemver. destruct (parseSemver a) as [[a0 a1] a2], (parseSemver b) as [[b0 b1] b2]. cbn [compare_parts].
  repeat case_match; auto.
Qed.

Lemma selectAssets_version arch info assets :
  ui_LatestVersion (selectAssets arch info assets) = ui_LatestVersion info.
Proof. unfold selectAssets. revert info. induction assets as [|a l IH]; intros info; [done|]. cbn [foldl]. by rewrite IH. Qed.

(** ** Lemmas: the commands of each operation *)

Lemma accepted_cmds :
  accepted cmd_restore /\ accepted cmd_arm /\ accepted cmd_stop /\ accepted cmd_restart
  /\ accepted ("rm", ["-f"; backupPath]) /\ accepted ("update-grub", []).
Proof. split_and!; apply accepted_const; reflexivity. Qed.

(** Splits a list of commands into its parts. *)
Ltac each_command :=
  repeat first [apply List.Forall_nil | apply List.Forall_cons | (apply list.Forall_app; split)]; try done.

Lemma branding_commands e v d : Forall accepted (snd (updateBootBranding e v d)).
Proof.
  destruct accepted_cmds as (_ & _ & _ & _ & _ & Hg). unfold updateBootBranding. repeat case_match; cbn [snd]; each_command.
Qed.

Lemma snapshot_commands e s d : service_ok s -> Forall accepted (snd (removeConfigSnapshot e s d)).
Proof.
  intros [_ Hs]. unfold removeConfigSnapshot. destruct (String.eqb_spec (u_snapshot s) ""); [apply List.Forall_nil|].
  destruct Hs as [?|(v & Hv & Hp)]; [done|]. rewrite Hp. cbn [snd]. each_command. by apply accepted_rm_snapshot.
Qed.

Lemma Apply_commands sha256 untar lower verify arch e info s d :
  Forall accepted (snd (fst (ApplyUpdate sha256 untar lower verify arch e info s d))).
Proof.
  destruct accepted_cmds as (Hre & Harm & _ & Hrs & _ & _). unfold ApplyUpdate. destruct (String.eqb _ _); [apply List.Forall_nil|].
  destruct (snapshotConfig e _ d) as [d1 snap]. destruct (fetchBinary _ _ _ _ e info) as [new|]; [|apply List.Forall_nil].
  pose proof (install_commands_accepted e new (ui_LatestVersion info) d1) as Hi.
  destruct (installBinary e new _ d1) as [[d2 c2] [[]|er]]; cbn [fst snd] in Hi; [|done].
  destruct (e_save e) as [[]|]; [|cbn [fst snd]; each_command].
  destruct (armUpdateGuard e _) as [d4 [[]|]]; [|cbn [fst snd]; each_command].
  pose proof (branding_commands e (ui_LatestVersion info) d4) as Hb.
  destruct (updateBootBranding e _ d4) as [d5 brand]. cbn [fst snd] in *. each_command.
Qed.

Lemma Apply_service_ok sha256 untar lower verify arch e info s d :
  validateReleaseTag (ui_LatestVersion info) = Ok tt -> service_ok s ->
  service_ok (fst (fst (fst (ApplyUpdate sha256 untar lower verify arch e info s d)))).
Proof.
  intros Ht Hs. destruct (ApplyUpdate _ _ _ _ _ _ _ _ _) as [[[s' d'] cmds] r] eqn:Ha. cbn [fst].
  destruct (Apply_spec _ _ _ _ _ _ _ _ _ _ _ _ _ Ha) as [Hok Hbad]. destruct r as [[]|er].
  - destruct (Hok eq_refl) as (new & snap & _ & _ & _ & _ & _ & -> & Hsn). split; cbn; [by right|].
    destruct Hsn as [?|[? _]]; [by left|right; eauto].
  - destruct (Hbad ltac:(done)) as [[->| ->] _]; [done|]. split; by left.
Qed.

Lemma Confirm_commands e s d : service_ok s -> Forall accepted (snd (ConfirmUpdate e s d)).
Proof.
  intros Hs. destruct accepted_cmds as (_ & _ & Hst & _ & Hrm & _). unfold ConfirmUpdate.
  destruct (String.eqb_spec (u_backup s) "") as [|Hb].
  - pose proof (snapshot_commands e s (stopUpdateGuard e d) Hs) as Hc.
    destruct (removeConfigSnapshot e s _) as [d3 c3]. cbn [snd] in *. each_command.
  - destruct Hs as [[?|Hbk] Hsn]; [done|]. rewrite Hbk. set (d2 := if is_ok _ then _ else _).
    pose proof (snapshot_commands e s d2 (conj (or_intror Hbk) Hsn)) as Hc.
    destruct (removeConfigSnapshot e s d2) as [d3 c3]. cbn [snd] in *. each_command.
Qed.

Lemma Rollback_commands e s d : service_ok s -> Forall accepted (snd (fst (Rollback e s d))).
Proof.
  intros Hs. destruct accepted_cmds as (Hre & _ & Hst & Hrs & Hrm & _). unfold Rollback.
  destruct (String.eqb_spec (u_pending s) ""), (String.eqb_spec (u_backup s) ""); cbn [orb fst snd]; try apply List.Forall_nil.
  pose proof Hs as [[?|Hbk] _]; [done|]. rewrite Hbk. fold cmd_restore.
  destruct (e_cpRestore e) as [|l er]; [|cbn [fst snd]; each_command].
  destruct (d_backup _) as [b|]; [|cbn [fst snd]; each_command].
  set (d3 := if is_ok _ then _ else _).
  pose proof (snapshot_commands e s d3 Hs) as Hc. destruct (removeConfigSnapshot e s d3) as [d4 c4].
  assert (H5 : Forall accepted (snd (if String.eqb (u_previous s) "" then (d4, []) else updateBootBranding e (u_previous s) d4))).
  { destruct (String.eqb _ _); [apply List.Forall_nil|apply branding_commands]. }
  destruct (if String.eqb (u_previous s) "" then _ else _) as [d5 c5]. cbn [fst snd] in *. each_command.
Qed.

(** ** The properties *)

(** C5: Nothing unverified is installed.  When [ApplyUpdate] succeeds, the
    new binary is a member named lankeeper of the archive that was
    downloaded; the archive's SHA-256 is the one listed for it in a checksum
    file whose signature verifies against the release key, and its name
    carries the release's own version; sizes are within the limits.  The old
    binary is kept as the backup, the update is recorded as pending on the
    disk and in the process, and the guard is armed. *)
Theorem update_installs_verified sha256 untar lower verify arch e info s d s' d' cmds
  (Ha : ApplyUpdate sha256 untar lower verify arch e info s d = (s', d', cmds, Ok tt)) :
  exists archive stream snap,
    e_download e = Ok (200, archive) /\ len archive <= maxUpdateArchiveBytes
    /\ verified lower verify sha256 e info archive
    /\ untar archive = Ok stream /\ member_of stream (d_binary d') /\ len (d_binary d') <= maxUpdateBinaryBytes
    /\ awaiting (d_binary d) (d_binary d') (ui_LatestVersion info) (u_version s) snap d'
    /\ s' = mkService (u_version s) (ui_LatestVersion info) (u_version s) backupPath snap.
Proof.
  destruct (Apply_spec _ _ _ _ _ _ _ _ _ _ _ _ _ Ha) as [Hok _].
  destruct (Hok eq_refl) as (new & snap & Hf & Hb & Hk & Hg & Hs & Hsv & _).
  destruct (fetchBinary_Ok _ _ _ _ _ _ _ Hf) as (archive & stream & Hd & Hl & Hv & Hu & Hm & Hn). subst new.
  exists archive, stream, snap. unfold awaiting. split_and!; done.
Qed.

(** C18: A failed update leaves the running system in place.  Whatever step of
    [ApplyUpdate] fails, if the final copy of the backup works, the installed
    binary is the one from before, the guard is as it was, and the process
    does not wait for the confirmation of the update it could not make. *)
Theorem failed_update_restores sha256 untar lower verify arch e info s d s' d' cmds er
  (Ha : ApplyUpdate sha256 untar lower verify arch e info s d = (s', d', cmds, Err er))
  (Hr : e_cpRestore e = CpOk) :
  d_binary d' = d_binary d /\ d_guard d' = d_guard d /\ (s' = s \/ s' = resetPendingUpdate s).
Proof.
  destruct (Apply_spec _ _ _ _ _ _ _ _ _ _ _ _ _ Ha) as [_ Hbad]. destruct (Hbad ltac:(done)) as (Hs & Hg & Hb).
  split; [by apply Hb|]. done.
Qed.

(** C6: An update is settled once and the right way.  After a successful
    apply, in whichever process is running then, the guard unit and an
    explicit rollback both put back exactly the binary that ran before;
    a confirmation keeps the new one and removes the backup and the
    pre-update archive, and the guard, even if stopping its timer failed,
    then changes nothing. *)
Theorem update_settles sha256 untar lower verify arch e info s d s' d' cmds
  (Ha : ApplyUpdate sha256 untar lower verify arch e info s d = (s', d', cmds, Ok tt))
  (Ht : validateReleaseTag (ui_LatestVersion info) = Ok tt) (v : string) :
  let running := NewUpdateService v d' in
  u_pending running = ui_LatestVersion info
  /\ (forall g, g_stat g = Ok tt -> g_replace g = Ok tt ->
        d_binary (fst (guardFired g d')) = d_binary d
        /\ (g_rmState g = true -> d_state (fst (guardFired g d')) = None))
  /\ (forall e', e_cpRestore e' = CpOk ->
        let '(s2, d2, _, r) := Rollback e' running d' in
        r = Ok tt /\ d_binary d2 = d_binary d /\ u_pending s2 = "" /\ (e_clear e' = Ok tt -> d_state d2 = None))
  /\ (forall e' g, e_clear e' = Ok tt ->
        let '(s2, d2, _) := ConfirmUpdate e' running d' in
        d_binary d2 = d_binary d' /\ d_state d2 = None /\ u_pending s2 = ""
        /\ (e_rmBackup e' = Ok tt -> d_backup d2 = None)
        /\ d_binary (fst (guardFired g d2)) = d_binary d').
Proof.
  destruct (Apply_spec _ _ _ _ _ _ _ _ _ _ _ _ _ Ha) as [Hok _].
  destruct (Hok eq_refl) as (new & snap & _ & Hb & Hk & Hg & Hs & _ & _). subst new.
  assert (Haw : awaiting (d_binary d) (d_binary d') (ui_LatestVersion info) (u_version s) snap d') by done.
  assert (Hne : ui_LatestVersion info <> "") by (intros E; rewrite E in Ht; vm_compute in Ht; discriminate Ht).
  cbv zeta. split; [by rewrite (NewUpdateService_awaiting _ _ _ _ _ _ _ Haw Hne)|]. split_and!.
  - intros g Hst Hrep. destruct (guard_reverts _ _ _ _ _ _ g Haw Hst Hrep) as (? & ? & _). done.
  - intros e' He. apply (Rollback_reverts _ _ _ _ _ _ e' v Haw Hne He).
  - intros e' g He. pose proof (Confirm_keeps _ _ _ _ _ _ e' v Haw Hne He) as Hc.
    destruct (ConfirmUpdate e' _ d') as [[s2 d2] c2]. destruct Hc as (C1 & C2 & C3 & C4 & _).
    split_and!; try done. unfold guardFired, rollbackUnconfirmedUpdate. destruct (d_guard d2); [|done].
    cbn [set_guard d_state]. by rewrite C2.
Qed.

(** The updater and the agent fit together.  Every privileged command the
    updater sends while applying a release with a well-formed tag, confirming
    it or rolling it back is on the agent's whitelist and passes its argument
    rules, the path built from the remote tag included. *)
Theorem update_commands_accepted sha256 untar lower verify arch e info s d
  (Ht : validateReleaseTag (ui_LatestVersion info) = Ok tt) (Hs : service_ok s) :
  Forall accepted (snd (fst (ApplyUpdate sha256 untar lower verify arch e info s d)))
  /\ Forall accepted (snd (ConfirmUpdate e s d))
  /\ Forall accepted (snd (fst (Rollback e s d)))
  /\ service_ok (fst (fst (fst (ApplyUpdate sha256 untar lower verify arch e info s d)))).
Proof.
  split_and!.
  - by apply Apply_commands.
  - by apply Confirm_commands.
  - by apply Rollback_commands.
  - by apply Apply_service_ok.
Qed.

(** Updates are offered by numeric order.  The comparison of two
    published versions is the comparison of their three numbers, most
    significant first, whatever prefix and suffix they carry; on any two
    strings it is antisymmetric and transitive; and an update is offered
    exactly when the release compares above the running version, its tag
    being well-formed. *)
Theorem versions_compare_numerically (a b : version) (Ha : version_ok a) (Hb : version_ok b) :
  (CompareSemver (version_text a) (version_text b) = 1 <->
     newer (v_major a, v_minor a, v_patch a) (v_major b, v_minor b, v_patch b))
  /\ (CompareSemver (version_text a) (version_text b) = 0 <->
        (v_major a, v_minor a, v_patch a) = (v_major b, v_minor b, v_patch b))
  /\ (forall x y, CompareSemver y x = - CompareSemver x y)
  /\ (forall x y z, CompareSemver x y = 1 -> CompareSemver y z = 1 -> CompareSemver x z = 1)
  /\ (forall cur arch answer info, CheckForUpdate cur arch answer = Ok info ->
        validateReleaseTag (ui_LatestVersion info) = Ok tt
        /\ (ui_Available info = true <-> CompareSemver (ui_LatestVersion info) cur = 1)).
Proof.
  destruct (CompareSemver_spec (version_text a) (version_text b)) as (H1 & _ & H0).
  rewrite !parseSemver_text in H1, H0 by done. refine (conj H1 (conj H0 (conj _ (conj _ _)))).
  - intros x y. destruct (CompareSemver_spec x y) as (S1 & S2 & S3), (CompareSemver_spec y x) as (T1 & T2 & T3).
    destruct (CompareSemver_cases x y) as [E|[E|E]]; rewrite E; [apply T2, S1, E|apply T3; symmetry; apply S3, E|apply T1, S2, E].
  - intros x y z. rewrite !(proj1 (CompareSemver_spec _ _)). unfold newer.
    destruct (parseSemver x) as [[x0 x1] x2], (parseSemver y) as [[y0 y1] y2], (parseSemver z) as [[z0 z1] z2]. lia.
  - intros cur arch answer info H. unfold CheckForUpdate in H. apply result_bind_Ok in H as (release & Hr & H).
    inv_ok. subst. cbn [ui_LatestVersion ui_Available]. rewrite selectAssets_version. cbn [ui_LatestVersion].
    unfold fetchLatestRelease in Hr. apply result_bind_Ok in Hr as ([st body] & _ & Hr). inv_ok. subst.
    match goal with H : validateReleaseTag _ = Ok ?u |- _ => destruct u end.
    split; [done|]. rewrite Z.ltb_lt.
    destruct (CompareSemver_cases (rl_TagName release) cur) as [E|[E|E]]; rewrite E; lia.
Qed.

Lemma versions_compare_numerically_witness :
  CompareSemver (version_text (mkVersion true 1 10 0 None)) (version_text (mkVersion false 1 9 3 (Some "rc.1"))) = 1
  <-> newer (1, 10, 0) (1, 9, 3).
Proof.
  apply (versions_compare_numerically (mkVersion true 1 10 0 None) (mkVersion false 1 9 3 (Some "rc.1")));
    unfold version_ok, int64_max; cbn; lia.
Defined.

(** ** Concrete runs *)

Definition toy_sha (_ : string) : string := "ab12".
Definition toy_untar (archive : string) : result tar_stream :=
  Ok (TarNext (mkEntry "README" true 3 "doc") (TarNext (mkEntry "dist/lankeeper" true (len archive) archive) TarEOF)).
Definition toy_lower (s : string) : string := s.
Definition toy_verify (_ _ _ : string) : bool := true.

Fixpoint times (n : nat) (s : string) : string := match n with O => "" | S m => s +:+ times m s end.

(** 64 zero bytes in base64. *)
Definition toy_sig : string := times 84 "A" +:+ "AA==".

Definition toy_asset : string := "lankeeper-v1.2.0-linux-amd64.tar.gz".

Definition good_env : env := {|
  e_export := Some (Ok tt); e_download := Ok (200, "new"); e_create := Ok tt;
  e_sums := Ok (200, "AB12  " +:+ toy_asset +:+ char_str (ascii_of_nat 10)); e_sig := Ok (200, toy_sig);
  e_hash := Ok tt; e_open := Ok tt; e_stage := Ok tt; e_stageIO := Ok tt;
  e_cpBackup := CpOk; e_cpNew := CpOk; e_chmod := Ok tt; e_version := Ok "lankeeper 1.2.0";
  e_cpRestore := CpOk; e_save := Ok tt; e_saveLeft := None;
  e_arm := Ok tt; e_stop := Ok tt; e_rmBackup := Ok tt; e_rmSnapshot := Ok tt; e_clear := Ok tt; e_brand := Ok tt |}.

Definition toy_info : UpdateInfo := mkInfo true "v1.1.0" "v1.2.0" "amd64" "" "https://x/a" "https://x/s" "https://x/g" toy_asset
  "2024-10-04" 3.

Definition old_disk : disk := mkDisk "old" None None ∅ false "".
Definition old_service : service := mkService "v1.1.0" "" "" "" "".

Definition toy_run (e : env) : service * disk * list command * result unit :=
  ApplyUpdate toy_sha toy_untar toy_lower toy_verify "amd64" e toy_info old_service old_disk.

Definition run_service (r : service * disk * list command * result unit) : service := fst (fst (fst r)).
Definition run_disk (r : service * disk * list command * result unit) : disk := snd (fst (fst r)).
Definition run_commands (r : service * disk * list command * result unit) : list command := snd (fst r).

Lemma update_installs_verified_witness :
  exists archive stream snap,
    e_download good_env = Ok (200, archive) /\ len archive <= maxUpdateArchiveBytes
    /\ verified toy_lower toy_verify toy_sha good_env toy_info archive
    /\ toy_untar archive = Ok stream /\ member_of stream (d_binary (run_disk (toy_run good_env)))
    /\ len (d_binary (run_disk (toy_run good_env))) <= maxUpdateBinaryBytes
    /\ awaiting "old" (d_binary (run_disk (toy_run good_env))) "v1.2.0" "v1.1.0" snap (run_disk (toy_run good_env))
    /\ run_service (toy_run good_env) = mkService "v1.1.0" "v1.2.0" "v1.1.0" backupPath snap.
Proof.
  apply (update_installs_verified toy_sha toy_untar toy_lower toy_verify "amd64" good_env toy_info old_service old_disk
    (run_service (toy_run good_env)) (run_disk (toy_run good_env)) (run_commands (toy_run good_env))).
  reflexivity.
Defined.

Definition bad_version_env : env := {|
  e_export := None; e_download := Ok (200, "new"); e_create := Ok tt;
  e_sums := e_sums good_env; e_sig := e_sig good_env;
  e_hash := Ok tt; e_open := Ok tt; e_stage := Ok tt; e_stageIO := Ok tt;
  e_cpBackup := CpOk; e_cpNew := CpOk; e_chmod := Ok tt; e_version := Ok "segmentation fault";
  e_cpRestore := CpOk; e_save := Ok tt; e_saveLeft := None;
  e_arm := Ok tt; e_stop := Ok tt; e_rmBackup := Ok tt; e_rmSnapshot := Ok tt; e_clear := Ok tt; e_brand := Ok tt |}.

Lemma failed_update_restores_witness :
  d_binary (run_disk (toy_run bad_version_env)) = "old" /\ d_guard (run_disk (toy_run bad_version_env)) = false
  /\ (run_service (toy_run bad_version_env) = old_service
      \/ run_service (toy_run bad_version_env) = resetPendingUpdate old_service).
Proof.
  apply (failed_update_restores toy_sha toy_untar toy_lower toy_verify "amd64" bad_version_env toy_info old_service old_disk
    (run_service (toy_run bad_version_env)) (run_disk (toy_run bad_version_env)) (run_commands (toy_run bad_version_env))
    (Errorf "version verification failed" [])); reflexivity.
Defined.

Lemma update_settles_witness :
  u_pending (NewUpdateService "v1.2.0" (run_disk (toy_run good_env))) = "v1.2.0"
  /\ d_binary (fst (guardFired (mkGuardEnv (Ok tt) (Ok tt) true true (Ok tt)) (run_disk (toy_run good_env)))) = "old".
Proof.
  destruct (update_settles toy_sha toy_untar toy_lower toy_verify "amd64" good_env toy_info old_service old_disk
    (run_service (toy_run good_env)) (run_disk (toy_run good_env)) (run_commands (toy_run good_env))
    ltac:(reflexivity) ltac:(reflexivity) "v1.2.0") as (H1 & H2 & _).
  split; [exact H1|]. apply (H2 (mkGuardEnv (Ok tt) (Ok tt) true true (Ok tt))); reflexivity.
Defined.

Lemma update_commands_accepted_witness :
  Forall accepted (run_commands (toy_run good_env)) /\ length (run_commands (toy_run good_env)) = 6%nat.
Proof.
  split; [|reflexivity].
  apply (update_commands_accepted toy_sha toy_untar toy_lower toy_verify "amd64" good_env toy_info old_service old_disk).
  - reflexivity.
  - split; left; reflexivity.
Defined.

(** ** Behaviours worth knowing *)

(** The pre-update archive, with every secret of the device in it, stays on
    the disk when the update fails: only confirming and rolling back remove
    it, and a failed update can do neither. *)
Lemma failed_update_keeps_archive :
  let e := {| e_export := Some (Ok tt); e_download := Err (Errorf "timeout" []); e_create := Ok tt;
    e_sums := Ok (200, ""); e_sig := Ok (200, ""); e_hash := Ok tt; e_open := Ok tt; e_stage := Ok tt; e_stageIO := Ok tt;
    e_cpBackup := CpOk; e_cpNew := CpOk; e_chmod := Ok tt; e_version := Ok ""; e_cpRestore := CpOk; e_save := Ok tt;
    e_saveLeft := None; e_arm := Ok tt; e_stop := Ok tt; e_rmBackup := Ok tt; e_rmSnapshot := Ok tt; e_clear := Ok tt;
    e_brand := Ok tt |} in
  preUpdateSnapshotPath "v1.2.0" ∈ d_snapshots (run_disk (toy_run e))
  /\ snd (Rollback e (run_service (toy_run e)) (run_disk (toy_run e))) = Err ErrNoPendingUpdate.
Proof. split; [apply (bool_decide_unpack _); reflexivity|reflexivity]. Qed.

(** A second update while one waits for confirmation replaces the backup of
    the first, and when its guard cannot be armed, because the unit of the
    first exists already, it deletes the record the first one's guard looks
    for: the unconfirmed binary stays. *)
Lemma second_update_disarms_first sha256 untar lower verify arch e info s d s' d' cmds er g old new v p snap
  (Ha : ApplyUpdate sha256 untar lower verify arch e info s d = (s', d', cmds, Err er))
  (Hw : awaiting old new v p snap d) (Hf : is_ok (fetchBinary sha256 untar lower verify e info) = true)
  (Hu : ui_DownloadURL info <> "") (Hi : e_cpBackup e = CpOk /\ e_cpNew e = CpOk /\ e_chmod e = Ok tt)
  (Hv : exists out, e_version e = Ok out /\ Contains out (TrimPrefix (ui_LatestVersion info) "v") = true)
  (Hs : e_save e = Ok tt) (Harm : e_arm e = Err er) (Hr : e_cpRestore e = CpOk) (Hc : e_clear e = Ok tt) :
  d_binary (fst (guardFired g d')) = new.
Proof.
  revert Ha. unfold ApplyUpdate. destruct (String.eqb_spec (ui_DownloadURL info) ""); [done|].
  destruct (snapshotConfig e _ d) as [d1 sn] eqn:Hsn. apply snapshotConfig_frame in Hsn as (Hb & _).
  destruct (fetchBinary _ _ _ _ e info) as [nb|]; [|done]. destruct Hi as (I1 & I2 & I3), Hv as (out & V1 & V2).
  unfold installBinary. rewrite I1, I2, I3, V1, V2, Hs. unfold armUpdateGuard. rewrite Harm.
  intros [= <- <- <- _]. unfold clearUpdateState, restoreBinary. rewrite Hc, Hr. cbn.
  unfold guardFired, rollbackUnconfirmedUpdate. cbn. destruct Hw as (Hw & _). case_match; cbn; congruence.
Qed.

(** A pre-release and its release compare equal, so a device on a release
    candidate is not offered the final version. *)
Lemma prerelease_equals_release : CompareSemver "v1.2.0" "v1.2.0-rc1" = 0.
Proof. reflexivity. Qed.

(** A failed explicit rollback has already stopped the guard, so the update
    stays installed with nothing left to revert it. *)
Lemma failed_rollback_disarms e s d er :
  u_pending s <> "" -> u_backup s <> "" -> e_stop e = Ok tt -> e_cpRestore e = CpFail None er ->
  d_guard (snd (fst (fst (Rollback e s d)))) = false.
Proof.
  intros Hp Hb Hs Hr. unfold Rollback. destruct (String.eqb_spec (u_pending s) ""), (String.eqb_spec (u_backup s) ""); try done.
  cbn [orb]. rewrite Hr. unfold stopUpdateGuard. by rewrite Hs.
Qed.
