(* ===== verification/Respond.v ===== *)
(** * internal/web/handlers/respond.go, errors.go and formcheck.go

    What a handler reads of a request and how it answers: the form and path
    values, the kinds of reply, the form checks the handlers share.  Messages
    are kept as their locale key. *)

From S2P Require Import Prelude GoStrings GoNet Validate.

Local Open Scope Z_scope.
Local Open Scope go_scope.

(** What a handler sees of a request: whether [r.ParseForm] succeeds,
    [r.FormValue], [r.PathValue] and the HX-Request header. *)
Record hreq : Type := mkHreq {
  hq_parse : result unit; hq_form : string -> string; hq_path : string -> string; hq_htmx : string }.

(** [http.Error] with a translated message and the detail after it,
    [http.Error] with the text of an error, a redirect, and a bare status with
    one header. *)
Inductive hresp : Type :=
| HMessage (status : Z) (key detail : string)
| HError (status : Z) (e : error)
| HRedirect (status : Z) (path : string)
| HHeader (status : Z) (name value : string)
| HStatus (status : Z).

Definition hstatus (h : hresp) : Z :=
  match h with HMessage s _ _ | HError s _ | HRedirect s _ | HHeader s _ _ | HStatus s => s end.

Definition StatusOK : Z := 200.
Definition StatusSeeOther : Z := 303.
Definition StatusBadRequest : Z := 400.
Definition StatusConflict : Z := 409.
Definition StatusInternalServerError : Z := 500.

(** The request was carried out. *)
Definition accepted (h : hresp) : bool := hstatus h <? 400.

Definition fail (status : Z) (e : error) : hresp := HError status e.
Definition clientError (status : Z) (key : string) : hresp := HMessage status key "".
Definition clientErrorf (status : Z) (key detail : string) : hresp := HMessage status key detail.
Definition serverError (key : string) (e : error) : hresp := clientError StatusInternalServerError key.

Definition respondRefresh (r : hreq) (redirectPath : string) : hresp :=
  if String.eqb (hq_htmx r) "true" then HHeader StatusOK "HX-Refresh" "true" else HRedirect StatusSeeOther redirectPath.

Definition respondTrigger (r : hreq) (event redirectPath : string) : hresp :=
  if String.eqb (hq_htmx r) "true" then HHeader StatusOK "HX-Trigger" event else HRedirect StatusSeeOther redirectPath.

(** ** Form checks *)

Record check : Type := mkFormCheck { chk_failed : bool; chk_key : string }.

Definition firstFailed (checks : list check) : string :=
  match List.find chk_failed checks with Some c => chk_key c | None => "" end.

Definition oneOf (v : string) (allowed : list string) : bool := existsb (String.eqb v) allowed.

Definition formPort (r : hreq) (field : string) : Z * bool :=
  match Atoi (hq_form r field) with
  | Some port => if is_ok (ValidatePort port) then (port, true) else (0, false)
  | None => (0, false)
  end.

Definition optionalAddress (v : string) : bool :=
  String.eqb v "" || is_ok (ValidateCIDR v) || is_ok (ValidateIP v).

(** ** Lemmas *)

(** No key means that every check passed, when the keys are not empty. *)
Lemma firstFailed_none checks :
  Forall (fun c => chk_key c <> "") checks -> firstFailed checks = "" ->
  Forall (fun c => chk_failed c = false) checks.
Proof.
  unfold firstFailed. induction 1 as [|c checks Hc _ IH]; [constructor|]. cbn [List.find].
  destruct (chk_failed c) eqn:E; [done|]. intros H. constructor; [done|by apply IH].
Qed.

Lemma formPort_ok r field port : formPort r field = (port, true) -> 1 <= port <= 65535.
Proof.
  unfold formPort. destruct (Atoi (hq_form r field)) as [p|]; [|done].
  destruct (ValidatePort p) as [[]|] eqn:E; [|done]. intros [= <-]. by apply ValidatePort_iff.
Qed.

Lemma accepted_refresh r path : accepted (respondRefresh r path) = true.
Proof. unfold respondRefresh. by destruct (String.eqb _ _). Qed.
Lemma accepted_trigger r ev path : accepted (respondTrigger r ev path) = true.
Proof. unfold respondTrigger. by destruct (String.eqb _ _). Qed.
