(* ===== verification/Routing.v ===== *)
(** * internal/services/routing.go and internal/web/handlers/routing.go

    Policy-based routing: the list of policies, the nftables chain that marks
    packets for a tunnel, the rules that send marked packets to its table, and
    the sets of addresses behind a policy's domains.  [sort.Slice] is not
    stable, so the order of policies with one priority is a parameter with the
    documented law; so is the order in which Go ranges over a map. *)

From stdpp Require Import sorting.
From S2P Require Import Prelude GoStrings Regex GoNet GoIP Validate ConfigTypes AgentRules FirewallRender Sys SystemService Respond.

Local Open Scope Z_scope.
Local Open Scope go_scope.
Local Open Scope sys_scope.

Record routing : Type := mkRouting {
  ro_cfg : Config; ro_domainSets : gmap string (gset string); ro_refreshing : bool }.

Definition NewRoutingService (cfg : Config) : routing := mkRouting cfg ∅ false.

Definition policies_of (s : routing) : list RoutingPolicy := RoutingConfig_Policies (Config_Routing (ro_cfg s)).
Definition with_policies (ps : list RoutingPolicy) (s : routing) : routing :=
  mkRouting (set_Config_Routing (set_RoutingConfig_Policies ps (Config_Routing (ro_cfg s))) (ro_cfg s))
    (ro_domainSets s) (ro_refreshing s).

Definition persist : svc routing (result unit) := s ← get; SaveToFile (ro_cfg s).

(** ** Names and checks *)

Definition policy_name_char (a : ascii) : bool := is_alnum a || char_in "_-" a.
Definition routingPolicyNamePattern : regex := RSeq (RCls policy_name_char) (rupto 31 (RCls policy_name_char)).

Definition ValidateRoutingPolicy (p : RoutingPolicy) : result unit :=
  if negb (matchb routingPolicyNamePattern (RoutingPolicy_Name p))
  then Err (Errorf "policy name must be 1-32 letters, digits, hyphens or underscores" [])
  else if String.eqb (RoutingPolicy_Tunnel p) ""
  then Err (Errorf "policy %q names no tunnel" [RoutingPolicy_Name p])
  else match List.find (fun d => negb (is_ok (ValidateDomain d))) (RoutingPolicy_Domains p) with
  | Some d => Err (Errorw "policy %q domain %q: %w" [RoutingPolicy_Name p; d] ErrInvalidDomain)
  | None => Ok tt
  end.

Fixpoint map_string (f : ascii -> ascii) (s : string) : string :=
  match s with "" => "" | String a s => String (f a) (map_string f s) end.

Definition sanitizeName (s : string) : string :=
  map_string (fun a => if char_in " -." a then "_"%char else a) s.

Definition set_name (p : RoutingPolicy) : string := "pbr_" +:+ sanitizeName (RoutingPolicy_Name p).

Record tunnelRef : Type := mkTunnelRef { tr_Table : Z; tr_Fwmark : Z }.

Definition findTunnel (cfg : Config) (name : string) : option tunnelRef :=
  match List.find (fun t => String.eqb (WGClientTunnel_Name t) name) (VPNConfig_Clients (Config_VPN cfg)) with
  | Some t => Some (mkTunnelRef (WGClientTunnel_Table t) (WGClientTunnel_Fwmark t))
  | None =>
      match List.find (fun t => String.eqb (OVPNClientConfig_Name t) name) (OpenVPNConfig_Clients (Config_OpenVPN cfg)) with
      | Some t => Some (mkTunnelRef (OVPNClientConfig_Table t) (OVPNClientConfig_Fwmark t))
      | None => None
      end
  end.

(** ** The chain *)

Definition buildScheduleMatch (schedule : string) : string :=
  match split_byte "-" schedule with
  | [a; b] =>
      let start := TrimSpace a in
      let stop := TrimSpace b in
      if String.eqb start "" || String.eqb stop "" then ""
      else "meta hour >= " +:+ char_str dquote +:+ start +:+ char_str dquote
           +:+ " meta hour < " +:+ char_str dquote +:+ stop +:+ char_str dquote +:+ " "
  | _ => ""
  end.

Definition nl : string := char_str lf.

(** The closure [mark] of [writePolicyRules]. *)
Definition mark_line (schedulePrefix match_ : string) (fwmark : Z) : string :=
  "add rule inet filter pbr_policies " +:+ schedulePrefix +:+ match_ +:+ " meta mark set " +:+ itoa fwmark +:+ nl.

Definition drop_line (match_ : string) (fwmark : Z) : string :=
  "add rule inet filter pbr_policies " +:+ match_ +:+ " meta mark != " +:+ itoa fwmark +:+ " drop" +:+ nl.

Definition lines (l : list string) : string := String.concat "" l.

Definition writePolicyRules (sb : string) (p : RoutingPolicy) (fwmark : Z) : string :=
  let schedulePrefix :=
    if String.eqb (RoutingPolicy_Schedule p) "" then "" else buildScheduleMatch (RoutingPolicy_Schedule p) in
  let mark m := mark_line schedulePrefix m fwmark in
  let proto := orDefault (RoutingPolicy_Protocol p) "tcp" in
  let sb := sb +:+ lines (List.map (fun mac => mark ("ether saddr " +:+ mac)) (RoutingPolicy_SrcMACs p)) in
  let sb := sb +:+ lines (List.map (fun ip => mark ("ip saddr " +:+ ip)) (RoutingPolicy_SrcIPs p)) in
  let sb := sb +:+ lines (List.map (fun dst => mark ("ip daddr " +:+ dst)) (RoutingPolicy_DstIPs p)) in
  let sb := sb +:+ lines (List.map (fun port => mark (proto +:+ " dport " +:+ itoa port)) (RoutingPolicy_DstPorts p)) in
  let sb := match RoutingPolicy_Domains p with
    | [] => sb
    | _ => sb +:+ "add set inet filter " +:+ set_name p +:+ " { type ipv4_addr ; flags timeout ; }" +:+ nl
           +:+ mark ("ip daddr @" +:+ set_name p)
    end in
  if negb (RoutingPolicy_KillSwitch p) then sb
  else
    let sb := sb +:+ lines (List.map (fun mac => drop_line ("ether saddr " +:+ mac) fwmark) (RoutingPolicy_SrcMACs p)) in
    sb +:+ lines (List.map (fun ip => drop_line ("ip saddr " +:+ ip) fwmark) (RoutingPolicy_SrcIPs p)).

Definition chain_head : string :=
  "add chain inet filter pbr_policies { type filter hook forward priority -1 ; policy accept ; }" +:+ nl
  +:+ "flush chain inet filter pbr_policies" +:+ nl.
Definition chain_tail : string := "add rule inet filter pbr_policies ct mark set meta mark" +:+ nl.

Definition generateFullNftChain (cfg : Config) (policies : list RoutingPolicy) : string :=
  foldl (fun sb p =>
      if negb (RoutingPolicy_Enabled p) then sb
      else match findTunnel cfg (RoutingPolicy_Tunnel p) with
           | Some tunnel => writePolicyRules sb p (tr_Fwmark tunnel)
           | None => sb
           end) chain_head policies
  +:+ chain_tail.

Section Service.

(** [sort.Slice] by priority, and the order of a [range] over the sets. *)
Variable sortByPriority : list RoutingPolicy -> list RoutingPolicy.
Variable range_sets : gmap string (gset string) -> list (string * list string).

Definition GetPolicies (s : routing) : list RoutingPolicy := sortByPriority (policies_of s).
Definition GenerateNftRules (s : routing) : string := generateFullNftChain (ro_cfg s) (sortByPriority (policies_of s)).

(** ** Edits *)

Definition maxPriority (ps : list RoutingPolicy) : Z :=
  foldl (fun m p => if m <? RoutingPolicy_Priority p then RoutingPolicy_Priority p else m) 0 ps.

Definition AddPolicy (policy : RoutingPolicy) : svc routing (result unit) :=
  match ValidateRoutingPolicy policy with
  | Err e => mret (Err e)
  | Ok _ =>
      s ← get;
      let policy := if RoutingPolicy_Priority policy =? 0
                    then set_RoutingPolicy_Priority (wrap64 (maxPriority (policies_of s) + 10)) policy else policy in
      put (with_policies (policies_of s ++ [policy]) s) ;;
      persist
  end.

(** The list without its first policy of that name. *)
Fixpoint remove_named (name : string) (ps : list RoutingPolicy) : option (list RoutingPolicy) :=
  match ps with
  | [] => None
  | p :: ps => if String.eqb (RoutingPolicy_Name p) name then Some ps else cons p <$> remove_named name ps
  end.

Definition RemovePolicy (name : string) : svc routing (result unit) :=
  s ← get;
  match remove_named name (policies_of s) with
  | Some ps => put (with_policies ps s) ;; persist
  | None => mret (Err (Errorf "policy %q not found" [name]))
  end.

(** The map from a name to the last policy that carries it. *)
Fixpoint last_named (name : string) (ps : list RoutingPolicy) (i : nat) : option nat :=
  match ps with
  | [] => None
  | p :: ps =>
      match last_named name ps (S i) with
      | Some j => Some j
      | None => if String.eqb (RoutingPolicy_Name p) name then Some i else None
      end
  end.

Fixpoint assign_priorities (i : Z) (names : list string) (ps : list RoutingPolicy) : list RoutingPolicy :=
  match names with
  | [] => ps
  | name :: names =>
      assign_priorities (i + 1) names
        (match last_named name ps 0 with
         | Some j => alter (set_RoutingPolicy_Priority ((i + 1) * 10)) j ps
         | None => ps
         end)
  end.

Definition UpdatePriorities (orderedNames : list string) : svc routing (result unit) :=
  s ← get;
  put (with_policies (assign_priorities 0 orderedNames (policies_of s)) s) ;;
  persist.

Fixpoint toggle_named (name : string) (enabled : bool) (ps : list RoutingPolicy) : option (list RoutingPolicy) :=
  match ps with
  | [] => None
  | p :: ps =>
      if String.eqb (RoutingPolicy_Name p) name then Some (set_RoutingPolicy_Enabled enabled p :: ps)
      else cons p <$> toggle_named name enabled ps
  end.

Definition TogglePolicy (name : string) (enabled : bool) : svc routing (result unit) :=
  s ← get;
  match toggle_named name enabled (policies_of s) with
  | Some ps => put (with_policies ps s) ;; persist
  | None => mret (Err (Errorf "policy %q not found" [name]))
  end.

(** ** Loading into the kernel *)

Definition domainElementTimeout : string := "900s".

Definition resolveDomains (setName : string) (domains : list string) : svc routing unit :=
  for_each domains (fun domain =>
    out ← Run "dig" ["+short"; domain];
    match out with
    | Err _ => mret tt
    | Ok out =>
        for_each (split_byte lf (TrimSpace out)) (fun line =>
          let ip := TrimSpace line in
          if String.eqb ip "" || has_char ":" ip then mret tt
          else Run "nft" ["add"; "element"; "inet"; "filter"; setName; "{"; ip; "timeout"; domainElementTimeout; "}"] ;;
               mret tt)
    end).

Definition with_domains (setName : string) (domains : list string) (s : routing) : routing :=
  mkRouting (ro_cfg s)
    (<[setName := default ∅ (ro_domainSets s !! setName) ∪ list_to_set domains]> (ro_domainSets s)) (ro_refreshing s).

Definition setupDomainSet (p : RoutingPolicy) : svc routing unit :=
  s ← get;
  put (with_domains (set_name p) (RoutingPolicy_Domains p) s) ;;
  resolveDomains (set_name p) (RoutingPolicy_Domains p).

Definition refreshDomainSets : svc routing unit :=
  s ← get;
  for_each (range_sets (ro_domainSets s)) (fun x => resolveDomains (fst x) (snd x)).

Definition applyNftRules (rules : string) : svc routing (result unit) :=
  r ← RunWithStdin rules "nft" ["-f"; "-"]; mret (discard r).

Definition rule_del (t : tunnelRef) : svc routing (result string) :=
  Run "ip" ["rule"; "del"; "fwmark"; itoa (tr_Fwmark t); "lookup"; itoa (tr_Table t)].

(** The loop body of [Apply]. *)
Definition apply_policy (p : RoutingPolicy) : svc routing unit :=
  s ← get;
  if negb (RoutingPolicy_Enabled p) then mret tt
  else match findTunnel (ro_cfg s) (RoutingPolicy_Tunnel p) with
  | None => mret tt
  | Some t =>
      rule_del t ;;
      Run "ip" ["rule"; "add"; "fwmark"; itoa (tr_Fwmark t); "lookup"; itoa (tr_Table t);
                "priority"; itoa (RoutingPolicy_Priority p)] ;;
      match RoutingPolicy_Domains p with [] => mret tt | _ => setupDomainSet p end
  end.

Definition Apply : svc routing (result unit) :=
  s ← get;
  let policies := sortByPriority (policies_of s) in
  try! _ := wrapping "apply nft PBR chain: %w" [] (applyNftRules (generateFullNftChain (ro_cfg s) policies)) in
  for_each policies apply_policy ;;
  mret (Ok tt).

Definition StartDomainRefresh : svc routing unit :=
  s ← get; put (mkRouting (ro_cfg s) (ro_domainSets s) true).

Definition Clear : svc routing (result unit) :=
  Run "nft" ["delete"; "chain"; "inet"; "filter"; "pbr_policies"] ;;
  s ← get;
  for_each (policies_of s) (fun p =>
    match findTunnel (ro_cfg s) (RoutingPolicy_Tunnel p) with
    | None => mret tt
    | Some t =>
        rule_del t ;;
        match RoutingPolicy_Domains p with
        | [] => mret tt
        | _ => Run "nft" ["delete"; "set"; "inet"; "filter"; set_name p] ;; mret tt
        end
    end) ;;
  s ← get;
  put (mkRouting (ro_cfg s) (ro_domainSets s) false) ;;
  mret (Ok tt).

(** ** The handlers *)

Definition splitChecked (raw : string) (validate : string -> result unit) : list string * string * bool :=
  if String.eqb raw "" then ([], "", true)
  else
    let items := split_byte "," raw in
    match List.find (fun item => negb (is_ok (validate (TrimSpace item)))) items with
    | Some item => ([], item, false)
    | None => (items, "", true)
    end.

Definition nonEmptyLines (raw : string) : list string :=
  List.filter nonempty (List.map TrimSpace (split_byte lf raw)).

(** The policy, or the locale key and the entry it is about. *)
Definition parsePolicyForm (r : hreq) : RoutingPolicy + string * string :=
  let '(macs, bad, ok) := splitChecked (hq_form r "srcMacs") ValidateMAC in
  if negb ok then inr ("error.invalidMAC", bad) else
  let '(srcIPs, bad, ok) := splitChecked (hq_form r "srcIps") ValidateCIDR in
  if negb ok then inr ("error.invalidCIDR", bad) else
  let '(dstIPs, bad, ok) := splitChecked (hq_form r "dstIps") ValidateCIDR in
  if negb ok then inr ("error.invalidCIDR", bad) else
  inl (mkRoutingPolicy (hq_form r "name") true 0 macs srcIPs dstIPs [] (nonEmptyLines (hq_form r "domains")) ""
         (hq_form r "tunnel") false "").

Definition apply_then (resp : hresp) : svc routing hresp :=
  a ← Apply;
  mret (match a with Ok _ => resp | Err e => fail StatusInternalServerError e end).

Definition HandleAddPolicy (r : hreq) : svc routing hresp :=
  if negb (is_ok (hq_parse r)) then mret (clientError StatusBadRequest "error.badForm")
  else match parsePolicyForm r with
  | inr (key, bad) => mret (clientErrorf StatusBadRequest key bad)
  | inl policy =>
      match ValidateRoutingPolicy policy with
      | Err e => mret (fail StatusBadRequest e)
      | Ok _ =>
          a ← AddPolicy policy;
          match a with
          | Err e => mret (serverError "error.saveFailed" e)
          | Ok _ => apply_then (respondRefresh r "/routing")
          end
      end
  end.

Definition HandleDeletePolicy (r : hreq) : svc routing hresp :=
  a ← RemovePolicy (hq_path r "name");
  match a with
  | Err e => mret (fail StatusBadRequest e)
  | Ok _ => apply_then (respondRefresh r "/routing")
  end.

(** [body] is the request body as the JSON decoder reads it. *)
Definition HandleReorder (body : result (list string)) : svc routing hresp :=
  match body with
  | Err _ => mret (clientError StatusBadRequest "error.invalidJSON")
  | Ok names =>
      a ← UpdatePriorities names;
      match a with
      | Err e => mret (serverError "error.saveFailed" e)
      | Ok _ => apply_then (HStatus StatusOK)
      end
  end.

End Service.

(** ** The chain as statements *)

(** What a rule of the chain tests, and its text. *)
Inductive pmatch : Type := MSrcMAC (mac : string) | MSrcIP (ip : string) | MDstIP (ip : string) | MDstPort (proto : string) (port : Z) | MInSet (name : string).

Definition show_match (m : pmatch) : string :=
  match m with
  | MSrcMAC mac => "ether saddr " +:+ mac
  | MSrcIP ip => "ip saddr " +:+ ip
  | MDstIP ip => "ip daddr " +:+ ip
  | MDstPort proto port => proto +:+ " dport " +:+ itoa port
  | MInSet name => "ip daddr @" +:+ name
  end.

Inductive stmt : Type := SMark (sched : string) (m : pmatch) (fwmark : Z) | SSet (name : string) | SDrop (m : pmatch) (fwmark : Z) | SSave.

Definition show_stmt (st : stmt) : string :=
  match st with
  | SMark sched m f => mark_line sched (show_match m) f
  | SSet name => "add set inet filter " +:+ name +:+ " { type ipv4_addr ; flags timeout ; }" +:+ nl
  | SDrop m f => drop_line (show_match m) f
  | SSave => chain_tail
  end.

Definition sched_prefix (p : RoutingPolicy) : string :=
  if String.eqb (RoutingPolicy_Schedule p) "" then "" else buildScheduleMatch (RoutingPolicy_Schedule p).

Definition source_matches (p : RoutingPolicy) : list pmatch :=
  List.map MSrcMAC (RoutingPolicy_SrcMACs p) ++ List.map MSrcIP (RoutingPolicy_SrcIPs p).
Definition plain_matches (p : RoutingPolicy) : list pmatch :=
  source_matches p ++ List.map MDstIP (RoutingPolicy_DstIPs p)
  ++ List.map (MDstPort (orDefault (RoutingPolicy_Protocol p) "tcp")) (RoutingPolicy_DstPorts p).
Definition set_matches (p : RoutingPolicy) : list pmatch :=
  match RoutingPolicy_Domains p with [] => [] | _ => [MInSet (set_name p)] end.
Definition all_matches (p : RoutingPolicy) : list pmatch := plain_matches p ++ set_matches p.

Definition policy_stmts (p : RoutingPolicy) (f : Z) : list stmt :=
  List.map (fun m => SMark (sched_prefix p) m f) (plain_matches p)
  ++ match RoutingPolicy_Domains p with [] => [] | _ => [SSet (set_name p); SMark (sched_prefix p) (MInSet (set_name p)) f] end
  ++ (if RoutingPolicy_KillSwitch p then List.map (fun m => SDrop m f) (source_matches p) else []).

(** The mark a policy sets, when it is in force. *)
Definition mark_of (cfg : Config) (p : RoutingPolicy) : option Z :=
  if RoutingPolicy_Enabled p then tr_Fwmark <$> findTunnel cfg (RoutingPolicy_Tunnel p) else None.

Definition chain_stmts (cfg : Config) (ps : list RoutingPolicy) : list stmt :=
  List.flat_map (fun p => match mark_of cfg p with Some f => policy_stmts p f | None => [] end) ps ++ [SSave].

Lemma lines_app a b : lines (a ++ b) = lines a +:+ lines b.
Proof.
  unfold lines. induction a as [|x a IH]; [done|]. cbn [app].
  assert (Hc : forall y l, String.concat "" (y :: l) = y +:+ String.concat "" l).
  { intros y [|z l]; cbn; [by rewrite append_empty_r|done]. }
  by rewrite !Hc, IH, append_assoc.
Qed.

Lemma lines_cons x l : lines (x :: l) = x +:+ lines l.
Proof. change (x :: l) with ([x] ++ l). rewrite lines_app. done. Qed.

(** The text is the statements, in order. *)
Lemma writePolicyRules_stmts sb p f :
  writePolicyRules sb p f = sb +:+ lines (List.map show_stmt (policy_stmts p f)).
Proof.
  unfold writePolicyRules, policy_stmts, plain_matches, source_matches. fold (sched_prefix p).
  destruct (RoutingPolicy_Domains p), (RoutingPolicy_KillSwitch p); cbn [negb];
    rewrite ?List.map_app, ?List.map_map, ?lines_app; cbn [List.map show_stmt show_match];
    rewrite ?lines_cons; change (lines []) with ""; by rewrite ?append_empty_r, !append_assoc.
Qed.

Lemma generateFullNftChain_stmts cfg ps :
  generateFullNftChain cfg ps = chain_head +:+ lines (List.map show_stmt (chain_stmts cfg ps)).
Proof.
  unfold generateFullNftChain, chain_stmts. rewrite List.map_app, lines_app. cbn [List.map show_stmt].
  change (lines [chain_tail]) with chain_tail. rewrite <- append_assoc. f_equal.
  generalize chain_head as sb. induction ps as [|p ps IH]; intros sb; cbn [foldl List.flat_map].
  - change (lines _) with "". by rewrite append_empty_r.
  - rewrite IH, List.map_app, lines_app. unfold mark_of.
    destruct (RoutingPolicy_Enabled p); cbn [negb]; [|done].
    destruct (findTunnel cfg (RoutingPolicy_Tunnel p)) as [t|]; cbn [fmap option_fmap option_map]; [|done].
    by rewrite writePolicyRules_stmts, append_assoc.
Qed.

(** ** What the chain does to a packet *)

Section Meaning.

(** Which tests hold for the packet, and which schedule prefixes are open. *)
Variable holds : pmatch -> bool.
Variable open : string -> bool.

(** The mark the packet leaves with, or [None] when it is dropped. *)
Fixpoint exec (sts : list stmt) (mark : Z) : option Z :=
  match sts with
  | [] => Some mark
  | SMark sched m f :: sts => exec sts (if open sched && holds m then f else mark)
  | SDrop m f :: sts => if holds m && negb (mark =? f) then None else exec sts mark
  | SSet _ :: sts | SSave :: sts => exec sts mark
  end.

(** A policy applies to the packet, and the packet comes from its sources. *)
Definition applies (p : RoutingPolicy) : bool := open (sched_prefix p) && existsb holds (all_matches p).
Definition from_source (p : RoutingPolicy) : bool := existsb holds (source_matches p).

(** One policy in force with mark [f]. *)
Definition steer (mark : Z) (p : RoutingPolicy) (f : Z) : option Z :=
  let mark := if applies p then f else mark in
  if RoutingPolicy_KillSwitch p && from_source p && negb (mark =? f) then None else Some mark.

Definition steer_all (cfg : Config) (ps : list RoutingPolicy) (mark : Z) : option Z :=
  foldl (fun r p => m ← r; match mark_of cfg p with Some f => steer m p f | None => Some m end) (Some mark) ps.

Lemma exec_app a b mark : exec (a ++ b) mark = exec a mark ≫= exec b.
Proof.
  revert mark. induction a as [|[sched m f|n|m f|] a IH]; intros mark; cbn [app exec]; try apply IH; [done|].
  destruct (holds m && _); [done|apply IH].
Qed.

Lemma exec_marks sched f ms mark :
  exec (List.map (fun m => SMark sched m f) ms) mark = Some (if open sched && existsb holds ms then f else mark).
Proof.
  revert mark. induction ms as [|m ms IH]; intros mark; cbn [List.map exec existsb]; [by rewrite andb_false_r|].
  rewrite IH. f_equal. by destruct (open sched), (holds m), (existsb holds ms).
Qed.

Lemma exec_drops f ms mark :
  exec (List.map (fun m => SDrop m f) ms) mark = if existsb holds ms && negb (mark =? f) then None else Some mark.
Proof.
  induction ms as [|m ms IH]; cbn [List.map exec existsb]; [done|]. rewrite IH.
  by destruct (holds m), (existsb holds ms), (negb (mark =? f)).
Qed.

Lemma exec_policy p f mark : exec (policy_stmts p f) mark = steer mark p f.
Proof.
  unfold policy_stmts, steer, applies, all_matches, set_matches, from_source. rewrite !exec_app, exec_marks.
  cbn [mbind option_bind]. rewrite exec_app, existsb_app.
  destruct (RoutingPolicy_Domains p); cbn [exec mbind option_bind existsb];
    rewrite ?orb_false_r;
    destruct (RoutingPolicy_KillSwitch p); cbn [exec]; rewrite ?exec_drops; cbn [andb]; try done;
    by destruct (open (sched_prefix p)), (existsb holds (plain_matches p)), (holds (MInSet (set_name p))).
Qed.

Lemma foldl_bind_None {A} (g : A -> Z -> option Z) l : foldl (fun r x => r ≫= g x) None l = None.
Proof. by induction l. Qed.

Lemma steer_all_cons cfg p ps mark :
  steer_all cfg (p :: ps) mark
  = (match mark_of cfg p with Some f => steer mark p f | None => Some mark end) ≫= steer_all cfg ps.
Proof.
  unfold steer_all. cbn [foldl mbind option_bind]. destruct (match mark_of cfg p with Some _ => _ | None => _ end) as [m|]; [done|].
  apply (foldl_bind_None (fun p m => match mark_of cfg p with Some f => steer m p f | None => Some m end)).
Qed.

Lemma exec_chain cfg ps mark : exec (chain_stmts cfg ps) mark = steer_all cfg ps mark.
Proof.
  unfold chain_stmts. rewrite exec_app. revert mark. induction ps as [|p ps IH]; intros mark; [done|].
  rewrite steer_all_cons. cbn [List.flat_map]. rewrite exec_app.
  destruct (mark_of cfg p) as [f|]; [|apply IH]. rewrite exec_policy. destruct (steer mark p f); [apply IH|done].
Qed.

(** The policies that apply, with their marks. *)
Definition chosen (cfg : Config) (p : RoutingPolicy) (f : Z) : Prop := mark_of cfg p = Some f /\ applies p = true.

Lemma steer_Some mark p f m : steer mark p f = Some m -> m = if applies p then f else mark.
Proof. unfold steer. by destruct (_ && _); [|intros [= <-]]. Qed.

(** A packet that is not dropped leaves with the mark of the last policy that
    applies, or with the mark it came with. *)
Lemma steer_all_last cfg ps mark m :
  steer_all cfg ps mark = Some m ->
  (m = mark /\ forall p f, In p ps -> ~ chosen cfg p f)
  \/ exists pre p post, ps = pre ++ p :: post /\ chosen cfg p m /\ forall q f, In q post -> ~ chosen cfg q f.
Proof.
  revert mark. induction ps as [|p ps IH]; intros mark; [intros [= <-]; by left|].
  rewrite steer_all_cons. destruct (mark_of cfg p) as [f|] eqn:Ef.
  - destruct (steer mark p f) as [m1|] eqn:Es; [|done]. cbn. intros H. apply steer_Some in Es as ->.
    destruct (IH _ H) as [[-> Hn]|(pre & q & post & -> & Hq & Hn)].
    + destruct (applies p) eqn:Ea.
      * right. exists [], p, ps. by repeat split.
      * left. split; [done|]. intros q g [<-|Hin]; [intros [_ ?]; congruence|by apply Hn].
    + right. by exists (p :: pre), q, post.
  - cbn. intros H. destruct (IH _ H) as [[-> Hn]|(pre & q & post & -> & Hq & Hn)].
    + left. split; [done|]. intros q g [<-|Hin]; [intros [? _]; congruence|by apply Hn].
    + right. by exists (p :: pre), q, post.
Qed.

(** A packet from the sources of a kill-switch policy in force leaves with the
    policy's mark or the mark of a later one that applies. *)
Lemma steer_all_kill cfg pre p post f mark m :
  mark_of cfg p = Some f -> RoutingPolicy_KillSwitch p = true -> from_source p = true ->
  steer_all cfg (pre ++ p :: post) mark = Some m ->
  m = f \/ exists q, In q post /\ chosen cfg q m.
Proof.
  intros Hf Hk Hs. revert mark. induction pre as [|x pre IH]; intros mark; cbn [app]; rewrite steer_all_cons.
  - rewrite Hf. unfold steer at 1. rewrite Hk, Hs. cbn [andb].
    destruct (Z.eqb_spec (if applies p then f else mark) f) as [->|Hne]; cbn [negb mbind option_bind]; [|done].
    intros H. apply steer_all_last in H as [[-> _]|(pre & q & post' & -> & Hq & _)]; [by left|].
    right. exists q. split; [|done]. apply in_app_iff. right. by left.
  - destruct (match mark_of cfg x with Some _ => _ | None => _ end) as [m1|]; [|done]. apply IH.
Qed.

Lemma source_applies p : open (sched_prefix p) = true -> from_source p = true -> applies p = true.
Proof.
  unfold applies, from_source, all_matches, plain_matches. intros -> H. by rewrite !existsb_app, H.
Qed.

(** The kill switch of a policy without a schedule never drops a packet: the
    rules before its drops have already set the mark they ask for. *)
Lemma kill_switch_never_drops cfg ps mark :
  Forall (fun p => open (sched_prefix p) = true) ps -> exists m, steer_all cfg ps mark = Some m.
Proof.
  intros H. revert mark. induction H as [|p ps Hp _ IH]; intros mark; [by eexists|].
  rewrite steer_all_cons. destruct (mark_of cfg p) as [f|]; [|apply IH]. unfold steer.
  destruct (from_source p) eqn:Es; [rewrite source_applies by done; rewrite Z.eqb_refl|]; rewrite ?andb_false_r; apply IH.
Qed.

End Meaning.

(** ** Order *)

Definition by_priority (p q : RoutingPolicy) : Prop := RoutingPolicy_Priority p <= RoutingPolicy_Priority q.

(** What [sort.Slice] promises. *)
Definition sort_law (sort : list RoutingPolicy -> list RoutingPolicy) : Prop :=
  forall l, Permutation (sort l) l /\ StronglySorted by_priority (sort l).

Lemma sorted_suffix pre p post q : StronglySorted by_priority (pre ++ p :: post) -> In q post -> by_priority p q.
Proof.
  induction pre as [|x pre IH]; cbn [app]; intros H Hq; apply StronglySorted_inv in H as [H1 H2]; [|by apply IH].
  rewrite List.Forall_forall in H2. by apply H2.
Qed.

(** ** Priorities *)

(** The position of a name. *)
Fixpoint index_of (name : string) (names : list string) : option nat :=
  match names with
  | [] => None
  | n :: names => if String.eqb n name then Some O else S <$> index_of name names
  end.

Definition reprioritised (i : Z) (names : list string) (p : RoutingPolicy) : RoutingPolicy :=
  match index_of (RoutingPolicy_Name p) names with
  | Some k => set_RoutingPolicy_Priority ((i + Z.of_nat k + 1) * 10) p
  | None => p
  end.

Lemma last_named_spec name ps i :
  match last_named name ps i with
  | Some j => exists k p, j = (i + k)%nat /\ ps !! k = Some p /\ RoutingPolicy_Name p = name
  | None => ~ In name (List.map RoutingPolicy_Name ps)
  end.
Proof.
  revert i. induction ps as [|p ps IH]; intros i; cbn [last_named]; [by intros []|].
  specialize (IH (S i)). destruct (last_named name ps (S i)) as [j|].
  - destruct IH as (k & q & -> & Hk & Hn). exists (S k), q. repeat split; [lia|done|done].
  - destruct (String.eqb_spec (RoutingPolicy_Name p) name) as [He|He].
    + exists O, p. repeat split; [lia|done].
    + cbn. by intros [?|?].
Qed.

Lemma lookup_map {A B} (f : A -> B) l i : List.map f l !! i = f <$> l !! i.
Proof. exact (list_lookup_fmap f l i). Qed.

(** With distinct names, the step of the loop changes the policy of that name
    and no other. *)
Lemma alter_named name v ps :
  NoDup (List.map RoutingPolicy_Name ps) ->
  (match last_named name ps 0 with
   | Some j => alter (set_RoutingPolicy_Priority v) j ps
   | None => ps
   end)
  = List.map (fun p => if String.eqb (RoutingPolicy_Name p) name then set_RoutingPolicy_Priority v p else p) ps.
Proof.
  intros Hnd. pose proof (last_named_spec name ps 0) as H. destruct (last_named name ps 0) as [j|].
  - destruct H as (k & p & -> & Hk & Hn). cbn [Nat.add]. apply list_eq. intros x.
    rewrite lookup_map.
    destruct (decide (x = k)) as [->|Hne].
    + rewrite list_lookup_alter_eq, Hk. cbn. by rewrite Hn, String.eqb_refl.
    + rewrite list_lookup_alter_ne by done. destruct (ps !! x) as [q|] eqn:Eq; [|done]. cbn.
      destruct (String.eqb_spec (RoutingPolicy_Name q) name) as [He|]; [|done]. exfalso. apply Hne.
      apply (NoDup_lookup (List.map RoutingPolicy_Name ps) x k name Hnd).
      * rewrite lookup_map, Eq. cbn. by f_equal.
      * rewrite lookup_map, Hk. cbn. by f_equal.
  - symmetry. rewrite <- (List.map_id ps) at 2. apply List.map_ext_in. intros p Hp.
    destruct (String.eqb_spec (RoutingPolicy_Name p) name) as [He|]; [|done]. exfalso. apply H.
    rewrite <- He. by apply in_map.
Qed.

Lemma index_of_In name names : index_of name names = None <-> ~ In name names.
Proof.
  induction names as [|n names IH]; cbn [index_of]; [split; [intros _ []|done]|].
  destruct (String.eqb_spec n name) as [->|Hne]; cbn.
  - split; [done|]. intros H. exfalso. apply H. by left.
  - destruct (index_of name names); cbn; split; try done.
    + intros H. exfalso. destruct IH as [_ IH]. discriminate IH. intros Hin. apply H. by right.
    + intros _ [?|?]; [done|]. by apply IH.
Qed.

Lemma assign_priorities_map i names ps :
  NoDup names -> NoDup (List.map RoutingPolicy_Name ps) ->
  assign_priorities i names ps = List.map (reprioritised i names) ps.
Proof.
  revert i ps. induction names as [|name names IH]; intros i ps Hn Hp; cbn [assign_priorities].
  - symmetry. apply List.map_id.
  - inversion_clear Hn as [|? ? Hnot Hn'] . rewrite alter_named by done. rewrite IH; [|done|].
    + rewrite List.map_map. apply List.map_ext. intros p. unfold reprioritised. cbn [index_of].
      rewrite (String.eqb_sym name). destruct (String.eqb_spec (RoutingPolicy_Name p) name) as [He|He].
      * cbn [RoutingPolicy_Name set_RoutingPolicy_Priority]. rewrite He.
        destruct (index_of name names) as [k|] eqn:Ei.
        -- exfalso. assert (Hi : index_of name names = None); [|congruence]. apply index_of_In.
           intros Hin. apply Hnot. by apply list_elem_of_In.
        -- do 2 f_equal. lia.
      * destruct (index_of (RoutingPolicy_Name p) names); cbn; [|done]. f_equal. lia.
    + rewrite List.map_map. erewrite List.map_ext; [exact Hp|]. intros p. by destruct (String.eqb _ _).
Qed.

Lemma index_of_lookup name names k : index_of name names = Some k -> names !! k = Some name.
Proof.
  revert k. induction names as [|n names IH]; intros k; cbn [index_of]; [done|].
  destruct (String.eqb_spec n name) as [->|]; [by intros [= <-]|].
  destruct (index_of name names) as [j|]; [|done]. cbn. intros [= <-]. by apply IH.
Qed.

(** The order in which a list names its elements. *)
Definition listed_before (names : list string) (a b : string) : Prop :=
  exists i j, names !! i = Some a /\ names !! j = Some b /\ (i <= j)%nat.

Lemma listed_sorted pre names : StronglySorted (listed_before (pre ++ names)) names.
Proof.
  revert pre. induction names as [|n names IH]; intros pre; [constructor|]. constructor.
  - specialize (IH (pre ++ [n])). by rewrite <- app_assoc in IH.
  - apply List.Forall_forall. intros b Hb. apply list_elem_of_In, list_elem_of_lookup in Hb as [j Hj].
    exists (length pre), (length pre + S j)%nat. repeat split; [| |lia].
    + by apply list_lookup_middle.
    + rewrite lookup_app_r by lia. by replace (length pre + S j - length pre)%nat with (S j) by lia.
Qed.

(** Sorting what a complete reordering assigns gives the order asked for. *)
Lemma reprioritised_order sort names ps :
  sort_law sort -> NoDup names -> Permutation names (List.map RoutingPolicy_Name ps) ->
  List.map RoutingPolicy_Name (sort (List.map (reprioritised 0 names) ps)) = names.
Proof.
  intros Hsort Hn Hp. destruct (Hsort (List.map (reprioritised 0 names) ps)) as [Hperm Hs].
  set (l := sort _) in *.
  assert (Hnames : List.map RoutingPolicy_Name (List.map (reprioritised 0 names) ps) = List.map RoutingPolicy_Name ps).
  { rewrite List.map_map. apply List.map_ext. intros p. unfold reprioritised. by destruct (index_of _ names). }
  assert (Hprio : forall p, In p l -> exists k, names !! k = Some (RoutingPolicy_Name p)
                                     /\ RoutingPolicy_Priority p = (Z.of_nat k + 1) * 10).
  { intros p Hin. apply (Permutation_in _ Hperm) in Hin. apply in_map_iff in Hin as (q & <- & Hq).
    unfold reprioritised. destruct (index_of (RoutingPolicy_Name q) names) as [k|] eqn:Ei.
    - exists k. split; [by apply index_of_lookup|]. cbn. lia.
    - exfalso. apply index_of_In in Ei. apply Ei. apply (Permutation_in _ (Permutation_sym Hp)). by apply in_map. }
  apply (StronglySorted_unique_strong (listed_before names)).
  - intros a b _ _ (i & j & Ha & Hb & Hij) (j' & i' & Hb' & Ha' & Hji).
    assert (i = i') by (eapply NoDup_lookup; eauto). assert (j = j') by (eapply NoDup_lookup; eauto). subst.
    assert (i' = j') by lia. congruence.
  - clear -Hs Hprio. induction Hs as [|p l Hs IH Hall]; [constructor|]. cbn [List.map]. constructor.
    + apply IH. intros q Hq. apply Hprio. by right.
    + apply List.Forall_forall. intros b Hb. apply in_map_iff in Hb as (q & <- & Hq).
      rewrite List.Forall_forall in Hall. specialize (Hall q Hq). unfold by_priority in Hall.
      destruct (Hprio p (or_introl eq_refl)) as (i & Hi & Hpi). destruct (Hprio q (or_intror Hq)) as (j & Hj & Hqj).
      exists i, j. repeat split; [done|done|lia].
  - apply (listed_sorted [] names).
  - rewrite (Permutation_map RoutingPolicy_Name Hperm), Hnames. by symmetry.
Qed.

(** ** The agent's verdict *)

Section Allowed.
Variable sort : list RoutingPolicy -> list RoutingPolicy.
Variable range_sets : gmap string (gset string) -> list (string * list string).
Context (I : routing -> Prop).
Hypothesis HI : forall s, I s -> forall ps, I (with_policies ps s).
Hypothesis HD : forall s, I s -> forall n ds, I (with_domains n ds s).
Hypothesis HR : forall s, I s -> forall b, I (mkRouting (ro_cfg s) (ro_domainSets s) b).

Lemma resolveDomains_allowed n ds : keeps allowed I (resolveDomains n ds).
Proof. unfold resolveDomains. walk; allow_call. Qed.

Lemma routing_Apply_allowed : keeps allowed I (Apply sort).
Proof.
  unfold Apply, applyNftRules, apply_policy, rule_del, setupDomainSet.
  walk; first [by apply HD|apply resolveDomains_allowed|allow_call].
Qed.

Lemma routing_Clear_allowed : keeps allowed I Clear.
Proof. unfold Clear, rule_del. walk; first [by apply HR|allow_call]. Qed.

Lemma refreshDomainSets_allowed : keeps allowed I (refreshDomainSets range_sets).
Proof. unfold refreshDomainSets. walk. apply resolveDomains_allowed. Qed.

Lemma routing_handlers_allowed r body :
  keeps allowed I (HandleAddPolicy sort r) /\ keeps allowed I (HandleDeletePolicy sort r)
  /\ keeps allowed I (HandleReorder sort body).
Proof.
  unfold HandleAddPolicy, HandleDeletePolicy, HandleReorder, apply_then, AddPolicy, RemovePolicy, UpdatePriorities, persist.
  split; [|split]; walk; first [by apply HI|apply routing_Apply_allowed|allow_call].
Qed.

End Allowed.

(** ** Properties *)

(** C13: The policy routing chain does what the policy list says.  The script
    loaded is the fixed head followed by the statements of the policies in
    force, in priority order.  A packet it lets through leaves with the mark of
    a policy that applies to it and whose priority number no other applying
    policy exceeds, or with the mark it came with when none applies; and a
    packet from the sources of a kill-switch policy is dropped or leaves with
    that policy's mark or the mark of an applying policy of at least its
    priority number. *)
Theorem steering_meaning (sort : list RoutingPolicy -> list RoutingPolicy) (s : routing) (holds : pmatch -> bool)
    (open : string -> bool) (mark : Z) (Hsort : sort_law sort) :
  let cfg := ro_cfg s in
  let sts := chain_stmts cfg (GetPolicies sort s) in
  GenerateNftRules sort s = chain_head +:+ lines (List.map show_stmt sts)
  /\ (forall m, exec holds open sts mark = Some m ->
       (m = mark /\ forall p f, In p (policies_of s) -> ~ chosen holds open cfg p f)
       \/ exists p, In p (policies_of s) /\ chosen holds open cfg p m
            /\ forall q f, In q (policies_of s) -> chosen holds open cfg q f -> by_priority q p)
  /\ (forall p f m, In p (policies_of s) -> mark_of cfg p = Some f -> RoutingPolicy_KillSwitch p = true ->
       from_source holds p = true -> exec holds open sts mark = Some m ->
       m = f \/ exists q, In q (policies_of s) /\ chosen holds open cfg q m /\ by_priority p q).
Proof.
  cbv zeta. unfold GenerateNftRules, GetPolicies. rewrite exec_chain, generateFullNftChain_stmts.
  destruct (Hsort (policies_of s)) as [Hp Hs].
  assert (Hin : forall q, In q (policies_of s) <-> In q (sort (policies_of s))).
  { intros q. split; apply Permutation_in; [by symmetry|done]. }
  set (ps := sort (policies_of s)) in *. split; [done|]. split.
  - intros m Hm. apply steer_all_last in Hm as [[-> Hn]|(pre & p & post & Hps & Hc & Hn)].
    + left. split; [done|]. intros p f Hp'. by apply Hn, Hin.
    + right. rewrite Hps in *. exists p. split; [apply Hin, in_app_iff; right; by left|]. split; [done|].
      intros q f Hq Hcq. apply Hin, in_app_iff in Hq as [Hq|[<-|Hq]]; [|unfold by_priority; lia|by apply Hn in Hcq].
      apply in_split in Hq as (a & b & ->). rewrite <- app_assoc in Hs. cbn [app] in Hs.
      eapply sorted_suffix; [exact Hs|]. apply in_app_iff. right. by left.
  - intros p f m Hp' Hf Hk Hsrc Hm. apply Hin in Hp'. apply in_split in Hp' as (pre & post & Hps). rewrite Hps in *.
    destruct (steer_all_kill _ _ _ _ _ _ _ _ _ Hf Hk Hsrc Hm) as [->|(q & Hq & Hc)]; [by left|].
    right. exists q. split; [apply Hin, in_app_iff; right; by right|]. split; [done|]. by eapply sorted_suffix.
Qed.

(** Reordering puts the policies in exactly the order asked for.  When the
    policies have distinct names and the request lists each once, then whatever
    the machine answers the page afterwards shows them in that order, nothing
    but the priorities has changed, and every other part of the configuration
    is as it was. *)
Theorem reorder_exact (sort : list RoutingPolicy -> list RoutingPolicy) (names : list string) (w : world) (s : routing)
    (Hsort : sort_law sort) (Hnames : NoDup names) (Hall : Permutation names (List.map RoutingPolicy_Name (policies_of s))) :
  let s' := state_after (UpdatePriorities names) w s in
  List.map RoutingPolicy_Name (GetPolicies sort s') = names
  /\ (exists prio, policies_of s' = List.map (fun p => set_RoutingPolicy_Priority (prio (RoutingPolicy_Name p)) p) (policies_of s))
  /\ s' = with_policies (policies_of s') s
  /\ calls_of (UpdatePriorities names) w s = [CSave (ro_cfg s')].
Proof.
  assert (Hnd : NoDup (List.map RoutingPolicy_Name (policies_of s))) by (by rewrite <- Hall).
  set (s1 := with_policies (List.map (reprioritised 0 names) (policies_of s)) s).
  assert (Hs' : state_after (UpdatePriorities names) w s = s1 /\ calls_of (UpdatePriorities names) w s = [CSave (ro_cfg s1)]).
  { unfold s1. rewrite <- assign_priorities_map by done. done. }
  destruct Hs' as [-> ->]. cbv zeta. change (policies_of s1) with (List.map (reprioritised 0 names) (policies_of s)).
  split; [by apply reprioritised_order|]. split; [|done].
  exists (fun n => match index_of n names with Some k => (0 + Z.of_nat k + 1) * 10 | None => 0 end).
  apply List.map_ext_in. intros p Hp. unfold reprioritised.
  destruct (index_of (RoutingPolicy_Name p) names) as [k|] eqn:Ei; [done|]. exfalso.
  apply index_of_In in Ei. apply Ei, (Permutation_in _ (Permutation_sym Hall)). by apply in_map.
Qed.

(** ** Samples *)

#[export] Instance by_priority_dec p q : Decision (by_priority p q) := Z_le_dec _ _.
#[export] Instance by_priority_total : Total by_priority.
Proof. intros p q. unfold by_priority. destruct (Z.le_ge_cases (RoutingPolicy_Priority p) (RoutingPolicy_Priority q)); [by left|by right]. Qed.
#[export] Instance by_priority_trans : Transitive by_priority.
Proof. intros p q r. unfold by_priority. lia. Qed.

Definition merge_by_priority : list RoutingPolicy -> list RoutingPolicy := merge_sort by_priority.

Lemma merge_by_priority_law : sort_law merge_by_priority.
Proof. intros l. split; [apply merge_sort_Permutation|apply StronglySorted_merge_sort; apply _]. Qed.

Definition sample_policy (name : string) (prio : Z) (kill : bool) : RoutingPolicy :=
  mkRoutingPolicy name true prio [] ["10.0.0.5"] [] [] [] "" "nl" kill "".
Definition sample_cfg (ps : list RoutingPolicy) : Config :=
  set_Config_Routing (mkRoutingConfig ps)
    (set_Config_VPN (set_VPNConfig_Clients [set_WGClientTunnel_Name "nl" (set_WGClientTunnel_Fwmark 100 WGClientTunnel_zero)]
                       VPNConfig_zero) Config_zero).
Definition sample_state : routing := NewRoutingService (sample_cfg [sample_policy "tv" 20 true; sample_policy "pc" 10 false]).

Lemma steering_meaning_witness :
  exec (fun _ => true) (fun _ => true) (chain_stmts (ro_cfg sample_state) (GetPolicies merge_by_priority sample_state)) 0
    = Some 100
  /\ (100 = 100 \/ exists q, In q (policies_of sample_state)
        /\ chosen (fun _ => true) (fun _ => true) (ro_cfg sample_state) q 100
        /\ by_priority (sample_policy "tv" 20 true) q).
Proof.
  split; [vm_compute; reflexivity|].
  refine (proj2 (proj2 (steering_meaning merge_by_priority sample_state (fun _ => true) (fun _ => true) 0
    merge_by_priority_law)) (sample_policy "tv" 20 true) 100 100 _ _ _ _ _);
    first [left; reflexivity | vm_compute; reflexivity].
Defined.

Lemma reorder_exact_witness :
  List.map RoutingPolicy_Name (GetPolicies merge_by_priority
    (state_after (UpdatePriorities ["tv"; "pc"]) (fun _ _ => Ok "") sample_state)) = ["tv"; "pc"].
Proof.
  refine (proj1 (reorder_exact merge_by_priority ["tv"; "pc"] (fun _ _ => Ok "") sample_state merge_by_priority_law _ _)).
  - apply (bool_decide_unpack _). vm_compute. exact I.
  - reflexivity.
Defined.

(** Two names that differ only in a hyphen share one set, so each policy's
    rules match the addresses of the other's domains. *)
Example set_name_collision :
  let p := sample_policy "a-b" 10 false in let q := sample_policy "a_b" 20 false in
  is_ok (ValidateRoutingPolicy p) = true /\ is_ok (ValidateRoutingPolicy q) = true
  /\ RoutingPolicy_Name p <> RoutingPolicy_Name q /\ set_name p = set_name q.
Proof. vm_compute. done. Qed.

(** An entry is checked trimmed and stored untrimmed: a line break in it is
    accepted and splits its rule over two lines of the script. *)
Example line_break_accepted :
  let r := mkHreq (Ok tt) (fun k => if String.eqb k "name" then "tv" else if String.eqb k "tunnel" then "nl"
                            else if String.eqb k "srcIps" then "10.0.0.0/8" +:+ nl else "") (fun _ => "") "" in
  exists p, parsePolicyForm r = inl p /\ is_ok (ValidateRoutingPolicy p) = true
    /\ writePolicyRules "" p 100
       = "add rule inet filter pbr_policies ip saddr 10.0.0.0/8" +:+ nl +:+ " meta mark set 100" +:+ nl.
Proof. eexists. split; [reflexivity|]. split; vm_compute; reflexivity. Qed.

(** Clearing ends the refresh of the domain sets, and applying again does not
    start it. *)
Lemma clear_ends_refresh sort w s :
  ro_refreshing (state_after (Clear ;; Apply sort) w s) = false.
Proof.
  assert (H : keeps (fun _ => True) (fun s => ro_refreshing s = false) (Apply sort)).
  { unfold Apply, applyNftRules, apply_policy, rule_del, setupDomainSet, resolveDomains. walk; done. }
  assert (Hc : triple (fun _ => True) (fun _ => True) Clear (fun _ s => ro_refreshing s = false)).
  { unfold Clear. eapply (triple_bind _ _ _ _ (fun _ _ => True)); [apply keeps_Run0; done|]. intros _.
    apply triple_get_bind. intros s1 _. eapply (triple_bind _ _ _ _ (fun _ _ => True)).
    - match goal with |- triple ?P ?I ?m _ => change (keeps P I m) end. unfold rule_del. walk; done.
    - intros _. apply triple_get_bind. intros s2 _. apply triple_put_bind, triple_ret. by intros s3 <-. }
  unfold state_after, mbind at 1, svc_bind at 1. destruct (Hc w [] s Logic.I) as [Hc' _].
  destruct (Clear w [] s) as [[? s1] h]. exact (proj1 (H w h s1 Hc')).
Qed.

(** Removing a policy leaves its domains to be resolved for ever. *)
Lemma removed_policy_keeps_domains name w s :
  ro_domainSets (state_after (RemovePolicy name) w s) = ro_domainSets s.
Proof.
  unfold state_after, RemovePolicy, mbind, svc_bind, get. destruct (remove_named name (policies_of s)); done.
Qed.
