(* ===== verification/Openvpn.v ===== *)
(** * internal/services/openvpn.go, openvpn_client_validate.go and
      internal/web/handlers/openvpn.go

    The OpenVPN server with its certificates, clients and client-config
    files, and the outbound clients, whose pasted configuration files are
    filtered before root runs openvpn on them.  The two templates are
    parameters. *)

From S2P Require Import Prelude GoStrings GoPath Regex GoNet GoIP Encoding Validate ConfigTypes AgentRules.
From S2P Require Import FirewallRender Sys SystemService Vpn Respond Routing.

Local Open Scope Z_scope.
Local Open Scope go_scope.
Local Open Scope sys_scope.

(** ** Names *)

Definition ovpn_name_char (a : ascii) : bool := is_alnum a || char_in "_-" a.
Definition ovpnClientNamePattern : regex := rplus (RCls ovpn_name_char).
Definition maxOVPNClientNameLen : Z := 64.
Definition ErrInvalidClientName : error :=
  Errorf "client name must be 1-64 characters of letters, digits, underscores and hyphens" [].

Definition ValidateOpenVPNClientName (name : string) : result unit :=
  fail_if ((maxOVPNClientNameLen <? len name) || negb (matchb ovpnClientNamePattern name)) ErrInvalidClientName.

(** ** The filter of pasted client configurations *)

Definition ovpnClientDirectives : list string :=
  ["client"; "dev"; "dev-type"; "proto"; "remote";
   "remote-random"; "resolv-retry"; "nobind"; "persist-key";
   "persist-tun"; "remote-cert-tls"; "cipher"; "data-ciphers";
   "data-ciphers-fallback"; "auth"; "verb"; "mute";
   "compress"; "comp-lzo"; "key-direction"; "tls-client";
   "tls-version-min"; "tls-cipher"; "tls-ciphersuites";
   "auth-nocache"; "reneg-sec"; "pull"; "float";
   "mssfix"; "tun-mtu"; "fragment"; "keepalive"; "ping";
   "ping-restart"; "connect-retry"; "connect-retry-max";
   "server-poll-timeout"; "verify-x509-name"; "route-nopull";
   "redirect-gateway"; "pull-filter"; "explicit-exit-notify";
   "auth-user-pass"; "remote-cert-ku"; "remote-cert-eku";
   "ns-cert-type"; "sndbuf"; "rcvbuf"; "fast-io"].

Definition ovpnInlineBlocks : list string :=
  ["ca"; "cert"; "key"; "tls-auth"; "tls-crypt"; "tls-crypt-v2"; "extra-certs"].

Definition hasControl (s : string) : bool := ContainsFunc s (fun r => (r <? 32) || (r =? 127)).

Definition checkInlineBlock (tag : string) : result unit :=
  fail_if (negb (mem (Trim tag "<>") ovpnInlineBlocks)) (Errorf "inline block %s is not allowed" [tag]).

Definition checkDirective (name : string) (args : Z) : result unit :=
  if negb (mem name ovpnClientDirectives) then Err (Errorf "directive %q is not allowed" [name])
  else if String.eqb name "auth-user-pass" && (0 <? args) then Err (Errorf "auth-user-pass may not name a file" [])
  else Ok tt.

(** The name of the directive with the verdict on it. *)
Definition ovpnLineDirective (line : string) : string * result unit :=
  if String.eqb line "" || HasPrefix line "#" || HasPrefix line ";" then ("", Ok tt)
  else
    let fields := Fields line in
    let name := TrimPrefix (default "" (head fields)) "--" in
    if HasPrefix name "<" && HasSuffix name ">" && (Z.of_nat (length fields) =? 1)
    then (name, checkInlineBlock name)
    else (name, checkDirective name (Z.of_nat (length fields) - 1)).

Definition cr : string := char_str "013"%char.
Definition config_line (raw : string) : string := TrimSpace (TrimSuffix raw cr).

(** The loop over the lines, from line [n] on, inside the block [block]. *)
Fixpoint scan_config (n : Z) (block : string) (raws : list string) : result unit :=
  match raws with
  | [] =>
      if negb (String.eqb block "") then Err (Errorf "config: inline block <%s> is not closed" [block]) else Ok tt
  | raw :: raws =>
      let line := config_line raw in
      if negb (String.eqb block "") then
        scan_config (n + 1) (if String.eqb line ("</" +:+ block +:+ ">") then "" else block) raws
      else
        let '(name, verdict) := ovpnLineDirective line in
        match verdict with
        | Err e => Err (Errorw "config line %d: %w" [itoa (n + 1)] e)
        | Ok _ => scan_config (n + 1) (if HasPrefix name "<" then Trim name "<>" else block) raws
        end
  end.

Definition validateOVPNClientConfigFile (content : string) : result unit :=
  scan_config 0 "" (split_byte lf content).

Definition ValidateOutboundClient (c : OVPNClientConfig) : result unit :=
  guard! ValidateOpenVPNClientName (OVPNClientConfig_Name c) ;;
  if negb (String.eqb (OVPNClientConfig_ConfigFile c) "") then validateOVPNClientConfigFile (OVPNClientConfig_ConfigFile c)
  else if match ParseIP (OVPNClientConfig_RemoteHost c) with Some _ => false | None => true end && negb (is_ok (ValidateDomain (OVPNClientConfig_RemoteHost c)))
  then Err (Errorf "remote host %q is not an IP address or a DNS name" [OVPNClientConfig_RemoteHost c])
  else if hasControl (OVPNClientConfig_Username c) || hasControl (OVPNClientConfig_Password c)
  then Err (Errorf "username and password may not contain control characters" [])
  else Ok tt.

(** ** Addresses *)

Definition cidrToIPMask (cidr : string) : string * string :=
  if negb (has_char "/" cidr) then (cidr, "255.255.255.0")
  else match ParseCIDR cidr with
  | None => ("", "")
  | Some (ip, n) => (IP_String ip, IP_String (net_mask n))
  end.

Definition subnetFromCIDR (cidr : string) : string :=
  match ParseCIDR cidr with None => "" | Some (_, n) => IP_String (net_ip n) end.

Definition ErrInvalidFixedIP : error := Errorf "fixed address must be a host address inside the OpenVPN subnet" [].

(** [binary.BigEndian.Uint32]. *)
Definition Uint32 (b : list Z) : Z := be (take 4 b).

Definition validateFixedIP (subnet fixedIP : string) : result unit :=
  if String.eqb fixedIP "" then Ok tt
  else
    let refused := Err (Errorw "%w: %s" [fixedIP] ErrInvalidFixedIP) in
    match ParseIP fixedIP ≫= To4, ParseCIDR subnet with
    | Some ip, Some (_, n) =>
        if negb (Contains_ip n ip) then refused
        else
          let host := Z.ldiff (Uint32 ip) (Uint32 (net_mask n)) in
          let hostMask := Z.lxor (Uint32 (net_mask n)) (2 ^ 32 - 1) in
          if (host =? 0) || (host =? 1) || (host =? hostMask) then refused else Ok tt
    | _, _ => refused
    end.

(** ** The service *)

Record ovpn : Type := mkOvpn { ov_cfg : Config; ov_running : bool }.

Definition ErrOpenVPNAlreadyRunning : error := Errorf "openvpn server already running" [].
Definition ErrOpenVPNAlreadyStopped : error := Errorf "openvpn server already stopped" [].

Definition NewOpenVPNService (cfg : Config) : ovpn := mkOvpn cfg false.

Definition srv (s : ovpn) : OVPNServerConfig := OpenVPNConfig_Server (Config_OpenVPN (ov_cfg s)).
Definition server_clients (s : ovpn) : list OVPNClientEntry := OVPNServerConfig_Clients (srv s).
Definition outbound_clients (s : ovpn) : list OVPNClientConfig := OpenVPNConfig_Clients (Config_OpenVPN (ov_cfg s)).

Definition with_openvpn (f : OpenVPNConfig -> OpenVPNConfig) (s : ovpn) : ovpn :=
  mkOvpn (set_Config_OpenVPN (f (Config_OpenVPN (ov_cfg s))) (ov_cfg s)) (ov_running s).
Definition with_clients (cs : list OVPNClientEntry) (s : ovpn) : ovpn :=
  with_openvpn (set_OpenVPNConfig_Server (set_OVPNServerConfig_Clients cs (srv s))) s.
Definition with_outbound (cs : list OVPNClientConfig) (s : ovpn) : ovpn := with_openvpn (set_OpenVPNConfig_Clients cs) s.

Definition ovpn_persist : svc ovpn (result unit) := s ← get; SaveToFile (ov_cfg s).

Record OVPNServerStatus : Type := mkOVPNStatus {
  os_Enabled : bool; os_Active : bool; os_PKIReady : bool; os_Port : Z; os_Protocol : string; os_ClientCount : Z }.

Definition ServerStatus : svc ovpn OVPNServerStatus :=
  st ← LocalCall "os.Stat" ["/etc/openvpn/pki/ca.crt"];
  r ← Run "pgrep" ["-x"; "openvpn"];
  s ← get;
  mret (mkOVPNStatus (OVPNServerConfig_Enabled (srv s)) (is_ok r) (is_ok st) (OVPNServerConfig_Port (srv s))
          (OVPNServerConfig_Protocol (srv s)) (Z.of_nat (length (server_clients s)))).

(** ** Certificates *)

Definition pkiDir : string := "/etc/openvpn/pki".
Definition easyrsa : string := "/usr/share/easy-rsa/easyrsa".

Definition InitPKI : svc ovpn (result unit) :=
  try! _ := wrapping "mkdir pki: %w" [] (MkdirAll pkiDir 448) in
  try! _ := wrapping "init-pki: %w" [] (Run easyrsa ["init-pki"]) in
  try! _ := wrapping "build-ca: %w" [] (Run easyrsa ["build-ca"; "nopass"]) in
  try! _ := wrapping "gen-req server: %w" [] (Run easyrsa ["gen-req"; "server"; "nopass"]) in
  try! _ := wrapping "sign-req server: %w" [] (Run easyrsa ["sign-req"; "server"; "server"]) in
  try! _ := wrapping "gen-dh: %w" [] (Run easyrsa ["gen-dh"]) in
  try! _ := wrapping "gen tls-auth key: %w" [] (Run "openvpn" ["--genkey"; "secret"; pkiDir +:+ "/ta.key"]) in
  try! _ := wrapping "gen-crl: %w" [] (Run easyrsa ["gen-crl"]) in
  mret (Ok tt).

(** ** Client-config files *)

Definition ovpn_lanSubnets (cfg : Config) : list string :=
  List.map InterfaceConfig_Address
    (List.filter (fun i => role_is "lan" i && nonempty (InterfaceConfig_Address i)) (Config_Interfaces cfg)).

Definition quoted (s : string) : string := char_str dquote +:+ s +:+ char_str dquote.

Definition ccdContent (cfg : Config) (entry : OVPNClientEntry) : string :=
  let fixed :=
    if negb (nonempty (OVPNClientEntry_FixedIP entry)) then ""
    else
      let mask := snd (cidrToIPMask (OVPNServerConfig_Subnet (OpenVPNConfig_Server (Config_OpenVPN cfg)))) in
      match ParseIP (OVPNClientEntry_FixedIP entry) ≫= To4 with
      | Some ip => if nonempty mask then "ifconfig-push " +:+ IP_String ip +:+ " " +:+ mask +:+ nl else ""
      | None => ""
      end in
  if negb (OVPNClientEntry_IsSiteToSite entry) then fixed
  else
    fixed +:+ "push-reset" +:+ nl
    +:+ lines (List.map (fun addr => let '(ip, mask) := cidrToIPMask addr in
          if nonempty ip then "push " +:+ quoted ("route " +:+ subnetFromCIDR addr +:+ " " +:+ mask) +:+ nl else "")
          (ovpn_lanSubnets cfg))
    +:+ lines (List.map (fun subnet => let '(ip, mask) := cidrToIPMask subnet in
          if nonempty ip then "iroute " +:+ ip +:+ " " +:+ mask +:+ nl else "")
          (OVPNClientEntry_RemoteSubnets entry)).

Definition ccdDir : string := "/etc/openvpn/ccd".
Definition ccdPath (entry : OVPNClientEntry) : string :=
  Join [ccdDir; orDefault (OVPNClientEntry_CommonName entry) (OVPNClientEntry_Name entry)].

Definition writeCCD (entry : OVPNClientEntry) : svc ovpn (result unit) :=
  try! _ := wrapping "mkdir ccd: %w" [] (MkdirAll ccdDir 493) in
  s ← get;
  WriteFile (ccdPath entry) (ccdContent (ov_cfg s) entry) 420.

Definition AddClient (name : string) (siteToSite : bool) (remoteSubnets : list string) (fixedIP : string)
    : svc ovpn (result unit) :=
  s ← get;
  match (guard! ValidateOpenVPNClientName name ;; validateFixedIP (OVPNServerConfig_Subnet (srv s)) fixedIP)%go with
  | Err e => mret (Err e)
  | Ok _ =>
      try! _ := wrapping "gen-req %s: %w" [name] (Run easyrsa ["gen-req"; name; "nopass"]) in
      try! _ := wrapping "sign-req %s: %w" [name] (Run easyrsa ["sign-req"; "client"; name]) in
      let entry := mkOVPNClientEntry name name fixedIP true siteToSite remoteSubnets in
      s ← get;
      put (with_clients (server_clients s ++ [entry]) s) ;;
      writeCCD entry ;;
      try! _ := wrapping "persist: %w" [] ovpn_persist in
      mret (Ok tt)
  end.

Fixpoint disable_first (name : string) (cs : list OVPNClientEntry) : list OVPNClientEntry :=
  match cs with
  | [] => []
  | c :: cs =>
      if String.eqb (OVPNClientEntry_Name c) name then set_OVPNClientEntry_Enabled false c :: cs
      else c :: disable_first name cs
  end.

Definition RevokeClient (name : string) : svc ovpn (result unit) :=
  match ValidateOpenVPNClientName name with
  | Err e => mret (Err e)
  | Ok _ =>
      try! _ := wrapping "revoke %s: %w" [name] (Run easyrsa ["revoke"; name]) in
      try! _ := wrapping "gen-crl: %w" [] (Run easyrsa ["gen-crl"]) in
      s ← get;
      put (with_clients (disable_first name (server_clients s)) s) ;;
      try! _ := wrapping "persist: %w" [] ovpn_persist in
      mret (Ok tt)
  end.

Definition ListServerClients (s : ovpn) : list OVPNClientEntry := server_clients s.
Definition ListOutboundClients (s : ovpn) : list OVPNClientConfig := outbound_clients s.

(** ** Client profiles *)

Record clientPKI : Type := mkPKI { pki_ca : string; pki_cert : string; pki_key : string; pki_ta : option string }.

Definition readClientPKI (name : string) (withTA : bool) : svc ovpn (result clientPKI) :=
  try! ca := wrapping "read %s: %w" ["CA"] (ReadFile (pkiDir +:+ "/ca.crt")) in
  try! cert := wrapping "read %s: %w" ["cert"] (ReadFile (pkiDir +:+ "/issued/" +:+ name +:+ ".crt")) in
  try! key := wrapping "read %s: %w" ["key"] (ReadFile (pkiDir +:+ "/private/" +:+ name +:+ ".key")) in
  if withTA then
    try! ta := wrapping "read %s: %w" ["ta.key"] (ReadFile (pkiDir +:+ "/ta.key")) in
    mret (Ok (mkPKI ca cert key (Some ta)))
  else mret (Ok (mkPKI ca cert key None)).

Definition findServerClient (clients : list OVPNClientEntry) (name : string) : option OVPNClientEntry :=
  List.find (fun c => String.eqb (OVPNClientEntry_Name c) name || String.eqb (OVPNClientEntry_CommonName c) name) clients.

(** [writeRoute] with the format of the profile. *)
Definition writeRoute (cidr : string) : string :=
  let subnetIP := subnetFromCIDR cidr in
  if nonempty subnetIP then "route " +:+ subnetIP +:+ " " +:+ snd (cidrToIPMask cidr) +:+ nl else "".

Definition writeClientKeys (pki : clientPKI) : string :=
  nl +:+ "<ca>" +:+ nl +:+ pki_ca pki +:+ "</ca>" +:+ nl +:+ nl
  +:+ "<cert>" +:+ nl +:+ pki_cert pki +:+ "</cert>" +:+ nl +:+ nl
  +:+ "<key>" +:+ nl +:+ pki_key pki +:+ "</key>" +:+ nl
  +:+ match pki_ta pki with
      | Some ta => nl +:+ "key-direction 1" +:+ nl +:+ "<tls-auth>" +:+ nl +:+ ta +:+ "</tls-auth>" +:+ nl
      | None => ""
      end.

(** The directives of a profile, in order. *)
Definition profile_lines (cfg : Config) (name : string) : list string :=
  let v := OpenVPNConfig_Server (Config_OpenVPN cfg) in
  let endpoint := orDefault (OVPNServerConfig_PublicEndpoint v) "<YOUR_PUBLIC_IP>" in
  ["client" +:+ nl; "dev tun" +:+ nl; "proto " +:+ OVPNServerConfig_Protocol v +:+ nl;
   "remote " +:+ endpoint +:+ " " +:+ itoa (OVPNServerConfig_Port v) +:+ nl;
   "resolv-retry infinite" +:+ nl; "nobind" +:+ nl; "persist-key" +:+ nl; "persist-tun" +:+ nl;
   "cipher " +:+ OVPNServerConfig_Cipher v +:+ nl; "auth " +:+ OVPNServerConfig_Auth v +:+ nl]
  ++ (if OVPNServerConfig_Compression v then ["compress" +:+ nl] else [])
  ++ ["verb 3" +:+ nl]
  ++ match findServerClient (OVPNServerConfig_Clients v) name with
     | Some entry =>
         if OVPNClientEntry_IsSiteToSite entry
         then ("route-nopull" +:+ nl) :: List.map writeRoute (ovpn_lanSubnets cfg) ++ [writeRoute (OVPNServerConfig_Subnet v)]
         else []
     | None => []
     end.

Definition GenerateClientOVPN (name : string) : svc ovpn (result string) :=
  match ValidateOpenVPNClientName name with
  | Err e => mret (Err e)
  | Ok _ =>
      s ← get;
      try! pki := readClientPKI name (OVPNServerConfig_TLSAuth (srv s)) in
      mret (Ok (lines (profile_lines (ov_cfg s) name) +:+ writeClientKeys pki))
  end.

(** ** The server's configuration *)

Record ovpnRouteEntry : Type := mkRouteEntry { re_SubnetIP : string; re_SubnetMask : string }.
Record ovpnServerTemplateData : Type := mkServerData {
  sd_config : OVPNServerConfig; sd_SubnetIP : string; sd_SubnetMask : string; sd_Routes : list ovpnRouteEntry }.

Definition siteToSiteRoutes (clients : list OVPNClientEntry) : list ovpnRouteEntry :=
  List.flat_map (fun c =>
      if negb (OVPNClientEntry_IsSiteToSite c) || negb (OVPNClientEntry_Enabled c) then []
      else List.flat_map (fun subnet => let '(ip, mask) := cidrToIPMask subnet in
             if nonempty ip then [mkRouteEntry ip mask] else []) (OVPNClientEntry_RemoteSubnets c)) clients.

Definition writeEnabledCCDs (clients : list OVPNClientEntry) : svc ovpn unit :=
  for_each clients (fun c => if negb (OVPNClientEntry_Enabled c) then mret (Ok tt) else writeCCD c).

(** ** Outbound clients *)

Definition applyClientDefaults (c : OVPNClientConfig) : OVPNClientConfig :=
  let c := if OVPNClientConfig_RemotePort c =? 0 then set_OVPNClientConfig_RemotePort 1194 c else c in
  let c := if String.eqb (OVPNClientConfig_Protocol c) "" then set_OVPNClientConfig_Protocol "udp" c else c in
  let c := if String.eqb (OVPNClientConfig_Cipher c) "" then set_OVPNClientConfig_Cipher "AES-256-GCM" c else c in
  if String.eqb (OVPNClientConfig_Auth c) "" then set_OVPNClientConfig_Auth "SHA256" c else c.

Definition client_conf (name : string) : string := "/etc/openvpn/client/" +:+ name +:+ ".conf".
Definition client_auth (name : string) : string := "/etc/openvpn/client/" +:+ name +:+ "-auth.txt".
Definition client_pid (name : string) : string := "/var/run/openvpn-" +:+ name +:+ ".pid".

Definition writeClientAuth (c : OVPNClientConfig) : svc ovpn (result unit) :=
  if String.eqb (OVPNClientConfig_Username c) "" || String.eqb (OVPNClientConfig_Password c) "" then mret (Ok tt)
  else
    try! _ := wrapping "write auth file: %w" []
      (WriteFile (client_auth (OVPNClientConfig_Name c))
         (OVPNClientConfig_Username c +:+ nl +:+ OVPNClientConfig_Password c +:+ nl) 384) in
    mret (Ok tt).

Definition AddOutboundClient (client : OVPNClientConfig) : svc ovpn (result unit) :=
  match ValidateOutboundClient client with
  | Err e => mret (Err e)
  | Ok _ => s ← get; put (with_outbound (outbound_clients s ++ [client]) s) ;; ovpn_persist
  end.

Definition DisconnectClient (name : string) : svc ovpn (result unit) :=
  match ValidateOpenVPNClientName name with
  | Err e => mret (Err e)
  | Ok _ =>
      pidData ← LocalCall "os.ReadFile" [client_pid name];
      match pidData with
      | Err _ => mret (Ok tt)
      | Ok data =>
          Run "kill" [TrimSpace data] ;;
          LocalCall "os.Remove" [client_pid name] ;;
          mret (Ok tt)
      end
  end.

Section Templates.
(** The template engines of openvpn-server.conf and openvpn-client.conf; the
    outer result is that of parsing the template. *)
Variable server_tmpl : result (ovpnServerTemplateData -> result string).
Variable client_tmpl : result (OVPNClientConfig -> result string).

Definition RenderServerConfig : svc ovpn (result unit) :=
  s ← get;
  let v := srv s in
  match wrap_err "parse openvpn server template: %w" [] server_tmpl with
  | Err e => mret (Err e)
  | Ok execute =>
      let '(subnetIP, subnetMask) := cidrToIPMask (OVPNServerConfig_Subnet v) in
      try! _ := wrapping "mkdir /etc/openvpn: %w" [] (MkdirAll "/etc/openvpn" 493) in
      try! _ := wrapping "mkdir /etc/openvpn/ccd: %w" [] (MkdirAll ccdDir 493) in
      match wrap_err "render server.conf: %w" []
              (execute (mkServerData v subnetIP subnetMask (siteToSiteRoutes (OVPNServerConfig_Clients v)))) with
      | Err e => mret (Err e)
      | Ok text =>
          try! _ := wrapping "write server.conf: %w" [] (WriteFile "/etc/openvpn/server.conf" text 420) in
          writeEnabledCCDs (OVPNServerConfig_Clients v) ;;
          mret (Ok tt)
      end
  end.

Definition ServerStart : svc ovpn (result unit) :=
  s ← get;
  if ov_running s then mret (Err ErrOpenVPNAlreadyRunning)
  else
    try! _ := wrapping "render config: %w" [] RenderServerConfig in
    try! _ := Run "systemctl" ["start"; "openvpn@server"] in
    s ← get;
    put (mkOvpn (ov_cfg s) true) ;;
    mret (Ok tt).

Definition ServerStop : svc ovpn (result unit) :=
  s ← get;
  if negb (ov_running s) then mret (Err ErrOpenVPNAlreadyStopped)
  else
    try! _ := Run "systemctl" ["stop"; "openvpn@server"] in
    s ← get;
    put (mkOvpn (ov_cfg s) false) ;;
    mret (Ok tt).

Definition renderClientConfig (c : OVPNClientConfig) (confPath : string) : svc ovpn (result unit) :=
  match ValidateOutboundClient c with
  | Err e => mret (Err e)
  | Ok _ =>
      if negb (String.eqb (OVPNClientConfig_ConfigFile c) "")
      then WriteFile confPath (OVPNClientConfig_ConfigFile c) 384
      else match wrap_err "parse openvpn client template: %w" [] client_tmpl with
      | Err e => mret (Err e)
      | Ok execute =>
          let c := applyClientDefaults c in
          match wrap_err "render client config: %w" [] (execute c) with
          | Err e => mret (Err e)
          | Ok text => try! _ := WriteFile confPath text 384 in writeClientAuth c
          end
      end
  end.

Definition ConnectClient (name : string) : svc ovpn (result unit) :=
  match ValidateOpenVPNClientName name with
  | Err e => mret (Err e)
  | Ok _ =>
      s ← get;
      match List.find (fun c => String.eqb (OVPNClientConfig_Name c) name) (outbound_clients s) with
      | None => mret (Err (Errorf "client %q not found" [name]))
      | Some c =>
          try! _ := wrapping "mkdir client dir: %w" [] (MkdirAll "/etc/openvpn/client" 448) in
          try! _ := wrapping "render client config: %w" [] (renderClientConfig c (client_conf name)) in
          r ← Run "openvpn" ["--config"; client_conf name; "--daemon"; "--writepid"; client_pid name];
          mret (discard r)
      end
  end.

End Templates.

(** ** Sessions *)

Fixpoint trim_right_cr (s : string) : string :=
  match s with
  | "" => ""
  | String a r => let t := trim_right_cr r in if String.eqb t "" && Ascii.eqb a "013" then "" else String a t
  end.

(** One line of the status file: whether the client list is open, and the count. *)
Definition session_step (st : bool * Z) (line : string) : bool * Z :=
  let '(inClientList, count) := st in
  let line := trim_right_cr line in
  if HasPrefix line "CLIENT_LIST," then (inClientList, count + 1)
  else if HasPrefix line "Common Name," then (true, count)
  else if HasPrefix line "ROUTING TABLE" || HasPrefix line "GLOBAL STATS" || String.eqb line "END" then (false, count)
  else if inClientList && nonempty (TrimSpace line) then (inClientList, count + 1)
  else (inClientList, count).

Definition countOVPNSessions (status : string) : Z := snd (foldl session_step (false, 0) (split_byte lf status)).

Definition ovpnStatusPath : string := "/var/log/openvpn-status.log".

Definition ActiveSessions : svc ovpn Z :=
  data ← ReadFile ovpnStatusPath;
  mret (match data with Err _ => 0 | Ok d => countOVPNSessions d end).

(** ** The handlers *)

Definition ovpnNamePattern : regex := rplus (RCls ovpn_name_char).
Definition validCiphers : list string := ["AES-256-GCM"; "AES-128-GCM"; "AES-256-CBC"; "CHACHA20-POLY1305"].
Definition validAuths : list string := ["SHA256"; "SHA384"; "SHA512"].

Definition bad_name (name : string) : bool := (64 <? len name) || negb (matchb ovpnNamePattern name).

Definition ovpnNameKey (name : string) : string :=
  firstFailed [mkFormCheck (String.eqb name "") "error.nameRequired";
               mkFormCheck (bad_name name) "error.invalidNameCharacters"].

(** The subnets, or the first invalid entry. *)
Definition parseRemoteSubnets (raw : string) : list string * string :=
  let entries := List.filter nonempty (List.map TrimSpace (split_byte "," (TrimSpace raw))) in
  match List.find (fun e => negb (is_ok (ValidateCIDR e))) entries with
  | Some bad => ([], bad)
  | None => (entries, "")
  end.

Definition parseOutboundForm (r : hreq) : OVPNClientConfig * string :=
  let '(port, portOK) := formPort r "remotePort" in
  let f := hq_form r in
  let client := mkOVPNClientConfig (f "name") (f "configFile") (f "remoteHost") port (f "protocol") (f "cipher")
                  (f "auth") (String.eqb (f "tlsAuth") "true") (f "username") (f "password") 0 0 in
  let key := ovpnNameKey (f "name") in
  if negb (String.eqb key "") then (client, key)
  else (client, firstFailed
    [mkFormCheck (String.eqb (f "remoteHost") "") "error.remoteHostRequired";
     mkFormCheck (negb (oneOf (f "protocol") ["udp"; "tcp"])) "error.protocolUDPOrTCP";
     mkFormCheck (negb (String.eqb (f "cipher") "") && negb (mem (f "cipher") validCiphers)) "error.invalidCipher";
     mkFormCheck (negb (String.eqb (f "auth") "") && negb (mem (f "auth") validAuths)) "error.invalidAuth";
     mkFormCheck (negb portOK) "error.invalidPort"]).

(** [errors.Is] with a sentinel. *)
Fixpoint errors_Is (e sentinel : error) : bool :=
  bool_decide (e = sentinel) || match e with Errorf _ _ => false | Errorw _ _ inner => errors_Is inner sentinel end.

Definition answer {S} (status : Z) (resp : hresp) (m : svc S (result unit)) : svc S hresp :=
  r ← m; mret (match r with Ok _ => resp | Err e => fail status e end).

Definition HandleAddClient (r : hreq) : svc ovpn hresp :=
  if negb (is_ok (hq_parse r)) then mret (clientError StatusBadRequest "error.badForm")
  else
    let name := hq_form r "name" in
    let key := ovpnNameKey name in
    if negb (String.eqb key "") then mret (clientError StatusBadRequest key)
    else
      let siteToSite := String.eqb (hq_form r "peerType") "site-to-site" in
      let fixedIP := hq_form r "fixedIP" in
      if negb (String.eqb fixedIP "") && negb (is_ok (ValidateIP fixedIP))
      then mret (clientErrorf StatusBadRequest "error.invalidFixedIP" ("invalid IP address: " +:+ fixedIP))
      else
        let '(subnets, bad) := if siteToSite then parseRemoteSubnets (hq_form r "remoteSubnets") else ([], "") in
        if negb (String.eqb bad "") then mret (clientErrorf StatusBadRequest "error.invalidRemoteSubnet" bad)
        else
          a ← AddClient name siteToSite subnets fixedIP;
          mret (match a with
                | Ok _ => respondRefresh r "/openvpn"
                | Err e => if errors_Is e ErrInvalidFixedIP
                           then clientErrorf StatusBadRequest "error.invalidFixedIP" fixedIP
                           else fail StatusInternalServerError e
                end).

Definition HandleRevokeClient (r : hreq) : svc ovpn hresp :=
  if bad_name (hq_path r "name") then mret (clientError StatusBadRequest "error.invalidClientName")
  else answer StatusBadRequest (respondRefresh r "/openvpn") (RevokeClient (hq_path r "name")).

Definition HandleAddOutboundClient (r : hreq) : svc ovpn hresp :=
  if negb (is_ok (hq_parse r)) then mret (clientError StatusBadRequest "error.badForm")
  else
    let '(client, key) := parseOutboundForm r in
    if negb (String.eqb key "") then mret (clientError StatusBadRequest key)
    else match ValidateOutboundClient client with
    | Err e => mret (fail StatusBadRequest e)
    | Ok _ =>
        a ← AddOutboundClient client;
        mret (match a with Ok _ => respondRefresh r "/openvpn" | Err e => serverError "error.saveFailed" e end)
    end.

Definition HandleDisconnectOutbound (r : hreq) : svc ovpn hresp :=
  if bad_name (hq_path r "name") then mret (clientError StatusBadRequest "error.invalidClientName")
  else answer StatusInternalServerError (respondRefresh r "/openvpn") (DisconnectClient (hq_path r "name")).

Definition HandleInitPKI (r : hreq) : svc ovpn hresp :=
  answer StatusInternalServerError (respondRefresh r "/openvpn") InitPKI.

Section TemplateHandlers.
Variable server_tmpl : result (ovpnServerTemplateData -> result string).
Variable client_tmpl : result (OVPNClientConfig -> result string).

Definition HandleServerStart (r : hreq) : svc ovpn hresp :=
  a ← ServerStart server_tmpl;
  mret (match a with
        | Err e => if errors_Is e ErrOpenVPNAlreadyRunning then respondRefresh r "/openvpn" else fail StatusInternalServerError e
        | Ok _ => respondRefresh r "/openvpn"
        end).

Definition HandleServerStop (r : hreq) : svc ovpn hresp :=
  a ← ServerStop;
  mret (match a with
        | Err e => if errors_Is e ErrOpenVPNAlreadyStopped then respondRefresh r "/openvpn" else fail StatusInternalServerError e
        | Ok _ => respondRefresh r "/openvpn"
        end).

Definition HandleConnectOutbound (r : hreq) : svc ovpn hresp :=
  if bad_name (hq_path r "name") then mret (clientError StatusBadRequest "error.invalidClientName")
  else answer StatusInternalServerError (respondRefresh r "/openvpn") (ConnectClient client_tmpl (hq_path r "name")).

End TemplateHandlers.

(** ** Lemmas: the filter *)

(** A line outside a block that openvpn skips. *)
Definition skipped (line : string) : Prop := line = "" \/ HasPrefix line "#" = true \/ HasPrefix line ";" = true.

Definition opens (line block : string) : Prop :=
  exists f, ~ skipped line /\ Fields line = [f]
    /\ HasPrefix (TrimPrefix f "--") "<" = true /\ HasSuffix (TrimPrefix f "--") ">" = true
    /\ block = Trim (TrimPrefix f "--") "<>" /\ In block ovpnInlineBlocks.

Definition sets (line : string) : Prop :=
  exists f args, ~ skipped line /\ Fields line = f :: args
    /\ In (TrimPrefix f "--") ovpnClientDirectives /\ (TrimPrefix f "--" = "auth-user-pass" -> args = []).

Definition closes (block line : string) : Prop := line = "</" +:+ block +:+ ">".

(** The files the filter is meant to accept. *)
Inductive client_file : list string -> Prop :=
| file_end : client_file []
| file_skip line ls : skipped line -> client_file ls -> client_file (line :: ls)
| file_set line ls : sets line -> client_file ls -> client_file (line :: ls)
| file_block line block body last ls :
    opens line block -> Forall (fun l => ~ closes block l) body -> closes block last -> client_file ls ->
    client_file (line :: body ++ last :: ls).

Lemma skippedb line : (String.eqb line "" || HasPrefix line "#" || HasPrefix line ";" = true) <-> skipped line.
Proof. unfold skipped. rewrite !orb_true_iff, String.eqb_eq. tauto. Qed.

(** No directive looks like the opening of a block. *)
Lemma directive_plain name : In name ovpnClientDirectives -> HasPrefix name "<" = false.
Proof.
  intros H. apply Bool.not_true_iff_false. intros Hp. revert H.
  cut (existsb (fun d => HasPrefix d "<") ovpnClientDirectives = false); [|reflexivity].
  intros Hf H. assert (existsb (fun d => HasPrefix d "<") ovpnClientDirectives = true); [|congruence].
  apply existsb_exists. by exists name.
Qed.

Lemma block_named block : In block ovpnInlineBlocks -> String.eqb block "" = false.
Proof. intros H. by destruct H as [<-|[<-|[<-|[<-|[<-|[<-|[<-|[]]]]]]]]. Qed.

(** What the filter says of one line outside a block. *)
Lemma ovpnLineDirective_spec line :
  match ovpnLineDirective line with
  | (name, Ok _) =>
      (skipped line /\ name = "") \/ (sets line /\ HasPrefix name "<" = false)
      \/ (opens line (Trim name "<>") /\ HasPrefix name "<" = true)
  | (_, Err _) => ~ skipped line /\ ~ sets line /\ forall block, ~ opens line block
  end.
Proof.
  unfold ovpnLineDirective. destruct (_ || _ || _) eqn:Es; [left; by rewrite <- skippedb|].
  assert (Hs : ~ skipped line) by (rewrite <- skippedb; congruence). clear Es.
  destruct (Fields line) as [|f args] eqn:Ef; cbn [head default from_option id length].
  { cbn [TrimPrefix]. repeat split; [done| |].
    - intros (f & args & _ & ? & _). congruence.
    - intros block (f & _ & ? & _). congruence. }
  set (name := TrimPrefix f "--").
  destruct (HasPrefix name "<" && HasSuffix name ">" && (Z.of_nat (S (length args)) =? 1)) eqn:Eb.
  - apply andb_prop in Eb as [Eb El]. apply andb_prop in Eb as [Ep Eh]. apply Z.eqb_eq in El.
    destruct args; [|cbn in El; lia]. unfold checkInlineBlock.
    destruct (mem (Trim name "<>") ovpnInlineBlocks) eqn:Em; cbn [negb fail_if].
    + right. right. split; [|done]. exists f. apply mem_In in Em. by repeat split.
    + repeat split; [done| |].
      * intros (f' & args' & _ & Hf' & Hin & _). rewrite Ef in Hf'. injection Hf' as <- <-.
        apply directive_plain in Hin. fold name in Hin. congruence.
      * intros block (f' & _ & Hf' & _ & _ & -> & Hin). rewrite Ef in Hf'. injection Hf' as <-.
        apply mem_In in Hin. fold name in Hin. congruence.
  - assert (Hno : forall block, ~ opens line block).
    { intros block (f' & _ & Hf' & Hp & Hh & _). rewrite Ef in Hf'. injection Hf' as <- ->.
      fold name in Hp, Hh. rewrite Hp, Hh in Eb. done. }
    unfold checkDirective. destruct (mem name ovpnClientDirectives) eqn:Em; cbn [negb].
    + apply mem_In in Em. destruct (String.eqb_spec name "auth-user-pass") as [Hn|Hn];
        destruct (Z.ltb_spec 0 (Z.of_nat (S (length args)) - 1)) as [Hl|Hl]; cbn [andb].
      * repeat split; [done| |done]. intros (f' & args' & _ & Hf' & _ & Ha). rewrite Ef in Hf'. injection Hf' as <- <-.
        rewrite Ha in Hl by done. cbn in Hl. lia.
      * right. left. split; [|by apply directive_plain]. exists f, args. repeat split; [done..|].
        intros _. destruct args; [done|cbn in Hl; lia].
      * right. left. split; [|by apply directive_plain]. exists f, args. by repeat split.
      * right. left. split; [|by apply directive_plain]. exists f, args. by repeat split.
    + repeat split; [done| |done]. intros (f' & args' & _ & Hf' & Hin & _). rewrite Ef in Hf'. injection Hf' as <- <-.
      apply mem_In in Hin. fold name in Hin. congruence.
Qed.

Lemma opens_not_sets line block : opens line block -> ~ sets line.
Proof.
  intros (f & _ & Hf & Hp & _) (f' & args & _ & Hf' & Hin & _). rewrite Hf in Hf'. injection Hf' as <- _.
  apply directive_plain in Hin. congruence.
Qed.

Lemma opens_block line b b' : opens line b -> opens line b' -> b = b'.
Proof. intros (f & _ & Hf & _ & _ & -> & _) (f' & _ & Hf' & _ & _ & -> & _). congruence. Qed.

(** A block that is still open, and what follows it. *)
Definition rest_of_block (block : string) (ls : list string) : Prop :=
  exists body last ls', ls = body ++ last :: ls' /\ Forall (fun l => ~ closes block l) body /\ closes block last
    /\ client_file ls'.

Lemma rest_of_block_cons block line ls :
  rest_of_block block (line :: ls) <->
  (closes block line /\ client_file ls) \/ (~ closes block line /\ rest_of_block block ls).
Proof.
  split.
  - intros (body & last & ls' & He & Hb & Hl & Hf). destruct body as [|x body]; injection He as -> ->; [by left|].
    right. inversion_clear Hb as [|? ? Hx Hb']. split; [done|]. by exists body, last, ls'.
  - intros [[Hc Hf]|[Hc (body & last & ls' & -> & Hb & Hl & Hf)]].
    + by exists [], line, ls.
    + exists (line :: body), last, ls'. repeat split; [|done..]. by constructor.
Qed.

Lemma client_file_cons line ls :
  client_file (line :: ls) <->
  (skipped line /\ client_file ls) \/ (sets line /\ client_file ls)
  \/ exists block, opens line block /\ rest_of_block block ls.
Proof.
  split.
  - inversion 1 as [|? ? Hs Hf|? ? Hs Hf|? block body last ls' Ho Hb Hl Hf]; subst; [by left|by right; left|].
    right. right. exists block. split; [done|]. by exists body, last, ls'.
  - intros [[Hs Hf]|[[Hs Hf]|(block & Ho & body & last & ls' & -> & Hb & Hl & Hf)]]; by econstructor.
Qed.

Lemma scan_config_spec raws n :
  (scan_config n "" raws = Ok tt <-> client_file (List.map config_line raws))
  /\ forall block, In block ovpnInlineBlocks ->
     (scan_config n block raws = Ok tt <-> rest_of_block block (List.map config_line raws)).
Proof.
  revert n. induction raws as [|raw raws IH]; intros n; cbn [scan_config List.map].
  { split; [split; [constructor|done]|]. intros block Hb. rewrite block_named by done.
    split; [done|]. intros (body & last & ls & He & _). by destruct body. }
  destruct (IH (n + 1)) as [IHf IHb]. split.
  - pose proof (ovpnLineDirective_spec (config_line raw)) as Hd. cbn [String.eqb negb].
    destruct (ovpnLineDirective (config_line raw)) as [name [u|e]].
    + rewrite client_file_cons. destruct Hd as [[Hs ->]|[[Hs Hp]|[Ho Hp]]].
      * change (HasPrefix "" "<") with false. rewrite IHf. split; [by left|].
        intros [[_ Hf]|[[(f & args & Hn & _) _]|(block & (f & Hn & _) & _)]]; done.
      * rewrite Hp, IHf. split; [by right; left|]. intros [[Hk Hf]|[[_ Hf]|(block & Ho & _)]]; [done..|].
        by apply opens_not_sets in Ho.
      * rewrite Hp, IHb by (by destruct Ho as (f & _ & _ & _ & _ & _ & ?)). split; [right; right; by eexists|].
        intros [[Hk Hf]|[[Hs _]|(block & Ho' & Hr)]].
        -- by destruct Ho as (f & ? & _).
        -- by apply (opens_not_sets _ _ Ho) in Hs.
        -- by rewrite (opens_block _ _ _ Ho Ho').
    + rewrite client_file_cons. split; [done|]. destruct Hd as (Hk & Hs & Ho).
      intros [[? _]|[[? _]|(block & ? & _)]]; [done..|]. by apply Ho in H.
  - intros block Hb. rewrite (block_named block Hb), rest_of_block_cons. cbn [negb]. unfold closes.
    destruct (String.eqb_spec (config_line raw) ("</" +:+ block +:+ ">")) as [He|He].
    + rewrite IHf. split; [by left|]. by intros [[_ ?]|[? _]].
    + rewrite IHb by done. split; [by right|]. by intros [[? _]|[_ ?]].
Qed.

(** ** Lemmas: the fixed address *)

Lemma testbit_mask h i : 0 <= h <= 32 -> 0 <= i -> Z.testbit (2 ^ 32 - 2 ^ h) i = (h <=? i) && (i <? 32).
Proof.
  intros Hh Hi. replace (2 ^ 32 - 2 ^ h) with (Z.shiftl (Z.ones (32 - h)) h).
  - destruct (Z.leb_spec h i).
    + rewrite Z.shiftl_spec by lia. rewrite Z.testbit_ones by lia.
      apply eq_true_iff_eq. rewrite !andb_true_iff, Z.leb_le, !Z.ltb_lt. cbn. lia.
    + rewrite Z.shiftl_spec_low by lia. done.
  - rewrite Z.shiftl_mul_pow2, Z.ones_equiv by lia. rewrite <- Z.sub_1_r, Z.mul_sub_distr_r, <- Z.pow_add_r by lia.
    replace (32 - h + h) with 32 by lia. lia.
Qed.

(** [ip &^ mask] is the host part and [^mask] the largest one. *)
Lemma host_part x h : 0 <= h <= 32 -> 0 <= x < 2 ^ 32 ->
  Z.ldiff x (2 ^ 32 - 2 ^ h) = x mod 2 ^ h /\ Z.lxor (2 ^ 32 - 2 ^ h) (2 ^ 32 - 1) = 2 ^ h - 1.
Proof.
  intros Hh Hx. rewrite <- Z.land_ones by lia.
  replace (2 ^ 32 - 1) with (Z.ones 32) by reflexivity.
  replace (2 ^ h - 1) with (Z.ones h) by (rewrite Z.ones_equiv; lia).
  split; apply Z.bits_inj'; intros i Hi.
  - rewrite Z.ldiff_spec, Z.land_spec, testbit_mask, Z.testbit_ones by lia.
    destruct (Z.ltb_spec i 32) as [H32|H32].
    + f_equal. destruct (Z.leb_spec h i), (Z.leb_spec 0 i), (Z.ltb_spec i h); cbn; lia || done.
    + rewrite (Z.bits_above_log2 x i); [done|lia|].
      destruct (decide (x = 0)) as [->|]; [cbn; lia|]. apply Z.log2_lt_pow2; [lia|].
      apply Z.lt_le_trans with (2 ^ 32); [lia|]. apply Z.pow_le_mono_r; lia.
  - rewrite Z.lxor_spec, testbit_mask, !Z.testbit_ones by lia.
    destruct (Z.leb_spec h i), (Z.leb_spec 0 i), (Z.ltb_spec i 32), (Z.ltb_spec i h); cbn; lia || done.
Qed.

Lemma be_CIDRMask ones : 0 <= ones <= 32 -> be (CIDRMask 4 ones) = 2 ^ 32 - 2 ^ (32 - ones).
Proof.
  intros Ho.
  assert (H : forallb (fun o => be (CIDRMask 4 (Z.of_nat o)) =? 2 ^ 32 - 2 ^ (32 - Z.of_nat o)) (seq 0 33) = true)
    by (vm_compute; reflexivity).
  rewrite forallb_forall in H. specialize (H (Z.to_nat ones)). rewrite Z2Nat.id in H by lia.
  apply Z.eqb_eq, H, in_seq. lia.
Qed.

Lemma host_refused a ones x : length a = 4%nat -> wf_ip a -> 0 <= ones <= 32 -> length x = 4%nat -> wf_ip x ->
  first_of a ones <= be x <= last_of a ones ->
  let host := Z.ldiff (Uint32 x) (Uint32 (net_mask (cidr a ones))) in
  let hostMask := Z.lxor (Uint32 (net_mask (cidr a ones))) (2 ^ 32 - 1) in
  (host =? 0) || (host =? 1) || (host =? hostMask) = false <-> first_of a ones + 2 <= be x < last_of a ones.
Proof.
  intros Hl Hw Ho Hlx Hwx Hin. cbv zeta. unfold Uint32. cbn [net_mask cidr].
  rewrite !take_ge by (rewrite ?CIDRMask_length; lia). rewrite Hl, be_CIDRMask by done.
  pose proof (be_range x Hwx) as Hr. rewrite Hlx in Hr. change (space 4) with (2 ^ 32) in Hr.
  destruct (host_part (be x) (32 - ones) ltac:(lia) Hr) as [-> ->].
  destruct (v4_facts a ones Hl Hw Ho) as (Hf & _). unfold last_of in *.
  assert (Hp : 0 < 2 ^ (32 - ones)) by (apply Z.pow_pos_nonneg; lia).
  assert (Hm : be x mod 2 ^ (32 - ones) = be x - first_of a ones).
  { symmetry. apply (Z.mod_unique_pos _ _ (be a / 2 ^ (32 - ones))); [lia|]. rewrite <- Hf. lia. }
  rewrite Hm, !orb_false_iff, !Z.eqb_neq. lia.
Qed.

(** An accepted fixed address is a host address above the server's own. *)
Lemma validateFixedIP_iff subnet fixedIP : plain_cidr subnet ->
  (validateFixedIP subnet fixedIP = Ok tt /\ fixedIP <> "") <->
  exists x a ones, ParseIP fixedIP ≫= To4 = Some x /\ ParseCIDR subnet = Some (As16 a, cidr a ones)
    /\ length a = 4%nat /\ wf_ip a /\ 0 <= ones <= 32 /\ length x = 4%nat /\ wf_ip x
    /\ first_of a ones + 2 <= be x < last_of a ones.
Proof.
  intros Hpl. unfold validateFixedIP.
  destruct (String.eqb_spec fixedIP "") as [->|Hne].
  { split; [by intros [_ ?]|]. by intros (x & a & ones & H & _). }
  destruct (ParseIP fixedIP ≫= To4) as [x|] eqn:Ex; [|split; [by intros [? _]|by intros (? & ? & ? & ? & _)]].
  destruct (ParseCIDR subnet) as [[ip n]|] eqn:Ec; [|split; [by intros [? _]|by intros (? & ? & ? & _ & ? & _)]].
  destruct (ParseCIDR_cidr _ _ _ Ec) as (a & ones & -> & -> & Hwa & Hla & Ho).
  apply bind_Some in Ex as (p & Hp & Ht). destruct (To4_wf p x (ParseIP_wf _ _ Hp) Ht) as [Hwx Hlx].
  destruct (Contains_ip (cidr a ones) x) eqn:Ei; cbn [negb].
  - destruct (Contains_v4 a ones x Hwa Hla Ho (Hpl _ _ Ec) Hwx Hlx Ei) as [Hl4 Hin]. rewrite Hl4 in Ho.
    pose proof (host_refused a ones x Hl4 Hwa Ho Hlx Hwx Hin) as Hh. cbv zeta in Hh.
    destruct (_ || _ || _) eqn:Eh.
    + split; [by intros [? _]|]. intros (y & b & o & [= <-] & [= Hab Hm Hn] & Hlb & Hwb & Hob & _ & _ & Hy).
      exfalso. enough (true = false) by done. apply Hh.
      assert (cidr a ones = cidr b o) as Hc by (unfold cidr; congruence).
      assert (a = b) as <- by (unfold As16 in Hab; rewrite Hl4, Hlb in Hab; cbn in Hab; by simplify_list_eq).
      destruct (v4_facts a ones Hl4 Hwa Ho) as (_ & _ & _ & Hs1 & _).
      destruct (v4_facts a o Hl4 Hwa Hob) as (_ & _ & _ & Hs2 & _). rewrite <- Hc, Hs1 in Hs2. by injection Hs2 as <-.
    + split; [|done]. intros _. exists x, a, ones. repeat split; (done || lia || by apply Hh).
  - split; [by intros [? _]|]. intros (y & b & o & [= <-] & [= Hab Hm Hn] & Hlb & Hwb & Hob & _ & _ & Hy).
    assert (cidr a ones = cidr b o) as Hc by (unfold cidr; congruence). rewrite Hc in Ei.
    enough (Contains_ip (cidr b o) x = true) by congruence. apply Contains_v4_iff; try done.
    unfold last_of in *. lia.
Qed.

(** ** The agent's verdict *)

Lemma client_name_parts name : ValidateOpenVPNClientName name = Ok tt ->
  exists a t, name = String a t /\ ovpn_name_char a = true /\ all_chars ovpn_name_char name = true.
Proof.
  unfold ValidateOpenVPNClientName. rewrite fail_if_Ok. intros H. bool_hyps.
  assert (Ha : all_chars ovpn_name_char name = true).
  { eapply matchb_over; [|exact H0]. cbn. done. }
  destruct name as [|a t]; [discriminate H0|]. exists a, t. split; [done|]. split; [|done].
  cbn in Ha. by apply andb_prop in Ha as [? _].
Qed.

(** A validated name with a fixed ending is one path component. *)
Lemma client_name_comp name suffix :
  ValidateOpenVPNClientName name = Ok tt -> has_char sep suffix = false -> good_comp (name +:+ suffix) = true.
Proof.
  intros Hn Hs. apply client_name_parts in Hn as (a & t & -> & Ha & Hall). apply good_comp_spec.
  assert (Hdot : a <> "."%char) by (intros ->; discriminate Ha).
  repeat split; [done|intros [= ? _]; done|intros [= ? _]; done|].
  rewrite has_char_append, Hs, orb_false_r. by apply (all_chars_not_has ovpn_name_char).
Qed.

Lemma ovpn_path_allowed dirs c :
  good_comps dirs -> good_comp c = true ->
  checkPathRules no_links (abs_path (["etc"; "openvpn"] ++ dirs ++ [c])) W0 = true
  /\ checkPathRules no_links (abs_path (["etc"; "openvpn"] ++ dirs ++ [c])) R0 = true.
Proof.
  intros Hd Hc. split; apply checkPathRules_below; try done;
    first [by destruct dirs|by apply Forall_app; split; [by repeat constructor|apply Forall_app; split; [done|by constructor]]
          |change (abs_path ["etc"; "openvpn"] +:+ sep_str) with "/etc/openvpn/"; unfold allowedWriteRules, allowedReadRules;
           cbn [In]; tauto].
Qed.

Section Allowed.
Context (I : ovpn -> Prop).
Hypothesis HI : forall s f, I s -> I (with_openvpn f s).
Hypothesis HR : forall s b, I s -> I (mkOvpn (ov_cfg s) b).

Lemma InitPKI_allowed : keeps allowed I InitPKI.
Proof. unfold InitPKI. walk; allow_call. Qed.

(** A client-config file is written in place when its name is one component. *)
Lemma writeCCD_allowed entry :
  good_comp (orDefault (OVPNClientEntry_CommonName entry) (OVPNClientEntry_Name entry)) = true ->
  keeps allowed I (writeCCD entry).
Proof.
  intros Hc. unfold writeCCD. walk; [allow_call|]. apply allowed_write_path; [|done]. unfold ccdPath.
  set (c := orDefault _ _) in *.
  change (Join [ccdDir; c]) with (Join [abs_path ["etc"; "openvpn"; "ccd"]; join sep_str [c]]).
  rewrite Join_abs by (done || by repeat constructor). by apply (ovpn_path_allowed ["ccd"] c); [repeat constructor|].
Qed.

Lemma ovpn_AddClient_allowed name s2s subnets fixedIP : keeps allowed I (AddClient name s2s subnets fixedIP).
Proof.
  unfold AddClient, ovpn_persist. apply keeps_get_bind. intros s Hs.
  destruct (ValidateOpenVPNClientName name) as [u|e] eqn:En; cbn [result_bind]; [|apply keeps_ret]. destruct u.
  walk; first [by apply HI|apply writeCCD_allowed|allow_call].
  unfold orDefault. cbn [OVPNClientEntry_CommonName OVPNClientEntry_Name].
  destruct (String.eqb name ""); rewrite <- (append_empty_r name); by apply client_name_comp.
Qed.

Lemma ovpn_RevokeClient_allowed name : keeps allowed I (RevokeClient name).
Proof. unfold RevokeClient, ovpn_persist. walk; first [by apply HI|allow_call]. Qed.

Lemma GenerateClientOVPN_allowed name : keeps allowed I (GenerateClientOVPN name).
Proof.
  unfold GenerateClientOVPN. destruct (ValidateOpenVPNClientName name) as [[]|e] eqn:En; [|apply keeps_ret].
  unfold readClientPKI. walk; try allow_call.
  - exact (proj2 (ovpn_path_allowed ["pki"; "issued"] (name +:+ ".crt") ltac:(by repeat constructor) (client_name_comp name ".crt" En ltac:(done)))).
  - exact (proj2 (ovpn_path_allowed ["pki"; "private"] (name +:+ ".key") ltac:(by repeat constructor) (client_name_comp name ".key" En ltac:(done)))).
Qed.

Lemma AddOutboundClient_allowed c : keeps allowed I (AddOutboundClient c).
Proof. unfold AddOutboundClient, ovpn_persist. walk; first [by apply HI|allow_call]. Qed.

Lemma ovpn_DisconnectClient_allowed name : keeps allowed I (DisconnectClient name).
Proof. unfold DisconnectClient. walk; allow_call. Qed.

Lemma ovpn_ConnectClient_allowed tmpl name : keeps allowed I (ConnectClient tmpl name).
Proof.
  unfold ConnectClient. destruct (ValidateOpenVPNClientName name) as [[]|e] eqn:En; [|apply keeps_ret].
  apply keeps_get_bind. intros s Hs. destruct (List.find _ _) as [c|] eqn:Ec; [|apply keeps_ret].
  assert (Hw : forall suffix content, has_char sep suffix = false ->
             allowed (CWriteFile ("/etc/openvpn/client/" +:+ name +:+ suffix) content 384)).
  { intros suffix content Hsuf. apply allowed_write_path; [|done].
    exact (proj1 (ovpn_path_allowed ["client"] (name +:+ suffix) ltac:(by repeat constructor) (client_name_comp name _ En Hsuf))). }
  apply List.find_some in Ec as [_ Hname]. apply String.eqb_eq in Hname.
  assert (Hd : OVPNClientConfig_Name (applyClientDefaults c) = name).
  { unfold applyClientDefaults. rewrite <- Hname. by repeat case_match. }
  unfold renderClientConfig, writeClientAuth, client_auth. walk; rewrite ?Hd; first [by apply Hw|allow_call].
Qed.

Lemma ServerStop_allowed : keeps allowed I ServerStop.
Proof. unfold ServerStop. walk; first [by apply HR|allow_call]. Qed.

End Allowed.

(** ** Properties *)

(** C15: The filter of pasted OpenVPN client files accepts exactly the files of
    a declarative grammar: line by line, after trimming, a file is made of
    blank lines and comments, of directives from the list of plain client
    settings, auth-user-pass without a file name, and of inline blocks of key
    material that are opened, run up to the first line that is exactly their
    closing tag, and are closed. *)
Theorem config_filter_exact content :
  validateOVPNClientConfigFile content = Ok tt <-> client_file (List.map config_line (split_byte lf content)).
Proof. apply (proj1 (scan_config_spec (split_byte lf content) 0)). Qed.

(** A fixed address for an OpenVPN client is accepted exactly when it is a
    host address of the IPv4 server subnet above the server's own address and
    below the broadcast address, so never in a subnet too small to hold one;
    and the file written for a client with an accepted address begins by
    pushing exactly that address with the subnet's mask. *)
Theorem fixed_address_exact (cfg : Config) (entry : OVPNClientEntry)
    (Hplain : plain_cidr (OVPNServerConfig_Subnet (OpenVPNConfig_Server (Config_OpenVPN cfg)))) :
  let subnet := OVPNServerConfig_Subnet (OpenVPNConfig_Server (Config_OpenVPN cfg)) in
  let fixedIP := OVPNClientEntry_FixedIP entry in
  ((validateFixedIP subnet fixedIP = Ok tt /\ fixedIP <> "") <->
   exists x a ones, ParseIP fixedIP ≫= To4 = Some x /\ ParseCIDR subnet = Some (As16 a, cidr a ones)
     /\ length a = 4%nat /\ wf_ip a /\ 0 <= ones <= 32 /\ length x = 4%nat /\ wf_ip x
     /\ first_of a ones + 2 <= be x < last_of a ones)
  /\ (validateFixedIP subnet fixedIP = Ok tt -> fixedIP <> "" ->
      exists x a ones rest, ParseIP fixedIP ≫= To4 = Some x /\ ParseCIDR subnet = Some (As16 a, cidr a ones)
        /\ ccdContent cfg entry
           = "ifconfig-push " +:+ dotted x +:+ " " +:+ dotted (CIDRMask 4 ones) +:+ nl +:+ rest).
Proof.
  cbv zeta. split; [by apply validateFixedIP_iff|]. intros Hok Hne.
  destruct (proj1 (validateFixedIP_iff _ (OVPNClientEntry_FixedIP entry) Hplain) (conj Hok Hne))
    as (x & a & ones & Hx & Hc & Hla & Hwa & Ho & Hlx & Hwx & Hin).
  exists x, a, ones.
  assert (Hs : has_char "/" (OVPNServerConfig_Subnet (OpenVPNConfig_Server (Config_OpenVPN cfg))) = true).
  { unfold ParseCIDR in Hc. destruct (cut_byte "/" _) as [[h t]|] eqn:Ecut; [|done].
    apply Bool.not_false_iff_true. intros Hf. by rewrite (cut_byte_none "/" _ Hf) in Ecut. }
  unfold ccdContent, cidrToIPMask. rewrite Hs, Hc, Hx. cbn [negb snd net_mask cidr].
  assert (Hd : IP_String (CIDRMask (length a) ones) = dotted (CIDRMask 4 ones))
    by (rewrite Hla; apply IP_String_four, CIDRMask_length).
  rewrite Hd, (IP_String_four x Hlx).
  assert (nonempty (OVPNClientEntry_FixedIP entry) = true) as -> by (by destruct (OVPNClientEntry_FixedIP entry)).
  assert (nonempty (dotted (CIDRMask 4 ones)) = true) as ->.
  { unfold dotted. cbn [CIDRMask List.map]. rewrite join_cons by done. by destruct (itoa _). }
  cbn [negb]. destruct (OVPNClientEntry_IsSiteToSite entry); cbn [negb].
  - eexists. split; [done|]. split; [done|]. rewrite !append_assoc. done.
  - exists "". split; [done|]. split; [done|]. by rewrite append_empty_r.
Qed.

Lemma ovpn_cfg_plain : plain_cidr "10.8.0.0/24".
Proof. intros ip n H. vm_compute in H. injection H as <- <-. left. reflexivity. Qed.

Definition sample_ovpn_cfg : Config :=
  set_Config_OpenVPN (set_OpenVPNConfig_Server (set_OVPNServerConfig_Subnet "10.8.0.0/24" OVPNServerConfig_zero)
                        OpenVPNConfig_zero) Config_zero.
Definition sample_entry : OVPNClientEntry := mkOVPNClientEntry "tv" "tv" "10.8.0.5" true false [].

Lemma fixed_address_exact_witness :
  validateFixedIP "10.8.0.0/24" "10.8.0.5" = Ok tt
  /\ exists x a ones rest, ParseIP "10.8.0.5" ≫= To4 = Some x /\ ParseCIDR "10.8.0.0/24" = Some (As16 a, cidr a ones)
        /\ ccdContent sample_ovpn_cfg sample_entry
           = "ifconfig-push " +:+ dotted x +:+ " " +:+ dotted (CIDRMask 4 ones) +:+ nl +:+ rest.
Proof.
  split; [vm_compute; reflexivity|].
  refine (proj2 (fixed_address_exact sample_ovpn_cfg sample_entry ovpn_cfg_plain) _ _); [vm_compute; reflexivity|discriminate].
Defined.

(** openvpn ends a block at the first line that begins with its closing tag;
    the filter asks for the whole line, so what follows such a line is read as
    key material by one and as directives by the other. *)
Example closing_tag_smuggles_directive :
  let file := join nl ["client"; "<ca>"; "</ca> x"; "up /tmp/run"; "</ca>"] in
  validateOVPNClientConfigFile file = Ok tt
  /\ HasPrefix "</ca> x" "</ca>" = true /\ mem "up" ovpnClientDirectives = false.
Proof. split; [reflexivity|]. split; reflexivity. Qed.

(** The remote subnets of a client keep their host bits in the file, while the
    LAN routes are reduced to their network. *)
Example iroute_keeps_host_bits :
  ccdContent Config_zero (mkOVPNClientEntry "b" "b" "" true true ["192.168.5.1/24"])
  = "push-reset" +:+ nl +:+ "iroute 192.168.5.1 255.255.255.0" +:+ nl.
Proof. vm_compute. reflexivity. Qed.

(** The agent refuses to create a directory that is itself the base of a rule,
    and the server's configuration is rendered only after /etc/openvpn has
    been created through it: behind the agent the server never starts. *)
Lemma server_never_starts tmpl (w : world) s :
  behind_agent w -> is_ok (outcome (ServerStart tmpl) w s) = false /\ state_after (ServerStart tmpl) w s = s.
Proof.
  intros Hw. unfold outcome, state_after, ServerStart. rewrite (bind_run _ _ w [] s s s []) by reflexivity.
  destruct (ov_running s); [done|]. unfold try_bind, wrapping.
  assert (Hr : exists e, RenderServerConfig tmpl w [] s = (Err e, s, []) \/
                         RenderServerConfig tmpl w [] s = (Err e, s, [CMkdirAll "/etc/openvpn" 493])).
  { unfold RenderServerConfig. rewrite (bind_run _ _ w [] s s s []) by reflexivity. cbv zeta.
    destruct (wrap_err _ [] tmpl) as [ex|e]; [|exists e; by left]. destruct (cidrToIPMask _) as [ip mask].
    set (c := CMkdirAll "/etc/openvpn" 493).
    assert (Hm : wrapping "mkdir /etc/openvpn: %w" [] (MkdirAll "/etc/openvpn" 493) w [] s
                 = (wrap_err "mkdir /etc/openvpn: %w" [] (discard (w [] c)), s, [c])) by reflexivity.
    pose proof (Hw [] c ltac:(vm_compute; reflexivity)) as Hf. destruct (w [] c) as [u|e]; [done|].
    eexists. right. unfold try_bind at 1. by rewrite (bind_run _ _ _ _ _ _ _ _ Hm). }
  destruct Hr as [e [Hr|Hr]]; unfold mbind, svc_bind; rewrite Hr; done.
Qed.
