(* ===== verification/Backup.v ===== *)
(** * internal/services/backup.go

    Export of the configuration directories to an archive, encryption under a
    passphrase, and the restore, which stages and checks a whole archive
    before it writes the first file.  The gzip and tar codecs and the key
    derivation are parameters; an archive is the list of its members. *)

From S2P Require Import Prelude GoStrings GoPath ConfigTypes Secrets Config AgentRules FirewallRender Sys Routing.

Local Open Scope Z_scope.
Local Open Scope go_scope.
Local Open Scope sys_scope.

(** ** Archives *)

Inductive member_type : Type := TypeReg | TypeDir | TypeOther (flag : Z).

(** One member: what its reader gives, and the error that ends the reading if
    there is one. *)
Record member : Type := mkMember { mb_name : string; mb_type : member_type; mb_data : string; mb_err : option error }.

(** The members, and the error that ends the archive early if there is one. *)
Record archive : Type := mkArchive { ar_members : list member; ar_end : option error }.

Fixpoint take_bytes (n : Z) (s : string) : string :=
  match s with
  | "" => ""
  | String a s => if n <=? 0 then "" else String a (take_bytes (n - 1) s)
  end.

(** [io.ReadAll(io.LimitReader(tr, n))]. *)
Definition read_limited (n : Z) (m : member) : result string :=
  if n <=? len (mb_data m) then Ok (take_bytes n (mb_data m))
  else match mb_err m with Some e => Err e | None => Ok (mb_data m) end.

(** ** Export *)

Definition backupExtraDirs : list string := ["/etc/unbound"; "/etc/openvpn"].

Definition export_source (dir : string) : list string := ["-C"; Dir dir; Base dir].

Fixpoint extra_sources {S} (dirs : list string) : svc S (list string) :=
  match dirs with
  | [] => mret []
  | dir :: dirs =>
      st ← LocalCall "os.Stat" [dir];
      rest ← extra_sources dirs;
      mret ((if is_ok st then export_source dir else []) ++ rest)
  end.

Definition buildExportArgs {S} (outputPath configDir : string) (extraDirs : list string) : svc S (list string) :=
  extra ← extra_sources extraDirs;
  mret (["czf"; outputPath] ++ export_source configDir ++ extra).

Definition exportPlain {S} (configDir outputPath : string) : svc S (result unit) :=
  try! _ := wrapping "remove stale backup archive: %w" [] (Run "rm" ["-f"; "--"; outputPath]) in
  try! _ := wrapping "create backup archive: %w" [] (WriteFile outputPath "" 384) in
  args ← buildExportArgs outputPath configDir backupExtraDirs;
  r ← Run "tar" args;
  match r with
  | Ok _ => mret (Ok tt)
  | Err e => Run "rm" ["-f"; "--"; outputPath] ;; mret (Err (Errorw "create backup: %w" [] e))
  end.

Definition backupStagingDir (dataDir : string) : string := Join [dataDir; "staging"].

(** ** Restore *)

Definition restoreRoots (configDir : string) (extraDirs : list string) : gmap string string :=
  foldl (fun roots dir => <[Base dir := dir]> roots) {[Base configDir := configDir]} extraDirs.

Definition resolveRestoreTarget (roots : gmap string string) (clean : string) : option string :=
  let top := match cut_byte sep clean with Some (h, _) => h | None => clean end in
  match roots !! top with
  | None => None
  | Some root =>
      let rest := TrimPrefix (TrimPrefix clean top) sep_str in
      let target := if String.eqb rest "" then root else Join [root; rest] in
      if negb (String.eqb target root) && negb (HasPrefix target (root +:+ sep_str)) then None else Some target
  end.

Definition restoreFileMode : Z := 384.
Definition restoreDirMode : Z := 493.
Definition maxImportEntryBytes : Z := Z.shiftl 10 20.
Definition maxImportTotalBytes : Z := Z.shiftl 256 20.
Definition maxImportEntries : Z := 10000.

Record importBudget : Type := mkBudget {
  bu_maxEntries : Z; bu_maxEntry : Z; bu_maxTotal : Z; bu_entries : Z; bu_total : Z }.

Definition newImportBudget : importBudget := mkBudget maxImportEntries maxImportEntryBytes maxImportTotalBytes 0 0.

Definition countEntry (b : importBudget) : importBudget * result unit :=
  let b := mkBudget (bu_maxEntries b) (bu_maxEntry b) (bu_maxTotal b) (bu_entries b + 1) (bu_total b) in
  (b, fail_if (bu_maxEntries b <? bu_entries b) (Errorf "archive holds more than %d entries" [itoa (bu_maxEntries b)])).

Definition countBytes (name : string) (n : Z) (b : importBudget) : importBudget * result unit :=
  if bu_maxEntry b <? n
  then (b, Err (Errorf "tar member %s exceeds the %d byte entry limit" [name; itoa (bu_maxEntry b)]))
  else
    let b := mkBudget (bu_maxEntries b) (bu_maxEntry b) (bu_maxTotal b) (bu_entries b) (bu_total b + n) in
    (b, fail_if (bu_maxTotal b <? bu_total b) (Errorf "archive extracts more than %d bytes" [itoa (bu_maxTotal b)])).

Record stagedMember : Type := mkStaged { sm_target : string; sm_isDir : bool; sm_data : string }.

Definition readMember (m : member) (b : importBudget) : importBudget * result string :=
  match wrap_err "read tar member %s: %w" [mb_name m] (read_limited (maxImportEntryBytes + 1) m) with
  | Err e => (b, Err e)
  | Ok data =>
      let '(b, r) := countBytes (mb_name m) (len data) b in
      (b, match r with Ok _ => Ok data | Err e => Err e end)
  end.

(** [None] is a member that is skipped. *)
Definition stageMember (roots : gmap string string) (m : member) (b : importBudget)
    : importBudget * result (option stagedMember) :=
  let '(b, r) := countEntry b in
  match r with
  | Err e => (b, Err e)
  | Ok _ =>
      let clean := Clean (mb_name m) in
      if Contains clean ".." || IsAbs clean
      then (b, Err (Errorf "unsafe tar member rejected: %s" [mb_name m]))
      else match resolveRestoreTarget roots clean with
      | None => (b, Ok None)
      | Some target =>
          match mb_type m with
          | TypeDir => (b, Ok (Some (mkStaged target true "")))
          | TypeReg =>
              let '(b, r) := readMember m b in
              (b, match r with Ok data => Ok (Some (mkStaged target false data)) | Err e => Err e end)
          | TypeOther flag => (b, Err (Errorf "unsupported tar member type %d: %s" [itoa flag; mb_name m]))
          end
      end
  end.

Definition archiveKeyMember : string := "credentials/config.key".
Definition maxArchivedKeyBytes : Z := 128.

Definition type_flag (t : member_type) : Z := match t with TypeReg => 48 | TypeDir => 53 | TypeOther f => f end.

Definition readArchivedKey (m : member) (encrypted : bool) (b : importBudget) : importBudget * result string :=
  let '(b, r) := countEntry b in
  (b, match r with
      | Err e => Err e
      | Ok _ =>
          if negb encrypted then Err (Errorf "unencrypted archive carries a credential key" [])
          else match mb_type m with
          | TypeReg =>
              match wrap_err "read credential key: %w" [] (read_limited (maxArchivedKeyBytes + 1) m) with
              | Err e => Err e
              | Ok key => if maxArchivedKeyBytes <? len key then Err (Errorf "credential key member is too large" []) else Ok key
              end
          | t => Err (Errorf "credential key member has type %d" [itoa (type_flag t)])
          end
      end).

(** The loop of [stageArchive]. *)
Fixpoint stage_loop (roots : gmap string string) (encrypted : bool) (ms : list member) (stop : option error)
    (b : importBudget) (staged : list stagedMember) (key : option string) : result (list stagedMember * option string) :=
  match ms with
  | [] => match stop with Some e => Err (Errorw "read tar header: %w" [] e) | None => Ok (staged, key) end
  | m :: ms =>
      if String.eqb (Clean (mb_name m)) archiveKeyMember then
        let '(b, r) := readArchivedKey m encrypted b in
        match r with
        | Err e => Err e
        | Ok k => stage_loop roots encrypted ms stop b staged (Some k)
        end
      else
        let '(b, r) := stageMember roots m b in
        match r with
        | Err e => Err e
        | Ok o => stage_loop roots encrypted ms stop b (staged ++ option_list o) key
        end
  end.

Definition stageArchive (configDir : string) (ar : archive) (encrypted : bool)
    : result (list stagedMember * option string) :=
  stage_loop (restoreRoots configDir backupExtraDirs) encrypted (ar_members ar) (ar_end ar) newImportBudget [] None.

Definition installMember {S} (m : stagedMember) : svc S (result unit) :=
  if sm_isDir m then wrapping "mkdir %s: %w" [sm_target m] (MkdirAll (sm_target m) restoreDirMode)
  else wrapping "write %s: %w" [sm_target m] (WriteFile (sm_target m) (sm_data m) restoreFileMode).

Definition installArchivedKey {S} (key : option string) : svc S (result unit) :=
  match key with
  | None => mret (Ok tt)
  | Some k =>
      r ← wrapping "restore credential key: %w" [] (LocalCall "config.RestoreConfigKey" [k]);
      mret (discard r)
  end.

Section Restore.
Context `{YAML}.

Definition validateStagedConfig (configDir : string) (members : list stagedMember) : result unit :=
  let cfgPath := Join [configDir; "router.yaml"] in
  foldr (fun m rest =>
      if sm_isDir m || negb (String.eqb (sm_target m) cfgPath) then rest
      else guard! wrap_err "archived router.yaml: %w" [] (ValidateBytes (sm_data m)) ;; rest) (Ok tt) members.

Definition restoreArchive {S} (configDir : string) (ar : archive) (encrypted : bool) : svc S (result unit) :=
  match stageArchive configDir ar encrypted with
  | Err e => mret (Err e)
  | Ok (members, key) =>
      match validateStagedConfig configDir members with
      | Err e => mret (Err e)
      | Ok _ => try! _ := for_try members installMember in installArchivedKey key
      end
  end.
End Restore.

(** ** Factory reset *)

(** The entries of the embedded defaults: name, whether it is a directory, and
    what reading it gives. *)
Record default_entry : Type := mkDefault { de_name : string; de_isDir : bool; de_data : result string }.

Fixpoint reset_loop {S} (configDir : string) (entries : list default_entry) (written : Z) (failed : list string)
    : svc S (result unit) :=
  match entries with
  | [] =>
      mret (if 0 <? Z.of_nat (length failed)
            then Err (Errorf "factory reset: %d of %d defaults could not be written: %s"
                        [itoa (Z.of_nat (length failed)); itoa (Z.of_nat (length failed) + written); join ", " failed])
            else if written =? 0 then Err (Errorf "factory reset: no default configs found" []) else Ok tt)
  | e :: entries =>
      if de_isDir e || negb (HasSuffix (de_name e) ".yaml") then reset_loop configDir entries written failed
      else match wrap_err "read default %s: %w" [de_name e] (de_data e) with
      | Err err => mret (Err err)
      | Ok data =>
          r ← WriteFile (Join [configDir; de_name e]) data 416;
          match r with
          | Err _ => reset_loop configDir entries written (failed ++ [de_name e])
          | Ok _ => reset_loop configDir entries (written + 1) failed
          end
      end
  end.

Definition FactoryReset {S} (configDir : string) (defaults : result (list default_entry)) : svc S (result unit) :=
  match wrap_err "read defaults: %w" [] defaults with
  | Err e => mret (Err e)
  | Ok entries => reset_loop configDir entries 0 []
  end.

(** ** Encryption *)

Definition saltLen : nat := 16.
Definition MinBackupPassphraseLen : Z := 12.

Definition ValidateBackupPassphrase (passphrase : string) : result unit :=
  fail_if (Z.of_nat (length (runes passphrase)) <? MinBackupPassphraseLen)
    (Errorf "backup passphrase must be at least %d characters" [itoa MinBackupPassphraseLen]).

Section Crypto.
Context `{AEAD}.
(** [scrypt.Key] with the parameters of [deriveKey]. *)
Variable scrypt : string -> string -> result string.

Definition deriveKey (passphrase salt : string) : result string := scrypt passphrase salt.

(** The two reads of the random source are arguments. *)
Definition encryptBackup (salt nonce : result string) (plaintext passphrase : string) : result string :=
  let? salt := wrap_err "generate salt: %w" [] salt in
  let? key := wrap_err "derive key: %w" [] (deriveKey passphrase salt) in
  guard! wrap_err "create cipher: %w" [] (NewCipher key) ;;
  let? nonce := wrap_err "generate nonce: %w" [] nonce in
  Ok (salt +:+ nonce +:+ gcm_seal key nonce plaintext).

Definition decryptBackup (data passphrase : string) : result string :=
  guard! fail_if (len data <? Z.of_nat saltLen + 12) (Errorf "encrypted backup too short" []) ;;
  let salt := substring 0 saltLen data in
  let? key := wrap_err "derive key: %w" [] (deriveKey passphrase salt) in
  guard! wrap_err "create cipher: %w" [] (NewCipher key) ;;
  guard! fail_if (len data <? Z.of_nat saltLen + Z.of_nat nonceSize) (Errorf "encrypted backup too short for nonce" []) ;;
  let nonce := substring saltLen nonceSize data in
  let ciphertext := substring (saltLen + nonceSize) (String.length data - (saltLen + nonceSize)) data in
  match gcm_open key nonce ciphertext with
  | Some p => Ok p
  | None => Err (Errorf "decrypt: %w (wrong passphrase?)" ["cipher: message authentication failed"])
  end.

(** The gzip and tar codecs: [untar] opens the stream and lists what the
    reader gives, [tar_gz] writes members. *)
Variable untar : string -> result archive.
Variable tar_gz : list member -> result string.

Definition key_member (key : string) : member := mkMember archiveKeyMember TypeReg key None.

(** [copyTarEntries]: an unreadable member or header stops the copy. *)
Fixpoint copyTarEntries (ms : list member) (stop : option error) : result (list member) :=
  match ms with
  | [] => match stop with Some e => Err (Errorw "read tar header: %w" [] e) | None => Ok [] end
  | m :: ms =>
      match mb_err m with
      | Some e => Err (Errorw "copy tar member %s: %w" [mb_name m] e)
      | None => let? rest := copyTarEntries ms stop in Ok (m :: rest)
      end
  end.

Definition appendConfigKey (keyFile : read_result) (ar : string) : result string :=
  match keyFile with
  | ReadNotExist => Ok ar
  | ReadFail e => Err (Errorw "read credential key: %w" [] e)
  | ReadOk key =>
      let? a := wrap_err "gzip reader: %w" [] (untar ar) in
      let? ms := copyTarEntries (ar_members a) (ar_end a) in
      tar_gz (ms ++ [key_member key])
  end.

Definition stagedArchive (dataDir stamp : string) : string :=
  Join [backupStagingDir dataDir; "export-" +:+ stamp +:+ ".tar.gz"].

(** [stamp] is the clock's reading in nanoseconds; the key file and the random
    source are what they give at the time of the call.  The deferred removal
    of the staged archive is the last call of every path behind it. *)
Definition exportEncrypted {S} (configDir dataDir stamp : string) (keyFile : read_result) (salt nonce : result string)
    (outputPath passphrase : string) : svc S (result unit) :=
  try! _ := wrapping "backup staging directory unavailable, re-run the installer: %w" []
    (LocalCall "os.Stat" [backupStagingDir dataDir]) in
  let staged := stagedArchive dataDir stamp in
  args ← buildExportArgs staged configDir backupExtraDirs;
  try! _ := wrapping "create backup: %w" [] (Run "tar" args) in
  result ← (
    try! _ := wrapping "share staged archive: %w" [] (Run "chmod" ["640"; staged]) in
    try! plaintext := wrapping "read archive for encryption: %w" [] (LocalCall "os.ReadFile" [staged]) in
    match (let? withKey := wrap_err "add credential key to backup: %w" [] (appendConfigKey keyFile plaintext) in
           wrap_err "encrypt backup: %w" [] (encryptBackup salt nonce withKey passphrase)) with
    | Err e => mret (Err e)
    | Ok encrypted =>
        try! _ := wrapping "write encrypted backup: %w" [] (LocalCall "os.WriteFile" [outputPath; encrypted; "0600"]) in
        try! _ := wrapping "restrict backup archive: %w" [] (LocalCall "os.Chmod" [outputPath; "0600"]) in
        mret (Ok tt)
    end);
  Run "rm" ["-f"; staged] ;;
  mret result.

Definition Export {S} (configDir dataDir stamp now : string) (keyFile : read_result) (salt nonce : result string)
    (outputPath passphrase : string) : svc S (result unit) :=
  let outputPath := if String.eqb outputPath "" then "/tmp/lankeeper-backup-" +:+ now +:+ ".tar.gz" else outputPath in
  if String.eqb passphrase "" then exportPlain configDir outputPath
  else exportEncrypted configDir dataDir stamp keyFile salt nonce outputPath passphrase.

(** ** Import *)

Definition decryptArchiveInPlace {S} (archivePath passphrase : string) : svc S (result unit) :=
  try! data := wrapping "read backup: %w" [] (LocalCall "os.ReadFile" [archivePath]) in
  match wrap_err "decrypt backup: %w" [] (decryptBackup data passphrase) with
  | Err e => mret (Err e)
  | Ok decrypted =>
      r ← wrapping "write decrypted backup: %w" [] (LocalCall "os.WriteFile" [archivePath; decrypted; "0600"]);
      mret (discard r)
  end.

(** Opening the file gives its bytes. *)
Definition Import {S} `{YAML} (configDir archivePath passphrase : string) : svc S (result unit) :=
  try! _ := (if String.eqb passphrase "" then mret (Ok tt) else decryptArchiveInPlace archivePath passphrase) in
  try! bytes := wrapping "open backup: %w" [] (LocalCall "os.Open" [archivePath]) in
  match wrap_err "gzip reader: %w" [] (untar bytes) with
  | Err e => mret (Err e)
  | Ok ar => restoreArchive configDir ar (negb (String.eqb passphrase ""))
  end.

End Crypto.

(** ** Lemmas: staging *)

(** A path in the directory [root]. *)
Definition beneath (root target : string) : Prop := target = root \/ HasPrefix target (root +:+ sep_str) = true.

Lemma restoreRoots_values configDir dirs top root :
  restoreRoots configDir dirs !! top = Some root -> root = configDir \/ In root dirs.
Proof.
  unfold restoreRoots. assert (H : forall (m : gmap string string),
    (forall t r, m !! t = Some r -> r = configDir \/ In r dirs) ->
    forall ds, incl ds dirs -> forall t r, foldl (fun roots dir => <[Base dir := dir]> roots) m ds !! t = Some r ->
      r = configDir \/ In r dirs).
  { intros m Hm ds. revert m Hm. induction ds as [|d ds IH]; intros m Hm Hin t r; cbn [foldl]; [apply Hm|].
    apply IH; [|intros x Hx; apply Hin; by right]. intros t' r'.
    destruct (decide (Base d = t')) as [<-|Hne]; [rewrite lookup_insert_eq|rewrite lookup_insert_ne by done; apply Hm].
    intros [= <-]. right. apply Hin. by left. }
  apply H; [|apply incl_refl]. intros t r Hl. left. apply lookup_singleton_Some in Hl as [_ <-]. done.
Qed.

Lemma resolveRestoreTarget_beneath configDir dirs clean target :
  resolveRestoreTarget (restoreRoots configDir dirs) clean = Some target ->
  exists root, (root = configDir \/ In root dirs) /\ beneath root target.
Proof.
  unfold resolveRestoreTarget. destruct (restoreRoots configDir dirs !! _) as [root|] eqn:Er; [|done].
  apply restoreRoots_values in Er. set (target' := if String.eqb _ "" then root else _).
  destruct (negb (String.eqb target' root) && negb (HasPrefix target' (root +:+ sep_str))) eqn:Ec; [done|].
  intros [= <-]. exists root. split; [done|]. unfold beneath.
  destruct (String.eqb_spec target' root); [by left|]. right. cbn [negb andb] in Ec. by apply negb_false_iff in Ec.
Qed.

Lemma read_limited_short n m data : read_limited n m = Ok data -> len data < n -> data = mb_data m /\ mb_err m = None.
Proof.
  unfold read_limited. destruct (Z.leb_spec n (len (mb_data m))) as [Hl|Hl].
  - intros [= <-] Hs. exfalso. revert Hl Hs. generalize (mb_data m) as s. clear. revert n.
    assert (H : forall s n, n <= len s -> 0 <= n -> len (take_bytes n s) = n).
    { unfold len. induction s as [|a s IH]; intros n Hn H0; cbn [take_bytes String.length] in *; [lia|].
      destruct (Z.leb_spec n 0); [cbn; lia|]. cbn [String.length].
      specialize (IH (n - 1)). lia. }
    intros n s Hl Hs. destruct (Z.leb_spec 0 n) as [H0|H0]; [rewrite H in Hs by done; lia|].
    unfold len in Hs, Hl. lia.
  - destruct (mb_err m); [done|]. by intros [= <-].
Qed.

(** What restoring a member amounts to. *)
Definition restored (roots : gmap string string) (m : member) : list stagedMember :=
  if String.eqb (Clean (mb_name m)) archiveKeyMember then []
  else match resolveRestoreTarget roots (Clean (mb_name m)) with
  | None => []
  | Some target =>
      match mb_type m with
      | TypeDir => [mkStaged target true ""]
      | TypeReg => [mkStaged target false (mb_data m)]
      | TypeOther _ => []
      end
  end.

Definition bytes_in (l : list stagedMember) : Z := foldr (fun m n => len (sm_data m) + n) 0 l.

Lemma bytes_in_app a b : bytes_in (a ++ b) = bytes_in a + bytes_in b.
Proof. induction a as [|m a IH]; cbn; [done|]. unfold bytes_in in *. cbn. rewrite IH. lia. Qed.

(** The limits of the budget are those of the code. *)
Definition limits (b : importBudget) : Prop :=
  bu_maxEntries b = maxImportEntries /\ bu_maxEntry b = maxImportEntryBytes /\ bu_maxTotal b = maxImportTotalBytes.

Lemma countEntry_ok b b' : limits b -> countEntry b = (b', Ok tt) ->
  limits b' /\ bu_entries b' = bu_entries b + 1 /\ bu_total b' = bu_total b /\ bu_entries b' <= maxImportEntries.
Proof.
  intros (H1 & H2 & H3). unfold countEntry. intros [= <- H]. cbn. apply fail_if_Ok in H. apply Z.ltb_ge in H. cbn in H.
  unfold limits. cbn. rewrite H1 in *. repeat split; done.
Qed.

(** One staged member: the budget spent on it and its content. *)
Lemma stageMember_ok roots m b b' o :
  limits b -> stageMember roots m b = (b', Ok o) ->
  limits b' /\ bu_entries b' = bu_entries b + 1 /\ bu_total b' = bu_total b + bytes_in (option_list o)
  /\ bu_entries b' <= maxImportEntries /\ (o <> None -> bu_total b <= maxImportTotalBytes -> bu_total b' <= maxImportTotalBytes)
  /\ Forall (fun s => len (sm_data s) <= maxImportEntryBytes) (option_list o)
  /\ (String.eqb (Clean (mb_name m)) archiveKeyMember = false -> option_list o = restored roots m).
Proof.
  intros Hl. unfold stageMember, restored. destruct (countEntry b) as [b1 [[]|e]] eqn:Ec; [|done].
  destruct (countEntry_ok b b1 Hl Ec) as (Hl1 & He1 & Ht1 & Hm1).
  destruct (_ || _); [done|]. destruct (resolveRestoreTarget roots (Clean (mb_name m))) as [target|].
  2:{ intros [= <- <-]. cbn. rewrite Z.add_0_r. repeat split; try done; try apply Hl1. by intros ->. }
  destruct (mb_type m).
  - unfold readMember. destruct (read_limited _ m) as [data|e] eqn:Er; cbn [wrap_err]; [|done].
    unfold countBytes. destruct Hl1 as (HA & HB & HC). rewrite HB, HC.
    destruct (Z.ltb_spec maxImportEntryBytes (len data)) as [Hb|Hb]; [done|]. cbn [bu_total bu_maxTotal].
    unfold fail_if. destruct (Z.ltb_spec maxImportTotalBytes (bu_total b1 + len data)) as [Hb'|Hb']; [done|].
    intros [= <- <-]. apply read_limited_short in Er as [-> _]; [|lia]. cbn. unfold limits. cbn.
    rewrite Z.add_0_r, Ht1. repeat split; try done; [lia|by repeat constructor|by intros ->].
  - intros [= <- <-]. cbn. rewrite Z.add_0_r. repeat split; try done; try apply Hl1; [lia|by repeat constructor|by intros ->].
  - done.
Qed.

Lemma readArchivedKey_ok m enc b b' k :
  limits b -> readArchivedKey m enc b = (b', Ok k) ->
  limits b' /\ bu_entries b' = bu_entries b + 1 /\ bu_total b' = bu_total b /\ bu_entries b' <= maxImportEntries
  /\ enc = true /\ k = mb_data m /\ len k <= maxArchivedKeyBytes.
Proof.
  intros Hl. unfold readArchivedKey. destruct (countEntry b) as [b1 [[]|e]] eqn:Ec; [|done].
  destruct (countEntry_ok b b1 Hl Ec) as (Hl1 & He1 & Ht1 & Hm1).
  destruct enc; cbn [negb]; [|done]. destruct (mb_type m); [|done..].
  destruct (read_limited _ m) as [data|e] eqn:Er; cbn [wrap_err]; [|done].
  destruct (Z.ltb_spec maxArchivedKeyBytes (len data)) as [Hk|Hk]; [done|]. intros [= <- <-].
  apply read_limited_short in Er as [-> _]; [|lia]. by repeat split; try apply Hl1.
Qed.

(** What a successful staging means for the whole archive. *)
Lemma stage_loop_ok roots enc ms stop b staged key staged' key' :
  limits b -> bu_total b <= maxImportTotalBytes ->
  stage_loop roots enc ms stop b staged key = Ok (staged', key') ->
  stop = None /\ (ms <> [] -> bu_entries b + Z.of_nat (length ms) <= maxImportEntries)
  /\ exists added, staged' = staged ++ added /\ added = List.flat_map (restored roots) ms
     /\ bu_total b + bytes_in added <= maxImportTotalBytes
     /\ Forall (fun s => len (sm_data s) <= maxImportEntryBytes) added
     /\ (key' = key \/ (enc = true /\ exists m, In m ms /\ Clean (mb_name m) = archiveKeyMember /\ key' = Some (mb_data m))).
Proof.
  revert b staged key. induction ms as [|m ms IH]; intros b staged key Hl Ht; cbn [stage_loop].
  { destruct stop; [done|]. intros [= <- <-]. split; [done|]. split; [done|]. exists []. rewrite app_nil_r.
    cbn. rewrite Z.add_0_r. repeat split; [done..|by left]. }
  cbn [List.flat_map length]. destruct (String.eqb_spec (Clean (mb_name m)) archiveKeyMember) as [Hn|Hn].
  - destruct (readArchivedKey m enc b) as [b1 [k|e]] eqn:Ek; [|done].
    destruct (readArchivedKey_ok _ _ _ _ _ Hl Ek) as (Hl1 & He1 & Ht1 & Hm1 & Henc & -> & _).
    intros H. destruct (IH b1 staged (Some (mb_data m)) Hl1 ltac:(lia) H) as (Hs & Hc & added & Ha & Hf & Hb & Hd & Hk).
    split; [done|]. split. { intros _. destruct ms as [|m' ms]; [cbn; lia|]. specialize (Hc ltac:(done)). lia. }
    exists added. split; [done|]. assert (restored roots m = []) as ->.
    { unfold restored. rewrite (proj2 (String.eqb_eq _ _) Hn). done. }
    split; [done|]. split; [lia|]. split; [done|]. right.
    destruct Hk as [->|(He & m' & Hin & Hm & ->)]; (split; [done|]); [exists m|exists m']; repeat split; try done; [by left|by right].
  - destruct (stageMember roots m b) as [b1 [o|e]] eqn:Es; [|done].
    destruct (stageMember_ok _ _ _ _ _ Hl Es) as (Hl1 & He1 & Ht1 & Hm1 & Hbt & Hbd & Hr).
    rewrite <- Hr by (by apply String.eqb_neq).
    assert (Ht1' : bu_total b1 <= maxImportTotalBytes).
    { destruct o as [x|]; [by apply Hbt|]. cbn in Ht1. lia. }
    intros H. destruct (IH b1 _ key Hl1 Ht1' H) as (Hs & Hc & added & Ha & Hf & Hb & Hd & Hk).
    split; [done|]. split. { intros _. destruct ms as [|m' ms]; [cbn; lia|]. specialize (Hc ltac:(done)). lia. }
    exists (option_list o ++ added). split; [by rewrite app_assoc|]. split; [by rewrite Hf|].
    rewrite bytes_in_app. split; [lia|]. split; [by apply Forall_app|].
    destruct Hk as [->|(He & m' & Hin & Hm & ->)]; [by left|]. right. split; [done|]. exists m'. repeat split; try done. by right.
Qed.

(** What is asked of a member: a credential key is a whole, small file of an
    encrypted archive; any other name is relative without two dots, and one
    that is restored is a directory or a file read to its end within the
    limit. *)
Definition is_key (m : member) : bool := String.eqb (Clean (mb_name m)) archiveKeyMember.
Definition member_ok (roots : gmap string string) (encrypted : bool) (m : member) : Prop :=
  if is_key m then encrypted = true /\ mb_type m = TypeReg /\ mb_err m = None /\ len (mb_data m) <= maxArchivedKeyBytes
  else Contains (Clean (mb_name m)) ".." = false /\ IsAbs (Clean (mb_name m)) = false
       /\ (resolveRestoreTarget roots (Clean (mb_name m)) <> None ->
           mb_type m = TypeDir \/ (mb_type m = TypeReg /\ mb_err m = None /\ len (mb_data m) <= maxImportEntryBytes)).

(** The key of an archive is its last. *)
Definition archived_key (ms : list member) : option string := list_basics.list.last (List.map mb_data (List.filter is_key ms)).

Lemma stageMember_member roots enc m b b' o : is_key m = false -> limits b -> stageMember roots m b = (b', Ok o) -> member_ok roots enc m /\ limits b'.
Proof.
  intros Hk Hl Hs. split; [|apply (stageMember_ok _ _ _ _ _ Hl Hs)]. unfold member_ok. rewrite Hk. revert Hs.
  unfold stageMember. destruct (countEntry b) as [b1 [[]|e]] eqn:Ec; [|done]. destruct (countEntry_ok b b1 Hl Ec) as ((HA & HB & HC) & _).
  destruct (Contains _ _), (IsAbs _); cbn [orb]; try done. destruct (resolveRestoreTarget roots _) as [target|]; [|done].
  intros Hs. split; [done|]. split; [done|]. intros _. destruct (mb_type m); [|by left|done]. right. split; [done|]. revert Hs.
  unfold readMember. destruct (read_limited _ m) as [data|e] eqn:Er; cbn [wrap_err]; [|done]. unfold countBytes. rewrite HB.
  destruct (Z.ltb_spec maxImportEntryBytes (len data)) as [|Hd]; [done|]. intros _. apply read_limited_short in Er as [-> Hend]; [done|lia].
Qed.

Lemma readArchivedKey_member roots enc m b b' k : is_key m = true -> limits b -> readArchivedKey m enc b = (b', Ok k) ->
  member_ok roots enc m /\ limits b' /\ k = mb_data m.
Proof.
  intros Hm Hl Hs. destruct (readArchivedKey_ok _ _ _ _ _ Hl Hs) as (Hl' & _ & _ & _ & He & -> & Hlen). split; [|done].
  unfold member_ok. rewrite Hm. split; [done|]. revert Hs. unfold readArchivedKey. destruct (countEntry b) as [b1 [[]|e]]; [|done].
  destruct enc; [|done]. cbn [negb]. destruct (mb_type m); [|done..]. intros Hs. split; [done|]. split; [|done]. revert Hs.
  destruct (read_limited _ m) as [data|e] eqn:Er; cbn [wrap_err]; [|done]. intros _. apply read_limited_short in Er as [-> Hend]; [done|].
  unfold read_limited in Er. destruct (Z.leb_spec (maxArchivedKeyBytes + 1) (len (mb_data m))); [lia|]. destruct (mb_err m); by simplify_eq.
Qed.

Lemma stage_loop_members roots enc ms stop b staged key staged' key' :
  limits b -> stage_loop roots enc ms stop b staged key = Ok (staged', key') ->
  Forall (member_ok roots enc) ms /\ key' = match archived_key ms with Some k => Some k | None => key end.
Proof.
  revert b staged key. induction ms as [|m ms IH]; intros b staged key Hl; cbn [stage_loop].
  { destruct stop; [done|]. intros [= <- <-]. done. }
  destruct (is_key m) eqn:Ek; unfold is_key in Ek; rewrite Ek.
  - destruct (readArchivedKey m enc b) as [b1 [k|e]] eqn:Er; [|done]. destruct (readArchivedKey_member roots _ _ _ _ _ Ek Hl Er) as (Hm & Hl1 & ->).
    intros H. destruct (IH _ _ _ Hl1 H) as [Hf ->]. split; [by constructor|]. unfold archived_key. cbn [List.filter]. unfold is_key at 2. rewrite Ek. cbn [List.map].
    rewrite last_cons. by destruct (list_basics.list.last _).
  - destruct (stageMember roots m b) as [b1 [o|e]] eqn:Es; [|done]. destruct (stageMember_member _ enc _ _ _ _ Ek Hl Es) as [Hm Hl1].
    intros H. destruct (IH _ _ _ Hl1 H) as [Hf ->]. split; [by constructor|]. unfold archived_key. cbn [List.filter]. unfold is_key at 2. by rewrite Ek.
Qed.

(** ** Lemmas: installing *)

Definition install_call (m : stagedMember) : call :=
  if sm_isDir m then CMkdirAll (sm_target m) restoreDirMode else CWriteFile (sm_target m) (sm_data m) restoreFileMode.
Definition key_calls (key : option string) : list call :=
  match key with Some k => [CLocal "config.RestoreConfigKey" [k]] | None => [] end.

Lemma installMember_run {S} m (w : world) h (s : S) :
  exists r, installMember m w h s = (r, s, h ++ [install_call m]) /\ is_ok r = is_ok (w h (install_call m)).
Proof.
  unfold installMember, install_call, wrapping, MkdirAll, WriteFile, perform, mbind, svc_bind.
  destruct (sm_isDir m); eexists; (split; [reflexivity|]); by destruct (w h _).
Qed.

(** The calls are the members in order, up to the first that fails. *)
Lemma install_all {S} (l : list stagedMember) (w : world) h (s : S) :
  exists r done, for_try l installMember w h s = (r, s, h ++ done)
    /\ done `prefix_of` List.map install_call l /\ (is_ok r = true -> done = List.map install_call l).
Proof.
  revert h. induction l as [|m l IH]; intros h; cbn [for_try List.map].
  { exists (Ok tt), []. split; [by rewrite app_nil_r|]. by split. }
  unfold try_bind, mbind, svc_bind. destruct (installMember_run m w h s) as (r & -> & _).
  destruct r as [u|e].
  - destruct (IH (h ++ [install_call m])) as (r & done & -> & Hp & Hd). exists r, (install_call m :: done).
    split; [by rewrite <- app_assoc|]. split; [by apply prefix_cons|]. intros Hr. by rewrite Hd.
  - exists (Err e), [install_call m]. split; [done|]. split; [apply prefix_cons, prefix_nil|done].
Qed.

(** An archive that passes every check of the first pass. *)
Definition checked `{YAML} (configDir : string) (ar : archive) (encrypted : bool)
    (staged : list stagedMember) (key : option string) : Prop :=
  ar_end ar = None /\ Z.of_nat (length (ar_members ar)) <= maxImportEntries
  /\ staged = List.flat_map (restored (restoreRoots configDir backupExtraDirs)) (ar_members ar)
  /\ bytes_in staged <= maxImportTotalBytes
  /\ Forall (fun s => len (sm_data s) <= maxImportEntryBytes
                      /\ exists root, (root = configDir \/ In root backupExtraDirs) /\ beneath root (sm_target s)) staged
  /\ Forall (fun s => sm_isDir s = false -> sm_target s = Join [configDir; "router.yaml"] ->
               ValidateBytes (sm_data s) = Ok tt) staged
  /\ Forall (member_ok (restoreRoots configDir backupExtraDirs) encrypted) (ar_members ar)
  /\ key = archived_key (ar_members ar).

Lemma validateStagedConfig_ok `{YAML} configDir l :
  validateStagedConfig configDir l = Ok tt ->
  Forall (fun s => sm_isDir s = false -> sm_target s = Join [configDir; "router.yaml"] -> ValidateBytes (sm_data s) = Ok tt) l.
Proof.
  unfold validateStagedConfig. induction l as [|m l IH]; [constructor|]. cbn [foldr]. intros Hv.
  destruct (sm_isDir m || negb (String.eqb (sm_target m) (Join [configDir; "router.yaml"]))) eqn:Ec.
  - constructor; [|by apply IH]. intros Hd Ht. rewrite Hd, Ht, String.eqb_refl in Ec. done.
  - destruct (ValidateBytes (sm_data m)) as [[]|e] eqn:Ev; [|done]. constructor; [done|]. by apply IH.
Qed.

Lemma stageArchive_checked `{YAML} configDir ar encrypted staged key :
  stageArchive configDir ar encrypted = Ok (staged, key) -> validateStagedConfig configDir staged = Ok tt ->
  checked configDir ar encrypted staged key.
Proof.
  intros Hs Hv. apply validateStagedConfig_ok in Hv. unfold stageArchive in Hs.
  destruct (stage_loop_ok _ _ _ _ newImportBudget _ _ _ _ ltac:(done) ltac:(done) Hs)
    as (Hend & Hc & added & -> & -> & Hb & Hd & Hk). cbn [app] in *.
  split; [done|]. split; [destruct (ar_members ar); [done|by apply Hc]|]. split; [done|]. split; [done|].
  destruct (stage_loop_members _ _ _ _ newImportBudget _ _ _ _ ltac:(done) Hs) as [Hms Hkey].
  split; [|split; [done|split; [done|rewrite Hkey; by destruct (archived_key _)]]].
  apply List.Forall_forall. intros x Hx. split.
  - rewrite List.Forall_forall in Hd. by apply Hd.
  - apply in_flat_map in Hx as (m & _ & Hm). unfold restored in Hm. destruct (String.eqb _ _); [done|].
    destruct (resolveRestoreTarget _ _) as [target|] eqn:Er; [|done]. apply resolveRestoreTarget_beneath in Er.
    destruct (mb_type m); first [destruct Hm as [<-|[]]; exact Er|destruct Hm].
Qed.

Lemma restoreArchive_run `{YAML} {S} configDir ar encrypted (w : world) h (s : S) :
  exists r installs, restoreArchive configDir ar encrypted w h s = (r, s, h ++ installs)
    /\ ((installs = [] /\ is_ok r = false)
        \/ exists staged key, checked configDir ar encrypted staged key
             /\ installs `prefix_of` List.map install_call staged ++ key_calls key
             /\ (is_ok r = true -> installs = List.map install_call staged ++ key_calls key)).
Proof.
  unfold restoreArchive. destruct (stageArchive configDir ar encrypted) as [[staged key]|e] eqn:Es.
  2:{ exists (Err e), []. split; [by rewrite app_nil_r|]. by left. }
  destruct (validateStagedConfig configDir staged) as [[]|e] eqn:Ev.
  2:{ exists (Err e), []. split; [by rewrite app_nil_r|]. by left. }
  pose proof (stageArchive_checked _ _ _ _ _ Es Ev) as Hc. unfold try_bind, mbind, svc_bind.
  destruct (install_all staged w h s) as (r & done & -> & Hp & Hd). destruct r as [u|e].
  - rewrite Hd by done. destruct key as [k|]; cbn [installArchivedKey key_calls].
    + unfold wrapping, LocalCall, perform, mbind, svc_bind. eexists _, _. split; [by rewrite <- app_assoc|].
      right. exists staged, (Some k). split; [done|]. by split.
    + eexists _, _. split; [done|]. right. exists staged, None. cbn [key_calls]. rewrite app_nil_r. split; [done|]. by split.
  - exists (Err e), done. split; [done|]. right. exists staged, key. split; [done|]. split; [|done].
    by apply prefix_app_r.
Qed.

Definition is_local (c : call) : Prop := match c with CLocal _ _ => True | _ => False end.

Lemma decryptArchiveInPlace_local `{AEAD} {S} scrypt path pass (s0 : S) :
  keeps is_local (eq s0) (decryptArchiveInPlace scrypt path pass).
Proof. unfold decryptArchiveInPlace. walk; done. Qed.

(** ** Lemmas: an archive of our own *)

(** A file or directory below a restored directory, as tar stores it. *)
Record source : Type := mkSource { so_root : list string; so_rest : list string; so_isDir : bool; so_data : string }.

Definition so_top (x : source) : string := List.last (so_root x) "".
Definition so_path (x : source) : string := abs_path (so_root x ++ so_rest x).
Definition so_name (x : source) : string := join sep_str (so_top x :: so_rest x).
Definition so_member (x : source) : member :=
  if so_isDir x then mkMember (so_name x +:+ sep_str) TypeDir "" None else mkMember (so_name x) TypeReg (so_data x) None.
Definition so_staged (x : source) : stagedMember := mkStaged (so_path x) (so_isDir x) (if so_isDir x then "" else so_data x).

(** What the restore asks of it: a known directory, clean names without two
    dots in a row, and a size within the limit. *)
Definition restorable (roots : gmap string string) (x : source) : Prop :=
  so_root x <> [] /\ good_comps (so_root x ++ so_rest x) /\ roots !! so_top x = Some (abs_path (so_root x))
  /\ so_top x <> "credentials" /\ Contains (so_name x) ".." = false
  /\ len (sm_data (so_staged x)) <= maxImportEntryBytes.

Lemma so_root_split x : so_root x <> [] -> exists ds, so_root x = ds ++ [so_top x].
Proof. intros Hne. exists (List.removelast (so_root x)). by apply List.app_removelast_last. Qed.

Lemma so_comps roots x : restorable roots x -> good_comps (so_top x :: so_rest x).
Proof.
  intros (Hne & Hg & _). apply Forall_app in Hg as [Hr Hs]. constructor; [|done].
  destruct (so_root_split x Hne) as [ds Hd]. rewrite Hd in Hr. apply Forall_app in Hr as [_ Hr].
  by inversion Hr.
Qed.

Lemma Clean_rel c cs : good_comps (c :: cs) -> Clean (join sep_str (c :: cs)) = join sep_str (c :: cs).
Proof.
  intros Hg. pose proof Hg as Hg'. inversion Hg' as [|? ? Hc Hcs]; subst.
  pose proof (proj1 (good_comp_spec c) Hc) as (Hne & _ & _ & _).
  assert (Hrel : exists t, join sep_str (c :: cs) = c +:+ t).
  { destruct cs as [|d cs]; [exists ""; by rewrite append_empty_r|]. rewrite join_cons by done. by eexists. }
  destruct Hrel as [t Ht]. unfold Clean, clean_comps. rewrite Ht, good_comp_not_abs by done.
  rewrite (proj2 (String.eqb_neq (c +:+ t) "")) by (by destruct c). rewrite <- Ht.
  change (split_byte sep (join sep_str (c :: cs))) with (split_byte sep (join (String sep "") (c :: cs))).
  rewrite split_join by (done || by apply good_comps_no_sep). rewrite (foldl_clean_good false []) by done.
  rewrite app_nil_r, reverse_involutive. by rewrite (proj2 (String.eqb_neq _ _) (join_append_nonempty sep_str c cs Hne)).
Qed.

Lemma Clean_so_member roots x : restorable roots x -> Clean (mb_name (so_member x)) = so_name x.
Proof.
  intros Hx. pose proof (so_comps roots x Hx) as Hg. unfold so_member, so_name.
  destruct (so_isDir x); cbn [mb_name]; [by apply Clean_rel_trailing|by apply Clean_rel].
Qed.

Lemma join_app_sep sep_s a b : a <> [] -> b <> [] -> join sep_s (a ++ b) = join sep_s a +:+ sep_s +:+ join sep_s b.
Proof.
  intros Ha Hb. induction a as [|x a IH]; [done|]. destruct a as [|y a]; cbn [app]; [by rewrite join_cons|].
  rewrite (join_cons sep_s x (y :: a ++ b)), (join_cons sep_s x (y :: a)) by done.
  change (y :: a ++ b) with ((y :: a) ++ b). rewrite IH by done. by rewrite !append_assoc.
Qed.

Lemma so_target roots x : restorable roots x -> resolveRestoreTarget roots (so_name x) = Some (so_path x).
Proof.
  intros Hx. pose proof (so_comps roots x Hx) as Hg. destruct Hx as (Hne & Hga & Hr & _). unfold resolveRestoreTarget, so_name.
  inversion Hg as [|? ? Ht Hrest]; subst. pose proof (proj1 (good_comp_spec _) Ht) as (_ & _ & _ & Hsep).
  destruct (so_rest x) as [|d rest] eqn:Er.
  - cbn [join String.concat]. rewrite (cut_byte_none sep _ Hsep), Hr.
    assert (TrimPrefix (TrimPrefix (so_top x) (so_top x)) sep_str = "") as ->.
    { rewrite <- (append_empty_r (so_top x)) at 1. by rewrite TrimPrefix_append. }
    cbn [String.eqb]. rewrite String.eqb_refl. unfold so_path. by rewrite Er, app_nil_r.
  - rewrite join_cons by done. change (sep_str +:+ join sep_str (d :: rest)) with (String sep (join sep_str (d :: rest))).
    rewrite (cut_byte_append sep _ _ Hsep), Hr, TrimPrefix_append.
    change (String sep (join sep_str (d :: rest))) with (sep_str +:+ join sep_str (d :: rest)). rewrite TrimPrefix_append.
    rewrite (proj2 (String.eqb_neq (join sep_str (d :: rest)) "")).
    2:{ apply join_append_nonempty. inversion Hrest as [|? ? Hd _]; subst. by apply good_comp_spec in Hd as (? & _). }
    rewrite Join_abs by done. unfold so_path. rewrite Er.
    assert (HasPrefix (abs_path (so_root x ++ d :: rest)) (abs_path (so_root x) +:+ sep_str) = true) as ->.
    { apply HasPrefix_true. exists (join sep_str (d :: rest)). unfold abs_path. rewrite !append_assoc. f_equal.
      apply (join_app_sep sep_str); done. }
    by rewrite andb_false_r.
Qed.

Lemma so_not_key roots x : restorable roots x -> String.eqb (so_name x) archiveKeyMember = false.
Proof.
  intros Hx. pose proof (so_comps roots x Hx) as Hg. destruct Hx as (_ & _ & _ & Ht & _).
  apply String.eqb_neq. intros He. apply (f_equal (split_byte sep)) in He. unfold so_name in He.
  change sep_str with (String sep "") in He. rewrite split_join in He by (done || by apply good_comps_no_sep).
  change (split_byte sep archiveKeyMember) with ["credentials"; "config.key"] in He. by injection He as ? _.
Qed.

Lemma so_stage roots x b :
  restorable roots x -> limits b -> bu_entries b + 1 <= maxImportEntries ->
  bu_total b + bytes_in [so_staged x] <= maxImportTotalBytes ->
  stageMember roots (so_member x) b
  = (mkBudget maxImportEntries maxImportEntryBytes maxImportTotalBytes (bu_entries b + 1) (bu_total b + bytes_in [so_staged x]),
     Ok (Some (so_staged x))).
Proof.
  intros Hx (H1 & H2 & H3) He Ht. unfold stageMember, countEntry. cbn [bu_entries bu_maxEntries].
  unfold fail_if at 1. rewrite H1, H2, H3. destruct (Z.ltb_spec maxImportEntries (bu_entries b + 1)); [lia|].
  rewrite (Clean_so_member roots x Hx), (so_target roots x Hx).
  pose proof (so_comps roots x Hx) as Hg. destruct Hx as (_ & _ & _ & _ & Hdots & Hlen). rewrite Hdots.
  assert (IsAbs (so_name x) = false) as ->.
  { unfold so_name. inversion Hg as [|? ? Htop Hrest]; subst.
    destruct (so_rest x); [rewrite <- (append_empty_r (join _ _))|rewrite join_cons by done]; by apply good_comp_not_abs. }
  cbn [orb]. unfold bytes_in, so_staged in *. cbn [foldr sm_data] in *. rewrite Z.add_0_r in *.
  unfold so_member. destruct (so_isDir x); cbn [mb_type].
  - change (len "") with 0. by rewrite Z.add_0_r.
  - unfold readMember, read_limited. cbn [mb_data mb_err mb_name].
    destruct (Z.leb_spec (maxImportEntryBytes + 1) (len (so_data x))); [lia|]. cbn [wrap_err].
    unfold countBytes. cbn [bu_maxEntry bu_maxTotal bu_total bu_entries bu_maxEntries].
    destruct (Z.ltb_spec maxImportEntryBytes (len (so_data x))); [lia|]. unfold fail_if.
    destruct (Z.ltb_spec maxImportTotalBytes (bu_total b + len (so_data x))); [lia|]. done.
Qed.

Lemma stage_sources roots xs rest stop b staged key :
  Forall (restorable roots) xs -> limits b ->
  bu_entries b + Z.of_nat (length xs) <= maxImportEntries ->
  bu_total b + bytes_in (List.map so_staged xs) <= maxImportTotalBytes ->
  stage_loop roots true (List.map so_member xs ++ rest) stop b staged key
  = stage_loop roots true rest stop
      (mkBudget maxImportEntries maxImportEntryBytes maxImportTotalBytes (bu_entries b + Z.of_nat (length xs))
         (bu_total b + bytes_in (List.map so_staged xs))) (staged ++ List.map so_staged xs) key.
Proof.
  intros Hxs. revert b staged. induction Hxs as [|x xs Hx _ IH]; intros b staged Hl He Ht; cbn [List.map app length].
  - rewrite app_nil_r, !Z.add_0_r. destruct b, Hl as (H1 & H2 & H3). cbn in *. by subst.
  - cbn [List.map length] in He, Ht. change (bytes_in (so_staged x :: List.map so_staged xs))
      with (len (sm_data (so_staged x)) + bytes_in (List.map so_staged xs)) in *.
    assert (Hone : bytes_in [so_staged x] = len (sm_data (so_staged x))) by (cbn; lia).
    assert (Hnn : 0 <= bytes_in (List.map so_staged xs)).
    { clear. induction xs as [|y xs IH]; [done|]. cbn. unfold bytes_in, len in *. lia. }
    cbn [stage_loop]. rewrite (Clean_so_member roots x Hx), (so_not_key roots x Hx).
    rewrite so_stage by (done || lia). rewrite IH; cbn [bu_entries bu_total]; [|done|lia|lia].
    cbn [option_list]. rewrite <- app_assoc. do 2 f_equal; lia.
Qed.

Lemma substring_skip a b n : substring (String.length a) n (a +:+ b) = substring 0 n b.
Proof. induction a; cbn; [done|assumption]. Qed.

Lemma decrypt_encrypt `{AEAD} scrypt salt nonce plaintext passphrase file :
  String.length salt = saltLen -> String.length nonce = nonceSize ->
  encryptBackup scrypt (Ok salt) (Ok nonce) plaintext passphrase = Ok file ->
  decryptBackup scrypt file passphrase = Ok plaintext.
Proof.
  intros Hs Hn. unfold encryptBackup, decryptBackup. cbn [wrap_err result_bind].
  destruct (deriveKey scrypt passphrase salt) as [key|] eqn:Ek; cbn [wrap_err result_bind]; [|done].
  destruct (NewCipher key) as [[]|] eqn:Ec; cbn [wrap_err result_bind]; [|done]. intros [= <-].
  assert (Hlen : len (salt +:+ nonce +:+ gcm_seal key nonce plaintext) = 28 + len (gcm_seal key nonce plaintext)).
  { unfold len. rewrite !append_length, Hs, Hn. unfold saltLen, nonceSize. lia. }
  rewrite Hlen. assert (0 <= len (gcm_seal key nonce plaintext)) by (unfold len; lia).
  assert ((28 + len (gcm_seal key nonce plaintext) <? Z.of_nat saltLen + 12) = false) as ->
    by (apply Z.ltb_ge; unfold saltLen; lia).
  cbn [fail_if result_bind].
  assert (substring 0 saltLen (salt +:+ nonce +:+ gcm_seal key nonce plaintext) = salt) as ->
    by (rewrite <- Hs; apply substring_append_l).
  rewrite Ek. cbn [wrap_err result_bind]. rewrite Ec. cbn [wrap_err result_bind].
  assert ((28 + len (gcm_seal key nonce plaintext) <? Z.of_nat saltLen + Z.of_nat nonceSize) = false) as ->
    by (apply Z.ltb_ge; unfold saltLen, nonceSize; lia).
  cbn [fail_if result_bind].
  assert (Hn1 : substring saltLen nonceSize (salt +:+ nonce +:+ gcm_seal key nonce plaintext) = nonce).
  { rewrite <- Hs, substring_skip, <- Hn. apply substring_append_l. }
  assert (Hc1 : substring (saltLen + nonceSize) (String.length (salt +:+ nonce +:+ gcm_seal key nonce plaintext)
                  - (saltLen + nonceSize)) (salt +:+ nonce +:+ gcm_seal key nonce plaintext) = gcm_seal key nonce plaintext).
  { rewrite <- append_assoc. replace (saltLen + nonceSize)%nat with (String.length (salt +:+ nonce))
      by (rewrite append_length; lia).
    rewrite substring_skip, (append_length (salt +:+ nonce)).
    replace (_ + _ - _)%nat with (String.length (gcm_seal key nonce plaintext)) by lia. apply substring_all. }
  rewrite Hn1, Hc1, gcm_open_seal by done. done.
Qed.

(** ** The agent's verdict *)

(** tar stores a directory it is given as its first member, and the agent
    refuses to create a directory that is itself the base of a rule: behind
    the agent an archive of our own is refused at its first member. *)
Lemma own_archive_not_restored `{YAML} {S} ar encrypted rest key (w : world) (s : S) :
  behind_agent w ->
  stageArchive "/etc/lankeeper" ar encrypted = Ok (mkStaged "/etc/lankeeper" true "" :: rest, key) ->
  is_ok (outcome (restoreArchive "/etc/lankeeper" ar encrypted) w s) = false
  /\ Forall (fun c => c = CMkdirAll "/etc/lankeeper" restoreDirMode)
       (calls_of (restoreArchive "/etc/lankeeper" ar encrypted) w s).
Proof.
  intros Hw Hs. unfold outcome, calls_of, restoreArchive. rewrite Hs.
  destruct (validateStagedConfig _ _); [|by split; [|constructor]]. cbn [for_try]. unfold try_bind, mbind, svc_bind.
  set (m := mkStaged _ _ _). destruct (installMember_run m w [] s) as (r & -> & Hr).
  assert (is_ok r = false) as Hf by (rewrite Hr; apply Hw; vm_compute; reflexivity).
  destruct r; [done|]. split; [done|]. by repeat constructor.
Qed.

(** A failed tar leaves what it wrote of the plaintext archive in place: the
    removal is arranged only after it succeeded. *)
Lemma failed_tar_leaves_archive `{AEAD} {S} scrypt untar tar_gz configDir dataDir stamp keyFile salt nonce out pass
    (w : world) (s : S) :
  (forall h args, is_ok (w h (CRun "tar" args "")) = false) ->
  Forall (fun c => match c with CRun name _ _ => name <> "rm" | _ => True end)
    (calls_of (exportEncrypted scrypt untar tar_gz configDir dataDir stamp keyFile salt nonce out pass) w s).
Proof.
  intros Htar. unfold calls_of, exportEncrypted. unfold try_bind at 1.
  erewrite bind_run by reflexivity. destruct (w [] _); cbn [wrap_err]; [|by repeat constructor].
  assert (Hb : keeps (fun c => match c with CRun name _ _ => name <> "rm" | _ => True end) (eq s)
                 (buildExportArgs (stagedArchive dataDir stamp) configDir backupExtraDirs)).
  { unfold buildExportArgs. walk. generalize backupExtraDirs as ds. induction ds as [|d ds IH]; cbn [extra_sources]; walk; done. }
  set (h0 := [CLocal _ _]). destruct (Hb w h0 s eq_refl) as [Hs (t & Ht & Hf)].
  destruct (buildExportArgs (stagedArchive dataDir stamp) configDir backupExtraDirs w h0 s) as [[args s1] h1] eqn:Eb.
  cbn in Hs, Ht. subst s1 h1. cbv zeta. erewrite bind_run by exact Eb. unfold try_bind at 1.
  rewrite (bind_run _ _ w (h0 ++ t) s (wrap_err "create backup: %w" [] (w (h0 ++ t) (CRun "tar" args ""))) s
             ((h0 ++ t) ++ [CRun "tar" args ""])) by reflexivity.
  specialize (Htar (h0 ++ t) args). destruct (w (h0 ++ t) (CRun "tar" args "")); [done|].
  change (Forall (fun c => match c with CRun name _ _ => name <> "rm" | _ => True end) ((h0 ++ t) ++ [CRun "tar" args ""])).
  rewrite !Forall_app. split; [split; [by repeat constructor|done]|]. by repeat constructor.
Qed.

(** ** Properties *)

(** The bytes an import works on: what opening the upload gave, after a
    passphrase's decryption of the upload was written over it. *)
Definition upload `{AEAD} (scrypt : string -> string -> result string) (archivePath passphrase : string) (w : world) (reads : list call) (bytes : string) : Prop :=
  let open_ := CLocal "os.Open" [archivePath] in
  if String.eqb passphrase "" then reads = [open_] /\ w [] open_ = Ok bytes
  else exists file plain, let read := CLocal "os.ReadFile" [archivePath] in let write := CLocal "os.WriteFile" [archivePath; plain; "0600"] in
         reads = [read; write; open_] /\ w [] read = Ok file /\ decryptBackup scrypt file passphrase = Ok plain
         /\ is_ok (w [read] write) = true /\ w [read; write] open_ = Ok bytes.


Section Roundtrip.
Context `{AEAD} `{YAML}.
Variable scrypt : string -> string -> result string.
Variable untar : string -> result archive.
Variable tar_gz : list member -> result string.

Lemma copyTarEntries_all xs : copyTarEntries (List.map so_member xs) None = Ok (List.map so_member xs).
Proof.
  induction xs as [|x xs IH]; [done|]. cbn [List.map copyTarEntries].
  assert (mb_err (so_member x) = None) as -> by (unfold so_member; by destruct (so_isDir x)). by rewrite IH.
Qed.

(** An archive of restorable members and the key is staged as what it holds. *)
Lemma stageArchive_own configDir xs key :
  Forall (restorable (restoreRoots configDir backupExtraDirs)) xs ->
  Z.of_nat (length xs) + 1 <= maxImportEntries -> bytes_in (List.map so_staged xs) <= maxImportTotalBytes ->
  len key <= maxArchivedKeyBytes ->
  stageArchive configDir (mkArchive (List.map so_member xs ++ [key_member key]) None) true
  = Ok (List.map so_staged xs, Some key).
Proof.
  intros Hxs Hn Hb Hk. unfold stageArchive. cbn [ar_members ar_end].
  rewrite stage_sources; [|done|done|cbn; lia|cbn; lia]. cbn [stage_loop app].
  assert (String.eqb (Clean (mb_name (key_member key))) archiveKeyMember = true) as -> by (vm_compute; reflexivity).
  unfold readArchivedKey, countEntry, fail_if. cbn [bu_entries bu_maxEntries newImportBudget].
  destruct (Z.ltb_spec maxImportEntries (0 + Z.of_nat (length xs) + 1)); [lia|]. cbn [negb key_member mb_type].
  unfold read_limited, key_member. cbn [mb_data mb_err].
  destruct (Z.leb_spec (maxArchivedKeyBytes + 1) (len key)); [lia|]. cbn [wrap_err].
  destruct (Z.ltb_spec maxArchivedKeyBytes (len key)); [lia|reflexivity].
Qed.

(** Calls carried out in order up to the first that the machine refuses, and
    whether it refused none. *)
Fixpoint attempt (w : world) (h : list call) (cs : list call) : list call * bool :=
  match cs with
  | [] => ([], true)
  | c :: cs => if is_ok (w h c) then let '(l, ok) := attempt w (h ++ [c]) cs in (c :: l, ok) else ([c], false)
  end.

Lemma attempt_all w h cs : (forall h c, In c cs -> is_ok (w h c) = true) -> attempt w h cs = (cs, true).
Proof.
  revert h. induction cs as [|c cs IH]; intros h Hw; [done|]. cbn [attempt]. rewrite Hw by (by left).
  by rewrite IH by (intros; apply Hw; by right).
Qed.

Lemma attempt_app w h cs cs' : attempt w h (cs ++ cs')
  = let '(l, ok) := attempt w h cs in if ok then let '(l', ok') := attempt w (h ++ l) cs' in (l ++ l', ok') else (l, false).
Proof.
  revert h. induction cs as [|c cs IH]; intros h; cbn [attempt app]; [rewrite app_nil_r; by destruct (attempt w h cs')|].
  destruct (is_ok (w h c)); [|done]. rewrite IH. destruct (attempt w (h ++ [c]) cs) as [l ok]. destruct ok; [|done].
  rewrite <- app_assoc. cbn [app]. by destruct (attempt w _ cs').
Qed.

Lemma install_attempt {S} (l : list stagedMember) (w : world) h (s : S) :
  exists r, for_try l installMember w h s = (r, s, h ++ fst (attempt w h (List.map install_call l)))
    /\ is_ok r = snd (attempt w h (List.map install_call l)).
Proof.
  revert h. induction l as [|m l IH]; intros h; cbn [for_try List.map attempt]; [exists (Ok tt); by rewrite app_nil_r|].
  unfold try_bind. destruct (installMember_run m w h s) as (r & Hr & Hok). rewrite (bind_run _ _ _ _ _ _ _ _ Hr), <- Hok. destruct r as [u|e]; cbn [is_ok].
  - destruct (IH (h ++ [install_call m])) as (r & -> & Hr'). exists r. destruct (attempt w (h ++ [install_call m]) _) as [k ok]. cbn [fst snd] in *.
    by rewrite <- app_assoc.
  - by exists (Err e).
Qed.

(** C10: An encrypted export restores as far as the machine lets it.  Take any
    files and directories below the managed directories, stored the way tar
    stores them, within the import's limits (ten thousand members, ten
    mebibytes a file, 256 mebibytes in all) and without two dots in a row in a
    name, a valid router.yaml among them or none, and any credential key.
    Exporting them under a passphrase gives a file that decrypts to the
    archive with the key added.  Importing that file with the same passphrase,
    on whatever machine that can read and rewrite the upload, carries out
    exactly these calls up to the first one refused: every directory created
    and every file written to the path it was taken from with its content, in
    order, and the key restored last; it succeeds exactly when none is
    refused, and carries out all of them when the machine accepts them. *)
Theorem export_import_roundtrip {S} configDir xs key packed plain salt nonce passphrase archivePath (w : world) (s : S) file
    (Hpass : passphrase <> "")
    (Hsalt : String.length salt = saltLen) (Hnonce : String.length nonce = nonceSize)
    (Hxs : Forall (restorable (restoreRoots configDir backupExtraDirs)) xs)
    (Hn : Z.of_nat (length xs) + 1 <= maxImportEntries)
    (Hb : bytes_in (List.map so_staged xs) <= maxImportTotalBytes) (Hk : len key <= maxArchivedKeyBytes)
    (Hpacked : untar packed = Ok (mkArchive (List.map so_member xs) None))
    (Hplain : tar_gz (List.map so_member xs ++ [key_member key]) = Ok plain)
    (Hunplain : untar plain = Ok (mkArchive (List.map so_member xs ++ [key_member key]) None))
    (Hvalid : validateStagedConfig configDir (List.map so_staged xs) = Ok tt)
    (Hfile : encryptBackup scrypt (Ok salt) (Ok nonce) plain passphrase = Ok file)
    (Hread : w [] (CLocal "os.ReadFile" [archivePath]) = Ok file)
    (Hwrite : is_ok (w [CLocal "os.ReadFile" [archivePath]] (CLocal "os.WriteFile" [archivePath; plain; "0600"])) = true)
    (Hopen : w [CLocal "os.ReadFile" [archivePath]; CLocal "os.WriteFile" [archivePath; plain; "0600"]] (CLocal "os.Open" [archivePath]) = Ok plain) :
  let reads := [CLocal "os.ReadFile" [archivePath]; CLocal "os.WriteFile" [archivePath; plain; "0600"]; CLocal "os.Open" [archivePath]] in
  let restores := List.map (fun x => if so_isDir x then CMkdirAll (so_path x) restoreDirMode
                                     else CWriteFile (so_path x) (so_data x) restoreFileMode) xs
                  ++ [CLocal "config.RestoreConfigKey" [key]] in
  appendConfigKey untar tar_gz (ReadOk key) packed = Ok plain
  /\ decryptBackup scrypt file passphrase = Ok plain
  /\ calls_of (Import scrypt untar configDir archivePath passphrase) w s = reads ++ fst (attempt w reads restores)
  /\ is_ok (outcome (Import scrypt untar configDir archivePath passphrase) w s) = snd (attempt w reads restores)
  /\ ((forall h c, In c restores -> is_ok (w h c) = true) ->
      is_ok (outcome (Import scrypt untar configDir archivePath passphrase) w s) = true
      /\ calls_of (Import scrypt untar configDir archivePath passphrase) w s = reads ++ restores).
Proof.
  pose proof (decrypt_encrypt scrypt salt nonce plain passphrase file Hsalt Hnonce Hfile) as Hd. cbv zeta.
  set (reads := [_; _; _]). set (restores := _ ++ [_]).
  split. { unfold appendConfigKey. rewrite Hpacked. cbn [wrap_err result_bind ar_members ar_end].
    by rewrite copyTarEntries_all. }
  split; [done|].
  assert (Hrun : Import scrypt untar configDir archivePath passphrase w [] s
    = restoreArchive configDir (mkArchive (List.map so_member xs ++ [key_member key]) None) true w reads s).
  { unfold Import, decryptArchiveInPlace, wrapping, LocalCall, perform, try_bind, mbind, svc_bind.
    apply String.eqb_neq in Hpass. rewrite Hpass, Hread. cbn [wrap_err mret svc_ret]. rewrite Hd. cbn [wrap_err app].
    destruct (w _ (CLocal "os.WriteFile" _)) as [u|e]; [|done]. cbn [wrap_err mret svc_ret discard]. cbn [app]. rewrite Hopen.
    cbn [wrap_err mret svc_ret]. rewrite Hunplain. reflexivity. }
  assert (Hcalls : calls_of (Import scrypt untar configDir archivePath passphrase) w s = reads ++ fst (attempt w reads restores)
    /\ is_ok (outcome (Import scrypt untar configDir archivePath passphrase) w s) = snd (attempt w reads restores)).
  { unfold outcome, calls_of. rewrite Hrun. unfold restoreArchive. rewrite stageArchive_own, Hvalid by done. unfold try_bind.
    destruct (install_attempt (List.map so_staged xs) w reads s) as (r & Hr & Hok).
    assert (Hmap : List.map install_call (List.map so_staged xs) = List.map (fun x => if so_isDir x then CMkdirAll (so_path x) restoreDirMode
                                     else CWriteFile (so_path x) (so_data x) restoreFileMode) xs).
    { rewrite List.map_map. apply List.map_ext. intros x. unfold install_call, so_staged. cbn. by destruct (so_isDir x). }
    rewrite (bind_run _ _ _ _ _ _ _ _ Hr). rewrite Hmap in *. unfold restores. rewrite attempt_app.
    destruct (attempt w reads _) as [l ok]. cbn [fst snd] in *. subst ok. destruct r as [u|e]; cbn [is_ok]; [|done].
    cbn [installArchivedKey attempt]. unfold wrapping, LocalCall, perform, mbind, svc_bind. cbn [mret svc_ret fst snd].
    destruct (w (reads ++ l) _); cbn [is_ok fst snd]; by rewrite <- ?app_assoc. }
  destruct Hcalls as [Hc Ho]. split; [done|]. split; [done|]. intros Hall. by rewrite Hc, Ho, attempt_all.
Qed.

End Roundtrip.

(** ** Samples *)

Definition sample_sources : list source :=
  [mkSource ["etc"; "lankeeper"] [] true ""; mkSource ["etc"; "openvpn"] ["pki"; "ca.crt"] false "CERT"].
Definition sample_scrypt : string -> string -> result string := fun _ _ => Ok "0123456789abcdef0123456789abcdef".
Definition sample_untar (s : string) : result archive :=
  if String.eqb s "packed" then Ok (mkArchive (List.map so_member sample_sources) None)
  else if String.eqb s "plain" then Ok (mkArchive (List.map so_member sample_sources ++ [key_member "KEY"]) None)
  else Err (Errorf "not an archive" []).
Definition sample_file : string :=
  match encryptBackup (H := tag_aead) sample_scrypt (Ok "saltsaltsaltsalt") (Ok "noncenonce12") "plain" "pass" with
  | Ok f => f | Err _ => "" end.
Definition sample_world : world := fun _ c =>
  match c with CLocal "os.ReadFile" _ => Ok sample_file | CLocal "os.Open" _ => Ok "plain" | _ => Ok "" end.

Lemma sample_restorable : Forall (restorable (restoreRoots "/etc/lankeeper" backupExtraDirs)) sample_sources.
Proof. repeat constructor; vm_compute; done. Qed.

Lemma export_import_roundtrip_witness :
  let imported := Import (H := tag_aead) (H0 := sample_yaml) sample_scrypt sample_untar "/etc/lankeeper" "/tmp/up" "pass" in
  is_ok (outcome imported sample_world tt) = true
  /\ calls_of imported sample_world tt
     = [CLocal "os.ReadFile" ["/tmp/up"]; CLocal "os.WriteFile" ["/tmp/up"; "plain"; "0600"]; CLocal "os.Open" ["/tmp/up"];
        CMkdirAll "/etc/lankeeper" restoreDirMode; CWriteFile "/etc/openvpn/pki/ca.crt" "CERT" restoreFileMode;
        CLocal "config.RestoreConfigKey" ["KEY"]].
Proof.
  cbv zeta.
  refine (proj2 (proj2 (proj2 (proj2 (export_import_roundtrip (H := tag_aead) (H0 := sample_yaml) sample_scrypt sample_untar
    (fun _ => Ok "plain") "/etc/lankeeper" sample_sources "KEY" "packed" "plain" "saltsaltsaltsalt" "noncenonce12" "pass"
    "/tmp/up" sample_world tt sample_file _ _ _ sample_restorable _ _ _ _ _ _ _ _ _ _ _)))) _);
    try first [discriminate | reflexivity | vm_compute; discriminate].
  intros h c Hc. repeat (destruct Hc as [<-|Hc]; [reflexivity|]). destruct Hc.
Defined.

(** A name with two dots in a row is exported but makes the whole archive
    unrestorable. *)
Example two_dots_refused :
  let m := mkMember "lankeeper/notes..txt" TypeReg "x" None in
  stageArchive "/etc/lankeeper" (mkArchive [m] None) true = Err (Errorf "unsafe tar member rejected: %s" ["lankeeper/notes..txt"]).
Proof. vm_compute. reflexivity. Qed.
