(* ===== verification/BackupRuns.v ===== *)
(** * internal/services/backup_orchestration.go, backup_local.go and
      internal/web/handlers/backup.go

    A backup run: the encrypted export, the upload to every target with its
    retention, and the history.  The S3 and SFTP transports are calls of the
    process; what a directory listing gives and the readings of the clock are
    arguments. *)

From stdpp Require Import sorting.
From S2P Require Import Prelude GoStrings GoPath ConfigTypes Secrets Config Schedule AgentRules FirewallRender Sys Respond Routing.
From S2P Require Import Openvpn Backup.

Local Open Scope Z_scope.
Local Open Scope go_scope.
Local Open Scope sys_scope.

(** ** The local target *)

Definition LocalBackupRoot : string := "/var/lib/lankeeper/backups/".

Definition validateLocalPath (spec : string) : result string :=
  if String.eqb spec "" then Ok (TrimSuffix LocalBackupRoot "/")
  else
    let clean := Clean spec in
    if negb (IsAbs clean) then Err (Errorf "local target path must be absolute, got %q" [spec])
    else
      let withSlash := if HasSuffix clean "/" then clean else clean +:+ "/" in
      if negb (HasPrefix withSlash LocalBackupRoot)
      then Err (Errorf "local target path must live under %s" [LocalBackupRoot])
      else Ok clean.

(** The copy goes to a temporary name that is renamed into place. *)
Definition uploadLocal {S} (srcPath : string) (t : BackupTarget) : svc S (result string) :=
  match validateLocalPath (BackupTarget_Path t) with
  | Err e => mret (Err e)
  | Ok dir =>
      try! _ := wrapping "mkdir %s: %w" [dir] (LocalCall "os.MkdirAll" [dir; "0750"]) in
      let final := Join [dir; Base srcPath] in
      let tmp := final +:+ ".tmp" in
      try! _ := wrapping "open src: %w" [] (LocalCall "os.Open" [srcPath]) in
      try! _ := wrapping "create tmp: %w" [] (LocalCall "os.OpenFile" [tmp; "0600"]) in
      let step (what format : string) (next : svc S (result string)) : svc S (result string) :=
        r ← LocalCall what [tmp];
        match r with
        | Ok _ => next
        | Err e =>
            (if String.eqb what "dst.Close" then mret tt else LocalCall "dst.Close" [tmp] ;; mret tt) ;;
            LocalCall "os.Remove" [tmp] ;;
            mret (Err (Errorw format [] e))
        end in
      step "io.Copy" "copy to tmp: %w" (
      step "dst.Sync" "fsync tmp: %w" (
      step "dst.Close" "close tmp: %w" (
        r ← LocalCall "os.Rename" [tmp; final];
        match r with
        | Ok _ => mret (Ok final)
        | Err e => LocalCall "os.Remove" [tmp] ;; mret (Err (Errorw "rename: %w" [] e))
        end)))
  end.

(** One entry of [os.ReadDir]: [Info] may fail. *)
Record dirent : Type := mkDirent { di_name : string; di_isDir : bool; di_mtime : option Z }.
Inductive dir_listing : Type := DirMissing | DirErr (e : error) | DirList (entries : list dirent).

Record localBackup : Type := mkLocalBackup { lb_path : string; lb_mtime : Z }.

Definition listed (dir : string) (e : dirent) : option localBackup :=
  if di_isDir e || negb (HasPrefix (di_name e) "lankeeper-backup-") || HasSuffix (di_name e) ".tmp" then None
  else mkLocalBackup (Join [dir; di_name e]) <$> di_mtime e.

Definition listLocalBackups (ReadDir : string -> dir_listing) (dir : string) : result (list localBackup) :=
  match ReadDir dir with
  | DirMissing => Ok []
  | DirErr e => Err (Errorw "readdir: %w" [] e)
  | DirList entries => Ok (omap (listed dir) entries)
  end.

Section Runs.
(** The listing of a directory, and [sort.Slice] newest first. *)
Variable ReadDir : string -> dir_listing.
Variable newestFirst : list localBackup -> list localBackup.

Fixpoint remove_files {S} (files : list localBackup) (deleted : list string) : svc S (list string * result unit) :=
  match files with
  | [] => mret (deleted, Ok tt)
  | f :: files =>
      r ← LocalCall "os.Remove" [lb_path f];
      match r with
      | Err e => mret (deleted, Err (Errorw "remove %s: %w" [lb_path f] e))
      | Ok _ => remove_files files (deleted ++ [lb_path f])
      end
  end.

Definition cleanupLocal {S} (t : BackupTarget) (keep : Z) : svc S (list string * result unit) :=
  if keep <? 1 then mret ([], Err (Errorf "retention must be >= 1" []))
  else match validateLocalPath (BackupTarget_Path t) with
  | Err e => mret ([], Err e)
  | Ok dir =>
      match listLocalBackups ReadDir dir with
      | Err e => mret ([], Err e)
      | Ok files => remove_files (drop (Z.to_nat keep) (newestFirst files)) []
      end
  end.

(** ** The orchestrator *)

Definition ErrBackupTargetExists : error := Errorf "a backup target with this name already exists" [].
Definition ErrBackupTargetNotFound : error := Errorf "backup target not found" [].
Definition MaxBackupHistory : nat := 50.

Definition with_backup (f : BackupConfig -> BackupConfig) (cfg : Config) : Config :=
  set_Config_Backup (f (Config_Backup cfg)) cfg.

Definition Settings : svc Config BackupConfig := cfg ← get; mret (Config_Backup cfg).

Definition save : svc Config (result unit) := cfg ← get; SaveToFile cfg.

Definition SaveSchedule (enabled : bool) (schedule : string) (retention : Z) (passphrase : string) : svc Config (result unit) :=
  cfg ← get;
  put (with_backup (fun b =>
    let b := set_BackupConfig_Retention retention (set_BackupConfig_Schedule schedule (set_BackupConfig_Enabled enabled b)) in
    if String.eqb passphrase "" then b else set_BackupConfig_Passphrase passphrase b) cfg) ;;
  save.

Definition AddTarget (target : BackupTarget) : svc Config (result unit) :=
  cfg ← get;
  if existsb (fun t => String.eqb (BackupTarget_Name t) (BackupTarget_Name target)) (BackupConfig_Targets (Config_Backup cfg))
  then mret (Err (Errorw "%w: %s" [BackupTarget_Name target] ErrBackupTargetExists))
  else
    put (with_backup (fun b => set_BackupConfig_Targets (BackupConfig_Targets b ++ [target]) b) cfg) ;;
    save.

Fixpoint delete_named (name : string) (ts : list BackupTarget) : option (list BackupTarget) :=
  match ts with
  | [] => None
  | t :: ts => if String.eqb (BackupTarget_Name t) name then Some ts else cons t <$> delete_named name ts
  end.

Definition RemoveTarget (name : string) : svc Config (result unit) :=
  cfg ← get;
  match delete_named name (BackupConfig_Targets (Config_Backup cfg)) with
  | None => mret (Err (Errorw "%w: %s" [name] ErrBackupTargetNotFound))
  | Some ts => put (with_backup (set_BackupConfig_Targets ts) cfg) ;; save
  end.

Definition retentionOrDefault (retention : Z) : Z := if retention <? 1 then 7 else retention.

Definition runStatus (succeeded failed : nat) : string :=
  if (succeeded =? 0)%nat then "error" else if (0 <? failed)%nat then "partial" else "ok".

(** Whether an error crossed the agent, and the text of one that did not. *)
Variable from_agent : error -> bool.
Variable text_of : error -> string.

Definition historyMessage (e : error) : string :=
  if from_agent e then "privileged command failed, see the system journal" else text_of e.

(** The run's entry at the end of the history, of which the last fifty are
    kept, and the fields that describe the last run. *)
Definition record_entry (entry : BackupHistory) (b : BackupConfig) : BackupConfig :=
  let hist := BackupConfig_History b ++ [entry] in
  let hist := if (MaxBackupHistory <? length hist)%nat then drop (length hist - MaxBackupHistory) hist else hist in
  set_BackupConfig_LastError (BackupHistory_Message entry)
    (set_BackupConfig_LastStatus (BackupHistory_Status entry)
      (set_BackupConfig_LastRun (BackupHistory_StartedAt entry)
        (set_BackupConfig_History hist b))).

Definition recordHistory (entry : BackupHistory) : svc Config unit :=
  cfg ← get;
  put (with_backup (record_entry entry) cfg) ;;
  save ;;
  mret tt.

Definition uploadOne (src : string) (t : BackupTarget) (keep : Z) : svc Config (result unit) :=
  let remote up down : svc Config (result unit) :=
    try! _ := LocalCall up [src; BackupTarget_Name t] in
    LocalCall down [BackupTarget_Name t; itoa keep] ;;
    mret (Ok tt) in
  if String.eqb (BackupTarget_Type t) "local" then
    try! _ := uploadLocal src t in
    cleanupLocal t keep ;;
    mret (Ok tt)
  else if String.eqb (BackupTarget_Type t) "s3" then remote "uploadS3" "cleanupS3"
  else if String.eqb (BackupTarget_Type t) "sftp" then remote "uploadSFTP" "cleanupSFTP"
  else mret (Err (Errorf "unknown target type %q" [BackupTarget_Type t])).

Fixpoint uploadAll (src : string) (targets : list BackupTarget) (keep : Z) : svc Config (list string * list string) :=
  match targets with
  | [] => mret ([], [])
  | t :: ts =>
      r ← uploadOne src t keep;
      '(ok, bad) ← uploadAll src ts keep;
      mret (match r with
            | Err e => (ok, (BackupTarget_Name t +:+ ": " +:+ historyMessage e) :: bad)
            | Ok _ => (BackupTarget_Name t :: ok, bad)
            end)
  end.

(** The clock of a run. *)
Record run_clock : Type := mkRunClock { rc_started : Z; rc_completed : Z; rc_stamp : string }.

Definition failRun (c : run_clock) (e : error) : svc Config (result unit) :=
  recordHistory (mkBackupHistory (rc_started c) (rc_completed c) 0 [] "error" (historyMessage e)) ;;
  mret (Err e).

(** [Export] of [Backup], as one program. *)
Variable export : string -> string -> svc Config (result unit).
(** [os.TempDir]. *)
Variable TempDir : string.

Definition archive_name (c : run_clock) : string := Join [TempDir; "lankeeper-backup-" +:+ rc_stamp c +:+ ".tar.gz.enc"].

(** The part of a run behind the deferred removal of the archive; the answer
    to [os.Stat] is the size in decimal. *)
Definition run_export (c : run_clock) (bcfg : BackupConfig) : svc Config (result unit) :=
  let tmpPath := archive_name c in
  r ← export tmpPath (BackupConfig_Passphrase bcfg);
  match r with
  | Err e => failRun c (Errorw "export: %w" [] e)
  | Ok _ =>
      info ← LocalCall "os.Stat" [tmpPath];
      match info with
      | Err e => failRun c (Errorw "stat archive: %w" [] e)
      | Ok size =>
          '(ok, bad) ← uploadAll tmpPath (BackupConfig_Targets bcfg) (retentionOrDefault (BackupConfig_Retention bcfg));
          let status := runStatus (length ok) (length bad) in
          let message := join "; " bad in
          recordHistory (mkBackupHistory (rc_started c) (rc_completed c) (Atoi_value size) ok status message) ;;
          mret (if String.eqb status "error" then Err (Errorf "all targets failed: %s" [message]) else Ok tt)
      end
  end.

Definition runOnce (c : run_clock) : svc Config (result unit) :=
  bcfg ← Settings;
  if String.eqb (BackupConfig_Passphrase bcfg) "" then failRun c (Errorf "backup passphrase not configured" [])
  else if (length (BackupConfig_Targets bcfg) =? 0)%nat then failRun c (Errorf "no backup targets configured" [])
  else
    r ← run_export c bcfg;
    LocalCall "os.Remove" [archive_name c] ;;
    mret r.

(** ** The handlers *)

(** The zone of the machine, for a schedule parsed without one. *)
Variable local : GoTime.location.

Definition parsed (schedule : string) : Schedule.outcome (result unit) :=
  match ParseSchedule local schedule None with
  | Panics why => Panics why
  | Returns r => Returns (discard r)
  end.

(** A panic ends the connection without an answer, here the status 0. *)
Definition HandleSaveSchedule (r : hreq) : svc Config hresp :=
  let f := hq_form r in
  if negb (is_ok (hq_parse r)) then mret (clientError StatusBadRequest "error.badForm")
  else
    let enabled := String.eqb (f "enabled") "on" || String.eqb (f "enabled") "true" in
    let schedule := TrimSpace (f "schedule") in
    let retention := Atoi_value (f "retention") in
    let retention := if retention <? 1 then 7 else retention in
    let passphrase := f "passphrase" in
    if negb (String.eqb passphrase "") && negb (is_ok (ValidateBackupPassphrase passphrase))
    then mret (clientError StatusBadRequest "error.passphraseTooShort")
    else match (if String.eqb schedule "" then Returns (Ok tt) else parsed schedule) with
    | Panics _ => mret (HStatus 0)
    | Returns (Err e) => mret (clientErrorf StatusBadRequest "error.invalidSchedule" (text_of e))
    | Returns (Ok _) =>
        a ← SaveSchedule enabled schedule retention passphrase;
        mret (match a with Ok _ => respondRefresh r "/backup" | Err e => serverError "error.saveFailed" e end)
    end.

(** The target of the form, when its type is known. *)
Definition form_target (f : string -> string) (name : string) : option BackupTarget :=
  let t k := TrimSpace (f k) in
  if String.eqb (f "type") "local" then
    Some (mkBackupTarget "local" name (t "path") "" "" "" "" "" "" false "" 0 "" "" "" "" "")
  else if String.eqb (f "type") "s3" then
    Some (mkBackupTarget "s3" name "" (t "endpoint") (t "region") (t "bucket") (t "prefix") (t "accessKeyId")
            (f "secretAccessKey") (String.eqb (f "usePathStyle") "on") "" 0 "" "" "" "" "")
  else if String.eqb (f "type") "sftp" then
    Some (mkBackupTarget "sftp" name "" "" "" "" "" "" "" false (t "host") (Atoi_value (f "port")) (t "user")
            (f "password") (t "keyPath") (t "remoteDir") (t "hostKeyFingerprint"))
  else None.

Definition HandleAddTarget (r : hreq) : svc Config hresp :=
  if negb (is_ok (hq_parse r)) then mret (clientError StatusBadRequest "error.badForm")
  else
    let name := TrimSpace (hq_form r "name") in
    if String.eqb name "" then mret (clientError StatusBadRequest "error.nameRequired")
    else match form_target (hq_form r) name with
    | None => mret (clientError StatusBadRequest "error.invalidType")
    | Some target =>
        a ← AddTarget target;
        mret (match a with
              | Ok _ => respondRefresh r "/backup"
              | Err e => if errors_Is e ErrBackupTargetExists then clientError StatusBadRequest "error.duplicateName"
                         else serverError "error.saveFailed" e
              end)
    end.

(** [path] is the URL path of the request. *)
Definition HandleDeleteTarget (path : string) (r : hreq) : svc Config hresp :=
  let name := TrimPrefix path "/backup/target/" in
  if String.eqb name "" then mret (clientError StatusBadRequest "error.nameRequired")
  else
    a ← RemoveTarget name;
    mret (match a with
          | Ok _ => respondRefresh r "/backup"
          | Err e => if errors_Is e ErrBackupTargetNotFound then clientError 404 "error.targetNotFound"
                     else serverError "error.saveFailed" e
          end).

Definition HandleRunNow (c : run_clock) (r : hreq) : svc Config hresp :=
  a ← runOnce c;
  mret (match a with Ok _ => respondRefresh r "/backup" | Err _ => clientError StatusInternalServerError "error.backupRunFailed" end).

Definition reverseHistory (history : list BackupHistory) : list BackupHistory := reverse history.

End Runs.

(** ** Lemmas *)

Definition any_call (c : call) : Prop := True.

Lemma uploadLocal_keeps {S} (s0 : S) src t : keeps any_call (eq s0) (uploadLocal src t).
Proof. unfold uploadLocal. walk; done. Qed.

Lemma remove_files_keeps {S} P (s0 : S) files deleted :
  (forall f, In f files -> P (CLocal "os.Remove" [lb_path f])) -> keeps P (eq s0) (remove_files files deleted).
Proof.
  revert deleted. induction files as [|f files IH]; intros deleted HP; cbn [remove_files]; [apply keeps_ret|].
  apply keeps_bind; [apply keeps_LocalCall, HP; by left|]. intros [a|e]; [|apply keeps_ret].
  apply IH. intros g Hg. apply HP. by right.
Qed.

Lemma cleanupLocal_keeps {S} ReadDir sort (s0 : S) t keep : keeps any_call (eq s0) (cleanupLocal ReadDir sort t keep).
Proof. unfold cleanupLocal. walk. by apply remove_files_keeps. Qed.

Lemma uploadOne_keeps ReadDir sort (s0 : Config) src t keep : keeps any_call (eq s0) (uploadOne ReadDir sort src t keep).
Proof. unfold uploadOne. cbv zeta. walk; first [done|apply uploadLocal_keeps|apply cleanupLocal_keeps]. Qed.

(** What an upload round reports: each target once, under success or failure. *)
Definition upload_report (targets : list BackupTarget) (x : list string * list string) : Prop :=
  fst x `sublist_of` List.map BackupTarget_Name targets /\ (length (fst x) + length (snd x) = length targets)%nat.

Lemma uploadAll_report ReadDir sort from_agent text_of (s0 : Config) src targets keep :
  triple any_call (eq s0) (uploadAll ReadDir sort from_agent text_of src targets keep)
    (fun x s => s0 = s /\ upload_report targets x).
Proof.
  induction targets as [|t ts IH]; cbn [uploadAll].
  - apply triple_ret. intros s <-. split; [done|]. by split.
  - eapply triple_bind; [apply (uploadOne_keeps ReadDir sort s0 src t keep)|]. intros r.
    eapply triple_bind; [exact IH|]. intros [ok bad]. intros w h s [<- [Hs Hl]].
    split; [split; [done|]|exists []; split; [by rewrite app_nil_r|constructor]].
    cbn [mret svc_ret fst snd] in *. destruct r as [u|e]; cbn [fst snd List.map length]; (split; [|cbn; lia]).
    + by constructor.
    + by constructor.
Qed.

Lemma exportEncrypted_keeps `{AEAD} {S} scrypt untar tar_gz configDir dataDir stamp keyFile salt nonce out pass (s0 : S) :
  keeps any_call (eq s0) (exportEncrypted scrypt untar tar_gz configDir dataDir stamp keyFile salt nonce out pass).
Proof.
  assert (Hb : forall a, keeps any_call (eq s0) (buildExportArgs a configDir backupExtraDirs)).
  { intros a. unfold buildExportArgs. walk. generalize backupExtraDirs as ds.
    induction ds as [|d ds IH]; cbn [extra_sources]; walk; done. }
  unfold exportEncrypted. cbv zeta. walk; first [done|apply Hb].
Qed.

Lemma Export_keeps `{AEAD} {S} scrypt untar tar_gz configDir dataDir stamp now keyFile salt nonce out pass (s0 : S) :
  keeps any_call (eq s0) (Export scrypt untar tar_gz configDir dataDir stamp now keyFile salt nonce out pass).
Proof.
  unfold Export. cbv zeta. destruct (String.eqb pass ""); [|apply exportEncrypted_keeps].
  unfold exportPlain, buildExportArgs. walk; try done. generalize backupExtraDirs as ds.
  induction ds as [|d ds IH]; cbn [extra_sources]; walk; done.
Qed.

(** One history entry is written, then the configuration is saved. *)
Lemma recordHistory_run entry (w : world) h cfg :
  recordHistory entry w h cfg
  = (tt, with_backup (record_entry entry) cfg, h ++ [CSave (with_backup (record_entry entry) cfg)]).
Proof. reflexivity. Qed.

Lemma history_cap entry b : (length (BackupConfig_History (record_entry entry b)) <= MaxBackupHistory)%nat
  /\ (exists l, BackupConfig_History (record_entry entry b) = l ++ [entry])
  /\ BackupConfig_History (record_entry entry b) `suffix_of` BackupConfig_History b ++ [entry].
Proof.
  unfold record_entry. cbn [BackupConfig_History set_BackupConfig_LastError set_BackupConfig_LastStatus
    set_BackupConfig_LastRun set_BackupConfig_History].
  destruct (Nat.ltb_spec MaxBackupHistory (length (BackupConfig_History b ++ [entry]))) as [Hl|Hl].
  - rewrite length_drop. split; [lia|]. split.
    + rewrite length_app. cbn [length]. rewrite drop_app_le by (unfold MaxBackupHistory; lia). by eexists.
    + exists (take (length (BackupConfig_History b ++ [entry]) - MaxBackupHistory) (BackupConfig_History b ++ [entry])).
      by rewrite take_drop.
  - split; [lia|]. split; [by eexists|done].
Qed.

(** What a run leaves behind: one entry, consistent with its outcome. *)
Definition run_recorded (c : run_clock) (cfg : Config) (r : result unit) (cfg' : Config) : Prop :=
  exists entry, cfg' = with_backup (record_entry entry) cfg /\ BackupHistory_StartedAt entry = rc_started c
    /\ is_ok r = negb (String.eqb (BackupHistory_Status entry) "error")
    /\ BackupHistory_Targets entry `sublist_of` List.map BackupTarget_Name (BackupConfig_Targets (Config_Backup cfg))
    /\ (BackupHistory_Status entry = "ok" ->
        BackupHistory_Targets entry = List.map BackupTarget_Name (BackupConfig_Targets (Config_Backup cfg)))
    /\ (BackupHistory_Status entry = "partial" -> BackupHistory_Targets entry <> []).

Lemma failRun_recorded from_agent text_of c e cfg :
  triple any_call (eq cfg) (failRun from_agent text_of c e) (run_recorded c cfg).
Proof.
  intros w h s <-. unfold failRun. rewrite (bind_run _ _ _ _ _ _ _ _ (recordHistory_run _ w h cfg)).
  split; [|eexists; split; [reflexivity|by repeat constructor]]. cbn [mret svc_ret fst snd].
  eexists. split; [reflexivity|]. cbn. split; [done|]. split; [done|]. split; [apply sublist_nil_l|done].
Qed.

Lemma sublist_whole (a b : list string) : a `sublist_of` b -> length a = length b -> a = b.
Proof.
  induction 1 as [|x a b Hs IH|x a b Hs IH]; cbn [length]; intros Hl; [done|by rewrite IH by lia|].
  apply sublist_length in Hs. lia.
Qed.

Lemma runStatus_spec ok bad targets status :
  upload_report targets (ok, bad) -> status = runStatus (length ok) (length bad) ->
  (status = "ok" -> ok = List.map BackupTarget_Name targets) /\ (status = "partial" -> ok <> []).
Proof.
  intros [Hs Hl] ->. cbn [fst snd] in *. unfold runStatus. destruct ok as [|o ok]; [done|]. cbn [length Nat.eqb].
  destruct bad as [|b bad]; cbn [length Nat.ltb Nat.leb]; (split; [|done]); [|done].
  intros _. apply sublist_whole; [done|]. cbn in Hl |- *. rewrite List.length_map. lia.
Qed.

Section Recorded.
Context `{AEAD}.
Variables (ReadDir : string -> dir_listing) (newestFirst : list localBackup -> list localBackup)
  (from_agent : error -> bool) (text_of : error -> string) (scrypt : string -> string -> result string)
  (untar : string -> result archive) (tar_gz : list member -> result string) (TempDir configDir dataDir stamp now : string)
  (keyFile : read_result) (salt nonce : result string).

Let export (out pass : string) : svc Config (result unit) :=
  Export scrypt untar tar_gz configDir dataDir stamp now keyFile salt nonce out pass.
Let run (c : run_clock) : svc Config (result unit) := runOnce ReadDir newestFirst from_agent text_of export TempDir c.

Lemma run_export_recorded c cfg :
  triple any_call (eq cfg) (run_export ReadDir newestFirst from_agent text_of export TempDir c (Config_Backup cfg))
    (run_recorded c cfg).
Proof.
  unfold run_export. cbv zeta. eapply triple_bind; [apply (Export_keeps scrypt untar tar_gz configDir dataDir stamp now keyFile salt nonce _ _ cfg)|].
  intros [u|e]; [|apply failRun_recorded]. eapply triple_bind; [apply (keeps_LocalCall any_call (eq cfg)); done|].
  intros [size|e]; [|apply failRun_recorded]. eapply triple_bind; [apply uploadAll_report|].
  intros [ok bad] w h s [<- Hrep]. rewrite (bind_run _ _ _ _ _ _ _ _ (recordHistory_run _ w h cfg)).
  split; [|eexists; split; [reflexivity|by repeat constructor]]. cbn [mret svc_ret fst snd].
  destruct (runStatus_spec ok bad _ _ Hrep eq_refl) as [H1 H2].
  eexists. split; [reflexivity|]. cbn [BackupHistory_StartedAt BackupHistory_Status BackupHistory_Targets].
  split; [done|]. split; [by destruct (String.eqb _ "error")|]. split; [apply Hrep|]. by split.
Qed.

Lemma run_recorded_ok c cfg : triple any_call (eq cfg) (run c) (run_recorded c cfg).
Proof.
  unfold run, runOnce, Settings. apply (triple_bind _ _ _ _ (fun b s => cfg = s /\ b = Config_Backup cfg)).
  { apply triple_get_bind. intros s <-. apply triple_ret. by intros s <-. }
  intros b. assert (Hrun : triple any_call (eq cfg)
    (if String.eqb (BackupConfig_Passphrase (Config_Backup cfg)) ""
     then failRun from_agent text_of c (Errorf "backup passphrase not configured" [])
     else if (length (BackupConfig_Targets (Config_Backup cfg)) =? 0)%nat
     then failRun from_agent text_of c (Errorf "no backup targets configured" [])
     else r ← run_export ReadDir newestFirst from_agent text_of export TempDir c (Config_Backup cfg);
          LocalCall "os.Remove" [archive_name TempDir c] ;; mret r) (run_recorded c cfg)).
  { destruct (String.eqb _ ""); [apply failRun_recorded|]. destruct (_ =? 0)%nat; [apply failRun_recorded|].
    eapply triple_bind; [apply run_export_recorded|]. intros r.
    eapply triple_bind; [apply (triple_perform _ _ _ (fun _ => run_recorded c cfg r)); done|]. intros ?. by apply triple_ret. }
  intros w h s [<- ->]. by apply Hrun.
Qed.

(** Every backup run leaves exactly one trace.  Whatever fails, down to a
    run that is refused before any work starts, the run changes the
    configuration only by adding one entry to the history, of which the last
    fifty are kept, and by setting the fields that describe the last run; it
    saves that configuration; it reports an error exactly when the entry says
    so; and the targets recorded as reached are configured ones, in order, all
    of them when the entry says ok. *)
Theorem every_run_recorded c (w : world) (cfg : Config) :
  let cfg' := state_after (run c) w cfg in
  run_recorded c cfg (outcome (run c) w cfg) cfg'
  /\ (length (BackupConfig_History (Config_Backup cfg')) <= MaxBackupHistory)%nat
  /\ exists entry, BackupConfig_History (Config_Backup cfg') `suffix_of` BackupConfig_History (Config_Backup cfg) ++ [entry]
       /\ (exists l, BackupConfig_History (Config_Backup cfg') = l ++ [entry])
       /\ BackupConfig_LastStatus (Config_Backup cfg') = BackupHistory_Status entry
       /\ BackupConfig_LastError (Config_Backup cfg') = BackupHistory_Message entry
       /\ BackupConfig_LastRun (Config_Backup cfg') = rc_started c
       /\ BackupConfig_Targets (Config_Backup cfg') = BackupConfig_Targets (Config_Backup cfg).
Proof.
  cbv zeta. destruct (run_recorded_ok c cfg w [] cfg eq_refl) as [Hr _]. split; [exact Hr|].
  unfold state_after. destruct Hr as (entry & -> & Hst & _). change (Config_Backup (with_backup _ cfg))
    with (record_entry entry (Config_Backup cfg)).
  destruct (history_cap entry (Config_Backup cfg)) as (Hc & Hl & Hs). split; [done|]. exists entry. by repeat split.
Qed.

End Recorded.

(** ** Retention *)

Definition newer (a b : localBackup) : Prop := lb_mtime b <= lb_mtime a.
Definition newest_law (sort : list localBackup -> list localBackup) : Prop :=
  forall l, Permutation (sort l) l /\ StronglySorted newer (sort l).

Lemma remove_files_run {S} files deleted (w : world) h (s : S) :
  exists n r, (n <= length files)%nat
    /\ remove_files files deleted w h s
       = ((deleted ++ List.map lb_path (take n files), r), s,
          h ++ List.map (fun f => CLocal "os.Remove" [lb_path f]) (take (if is_ok r then n else Datatypes.S n) files))
    /\ (is_ok r = true -> n = length files).
Proof.
  revert deleted h. induction files as [|f files IH]; intros deleted h; cbn [remove_files].
  { exists 0%nat, (Ok tt). split; [done|]. split; [|done]. cbn. by rewrite !app_nil_r. }
  rewrite (bind_run (LocalCall "os.Remove" [lb_path f]) _ w h s (w h (CLocal "os.Remove" [lb_path f])) s
             (h ++ [CLocal "os.Remove" [lb_path f]])) by reflexivity.
  destruct (w h (CLocal "os.Remove" [lb_path f])) as [u|e].
  - destruct (IH (deleted ++ [lb_path f]) (h ++ [CLocal "os.Remove" [lb_path f]])) as (n & r & Hn & Hr & Hk).
    exists (Datatypes.S n), r. split; [cbn; lia|]. rewrite Hr. split; [|intros Hok; cbn; by rewrite (Hk Hok)].
    rewrite <- !app_assoc. by destruct (is_ok r).
  - eexists 0%nat, (Err _). split; [cbn; lia|]. split; [|done]. cbn. by rewrite app_nil_r.
Qed.

(** Retention removes exactly the oldest backups.  With a retention of at
    least one and a path inside the backup directory, the files are split in
    the newest ones, as many as are to be kept or all there are, and the rest,
    none of which is younger than a kept one; the clean-up removes a stretch
    of the rest and nothing else, all of it when it reports no error, and
    every file it considers is an entry of the directory that is neither a
    directory, nor a file of another name, nor an unfinished upload. *)
Theorem retention_keeps_newest {S} (ReadDir : string -> dir_listing) (sort : list localBackup -> list localBackup)
    (t : BackupTarget) (keep : Z) (dir : string) (entries : list dirent) (w : world) (s : S)
    (Hsort : newest_law sort) (Hkeep : 1 <= keep) (Hdir : validateLocalPath (BackupTarget_Path t) = Ok dir)
    (Hlist : ReadDir dir = DirList entries) :
  let files := omap (listed dir) entries in
  exists kept gone n, Permutation (kept ++ gone) files
    /\ Z.of_nat (length kept) = Z.min keep (Z.of_nat (length files))
    /\ (forall k g, In k kept -> In g gone -> lb_mtime g <= lb_mtime k)
    /\ calls_of (cleanupLocal ReadDir sort t keep) w s = List.map (fun f => CLocal "os.Remove" [lb_path f]) (take n gone)
    /\ (is_ok (snd (outcome (cleanupLocal ReadDir sort t keep) w s)) = true ->
        take n gone = gone /\ fst (outcome (cleanupLocal ReadDir sort t keep) w s) = List.map lb_path gone)
    /\ (forall f, In f files -> exists e, In e entries /\ lb_path f = Join [dir; di_name e] /\ di_isDir e = false
          /\ HasPrefix (di_name e) "lankeeper-backup-" = true /\ HasSuffix (di_name e) ".tmp" = false).
Proof.
  cbv zeta. set (files := omap (listed dir) entries). destruct (Hsort files) as [Hp Hs].
  exists (take (Z.to_nat keep) (sort files)), (drop (Z.to_nat keep) (sort files)).
  unfold calls_of, outcome, cleanupLocal, listLocalBackups. destruct (Z.ltb_spec keep 1); [lia|]. rewrite Hdir, Hlist.
  fold files. destruct (remove_files_run (drop (Z.to_nat keep) (sort files)) [] w [] s) as (n & r & Hn & -> & Hk).
  exists (if is_ok r then n else Datatypes.S n). cbn [fst snd app].
  split; [by rewrite take_drop|]. split; [rewrite length_take, <- (Permutation_length Hp); lia|].
  split. { intros k g Hin Hg. rewrite <- (take_drop (Z.to_nat keep) (sort files)) in Hs.
    clear -Hs Hin Hg. induction (take (Z.to_nat keep) (sort files)) as [|x l IH]; [done|].
    cbn [app] in Hs. apply StronglySorted_inv in Hs as [Hs Hx]. destruct Hin as [->|Hin]; [|by apply IH].
    rewrite List.Forall_forall in Hx. apply Hx, in_app_iff. by right. }
  split; [done|]. split.
  - intros Hok. rewrite Hok, (Hk Hok). by rewrite take_ge.
  - intros f Hf. unfold files in Hf. apply list_elem_of_In, list_elem_of_omap in Hf as (e & He & Hl).
    exists e. split; [by apply list_elem_of_In|]. unfold listed in Hl.
    destruct (di_isDir e) eqn:Ed; [done|]. destruct (HasPrefix (di_name e) _) eqn:Epre; [|done].
    destruct (HasSuffix (di_name e) _) eqn:Esuf; [done|]. cbn in Hl. destruct (di_mtime e); [|done]. by injection Hl as <-.
Qed.

(** ** Samples *)

#[export] Instance newer_dec a b : Decision (newer a b) := Z_le_dec _ _.
#[export] Instance newer_total : Total newer.
Proof. intros a b. unfold newer. destruct (Z.le_ge_cases (lb_mtime b) (lb_mtime a)); [by left|by right]. Qed.
#[export] Instance newer_trans : Transitive newer.
Proof. intros a b c. unfold newer. lia. Qed.

Definition merge_newest : list localBackup -> list localBackup := merge_sort newer.
Lemma merge_newest_law : newest_law merge_newest.
Proof. intros l. split; [apply merge_sort_Permutation|apply StronglySorted_merge_sort; apply _]. Qed.

Definition sample_dir : string -> dir_listing := fun _ =>
  DirList [mkDirent "lankeeper-backup-1" false (Some 1); mkDirent "notes" false (Some 0); mkDirent "lankeeper-backup-2" false (Some 2)].
Definition sample_target : BackupTarget := BackupTarget_zero.

Lemma retention_keeps_newest_witness :
  exists kept gone n, Permutation (kept ++ gone) (omap (listed "/var/lib/lankeeper/backups")
      [mkDirent "lankeeper-backup-1" false (Some 1); mkDirent "notes" false (Some 0); mkDirent "lankeeper-backup-2" false (Some 2)])
    /\ Z.of_nat (length kept) = 1
    /\ calls_of (cleanupLocal sample_dir merge_newest sample_target 1) (fun _ _ => Ok "") tt
       = List.map (fun f => CLocal "os.Remove" [lb_path f]) (take n gone).
Proof.
  destruct (retention_keeps_newest sample_dir merge_newest sample_target 1 "/var/lib/lankeeper/backups"
    [mkDirent "lankeeper-backup-1" false (Some 1); mkDirent "notes" false (Some 0); mkDirent "lankeeper-backup-2" false (Some 2)]
    (fun _ _ => Ok "") tt merge_newest_law ltac:(lia) ltac:(reflexivity) ltac:(reflexivity))
    as (kept & gone & n & Hp & Hl & _ & Hc & _).
  exists kept, gone, n. split; [exact Hp|]. split; [exact Hl|exact Hc].
Defined.
