(* ===== verification/Pppoe.v ===== *)
(** * internal/services/pppoe.go and internal/web/handlers/pppoe.go

    The PPPoE link: the credentials and the files pppd reads, connecting and
    disconnecting with the hooks other services register, the state of the
    link and the credential sniffer.  The service shares its configuration
    with the services its hooks reach, so it is written over any state that
    offers [HasPPPoE].  [unicode.IsPrint] beyond ASCII and the templates are
    parameters. *)

From S2P Require Import Prelude GoStrings GoPath Encoding ConfigTypes AgentRules FirewallRender Sys Dhcp Respond.

Local Open Scope Z_scope.
Local Open Scope go_scope.
Local Open Scope sys_scope.

(** What the service needs of the state of the process. *)
Class HasPPPoE (S : Type) : Type := {
  pp_cfg : S -> Config;
  pp_connected : S -> bool;
  pp_set_connected : bool -> S -> S;
  pp_cfg_set : forall b s, pp_cfg (pp_set_connected b s) = pp_cfg s;
  pp_connected_set : forall b s, pp_connected (pp_set_connected b s) = b }.

Record pppoe : Type := mkPppoe { po_cfg : Config; po_connected : bool }.

#[export] Instance pppoe_alone : HasPPPoE pppoe :=
  {| pp_cfg := po_cfg; pp_connected := po_connected; pp_set_connected := fun b s => mkPppoe (po_cfg s) b;
     pp_cfg_set := fun _ _ => eq_refl; pp_connected_set := fun _ _ => eq_refl |}.

(** ** Strings *)

(** [strings.Lines]: each line with its line feed. *)
Fixpoint Lines (s : string) : list string :=
  match s with
  | "" => []
  | String a r =>
      if Ascii.eqb a lf then char_str lf :: Lines r
      else match Lines r with
           | [] => [char_str a]
           | l :: ls => String a l :: ls
           end
  end.

Definition ContainsAny (s set : string) : bool := negb (all_chars (fun a => negb (char_in set a)) s).

Definition backslash : ascii := "092"%char.

Section Quote.

(** [unicode.IsPrint] on the runes beyond ASCII. *)
Variable isPrint : Z -> bool.

Definition hex_pad (digits : nat) (v : Z) : string :=
  string_of_list_ascii (List.map (fun i => hex_digit (v / 16 ^ Z.of_nat i mod 16)) (rev (seq 0 digits))).

(** One rune of [strconv.Quote]. *)
Definition quote_seg (seg : option Z * string) : string :=
  let esc a := String backslash (char_str a) in
  match fst seg with
  | None =>
      match snd seg with
      | String b _ => String backslash ("x" +:+ hex_pad 2 (byte_val b))
      | "" => ""
      end
  | Some r =>
      if r =? 34 then esc dquote
      else if r =? 92 then esc backslash
      else if (32 <=? r) && (r <? 127) then snd seg
      else if (127 <? r) && isPrint r then snd seg
      else if r =? 7 then esc "a"%char else if r =? 8 then esc "b"%char else if r =? 12 then esc "f"%char
      else if r =? 10 then esc "n"%char else if r =? 13 then esc "r"%char else if r =? 9 then esc "t"%char
      else if r =? 11 then esc "v"%char
      else if (r <? 32) || (r =? 127) then String backslash ("x" +:+ hex_pad 2 r)
      else if r <? 65536 then String backslash ("u" +:+ hex_pad 4 r)
      else String backslash ("U" +:+ hex_pad 8 r)
  end.

(** [fmt.Sprintf] with the verb q. *)
Definition Quote (s : string) : string :=
  char_str dquote +:+ String.concat "" (List.map quote_seg (runes s)) +:+ char_str dquote.

(** ** Credentials and files *)

Record peerTemplateData : Type := mkPeerData {
  pd_WANDevice : string; pd_Username : string; pd_MTU : Z; pd_MRU : Z; pd_LCPEchoInterval : Z;
  pd_LCPEchoFailure : Z; pd_Holdoff : Z; pd_IPv6CP : bool }.

Definition ErrInvalidPPPoECredentials : error := Errorf "invalid pppoe credentials" [].

Definition validatePPPoECredentials (user pass : string) : result unit :=
  if ContainsAny user (String dquote (char_str backslash)) || ContainsFunc user IsControl
  then Err (Errorw "%w: username" [] ErrInvalidPPPoECredentials)
  else if ContainsFunc pass IsControl then Err (Errorw "%w: password" [] ErrInvalidPPPoECredentials)
  else Ok tt.

(** [cmp.Or] of a setting and its default. *)
Definition cmp_Or (a b : Z) : Z := if a =? 0 then b else a.

Definition peerData (cfg : Config) (wanDevice : string) : peerTemplateData :=
  let p := Config_PPPoE cfg in
  mkPeerData wanDevice (PPPoEConfig_Username p) (cmp_Or (PPPoEConfig_MTU p) 1492) (cmp_Or (PPPoEConfig_MRU p) 1492)
    (cmp_Or (PPPoEConfig_LCPEchoInterval p) 10) (cmp_Or (PPPoEConfig_LCPEchoFailure p) 3)
    (cmp_Or (PPPoEConfig_Holdoff p) 5) (PPPoEConfig_IPv6CP p).

(** The first IPv4 address and the first IPv6 address that is not link-local,
    as [firstPPPAddresses] collects them. *)
Definition without_length (addr : string) : string :=
  match cut_byte "/" addr with Some (a, _) => a | None => addr end.

Definition first_addr_step (acc : string * string) (addr : string) : string * string :=
  let '(ipv4, ipv6) := acc in
  if Contains addr "." && String.eqb ipv4 "" then (without_length addr, ipv6)
  else if Contains addr ":" && negb (HasPrefix addr "fe80") && String.eqb ipv6 "" then (ipv4, without_length addr)
  else (ipv4, ipv6).

Definition firstPPPAddresses (addrs : list string) : string * string := foldl first_addr_step ("", "") addrs.

(** The new content of a secrets file. *)
Definition upserted (existing prefix line : string) : string :=
  let kept := String.concat "" (List.filter (fun l => negb (HasPrefix l prefix)) (Lines existing)) in
  let kept := if negb (String.eqb kept "") && negb (HasSuffix kept (char_str lf)) then kept +:+ char_str lf else kept in
  kept +:+ line.

(** ** The service *)

(** The template engine over the peer template; [syscall.EPERM]. *)
Variable ParsePeer : string -> result (peerTemplateData -> result string).
Variable is_EPERM : error -> bool.

Section Service.
Context {S : Type} `{HasPPPoE S}.

(** The hooks of [SetOnConnect] and [SetOnDisconnect]. *)
Variables onConnect onDisconnect : option (svc S (result unit)).

Definition upsertSecret (path prefix line : string) : svc S (result unit) :=
  try! existing := wrapping "read %s: %w" [path] (ReadFile path) in
  WriteFile path (upserted existing prefix line) 384.

Definition secret_prefix (user : string) : string := Quote user +:+ " * ".
Definition secret_line (user pass : string) : string := secret_prefix user +:+ Quote pass +:+ char_str lf.

Definition writeSecrets : svc S (result unit) :=
  s ← get;
  let p := Config_PPPoE (pp_cfg s) in
  if String.eqb (PPPoEConfig_Password p) "" then mret (Ok tt)
  else
    let prefix := secret_prefix (PPPoEConfig_Username p) in
    let secretsLine := secret_line (PPPoEConfig_Username p) (PPPoEConfig_Password p) in
    try! _ := wrapping "write chap-secrets: %w" [] (upsertSecret "/etc/ppp/chap-secrets" prefix secretsLine) in
    wrapping "write pap-secrets: %w" [] (upsertSecret "/etc/ppp/pap-secrets" prefix secretsLine).

Definition renderPeerFile (data : peerTemplateData) : result string :=
  let? tmpl := wrap_err "parse peer template: %w" [] (ParsePeer "configs/sysconf/pppoe-peer.tmpl") in
  wrap_err "execute peer template: %w" [] (tmpl data).

Definition renderConfig : svc S (result unit) :=
  s ← get;
  let cfg := pp_cfg s in
  match validatePPPoECredentials (PPPoEConfig_Username (Config_PPPoE cfg)) (PPPoEConfig_Password (Config_PPPoE cfg)) with
  | Err e => mret (Err e)
  | Ok _ =>
      let wanDevice := firstRoleDevice (Config_Interfaces cfg) "wan" in
      if String.eqb wanDevice "" then mret (Err (Errorf "no WAN interface configured" []))
      else
        opt ← LocalCall "os.ReadFile" ["configs/sysconf/pppoe-options.tmpl"];
        try! _ := (match opt with
                   | Ok optSrc => wrapping "write /etc/ppp/options: %w" [] (WriteFile "/etc/ppp/options" optSrc 420)
                   | Err _ => mret (Ok tt)
                   end) in
        match renderPeerFile (peerData cfg wanDevice) with
        | Err e => mret (Err e)
        | Ok peer =>
            try! _ := wrapping "write peer file: %w" [] (WriteFile (Join ["/etc/ppp/peers"; "wan"]) peer 420) in
            writeSecrets
        end
  end.

(** A hook's error is logged. *)
Definition run_hook (hook : option (svc S (result unit))) : svc S unit :=
  match hook with Some k => k ;; mret tt | None => mret tt end.

Definition Connect : svc S (result unit) :=
  try! _ := wrapping "render pppoe config: %w" [] renderConfig in
  try! _ := wrapping "start pppd: %w" [] (Run "pppd" ["call"; "wan"]) in
  s ← get;
  put (pp_set_connected true s) ;;
  run_hook onConnect ;;
  mret (Ok tt).

Definition readPID : svc S (result Z) :=
  try! data := LocalCall "os.ReadFile" ["/var/run/ppp0.pid"] in
  match split_byte lf (TrimSpace data) with
  | [] => mret (Err (Errorf "empty pid file" []))
  | l :: _ =>
      match Atoi (TrimSpace l) with
      | None => mret (Err (Errorf "parse pid: %w" []))
      | Some pid => mret (Ok pid)
      end
  end.

Definition Disconnect : svc S (result unit) :=
  try! pid := wrapping "read pppd pid: %w" [] readPID in
  try! _ := (if 0 <? pid then wrapping "kill pppd: %w" [] (Run "kill" [itoa pid]) else mret (Ok "")) in
  s ← get;
  put (pp_set_connected false s) ;;
  run_hook onDisconnect ;;
  mret (Ok tt).

Definition processExists (pid : Z) : svc S bool :=
  if pid <=? 0 then mret false
  else r ← LocalCall "syscall.Kill" [itoa pid; "0"];
       mret match r with Ok _ => true | Err e => is_EPERM e end.

Record PPPoEStatus : Type := mkPStatus {
  ps_Connected : bool; ps_Interface : string; ps_LocalIP : string; ps_LocalIPv6 : string; ps_PID : Z }.
Definition PPPoEStatus_zero : PPPoEStatus := mkPStatus false "" "" "" 0.

(** [netutil.GetInterfaceAddresses]: the addresses, one per line of the
    answer. *)
Definition GetInterfaceAddresses (name : string) : svc S (result (list string)) :=
  try! addrs := LocalCall "net.Interface.Addrs" [name] in
  mret (Ok (if String.eqb addrs "" then [] else split_byte lf addrs)).

Definition pppoe_Status : svc S PPPoEStatus :=
  pid ← readPID;
  match pid with
  | Err _ => mret PPPoEStatus_zero
  | Ok pid =>
      if pid =? 0 then mret PPPoEStatus_zero
      else
        alive ← processExists pid;
        if negb alive then mret PPPoEStatus_zero
        else
          addrs ← GetInterfaceAddresses "ppp0";
          let '(v4, v6) := match addrs with Ok l => firstPPPAddresses l | Err _ => ("", "") end in
          s ← get;
          put (pp_set_connected true s) ;;
          mret (mkPStatus true "ppp0" v4 v6 pid)
  end.

Definition IsConnected : svc S bool := s ← get; mret (pp_connected s).

(** ** The credential sniffer *)

Definition SniffStart : svc S (result unit) :=
  s ← get;
  let wanDevice := firstRoleDevice (Config_Interfaces (pp_cfg s)) "wan" in
  if String.eqb wanDevice "" then mret (Err (Errorf "no WAN interface configured" []))
  else
    try! optSrc := wrapping "read pppoe-server-options: %w" []
                     (LocalCall "os.ReadFile" ["configs/sysconf/pppoe-server-options.tmpl"]) in
    try! _ := wrapping "write pppoe-server-options: %w" [] (WriteFile "/etc/pppoe-server-options" optSrc 420) in
    LocalCall "os.Remove" ["/var/log/pppoe-sniff.log"] ;;
    try! _ := wrapping "start pppoe-server: %w" []
                (Run "pppoe-server" ["-I"; wanDevice; "-O"; "/etc/pppoe-server-options"; "-F"]) in
    mret (Ok tt).

Definition SniffStop : svc S (result unit) := Run "pkill" ["-f"; "pppoe-server"] ;; mret (Ok tt).

Record sniffStatus : Type := mkSniff { sn_Active : bool; sn_CapturedUser : string; sn_CapturedPass : string }.

(** The value of the last part of a line that starts with the key. *)
Definition captured (key line old : string) : string :=
  foldl (fun acc part => match drop_prefix key part with Some v => Trim v (char_str dquote) | None => acc end)
    old (Fields line).

Definition sniff_line (st : sniffStatus) (line : string) : sniffStatus :=
  let user := if Contains line "user=" then captured "user=" line (sn_CapturedUser st) else sn_CapturedUser st in
  let pass := if Contains line "PAP" && Contains line "password"
              then captured "password=" line (sn_CapturedPass st) else sn_CapturedPass st in
  mkSniff (sn_Active st) user pass.

Definition SniffStatus : svc S sniffStatus :=
  r ← Run "pgrep" ["-f"; "pppoe-server"];
  let status := mkSniff (is_ok r) "" "" in
  logData ← LocalCall "os.ReadFile" ["/var/log/pppoe-sniff.log"];
  mret match logData with
       | Ok text => foldl sniff_line status (split_byte lf text)
       | Err _ => status
       end.

(** ** The handlers *)

Definition refreshed (r : hreq) (m : svc S (result unit)) : svc S hresp :=
  res ← m;
  mret match res with Ok _ => respondRefresh r "/network" | Err e => fail StatusInternalServerError e end.

Definition HandleConnect (r : hreq) : svc S hresp := refreshed r Connect.
Definition HandleDisconnect (r : hreq) : svc S hresp := refreshed r Disconnect.
Definition HandleSniffStart (r : hreq) : svc S hresp := refreshed r SniffStart.
Definition HandleSniffStop (r : hreq) : svc S hresp := refreshed r SniffStop.

End Service.
End Quote.

(** ** Lemmas: lines *)

Abbreviation nl1 := (char_str lf).

(** The entries of a file: its lines without their line feed. *)
Definition entries (text : string) : list string := List.map (fun l => TrimSuffix l nl1) (Lines text).

Lemma Lines_full b t : has_char lf b = false -> Lines (b +:+ String lf t) = (b +:+ nl1) :: Lines t.
Proof.
  induction b as [|a b IH]; cbn [has_char]; intros Hb; [by cbn [String.append Lines]; rewrite Ascii.eqb_refl|].
  apply orb_false_elim in Hb as [Ha Hb]. cbn [String.append Lines]. rewrite Ha, IH by done. done.
Qed.

Lemma Lines_last b : b <> "" -> has_char lf b = false -> Lines b = [b].
Proof.
  induction b as [|a b IH]; cbn [has_char]; intros Hne Hb; [done|]. apply orb_false_elim in Hb as [Ha Hb].
  cbn [Lines]. rewrite Ha. destruct b as [|c b]; [done|]. by rewrite IH.
Qed.

(** A text is empty, one unterminated line, or a line and the rest. *)
Lemma text_ind (P : string -> Prop) :
  P "" -> (forall b, b <> "" -> has_char lf b = false -> P b) ->
  (forall b t, has_char lf b = false -> P t -> P (b +:+ String lf t)) -> forall s, P s.
Proof.
  intros H0 H1 H2 s. remember (String.length s) as n eqn:Hn. revert s Hn.
  induction n as [n IH] using lt_wf_ind. intros s ->. destruct (cut_byte lf s) as [[b t]|] eqn:Ec.
  - apply cut_byte_Some in Ec as [-> Hb]. apply H2; [done|]. eapply IH; [|done].
    rewrite append_length. cbn [String.length]. lia.
  - destruct s as [|a s]; [done|]. apply H1; [done|].
    destruct (has_char lf (String a s)) eqn:Eh; [|done]. exfalso. clear -Ec Eh.
    revert Ec Eh. generalize (String a s) as u. intros u. induction u as [|c u IHu]; [done|].
    cbn [cut_byte has_char]. destruct (Ascii.eqb c lf); [done|].
    destruct (cut_byte lf u) as [[? ?]|]; [done|]. by intros _; apply IHu.
Qed.

Lemma HasSuffix_nl b : HasSuffix (b +:+ nl1) nl1 = true.
Proof. apply HasSuffix_true. by exists b. Qed.

Lemma HasSuffix_none b : has_char lf b = false -> HasSuffix b nl1 = false.
Proof.
  intros Hb. destruct (HasSuffix b nl1) eqn:E; [|done]. apply HasSuffix_true in E as [u ->].
  rewrite has_char_append in Hb. cbn in Hb. by rewrite orb_true_r in Hb.
Qed.

(** A prefix without a line feed does not see the end of the line. *)
Lemma HasPrefix_line b p : has_char lf p = false -> HasPrefix (b +:+ nl1) p = HasPrefix b p.
Proof.
  revert b. induction p as [|a p IH]; intros b Hp; [by destruct b|].
  cbn [has_char] in Hp. apply orb_false_elim in Hp as [Ha Hp]. unfold HasPrefix in *.
  destruct b as [|c b]; cbn [String.append drop_prefix].
  - unfold char_str at 1. cbn [drop_prefix]. by rewrite Ha.
  - destruct (Ascii.eqb a c); [by apply IH|done].
Qed.

Lemma TrimSuffix_none b : has_char lf b = false -> TrimSuffix b nl1 = b.
Proof.
  intros Hb. pose proof (HasSuffix_none b Hb) as H. unfold HasSuffix, TrimSuffix in *.
  destruct (drop_suffix nl1 b); [discriminate H|done].
Qed.

Lemma entries_full b t : has_char lf b = false -> entries (b +:+ String lf t) = b :: entries t.
Proof. intros Hb. unfold entries. rewrite Lines_full by done. cbn [List.map]. by rewrite TrimSuffix_append. Qed.

Lemma entries_last b : b <> "" -> has_char lf b = false -> entries b = [b].
Proof. intros Hn Hb. unfold entries. rewrite Lines_last by done. cbn. by rewrite TrimSuffix_none. Qed.

Lemma suffix_nl p k r : p +:+ k = r +:+ nl1 -> k <> "" -> exists k', k = k' +:+ nl1.
Proof.
  revert r. induction p as [|a p IH]; cbn [String.append]; intros r E Hk; [by exists r|].
  destruct r as [|c r]; cbn [String.append] in E; [|injection E as -> E; by apply (IH r)].
  injection E as -> E. destruct p, k; cbn in E; done.
Qed.

Lemma concat_cons_nil (x : string) l : String.concat "" (x :: l) = x +:+ String.concat "" l.
Proof. destruct l; cbn [String.concat]; [by rewrite append_empty_r|done]. Qed.

(** Whether a text ends in a line feed is decided by its last part. *)
Lemma HasSuffix_after b k : HasSuffix (b +:+ nl1 +:+ k) nl1 = String.eqb k "" || HasSuffix k nl1.
Proof.
  destruct (String.eqb_spec k "") as [->|Hk]; cbn [orb]; [rewrite append_empty_r; apply HasSuffix_nl|].
  apply eq_true_iff_eq. rewrite !HasSuffix_true. split.
  - intros [r E]. assert (Hs : exists k', k = k' +:+ nl1) by (revert E Hk; rewrite <- append_assoc; apply suffix_nl). done.
  - intros [r ->]. exists (b +:+ nl1 +:+ r). by rewrite !append_assoc.
Qed.

(** The entry added last, after every entry that does not start with the
    prefix; the text ends in a line feed. *)
Lemma upserted_entries existing prefix body :
  has_char lf prefix = false -> has_char lf body = false ->
  entries (upserted existing prefix (body +:+ nl1))
  = List.filter (fun l => negb (HasPrefix l prefix)) (entries existing) ++ [body].
Proof.
  intros Hp Hb. assert (Hl : entries (body +:+ nl1) = [body]) by (apply (entries_full body ""); done).
  unfold upserted. induction existing as [|b Hne Hnl|b t Hnl IH] using text_ind.
  - cbn [Lines List.filter String.concat]. exact Hl.
  - rewrite (entries_last b), Lines_last by done. cbn [List.filter]. destruct (HasPrefix b prefix); cbn [negb].
    + cbn [String.concat]. exact Hl.
    + cbn [String.concat]. rewrite HasSuffix_none by done. apply String.eqb_neq in Hne. rewrite Hne. cbn [negb andb].
      rewrite append_assoc. cbn [char_str String.append]. by rewrite (entries_full b), Hl.
  - rewrite (entries_full b t), Lines_full by done. cbn [List.filter]. rewrite HasPrefix_line by done.
    destruct (HasPrefix b prefix); cbn [negb]; [exact IH|].
    set (kept := List.filter _ (Lines t)) in *. rewrite concat_cons_nil, append_assoc in *.
    cbn [app]. rewrite <- IH. clear IH. rewrite <- entries_full by done. f_equal.
    rewrite HasSuffix_after. destruct (String.eqb_spec (String.concat "" kept) "") as [->|Hk]; cbn [negb andb orb].
    + rewrite !andb_false_r. by rewrite append_empty_r, append_assoc.
    + assert (b +:+ nl1 +:+ String.concat "" kept <> "") as ->%String.eqb_neq.
      { intros E. apply (f_equal String.length) in E. rewrite !append_length in E. cbn in E. lia. }
      cbn [negb andb]. destruct (HasSuffix (String.concat "" kept) nl1); cbn [negb]; by rewrite !append_assoc.
Qed.

(** ** Lemmas: quoting *)

Definition not_lf (a : ascii) : bool := negb (Ascii.eqb a lf).

Lemma hex_digit_not_lf v : not_lf (hex_digit (v mod 16)) = true.
Proof.
  assert (H : forallb (fun d => not_lf (hex_digit (Z.of_nat d))) (seq 0 16) = true) by reflexivity.
  rewrite forallb_forall in H. pose proof (Z.mod_pos_bound v 16 eq_refl).
  replace (v mod 16) with (Z.of_nat (Z.to_nat (v mod 16))) by lia. apply H, in_seq. lia.
Qed.

Lemma hex_pad_not_lf n v : all_chars not_lf (hex_pad n v) = true.
Proof.
  unfold hex_pad. generalize (rev (seq 0 n)) as l. induction l as [|i l IH]; [done|].
  cbn [List.map string_of_list_ascii all_chars]. by rewrite hex_digit_not_lf, IH.
Qed.

Section QuoteLemmas.
Variable isPrint : Z -> bool.

Lemma quote_seg_not_lf seg : all_chars not_lf (snd seg) = true -> all_chars not_lf (quote_seg isPrint seg) = true.
Proof.
  destruct seg as [[r|] b]; unfold quote_seg; cbn [fst snd]; intros Hb.
  - repeat match goal with |- context [if ?c then _ else _] => destruct c end; try done;
      cbn [String.append all_chars]; rewrite hex_pad_not_lf; done.
  - destruct b as [|c b]; [done|]. cbn [String.append all_chars]. by rewrite hex_pad_not_lf.
Qed.

(** A quoted text stays on one line. *)
Lemma Quote_one_line s : ContainsFunc s IsControl = false -> has_char lf (Quote isPrint s) = false.
Proof.
  intros Hs. apply (ContainsFunc_ascii _ lf) in Hs; [|reflexivity..].
  apply has_char_all in Hs. rewrite <- (bytes_of_runes s) in Hs. unfold bytes_of in Hs.
  rewrite all_chars_concat in Hs. unfold Quote.
  apply (all_chars_not_has not_lf); [reflexivity|]. rewrite !all_chars_append, all_chars_concat. cbn [char_str all_chars].
  rewrite andb_true_r. cbn [not_lf andb]. change (not_lf dquote) with true. cbn [andb]. rewrite andb_true_r.
  revert Hs. induction (runes s) as [|seg l IH]; cbn [fmap list_fmap List.map forallb]; [done|].
  intros H. apply andb_prop in H as [H1 H2]. by rewrite quote_seg_not_lf, IH.
Qed.

(** A user name the service accepts, in ASCII. *)
Definition plain_user (u : string) : Prop :=
  validatePPPoECredentials u "" = Ok tt /\ all_chars (fun a => byte_val a <? 128) u = true.

Lemma valid_user u p : validatePPPoECredentials u p = Ok tt ->
  all_chars (fun a => negb (char_in (String dquote (char_str backslash)) a)) u = true
  /\ ContainsFunc u IsControl = false /\ ContainsFunc p IsControl = false.
Proof.
  unfold validatePPPoECredentials, ContainsAny.
  destruct (all_chars _ u); cbn [negb orb]; [|done].
  destruct (ContainsFunc u IsControl); cbn [orb]; [done|]. by destruct (ContainsFunc p IsControl).
Qed.

(** Such a name is quoted as it is. *)
Lemma Quote_plain u : plain_user u -> Quote isPrint u = char_str dquote +:+ u +:+ char_str dquote.
Proof.
  intros [Hv Ha]. apply valid_user in Hv as (Hq & Hc & _). unfold Quote. f_equal. f_equal.
  unfold ContainsFunc in Hc. rewrite runes_ascii in * by done.
  revert Ha Hq Hc. induction u as [|a u IH]; [done|]. cbn [all_chars list_ascii_of_string fmap list_fmap existsb List.map].
  intros Ha Hq Hc. apply andb_prop in Hq as [Hq Hqu]. apply orb_false_elim in Hc as [Hc Hcu]. apply andb_prop in Ha as [Ha Hau].
  rewrite concat_cons_nil, IH by done.
  assert (Hs : quote_seg isPrint (Some (byte_val a), char_str a) = char_str a); [|by rewrite Hs].
  cbn in Hq. change (rune_of (Some (byte_val a), char_str a)) with (byte_val a) in Hc. unfold IsControl in Hc. apply orb_false_elim in Hc as [Hc1 Hc2].
  unfold quote_seg. cbn [fst snd].
  assert ((byte_val a =? 34) = false) as ->.
  { apply Z.eqb_neq. intros E. change 34 with (byte_val dquote) in E. apply byte_val_inj in E as ->. done. }
  assert ((byte_val a =? 92) = false) as ->.
  { apply Z.eqb_neq. intros E. change 92 with (byte_val backslash) in E. apply byte_val_inj in E as ->. done. }
  apply Z.leb_gt in Hc1. apply Z.ltb_lt in Ha. apply andb_false_iff in Hc2 as [Hc2%Z.leb_gt|Hc2%Z.leb_gt]; [|exfalso; lia].
  by rewrite (proj2 (Z.leb_le 32 (byte_val a))), (proj2 (Z.ltb_lt (byte_val a) 127)) by lia.
Qed.

(** The prefix of one user starts only lines of that user. *)
Lemma prefix_own u v rest : plain_user u -> plain_user v ->
  HasPrefix (secret_prefix isPrint v +:+ rest) (secret_prefix isPrint u) = true -> u = v.
Proof.
  intros Hu Hv H. apply HasPrefix_true in H as [t E]. revert E. unfold secret_prefix.
  rewrite !Quote_plain by done. rewrite !append_assoc. cbn [char_str String.append]. intros E. injection E as E.
  assert (Hq : forall w, plain_user w -> has_char dquote w = false).
  { intros w [Hw _]. apply valid_user in Hw as (Hw & _). by apply (all_chars_not_has _ dquote) in Hw. }
  pose proof (cut_byte_append dquote v (" * " +:+ rest) (Hq v Hv)) as Ev.
  pose proof (cut_byte_append dquote u (" * " +:+ t) (Hq u Hu)) as Eu.
  cbn [String.append] in Ev, Eu. rewrite E, Eu in Ev. by injection Ev as -> _.
Qed.
End QuoteLemmas.

(** ** Correctness *)

Section Correct.
Variable isPrint : Z -> bool.

Abbreviation own u := (secret_prefix isPrint u).

(** What a file holds after the line of a user was put in it. *)
Definition holds_secret (user pass existing text : string) : Prop :=
  entries text = List.filter (fun l => negb (HasPrefix l (own user))) (entries existing) ++ [own user +:+ Quote isPrint pass]
  /\ forall other rest, plain_user other -> other <> user ->
       In (own other +:+ rest) (entries existing) -> In (own other +:+ rest) (entries text).

Lemma upserted_secret user pass existing :
  validatePPPoECredentials user pass = Ok tt -> plain_user user ->
  holds_secret user pass existing (upserted existing (own user) (secret_line isPrint user pass)).
Proof.
  intros Hv Hu. pose proof Hv as (_ & Hcu & Hcp)%valid_user.
  assert (Hown : has_char lf (own user) = false)
    by (unfold secret_prefix; rewrite has_char_append, Quote_one_line by done; done).
  unfold secret_line. rewrite <- append_assoc. unfold holds_secret.
  rewrite upserted_entries; [|done|by rewrite has_char_append, Hown, Quote_one_line].
  split; [done|]. intros other rest Ho Hne Hin. apply in_app_iff. left. apply filter_In. split; [done|].
  apply negb_true_iff. destruct (HasPrefix _ _) eqn:E; [|done]. apply prefix_own in E; by subst.
Qed.

Context {S : Type} `{HasPPPoE S}.

Definition secrets_files : list string := ["/etc/ppp/chap-secrets"; "/etc/ppp/pap-secrets"].

(** Every call of an update reads its file, or writes what was read with the
    line of the user in it. *)
Lemma upsertSecret_calls (path prefix line : string) w h (s : S) :
  exists r t, upsertSecret path prefix line w h s = (r, s, h ++ t)
  /\ Forall (fun c => c = CReadFile path
       \/ exists existing, w h (CReadFile path) = Ok existing /\ c = CWriteFile path (upserted existing prefix line) 384) t.
Proof.
  cbv [upsertSecret wrapping try_bind ReadFile WriteFile perform mbind svc_bind mret svc_ret].
  destruct (w h (CReadFile path)) as [existing|e]; cbn [wrap_err].
  - eexists _, [_; _]. rewrite <- app_assoc. split; [reflexivity|].
    apply List.Forall_cons; [by left|]. apply List.Forall_cons; [right; by exists existing|constructor].
  - eexists _, [_]. split; [reflexivity|]. apply List.Forall_cons; [by left|constructor].
Qed.

(** Connecting stores the credentials in a secrets file without touching
    anything else in it: whatever is written to the file is what was read from
    it less the lines of this user, followed by one line with the current
    password, and a file that could not be read is not written.  The entries
    of every other user survive. *)
Theorem secrets_exact w (s : S) c :
  let user := PPPoEConfig_Username (Config_PPPoE (pp_cfg s)) in
  let pass := PPPoEConfig_Password (Config_PPPoE (pp_cfg s)) in
  validatePPPoECredentials user pass = Ok tt -> plain_user user ->
  In c (calls_of (writeSecrets isPrint) w s) ->
  exists path, In path secrets_files /\
    (c = CReadFile path
     \/ exists h existing text,
          w h (CReadFile path) = Ok existing /\ c = CWriteFile path text 384 /\ holds_secret user pass existing text).
Proof.
  intros user pass Hv Hu Hc.
  assert (Hcalls : forall path h t, In path secrets_files ->
    Forall (fun c => c = CReadFile path \/ exists existing, w h (CReadFile path) = Ok existing
      /\ c = CWriteFile path (upserted existing (own user) (secret_line isPrint user pass)) 384) t -> In c t ->
    exists path, In path secrets_files /\ (c = CReadFile path \/ exists h existing text,
          w h (CReadFile path) = Ok existing /\ c = CWriteFile path text 384 /\ holds_secret user pass existing text)).
  { intros path h t Hp Ht Hin. rewrite List.Forall_forall in Ht. exists path. split; [done|].
    destruct (Ht c Hin) as [->|(existing & Hr & ->)]; [by left|]. right.
    exists h, existing. eexists. split; [done|]. split; [reflexivity|]. by apply upserted_secret. }
  revert Hc. cbv [calls_of writeSecrets get wrapping try_bind mbind svc_bind mret svc_ret]. fold user pass.
  destruct (String.eqb pass ""); [done|].
  destruct (upsertSecret_calls "/etc/ppp/chap-secrets" (own user) (secret_line isPrint user pass) w [] s)
    as (r & t & -> & Ht). destruct r as [u|e]; cbn [wrap_err].
  - destruct (upsertSecret_calls "/etc/ppp/pap-secrets" (own user) (secret_line isPrint user pass) w ([] ++ t) s)
      as (r' & t' & -> & Ht'). cbn [snd app]. intros [Hc|Hc]%in_app_iff; [apply (Hcalls _ _ t) in Ht|apply (Hcalls _ _ t') in Ht']; cbn; auto.
  - cbn [snd app]. intros Hc. apply (Hcalls _ _ t) in Ht; cbn; auto.
Qed.

End Correct.

(** ** The agent lets every call of the link through *)

Section Allowed.
Variables (isPrint : Z -> bool) (ParsePeer : string -> result (peerTemplateData -> result string)).
Variable is_EPERM : error -> bool.
Context {S : Type} `{HasPPPoE S}.
Variables (up down : option (svc S (result unit))).

Definition hook_ok (hook : option (svc S (result unit))) : Prop :=
  match hook with Some k => keeps allowed (fun _ => True) k | None => True end.

Lemma run_hook_allowed hook : hook_ok hook -> keeps allowed (fun _ => True) (run_hook hook).
Proof. destruct hook as [k|]; intros Hk; cbn [run_hook]; walk; done. Qed.

Lemma upsertSecret_allowed path prefix line : In path secrets_files ->
  keeps allowed (fun _ : S => True) (upsertSecret path prefix line).
Proof. intros [<-|[<-|[]]]; unfold upsertSecret; walk; allow_call. Qed.

Lemma Connect_allowed : hook_ok up -> keeps allowed (fun _ => True) (Connect isPrint ParsePeer up).
Proof.
  intros Hu. unfold Connect, renderConfig, writeSecrets. walk; try allow_call; try done;
    first [by apply run_hook_allowed | apply upsertSecret_allowed; cbn; auto].
Qed.

Lemma Disconnect_allowed : hook_ok down -> keeps allowed (fun _ => True) (Disconnect down).
Proof. intros Hd. unfold Disconnect, readPID. walk; try allow_call; try done. by apply run_hook_allowed. Qed.

Lemma sniffer_allowed : keeps allowed (fun _ : S => True) SniffStart
  /\ keeps allowed (fun _ : S => True) SniffStop /\ keeps allowed (fun _ : S => True) SniffStatus.
Proof. unfold SniffStart, SniffStop, SniffStatus. split; [|split]; walk; allow_call. Qed.

End Allowed.

(** A user with a new password, and one that is left alone. *)
Definition sample_secrets : string :=
  secret_line (fun _ => true) "bob" "one" +:+ secret_line (fun _ => true) "alice" "old".
Definition sample_world : world := fun _ _ => Ok sample_secrets.
Definition sample_pppoe : pppoe :=
  mkPppoe (set_Config_PPPoE (set_PPPoEConfig_Password "new" (set_PPPoEConfig_Username "alice" PPPoEConfig_zero)) Config_zero) false.

Lemma secrets_exact_witness :
  In (CWriteFile "/etc/ppp/chap-secrets"
        (secret_line (fun _ => true) "bob" "one" +:+ secret_line (fun _ => true) "alice" "new") 384)
     (calls_of (writeSecrets (fun _ => true)) sample_world sample_pppoe)
  /\ exists path, In path secrets_files /\
    (CReadFile "/etc/ppp/chap-secrets" = CReadFile path
     \/ exists h existing text,
          sample_world h (CReadFile path) = Ok existing
          /\ CReadFile "/etc/ppp/chap-secrets" = CWriteFile path text 384
          /\ holds_secret (fun _ => true) (PPPoEConfig_Username (Config_PPPoE (pp_cfg sample_pppoe)))
               (PPPoEConfig_Password (Config_PPPoE (pp_cfg sample_pppoe))) existing text).
Proof.
  split; [right; left; vm_compute; reflexivity|].
  pose proof (secrets_exact (fun _ => true) sample_world sample_pppoe (CReadFile "/etc/ppp/chap-secrets")) as H.
  cbv zeta in H. apply H.
  - vm_compute. reflexivity.
  - split; vm_compute; reflexivity.
  - left. vm_compute. reflexivity.
Defined.
