(* ===== verification/Ipv6.v ===== *)
(** * internal/services/ipv6.go, sixinfour.go, internal/web/handlers/ipv6.go
      and the IPv6 hooks of internal/web/server.go

    The two planes that bring IPv6 to the LAN: prefix delegation through
    dhcp6c, with its lease file and the watcher on it, and the 6in4 tunnel with
    the update of its endpoint.  Both share the configuration and one state
    with the PPPoE link, whose hooks drive them.  The templates, the JSON text,
    the text of times and of errors, the order of a [range] over a map and what
    the machine answers are parameters. *)

From S2P Require Import Prelude GoStrings GoTime GoPath GoNet GoIP Encoding Validate ConfigTypes AgentRules FirewallRender.
From S2P Require Import Sys Dhcp Respond Pppoe.

Local Open Scope Z_scope.
Local Open Scope go_scope.
Local Open Scope sys_scope.

(** ** State *)

(** The fields of PPPoEService, IPv6Service and SixInFourService; stop
    channels are numbered, and [v6_live] are the watchers that run. *)
Record v6 : Type := mkV6 {
  v6_cfg : Config; v6_connected : bool; v6_lastLeaseHash : string;
  v6_watcherStop : option nat; v6_channels : nat; v6_live : list nat;
  v6_running : bool; v6_lastIPv4 : string }.

Definition set_v6_cfg (c : Config) (s : v6) : v6 :=
  mkV6 c (v6_connected s) (v6_lastLeaseHash s) (v6_watcherStop s) (v6_channels s) (v6_live s) (v6_running s) (v6_lastIPv4 s).
Definition set_v6_connected (b : bool) (s : v6) : v6 :=
  mkV6 (v6_cfg s) b (v6_lastLeaseHash s) (v6_watcherStop s) (v6_channels s) (v6_live s) (v6_running s) (v6_lastIPv4 s).
Definition set_v6_lease (h : string) (s : v6) : v6 :=
  mkV6 (v6_cfg s) (v6_connected s) h (v6_watcherStop s) (v6_channels s) (v6_live s) (v6_running s) (v6_lastIPv4 s).
Definition set_v6_watch (stop : option nat) (n : nat) (live : list nat) (s : v6) : v6 :=
  mkV6 (v6_cfg s) (v6_connected s) (v6_lastLeaseHash s) stop n live (v6_running s) (v6_lastIPv4 s).
Definition set_v6_running (b : bool) (s : v6) : v6 :=
  mkV6 (v6_cfg s) (v6_connected s) (v6_lastLeaseHash s) (v6_watcherStop s) (v6_channels s) (v6_live s) b (v6_lastIPv4 s).
Definition set_v6_lastIPv4 (ip : string) (s : v6) : v6 :=
  mkV6 (v6_cfg s) (v6_connected s) (v6_lastLeaseHash s) (v6_watcherStop s) (v6_channels s) (v6_live s) (v6_running s) ip.

#[export] Instance v6_pppoe : HasPPPoE v6 :=
  {| pp_cfg := v6_cfg; pp_connected := v6_connected; pp_set_connected := set_v6_connected;
     pp_cfg_set := fun _ _ => eq_refl; pp_connected_set := fun _ _ => eq_refl |}.

Definition v6_conf (cfg : Config) : IPv6Config := Config_IPv6 cfg.
Definition v6_off (cfg : Config) : bool := String.eqb (IPv6Config_Enabled (Config_IPv6 cfg)) "off".
Definition v6_6in4 (cfg : Config) : bool := String.eqb (IPv6Config_Mode (Config_IPv6 cfg)) "6in4".
Definition v6_request (cfg : Config) : bool := IPv6WANConfig_RequestPrefix (IPv6Config_WAN (Config_IPv6 cfg)).
Definition v6_tunnel (cfg : Config) : IPv6TunnelConfig := IPv6Config_Tunnel (Config_IPv6 cfg).
Definition pppoe_used (cfg : Config) : bool := negb (String.eqb (PPPoEConfig_Username (Config_PPPoE cfg)) "").
Definition update_v6 (f : IPv6Config -> IPv6Config) (cfg : Config) : Config := set_Config_IPv6 (f (Config_IPv6 cfg)) cfg.

(** ** The lease *)

Record PrefixState : Type := mkPrefix {
  px_Timestamp : Z; px_Reason : string; px_Prefix : string; px_PrefixLength : Z;
  px_PreferredLifetime : Z; px_ValidLifetime : Z; px_RDNSS : string }.
Definition PrefixState_zero : PrefixState := mkPrefix 0 "" "" 0 0 0 "".

Definition prefix_fields : list (string * (json -> PrefixState -> option PrefixState)) :=
  [("timestamp", dec_int (fun v p => mkPrefix v (px_Reason p) (px_Prefix p) (px_PrefixLength p) (px_PreferredLifetime p) (px_ValidLifetime p) (px_RDNSS p)));
   ("reason", dec_string (fun v p => mkPrefix (px_Timestamp p) v (px_Prefix p) (px_PrefixLength p) (px_PreferredLifetime p) (px_ValidLifetime p) (px_RDNSS p)));
   ("prefix", dec_string (fun v p => mkPrefix (px_Timestamp p) (px_Reason p) v (px_PrefixLength p) (px_PreferredLifetime p) (px_ValidLifetime p) (px_RDNSS p)));
   ("prefixLength", dec_int (fun v p => mkPrefix (px_Timestamp p) (px_Reason p) (px_Prefix p) v (px_PreferredLifetime p) (px_ValidLifetime p) (px_RDNSS p)));
   ("preferredLifetime", dec_int (fun v p => mkPrefix (px_Timestamp p) (px_Reason p) (px_Prefix p) (px_PrefixLength p) v (px_ValidLifetime p) (px_RDNSS p)));
   ("validLifetime", dec_int (fun v p => mkPrefix (px_Timestamp p) (px_Reason p) (px_Prefix p) (px_PrefixLength p) (px_PreferredLifetime p) v (px_RDNSS p)));
   ("rdnss", dec_string (fun v p => mkPrefix (px_Timestamp p) (px_Reason p) (px_Prefix p) (px_PrefixLength p) (px_PreferredLifetime p) (px_ValidLifetime p) v))].

(** [time.Unix(p.Timestamp, 0).Add(time.Duration(p.ValidLifetime) * time.Second)];
    the product is a machine integer. *)
Definition lease_deadline (p : PrefixState) : Z := px_Timestamp p * second + wrap64 (px_ValidLifetime p * second).
Definition no_lease (p : PrefixState) : bool := (px_Timestamp p =? 0) || (px_ValidLifetime p <=? 0).

Definition Expired (now : Z) (p : PrefixState) : bool := if no_lease p then false else lease_deadline p <? now.
Definition ExpiresIn (now : Z) (p : PrefixState) : Z := if no_lease p then 0 else time_Sub (lease_deadline p) now.
Definition Active (now : Z) (p : PrefixState) : bool :=
  if String.eqb (px_Prefix p) "" || (px_ValidLifetime p <=? 0) then false
  else if String.eqb (px_Reason p) "RELEASE" || String.eqb (px_Reason p) "EXIT" then false
  else negb (Expired now p).
Definition prefix_CIDR (p : PrefixState) : string :=
  if String.eqb (px_Prefix p) "" || (px_PrefixLength p =? 0) then "" else px_Prefix p +:+ "/" +:+ itoa (px_PrefixLength p).
Definition PrefixAge (now : Z) (p : PrefixState) : Z :=
  if px_Timestamp p =? 0 then 0 else time_Sub now (px_Timestamp p * second).
Definition leaseHash (p : PrefixState) : string :=
  px_Prefix p +:+ "/" +:+ itoa (px_PrefixLength p) +:+ "|" +:+ px_Reason p +:+ "|" +:+ itoa (px_PreferredLifetime p)
  +:+ "|" +:+ itoa (px_ValidLifetime p) +:+ "|" +:+ px_RDNSS p.

(** ** Sub-prefixes *)

Definition parsePrefixHint (s : string) : result Z :=
  match Atoi (TrimPrefix (TrimSpace s) "/") with
  | None => Err (Errorf "invalid prefix hint %q: %w" [s])
  | Some n => if (n <? 48) || (64 <? n) then Err (Errorf "prefix hint %d outside [48,64]" [itoa n]) else Ok n
  end.

Definition routedPrefixLength (cfg : Config) : string :=
  if v6_6in4 cfg then
    match cut_last "/" (TrimSpace (IPv6TunnelConfig_RoutedPrefix (v6_tunnel cfg))) with
    | Some (_, n) => if String.eqb n "" then "/64" else "/" +:+ n
    | None => "/64"
    end
  else orDefault (TrimSpace (IPv6WANConfig_PrefixHint (IPv6Config_WAN (Config_IPv6 cfg)))) "/56".

(** The devices of the last WAN and of the first LAN with a device. *)
Definition resolve_step (pppoe : bool) (acc : string * string) (i : InterfaceConfig) : string * string :=
  let '(wan, lan) := acc in
  if String.eqb (InterfaceConfig_Role i) "wan" then (if pppoe then "ppp0" else InterfaceConfig_Device i, lan)
  else if String.eqb (InterfaceConfig_Role i) "lan" then (wan, if String.eqb lan "" then InterfaceConfig_Device i else lan)
  else (wan, lan).

Definition resolveInterfaces (cfg : Config) : result (string * string) :=
  let '(wan, lan) := foldl (resolve_step (pppoe_used cfg)) ("", "") (Config_Interfaces cfg) in
  if String.eqb wan "" then Err (Errorf "no WAN interface configured" [])
  else if String.eqb lan "" then Err (Errorf "no LAN interface configured" [])
  else Ok (wan, lan).

Record prefixInterface : Type := mkPI { pi_Name : string; pi_Device : string; pi_SLAID : Z }.

Definition subnet_map (cfg : Config) : gmap string Z := IPv6LANConfig_SubnetMap (IPv6Config_LAN (Config_IPv6 cfg)).
Definition pick (cfg : Config) (key : string) (dflt : Z) : Z := default dflt (subnet_map cfg !! key).

(** The device a VLAN gets a sub-prefix on, when it has what it needs. *)
Definition vlan_device (cfg : Config) (v : VLANConfig) : option string :=
  let parentDev := deviceByID (Config_Interfaces cfg) (VLANConfig_Parent v) in
  if String.eqb (VLANConfig_ID v) "" then None
  else if String.eqb parentDev "" || (VLANConfig_VID v =? 0) then None
  else Some (parentDev +:+ "." +:+ itoa (VLANConfig_VID v)).

Definition vlan_step (cfg : Config) (maxSLA : Z) (acc : list prefixInterface * Z) (v : VLANConfig)
  : list prefixInterface * Z :=
  let '(out, auto) := acc in
  match vlan_device cfg v with
  | None => (out, auto)
  | Some dev =>
      let sla := pick cfg (VLANConfig_ID v) auto in
      if maxSLA <? sla then (out, auto) else (out ++ [mkPI (VLANConfig_ID v) dev sla], auto + 1)
  end.

Definition buildPrefixInterfaces (cfg : Config) (lanDev : string) (slaLen : Z) : list prefixInterface :=
  let out := [mkPI "lan" lanDev (pick cfg "lan" 0)] in
  if slaLen =? 0 then out
  else fst (foldl (vlan_step cfg (shl64 1 slaLen - 1)) (out, 1) (Config_VLANs cfg)).

Definition sla_len (delegatedLen : Z) : Z := Z.max (64 - delegatedLen) 0.

Definition AnnouncedInterfaces (cfg : Config) : result (list prefixInterface) :=
  if v6_off cfg then Ok []
  else
    let? (_, lan) := resolveInterfaces cfg in
    let? delegatedLen := parsePrefixHint (routedPrefixLength cfg) in
    Ok (buildPrefixInterfaces cfg lan (sla_len delegatedLen)).

(** ** Template data *)

Record dhcp6cTemplateData : Type := mkDhcp6c {
  d6_WANInterface : string; d6_RapidCommit : bool; d6_ScriptPath : string; d6_SLALen : Z;
  d6_PrefixInterfaces : list prefixInterface }.

Record dnsmasqRATemplateData : Type := mkRA {
  ra_Interfaces : list prefixInterface; ra_LeaseTime : string; ra_RAInterval : Z; ra_MTU : Z;
  ra_RDNSSAddrs : list string; ra_SearchDomain : string; ra_ULAPrefix : string; ra_Privacy : bool }.

Definition dhcp6cConfPath : string := "/etc/wide-dhcpv6/dhcp6c.conf".
Definition dhcp6cScriptPath : string := "/etc/wide-dhcpv6/dhcp6c-script".
Definition dhcp6cEnvPath : string := "/etc/wide-dhcpv6/lankeeper-dhcp6c.env".
Definition ipv6StatePath : string := "/var/lib/lankeeper/state/ipv6-prefix.json".
Definition dhcp6cUnitName : string := "lankeeper-dhcp6c.service".
Definition dnsmasqRAConfPath : string := "/etc/dnsmasq.d/lankeeper-ipv6-ra.conf".
Definition defaultRAInterval : Z := 30.

Definition dhcpLeaseTime (cfg : Config) : string := orDefault (DHCPConfig_LeaseTime (Config_DHCP cfg)) "12h".

Definition advertisedMTU (cfg : Config) : Z :=
  if v6_6in4 cfg then (if pppoe_used cfg then 1452 else 1480) else (if pppoe_used cfg then 1492 else 1500).

Definition rdnssAddrs : list string := ["fe80::"].

Definition ulaRangeStart (prefix : string) : result string :=
  if String.eqb prefix "" then Ok ""
  else match ParseCIDR prefix with
       | None => Err (Errorf "ULA prefix %q: %w" [prefix])
       | Some (_, network) => Ok (IP_String (net_ip network))
       end.

Definition acceptRAKeys (wan : string) : list string :=
  ["net/ipv6/conf/" +:+ wan +:+ "/accept_ra"]
  ++ (if HasPrefix wan "ppp" then ["net/ipv6/conf/default/accept_ra"] else []).

(** [fdXX:XXXX:XXXX::/48] from five random bytes. *)
Definition ula_text (raw : list Z) : string :=
  let b i := hex_pad 2 (default 0 (raw !! i)) in
  "fd" +:+ b 0%nat +:+ ":" +:+ b 1%nat +:+ b 2%nat +:+ ":" +:+ b 3%nat +:+ b 4%nat +:+ "::/48".

(** [os.IsNotExist] does not look through a wrapping error, and what comes
    from the agent is wrapped; [notExist] decides the others. *)
Definition IsNotExist (notExist : error -> bool) (e : error) : bool :=
  match e with Errorf _ _ => notExist e | Errorw _ _ _ => false end.

(** ** The prefix delegation service *)

Section Delegation.

(** [template.ParseFiles] of the three templates; [json.Unmarshal] of a text;
    the order of a [range] over the subnet map; [os.IsNotExist] on an error of
    the process; the text of an error. *)
Variables (ParseConf : string -> result (dhcp6cTemplateData -> result string))
  (ParseScript : string -> result (string -> result string))
  (ParseRA : string -> result (dnsmasqRATemplateData -> result string)).
Variable json_read : string -> option json.
Variable range_subnets : gmap string Z -> list (string * Z).
Variable notExist : error -> bool.
Variable Error_text : error -> string.

Definition parseConfTemplate : result (dhcp6cTemplateData -> result string) :=
  wrap_err "parse dhcp6c template: %w" [] (ParseConf "configs/sysconf/dhcp6c.conf.tmpl").
Definition parseScriptTemplate : result (string -> result string) :=
  wrap_err "parse dhcp6c-script template: %w" [] (ParseScript "configs/sysconf/dhcp6c-script.tmpl").
Definition parseRATemplate : result (dnsmasqRATemplateData -> result string) :=
  wrap_err "parse dnsmasq RA template: %w" [] (ParseRA "configs/sysconf/dnsmasq-ipv6-ra.conf.tmpl").

Definition v6_RenderConfig (cfg : Config) : result string :=
  let? (wan, lan) := resolveInterfaces cfg in
  let hint := orDefault (IPv6WANConfig_PrefixHint (IPv6Config_WAN (Config_IPv6 cfg))) "/56" in
  let? delegatedLen := parsePrefixHint hint in
  let slaLen := sla_len delegatedLen in
  let? tmpl := parseConfTemplate in
  wrap_err "render dhcp6c.conf: %w" []
    (tmpl (mkDhcp6c wan (IPv6WANConfig_RapidCommit (IPv6Config_WAN (Config_IPv6 cfg))) dhcp6cScriptPath slaLen
             (buildPrefixInterfaces cfg lan slaLen))).

Definition RenderScript : result string :=
  let? tmpl := parseScriptTemplate in
  wrap_err "render dhcp6c-script: %w" [] (tmpl ipv6StatePath).

Definition generateULAPrefix : svc v6 (result string) :=
  try! raw := wrapping "read random: %w" [] (LocalCall "crypto/rand.Read" ["5"]) in
  mret (Ok (ula_text (List.map byte_val (list_ascii_of_string raw)))).

Definition ula_of (cfg : Config) : IPv6ULAConfig := IPv6LANConfig_ULA (IPv6Config_LAN (Config_IPv6 cfg)).
Definition set_ula_prefix (p : string) : Config -> Config :=
  update_v6 (fun v => set_IPv6Config_LAN (set_IPv6LANConfig_ULA
    (set_IPv6ULAConfig_Prefix p (IPv6LANConfig_ULA (IPv6Config_LAN v))) (IPv6Config_LAN v)) v).

Definition ulaPrefix : svc v6 string :=
  s ← get;
  let p := TrimSpace (IPv6ULAConfig_Prefix (ula_of (v6_cfg s))) in
  if negb (String.eqb p "") then mret p
  else
    r ← generateULAPrefix;
    match r with
    | Err _ => mret ""
    | Ok prefix =>
        s ← get;
        put (set_v6_cfg (set_ula_prefix prefix (v6_cfg s)) s) ;;
        s ← get;
        SaveToFile (v6_cfg s) ;;
        mret prefix
    end.

Definition ra_data (cfg : Config) (slaLen : Z) (lan ula : string) : dnsmasqRATemplateData :=
  let interval := IPv6LANConfig_RAInterval (IPv6Config_LAN (Config_IPv6 cfg)) in
  mkRA (buildPrefixInterfaces cfg lan slaLen) (dhcpLeaseTime cfg)
    (if interval <=? 0 then defaultRAInterval else interval) (advertisedMTU cfg) rdnssAddrs
    (SystemConfig_Domain (Config_System cfg)) ula (IPv6Config_Privacy (Config_IPv6 cfg)).

Definition RenderRAConfig : svc v6 (result string) :=
  s ← get;
  let cfg := v6_cfg s in
  if v6_off cfg then mret (Ok "")
  else
    match resolveInterfaces cfg with
    | Err e => mret (Err e)
    | Ok (_, lan) =>
        match parsePrefixHint (routedPrefixLength cfg) with
        | Err e => mret (Err e)
        | Ok delegatedLen =>
            let slaLen := sla_len delegatedLen in
            try! ula := (if IPv6ULAConfig_Enabled (ula_of cfg)
                         then (p ← ulaPrefix; mret (ulaRangeStart p)) else mret (Ok "")) in
            mret (let? tmpl := parseRATemplate in
                  wrap_err "render dnsmasq RA: %w" [] (tmpl (ra_data cfg slaLen lan ula)))
        end
    end.

(** *** Files *)

Definition writeDHCP6CEnv : svc v6 (result unit) :=
  s ← get;
  match resolveInterfaces (v6_cfg s) with
  | Err e => mret (Err e)
  | Ok (wan, _) =>
      match ValidateInterfaceName wan with
      | Err e => mret (Err (Errorw "dhcp6c interface: %w" [] e))
      | Ok _ => wrapping "write dhcp6c environment: %w" []
                  (WriteFile dhcp6cEnvPath ("DHCP6C_INTERFACE=" +:+ wan +:+ char_str lf) 420)
      end
  end.

Definition writePDFiles : svc v6 (result unit) :=
  s ← get;
  match v6_RenderConfig (v6_cfg s), RenderScript with
  | Err e, _ | Ok _, Err e => mret (Err e)
  | Ok conf, Ok script =>
      try! _ := wrapping "write dhcp6c.conf: %w" [] (WriteFile dhcp6cConfPath conf 420) in
      try! _ := wrapping "write dhcp6c-script: %w" [] (WriteFile dhcp6cScriptPath script 493) in
      writeDHCP6CEnv
  end.

Definition stub_6in4 : string := "# IPv6 mode is 6in4; dhcp6c is not used." +:+ char_str lf.
Definition stub_pd_off : string := "# IPv6 PD disabled by LANKeeper config." +:+ char_str lf.
Definition stub_ra_off : string := "# IPv6 RA disabled by LANKeeper config." +:+ char_str lf.

Definition writeDHCP6CFiles (pdRequested : bool) : svc v6 (result unit) :=
  if pdRequested then writePDFiles
  else wrapping "write 6in4 stub: %w" [] (WriteFile dhcp6cConfPath stub_6in4 420).

Definition writeRAFile : svc v6 (result unit) :=
  try! raConf := RenderRAConfig in
  wrapping "write dnsmasq RA drop-in: %w" [] (WriteFile dnsmasqRAConfPath raConf 420).

Definition writeIPv6DisabledStubs : svc v6 (result unit) :=
  try! _ := wrapping "write disabled stub: %w" [] (WriteFile dhcp6cConfPath stub_pd_off 420) in
  wrapping "write disabled RA stub: %w" [] (WriteFile dnsmasqRAConfPath stub_ra_off 420).

Definition v6_RenderToDisk : svc v6 (result unit) :=
  s ← get;
  let cfg := v6_cfg s in
  let pdRequested := negb (v6_6in4 cfg) && v6_request cfg in
  if v6_off cfg || (negb pdRequested && negb (v6_6in4 cfg)) then writeIPv6DisabledStubs
  else
    try! _ := wrapping "mkdir %s: %w" [Dir ipv6StatePath] (MkdirAll (Dir ipv6StatePath) 493) in
    try! _ := writeDHCP6CFiles pdRequested in
    writeRAFile.

(** *** The unit *)

Definition unit_verb (args : list string) (format : string) : svc v6 (result unit) :=
  r ← Run "systemctl" (args ++ [dhcp6cUnitName]);
  mret (discard (wrap_err format [dhcp6cUnitName] r)).

Definition restartUnit : svc v6 (result unit) := unit_verb ["restart"] "restart %s: %w".
Definition v6_Start : svc v6 (result unit) := unit_verb ["enable"; "--now"] "start %s: %w".
Definition Renew : svc v6 (result unit) := unit_verb ["reload-or-restart"] "renew %s: %w".

Definition stopUnit : svc v6 (result unit) :=
  r ← Run "systemctl" ["stop"; dhcp6cUnitName];
  mret match r with
       | Ok _ => Ok tt
       | Err e => if Contains (Error_text e) "exit status 5" then Ok tt
                  else Err (Errorw "stop %s: %w" [dhcp6cUnitName] e)
       end.

Definition v6_Stop : svc v6 (result unit) := stopUnit.
Definition v6_Restart : svc v6 (result unit) := restartUnit.
Definition Release : svc v6 (result unit) := stopUnit.

Definition reloadDnsmasq : svc v6 (result unit) :=
  r ← Run "systemctl" ["reload-or-restart"; "dnsmasq"]; mret (discard (wrap_err "reload dnsmasq: %w" [] r)).

Definition ApplyAcceptRA : svc v6 unit :=
  s ← get;
  let cfg := v6_cfg s in
  if negb (IPv6WANConfig_AcceptRA (IPv6Config_WAN (Config_IPv6 cfg))) || v6_off cfg || v6_6in4 cfg then mret tt
  else
    match resolveInterfaces cfg with
    | Err _ => mret tt
    | Ok (wan, _) =>
        if is_ok (ValidateInterfaceName wan)
        then for_each (acceptRAKeys wan) (fun key => Run "sysctl" ["-w"; key +:+ "=2"])
        else mret tt
    end.

(** Prefix delegation is what the configuration asks for. *)
Definition pd_wanted (cfg : Config) : bool := negb (v6_off cfg || v6_6in4 cfg || negb (v6_request cfg)).

Definition v6_ApplyConfig : svc v6 (result unit) :=
  try! _ := v6_RenderToDisk in
  reloadDnsmasq ;;
  ApplyAcceptRA ;;
  s ← get;
  if pd_wanted (v6_cfg s) then restartUnit else stopUnit.

(** *** The subnet map *)

(** The loop of [ValidateSubnetMap] over the entries in some order. *)
Fixpoint check_entries (known : list string) (seen : list (Z * string)) (l : list (string * Z)) : result unit :=
  match l with
  | [] => Ok tt
  | (key, sla) :: l =>
      if sla <? 0 then Err (Errorf "subnetMap[%q] is negative (%d); SLA-ID must be >= 0" [key; itoa sla])
      else if negb (String.eqb key "lan") && negb (mem key known)
      then Err (Errorf "subnetMap[%q] does not match any VLAN ID" [key])
      else match List.find (fun e => fst e =? sla) seen with
           | Some (_, other) => Err (Errorf "subnetMap[%q] and subnetMap[%q] both use SLA-ID %d" [other; key; itoa sla])
           | None => check_entries known ((sla, key) :: seen) l
           end
  end.

Definition vlan_ids (cfg : Config) : list string :=
  List.filter (fun id => negb (String.eqb id "")) (List.map VLANConfig_ID (Config_VLANs cfg)).

Definition ValidateSubnetMap (cfg : Config) (m : gmap string Z) : result unit :=
  match m !! "lan" with
  | Some v => if v =? 0 then check_entries (vlan_ids cfg) [] (range_subnets m)
              else Err (Errorf "primary LAN must keep SLA-ID 0, got %d" [itoa v])
  | None => check_entries (vlan_ids cfg) [] (range_subnets m)
  end.

Definition set_subnet_map (m : gmap string Z) : Config -> Config :=
  update_v6 (fun v => set_IPv6Config_LAN (set_IPv6LANConfig_SubnetMap m (IPv6Config_LAN v)) v).

Definition SetSubnetMap (m : gmap string Z) : svc v6 (result unit) :=
  s ← get;
  match ValidateSubnetMap (v6_cfg s) m with
  | Err e => mret (Err e)
  | Ok _ =>
      put (set_v6_cfg (set_subnet_map m (v6_cfg s)) s) ;;
      s ← get;
      try! _ := wrapping "save subnet map: %w" [] (SaveToFile (v6_cfg s)) in
      v6_ApplyConfig
  end.

(** *** The lease file and its watcher *)

Definition v6_Status : svc v6 (result PrefixState) :=
  r ← ReadFile ipv6StatePath;
  mret match r with
       | Err e => if IsNotExist notExist e then Ok PrefixState_zero else Err (Errorw "read %s: %w" [ipv6StatePath] e)
       | Ok raw =>
           if String.eqb (TrimSpace raw) "" then Ok PrefixState_zero
           else match json_read raw ≫= unmarshal_struct prefix_fields PrefixState_zero with
                | Some st => Ok st
                | None => Err (Errorf "parse ipv6 state: %w" [])
                end
       end.

Definition refreshRADropIn : svc v6 (result unit) :=
  s ← get;
  let cfg := v6_cfg s in
  if v6_off cfg then mret (Ok tt)
  else if negb (v6_6in4 cfg) && negb (v6_request cfg) then mret (Ok tt)
  else
    try! conf := wrapping "render RA: %w" [] RenderRAConfig in
    try! _ := wrapping "write RA drop-in: %w" [] (WriteFile dnsmasqRAConfPath conf 420) in
    reloadDnsmasq.

(** The registered callback is a call of the process, kept with the lease it
    is for. *)
Definition onLease (state : PrefixState) : svc v6 (result string) := LocalCall "onLease" [leaseHash state].

Definition dispatchLease (registered : bool) : svc v6 unit :=
  r ← v6_Status;
  match r with
  | Err _ => mret tt
  | Ok state =>
      s ← get;
      if String.eqb (leaseHash state) (v6_lastLeaseHash s) then mret tt
      else
        put (set_v6_lease (leaseHash state) s) ;;
        refreshRADropIn ;;
        if registered then onLease state ;; mret tt else mret tt
  end.

(** fsnotify's operations are bits; Create, Write, Rename and Chmod count. *)
Definition lease_ops : Z := 1 + 2 + 8 + 16.
Definition isLeaseEvent (name : string) (op : Z) (stateName : string) : bool :=
  String.eqb (Base name) stateName && negb (Z.land op lease_ops =? 0).

(** What the loop of [runLeaseWatcher] receives; the debounce timer delivers
    only while it is armed. *)
Inductive watch_event : Type :=
| WFile (name : string) (op : Z)
| WDebounce
| WError.

Definition watch_step (registered armed : bool) (ev : watch_event) : svc v6 bool :=
  match ev with
  | WFile name op => mret (if isLeaseEvent name op (Base ipv6StatePath) then true else armed)
  | WDebounce => if armed then dispatchLease registered ;; mret false else mret armed
  | WError => mret armed
  end.

Fixpoint watch_loop (registered armed : bool) (evs : list watch_event) : svc v6 bool :=
  match evs with
  | [] => mret armed
  | ev :: evs => armed ← watch_step registered armed ev; watch_loop registered armed evs
  end.

Definition runLeaseWatcher (registered : bool) (evs : list watch_event) : svc v6 bool :=
  dispatchLease registered ;; watch_loop registered false evs.

Definition StartLeaseWatcher : svc v6 (result unit) :=
  s ← get;
  match v6_watcherStop s with
  | Some _ => mret (Ok tt)
  | None =>
      let ch := v6_channels s in
      put (set_v6_watch (Some ch) (S ch) (v6_live s) s) ;;
      let stateDir := Dir ipv6StatePath in
      try! _ := wrapping "ensure state dir %s: %w" [stateDir] (LocalCall "os.MkdirAll" [stateDir]) in
      try! _ := wrapping "create fsnotify watcher: %w" [] (LocalCall "fsnotify.NewWatcher" []) in
      try! _ := wrapping "watch %s: %w" [stateDir] (LocalCall "fsnotify.Add" [stateDir]) in
      s ← get;
      put (set_v6_watch (v6_watcherStop s) (v6_channels s) (ch :: v6_live s) s) ;;
      mret (Ok tt)
  end.

(** The deferred calls of a watcher whose loop has ended. *)
Definition releaseWatcher (ch : nat) : svc v6 unit :=
  s ← get;
  let stop := if bool_decide (v6_watcherStop s = Some ch) then None else v6_watcherStop s in
  put (set_v6_watch stop (v6_channels s) (List.filter (fun c => negb (Nat.eqb c ch)) (v6_live s)) s).

(** Clears the marker; the watcher of the returned channel is told to leave
    and waited for. *)
Definition StopLeaseWatcher : svc v6 (option nat) :=
  s ← get;
  let ch := v6_watcherStop s in
  put (set_v6_watch None (v6_channels s) (v6_live s) s) ;;
  match ch with None => mret None | Some c => releaseWatcher c ;; mret (Some c) end.

End Delegation.

(** ** JSON into nested structs *)

Definition dec_uint64 {T} (set : Z -> T -> T) (j : json) (t : T) : option T :=
  match j with
  | JInt z => if (0 <=? z) && (z <? 2 ^ 64) then Some (set z t) else None
  | JNull => Some t
  | _ => None
  end.

Definition dec_struct {T U} (fields : list (string * (json -> U -> option U))) (get : T -> U) (set : U -> T -> T)
  (j : json) (t : T) : option T :=
  match j with
  | JNull => Some t
  | JObj members => (fun u => set u t) <$> set_members fields members (get t)
  | _ => None
  end.

(** What is left in the target when the error of [json.Unmarshal] is dropped:
    a member of the wrong type is skipped. *)
Definition unmarshal_kept {T} (fields : list (string * (json -> T -> option T))) (zero : T) (j : json) : T :=
  match j with
  | JObj members =>
      foldl (fun acc m => match find_field fields (fst m) with
                          | Some set => default acc (set (snd m) acc)
                          | None => acc
                          end) zero members
  | _ => zero
  end.

(** ** The 6in4 tunnel *)

Record TunnelStatus : Type := mkTunnel {
  ts_Active : bool; ts_Device : string; ts_ServerIPv4 : string; ts_ClientIPv6 : string; ts_RoutedPrefix : string;
  ts_MTU : Z; ts_LocalIPv4 : string; ts_LastApplied : Z; ts_LastDDNS : string; ts_LastDDNSTime : Z;
  ts_RxBytes : Z; ts_TxBytes : Z }.
Definition TunnelStatus_zero : TunnelStatus := mkTunnel false "" "" "" "" 0 "" zero_time "" zero_time 0 0.

Record DDNSResult : Type := mkDDNS { dd_Code : string; dd_IP : string; dd_Raw : string }.
Definition DDNSResult_zero : DDNSResult := mkDDNS "" "" "".

Definition parseDDNSResponse (body : string) : DDNSResult :=
  let body := TrimSpace body in
  match Fields body with
  | [] => mkDDNS "" "" body
  | [code] => mkDDNS code "" body
  | code :: ip :: _ => mkDDNS code ip body
  end.

Definition device (cfg : Config) : string := orDefault (TrimSpace (IPv6TunnelConfig_Device (v6_tunnel cfg))) "lkt6in4".
Definition effectiveMTU (cfg : Config) : Z := if pppoe_used cfg then 1452 else 1480.

Definition tunnel_validate (cfg : Config) : result unit :=
  let t := v6_tunnel cfg in
  guard! fail_if (String.eqb (IPv6TunnelConfig_ServerIPv4 t) "") (Errorf "6in4: ServerIPv4 not configured" []) ;;
  guard! fail_if (String.eqb (IPv6TunnelConfig_ClientIPv6 t) "") (Errorf "6in4: ClientIPv6 not configured" []) ;;
  fail_if (String.eqb (IPv6TunnelConfig_RoutedPrefix t) "") (Errorf "6in4: RoutedPrefix not configured" []).

(** Whether the tunnel should exist at all. *)
Definition wanted (cfg : Config) : bool := negb (v6_off cfg) && v6_6in4 cfg.

(** [url.QueryEscape]. *)
Definition upper_hex (d : Z) : ascii := ascii_of_N (Z.to_N (if d <? 10 then 48 + d else 55 + d)).
Fixpoint QueryEscape (s : string) : string :=
  match s with
  | "" => ""
  | String a s =>
      if is_alnum a || char_in "-_.~" a then String a (QueryEscape s)
      else if Ascii.eqb a " " then String "+" (QueryEscape s)
      else String "%" (String (upper_hex (byte_val a / 16)) (String (upper_hex (byte_val a mod 16)) (QueryEscape s)))
  end.

(** [url.Values.Encode] sorts by key. *)
Definition ddns_url (t : IPv6TunnelConfig) (ipv4 : string) : string :=
  "https://ipv4.tunnelbroker.net/nic/update?hostname=" +:+ QueryEscape (IPv6TunnelConfig_TunnelID t)
  +:+ "&myip=" +:+ QueryEscape ipv4.

Definition maxDDNSResponseBytes : nat := 4096.

Section Tunnel.

(** JSON text and tree, RFC 3339 text. *)
Variables (json_text : json -> string) (json_read : string -> option json).
Variables (time_text : Z -> string) (time_read : string -> option Z).

Definition tunnel_json (st : TunnelStatus) : json :=
  JObj ([("active", JBool (ts_Active st)); ("device", marshal_string (ts_Device st));
         ("serverIPv4", marshal_string (ts_ServerIPv4 st)); ("clientIPv6", marshal_string (ts_ClientIPv6 st));
         ("routedPrefix", marshal_string (ts_RoutedPrefix st)); ("mtu", JInt (ts_MTU st));
         ("localIPv4", marshal_string (ts_LocalIPv4 st)); ("lastApplied", JStr (time_text (ts_LastApplied st)))]
        ++ (if String.eqb (ts_LastDDNS st) "" then [] else [("lastDDNS", marshal_string (ts_LastDDNS st))])
        ++ [("lastDDNSTime", JStr (time_text (ts_LastDDNSTime st)))]
        ++ (if ts_RxBytes st =? 0 then [] else [("rxBytes", JInt (ts_RxBytes st))])
        ++ (if ts_TxBytes st =? 0 then [] else [("txBytes", JInt (ts_TxBytes st))])).

Definition dec_when {T} (set : Z -> T -> T) (j : json) (t : T) : option T :=
  match j with JStr s => (fun v => set v t) <$> time_read s | JNull => Some t | _ => None end.

Definition tunnel_fields : list (string * (json -> TunnelStatus -> option TunnelStatus)) :=
  [("active", dec_bool (fun v t => mkTunnel v (ts_Device t) (ts_ServerIPv4 t) (ts_ClientIPv6 t) (ts_RoutedPrefix t) (ts_MTU t) (ts_LocalIPv4 t) (ts_LastApplied t) (ts_LastDDNS t) (ts_LastDDNSTime t) (ts_RxBytes t) (ts_TxBytes t)));
   ("device", dec_string (fun v t => mkTunnel (ts_Active t) v (ts_ServerIPv4 t) (ts_ClientIPv6 t) (ts_RoutedPrefix t) (ts_MTU t) (ts_LocalIPv4 t) (ts_LastApplied t) (ts_LastDDNS t) (ts_LastDDNSTime t) (ts_RxBytes t) (ts_TxBytes t)));
   ("serverIPv4", dec_string (fun v t => mkTunnel (ts_Active t) (ts_Device t) v (ts_ClientIPv6 t) (ts_RoutedPrefix t) (ts_MTU t) (ts_LocalIPv4 t) (ts_LastApplied t) (ts_LastDDNS t) (ts_LastDDNSTime t) (ts_RxBytes t) (ts_TxBytes t)));
   ("clientIPv6", dec_string (fun v t => mkTunnel (ts_Active t) (ts_Device t) (ts_ServerIPv4 t) v (ts_RoutedPrefix t) (ts_MTU t) (ts_LocalIPv4 t) (ts_LastApplied t) (ts_LastDDNS t) (ts_LastDDNSTime t) (ts_RxBytes t) (ts_TxBytes t)));
   ("routedPrefix", dec_string (fun v t => mkTunnel (ts_Active t) (ts_Device t) (ts_ServerIPv4 t) (ts_ClientIPv6 t) v (ts_MTU t) (ts_LocalIPv4 t) (ts_LastApplied t) (ts_LastDDNS t) (ts_LastDDNSTime t) (ts_RxBytes t) (ts_TxBytes t)));
   ("mtu", dec_int (fun v t => mkTunnel (ts_Active t) (ts_Device t) (ts_ServerIPv4 t) (ts_ClientIPv6 t) (ts_RoutedPrefix t) v (ts_LocalIPv4 t) (ts_LastApplied t) (ts_LastDDNS t) (ts_LastDDNSTime t) (ts_RxBytes t) (ts_TxBytes t)));
   ("localIPv4", dec_string (fun v t => mkTunnel (ts_Active t) (ts_Device t) (ts_ServerIPv4 t) (ts_ClientIPv6 t) (ts_RoutedPrefix t) (ts_MTU t) v (ts_LastApplied t) (ts_LastDDNS t) (ts_LastDDNSTime t) (ts_RxBytes t) (ts_TxBytes t)));
   ("lastApplied", dec_when (fun v t => mkTunnel (ts_Active t) (ts_Device t) (ts_ServerIPv4 t) (ts_ClientIPv6 t) (ts_RoutedPrefix t) (ts_MTU t) (ts_LocalIPv4 t) v (ts_LastDDNS t) (ts_LastDDNSTime t) (ts_RxBytes t) (ts_TxBytes t)));
   ("lastDDNS", dec_string (fun v t => mkTunnel (ts_Active t) (ts_Device t) (ts_ServerIPv4 t) (ts_ClientIPv6 t) (ts_RoutedPrefix t) (ts_MTU t) (ts_LocalIPv4 t) (ts_LastApplied t) v (ts_LastDDNSTime t) (ts_RxBytes t) (ts_TxBytes t)));
   ("lastDDNSTime", dec_when (fun v t => mkTunnel (ts_Active t) (ts_Device t) (ts_ServerIPv4 t) (ts_ClientIPv6 t) (ts_RoutedPrefix t) (ts_MTU t) (ts_LocalIPv4 t) (ts_LastApplied t) (ts_LastDDNS t) v (ts_RxBytes t) (ts_TxBytes t)));
   ("rxBytes", dec_uint64 (fun v t => mkTunnel (ts_Active t) (ts_Device t) (ts_ServerIPv4 t) (ts_ClientIPv6 t) (ts_RoutedPrefix t) (ts_MTU t) (ts_LocalIPv4 t) (ts_LastApplied t) (ts_LastDDNS t) (ts_LastDDNSTime t) v (ts_TxBytes t)));
   ("txBytes", dec_uint64 (fun v t => mkTunnel (ts_Active t) (ts_Device t) (ts_ServerIPv4 t) (ts_ClientIPv6 t) (ts_RoutedPrefix t) (ts_MTU t) (ts_LocalIPv4 t) (ts_LastApplied t) (ts_LastDDNS t) (ts_LastDDNSTime t) (ts_RxBytes t) v))].

Definition tunnelStatePath : string := "/var/lib/lankeeper/state/ipv6-tunnel.json".

Definition persistState (st : TunnelStatus) : svc v6 (result unit) :=
  WriteFile tunnelStatePath (json_text (tunnel_json st)) 420.

(** The WAN-side IPv4 address; [no IPv4] when the device has none. *)
Definition localIPv4 : svc v6 (result string) :=
  s ← get;
  let cfg := v6_cfg s in
  let dev := if pppoe_used cfg then "ppp0"
             else match List.find (fun i => String.eqb (InterfaceConfig_Role i) "wan") (Config_Interfaces cfg) with
                  | Some i => InterfaceConfig_Device i
                  | None => "ppp0"
                  end in
  try! addrs := wrapping "read %s addresses: %w" [dev] (GetInterfaceAddresses dev) in
  mret match List.find (fun a => negb (Contains a ":") && Contains a ".") addrs with
       | Some a => Ok (without_length a)
       | None => Err (Errorf "no IPv4 address on %s" [dev])
       end.

Definition tunnel_Start (now : Z) : svc v6 (result unit) :=
  s ← get;
  let cfg := v6_cfg s in
  let t := v6_tunnel cfg in
  match tunnel_validate cfg with
  | Err e => mret (Err e)
  | Ok _ =>
      try! localV4 := localIPv4 in
      let dev := device cfg in
      let mtu := effectiveMTU cfg in
      Run "ip" ["tunnel"; "del"; dev] ;;
      try! _ := wrapping "ip tunnel add: %w" []
        (Run "ip" ["tunnel"; "add"; dev; "mode"; "sit"; "remote"; IPv6TunnelConfig_ServerIPv4 t; "local"; localV4; "ttl"; "255"]) in
      try! _ := wrapping "ip link set up: %w" [] (Run "ip" ["link"; "set"; dev; "up"; "mtu"; itoa mtu]) in
      try! _ := wrapping "ip addr add: %w" [] (Run "ip" ["addr"; "add"; IPv6TunnelConfig_ClientIPv6 t; "dev"; dev]) in
      try! _ := wrapping "ip -6 route add: %w" [] (Run "ip" ["-6"; "route"; "add"; "::/0"; "dev"; dev]) in
      s ← get;
      put (set_v6_running true s) ;;
      persistState (mkTunnel true dev (IPv6TunnelConfig_ServerIPv4 t) (IPv6TunnelConfig_ClientIPv6 t)
                      (IPv6TunnelConfig_RoutedPrefix t) mtu localV4 now "" zero_time 0 0) ;;
      mret (Ok tt)
  end.

Definition tunnel_Stop : svc v6 (result unit) :=
  s ← get;
  let dev := device (v6_cfg s) in
  Run "ip" ["-6"; "route"; "del"; "::/0"; "dev"; dev] ;;
  Run "ip" ["link"; "set"; dev; "down"] ;;
  Run "ip" ["tunnel"; "del"; dev] ;;
  s ← get;
  put (set_v6_running false s) ;;
  persistState (mkTunnel false dev "" "" "" 0 "" zero_time "" zero_time 0 0) ;;
  mret (Ok tt).

Definition tunnel_Restart (now : Z) : svc v6 (result unit) :=
  try! _ := tunnel_Stop in tunnel_Start now.

Definition tunnel_ApplyConfig (now : Z) : svc v6 (result unit) :=
  s ← get; if wanted (v6_cfg s) then tunnel_Restart now else tunnel_Stop.

Definition IsRunning : svc v6 bool := s ← get; mret (v6_running s).

(** The counters of the first link of [ip -s -j link show]. *)
Definition direction_fields : list (string * (json -> Z -> option Z)) := [("bytes", dec_uint64 (fun v _ => v))].
Definition stats_fields : list (string * (json -> Z * Z -> option (Z * Z))) :=
  [("rx", dec_struct direction_fields fst (fun v p => (v, snd p)));
   ("tx", dec_struct direction_fields snd (fun v p => (fst p, v)))].
Definition entry_fields : list (string * (json -> Z * Z -> option (Z * Z))) :=
  [("stats64", dec_struct stats_fields id (fun v _ => v))].

Definition parseSitCounters (out : string) : option (Z * Z) :=
  match json_read out with
  | Some (JArr l) =>
      match mapM (unmarshal_struct entry_fields (0, 0)) l with Some (e :: _) => Some e | _ => None end
  | _ => None
  end.

Definition readSitCounters (dev : string) : svc v6 (option (Z * Z)) :=
  r ← Run "ip" ["-s"; "-j"; "link"; "show"; dev];
  mret match r with
       | Ok out => if String.eqb out "" then None else parseSitCounters out
       | Err _ => None
       end.

Definition tunnel_Status : svc v6 TunnelStatus :=
  r ← ReadFile tunnelStatePath;
  let st := match r with
            | Ok raw => if String.eqb raw "" then TunnelStatus_zero
                        else match json_read raw with
                             | Some j => unmarshal_kept tunnel_fields TunnelStatus_zero j
                             | None => TunnelStatus_zero
                             end
            | Err _ => TunnelStatus_zero
            end in
  s ← get;
  let dev := orDefault (ts_Device st) (device (v6_cfg s)) in
  let prefix := orDefault (ts_RoutedPrefix st) (IPv6TunnelConfig_RoutedPrefix (v6_tunnel (v6_cfg s))) in
  c ← readSitCounters dev;
  let '(rx, tx) := default (ts_RxBytes st, ts_TxBytes st) c in
  mret (mkTunnel (ts_Active st) dev (ts_ServerIPv4 st) (ts_ClientIPv6 st) prefix (ts_MTU st) (ts_LocalIPv4 st)
          (ts_LastApplied st) (ts_LastDDNS st) (ts_LastDDNSTime st) rx tx).

(** *** The endpoint update *)

(** One request with the credentials, and the reply cut at the limit. *)
Definition sendDDNSUpdate (t : IPv6TunnelConfig) (ipv4 : string) : svc v6 (result DDNSResult) :=
  try! _ := wrapping "nic/update: %w" []
              (LocalCall "http.Get" [ddns_url t ipv4; IPv6TunnelConfig_Username t; IPv6TunnelConfig_UpdateKey t]) in
  try! body := wrapping "read body: %w" [] (LocalCall "io.ReadAll" [ddns_url t ipv4]) in
  mret (Ok (parseDDNSResponse (substring 0 maxDDNSResponseBytes body))).

Definition recordDDNSResult (now : Z) (code : string) : svc v6 unit :=
  st ← tunnel_Status;
  if String.eqb (ts_Device st) "" then mret tt
  else
    persistState (mkTunnel (ts_Active st) (ts_Device st) (ts_ServerIPv4 st) (ts_ClientIPv6 st) (ts_RoutedPrefix st) (ts_MTU st)
      (ts_LocalIPv4 st) (ts_LastApplied st) code now (ts_RxBytes st) (ts_TxBytes st)) ;;
    mret tt.

Definition UpdateRemoteIPv4 (now : Z) (currentIPv4 : string) : svc v6 (result DDNSResult) :=
  if String.eqb currentIPv4 "" then mret (Err (Errorf "UpdateRemoteIPv4: empty IPv4" []))
  else
    s ← get;
    if String.eqb currentIPv4 (v6_lastIPv4 s) then mret (Ok (mkDDNS "nochg" currentIPv4 "dedup"))
    else
      let t := v6_tunnel (v6_cfg s) in
      if String.eqb (IPv6TunnelConfig_TunnelID t) "" || String.eqb (IPv6TunnelConfig_Username t) ""
         || String.eqb (IPv6TunnelConfig_UpdateKey t) ""
      then mret (Err (Errorf "UpdateRemoteIPv4: TunnelID/Username/UpdateKey not configured" []))
      else
        try! res := sendDDNSUpdate t currentIPv4 in
        s ← get;
        put (if String.eqb (dd_Code res) "good" || String.eqb (dd_Code res) "nochg"
             then set_v6_lastIPv4 currentIPv4 s else s) ;;
        recordDDNSResult now (dd_Code res) ;;
        mret (Ok res).

End Tunnel.

(** ** Handlers and hooks *)

Section Handlers.
Variables (ParseConf : string -> result (dhcp6cTemplateData -> result string))
  (ParseScript : string -> result (string -> result string))
  (ParseRA : string -> result (dnsmasqRATemplateData -> result string)).
Variables (json_text : json -> string) (json_read : string -> option json).
Variables (time_text : Z -> string) (time_read : string -> option Z).
Variable range_subnets : gmap string Z -> list (string * Z).
Variables (Error_text : error -> string) (is_EPERM : error -> bool).

Abbreviation apply6 := (v6_ApplyConfig ParseConf ParseScript ParseRA Error_text).
Abbreviation stop6 := (v6_Stop Error_text).
Abbreviation stop_tunnel := (tunnel_Stop json_text time_text).
Abbreviation apply_tunnel := (tunnel_ApplyConfig json_text time_text).
Abbreviation update_ddns := (UpdateRemoteIPv4 json_text json_read time_text time_read).

Definition applyTunnelForm (f : string -> string) (t : IPv6TunnelConfig) : IPv6TunnelConfig :=
  mkIPv6TunnelConfig (IPv6TunnelConfig_Provider t) (TrimSpace (f "tunnelServerIPv4")) (TrimSpace (f "tunnelClientIPv6"))
    (TrimSpace (f "tunnelRoutedPrefix")) (TrimSpace (f "tunnelID")) (TrimSpace (f "tunnelUsername"))
    (orDefault (f "tunnelUpdateKey") (IPv6TunnelConfig_UpdateKey t)) (String.eqb (f "tunnelAutoUpdate") "on")
    (orDefault (TrimSpace (f "tunnelDevice")) (IPv6TunnelConfig_Device t)).

Definition form_hint (f : string -> string) : string :=
  let h := TrimSpace (f "prefixHint") in
  if negb (String.eqb h "") && negb (HasPrefix h "/") then "/" +:+ h else h.

Definition applyIPv6Form (f : string -> string) (v : IPv6Config) : IPv6Config :=
  let enabled := if oneOf (f "enabled") ["auto"; "on"; "off"] then f "enabled" else "auto" in
  let mode := TrimSpace (f "mode") in
  let mode := if oneOf mode ["dhcpv6-pd"; "6in4"] then mode else "dhcpv6-pd" in
  let wan := set_IPv6WANConfig_PrefixHint (form_hint f)
               (set_IPv6WANConfig_RapidCommit (String.eqb (f "rapidCommit") "on")
                  (set_IPv6WANConfig_RequestPrefix (String.eqb (f "requestPrefix") "on") (IPv6Config_WAN v))) in
  set_IPv6Config_Tunnel (applyTunnelForm f (IPv6Config_Tunnel v))
    (set_IPv6Config_WAN wan (set_IPv6Config_Mode mode (set_IPv6Config_Enabled enabled v))).

Definition stopUnwantedTunnel (previousMode : string) : svc v6 unit :=
  s ← get;
  if wanted (v6_cfg s) || negb (String.eqb previousMode "6in4") then mret tt else stop_tunnel ;; mret tt.

Definition HandleSave (now : Z) (r : hreq) : svc v6 hresp :=
  match hq_parse r with
  | Err _ => mret (clientError StatusBadRequest "error.badForm")
  | Ok _ =>
      s ← get;
      let previousMode := IPv6Config_Mode (Config_IPv6 (v6_cfg s)) in
      put (set_v6_cfg (update_v6 (applyIPv6Form (hq_form r)) (v6_cfg s)) s) ;;
      s ← get;
      saved ← SaveToFile (v6_cfg s);
      match saved with
      | Err _ => mret (clientError StatusInternalServerError "error.saveFailed")
      | Ok _ =>
          stopUnwantedTunnel previousMode ;;
          res ← apply6;
          match res with
          | Err e => mret (fail StatusInternalServerError e)
          | Ok _ => apply_tunnel now ;; mret (respondRefresh r "/ipv6")
          end
      end
  end.

Definition HandleTunnelUpdateNow (now : Z) (r : hreq) : svc v6 hresp :=
  st ← pppoe_Status is_EPERM;
  if String.eqb (ps_LocalIP st) "" then mret (clientError 503 "error.noWANIPv4")
  else
    res ← update_ddns now (ps_LocalIP st);
    mret match res with Err e => fail StatusInternalServerError e | Ok _ => respondRefresh r "/ipv6" end.

(** The map a submitted order stands for, or the reply that refuses it. *)
Fixpoint order_map (i : Z) (seen : list string) (m : gmap string Z) (l : list string) : hresp + gmap string Z :=
  match l with
  | [] => inr m
  | name :: l =>
      let name := TrimSpace name in
      if String.eqb name "" then inl (clientError StatusBadRequest "error.emptyOrderEntry")
      else if mem name seen then inl (clientErrorf StatusBadRequest "error.duplicateOrderEntry" name)
      else order_map (i + 1) (name :: seen) (<[name := i]> m) l
  end.

(** [body] is the first JSON value of the request, when there is one. *)
Definition HandleSubnetMap (body : option json) (r : hreq) : svc v6 hresp :=
  match body ≫= (fun j => dec_strings (fun l _ => l) j []) with
  | None => mret (clientError StatusBadRequest "error.invalidJSON")
  | Some order =>
      match order with
      | first :: _ =>
          if negb (String.eqb first "lan") then mret (clientError StatusBadRequest "error.firstEntryMustBeLAN")
          else match order_map 0 [] ∅ order with
               | inl reply => mret reply
               | inr m =>
                   res ← SetSubnetMap ParseConf ParseScript ParseRA range_subnets Error_text m;
                   mret match res with Err e => fail StatusBadRequest e | Ok _ => respondRefresh r "/ipv6" end
               end
      | [] => mret (clientError StatusBadRequest "error.firstEntryMustBeLAN")
      end
  end.

Definition unit_reply (r : hreq) (m : svc v6 (result unit)) : svc v6 hresp :=
  res ← m; mret match res with Err e => fail StatusInternalServerError e | Ok _ => respondRefresh r "/ipv6" end.

Definition HandleRenew (r : hreq) : svc v6 hresp := unit_reply r Renew.
Definition HandleRelease (r : hreq) : svc v6 hresp := unit_reply r (Release Error_text).
Definition HandleStart (r : hreq) : svc v6 hresp := unit_reply r v6_Start.
Definition HandleStop (r : hreq) : svc v6 hresp := unit_reply r stop6.

(** The hooks of [wireIPv6Hooks]. *)
Definition reconnectSixInFour (now : Z) : svc v6 (result unit) :=
  st ← pppoe_Status is_EPERM;
  s ← get;
  (if negb (String.eqb (ps_LocalIP st) "") && IPv6TunnelConfig_AutoUpdate (v6_tunnel (v6_cfg s))
   then update_ddns now (ps_LocalIP st) ;; mret tt else mret tt) ;;
  try! _ := wrapping "6in4 apply on connect: %w" [] (apply_tunnel now) in
  apply6.

Definition onConnect6 (now : Z) : svc v6 (result unit) :=
  s ← get; if v6_6in4 (v6_cfg s) then reconnectSixInFour now else v6_Restart.

Definition onDisconnect6 : svc v6 (result unit) :=
  s ← get; if v6_6in4 (v6_cfg s) then stop_tunnel else stop6.

End Handlers.

(** ** Lemmas: sub-prefixes *)

Lemma NoDup_map_inj {A B} (f : A -> B) l x y :
  List.NoDup (List.map f l) -> In x l -> In y l -> f x = f y -> x = y.
Proof.
  induction l as [|a l IH]; [done|]. cbn [List.map]. intros [Hn Hd]%List.NoDup_cons_iff.
  intros [->|Hx] [->|Hy] E; [done|..|by apply IH].
  - destruct Hn. rewrite E. by apply in_map.
  - destruct Hn. rewrite <- E. by apply in_map.
Qed.

Lemma check_entries_ok known seen l : check_entries known seen l = Ok tt ->
  Forall (fun e => 0 <= snd e) l /\ List.NoDup (List.map snd l) /\ Forall (fun e => ~ In (snd e) (List.map fst seen)) l.
Proof.
  revert seen. induction l as [|[key sla] l IH]; intros seen; cbn [check_entries]; [intros _; repeat constructor|].
  destruct (Z.ltb_spec sla 0) as [|Hs]; [done|]. destruct (negb _ && negb _); [done|].
  destruct (List.find _ seen) as [[? ?]|] eqn:Ef; [done|]. intros (H1 & H2 & H3)%IH.
  assert (Hn : ~ In sla (List.map fst seen)).
  { intros ([v k] & Hv & Hin)%in_map_iff. apply (List.find_none _ _ Ef) in Hin. cbn in Hv, Hin. lia. }
  repeat split; [by constructor|..].
  - cbn [List.map]. apply List.NoDup_cons_iff. split; [|done]. cbn.
    intros ([k v] & Hv & Hin)%in_map_iff. rewrite List.Forall_forall in H3. apply (H3 _ Hin). left. cbn in *. congruence.
  - constructor; [done|]. eapply List.Forall_impl; [|exact H3]. cbn. tauto.
Qed.

(** What the check guarantees of a map. *)
Definition good_map (m : gmap string Z) : Prop :=
  (forall k v, m !! k = Some v -> 0 <= v) /\ (forall k k' v, m !! k = Some v -> m !! k' = Some v -> k = k')
  /\ forall v, m !! "lan" = Some v -> v = 0.

Lemma ValidateSubnetMap_good range_subnets cfg m : range_subnets m ≡ₚ map_to_list m ->
  ValidateSubnetMap range_subnets cfg m = Ok tt -> good_map m.
Proof.
  intros Hrange H.
  assert (Hc : check_entries (vlan_ids cfg) [] (range_subnets m) = Ok tt /\ forall v, m !! "lan" = Some v -> v = 0).
  { revert H. unfold ValidateSubnetMap. destruct (m !! "lan") as [v|]; [|done].
    destruct (Z.eqb_spec v 0) as [->|]; [|done]. intros H. split; [done|]. by intros ? [= <-]. }
  destruct Hc as [(Hp & Hd & _)%check_entries_ok Hl].
  assert (Hin : forall k v, m !! k = Some v -> In (k, v) (range_subnets m)).
  { intros k v Hk. apply list_elem_of_In. rewrite Hrange. by apply elem_of_map_to_list. }
  repeat split; [..|done].
  - intros k v Hk. rewrite List.Forall_forall in Hp. exact (Hp _ (Hin _ _ Hk)).
  - intros k k' v Hk Hk'. pose proof (NoDup_map_inj snd _ _ _ Hd (Hin _ _ Hk) (Hin _ _ Hk') eq_refl). congruence.
Qed.

(** The map names every VLAN that can get a sub-prefix, or none. *)
Definition all_or_none (cfg : Config) (vs : list VLANConfig) : Prop :=
  Forall (fun v => is_Some (vlan_device cfg v) -> is_Some (subnet_map cfg !! VLANConfig_ID v)) vs
  \/ Forall (fun v => subnet_map cfg !! VLANConfig_ID v = None) vs.

Lemma all_or_none_tail cfg v vs : all_or_none cfg (v :: vs) -> all_or_none cfg vs.
Proof. intros [H|H]; apply List.Forall_cons_iff in H as [_ H]; [by left|by right]. Qed.

(** One entry of a pass over the VLANs [vs] with [auto] as the next free id. *)
Definition from_vlan (cfg : Config) (maxSLA auto : Z) (vs : list VLANConfig) (p : prefixInterface) : Prop :=
  exists v, In v vs /\ pi_Name p = VLANConfig_ID v /\ vlan_device cfg v = Some (pi_Device p) /\ pi_SLAID p <= maxSLA
  /\ (subnet_map cfg !! VLANConfig_ID v = Some (pi_SLAID p)
      \/ subnet_map cfg !! VLANConfig_ID v = None /\ auto <= pi_SLAID p).

Lemma from_vlan_later cfg maxSLA a a' v vs p : a <= a' -> from_vlan cfg maxSLA a' vs p -> from_vlan cfg maxSLA a (v :: vs) p.
Proof.
  intros Ha (u & Hu & Hn & Hv & Hm & Hs). exists u. repeat split; [by right|done..|].
  destruct Hs as [Hs|[Hs Hl]]; [by left|right]. split; [done|lia].
Qed.

(** The id of the first entry is not used again. *)
Lemma first_id_fresh cfg maxSLA auto v vs dev rest :
  good_map (subnet_map cfg) -> ~ In (VLANConfig_ID v) (List.map VLANConfig_ID vs) -> all_or_none cfg (v :: vs) ->
  vlan_device cfg v = Some dev -> Forall (from_vlan cfg maxSLA (auto + 1) vs) rest ->
  ~ In (pick cfg (VLANConfig_ID v) auto) (List.map pi_SLAID rest).
Proof.
  intros (_ & Hinj & _) Hn Hall Hv Hrest (q & Hq & Hin)%in_map_iff. rewrite List.Forall_forall in Hrest.
  destruct (Hrest q Hin) as (u & Hu & Hqn & Hdev & _ & Hs). unfold pick in Hq.
  destruct Hall as [H|H]; apply List.Forall_cons_iff in H as [Hm H]; rewrite List.Forall_forall in H.
  - destruct (Hm (mk_is_Some _ _ Hv)) as [k Hk]. rewrite Hk in Hq. cbn in Hq.
    destruct (H u Hu (mk_is_Some _ _ Hdev)) as [k' Hk']. destruct Hs as [Hs|[Hs _]]; [|congruence].
    apply Hn. rewrite (Hinj _ _ _ Hk (eq_trans Hs (f_equal Some Hq))). by apply in_map.
  - rewrite Hm in Hq. cbn in Hq. destruct Hs as [Hs|[_ Hs]]; [|lia]. by rewrite (H u Hu) in Hs.
Qed.

Lemma vlan_pass cfg maxSLA vs out auto : List.NoDup (List.map VLANConfig_ID vs) ->
  exists rest auto', foldl (vlan_step cfg maxSLA) (out, auto) vs = (out ++ rest, auto')
  /\ Forall (from_vlan cfg maxSLA auto vs) rest
  /\ (good_map (subnet_map cfg) -> all_or_none cfg vs -> List.NoDup (List.map pi_SLAID rest))
  /\ forall v dev k, In v vs -> vlan_device cfg v = Some dev -> subnet_map cfg !! VLANConfig_ID v = Some k -> k <= maxSLA ->
       In (mkPI (VLANConfig_ID v) dev k) rest.
Proof.
  intros Hd. revert out auto. induction vs as [|v vs IH]; intros out auto.
  { exists [], auto. rewrite app_nil_r. repeat split; try constructor. by intros. }
  apply List.NoDup_cons_iff in Hd as [Hn Hd]. cbn [foldl]. unfold vlan_step at 2.
  destruct (vlan_device cfg v) as [dev|] eqn:Ev.
  2: { destruct (IH Hd out auto) as (rest & auto' & -> & Ha & Hr & Hc). exists rest, auto'. repeat split.
       - eapply List.Forall_impl; [|exact Ha]. intros p. apply from_vlan_later. lia.
       - intros Hg Hall. by apply Hr; [|eapply all_or_none_tail].
       - intros u d k [->|Hu]; [congruence|]. by apply Hc. }
  destruct (Z.ltb_spec maxSLA (pick cfg (VLANConfig_ID v) auto)) as [Hlt|Hle].
  { destruct (IH Hd out auto) as (rest & auto' & -> & Ha & Hr & Hc). exists rest, auto'. repeat split.
    - eapply List.Forall_impl; [|exact Ha]. intros p. apply from_vlan_later. lia.
    - intros Hg Hall. by apply Hr; [|eapply all_or_none_tail].
    - intros u d k [->|Hu] Hdev Hk Hm; [|by apply Hc]. unfold pick in Hlt. rewrite Hk in Hlt. cbn in Hlt. lia. }
  set (p := mkPI (VLANConfig_ID v) dev (pick cfg (VLANConfig_ID v) auto)).
  destruct (IH Hd (out ++ [p]) (auto + 1)) as (rest & auto' & -> & Ha & Hr & Hc).
  exists (p :: rest), auto'. rewrite <- app_assoc. repeat split; [..|].
  - constructor.
    + exists v. cbn. repeat split; [by left|done..|]. unfold pick.
      destruct (subnet_map cfg !! VLANConfig_ID v); cbn; [by left|by right].
    + eapply List.Forall_impl; [|exact Ha]. intros q. apply from_vlan_later. lia.
  - intros Hg Hall. cbn [List.map]. apply List.NoDup_cons_iff. split; [by eapply first_id_fresh|].
    apply Hr; [done|]. by eapply all_or_none_tail.
  - intros u d k [->|Hu] Hdev Hk Hm; [left|right; by apply Hc]. unfold p, pick. rewrite Hk. cbn. congruence.
Qed.

Lemma shl64_one n : 0 <= n <= 16 -> shl64 1 n = 2 ^ n.
Proof.
  intros Hn. unfold shl64. destruct (Z.leb_spec 64 n); [lia|]. rewrite Z.shiftl_1_l. apply wrap64_id.
  pose proof (Z.pow_pos_nonneg 2 n eq_refl (proj1 Hn)). pose proof (Z.pow_le_mono_r 2 n 16 eq_refl (proj2 Hn)).
  unfold in_int64, int64_min, int64_max. apply andb_true_intro. split; apply Z.leb_le; lia.
Qed.

(** The map the page submits names the LAN and every VLAN that can get a
    sub-prefix; without one, no VLAN is named. *)
Definition complete_map (cfg : Config) : Prop :=
  subnet_map cfg !! "lan" = Some 0
  /\ Forall (fun v => is_Some (vlan_device cfg v) -> is_Some (subnet_map cfg !! VLANConfig_ID v)) (Config_VLANs cfg)
  \/ Forall (fun v => subnet_map cfg !! VLANConfig_ID v = None) (Config_VLANs cfg).

(** ** Correctness: sub-prefixes *)

(** C27: The interfaces that announce a sub-prefix have ids of their own inside
    the delegated prefix.  When no two VLANs have the same id and none is
    called lan, which the code does not rule out, then with a checked subnet
    map that names the LAN and the VLANs, or no VLAN, and a delegation of 48 to
    64 bits, the LAN comes first with id 0, no id is given twice, each lies
    below the number of /64 networks of the delegation, and a VLAN gets the id
    the map has for it whenever it fits. *)
Theorem sub_prefixes_distinct range_subnets cfg lanDev delegated :
  range_subnets (subnet_map cfg) ≡ₚ map_to_list (subnet_map cfg) ->
  ValidateSubnetMap range_subnets cfg (subnet_map cfg) = Ok tt ->
  List.NoDup (List.map VLANConfig_ID (Config_VLANs cfg)) -> ~ In "lan" (List.map VLANConfig_ID (Config_VLANs cfg)) ->
  complete_map cfg -> 48 <= delegated <= 64 ->
  let l := buildPrefixInterfaces cfg lanDev (sla_len delegated) in
  (exists rest, l = mkPI "lan" lanDev 0 :: rest)
  /\ List.NoDup (List.map pi_SLAID l)
  /\ Forall (fun p => 0 <= pi_SLAID p < 2 ^ (64 - delegated)) l
  /\ forall v dev k, delegated < 64 -> In v (Config_VLANs cfg) -> vlan_device cfg v = Some dev ->
       subnet_map cfg !! VLANConfig_ID v = Some k -> k < 2 ^ (64 - delegated) -> In (mkPI (VLANConfig_ID v) dev k) l.
Proof.
  intros Hrange Hok Hd Hlan Hcm Hdel l. pose proof (ValidateSubnetMap_good _ _ _ Hrange Hok) as Hg.
  assert (H0 : pick cfg "lan" 0 = 0).
  { unfold pick. destruct (subnet_map cfg !! "lan") as [k|] eqn:E; [|done]. cbn. by apply Hg. }
  pose proof (Z.pow_pos_nonneg 2 (64 - delegated) eq_refl ltac:(lia)) as Hpos.
  unfold l, buildPrefixInterfaces, sla_len. rewrite H0, Z.max_l by lia. destruct (Z.eqb_spec (64 - delegated) 0) as [E|E].
  { split; [by exists []|]. split; [repeat constructor; by intros []|]. split; [|lia].
    constructor; [cbn; lia|constructor]. }
  rewrite shl64_one by lia. set (maxSLA := 2 ^ (64 - delegated) - 1).
  destruct (vlan_pass cfg maxSLA (Config_VLANs cfg) [mkPI "lan" lanDev 0] 1 Hd) as (rest & auto' & -> & Hr & Hnd & Hall).
  cbn [fst app]. assert (Hid : Forall (fun p => 0 < pi_SLAID p <= maxSLA) rest).
  { eapply List.Forall_impl; [|exact Hr]. intros p (v & Hv & _ & Hdev & Hm & Hs). split; [|done].
    destruct Hs as [Hs|[_ Hs]]; [|lia]. destruct Hg as (Hpos' & Hinj & _). pose proof (Hpos' _ _ Hs).
    destruct (Z.eq_dec (pi_SLAID p) 0) as [Ez|]; [|lia]. exfalso. destruct Hcm as [[Hl _]|Hnone].
    - rewrite Ez in Hs. apply Hlan. rewrite (Hinj _ _ _ Hl Hs). by apply in_map.
    - rewrite List.Forall_forall in Hnone. by rewrite (Hnone v Hv) in Hs. }
  repeat split.
  - by exists rest.
  - cbn [List.map pi_SLAID]. apply List.NoDup_cons_iff. split.
    + intros (p & Hp & Hin)%in_map_iff. rewrite List.Forall_forall in Hid. specialize (Hid p Hin). cbn in Hid. lia.
    + apply Hnd; [done|]. destruct Hcm as [[_ H]|H]; [by left|by right].
  - constructor; [cbn; lia|]. eapply List.Forall_impl; [|exact Hid]. intros p. cbn. unfold maxSLA. lia.
  - intros v dev k _ Hv Hdev Hk Hlt. right. apply Hall; [done..|]. unfold maxSLA. lia.
Qed.

(** ** Lemmas: which plane a program touches *)

(** The call builds the tunnel. *)
Definition tunnel_add (c : call) : bool :=
  match c with
  | CRun name (a :: b :: _) _ => String.eqb name "ip" && String.eqb a "tunnel" && String.eqb b "add"
  | _ => false
  end.

(** The call starts or keeps up the delegation client. *)
Definition client_start (c : call) : bool :=
  match c with
  | CRun name (verb :: args) _ =>
      String.eqb name "systemctl" && negb (String.eqb verb "stop") && existsb (String.eqb dhcp6cUnitName) args
  | _ => false
  end.

(** A call that fits a configuration with [t] for the tunnel and [p] for the
    delegation. *)
Definition fits (t p : bool) (c : call) : Prop := (t = false -> tunnel_add c = false) /\ (p = false -> client_start c = false).
Definition planes (t p : bool) (dev : string) (s : v6) : Prop :=
  wanted (v6_cfg s) = t /\ pd_wanted (v6_cfg s) = p /\ device (v6_cfg s) = dev.

Ltac fit :=
  try match goal with |- planes _ _ _ (if ?c then _ else _) => destruct c end;
  first [ match goal with H : planes _ _ _ _ |- planes _ _ _ _ => exact H end | split; intros _; reflexivity ].

Section Planes.
Variables (ParseConf : string -> result (dhcp6cTemplateData -> result string))
  (ParseScript : string -> result (string -> result string))
  (ParseRA : string -> result (dnsmasqRATemplateData -> result string)).
Variables (json_text : json -> string) (json_read : string -> option json).
Variables (time_text : Z -> string) (time_read : string -> option Z).
Variable range_subnets : gmap string Z -> list (string * Z).
Variables (notExist : error -> bool) (Error_text : error -> string) (is_EPERM : error -> bool).

Section Fixed.
Variables (t p : bool) (dev : string).
Abbreviation follows := (keeps (fits t p) (planes t p dev)).

Lemma ulaPrefix_follows : follows ulaPrefix.
Proof. unfold ulaPrefix, generateULAPrefix. walk; fit. Qed.

Lemma RenderRAConfig_follows : follows (RenderRAConfig ParseRA).
Proof. unfold RenderRAConfig. walk. apply ulaPrefix_follows. Qed.

Lemma RenderToDisk_follows : follows (v6_RenderToDisk ParseConf ParseScript ParseRA).
Proof.
  unfold v6_RenderToDisk, writeIPv6DisabledStubs, writeDHCP6CFiles, writePDFiles, writeDHCP6CEnv, writeRAFile.
  walk; first [apply RenderRAConfig_follows | fit].
Qed.

Lemma ApplyConfig_follows : follows (v6_ApplyConfig ParseConf ParseScript ParseRA Error_text).
Proof.
  unfold v6_ApplyConfig, reloadDnsmasq, ApplyAcceptRA, restartUnit, stopUnit, unit_verb.
  walk; first [apply RenderToDisk_follows | fit | idtac].
  split; [reflexivity|]. intros Hp. repeat match goal with H : planes _ _ _ _ |- _ => destruct H as (? & ? & ?) end. congruence.
Qed.

Lemma tunnel_Stop_follows : follows (tunnel_Stop json_text time_text).
Proof. unfold tunnel_Stop, persistState. walk; fit. Qed.

Lemma tunnel_ApplyConfig_follows now : follows (tunnel_ApplyConfig json_text time_text now).
Proof.
  unfold tunnel_ApplyConfig, tunnel_Restart, tunnel_Start, localIPv4, GetInterfaceAddresses, persistState.
  walk; first [apply tunnel_Stop_follows | fit | idtac].
  split; [|reflexivity]. intros Ht. repeat match goal with H : planes _ _ _ _ |- _ => destruct H as (? & ? & ?) end. congruence.
Qed.

Lemma update_follows now ip : follows (UpdateRemoteIPv4 json_text json_read time_text time_read now ip).
Proof.
  unfold UpdateRemoteIPv4, sendDDNSUpdate, recordDDNSResult, tunnel_Status, readSitCounters, persistState.
  walk; fit.
Qed.

Lemma pppoe_Status_follows : follows (pppoe_Status is_EPERM).
Proof. unfold pppoe_Status, readPID, processExists, GetInterfaceAddresses. walk; fit. Qed.

Lemma stopUnwanted_follows previousMode : follows (stopUnwantedTunnel json_text time_text previousMode).
Proof. unfold stopUnwantedTunnel. walk. apply tunnel_Stop_follows. Qed.

Lemma SetSubnetMap_follows m : follows (SetSubnetMap ParseConf ParseScript ParseRA range_subnets Error_text m).
Proof. unfold SetSubnetMap. walk; first [apply ApplyConfig_follows | fit]. Qed.

Lemma dispatchLease_follows registered : follows (dispatchLease ParseRA json_read notExist registered).
Proof.
  unfold dispatchLease, v6_Status, refreshRADropIn, reloadDnsmasq, onLease.
  walk; first [apply RenderRAConfig_follows | fit].
Qed.

Lemma watcher_follows registered evs : follows (runLeaseWatcher ParseRA json_read notExist registered evs).
Proof.
  unfold runLeaseWatcher. walk; [apply dispatchLease_follows|]. generalize false as armed.
  induction evs as [|ev evs IH]; intros armed; cbn [watch_loop]; walk; [|apply IH].
  unfold watch_step. walk. apply dispatchLease_follows.
Qed.

Lemma reconnect_follows now :
  follows (reconnectSixInFour ParseConf ParseScript ParseRA json_text json_read time_text time_read Error_text is_EPERM now).
Proof.
  unfold reconnectSixInFour. walk;
    first [apply pppoe_Status_follows | apply update_follows | apply tunnel_ApplyConfig_follows | apply ApplyConfig_follows].
Qed.

End Fixed.

(** What reaches the services: the pages, the events of the link and those of
    the lease file. *)
Inductive v6_op : Type :=
| VSave (now : Z) (r : hreq)
| VSubnetMap (body : option json) (r : hreq)
| VUpdateNow (now : Z) (r : hreq)
| VRelease (r : hreq)
| VStop (r : hreq)
| VDisconnected
| VLease (registered : bool) (evs : list watch_event)
| VConnected (now : Z)
| VStart (r : hreq)
| VRenew (r : hreq).

Definition ignore {A} (m : svc v6 A) : svc v6 unit := m ;; mret tt.

Definition run_v6 (op : v6_op) : svc v6 unit :=
  match op with
  | VSave now r => ignore (HandleSave ParseConf ParseScript ParseRA json_text time_text Error_text now r)
  | VSubnetMap body r => ignore (HandleSubnetMap ParseConf ParseScript ParseRA range_subnets Error_text body r)
  | VUpdateNow now r => ignore (HandleTunnelUpdateNow json_text json_read time_text time_read is_EPERM now r)
  | VRelease r => ignore (HandleRelease Error_text r)
  | VStop r => ignore (HandleStop Error_text r)
  | VDisconnected => ignore (onDisconnect6 json_text time_text Error_text)
  | VLease registered evs => ignore (runLeaseWatcher ParseRA json_read notExist registered evs)
  | VConnected now =>
      ignore (onConnect6 ParseConf ParseScript ParseRA json_text json_read time_text time_read Error_text is_EPERM now)
  | VStart r => ignore (HandleStart r)
  | VRenew r => ignore (HandleRenew r)
  end.

(** The buttons that start the client and the link event do not ask the
    configuration whether it is wanted. *)
Definition config_driven (op : v6_op) : bool :=
  match op with VConnected _ | VStart _ | VRenew _ => false | _ => true end.

Lemma op_keeps op t p dev : (forall now r, op <> VSave now r) ->
  keeps (fits t (p || negb (config_driven op))) (planes t p dev) (run_v6 op).
Proof.
  intros Hs. destruct op as [now r| | | | | | |now| | ]; cbn [run_v6 config_driven negb]; rewrite ?orb_false_r, ?orb_true_r;
    [by destruct (Hs now r)|..]; unfold ignore; (apply keeps_bind; [|intros; apply keeps_ret]).
  - unfold HandleSubnetMap. walk. apply SetSubnetMap_follows.
  - unfold HandleTunnelUpdateNow. walk; [apply pppoe_Status_follows|apply update_follows].
  - unfold HandleRelease, unit_reply, Release, stopUnit. walk. fit.
  - unfold HandleStop, unit_reply, v6_Stop, stopUnit. walk. fit.
  - unfold onDisconnect6, v6_Stop, stopUnit. walk; first [apply tunnel_Stop_follows|fit].
  - apply watcher_follows.
  - unfold onConnect6, v6_Restart, restartUnit, unit_verb. walk; [|split; [reflexivity|done]].
    eapply triple_weaken; [|apply reconnect_follows]. intros c [Hc _]. by split.
  - unfold HandleStart, unit_reply, v6_Start, unit_verb. walk. split; [reflexivity|done].
  - unfold HandleRenew, unit_reply, Renew, unit_verb. walk. split; [reflexivity|done].
Qed.

(** Saving works on the configuration the form leaves. *)
Definition saved_state (r : hreq) (s : v6) : v6 := set_v6_cfg (update_v6 (applyIPv6Form (hq_form r)) (v6_cfg s)) s.

Lemma save_keeps now r s : exists t p dev,
  triple (fits t p) (eq s) (run_v6 (VSave now r)) (fun _ => planes t p dev).
Proof.
  cbn [run_v6]. unfold HandleSave, ignore. destruct (hq_parse r) as [u|e].
  - fold (saved_state r s). set (s1 := saved_state r s).
    set (t := wanted (v6_cfg s1)). set (p := pd_wanted (v6_cfg s1)). set (dev := device (v6_cfg s1)). exists t, p, dev.
    eapply triple_bind; [|intros; apply (keeps_ret _ (planes _ _ _))].
    apply triple_get_bind. intros ? <-. apply triple_put_bind.
    assert (H : forall A (m : svc v6 A), keeps (fits t p) (planes t p dev) m ->
      triple (fits t p) (eq s1) m (fun _ => planes t p dev)).
    { intros A m Hm w h ? <-. apply Hm. by repeat split. }
    apply H. walk; first [fit | apply stopUnwanted_follows | apply ApplyConfig_follows | apply tunnel_ApplyConfig_follows].
  - exists (wanted (v6_cfg s)), (pd_wanted (v6_cfg s)), (device (v6_cfg s)).
    eapply triple_bind; [|intros; apply (keeps_ret _ (planes _ _ _))]. apply triple_ret. intros ? <-. by repeat split.
Qed.

(** The call that settles the client, and the one that removes the tunnel. *)
Definition settle_client (cfg : Config) : call :=
  CRun "systemctl" [if pd_wanted cfg then "restart" else "stop"; dhcp6cUnitName] "".
Definition remove_tunnel (cfg : Config) : call := CRun "ip" ["tunnel"; "del"; device cfg] "".

(** The call is about the delegation client. *)
Definition client_call (c : call) : bool :=
  match c with CRun name args _ => String.eqb name "systemctl" && existsb (String.eqb dhcp6cUnitName) args | _ => false end.
Definition tunnel_del (c : call) : bool :=
  match c with
  | CRun name (a :: b :: _) _ => String.eqb name "ip" && String.eqb a "tunnel" && String.eqb b "del"
  | _ => false
  end.

Abbreviation never f := (keeps (fun c => f c = false) (fun _ : v6 => True)).

Lemma stop_never_adds : never tunnel_add (tunnel_Stop json_text time_text).
Proof. unfold tunnel_Stop, persistState. walk; done. Qed.

Lemma render_never_adds : never tunnel_add (v6_RenderToDisk ParseConf ParseScript ParseRA).
Proof.
  unfold v6_RenderToDisk, writeIPv6DisabledStubs, writeDHCP6CFiles, writePDFiles, writeDHCP6CEnv, writeRAFile, RenderRAConfig, ulaPrefix, generateULAPrefix.
  walk; done.
Qed.

(** Once a tunnel is built it is not taken down. *)
Fixpoint built_stays (l : list call) : Prop :=
  match l with [] => True | c :: l => if tunnel_add c then Forall (fun c => tunnel_del c = false) l else built_stays l end.

Lemma built_stays_app l l' : Forall (fun c => tunnel_add c = false) l -> built_stays l' -> built_stays (l ++ l').
Proof. induction 1 as [|c l Hc _ IH]; [done|]. cbn [app built_stays]. by rewrite Hc. Qed.

Lemma start_built_stays now w h s : exists t, snd (tunnel_Start json_text time_text now w h s) = h ++ t /\ built_stays t.
Proof.
  unfold tunnel_Start. cbv [mbind svc_bind get]. destruct (tunnel_validate (v6_cfg s)) as [u|e]; [|exists []; by rewrite app_nil_r].
  assert (Hl : never tunnel_add localIPv4) by (unfold localIPv4, GetInterfaceAddresses; walk; done).
  unfold try_bind. cbv [mbind svc_bind]. destruct (Hl w h s I) as [_ (t & Ht & HF)]. destruct (localIPv4 w h s) as [[[v4|e] s1] h1]; cbn [fst snd] in Ht; subst h1; [|exists t; split; [done|]; rewrite <- (app_nil_r t); by apply built_stays_app].
  cbv [wrapping Run perform mbind svc_bind mret svc_ret get put persistState WriteFile].
  repeat match goal with |- context [wrap_err _ _ (w ?k ?c)] => destruct (w k c); cbn [wrap_err] end;
    eexists; rewrite <- !app_assoc; (split; [reflexivity|]); apply built_stays_app; try done; by repeat constructor.
Qed.

Lemma tunnel_never_client now : never client_call (tunnel_ApplyConfig json_text time_text now).
Proof. unfold tunnel_ApplyConfig, tunnel_Restart, tunnel_Stop, tunnel_Start, localIPv4, GetInterfaceAddresses, persistState. walk; done. Qed.

(** Applying a configuration ends with the call that settles the client. *)
Lemma apply_settles w h s r s' h' :
  v6_ApplyConfig ParseConf ParseScript ParseRA Error_text w h s = (Ok r, s', h') ->
  planes (wanted (v6_cfg s)) (pd_wanted (v6_cfg s)) (device (v6_cfg s)) s'
  /\ exists t, h' = h ++ t ++ [settle_client (v6_cfg s)] /\ Forall (fun c => tunnel_add c = false) t.
Proof.
  intros H. pose proof (ApplyConfig_follows _ _ _ w h s (conj eq_refl (conj eq_refl eq_refl))) as [Hp _].
  rewrite H in Hp. split; [exact Hp|]. revert H. unfold v6_ApplyConfig, try_bind. cbv [mbind svc_bind].
  pose proof (RenderToDisk_follows _ _ _ w h s (conj eq_refl (conj eq_refl eq_refl))) as [H1 _].
  pose proof (render_never_adds w h s I) as [_ (t1 & Ht1 & HF1)].
  destruct (v6_RenderToDisk _ _ _ w h s) as [[[u|e] s1] h1]; cbn [fst snd] in H1, Ht1; [|done].
  destruct (reloadDnsmasq w h1 s1) as [[x s2] h2] eqn:E2. injection E2 as _ <- <-.
  assert (Ha : keeps (fits (wanted (v6_cfg s)) (pd_wanted (v6_cfg s)))
                 (planes (wanted (v6_cfg s)) (pd_wanted (v6_cfg s)) (device (v6_cfg s))) ApplyAcceptRA)
    by (unfold ApplyAcceptRA; walk; fit).
  assert (Hn : never tunnel_add ApplyAcceptRA) by (unfold ApplyAcceptRA; walk; done).
  match goal with |- context [ApplyAcceptRA w ?k s1] => destruct (Ha w k s1 H1) as [H3 _]; destruct (Hn w k s1 I) as [_ (t3 & Ht3 & HF3)];
    destruct (ApplyAcceptRA w k s1) as [[y s3] h3] end. cbn [fst snd] in H3, Ht3.
  destruct H3 as (_ & Hpd & _). unfold get. rewrite Hpd. unfold settle_client. subst h1 h3. intros Hend.
  exists (t1 ++ [CRun "systemctl" ["reload-or-restart"; "dnsmasq"] ""] ++ t3).
  split; [|rewrite !Forall_app; split; [done|split; [by repeat constructor|done]]].
  destruct (pd_wanted (v6_cfg s)); injection Hend as _ _ <-; by rewrite <- !app_assoc.
Qed.

(** The tunnel is taken down first, and not again. *)
Lemma tunnel_removed w h s now r s' h' :
  tunnel_ApplyConfig json_text time_text now w h s = (r, s', h') ->
  planes (wanted (v6_cfg s)) (pd_wanted (v6_cfg s)) (device (v6_cfg s)) s'
  /\ exists before after, h' = h ++ before ++ remove_tunnel (v6_cfg s) :: after
     /\ Forall (fun c => tunnel_add c = false) before /\ built_stays after
     /\ Forall (fun c => client_call c = false) (before ++ after).
Proof.
  intros H. pose proof (tunnel_ApplyConfig_follows _ _ _ now w h s (conj eq_refl (conj eq_refl eq_refl))) as [Hp _].
  pose proof (tunnel_never_client now w h s I) as [_ (t & Ht & HF)].
  rewrite H in Hp, Ht. split; [exact Hp|]. cbn [fst snd] in Ht.
  set (down := [CRun "ip" ["-6"; "route"; "del"; "::/0"; "dev"; device (v6_cfg s)] ""; CRun "ip" ["link"; "set"; device (v6_cfg s); "down"] ""]).
  assert (Hstop : exists x s1 rest, tunnel_Stop json_text time_text w h s = (Ok x, s1, h ++ down ++ remove_tunnel (v6_cfg s) :: rest)
                    /\ Forall (fun c => tunnel_add c = false) rest).
  { cbv [tunnel_Stop persistState WriteFile Run perform mbind svc_bind mret svc_ret get put].
    do 3 eexists. rewrite <- !app_assoc. split; [reflexivity|]. by repeat constructor. }
  destruct Hstop as (x & s1 & rest & Es & Hrest).
  assert (Hafter : exists after, h' = h ++ down ++ remove_tunnel (v6_cfg s) :: after /\ built_stays after).
  { revert H. unfold tunnel_ApplyConfig, tunnel_Restart, try_bind, get. cbv [mbind svc_bind].
    destruct (wanted (v6_cfg s)); rewrite Es; [|intros [= _ _ <-]; exists rest; split; [done|]; rewrite <- (app_nil_r rest); by apply built_stays_app].
    intros H. destruct (start_built_stays now w (h ++ down ++ remove_tunnel (v6_cfg s) :: rest) s1) as (t' & Ht' & HF').
    rewrite H in Ht'. cbn [fst snd] in Ht'. exists (rest ++ t'). split; [rewrite Ht', <- !app_assoc; done|by apply built_stays_app]. }
  destruct Hafter as (after & -> & Ha). exists down, after. split; [done|]. split; [by repeat constructor|]. split; [done|].
  apply app_inv_head in Ht. subst t. apply Forall_app in HF as [Hb Hr]. inversion Hr; subst. by apply Forall_app.
Qed.

(** An accepted form: saved, rendered, the client settled, the tunnel taken
    down before one is built and not after. *)
Lemma save_settles now r s w resp s' h' :
  HandleSave ParseConf ParseScript ParseRA json_text time_text Error_text now r w [] s = (resp, s', h') ->
  accepted resp = true ->
  let saved := v6_cfg (saved_state r s) in
  wanted (v6_cfg s') = wanted saved /\ pd_wanted (v6_cfg s') = pd_wanted saved /\ device (v6_cfg s') = device saved
  /\ exists pre mid post, h' = CSave saved :: pre ++ settle_client saved :: mid ++ remove_tunnel saved :: post
     /\ Forall (fun c => tunnel_add c = false) (pre ++ mid) /\ built_stays post
     /\ Forall (fun c => client_call c = false) (mid ++ post).
Proof.
  unfold HandleSave. destruct (hq_parse r); [|by intros [= <- _ _]].
  cbv [mbind svc_bind get put]. fold (saved_state r s). destruct (SaveToFile _ w [] _) as [[[u|e] s1] h1] eqn:E1;
    [|by intros [= <- _ _]]. injection E1 as _ <- <-.
  match goal with |- context [stopUnwantedTunnel json_text time_text _ w ?k _] => set (h1 := k) end.
  destruct (stopUnwantedTunnel json_text time_text _ w h1 (saved_state r s)) as [[x s2] h2] eqn:E2.
  assert (Hn : never tunnel_add (stopUnwantedTunnel json_text time_text (IPv6Config_Mode (Config_IPv6 (v6_cfg s)))))
    by (unfold stopUnwantedTunnel; walk; apply stop_never_adds).
  destruct (Hn w h1 (saved_state r s) I) as [_ (t2 & Ht2 & HF2)].
  pose proof (stopUnwanted_follows (wanted (v6_cfg (saved_state r s))) (pd_wanted (v6_cfg (saved_state r s)))
    (device (v6_cfg (saved_state r s))) (IPv6Config_Mode (Config_IPv6 (v6_cfg s))) w h1 (saved_state r s)
    (conj eq_refl (conj eq_refl eq_refl))) as [H2 _]. rewrite E2 in H2, Ht2. cbn [fst snd] in H2, Ht2.
  destruct (v6_ApplyConfig _ _ _ _ w h2 s2) as [[[u'|e] s3] h3] eqn:E3; [|by intros [= <- _ _]].
  apply apply_settles in E3 as [H3 (t3 & Ht3 & HF3)].
  destruct (tunnel_ApplyConfig json_text time_text now w h3 s3) as [[y s4] h4] eqn:E4.
  apply tunnel_removed in E4 as (H4 & mid & post & Ht4 & Hmid & Hpost & Hcl). intros [= _ <- <-] _. cbv zeta.
  destruct H2 as (Hw2 & Hp2 & Hd2), H3 as (Hw3 & Hp3 & Hd3), H4 as (Hw4 & Hp4 & Hd4).
  split; [congruence|]. split; [congruence|]. split; [congruence|].
  exists (t2 ++ t3), mid, post. split; [|split; [rewrite !Forall_app; done|done]].
  unfold settle_client, remove_tunnel in *. rewrite Ht4, Ht3, Ht2, Hp2, Hd3, Hd2. unfold h1. cbn [app]. by rewrite <- !app_assoc.
Qed.

(** ** Correctness: the planes *)

(** C26: What the IPv6 services do to the machine follows the configuration in
    memory.  Whatever is submitted and whatever the machine answers, no
    request, link event or lease change builds the tunnel unless the
    configuration left behind asks for it, and nothing but the start and renew
    buttons and the link event, which do not ask, starts the delegation client
    unless the configuration asks for delegation.  A settings form that is
    accepted has first been saved; after rendering, the client is restarted
    when delegation is wanted and stopped otherwise and not touched again, and
    then the tunnel device is taken down: no tunnel was built before that, and
    one built after it is not taken down again. *)
Theorem planes_follow_config op w s :
  let cfg := v6_cfg (state_after (run_v6 op) w s) in
  let calls := calls_of (run_v6 op) w s in
  (wanted cfg = false -> Forall (fun c => tunnel_add c = false) calls)
  /\ (config_driven op = true -> pd_wanted cfg = false -> Forall (fun c => client_start c = false) calls)
  /\ (forall now r, op = VSave now r ->
       accepted (outcome (HandleSave ParseConf ParseScript ParseRA json_text time_text Error_text now r) w s) = true ->
       let saved := v6_cfg (saved_state r s) in
       wanted cfg = wanted saved /\ pd_wanted cfg = pd_wanted saved /\ device cfg = device saved
       /\ exists pre mid post, calls = CSave saved :: pre ++ settle_client saved :: mid ++ remove_tunnel saved :: post
          /\ Forall (fun c => tunnel_add c = false) (pre ++ mid) /\ built_stays post
          /\ Forall (fun c => client_call c = false) (mid ++ post)).
Proof.
  intros cfg calls.
  assert (H : exists t p dev, planes t p dev (state_after (run_v6 op) w s)
    /\ Forall (fits t (p || negb (config_driven op))) calls).
  { destruct op as [now r| | | | | | | | | ];
      [destruct (save_keeps now r s) as (t & p & dev & Ht); exists t, p, dev;
         destruct (Ht w [] s eq_refl) as [Hp (l & Hl & HF)]; split; [exact Hp|];
         unfold calls, calls_of; rewrite Hl; cbn [config_driven negb]; by rewrite orb_false_r|..].
    all: exists (wanted (v6_cfg s)), (pd_wanted (v6_cfg s)), (device (v6_cfg s)).
    all: eapply and_comm, keeps_calls; [by apply op_keeps|by repeat split]. }
  destruct H as (t & p & dev & (Hw & Hp & _) & HF). fold cfg in Hw, Hp. split; [|split].
  - intros Hc. eapply List.Forall_impl; [|exact HF]. intros c [Hf _]. apply Hf. congruence.
  - intros Hd Hc. eapply List.Forall_impl; [|exact HF]. intros c [_ Hf]. apply Hf. by rewrite <- Hp, Hc, Hd.
  - intros now r -> Ha. unfold cfg, calls, calls_of, state_after, outcome in *. cbn [run_v6] in *. unfold ignore in *.
    cbv [mbind svc_bind mret svc_ret] in *. destruct (HandleSave _ _ _ _ _ _ now r w [] s) as [[resp s'] h'] eqn:E.
    cbn [fst snd] in *. by eapply save_settles.
Qed.
End Planes.

(** ** Lemmas: the lease watcher *)

(** The lease a call announces to the callback. *)
Definition notice (c : call) : option string :=
  match c with CLocal what [h] => if String.eqb what "onLease" then Some h else None | _ => None end.
Definition notices (calls : list call) : list string := omap notice calls.

(** Each differs from the one before it, the first from [h]. *)
Fixpoint changes (h : string) (l : list string) : Prop :=
  match l with [] => True | x :: l => x <> h /\ changes x l end.
Fixpoint latest (h : string) (l : list string) : string :=
  match l with [] => h | x :: l => latest x l end.

Lemma notices_app l l' : notices (l ++ l') = notices l ++ notices l'.
Proof. apply omap_app. Qed.

Lemma changes_app h l l' : changes h l -> changes (latest h l) l' -> changes h (l ++ l').
Proof. revert h. induction l as [|x l IH]; intros h; [done|]. cbn. intros [Hx Hl] H'. split; [done|]. by apply IH. Qed.

Lemma latest_app h l l' : latest h (l ++ l') = latest (latest h l) l'.
Proof. revert h. induction l as [|x l IH]; intros h; [done|]. apply IH. Qed.

Lemma notices_none l : Forall (fun c => notice c = None) l -> notices l = [].
Proof. induction 1 as [|c l Hc Hl IH]; [done|]. unfold notices in *. cbn. by rewrite Hc. Qed.

Section Watcher.
Variables (ParseRA : string -> result (dnsmasqRATemplateData -> result string)) (json_read : string -> option json).
Variable notExist : error -> bool.

Abbreviation status := (v6_Status json_read notExist).
Abbreviation dispatch := (dispatchLease ParseRA json_read notExist true).

Lemma status_run w h s : exists r, status w h s = (r, s, h ++ [CReadFile ipv6StatePath]).
Proof. by eexists. Qed.

Lemma refresh_silent x :
  keeps (fun c => notice c = None) (fun s => v6_lastLeaseHash s = x) (refreshRADropIn ParseRA).
Proof.
  unfold refreshRADropIn, RenderRAConfig, ulaPrefix, generateULAPrefix, reloadDnsmasq. walk; done.
Qed.

(** A program step in terms of what it announces. *)
Definition announces {A} (m : svc v6 A) (w : world) (h : list call) (s : v6) : Prop :=
  exists t, snd (m w h s) = h ++ t /\ changes (v6_lastLeaseHash s) (notices t)
  /\ v6_lastLeaseHash (snd (fst (m w h s))) = latest (v6_lastLeaseHash s) (notices t).

Lemma dispatchLease_spec w h s :
  announces dispatch w h s
  /\ forall st, fst (fst (status w h s)) = Ok st -> v6_lastLeaseHash (snd (fst (dispatch w h s))) = leaseHash st.
Proof.
  unfold announces, dispatchLease. destruct (status_run w h s) as [r Er].
  rewrite (bind_run _ _ _ _ _ _ _ _ Er). rewrite Er. cbn [fst].
  assert (Hnone : notices [CReadFile ipv6StatePath] = []) by done.
  destruct r as [st|e]; [|by split; [exists [CReadFile ipv6StatePath]; rewrite Hnone|intros]].
  cbv [mbind svc_bind get put].
  destruct (String.eqb_spec (leaseHash st) (v6_lastLeaseHash s)) as [Eh|Hne].
  { split; [exists [CReadFile ipv6StatePath]; rewrite Hnone; done|]. intros st' [= <-]. cbn. congruence. }
  set (h1 := h ++ [CReadFile ipv6StatePath]). set (s1 := set_v6_lease (leaseHash st) s).
  destruct (refresh_silent (leaseHash st) w h1 s1 eq_refl) as [Hs2 (t & Ht & HF)].
  destruct (refreshRADropIn ParseRA w h1 s1) as [[x s2] h2]. cbn [fst snd] in Hs2, Ht. subst h2.
  cbv [onLease LocalCall perform mret svc_ret]. cbn [fst snd].
  split; [|intros st' [= <-]; exact Hs2].
  exists ([CReadFile ipv6StatePath] ++ t ++ [CLocal "onLease" [leaseHash st]]). unfold h1. rewrite <- !app_assoc.
  rewrite !notices_app, Hnone, (notices_none _ HF). cbn. repeat split; [done|exact Hs2].
Qed.

Lemma announces_bind {A B} (m : svc v6 A) (k : A -> svc v6 B) w h s :
  announces m w h s -> announces (k (fst (fst (m w h s)))) w (snd (m w h s)) (snd (fst (m w h s))) ->
  announces (mbind k m) w h s.
Proof.
  intros (t & Ht & Hc & Hl) (t' & Ht' & Hc' & Hl'). unfold announces. cbv [mbind svc_bind].
  destruct (m w h s) as [[a s1] h1]. cbn [fst snd] in *. subst h1. exists (t ++ t').
  rewrite Ht', app_assoc, notices_app, latest_app, <- Hl. split; [done|]. split; [|done].
  apply changes_app; [done|]. by rewrite <- Hl.
Qed.

Lemma announces_ret {A} (a : A) w h s : announces (mret a) w h s.
Proof. exists []. by rewrite app_nil_r. Qed.

Lemma step_announces armed ev w h s : announces (watch_step ParseRA json_read notExist true armed ev) w h s.
Proof.
  destruct ev as [name op| |]; cbn [watch_step]; [apply announces_ret| |apply announces_ret].
  destruct armed; [|apply announces_ret]. apply announces_bind; [apply dispatchLease_spec|apply announces_ret].
Qed.

Lemma loop_announces armed evs w h s : announces (watch_loop ParseRA json_read notExist true armed evs) w h s.
Proof.
  revert armed h s. induction evs as [|ev evs IH]; intros armed h s; cbn [watch_loop]; [apply announces_ret|].
  apply announces_bind; [apply step_announces|apply IH].
Qed.

Lemma loop_app armed evs evs' w h s :
  watch_loop ParseRA json_read notExist true armed (evs ++ evs') w h s
  = let '(a, s1, h1) := watch_loop ParseRA json_read notExist true armed evs w h s in
    watch_loop ParseRA json_read notExist true a evs' w h1 s1.
Proof.
  revert armed h s. induction evs as [|ev evs IH]; intros armed h s; [done|]. cbn [app watch_loop].
  cbv [mbind svc_bind]. destruct (watch_step _ _ _ _ armed ev w h s) as [[a s1] h1]. apply IH.
Qed.

(** The callback hears of every lease change once and in order: over any
    sequence of file events, timer firings and watcher errors, each lease it is
    called with differs from the one before, the last one is the lease the
    service remembers, and once a change of the lease file has been followed
    by the debounce window, that is the lease the file then holds, whenever it
    can be read. *)
Theorem lease_changes_delivered evs w s :
  let run l := runLeaseWatcher ParseRA json_read notExist true l w [] s in
  let heard := notices (snd (run evs)) in
  changes (v6_lastLeaseHash s) heard
  /\ v6_lastLeaseHash (snd (fst (run evs))) = latest (v6_lastLeaseHash s) heard
  /\ forall name op st, isLeaseEvent name op (Base ipv6StatePath) = true ->
       fst (fst (status w (snd (run evs)) (snd (fst (run evs))))) = Ok st ->
       latest (v6_lastLeaseHash s) (notices (snd (run (evs ++ [WFile name op; WDebounce])))) = leaseHash st.
Proof.
  intros run heard.
  assert (Hrun : forall l, announces (runLeaseWatcher ParseRA json_read notExist true l) w [] s).
  { intros l. unfold runLeaseWatcher. apply announces_bind; [apply dispatchLease_spec|apply loop_announces]. }
  destruct (Hrun evs) as (t & Ht & Hc & Hl). fold (run evs) in Ht, Hl. cbn [app] in Ht.
  unfold heard. rewrite Ht. split; [done|]. split; [done|].
  intros name op st Hev Hst. destruct (Hrun (evs ++ [WFile name op; WDebounce])) as (t' & Ht' & _ & Hl').
  fold (run (evs ++ [WFile name op; WDebounce])) in Ht', Hl'. cbn [app] in Ht'. rewrite Ht', <- Hl'. clear Ht' Hl'.
  revert Hst. rewrite <- Ht. unfold run, runLeaseWatcher. cbv [mbind svc_bind].
  destruct (dispatch w [] s) as [[u s1] h1]. rewrite loop_app.
  destruct (watch_loop _ _ _ _ false evs w h1 s1) as [[a s2] h2]. cbn [fst snd].
  intros Hst. cbn [watch_loop watch_step]. rewrite Hev. cbv [mbind svc_bind mret svc_ret].
  pose proof (proj2 (dispatchLease_spec w h2 s2) st Hst) as Hd.
  by destruct (dispatch w h2 s2) as [[? ?] ?].
Qed.
End Watcher.

(** ** Lemmas: the order a page submits *)

(** The position of each name is the id it gets. *)
Lemma order_map_spec i seen m l m' : order_map i seen m l = inr m' ->
  (forall j name, l !! j = Some name -> m' !! TrimSpace name = Some (i + Z.of_nat j))
  /\ forall k, ~ In k (List.map TrimSpace l) -> m' !! k = m !! k.
Proof.
  enough (H : order_map i seen m l = inr m' ->
    (forall j name, l !! j = Some name -> m' !! TrimSpace name = Some (i + Z.of_nat j))
    /\ (forall k, ~ In k (List.map TrimSpace l) -> m' !! k = m !! k)
    /\ Forall (fun x => ~ In (TrimSpace x) seen) l) by (intros E; destruct (H E) as (? & ? & _); done).
  revert i seen m. induction l as [|name l IH]; intros i seen m; cbn [order_map].
  { intros [= <-]. repeat split; try constructor. by intros []. }
  destruct (String.eqb (TrimSpace name) ""); [done|]. destruct (mem (TrimSpace name) seen) eqn:Em; [done|].
  intros H. apply IH in H as (Hpos & Hoth & Hseen).
  assert (Hfresh : ~ In (TrimSpace name) (List.map TrimSpace l)).
  { intros (x & Hx & Hin)%in_map_iff. rewrite List.Forall_forall in Hseen. apply (Hseen x Hin). left. done. }
  repeat split.
  - intros [|j] x Hx; cbn in Hx.
    + injection Hx as <-. etrans; [apply (Hoth _ Hfresh)|]. rewrite lookup_insert_eq. f_equal. lia.
    + rewrite (Hpos j x Hx). f_equal. lia.
  - intros k Hk. cbn [List.map] in Hk. etrans; [apply Hoth; intros ?; apply Hk; by right|].
    apply lookup_insert_ne. intros E. apply Hk. by left.
  - constructor.
    + intros Hin. apply mem_In in Hin. congruence.
    + eapply List.Forall_impl; [|exact Hseen]. cbn. tauto.
Qed.

(** ** Witnesses and behaviours worth knowing *)

Definition sample_iface (id dev role : string) : InterfaceConfig :=
  mkInterfaceConfig id dev id role "static" "" "" 0 "" "" "".
Definition sample_vlan (id : string) (vid : Z) : VLANConfig :=
  mkVLANConfig id "lan0" vid id "lan" "static" "" 0 false VLANDHCPConfig_zero.
Definition sample_v6 (m : gmap string Z) : Config :=
  set_subnet_map m (set_Config_VLANs [sample_vlan "guest" 20; sample_vlan "iot" 30]
    (set_Config_Interfaces [sample_iface "wan0" "eth0" "wan"; sample_iface "lan0" "eth1" "lan"] Config_zero)).
Definition sample_map : gmap string Z := <["lan" := 0]> (<["guest" := 2]> (<["iot" := 1]> ∅)).

Lemma sub_prefixes_distinct_witness :
  buildPrefixInterfaces (sample_v6 sample_map) "eth1" (sla_len 56)
  = [mkPI "lan" "eth1" 0; mkPI "guest" "eth1.20" 2; mkPI "iot" "eth1.30" 1]
  /\ List.NoDup (List.map pi_SLAID (buildPrefixInterfaces (sample_v6 sample_map) "eth1" (sla_len 56))).
Proof.
  split; [vm_compute; reflexivity|].
  refine (proj1 (proj2 (sub_prefixes_distinct map_to_list (sample_v6 sample_map) "eth1" 56 _ _ _ _ _ _))).
  - reflexivity.
  - vm_compute. reflexivity.
  - repeat constructor; cbn; intuition discriminate.
  - cbn. intuition discriminate.
  - left. split; [vm_compute; reflexivity|]. repeat constructor; intros _; eexists; vm_compute; reflexivity.
  - lia.
Defined.

(** A map that names only some VLANs passes the check and still gives two
    interfaces one sub-prefix: the ids handed out by position do not look at
    the map. *)
Lemma partial_map_collides :
  ValidateSubnetMap map_to_list (sample_v6 (<["iot" := 1]> ∅)) (<["iot" := 1]> ∅) = Ok tt
  /\ List.map pi_SLAID (buildPrefixInterfaces (sample_v6 (<["iot" := 1]> ∅)) "eth1" (sla_len 56)) = [0; 1; 1].
Proof. by split; vm_compute. Qed.

(** A VLAN called lan is looked up under the LAN's own entry and gets its
    sub-prefix a second time. *)
Lemma vlan_named_lan_collides :
  let cfg := set_Config_VLANs [sample_vlan "lan" 20] (sample_v6 (<["lan" := 0]> ∅)) in
  ValidateSubnetMap map_to_list cfg (subnet_map cfg) = Ok tt
  /\ List.map pi_SLAID (buildPrefixInterfaces cfg "eth1" (sla_len 56)) = [0; 0].
Proof. by split; vm_compute. Qed.

(** So does a map that leaves the LAN out and gives its id away. *)
Lemma map_without_lan_collides :
  ValidateSubnetMap map_to_list (sample_v6 (<["guest" := 0]> ∅)) (<["guest" := 0]> ∅) = Ok tt
  /\ List.map pi_SLAID (buildPrefixInterfaces (sample_v6 (<["guest" := 0]> ∅)) "eth1" (sla_len 56)) = [0; 0; 2].
Proof. by split; vm_compute. Qed.

(** Behind the agent a lease file that does not exist is an error: the error
    of the agent is wrapped, and the test for a missing file does not look
    inside. *)
Lemma missing_lease_is_error json_read notExist w h s e :
  w h (CReadFile ipv6StatePath) = Err (AgentClient.AgentError "file.read" ipv6StatePath e) ->
  exists e', fst (fst (v6_Status json_read notExist w h s)) = Err e'.
Proof. intros Hw. cbv [v6_Status ReadFile perform mbind svc_bind]. rewrite Hw. by eexists. Qed.

(** A watcher whose start failed is never started again: the marker stays. *)
Lemma failed_start_blocks_watcher w s e :
  v6_watcherStop s = None -> v6_live s = [] -> w [] (CLocal "os.MkdirAll" [Dir ipv6StatePath]) = Err e ->
  let s1 := state_after StartLeaseWatcher w s in
  is_ok (outcome StartLeaseWatcher w s) = false
  /\ forall w', outcome StartLeaseWatcher w' s1 = Ok tt /\ v6_live (state_after StartLeaseWatcher w' s1) = [].
Proof.
  intros Hs Hl Hw. unfold outcome, state_after, StartLeaseWatcher, try_bind, wrapping, LocalCall, perform.
  cbv [mbind svc_bind get put mret svc_ret]. rewrite Hs, Hw. cbn [wrap_err fst snd is_ok]. split; [done|].
  intros w'. cbn [v6_watcherStop set_v6_watch fst snd]. by split.
Qed.

(** The link event starts the delegation client of a configuration that has
    IPv6 switched off. *)
Lemma reconnect_starts_disabled_client ParseConf ParseScript ParseRA json_text json_read time_text time_read Error_text is_EPERM now w s :
  v6_off (v6_cfg s) = true -> v6_6in4 (v6_cfg s) = false ->
  calls_of (onConnect6 ParseConf ParseScript ParseRA json_text json_read time_text time_read Error_text is_EPERM now) w s
  = [CRun "systemctl" ["restart"; dhcp6cUnitName] ""].
Proof. intros _ H6. unfold calls_of, onConnect6. cbv [mbind svc_bind get]. by rewrite H6. Qed.

(** Asking for an update of the endpoint does not reach the provider while the
    address is the one last accepted. *)
Lemma update_now_skips_provider json_text json_read time_text time_read now w s ip :
  ip <> "" -> v6_lastIPv4 s = ip ->
  calls_of (UpdateRemoteIPv4 json_text json_read time_text time_read now ip) w s = [].
Proof.
  intros Hne Hl. apply String.eqb_neq in Hne. unfold calls_of, UpdateRemoteIPv4. rewrite Hne.
  cbv [mbind svc_bind get]. by rewrite Hl, String.eqb_refl.
Qed.

(** Rendering the advertisements writes the configuration file when it has to
    make up a local prefix. *)
Lemma render_saves_prefix : exists s, exists cfg,
  In (CSave cfg) (calls_of (RenderRAConfig (fun _ => Ok (fun _ => Ok ""))) (fun _ _ => Ok "abcde") s).
Proof.
  exists (mkV6 (update_v6 (fun v => set_IPv6Config_LAN (set_IPv6LANConfig_ULA (mkIPv6ULAConfig true "") (IPv6Config_LAN v)) v)
            (sample_v6 ∅)) false "" None 0 [] false "").
  eexists. right. left. vm_compute. reflexivity.
Qed.

(** ** The agent lets every call of the services through *)

Section Allowed.
Variables (ParseConf : string -> result (dhcp6cTemplateData -> result string))
  (ParseScript : string -> result (string -> result string))
  (ParseRA : string -> result (dnsmasqRATemplateData -> result string)).
Variables (json_text : json -> string) (json_read : string -> option json).
Variables (time_text : Z -> string) (time_read : string -> option Z).
Variables (notExist : error -> bool) (Error_text : error -> string).
Abbreviation ok := (keeps allowed (fun _ : v6 => True)).

Lemma RenderRA_allowed : ok (RenderRAConfig ParseRA).
Proof. unfold RenderRAConfig, ulaPrefix, generateULAPrefix. walk; first [allow_call|done]. Qed.

Lemma v6_ApplyConfig_allowed : ok (v6_ApplyConfig ParseConf ParseScript ParseRA Error_text).
Proof.
  unfold v6_ApplyConfig, v6_RenderToDisk, writeIPv6DisabledStubs, writeDHCP6CFiles, writePDFiles, writeDHCP6CEnv, writeRAFile,
    reloadDnsmasq, ApplyAcceptRA, restartUnit, stopUnit, unit_verb.
  walk; first [done|apply RenderRA_allowed|allow_call].
Qed.

Lemma dispatchLease_allowed registered : ok (dispatchLease ParseRA json_read notExist registered).
Proof.
  unfold dispatchLease, v6_Status, refreshRADropIn, reloadDnsmasq, onLease.
  walk; first [done|apply RenderRA_allowed|allow_call].
Qed.

Lemma tunnel_ApplyConfig_allowed now : ok (tunnel_ApplyConfig json_text time_text now).
Proof.
  unfold tunnel_ApplyConfig, tunnel_Restart, tunnel_Start, tunnel_Stop, localIPv4, GetInterfaceAddresses, persistState.
  walk; first [allow_call|done].
Qed.

Lemma update_allowed now ip : ok (UpdateRemoteIPv4 json_text json_read time_text time_read now ip).
Proof.
  unfold UpdateRemoteIPv4, sendDDNSUpdate, recordDDNSResult, tunnel_Status, readSitCounters, persistState.
  walk; first [allow_call|done].
Qed.
End Allowed.
