(* ===== verification/Network.v ===== *)
(** * internal/services/network.go, usbtethering.go, firstboot.go and
      internal/web/handlers/network.go, vlan.go

    The interface entries and the VLANs of the configuration, the devices that
    go with them, MAC cloning, the USB failover line and the first-boot
    bridge.  [Error_text] is the text of an error, [net_interfaces] decodes
    the kernel's list of interfaces; both are parameters. *)

From S2P Require Import Prelude GoStrings GoPath Regex GoNet GoIP Validate ConfigTypes Secrets Config AgentRules FirewallRender Sys Dns Dhcp Vpn Respond Openvpn Pppoe.

Local Open Scope Z_scope.
Local Open Scope go_scope.
Local Open Scope sys_scope.

(** What the services keep: the shared configuration and whether the USB line
    carries the traffic. *)
Record net : Type := mkNet { nw_cfg : Config; nw_active : bool }.

Definition on_cfg (f : Config -> Config) (s : net) : net := mkNet (f (nw_cfg s)) (nw_active s).

(** [x = f(x); return cfg.SaveToFile()]: the change stays when the save fails. *)
Definition change_and_save (f : Config -> Config) : svc net (result unit) :=
  s ← get;
  put (on_cfg f s) ;;
  SaveToFile (f (nw_cfg s)).

(** ** Interfaces of the kernel *)

Definition sysClassNet : string := "/sys/class/net".

Definition readSysfs (iface attr : string) : svc net string :=
  data ← LocalCall "os.ReadFile" [Join [sysClassNet; iface; attr]];
  mret (match data with Ok d => TrimSpace d | Err _ => "" end).

Definition GetInterfaceState (name : string) : svc net (result string) :=
  state ← readSysfs name "operstate";
  mret (if String.eqb state "" then Err (Errorf "interface %s not found" [name]) else Ok state).

Definition virtPrefixes : list string :=
  ["veth"; "br-"; "docker"; "virbr"; "vxlan"; "tun"; "tap"; "wg"; "ovpn"].

Definition isVirtualInterface (name : string) : svc net bool :=
  if existsb (HasPrefix name) virtPrefixes then mret true
  else target ← LocalCall "os.Readlink" [Join [sysClassNet; name]];
       mret (match target with Ok t => Contains t "/virtual/" | Err _ => false end).

Definition readDriverName (iface : string) : svc net string :=
  target ← LocalCall "os.Readlink" [Join [sysClassNet; iface; "device"; "driver"]];
  mret (match target with Ok t => Base t | Err _ => "" end).

(** [fmt.Sscanf] of one [%d] into a uint64 that holds zero. *)
Fixpoint digit_prefix (s : string) : string :=
  match s with
  | EmptyString => EmptyString
  | String a s' => if is_digit a then String a (digit_prefix s') else EmptyString
  end.
Definition sscan_uint64 (s : string) : Z :=
  match digits_value 0 (digit_prefix s) with
  | Some v => if v <? 2 ^ 64 then v else 0
  | None => 0
  end.

(** One line of /proc/net/dev; [None] goes on to the next. *)
Definition stats_line (name line : string) : option (result (Z * Z)) :=
  let line := TrimSpace line in
  if negb (HasPrefix line (name +:+ ":")) then None
  else
    let fields := Fields (match cut_byte ":" line with Some (_, rest) => rest | None => line end) in
    Some (if (length fields <? 10)%nat then Err (Errorf "unexpected format for %s" [name])
          else Ok (sscan_uint64 (nth 0 fields ""), sscan_uint64 (nth 8 fields ""))).

(** The loop of [ReadInterfaceStats]; the scanner ends at a line that does not
    fit its buffer. *)
Fixpoint scan_stats (name : string) (lines : list string) : result (Z * Z) :=
  match lines with
  | [] => Err (Errorf "interface %s not found in /proc/net/dev" [name])
  | l :: lines =>
      if MaxScanTokenSize <=? len l then Err (Errorf "interface %s not found in /proc/net/dev" [name])
      else match stats_line name l with
           | Some r => r
           | None => scan_stats name lines
           end
  end.

Definition ReadInterfaceStats (name : string) : svc net (result (Z * Z)) :=
  try! data := wrapping "open %s: %w" ["/proc/net/dev"] (LocalCall "os.ReadFile" ["/proc/net/dev"]) in
  mret (scan_stats name (scanned_lines data)).

(** What [net.Interfaces] reports of one interface. *)
Record netif : Type := mkNetif {
  ni_Name : string; ni_MAC : string; ni_MTU : Z; ni_loopback : bool; ni_up : bool }.

Record InterfaceInfo : Type := mkInfo {
  ii_Name : string; ii_MAC : string; ii_State : string; ii_Speed : string; ii_Driver : string; ii_MTU : Z;
  ii_Addresses : list string; ii_IsVirtual : bool }.

Definition interface_info (i : netif) : svc net InterfaceInfo :=
  virt ← isVirtualInterface (ni_Name i);
  speed ← readSysfs (ni_Name i) "speed";
  driver ← readDriverName (ni_Name i);
  addrs ← GetInterfaceAddresses (ni_Name i);
  mret (mkInfo (ni_Name i) (ni_MAC i) (if ni_up i then "up" else "down") speed driver (ni_MTU i)
         (match addrs with Ok l => l | Err _ => [] end) virt).

Fixpoint interface_infos (l : list netif) : svc net (list InterfaceInfo) :=
  match l with
  | [] => mret []
  | i :: l =>
      if ni_loopback i then interface_infos l
      else info ← interface_info i; rest ← interface_infos l; mret (info :: rest)
  end.

Section Kernel.
Variable net_interfaces : string -> list netif.

Definition netutil_DetectInterfaces : svc net (result (list InterfaceInfo)) :=
  try! answer := wrapping "list interfaces: %w" [] (LocalCall "net.Interfaces" []) in
  infos ← interface_infos (net_interfaces answer);
  mret (Ok infos).

Definition DetectInterfaces : svc net (result (list InterfaceInfo)) :=
  try! ifaces := netutil_DetectInterfaces in
  mret (Ok (List.filter (fun i => negb (ii_IsVirtual i)) ifaces)).

(** ** The first-boot bridge *)

Definition firstBootBridge : string := "br0".
Definition firstBootCIDR : string := "10.10.10.1/24".

Definition defaultFirstBootFlag : string := "/var/lib/lankeeper/.first-boot".

(** An unset variable reads as the empty string. *)
Definition firstBootFlagPath : svc net string :=
  p ← LocalCall "os.Getenv" ["LANKEEPER_FIRST_BOOT_FLAG"];
  mret (match p with Ok p => orDefault p defaultFirstBootFlag | Err _ => defaultFirstBootFlag end).

Definition IsActive : svc net bool :=
  path ← firstBootFlagPath;
  r ← LocalCall "os.Stat" [path];
  mret (is_ok r).

Definition WANDevices (cfg : Config) : list string :=
  List.filter nonempty (List.map InterfaceConfig_Device (List.filter (role_is "wan") (Config_Interfaces cfg))).

Definition physicalNICNames (ifaces : list InterfaceInfo) : list string :=
  List.map ii_Name (List.filter (fun i => negb (ii_IsVirtual i || String.eqb (ii_Name i) "lo")) ifaces).

Definition bringUpFirstBootBridge : svc net unit :=
  Run "ip" ["link"; "add"; firstBootBridge; "type"; "bridge"] ;;
  Run "ip" ["link"; "set"; firstBootBridge; "up"] ;;
  mret tt.

Definition enslaveNIC (nic : string) : svc net bool :=
  Run "ip" ["addr"; "flush"; "dev"; nic] ;;
  Run "ip" ["link"; "set"; nic; "up"] ;;
  r ← Run "ip" ["link"; "set"; nic; "master"; firstBootBridge];
  mret (is_ok r).

Fixpoint enslave_all (nics : list string) : svc net (list string) :=
  match nics with
  | [] => mret []
  | nic :: nics =>
      joined ← enslaveNIC nic;
      rest ← enslave_all nics;
      mret (if joined : bool then nic :: rest else rest)
  end.

(** The enslaved devices are returned beside the error. *)
Definition firstboot_Setup : svc net (list string * result unit) :=
  ifaces ← netutil_DetectInterfaces;
  match ifaces with
  | Err e => mret ([], Err (Errorw "detect interfaces: %w" [] e))
  | Ok ifaces =>
      let physicalNICs := physicalNICNames ifaces in
      if (length physicalNICs =? 0)%nat then mret ([], Err (Errorf "no physical NICs found" []))
      else
        bringUpFirstBootBridge ;;
        enslaved ← enslave_all physicalNICs;
        r ← Run "ip" ["addr"; "add"; firstBootCIDR; "dev"; firstBootBridge];
        mret (enslaved, discard (wrap_err "assign bridge IP: %w" [] r))
  end.

Definition firstboot_Complete : svc net (result unit) :=
  active ← IsActive;
  if negb active then mret (Err (Errorf "first-boot mode is not active" []))
  else
    s ← get;
    for_each (WANDevices (nw_cfg s)) (fun dev => Run "ip" ["link"; "set"; dev; "nomaster"]) ;;
    path ← firstBootFlagPath;
    try! _ := wrapping "clear first-boot flag: %w" [] (LocalCall "os.Remove" [path]) in
    mret (Ok tt).

Definition RemoveBridge : svc net unit :=
  Run "ip" ["link"; "set"; firstBootBridge; "down"] ;;
  Run "ip" ["link"; "del"; firstBootBridge] ;;
  mret tt.

Definition HandleCompleteFirstBoot (r : hreq) : svc net hresp :=
  answer StatusBadRequest (respondRefresh r "/network") firstboot_Complete.

End Kernel.

(** ** Interface entries *)

Record InterfaceStatus : Type := mkIStatus {
  is_Name : string; is_Label : string; is_Role : string; is_State : string; is_MTU : Z;
  is_Addresses : list string; is_RxBytes : Z; is_TxBytes : Z }.

Definition GetInterfaceStatus (name : string) : svc net (result InterfaceStatus) :=
  try! state := GetInterfaceState name in
  addrs ← GetInterfaceAddresses name;
  stats ← ReadInterfaceStats name;
  s ← get;
  let addrs := match addrs with Ok l => l | Err _ => [] end in
  let '(rx, tx) := match stats with Ok p => p | Err _ => (0, 0) end in
  mret (Ok match List.find (fun i => String.eqb (InterfaceConfig_Device i) name || String.eqb (InterfaceConfig_ID i) name)
                   (Config_Interfaces (nw_cfg s)) with
           | Some i => mkIStatus name (InterfaceConfig_Label i) (InterfaceConfig_Role i) state (InterfaceConfig_MTU i) addrs rx tx
           | None => mkIStatus name "" "" state 0 addrs rx tx
           end).

Definition interfaceRoles : list string := ["lan"; "wan"].
Definition interfaceTypes : list string := ["static"; "dhcp-client"; "pppoe"].

Definition ErrLastLANInterface : error := Errorf "the last LAN interface cannot be removed or reassigned" [].
Definition ErrInterfaceNotFound : error := Errorf "interface not found" [].
Definition ErrInvalidRole : error := Errorf "role must be lan or wan" [].
Definition ErrInvalidType : error := Errorf "type must be static, dhcp-client or pppoe" [].
Definition ErrDuplicateInterface : error := Errorf "another interface already uses that device" [].

(** An address is optional, and so is an MTU. *)
Definition optional_cidr (address : string) : result unit :=
  if String.eqb address "" then Ok tt else wrap_err "address: %w" [] (ValidateCIDR address).
Definition optional_mtu (mtu : Z) : result unit := if mtu =? 0 then Ok tt else ValidateMTU mtu.

Definition validateInterfaceEntry (i : InterfaceConfig) : result unit :=
  guard! wrap_err "id: %w" [] (ValidateInterfaceName (InterfaceConfig_ID i)) ;;
  guard! wrap_err "device: %w" [] (ValidateInterfaceName (InterfaceConfig_Device i)) ;;
  guard! fail_if (negb (mem (InterfaceConfig_Role i) interfaceRoles))
    (Errorw "%w: %q" [InterfaceConfig_Role i] ErrInvalidRole) ;;
  guard! fail_if (negb (mem (InterfaceConfig_Type i) interfaceTypes))
    (Errorw "%w: %q" [InterfaceConfig_Type i] ErrInvalidType) ;;
  guard! wrap_err "label: %w" [] (ValidateRuleName (InterfaceConfig_Label i)) ;;
  guard! optional_cidr (InterfaceConfig_Address i) ;;
  optional_mtu (InterfaceConfig_MTU i).

(** The position of the entry with the given id; [None] is the -1 of the
    code. *)
Definition interfaceIndex (cfg : Config) (id : string) : option nat :=
  fst <$> list_find (fun i => InterfaceConfig_ID i = id) (Config_Interfaces cfg).

Definition role_at (cfg : Config) (idx : nat) : string :=
  match Config_Interfaces cfg !! idx with Some i => InterfaceConfig_Role i | None => "" end.

Definition countLANExcept (cfg : Config) (id : string) : Z :=
  Z.of_nat (length (List.filter (fun i => negb (String.eqb (InterfaceConfig_ID i) id) && role_is "lan" i)
    (Config_Interfaces cfg))).

Definition SetInterface (i : InterfaceConfig) : svc net (result unit) :=
  match validateInterfaceEntry i with
  | Err e => mret (Err e)
  | Ok _ =>
      s ← get;
      let cfg := nw_cfg s in
      if existsb (fun x => negb (String.eqb (InterfaceConfig_ID x) (InterfaceConfig_ID i))
                           && String.eqb (InterfaceConfig_Device x) (InterfaceConfig_Device i)) (Config_Interfaces cfg)
      then mret (Err (Errorw "%w: %s" [InterfaceConfig_Device i] ErrDuplicateInterface))
      else match interfaceIndex cfg (InterfaceConfig_ID i) with
      | None => change_and_save (fun c => set_Config_Interfaces (Config_Interfaces c ++ [i]) c)
      | Some idx =>
          if String.eqb (role_at cfg idx) "lan" && negb (String.eqb (InterfaceConfig_Role i) "lan")
             && (countLANExcept cfg (InterfaceConfig_ID i) =? 0)
          then mret (Err ErrLastLANInterface)
          else change_and_save (fun c => set_Config_Interfaces (<[idx:=i]> (Config_Interfaces c)) c)
      end
  end.

Definition RemoveInterface (id : string) : svc net (result unit) :=
  s ← get;
  let cfg := nw_cfg s in
  match interfaceIndex cfg id with
  | None => mret (Err (Errorw "%w: %s" [id] ErrInterfaceNotFound))
  | Some idx =>
      if String.eqb (role_at cfg idx) "lan" && (countLANExcept cfg id =? 0)
      then mret (Err ErrLastLANInterface)
      else change_and_save (fun c => set_Config_Interfaces (delete idx (Config_Interfaces c)) c)
  end.

(** ** MAC cloning *)

Section Clone.
Variable unicode_fold : Z -> Z.

(** A file that can be read and holds the address already. *)
Definition already_set (current : result string) (cloneMAC : string) : bool :=
  match current with Ok c => EqualFold unicode_fold (TrimSpace c) cloneMAC | Err _ => false end.

Definition ApplyMACClone (device cloneMAC : string) : svc net (result unit) :=
  if String.eqb cloneMAC "" then mret (Ok tt)
  else match ValidateMAC cloneMAC with
  | Err e => mret (Err e)
  | Ok _ =>
      match ValidateInterfaceName device with
      | Err e => mret (Err e)
      | Ok _ =>
          current ← LocalCall "os.ReadFile" [Join [sysClassNet; device; "address"]];
          if already_set current cloneMAC then mret (Ok tt)
          else
            try! _ := wrapping "link down %s: %w" [device] (Run "ip" ["link"; "set"; device; "down"]) in
            try! _ := wrapping "set MAC %s on %s: %w" [cloneMAC; device]
                        (Run "ip" ["link"; "set"; device; "address"; cloneMAC]) in
            try! _ := wrapping "link up %s: %w" [device] (Run "ip" ["link"; "set"; device; "up"]) in
            mret (Ok tt)
      end
  end.

Definition RestoreMACClones : svc net unit :=
  s ← get;
  for_each (List.filter (fun i => nonempty (InterfaceConfig_CloneMAC i)) (Config_Interfaces (nw_cfg s)))
    (fun i => ApplyMACClone (InterfaceConfig_Device i) (InterfaceConfig_CloneMAC i)).

End Clone.

(** ** VLANs *)

Definition ErrInvalidVLAN : error := Errorf "invalid VLAN" [].

(** [^([0-9]+[smhdw]?|infinite)$] *)
Definition leaseTimePattern : regex :=
  RAlt (RSeq (rplus (RCls is_digit)) (ropt (RCls (char_in "smhdw")))) (rlit "infinite").

Definition validateVLANIdentity (cfg : Config) (v : VLANConfig) : result unit :=
  guard! wrap_err "id: %w" [] (ValidateInterfaceName (VLANConfig_ID v)) ;;
  guard! fail_if (negb (bool_decide (is_Some (interfaceIndex cfg (VLANConfig_Parent v)))))
    (Errorf "parent %q is not a configured interface" [VLANConfig_Parent v]) ;;
  guard! ValidateVLANID (VLANConfig_VID v) ;;
  match List.find (fun x => String.eqb (VLANConfig_ID x) (VLANConfig_ID v)
                    || String.eqb (VLANConfig_Parent x) (VLANConfig_Parent v) && (VLANConfig_VID x =? VLANConfig_VID v))
          (Config_VLANs cfg) with
  | None => Ok tt
  | Some x => if String.eqb (VLANConfig_ID x) (VLANConfig_ID v)
              then Err (Errorf "id %q is already in use" [VLANConfig_ID v])
              else Err (Errorf "VLAN %d already exists on %s" [itoa (VLANConfig_VID v); VLANConfig_Parent v])
  end.

Definition validateVLANFields (v : VLANConfig) : result unit :=
  guard! wrap_err "label: %w" [] (ValidateRuleName (VLANConfig_Label v)) ;;
  guard! fail_if (negb (mem (VLANConfig_Role v) interfaceRoles)) (Errorf "role %q" [VLANConfig_Role v]) ;;
  guard! fail_if (negb (mem (VLANConfig_Type v) interfaceTypes)) (Errorf "type %q" [VLANConfig_Type v]) ;;
  guard! optional_cidr (VLANConfig_Address v) ;;
  optional_mtu (VLANConfig_MTU v).

(** An end of the DHCP range: empty or an address of the subnet. *)
Definition range_address_ok (subnet : IPNet) (ip : string) : bool :=
  String.eqb ip "" || match ParseIP ip with Some a => Contains_ip subnet a | None => false end.

Definition validateVLANDHCP (v : VLANConfig) : result unit :=
  let dhcp := VLANConfig_DHCP v in
  if negb (VLANDHCPConfig_Enabled dhcp) then Ok tt
  else match ParseCIDR (VLANConfig_Address v) with
  | None => Err (Errorf "DHCP needs the VLAN address" [])
  | Some (_, subnet) =>
      match List.find (fun ip => negb (range_address_ok subnet ip))
              [VLANDHCPConfig_RangeStart dhcp; VLANDHCPConfig_RangeEnd dhcp] with
      | Some ip => Err (Errorf "DHCP range address %q is not in %s" [ip; IPNet_String subnet])
      | None => fail_if (nonempty (VLANDHCPConfig_LeaseTime dhcp)
                         && negb (matchb leaseTimePattern (VLANDHCPConfig_LeaseTime dhcp)))
                  (Errorf "lease time %q" [VLANDHCPConfig_LeaseTime dhcp])
      end
  end.

Definition servedSubnets (cfg : Config) : list string :=
  List.filter nonempty
    (List.map InterfaceConfig_Address (List.filter (role_is "lan") (Config_Interfaces cfg))
     ++ List.map VLANConfig_Address (Config_VLANs cfg)
     ++ [WGServerConfig_Address (VPNConfig_Server (Config_VPN cfg));
         OVPNServerConfig_Subnet (OpenVPNConfig_Server (Config_OpenVPN cfg))]).

(** Either network contains the base of the other; a text that is no CIDR
    overlaps nothing. *)
Definition overlaps (vNet : IPNet) (used : string) : bool :=
  match ParseCIDR used with
  | None => false
  | Some (_, uNet) => Contains_ip vNet (net_ip uNet) || Contains_ip uNet (net_ip vNet)
  end.

Definition validateVLANSubnet (cfg : Config) (v : VLANConfig) : result unit :=
  if String.eqb (VLANConfig_Address v) "" then Ok tt
  else match ParseCIDR (VLANConfig_Address v) with
  | None => Ok tt
  | Some (_, vNet) =>
      match List.find (overlaps vNet) (servedSubnets cfg) with
      | None => Ok tt
      | Some used =>
          Err (Errorf "address %s overlaps %s, which the router already serves"
                 [VLANConfig_Address v;
                  match ParseCIDR used with Some (_, uNet) => IPNet_String uNet | None => used end])
      end
  end.

(** The device of an entry on its parent. *)
Definition vlanDev (parentDevice : string) (vid : Z) : string := parentDevice +:+ "." +:+ itoa vid.

Definition CreateVLAN (parentDevice : string) (vid : Z) (address : string) (mtu : Z) : svc net (result unit) :=
  match ValidateVLANID vid with
  | Err e => mret (Err e)
  | Ok _ =>
      let dev := vlanDev parentDevice vid in
      try! _ := wrapping "create VLAN %d: %w" [itoa vid]
                  (Run "ip" ["link"; "add"; "link"; parentDevice; "name"; dev; "type"; "vlan"; "id"; itoa vid]) in
      try! _ := (if 0 <? mtu then wrapping "set mtu on %s: %w" [dev] (Run "ip" ["link"; "set"; dev; "mtu"; itoa mtu])
                 else mret (Ok "")) in
      try! _ := (if nonempty address
                 then wrapping "assign address to VLAN %d: %w" [itoa vid] (Run "ip" ["addr"; "add"; address; "dev"; dev])
                 else mret (Ok "")) in
      try! _ := wrapping "bring up VLAN %d: %w" [itoa vid] (Run "ip" ["link"; "set"; dev; "up"]) in
      mret (Ok tt)
  end.

Definition DeleteVLAN (parentDevice : string) (vid : Z) : svc net (result unit) :=
  let dev := vlanDev parentDevice vid in
  try! _ := wrapping "delete VLAN %s: %w" [dev] (Run "ip" ["link"; "delete"; dev]) in
  mret (Ok tt).

Definition storeVLANsLocked (next : list VLANConfig) : svc net (result unit) :=
  s ← get;
  put (on_cfg (set_Config_VLANs next) s) ;;
  r ← SaveToFile (set_Config_VLANs next (nw_cfg s));
  match r with
  | Ok _ => mret (Ok tt)
  | Err e =>
      now ← get;
      put (on_cfg (set_Config_VLANs (Config_VLANs (nw_cfg s))) now) ;;
      mret (Err (Errorw "save VLANs: %w" [] e))
  end.

(** The removed entry, when one has the id. *)
Definition RemoveVLAN (id : string) : svc net (option VLANConfig * result unit) :=
  s ← get;
  match list_find (fun v => VLANConfig_ID v = id) (Config_VLANs (nw_cfg s)) with
  | None => mret (None, Ok tt)
  | Some (i, v) => r ← storeVLANsLocked (delete i (Config_VLANs (nw_cfg s))); mret (Some v, r)
  end.

Section Messages.
Variable Error_text : error -> string.

Definition ValidateVLAN (cfg : Config) (v : VLANConfig) : result unit :=
  match (guard! validateVLANIdentity cfg v ;; guard! validateVLANFields v ;; guard! validateVLANDHCP v ;;
         validateVLANSubnet cfg v) with
  | Ok _ => Ok tt
  | Err e => Err (Errorw "%w: %v" [Error_text e] ErrInvalidVLAN)
  end.

Definition AddVLAN (v : VLANConfig) : svc net (result unit) :=
  s ← get;
  match ValidateVLAN (nw_cfg s) v with
  | Err e => mret (Err e)
  | Ok _ => storeVLANsLocked (Config_VLANs (nw_cfg s) ++ [v])
  end.

(** The loop of [RestoreVLANs] with the errors it collects. *)
Fixpoint restore_loop (cfg : Config) (vlans : list VLANConfig) (errs : list string) : svc net (list string) :=
  match vlans with
  | [] => mret errs
  | v :: vlans =>
      let parentDev := deviceByID (Config_Interfaces cfg) (VLANConfig_Parent v) in
      if String.eqb parentDev "" then
        restore_loop cfg vlans (errs ++ ["parent " +:+ VLANConfig_Parent v +:+ " not found for VLAN " +:+ itoa (VLANConfig_VID v)])
      else
        st ← GetInterfaceState (vlanDev parentDev (VLANConfig_VID v));
        match st with
        | Ok _ => restore_loop cfg vlans errs
        | Err _ =>
            r ← CreateVLAN parentDev (VLANConfig_VID v) (VLANConfig_Address v) (VLANConfig_MTU v);
            restore_loop cfg vlans
              (match r with Ok _ => errs | Err e => errs ++ ["VLAN " +:+ itoa (VLANConfig_VID v) +:+ ": " +:+ Error_text e] end)
        end
  end.

Definition RestoreVLANs : svc net (result unit) :=
  s ← get;
  errs ← restore_loop (nw_cfg s) (Config_VLANs (nw_cfg s)) [];
  mret (fail_if (negb (length errs =? 0)%nat) (Errorf "VLAN restore errors: %s" [join "; " errs])).

(** The entry the fields of the form describe. *)
Definition form_vlan (f : string -> string) (vid mtu : Z) : VLANConfig :=
  mkVLANConfig (f "id") (f "parent") vid (f "label") (f "role") (f "type") (f "address") mtu
    (oneOf (f "isolated") ["true"; "on"])
    (if oneOf (f "dhcpEnabled") ["true"; "on"]
     then mkVLANDHCPConfig true (f "dhcpRangeStart") (f "dhcpRangeEnd") (f "dhcpLeaseTime")
     else VLANDHCPConfig_zero).

(** The VLAN of a form, or the locale key of the first invalid field. *)
Definition parseVLANForm (r : hreq) : VLANConfig * string :=
  let f := hq_form r in
  match Atoi (f "vid") with
  | None => (VLANConfig_zero, "error.invalidVLANID")
  | Some vid =>
      if negb (is_ok (ValidateVLANID vid)) then (VLANConfig_zero, "error.invalidVLANID")
      else match Atoi (f "mtu") with
      | None =>
          if nonempty (f "mtu") then (VLANConfig_zero, "error.invalidMTU")
          else (form_vlan f vid 1500, "")
      | Some mtu => (form_vlan f vid (if mtu =? 0 then 1500 else mtu), "")
      end
  end.

Definition vlan_HandleAdd (r : hreq) : svc net hresp :=
  if negb (is_ok (hq_parse r)) then mret (clientError StatusBadRequest "error.badForm")
  else
    let '(vlan, key) := parseVLANForm r in
    if nonempty key then mret (clientError StatusBadRequest key)
    else
      a ← AddVLAN vlan;
      match a with
      | Err e => mret (if errors_Is e ErrInvalidVLAN then fail StatusBadRequest e else serverError "error.saveFailed" e)
      | Ok _ =>
          s ← get;
          let parentDev := deviceByID (Config_Interfaces (nw_cfg s)) (VLANConfig_Parent vlan) in
          (if nonempty parentDev
           then CreateVLAN parentDev (VLANConfig_VID vlan) (VLANConfig_Address vlan) (VLANConfig_MTU vlan)
           else mret (Ok tt)) ;;
          mret (respondRefresh r "/network")
      end.

End Messages.

Definition vlan_HandleDelete (r : hreq) : svc net hresp :=
  a ← RemoveVLAN (hq_path r "id");
  match a with
  | (_, Err e) => mret (serverError "error.saveFailed" e)
  | (None, Ok _) => mret (respondRefresh r "/network")
  | (Some v, Ok _) =>
      s ← get;
      let parentDev := deviceByID (Config_Interfaces (nw_cfg s)) (VLANConfig_Parent v) in
      (if nonempty parentDev then DeleteVLAN parentDev (VLANConfig_VID v) else mret (Ok tt)) ;;
      mret (respondRefresh r "/network")
  end.

(** ** The USB line *)

Definition usbInterface (cfg : Config) : string := orDefault (USBTetherConfig_Interface (Config_USBTether cfg)) "usb0".

Definition ErrPhoneNotConnected : error := Errorf "usb tethering interface is not present" [].

Definition on_usb (f : USBTetherConfig -> USBTetherConfig) (c : Config) : Config :=
  set_Config_USBTether (f (Config_USBTether c)) c.

Definition SetEnabled (enabled : bool) : svc net (result unit) :=
  change_and_save (on_usb (set_USBTetherConfig_Enabled enabled)).
Definition SetAutoFailover (enabled : bool) : svc net (result unit) :=
  change_and_save (on_usb (set_USBTetherConfig_AutoFailover enabled)).

Record USBTetheringStatus : Type := mkUStatus {
  us_Enabled : bool; us_AutoFailover : bool; us_PhoneConnected : bool; us_ActiveWAN : bool; us_Interface : string;
  us_IP : string }.

Definition usb_Status : svc net USBTetheringStatus :=
  s ← get;
  let u := Config_USBTether (nw_cfg s) in
  let iface := usbInterface (nw_cfg s) in
  state ← GetInterfaceState iface;
  match state with
  | Ok "up" =>
      addrs ← GetInterfaceAddresses iface;
      let ip := default "" (List.find nonempty (match addrs with Ok l => l | Err _ => [] end)) in
      mret (mkUStatus (USBTetherConfig_Enabled u) (USBTetherConfig_AutoFailover u) true (nw_active s) iface ip)
  | _ => mret (mkUStatus (USBTetherConfig_Enabled u) (USBTetherConfig_AutoFailover u) false (nw_active s) iface "")
  end.

Definition Activate : svc net (result unit) :=
  s ← get;
  let u := Config_USBTether (nw_cfg s) in
  let iface := usbInterface (nw_cfg s) in
  state ← GetInterfaceState iface;
  match state with
  | Err _ => mret (Err (Errorw "%w: %s" [iface] ErrPhoneNotConnected))
  | Ok state =>
      try! _ := (if String.eqb state "up" then mret (Ok "")
                 else wrapping "bring up %s: %w" [iface] (Run "ip" ["link"; "set"; iface; "up"])) in
      try! _ := wrapping "dhclient on %s: %w" [iface] (Run "dhclient" ["-1"; "-v"; iface]) in
      let metric := if USBTetherConfig_Metric u =? 0 then 100 else USBTetherConfig_Metric u in
      try! _ := wrapping "set USB default route: %w" []
                  (Run "ip" ["route"; "replace"; "default"; "dev"; iface; "metric"; itoa metric]) in
      (if USBTetherConfig_NAT u
       then Run "nft" ["add"; "rule"; "ip"; "nat"; "postrouting"; "oifname"; iface; "masquerade"]
       else mret (Ok "")) ;;
      now ← get;
      put (mkNet (nw_cfg now) true) ;;
      mret (Ok tt)
  end.

Definition Deactivate : svc net (result unit) :=
  s ← get;
  let iface := usbInterface (nw_cfg s) in
  Run "ip" ["route"; "del"; "default"; "dev"; iface] ;;
  Run "dhclient" ["-r"; iface] ;;
  now ← get;
  put (mkNet (nw_cfg now) false) ;;
  mret (Ok tt).

Definition usb_IsActive : svc net bool := s ← get; mret (nw_active s).

Definition IsPhoneConnected : svc net bool :=
  s ← get;
  state ← GetInterfaceState (usbInterface (nw_cfg s));
  mret (match state with Ok st => String.eqb st "up" | Err _ => false end).

(** ** Handlers *)

Definition interfaceError (e : error) : hresp :=
  if errors_Is e ErrLastLANInterface then clientError StatusBadRequest "error.lastLanInterface"
  else if errors_Is e ErrDuplicateInterface then clientError StatusBadRequest "error.duplicateInterfaceDevice"
  else if errors_Is e ErrInterfaceNotFound then clientError 404 "error.interfaceNotFound"
  else if errors_Is e ErrInvalidRole then clientError StatusBadRequest "error.invalidRole"
  else if errors_Is e ErrInvalidType then clientError StatusBadRequest "error.invalidType"
  else clientError StatusBadRequest "error.invalidInterface".

(** The entry the form describes. *)
Definition form_interface (r : hreq) (mtu : Z) : InterfaceConfig :=
  let f := hq_form r in
  mkInterfaceConfig (TrimSpace (f "id")) (TrimSpace (f "device")) (TrimSpace (f "label")) (f "role") (f "type")
    (TrimSpace (f "address")) "" mtu "" "" (f "ipv6").

Definition HandleSetInterface (r : hreq) : svc net hresp :=
  if negb (is_ok (hq_parse r)) then mret (clientError StatusBadRequest "error.badForm")
  else
    let raw := TrimSpace (hq_form r "mtu") in
    let set mtu :=
      a ← SetInterface (form_interface r mtu);
      mret (match a with Ok _ => respondRefresh r "/network" | Err e => interfaceError e end) in
    if String.eqb raw "" then set 0
    else match Atoi raw with
    | None => mret (clientError StatusBadRequest "error.invalidMTU")
    | Some mtu => set mtu
    end.

Definition HandleRemoveInterface (r : hreq) : svc net hresp :=
  a ← RemoveInterface (hq_path r "id");
  mret (match a with Ok _ => respondRefresh r "/network" | Err e => interfaceError e end).

Definition setUSBEnabled (r : hreq) (enabled : bool) : svc net hresp :=
  answer StatusInternalServerError (respondRefresh r "/network") (SetEnabled enabled).
Definition HandleUSBEnable (r : hreq) : svc net hresp := setUSBEnabled r true.
Definition HandleUSBDisable (r : hreq) : svc net hresp := setUSBEnabled r false.

Definition HandleUSBAutoFailover (r : hreq) : svc net hresp :=
  if negb (is_ok (hq_parse r)) then mret (clientError StatusBadRequest "error.badForm")
  else answer StatusInternalServerError (respondRefresh r "/network")
         (SetAutoFailover (String.eqb (hq_form r "enabled") "true")).

Definition HandleUSBActivate (r : hreq) : svc net hresp :=
  a ← Activate;
  mret (match a with
        | Ok _ => respondRefresh r "/network"
        | Err e => if errors_Is e ErrPhoneNotConnected then clientError StatusBadRequest "error.usbNoPhone"
                   else fail StatusInternalServerError e
        end).

Definition HandleUSBDeactivate (r : hreq) : svc net hresp :=
  answer StatusInternalServerError (respondRefresh r "/network") Deactivate.

(** ** The interface list *)

(** Ids and devices are unique and a LAN interface is left. *)
Definition differ {A B} (f : A -> B) (x y : A) : Prop := f x <> f y.

Definition ifaces_ok (l : list InterfaceConfig) : Prop :=
  pairwise (differ InterfaceConfig_ID) l /\ pairwise (differ InterfaceConfig_Device) l
  /\ exists i, In i l /\ InterfaceConfig_Role i = "lan".

Lemma differ_sym {A B} (f : A -> B) x y : differ f x y -> differ f y x.
Proof. unfold differ. congruence. Qed.

Lemma interfaceIndex_Some cfg id idx : interfaceIndex cfg id = Some idx ->
  exists i, Config_Interfaces cfg !! idx = Some i /\ InterfaceConfig_ID i = id.
Proof.
  unfold interfaceIndex. destruct (list_find _ _) as [[k i]|] eqn:E; [|done]. intros [= <-].
  apply list_find_Some in E as (Hk & Hi & _). by exists i.
Qed.

Lemma interfaceIndex_None cfg id : interfaceIndex cfg id = None <->
  forall i, In i (Config_Interfaces cfg) -> InterfaceConfig_ID i <> id.
Proof.
  unfold interfaceIndex. destruct (list_find _ _) as [[k i]|] eqn:E; cbn.
  - apply list_find_Some in E as (Hk & Hi & _). split; [done|]. intros H. exfalso. apply (H i); [|done].
    apply list_elem_of_In. by eapply list_elem_of_lookup_2.
  - apply list_find_None in E. rewrite List.Forall_forall in E. split; [|done]. intros _ i Hi. by apply E.
Qed.

(** Another LAN interface is left when the guard of the edits lets them
    through. *)
Lemma countLAN_other cfg id : countLANExcept cfg id <> 0 ->
  exists j i, Config_Interfaces cfg !! j = Some i /\ InterfaceConfig_ID i <> id /\ InterfaceConfig_Role i = "lan".
Proof.
  unfold countLANExcept. destruct (List.filter _ _) as [|i l] eqn:E; [done|]. intros _.
  assert (Hi : In i (List.filter (fun i => negb (String.eqb (InterfaceConfig_ID i) id) && role_is "lan" i)
    (Config_Interfaces cfg))) by (rewrite E; by left).
  apply filter_In in Hi as [Hin Hb]. apply andb_prop in Hb as [Hid Hr].
  apply list_elem_of_In, list_elem_of_lookup_1 in Hin as [j Hj].
  exists j, i. unfold role_is in Hr. apply negb_true_iff in Hid. apply String.eqb_neq in Hid. apply String.eqb_eq in Hr. done.
Qed.

(** The last LAN interface survives: either the edited entry is no LAN
    interface, or another one is left. *)
Lemma lan_elsewhere cfg id idx (l := Config_Interfaces cfg) :
  (exists i, In i l /\ InterfaceConfig_Role i = "lan") -> interfaceIndex cfg id = Some idx ->
  String.eqb (role_at cfg idx) "lan" && (countLANExcept cfg id =? 0) = false ->
  exists j i, j <> idx /\ l !! j = Some i /\ InterfaceConfig_Role i = "lan".
Proof.
  intros (i & Hin & Hr) Hidx Hg. destruct (interfaceIndex_Some _ _ _ Hidx) as (x & Hx & Hid).
  apply list_elem_of_In, list_elem_of_lookup_1 in Hin as [j Hj].
  destruct (String.eqb_spec (role_at cfg idx) "lan") as [E|E]; cbn [andb] in Hg.
  - apply Z.eqb_neq in Hg. destruct (countLAN_other _ _ Hg) as (k & y & Hk & Hne & Hy).
    exists k, y. split_and!; [|done..]. intros ->. fold l in Hx, Hk. congruence.
  - exists j, i. split_and!; [|done..]. intros ->. unfold role_at in E. fold l in E. by rewrite Hj in E.
Qed.

Lemma ifaces_insert cfg id idx i : ifaces_ok (Config_Interfaces cfg) -> interfaceIndex cfg id = Some idx ->
  InterfaceConfig_ID i = id ->
  existsb (fun x => negb (String.eqb (InterfaceConfig_ID x) id)
                    && String.eqb (InterfaceConfig_Device x) (InterfaceConfig_Device i)) (Config_Interfaces cfg) = false ->
  String.eqb (role_at cfg idx) "lan" && negb (String.eqb (InterfaceConfig_Role i) "lan") && (countLANExcept cfg id =? 0) = false ->
  ifaces_ok (<[idx:=i]> (Config_Interfaces cfg)).
Proof.
  intros (Hids & Hdevs & Hlan) Hidx Hid Hdup Hg. destruct (interfaceIndex_Some _ _ _ Hidx) as (x & Hx & Hxid).
  apply existsb_false_Forall in Hdup. rewrite List.Forall_forall in Hdup. split; [|split].
  - apply pairwise_insert; [apply differ_sym|done|]. intros j y Hj Hy. unfold differ. rewrite Hid, <- Hxid.
    apply (Hids idx j); [done..|lia].
  - apply pairwise_insert; [apply differ_sym|done|]. intros j y Hj Hy. unfold differ.
    assert (Hin : In y (Config_Interfaces cfg)) by (apply list_elem_of_In; by eapply list_elem_of_lookup_2).
    specialize (Hdup y Hin). apply andb_false_iff in Hdup as [H|H].
    + apply negb_false_iff, String.eqb_eq in H. exfalso. apply (Hids j idx y x Hy Hx Hj). congruence.
    + apply String.eqb_neq in H. congruence.
  - destruct (String.eqb_spec (InterfaceConfig_Role i) "lan") as [E|E].
    + exists i. split; [|done]. apply list_elem_of_In. eapply list_elem_of_lookup_2, list_lookup_insert_eq.
      by eapply lookup_lt_Some.
    + rewrite andb_true_r in Hg. destruct (lan_elsewhere _ _ _ Hlan Hidx Hg) as (j & y & Hj & Hy & Hr).
      exists y. split; [|done]. apply list_elem_of_In. apply (list_elem_of_lookup_2 _ j). by rewrite list_lookup_insert_ne.
Qed.

Lemma ifaces_delete cfg id idx : ifaces_ok (Config_Interfaces cfg) -> interfaceIndex cfg id = Some idx ->
  String.eqb (role_at cfg idx) "lan" && (countLANExcept cfg id =? 0) = false ->
  ifaces_ok (delete idx (Config_Interfaces cfg)).
Proof.
  intros (Hids & Hdevs & Hlan) Hidx Hg. split; [by apply pairwise_delete|]. split; [by apply pairwise_delete|].
  destruct (lan_elsewhere _ _ _ Hlan Hidx Hg) as (j & y & Hj & Hy & Hr). exists y. split; [|done].
  apply list_elem_of_In. destruct (Nat.lt_ge_cases j idx).
  - apply (list_elem_of_lookup_2 _ j). by rewrite list_lookup_delete_lt.
  - apply (list_elem_of_lookup_2 _ (Nat.pred j)). rewrite list_lookup_delete_ge by lia. by rewrite Nat.succ_pred by lia.
Qed.

Lemma ifaces_append cfg i : ifaces_ok (Config_Interfaces cfg) -> interfaceIndex cfg (InterfaceConfig_ID i) = None ->
  existsb (fun x => negb (String.eqb (InterfaceConfig_ID x) (InterfaceConfig_ID i))
                    && String.eqb (InterfaceConfig_Device x) (InterfaceConfig_Device i)) (Config_Interfaces cfg) = false ->
  ifaces_ok (Config_Interfaces cfg ++ [i]).
Proof.
  intros (Hids & Hdevs & y & Hy & Hr) Hn Hdup. rewrite interfaceIndex_None in Hn. apply existsb_false_Forall in Hdup. rewrite List.Forall_forall in Hdup.
  split; [|split].
  - apply pairwise_snoc; [apply differ_sym|done|]. apply List.Forall_forall. intros x Hx. unfold differ.
    pose proof (Hn x Hx). congruence.
  - apply pairwise_snoc; [apply differ_sym|done|]. apply List.Forall_forall. intros x Hx. unfold differ.
    specialize (Hdup x Hx). apply andb_false_iff in Hdup as [H|H].
    + apply negb_false_iff, String.eqb_eq in H. by apply Hn in Hx.
    + apply String.eqb_neq in H. congruence.
  - exists y. split; [|done]. apply in_app_iff. by left.
Qed.

(** ** What a VLAN entry has to be *)

(** dnsmasq's lease times: a number with an optional unit, or "infinite". *)
Definition lease_time (s : string) : Prop :=
  s = "infinite"
  \/ exists n u, s = n +:+ u /\ n <> "" /\ all_chars is_digit n = true
       /\ (u = "" \/ exists c, u = char_str c /\ char_in "smhdw" c = true).

(** An end of the range is absent or an address of the VLAN's subnet. *)
Definition range_end (address ip : string) : Prop :=
  ip = "" \/ exists a base subnet, ParseIP ip = Some a /\ ParseCIDR address = Some (base, subnet) /\ Contains_ip subnet a = true.

Record sound_vlan (v : VLANConfig) : Prop := mkSound {
  sv_id : VLANConfig_ID v <> "" /\ len (VLANConfig_ID v) <= 15 /\ all_chars ifaceNameClass (VLANConfig_ID v) = true;
  sv_vid : 1 <= VLANConfig_VID v <= 4094;
  sv_label : len (VLANConfig_Label v) <= 64 /\ all_chars ruleNameClass (VLANConfig_Label v) = true;
  sv_role : In (VLANConfig_Role v) interfaceRoles;
  sv_type : In (VLANConfig_Type v) interfaceTypes;
  sv_address : VLANConfig_Address v = "" \/ is_Some (ParseCIDR (VLANConfig_Address v));
  sv_mtu : VLANConfig_MTU v = 0 \/ 68 <= VLANConfig_MTU v <= 9000;
  sv_dhcp : VLANDHCPConfig_Enabled (VLANConfig_DHCP v) = true ->
    is_Some (ParseCIDR (VLANConfig_Address v))
    /\ range_end (VLANConfig_Address v) (VLANDHCPConfig_RangeStart (VLANConfig_DHCP v))
    /\ range_end (VLANConfig_Address v) (VLANDHCPConfig_RangeEnd (VLANConfig_DHCP v))
    /\ (VLANDHCPConfig_LeaseTime (VLANConfig_DHCP v) = "" \/ lease_time (VLANDHCPConfig_LeaseTime (VLANConfig_DHCP v))) }.

(** Two texts name networks without a common address. *)
Definition disjoint_subnets (a b : string) : Prop :=
  forall ip n ip' n' x, ParseCIDR a = Some (ip, n) -> ParseCIDR b = Some (ip', n') -> inside n x -> ~ inside n' x.

(** Neither the id nor the tag on the parent is taken. *)
Definition distinct_vlans (x y : VLANConfig) : Prop :=
  VLANConfig_ID x <> VLANConfig_ID y
  /\ (VLANConfig_Parent x, VLANConfig_VID x) <> (VLANConfig_Parent y, VLANConfig_VID y).

Definition acceptable (cfg : Config) (v : VLANConfig) : Prop :=
  sound_vlan v
  /\ (exists i, In i (Config_Interfaces cfg) /\ InterfaceConfig_ID i = VLANConfig_Parent v)
  /\ Forall (fun x => distinct_vlans x v) (Config_VLANs cfg)
  /\ Forall (disjoint_subnets (VLANConfig_Address v)) (servedSubnets cfg).

Lemma rlit_lang p s : lang (rlit p) s -> s = p.
Proof.
  revert s. induction p as [|c p IH]; intros s Hl; [by inversion Hl|].
  cbn [rlit] in Hl. inversion Hl as [| | | |? ? x t Hx Ht| |]; subst. inversion Hx as [|? ? Hc| | | | |]; subst.
  apply Ascii.eqb_eq in Hc as ->. cbn. by rewrite (IH t Ht).
Qed.

Lemma lease_time_iff s : matchb leaseTimePattern s = true <-> lease_time s.
Proof.
  rewrite matchb_lang. unfold leaseTimePattern, lease_time. split.
  - inversion 1 as [| |? ? ? Hl| ? ? ? Hl | | |]; subst.
    + right. inversion Hl as [| | | |? ? n u Hn Hu| |]; subst. exists n, u. split; [done|].
      apply matchb_lang in Hn. rewrite matchb_plus_cls in Hn. bool_hyps. split; [done|]. split; [done|].
      inversion Hu as [| |? ? ? Hc|? ? ? Hc| | |]; subst; [right|left].
      * inversion Hc; subst. by eexists.
      * by inversion Hc.
    + left. exact (rlit_lang "infinite" s Hl).
  - intros [->|(n & u & -> & Hn & Hd & Hu)]; [by apply matchb_lang|]. apply LAltL. apply LSeq.
    + apply matchb_lang. rewrite matchb_plus_cls, Hd, andb_true_r. apply negb_true_iff. by apply String.eqb_neq.
    + destruct Hu as [->|(c & -> & Hc)]; [apply LAltR; constructor|apply LAltL; by constructor].
Qed.

Lemma optional_cidr_iff a : optional_cidr a = Ok tt <-> a = "" \/ is_Some (ParseCIDR a).
Proof.
  unfold optional_cidr. destruct (String.eqb_spec a "") as [->|Ha]; [split; [by left|done]|].
  rewrite wrap_err_Ok. unfold ValidateCIDR. destruct (ParseCIDR a) as [p|].
  - split; [intros _; right; by eexists|done].
  - split; [done|]. by intros [?|[? ?]].
Qed.

Lemma optional_mtu_iff m : optional_mtu m = Ok tt <-> m = 0 \/ 68 <= m <= 9000.
Proof.
  unfold optional_mtu, ValidateMTU. destruct (Z.eqb_spec m 0); [split; [by left|done]|].
  rewrite fail_if_Ok, orb_false_iff, !Z.ltb_ge. lia.
Qed.

Lemma ValidateVLANID_iff m : ValidateVLANID m = Ok tt <-> 1 <= m <= 4094.
Proof. unfold ValidateVLANID. rewrite fail_if_Ok, orb_false_iff, !Z.ltb_ge. lia. Qed.

Lemma vlan_guard_iff (a : result unit) (k : result unit) : result_bind a (fun _ => k) = Ok tt <-> a = Ok tt /\ k = Ok tt.
Proof. rewrite result_bind_Ok. split; [by intros ([] & ? & ?)|]. intros [? ?]. by exists tt. Qed.

Lemma fail_unless_iff (b : bool) e : fail_if (negb b) e = Ok tt <-> b = true.
Proof. rewrite fail_if_Ok. apply negb_false_iff. Qed.

Lemma validateVLANFields_iff v : validateVLANFields v = Ok tt <->
  (len (VLANConfig_Label v) <= 64 /\ all_chars ruleNameClass (VLANConfig_Label v) = true)
  /\ In (VLANConfig_Role v) interfaceRoles /\ In (VLANConfig_Type v) interfaceTypes
  /\ (VLANConfig_Address v = "" \/ is_Some (ParseCIDR (VLANConfig_Address v)))
  /\ (VLANConfig_MTU v = 0 \/ 68 <= VLANConfig_MTU v <= 9000).
Proof.
  unfold validateVLANFields. rewrite !vlan_guard_iff, !fail_unless_iff, !mem_In, optional_cidr_iff, optional_mtu_iff, wrap_err_Ok.
  by rewrite ValidateRuleName_iff.
Qed.

Lemma range_address_iff address base subnet ip : ParseCIDR address = Some (base, subnet) ->
  range_address_ok subnet ip = true <-> range_end address ip.
Proof.
  intros Hp. unfold range_address_ok, range_end. destruct (String.eqb_spec ip "") as [->|Hne]; [split; [by left|done]|].
  cbn [orb]. destruct (ParseIP ip) as [a|].
  - split; [intros; right; by exists a, base, subnet|]. intros [?|(? & ? & ? & [= <-] & H & ?)]; [done|]. congruence.
  - split; [done|]. by intros [?|(? & ? & ? & ? & _)].
Qed.

Lemma validateVLANDHCP_iff v : validateVLANDHCP v = Ok tt <->
  (VLANDHCPConfig_Enabled (VLANConfig_DHCP v) = true ->
    is_Some (ParseCIDR (VLANConfig_Address v))
    /\ range_end (VLANConfig_Address v) (VLANDHCPConfig_RangeStart (VLANConfig_DHCP v))
    /\ range_end (VLANConfig_Address v) (VLANDHCPConfig_RangeEnd (VLANConfig_DHCP v))
    /\ (VLANDHCPConfig_LeaseTime (VLANConfig_DHCP v) = "" \/ lease_time (VLANDHCPConfig_LeaseTime (VLANConfig_DHCP v)))).
Proof.
  unfold validateVLANDHCP. destruct (VLANDHCPConfig_Enabled _); [|done]. cbn [negb].
  destruct (ParseCIDR (VLANConfig_Address v)) as [[base subnet]|] eqn:Hp.
  2:{ split; [done|]. intros H. destruct (H eq_refl) as [[? ?] _]. done. }
  cbn [List.find]. rewrite <- !(range_address_iff _ _ _ _ Hp), <- lease_time_iff.
  set (st := VLANDHCPConfig_RangeStart _). set (en := VLANDHCPConfig_RangeEnd _). set (lt := VLANDHCPConfig_LeaseTime _).
  destruct (range_address_ok subnet st); cbn [negb]; [|split; [done|intros H; by destruct (H eq_refl) as (_ & ? & _)]].
  destruct (range_address_ok subnet en); cbn [negb]; [|split; [done|intros H; by destruct (H eq_refl) as (_ & _ & ? & _)]].
  rewrite fail_if_Ok, andb_false_iff, negb_false_iff. unfold nonempty. rewrite negb_false_iff, String.eqb_eq.
  split; [intros H _; split; [by eexists|by split_and!]|]. intros H. by apply (H eq_refl).
Qed.

Lemma validateVLANIdentity_iff cfg v : validateVLANIdentity cfg v = Ok tt <->
  (VLANConfig_ID v <> "" /\ len (VLANConfig_ID v) <= 15 /\ all_chars ifaceNameClass (VLANConfig_ID v) = true)
  /\ (exists i, In i (Config_Interfaces cfg) /\ InterfaceConfig_ID i = VLANConfig_Parent v)
  /\ 1 <= VLANConfig_VID v <= 4094
  /\ Forall (fun x => distinct_vlans x v) (Config_VLANs cfg).
Proof.
  unfold validateVLANIdentity. rewrite !vlan_guard_iff, wrap_err_Ok, fail_unless_iff, ValidateInterfaceName_iff, ValidateVLANID_iff.
  assert (Hp : bool_decide (is_Some (interfaceIndex cfg (VLANConfig_Parent v))) = true
    <-> exists i, In i (Config_Interfaces cfg) /\ InterfaceConfig_ID i = VLANConfig_Parent v).
  { rewrite bool_decide_eq_true. split.
    - intros [idx Hi]. destruct (interfaceIndex_Some _ _ _ Hi) as (i & Hl & He). exists i. split; [|done].
      apply list_elem_of_In. by eapply list_elem_of_lookup_2.
    - intros (i & Hi & He). destruct (interfaceIndex cfg (VLANConfig_Parent v)) as [k|] eqn:E; [by eexists|].
      rewrite interfaceIndex_None in E. by apply E in Hi. }
  rewrite Hp. clear Hp. set (t := fun x => _ || _). assert (Hf : forall x, t x = false <-> distinct_vlans x v).
  { intros x. unfold t, distinct_vlans. rewrite orb_false_iff, andb_false_iff, !String.eqb_neq, Z.eqb_neq.
    destruct (String.eqb_spec (VLANConfig_Parent x) (VLANConfig_Parent v)); intuition congruence. }
  assert (Hl : match List.find t (Config_VLANs cfg) with
    | None => Ok tt
    | Some x => if String.eqb (VLANConfig_ID x) (VLANConfig_ID v)
                then Err (Errorf "id %q is already in use" [VLANConfig_ID v])
                else Err (Errorf "VLAN %d already exists on %s" [itoa (VLANConfig_VID v); VLANConfig_Parent v])
    end = Ok tt <-> Forall (fun x => distinct_vlans x v) (Config_VLANs cfg)).
  { rewrite List.Forall_forall. destruct (List.find t (Config_VLANs cfg)) as [x|] eqn:E.
    - apply List.find_some in E as [Hin Hx]. split; [by destruct (String.eqb _ _)|]. intros H.
      specialize (H x Hin). apply Hf in H. congruence.
    - split; [|done]. intros _ x Hx. apply Hf. by apply (List.find_none _ _ E). }
  by rewrite Hl.
Qed.

Lemma overlaps_iff a ip n used : ParseCIDR a = Some (ip, n) -> plain_cidr a -> plain_cidr used ->
  overlaps n used = false <-> disjoint_subnets a used.
Proof.
  intros Hp Ha Hu. unfold overlaps, disjoint_subnets. destruct (ParseCIDR used) as [[ip' n']|] eqn:E.
  2:{ split; [|done]. intros _ ? ? ? ? ? _ ?. congruence. }
  destruct (parsed_net _ _ _ Ha Hp) as (b & o & -> & Hb). destruct (parsed_net _ _ _ Hu E) as (b' & o' & -> & Hb').
  rewrite <- not_true_iff_false, nets_overlap by done. split.
  - intros H i m i' m' x H1 H2 Hx Hx'. apply H. exists x. rewrite H1 in Hp. injection Hp as _ ->. injection H2 as _ <-. done.
  - intros H (x & Hx & Hx'). by apply (H ip (cidr b o) ip' (cidr b' o') x).
Qed.

Lemma validateVLANSubnet_iff cfg v : plain_cidr (VLANConfig_Address v) -> Forall plain_cidr (servedSubnets cfg) ->
  validateVLANSubnet cfg v = Ok tt <-> Forall (disjoint_subnets (VLANConfig_Address v)) (servedSubnets cfg).
Proof.
  intros Hv Hs. unfold validateVLANSubnet. rewrite List.Forall_forall in Hs. rewrite List.Forall_forall.
  assert (Hnone : ParseCIDR (VLANConfig_Address v) = None -> forall x, In x (servedSubnets cfg) ->
    disjoint_subnets (VLANConfig_Address v) x) by (intros Hn x _ ? ? ? ? ? ?; congruence).
  destruct (String.eqb_spec (VLANConfig_Address v) "") as [E|_].
  { split; [|done]. intros _. apply Hnone. by rewrite E. }
  destruct (ParseCIDR (VLANConfig_Address v)) as [[ip n]|] eqn:Hp; [|split; [intros _; by apply Hnone|done]].
  destruct (List.find (overlaps n) (servedSubnets cfg)) as [u|] eqn:E.
  - apply List.find_some in E as [Hin Hu]. split; [done|]. intros H.
    specialize (H u Hin). apply (overlaps_iff _ _ _ _ Hp) in H; [congruence|done|by apply Hs].
  - split; [|done]. intros _ x Hx. apply (overlaps_iff _ _ _ _ Hp); [done|by apply Hs|]. by apply (List.find_none _ _ E).
Qed.

(** ** Lemmas: editing the VLAN list *)

Lemma set_vlans_back next s :
  on_cfg (set_Config_VLANs (Config_VLANs (nw_cfg s))) (on_cfg (set_Config_VLANs next) s) = s.
Proof. by destruct s as [[] ?]. Qed.

(** The new list is in force when the save works; otherwise nothing changed. *)
Lemma storeVLANsLocked_run next w h s (c := CSave (set_Config_VLANs next (nw_cfg s))) :
  storeVLANsLocked next w h s
  = match w h c with
    | Ok _ => (Ok tt, on_cfg (set_Config_VLANs next) s, h ++ [c])
    | Err e => (Err (Errorw "save VLANs: %w" [] e), s, h ++ [c])
    end.
Proof.
  cbv [storeVLANsLocked SaveToFile perform get put discard mbind svc_bind mret svc_ret]. fold c.
  destruct (w h c); [done|]. by rewrite set_vlans_back.
Qed.

Lemma change_and_save_run f w h s (c := CSave (f (nw_cfg s))) :
  change_and_save f w h s = (discard (w h c), on_cfg f s, h ++ [c]).
Proof. done. Qed.

(** Two VLANs do not share an address, unless one of the texts is an IPv4
    network written as IPv6. *)
Definition apart (x y : VLANConfig) : Prop :=
  plain_cidr (VLANConfig_Address x) -> plain_cidr (VLANConfig_Address y) ->
  disjoint_subnets (VLANConfig_Address x) (VLANConfig_Address y).

Definition vlans_ok (l : list VLANConfig) : Prop :=
  Forall sound_vlan l /\ pairwise distinct_vlans l /\ pairwise apart l.

Lemma disjoint_sym a b : disjoint_subnets a b -> disjoint_subnets b a.
Proof. intros H ip n ip' n' x H1 H2 Hx Hx'. by apply (H ip' n' ip n x). Qed.

Lemma apart_sym x y : apart x y -> apart y x.
Proof. intros H Hy Hx. apply disjoint_sym. by apply H. Qed.

Lemma distinct_sym x y : distinct_vlans x y -> distinct_vlans y x.
Proof. unfold distinct_vlans. intros [H1 H2]. split; congruence. Qed.

Section Edits.
Variable Error_text : error -> string.

Lemma ValidateVLAN_parts cfg v : ValidateVLAN Error_text cfg v = Ok tt <->
  validateVLANIdentity cfg v = Ok tt /\ validateVLANFields v = Ok tt /\ validateVLANDHCP v = Ok tt
  /\ validateVLANSubnet cfg v = Ok tt.
Proof.
  unfold ValidateVLAN. rewrite <- !vlan_guard_iff. by destruct (result_bind _ _) as [[]|e].
Qed.

Lemma ValidateVLAN_iff cfg v : plain_cidr (VLANConfig_Address v) -> Forall plain_cidr (servedSubnets cfg) ->
  ValidateVLAN Error_text cfg v = Ok tt <-> acceptable cfg v.
Proof.
  intros Hv Hs. rewrite ValidateVLAN_parts, validateVLANSubnet_iff, validateVLANIdentity_iff, validateVLANFields_iff,
    validateVLANDHCP_iff by done. unfold acceptable. split.
  - intros ((Hid & Hp & Hvid & Hd) & (Hl & Hr & Ht & Ha & Hm) & Hdh & Hsub). split_and!; [by constructor|done..].
  - intros ([] & Hp & Hd & Hsub). exact (conj (conj sv_id0 (conj Hp (conj sv_vid0 Hd)))
      (conj (conj sv_label0 (conj sv_role0 (conj sv_type0 (conj sv_address0 sv_mtu0)))) (conj sv_dhcp0 Hsub))).
Qed.

(** What holds of an accepted entry whatever the texts of the others. *)
Lemma ValidateVLAN_sound cfg v : ValidateVLAN Error_text cfg v = Ok tt ->
  sound_vlan v /\ Forall (distinct_vlans v) (Config_VLANs cfg) /\ Forall (apart v) (Config_VLANs cfg).
Proof.
  rewrite ValidateVLAN_parts, validateVLANIdentity_iff, validateVLANFields_iff, validateVLANDHCP_iff.
  intros ((Hid & Hp & Hvid & Hd) & (Hl & Hr & Ht & Ha & Hm) & Hdh & Hsub). split; [by constructor|]. split.
  { eapply List.Forall_impl; [|exact Hd]. intros x. apply distinct_sym. }
  apply List.Forall_forall. intros x Hx Hpv Hpx ip n ip' n' y Hn Hn'. revert Hsub. unfold validateVLANSubnet.
  destruct (String.eqb_spec (VLANConfig_Address v) "") as [E|_]; [by rewrite E in Hn|]. rewrite Hn.
  destruct (List.find _ _) as [u|] eqn:E; [done|]. intros _.
  assert (Hin : In (VLANConfig_Address x) (servedSubnets cfg)).
  { unfold servedSubnets. apply filter_In. split.
    - rewrite !in_app_iff. right. left. by apply List.in_map.
    - unfold nonempty. apply negb_true_iff, String.eqb_neq. intros E'. by rewrite E' in Hn'. }
  pose proof (List.find_none _ _ E _ Hin) as Ho.
  apply (overlaps_iff _ _ _ _ Hn Hpv Hpx) in Ho. by apply (Ho ip n ip' n' y).
Qed.

Lemma vlans_append cfg v : vlans_ok (Config_VLANs cfg) -> ValidateVLAN Error_text cfg v = Ok tt ->
  vlans_ok (Config_VLANs cfg ++ [v]).
Proof.
  intros (Hs & Hd & Ha) Hv. destruct (ValidateVLAN_sound _ _ Hv) as (Hv1 & Hv2 & Hv3). split; [|split].
  - apply Forall_app_2; [done|by constructor].
  - apply pairwise_snoc; [apply distinct_sym|done..].
  - apply pairwise_snoc; [apply apart_sym|done..].
Qed.

Lemma vlans_delete l k : vlans_ok l -> vlans_ok (delete k l).
Proof.
  intros (Hs & Hd & Ha). split; [|split; by apply pairwise_delete].
  by apply Forall_delete.
Qed.

(** ** Correctness: adding a VLAN *)

(** A VLAN is added exactly when it is acceptable and the configuration
    can be saved: its fields are well formed, its parent is a configured
    interface, neither its id nor its tag is taken and its subnet shares no
    address with a LAN, another VLAN or a VPN server; the list is then the old
    one followed by the entry.  Otherwise the configuration is what it was,
    and a refused entry is not even saved. *)
Theorem vlan_added_exactly v w s (cfg := nw_cfg s) (next := set_Config_VLANs (Config_VLANs cfg ++ [v]) cfg) :
  plain_cidr (VLANConfig_Address v) -> Forall plain_cidr (servedSubnets cfg) ->
  (outcome (AddVLAN Error_text v) w s = Ok tt <-> acceptable cfg v /\ is_ok (w [] (CSave next)) = true)
  /\ state_after (AddVLAN Error_text v) w s
     = (if is_ok (outcome (AddVLAN Error_text v) w s) then mkNet next (nw_active s) else s)
  /\ (acceptable cfg v -> calls_of (AddVLAN Error_text v) w s = [CSave next])
  /\ (~ acceptable cfg v -> calls_of (AddVLAN Error_text v) w s = []
       /\ exists e, outcome (AddVLAN Error_text v) w s = Err e /\ errors_Is e ErrInvalidVLAN = true).
Proof.
  intros Hv Hs. pose proof (ValidateVLAN_iff cfg v Hv Hs) as Hiff.
  assert (Herr : forall e, ValidateVLAN Error_text cfg v = Err e -> errors_Is e ErrInvalidVLAN = true).
  { unfold ValidateVLAN. intros e. by destruct (result_bind _ _); intros [= <-]. }
  unfold outcome, state_after, calls_of, AddVLAN. cbv [get mbind svc_bind]. fold cfg.
  destruct (ValidateVLAN Error_text cfg v) as [[]|e] eqn:E.
  - assert (Ha : acceptable cfg v) by by apply Hiff. rewrite storeVLANsLocked_run. fold cfg next.
    split_and!; [|..|done].
    + destruct (w [] (CSave next)); cbn; split; [done|done|done|by intros [_ ?]].
    + by destruct (w [] (CSave next)).
    + by destruct (w [] (CSave next)).
  - assert (Ha : ~ acceptable cfg v) by (intros Ha; apply Hiff in Ha; congruence). cbn.
    split_and!; [split; [done|by intros [? _]]|done|done|]. intros _. split; [done|]. exists e. split; [done|]. by apply Herr.
Qed.

End Edits.

(** ** The operations over time *)

Inductive netop : Type :=
| NSetInterface (r : hreq) | NRemoveInterface (r : hreq) | NAddVLAN (r : hreq) | NDeleteVLAN (r : hreq)
| NUSBEnable (r : hreq) | NUSBDisable (r : hreq) | NUSBAutoFailover (r : hreq)
| NUSBActivate (r : hreq) | NUSBDeactivate (r : hreq)
| NRestoreVLANs | NRestoreMACClones | NCompleteFirstBoot (r : hreq).

Section Runs.
Variable Error_text : error -> string.
Variable unicode_fold : Z -> Z.

Definition run_net (op : netop) : svc net unit :=
  match op with
  | NSetInterface r => HandleSetInterface r ;; mret tt
  | NRemoveInterface r => HandleRemoveInterface r ;; mret tt
  | NAddVLAN r => vlan_HandleAdd Error_text r ;; mret tt
  | NDeleteVLAN r => vlan_HandleDelete r ;; mret tt
  | NUSBEnable r => HandleUSBEnable r ;; mret tt
  | NUSBDisable r => HandleUSBDisable r ;; mret tt
  | NUSBAutoFailover r => HandleUSBAutoFailover r ;; mret tt
  | NUSBActivate r => HandleUSBActivate r ;; mret tt
  | NUSBDeactivate r => HandleUSBDeactivate r ;; mret tt
  | NRestoreVLANs => RestoreVLANs Error_text ;; mret tt
  | NRestoreMACClones => RestoreMACClones unicode_fold
  | NCompleteFirstBoot r => HandleCompleteFirstBoot r ;; mret tt
  end.

Definition run_all (ops : list netop) : svc net unit := for_each ops run_net.

(** The VLAN list of the last configuration that was written, [cur] before
    any. *)
Fixpoint stored (w : world) (pre h : list call) (cur : list VLANConfig) : list VLANConfig :=
  match h with
  | [] => cur
  | c :: h => stored w (pre ++ [c]) h
                match c with
                | CSave cfg => if is_ok (w pre c) then Config_VLANs cfg else cur
                | _ => cur
                end
  end.

(** ** Lemmas: what stays over the operations *)

Definition not_save (c : call) : bool := match c with CSave _ => false | _ => true end.

Lemma stored_app w pre h h' cur : stored w pre (h ++ h') cur = stored w (pre ++ h) h' (stored w pre h cur).
Proof.
  revert pre cur. induction h as [|c h IH]; intros pre cur; cbn [app stored]; [by rewrite app_nil_r|].
  by rewrite IH, <- app_assoc.
Qed.

Lemma stored_quiet w pre h cur : Forall (fun c => not_save c = true) h -> stored w pre h cur = cur.
Proof.
  intros H. revert pre. induction H as [|c h Hc _ IH]; intros pre; [done|]. cbn [stored]. by destruct c; try apply IH.
Qed.

(** A program that saves nothing and leaves the configuration alone. *)
Definition quiet {A} (m : svc net A) : Prop :=
  forall cfg, keeps (fun c => not_save c = true) (fun s => nw_cfg s = cfg) m.

(** Lists in order, and the VLAN list in memory is the one on disk. *)
Definition in_order (init : list VLANConfig) (w : world) (h : list call) (s : net) : Prop :=
  ifaces_ok (Config_Interfaces (nw_cfg s)) /\ vlans_ok (Config_VLANs (nw_cfg s))
  /\ Config_VLANs (nw_cfg s) = stored w [] h init.

Definition orderly {A} (m : svc net A) : Prop :=
  forall init w h s, in_order init w h s -> in_order init w (snd (m w h s)) (snd (fst (m w h s))).

Lemma orderly_quiet {A} (m : svc net A) : quiet m -> orderly m.
Proof.
  intros Hq init w h s (Hi & Hv & Hd). destruct (Hq (nw_cfg s) w h s eq_refl) as [Hc (t & Ht & HF)].
  unfold in_order. rewrite Hc, Ht, stored_app, stored_quiet by done. done.
Qed.

Lemma orderly_ret {A} (a : A) : orderly (mret a).
Proof. intros init w h s H. exact H. Qed.

Lemma orderly_bind {A B} (m : svc net A) (k : A -> svc net B) :
  orderly m -> (forall a, orderly (k a)) -> orderly (mbind k m).
Proof.
  intros Hm Hk init w h s H. unfold mbind, svc_bind. specialize (Hm init w h s H).
  destruct (m w h s) as [[a s1] h1]. by apply Hk.
Qed.

Lemma orderly_for_each {A B} (l : list A) (body : A -> svc net B) :
  (forall x, orderly (body x)) -> orderly (for_each l body).
Proof. intros H. induction l as [|x l IH]; [apply orderly_ret|]. apply orderly_bind; [apply H|by intros _]. Qed.

(** An edit that leaves the VLANs alone. *)
Lemma orderly_change (g : net -> svc net (result unit)) :
  (forall s, ifaces_ok (Config_Interfaces (nw_cfg s)) ->
     (exists e, g s = mret (Err e))
     \/ exists f, g s = change_and_save f /\ Config_VLANs (f (nw_cfg s)) = Config_VLANs (nw_cfg s)
          /\ ifaces_ok (Config_Interfaces (f (nw_cfg s)))) ->
  orderly (s ← get; g s).
Proof.
  intros H init w h s Ho. cbv [mbind svc_bind get]. destruct (H s (proj1 Ho)) as [(e & ->)|(f' & -> & Hv & Hi)]; [exact Ho|].
  rewrite change_and_save_run. destruct Ho as (_ & Hv0 & Hd). unfold in_order, on_cfg. cbn [fst snd nw_cfg].
  rewrite Hv. split; [done|]. split; [done|]. rewrite stored_app. cbn [stored app]. rewrite Hv, Hd. by destruct (is_ok _).
Qed.

Lemma orderly_store (next : Config -> list VLANConfig) :
  forall init w h s, in_order init w h s -> vlans_ok (next (nw_cfg s)) ->
  let r := storeVLANsLocked (next (nw_cfg s)) w h s in in_order init w (snd r) (snd (fst r)).
Proof.
  intros init w h s (Hi & Hv & Hd) Hn. cbv zeta. rewrite storeVLANsLocked_run. unfold in_order.
  set (c := CSave _). destruct (w h c) as [u|e] eqn:E; cbn [fst snd on_cfg nw_cfg];
    (split; [done|]); (split; [done|]); rewrite stored_app; cbn [stored app]; unfold c at 1; rewrite E; cbn [is_ok]; done.
Qed.

Lemma SetInterface_orderly i : orderly (SetInterface i).
Proof.
  unfold SetInterface. destruct (validateInterfaceEntry i) as [[]|e]; [|apply orderly_ret].
  apply orderly_change. intros s Hok.
  destruct (existsb _ _) eqn:Hdup; [left; by eexists|].
  destruct (interfaceIndex _ _) as [idx|] eqn:Hidx.
  - destruct (_ && _) eqn:Hg; [left; by eexists|]. right. eexists. split; [reflexivity|]. split; [done|].
    by apply (ifaces_insert _ (InterfaceConfig_ID i)).
  - right. eexists. split; [reflexivity|]. split; [done|]. by apply ifaces_append.
Qed.

Lemma RemoveInterface_orderly id : orderly (RemoveInterface id).
Proof.
  unfold RemoveInterface. apply orderly_change. intros s Hok. destruct (interfaceIndex _ _) as [idx|] eqn:Hidx; [|left; by eexists].
  destruct (_ && _) eqn:Hg; [left; by eexists|]. right. eexists. split; [reflexivity|]. split; [done|].
  by apply (ifaces_delete _ id).
Qed.

Lemma usb_orderly f : orderly (change_and_save (on_usb f)).
Proof.
  intros init w h s Ho. apply (orderly_change (fun _ => change_and_save (on_usb f))); [|done]. intros s' Hok. right. by eexists.
Qed.

Lemma AddVLAN_orderly v : orderly (AddVLAN Error_text v).
Proof.
  intros init w h s Ho. unfold AddVLAN. cbv [get mbind svc_bind].
  destruct (ValidateVLAN Error_text (nw_cfg s) v) as [[]|e] eqn:E; [|exact Ho].
  apply (orderly_store (fun c => Config_VLANs c ++ [v])); [done|]. by apply (vlans_append Error_text); [apply Ho|].
Qed.

Lemma RemoveVLAN_orderly id : orderly (RemoveVLAN id).
Proof.
  intros init w h s Ho. unfold RemoveVLAN. cbv [get mbind svc_bind].
  destruct (list_find _ _) as [[i v]|]; [|exact Ho].
  pose proof (orderly_store (fun c => delete i (Config_VLANs c)) init w h s Ho (vlans_delete _ _ (proj1 (proj2 Ho)))) as H.
  cbv zeta in H. by destruct (storeVLANsLocked _ w h s) as [[r s1] h1].
Qed.

Ltac quiet_walk := intros cfg; walk; try done.

Lemma CreateVLAN_quiet dev vid addr mtu : quiet (CreateVLAN dev vid addr mtu).
Proof. unfold CreateVLAN. quiet_walk. Qed.

Lemma DeleteVLAN_quiet dev vid : quiet (DeleteVLAN dev vid).
Proof. unfold DeleteVLAN. quiet_walk. Qed.

Lemma GetInterfaceState_quiet name : quiet (GetInterfaceState name).
Proof. unfold GetInterfaceState, readSysfs. quiet_walk. Qed.

Lemma RestoreVLANs_quiet : quiet (RestoreVLANs Error_text).
Proof.
  intros cfg. unfold RestoreVLANs. apply keeps_get_bind. intros s Hs. apply keeps_bind; [|intros; apply keeps_ret].
  generalize (@nil string) as errs. induction (Config_VLANs (nw_cfg s)) as [|v vlans IH]; intros errs; cbn [restore_loop].
  - apply keeps_ret.
  - destruct (String.eqb _ _); [apply IH|]. apply keeps_bind; [apply GetInterfaceState_quiet|].
    intros [st|e]; [apply IH|]. apply keeps_bind; [apply CreateVLAN_quiet|]. intros r. apply IH.
Qed.

Lemma RestoreMACClones_quiet : quiet (RestoreMACClones unicode_fold).
Proof. unfold RestoreMACClones, ApplyMACClone. quiet_walk. Qed.

Lemma firstboot_Complete_quiet : quiet firstboot_Complete.
Proof. unfold firstboot_Complete, IsActive, firstBootFlagPath. quiet_walk. Qed.

Lemma Activate_quiet : quiet Activate.
Proof. unfold Activate, GetInterfaceState, readSysfs. quiet_walk. Qed.

Lemma Deactivate_quiet : quiet Deactivate.
Proof. unfold Deactivate. quiet_walk. Qed.

Lemma handler_orderly {A B} (m : svc net A) (f : A -> B) : orderly m -> orderly (a ← m; mret (f a)).
Proof. intros H. apply orderly_bind; [done|]. intros a. apply orderly_ret. Qed.

Lemma run_net_orderly op : orderly (run_net op).
Proof.
  destruct op; cbn [run_net]; try apply handler_orderly;
    try (apply orderly_quiet; first [apply RestoreVLANs_quiet | apply RestoreMACClones_quiet]).
  - unfold HandleSetInterface. destruct (negb _); [apply orderly_ret|]. destruct (String.eqb _ _);
      [|destruct (Atoi _); [|apply orderly_ret]]; apply handler_orderly, SetInterface_orderly.
  - apply handler_orderly, RemoveInterface_orderly.
  - unfold vlan_HandleAdd. destruct (negb _); [apply orderly_ret|]. destruct (parseVLANForm r) as [v key].
    destruct (nonempty key); [apply orderly_ret|]. apply orderly_bind; [apply AddVLAN_orderly|].
    intros [u|e]; [|apply orderly_ret]. apply orderly_bind; [by intros init w h s Ho|]. intros s.
    apply handler_orderly. destruct (nonempty _); [apply orderly_quiet, CreateVLAN_quiet|apply orderly_ret].
  - unfold vlan_HandleDelete. apply orderly_bind; [apply RemoveVLAN_orderly|].
    intros [[v|] [u|e]]; try apply orderly_ret. apply orderly_bind; [by intros init w h s Ho|]. intros s.
    apply handler_orderly. destruct (nonempty _); [apply orderly_quiet, DeleteVLAN_quiet|apply orderly_ret].
  - apply handler_orderly, usb_orderly.
  - apply handler_orderly, usb_orderly.
  - unfold HandleUSBAutoFailover. destruct (negb _); [apply orderly_ret|]. apply handler_orderly, usb_orderly.
  - apply handler_orderly, orderly_quiet, Activate_quiet.
  - apply handler_orderly, orderly_quiet, Deactivate_quiet.
  - apply handler_orderly, orderly_quiet, firstboot_Complete_quiet.
Qed.

(** The texts of a VLAN that are rendered into files root daemons read. *)
Definition rendered_texts (v : VLANConfig) : list string :=
  [VLANConfig_ID v; VLANConfig_Label v; VLANConfig_Role v; VLANConfig_Type v; VLANConfig_Address v]
  ++ (if VLANDHCPConfig_Enabled (VLANConfig_DHCP v)
      then [VLANDHCPConfig_RangeStart (VLANConfig_DHCP v); VLANDHCPConfig_RangeEnd (VLANConfig_DHCP v);
            VLANDHCPConfig_LeaseTime (VLANConfig_DHCP v)]
      else []).

Lemma lease_time_inert s : lease_time s -> all_chars inert_char s = true.
Proof.
  rewrite <- lease_time_iff. apply matchb_over. unfold leaseTimePattern, rplus, ropt. cbn [over rlit rchar].
  split_and!; try apply ascii_impl; try (vm_compute; reflexivity); try done.
Qed.

Lemma range_end_inert a ip : range_end a ip -> all_chars inert_char ip = true.
Proof.
  intros [->|(x & ? & ? & Hp & _)]; [done|]. eapply all_chars_impl; [|by eapply ParseIP_chars].
  apply ascii_impl. vm_compute. reflexivity.
Qed.

Lemma sound_inert v : sound_vlan v -> Forall (fun t => all_chars inert_char t = true) (rendered_texts v).
Proof.
  intros Hs. unfold rendered_texts. apply Forall_app_2.
  - repeat apply List.Forall_cons; [| | | | |constructor].
    + by apply ValidateInterfaceName_inert, ValidateInterfaceName_iff, sv_id.
    + by apply ValidateRuleName_inert, ValidateRuleName_iff, sv_label.
    + by destruct (sv_role v Hs) as [<-|[<-|[]]].
    + by destruct (sv_type v Hs) as [<-|[<-|[<-|[]]]].
    + destruct (sv_address v Hs) as [->|[p Hp]]; [done|].
      eapply all_chars_impl; [apply cidr_char_inert|by eapply ParseCIDR_chars].
  - destruct (VLANDHCPConfig_Enabled _) eqn:E; [|constructor]. destruct (sv_dhcp v Hs E) as (_ & H1 & H2 & H3).
    repeat apply List.Forall_cons; [by eapply range_end_inert|by eapply range_end_inert| |constructor].
    destruct H3 as [->|H3]; [done|by apply lease_time_inert].
Qed.

(** ** Correctness: the lists over time *)

(** C28: Whatever forms are submitted and whatever the machine answers, over any
    sequence of edits of interfaces and VLANs, switches of the USB line and
    restarts: interface ids and devices stay unique and a LAN interface is
    always left; VLAN ids and tags stay unique, no two VLANs share an address,
    every VLAN is well formed with its DHCP range inside its subnet, and none
    of its texts can leave the line it is rendered into; and the VLAN list in
    force is the one of the last configuration that was written, also after
    failed saves. *)
Theorem network_lists_sound ops w s :
  ifaces_ok (Config_Interfaces (nw_cfg s)) -> vlans_ok (Config_VLANs (nw_cfg s)) ->
  let cfg := nw_cfg (state_after (run_all ops) w s) in
  ifaces_ok (Config_Interfaces cfg)
  /\ vlans_ok (Config_VLANs cfg)
  /\ Forall (fun v => Forall (fun t => all_chars inert_char t = true) (rendered_texts v)) (Config_VLANs cfg)
  /\ Config_VLANs cfg = stored w [] (calls_of (run_all ops) w s) (Config_VLANs (nw_cfg s)).
Proof.
  intros Hi Hv cfg.
  destruct (orderly_for_each ops run_net run_net_orderly (Config_VLANs (nw_cfg s)) w [] s ltac:(by split_and!))
    as (Hi' & Hv' & Hd). split; [done|]. split; [done|]. split; [|done].
  eapply List.Forall_impl; [|exact (proj1 Hv')]. apply sound_inert.
Qed.

End Runs.

(** ** Behaviours *)

Section Samples.

Definition lan_entry : InterfaceConfig :=
  mkInterfaceConfig "lan" "enp3s0" "LAN" "lan" "static" "10.0.0.1/24" "fd00::1/64" 1500 "" "02:00:00:00:00:01" "".
Definition wan_entry : InterfaceConfig :=
  mkInterfaceConfig "wan" "enxaabbccddeeff" "WAN" "wan" "pppoe" "" "" 1492 "" "02:00:00:00:00:02" "".
Definition guest_vlan : VLANConfig :=
  mkVLANConfig "guest" "lan" 20 "Guests" "lan" "static" "10.0.20.1/24" 1500 true
    (mkVLANDHCPConfig true "10.0.20.10" "10.0.20.200" "12h").
Definition wan_vlan : VLANConfig :=
  mkVLANConfig "iptv" "wan" 4094 "IPTV" "wan" "dhcp-client" "" 0 false VLANDHCPConfig_zero.
Definition sample_net (vlans : list VLANConfig) : net :=
  mkNet (set_Config_VLANs vlans (set_Config_Interfaces [lan_entry; wan_entry] Config_zero)) false.
Definition form_of (fields : list (string * string)) (path : string -> string) : hreq :=
  mkHreq (Ok tt) (fun k => match List.find (fun p => String.eqb (fst p) k) fields with Some p => snd p | None => "" end)
    path "".
Definition all_fail : world := fun _ c => Err (Errorf "failed" []).
Definition all_ok : world := fun _ c => Ok "".
Definition no_text (_ : error) : string := "".

(** A VLAN may be called lan, the key the LAN itself has in the IPv6 subnet
    map. *)
Example vlan_named_lan_accepted :
  ValidateVLAN no_text (nw_cfg (sample_net [])) (mkVLANConfig "lan" "lan" 20 "Guests" "lan" "static" "10.0.20.1/24" 1500 true (mkVLANDHCPConfig true "10.0.20.10" "10.0.20.200" "12h")) = Ok tt.
Proof. vm_compute. reflexivity. Qed.

(** A VLAN is accepted although the name of its device does not fit the
    fifteen characters of an interface name, so it can never be created. *)
Example long_device_accepted :
  ValidateVLAN no_text (nw_cfg (sample_net [])) wan_vlan = Ok tt
  /\ ValidateInterfaceName (vlanDev (InterfaceConfig_Device wan_entry) 4094) <> Ok tt.
Proof. split; [vm_compute; reflexivity|]. vm_compute. discriminate. Qed.

(** Removing an interface leaves the VLANs on it, and deleting such a VLAN
    then leaves its device. *)
Example removed_parent_keeps_vlans :
  let s := state_after (RemoveInterface "wan") all_ok (sample_net [wan_vlan]) in
  Config_VLANs (nw_cfg s) = [wan_vlan]
  /\ forallb (fun c => negb (not_save c)) (calls_of (vlan_HandleDelete (form_of [] (fun _ => "iptv"))) all_ok s) = true.
Proof. split; vm_compute; reflexivity. Qed.

(** The address of an interface is not compared with the VLANs: the LAN can be
    moved onto the subnet of one. *)
Example interface_overlaps_vlan :
  let r := form_of [("id", "lan"); ("device", "enp3s0"); ("role", "lan"); ("type", "static"); ("address", "10.0.20.1/24")]
             (fun _ => "") in
  accepted (outcome (HandleSetInterface r) all_ok (sample_net [guest_vlan])) = true
  /\ ~ disjoint_subnets "10.0.20.1/24" (VLANConfig_Address guest_vlan).
Proof.
  split; [vm_compute; reflexivity|]. intros H. apply overlaps_iff with (ip := [0;0;0;0;0;0;0;0;0;0;255;255;10;0;20;1])
    (n := {| net_ip := [10;0;20;0]; net_mask := [255;255;255;0] |}) in H; [vm_compute in H; discriminate|vm_compute; reflexivity|..];
    intros ip n Hp; vm_compute in Hp; injection Hp as _ <-; by left.
Qed.

(** Editing an entry drops what the form does not carry: the cloned address
    and the IPv6 address. *)
Example edit_drops_cloned_mac :
  let r := form_of [("id", "lan"); ("device", "enp3s0"); ("label", "LAN"); ("role", "lan"); ("type", "static");
                    ("address", "10.0.0.1/24"); ("mtu", "1500")] (fun _ => "") in
  List.map (fun i => (InterfaceConfig_CloneMAC i, InterfaceConfig_Address6 i))
    (Config_Interfaces (nw_cfg (state_after (HandleSetInterface r) all_ok (sample_net []))))
  = [("", ""); ("02:00:00:00:00:02", "")].
Proof. vm_compute. reflexivity. Qed.

(** A failed save of an interface leaves the change in force, where a VLAN is
    taken back. *)
Lemma failed_save_keeps_interface :
  let s := state_after (RemoveInterface "wan") all_fail (sample_net []) in
  outcome (RemoveInterface "wan") all_fail (sample_net []) <> Ok tt /\ Config_Interfaces (nw_cfg s) = [lan_entry].
Proof. split; vm_compute; [discriminate|reflexivity]. Qed.

End Samples.

Definition masquerade_rule (c : call) : bool :=
  match c with CRun "nft" ("add" :: "rule" :: _) _ => true | _ => false end.

(** Every activation adds a masquerade rule, and deactivation removes none. *)
Lemma activations_stack_rules w h s :
  USBTetherConfig_NAT (Config_USBTether (nw_cfg s)) = true ->
  fst (fst (Activate w h s)) = Ok tt ->
  length (List.filter masquerade_rule (snd (Activate w h s))) = S (length (List.filter masquerade_rule h))
  /\ forall w' h' s', length (List.filter masquerade_rule (snd (Deactivate w' h' s')))
       = length (List.filter masquerade_rule h')
     /\ Forall (fun c => match c with CRun "nft" _ _ => False | _ => True end) (calls_of Deactivate w' s').
Proof.
  intros Hnat. cbv [Activate GetInterfaceState readSysfs LocalCall Run perform get put try_bind wrapping mbind svc_bind mret svc_ret].
  rewrite Hnat. set (iface := usbInterface _). set (c0 := CLocal _ _).
  destruct (w h c0) as [d|e]; cbn [fst]; [|done].
  destruct (String.eqb (TrimSpace d) ""); [done|]. intros H. split.
  - revert H. destruct (String.eqb (TrimSpace d) "up");
      repeat (match goal with |- context[w ?h ?c] => destruct (w h c) end; cbn [wrap_err fst snd]; try discriminate);
      intros _; rewrite !List.filter_app; cbn [List.filter masquerade_rule c0]; rewrite !length_app; cbn [length]; lia.
  - intros w' h' s'. cbv [Deactivate Run perform get put mbind svc_bind mret svc_ret calls_of]. cbn [fst snd].
    split; [rewrite !List.filter_app; cbn [List.filter masquerade_rule]; by rewrite !app_nil_r|]. by repeat constructor.
Qed.

(** ** The agent's verdict *)

Lemma network_calls_allowed Error_text unicode_fold op s w :
  Forall allowed (calls_of (run_net Error_text unicode_fold op) w s).
Proof.
  assert (H : keeps allowed (fun _ : net => True) (run_net Error_text unicode_fold op)); [|by apply (keeps_calls allowed _ _ w s H)].
  destruct op; cbn [run_net];
    unfold HandleSetInterface, HandleRemoveInterface, vlan_HandleAdd, vlan_HandleDelete, HandleUSBEnable, HandleUSBDisable,
      HandleUSBAutoFailover, HandleUSBActivate, HandleUSBDeactivate, HandleCompleteFirstBoot, setUSBEnabled, answer,
      SetInterface, RemoveInterface, AddVLAN, RemoveVLAN, storeVLANsLocked, SetEnabled, SetAutoFailover, change_and_save,
      CreateVLAN, DeleteVLAN, RestoreVLANs, RestoreMACClones, ApplyMACClone, Activate, Deactivate, firstboot_Complete,
      IsActive, firstBootFlagPath, GetInterfaceState, readSysfs; walk; try first [done | allow_call].
  generalize (@nil string) as errs. match goal with |- forall errs, keeps _ _ (restore_loop _ _ ?l errs) => induction l as [|v vs IH] end;
    intros errs; cbn [restore_loop]; [apply keeps_ret|].
  unfold GetInterfaceState, readSysfs, CreateVLAN. walk; first [done | apply IH | allow_call].
Qed.

(** ** Witnesses *)

Lemma sample_ifaces_ok : ifaces_ok [lan_entry; wan_entry].
Proof.
  split; [|split]; [intros i j x y Hi Hj Hij..|by exists lan_entry; split; [left|]];
    destruct i as [|[|i]], j as [|[|j]]; cbn in Hi, Hj; try done; injection Hi as <-; injection Hj as <-; done.
Qed.

Lemma plain_v4 c ip n : ParseCIDR c = Some (ip, n) -> length (net_ip n) = 4%nat -> plain_cidr c.
Proof. intros Hp Hl ip' n' Hp'. rewrite Hp in Hp'. injection Hp' as _ <-. by left. Qed.

Lemma guest_plain : plain_cidr (VLANConfig_Address guest_vlan) /\ Forall plain_cidr (servedSubnets (nw_cfg (sample_net []))).
Proof.
  split; [by eapply plain_v4; [vm_compute; reflexivity|]|].
  assert (H : servedSubnets (nw_cfg (sample_net [])) = ["10.0.0.1/24"]) by (vm_compute; reflexivity). rewrite H.
  apply List.Forall_cons; [|constructor]. by eapply plain_v4; [vm_compute; reflexivity|].
Qed.

Lemma vlan_added_exactly_witness :
  calls_of (AddVLAN no_text guest_vlan) all_ok (sample_net []) <> [] /\ acceptable (nw_cfg (sample_net [])) guest_vlan.
Proof.
  pose proof (vlan_added_exactly no_text guest_vlan all_ok (sample_net []) (proj1 guest_plain) (proj2 guest_plain)) as H.
  cbv zeta in H. split; [vm_compute; discriminate|].
  apply H. vm_compute. reflexivity.
Defined.

Lemma network_lists_sound_witness :
  let ops := [NAddVLAN (form_of [("id", "guest"); ("parent", "lan"); ("vid", "20"); ("role", "lan"); ("type", "static");
                          ("address", "10.0.20.1/24")] (fun _ => ""));
              NRemoveInterface (form_of [] (fun _ => "lan"))] in
  let cfg := nw_cfg (state_after (run_all no_text id ops) all_ok (sample_net [])) in
  length (Config_VLANs cfg) = 1%nat /\ length (Config_Interfaces cfg) = 2%nat /\ ifaces_ok (Config_Interfaces cfg).
Proof.
  intros ops cfg. split; [vm_compute; reflexivity|]. split; [vm_compute; reflexivity|].
  refine (proj1 (network_lists_sound no_text id ops all_ok (sample_net []) sample_ifaces_ok _)).
  split; [constructor|]. by split; intros i j x y Hi.
Defined.
