(* ===== verification/Daemons.v ===== *)
(** * internal/services/ntp.go, syslog.go and internal/web/handlers/ntp.go,
      syslog.go

    The settings of the time and log daemons, the files rendered for them and
    the handlers.  The templates configs/sysconf/chrony.conf.tmpl and
    rsyslog.conf.tmpl are translated as the lines they produce; whether the
    template file can be parsed when it is read is an answer of the machine.
    Case mapping outside ASCII is a parameter. *)

From S2P Require Import Prelude GoStrings GoPath Regex GoNet Validate ConfigTypes Secrets AgentRules FirewallRender Sys SystemService Dns Schedule Update Respond Openvpn.

Local Open Scope Z_scope.
Local Open Scope go_scope.
Local Open Scope sys_scope.

(** [x = f(x); return cfg.SaveToFile()]. *)
Definition edit_and_save (f : Config -> Config) : svc Config (result unit) :=
  c ← get;
  put (f c) ;;
  SaveToFile (f c).

(** The two steps every handler ends with: an error of the edit is the
    operator's, an error of applying it is the machine's. *)
Definition saved_and_applied (status : Z) (resp : hresp) (edit apply : svc Config (result unit)) : svc Config hresp :=
  a ← edit;
  match a with
  | Err e => mret (fail status e)
  | Ok _ => answer StatusInternalServerError resp apply
  end.

(** ** NTP *)

Definition ntpHostChars : string := "abcdefghijklmnopqrstuvwxyzABCDEFGHIJKLMNOPQRSTUVWXYZ0123456789.-:".
Definition hasOnlyNTPHostChars (s : string) : bool := all_chars (char_in ntpHostChars) s.

Definition edge_hyphen (label : string) : bool := HasPrefix label "-" || HasSuffix label "-".

Fixpoint check_labels (host : string) (labels : list string) : result unit :=
  match labels with
  | [] => Ok tt
  | l :: labels =>
      guard! fail_if (String.eqb l "" || (63 <? len l)) (Errorf "NTP source %q has an invalid label" [host]) ;;
      guard! fail_if (edge_hyphen l) (Errorf "NTP source %q label cannot start or end with a hyphen" [host]) ;;
      check_labels host labels
  end.

Definition validateNTPHost (host : string) : result unit :=
  guard! fail_if (String.eqb host "") (Errorf "empty source" []) ;;
  guard! fail_if (negb (hasOnlyNTPHostChars host))
    (Errorf "NTP source %q contains characters that could inject chrony directives" [host]) ;;
  match ParseIP host with
  | Some _ => Ok tt
  | None =>
      guard! fail_if (253 <? len host) (Errorf "NTP source %q exceeds 253 characters" [host]) ;;
      check_labels host (split_byte "." host)
  end.

Record NTPSource : Type := mkNTPSource {
  ns_State : string; ns_Name : string; ns_Stratum : Z; ns_Poll : string; ns_Offset : string }.
Record NTPStatus : Type := mkNTPStatus {
  nt_Synced : bool; nt_Stratum : Z; nt_RefSource : string; nt_Offset : string; nt_Sources : list NTPSource }.

(** [fmt.Sscanf] of one [%d] into an int that holds [old]. *)
Fixpoint digit_run (s : string) : string :=
  match s with
  | EmptyString => EmptyString
  | String a r => if is_digit a then String a (digit_run r) else EmptyString
  end.
Definition sscan_int (old : Z) (s : string) : Z :=
  let '(neg, body) :=
    match s with String "-" r => (true, r) | String "+" r => (false, r) | _ => (false, s) end in
  let run := digit_run body in
  if String.eqb run "" then old
  else match digits_value 0 run with
       | Some n => let z := if neg : bool then - n else n in if in_int64 z then z else old
       | None => old
       end.

(** A space of the format takes one or more spaces of the input. *)
Definition take_spaces (s : string) : option string :=
  match runes s with
  | seg :: rest => if IsSpace (rune_of seg) then Some (bytes_of (drop_while (fun x => IsSpace (rune_of x)) rest)) else None
  | [] => None
  end.
Definition scan_then (f : string -> option string) (o : option string) : option string :=
  match o with Some s => f s | None => None end.
Definition sscan_stratum (old : Z) (line : string) : Z :=
  match scan_then take_spaces (scan_then (drop_prefix ":") (scan_then take_spaces (drop_prefix "Stratum" line))) with
  | Some rest => sscan_int old rest
  | None => old
  end.

Definition applyTrackingLine (st : NTPStatus) (line : string) : NTPStatus :=
  if HasPrefix line "Reference ID" then
    match cut_byte "(" line with
    | Some (_, after) =>
        match cut_byte ")" after with
        | Some (before, _) => mkNTPStatus (nt_Synced st) (nt_Stratum st) before (nt_Offset st) (nt_Sources st)
        | None => st
        end
    | None => st
    end
  else if HasPrefix line "Stratum" then
    mkNTPStatus (nt_Synced st) (sscan_stratum (nt_Stratum st) line) (nt_RefSource st) (nt_Offset st) (nt_Sources st)
  else if HasPrefix line "System time" then
    match Fields line with
    | _ :: _ :: _ :: p3 :: p4 :: _ =>
        mkNTPStatus (nt_Synced st) (nt_Stratum st) (nt_RefSource st) (p3 +:+ " " +:+ p4) (nt_Sources st)
    | _ => st
    end
  else if HasPrefix line "Leap status" then
    if Contains line "Normal"
    then mkNTPStatus true (nt_Stratum st) (nt_RefSource st) (nt_Offset st) (nt_Sources st)
    else st
  else st.

(** One line of the source list, when it has the shape of a source. *)
Definition chrony_source (line : string) : option NTPSource :=
  match Fields line with
  | (String mode (String state "")) :: name :: stratum :: poll :: _ :: _ :: sample :: _ =>
      if char_in "^=#" mode
      then Some (mkNTPSource (char_str state) name (sscan_int 0 stratum) poll
                   (match cut_byte "[" sample with Some (before, _) => before | None => sample end))
      else None
  | _ => None
  end.

Definition parseChronySources (out : string) : list NTPSource := omap chrony_source (split_byte lf out).

Definition getSources : svc Config (result (list NTPSource)) :=
  try! out := Run "chronyc" ["sources"] in
  mret (Ok (parseChronySources out)).

Definition GetStatus : svc Config NTPStatus :=
  out ← Run "chronyc" ["tracking"];
  match out with
  | Err _ => mret (mkNTPStatus false 0 "" "" [])
  | Ok out =>
      let st := foldl applyTrackingLine (mkNTPStatus false 0 "" "" []) (split_byte lf out) in
      sources ← getSources;
      mret (mkNTPStatus (nt_Synced st) (nt_Stratum st) (nt_RefSource st) (nt_Offset st)
              (match sources with Ok l => l | Err _ => [] end))
  end.

(** The lines of chrony.conf, as the template writes them. *)
Definition chrony_server (host : string) : string := "server " +:+ host +:+ " iburst".

Definition chrony_lines (n : NTPConfig) : list string :=
  let srv := NTPConfig_Server n in
  [""]
  ++ List.map chrony_server (NTPClientConfig_Sources (NTPConfig_Client n))
  ++ (if nonempty (NTPClientConfig_Fallback (NTPConfig_Client n))
      then [chrony_server (NTPClientConfig_Fallback (NTPConfig_Client n))] else [])
  ++ [""; "driftfile /var/lib/chrony/drift"; "makestep 1.0 3"]
  ++ (if NTPConfig_RTCSync n then ["rtcsync"] else [])
  ++ ["logdir /var/log/chrony"]
  ++ (if NTPServerConfig_Enabled srv
      then (if nonempty (NTPServerConfig_ListenAddress srv) then ["bindaddress " +:+ NTPServerConfig_ListenAddress srv] else [])
           ++ (if NTPServerConfig_ListenPort srv =? 0 then [] else ["port " +:+ itoa (NTPServerConfig_ListenPort srv)])
           ++ List.map (fun c => "allow " +:+ c) (NTPConfig_AllowSubnets n)
           ++ ["local stratum 10"]
      else [])
  ++ [""].

Definition chrony_text (n : NTPConfig) : string := join (char_str lf) (chrony_lines n).

Definition ntp_RenderConfig : svc Config (result string) :=
  try! _ := wrapping "parse chrony template: %w" [] (LocalCall "template.ParseFiles" ["configs/sysconf/chrony.conf.tmpl"]) in
  c ← get;
  mret (Ok (chrony_text (Config_NTP c))).

Definition ntp_RenderToDisk : svc Config (result unit) :=
  try! rendered := ntp_RenderConfig in
  wrapping "write chrony config: %w" [] (WriteFile "/etc/chrony/chrony.conf" rendered 420).

Definition ntp_Reload : svc Config (result unit) :=
  try! _ := Run "systemctl" ["restart"; "chrony"] in mret (Ok tt).

Definition ntp_ApplyConfig : svc Config (result unit) :=
  try! _ := ntp_RenderToDisk in
  try! _ := Run "systemctl" ["restart"; "chrony"] in
  mret (Ok tt).

Definition ForceSync : svc Config (result unit) := try! _ := Run "chronyc" ["makestep"] in mret (Ok tt).

Definition MaxNTPSources : Z := 20.
Definition MaxNTPAllowSubnets : Z := 50.

Definition on_ntp (f : NTPConfig -> NTPConfig) (c : Config) : Config := set_Config_NTP (f (Config_NTP c)) c.
Definition set_sources (f : list string -> list string) (n : NTPConfig) : NTPConfig :=
  set_NTPConfig_Client (set_NTPClientConfig_Sources (f (NTPClientConfig_Sources (NTPConfig_Client n))) (NTPConfig_Client n)) n.
Definition set_subnets (f : list string -> list string) (n : NTPConfig) : NTPConfig :=
  set_NTPConfig_AllowSubnets (f (NTPConfig_AllowSubnets n)) n.

Definition length_Z {A} (l : list A) : Z := Z.of_nat (length l).

(** An index that a list does not have. *)
Definition out_of_range {A} (index : Z) (l : list A) : bool := (index <? 0) || (length_Z l <=? index).

Section Ntp.
Variable unicode_fold : Z -> Z.

Definition AddSource (host : string) : svc Config (result unit) :=
  let host := TrimSpace host in
  match validateNTPHost host with
  | Err e => mret (Err e)
  | Ok _ =>
      c ← get;
      let sources := NTPClientConfig_Sources (NTPConfig_Client (Config_NTP c)) in
      if MaxNTPSources <=? length_Z sources then mret (Err (Errorf "maximum %d NTP sources reached" [itoa MaxNTPSources]))
      else if existsb (fun s => EqualFold unicode_fold s host) sources
      then mret (Err (Errorf "source %s already exists" [host]))
      else edit_and_save (on_ntp (set_sources (fun l => l ++ [host])))
  end.

Definition RemoveSource (index : Z) : svc Config (result unit) :=
  c ← get;
  if out_of_range index (NTPClientConfig_Sources (NTPConfig_Client (Config_NTP c)))
  then mret (Err (Errorf "invalid source index: %d" [itoa index]))
  else edit_and_save (on_ntp (set_sources (delete (Z.to_nat index)))).

Definition AddAllowSubnet (cidr : string) : svc Config (result unit) :=
  let cidr := TrimSpace cidr in
  if String.eqb cidr "" then mret (Err (Errorf "empty subnet" []))
  else
    c ← get;
    let subnets := NTPConfig_AllowSubnets (Config_NTP c) in
    if MaxNTPAllowSubnets <=? length_Z subnets
    then mret (Err (Errorf "maximum %d NTP allow subnets reached" [itoa MaxNTPAllowSubnets]))
    else if mem cidr subnets then mret (Err (Errorf "subnet %s already in allow list" [cidr]))
    else edit_and_save (on_ntp (set_subnets (fun l => l ++ [cidr]))).

Definition RemoveAllowSubnet (index : Z) : svc Config (result unit) :=
  c ← get;
  if out_of_range index (NTPConfig_AllowSubnets (Config_NTP c))
  then mret (Err (Errorf "invalid subnet index: %d" [itoa index]))
  else edit_and_save (on_ntp (set_subnets (delete (Z.to_nat index)))).

Definition SaveSettings (fallback listenAddress : string) (listenPort : Z) (serverEnabled rtcSync : bool) :
    svc Config (result unit) :=
  let fallback := TrimSpace fallback in
  let listenAddress := TrimSpace listenAddress in
  match (guard! (if nonempty fallback then validateNTPHost fallback else Ok tt) ;;
         if nonempty listenAddress then wrap_err "NTP listen address: %w" [] (ValidateIP listenAddress) else Ok tt) with
  | Err e => mret (Err e)
  | Ok _ =>
      edit_and_save (on_ntp (fun n =>
        mkNTPConfig (mkNTPServerConfig serverEnabled listenAddress listenPort)
          (set_NTPClientConfig_Fallback fallback (NTPConfig_Client n)) rtcSync (NTPConfig_AllowSubnets n)))
  end.

(** ** NTP handlers *)

Definition HandleForceSync (r : hreq) : svc Config hresp :=
  answer StatusInternalServerError (respondRefresh r "/ntp") ForceSync.

Definition HandleAddSource (r : hreq) : svc Config hresp :=
  if negb (is_ok (hq_parse r)) then mret (clientError StatusBadRequest "error.badForm")
  else
    let host := TrimSpace (hq_form r "host") in
    if String.eqb host "" then mret (clientError StatusBadRequest "error.hostRequired")
    else saved_and_applied StatusBadRequest (respondRefresh r "/ntp") (AddSource host) ntp_ApplyConfig.

Definition HandleRemoveSource (r : hreq) : svc Config hresp :=
  match Atoi (hq_path r "index") with
  | None => mret (clientError StatusBadRequest "error.invalidIndex")
  | Some idx => saved_and_applied StatusBadRequest (respondRefresh r "/ntp") (RemoveSource idx) ntp_ApplyConfig
  end.

Definition HandleAddAllowSubnet (r : hreq) : svc Config hresp :=
  if negb (is_ok (hq_parse r)) then mret (clientError StatusBadRequest "error.badForm")
  else
    let cidr := TrimSpace (hq_form r "cidr") in
    if negb (is_ok (ValidateCIDR cidr)) then mret (clientError StatusBadRequest "error.invalidCIDR")
    else saved_and_applied StatusBadRequest (respondRefresh r "/ntp") (AddAllowSubnet cidr) ntp_ApplyConfig.

Definition HandleRemoveAllowSubnet (r : hreq) : svc Config hresp :=
  match Atoi (hq_path r "index") with
  | None => mret (clientError StatusBadRequest "error.invalidIndex")
  | Some idx => saved_and_applied StatusBadRequest (respondRefresh r "/ntp") (RemoveAllowSubnet idx) ntp_ApplyConfig
  end.

Definition HandleSaveSettings (r : hreq) : svc Config hresp :=
  if negb (is_ok (hq_parse r)) then mret (clientError StatusBadRequest "error.badForm")
  else
    saved_and_applied StatusInternalServerError (respondRefresh r "/ntp")
      (SaveSettings (hq_form r "fallback") (hq_form r "listen_address") (Atoi_value (hq_form r "listen_port"))
         (String.eqb (hq_form r "server_enabled") "on") (String.eqb (hq_form r "rtc_sync") "on"))
      ntp_ApplyConfig.

End Ntp.

(** ** Syslog *)

Definition allowedTLSDirs : list string := ["/etc/ssl/"; "/etc/pki/"; "/etc/lankeeper/"; "/etc/rsyslog.d/"].
Definition rsyslogPathChars : string :=
  "abcdefghijklmnopqrstuvwxyzABCDEFGHIJKLMNOPQRSTUVWXYZ0123456789/._-+~".
Definition hasOnlyRsyslogPathChars (p : string) : bool := all_chars (char_in rsyslogPathChars) p.

Definition validateRsyslogPort (field raw : string) : result unit :=
  if String.eqb raw "" then Ok tt
  else match Atoi raw with
  | None => Err (Errorf "syslog %s must be a decimal port number, got %q" [field; raw])
  | Some n => ValidatePort n
  end.

Definition validateLogPath (p : string) : result unit :=
  if String.eqb p "" then Ok tt
  else
    guard! fail_if (negb (IsAbs p)) (Errorf "syslog log_path must be an absolute path, got %q" [p]) ;;
    guard! fail_if (negb (hasOnlyRsyslogPathChars p))
      (Errorf "syslog log_path contains characters that could escape rsyslog's quoted-string syntax; allowed: %s" [rsyslogPathChars]) ;;
    let clean := Clean p in
    guard! fail_if (negb (String.eqb clean p))
      (Errorf "syslog log_path contains traversal segments; expected %q, got %q" [clean; p]) ;;
    fail_if (negb (String.eqb clean "/var/log") && negb (HasPrefix (clean +:+ "/") "/var/log/"))
      (Errorf "syslog log_path %q must live under /var/log/" [p]).

Definition validateTLSPath (field p : string) : result unit :=
  if String.eqb p "" then Ok tt
  else
    guard! fail_if (negb (IsAbs p)) (Errorf "syslog %s must be an absolute path, got %q" [field; p]) ;;
    guard! fail_if (negb (hasOnlyRsyslogPathChars p))
      (Errorf "syslog %s contains characters that could escape rsyslog's quoted-string syntax; allowed: %s" [field; rsyslogPathChars]) ;;
    let clean := Clean p in
    guard! fail_if (negb (String.eqb clean p))
      (Errorf "syslog %s contains traversal segments; expected %q, got %q" [field; clean; p]) ;;
    fail_if (negb (existsb (fun dir => HasPrefix (clean +:+ "/") dir || HasPrefix clean dir) allowedTLSDirs))
      (Errorf "syslog %s %q must live under one of %v" [field; p; join " " allowedTLSDirs]).

Definition validateSyslogRemoteHost (host : string) : result unit :=
  fail_if (negb (String.eqb host "" || bool_decide (is_Some (ParseIP host)) || is_ok (ValidateDomain host)))
    (Errorf "syslog remote host %q must be an IP address or a DNS name" [host]).

Definition syslogFacilities : list string :=
  ["auth"; "authpriv"; "cron"; "daemon"; "kern"; "lpr"; "mail"; "news"; "syslog"; "user";
   "local0"; "local1"; "local2"; "local3"; "local4"; "local5"; "local6"; "local7"].

Definition ErrInvalidFacility : error := Errorf "unknown syslog facility" [].

Definition on_syslog (f : SyslogConfig -> SyslogConfig) (c : Config) : Config := set_Config_Syslog (f (Config_Syslog c)) c.
Definition set_facilities (f : list string -> list string) (s : SyslogConfig) : SyslogConfig :=
  set_SyslogConfig_Client
    (set_SyslogClientConfig_Facilities (f (SyslogClientConfig_Facilities (SyslogConfig_Client s))) (SyslogConfig_Client s)) s.

Definition validateServerConfig (cfg : SyslogServerConfig) : result unit :=
  guard! validateTLSPath "tls_cert_file" (SyslogServerConfig_TLSCertFile cfg) ;;
  guard! validateTLSPath "tls_key_file" (SyslogServerConfig_TLSKeyFile cfg) ;;
  guard! validateTLSPath "tls_ca_file" (SyslogServerConfig_TLSCAFile cfg) ;;
  guard! validateLogPath (SyslogServerConfig_LogPath cfg) ;;
  guard! validateRsyslogPort "listen_udp" (SyslogServerConfig_ListenUDP cfg) ;;
  validateRsyslogPort "listen_tcp" (SyslogServerConfig_ListenTCP cfg).

Definition SaveServerConfig (cfg : SyslogServerConfig) : svc Config (result unit) :=
  match validateServerConfig cfg with
  | Err e => mret (Err e)
  | Ok _ => edit_and_save (on_syslog (set_SyslogConfig_Server cfg))
  end.

Definition validateClientConfig (cfg : SyslogClientConfig) : result unit :=
  guard! validateTLSPath "tls_ca_file" (SyslogClientConfig_TLSCAFile cfg) ;;
  validateSyslogRemoteHost (SyslogClientConfig_RemoteHost cfg).

Definition SaveClientConfig (cfg : SyslogClientConfig) : svc Config (result unit) :=
  match validateClientConfig cfg with
  | Err e => mret (Err e)
  | Ok _ => edit_and_save (on_syslog (set_SyslogConfig_Client cfg))
  end.

Definition RemoveFacility (index : Z) : svc Config (result unit) :=
  c ← get;
  if out_of_range index (SyslogClientConfig_Facilities (SyslogConfig_Client (Config_Syslog c)))
  then mret (Err (Errorf "invalid facility index: %d" [itoa index]))
  else edit_and_save (on_syslog (set_facilities (delete (Z.to_nat index)))).

(** The lines of 50-lankeeper.conf, as the template writes them. *)
Definition quoted (s : string) : string := char_str dquote +:+ s +:+ char_str dquote.
Definition assign (name value : string) : string := name +:+ "=" +:+ quoted value.

Definition tls_server_lines (s : SyslogServerConfig) : list string :=
  ["# TLS for inbound syslog over TCP (RFC 5425). Loads the gtls network";
   "# stream driver and points imtcp at the configured certificate triple.";
   "global("]
  ++ (if nonempty (SyslogServerConfig_TLSCAFile s)
      then ["    " +:+ assign "DefaultNetstreamDriverCAFile" (SyslogServerConfig_TLSCAFile s)] else [])
  ++ ["    " +:+ assign "DefaultNetstreamDriverCertFile" (SyslogServerConfig_TLSCertFile s);
      "    " +:+ assign "DefaultNetstreamDriverKeyFile" (SyslogServerConfig_TLSKeyFile s);
      ")";
      "module(" +:+ assign "load" "imtcp" +:+ " " +:+ assign "StreamDriver.Name" "gtls" +:+ " "
        +:+ assign "StreamDriver.Mode" "1" +:+ " " +:+ assign "StreamDriver.AuthMode" "anon" +:+ ")"].

Definition module_line (name : string) : string := "module(" +:+ assign "load" name +:+ ")".
Definition input_line (type port : string) : string :=
  "input(" +:+ assign "type" type +:+ " " +:+ assign "port" port +:+ ")".

Definition plain_server_lines (s : SyslogServerConfig) : list string :=
  [module_line "imudp"; input_line "imudp" (SyslogServerConfig_ListenUDP s)]
  ++ (if nonempty (SyslogServerConfig_ListenTCP s) then [module_line "imtcp"] else []).

Definition per_host_lines (logPath : string) : list string :=
  ["template(" +:+ assign "name" "RemoteHost" +:+ " " +:+ assign "type" "string" +:+ " "
     +:+ assign "string" (logPath +:+ "/%HOSTNAME%/%PROGRAMNAME%.log") +:+ ")";
   "if $fromhost-ip != '127.0.0.1' then {";
   "    action(" +:+ assign "type" "omfile" +:+ " " +:+ assign "dynaFile" "RemoteHost" +:+ ")";
   "    stop";
   "}"].

Definition server_lines (s : SyslogServerConfig) : list string :=
  if SyslogServerConfig_Enabled s
  then ["# Syslog server — receive logs from network devices"]
       ++ (if SyslogServerConfig_EnableTLS s then tls_server_lines s else plain_server_lines s)
       ++ (if nonempty (SyslogServerConfig_ListenTCP s) then [input_line "imtcp" (SyslogServerConfig_ListenTCP s)] else [])
       ++ (if SyslogServerConfig_PerHostDirs s then per_host_lines (SyslogServerConfig_LogPath s) else [])
  else [].

Definition tls_forward_lines (host f : string) : list string :=
  [f +:+ " action(" +:+ assign "type" "omfwd" +:+ " " +:+ assign "target" host +:+ " " +:+ assign "protocol" "tcp";
   "              " +:+ assign "StreamDriver" "gtls" +:+ " " +:+ assign "StreamDriverMode" "1" +:+ " "
     +:+ assign "StreamDriverAuthMode" "x509/name";
   "              " +:+ assign "StreamDriverPermittedPeers" host +:+ ")"].

Definition client_lines (c : SyslogClientConfig) : list string :=
  let host := SyslogClientConfig_RemoteHost c in
  if SyslogClientConfig_Enabled c
  then ["# Syslog client — forward logs to remote server"]
       ++ (if SyslogClientConfig_EnableTLS c
           then (if nonempty (SyslogClientConfig_TLSCAFile c)
                 then ["global(" +:+ assign "DefaultNetstreamDriverCAFile" (SyslogClientConfig_TLSCAFile c) +:+ ")"] else [])
                ++ List.flat_map (tls_forward_lines host) (SyslogClientConfig_Facilities c)
           else List.map (fun f => f +:+ " " +:+ (if String.eqb (SyslogClientConfig_Protocol c) "tcp" then "@@" else "@") +:+ host)
                  (SyslogClientConfig_Facilities c))
  else [].

Definition rsyslog_lines (s : SyslogConfig) : list string :=
  [module_line "builtin:omfile"] ++ server_lines (SyslogConfig_Server s) ++ client_lines (SyslogConfig_Client s) ++ [""].

Definition rsyslog_text (s : SyslogConfig) : string := join (char_str lf) (rsyslog_lines s).

Definition syslog_RenderConfig : svc Config (result string) :=
  try! _ := wrapping "parse rsyslog template: %w" [] (LocalCall "template.ParseFiles" ["configs/sysconf/rsyslog.conf.tmpl"]) in
  c ← get;
  mret (Ok (rsyslog_text (Config_Syslog c))).

Definition syslog_RenderToDisk : svc Config (result unit) :=
  try! rendered := syslog_RenderConfig in
  wrapping "write rsyslog config: %w" [] (WriteFile "/etc/rsyslog.d/50-lankeeper.conf" rendered 420).

Definition syslog_Reload : svc Config (result unit) :=
  try! _ := Run "systemctl" ["restart"; "rsyslog"] in mret (Ok tt).

Definition syslog_ApplyConfig : svc Config (result unit) :=
  try! _ := syslog_RenderToDisk in
  try! _ := Run "systemctl" ["restart"; "rsyslog"] in
  mret (Ok tt).

Definition TrimRight_lf (s : string) : string := String.rev (trim_left_set (char_str lf) (String.rev s)).

Definition GetRecentLogs (limit : Z) : svc Config (result (list string)) :=
  let limit := if (limit <=? 0) || (500 <? limit) then 100 else limit in
  try! out := Run "tail" ["-n"; itoa limit; "/var/log/syslog"] in
  mret (Ok (split_byte lf (TrimRight_lf out))).

Section Hosts.
(** The entries of a directory, each with whether it is one, and
    [os.IsNotExist]. *)
Variable dir_entries : string -> list (string * bool).
Variable notExist : error -> bool.

Definition GetRemoteHosts : svc Config (result (list string)) :=
  c ← get;
  let logPath := orDefault (SyslogServerConfig_LogPath (SyslogConfig_Server (Config_Syslog c))) "/var/log/remote" in
  r ← LocalCall "os.ReadDir" [logPath];
  mret (match r with
        | Err e => if notExist e then Ok [] else Err e
        | Ok answer => Ok (List.map fst (List.filter snd (dir_entries answer)))
        end).

End Hosts.

Section SyslogEdits.
Variable unicode_fold : Z -> Z.
Variable unicode_lower : string -> string.

Definition AddFacility (name : string) : svc Config (result unit) :=
  let name := TrimSuffix (ToLower unicode_lower (TrimSpace name)) ".*" in
  if negb (mem name syslogFacilities) then mret (Err (Errorw "%w: %q" [name] ErrInvalidFacility))
  else
    let selector := name +:+ ".*" in
    c ← get;
    if existsb (fun f => EqualFold unicode_fold f selector) (SyslogClientConfig_Facilities (SyslogConfig_Client (Config_Syslog c)))
    then mret (Err (Errorf "facility %s already configured" [selector]))
    else edit_and_save (on_syslog (set_facilities (fun l => l ++ [selector]))).

(** ** Syslog handlers *)

Definition syslogResponse (r : hreq) : hresp := respondRefresh r "/syslog".

Definition form_server (r : hreq) : SyslogServerConfig :=
  let f := hq_form r in
  mkSyslogServerConfig (String.eqb (f "enabled") "on") (TrimSpace (f "listen_udp")) (TrimSpace (f "listen_tcp"))
    (String.eqb (f "enable_tls") "on") (TrimSpace (f "tls_cert_file")) (TrimSpace (f "tls_key_file"))
    (TrimSpace (f "tls_ca_file")) (TrimSpace (f "log_path")) (String.eqb (f "per_host_dirs") "on")
    (TrimSpace (f "max_retention")).

Definition HandleSaveServerConfig (r : hreq) : svc Config hresp :=
  if negb (is_ok (hq_parse r)) then mret (clientError StatusBadRequest "error.badForm")
  else saved_and_applied StatusBadRequest (syslogResponse r) (SaveServerConfig (form_server r)) syslog_ApplyConfig.

(** The stored client settings with the fields of the form. *)
Definition form_client (r : hreq) (current : SyslogClientConfig) : SyslogClientConfig :=
  let f := hq_form r in
  mkSyslogClientConfig (String.eqb (f "enabled") "on") (TrimSpace (f "remote_host"))
    (if String.eqb (TrimSpace (f "protocol")) "tcp" then "tcp" else "udp")
    (String.eqb (f "enable_tls") "on") (TrimSpace (f "tls_ca_file")) (SyslogClientConfig_Facilities current).

Definition HandleSaveClientConfig (r : hreq) : svc Config hresp :=
  if negb (is_ok (hq_parse r)) then mret (clientError StatusBadRequest "error.badForm")
  else
    c ← get;
    saved_and_applied StatusBadRequest (syslogResponse r)
      (SaveClientConfig (form_client r (SyslogConfig_Client (Config_Syslog c)))) syslog_ApplyConfig.

Definition HandleAddFacility (r : hreq) : svc Config hresp :=
  if negb (is_ok (hq_parse r)) then mret (clientError StatusBadRequest "error.badForm")
  else
    a ← AddFacility (hq_form r "name");
    match a with
    | Err e => mret (if errors_Is e ErrInvalidFacility then clientError StatusBadRequest "error.invalidFacility"
                     else fail StatusBadRequest e)
    | Ok _ => answer StatusInternalServerError (syslogResponse r) syslog_ApplyConfig
    end.

Definition HandleRemoveFacility (r : hreq) : svc Config hresp :=
  match Atoi (hq_path r "index") with
  | None => mret (clientError StatusBadRequest "error.invalidIndex")
  | Some idx => saved_and_applied StatusBadRequest (syslogResponse r) (RemoveFacility idx) syslog_ApplyConfig
  end.

End SyslogEdits.

(** ** What the settings have to be *)

Record ntp_ok (n : NTPConfig) : Prop := mkNtpOk {
  no_sources : Forall (fun h => validateNTPHost h = Ok tt) (NTPClientConfig_Sources (NTPConfig_Client n));
  no_count : length_Z (NTPClientConfig_Sources (NTPConfig_Client n)) <= MaxNTPSources;
  no_fallback : NTPClientConfig_Fallback (NTPConfig_Client n) = ""
    \/ validateNTPHost (NTPClientConfig_Fallback (NTPConfig_Client n)) = Ok tt;
  no_listen : NTPServerConfig_ListenAddress (NTPConfig_Server n) = ""
    \/ is_Some (ParseIP (NTPServerConfig_ListenAddress (NTPConfig_Server n)));
  no_subnets : Forall (fun c => is_Some (ParseCIDR c)) (NTPConfig_AllowSubnets n);
  no_subnet_count : length_Z (NTPConfig_AllowSubnets n) <= MaxNTPAllowSubnets;
  no_subnet_twice : pairwise (fun a b => a <> b) (NTPConfig_AllowSubnets n) }.

(** The directives chrony reads: the words of each line that has any. *)
Definition chrony_reads (text : string) : list (list string) :=
  List.filter (fun ws => negb (length ws =? 0)%nat) (List.map Fields (split_byte lf text)).

(** The directives the settings ask for. *)
Definition chrony_directives (n : NTPConfig) : list (list string) :=
  let srv := NTPConfig_Server n in
  List.map (fun h => ["server"; h; "iburst"])
    (NTPClientConfig_Sources (NTPConfig_Client n)
     ++ List.filter nonempty [NTPClientConfig_Fallback (NTPConfig_Client n)])
  ++ [["driftfile"; "/var/lib/chrony/drift"]; ["makestep"; "1.0"; "3"]]
  ++ (if NTPConfig_RTCSync n then [["rtcsync"]] else [])
  ++ [["logdir"; "/var/log/chrony"]]
  ++ (if NTPServerConfig_Enabled srv
      then List.map (fun a => ["bindaddress"; a]) (List.filter nonempty [NTPServerConfig_ListenAddress srv])
           ++ (if NTPServerConfig_ListenPort srv =? 0 then [] else [["port"; itoa (NTPServerConfig_ListenPort srv)]])
           ++ List.map (fun c => ["allow"; c]) (NTPConfig_AllowSubnets n)
           ++ [["local"; "stratum"; "10"]]
      else []).

Definition facility_ok (f : string) : Prop := exists name, In name syslogFacilities /\ f = name +:+ ".*".

Record syslog_ok (s : SyslogConfig) : Prop := mkSyslogOk {
  so_server : validateServerConfig (SyslogConfig_Server s) = Ok tt;
  so_client : validateClientConfig (SyslogConfig_Client s) = Ok tt;
  so_facilities : Forall facility_ok (SyslogClientConfig_Facilities (SyslogConfig_Client s)) }.

(** The characters a value may bring into the file. *)
Definition value_char (a : ascii) : bool := char_in "abcdefghijklmnopqrstuvwxyzABCDEFGHIJKLMNOPQRSTUVWXYZ0123456789/._-+~:*" a.

(** What is left of a text without them: quotes, brackets, spaces, line
    breaks and the like. *)
Fixpoint skeleton (s : string) : string :=
  match s with
  | EmptyString => EmptyString
  | String a r => if value_char a then skeleton r else String a (skeleton r)
  end.

(** The same settings with every value replaced by one letter. *)
Definition blank (v : string) : string := if nonempty v then "x" else "".
Definition blanked (s : SyslogConfig) : SyslogConfig :=
  let v := SyslogConfig_Server s in
  let c := SyslogConfig_Client s in
  mkSyslogConfig
    (mkSyslogServerConfig (SyslogServerConfig_Enabled v) (blank (SyslogServerConfig_ListenUDP v))
       (blank (SyslogServerConfig_ListenTCP v)) (SyslogServerConfig_EnableTLS v) (blank (SyslogServerConfig_TLSCertFile v))
       (blank (SyslogServerConfig_TLSKeyFile v)) (blank (SyslogServerConfig_TLSCAFile v)) (blank (SyslogServerConfig_LogPath v))
       (SyslogServerConfig_PerHostDirs v) "")
    (mkSyslogClientConfig (SyslogClientConfig_Enabled c) (blank (SyslogClientConfig_RemoteHost c)) (SyslogClientConfig_Protocol c)
       (SyslogClientConfig_EnableTLS c) (blank (SyslogClientConfig_TLSCAFile c))
       (List.map blank (SyslogClientConfig_Facilities c))).

(** A path the daemon opens as root: absent or below one of the directories. *)
Definition below (dirs : list (list string)) (p : string) : Prop :=
  p = "" \/ exists d es, In d dirs /\ good_comps (d ++ es) /\ p = abs_path (d ++ es).

Definition tls_dirs : list (list string) := [["etc"; "ssl"]; ["etc"; "pki"]; ["etc"; "lankeeper"]; ["etc"; "rsyslog.d"]].

(** ** Lemmas: chrony *)

Lemma host_chars h : validateNTPHost h = Ok tt -> field_ok h.
Proof.
  unfold validateNTPHost. intros H. inv_ok. bool_hyps. split; [done|].
  eapply all_chars_impl; [|eassumption]. apply ascii_impl. vm_compute. reflexivity.
Qed.

Lemma ip_field a : is_Some (ParseIP a) -> a <> "" -> field_ok a.
Proof.
  intros [ip Hp] Hne. split; [done|]. eapply all_chars_impl; [|by eapply ParseIP_chars].
  apply ascii_impl. vm_compute. reflexivity.
Qed.

Lemma cidr_field c : is_Some (ParseCIDR c) -> field_ok c.
Proof.
  intros [p Hp]. split; [by intros ->|]. eapply all_chars_impl; [|by eapply ParseCIDR_chars].
  apply ascii_impl. vm_compute. reflexivity.
Qed.

Lemma itoa_field z : field_ok (itoa z).
Proof.
  split.
  - unfold itoa. destruct (z <? 0); [done|]. cbn [digits]. destruct (z <? 10); [done|].
    assert (H : forall f m acc, acc <> "" -> digits f m acc <> "").
    { induction f as [|f IH]; intros m acc Ha; [done|]. cbn [digits]. destruct (m <? 10); [done|]. by apply IH. }
    by apply H.
  - eapply all_chars_impl; [|apply itoa_chars]. apply ascii_impl. vm_compute. reflexivity.
Qed.

(** A line made of words: it has no line break and reads as its words. *)
Definition reads_as (line : string) (words : list string) : Prop := has_char lf line = false /\ Fields line = words.

Lemma words_line ws : Forall field_ok ws -> reads_as (join " " ws) ws.
Proof.
  intros H. split; [|by apply Fields_join].
  apply (all_chars_not_has (fun a => negb (Ascii.eqb a lf))); [done|]. apply all_chars_join; [done|].
  eapply List.Forall_impl; [|exact H]. intros s [_ Hs]. eapply all_chars_impl; [|exact Hs].
  apply ascii_impl. vm_compute. reflexivity.
Qed.

Lemma field_ok_lit s : (negb (String.eqb s "") && all_chars plain_char s) = true -> field_ok s.
Proof. intros H. bool_hyps. by split. Qed.

(** What one line contributes. *)
Definition line_words (l : string) : list (list string) := List.filter (fun ws => negb (length ws =? 0)%nat) [Fields l].

Lemma filter_flat {A B} (P : B -> bool) (f : A -> B) l :
  List.filter P (List.map f l) = List.flat_map (fun x => List.filter P [f x]) l.
Proof.
  induction l as [|x l IH]; [done|]. cbn [List.map List.filter List.flat_map]. rewrite IH. by destruct (P (f x)).
Qed.

Lemma reads_lines lines : lines <> [] -> Forall (fun l => has_char lf l = false) lines ->
  chrony_reads (join (char_str lf) lines) = List.flat_map line_words lines.
Proof. intros Hne H. unfold chrony_reads. rewrite split_join by done. apply filter_flat. Qed.

(** A line of words is one directive. *)
Definition directive (l : string) (ws : list string) : Prop := has_char lf l = false /\ line_words l = [ws].

Lemma directive_words ws l : l = join " " ws -> ws <> [] -> Forall field_ok ws -> directive l ws.
Proof.
  intros -> Hne H. destruct (words_line ws H) as [Hl Hf]. split; [done|]. unfold line_words. rewrite Hf. cbn [List.filter].
  by destruct ws.
Qed.

Lemma directives_map {A} (line : A -> string) (ws : A -> list string) l :
  (forall x, In x l -> directive (line x) (ws x)) ->
  Forall (fun l => has_char lf l = false) (List.map line l) /\ List.flat_map line_words (List.map line l) = List.map ws l.
Proof.
  induction l as [|x l IH]; intros H; [done|]. cbn [List.map List.flat_map].
  destruct IH as [IH1 IH2]; [intros y Hy; apply H; by right|]. destruct (H x (or_introl eq_refl)) as [Hx1 Hx2].
  split; [by constructor|]. by rewrite Hx2, IH2.
Qed.

Ltac words := apply directive_words; [reflexivity|done|];
  repeat (apply List.Forall_cons; [first [assumption | apply field_ok_lit; reflexivity]|]); constructor.

Lemma server_directive h : field_ok h -> directive (chrony_server h) ["server"; h; "iburst"].
Proof. intros H. words. Qed.

(** Lines that read as directives, piece by piece. *)
Definition piece (lines : list string) (ds : list (list string)) : Prop :=
  Forall (fun l => has_char lf l = false) lines /\ List.flat_map line_words lines = ds.

Lemma piece_app l1 d1 l2 d2 : piece l1 d1 -> piece l2 d2 -> piece (l1 ++ l2) (d1 ++ d2).
Proof. intros [H1 H2] [H3 H4]. split; [by apply Forall_app_2|]. by rewrite List.flat_map_app, H2, H4. Qed.

Lemma piece_blank l d : piece l d -> piece ("" :: l) d.
Proof. intros [H1 H2]. split; [by constructor|]. exact H2. Qed.

Lemma piece_map {A} (line : A -> string) ws l : (forall x, In x l -> directive (line x) (ws x)) ->
  piece (List.map line l) (List.map ws l).
Proof. apply directives_map. Qed.

Lemma piece_one l ws : directive l ws -> piece [l] [ws].
Proof. intros H. by apply (piece_map (fun _ => l) (fun _ => ws) [tt]). Qed.

Lemma piece_nil : piece [] [].
Proof. by split. Qed.

Lemma piece_optional v line ws : (v <> "" -> directive (line v) (ws v)) ->
  piece (if nonempty v then [line v] else []) (List.map ws (List.filter nonempty [v])).
Proof.
  intros H. cbn [List.filter]. unfold nonempty. destruct (String.eqb_spec v ""); [apply piece_nil|].
  apply piece_one. by apply H.
Qed.

(** The file chrony reads says what the settings say, and nothing else. *)
Lemma chrony_reads_back n : ntp_ok n -> chrony_reads (chrony_text n) = chrony_directives n.
Proof.
  intros Hok. unfold chrony_text.
  assert (H : piece (chrony_lines n) (chrony_directives n ++ [])).
  2:{ destruct H as [H1 H2]. rewrite app_nil_r in H2. rewrite reads_lines; [done| |done]. by unfold chrony_lines. }
  pose proof (no_sources n Hok) as Hs. pose proof (no_subnets n Hok) as Hc. rewrite List.Forall_forall in Hs, Hc.
  unfold chrony_lines, chrony_directives. rewrite List.map_app, <- !app_assoc. cbn [app]. apply piece_blank.
  apply piece_app; [apply piece_map; intros x Hx; by apply server_directive, host_chars, Hs|].
  apply piece_app.
  { apply (piece_optional _ chrony_server (fun h => ["server"; h; "iburst"])). intros Hne. apply server_directive, host_chars.
    by destruct (no_fallback n Hok). }
  apply piece_blank. apply (piece_app ["driftfile /var/lib/chrony/drift"; "makestep 1.0 3"] [_; _]).
  { apply (piece_app [_] [_] [_] [_]); apply piece_one; words. }
  apply piece_app; [destruct (NTPConfig_RTCSync n); [apply piece_one; words|apply piece_nil]|].
  apply (piece_app ["logdir /var/log/chrony"] [_]); [apply piece_one; words|].
  apply piece_app; [|by apply piece_blank, piece_nil].
  destruct (NTPServerConfig_Enabled _); [|apply piece_nil].
  apply piece_app.
  { apply (piece_optional _ (fun a => "bindaddress " +:+ a) (fun a => ["bindaddress"; a])). intros Hne.
    assert (Ha : field_ok (NTPServerConfig_ListenAddress (NTPConfig_Server n)))
      by (apply ip_field; [by destruct (no_listen n Hok)|done]). words. }
  apply piece_app.
  { destruct (_ =? 0); [apply piece_nil|]. apply piece_one. pose proof (itoa_field (NTPServerConfig_ListenPort (NTPConfig_Server n))). words. }
  apply piece_app; [|apply piece_one; words].
  apply piece_map. intros c Hin. pose proof (cidr_field c (Hc c Hin)). words.
Qed.

(** ** Lemmas: rsyslog *)

Lemma skeleton_app s t : skeleton (s +:+ t) = skeleton s +:+ skeleton t.
Proof. induction s as [|a s IH]; [done|]. cbn -[value_char]. rewrite IH. by destruct (value_char a). Qed.

Definition value_ok (v : string) : Prop := all_chars value_char v = true.

Lemma skeleton_value v : value_ok v -> skeleton v = "".
Proof.
  unfold value_ok. induction v as [|a v IH]; [done|]. cbn -[value_char]. intros H. apply andb_prop in H as [-> H]. by apply IH.
Qed.

Lemma skeleton_join l : skeleton (join (char_str lf) l) = join (char_str lf) (List.map skeleton l).
Proof.
  induction l as [|x l IH]; [done|]. destruct l as [|y l]; [done|].
  rewrite join_cons by done. cbn [List.map]. rewrite (join_cons _ (skeleton x)) by done. by rewrite !skeleton_app, IH.
Qed.

(** Lines of the same shape. *)
Definition same_shape : list string -> list string -> Prop := Forall2 (fun a b => skeleton a = skeleton b).

Lemma same_shape_text l l' : same_shape l l' -> skeleton (join (char_str lf) l) = skeleton (join (char_str lf) l').
Proof.
  intros H. rewrite !skeleton_join. f_equal. induction H as [|x y l l' Hxy _ IH]; [done|]. cbn. by rewrite Hxy, IH.
Qed.

Lemma blank_ok v : value_ok (blank v).
Proof. unfold blank. by destruct (nonempty v). Qed.

Lemma nonempty_blank v : nonempty (blank v) = nonempty v.
Proof. unfold blank. by destruct (nonempty v). Qed.

Ltac shape_line :=
  unfold input_line, module_line, assign, quoted; rewrite ?skeleton_app;
  repeat match goal with H : value_ok ?v |- context [skeleton ?v] => rewrite (skeleton_value v H) end;
  repeat match goal with |- context [skeleton (blank ?v)] => rewrite (skeleton_value _ (blank_ok v)) end;
  reflexivity.

Ltac shape_lines := unfold same_shape; repeat first [apply List.Forall2_nil | apply List.Forall2_cons; [shape_line|]].

Lemma if_shape (b b' : bool) l m l' m' : b = b' -> same_shape l l' -> same_shape m m' ->
  same_shape (if b then l else m) (if b' then l' else m').
Proof. intros -> H1 H2. by destruct b'. Qed.

Lemma nil_shape : same_shape [] [].
Proof. constructor. Qed.

Lemma shape_app l1 l2 k1 k2 : same_shape l1 k1 -> same_shape l2 k2 -> same_shape (l1 ++ l2) (k1 ++ k2).
Proof. apply Forall2_app. Qed.

Definition server_values (s : SyslogServerConfig) : list string :=
  [SyslogServerConfig_ListenUDP s; SyslogServerConfig_ListenTCP s; SyslogServerConfig_TLSCertFile s;
   SyslogServerConfig_TLSKeyFile s; SyslogServerConfig_TLSCAFile s; SyslogServerConfig_LogPath s].
Definition client_values (c : SyslogClientConfig) : list string :=
  SyslogClientConfig_RemoteHost c :: SyslogClientConfig_TLSCAFile c :: SyslogClientConfig_Facilities c.

Lemma server_shape s : Forall value_ok (server_values (SyslogConfig_Server s)) ->
  same_shape (server_lines (SyslogConfig_Server s)) (server_lines (SyslogConfig_Server (blanked s))).
Proof.
  unfold server_values. intros H. repeat apply List.Forall_cons_iff in H as [? H].
  unfold server_lines. apply if_shape; [done| |apply nil_shape]. cbn [blanked SyslogConfig_Server
    SyslogServerConfig_EnableTLS SyslogServerConfig_ListenTCP SyslogServerConfig_PerHostDirs SyslogServerConfig_LogPath].
  repeat apply Forall2_app; [by repeat constructor| | |].
  - apply if_shape; [done|..]; unfold tls_server_lines, plain_server_lines;
      cbn [SyslogServerConfig_TLSCAFile SyslogServerConfig_TLSCertFile SyslogServerConfig_TLSKeyFile SyslogServerConfig_ListenUDP
           SyslogServerConfig_ListenTCP].
    + repeat apply Forall2_app; [by repeat constructor| |shape_lines].
      apply if_shape; [by rewrite nonempty_blank|shape_lines|apply nil_shape].
    + apply (shape_app [_; _] _ [_; _]); [shape_lines|]. apply if_shape; [by rewrite nonempty_blank|by repeat constructor|apply nil_shape].
  - apply if_shape; [by rewrite nonempty_blank|shape_lines|apply nil_shape].
  - apply if_shape; [done| |apply nil_shape]. unfold per_host_lines. shape_lines.
Qed.

Lemma client_shape s : Forall value_ok (client_values (SyslogConfig_Client s)) ->
  same_shape (client_lines (SyslogConfig_Client s)) (client_lines (SyslogConfig_Client (blanked s))).
Proof.
  unfold client_values. intros H. repeat apply List.Forall_cons_iff in H as [? H].
  unfold client_lines. cbn [blanked SyslogConfig_Client SyslogClientConfig_Enabled SyslogClientConfig_RemoteHost
    SyslogClientConfig_Protocol SyslogClientConfig_EnableTLS SyslogClientConfig_TLSCAFile SyslogClientConfig_Facilities].
  apply if_shape; [done| |apply nil_shape]. apply Forall2_app; [by repeat constructor|]. apply if_shape; [done|..].
  - apply Forall2_app; [apply if_shape; [by rewrite nonempty_blank|shape_lines|apply nil_shape]|].
    induction H as [|f l Hf Hl IH]; [constructor|]. cbn [List.map List.flat_map]. apply Forall2_app; [|exact IH].
    unfold tls_forward_lines. shape_lines.
  - induction H as [|f l Hf Hl IH]; [constructor|]. cbn [List.map]. apply List.Forall2_cons; [|exact IH]. shape_line.
Qed.

Lemma path_value p : hasOnlyRsyslogPathChars p = true -> value_ok p.
Proof. apply all_chars_impl. apply ascii_impl. vm_compute. reflexivity. Qed.

(** ** Lemmas: accepted values *)

Lemma log_below_dir p dirs ds : p <> "" -> IsAbs p = true -> Clean p = p -> In ds dirs -> good_comps ds -> ds <> [] ->
  HasPrefix (p +:+ "/") (abs_path ds +:+ "/") = true -> below dirs p.
Proof.
  intros Hne Ha Hc Hin Hg Hds Hp. right. destruct (Clean_IsAbs p Ha) as (cs & Hcs & Hpe). rewrite Hc in Hpe. subst p.
  assert (Hcs' : cs <> []).
  { intros ->. destruct ds as [|d ds]; [done|]. inversion Hg as [|? ? Hd _]; subst.
    apply HasPrefix_true in Hp as [r Hr]. unfold abs_path, sep_str in Hr. cbn in Hr. destruct d as [|a d]; [done|].
    destruct ds; cbn in Hr; injection Hr as <- _; by apply good_comp_spec in Hd as (_ & _ & _ & Hd). }
  enough (Hpre : exists es, cs = ds ++ es).
  { destruct Hpre as [es ->]. by exists ds, es. }
  apply HasPrefix_true in Hp as [r Hr].
  assert (HS : split_byte sep (abs_path cs +:+ "/") = split_byte sep (abs_path ds) ++ split_byte sep r).
  { rewrite Hr. rewrite append_assoc. apply split_byte_app. }
  change (abs_path cs +:+ "/") with (abs_path cs +:+ String sep "") in HS. rewrite split_byte_app in HS. rewrite !split_abs_path in HS by done. cbn [app] in HS. injection HS as HS.
  destruct (split_byte sep r) as [|x xs] eqn:E; [by apply split_byte_nonnil in E|].
  destruct (exists_last (l := x :: xs) ltac:(done)) as (es & z & Hz). rewrite Hz, app_assoc in HS.
  apply app_inj_tail in HS as [-> _]. by exists es.
Qed.

Lemma port_value field raw : validateRsyslogPort field raw = Ok tt -> value_ok raw.
Proof.
  unfold validateRsyslogPort. destruct (String.eqb_spec raw "") as [->|_]; [done|].
  destruct (Atoi raw) as [n|] eqn:E; [|done]. intros _. revert E. unfold Atoi.
  assert (Hd : forall s m, digits_value 0 s = Some m -> value_ok s).
  { intros s m H. eapply all_chars_impl; [|by eapply digits_value_chars]. apply ascii_impl. vm_compute. reflexivity. }
  assert (Hs : forall a s, value_char a = true -> value_ok s -> value_ok (String a s)).
  { intros a s Ha H. unfold value_ok. cbn [all_chars]. by rewrite Ha. }
  destruct raw as [|a raw]; [done|]. destruct (Ascii.eqb_spec a "-") as [->|Hm]; [|destruct (Ascii.eqb_spec a "+") as [->|Hp]].
  - cbn [Ascii.eqb]. destruct raw; [done|]. destruct (digits_value 0 _) eqn:E; [|done]. intros _.
    apply Hs; [reflexivity|by eapply Hd].
  - destruct raw; [done|]. destruct (digits_value 0 _) eqn:E; [|done]. intros _. apply Hs; [reflexivity|by eapply Hd].
  - assert (Hb : match String a raw with String "-" r => (true, r) | String "+" r => (false, r) | _ => (false, String a raw) end
      = (false, String a raw)).
    { destruct a as [[] [] [] [] [] [] [] []]; try done; congruence. }
    rewrite Hb. destruct (digits_value 0 (String a raw)) eqn:E; [|done]. intros _. by eapply Hd.
Qed.

Lemma host_value h : validateSyslogRemoteHost h = Ok tt -> value_ok h.
Proof.
  unfold validateSyslogRemoteHost. rewrite fail_if_Ok, negb_false_iff, !orb_true_iff. intros [[H|H]|H].
  - by apply String.eqb_eq in H as ->.
  - apply bool_decide_eq_true in H as [ip Hp]. eapply all_chars_impl; [|by eapply ParseIP_chars].
    apply ascii_impl. vm_compute. reflexivity.
  - apply is_ok_Ok in H as [[] H]. unfold ValidateDomain in H. apply fail_if_Ok, orb_false_elim in H as [_ H].
    apply negb_false_iff in H. revert H. apply matchb_over. unfold domainPattern, rlabel, ropt, rchar. cbn [over rupto ropt].
    repeat split; apply ascii_impl; vm_compute; reflexivity.
Qed.

Lemma facility_value f : facility_ok f -> value_ok f.
Proof.
  intros (name & Hin & ->). unfold syslogFacilities in Hin. cbn [In] in Hin.
  repeat (destruct Hin as [<-|Hin]; [reflexivity|]). done.
Qed.

(** What [validateTLSPath] lets through. *)
Lemma tls_path_ok field p : validateTLSPath field p = Ok tt -> value_ok p /\ below tls_dirs p.
Proof.
  unfold validateTLSPath. destruct (String.eqb_spec p "") as [->|Hne]; [split; [done|by left]|]. intros H. inv_ok.
  bool_hyps. split; [by apply path_value|]. match goal with E : Clean p = p |- _ => rewrite E in H end.
  assert (Hpre : forall ds, In ds tls_dirs -> HasPrefix (p +:+ "/") (abs_path ds +:+ "/") || HasPrefix p (abs_path ds +:+ "/") = true ->
    below tls_dirs p).
  { intros ds Hin Hp. apply (log_below_dir p tls_dirs ds); try done.
    - unfold tls_dirs in Hin. cbn [In] in Hin. repeat (destruct Hin as [<-|Hin]; [by repeat constructor|]). done.
    - unfold tls_dirs in Hin. cbn [In] in Hin. repeat (destruct Hin as [<-|Hin]; [done|]). done.
    - apply orb_prop in Hp as [Hp|Hp]; [done|]. apply HasPrefix_true in Hp as [r ->]. rewrite append_assoc.
      apply HasPrefix_true. by exists (r +:+ "/"). }
  cbn [existsb allowedTLSDirs] in H.
  apply orb_prop in H as [H|H]; [apply (Hpre ["etc"; "ssl"]); [cbn; tauto|exact H]|].
  apply orb_prop in H as [H|H]; [apply (Hpre ["etc"; "pki"]); [cbn; tauto|exact H]|].
  apply orb_prop in H as [H|H]; [apply (Hpre ["etc"; "lankeeper"]); [cbn; tauto|exact H]|].
  apply orb_prop in H as [H|H]; [apply (Hpre ["etc"; "rsyslog.d"]); [cbn; tauto|exact H]|done].
Qed.

Lemma log_path_ok p : validateLogPath p = Ok tt -> value_ok p /\ below [["var"; "log"]] p.
Proof.
  unfold validateLogPath. destruct (String.eqb_spec p "") as [->|Hne]; [split; [done|by left]|]. intros H. inv_ok.
  bool_hyps. split; [by apply path_value|]. match goal with E : Clean p = p |- _ => rewrite E in H end. apply andb_false_iff in H.
  apply (log_below_dir p _ ["var"; "log"]); try done; [by left|by repeat constructor|].
  destruct H as [H|H]; apply negb_false_iff in H; [|done]. apply String.eqb_eq in H as ->. reflexivity.
Qed.

(** What the accepted settings make the daemon open. *)
Definition confined (s : SyslogConfig) : Prop :=
  Forall (below tls_dirs)
    [SyslogServerConfig_TLSCertFile (SyslogConfig_Server s); SyslogServerConfig_TLSKeyFile (SyslogConfig_Server s);
     SyslogServerConfig_TLSCAFile (SyslogConfig_Server s); SyslogClientConfig_TLSCAFile (SyslogConfig_Client s)]
  /\ below [["var"; "log"]] (SyslogServerConfig_LogPath (SyslogConfig_Server s)).

Lemma syslog_values s : syslog_ok s ->
  Forall value_ok (server_values (SyslogConfig_Server s)) /\ Forall value_ok (client_values (SyslogConfig_Client s)) /\ confined s.
Proof.
  intros [Hs Hc Hf]. unfold validateServerConfig in Hs. unfold validateClientConfig in Hc. inv_ok.
  repeat match goal with
  | u : unit |- _ => destruct u
  | H : validateTLSPath _ _ = Ok tt |- _ => apply tls_path_ok in H as [? ?]
  | H : validateLogPath _ = Ok tt |- _ => apply log_path_ok in H as [? ?]
  | H : validateRsyslogPort _ _ = Ok tt |- _ => apply port_value in H
  | H : validateSyslogRemoteHost _ = Ok tt |- _ => apply host_value in H
  end.
  split; [by repeat constructor|]. split; [|split; [|done]].
  2:{ by do 4 (apply List.Forall_cons; [done|]). }
  constructor; [done|]. constructor; [done|]. eapply List.Forall_impl; [|exact Hf]. apply facility_value.
Qed.

(** The structure of the file does not depend on the values. *)
Lemma rsyslog_shape s : syslog_ok s -> skeleton (rsyslog_text s) = skeleton (rsyslog_text (blanked s)).
Proof.
  intros H. destruct (syslog_values s H) as (Hs & Hc & _). apply same_shape_text. unfold rsyslog_lines.
  repeat apply Forall2_app; [by repeat constructor|by apply server_shape|by apply client_shape|by repeat constructor].
Qed.

(** ** The operations over time *)

Inductive dop : Type :=
| DForceSync (r : hreq) | DAddSource (r : hreq) | DRemoveSource (r : hreq) | DAddAllowSubnet (r : hreq)
| DRemoveAllowSubnet (r : hreq) | DSaveSettings (r : hreq)
| DSaveServer (r : hreq) | DSaveClient (r : hreq) | DAddFacility (r : hreq) | DRemoveFacility (r : hreq).

(** Settings that passed the checks. *)
Definition settings_ok (c : Config) : Prop := ntp_ok (Config_NTP c) /\ syslog_ok (Config_Syslog c).

(** What may be written while the settings are those of [c]. *)
Definition follows (c : Config) (call : call) : Prop :=
  match call with
  | CWriteFile path content _ =>
      (path = "/etc/chrony/chrony.conf" /\ content = chrony_text (Config_NTP c)
       /\ chrony_reads content = chrony_directives (Config_NTP c))
      \/ (path = "/etc/rsyslog.d/50-lankeeper.conf" /\ content = rsyslog_text (Config_Syslog c)
          /\ skeleton content = skeleton (rsyslog_text (blanked (Config_Syslog c))) /\ confined (Config_Syslog c))
  | _ => True
  end.

(** No file of a daemon is written. *)
Definition no_write (c : call) : bool := match c with CWriteFile _ _ _ => false | _ => true end.

Section Ops.
Variable unicode_fold : Z -> Z.
Variable unicode_lower : string -> string.

Definition run_daemon (op : dop) : svc Config hresp :=
  match op with
  | DForceSync r => HandleForceSync r
  | DAddSource r => HandleAddSource unicode_fold r
  | DRemoveSource r => HandleRemoveSource r
  | DAddAllowSubnet r => HandleAddAllowSubnet r
  | DRemoveAllowSubnet r => HandleRemoveAllowSubnet r
  | DSaveSettings r => HandleSaveSettings r
  | DSaveServer r => HandleSaveServerConfig r
  | DSaveClient r => HandleSaveClientConfig r
  | DAddFacility r => HandleAddFacility unicode_fold unicode_lower r
  | DRemoveFacility r => HandleRemoveFacility r
  end.

(** Whatever the machine answers, the settings stay checked and what is
    written is what the settings left behind ask for. *)
Definition faithful {A} (m : svc Config A) : Prop :=
  forall w h c, settings_ok c ->
    let r := m w h c in
    settings_ok (snd (fst r)) /\ exists t, snd r = h ++ t /\ Forall (follows (snd (fst r))) t.

(** An edit writes no file of a daemon and keeps the settings checked. *)
Definition edits {A} (m : svc Config A) : Prop := keeps (fun c => no_write c = true) settings_ok m.

Lemma no_write_follows c call : no_write call = true -> follows c call.
Proof. by destruct call. Qed.

Lemma edits_faithful {A} (m : svc Config A) : edits m -> faithful m.
Proof.
  intros H w h c Hc. destruct (H w h c Hc) as [Hs (t & Ht & HF)]. split; [done|]. exists t. split; [done|].
  eapply List.Forall_impl; [|exact HF]. intros x. apply no_write_follows.
Qed.

(** An edit followed by steps that only render what it left. *)
Lemma edit_then_apply {A B} (m : svc Config A) (k : A -> svc Config B) :
  edits m -> (forall a c, settings_ok c -> keeps (follows c) (eq c) (k a)) -> faithful (mbind k m).
Proof.
  intros Hm Hk w h c Hc. destruct (Hm w h c Hc) as [Hs (t & Ht & HF)]. unfold mbind, svc_bind. cbv zeta.
  destruct (m w h c) as [[a c1] h1]. cbn [fst snd] in *. subst h1.
  destruct (Hk a c1 Hs w (h ++ t) c1 eq_refl) as [Hc2 (t' & Ht' & HF')]. rewrite <- Hc2, Ht'. split; [done|].
  exists (t ++ t'). split; [by rewrite app_assoc|]. apply Forall_app_2; [|done].
  eapply List.Forall_impl; [|exact HF]. intros x. apply no_write_follows.
Qed.

(** Reading the template, writing what it gives and restarting the daemon. *)
Definition rendered_by (tmpl : string) (f : Config -> string) (msg : string) : svc Config (result string) :=
  try! _ := wrapping msg [] (LocalCall "template.ParseFiles" [tmpl]) in
  c ← get;
  mret (Ok (f c)).

Lemma render_and_restart c tmpl (f : Config -> string) path unit_name m1 m2 :
  follows c (CWriteFile path (f c) 420) ->
  keeps (follows c) (eq c)
    (try! _ := (try! rendered := rendered_by tmpl f m1 in wrapping m2 [] (WriteFile path rendered 420)) in
     try! _ := Run "systemctl" ["restart"; unit_name] in mret (Ok tt)).
Proof.
  intros HF w h c' <-. cbv [rendered_by try_bind wrapping LocalCall Run WriteFile perform get mbind svc_bind mret svc_ret].
  assert (Ht : forall t, Forall (follows c) t -> exists t', h ++ t = h ++ t' /\ Forall (follows c) t') by (intros t Ht; by exists t).
  destruct (w h _) as [u|e]; cbn [wrap_err fst snd]; (split; [by repeat case_match|]).
  2:{ apply Ht. by apply List.Forall_cons. }
  destruct (w (h ++ _) _) as [u'|e]; cbn [wrap_err discard fst snd].
  - destruct (w _ (CRun _ _ _)); cbn [fst snd]; rewrite <- !app_assoc; apply Ht;
      (apply List.Forall_cons; [done|]); (apply List.Forall_cons; [done|]); by apply List.Forall_cons.
  - rewrite <- !app_assoc. apply Ht. apply List.Forall_cons; [done|]. by apply List.Forall_cons.
Qed.

Lemma ntp_apply_follows c : settings_ok c -> keeps (follows c) (eq c) ntp_ApplyConfig.
Proof.
  intros [Hn _]. apply (render_and_restart c _ (fun c => chrony_text (Config_NTP c))).
  left. split; [done|]. split; [done|]. by apply chrony_reads_back.
Qed.

Lemma syslog_apply_follows c : settings_ok c -> keeps (follows c) (eq c) syslog_ApplyConfig.
Proof.
  intros [_ Hs]. apply (render_and_restart c _ (fun c => rsyslog_text (Config_Syslog c))).
  right. split; [done|]. split; [done|]. split; [by apply rsyslog_shape|by apply syslog_values].
Qed.

Lemma saved_and_applied_faithful status resp edit apply :
  edits edit -> (forall c, settings_ok c -> keeps (follows c) (eq c) apply) -> faithful (saved_and_applied status resp edit apply).
Proof.
  intros He Ha. apply edit_then_apply; [done|]. intros [u|e] c Hc; [|apply keeps_ret].
  unfold answer. apply keeps_bind; [by apply Ha|]. intros r. apply keeps_ret.
Qed.

(** ** Lemmas: the edits *)

Lemma edit_and_save_keeps (g : Config -> svc Config (result unit)) :
  (forall c, settings_ok c -> (exists e, g c = mret (Err e)) \/ exists f, g c = edit_and_save f /\ settings_ok (f c)) ->
  edits (c ← get; g c).
Proof.
  intros H w h c Hc. cbv [mbind svc_bind get]. destruct (H c Hc) as [(e & ->)|(f & -> & Hf)].
  - split; [done|]. exists []. by rewrite app_nil_r.
  - split; [done|]. exists [CSave (f c)]. split; [done|]. by repeat constructor.
Qed.

Lemma edit_only f : (forall c, settings_ok c -> settings_ok (f c)) -> edits (edit_and_save f).
Proof.
  intros H w h c Hc. apply (edit_and_save_keeps (fun _ => edit_and_save f)); [|done]. intros c' Hc'. right.
  exists f. split; [done|]. by apply H.
Qed.

Lemma edits_err {A} (e : error) : edits (mret (Err e) : svc Config (result A)).
Proof. apply keeps_ret. Qed.

Lemma in_delete {A} (x : A) k l : In x (delete k l) -> In x l.
Proof.
  rewrite <- !list_elem_of_In, !list_elem_of_lookup. intros (i & Hi). destruct (Nat.lt_ge_cases i k).
  - rewrite list_lookup_delete_lt in Hi by done. by exists i.
  - rewrite list_lookup_delete_ge in Hi by done. by exists (S i).
Qed.

Lemma Forall_deleted {A} (P : A -> Prop) k l : Forall P l -> Forall P (delete k l).
Proof. rewrite !List.Forall_forall. intros H x Hx. apply H. by eapply in_delete. Qed.

Lemma length_deleted {A} k (l : list A) n : length_Z l <= n -> length_Z (delete k l) <= n.
Proof. unfold length_Z. intros H. rewrite delete_take_drop, length_app, length_take, length_drop. lia. Qed.

Lemma length_snoc {A} (l : list A) x n : (n <=? length_Z l) = false -> length_Z (l ++ [x]) <= n.
Proof. unfold length_Z. rewrite length_app. cbn [length]. intros H. bool_hyps. lia. Qed.

Lemma AddSource_edits host : edits (AddSource unicode_fold host).
Proof.
  unfold AddSource. destruct (validateNTPHost (TrimSpace host)) as [[]|e] eqn:E; [|apply edits_err].
  apply edit_and_save_keeps. intros c [Hn Hs]. destruct (_ <=? _) eqn:El; [left; by eexists|].
  destruct (existsb _ _); [left; by eexists|]. right. eexists. split; [reflexivity|]. split; [|done].
  destruct Hn. constructor; cbn; try done; [|by apply length_snoc]. apply Forall_app_2; [done|]. by constructor.
Qed.

Lemma RemoveSource_edits index : edits (RemoveSource index).
Proof.
  apply edit_and_save_keeps. intros c [Hn Hs]. destruct (out_of_range _ _); [left; by eexists|].
  right. eexists. split; [reflexivity|]. split; [|done].
  destruct Hn. constructor; cbn; try done; [by apply Forall_deleted|by apply length_deleted].
Qed.

Lemma AddAllowSubnet_edits cidr : is_Some (ParseCIDR (TrimSpace cidr)) -> edits (AddAllowSubnet cidr).
Proof.
  intros Hc. unfold AddAllowSubnet. destruct (String.eqb _ _); [apply edits_err|].
  apply edit_and_save_keeps. intros c [Hn Hs]. destruct (_ <=? _) eqn:El; [left; by eexists|].
  destruct (mem _ _) eqn:Em; [left; by eexists|]. right. eexists. split; [reflexivity|]. split; [|done].
  destruct Hn. constructor; cbn; try done; [|by apply length_snoc|].
  - apply Forall_app_2; [done|]. by constructor.
  - apply pairwise_snoc; [congruence|done|]. apply List.Forall_forall. intros x Hx Heq.
    apply mem_In in Hx. rewrite <- Heq in Hx. congruence.
Qed.

Lemma RemoveAllowSubnet_edits index : edits (RemoveAllowSubnet index).
Proof.
  apply edit_and_save_keeps. intros c [Hn Hs]. destruct (out_of_range _ _); [left; by eexists|].
  right. eexists. split; [reflexivity|]. split; [|done].
  destruct Hn. constructor; cbn; try done; [by apply Forall_deleted|by apply length_deleted|by apply pairwise_delete].
Qed.

Lemma SaveSettings_edits fallback listen port enabled rtc : edits (SaveSettings fallback listen port enabled rtc).
Proof.
  unfold SaveSettings. destruct (result_bind _ _) as [[]|e] eqn:E; [|apply edits_err]. inv_ok.
  apply edit_only. intros c [[] Hs]. split; [|done]. constructor; try done; cbn [on_ntp set_Config_NTP Config_NTP
    NTPConfig_Client set_NTPClientConfig_Fallback NTPClientConfig_Fallback NTPConfig_Server NTPServerConfig_ListenAddress].
  - unfold nonempty in *. destruct (String.eqb_spec (TrimSpace fallback) ""); [by left|]. right. cbn [negb] in *. by destruct x.
  - unfold nonempty in *. destruct (String.eqb_spec (TrimSpace listen) "") as [->|]; [by left|]. right. cbn [negb] in E. inv_ok.
    change (is_Some (ParseIP (TrimSpace listen))). revert E. unfold ValidateIP. destruct (ParseIP (TrimSpace listen)); [by eexists|done].
Qed.

Lemma SaveServerConfig_edits cfg : edits (SaveServerConfig cfg).
Proof.
  unfold SaveServerConfig. destruct (validateServerConfig cfg) as [[]|e] eqn:E; [|apply edits_err].
  apply edit_only. intros c [Hn []]. split; [done|]. by constructor.
Qed.

Lemma SaveClientConfig_edits cfg : Forall facility_ok (SyslogClientConfig_Facilities cfg) -> edits (SaveClientConfig cfg).
Proof.
  intros Hf. unfold SaveClientConfig. destruct (validateClientConfig cfg) as [[]|e] eqn:E; [|apply edits_err].
  apply edit_only. intros c [Hn []]. split; [done|]. by constructor.
Qed.

Lemma AddFacility_edits name : edits (AddFacility unicode_fold unicode_lower name).
Proof.
  unfold AddFacility. destruct (mem _ _) eqn:E; cbn [negb]; [|apply edits_err]. apply mem_In in E.
  apply edit_and_save_keeps. intros c [Hn []]. destruct (existsb _ _); [left; by eexists|]. right. eexists. split; [reflexivity|].
  split; [done|]. constructor; try done. cbn. apply Forall_app_2; [done|]. constructor; [by eexists|done].
Qed.

Lemma RemoveFacility_edits index : edits (RemoveFacility index).
Proof.
  apply edit_and_save_keeps. intros c [Hn []]. destruct (out_of_range _ _); [left; by eexists|]. right. eexists. split; [reflexivity|].
  split; [done|]. constructor; try done. cbn. by apply Forall_deleted.
Qed.

Lemma refuse_faithful (r : hresp) : faithful (mret r).
Proof. apply edits_faithful, keeps_ret. Qed.

Lemma run_daemon_faithful op : faithful (run_daemon op).
Proof.
  pose proof ntp_apply_follows as Hn. pose proof syslog_apply_follows as Hs.
  destruct op as [r|r|r|r|r|r|r|r|r|r]; cbn [run_daemon].
  - apply edits_faithful. unfold HandleForceSync, ForceSync, answer, edits. walk. done.
  - unfold HandleAddSource. destruct (negb _); [apply refuse_faithful|]. destruct (String.eqb _ _); [apply refuse_faithful|].
    apply saved_and_applied_faithful; [apply AddSource_edits|done].
  - unfold HandleRemoveSource. destruct (Atoi _); [|apply refuse_faithful].
    apply saved_and_applied_faithful; [apply RemoveSource_edits|done].
  - unfold HandleAddAllowSubnet. destruct (negb (is_ok (hq_parse r))); [apply refuse_faithful|].
    destruct (ValidateCIDR _) as [u|] eqn:E; cbn [is_ok negb]; [|apply refuse_faithful].
    apply saved_and_applied_faithful; [|done]. apply AddAllowSubnet_edits. rewrite TrimSpace_plain.
    + revert E. unfold ValidateCIDR. destruct (ParseCIDR _); [by eexists|done].
    + destruct u. apply ValidateCIDR_chars in E. eapply all_chars_impl; [|exact E]. apply ascii_impl. vm_compute. reflexivity.
  - unfold HandleRemoveAllowSubnet. destruct (Atoi _); [|apply refuse_faithful].
    apply saved_and_applied_faithful; [apply RemoveAllowSubnet_edits|done].
  - unfold HandleSaveSettings. destruct (negb _); [apply refuse_faithful|].
    apply saved_and_applied_faithful; [apply SaveSettings_edits|done].
  - unfold HandleSaveServerConfig. destruct (negb _); [apply refuse_faithful|].
    apply saved_and_applied_faithful; [apply SaveServerConfig_edits|done].
  - unfold HandleSaveClientConfig. destruct (negb _); [apply refuse_faithful|]. intros w h c Hc. cbv [mbind svc_bind get].
    apply saved_and_applied_faithful; [|done..]. apply SaveClientConfig_edits. apply Hc.
  - unfold HandleAddFacility. destruct (negb _); [apply refuse_faithful|].
    apply edit_then_apply; [apply AddFacility_edits|]. intros [u|e] c Hc; [|apply keeps_ret].
    unfold answer. apply keeps_bind; [by apply Hs|]. intros a. apply keeps_ret.
  - unfold HandleRemoveFacility. destruct (Atoi _); [|apply refuse_faithful].
    apply saved_and_applied_faithful; [apply RemoveFacility_edits|done].
Qed.

(** ** Correctness: the daemons' files *)

(** Whatever is submitted and whatever the machine answers, every request
    to the time and log pages keeps the settings checked, and a file it writes
    is the one its settings ask for: chrony reads exactly the servers,
    addresses and networks of the settings and no other directive; in the
    rsyslog file every character with a meaning (quotes, brackets, blanks, line
    breaks) stands where it would stand with any other values in their place,
    and each file the daemon opens as root lies below a certificate directory
    or below the log directory. *)
Theorem daemon_files_follow_settings op w c :
  settings_ok c ->
  let c' := state_after (run_daemon op) w c in
  settings_ok c' /\ Forall (follows c') (calls_of (run_daemon op) w c).
Proof.
  intros Hc c'. destruct (run_daemon_faithful op w [] c Hc) as [Hs (t & Ht & HF)]. split; [done|].
  unfold calls_of. rewrite Ht. exact HF.
Qed.

End Ops.

(** ** Behaviours *)

(** A sign is accepted in a port, so the stored value is not digits only. *)
Example signed_port_accepted : validateRsyslogPort "listen_udp" "+514" = Ok tt.
Proof. reflexivity. Qed.

(** A colon passes as part of a host name that is no address. *)
Example colon_host_accepted : validateNTPHost "a:b" = Ok tt /\ ParseIP "a:b" = None.
Proof. split; vm_compute; reflexivity. Qed.

Definition per_host_server : SyslogServerConfig := mkSyslogServerConfig true "" "" false "" "" "" "" true "".

(** With no log path the template has no default: the directories named by the
    senders are created at the root of the file system; with no UDP port the
    UDP input is still written, with an empty port. *)
Example empty_log_path_is_root :
  validateServerConfig per_host_server = Ok tt
  /\ In ("template(" +:+ assign "name" "RemoteHost" +:+ " " +:+ assign "type" "string" +:+ " "
          +:+ assign "string" "/%HOSTNAME%/%PROGRAMNAME%.log" +:+ ")") (server_lines per_host_server)
  /\ In (input_line "imudp" "") (server_lines per_host_server).
Proof. split; [vm_compute; reflexivity|]. split; vm_compute; tauto. Qed.

(** Without its certificate the TLS server is rendered with empty file names
    instead of the directives being left out. *)
Example empty_certificate_rendered :
  let s := mkSyslogServerConfig true "" "6514" true "" "" "" "" false "" in
  validateServerConfig s = Ok tt /\ In ("    " +:+ assign "DefaultNetstreamDriverCertFile" "") (server_lines s).
Proof. split; [vm_compute; reflexivity|]. vm_compute. tauto. Qed.

Definition daemon_form (fields : list (string * string)) : hreq :=
  mkHreq (Ok tt) (fun k => match List.find (fun p => String.eqb (fst p) k) fields with Some p => snd p | None => "" end)
    (fun _ => "") "".

Definition answers_ok : world := fun _ _ => Ok "".

(** The port of the time server is not checked at all. *)
Example ntp_port_unchecked :
  let r := daemon_form [("server_enabled", "on"); ("listen_port", "99999")] in
  accepted (Sys.outcome (HandleSaveSettings r) answers_ok Config_zero) = true
  /\ In ["port"; "99999"] (chrony_directives (Config_NTP (state_after (HandleSaveSettings r) answers_ok Config_zero))).
Proof. split; [vm_compute; reflexivity|]. vm_compute. tauto. Qed.

(** ** The agent's verdict *)

Lemma daemon_calls_allowed unicode_fold unicode_lower op w c :
  Forall allowed (calls_of (run_daemon unicode_fold unicode_lower op) w c).
Proof.
  assert (H : keeps allowed (fun _ : Config => True) (run_daemon unicode_fold unicode_lower op)); [|by apply (keeps_calls allowed _ _ w c H)].
  destruct op; cbn [run_daemon];
    unfold HandleForceSync, HandleAddSource, HandleRemoveSource, HandleAddAllowSubnet, HandleRemoveAllowSubnet, HandleSaveSettings,
      HandleSaveServerConfig, HandleSaveClientConfig, HandleAddFacility, HandleRemoveFacility, saved_and_applied, answer, ForceSync,
      AddSource, RemoveSource, AddAllowSubnet, RemoveAllowSubnet, SaveSettings, SaveServerConfig, SaveClientConfig, AddFacility,
      RemoveFacility, edit_and_save, ntp_ApplyConfig, ntp_RenderToDisk, ntp_RenderConfig, syslog_ApplyConfig, syslog_RenderToDisk,
      syslog_RenderConfig; walk; first [done | allow_call].
Qed.

(** ** Witnesses *)

Lemma zero_settings_ok : settings_ok Config_zero.
Proof.
  split.
  - constructor; cbn; try done; try (by left).
  - constructor; [vm_compute; reflexivity|vm_compute; reflexivity|constructor].
Qed.

Lemma daemon_files_follow_settings_witness :
  let op := DAddSource (daemon_form [("host", " pool.ntp.org ")]) in
  let m := run_daemon id id op in
  length (calls_of m answers_ok Config_zero) = 4%nat
  /\ NTPClientConfig_Sources (NTPConfig_Client (Config_NTP (state_after m answers_ok Config_zero))) = ["pool.ntp.org"]
  /\ Forall (follows (state_after m answers_ok Config_zero)) (calls_of m answers_ok Config_zero).
Proof.
  intros op m. split; [vm_compute; reflexivity|]. split; [vm_compute; reflexivity|].
  exact (proj2 (daemon_files_follow_settings id id op answers_ok Config_zero zero_settings_ok)).
Defined.
