(* ===== verification/Qos.v ===== *)
(** * internal/services/qos.go, qos_clients.go and internal/web/handlers/qos.go

    Traffic shaping: the tc and ip commands that put a profile in force, with a
    model of the kernel objects they create and delete, and the per-client
    byte counters, with a semantics of the nftables table they live in.
    SHA-1, the JSON of nft, the division of floating-point numbers and case
    mapping outside ASCII are parameters. *)

From S2P Require Import Prelude GoStrings Regex GoNet GoIP Encoding ConfigTypes AgentRules FirewallRender Sys Dhcp VpnLink Update Respond Openvpn.

Local Open Scope Z_scope.
Local Open Scope go_scope.
Local Open Scope sys_scope.

(** Previous byte counts of one client. *)
Record counterPair : Type := mkPair { cp_in : Z; cp_out : Z }.

(** What the service keeps; [None] is the zero time of a service that has not
    sampled yet. *)
Record qos : Type := mkQos {
  qs_cfg : Config;
  qs_lastCounters : gmap string counterPair;
  qs_lastSample : option Z;
  qs_clientLeases : gmap string Lease }.

Definition q_conf (s : qos) : QoSConfig := Config_QoS (qs_cfg s).
Definition set_cfg (f : Config -> Config) (s : qos) : qos :=
  mkQos (f (qs_cfg s)) (qs_lastCounters s) (qs_lastSample s) (qs_clientLeases s).

(** ** Shaping *)

Definition qos_wanDevice (cfg : Config) : string :=
  match List.find (role_is "wan") (Config_Interfaces cfg) with
  | Some i => if String.eqb (InterfaceConfig_Type i) "pppoe" then "ppp0" else InterfaceConfig_Device i
  | None => "ppp0"
  end.

Fixpoint index_from (i : Z) (s substr : string) : Z :=
  if HasPrefix s substr then i
  else match s with
       | EmptyString => -1
       | String _ r => index_from (i + 1) r substr
       end.
Definition indexOf (s substr : string) : Z := index_from 0 s substr.
Definition contains (s substr : string) : bool := (0 <? len s) && (0 <? len substr) && (0 <=? indexOf s substr).

Record QoSStatus : Type := mkQStatus {
  qt_Enabled : bool; qt_Profile : string; qt_UploadKbps : Z; qt_DownloadKbps : Z; qt_CongestionControl : string;
  qt_EgressActive : bool; qt_IngressActive : bool }.

Definition shaped (out : result string) : bool :=
  match out with Ok o => contains o "cake" || contains o "fq_codel" | Err _ => false end.

Definition qos_Status : svc qos QoSStatus :=
  s ← get;
  let q := q_conf s in
  egress ← Run "tc" ["qdisc"; "show"; "dev"; qos_wanDevice (qs_cfg s)];
  ingress ← Run "tc" ["qdisc"; "show"; "dev"; "ifb0"];
  mret (mkQStatus (QoSConfig_Enabled q) (QoSConfig_Profile q) (QoSConfig_UploadKbps q) (QoSConfig_DownloadKbps q)
          (QoSConfig_CongestionControl q) (shaped egress) (shaped ingress)).

Definition clear : svc qos unit :=
  s ← get;
  let wanDev := qos_wanDevice (qs_cfg s) in
  Run "tc" ["qdisc"; "del"; "dev"; wanDev; "root"] ;;
  Run "tc" ["qdisc"; "del"; "dev"; wanDev; "ingress"] ;;
  Run "tc" ["qdisc"; "del"; "dev"; "ifb0"; "root"] ;;
  Run "ip" ["link"; "set"; "ifb0"; "down"] ;;
  Run "ip" ["link"; "del"; "ifb0"] ;;
  mret tt.

Definition kbit (n : Z) : string := itoa n +:+ "kbit".

Definition applyCake (wanDev : string) : svc qos (result unit) :=
  s ← get;
  try! _ := wrapping "cake egress: %w" []
              (Run "tc" ["qdisc"; "replace"; "dev"; wanDev; "root"; "cake"; "bandwidth"; kbit (QoSConfig_UploadKbps (q_conf s));
                         "besteffort"; "overhead"; "44"; "mpu"; "84"; "nat"; "wash"]) in
  Run "ip" ["link"; "add"; "ifb0"; "type"; "ifb"] ;;
  try! _ := wrapping "ifb0 up: %w" [] (Run "ip" ["link"; "set"; "ifb0"; "up"]) in
  try! _ := wrapping "ingress qdisc: %w" [] (Run "tc" ["qdisc"; "replace"; "dev"; wanDev; "handle"; "ffff:"; "ingress"]) in
  try! _ := wrapping "ingress filter: %w" []
              (Run "tc" ["filter"; "add"; "dev"; wanDev; "parent"; "ffff:"; "protocol"; "all"; "u32"; "match"; "u32"; "0"; "0";
                         "action"; "mirred"; "egress"; "redirect"; "dev"; "ifb0"]) in
  try! _ := wrapping "cake ingress: %w" []
              (Run "tc" ["qdisc"; "replace"; "dev"; "ifb0"; "root"; "cake"; "bandwidth"; kbit (QoSConfig_DownloadKbps (q_conf s));
                         "besteffort"; "wash"; "ingress"; "overhead"; "44"; "mpu"; "84"]) in
  mret (Ok tt).

Definition applyFqCodel (wanDev : string) : svc qos (result unit) :=
  try! _ := wrapping "fq_codel: %w" [] (Run "tc" ["qdisc"; "replace"; "dev"; wanDev; "root"; "fq_codel"]) in
  mret (Ok tt).

Definition setCongestionControl : svc qos (result unit) :=
  s ← get;
  let cc := orDefault (QoSConfig_CongestionControl (q_conf s)) "bbr" in
  (if String.eqb cc "bbr" then Run "sysctl" ["-w"; "net.core.default_qdisc=fq"] else mret (Ok "")) ;;
  try! _ := Run "sysctl" ["-w"; "net.ipv4.tcp_congestion_control=" +:+ cc] in
  mret (Ok tt).

Definition qos_Apply : svc qos (result unit) :=
  clear ;;
  s ← get;
  let q := q_conf s in
  if negb (QoSConfig_Enabled q) || String.eqb (QoSConfig_Profile q) "none" then mret (Ok tt)
  else
    try! _ := wrapping "set congestion control: %w" [] setCongestionControl in
    let wanDev := qos_wanDevice (qs_cfg s) in
    if String.eqb (QoSConfig_Profile q) "cake" then applyCake wanDev
    else if String.eqb (QoSConfig_Profile q) "fq_codel" then applyFqCodel wanDev
    else mret (Err (Errorf "unknown QoS profile: %s" [QoSConfig_Profile q])).

Definition qos_Clear : svc qos (result unit) := clear ;; mret (Ok tt).

(** ** Handlers *)

Definition maxQoSKbps : Z := 10000000.

Definition optionalKbps (raw : string) (current : Z) : Z * bool :=
  if String.eqb raw "" then (current, true)
  else match Atoi raw with
  | Some val => if (val <? 0) || (maxQoSKbps <? val) then (0, false) else (val, true)
  | None => (0, false)
  end.

Definition parseQoSForm (r : hreq) (current : QoSConfig) : QoSConfig * string :=
  let profile := hq_form r "profile" in
  let cc := hq_form r "congestionControl" in
  let '(upload, uploadOK) := optionalKbps (hq_form r "uploadKbps") (QoSConfig_UploadKbps current) in
  let '(download, downloadOK) := optionalKbps (hq_form r "downloadKbps") (QoSConfig_DownloadKbps current) in
  let key := firstFailed
    [mkFormCheck (negb (oneOf profile [""; "cake"; "fq_codel"; "none"])) "error.invalidQoSProfile";
     mkFormCheck (negb uploadOK) "error.invalidUploadBandwidth";
     mkFormCheck (negb downloadOK) "error.invalidDownloadBandwidth";
     mkFormCheck (negb (oneOf cc [""; "bbr"; "cubic"])) "error.invalidCongestionControl"] in
  if nonempty key then (current, key)
  else (mkQoSConfig (oneOf (hq_form r "enabled") ["true"; "on"]) (orDefault profile (QoSConfig_Profile current)) upload download
          (orDefault cc (QoSConfig_CongestionControl current)) (QoSConfig_PerDeviceLimits current), "").

Definition qos_HandleApply (r : hreq) : svc qos hresp :=
  if negb (is_ok (hq_parse r)) then mret (clientError StatusBadRequest "error.badForm")
  else
    s ← get;
    let '(next, key) := parseQoSForm r (q_conf s) in
    if nonempty key then mret (clientError StatusBadRequest key)
    else
      put (set_cfg (set_Config_QoS next) s) ;;
      saved ← SaveToFile (set_Config_QoS next (qs_cfg s));
      match saved with
      | Err e => mret (serverError "error.saveFailed" e)
      | Ok _ => answer StatusInternalServerError (respondRefresh r "/qos") qos_Apply
      end.

Definition qos_HandleClear (r : hreq) : svc qos hresp :=
  c ← qos_Clear;
  match c with
  | Err e => mret (fail StatusInternalServerError e)
  | Ok _ =>
      s ← get;
      let off c := set_Config_QoS (set_QoSConfig_Enabled false (Config_QoS c)) c in
      put (set_cfg off s) ;;
      saved ← SaveToFile (off (qs_cfg s));
      mret (match saved with Ok _ => respondRefresh r "/qos" | Err e => serverError "error.saveFailed" e end)
  end.

(** ** Per-client counters *)

Definition MaxQoSClients : nat := 64.
Definition qosTableName : string := "lankeeper_qos".
Definition qosChainName : string := "fwd".

Record ClientUsage : Type := mkUsage {
  cu_MAC : string; cu_IP : string; cu_Hostname : string; cu_InBytes : Z; cu_OutBytes : Z; cu_InBPS : Z; cu_OutBPS : Z;
  cu_Updated : Z }.

Record nftCounter : Type := mkCounter {
  nc_Family : string; nc_Table : string; nc_Name : string; nc_Packets : Z; nc_Bytes : Z }.

Definition tab : string := char_str "009".
Definition nlf : string := char_str lf.

Section Clients.
Variable unicode_lower : string -> string.
Variable sha1 : string -> string.
(** The items of nft's JSON: [None] is one without a counter. *)
Variable decode_counters : string -> result (list (option nftCounter)).
(** [uint64(float64(bits) / seconds)] for a time in nanoseconds. *)
Variable rate : Z -> Z -> Z.
Variable Error_text : error -> string.

Fixpoint strip_separators (s : string) : string :=
  match s with
  | EmptyString => EmptyString
  | String a r => if char_in ":-" a then strip_separators r else String a (strip_separators r)
  end.

Definition counterID (mac : string) : string :=
  hex_encode (substring 0 4 (sha1 (ToLower unicode_lower (strip_separators mac)))).

Definition inName (mac : string) : string := "cli_" +:+ counterID mac +:+ "_in".
Definition outName (mac : string) : string := "cli_" +:+ counterID mac +:+ "_out".

(** The IPv4 address a client's download is counted on. *)
Definition client_v4 (ips : gmap string string) (mac : string) : option IP :=
  match ParseIP (default "" (ips !! mac)) with Some ip => To4 ip | None => None end.

Definition counter_lines (mac : string) : string :=
  tab +:+ "counter " +:+ inName mac +:+ " { }" +:+ nlf +:+ tab +:+ "counter " +:+ outName mac +:+ " { }" +:+ nlf.

Definition rule_lines (ips : gmap string string) (mac : string) : string :=
  match client_v4 ips mac with
  | Some ip => tab +:+ tab +:+ "ip daddr " +:+ IP_String ip +:+ " counter name " +:+ inName mac +:+ nlf
  | None => ""
  end
  +:+ tab +:+ tab +:+ "ether saddr " +:+ ToLower unicode_lower mac +:+ " counter name " +:+ outName mac +:+ nlf.

Definition renderQoSTable (macs : list string) (ips : gmap string string) : string :=
  "table inet " +:+ qosTableName +:+ " {" +:+ nlf
  +:+ String.concat "" (List.map counter_lines macs)
  +:+ tab +:+ "chain " +:+ qosChainName +:+ " {" +:+ nlf
  +:+ tab +:+ tab +:+ "type filter hook forward priority -200; policy accept;" +:+ nlf
  +:+ String.concat "" (List.map (rule_lines ips) macs)
  +:+ tab +:+ "}" +:+ nlf
  +:+ "}" +:+ nlf.

(** The loop of [dedupAndCap]: first occurrences of the normalised addresses
    that are not empty. *)
Fixpoint dedup (seen macs : list string) : list string :=
  match macs with
  | [] => []
  | m :: macs =>
      let m := ToLower unicode_lower (TrimSpace m) in
      if String.eqb m "" || mem m seen then dedup seen macs else m :: dedup (m :: seen) macs
  end.

Definition dedupAndCap (macs : list string) : list string := take MaxQoSClients (sort_strings (dedup [] macs)).

(** The order of the [range] over the map does not matter: the keys are
    sorted. *)
Definition map_keys (ips : gmap string string) : list string := List.map fst (map_to_list ips).

Definition applyClientCounters (ips : gmap string string) : svc qos (result unit) :=
  let macs := dedupAndCap (map_keys ips) in
  let head := "table inet " +:+ qosTableName +:+ nlf +:+ "delete table inet " +:+ qosTableName +:+ nlf in
  let script := head +:+ (if (length macs =? 0)%nat then "" else renderQoSTable macs ips) in
  try! _ := wrapping "apply qos nft script: %w" [] (RunWithStdin script "nft" ["-f"; "-"]) in
  mret (Ok tt).

Definition lease_ips (leases : list Lease) : gmap string string :=
  foldl (fun m l => if String.eqb (le_MAC l) "" then m
                    else <[ToLower unicode_lower (TrimSpace (le_MAC l)) := le_IP l]> m) ∅ leases.
Definition lease_snapshot (leases : list Lease) : gmap string Lease :=
  foldl (fun m l => if String.eqb (le_MAC l) "" then m else <[ToLower unicode_lower (le_MAC l) := l]> m) ∅ leases.

Definition RebuildClientCounters (leases : list Lease) : svc qos (result unit) :=
  try! _ := applyClientCounters (lease_ips leases) in
  s ← get;
  put (mkQos (qs_cfg s) (qs_lastCounters s) (qs_lastSample s) (lease_snapshot leases)) ;;
  mret (Ok tt).

Definition parseQoSCounters (raw : string) : result (gmap string nftCounter) :=
  if String.eqb raw "" then Ok ∅
  else match decode_counters raw with
  | Err e => Err (Errorw "decode nft json: %w" [] e)
  | Ok items => Ok (foldl (fun m i => match i with
                                      | Some c => if HasPrefix (nc_Name c) "cli_" then <[nc_Name c := c]> m else m
                                      | None => m
                                      end) ∅ items)
  end.

Definition isMissingTableError (e : error) : bool :=
  Contains (Error_text e) "No such file or directory" || Contains (Error_text e) "does not exist".

(** The nanoseconds since the previous sample; the code's seconds are a
    positive number exactly when these are. *)
Definition sampleInterval (s : qos) (now : Z) : Z :=
  let ns := now - default now (qs_lastSample s) in
  if ns <=? 0 then 10 ^ 9 else ns.

(** The difference is shifted as a uint64. *)
Definition bpsDelta (curr prev interval : Z) : Z :=
  if (curr <? prev) || (interval <=? 0) then 0 else rate ((curr - prev) * 8 mod 2 ^ 64) interval.

Definition counter_bytes (counters : gmap string nftCounter) (name : string) : Z :=
  match counters !! name with Some c => nc_Bytes c | None => 0 end.

Definition client_usage (s : qos) (counters : gmap string nftCounter) (interval now : Z) (entry : string * Lease) : ClientUsage :=
  let '(mac, lease) := entry in
  let cIn := counter_bytes counters (inName mac) in
  let cOut := counter_bytes counters (outName mac) in
  let '(inBPS, outBPS) :=
    match qs_lastCounters s !! mac with
    | Some prev => (bpsDelta cIn (cp_in prev) interval, bpsDelta cOut (cp_out prev) interval)
    | None => (0, 0)
    end in
  mkUsage mac (le_IP lease) (le_Hostname lease) cIn cOut inBPS outBPS now.

(** [sort.Slice] by address; the addresses are the keys of a map, so the order
    is determined. *)
Fixpoint insert_usage (u : ClientUsage) (l : list ClientUsage) : list ClientUsage :=
  match l with
  | [] => [u]
  | v :: r => if String.leb (cu_MAC u) (cu_MAC v) then u :: l else v :: insert_usage u r
  end.
Definition sort_usages (l : list ClientUsage) : list ClientUsage := List.fold_right insert_usage [] l.

Definition clientUsages (s : qos) (counters : gmap string nftCounter) (interval now : Z) : list ClientUsage :=
  List.map (client_usage s counters interval now) (map_to_list (qs_clientLeases s)).

Definition storeCounters (usages : list ClientUsage) (counters : gmap string nftCounter) : gmap string counterPair :=
  foldl (fun m u => <[cu_MAC u := mkPair (counter_bytes counters (inName (cu_MAC u)))
                                         (counter_bytes counters (outName (cu_MAC u)))]> m) ∅ usages.

Definition SamplePerClient (now : Z) : svc qos (result (list ClientUsage)) :=
  out ← Run "nft" ["-j"; "list"; "table"; "inet"; qosTableName];
  match out with
  | Err e => mret (if isMissingTableError e then Ok [] else Err e)
  | Ok out =>
      match parseQoSCounters out with
      | Err e => mret (Err e)
      | Ok counters =>
          s ← get;
          let usages := sort_usages (clientUsages s counters (sampleInterval s now) now) in
          put (mkQos (qs_cfg s) (storeCounters usages counters) (Some now) (qs_clientLeases s)) ;;
          mret (Ok usages)
      end
  end.

(** ** The sampler *)

Variable leaseProvider : svc qos (result (list Lease)).

Definition rebuildFromLeases : svc qos unit :=
  leases ← leaseProvider;
  match leases with
  | Err _ => mret tt
  | Ok leases => RebuildClientCounters leases ;; mret tt
  end.

(** One sample; [None] when it failed and nothing is published. *)
Definition sampleAndPublish (now : Z) : svc qos (option (list ClientUsage)) :=
  r ← SamplePerClient now;
  mret (match r with Ok usages => Some usages | Err _ => None end).

(** The ticks of the loop, at the given times, and what is published. *)
Fixpoint sampler_ticks (resyncEvery tick : Z) (times : list Z) : svc qos (list (list ClientUsage)) :=
  match times with
  | [] => mret []
  | now :: times =>
      let tick := tick + 1 in
      (if tick mod resyncEvery =? 0 then rebuildFromLeases else mret tt) ;;
      p ← sampleAndPublish now;
      rest ← sampler_ticks resyncEvery tick times;
      mret (match p with Some u => u :: rest | None => rest end)
  end.

Definition runClientSampler (resyncEvery : Z) (times : list Z) : svc qos (list (list ClientUsage)) :=
  rebuildFromLeases ;;
  sampler_ticks (if resyncEvery <=? 0 then 30 else resyncEvery) 0 times.

End Clients.

(** ** The kernel objects *)

(** What shaping leaves in the kernel: the root qdisc of the WAN device, its
    ingress qdisc and the redirect hanging on it, the ifb0 device and its root
    qdisc. *)
Record kernel : Type := mkKernel {
  k_egress : option string; k_ingress : bool; k_redirect : bool; k_ifb : bool; k_ifb_up : bool; k_ifb_root : option string }.

(** The effect of a command that succeeded, for the WAN device [dev]. *)
Definition effect (dev : string) (c : call) (k : kernel) : kernel :=
  match c with
  | CRun "tc" ["qdisc"; "del"; "dev"; d; "root"] _ =>
      if String.eqb d "ifb0" then mkKernel (k_egress k) (k_ingress k) (k_redirect k) (k_ifb k) (k_ifb_up k) None
      else if String.eqb d dev then mkKernel None (k_ingress k) (k_redirect k) (k_ifb k) (k_ifb_up k) (k_ifb_root k)
      else k
  | CRun "tc" ["qdisc"; "del"; "dev"; d; "ingress"] _ =>
      if String.eqb d dev then mkKernel (k_egress k) false false (k_ifb k) (k_ifb_up k) (k_ifb_root k) else k
  | CRun "tc" ["qdisc"; "replace"; "dev"; d; "handle"; "ffff:"; "ingress"] _ =>
      if String.eqb d dev then mkKernel (k_egress k) true (k_redirect k) (k_ifb k) (k_ifb_up k) (k_ifb_root k) else k
  | CRun "tc" ("qdisc" :: "replace" :: "dev" :: d :: "root" :: q) _ =>
      if String.eqb d "ifb0" then mkKernel (k_egress k) (k_ingress k) (k_redirect k) (k_ifb k) (k_ifb_up k) (Some (join " " q))
      else if String.eqb d dev then mkKernel (Some (join " " q)) (k_ingress k) (k_redirect k) (k_ifb k) (k_ifb_up k) (k_ifb_root k)
      else k
  | CRun "tc" ("filter" :: "add" :: "dev" :: d :: _) _ =>
      if String.eqb d dev then mkKernel (k_egress k) (k_ingress k) true (k_ifb k) (k_ifb_up k) (k_ifb_root k) else k
  | CRun "ip" ["link"; "set"; "ifb0"; "down"] _ =>
      mkKernel (k_egress k) (k_ingress k) (k_redirect k) (k_ifb k) false (k_ifb_root k)
  | CRun "ip" ["link"; "set"; "ifb0"; "up"] _ =>
      mkKernel (k_egress k) (k_ingress k) (k_redirect k) (k_ifb k) true (k_ifb_root k)
  | CRun "ip" ["link"; "add"; "ifb0"; "type"; "ifb"] _ =>
      mkKernel (k_egress k) (k_ingress k) (k_redirect k) true (k_ifb_up k) (k_ifb_root k)
  | CRun "ip" ["link"; "del"; "ifb0"] _ =>
      mkKernel (k_egress k) (k_ingress k) (k_redirect k) false false None
  | _ => k
  end.

(** The commands that delete. *)
Definition deletes (c : call) : bool :=
  match c with
  | CRun "tc" ("qdisc" :: "del" :: _) _ | CRun "ip" ("link" :: "del" :: _) _ => true
  | _ => false
  end.

(** The kernel after the calls [h], the ones before having been [pre]. *)
Fixpoint kernel_after (dev : string) (w : world) (pre h : list call) (k : kernel) : kernel :=
  match h with
  | [] => k
  | c :: h => kernel_after dev w (pre ++ [c]) h (if is_ok (w pre c) then effect dev c k else k)
  end.

(** A delete is refused only when there is nothing to delete. *)
Definition deletes_work (dev : string) (w : world) (k0 : kernel) : Prop :=
  forall h c, deletes c = true -> is_ok (w h c) = false ->
    effect dev c (kernel_after dev w [] h k0) = kernel_after dev w [] h k0.

(** What the settings ask for. *)
Definition wanted_kernel (q : QoSConfig) (k : kernel) : Prop :=
  if negb (QoSConfig_Enabled q) || String.eqb (QoSConfig_Profile q) "none"
  then k_egress k = None /\ k_ingress k = false /\ k_redirect k = false /\ k_ifb k = false
  else if String.eqb (QoSConfig_Profile q) "cake"
  then k_egress k = Some (join " " ["cake"; "bandwidth"; kbit (QoSConfig_UploadKbps q); "besteffort"; "overhead"; "44"; "mpu"; "84"; "nat"; "wash"])
       /\ k_ingress k = true /\ k_redirect k = true /\ k_ifb_up k = true
       /\ k_ifb_root k = Some (join " " ["cake"; "bandwidth"; kbit (QoSConfig_DownloadKbps q); "besteffort"; "wash"; "ingress"; "overhead"; "44"; "mpu"; "84"])
  else k_egress k = Some "fq_codel" /\ k_ingress k = false /\ k_redirect k = false /\ k_ifb k = false.

Lemma kernel_app dev w pre h h' k :
  kernel_after dev w pre (h ++ h') k = kernel_after dev w (pre ++ h) h' (kernel_after dev w pre h k).
Proof.
  revert pre k. induction h as [|c h IH]; intros pre k; cbn [app kernel_after]; [by rewrite app_nil_r|].
  by rewrite IH, <- app_assoc.
Qed.

Section Kernel.
Variable dev : string.
Variable k0 : kernel.
Hypothesis Hdev : dev <> "ifb0".

(** From a kernel in [P] and a state [s], [m] leaves the state alone and the
    kernel in what [Q] says of its result. *)
Definition ktriple {A} (P : kernel -> Prop) (s : qos) (m : svc qos A) (Q : A -> kernel -> Prop) : Prop :=
  forall w h, deletes_work dev w k0 -> P (kernel_after dev w [] h k0) ->
    let r := m w h s in snd (fst r) = s /\ Q (fst (fst r)) (kernel_after dev w [] (snd r) k0).

Lemma ktriple_ret {A} (P : kernel -> Prop) s (a : A) (Q : A -> kernel -> Prop) :
  (forall k, P k -> Q a k) -> ktriple P s (mret a) Q.
Proof. intros H w h _ HP. split; [done|]. by apply H. Qed.

Lemma ktriple_bind {A B} P s (m : svc qos A) (k : A -> svc qos B) (Q : A -> kernel -> Prop) (R : B -> kernel -> Prop) :
  ktriple P s m Q -> (forall a, ktriple (Q a) s (k a) R) -> ktriple P s (mbind k m) R.
Proof.
  intros Hm Hk w h Hw HP. destruct (Hm w h Hw HP) as [Hs HQ]. unfold mbind, svc_bind. cbv zeta.
  destruct (m w h s) as [[a s'] h']. cbn [fst snd] in *. subst s'. exact (Hk a w h' Hw HQ).
Qed.

Lemma ktriple_get {A} P s (k : qos -> svc qos A) Q : ktriple P s (k s) Q -> ktriple P s (mbind k get) Q.
Proof. intros H w h Hw HP. exact (H w h Hw HP). Qed.

Lemma ktriple_run P s name args (Q : result string -> kernel -> Prop) (c := CRun name args "") :
  (forall k o, P k -> Q (Ok o) (effect dev c k)) ->
  (forall k e, P k -> (deletes c = true -> effect dev c k = k) -> Q (Err e) k) ->
  ktriple P s (Run name args) Q.
Proof.
  intros Hok Herr w h Hw HP. split; [done|]. cbn [Run perform fst snd]. fold c.
  rewrite kernel_app. cbn [kernel_after app]. destruct (w h c) as [o|e] eqn:E; cbn [is_ok]; [by apply Hok|].
  apply Herr; [done|]. intros Hd. apply Hw; [done|]. by rewrite E.
Qed.

(** A command whose failure is ignored or reported: the kernel changes only
    when it works. *)
Lemma ktriple_delete P s name args (R : kernel -> Prop) (c := CRun name args "") :
  deletes c = true -> (forall k, P k -> R (effect dev c k)) -> ktriple P s (Run name args) (fun _ => R).
Proof. intros Hd H. apply ktriple_run; [intros k o; apply H|]. intros k e HP He. rewrite <- (He Hd). by apply H. Qed.

Lemma ktriple_try {A B} P s (m : svc qos (result A)) (k : A -> svc qos (result B)) (Q : A -> kernel -> Prop)
    (R : result B -> kernel -> Prop) :
  ktriple P s m (fun r k => match r with Ok a => Q a k | Err _ => True end) ->
  (forall a, ktriple (Q a) s (k a) R) -> (forall e k, R (Err e) k) -> ktriple P s (try_bind m k) R.
Proof.
  intros Hm Hk He. eapply ktriple_bind; [exact Hm|]. intros [a|e]; [apply Hk|]. by apply ktriple_ret.
Qed.

Lemma ktriple_step P s f args name (R : kernel -> Prop) (c := CRun name args "") :
  (forall k, P k -> R (effect dev c k)) ->
  ktriple P s (wrapping f [] (Run name args)) (fun r k => match r with Ok _ => R k | Err _ => True end).
Proof.
  intros H. eapply ktriple_bind; [apply (ktriple_run P s name args (fun r k => match r with Ok _ => R k | Err _ => True end))|].
  - intros k o. apply H.
  - done.
  - intros [o|e]; apply ktriple_ret; done.
Qed.

(** Nothing of shaping is left. *)
Definition clean (k : kernel) : Prop :=
  k_egress k = None /\ k_ingress k = false /\ k_redirect k = false /\ k_ifb k = false.

Ltac eff := cbn [effect deletes k_egress k_ingress k_redirect k_ifb k_ifb_up k_ifb_root];
  rewrite ?(proj2 (String.eqb_neq dev "ifb0") Hdev), ?String.eqb_refl;
  cbn [k_egress k_ingress k_redirect k_ifb k_ifb_up k_ifb_root String.eqb Ascii.eqb Bool.eqb].

Lemma clear_spec s : qos_wanDevice (qs_cfg s) = dev -> ktriple (fun _ => True) s clear (fun _ => clean).
Proof using Hdev.
  intros Hd. unfold clear. apply ktriple_get. cbv zeta. rewrite Hd.
  apply (ktriple_bind _ _ _ _ (fun _ k => k_egress k = None)); [apply ktriple_delete; [done|intros k _; by eff]|intros _].
  apply (ktriple_bind _ _ _ _ (fun _ k => k_egress k = None /\ k_ingress k = false /\ k_redirect k = false));
    [apply ktriple_delete; [done|intros k Hk; by eff]|intros _].
  apply (ktriple_bind _ _ _ _ (fun _ k => k_egress k = None /\ k_ingress k = false /\ k_redirect k = false));
    [apply ktriple_delete; [done|intros k Hk; by eff]|intros _].
  apply (ktriple_bind _ _ _ _ (fun _ k => k_egress k = None /\ k_ingress k = false /\ k_redirect k = false));
    [apply ktriple_run; [intros k o Hk; by eff|done]|intros _].
  apply (ktriple_bind _ _ _ _ (fun _ => clean)); [apply ktriple_delete; [done|]|intros _; by apply ktriple_ret].
  intros k (H1 & H2 & H3). unfold clean. by eff.
Qed.

Lemma congestion_spec s : ktriple clean s setCongestionControl (fun r k => match r with Ok _ => clean k | Err _ => True end).
Proof using.
  unfold setCongestionControl. apply ktriple_get. cbv zeta.
  apply (ktriple_bind _ _ _ _ (fun _ => clean)).
  - destruct (String.eqb _ _); [|by apply ktriple_ret]. by apply ktriple_run.
  - intros _. apply (ktriple_try _ _ _ _ (fun _ => clean)); [|intros a; by apply ktriple_ret|done]. by apply ktriple_run.
Qed.

Definition in_force (q : QoSConfig) (r : result unit) (k : kernel) : Prop := r = Ok tt -> wanted_kernel q k.

Lemma cake_spec s : QoSConfig_Enabled (q_conf s) = true -> QoSConfig_Profile (q_conf s) = "cake" ->
  ktriple clean s (applyCake dev) (in_force (q_conf s)).
Proof using Hdev.
  intros He Hp. unfold applyCake, in_force, wanted_kernel. rewrite He, Hp. cbn [negb orb String.eqb Ascii.eqb Bool.eqb].
  apply ktriple_get. cbv zeta. set (up := kbit (QoSConfig_UploadKbps (q_conf s))). set (down := kbit (QoSConfig_DownloadKbps (q_conf s))).
  set (egress := join " " ["cake"; "bandwidth"; up; "besteffort"; "overhead"; "44"; "mpu"; "84"; "nat"; "wash"]).
  apply (ktriple_try _ _ _ _ (fun _ k => k_egress k = Some egress)); [|intros _|done].
  { apply ktriple_step. intros k _. by eff. }
  apply (ktriple_bind _ _ _ _ (fun _ k => k_egress k = Some egress)); [by apply ktriple_run|intros _].
  apply (ktriple_try _ _ _ _ (fun _ k => k_egress k = Some egress /\ k_ifb_up k = true)); [|intros _|done].
  { apply ktriple_step. intros k Hk. by eff. }
  apply (ktriple_try _ _ _ _ (fun _ k => k_egress k = Some egress /\ k_ifb_up k = true /\ k_ingress k = true)); [|intros _|done].
  { apply ktriple_step. intros k (H1 & H2). by eff. }
  apply (ktriple_try _ _ _ _ (fun _ k => k_egress k = Some egress /\ k_ifb_up k = true /\ k_ingress k = true /\ k_redirect k = true));
    [|intros _|done].
  { apply ktriple_step. intros k (H1 & H2 & H3). by eff. }
  set (final := fun k => k_egress k = Some egress /\ k_ingress k = true /\ k_redirect k = true /\ k_ifb_up k = true
    /\ k_ifb_root k = Some (join " " ["cake"; "bandwidth"; down; "besteffort"; "wash"; "ingress"; "overhead"; "44"; "mpu"; "84"])).
  apply (ktriple_try _ _ _ _ (fun _ => final)); [|intros _|done].
  { apply ktriple_step. intros k (H1 & H2 & H3 & H4). unfold final. by eff. }
  by apply ktriple_ret.
Qed.

Lemma fq_codel_spec s : QoSConfig_Enabled (q_conf s) = true -> QoSConfig_Profile (q_conf s) = "fq_codel" ->
  ktriple clean s (applyFqCodel dev) (in_force (q_conf s)).
Proof using Hdev.
  intros He Hp. unfold applyFqCodel, in_force, wanted_kernel. rewrite He, Hp. cbn [negb orb String.eqb Ascii.eqb Bool.eqb].
  set (final := fun k => k_egress k = Some "fq_codel" /\ k_ingress k = false /\ k_redirect k = false /\ k_ifb k = false).
  apply (ktriple_try _ _ _ _ (fun _ => final)); [|intros _; by apply ktriple_ret|done].
  apply ktriple_step. intros k (H1 & H2 & H3 & H4). unfold final. by eff.
Qed.

Lemma qos_Apply_spec s : qos_wanDevice (qs_cfg s) = dev -> ktriple (fun _ => True) s qos_Apply (in_force (q_conf s)).
Proof using Hdev.
  intros Hd. unfold qos_Apply. apply (ktriple_bind _ _ _ _ (fun _ => clean)); [by apply clear_spec|intros _].
  apply ktriple_get. cbv zeta. destruct (negb (QoSConfig_Enabled (q_conf s)) || String.eqb (QoSConfig_Profile (q_conf s)) "none") eqn:E.
  { apply ktriple_ret. intros k Hk _. unfold wanted_kernel. by rewrite E. }
  apply orb_false_elim in E as [He Hn]. apply negb_false_iff in He.
  apply (ktriple_try _ _ _ _ (fun _ => clean)); [|intros _|done].
  { eapply ktriple_bind; [apply congestion_spec|]. intros [u|e]; by apply ktriple_ret. }
  rewrite Hd. destruct (String.eqb_spec (QoSConfig_Profile (q_conf s)) "cake") as [Hp|_]; [by apply cake_spec|].
  destruct (String.eqb_spec (QoSConfig_Profile (q_conf s)) "fq_codel") as [Hp|_]; [by apply fq_codel_spec|].
  by apply ktriple_ret.
Qed.

End Kernel.

(** ** Correctness: shaping *)

(** The settings of a form are within their bounds. *)
Definition qos_bounded (q : QoSConfig) : Prop :=
  0 <= QoSConfig_UploadKbps q <= maxQoSKbps /\ 0 <= QoSConfig_DownloadKbps q <= maxQoSKbps
  /\ In (QoSConfig_Profile q) [""; "cake"; "fq_codel"; "none"] /\ In (QoSConfig_CongestionControl q) [""; "bbr"; "cubic"].

Lemma optionalKbps_bounds raw current v : 0 <= current <= maxQoSKbps -> optionalKbps raw current = (v, true) -> 0 <= v <= maxQoSKbps.
Proof.
  unfold optionalKbps. intros Hc. destruct (String.eqb raw ""); [by intros [= <-]|]. destruct (Atoi raw) as [n|]; [|done].
  destruct ((n <? 0) || (maxQoSKbps <? n)) eqn:E; [done|]. intros [= <-]. bool_hyps. lia.
Qed.

Lemma parseQoSForm_bounds r q : qos_bounded q -> qos_bounded (fst (parseQoSForm r q)).
Proof.
  intros Hq. unfold parseQoSForm. destruct (optionalKbps (hq_form r "uploadKbps") _) as [up upOK] eqn:Eu.
  destruct (optionalKbps (hq_form r "downloadKbps") _) as [down downOK] eqn:Ed.
  set (checks := [_; _; _; _]). destruct (nonempty (firstFailed checks)) eqn:Ek; [done|].
  assert (Hk : firstFailed checks = "") by (unfold nonempty in Ek; by apply negb_false_iff, String.eqb_eq in Ek).
  apply firstFailed_none in Hk; [|by repeat constructor]. repeat apply List.Forall_cons_iff in Hk as [? Hk].
  cbn [chk_failed] in *. repeat match goal with H : negb _ = false |- _ => apply negb_false_iff in H end. subst upOK downOK.
  destruct Hq as (Hu & Hd & Hp & Hc). unfold qos_bounded. cbn [fst QoSConfig_UploadKbps QoSConfig_DownloadKbps QoSConfig_Profile QoSConfig_CongestionControl].
  split; [exact (optionalKbps_bounds _ _ _ Hu Eu)|]. split; [exact (optionalKbps_bounds _ _ _ Hd Ed)|].
  split; unfold orDefault; destruct (String.eqb _ ""); try done.
  - match goal with H : oneOf _ ["" ; "cake"; _; _] = true |- _ => apply existsb_exists in H as (x & Hx & He) end.
    apply String.eqb_eq in He as ->. done.
  - match goal with H : oneOf _ ["" ; "bbr"; _] = true |- _ => apply existsb_exists in H as (x & Hx & He) end.
    apply String.eqb_eq in He as ->. done.
Qed.


(** ** A semantics of the counter table *)

(** What the rules look at in a forwarded packet: the sender's link-layer
    address, the IPv4 destination and the length. *)
Record packet : Type := mkPacket { p_saddr : string; p_daddr : option IP; p_len : Z }.

Inductive counter_rule : Type :=
| CountDown (ip : IP) (name : string)
| CountUp (mac name : string).

Definition rule_counter (r : counter_rule) : string := match r with CountDown _ n | CountUp _ n => n end.
Definition rule_matches (p : packet) (r : counter_rule) : bool :=
  match r with
  | CountDown ip _ => bool_decide (p_daddr p = Some ip)
  | CountUp mac _ => String.eqb (p_saddr p) mac
  end.

Definition count (c : gmap string Z) (name : string) : Z := default 0 (c !! name).
Definition run_rule (p : packet) (c : gmap string Z) (r : counter_rule) : gmap string Z :=
  if rule_matches p r then <[rule_counter r := count c (rule_counter r) + p_len p]> c else c.

(** The counters after the packets, from an empty table. *)
Definition run_table (rules : list counter_rule) (pkts : list packet) : gmap string Z :=
  foldl (fun c p => foldl (run_rule p) c rules) ∅ pkts.

(** The bytes of the packets that [f] selects. *)
Definition traffic (f : packet -> bool) (pkts : list packet) : Z := foldr (fun p n => (if f p then p_len p else 0) + n) 0 pkts.

Lemma count_run_rule p c r name :
  count (run_rule p c r) name = count c name + (if String.eqb (rule_counter r) name && rule_matches p r then p_len p else 0).
Proof.
  unfold run_rule. destruct (rule_matches p r); [|rewrite andb_false_r; lia]. rewrite andb_true_r. unfold count at 1.
  destruct (String.eqb_spec (rule_counter r) name) as [<-|Hne].
  - by rewrite lookup_insert_eq.
  - rewrite lookup_insert_ne by done. fold (count c name). lia.
Qed.

(** What the rules add to a counter for one packet. *)
Definition added (rules : list counter_rule) (name : string) (p : packet) : Z :=
  foldr (fun r n => (if String.eqb (rule_counter r) name && rule_matches p r then p_len p else 0) + n) 0 rules.

Lemma count_rules p rules c name : count (foldl (run_rule p) c rules) name = count c name + added rules name p.
Proof.
  revert c. induction rules as [|r rules IH]; intros c; cbn [foldl added foldr]; [lia|]. rewrite IH, count_run_rule.
  unfold added. lia.
Qed.

Lemma count_run_table rules pkts name : count (run_table rules pkts) name = foldr (fun p n => added rules name p + n) 0 pkts.
Proof.
  unfold run_table. assert (H : forall c, count (foldl (fun c p => foldl (run_rule p) c rules) c pkts) name
    = count c name + foldr (fun p n => added rules name p + n) 0 pkts).
  { induction pkts as [|p pkts IH]; intros c; cbn [foldl foldr]; [lia|]. rewrite IH, count_rules. lia. }
  by rewrite H.
Qed.

Lemma added_app r1 r2 name p : added (r1 ++ r2) name p = added r1 name p + added r2 name p.
Proof. unfold added. induction r1 as [|r r1 IH]; cbn [app foldr]; [lia|]. rewrite IH. lia. Qed.

Section Counting.
Variable unicode_lower : string -> string.
Variable sha1 : string -> string.

Abbreviation inN := (inName unicode_lower sha1).
Abbreviation outN := (outName unicode_lower sha1).
Abbreviation idN := (counterID unicode_lower sha1).

Definition client_rules (ips : gmap string string) (mac : string) : list counter_rule :=
  match client_v4 ips mac with Some ip => [CountDown ip (inN mac)] | None => [] end
  ++ [CountUp (ToLower unicode_lower mac) (outN mac)].
Definition table_rules (ips : gmap string string) (macs : list string) : list counter_rule :=
  List.flat_map (client_rules ips) macs.

Definition rule_text (r : counter_rule) : string :=
  match r with
  | CountDown ip name => tab +:+ tab +:+ "ip daddr " +:+ IP_String ip +:+ " counter name " +:+ name +:+ nlf
  | CountUp mac name => tab +:+ tab +:+ "ether saddr " +:+ mac +:+ " counter name " +:+ name +:+ nlf
  end.

Lemma concat_app l1 l2 : String.concat "" (l1 ++ l2) = String.concat "" l1 +:+ String.concat "" l2.
Proof.
  induction l1 as [|x l1 IH]; [done|]. cbn [app]. destruct l1 as [|y l1], l2 as [|z l2]; cbn [app String.concat] in *.
  - by rewrite append_empty_r.
  - done.
  - rewrite app_nil_r in *. by rewrite append_empty_r.
  - rewrite IH. by rewrite !append_assoc.
Qed.

(** The text of the chain is that of its rules. *)
Lemma rules_text ips macs :
  String.concat "" (List.map (rule_lines unicode_lower sha1 ips) macs) = String.concat "" (List.map rule_text (table_rules ips macs)).
Proof.
  induction macs as [|m macs IH]; [done|]. unfold table_rules. cbn [List.flat_map]. fold (table_rules ips macs).
  rewrite List.map_app, concat_app, <- IH, <- concat_app. change (List.map ?f (m :: macs)) with ([f m] ++ List.map f macs).
  rewrite !concat_app. f_equal. unfold client_rules, rule_lines. by destruct (client_v4 ips m).
Qed.

Lemma last_differs a b x y : a +:+ String x "" = b +:+ String y "" -> x = y.
Proof.
  revert b. induction a as [|c a IH]; intros [|d b]; cbn; intros H.
  - congruence.
  - injection H as _ H. by destruct b.
  - injection H as _ H. by destruct a.
  - injection H as _ H. by eapply IH.
Qed.

Lemma in_not_out m m' : inN m <> outN m'.
Proof.
  unfold inName, outName. intros H.
  assert (Hl : "n"%char = "t"%char); [|done].
  apply (last_differs ("cli_" +:+ idN m +:+ "_i") ("cli_" +:+ idN m' +:+ "_ou")). rewrite !append_assoc. exact H.
Qed.

Lemma append_inj_r a b s : a +:+ s = b +:+ s -> a = b.
Proof.
  revert b. induction a as [|c a IH]; intros [|d b]; cbn; intros H; [done|..].
  - exfalso. apply (f_equal String.length) in H. cbn in H. rewrite append_length in H. lia.
  - exfalso. apply (f_equal String.length) in H. cbn in H. rewrite append_length in H. lia.
  - injection H as -> H. f_equal. by apply IH.
Qed.

Lemma inName_inj m m' : inN m = inN m' -> idN m = idN m'.
Proof. unfold inName. intros H. injection H as H. by apply append_inj_r in H. Qed.

Lemma outName_inj m m' : outN m = outN m' -> idN m = idN m'.
Proof. unfold outName. intros H. injection H as H. by apply append_inj_r in H. Qed.

(** The ids of the clients differ. *)
Definition distinct_ids (macs : list string) : Prop := List.NoDup (List.map idN macs).

Lemma added_client_other ips m m' p : idN m <> idN m' ->
  added (client_rules ips m') (outN m) p = 0 /\ added (client_rules ips m') (inN m) p = 0.
Proof.
  intros Hne. assert (Ho : String.eqb (outN m') (outN m) = false) by (apply String.eqb_neq; intros H; apply outName_inj in H; congruence).
  assert (Hi : String.eqb (inN m') (inN m) = false) by (apply String.eqb_neq; intros H; apply inName_inj in H; congruence).
  assert (Hio : String.eqb (inN m') (outN m) = false) by (apply String.eqb_neq, in_not_out).
  assert (Hoi : String.eqb (outN m') (inN m) = false) by (apply String.eqb_neq; intros H; by apply (in_not_out m m')).
  unfold client_rules, added. destruct (client_v4 ips m'); cbn [app foldr rule_counter]; rewrite ?Ho, ?Hi, ?Hio, ?Hoi; done.
Qed.

Lemma added_client_own ips m p :
  added (client_rules ips m) (outN m) p = (if String.eqb (p_saddr p) (ToLower unicode_lower m) then p_len p else 0)
  /\ added (client_rules ips m) (inN m) p
     = match client_v4 ips m with Some ip => if bool_decide (p_daddr p = Some ip) then p_len p else 0 | None => 0 end.
Proof.
  assert (Hio : String.eqb (inN m) (outN m) = false) by (apply String.eqb_neq, in_not_out).
  assert (Hoi : String.eqb (outN m) (inN m) = false) by (apply String.eqb_neq; intros H; by apply (in_not_out m m)).
  unfold client_rules, added. destruct (client_v4 ips m); cbn [app foldr rule_counter rule_matches];
    rewrite ?Hio, ?Hoi, ?String.eqb_refl; cbn [andb]; split; lia.
Qed.

Lemma added_table ips macs m p : distinct_ids macs -> In m macs ->
  added (table_rules ips macs) (outN m) p = (if String.eqb (p_saddr p) (ToLower unicode_lower m) then p_len p else 0)
  /\ added (table_rules ips macs) (inN m) p
     = match client_v4 ips m with Some ip => if bool_decide (p_daddr p = Some ip) then p_len p else 0 | None => 0 end.
Proof.
  unfold distinct_ids, table_rules. induction macs as [|x macs IH]; [done|]. cbn [List.map List.flat_map].
  rewrite List.NoDup_cons_iff. intros [Hx Hd] Hin. rewrite !added_app.
  assert (Hrest : ~ In (idN m) (List.map idN macs) ->
    added (List.flat_map (client_rules ips) macs) (outN m) p = 0 /\ added (List.flat_map (client_rules ips) macs) (inN m) p = 0).
  { clear. induction macs as [|y macs IH]; [done|]. cbn [List.map List.flat_map]. intros Hn. rewrite !added_app.
    destruct (added_client_other ips m y p) as [-> ->]; [intros E; apply Hn; by left|].
    destruct IH as [-> ->]; [intros H; apply Hn; by right|done]. }
  destruct Hin as [<-|Hin].
  - destruct (Hrest Hx) as [-> ->]. destruct (added_client_own ips x p) as [-> ->]. split; lia.
  - destruct (added_client_other ips m x p) as [-> ->].
    { intros E. apply Hx. rewrite <- E. by apply List.in_map. }
    destruct (IH Hd Hin) as [-> ->]. split; lia.
Qed.

(** The counters of a client hold the bytes it sent and the bytes sent to its
    address. *)
Lemma table_counts ips macs m pkts : distinct_ids macs -> In m macs ->
  count (run_table (table_rules ips macs) pkts) (outN m) = traffic (fun p => String.eqb (p_saddr p) (ToLower unicode_lower m)) pkts
  /\ count (run_table (table_rules ips macs) pkts) (inN m)
     = match client_v4 ips m with Some ip => traffic (fun p => bool_decide (p_daddr p = Some ip)) pkts | None => 0 end.
Proof.
  intros Hd Hin. rewrite !count_run_table. unfold traffic. split.
  - induction pkts as [|p pkts IH]; [done|]. cbn [foldr]. rewrite IH. by rewrite (proj1 (added_table ips macs m p Hd Hin)).
  - destruct (client_v4 ips m) as [ip|] eqn:E; induction pkts as [|p pkts IH]; [done| |done|]; cbn [foldr]; rewrite IH;
      rewrite (proj2 (added_table ips macs m p Hd Hin)), E; lia.
Qed.

(** ** Lemmas: addresses *)

Abbreviation lower := (ToLower unicode_lower).

(** A text without blanks or bytes outside ASCII, as the lease file has it. *)
Definition plain_text (s : string) : Prop := all_chars plain_char s = true.

Lemma lower_plain s : plain_text s -> lower s = lower_ascii s.
Proof.
  intros H. unfold ToLower. rewrite (all_chars_impl plain_char (fun a => byte_val a <? 128)); [done| |exact H].
  intros a Ha. unfold plain_char in Ha. by apply andb_prop in Ha as [? _].
Qed.

Lemma lower_char_facts a : plain_char a = true -> plain_char (lower_char a) = true /\ lower_char (lower_char a) = lower_char a.
Proof.
  intros H. assert (Hb : negb (plain_char a) || (plain_char (lower_char a) && Ascii.eqb (lower_char (lower_char a)) (lower_char a)) = true).
  { revert a H. intros a _. revert a. apply ascii_forall. vm_compute. reflexivity. }
  rewrite H in Hb. cbn [negb orb] in Hb. apply andb_prop in Hb as [? ?]. by bool_hyps.
Qed.

Lemma lower_ascii_facts s : plain_text s -> plain_text (lower_ascii s) /\ lower_ascii (lower_ascii s) = lower_ascii s.
Proof.
  unfold plain_text. induction s as [|a s IH]; [done|]. cbn [all_chars lower_ascii]. intros H. apply andb_prop in H as [Ha Hs].
  destruct (IH Hs) as [H1 H2]. destruct (lower_char_facts a Ha) as [-> ->]. by rewrite H1, H2.
Qed.

(** A normalised address. *)
Definition normal (k : string) : Prop := k <> "" /\ plain_text k /\ lower (TrimSpace k) = k.

Lemma normal_lower m : m <> "" -> plain_text m -> normal (lower m).
Proof.
  intros Hne Hp. rewrite lower_plain by done. destruct (lower_ascii_facts m Hp) as [H1 H2]. split; [by destruct m|]. split; [done|].
  rewrite TrimSpace_plain by done. by rewrite lower_plain.
Qed.

Lemma dedup_normal keys seen : Forall normal keys -> List.NoDup keys -> Forall (fun k => ~ In k seen) keys ->
  dedup unicode_lower seen keys = keys.
Proof.
  intros Hn. revert seen. induction Hn as [|k keys Hk Hn IH]; intros seen Hd Hs; [done|]. cbn [dedup]. cbv zeta.
  destruct Hk as (Hne & _ & Hk). rewrite Hk. apply List.NoDup_cons_iff in Hd as [Hx Hd]. apply List.Forall_cons_iff in Hs as [Hks Hs].
  destruct (String.eqb_spec k "") as [|_]; [done|]. destruct (mem k seen) eqn:E; [by apply mem_In in E|]. cbn [orb]. f_equal.
  apply IH; [done|]. rewrite List.Forall_forall in *. intros x Hin [->|H]; [done|]. by apply (Hs x).
Qed.

Lemma insert_sorted_perm x l : Permutation (insert_sorted x l) (x :: l).
Proof.
  induction l as [|y l IH]; [done|]. cbn [insert_sorted]. destruct (String.leb x y); [done|]. rewrite IH. constructor.
Qed.

Lemma sort_strings_perm l : Permutation (sort_strings l) l.
Proof. induction l as [|x l IH]; [done|]. cbn [sort_strings List.fold_right]. etransitivity; [apply insert_sorted_perm|]. by constructor. Qed.

Lemma insert_usage_perm x l : Permutation (insert_usage x l) (x :: l).
Proof.
  induction l as [|y l IH]; [done|]. cbn [insert_usage]. destruct (String.leb _ _); [done|]. rewrite IH. constructor.
Qed.

Lemma sort_usages_perm l : Permutation (sort_usages l) l.
Proof. induction l as [|x l IH]; [done|]. cbn [sort_usages List.fold_right]. etransitivity; [apply insert_usage_perm|]. by constructor. Qed.

(** The clients with a counter are leased ones, and all of them when they fit. *)
Lemma dedupAndCap_spec keys : Forall normal keys -> List.NoDup keys ->
  (forall m, In m (dedupAndCap unicode_lower keys) -> In m keys)
  /\ ((length keys <= MaxQoSClients)%nat -> forall m, In m keys -> In m (dedupAndCap unicode_lower keys)).
Proof.
  intros Hn Hd. unfold dedupAndCap. rewrite dedup_normal; [|done..|].
  2:{ apply List.Forall_forall. by intros x _ []. }
  pose proof (sort_strings_perm keys) as Hp. split.
  - intros m Hin. apply (Permutation_in _ Hp). rewrite <- (firstn_skipn MaxQoSClients). apply in_app_iff. by left.
  - intros Hl m Hin. rewrite take_ge by (by rewrite (Permutation_length Hp)). by apply (Permutation_in _ (Permutation_sym Hp)).
Qed.

Lemma snapshot_ips leases : Forall (fun l => plain_text (le_MAC l)) leases ->
  lease_ips unicode_lower leases = le_IP <$> lease_snapshot unicode_lower leases
  /\ forall k, is_Some (lease_snapshot unicode_lower leases !! k) -> normal k.
Proof.
  unfold lease_ips, lease_snapshot. intros H.
  assert (Hgen : forall (m : gmap string Lease), (forall k, is_Some (m !! k) -> normal k) ->
    foldl (fun m l => if String.eqb (le_MAC l) "" then m else <[lower (TrimSpace (le_MAC l)) := le_IP l]> m) (le_IP <$> m) leases
    = le_IP <$> foldl (fun m l => if String.eqb (le_MAC l) "" then m else <[lower (le_MAC l) := l]> m) m leases
    /\ forall k, is_Some (foldl (fun m l => if String.eqb (le_MAC l) "" then m else <[lower (le_MAC l) := l]> m) m leases !! k) -> normal k).
  { induction H as [|l leases Hl _ IH]; intros m Hm; [done|]. cbn [foldl].
    destruct (String.eqb_spec (le_MAC l) "") as [|Hne]; [by apply IH|]. rewrite (TrimSpace_plain (le_MAC l)) by done.
    rewrite <- fmap_insert. apply IH. intros k. rewrite lookup_insert_is_Some. intros [<-|[_ Hk]]; [by apply normal_lower|by apply Hm]. }
  destruct (Hgen ∅) as [H1 H2]; [intros k [x Hx]; by rewrite lookup_empty in Hx|]. rewrite fmap_empty in H1. by split.
Qed.

Lemma map_keys_spec (ips : gmap string string) : List.NoDup (map_keys ips) /\ forall k, In k (map_keys ips) <-> is_Some (ips !! k).
Proof.
  unfold map_keys. split.
  - pose proof (NoDup_fst_map_to_list ips) as H. by apply NoDup_ListNoDup in H.
  - intros k. rewrite in_map_iff. split.
    + intros ((k' & v) & Hk & Hin). cbn in Hk. subst k'. apply list_elem_of_In, elem_of_map_to_list in Hin. by eexists.
    + intros [v Hv]. exists (k, v). split; [done|]. by apply list_elem_of_In, elem_of_map_to_list.
Qed.

(** ** Correctness: the usage of the clients *)

Section Usage.
Variable decode_counters : string -> result (list (option nftCounter)).
Variable rate : Z -> Z -> Z.
Variable Error_text : error -> string.

(** Rebuilding the table and, some packets later, sampling it. *)
Definition rebuild_and_sample (leases : list Lease) (now : Z) : svc qos (result unit * result (list ClientUsage)) :=
  a ← RebuildClientCounters unicode_lower sha1 leases;
  b ← SamplePerClient unicode_lower sha1 decode_counters rate Error_text now;
  mret (a, b).

Definition tracked (leases : list Lease) : list string := dedupAndCap unicode_lower (map_keys (lease_ips unicode_lower leases)).
Definition rules_for (leases : list Lease) : list counter_rule :=
  table_rules (lease_ips unicode_lower leases) (tracked leases).

(** The script that loads these rules. *)
Definition script_for (leases : list Lease) : string :=
  "table inet lankeeper_qos" +:+ nlf +:+ "delete table inet lankeeper_qos" +:+ nlf
  +:+ (if (length (tracked leases) =? 0)%nat then ""
       else "table inet lankeeper_qos {" +:+ nlf
            +:+ String.concat "" (List.map (counter_lines unicode_lower sha1) (tracked leases))
            +:+ tab +:+ "chain fwd {" +:+ nlf
            +:+ tab +:+ tab +:+ "type filter hook forward priority -200; policy accept;" +:+ nlf
            +:+ String.concat "" (List.map rule_text (rules_for leases))
            +:+ tab +:+ "}" +:+ nlf +:+ "}" +:+ nlf).

Definition list_command : call := CRun "nft" ["-j"; "list"; "table"; "inet"; "lankeeper_qos"] "".
Definition load_command (leases : list Lease) : call := CRun "nft" ["-f"; "-"] (script_for leases).

(** nft lists the counters the packets have left in the table. *)
Definition lists_counters (w : world) (rules : list counter_rule) (pkts : list packet) : Prop :=
  forall h, exists out cs, w h list_command = Ok out /\ parseQoSCounters decode_counters out = Ok cs
    /\ forall name, counter_bytes cs name = count (run_table rules pkts) name.

Lemma rebuild_run leases w h s :
  RebuildClientCounters unicode_lower sha1 leases w h s
  = match w h (load_command leases) with
    | Ok _ => (Ok tt, mkQos (qs_cfg s) (qs_lastCounters s) (qs_lastSample s) (lease_snapshot unicode_lower leases), h ++ [load_command leases])
    | Err e => (Err (Errorw "apply qos nft script: %w" [] e), s, h ++ [load_command leases])
    end.
Proof.
  cbv [RebuildClientCounters applyClientCounters try_bind wrapping RunWithStdin perform get put mbind svc_bind mret svc_ret].
  fold (tracked leases). unfold renderQoSTable. rewrite rules_text. fold (rules_for leases).
  change (CRun "nft" ["-f"; "-"] _) with (load_command leases).
  by destruct (w h (load_command leases)).
Qed.

(** After the counter table has been rebuilt from the leases and packets
    have been forwarded, a sample has exactly one entry for each leased
    address, with the address and name of the lease; for every client that has
    counters, which are all of them up to sixty-four, the bytes reported are
    the bytes it sent and the bytes sent to its leased address, provided the
    shortened hashes of the addresses differ. *)
Theorem usage_counts_own_traffic leases now pkts w s (snapshot := lease_snapshot unicode_lower leases) :
  Forall (fun l => plain_text (le_MAC l)) leases -> distinct_ids (tracked leases) ->
  lists_counters w (rules_for leases) pkts -> is_ok (w [] (load_command leases)) = true ->
  exists usages, Sys.outcome (rebuild_and_sample leases now) w s = (Ok tt, Ok usages)
  /\ length usages = length (map_to_list snapshot)
  /\ ((length (map_to_list snapshot) <= MaxQoSClients)%nat -> forall mac, is_Some (snapshot !! mac) -> In mac (tracked leases))
  /\ forall mac lease, snapshot !! mac = Some lease ->
       exists u, In u usages /\ cu_MAC u = mac /\ cu_IP u = le_IP lease /\ cu_Hostname u = le_Hostname lease
         /\ (In mac (tracked leases) ->
             cu_OutBytes u = traffic (fun p => String.eqb (p_saddr p) mac) pkts
             /\ cu_InBytes u = match ParseIP (le_IP lease) with
                               | Some ip => match To4 ip with
                                            | Some ip4 => traffic (fun p => bool_decide (p_daddr p = Some ip4)) pkts
                                            | None => 0
                                            end
                               | None => 0
                               end).
Proof.
  intros Hplain Hids Hlist Hload. destruct (snapshot_ips leases Hplain) as [Hips Hnorm]. fold snapshot in Hips, Hnorm.
  unfold Sys.outcome, rebuild_and_sample. cbv [mbind svc_bind mret svc_ret]. rewrite rebuild_run.
  destruct (w [] (load_command leases)) as [u|e]; [|done]. cbv [SamplePerClient Run perform get put mbind svc_bind mret svc_ret].
  change (CRun "nft" ["-j"; "list"; "table"; "inet"; qosTableName] "") with list_command.
  destruct (Hlist ([] ++ [load_command leases])) as (out & cs & -> & -> & Hcs). cbn [fst snd].
  set (s1 := mkQos _ _ _ _). set (l := clientUsages _ _ _ _ _ _ _).
  exists (sort_usages l). split; [done|]. pose proof (sort_usages_perm l) as Hp.
  split; [by rewrite (Permutation_length Hp); unfold l, clientUsages; rewrite List.length_map|].
  assert (Hk : forall k, is_Some (lease_ips unicode_lower leases !! k) <-> is_Some (snapshot !! k)).
  { intros k. rewrite Hips, lookup_fmap. apply fmap_is_Some. }
  destruct (map_keys_spec (lease_ips unicode_lower leases)) as [Hnd Hin].
  destruct (dedupAndCap_spec (map_keys (lease_ips unicode_lower leases))) as [_ Hall]; [|done|].
  { apply List.Forall_forall. intros k H. apply Hnorm, Hk, Hin. exact H. }
  split.
  - intros Hl mac Hmac. apply Hall; [|by apply Hin, Hk]. unfold map_keys. rewrite List.length_map, Hips.
    rewrite map_to_list_fmap. unfold fmap. by rewrite length_fmap.
  - intros mac lease Hmac. exists (client_usage unicode_lower sha1 rate s1 cs (sampleInterval s1 now) now (mac, lease)).
    split.
    { apply (Permutation_in _ (Permutation_sym Hp)). unfold l, clientUsages. apply List.in_map.
      apply list_elem_of_In, elem_of_map_to_list. exact Hmac. }
    unfold client_usage. cbv beta iota zeta. destruct (match qs_lastCounters s1 !! mac with Some _ => _ | None => _ end) as [i o].
    cbn [cu_MAC cu_IP cu_Hostname cu_OutBytes cu_InBytes]. split; [done|]. split; [done|]. split; [done|]. intros Ht.
    rewrite !Hcs. unfold rules_for. destruct (table_counts (lease_ips unicode_lower leases) (tracked leases) mac pkts Hids Ht) as [-> ->].
    destruct (Hnorm mac ltac:(by eexists)) as (_ & Hpl & Hlow). rewrite TrimSpace_plain in Hlow by done. rewrite Hlow. split; [done|].
    unfold client_v4. rewrite Hips, lookup_fmap, Hmac. change (default "" (le_IP <$> Some lease)) with (le_IP lease).
    destruct (ParseIP (le_IP lease)) as [ip|]; [|done]. by destruct (To4 ip).
Qed.

End Usage.
End Counting.

(** ** Behaviours *)

(** When the save fails the new settings stay in force in memory, although the
    form is answered with an error and nothing was applied. *)
Lemma failed_save_keeps_settings r w s next :
  is_ok (hq_parse r) = true -> parseQoSForm r (q_conf s) = (next, "") ->
  is_ok (w [] (CSave (set_Config_QoS next (qs_cfg s)))) = false ->
  hstatus (Sys.outcome (qos_HandleApply r) w s) = StatusInternalServerError
  /\ q_conf (state_after (qos_HandleApply r) w s) = next.
Proof.
  intros Hp Hf Hw. unfold Sys.outcome, state_after, qos_HandleApply. rewrite Hp. cbn [negb].
  cbv [get put SaveToFile perform mbind svc_bind mret svc_ret discard]. rewrite Hf. cbn [nonempty String.eqb negb].
  destruct (w [] _); [done|]. by split.
Qed.

(** ** The agent's verdict *)

Lemma qos_calls_allowed r w s :
  Forall allowed (calls_of (qos_HandleApply r) w s) /\ Forall allowed (calls_of (qos_HandleClear r) w s).
Proof.
  split; apply (keeps_calls allowed (fun _ => True)); try done;
    unfold qos_HandleApply, qos_HandleClear, qos_Clear, answer, qos_Apply, clear, setCongestionControl, applyCake, applyFqCodel;
    walk; first [done | allow_call].
Qed.

Lemma sampler_calls_allowed ul sha1 decode rate text leases every times w s :
  Forall allowed (calls_of (runClientSampler ul sha1 decode rate text (mret leases) every times) w s).
Proof.
  apply (keeps_calls allowed (fun _ => True)); [|done].
  assert (Hr : keeps allowed (fun _ => True) (rebuildFromLeases ul sha1 (mret leases))).
  { unfold rebuildFromLeases, RebuildClientCounters, applyClientCounters. walk; first [done | allow_call]. }
  unfold runClientSampler. apply keeps_bind; [exact Hr|intros _]. generalize (if every <=? 0 then 30 else every) as n. intros n. generalize 0 as tick.
  induction times as [|t times IH]; intros tick; cbn [sampler_ticks]; [apply keeps_ret|].
  unfold sampleAndPublish, SamplePerClient. walk; first [done | apply IH | exact Hr | allow_call].
Qed.

(** ** Witnesses *)

Definition sample_qos : qos := mkQos Config_zero ∅ None ∅.
Definition bare_kernel : kernel := mkKernel (Some "fq_codel") true true true true None.
Definition qos_form (fields : list (string * string)) : hreq :=
  mkHreq (Ok tt) (fun k => match List.find (fun p => String.eqb (fst p) k) fields with Some p => snd p | None => "" end)
    (fun _ => "") "".
Definition works : world := fun _ _ => Ok "x".


Definition one_lease : list Lease := [mkLease 0 "AA:BB" "10.0.0.5" "pc" true].
Definition sample_packets : list packet := [mkPacket "aa:bb" None 100; mkPacket "cc:dd" (Some [10; 0; 0; 5]) 50].
Definition sample_counters : string -> result (list (option nftCounter)) := fun _ =>
  Ok [Some (mkCounter "inet" "lankeeper_qos" (inName id id "aa:bb") 1 50); None;
      Some (mkCounter "inet" "lankeeper_qos" (outName id id "aa:bb") 1 100)].

Lemma sample_listing : lists_counters sample_counters works (rules_for id id one_lease) sample_packets.
Proof.
  intros h. eexists "x", _. split; [reflexivity|]. split; [reflexivity|]. intros name.
  match goal with |- counter_bytes ?cs name = _ => assert (H : run_table (rules_for id id one_lease) sample_packets = nc_Bytes <$> cs) by (vm_compute; reflexivity) end.
  rewrite H. unfold count, counter_bytes. rewrite lookup_fmap. by destruct (_ !! name).
Qed.

Lemma usage_counts_own_traffic_witness :
  exists usages, Sys.outcome (rebuild_and_sample id id sample_counters (fun b _ => b) (fun _ => "") one_lease 7) works sample_qos
                 = (Ok tt, Ok usages) /\ List.map cu_OutBytes usages = [100] /\ length usages = 1%nat.
Proof.
  assert (Hp : Forall (fun l => plain_text (le_MAC l)) one_lease) by (repeat constructor).
  assert (Hi : distinct_ids id id (tracked id one_lease)).
  { unfold distinct_ids. assert (E : tracked id one_lease = ["aa:bb"]) by (vm_compute; reflexivity). rewrite E.
    repeat constructor. by intros []. }
  destruct (usage_counts_own_traffic id id sample_counters (fun b _ => b) (fun _ => "") one_lease 7 sample_packets works sample_qos
    Hp Hi sample_listing eq_refl) as (usages & Ho & Hl & _).
  exists usages. split; [exact Ho|]. split; [|exact Hl].
  assert (E : Sys.outcome (rebuild_and_sample id id sample_counters (fun b _ => b) (fun _ => "") one_lease 7) works sample_qos
    = (Ok tt, Ok [mkUsage "aa:bb" "10.0.0.5" "pc" 50 100 0 0 7])) by (vm_compute; reflexivity).
  rewrite E in Ho. by injection Ho as <-.
Defined.
