(* ===== verification/Doh.v ===== *)
(** * internal/services/doh.go, doh_resolvers.go and internal/web/handlers/dns.go

    DNS over HTTPS: the upstream an operator may choose, the sdns:// stamp it
    is written down as, the proxy's configuration file and its service, the
    probes, and the handlers of the DNS page, which order the two daemons
    against each other.  Parameters: the parser of URLs, the resolver and the
    interface addresses of the host, the DNS message codec, the Unbound
    template, HTTP responses and clocks. *)

From S2P Require Import Prelude GoStrings Regex GoNet GoIP Encoding ConfigTypes Config Outbound Validate AgentRules FirewallRender Sys Dns Respond Openvpn.

Local Open Scope Z_scope.
Local Open Scope go_scope.
Local Open Scope sys_scope.

(** ** The catalogue *)

Record BuiltInDoHResolver : Type := mkResolver { br_Name : string; br_Description : string }.

Definition BuiltInDoHResolvers : list BuiltInDoHResolver :=
  [mkResolver "cloudflare" "Cloudflare 1.1.1.1 (no logging, no filter)";
   mkResolver "cloudflare-security" "Cloudflare 1.1.1.2 (malware filter)";
   mkResolver "cloudflare-family" "Cloudflare 1.1.1.3 (malware + adult filter)";
   mkResolver "quad9-doh-ip4-port443-nofilter-pri" "Quad9 9.9.9.10 (no filter, no DNSSEC, no ECS)";
   mkResolver "quad9-doh-ip4-port443-filter-pri" "Quad9 9.9.9.9 (malware filter, DNSSEC validated)";
   mkResolver "google" "Google 8.8.8.8 (no logging policy)";
   mkResolver "adguard-dns-doh" "AdGuard 94.140.14.14 (default ad-block)";
   mkResolver "adguard-dns-unfiltered-doh" "AdGuard 94.140.14.140 (no filter)";
   mkResolver "nextdns" "NextDNS (configure profile via custom sdns://)";
   mkResolver "mullvad-doh" "Mullvad (no logging, Sweden)"].

Definition IsBuiltInDoHResolver (name : string) : bool :=
  existsb (fun r => String.eqb (br_Name r) name) BuiltInDoHResolvers.

(** ** Stamps *)

Definition length_bits (a : ascii) : nat := Z.to_nat (Z.land (byte_val a) 127).
Definition more_bit (a : ascii) : bool := negb (Z.land (byte_val a) 128 =? 0).

Definition readLP (raw : string) (cursor : nat) : result (string * nat) :=
  match String.get cursor raw with
  | None => Err (Errorf "truncated length prefix" [])
  | Some a =>
      let n := length_bits a in
      let cursor := S cursor in
      if (String.length raw <? cursor + n)%nat then Err (Errorf "truncated payload" [])
      else Ok (substring cursor n raw, (cursor + n)%nat)
  end.

(** The loop of [skipVLP], as many rounds as the fuel allows; every round
    moves the cursor. *)
Fixpoint skipVLP_loop (fuel : nat) (raw : string) (cursor : nat) : result nat :=
  match fuel with
  | O => Err (Errorf "out of fuel" [])
  | S fuel =>
      match String.get cursor raw with
      | None => Err (Errorf "truncated vlp" [])
      | Some a =>
          let cursor := S cursor in
          if (String.length raw <? cursor + length_bits a)%nat then Err (Errorf "truncated vlp payload" [])
          else
            let cursor := (cursor + length_bits a)%nat in
            if more_bit a then skipVLP_loop fuel raw cursor else Ok cursor
      end
  end.
Definition skipVLP (raw : string) (cursor : nat) : result nat := skipVLP_loop (S (String.length raw)) raw cursor.

Definition decodeDoHStamp (raw : string) : result (string * string) :=
  guard! fail_if (String.length raw <? 9)%nat (Errorf "stamp truncated at properties" []) ;;
  let? (_, cursor) := wrap_err "address: %w" [] (readLP raw 9) in
  let? cursor := wrap_err "hashes: %w" [] (skipVLP raw cursor) in
  let? (host, cursor) := wrap_err "host: %w" [] (readLP raw cursor) in
  let? (path, _) := wrap_err "path: %w" [] (readLP raw cursor) in
  Ok (host, if HasPrefix path "/" then path else "/" +:+ path).

(** [strings.TrimRight(s, "=")]. *)
Definition TrimRight_eq (s : string) : string := String.rev (trim_left_set "=" (String.rev s)).

Definition stamp_bytes (spec : string) : option string := rawurl_decode (TrimRight_eq (TrimPrefix spec "sdns://")).

Definition corrupt : error := Errorf "illegal base64 data" [].

Definition parseSDNSEndpoint (spec : string) : result (string * string) :=
  match stamp_bytes spec with None => Err corrupt | Some raw => decodeDoHStamp raw end.

Definition writeLP (payload : string) : string :=
  let payload := if 127 <? len payload then substring 0 127 payload else payload in
  String (ascii_of_nat (String.length payload)) payload.

Definition eight_zeros : string := string_of_list_ascii (repeat "000"%char 8).

(** What [url.Parse] gives: Scheme, Hostname(), Port() and Path. *)
Record url : Type := mkUrl { u_Scheme : string; u_Hostname : string; u_Port : string; u_Path : string }.

Definition JoinHostPort (host port : string) : string :=
  if has_char ":" host then "[" +:+ host +:+ "]:" +:+ port else host +:+ ":" +:+ port.

Definition dohHostRegex : regex :=
  let cls := RCls (fun a => is_alnum a || char_in ".-" a) in
  RSeq (RCls is_alnum) (ropt (RSeq (rupto 253 cls) (RCls is_alnum))).

Definition path_char (a : ascii) : bool := is_alnum a || char_in "._~/-%" a.
Definition dohPathRegex : regex := RSeq (rchar "/") (RStar (RCls path_char)).

Definition isIPLiteral (host : string) : bool := match ParseIP host with Some _ => true | None => false end.

Definition validateDoHPort (s : string) : result unit :=
  if existsb (String.eqb s) ["443"; "4443"; "8443"] then Ok tt
  else Err (Errorf "DoH port %q not allowed (use 443/4443/8443)" [s]).

(** The two digits of [%02x]. *)
Definition hex2 (a : ascii) : string := hex_encode (char_str a).

Section Doh.
Variable url_parse : string -> result url.
Variable localInterfaceNets : result (list IPNet).
Variable LookupIP : string -> result (list IP).

Definition checkUpstreamNotInternal (host : string) : result unit :=
  match ParseIP host with
  | Some ip => fail_if (isInternalIP localInterfaceNets (Some ip)) (Errorf "upstream %s is an internal address" [host])
  | None =>
      let? addrs := wrap_err "lookup %s: %w" [host] (LookupIP host) in
      match List.find (fun a => isInternalIP localInterfaceNets (Some a)) addrs with
      | Some a => Err (Errorf "upstream %s resolved to internal address %s" [host; IP_String a])
      | None => Ok tt
      end
  end.

Definition validateHTTPSUpstream (spec : string) : result unit :=
  let? u := wrap_err "parse https url: %w" [] (url_parse spec) in
  guard! fail_if (negb (String.eqb (u_Scheme u) "https")) (Errorf "scheme must be https" []) ;;
  guard! fail_if (negb (matchb dohHostRegex (u_Hostname u))) (Errorf "invalid host %q" [u_Hostname u]) ;;
  guard! fail_if (negb (matchb dohPathRegex (u_Path u))) (Errorf "invalid path %q" [u_Path u]) ;;
  guard! fail_if (String.eqb (u_Path u) "" || String.eqb (u_Path u) "/")
    (Errorf "path must be a DoH endpoint (e.g. /dns-query)" []) ;;
  guard! (if nonempty (u_Port u) then validateDoHPort (u_Port u) else Ok tt) ;;
  checkUpstreamNotInternal (u_Hostname u).

Definition validateSDNSUpstream (spec : string) : result unit :=
  match stamp_bytes spec with
  | None => Err (Errorw "base64url decode: %w" [] corrupt)
  | Some EmptyString => Err (Errorf "stamp too short" [])
  | Some (String b _ as raw) =>
      guard! fail_if (negb (byte_val b =? 2)) (Errorf "stamp protocol = 0x%02x, want 0x02 (DoH)" [hex2 b]) ;;
      let? (host, path) := decodeDoHStamp raw in
      guard! fail_if (negb (matchb dohHostRegex host) && negb (isIPLiteral host)) (Errorf "invalid stamp host %q" [host]) ;;
      guard! fail_if (negb (matchb dohPathRegex path)) (Errorf "invalid stamp path %q" [path]) ;;
      checkUpstreamNotInternal host
  end.

Definition ValidateUpstream (spec : string) : result unit :=
  let spec := TrimSpace spec in
  if String.eqb spec "" then Err (Errorf "DoH upstream required" [])
  else if IsBuiltInDoHResolver spec then Ok tt
  else if HasPrefix spec "https://" then validateHTTPSUpstream spec
  else if HasPrefix spec "sdns://" then validateSDNSUpstream spec
  else Err (Errorf "DoH upstream must be a catalogue name, https:// URL, or sdns:// stamp" []).

Definition httpsURLToStamp (rawURL : string) : result string :=
  let? u := url_parse rawURL in
  guard! fail_if (negb (String.eqb (u_Scheme u) "https")) (Errorf "scheme = %s, want https" [u_Scheme u]) ;;
  let host := u_Hostname u in
  let port := orDefault (u_Port u) "443" in
  let addr := match ParseIP host with Some ip => JoinHostPort (IP_String ip) port | None => "" end in
  let path := orDefault (u_Path u) "/dns-query" in
  Ok ("sdns://" +:+ rawurl_encode
        (char_str "002" +:+ eight_zeros +:+ writeLP addr +:+ char_str "000" +:+ writeLP host +:+ writeLP path)).

(** ** The proxy's configuration *)

Record dohCustomServer : Type := mkCustom { cs_Name : string; cs_Stamp : string }.
Record dohTemplateData : Type := mkDohData { dd_ServerNames : list string; dd_CustomServers : list dohCustomServer }.

Definition buildTemplateData (cfg : Config) : dohTemplateData :=
  let upstream := TrimSpace (DNSConfig_DoHUpstream (Config_DNS cfg)) in
  if String.eqb upstream "" then mkDohData [] []
  else if IsBuiltInDoHResolver upstream then mkDohData [upstream] []
  else
    let stamp :=
      if HasPrefix upstream "https://" then match httpsURLToStamp upstream with Ok s => s | Err _ => upstream end
      else upstream in
    mkDohData ["lankeeper-custom"] [mkCustom "lankeeper-custom" stamp].

Definition quoted (s : string) : string := "'" +:+ s +:+ "'".

(** The lines of configs/sysconf/dnscrypt-proxy.toml.tmpl. *)
Definition server_lines (d : dohTemplateData) : list string :=
  match dd_ServerNames d with [] => [] | l => ["server_names = [" +:+ join ", " (List.map quoted l) +:+ "]"] end.

Definition static_lines (d : dohTemplateData) : list string :=
  match dd_CustomServers d with
  | [] => []
  | l => [""; "[static]"]
         ++ List.flat_map (fun c => ["  [static." +:+ quoted (cs_Name c) +:+ "]"; "  stamp = " +:+ quoted (cs_Stamp c)]) l
  end.

Definition fixed_lines : list string :=
  [""; "ipv6_servers = false"; "dnscrypt_servers = false"; "doh_servers = true"; "odoh_servers = false";
   "require_dnssec = true"; "require_nolog = true"; "require_nofilter = false"; "http3 = false"; "ignore_system_dns = true";
   "netprobe_timeout = 60"; "log_level = 2"; "log_file = '/var/log/dnscrypt-proxy.log'"; "use_syslog = false";
   "cert_refresh_delay = 240"; "timeout = 5000"; "keepalive = 30"; ""; "[sources]"; "  [sources.public-resolvers]";
   "  urls = ['https://download.dnscrypt.info/resolvers-list/v3/public-resolvers.md', 'https://raw.githubusercontent.com/DNSCrypt/dnscrypt-resolvers/master/v3/public-resolvers.md']";
   "  cache_file = '/var/cache/dnscrypt-proxy/public-resolvers.md'";
   "  minisign_key = 'RWQf6LRCGA9i53mlYecO4IzT51TGPpvWucNSCh1CBM0QTaLn73Y7GFO3'"; "  refresh_delay = 72"; "  prefix = ''"].

Definition toml_lines (d : dohTemplateData) : list string :=
  ["# dnscrypt-proxy.toml rendered by lankeeper.";
   "# Do not edit by hand - changes will be overwritten on next ApplyConfig."; "";
   "listen_addresses = ['127.0.0.1:5353']"]
  ++ server_lines d ++ fixed_lines ++ static_lines d.

Definition toml (d : dohTemplateData) : string := join nl (toml_lines d) +:+ nl.

(** The service shares the configuration of the DNS service. *)
Definition doh_RenderConfig : svc dns (result string) :=
  try! _ := wrapping "parse template: %w" [] (LocalCall "template.ParseFiles" ["configs/sysconf/dnscrypt-proxy.toml.tmpl"]) in
  s ← get;
  mret (Ok (toml (buildTemplateData (dn_cfg s)))).

Definition dnscryptConfigPath : string := "/etc/dnscrypt-proxy/dnscrypt-proxy.toml".

Definition doh_RenderToDisk : svc dns (result unit) :=
  try! rendered := doh_RenderConfig in
  try! _ := wrapping "mkdir dnscrypt-proxy dir: %w" [] (MkdirAll "/etc/dnscrypt-proxy" 493) in
  WriteFile dnscryptConfigPath rendered 420.

Definition doh_ApplyConfig : svc dns (result unit) :=
  try! _ := doh_RenderToDisk in
  s ← get;
  if negb (DNSConfig_EnableDoH (Config_DNS (dn_cfg s))) then
    Run "systemctl" ["stop"; "dnscrypt-proxy"] ;; mret (Ok tt)
  else
    try! _ := wrapping "restart dnscrypt-proxy: %w" [] (Run "systemctl" ["restart"; "dnscrypt-proxy"]) in
    Run "systemctl" ["enable"; "dnscrypt-proxy"] ;; mret (Ok tt).

(** internal/web/server.go: what starting the server does for the proxy. *)
Definition initDoH : svc dns unit :=
  s ← get;
  if DNSConfig_EnableDoH (Config_DNS (dn_cfg s)) then doh_ApplyConfig ;; mret tt
  else doh_RenderToDisk ;; mret tt.

(** ** Probes *)

(** The DNS message codec: a name, a question packed with an id, and the
    response code of an unpacked message. *)
Variable NewName : string -> result string.
Variable Pack : Z -> string -> result string.
Variable Unpack : string -> result Z.
Variable RCode_String : Z -> string.
(** The status and body of an answer to an HTTP request. *)
Variable http_response : string -> Z * response.

Definition dohProbeEndpoint (spec : string) : result string :=
  if HasPrefix spec "https://" then guard! validateHTTPSUpstream spec ;; Ok spec
  else if HasPrefix spec "sdns://" then
    guard! validateSDNSUpstream spec ;;
    let? (host, path) := parseSDNSEndpoint spec in
    Ok ("https://" +:+ host +:+ path)
  else Err (Errorf "probe requires https:// URL or sdns:// stamp" []).

Definition buildDoHQuery (name : string) : result string := let? q := NewName name in Pack 4660 q.

(** [io.ReadAll(io.LimitReader(body, 4096))]. *)
Definition read_limited (b : response) : result string :=
  if 4096 <=? len (fst b) then Ok (take_bytes 4096 (fst b))
  else match snd b with None => Ok (fst b) | Some e => Err e end.

Definition checkDoHResponse (resp : Z * response) : result unit :=
  guard! fail_if (negb (fst resp =? 200)) (Errorf "HTTP %d" [itoa (fst resp)]) ;;
  let? body := wrap_err "read response: %w" [] (read_limited (snd resp)) in
  let? rcode := wrap_err "unpack DNS response: %w" [] (Unpack body) in
  fail_if (negb (rcode =? 0)) (Errorf "DNS rcode %s" [RCode_String rcode]).

(** The dialer of both probes asks [refuseInternalAddress] about every address
    it connects to. *)
Definition probe_dial (network address : string) : result unit := refuseInternalAddress localInterfaceNets network address.

(** [Probe]; [elapsed] is the time the exchange took, in nanoseconds. *)
Definition Probe (elapsed : Z) (spec : string) : svc dns (result Z) :=
  let spec := TrimSpace spec in
  if IsBuiltInDoHResolver spec
  then mret (Err (Errorf "catalogue picks are validated by name; no probe required" []))
  else match dohProbeEndpoint spec with
  | Err e => mret (Err e)
  | Ok endpoint =>
      match buildDoHQuery "www.example.com." with
      | Err e => mret (Err (Errorw "build query: %w" [] e))
      | Ok query =>
          try! resp := wrapping "request: %w" [] (LocalCall "http.Post" [endpoint; "application/dns-message"; query]) in
          mret (let? _ := checkDoHResponse (http_response resp) in Ok elapsed)
      end
  end.

Definition zeros (n : nat) : string := string_of_list_ascii (repeat "000"%char n).

(** [conn.Read] into a buffer of [n] bytes: what arrived, the rest zero. *)
Definition fill (n : nat) (o : string) : string :=
  let o := substring 0 n o in o +:+ zeros (n - String.length o).

Definition byte (n : Z) : ascii := ascii_of_N (Z.to_N (n mod 256)).

Definition frame (wire : string) : string := String (byte (Z.shiftr (len wire) 8)) (String (byte (len wire)) wire).

Definition header_length (hdr : string) : Z :=
  match hdr with String a (String b _) => Z.lor (Z.shiftl (byte_val a) 8) (byte_val b) | _ => 0 end.

(** [ProbeDoT] of dns.go. *)
Definition ProbeDoT (elapsed : Z) (upstream : string) : svc dns (result Z) :=
  match parseAndValidateDoTSpec localInterfaceNets LookupIP (TrimSpace upstream) with
  | Err e => mret (Err e)
  | Ok (host, port, sni) =>
      try! _ := wrapping "dial: %w" [] (LocalCall "tls.Dial" [JoinHostPort host port; sni]) in
      match (let? q := NewName "cloudflare.com." in Pack 4660 q) with
      | Err e => mret (Err (Errorw "pack: %w" [] e))
      | Ok wire =>
          try! _ := wrapping "write: %w" [] (LocalCall "conn.Write" [frame wire]) in
          try! hdr := wrapping "read header: %w" [] (LocalCall "conn.Read" ["2"]) in
          let respLen := header_length (fill 2 hdr) in
          if (respLen <=? 0) || (65535 <? respLen) then mret (Err (Errorf "invalid response length" []))
          else
            try! resp := wrapping "read body: %w" [] (LocalCall "conn.Read" [itoa respLen]) in
            mret (let? _ := wrap_err "unpack: %w" [] (Unpack (fill (Z.to_nat respLen) resp)) in Ok elapsed)
      end
  end.

(** ** The handlers of the DNS page *)

Variable execute : unboundTemplateData -> result string.
Variable outbound_parse : string -> result (string * string).
Variable fetch : string -> result response.
Variable unicode_fold : Z -> Z.
(** The text of an error and of a locale key. *)
Variable Error_text : error -> string.
Variable T : string -> string.
(** Whether the handler was given a DoH service. *)
Variable has_doh : bool.

(** A plain answer, or a piece of a page. *)
Inductive reply : Type := Plain (h : hresp) | Html (html : string).

Definition HandleClearLog (r : hreq) : svc dns hresp :=
  answer StatusInternalServerError (respondRefresh r "/dns") ClearQueryLog.

Definition HandleUpdateBlocklist (r : hreq) : svc dns hresp :=
  u ← UpdateBlocklist outbound_parse fetch;
  mret (match u with
        | Ok _ => respondRefresh r "/dns"
        | Err e => if errors_Is e ErrBlocklistUpdateRunning then clientError StatusConflict "dns.blocklistUpdateRunning"
                   else fail StatusInternalServerError e
        end).

Definition escape_char (a : ascii) : string :=
  if Ascii.eqb a "&" then "&amp;"
  else if Ascii.eqb a "'" then "&#39;"
  else if Ascii.eqb a "<" then "&lt;"
  else if Ascii.eqb a ">" then "&gt;"
  else if Ascii.eqb a dquote then "&#34;"
  else char_str a.

(** [html.EscapeString]. *)
Fixpoint EscapeString (s : string) : string :=
  match s with "" => "" | String a s => escape_char a +:+ EscapeString s end.

Definition span_open (class : string) : string :=
  "<span class=" +:+ char_str dquote +:+ "badge badge-" +:+ class +:+ char_str dquote +:+ ">".

Definition writeProbeResult (res : result Z) : reply :=
  Html (match res with
         | Err e => span_open "error" +:+ EscapeString (T "dns.probeFailed") +:+ ": " +:+ EscapeString (Error_text e) +:+ "</span>"
         | Ok latency =>
             span_open "success" +:+ EscapeString (T "dns.probeOK") +:+ " (" +:+ itoa (Z.quot latency 1000000) +:+ "ms)</span>"
         end).

Definition HandleProbeDoT (elapsed : Z) (r : hreq) : svc dns reply :=
  if negb (is_ok (hq_parse r)) then mret (Plain (clientError StatusBadRequest "error.badForm"))
  else
    let upstream := TrimSpace (hq_form r "dot_upstream") in
    if String.eqb upstream "" then mret (Plain (clientError StatusBadRequest "error.upstreamRequired"))
    else p ← ProbeDoT elapsed upstream; mret (writeProbeResult p).

Definition StatusServiceUnavailable : Z := 503.

Definition HandleProbeDoH (elapsed : Z) (r : hreq) : svc dns reply :=
  if negb (is_ok (hq_parse r)) then mret (Plain (clientError StatusBadRequest "error.badForm"))
  else
    let upstream := TrimSpace (hq_form r "doh_upstream") in
    if String.eqb upstream "" then mret (Plain (clientError StatusBadRequest "error.upstreamRequired"))
    else if negb has_doh then mret (Plain (clientError StatusServiceUnavailable "error.dohUnavailable"))
    else p ← Probe elapsed upstream; mret (writeProbeResult p).

(** The flags, the locale key of a refusal and the error of the upstream. *)
Definition encryptionMode (mode dotUpstream dohUpstream : string) : bool * bool * string * option error :=
  if String.eqb mode "dot" then
    if String.eqb dotUpstream "" then (false, false, "error.dotUpstreamRequired", None) else (true, false, "", None)
  else if String.eqb mode "doh" then
    if String.eqb dohUpstream "" then (false, false, "error.dohUpstreamRequired", None)
    else match (if has_doh then ValidateUpstream dohUpstream else Ok tt) with
         | Err e => (false, false, "", Some e)
         | Ok _ => (false, true, "", None)
         end
  else if String.eqb mode "plain" || String.eqb mode "" then (false, false, "", None)
  else (false, false, "error.unknownEncryptionMode", None).

Definition applyDNS : svc dns unit := ApplyConfig execute ;; mret tt.
Definition applyDoH : svc dns unit := if has_doh then doh_ApplyConfig ;; mret tt else mret tt.

Definition applyDNSPlane {S} (enableDoH : bool) (applyDoH applyDNS : svc S unit) : svc S unit :=
  if enableDoH then applyDoH ;; applyDNS else applyDNS ;; applyDoH.

Definition HandleSaveDoT (r : hreq) : svc dns hresp :=
  if negb (is_ok (hq_parse r)) then mret (clientError StatusBadRequest "error.badForm")
  else
    let dotUpstream := TrimSpace (hq_form r "dot_upstream") in
    let dohUpstream := TrimSpace (hq_form r "doh_upstream") in
    let '(enableDoT, enableDoH, key, err) := encryptionMode (hq_form r "encryption_mode") dotUpstream dohUpstream in
    if nonempty key then mret (clientError StatusBadRequest key)
    else match err with
    | Some e => mret (fail StatusBadRequest e)
    | None =>
        saved ← SaveDNSSettings localInterfaceNets LookupIP enableDoT dotUpstream enableDoH dohUpstream;
        match saved with
        | Err e => mret (fail StatusInternalServerError e)
        | Ok _ => applyDNSPlane enableDoH applyDoH applyDNS ;; mret (respondRefresh r "/dns")
        end
    end.

Definition dnsNamePattern : regex :=
  RSeq (RCls is_alnum) (RSeq (rupto 251 (RCls (fun a => is_alnum a || char_in ".-" a))) (RCls is_alnum)).

Definition HandleAddRecord (r : hreq) : svc dns hresp :=
  if negb (is_ok (hq_parse r)) then mret (clientError StatusBadRequest "error.badForm")
  else
    let name := TrimSpace (hq_form r "name") in
    let ip := TrimSpace (hq_form r "ip") in
    if negb (matchb dnsNamePattern name) then mret (clientError StatusBadRequest "error.invalidDNSName")
    else if negb (is_ok (ValidateIP ip)) then mret (clientError StatusBadRequest "error.invalidIP")
    else
      a ← AddStaticRecord unicode_fold
            (mkStaticDNSRecord name ip (String.eqb (hq_form r "local_zone") "on") DNSSourceUser
               (String.eqb (hq_form r "disable_auto_ptr") "on"));
      match a with
      | Err e => mret (fail StatusBadRequest e)
      | Ok _ => ApplyConfig execute ;; mret (respondRefresh r "/dns")
      end.

Definition HandleDeleteRecord (r : hreq) : svc dns hresp :=
  match Atoi (hq_path r "index") with
  | None => mret (clientError StatusBadRequest "error.invalidIndex")
  | Some idx =>
      a ← RemoveStaticRecord idx;
      match a with
      | Err e => mret (fail StatusBadRequest e)
      | Ok _ => ApplyConfig execute ;; mret (respondRefresh r "/dns")
      end
  end.

End Doh.

(** ** The wire format of a stamp *)

(** A field: a byte whose low seven bits are the length, then the payload. *)
Definition lp (field payload : string) : Prop :=
  exists a, field = String a payload /\ length_bits a = String.length payload.

(** A set: fields, each but the last marked by the high bit. *)
Inductive vlp : string -> Prop :=
| vlp_last a p : length_bits a = String.length p -> more_bit a = false -> vlp (String a p)
| vlp_more a p f : length_bits a = String.length p -> more_bit a = true -> vlp f -> vlp (String a p +:+ f).

(** Protocol, eight bytes of properties, address, hashes, host, path and
    whatever follows. *)
Definition doh_stamp (raw addr host path : string) : Prop :=
  exists b props fa hashes fh fp rest,
    raw = String b props +:+ fa +:+ hashes +:+ fh +:+ fp +:+ rest
    /\ String.length props = 8%nat /\ lp fa addr /\ vlp hashes /\ lp fh host /\ lp fp path.

(** ** Lemmas: strings by position *)

Lemma get_at pre a r : String.get (String.length pre) (pre +:+ String a r) = Some a.
Proof. induction pre as [|b pre IH]; [done|]. exact IH. Qed.

Lemma get_end pre : String.get (String.length pre) pre = None.
Proof. induction pre as [|b pre IH]; [done|]. exact IH. Qed.

Lemma substring_here p r : substring 0 (String.length p) (p +:+ r) = p.
Proof. induction p as [|a p IH]; [by destruct r|]. cbn. by rewrite IH. Qed.

Lemma substring_at pre p r : substring (String.length pre) (String.length p) (pre +:+ p +:+ r) = p.
Proof. induction pre as [|b pre IH]; [exact (substring_here p r)|]. exact IH. Qed.

Lemma string_split_at (n : nat) s : (n <= String.length s)%nat -> exists p r, s = p +:+ r /\ String.length p = n.
Proof.
  revert s. induction n as [|n IH]; intros s H; [by exists "", s|]. destruct s as [|a s]; [cbn in H; lia|].
  destruct (IH s) as (p & r & -> & Hp); [cbn in H; lia|]. exists (String a p), r. split; [done|]. cbn. by rewrite Hp.
Qed.

Lemma get_Some n s a : String.get n s = Some a -> exists pre r, s = pre +:+ String a r /\ String.length pre = n.
Proof.
  revert n. induction s as [|b s IH]; intros n H; [by destruct n|]. destruct n as [|n].
  - injection H as ->. by exists "", s.
  - destruct (IH n H) as (pre & r & -> & Hl). exists (String b pre), r. split; [done|]. cbn. by rewrite Hl.
Qed.

Lemma append_inj_length p q r r' : p +:+ r = q +:+ r' -> String.length p = String.length q -> p = q /\ r = r'.
Proof.
  revert q. induction p as [|a p IH]; intros [|b q] E Hl; try done. injection E as -> E. injection Hl as Hl.
  by destruct (IH q E Hl) as [-> ->].
Qed.

(** ** Lemmas: reading fields *)

(** Reading at the end of [pre] reads a field off what follows. *)
Lemma readLP_iff pre rest p c :
  readLP (pre +:+ rest) (String.length pre) = Ok (p, c)
  <-> exists f rest', rest = f +:+ rest' /\ lp f p /\ c = String.length (pre +:+ f).
Proof.
  unfold readLP. destruct rest as [|a r].
  - rewrite append_empty_r, get_end. split; [done|]. intros (f & r & E & (a & -> & _) & _). done.
  - rewrite get_at. cbv zeta. rewrite append_length. cbn [String.length].
    destruct (Nat.ltb_spec (String.length pre + S (String.length r)) (S (String.length pre) + length_bits a)) as [Hlt|Hle].
    + split; [done|]. intros (f & r' & E & (b & -> & Hb) & _). injection E as -> ->.
      rewrite append_length, <- Hb in Hlt. lia.
    + destruct (string_split_at (length_bits a) r) as (q & r' & -> & Hq); [lia|].
      assert (substring (S (String.length pre)) (length_bits a) (pre +:+ String a (q +:+ r')) = q) as ->.
      { rewrite <- Hq. change (pre +:+ String a (q +:+ r')) with (pre +:+ char_str a +:+ q +:+ r'). rewrite <- append_assoc.
        replace (S (String.length pre)) with (String.length (pre +:+ char_str a)) by (rewrite append_length; cbn; lia).
        apply substring_at. }
      split.
      * intros [= <- <-]. exists (String a q), r'. split; [done|]. split; [by exists a|]. rewrite append_length. cbn. lia.
      * intros (f & r'' & E & (b & -> & Hb) & ->). injection E as <- E.
        destruct (append_inj_length q p r' r'' E) as [<- _]; [congruence|].
        repeat f_equal. rewrite append_length. cbn. lia.
Qed.

(** The same for a set, whenever there is enough fuel. *)
Lemma skipVLP_loop_iff fuel pre rest c : (String.length rest < fuel)%nat ->
  skipVLP_loop fuel (pre +:+ rest) (String.length pre) = Ok c
  <-> exists f rest', rest = f +:+ rest' /\ vlp f /\ c = String.length (pre +:+ f).
Proof.
  revert pre rest. induction fuel as [|fuel IH]; intros pre rest Hf; [lia|]. cbn [skipVLP_loop]. destruct rest as [|a r].
  - rewrite append_empty_r, get_end. split; [done|]. intros (f & r & E & Hv & _). destruct Hv; done.
  - rewrite get_at. cbv zeta. rewrite append_length. cbn [String.length] in Hf |- *.
    destruct (Nat.ltb_spec (String.length pre + S (String.length r)) (S (String.length pre) + length_bits a)) as [Hlt|Hle].
    + split; [done|]. intros (f & r' & E & Hv & _).
      destruct Hv as [b p Hb _|b p f Hb _ _]; injection E as -> ->; rewrite ?append_assoc, !append_length, <- Hb in Hlt; lia.
    + destruct (string_split_at (length_bits a) r) as (q & r' & -> & Hq); [lia|]. rewrite append_length in Hf.
      destruct (more_bit a) eqn:Em.
      * change (pre +:+ String a (q +:+ r')) with (pre +:+ (String a q) +:+ r'). rewrite <- append_assoc.
        replace (S (String.length pre) + length_bits a)%nat with (String.length (pre +:+ String a q))
          by (rewrite append_length; cbn; lia).
        rewrite IH by lia. split.
        -- intros (f & r'' & -> & Hv & ->). exists (String a q +:+ f), r''. rewrite !append_assoc. split; [done|].
           split; [by apply vlp_more|done].
        -- intros (f & r'' & E & Hv & ->). destruct Hv as [b p Hb Hm|b p f Hb Hm Hv]; injection E as <- E; [congruence|].
           rewrite append_assoc in E. apply append_inj_length in E as [<- ->]; [|congruence]. exists f, r''. by rewrite !append_assoc.
      * split.
        -- intros [= <-]. exists (String a q), r'. split; [done|]. split; [by apply vlp_last|]. rewrite append_length. cbn. lia.
        -- intros (f & r'' & E & Hv & ->). destruct Hv as [b p Hb Hm|b p f Hb Hm Hv]; injection E as <- E; [|congruence].
           apply append_inj_length in E as [<- _]; [|congruence]. f_equal. rewrite append_length. cbn. lia.
Qed.

(** The decoder reads exactly the stamps of the format: it gives the host and
    the path of the fields, wherever they are. *)
Lemma decode_iff raw host path :
  decodeDoHStamp raw = Ok (host, path)
  <-> exists addr p, doh_stamp raw addr host p /\ path = (if HasPrefix p "/" then p else "/" +:+ p).
Proof.
  unfold decodeDoHStamp. destruct (Nat.ltb_spec (String.length raw) 9) as [Hs|Hl]; cbn [fail_if result_bind].
  - split; [done|]. intros (addr & p & (b & props & fa & hs & fh & fp & rest & -> & H8 & _) & _).
    cbn [String.append] in Hs. cbn [String.length] in Hs. rewrite append_length, H8 in Hs. lia.
  - destruct (string_split_at 9 raw Hl) as (pre & r & -> & Hp). split.
    + intros H. inv_ok. destruct x as [addr c1]. inv_ok. destruct x0 as [h c3]. inv_ok. destruct x0 as [p c4]. inv_ok.
      match goal with H : (_, _) = (host, path) |- _ => injection H as -> <- end.
      match goal with H : readLP _ 9 = _ |- _ => rewrite <- Hp in H; apply readLP_iff in H as (fa & r1 & -> & Ha & ->) end.
      rewrite <- !append_assoc in *.
      match goal with H : skipVLP _ _ = _ |- _ => unfold skipVLP in H;
        apply skipVLP_loop_iff in H as (hs & r2 & -> & Hv & ->); [|rewrite !append_length; lia] end.
      rewrite <- !append_assoc in *.
      match goal with H : readLP _ _ = Ok (host, _) |- _ => apply readLP_iff in H as (fh & r3 & -> & Hh & ->) end.
      rewrite <- !append_assoc in *.
      match goal with H : readLP _ _ = Ok (p, _) |- _ => apply readLP_iff in H as (fp & r4 & -> & Hpa & _) end.
      exists addr, p. split; [|done]. destruct pre as [|b props]; [done|]. exists b, props, fa, hs, fh, fp, r4.
      split; [by rewrite !append_assoc|]. injection Hp as Hp. done.
    + intros (addr & p & (b & props & fa & hs & fh & fp & rest & E & H8 & Ha & Hv & Hh & Hpa) & ->).
      destruct (append_inj_length pre (String b props) r _ E) as [-> ->]; [cbn; lia|].
      assert (readLP (String b props +:+ fa +:+ hs +:+ fh +:+ fp +:+ rest) 9 = Ok (addr, String.length (String b props +:+ fa))) as ->.
      { rewrite <- Hp. apply readLP_iff. eauto 10. }
      cbn [wrap_err result_bind]. rewrite <- append_assoc.
      assert (skipVLP ((String b props +:+ fa) +:+ hs +:+ fh +:+ fp +:+ rest) (String.length (String b props +:+ fa))
              = Ok (String.length ((String b props +:+ fa) +:+ hs))) as ->.
      { apply skipVLP_loop_iff; [rewrite !append_length; lia|]. eauto 10. }
      cbn [wrap_err result_bind]. rewrite <- append_assoc.
      rewrite (proj2 (readLP_iff _ (fh +:+ fp +:+ rest) host (String.length (((String b props +:+ fa) +:+ hs) +:+ fh)))) by eauto 10.
      cbn [wrap_err result_bind]. rewrite <- append_assoc.
      rewrite (proj2 (readLP_iff _ (fp +:+ rest) p (String.length ((((String b props +:+ fa) +:+ hs) +:+ fh) +:+ fp)))) by eauto 10.
      done.
Qed.

(** ** Lemmas: which upstreams are accepted *)

(** Every address the host stands for is public. *)
Definition reaches_public (nets : result (list IPNet)) (lookup : string -> result (list IP)) (host : string) : Prop :=
  match ParseIP host with
  | Some ip => public nets ip
  | None => exists addrs, lookup host = Ok addrs /\ Forall (public nets) addrs
  end.

Lemma find_none_public nets addrs :
  List.find (fun a => isInternalIP nets (Some a)) addrs = None <-> Forall (public nets) addrs.
Proof.
  induction addrs as [|a addrs IH]; [by split|]. cbn [List.find]. rewrite List.Forall_cons_iff, <- isInternalIP_public.
  destruct (isInternalIP nets (Some a)); [split; [done|by intros [? _]]|]. rewrite IH. naive_solver.
Qed.

Lemma checkUpstreamNotInternal_iff nets lookup host :
  checkUpstreamNotInternal nets lookup host = Ok tt <-> reaches_public nets lookup host.
Proof.
  unfold checkUpstreamNotInternal, reaches_public. destruct (ParseIP host) as [ip|].
  - rewrite <- isInternalIP_public. unfold fail_if. by destruct (isInternalIP nets (Some ip)).
  - destruct (lookup host) as [addrs|e]; cbn [wrap_err result_bind]; [|split; [done|by intros (? & ? & _)]].
    destruct (List.find _ addrs) as [a|] eqn:E.
    + split; [done|]. intros (x & [= <-] & HF). apply find_none_public in HF. congruence.
    + split; [|done]. intros _. exists addrs. split; [done|]. by apply find_none_public.
Qed.

(** An upstream the operator may choose. *)
Inductive acceptable (parse : string -> result url) (nets : result (list IPNet)) (lookup : string -> result (list IP))
  (s : string) : Prop :=
| acc_catalogue r : In r BuiltInDoHResolvers -> s = br_Name r -> acceptable parse nets lookup s
| acc_url u : HasPrefix s "https://" = true -> parse s = Ok u -> u_Scheme u = "https" ->
    lang dohHostRegex (u_Hostname u) -> lang dohPathRegex (u_Path u) -> u_Path u <> "/" ->
    In (u_Port u) [""; "443"; "4443"; "8443"] -> reaches_public nets lookup (u_Hostname u) -> acceptable parse nets lookup s
| acc_stamp raw addr host p : HasPrefix s "sdns://" = true -> stamp_bytes s = Some raw -> HasPrefix raw (char_str "002") = true ->
    doh_stamp raw addr host p -> lang dohHostRegex host \/ isIPLiteral host = true ->
    lang dohPathRegex (if HasPrefix p "/" then p else "/" +:+ p) -> reaches_public nets lookup host ->
    acceptable parse nets lookup s.

Lemma validateDoHPort_iff port :
  (if nonempty port then validateDoHPort port else Ok tt) = Ok tt <-> In port [""; "443"; "4443"; "8443"].
Proof.
  unfold nonempty, validateDoHPort. destruct (String.eqb_spec port "") as [->|Hp]; cbn [negb].
  - split; [by left|done].
  - destruct (existsb (String.eqb port) ["443"; "4443"; "8443"]) eqn:E.
    + split; [|done]. intros _. right. by apply mem_In.
    + split; [done|]. intros [H|H]; [by subst|]. apply mem_In in H. unfold mem in H. congruence.
Qed.

Lemma guard_ok_iff {A} b e (k : result A) a : (guard! fail_if b e ;; k) = Ok a <-> b = false /\ k = Ok a.
Proof. destruct b; cbn; naive_solver. Qed.

Lemma doh_path_slash p : lang dohPathRegex p -> p <> "".
Proof.
  intros H ->. inversion H as [| | | |r1 r2 s t H1 _ E| |]. inversion H1; subst. done.
Qed.

Lemma doh_protocol b r : HasPrefix (String b r) (char_str "002") = (byte_val b =? 2).
Proof.
  change (HasPrefix (String b r) (char_str "002")) with
    (match (if Ascii.eqb "002" b then Some r else None) with Some _ => true | None => false end).
  assert (H : forall a, Bool.eqb (Ascii.eqb "002" a) (byte_val a =? 2) = true) by (apply ascii_forall; vm_compute; reflexivity).
  specialize (H b). apply eqb_prop in H. rewrite <- H. by destruct (Ascii.eqb "002" b).
Qed.

Section Accepts.
Context (parse : string -> result url) (nets : result (list IPNet)) (lookup : string -> result (list IP)).

Lemma validateHTTPSUpstream_iff s :
  validateHTTPSUpstream parse nets lookup s = Ok tt
  <-> exists u, parse s = Ok u /\ u_Scheme u = "https" /\ lang dohHostRegex (u_Hostname u) /\ lang dohPathRegex (u_Path u)
        /\ u_Path u <> "/" /\ In (u_Port u) [""; "443"; "4443"; "8443"] /\ reaches_public nets lookup (u_Hostname u).
Proof.
  unfold validateHTTPSUpstream. destruct (parse s) as [u|e]; cbn [wrap_err result_bind];
    [|split; [done|by intros (? & ? & _)]].
  transitivity (u_Scheme u = "https" /\ lang dohHostRegex (u_Hostname u) /\ lang dohPathRegex (u_Path u)
    /\ u_Path u <> "/" /\ In (u_Port u) [""; "443"; "4443"; "8443"] /\ reaches_public nets lookup (u_Hostname u)).
  - rewrite !guard_ok_iff, !negb_false_iff, String.eqb_eq, !matchb_lang, orb_false_iff, !String.eqb_neq,
      <- validateDoHPort_iff, <- checkUpstreamNotInternal_iff.
    split.
    + intros (H1 & H2 & H3 & [_ H4] & H5). split_and!; try done; destruct (if nonempty _ then _ else _) as [[]|]; done.
    + intros (H1 & H2 & H3 & H4 & -> & H6). split_and!; try done. by apply doh_path_slash.
  - split; [intros H; by exists u|]. by intros (? & [= <-] & H).
Qed.

Lemma validateSDNSUpstream_iff s :
  validateSDNSUpstream nets lookup s = Ok tt
  <-> exists raw addr host p, stamp_bytes s = Some raw /\ HasPrefix raw (char_str "002") = true /\ doh_stamp raw addr host p
        /\ (lang dohHostRegex host \/ isIPLiteral host = true)
        /\ lang dohPathRegex (if HasPrefix p "/" then p else "/" +:+ p) /\ reaches_public nets lookup host.
Proof.
  unfold validateSDNSUpstream. destruct (stamp_bytes s) as [raw|]; [|split; [done|by intros (? & ? & ? & ? & ? & _)]].
  destruct raw as [|b r]; [split; [done|by intros (? & ? & ? & ? & [= <-] & ? & _)]|].
  rewrite guard_ok_iff, negb_false_iff, <- (doh_protocol b r).
  destruct (decodeDoHStamp (String b r)) as [[host path]|e] eqn:E; cbn [result_bind].
  - rewrite !guard_ok_iff, andb_false_iff, !negb_false_iff, !matchb_lang, checkUpstreamNotInternal_iff.
    apply decode_iff in E as (addr & p & Hd & ->). split; [intros (H & H1 & H2 & H3); by exists (String b r), addr, host, p|].
    intros (raw & addr' & host' & p' & [= <-] & Hp & Hd' & H).
    assert (E : decodeDoHStamp (String b r) = Ok (host', if HasPrefix p' "/" then p' else "/" +:+ p')) by (apply decode_iff; eauto).
    rewrite (proj2 (decode_iff (String b r) host _) (ex_intro _ addr (ex_intro _ p (conj Hd eq_refl)))) in E.
    apply Ok_inj, pair_equal_spec in E as [-> E]. rewrite E. tauto.
  - split; [by intros [_ ?]|]. intros (raw & addr & host & p & [= <-] & _ & Hd & _).
    assert (decodeDoHStamp (String b r) = Ok (host, if HasPrefix p "/" then p else "/" +:+ p)) by (apply decode_iff; eauto).
    congruence.
Qed.

Lemma ValidateUpstream_iff spec :
  ValidateUpstream parse nets lookup spec = Ok tt <-> acceptable parse nets lookup (TrimSpace spec).
Proof.
  unfold ValidateUpstream. generalize (TrimSpace spec) as s. intros s. split.
  - destruct (String.eqb s ""); [done|]. destruct (IsBuiltInDoHResolver s) eqn:Eb.
    { intros _. apply existsb_exists in Eb as (r & Hr & He). apply String.eqb_eq in He. by apply (acc_catalogue _ _ _ _ r). }
    destruct (HasPrefix s "https://") eqn:Eh; [|destruct (HasPrefix s "sdns://") eqn:Es; [|done]].
    + intros (u & H1 & H2 & H3 & H4 & H5 & H6 & H7)%validateHTTPSUpstream_iff. by eapply acc_url.
    + intros (raw & addr & host & p & H1 & H2 & H3 & H4 & H5 & H6)%validateSDNSUpstream_iff. by eapply acc_stamp.
  - destruct (String.eqb_spec s "") as [->|Hn].
    { intros [r Hr He|u Hp|raw addr host p Hp]; try done. cbn in Hr. repeat destruct Hr as [<-|Hr]; done. }
    destruct (IsBuiltInDoHResolver s) eqn:Eb; [done|].
    intros [r Hr ->|u Hp H1 H2 H3 H4 H5 H6 H7|raw addr host p Hp H1 H2 H3 H4 H5 H6].
    + exfalso. enough (IsBuiltInDoHResolver (br_Name r) = true) by congruence.
      apply existsb_exists. exists r. split; [done|]. apply String.eqb_refl.
    + rewrite Hp. apply validateHTTPSUpstream_iff. by exists u.
    + assert (HasPrefix s "https://" = false) as ->.
      { apply HasPrefix_true in Hp as [t ->]. done. }
      rewrite Hp. apply validateSDNSUpstream_iff. by exists raw, addr, host, p.
Qed.

End Accepts.

(** ** Lemmas: writing stamps *)

Lemma rev_app_rev_app s t u : String.rev_app (String.rev_app s t) u = String.rev_app t (s +:+ u).
Proof. revert t. induction s as [|a s IH]; intros t; [done|]. cbn [String.rev_app]. by rewrite IH. Qed.

Lemma rev_rev s : String.rev (String.rev s) = s.
Proof. unfold String.rev. rewrite rev_app_rev_app. cbn. apply append_empty_r. Qed.

Lemma TrimRight_eq_none s : all_chars url_char s = true -> TrimRight_eq s = s.
Proof.
  intros H. unfold TrimRight_eq. rewrite <- (rev_rev s) at 2. f_equal. rewrite <- all_chars_rev in H.
  destruct (String.rev s) as [|a t]; [done|]. cbn [all_chars] in H. apply andb_prop in H as [Ha _]. cbn [trim_left_set].
  assert (char_in "=" a = false) as ->; [|done].
  apply negb_true_iff. apply (ascii_impl url_char (fun a => negb (char_in "=" a))); [vm_compute; reflexivity|done].
Qed.

Lemma stamp_bytes_encode raw : stamp_bytes ("sdns://" +:+ rawurl_encode raw) = Some raw.
Proof.
  unfold stamp_bytes. rewrite TrimPrefix_append, TrimRight_eq_none by apply rawurl_text. apply rawurl_roundtrip.
Qed.

Lemma length_bits_of n : (n <= 127)%nat -> length_bits (ascii_of_nat n) = n.
Proof.
  intros Hn. assert (H : forallb (fun n => Nat.eqb (length_bits (ascii_of_nat n)) n) (List.seq 0 128) = true)
    by (vm_compute; reflexivity).
  rewrite forallb_forall in H. apply Nat.eqb_eq, H, in_seq. lia.
Qed.

Lemma writeLP_lp s : len s <= 127 -> lp (writeLP s) s.
Proof.
  unfold writeLP, len. intros H. destruct (Z.ltb_spec 127 (Z.of_nat (String.length s))); [lia|].
  eexists. split; [done|]. apply length_bits_of. lia.
Qed.

Lemma itoa_octet b : byte_ok b -> (String.length (itoa b) <= 3)%nat.
Proof.
  unfold byte_ok. intros Hb. assert (H : forallb (fun n => Nat.leb (String.length (itoa (Z.of_nat n))) 3) (List.seq 0 256) = true)
    by (vm_compute; reflexivity).
  rewrite forallb_forall in H. rewrite <- (Z2Nat.id b) by lia. apply Nat.leb_le, H, in_seq. lia.
Qed.

Definition host_char (a : ascii) : bool := is_alnum a || char_in ".-" a.

Lemma over_rupto P n r : over P r -> over P (rupto n r).
Proof. intros H. induction n as [|n IH]; cbn; [done|]. tauto. Qed.

Lemma doh_host_chars h : lang dohHostRegex h -> all_chars host_char h = true.
Proof.
  apply lang_over. cbn [over dohHostRegex ropt]. assert (forall a, is_alnum a = true -> host_char a = true) as Ha
    by (intros a H; unfold host_char; by rewrite H).
  split; [exact Ha|]. split; [|exact I]. split; [apply over_rupto; intros a Hx; exact Hx|exact Ha].
Qed.

(** A host that passes the pattern is a dotted quad when it is an address. *)
Lemma doh_host_literal h ip : lang dohHostRegex h -> ParseIP h = Some ip -> (String.length (IP_String ip) <= 15)%nat.
Proof.
  intros Hl%doh_host_chars H. unfold ParseIP in H. apply fmap_Some in H as (v4 & H & ->).
  assert (Hk : forall a, addr_kind h = Some a -> a = "."%char).
  { clear H. induction h as [|b h IH]; intros a; cbn [addr_kind]; [done|]. cbn [all_chars] in Hl. apply andb_prop in Hl as [Hb Hl].
    destruct (char_in ".:%" b) eqn:E; [|by apply IH]. intros [= <-].
    assert (Hd : Ascii.eqb b "." = true); [|by apply Ascii.eqb_eq in Hd].
    apply (ascii_impl (fun b => host_char b && char_in ".:%" b) (fun b => Ascii.eqb b ".")); [vm_compute; reflexivity|]. by rewrite Hb, E. }
  unfold ParseAddr in H. destruct (addr_kind h) as [k|]; [|done]. rewrite (Hk k eq_refl) in H. cbn in H.
  destruct (parseIPv4_wf _ _ H) as [H4 Hw]. destruct v4 as [|a [|b [|c [|d []]]]]; try done.
  change (IP_String (As16 [a; b; c; d])) with (itoa a +:+ "." +:+ itoa b +:+ "." +:+ itoa c +:+ "." +:+ itoa d).
  repeat (apply List.Forall_cons_iff in Hw as [?%itoa_octet Hw]). rewrite !append_length. cbn. lia.
Qed.

Definition url_address (u : url) : string :=
  match ParseIP (u_Hostname u) with
  | Some ip => JoinHostPort (IP_String ip) (orDefault (u_Port u) "443")
  | None => ""
  end.

Lemma url_address_short u : lang dohHostRegex (u_Hostname u) -> In (u_Port u) [""; "443"; "4443"; "8443"] ->
  len (url_address u) <= 127.
Proof.
  intros Hh Hp. unfold url_address. destruct (ParseIP (u_Hostname u)) as [ip|] eqn:E; [|done].
  pose proof (doh_host_literal _ _ Hh E). assert (String.length (orDefault (u_Port u) "443") <= 4)%nat.
  { cbn in Hp. destruct Hp as [<-|[<-|[<-|[<-|[]]]]]; cbn; lia. }
  unfold len, JoinHostPort. destruct (has_char ":" (IP_String ip)); rewrite !append_length; cbn; lia.
Qed.

(** The stamp of an accepted URL, byte for byte. *)
Lemma httpsURLToStamp_stamp parse s u :
  parse s = Ok u -> u_Scheme u = "https" -> lang dohHostRegex (u_Hostname u) -> lang dohPathRegex (u_Path u) ->
  In (u_Port u) [""; "443"; "4443"; "8443"] -> len (u_Hostname u) <= 127 -> len (u_Path u) <= 127 ->
  exists raw, httpsURLToStamp parse s = Ok ("sdns://" +:+ rawurl_encode raw) /\ HasPrefix raw (char_str "002") = true
    /\ doh_stamp raw (url_address u) (u_Hostname u) (u_Path u).
Proof.
  intros Hs Hsc Hh Hp Hport Hlh Hlp. unfold httpsURLToStamp. rewrite Hs. cbn [result_bind]. rewrite Hsc. cbn [String.eqb negb fail_if result_bind].
  change (match ParseIP (u_Hostname u) with Some ip => _ | None => _ end) with (url_address u). cbv zeta.
  assert (orDefault (u_Path u) "/dns-query" = u_Path u) as ->.
  { unfold orDefault. apply doh_path_slash in Hp. by apply String.eqb_neq in Hp as ->. }
  eexists. split; [done|]. split; [done|].
  exists "002"%char, eight_zeros, (writeLP (url_address u)), (char_str "000"), (writeLP (u_Hostname u)), (writeLP (u_Path u)), "".
  rewrite append_empty_r. split; [done|]. split; [done|]. split; [by apply writeLP_lp, url_address_short|].
  split; [by apply (vlp_last "000" "")|]. split; by apply writeLP_lp.
Qed.

Lemma stamp_plain raw : all_chars plain_char ("sdns://" +:+ rawurl_encode raw) = true.
Proof.
  rewrite all_chars_append. apply andb_true_intro. split; [done|]. eapply all_chars_impl; [|apply rawurl_text].
  apply ascii_impl. vm_compute. reflexivity.
Qed.

Lemma chars_avoid P c s : all_chars P s = true -> P c = false -> has_char c s = false.
Proof.
  intros Hs Hc. induction s as [|a s IH]; [done|]. cbn [all_chars] in Hs. apply andb_prop in Hs as [Ha Hs]. cbn [has_char].
  rewrite (IH Hs), orb_false_r. apply Ascii.eqb_neq. intros ->. congruence.
Qed.

(** The alphabet of a rendered stamp has no line break and no quote. *)
Lemma stamp_avoids c raw : url_char c || char_in ":/" c = false -> has_char c ("sdns://" +:+ rawurl_encode raw) = false.
Proof.
  apply (chars_avoid (fun a => url_char a || char_in ":/" a)). rewrite all_chars_append. apply andb_true_intro. split; [done|].
  eapply all_chars_impl; [|apply rawurl_text]. by intros a ->.
Qed.

Lemma path_slash p : lang dohPathRegex p -> HasPrefix p "/" = true.
Proof.
  intros H. apply HasPrefix_true. inversion H as [| | | |r1 r2 s t H1 _ E| |]; subst. inversion H1 as [|P a Ha| | | | |]; subst.
  apply Ascii.eqb_eq in Ha as <-. by exists t.
Qed.

Lemma forallb_lf ls : forallb (fun l => negb (has_char lf l)) ls = true -> forall l, In l ls -> has_char lf l = false.
Proof. intros H l Hl. rewrite forallb_forall in H. by apply negb_true_iff, H. Qed.

Lemma lines_of_join (ls : list string) : Forall (fun l => has_char lf l = false) ls ->
  split_byte lf (join nl ls +:+ nl) = ls ++ [""] \/ ls = [].
Proof.
  intros H. induction H as [|l ls Hl Hls IH]; [by right|left]. destruct ls as [|l' ls].
  - change (join nl [l] +:+ nl) with (l +:+ String lf ""). by rewrite split_byte_append.
  - change (join nl (l :: l' :: ls)) with (l +:+ nl +:+ join nl (l' :: ls)). rewrite !append_assoc.
    change (nl +:+ join nl (l' :: ls) +:+ nl) with (String lf (join nl (l' :: ls) +:+ nl)). rewrite split_byte_append by done.
    destruct IH as [IH|?]; [|done]. by rewrite IH.
Qed.

(** The file of a custom server has the template's lines when its stamp is on
    one line. *)
Lemma custom_lines stamp (d := mkDohData ["lankeeper-custom"] [mkCustom "lankeeper-custom" stamp]) :
  has_char lf stamp = false -> split_byte lf (toml d) = toml_lines d ++ [""].
Proof.
  intros H. destruct (lines_of_join (toml_lines d)) as [E|E]; [|exact E|done].
  unfold toml_lines. rewrite !List.Forall_app. repeat split; try (apply List.Forall_forall, forallb_lf; vm_compute; reflexivity).
  cbn [static_lines d dd_CustomServers List.flat_map cs_Name cs_Stamp app]. repeat constructor; try reflexivity.
  unfold quoted. rewrite !has_char_append, H. done.
Qed.

(** ** The two daemons *)

(** What unbound.conf on disk says of the proxy's port, what the running
    Unbound does, and whether the proxy is running. *)
Record plane : Type := mkPlane { pl_conf : bool; pl_forwards : bool; pl_proxy : bool }.

(** The effect of a call that succeeded; [forwards] is how Unbound reads its
    configuration file. *)
Definition plane_effect (forwards : string -> bool) (c : call) (p : plane) : plane :=
  match c with
  | CWriteFile "/etc/unbound/unbound.conf" text _ => mkPlane (forwards text) (pl_forwards p) (pl_proxy p)
  | CRun "unbound-control" ["reload"] _ => mkPlane (pl_conf p) (pl_conf p) (pl_proxy p)
  | CRun "systemctl" ["restart"; "dnscrypt-proxy"] _ => mkPlane (pl_conf p) (pl_forwards p) true
  | CRun "systemctl" ["stop"; "dnscrypt-proxy"] _ => mkPlane (pl_conf p) (pl_forwards p) false
  | _ => p
  end.

(** The planes the calls go through, from the one before the first call. *)
Fixpoint plane_trace (forwards : string -> bool) (w : world) (pre h : list call) (p : plane) : list plane :=
  match h with
  | [] => [p]
  | c :: h => p :: plane_trace forwards w (pre ++ [c]) h (if is_ok (w pre c) then plane_effect forwards c p else p)
  end.

(** Unbound never sends its queries to a port nobody listens on. *)
Definition served (p : plane) : Prop := pl_forwards p = true -> pl_proxy p = true.

(** Saving the configuration and enabling the unit at boot do not matter to
    the running daemons. *)
Definition matters (c : call) : bool :=
  match c with CSave _ | CRun "systemctl" ["enable"; _] _ => false | _ => true end.

Definition daemons_obey (w : world) : Prop := forall h c, matters c = true -> is_ok (w h c) = true.

Lemma obey_perform {S} w c h (s : S) : daemons_obey w -> matters c = true ->
  exists o, w h c = Ok o /\ perform c w h s = (Ok o, s, h ++ [c]).
Proof. intros Hw Hc. specialize (Hw h c Hc). unfold perform. destruct (w h c) as [o|]; [|done]. by exists o. Qed.

Definition proxy_file (parse : string -> result url) (s : dns) : list call :=
  [CLocal "template.ParseFiles" ["configs/sysconf/dnscrypt-proxy.toml.tmpl"]; CMkdirAll "/etc/dnscrypt-proxy" 493;
   CWriteFile dnscryptConfigPath (toml (buildTemplateData parse (dn_cfg s))) 420].

Definition proxy_calls (parse : string -> result url) (s : dns) : list call :=
  proxy_file parse s
  ++ (if DNSConfig_EnableDoH (Config_DNS (dn_cfg s))
      then [CRun "systemctl" ["restart"; "dnscrypt-proxy"] ""; CRun "systemctl" ["enable"; "dnscrypt-proxy"] ""]
      else [CRun "systemctl" ["stop"; "dnscrypt-proxy"] ""]).

Lemma doh_ApplyConfig_run parse w h s : daemons_obey w ->
  doh_ApplyConfig parse w h s = (Ok tt, s, h ++ proxy_calls parse s).
Proof.
  intros Hw. unfold doh_ApplyConfig, doh_RenderToDisk, doh_RenderConfig, proxy_calls, proxy_file, try_bind, wrapping, MkdirAll, WriteFile, LocalCall, Run.
  destruct (DNSConfig_EnableDoH (Config_DNS (dn_cfg s))) eqn:E;
  repeat (unfold mbind, svc_bind, mret, svc_ret, get;
    match goal with |- context [perform ?c w ?h ?s] =>
      first [ destruct (obey_perform w c h s Hw eq_refl) as (? & _ & ->)
            | unfold perform at 1 ] end; cbn [wrap_err discard]; rewrite ?E; cbn [negb]);
    by rewrite <- !app_assoc.
Qed.

Lemma ApplyConfig_run execute text w h s : daemons_obey w -> execute (unboundData (dn_cfg s)) = Ok text ->
  ApplyConfig execute w h s
  = (Ok tt, s, h ++ [CWriteFile "/etc/unbound/unbound.conf" text 420; CRun "unbound-control" ["reload"] ""]).
Proof.
  intros Hw He. unfold ApplyConfig, RenderToDisk, RenderConfig, Reload, try_bind, wrapping, WriteFile, Run.
  unfold mbind, svc_bind, mret, svc_ret, get. rewrite He. cbn [wrap_err].
  destruct (obey_perform w (CWriteFile "/etc/unbound/unbound.conf" text 420) h s Hw eq_refl) as (? & _ & ->). cbn [discard].
  match goal with |- context [perform ?c w ?h ?s] => destruct (obey_perform w c h s Hw eq_refl) as (? & _ & ->) end.
  cbn [wrap_err]. by rewrite <- app_assoc.
Qed.

(** Both daemons brought in line with the settings [s], in the order of
    [applyDNSPlane]. *)
Definition resolver_calls (text : string) : list call :=
  [CWriteFile "/etc/unbound/unbound.conf" text 420; CRun "unbound-control" ["reload"] ""].

Lemma applyDNSPlane_run parse execute text w h s : daemons_obey w -> execute (unboundData (dn_cfg s)) = Ok text ->
  let on := DNSConfig_EnableDoH (Config_DNS (dn_cfg s)) in
  applyDNSPlane on (applyDoH parse true) (applyDNS execute) w h s
  = (tt, s, h ++ if on then proxy_calls parse s ++ resolver_calls text else resolver_calls text ++ proxy_calls parse s).
Proof.
  intros Hw He on. unfold applyDNSPlane, applyDoH, applyDNS.
  destruct on; unfold mbind, svc_bind, mret, svc_ret.
  - rewrite (doh_ApplyConfig_run parse w h s Hw), (ApplyConfig_run execute text w _ s Hw He). by rewrite <- app_assoc.
  - rewrite (ApplyConfig_run execute text w h s Hw He), (doh_ApplyConfig_run parse w _ s Hw). by rewrite <- app_assoc.
Qed.

(** A call that succeeds moves the plane, and one that does not matter leaves
    it. *)
Lemma plane_trace_ok forwards w pre c h p : daemons_obey w -> matters c = true ->
  plane_trace forwards w pre (c :: h) p = p :: plane_trace forwards w (pre ++ [c]) h (plane_effect forwards c p).
Proof. intros Hw Hc. cbn [plane_trace]. by rewrite Hw. Qed.

Lemma plane_trace_idle forwards w pre c h p : plane_effect forwards c p = p ->
  plane_trace forwards w pre (c :: h) p = p :: plane_trace forwards w (pre ++ [c]) h p.
Proof. intros Hc. cbn [plane_trace]. rewrite Hc. by destruct (is_ok (w pre c)). Qed.

Lemma plane_sequence parse forwards w pre s text p (on := DNSConfig_EnableDoH (Config_DNS (dn_cfg s))) :
  daemons_obey w -> served p -> forwards text = on ->
  let tr := plane_trace forwards w pre
              (if on then proxy_calls parse s ++ resolver_calls text else resolver_calls text ++ proxy_calls parse s) p in
  Forall served tr /\ List.last tr p = mkPlane on on on.
Proof.
  intros Hw Hp Hf tr. subst tr. unfold proxy_calls, proxy_file, resolver_calls. fold on. destruct p as [a b c]. unfold served in *. cbn in Hp.
  destruct on; cbn [app];
    repeat (first [rewrite plane_trace_idle by done | rewrite plane_trace_ok by done]); cbn [plane_trace plane_effect pl_conf pl_forwards pl_proxy];
    rewrite Hf; (split; [repeat (constructor; cbn; try done)|done]).
Qed.

Section Save.
Context (parse : string -> result url) (nets : result (list IPNet)) (lookup : string -> result (list IP)).
Context (execute : unboundTemplateData -> result string) (has_doh : bool).

(** What saving the mode does: it is refused before anything happens, or the
    settings are put in force and saved, and once they are saved both daemons
    are brought in line. *)
Lemma HandleSaveDoT_run r w s (doh := TrimSpace (hq_form r "doh_upstream")) :
  (exists resp, accepted resp = false /\ HandleSaveDoT parse nets lookup execute has_doh r w [] s = (resp, s, []))
  \/ exists on_dot dot on, let s' := with_dns (dns_settings on_dot dot on doh) s in
      on && on_dot = false
      /\ (on = true -> hq_form r "encryption_mode" = "doh" /\ (has_doh = true -> ValidateUpstream parse nets lookup doh = Ok tt))
      /\ HandleSaveDoT parse nets lookup execute has_doh r w [] s
         = match w [] (CSave (dn_cfg s')) with
           | Err e => (fail StatusInternalServerError e, s', [CSave (dn_cfg s')])
           | Ok _ => let '(_, s2, h) := applyDNSPlane on (applyDoH parse has_doh) (applyDNS execute) w [CSave (dn_cfg s')] s' in
                     (respondRefresh r "/dns", s2, h)
           end.
Proof.
  unfold HandleSaveDoT. destruct (hq_parse r) as [|e]; cbn [is_ok negb]; [|left; eexists; split; [|reflexivity]; reflexivity].
  fold doh. generalize (TrimSpace (hq_form r "dot_upstream")) as dot. intros dot. cbv zeta.
  destruct (encryptionMode _ _ _ _ _ _ _) as [[[on_dot on] key] err] eqn:Em.
  destruct (nonempty key); [left; eexists; split; [|reflexivity]; reflexivity|]. destruct err as [e|]; [left; eexists; split; [|reflexivity]; reflexivity|].
  assert (Hm : on = true -> hq_form r "encryption_mode" = "doh" /\ (has_doh = true -> ValidateUpstream parse nets lookup doh = Ok tt)).
  { intros ->. unfold encryptionMode in Em. destruct (String.eqb (hq_form r "encryption_mode") "dot").
    { by destruct (String.eqb dot ""). }
    destruct (String.eqb_spec (hq_form r "encryption_mode") "doh") as [->|]; [|by destruct (_ || _)].
    split; [done|]. intros ->. destruct (String.eqb doh ""); [done|]. by destruct (ValidateUpstream parse nets lookup doh) as [[]|]. }
  destruct (dns_settings_checked nets lookup on_dot dot on doh w [] s) as [(e & E)|(E & _ & Hx & _)].
  - left. exists (fail StatusInternalServerError e). split; [done|]. unfold mbind, svc_bind. by rewrite E.
  - right. exists on_dot, dot, on. cbv zeta. split; [|split; [exact Hm|]].
    + destruct on, on_dot; [by exfalso; apply Hx|done..].
    + unfold mbind at 1, svc_bind at 1. rewrite E. cbn [app].
      destruct (w [] (CSave _)) as [o|e]; cbn [discard]; [|done]. unfold mbind, svc_bind. done.
Qed.
End Save.

(** ** Properties *)

Lemma applies_keep_state parse execute has_doh on w h s :
  snd (fst (applyDNSPlane on (applyDoH parse has_doh) (applyDNS execute) w h s)) = s
  /\ exists t, snd (applyDNSPlane on (applyDoH parse has_doh) (applyDNS execute) w h s) = h ++ t.
Proof.
  assert (Hk : keeps (fun _ => True) (eq s) (applyDNSPlane on (applyDoH parse has_doh) (applyDNS execute))).
  { unfold applyDNSPlane, applyDoH, applyDNS, doh_ApplyConfig, doh_RenderToDisk, doh_RenderConfig, ApplyConfig, RenderToDisk, Reload.
    destruct on, has_doh; walk; done. }
  destruct (Hk w h s eq_refl) as [He (t & Ht & _)]. split; [done|]. by exists t.
Qed.

(** An https upstream that was accepted is handed to the proxy as itself.
    The configuration names one custom server, its lines are the template's
    lines whatever the upstream was, the stamp on its line has no quote or
    line break in it, passes the same validation as a stamp, denotes the URL's
    host and path to the decoder, and holds the address and port when the host
    is an address.  Host and path are at most 127 bytes, the longest field of
    a stamp. *)
Theorem url_upstream_roundtrip parse nets lookup cfg u (s := TrimSpace (DNSConfig_DoHUpstream (Config_DNS cfg))) :
  HasPrefix s "https://" = true -> ValidateUpstream parse nets lookup (DNSConfig_DoHUpstream (Config_DNS cfg)) = Ok tt ->
  parse s = Ok u -> len (u_Hostname u) <= 127 -> len (u_Path u) <= 127 ->
  exists stamp raw, let d := mkDohData ["lankeeper-custom"] [mkCustom "lankeeper-custom" stamp] in
    buildTemplateData parse cfg = d
    /\ split_byte lf (toml d) = toml_lines d ++ [""] /\ has_char "'" stamp = false
    /\ ValidateUpstream parse nets lookup stamp = Ok tt
    /\ parseSDNSEndpoint stamp = Ok (u_Hostname u, u_Path u)
    /\ stamp_bytes stamp = Some raw /\ doh_stamp raw (url_address u) (u_Hostname u) (u_Path u).
Proof.
  intros Hpre Hv Hu Hlh Hlp. apply ValidateUpstream_iff in Hv. fold s in Hv.
  assert (Hb : IsBuiltInDoHResolver s = false).
  { apply HasPrefix_true in Hpre as [t ->]. done. }
  destruct Hv as [r Hr E|u' _ Hu' Hsc Hh Hp _ Hport Hpub|raw ? ? ? Hsd].
  { exfalso. enough (IsBuiltInDoHResolver s = true) by congruence. apply existsb_exists. exists r. split; [done|]. by apply String.eqb_eq. }
  2: { apply HasPrefix_true in Hpre as [t Hs]. rewrite Hs in Hsd. done. }
  assert (u' = u) as -> by congruence.
  destruct (httpsURLToStamp_stamp parse s u Hu Hsc Hh Hp Hport Hlh Hlp) as (raw & Est & Hpro & Hd).
  pose proof (stamp_plain raw) as Hpl. pose proof (stamp_bytes_encode raw) as Hsb.
  exists ("sdns://" +:+ rawurl_encode raw), raw. cbv zeta. split_and!; try done.
  - unfold buildTemplateData. fold s. rewrite Hb, Hpre, Est. destruct (String.eqb_spec s "") as [->|]; done.
  - by apply custom_lines, stamp_avoids.
  - by apply stamp_avoids.
  - apply ValidateUpstream_iff. rewrite TrimSpace_plain by done.
    apply (acc_stamp _ _ _ _ raw (url_address u) (u_Hostname u) (u_Path u)); try done; [by left|]. by rewrite (path_slash _ Hp).
  - unfold parseSDNSEndpoint. rewrite Hsb. apply decode_iff. exists (url_address u), (u_Path u). split; [done|].
    by rewrite (path_slash _ Hp).
Qed.

(** DoH is turned on only with an upstream that may be used.  A request for
    it is carried as far as saving exactly when the upstream is a catalogue
    name, a well-formed https URL on an allowed port, or a stamp of the wire
    format, whose host stands for public addresses only; any other one is
    answered with 400, changes nothing and makes no call.  No other request
    turns DoH on, and none leaves it on together with DoT. *)
Theorem doh_upstream_guarded parse nets lookup execute r w s
  (m := HandleSaveDoT parse nets lookup execute true r)
  (up := TrimSpace (hq_form r "doh_upstream")) (next := Config_DNS (dn_cfg (state_after m w s))) :
  (hq_parse r = Ok tt -> hq_form r "encryption_mode" = "doh" ->
     (acceptable parse nets lookup (TrimSpace up) ->
        exists dot t, let s' := with_dns (dns_settings false dot true up) s in
          state_after m w s = s' /\ calls_of m w s = CSave (dn_cfg s') :: t)
     /\ (~ acceptable parse nets lookup (TrimSpace up) ->
           hstatus (outcome m w s) = 400 /\ state_after m w s = s /\ calls_of m w s = []))
  /\ (state_after m w s = s
      \/ DNSConfig_EnableDoH next && DNSConfig_EnableDoT next = false
         /\ (DNSConfig_EnableDoH next = true ->
             hq_form r "encryption_mode" = "doh" /\ acceptable parse nets lookup (TrimSpace up))).
Proof.
  subst next. split.
  - intros Hp Hm. rewrite <- ValidateUpstream_iff. unfold state_after, calls_of, outcome. subst m.
    unfold HandleSaveDoT. rewrite Hp, Hm. cbn [is_ok negb]. cbv zeta. fold up.
    unfold encryptionMode. cbn [String.eqb Ascii.eqb Bool.eqb andb]. destruct (String.eqb_spec up "") as [E|_].
    { rewrite E. split; [intros H; vm_compute in H; discriminate H|]. intros _. split_and!; reflexivity. }
    destruct (ValidateUpstream parse nets lookup up) as [[]|e]; cbn [nonempty String.eqb negb];
      [|split; [done|]; intros _; split_and!; reflexivity].
    split; [intros _|done]. exists (TrimSpace (hq_form r "dot_upstream")). unfold mbind, svc_bind.
    destruct (dns_settings_checked nets lookup false (TrimSpace (hq_form r "dot_upstream")) true up w [] s) as [(e & E)|(E & _)]; [done|].
    rewrite E. destruct (discard _); [|exists []; split; reflexivity].
    match goal with |- context [applyDNSPlane ?on ?a ?b w ?h ?s'] =>
      destruct (applies_keep_state parse execute true on w h s') as [Hs (t & Ht)];
      destruct (applyDNSPlane on a b w h s') as [[[] s2] h2] end. cbn in Hs, Ht |- *. subst. by exists t.
  - destruct (HandleSaveDoT_run parse nets lookup execute true r w s) as [(resp & _ & E)|(on_dot & dot & on & Hx & Hon & E)].
    { left. unfold state_after, m. by rewrite E. }
    right. assert (Hs : state_after m w s = with_dns (dns_settings on_dot dot on up) s).
    { unfold state_after, m. rewrite E. destruct (w [] _); [|done].
      match goal with |- context [applyDNSPlane ?on ?a ?b w ?h ?s'] =>
        destruct (applies_keep_state parse execute true on w h s') as [Hs _];
        destruct (applyDNSPlane on a b w h s') as [[[] s2] h2] end. exact Hs. }
    rewrite Hs. split; [exact Hx|]. intros H. destruct (Hon H) as [Hm Hv]. split; [done|]. by apply ValidateUpstream_iff, Hv.
Qed.

(** Switching DNS over HTTPS on or off never leaves Unbound forwarding to a
    proxy that is not running: at every point between two calls of the
    handler, and at the end both daemons are as the saved settings ask.  The
    commands themselves are assumed to succeed, and Unbound to forward to the
    proxy exactly when the template was told so. *)
Theorem dns_daemons_ordered parse nets lookup execute forwards r w s p
  (m := HandleSaveDoT parse nets lookup execute true r) (tr := plane_trace forwards w [] (calls_of m w s) p) :
  daemons_obey w -> (forall d, exists text, execute d = Ok text /\ forwards text = ub_EnableDoH d) -> served p ->
  Forall served tr
  /\ (accepted (outcome m w s) = true ->
      let on := DNSConfig_EnableDoH (Config_DNS (dn_cfg (state_after m w s))) in List.last tr p = mkPlane on on on).
Proof.
  intros Hw Hex Hp. subst tr m. unfold calls_of, outcome, state_after.
  destruct (HandleSaveDoT_run parse nets lookup execute true r w s) as [(resp & Ha & E)|(on_dot & dot & on & Hx & _ & E)].
  { rewrite E. cbn. split; [by repeat constructor|]. by rewrite Ha. }
  rewrite E. clear E. set (s' := with_dns _ s). destruct (Hex (unboundData (dn_cfg s'))) as (text & He & Hf).
  destruct (w [] (CSave (dn_cfg s'))) as [o|e] eqn:Es.
  - pose proof (applyDNSPlane_run parse execute text w [CSave (dn_cfg s')] s' Hw He) as Er. cbv zeta in Er.
    change (DNSConfig_EnableDoH (Config_DNS (dn_cfg s'))) with on in Er. rewrite Er.
    cbn [fst snd app]. rewrite plane_trace_idle by done.
    destruct (plane_sequence parse forwards w ([] ++ [CSave (dn_cfg s')]) s' text p Hw Hp) as [HF HL].
    { rewrite Hf. change (on && negb on_dot = on). by destruct on, on_dot. }
    split; [by constructor|]. intros _. refine (eq_trans _ HL). by destruct (plane_trace _ _ _ _ _).
  - cbn [fst snd]. rewrite plane_trace_idle by done. cbn. split; [by repeat constructor|done].
Qed.

(** ** Behaviours worth knowing *)

(** Behind the agent the proxy's configuration is never applied: creating its
    directory is refused, and the restart is not reached. *)
Lemma doh_apply_refused parse w s : behind_agent w ->
  is_ok (outcome (doh_ApplyConfig parse) w s) = false
  /\ Forall (fun c => match c with CRun _ _ _ => False | _ => True end) (calls_of (doh_ApplyConfig parse) w s).
Proof.
  intros Hw. assert (Hd : forall h, exists e, w h (CMkdirAll "/etc/dnscrypt-proxy" 493) = Err e).
  { intros h. specialize (Hw h (CMkdirAll "/etc/dnscrypt-proxy" 493) ltac:(vm_compute; reflexivity)).
    destruct (w h _) as [|e]; [done|by exists e]. }
  unfold outcome, calls_of, doh_ApplyConfig, doh_RenderToDisk, doh_RenderConfig, try_bind, wrapping, MkdirAll, LocalCall.
  unfold mbind, svc_bind, mret, svc_ret, get, perform.
  destruct (w [] _) as [o|e]; cbn [wrap_err]; [|by repeat constructor].
  match goal with |- context [w ?h (CMkdirAll "/etc/dnscrypt-proxy" 493)] => destruct (Hd h) as [e ->] end.
  cbn. by repeat constructor.
Qed.

(** A machine that does what the agent lets through. *)
Definition through_agent : world := fun _ c => if allowedb c then Ok "" else Err (Errorf "not allowed" []).

Lemma through_agent_behind : behind_agent through_agent.
Proof. intros h c H. unfold through_agent. by rewrite H. Qed.

Definition dns_form (fields : list (string * string)) : hreq :=
  mkHreq (Ok tt) (fun k => match List.find (fun p => String.eqb (fst p) k) fields with Some p => snd p | None => "" end)
    (fun _ => "") "".

(** The end of unbound.conf.tmpl, as far as the proxy is concerned. *)
Definition forward_zone (d : unboundTemplateData) : result string := Ok (if ub_EnableDoH d then "forward-addr: 127.0.0.1@5353" else "").
Definition no_urls (s : string) : result url := Err (Errorf "no URLs" []).
Definition no_names (s : string) : result (list IP) := Err (Errorf "no such host" []).

(** So choosing DoH leaves Unbound forwarding to a proxy that was not started. *)
Example enabling_doh_leaves_dead_port :
  let m := HandleSaveDoT no_urls (Ok []) no_names forward_zone true
             (dns_form [("encryption_mode", "doh"); ("doh_upstream", "cloudflare")]) in
  let s := NewDNSService Config_zero in
  hstatus (outcome m through_agent s) = 303
  /\ List.last (plane_trace nonempty through_agent [] (calls_of m through_agent s) (mkPlane false false false)) (mkPlane false false false)
     = mkPlane true true false.
Proof. vm_compute. by split. Qed.

Definition stamp_of (addr host path : string) : string :=
  char_str "002" +:+ eight_zeros +:+ writeLP addr +:+ char_str "000" +:+ writeLP host +:+ writeLP path.

(** The address in a stamp, which is what the proxy connects to, is not looked
    at: this one is on the local network. *)
Example stamp_address_unguarded :
  ValidateUpstream no_urls (Ok []) no_names ("sdns://" +:+ rawurl_encode (stamp_of "192.168.1.1:443" "1.1.1.1" "/dns-query")) = Ok tt.
Proof. vm_compute. reflexivity. Qed.

(** Line breaks inside a stamp are skipped by the decoder and end up in the
    configuration file, in the middle of a string. *)
Example stamp_line_break_accepted :
  let stamp := "sdns://AgAA" +:+ nl +:+ substring 4 100 (rawurl_encode (stamp_of "" "1.1.1.1" "/dns-query")) in
  ValidateUpstream no_urls (Ok []) no_names stamp = Ok tt
  /\ let d := buildTemplateData no_urls (set_Config_DNS (set_DNSConfig_DoHUpstream stamp (Config_DNS Config_zero)) Config_zero) in
     In "  stamp = 'sdns://AgAA" (split_byte lf (toml d)).
Proof. vm_compute. split; [reflexivity|]. repeat (try (left; reflexivity); right). Qed.

(** A host longer than a field passes the pattern and is cut in the stamp, and
    the port of a host that is not an address is dropped. *)
Definition one_url (u : url) (s : string) : result url := Ok u.
Definition resolves (s : string) : result (list IP) := Ok [[1; 1; 1; 1]].
Definition long_host : string := String.concat "." (repeat "abcdefghi" 14).

Example long_host_truncated :
  let parse := one_url (mkUrl "https" long_host "" "/dns-query") in
  ValidateUpstream parse (Ok []) resolves "https://long/dns-query" = Ok tt
  /\ (let? s := httpsURLToStamp parse "https://long/dns-query" in parseSDNSEndpoint s) = Ok (substring 0 127 long_host, "/dns-query")
  /\ String.length long_host = 139%nat.
Proof. vm_compute. by split. Qed.

Lemma named_host_port_dropped h p p' s : ParseIP h = None ->
  httpsURLToStamp (one_url (mkUrl "https" h p "/dns-query")) s = httpsURLToStamp (one_url (mkUrl "https" h p' "/dns-query")) s.
Proof. intros H. unfold httpsURLToStamp, one_url. cbn [result_bind u_Scheme u_Hostname u_Port u_Path]. by rewrite H. Qed.

(** The probe of a stamp whose host is an IPv6 address asks for a URL without
    brackets. *)
Example ipv6_stamp_probe_url :
  dohProbeEndpoint no_urls (Ok []) no_names ("sdns://" +:+ rawurl_encode (stamp_of "" "2606:4700::1111" "/dns-query"))
  = Ok "https://2606:4700::1111/dns-query".
Proof. vm_compute. reflexivity. Qed.

(** With DoH off the upstream is stored and rendered unchecked. *)
Example plain_mode_upstream_unchecked :
  let m := HandleSaveDoT no_urls (Ok []) no_names forward_zone true
             (dns_form [("encryption_mode", "plain"); ("doh_upstream", "x'" +:+ nl +:+ "use_syslog = true #")]) in
  let w := (fun _ _ => Ok "") : world in
  hstatus (outcome m w (NewDNSService Config_zero)) = 303
  /\ In "use_syslog = true #'" (split_byte lf (toml (buildTemplateData no_urls (dn_cfg (state_after m w (NewDNSService Config_zero)))))).
Proof. vm_compute. split; [reflexivity|]. repeat (try (left; reflexivity); right). Qed.

(** ** The record handlers *)

(** Adding and deleting records keeps the list without duplicate names and
    within its maximum, and makes only calls the agent lets through. *)
Lemma record_handlers_keep unicode_fold execute r :
  keeps allowed (dns_ok unicode_fold) (HandleAddRecord execute unicode_fold r)
  /\ keeps allowed (dns_ok unicode_fold) (HandleDeleteRecord execute r).
Proof.
  assert (Hs : forall f s, dns_ok unicode_fold (with_dns f s) -> forall w h,
    dns_ok unicode_fold (snd (fst (save_dns f w h s))) /\ exists t, snd (save_dns f w h s) = h ++ t /\ Forall allowed t).
  { intros f s Hf w h. rewrite save_dns_run. split; [exact Hf|]. eexists. split; [done|]. by repeat constructor. }
  split.
  - unfold HandleAddRecord. walk; try apply ApplyConfig_allowed. intros w h s Hok.
    match goal with |- context [AddStaticRecord unicode_fold ?rec w h s] =>
      destruct (AddStaticRecord_run unicode_fold rec w h s) as [[Ha ->]|(_ & e & ->)] end.
    + by apply Hs, add_record_dns_ok.
    + split; [done|]. exists []. split; [by rewrite app_nil_r|constructor].
  - unfold HandleDeleteRecord. walk; try apply ApplyConfig_allowed. intros w h s Hok.
    match goal with |- context [RemoveStaticRecord ?i w h s] =>
      destruct (RemoveStaticRecord_run i w h s) as [[Ha ->]|(_ & e & ->)] end.
    + by apply Hs, del_record_dns_ok.
    + split; [done|]. exists []. split; [by rewrite app_nil_r|constructor].
Qed.

Lemma log_handlers_allowed parse fetch r :
  keeps allowed (fun _ => True) (HandleClearLog r) /\ keeps allowed (fun _ => True) (HandleUpdateBlocklist parse fetch r).
Proof.
  split; [unfold HandleClearLog, answer; walk; by apply ClearQueryLog_allowed|].
  unfold HandleUpdateBlocklist. walk. by apply UpdateBlocklist_allowed.
Qed.

(** What a probe reports cannot open or close markup. *)
Lemma EscapeString_inert s c : In c ["<"; ">"; "'"; dquote]%char -> has_char c (EscapeString s) = false.
Proof.
  intros Hc. induction s as [|a s IH]; [done|]. cbn [EscapeString]. rewrite has_char_append, IH, orb_false_r.
  apply negb_true_iff. cbn in Hc.
  repeat destruct Hc as [<-|Hc]; try done;
    match goal with |- negb (has_char ?c _) = true =>
      apply (ascii_forall (fun a => negb (has_char c (escape_char a)))); vm_compute; reflexivity end.
Qed.

(** ** Witnesses *)

Definition with_upstream (up : string) : Config :=
  set_Config_DNS (set_DNSConfig_DoHUpstream up (Config_DNS Config_zero)) Config_zero.

Definition example_url : string -> result url := one_url (mkUrl "https" "dns.example.net" "8443" "/dns-query").

Lemma url_upstream_roundtrip_witness :
  exists stamp, buildTemplateData example_url (with_upstream " https://dns.example.net:8443/dns-query")
    = mkDohData ["lankeeper-custom"] [mkCustom "lankeeper-custom" stamp]
    /\ parseSDNSEndpoint stamp = Ok ("dns.example.net", "/dns-query").
Proof.
  destruct (url_upstream_roundtrip example_url (Ok []) resolves (with_upstream " https://dns.example.net:8443/dns-query")
    (mkUrl "https" "dns.example.net" "8443" "/dns-query") ltac:(vm_compute; reflexivity) ltac:(vm_compute; reflexivity)
    ltac:(reflexivity) ltac:(vm_compute; discriminate) ltac:(vm_compute; discriminate)) as (stamp & raw & H1 & _ & _ & _ & H2 & _).
  exists stamp. by split.
Defined.

Lemma doh_upstream_guarded_witness :
  let m up := HandleSaveDoT example_url (Ok []) resolves forward_zone true (dns_form [("encryption_mode", "doh"); ("doh_upstream", up)]) in
  let w := (fun _ _ => Ok "") : world in
  let s := NewDNSService Config_zero in
  DNSConfig_EnableDoH (Config_DNS (dn_cfg (state_after (m "https://dns.example.net:8443/dns-query") w s))) = true
  /\ hstatus (outcome (m "http://dns.example.net/") w s) = 400.
Proof.
  intros m w s. split.
  - destruct (proj1 (proj1 (doh_upstream_guarded example_url (Ok []) resolves forward_zone
      (dns_form [("encryption_mode", "doh"); ("doh_upstream", "https://dns.example.net:8443/dns-query")]) w s) eq_refl eq_refl))
      as (dot & t & E & _).
    + apply ValidateUpstream_iff. vm_compute. reflexivity.
    + unfold m. rewrite E. reflexivity.
  - apply (proj2 (proj1 (doh_upstream_guarded example_url (Ok []) resolves forward_zone
      (dns_form [("encryption_mode", "doh"); ("doh_upstream", "http://dns.example.net/")]) w s) eq_refl eq_refl)).
    rewrite <- ValidateUpstream_iff. vm_compute. discriminate.
Defined.

Lemma dns_daemons_ordered_witness :
  let m mode := HandleSaveDoT no_urls (Ok []) no_names forward_zone true
             (dns_form [("encryption_mode", mode); ("doh_upstream", "cloudflare")]) in
  let w := (fun _ _ => Ok "") : world in
  let s := NewDNSService Config_zero in
  let s1 := state_after (m "doh") w s in
  Forall served (plane_trace nonempty w [] (calls_of (m "doh") w s) (mkPlane false false false))
  /\ List.last (plane_trace nonempty w [] (calls_of (m "plain") w s1) (mkPlane true true true)) (mkPlane true true true)
     = mkPlane false false false.
Proof.
  intros m w s s1. assert (Hw : daemons_obey w) by done.
  assert (Hf : forall d, exists text, forward_zone d = Ok text /\ nonempty text = ub_EnableDoH d).
  { intros d. eexists. split; [done|]. by destruct (ub_EnableDoH d). }
  split.
  - refine (proj1 (dns_daemons_ordered no_urls (Ok []) no_names forward_zone nonempty _ w s (mkPlane false false false) Hw Hf _)). done.
  - refine (proj2 (dns_daemons_ordered no_urls (Ok []) no_names forward_zone nonempty _ w s1 (mkPlane true true true) Hw Hf _) _); done.
Defined.
