(* ===== verification/Nas.v ===== *)
(** * internal/services/nas.go and internal/web/handlers/nas.go

    File shares and playlists: the edits of the share list, smb.conf with the
    Samba daemons, the playlist parser, and the sync that turns the entries of
    remote playlists into files below a media directory, on demand and on a
    schedule.  The template configs/sysconf/smb.conf.tmpl is translated as the
    lines it produces; HTTP responses, the parser of URLs, the order of a map
    and case mapping outside ASCII are parameters. *)

From S2P Require Import Prelude GoStrings GoPath GoTime Regex GoNet GoIP Encoding ConfigTypes Outbound Validate AgentRules FirewallRender.
From S2P Require Import Sys Dns Vpn VpnLink Schedule Update Respond Openvpn Doh.

Local Open Scope Z_scope.
Local Open Scope go_scope.
Local Open Scope sys_scope.

(** ** State *)

Record M3USyncStatus : Type := mkM3U { ms_Running : bool; ms_LastSync : Z; ms_TotalItems : Z; ms_Errors : Z }.

Record nas : Type := mkNas { na_cfg : Config; na_m3u : M3USyncStatus }.

Definition NewNASService (cfg : Config) : nas := mkNas cfg (mkM3U false zero_time 0 0).

Definition shares (s : nas) : list ShareConfig := NASConfig_Shares (Config_NAS (na_cfg s)).
Definition sources (s : nas) : list M3USourceConfig := NASConfig_M3USources (Config_NAS (na_cfg s)).
Definition set_shares (l : list ShareConfig) (c : Config) : Config := set_Config_NAS (set_NASConfig_Shares l (Config_NAS c)) c.

(** [persist] after the list is replaced. *)
Definition store_shares (l : list ShareConfig) : svc nas (result unit) :=
  s ← get;
  put (mkNas (set_shares l (na_cfg s)) (na_m3u s)) ;;
  SaveToFile (set_shares l (na_cfg s)).

Definition AddShare (share : ShareConfig) : svc nas (result unit) :=
  s ← get; store_shares (shares s ++ [share]).

Definition RemoveShare (name : string) : svc nas (result unit) :=
  s ← get;
  let i := index_of (fun sh => String.eqb (ShareConfig_Name sh) name) 0 (shares s) in
  if i <? 0 then mret (Err (Errorf "share %q not found" [name]))
  else store_shares (remove_at i (shares s)).

(** ** smb.conf *)

Definition nasShareNamePattern : regex :=
  let cls := RCls (fun a => is_alnum a || char_in "_-" a) in RSeq cls (rupto 63 cls).
Definition nasShareUserPattern : regex :=
  let cls := RCls (fun a => is_alnum a || char_in "_.-" a) in RSeq cls (rupto 63 cls).

Definition validateShare (sh : ShareConfig) : result unit :=
  guard! fail_if (negb (matchb nasShareNamePattern (ShareConfig_Name sh))) (Errorf "invalid share name" []) ;;
  guard! ValidateFilesystemPath (ShareConfig_Path sh) ;;
  match List.find (fun u => negb (matchb nasShareUserPattern u)) (ShareConfig_ValidUsers sh) with
  | Some u => Err (Errorf "invalid user %q" [u])
  | None => Ok tt
  end.

Definition safeShares (l : list ShareConfig) : list ShareConfig := List.filter (fun sh => is_ok (validateShare sh)) l.

Definition address_text (cidr : string) : option string :=
  match ParseCIDR (TrimSpace cidr) with
  | None => None
  | Some (ip, subnet) => Some (IP_String ip +:+ "/" +:+ itoa (fst (Mask_Size (net_mask subnet))))
  end.

Definition routerLANAddresses (cfg : Config) : list string :=
  omap address_text
    (List.map InterfaceConfig_Address (List.filter (role_is "lan") (Config_Interfaces cfg))
     ++ List.map VLANConfig_Address (Config_VLANs cfg)).

(** The lines of the template. *)
Definition global_lines (addresses subnets : list string) : list string :=
  ["[global]"; "workgroup = WORKGROUP"; "server string = LANKeeper NAS"; "server role = standalone server";
   "log file = /var/log/samba/log.%m"; "max log size = 1000"; "logging = file";
   "panic action = /usr/share/samba/panic-action %d"; "server role = standalone server"; "obey pam restrictions = yes";
   "unix password sync = yes"; "passwd program = /usr/bin/passwd %u";
   "passwd chat = *Enter\snew\s*\spassword:* %n\n *Retype\snew\s*\spassword:* %n\n *password\supdated\ssuccessfully* .";
   "pam password change = yes"; "map to guest = bad user"; "usershare allow guests = yes";
   "# Listen only on the router's LAN and VLAN addresses and admit only the";
   "# networks it serves, so Samba never depends on the firewall to stay off"; "# the WAN.";
   "interfaces = " +:+ join " " ("127.0.0.1/8" :: addresses); "bind interfaces only = yes";
   "hosts allow = " +:+ join " " ("127.0.0.1" :: subnets); "hosts deny = ALL"; ""].

Definition share_lines (sh : ShareConfig) : list string :=
  [""; "[" +:+ ShareConfig_Name sh +:+ "]"; "    path = " +:+ ShareConfig_Path sh; "    browseable = yes"]
  ++ (if ShareConfig_GuestOK sh then ["    guest ok = yes"; "    public = yes"] else ["    guest ok = no"])
  ++ [if ShareConfig_ReadOnly sh then "    read only = yes" else "    read only = no"]
  ++ (match ShareConfig_ValidUsers sh with [] => [] | us => ["    valid users = " +:+ join ", " us] end)
  ++ ["    create mask = 0664"; "    directory mask = 0775"].

Definition smb_lines (cfg : Config) : list string :=
  global_lines (routerLANAddresses cfg) (servedClientSubnets cfg)
  ++ List.flat_map share_lines (safeShares (NASConfig_Shares (Config_NAS cfg))) ++ [""].

Definition smb_text (cfg : Config) : string := join nl (smb_lines cfg) +:+ nl.

Definition nas_RenderConfig : svc nas (result string) :=
  try! _ := wrapping "parse smb template: %w" [] (LocalCall "template.ParseFiles" ["configs/sysconf/smb.conf.tmpl"]) in
  s ← get; mret (Ok (smb_text (na_cfg s))).

Definition nas_RenderToDisk : svc nas (result unit) :=
  try! rendered := nas_RenderConfig in
  wrapping "write smb.conf: %w" [] (WriteFile "/etc/samba/smb.conf" rendered 420).

Definition sambaUnits : list string := ["smbd"; "nmbd"].

Definition nas_ApplyConfig : svc nas (result unit) :=
  try! _ := nas_RenderToDisk in
  s ← get;
  let shares := safeShares (shares s) in
  let none := match shares with [] => true | _ => false end in
  let verb := if none then "disable" else "enable" in
  try! _ := for_try sambaUnits (fun unit =>
              try! _ := wrapping "%s %s: %w" [verb; unit] (Run "systemctl" [verb; "--now"; unit]) in mret (Ok tt)) in
  if none then mret (Ok tt)
  else try! _ := wrapping "reload samba: %w" [] (Run "smbcontrol" ["all"; "reload-config"]) in mret (Ok tt).

(** ** Media paths *)

Definition ErrMediaPathCharacters : error := Errorf "path contains characters that are not allowed" [].
Definition ErrMediaPathPrefix : error := Errorf "path must live under /srv/ or /mnt/" [].

Section Nas.
(** The text of an error. *)
Variable Error_text : error -> string.

Definition ValidateMediaPath (raw : string) : result string :=
  match ValidateFilesystemPath raw with
  | Err e => Err (Errorw "%w: %v" [Error_text e] ErrMediaPathCharacters)
  | Ok _ =>
      let clean := Clean raw in
      if negb (HasPrefix clean "/srv/") && negb (HasPrefix clean "/mnt/")
      then Err (Errorw "%w: %s" [clean] ErrMediaPathPrefix)
      else Ok clean
  end.

Definition replace_char (a : ascii) : ascii := if char_in ("/\:*?<>|" +:+ char_str dquote) a then "_"%char else a.

Definition sanitizePath (s : string) : string :=
  let out := TrimSpace (smap replace_char s) in
  if String.eqb out "" || String.eqb (Trim out ".") "" then "_" else out.

Definition containedJoin (base component : string) : result string :=
  let root := Clean base in
  let joined := Join [root; component] in
  if negb (String.eqb joined root) && negb (HasPrefix joined (root +:+ sep_str))
  then Err (Errorf "path %q escapes %s" [component; root])
  else Ok joined.

(** ** Playlists *)

Record M3UItem : Type := mkItem { it_Group : string; it_Title : string; it_URL : string }.

Record m3uParser : Type := mkParser { mp_items : list M3UItem; mp_group : string; mp_title : string }.

(** [strings.Cut]. *)
Fixpoint Cut (s sep : string) : option (string * string) :=
  match drop_prefix sep s with
  | Some after => Some ("", after)
  | None => match s with
            | "" => None
            | String a r => match Cut r sep with Some (before, after) => Some (String a before, after) | None => None end
            end
  end.

Definition group_title : string := "group-title=" +:+ char_str dquote.

Definition readInfo (info : string) (p : m3uParser) : m3uParser :=
  let group := match Cut info group_title with
    | Some (_, after) => match cut_byte dquote after with Some (before, _) => before | None => mp_group p end
    | None => mp_group p
    end in
  let title := match cut_last "," info with Some (_, t) => TrimSpace t | None => mp_title p end in
  mkParser (mp_items p) group title.

Definition feed (p : m3uParser) (line : string) : m3uParser :=
  let line := TrimSpace line in
  match CutPrefix line "#EXTINF:" with
  | (info, true) => readInfo info p
  | (_, false) =>
      if String.eqb line "" || HasPrefix line "#" then p
      else mkParser (mp_items p ++ [mkItem (orDefault (mp_group p) "Ungrouped") (orDefault (mp_title p) "Unknown") line]) "" ""
  end.

Definition empty_parser : m3uParser := mkParser [] "" "".

Definition ParseM3UData (data : string) : list M3UItem := mp_items (foldl feed empty_parser (split_byte lf data)).

(** The URL parser and the HTTP client. *)
Variable url_parse : string -> result (string * string).
Variable fetch : string -> result response.

Definition downloadAndParseM3U (url : string) : result (list M3UItem) :=
  guard! validateOutboundURL url_parse url ;;
  let? (body, rderr) := fetch url in
  let '(data, over) := limitedBody body in
  guard! fail_if (existsb (fun l => MaxScanTokenSize <=? len l) (scanned_lines data)) ErrTooLong ;;
  match rderr with
  | Some e => Err e
  | None =>
      if over then Err errFetchTooLarge
      else Ok (mp_items (foldl feed empty_parser (List.map (fun l => TrimSuffix l (char_str "013")) (scanned_lines data))))
  end.

(** Case mapping outside ASCII. *)
Variable unicode_lower : string -> string.

Definition filterM3UItems (items : list M3UItem) (includeGroups excludeGroups : list string) : list M3UItem :=
  match includeGroups, excludeGroups with
  | [], [] => items
  | _, _ =>
      let lower := List.map (ToLower unicode_lower) in
      List.filter (fun item =>
        let g := ToLower unicode_lower (it_Group item) in
        negb (mem g (lower excludeGroups))
        && (match includeGroups with [] => true | _ => mem g (lower includeGroups) end)) items
  end.

(** ** The sync *)

(** What the process does to its own files. *)
Definition os_MkdirAll (path : string) : svc nas (result string) := LocalCall "os.MkdirAll" [path; "0755"].
Definition os_WriteFile (path content : string) : svc nas (result string) := LocalCall "os.WriteFile" [path; content; "0644"].

Definition writeStrm (downloadPath sourceURL : string) (item : M3UItem) : svc nas (result unit) :=
  match wrap_err "rejected group from %s: %w" [sourceURL] (containedJoin downloadPath (sanitizePath (it_Group item))) with
  | Err e => mret (Err e)
  | Ok groupDir =>
      try! _ := wrapping "mkdir %s: %w" [groupDir] (os_MkdirAll groupDir) in
      match wrap_err "rejected title from %s: %w" [sourceURL] (containedJoin groupDir (sanitizePath (it_Title item) +:+ ".strm")) with
      | Err e => mret (Err e)
      | Ok strmPath => r ← os_WriteFile strmPath (it_URL item +:+ nl); mret (discard r)
      end
  end.

(** The loop over the items: how many were written and how many failed. *)
Fixpoint write_items (downloadPath sourceURL : string) (l : list M3UItem) (items errs : Z) : svc nas (Z * Z) :=
  match l with
  | [] => mret (items, errs)
  | item :: l =>
      r ← writeStrm downloadPath sourceURL item;
      match r with
      | Ok _ => write_items downloadPath sourceURL l (items + 1) errs
      | Err _ => write_items downloadPath sourceURL l items (errs + 1)
      end
  end.

Definition syncM3USource (source : M3USourceConfig) : svc nas (Z * Z) :=
  match ValidateMediaPath (M3USourceConfig_DownloadPath source) with
  | Err _ => mret (0, 1)
  | Ok downloadPath =>
      match downloadAndParseM3U (M3USourceConfig_URL source) with
      | Err _ => mret (0, 1)
      | Ok list =>
          let filtered := filterM3UItems list (M3USourceConfig_IncludeGroups source) (M3USourceConfig_ExcludeGroups source) in
          m ← os_MkdirAll downloadPath;
          match m with
          | Err _ => mret (0, 0)
          | Ok _ => write_items downloadPath (M3USourceConfig_URL source) filtered 0 0
          end
      end
  end.

Fixpoint sync_all (l : list M3USourceConfig) (totalItems totalErrors : Z) : svc nas (Z * Z) :=
  match l with
  | [] => mret (totalItems, totalErrors)
  | source :: l => '(items, errs) ← syncM3USource source; sync_all l (totalItems + items) (totalErrors + errs)
  end.

Definition ErrM3USyncRunning : error := Errorf "an M3U sync is already running" [].

Definition set_m3u (m : M3USyncStatus) (s : nas) : nas := mkNas (na_cfg s) m.
Definition set_running (b : bool) (m : M3USyncStatus) : M3USyncStatus :=
  mkM3U b (ms_LastSync m) (ms_TotalItems m) (ms_Errors m).

(** [now] is the time at the end of the run. *)
Definition syncSources (now : Z) (l : list M3USourceConfig) : svc nas (result unit) :=
  s ← get;
  if ms_Running (na_m3u s) then mret (Err ErrM3USyncRunning)
  else
    put (set_m3u (set_running true (na_m3u s)) s) ;;
    '(totalItems, totalErrors) ← sync_all l 0 0;
    s ← get;
    put (set_m3u (mkM3U false now totalItems totalErrors) s) ;;
    mret (Ok tt).

Definition SyncM3U (now : Z) : svc nas (result unit) := s ← get; syncSources now (sources s).

(** ** The schedule *)

Definition source_key (src : M3USourceConfig) : string :=
  M3USourceConfig_URL src +:+ "|" +:+ M3USourceConfig_DownloadPath src +:+ "|" +:+ M3USourceConfig_Schedule src.

(** [time.Local], and the location of the ticker's times. *)
Variables (local here : location).

Definition m3uSourceTick (now : Z) (src : M3USourceConfig) (key : string) (next : gmap string Z)
  : svc nas (Schedule.outcome (gmap string Z)) :=
  match ParseSchedule local (M3USourceConfig_Schedule src) (Some local) with
  | Panics w => mret (Panics w)
  | Returns (Err _) => mret (Returns (match next !! key with Some _ => next | None => <[key := zero_time]> next end))
  | Returns (Ok sched) =>
      match next !! key with
      | None => mret (Returns (<[key := Next here sched now]> next))
      | Some at_ =>
          if IsZero at_ then mret (Returns (<[key := Next here sched now]> next))
          else if now <? at_ then mret (Returns next)
          else syncSources now [src] ;; mret (Returns (<[key := Next here sched now]> next))
      end
  end.

Fixpoint tick_sources (now : Z) (l : list M3USourceConfig) (next : gmap string Z) : svc nas (Schedule.outcome (gmap string Z)) :=
  match l with
  | [] => mret (Returns next)
  | src :: l =>
      if String.eqb (M3USourceConfig_Schedule src) "" then tick_sources now l next
      else
        n ← m3uSourceTick now src (source_key src) next;
        match n with Returns next => tick_sources now l next | Panics w => mret (Panics w) end
  end.

Definition scheduled (l : list M3USourceConfig) : list M3USourceConfig :=
  List.filter (fun src => negb (String.eqb (M3USourceConfig_Schedule src) "")) l.

Definition m3uScheduleTick (now : Z) (next : gmap string Z) : svc nas (Schedule.outcome (gmap string Z)) :=
  s ← get;
  n ← tick_sources now (sources s) next;
  mret (match n with
        | Panics w => Panics w
        | Returns next => Returns (filter (fun kv => mem (fst kv) (List.map source_key (scheduled (sources s))) = true) next)
        end).

(** ** Groups *)

(** The keys of a set, in an order the runtime chooses. *)
Variable set_order : list string -> list string.

Definition DiscoverM3UGroups (sourceURL : string) : result (list string) :=
  let? items := downloadAndParseM3U sourceURL in
  Ok (sort_strings (set_order (dedupe [] (List.map it_Group items)))).

(** ** Handlers *)

Definition nasNamePattern : regex := rplus (RCls (fun a => is_alnum a || char_in "_-" a)).

Definition mediaPathErrorKey (e : error) : string :=
  if errors_Is e ErrMediaPathPrefix then "error.pathPrefix" else "error.pathCharacters".

Definition parseShareForm (r : hreq) : ShareConfig * string :=
  let name := hq_form r "name" in
  let rawPath := hq_form r "path" in
  let key := firstFailed
    [mkFormCheck (String.eqb name "") "error.nameRequired";
     mkFormCheck ((64 <? len name) || negb (matchb nasNamePattern name)) "error.invalidNameCharacters";
     mkFormCheck (String.eqb rawPath "") "error.pathRequired"] in
  if nonempty key then (ShareConfig_zero, key)
  else match ValidateMediaPath rawPath with
  | Err e => (ShareConfig_zero, mediaPathErrorKey e)
  | Ok path => (mkShareConfig name path (oneOf (hq_form r "guestOk") ["true"; "on"]) (oneOf (hq_form r "readOnly") ["true"; "on"]) [], "")
  end.

Definition HandleAddShare (r : hreq) : svc nas hresp :=
  if negb (is_ok (hq_parse r)) then mret (clientError StatusBadRequest "error.badForm")
  else
    let '(share, key) := parseShareForm r in
    if nonempty key then mret (clientError StatusBadRequest key)
    else
      a ← AddShare share;
      match a with
      | Err e => mret (serverError "error.saveFailed" e)
      | Ok _ => nas_ApplyConfig ;; mret (respondRefresh r "/nas")
      end.

Definition HandleDeleteShare (r : hreq) : svc nas hresp :=
  a ← RemoveShare (hq_path r "name");
  match a with
  | Err e => mret (fail StatusBadRequest e)
  | Ok _ => nas_ApplyConfig ;; mret (respondRefresh r "/nas")
  end.

(** The answer, and whether a run is started beside the handler. *)
Definition HandleSyncM3U (r : hreq) : svc nas (hresp * bool) :=
  s ← get;
  if ms_Running (na_m3u s) then mret (clientError StatusConflict "nas.m3uSyncRunning", false)
  else mret (respondTrigger r "m3uSyncStarted" "/nas", true).

Definition group_label (g : string) : string :=
  let q := char_str dquote in
  let escaped := EscapeString g in
  "<label style=" +:+ q +:+ "display:flex;align-items:center;gap:var(--space-xs);cursor:pointer;padding:var(--space-xs) 0;" +:+ q
  +:+ "><input type=" +:+ q +:+ "checkbox" +:+ q +:+ " name=" +:+ q +:+ "includeGroups" +:+ q +:+ " value=" +:+ q +:+ escaped +:+ q
  +:+ " checked> " +:+ escaped +:+ "</label>".

Definition HandleDiscoverGroups (r : hreq) : reply :=
  if negb (is_ok (hq_parse r)) then Plain (clientError StatusBadRequest "error.badForm")
  else
    let rawURL := hq_form r "url" in
    if String.eqb rawURL "" then Plain (clientError StatusBadRequest "error.urlRequired")
    else match url_parse rawURL with
    | Err _ => Plain (clientError StatusBadRequest "error.urlScheme")
    | Ok (scheme, _) =>
        if negb (String.eqb scheme "http") && negb (String.eqb scheme "https")
        then Plain (clientError StatusBadRequest "error.urlScheme")
        else match DiscoverM3UGroups rawURL with
             | Err e => Plain (fail StatusInternalServerError e)
             | Ok groups => Html (String.concat "" (List.map group_label groups))
             end
    end.

End Nas.

(** ** Lemmas: paths of the sync *)

Lemma has_char_infix c l m r : has_char c (l +:+ m +:+ r) = false -> has_char c m = false.
Proof. rewrite !has_char_append. intros H. bool_hyps. done. Qed.

Lemma TrimSpace_no_char c s : has_char c s = false -> has_char c (TrimSpace s) = false.
Proof. intros H. destruct (TrimSpace_infix s) as (l & r & E). rewrite E in H. by apply has_char_infix in H. Qed.

Lemma replace_no_sep s : has_char sep (smap replace_char s) = false.
Proof.
  induction s as [|a s IH]; [done|]. cbn [smap has_char]. rewrite IH, orb_false_r. apply negb_true_iff.
  apply (ascii_forall (fun a => negb (Ascii.eqb (replace_char a) sep))). vm_compute. reflexivity.
Qed.

(** Whatever a playlist says, a component is one name in its directory. *)
Lemma sanitizePath_good s : good_comp (sanitizePath s) = true.
Proof.
  unfold sanitizePath. set (out := TrimSpace (smap replace_char s)).
  assert (Hs : has_char sep out = false) by apply TrimSpace_no_char, replace_no_sep.
  destruct (String.eqb_spec out "") as [|Hne]; cbn [orb]; [done|].
  destruct (String.eqb_spec (Trim out ".") "") as [|Ht]; [done|].
  apply good_comp_spec. split_and!; [done|intros E; rewrite E in Ht; done..|done].
Qed.

Lemma sanitizePath_strm s : good_comp (sanitizePath s +:+ ".strm") = true.
Proof.
  pose proof (sanitizePath_good s) as H. apply good_comp_spec in H as (Hne & _ & _ & Hs). apply good_comp_spec.
  destruct (sanitizePath s) as [|a t]; [done|]. split_and!; try done.
  - destruct t; done.
  - destruct t as [|b t]; [done|]. by destruct t.
  - rewrite has_char_append, Hs. done.
Qed.

Lemma join_snoc sp (l : list string) c : l <> [] -> join sp (l ++ [c]) = join sp l +:+ sp +:+ c.
Proof.
  induction l as [|x l IH]; [done|]. intros _. destruct l as [|y l]; [done|].
  rewrite <- app_comm_cons, !join_cons by (try done; by destruct l). rewrite IH by done. by rewrite !append_assoc.
Qed.

Lemma containedJoin_good ds c : good_comps (ds ++ [c]) -> ds <> [] ->
  containedJoin (abs_path ds) c = Ok (abs_path (ds ++ [c])).
Proof.
  intros Hg Hne. pose proof Hg as Hg'. apply Forall_app in Hg' as [Hd _]. unfold containedJoin. rewrite Clean_abs_path by done.
  pose proof (Join_abs ds [c] Hg ltac:(done)) as Hj. change (join sep_str [c]) with c in Hj. rewrite Hj.
  assert (HasPrefix (abs_path (ds ++ [c])) (abs_path ds +:+ sep_str) = true) as ->; [|by rewrite andb_false_r].
  apply HasPrefix_true. exists c. unfold abs_path. rewrite join_snoc by done. by rewrite !append_assoc.
Qed.

(** Cleaning a relative path leaves it relative. *)
Lemma Clean_relative p : IsAbs p = false -> IsAbs (Clean p) = false.
Proof.
  intros Hp. unfold Clean. destruct (String.eqb p ""); [done|]. rewrite Hp.
  destruct (String.eqb (join sep_str (clean_comps p)) "") eqn:E; [done|].
  assert (Hf : Forall (fun c => c <> "" /\ has_char sep c = false) (clean_comps p)).
  { unfold clean_comps. rewrite Hp. apply Forall_reverse. pose proof (split_byte_no_sep sep p) as Hs. revert Hs.
    generalize (split_byte sep p) as cs. assert (Hn : Forall (fun c => c <> "" /\ has_char sep c = false) []) by constructor. revert Hn.
    generalize (@nil string) as out. intros out Hout cs. revert out Hout. induction cs as [|c cs IH]; intros out Hout Hcs; [done|].
    apply List.Forall_cons_iff in Hcs as [Hc Hcs]. cbn [foldl]. apply IH; [|done]. unfold clean_step.
    destruct (String.eqb_spec c ""); cbn [orb]; [done|]. destruct (String.eqb c "."); [done|].
    destruct (String.eqb c ".."); [|by constructor]. destruct out as [|d out]; [by repeat constructor|].
    destruct (String.eqb d ".."); [by constructor|]. by inversion Hout. }
  destruct (clean_comps p) as [|c cs]; [done|]. apply List.Forall_cons_iff in Hf as [[Hne Hs] _].
  destruct c as [|a c]; [done|]. rewrite join_cons_char. cbn [has_char] in Hs. apply orb_false_elim in Hs as [Ha _].
  change (match (if Ascii.eqb sep a then Some (join sep_str (c :: cs)) else None) with Some _ => true | None => false end = false).
  rewrite Ascii.eqb_sym, Ha. done.
Qed.

(** The components of a media path. *)
Definition media_dir (ds : list string) : Prop :=
  good_comps ds /\ exists root rest, ds = root :: rest /\ In root ["srv"; "mnt"] /\ rest <> [].

Lemma ValidateMediaPath_Ok text raw p : ValidateMediaPath text raw = Ok p -> exists ds, p = abs_path ds /\ media_dir ds.
Proof.
  unfold ValidateMediaPath. destruct (ValidateFilesystemPath raw); [|done]. cbv zeta.
  destruct (negb (HasPrefix (Clean raw) "/srv/") && _) eqn:E; [done|]. intros [= <-].
  assert (Ha : IsAbs raw = true).
  { destruct (IsAbs raw) eqn:Hr; [done|]. apply Clean_relative in Hr. exfalso.
    apply andb_false_iff in E as [E|E]; apply negb_false_iff in E; apply HasPrefix_true in E as [r E]; rewrite E in Hr; done. }
  destruct (Clean_IsAbs raw Ha) as (cs & Hg & Hc). exists cs. split; [done|]. split; [done|]. rewrite Hc in E.
  apply andb_false_iff in E as [E|E]; apply negb_false_iff in E.
  - destruct (abs_path_under cs ["srv"] Hg ltac:(by repeat constructor) E) as (es & Hne & ->). exists "srv", es. split; [done|].
    split; [by left|done].
  - destruct (abs_path_under cs ["mnt"] Hg ltac:(by repeat constructor) E) as (es & Hne & ->). exists "mnt", es. split; [done|].
    split; [by right; left|done].
Qed.

(** ** Lemmas: playlists *)

Definition one_line (url : string) : Prop := url <> "" /\ has_char lf url = false.

Lemma feed_one_line p line : has_char lf line = false -> Forall (fun it => one_line (it_URL it)) (mp_items p) ->
  Forall (fun it => one_line (it_URL it)) (mp_items (feed p line)).
Proof.
  intros Hl Hp. unfold feed. destruct (CutPrefix (TrimSpace line) "#EXTINF:") as [info []]; [done|].
  destruct (String.eqb_spec (TrimSpace line) "") as [|Hne]; cbn [orb]; [done|]. destruct (HasPrefix _ "#"); [done|].
  apply Forall_app. split; [done|]. constructor; [|constructor]. split; [done|]. by apply TrimSpace_no_char.
Qed.

Lemma feeds_one_line ls p : Forall (fun l => has_char lf l = false) ls -> Forall (fun it => one_line (it_URL it)) (mp_items p) ->
  Forall (fun it => one_line (it_URL it)) (mp_items (foldl feed p ls)).
Proof.
  revert p. induction ls as [|l ls IH]; intros p Hls Hp; [done|]. apply List.Forall_cons_iff in Hls as [Hl Hls].
  cbn [foldl]. apply IH; [done|]. by apply feed_one_line.
Qed.

Lemma removelast_Forall {A} (P : A -> Prop) l : Forall P l -> Forall P (removelast l).
Proof. induction 1 as [|x l Hx Hl IH]; [constructor|]. cbn. destruct l; [constructor|]. by constructor. Qed.

Lemma TrimSuffix_no_char c s p : has_char c s = false -> has_char c (TrimSuffix s p) = false.
Proof.
  unfold TrimSuffix. destruct (drop_suffix p s) as [h|] eqn:E; [|done]. cbn [default]. intros H.
  assert (s = h +:+ p) as ->.
  { clear H. revert h E. induction s as [|a s IH]; intros h; cbn [drop_suffix].
    - destruct (String.eqb_spec "" p) as [<-|]; [|done]. by intros [= <-].
    - destruct (String.eqb_spec (String a s) p) as [<-|]; [by intros [= <-]|].
      destruct (drop_suffix p s) as [h'|]; [|done]. intros [= <-]. cbn. by rewrite (IH h' eq_refl). }
  rewrite has_char_append in H. by bool_hyps.
Qed.

Lemma scanned_no_lf data : Forall (fun l => has_char lf l = false) (scanned_lines data).
Proof.
  unfold scanned_lines. pose proof (split_byte_no_sep lf data). destruct (String.eqb _ ""); [by apply removelast_Forall|done].
Qed.

Lemma download_one_line parse fetch url items :
  downloadAndParseM3U parse fetch url = Ok items -> Forall (fun it => one_line (it_URL it)) items.
Proof.
  unfold downloadAndParseM3U. intros H. inv_ok. destruct x0 as [body rderr]. destruct (limitedBody body) as [data over]. inv_ok.
  destruct rderr; [done|]. destruct over; [done|]. inv_ok. subst items. apply feeds_one_line; [|constructor].
  apply List.Forall_map, List.Forall_impl with (2 := scanned_no_lf data). intros l Hl. by apply TrimSuffix_no_char.
Qed.

Lemma filterM3UItems_Forall lower (P : M3UItem -> Prop) items inc exc : Forall P items -> Forall P (filterM3UItems lower items inc exc).
Proof.
  intros H. unfold filterM3UItems. assert (Hf : forall f, Forall P (List.filter f items)).
  { intros f. rewrite List.Forall_forall in *. intros x [Hx _]%filter_In. by apply H. }
  destruct inc, exc; try done; apply Hf.
Qed.

(** ** The sync stays below the media directories *)

Section Confined.
Context (text : error -> string) (parse : string -> result (string * string)) (fetch : string -> result response).
Context (lower : string -> string).

(** What the sync may do to the file system: the directory of a configured
    source and its direct subdirectories, and in those a file with one URL. *)
Definition below_source (srcs : list M3USourceConfig) (c : call) : Prop :=
  exists src ds, In src srcs /\ ValidateMediaPath text (M3USourceConfig_DownloadPath src) = Ok (abs_path ds) /\ media_dir ds
    /\ match c with
       | CLocal "os.MkdirAll" [p; _] => p = abs_path ds \/ exists g, good_comps (ds ++ [g]) /\ p = abs_path (ds ++ [g])
       | CLocal "os.WriteFile" [p; content; _] =>
           exists g t url, good_comps (ds ++ [g; t]) /\ p = abs_path (ds ++ [g; t]) /\ HasSuffix t ".strm" = true
             /\ content = url +:+ nl /\ one_line url
       | _ => False
       end.

Context (I : nas -> Prop) (HI : forall s m, I s -> I (set_m3u m s)).

Lemma writeStrm_confined srcs src ds item :
  In src srcs -> ValidateMediaPath text (M3USourceConfig_DownloadPath src) = Ok (abs_path ds) -> media_dir ds ->
  one_line (it_URL item) -> keeps (below_source srcs) I (writeStrm (abs_path ds) (M3USourceConfig_URL src) item).
Proof.
  intros Hin Hv Hm Hu. pose proof Hm as (Hg & root & rest & Hds & _). assert (ds <> []) as Hne by (by rewrite Hds).
  unfold writeStrm. assert (Hg1 : good_comps (ds ++ [sanitizePath (it_Group item)])).
  { apply Forall_app. split; [done|]. constructor; [apply sanitizePath_good|constructor]. }
  rewrite containedJoin_good by done. cbn [wrap_err]. apply keeps_try.
  { apply keeps_wrapping, keeps_LocalCall. exists src, ds. split_and!; try done. right. by eexists. }
  intros _. assert (Hg2 : good_comps ((ds ++ [sanitizePath (it_Group item)]) ++ [sanitizePath (it_Title item) +:+ ".strm"])).
  { apply Forall_app. split; [done|]. constructor; [apply sanitizePath_strm|constructor]. }
  rewrite containedJoin_good by (try done; by destruct ds). cbn [wrap_err].
  apply keeps_bind; [|intros r; apply keeps_ret]. apply keeps_LocalCall. exists src, ds. split_and!; try done.
  rewrite <- app_assoc in *. do 3 eexists. split_and!; [exact Hg2|done| |done|done..]. apply HasSuffix_true. by eexists.
Qed.

Lemma write_items_confined srcs src ds l : forall items errs,
  In src srcs -> ValidateMediaPath text (M3USourceConfig_DownloadPath src) = Ok (abs_path ds) -> media_dir ds ->
  Forall (fun it => one_line (it_URL it)) l ->
  keeps (below_source srcs) I (write_items (abs_path ds) (M3USourceConfig_URL src) l items errs).
Proof.
  induction l as [|it l IH]; intros items errs Hin Hv Hm Hl; cbn [write_items]; [apply keeps_ret|].
  apply List.Forall_cons_iff in Hl as [Hit Hl]. apply keeps_bind; [by apply writeStrm_confined|]. intros [|]; by apply IH.
Qed.

Lemma syncM3USource_confined srcs src : In src srcs -> keeps (below_source srcs) I (syncM3USource text parse fetch lower src).
Proof.
  intros Hin. unfold syncM3USource. destruct (ValidateMediaPath text (M3USourceConfig_DownloadPath src)) as [p|] eqn:Hv; [|apply keeps_ret].
  destruct (ValidateMediaPath_Ok _ _ _ Hv) as (ds & -> & Hm).
  destruct (downloadAndParseM3U parse fetch (M3USourceConfig_URL src)) as [items|] eqn:Hd; [|apply keeps_ret].
  apply keeps_bind; [apply keeps_LocalCall; exists src, ds; split_and!; try done; by left|].
  intros [|]; [|apply keeps_ret]. apply write_items_confined; try done. apply filterM3UItems_Forall. by eapply download_one_line.
Qed.

Lemma sync_all_confined srcs l : forall i e, (forall src, In src l -> In src srcs) ->
  keeps (below_source srcs) I (sync_all text parse fetch lower l i e).
Proof.
  induction l as [|src l IH]; intros i e Hl; cbn [sync_all]; [apply keeps_ret|].
  apply keeps_bind; [apply syncM3USource_confined, Hl; by left|]. intros [items errs]. apply IH. intros x Hx. apply Hl. by right.
Qed.

Lemma syncSources_confined now srcs l : (forall src, In src l -> In src srcs) ->
  keeps (below_source srcs) I (syncSources text parse fetch lower now l).
Proof.
  intros Hl. unfold syncSources. apply keeps_get_bind. intros s Hs. destruct (ms_Running (na_m3u s)); [apply keeps_ret|].
  apply keeps_bind; [apply keeps_put; by apply HI|]. intros _. apply keeps_bind; [by apply sync_all_confined|].
  intros [i e]. apply keeps_get_bind. intros s' Hs'. apply keeps_bind; [apply keeps_put; by apply HI|]. intros _. apply keeps_ret.
Qed.

Lemma tick_sources_confined local here now srcs l : forall next, (forall src, In src l -> In src srcs) ->
  keeps (below_source srcs) I (tick_sources text parse fetch lower local here now l next).
Proof.
  induction l as [|src l IH]; intros next Hl; cbn [tick_sources]; [apply keeps_ret|].
  assert (Hl' : forall x, In x l -> In x srcs) by (intros x Hx; apply Hl; by right).
  destruct (String.eqb (M3USourceConfig_Schedule src) ""); [by apply IH|].
  apply keeps_bind; [|intros []; [by apply IH|apply keeps_ret]].
  unfold m3uSourceTick. destruct (ParseSchedule _ _ _) as [[sched|]|]; try apply keeps_ret.
  destruct (next !! _) as [at_|]; [|apply keeps_ret]. destruct (IsZero at_); [apply keeps_ret|].
  destruct (now <? at_); [apply keeps_ret|]. apply keeps_bind; [|intros _; apply keeps_ret].
  apply syncSources_confined. intros x [<-|[]]. apply Hl. by left.
Qed.

End Confined.

(** Whatever the playlist servers send, a sync, on request or on schedule,
    touches nothing but the media directories of the configured sources, below
    /srv or /mnt: it creates the directory of a source and direct
    subdirectories of it, and writes, one level below those, files ending in
    .strm that hold one URL each.  While a run is in progress another one does
    nothing; when a run ends it is no longer marked as running and the
    configuration is unchanged. *)
Theorem playlist_sync_confined text parse fetch lower local here now next w s
  (m := SyncM3U text parse fetch lower now) (t := m3uScheduleTick text parse fetch lower local here now next) :
  Forall (below_source text (sources s)) (calls_of m w s)
  /\ Forall (below_source text (sources s)) (calls_of t w s)
  /\ na_cfg (state_after m w s) = na_cfg s /\ na_cfg (state_after t w s) = na_cfg s
  /\ (if ms_Running (na_m3u s) then calls_of m w s = [] /\ Sys.outcome m w s = Err ErrM3USyncRunning
      else ms_Running (na_m3u (state_after m w s)) = false /\ ms_LastSync (na_m3u (state_after m w s)) = now).
Proof.
  set (I := fun s' => na_cfg s' = na_cfg s).
  assert (Hm : keeps (below_source text (sources s)) I m).
  { apply keeps_get_bind. intros s' Hs'. apply syncSources_confined; [done|]. unfold sources. by rewrite Hs'. }
  assert (Ht : keeps (below_source text (sources s)) I t).
  { apply keeps_get_bind. intros s' Hs'. apply keeps_bind; [|intros; apply keeps_ret]. apply tick_sources_confined; [done|].
    unfold sources. by rewrite Hs'. }
  destruct (keeps_calls _ _ m w s Hm eq_refl) as [H1 H2]. destruct (keeps_calls _ _ t w s Ht eq_refl) as [H3 H4].
  split_and!; try done. unfold m, SyncM3U, syncSources, calls_of, Sys.outcome, state_after, mbind, svc_bind, get, put.
  destruct (ms_Running (na_m3u s)) eqn:E; [by split|].
  destruct (sync_all _ _ _ _ _ _ _ _ _ _) as [[[i e] s'] h']. done.
Qed.

(** ** Lemmas: what a playlist means *)

(** Text that is not trimmed: ASCII, no white space at either end. *)
Definition tight (s : string) : Prop :=
  all_chars (fun c => byte_val c <? 128) s = true
  /\ (exists a r, s = String a r /\ plain_char a = true) /\ (exists h b, s = h +:+ String b "" /\ plain_char b = true).

Lemma tight_trim s : tight s -> TrimSpace s = s.
Proof. intros (Ha & (a & r & -> & Hp) & (h & b & E & Hb)). by eapply TrimSpace_ends. Qed.

Lemma tight_after pre s : all_chars (fun c => byte_val c <? 128) pre = true ->
  (exists a r, pre = String a r /\ plain_char a = true) -> tight s -> tight (pre +:+ s).
Proof.
  intros Hp (a & r & -> & Ha) (Hs & _ & (h & b & -> & Hb)). split; [by rewrite all_chars_append, Hp, Hs|]. split.
  - by exists a, (r +:+ h +:+ String b "").
  - exists (String a r +:+ h), b. by rewrite append_assoc.
Qed.

(** An entry a playlist can carry: a group without quotes, a title without a
    comma, a link that is not a comment. *)
Definition entry_ok (it : M3UItem) : Prop :=
  it_Group it <> "" /\ all_chars (fun c => (byte_val c <? 128) && negb (Ascii.eqb c dquote) && negb (Ascii.eqb c lf)) (it_Group it) = true
  /\ tight (it_Title it) /\ has_char "," (it_Title it) = false /\ has_char lf (it_Title it) = false
  /\ tight (it_URL it) /\ HasPrefix (it_URL it) "#" = false /\ has_char lf (it_URL it) = false.

Definition entry_info (it : M3UItem) : string :=
  "-1 " +:+ group_title +:+ it_Group it +:+ char_str dquote +:+ "," +:+ it_Title it.
Definition entry_lines (it : M3UItem) : list string := ["#EXTINF:" +:+ entry_info it; it_URL it].
Definition playlist (l : list M3UItem) : string := join nl ("#EXTM3U" :: List.flat_map entry_lines l).

Lemma cut_last_none c s : has_char c s = false -> cut_last c s = None.
Proof.
  induction s as [|a s IH]; [done|]. cbn [has_char cut_last]. intros [Ha Hs]%orb_false_elim. by rewrite (IH Hs), Ha.
Qed.

Lemma cut_last_append c h t : has_char c t = false -> cut_last c (h +:+ String c t) = Some (h, t).
Proof.
  intros Ht. induction h as [|a h IH]; cbn [String.append cut_last].
  - rewrite cut_last_none by done. by rewrite Ascii.eqb_refl.
  - change (h ++ String c t)%string with (h +:+ String c t). by rewrite IH.
Qed.

Lemma readInfo_entry it p : entry_ok it -> readInfo (entry_info it) p = mkParser (mp_items p) (it_Group it) (it_Title it).
Proof.
  intros (Hg & Hga & Ht & Hc & _). unfold readInfo, entry_info.
  set (rest := it_Group it +:+ char_str dquote +:+ "," +:+ it_Title it).
  assert (Cut ("-1 " +:+ group_title +:+ rest) group_title = Some ("-1 ", rest)) as -> by reflexivity.
  assert (has_char dquote (it_Group it) = false) as Hq.
  { eapply chars_avoid; [exact Hga|]. vm_compute. reflexivity. }
  change rest with (it_Group it +:+ String dquote ("," +:+ it_Title it)). rewrite cut_byte_append by done.
  assert ("-1 " +:+ group_title +:+ it_Group it +:+ String dquote ("," +:+ it_Title it)
          = ("-1 " +:+ group_title +:+ it_Group it +:+ char_str dquote) +:+ String "," (it_Title it)) as ->
    by (rewrite !append_assoc; done).
  rewrite cut_last_append by done. by rewrite tight_trim.
Qed.

Lemma feed_entry it p : entry_ok it -> mp_group p = "" -> mp_title p = "" ->
  foldl feed p (entry_lines it) = mkParser (mp_items p ++ [it]) "" "".
Proof.
  intros H Hg0 Ht0. pose proof H as (Hg & Hga & Ht & _ & _ & Hu & Hh & _). unfold entry_lines. cbn [foldl].
  assert (feed p ("#EXTINF:" +:+ entry_info it) = mkParser (mp_items p) (it_Group it) (it_Title it)) as ->.
  { unfold feed. rewrite tight_trim.
    - assert (CutPrefix ("#EXTINF:" +:+ entry_info it) "#EXTINF:" = (entry_info it, true)) as -> by reflexivity. by apply readInfo_entry.
    - unfold entry_info. rewrite <- !append_assoc. apply tight_after; [|by do 2 eexists|done]. rewrite !all_chars_append.
      assert (all_chars (fun c => byte_val c <? 128) (it_Group it) = true) as ->; [|done].
      eapply all_chars_impl; [|exact Hga]. intros a Ha. cbn beta in Ha. by apply andb_prop in Ha as [[Ha _]%andb_prop _]. }
  unfold feed. rewrite tight_trim by done.
  destruct Hu as (_ & (a & r & E & _) & _). assert (CutPrefix (it_URL it) "#EXTINF:" = (it_URL it, false)) as ->.
  { unfold CutPrefix. destruct (drop_prefix "#EXTINF:" (it_URL it)) as [x|] eqn:Ed; [|done]. exfalso.
    assert (HasPrefix (it_URL it) "#EXTINF:" = true) as Hx by (unfold HasPrefix; by rewrite Ed).
    apply HasPrefix_true in Hx as [t Et]. rewrite Et in Hh. done. }
  assert (String.eqb (it_URL it) "" = false) as -> by (by rewrite E). rewrite Hh. cbn [orb mp_items mp_group mp_title].
  destruct Ht as (_ & (b & r' & E' & _) & _). unfold orDefault. rewrite (proj2 (String.eqb_neq _ _) Hg), E'. cbn [String.eqb].
  rewrite <- E'. by destruct it.
Qed.

Lemma feed_entries l p : Forall entry_ok l -> mp_group p = "" -> mp_title p = "" ->
  mp_items (foldl feed p (List.flat_map entry_lines l)) = mp_items p ++ l.
Proof.
  revert p. induction l as [|it l IH]; intros p Hl Hg Ht; [by rewrite app_nil_r|]. apply List.Forall_cons_iff in Hl as [Hit Hl].
  cbn [List.flat_map]. rewrite foldl_app, feed_entry by done. rewrite IH by done. cbn [mp_items]. by rewrite <- app_assoc.
Qed.

Lemma entry_lines_no_lf it : entry_ok it -> Forall (fun l => has_char lf l = false) (entry_lines it).
Proof.
  intros (_ & Hga & _ & _ & Htl & _ & _ & Hul). constructor; [|by constructor].
  unfold entry_info. rewrite !has_char_append, Htl. cbn [orb].
  assert (has_char lf (it_Group it) = false) as -> by (eapply chars_avoid; [exact Hga|vm_compute; reflexivity]). done.
Qed.

(** The playlist parser reads back every list of entries that can be
    written down as a playlist: groups without quotes, titles without a comma,
    links that are not comments. *)
Theorem playlist_roundtrip items : Forall entry_ok items -> ParseM3UData (playlist items) = items.
Proof.
  intros H. unfold ParseM3UData, playlist. rewrite (split_join lf); [|done|].
  - cbn [foldl]. change (feed empty_parser "#EXTM3U") with empty_parser. by rewrite feed_entries.
  - constructor; [done|]. induction H as [|it l Hit Hl IH]; [constructor|]. cbn [List.flat_map]. apply Forall_app.
    split; [by apply entry_lines_no_lf|done].
Qed.

(** ** Reading smb.conf *)

Inductive smb_item : Type := SBlank | SSection (name : string) | SSetting (key value : string) | SJunk (line : string).

(** One line of the file, as Samba reads it: leading blanks skipped, comments
    and blank lines ignored, a section name up to its bracket, a setting with
    the blanks around its two sides dropped. *)
Definition smb_item_of (line : string) : smb_item :=
  match trim_left_set " " line with
  | "" => SBlank
  | String "#" _ | String ";" _ => SBlank
  | String "[" r => match cut_byte "]" r with Some (name, _) => SSection name | None => SJunk line end
  | t => match cut_byte "=" t with Some (k, v) => SSetting (TrimSpace k) (TrimSpace v) | None => SJunk line end
  end.

(** The settings before the first section, and the sections; a line that is
    neither shows up as a setting without a key. *)
Fixpoint smb_read (ls : list string) : list (string * string) * list (string * list (string * string)) :=
  match ls with
  | [] => ([], [])
  | l :: ls =>
      let '(loose, sections) := smb_read ls in
      match smb_item_of l with
      | SBlank => (loose, sections)
      | SSection name => ([], (name, loose) :: sections)
      | SSetting k v => ((k, v) :: loose, sections)
      | SJunk line => (("", line) :: loose, sections)
      end
  end.

Definition global_settings (cfg : Config) : list (string * string) :=
  [("workgroup", "WORKGROUP"); ("server string", "LANKeeper NAS"); ("server role", "standalone server");
   ("log file", "/var/log/samba/log.%m"); ("max log size", "1000"); ("logging", "file");
   ("panic action", "/usr/share/samba/panic-action %d"); ("server role", "standalone server"); ("obey pam restrictions", "yes");
   ("unix password sync", "yes"); ("passwd program", "/usr/bin/passwd %u");
   ("passwd chat", "*Enter\snew\s*\spassword:* %n\n *Retype\snew\s*\spassword:* %n\n *password\supdated\ssuccessfully* .");
   ("pam password change", "yes"); ("map to guest", "bad user"); ("usershare allow guests", "yes");
   ("interfaces", join " " ("127.0.0.1/8" :: routerLANAddresses cfg)); ("bind interfaces only", "yes");
   ("hosts allow", join " " ("127.0.0.1" :: servedClientSubnets cfg)); ("hosts deny", "ALL")].

Definition share_settings (sh : ShareConfig) : list (string * string) :=
  [("path", TrimSpace (ShareConfig_Path sh)); ("browseable", "yes")]
  ++ (if ShareConfig_GuestOK sh then [("guest ok", "yes"); ("public", "yes")] else [("guest ok", "no")])
  ++ [("read only", if ShareConfig_ReadOnly sh then "yes" else "no")]
  ++ (match ShareConfig_ValidUsers sh with [] => [] | us => [("valid users", TrimSpace (join ", " us))] end)
  ++ [("create mask", "0664"); ("directory mask", "0775")].

Lemma TrimSpace_blank s : TrimSpace (String " " s) = TrimSpace s.
Proof. reflexivity. Qed.

Lemma item_section n : has_char "]" n = false -> smb_item_of ("[" +:+ n +:+ "]") = SSection n.
Proof.
  intros H. change (smb_item_of ("[" +:+ n +:+ "]")) with
    (match cut_byte "]" (n +:+ String "]" "") with Some (name, _) => SSection name | None => SJunk ("[" +:+ n +:+ "]") end).
  by rewrite cut_byte_append.
Qed.

Lemma item_path p : smb_item_of ("    path = " +:+ p) = SSetting "path" (TrimSpace p).
Proof. reflexivity. Qed.
Lemma item_users us : smb_item_of ("    valid users = " +:+ us) = SSetting "valid users" (TrimSpace us).
Proof. reflexivity. Qed.
Lemma item_interfaces l : smb_item_of ("interfaces = " +:+ l) = SSetting "interfaces" (TrimSpace l).
Proof. reflexivity. Qed.
Lemma item_hosts l : smb_item_of ("hosts allow = " +:+ l) = SSetting "hosts allow" (TrimSpace l).
Proof. reflexivity. Qed.

(** Reads the lines that hold no variable part. *)
Ltac read_items :=
  repeat match goal with |- context [smb_item_of ?l] =>
    let v := eval vm_compute in (smb_item_of l) in change (smb_item_of l) with v; cbv iota end.

Lemma share_read sh rest sections : has_char "]" (ShareConfig_Name sh) = false -> smb_read rest = ([], sections) ->
  smb_read (share_lines sh ++ rest) = ([], (ShareConfig_Name sh, share_settings sh) :: sections).
Proof.
  intros Hn Hr. unfold share_lines, share_settings.
  destruct (ShareConfig_GuestOK sh), (ShareConfig_ReadOnly sh), (ShareConfig_ValidUsers sh) as [|u us]; cbn [app smb_read];
    rewrite Hr, ?item_users, item_path, item_section by done; read_items; reflexivity.
Qed.

Lemma shares_read l : Forall (fun sh => has_char "]" (ShareConfig_Name sh) = false) l ->
  smb_read (List.flat_map share_lines l ++ [""; ""]) = ([], List.map (fun sh => (ShareConfig_Name sh, share_settings sh)) l).
Proof.
  induction 1 as [|sh l Hn Hl IH]; [reflexivity|]. cbn [List.flat_map List.map]. rewrite <- app_assoc. by apply share_read.
Qed.

Lemma global_read A B rest sections : Forall field_ok A -> Forall field_ok B -> smb_read rest = ([], sections) ->
  exists settings, smb_read (global_lines A B ++ rest) = ([], ("global", settings) :: sections)
    /\ forall cfg, routerLANAddresses cfg = A -> servedClientSubnets cfg = B -> settings = global_settings cfg.
Proof.
  intros HA HB Hr. eexists. split.
  - unfold global_lines. cbn [app smb_read]. rewrite Hr, item_interfaces, item_hosts.
    rewrite !TrimSpace_join by (constructor; [split; [done|reflexivity]|done]). read_items. reflexivity.
  - intros cfg <- <-. reflexivity.
Qed.

(** ** Lemmas: the text of addresses *)

Lemma hex_digit_plain d : plain_char (hex_digit (d mod 16)) = true.
Proof.
  assert (H : forallb (fun n => plain_char (hex_digit (Z.of_nat n))) (List.seq 0 16) = true) by (vm_compute; reflexivity).
  rewrite forallb_forall in H. pose proof (Z.mod_pos_bound d 16 ltac:(lia)). rewrite <- (Z2Nat.id (d mod 16)) by lia.
  apply H, in_seq. lia.
Qed.

Lemma itoa_plain z : all_chars plain_char (itoa z) = true.
Proof. eapply all_chars_impl; [|apply itoa_chars]. apply ascii_impl. vm_compute. reflexivity. Qed.

Lemma join_plain sp l : all_chars plain_char sp = true -> Forall (fun s => all_chars plain_char s = true) l ->
  all_chars plain_char (join sp l) = true.
Proof.
  intros Hs. induction 1 as [|x l Hx Hl IH]; [done|]. destruct l as [|y l]; [done|]. rewrite join_cons by done.
  by rewrite !all_chars_append, Hx, Hs, IH.
Qed.

Lemma hex16_plain g : all_chars plain_char (hex16 g) = true.
Proof. unfold hex16, char_str. repeat destruct (_ <? _); cbn; by rewrite !hex_digit_plain. Qed.

Lemma Forall_map_all {A B} (P : B -> Prop) (f : A -> B) l : (forall x, P (f x)) -> Forall P (List.map f l).
Proof. intros H. induction l; constructor; auto. Qed.

Lemma IP_String_plain ip : all_chars plain_char (IP_String ip) = true.
Proof.
  unfold IP_String. destruct ip as [|b ip]; [done|]. destruct (To4 (b :: ip)) as [v4|].
  - apply join_plain; [done|]. apply Forall_map_all, itoa_plain.
  - unfold string6. destruct (best_run _ _ _) as [start []]; [|rewrite !all_chars_append];
      rewrite ?join_plain; try done; apply Forall_map_all, hex16_plain.
Qed.

Lemma IP_String_slash ip n : field_ok (IP_String ip +:+ "/" +:+ itoa n).
Proof.
  split; [by destruct (IP_String ip)|]. by rewrite !all_chars_append, IP_String_plain, itoa_plain.
Qed.

Lemma routerLANAddresses_ok cfg : Forall field_ok (routerLANAddresses cfg).
Proof.
  unfold routerLANAddresses. induction (_ ++ _) as [|c l IH]; [constructor|]. cbn [omap list_omap].
  destruct (address_text c) as [t|] eqn:E; [|done]. constructor; [|done].
  unfold address_text in E. destruct (ParseCIDR (TrimSpace c)) as [[ip net]|]; [|done]. injection E as <-. apply IP_String_slash.
Qed.

Lemma itoa_nonempty z : itoa z <> "".
Proof.
  destruct (Z.lt_ge_cases z 0) as [H|H]; [|by apply itoa_nonneg_value].
  unfold itoa. destruct (Z.ltb_spec z 0); [done|lia].
Qed.

Lemma hex16_nonempty g : hex16 g <> "".
Proof. unfold hex16, char_str. repeat destruct (_ <? _); done. Qed.

Lemma join_head_nonempty sp x l : x <> "" -> join sp (x :: l) <> "".
Proof. destruct x; [done|]. intros _. by rewrite join_cons_char. Qed.

Lemma To4_length4 ip v : To4 ip = Some v -> length v = 4%nat.
Proof.
  unfold To4. destruct (Nat.eqb_spec (length ip) 4) as [H|_]; [by intros [= <-]|].
  destruct (Nat.eqb_spec (length ip) 16) as [H|_]; cbn [andb]; [|done]. destruct (bool_decide _); [|done].
  intros [= <-]. rewrite length_drop. lia.
Qed.

Lemma IP_String_nonempty ip : (2 <= length ip)%nat -> IP_String ip <> "".
Proof.
  intros Hl. unfold IP_String. destruct ip as [|a [|b ip]]; [cbn in Hl; lia..|].
  destruct (To4 (a :: b :: ip)) as [v4|] eqn:E.
  - apply To4_length4 in E. destruct v4 as [|x v4]; [done|]. apply join_head_nonempty, itoa_nonempty.
  - unfold string6. cbn [groups]. destruct (best_run _ _ _) as [start []]; [apply join_head_nonempty, hex16_nonempty|].
    by destruct (join ":" _).
Qed.

Lemma IPNet_String_ok c ip net : ParseCIDR c = Some (ip, net) -> field_ok (IPNet_String net).
Proof.
  intros H. apply ParseCIDR_cidr in H as (a & ones & _ & -> & Hw & Hl & Ho). unfold IPNet_String.
  destruct (networkNumberAndMask (cidr a ones)) as [nn m] eqn:E. destruct (simpleMaskLength m); [apply IP_String_slash|].
  split; [|apply IP_String_plain]. apply IP_String_nonempty.
  unfold networkNumberAndMask in E. destruct (To4 (net_ip (cidr a ones))) as [v4|] eqn:E4.
  - injection E as <- _. rewrite (To4_length4 _ _ E4). lia.
  - injection E as <- _. change (2 <= length (net_ip (cidr a ones)))%nat; rewrite cidr_ip_length. lia.
Qed.

Lemma servedClientSubnets_ok cfg : Forall field_ok (servedClientSubnets cfg).
Proof.
  unfold servedClientSubnets. assert (H : Forall field_ok (@nil string)) by constructor. revert H.
  generalize (@nil string) as out. induction (servedCIDRs cfg) as [|c l IH]; intros out Hout; [done|]. cbn [foldl]. apply IH.
  unfold addSubnet. destruct (ParseCIDR (TrimSpace c)) as [[ip net]|] eqn:E; [|done]. destruct (existsb _ _); [done|].
  apply Forall_app. split; [done|]. constructor; [by eapply IPNet_String_ok|constructor].
Qed.

(** ** Lemmas: shares that may be rendered *)

Lemma over_name P : (forall a, is_alnum a || char_in "_-" a = true -> P a = true) -> over P nasShareNamePattern.
Proof. intros H. split; [exact H|]. apply over_rupto. exact H. Qed.

Lemma over_user P : (forall a, is_alnum a || char_in "_.-" a = true -> P a = true) -> over P nasShareUserPattern.
Proof. intros H. split; [exact H|]. apply over_rupto. exact H. Qed.

Lemma plain_no_lf s : all_chars plain_char s = true -> has_char lf s = false.
Proof. intros H. eapply chars_avoid; [exact H|]. vm_compute. reflexivity. Qed.

Lemma safe_share_spec sh : is_ok (validateShare sh) = true ->
  all_chars (fun a => is_alnum a || char_in "_-" a) (ShareConfig_Name sh) = true
  /\ all_chars fsPathClass (ShareConfig_Path sh) = true
  /\ Forall (fun u => all_chars (fun a => is_alnum a || char_in "_.-" a) u = true) (ShareConfig_ValidUsers sh).
Proof.
  unfold validateShare. intros H.
  destruct (matchb nasShareNamePattern (ShareConfig_Name sh)) eqn:En; [|done]. cbn [negb fail_if result_bind] in H.
  destruct (ValidateFilesystemPath (ShareConfig_Path sh)) as [[]|] eqn:Ep; [|done]. cbn [result_bind] in H.
  apply ValidateFilesystemPath_iff in Ep as (_ & _ & Hp).
  destruct (List.find _ _) eqn:Ef; [done|]. split_and!; [|done|].
  - eapply matchb_over; [|exact En]. by apply over_name.
  - rewrite List.Forall_forall. intros u Hu. pose proof (List.find_none _ _ Ef u Hu) as Hm. apply negb_false_iff in Hm.
    eapply matchb_over; [|exact Hm]. by apply over_user.
Qed.

Lemma share_lines_no_lf sh : is_ok (validateShare sh) = true -> Forall (fun l => has_char lf l = false) (share_lines sh).
Proof.
  intros (Hn & Hp & Hu)%safe_share_spec. unfold share_lines.
  assert (H1 : has_char lf (ShareConfig_Name sh) = false) by (eapply chars_avoid; [exact Hn|reflexivity]).
  assert (H2 : has_char lf (ShareConfig_Path sh) = false) by (eapply chars_avoid; [exact Hp|reflexivity]).
  assert (H3 : has_char lf (join ", " (ShareConfig_ValidUsers sh)) = false).
  { induction Hu as [|u us Hu Hus IH]; [done|]. assert (has_char lf u = false) as Hul by (eapply chars_avoid; [exact Hu|reflexivity]).
    destruct us as [|u' us]; [done|]. rewrite join_cons, !has_char_append, Hul by done. exact IH. }
  rewrite !List.Forall_app. repeat split.
  - repeat constructor; rewrite ?has_char_append, ?H1, ?H2; done.
  - destruct (ShareConfig_GuestOK sh); by repeat constructor.
  - destruct (ShareConfig_ReadOnly sh); by repeat constructor.
  - destruct (ShareConfig_ValidUsers sh); [constructor|]. constructor; [|constructor]. by rewrite has_char_append, H3.
  - by repeat constructor.
Qed.

Lemma fields_no_lf l : Forall field_ok l -> has_char lf (join " " l) = false.
Proof.
  induction 1 as [|x l [_ Hx] Hl IH]; [done|]. apply plain_no_lf in Hx. destruct l as [|y l]; [done|].
  rewrite join_cons, !has_char_append, Hx by done. exact IH.
Qed.

Lemma smb_lines_no_lf cfg : Forall (fun l => has_char lf l = false) (smb_lines cfg).
Proof.
  unfold smb_lines. rewrite !List.Forall_app. repeat split.
  - unfold global_lines. repeat (constructor; [reflexivity || idtac|]); try constructor;
      (rewrite has_char_append, fields_no_lf; [reflexivity|]); constructor;
      try (split; [discriminate|reflexivity]); first [apply routerLANAddresses_ok | apply servedClientSubnets_ok].
  - unfold safeShares. induction (NASConfig_Shares (Config_NAS cfg)) as [|sh l IH]; [constructor|]. cbn [List.filter].
    destruct (is_ok (validateShare sh)) eqn:E; [|done]. cbn [List.flat_map]. apply List.Forall_app. split; [by apply share_lines_no_lf|done].
  - by repeat constructor.
Qed.

(** ** Lemmas: cleaning neither adds characters nor length *)

Definition weight (l : list string) : nat := foldr (fun c n => (String.length c + 1 + n)%nat) 0%nat l.

Lemma weight_cons x l : weight (x :: l) = (String.length x + 1 + weight l)%nat.
Proof. done. Qed.

Lemma weight_app l l' : weight (l ++ l') = (weight l + weight l')%nat.
Proof. unfold weight. induction l as [|x l IH]; [done|]. cbn [app foldr]. rewrite IH. lia. Qed.

Lemma weight_reverse l : weight (reverse l) = weight l.
Proof. induction l as [|x l IH]; [done|]. rewrite reverse_cons, weight_app, IH. rewrite !weight_cons. change (weight []) with 0%nat. lia. Qed.

Lemma weight_split c s : weight (split_byte c s) = S (String.length s).
Proof.
  induction s as [|a s IH]; [done|]. cbn [split_byte]. destruct (Ascii.eqb a c); [by rewrite weight_cons, IH|].
  destruct (split_byte c s) as [|h t] eqn:E; [by apply split_byte_nonnil in E|]. rewrite weight_cons in *. cbn [String.length]. lia.
Qed.

Lemma weight_abs cs : cs <> [] -> String.length (abs_path cs) = weight cs.
Proof.
  unfold abs_path. intros H. change (S (String.length (join sep_str cs)) = weight cs). induction cs as [|c cs IH]; [done|].
  destruct cs as [|d cs]; [rewrite weight_cons; cbn; lia|]. rewrite join_cons, !append_length, weight_cons by done.
  specialize (IH ltac:(done)). change (String.length sep_str) with 1%nat. lia.
Qed.

Lemma clean_fold_sub rooted P cs out : Forall P cs -> Forall P out ->
  Forall P (foldl (clean_step rooted) out cs) /\ (weight (foldl (clean_step rooted) out cs) <= weight out + weight cs)%nat.
Proof.
  revert out. induction cs as [|c cs IH]; intros out Hcs Hout; [split; [done|cbn [foldl]; lia]|].
  apply List.Forall_cons_iff in Hcs as [Hc Hcs]. cbn [foldl]. rewrite weight_cons.
  assert (Hs : Forall P (clean_step rooted out c) /\ (weight (clean_step rooted out c) <= weight out + String.length c + 1)%nat).
  { unfold clean_step. destruct (String.eqb c "" || String.eqb c "."); [split; [done|lia]|].
    destruct (String.eqb c ".."); [|split; [by constructor|rewrite weight_cons; lia]].
    destruct out as [|d out]; [destruct rooted; (split; [by repeat constructor|cbn; lia])|].
    destruct (String.eqb d ".."); [split; [by constructor|rewrite !weight_cons; lia]|].
    inversion Hout; subst. split; [done|rewrite weight_cons; lia]. }
  destruct Hs as [H1 H2]. destruct (IH _ Hcs H1) as [H3 H4]. split; [done|]. lia.
Qed.

Lemma all_chars_split (P : ascii -> bool) c s : all_chars P s = true -> Forall (fun x => all_chars P x = true) (split_byte c s).
Proof.
  induction s as [|a s IH]; [by repeat constructor|]. cbn [all_chars split_byte]. intros [Ha Hs]%andb_prop. specialize (IH Hs).
  destruct (Ascii.eqb a c); [by constructor|]. destruct (split_byte c s) as [|h t]; [by repeat constructor; cbn; rewrite Ha|].
  inversion IH; subst. constructor; [cbn; by rewrite Ha|done].
Qed.

Lemma Clean_fs_path p : IsAbs p = true -> len p <= 4096 -> all_chars fsPathClass p = true ->
  ValidateFilesystemPath (Clean p) = Ok tt.
Proof.
  intros Ha Hl Hc. apply ValidateFilesystemPath_iff.
  assert (Hne : String.eqb p "" = false) by (by destruct p). unfold Clean. rewrite Hne, Ha.
  change (sep_str +:+ join sep_str (clean_comps p)) with (abs_path (clean_comps p)).
  destruct (clean_fold_sub true (fun x => all_chars fsPathClass x = true) (split_byte sep p) []) as [H1 H2];
    [by apply all_chars_split|constructor|]. rewrite weight_split in H2.
  assert (Hcc : clean_comps p = reverse (foldl (clean_step true) [] (split_byte sep p))) by (unfold clean_comps; by rewrite Ha).
  assert (Hw : (weight (clean_comps p) <= String.length p)%nat).
  { rewrite Hcc, weight_reverse. apply HasPrefix_true in Ha as [t ->]. change (sep_str +:+ t) with (String sep t) in *.
    change (split_byte sep (String sep t)) with ("" :: split_byte sep t). cbn [foldl].
    change (clean_step true [] "") with (@nil string).
    destruct (clean_fold_sub true (fun _ => True) (split_byte sep t) []) as [_ H3]; [by rewrite List.Forall_forall|constructor|].
    rewrite weight_split in H3. cbn in H3 |- *. lia. }
  split; [done|]. split.
  - unfold len in *. destruct (clean_comps p) as [|c cs]; [cbn; lia|]. rewrite weight_abs by done. lia.
  - unfold abs_path. cbn [String.append all_chars sep_str]. apply andb_true_intro. split; [done|].
    assert (HF : Forall (fun x => all_chars fsPathClass x = true) (clean_comps p)) by (rewrite Hcc; by apply Forall_reverse).
    clear -HF. induction HF as [|x l Hx HF IH]; [done|]. destruct l as [|y l]; [done|]. rewrite join_cons by done.
    by rewrite !all_chars_append, Hx, IH.
Qed.

(** The form's name pattern with its length is the renderer's. *)
Lemma name_patterns n : n <> "" -> len n <= 64 -> matchb nasNamePattern n = true -> matchb nasShareNamePattern n = true.
Proof.
  unfold nasNamePattern. rewrite matchb_plus_cls. intros Hne Hl H. bool_hyps. destruct n as [|a n]; [done|].
  cbn [all_chars] in *. bool_hyps. unfold len in Hl. cbn [String.length] in Hl.
  apply matchb_lang. change (String a n) with (char_str a +:+ n). apply LSeq; [by apply LCls|].
  assert (String.length n <= 63)%nat as Hk by lia.
  match goal with H : all_chars _ n = true |- _ => revert Hk H end. clear. generalize 63%nat as k. intros k. revert n.
  induction k as [|k IH]; intros n Hk Hc.
  - destruct n; [constructor|cbn in Hk; lia].
  - cbn [rupto]. destruct n as [|b n]; [apply LAltR; constructor|]. cbn [all_chars] in Hc. apply andb_prop in Hc as [Hb Hc].
    apply LAltL. change (String b n) with (char_str b +:+ n). apply LSeq; [by apply LCls|]. apply IH; [cbn in Hk; lia|done].
Qed.

(** ** Samba *)

Definition section_of (sh : ShareConfig) : string * list (string * string) := (ShareConfig_Name sh, share_settings sh).

Lemma smb_text_read cfg :
  smb_read (split_byte lf (smb_text cfg))
  = ([], ("global", global_settings cfg) :: List.map section_of (safeShares (NASConfig_Shares (Config_NAS cfg)))).
Proof.
  unfold smb_text. destruct (lines_of_join (smb_lines cfg) (smb_lines_no_lf cfg)) as [->|E]; [|done].
  unfold smb_lines. rewrite <- !app_assoc. change ([""] ++ [""]) with [""; ""].
  assert (Hn : Forall (fun sh => has_char "]" (ShareConfig_Name sh) = false) (safeShares (NASConfig_Shares (Config_NAS cfg)))).
  { rewrite List.Forall_forall. intros sh [_ (Hs & _)%safe_share_spec]%filter_In. eapply chars_avoid; [exact Hs|reflexivity]. }
  destruct (global_read _ _ _ _ (routerLANAddresses_ok cfg) (servedClientSubnets_ok cfg) (shares_read _ Hn)) as (st & -> & Hst).
  by rewrite (Hst cfg eq_refl eq_refl).
Qed.

(** What applying does to the machine. *)
Definition samba_calls (s : nas) : list call :=
  let none := match safeShares (shares s) with [] => true | _ => false end in
  let verb := if none then "disable" else "enable" in
  [CLocal "template.ParseFiles" ["configs/sysconf/smb.conf.tmpl"]; CWriteFile "/etc/samba/smb.conf" (smb_text (na_cfg s)) 420;
   CRun "systemctl" [verb; "--now"; "smbd"] ""; CRun "systemctl" [verb; "--now"; "nmbd"] ""]
  ++ (if none then [] else [CRun "smbcontrol" ["all"; "reload-config"] ""]).

Lemma nas_ApplyConfig_run w s : is_ok (Sys.outcome nas_ApplyConfig w s) = true -> calls_of nas_ApplyConfig w s = samba_calls s.
Proof.
  unfold Sys.outcome, calls_of, samba_calls, nas_ApplyConfig, nas_RenderToDisk, nas_RenderConfig, sambaUnits, for_try, try_bind, wrapping, WriteFile,
    LocalCall, Run, perform, get, mbind, svc_bind, mret, svc_ret.
  destruct (match safeShares (shares s) with [] => true | _ => false end) eqn:E;
    repeat (match goal with |- context [w ?h ?c] => destruct (w h c); cbn [wrap_err discard fst snd is_ok]; rewrite ?E; try done end).
Qed.

Lemma nas_ApplyConfig_keeps w h s : snd (fst (nas_ApplyConfig w h s)) = s.
Proof.
  assert (Hk : keeps (fun _ => True) (eq s) nas_ApplyConfig)
    by (unfold nas_ApplyConfig, nas_RenderToDisk, nas_RenderConfig; walk; done).
  symmetry. by destruct (Hk w h s eq_refl).
Qed.

(** A share the form lets through may be rendered, and lies below a media
    directory. *)
Lemma parseShareForm_safe text r sh : parseShareForm text r = (sh, "") ->
  is_ok (validateShare sh) = true /\ ShareConfig_Name sh = hq_form r "name"
  /\ exists ds, ShareConfig_Path sh = abs_path ds /\ media_dir ds.
Proof.
  unfold parseShareForm. set (checks := [_; _; _]). destruct (nonempty (firstFailed checks)) eqn:Ek.
  { intros [= _ E]. rewrite E in Ek. done. }
  assert (Hk : firstFailed checks = "") by (unfold nonempty in Ek; by apply negb_false_iff, String.eqb_eq in Ek).
  apply firstFailed_none in Hk; [|by repeat constructor]. repeat apply List.Forall_cons_iff in Hk as [? Hk]. cbn [chk_failed] in *.
  destruct (ValidateMediaPath text (hq_form r "path")) as [p|e] eqn:Ep.
  2: { unfold mediaPathErrorKey. destruct (errors_Is _ _); done. }
  intros [= <-]. destruct (ValidateMediaPath_Ok _ _ _ Ep) as (ds & -> & Hds). bool_hyps. split; [|split; [done|by exists ds]].
  unfold ValidateMediaPath in Ep. destruct (ValidateFilesystemPath (hq_form r "path")) as [[]|] eqn:Ev; [|done].
  apply ValidateFilesystemPath_iff in Ev as (_ & Hlen & Hch).
  assert (Hc : Clean (hq_form r "path") = abs_path ds) by (cbv zeta in Ep; destruct (_ && _); [done|by injection Ep]).
  assert (Ha : IsAbs (hq_form r "path") = true).
  { destruct (IsAbs (hq_form r "path")) eqn:E; [done|]. apply Clean_relative in E. rewrite Hc, IsAbs_abs_path in E. done. }
  unfold validateShare. cbn [ShareConfig_Name ShareConfig_Path ShareConfig_ValidUsers].
  rewrite name_patterns by done. cbn [negb fail_if result_bind]. rewrite <- Hc, Clean_fs_path by done. done.
Qed.


(** ** Behaviours worth knowing *)

(** A path may end in a blank, which Samba drops: another directory is
    served. *)
Example trailing_blank_path :
  let sh := mkShareConfig "docs" "/srv/docs " false false [] in
  is_ok (validateShare sh) = true /\ List.map snd (List.filter (fun p => String.eqb (fst p) "path") (share_settings sh)) = ["/srv/docs"].
Proof. vm_compute. by split. Qed.

Definition nas_form (fields : list (string * string)) : hreq :=
  mkHreq (Ok tt) (fun k => match List.find (fun p => String.eqb (fst p) k) fields with Some p => snd p | None => "" end)
    (fun k => "docs") "".

(** The same name can be added twice: two sections with one name, of which the
    second overrides the first. *)
Example share_name_twice :
  let w := (fun _ _ => Ok "") : world in
  let r := nas_form [("name", "docs"); ("path", "/srv/docs")] in
  let s := state_after (HandleAddShare (fun _ => "") r) w (NewNASService Config_zero) in
  List.map ShareConfig_Name (shares (state_after (HandleAddShare (fun _ => "") r) w s)) = ["docs"; "docs"].
Proof. vm_compute. reflexivity. Qed.

(** A failed save leaves the share in force in memory. *)
Example failed_save_keeps_share :
  let w := (fun _ _ => Err corrupt) : world in
  let r := nas_form [("name", "docs"); ("path", "/srv/docs")] in
  let m := HandleAddShare (fun _ => "") r in
  hstatus (Sys.outcome m w (NewNASService Config_zero)) = 500
  /\ length (shares (state_after m w (NewNASService Config_zero))) = 1%nat.
Proof. vm_compute. by split. Qed.

(** When the directory of a source cannot be created the run reports no error
    for it. *)
Lemma failed_mkdir_not_counted text parse fetch lower src w h s ds items e :
  ValidateMediaPath text (M3USourceConfig_DownloadPath src) = Ok ds ->
  downloadAndParseM3U parse fetch (M3USourceConfig_URL src) = Ok items -> w h (CLocal "os.MkdirAll" [ds; "0755"]) = Err e ->
  fst (fst (syncM3USource text parse fetch lower src w h s)) = (0, 0).
Proof.
  intros Hv Hd He. unfold syncM3USource. rewrite Hv, Hd.
  unfold os_MkdirAll, LocalCall, perform, mbind, svc_bind. by rewrite He.
Qed.

(** Two entries whose names differ only in replaced characters are one file,
    and both are counted. *)
Example entries_collide : sanitizePath "a/b" = sanitizePath "a:b".
Proof. reflexivity. Qed.

(** ** The agent's verdict *)

Lemma samba_unit_allowed (b : bool) u : In u sambaUnits -> allowed (CRun "systemctl" [if b then "disable" else "enable"; "--now"; u] "").
Proof. intros [<-|[<-|[]]]; destruct b; vm_compute; reflexivity. Qed.

Lemma nas_ApplyConfig_allowed : keeps allowed (fun _ => True) nas_ApplyConfig.
Proof.
  unfold nas_ApplyConfig, nas_RenderToDisk, nas_RenderConfig. apply keeps_try; [walk; allow_call|]. intros _.
  apply keeps_get_bind. intros s _. apply keeps_try.
  - apply keeps_for_try. intros u Hu. apply keeps_try; [|intros; apply keeps_ret].
    apply keeps_wrapping, keeps_Run0, samba_unit_allowed, Hu.
  - intros _. destruct (match safeShares _ with [] => _ | _ => _ end); [apply keeps_ret|]. walk. allow_call.
Qed.

Lemma share_handlers_allowed text r :
  keeps allowed (fun _ => True) (HandleAddShare text r) /\ keeps allowed (fun _ => True) (HandleDeleteShare r).
Proof.
  split; unfold HandleAddShare, HandleDeleteShare, AddShare, RemoveShare, store_shares;
    repeat (keeps_step || lazymatch goal with |- keeps _ _ nas_ApplyConfig => apply nas_ApplyConfig_allowed end); first [exact Logic.I | allow_call].
Qed.

(** ** Witnesses *)

Definition sample_items : list M3UItem :=
  [mkItem "News / World" "Channel One HD" "http://example.net/1.ts"; mkItem ".." ".." "http://example.net/2.ts"].

Lemma playlist_roundtrip_witness : ParseM3UData (playlist sample_items) = sample_items.
Proof.
  apply playlist_roundtrip. unfold sample_items, entry_ok, tight. cbn [it_Group it_Title it_URL].
  repeat (constructor; [split_and!; try done; try (vm_compute; reflexivity)|]); [..|constructor].
  all: first [ exact (ex_intro _ "C"%char (ex_intro _ "hannel One HD" (conj eq_refl eq_refl)))
             | exact (ex_intro _ "Channel One H" (ex_intro _ "D"%char (conj eq_refl eq_refl)))
             | exact (ex_intro _ "."%char (ex_intro _ "." (conj eq_refl eq_refl)))
             | exact (ex_intro _ "." (ex_intro _ "."%char (conj eq_refl eq_refl)))
             | exact (ex_intro _ "h"%char (ex_intro _ _ (conj eq_refl eq_refl)))
             | exact (ex_intro _ "http://example.net/1.t" (ex_intro _ "s"%char (conj eq_refl eq_refl)))
             | exact (ex_intro _ "http://example.net/2.t" (ex_intro _ "s"%char (conj eq_refl eq_refl))) ].
Defined.

