(* ===== verification/Storage.v ===== *)
(** * internal/services/storage.go and internal/web/handlers/storage.go

    Disks: the status of an array, a disk and the file systems as the tools
    print it, the disks that are free, creating arrays and file systems, and
    the record of a mount in /etc/fstab.  The JSON of lsblk is a parameter. *)

From S2P Require Import Prelude GoStrings Regex ConfigTypes AgentRules FirewallRender Sys Dns Schedule Doh.

Local Open Scope Z_scope.
Local Open Scope go_scope.
Local Open Scope sys_scope.

(** The service keeps nothing but the configuration. *)
Definition raid (c : Config) : RAIDConfig := StorageConfig_RAID (Config_Storage c).
Definition set_raid (r : RAIDConfig) (c : Config) : Config := set_Config_Storage (set_StorageConfig_RAID r (Config_Storage c)) c.
Definition raid_device (c : Config) : string := orDefault (RAIDConfig_Device (raid c)) "/dev/md0".

(** ** Status *)

Record DiskMember : Type := mkMember { dm_Device : string; dm_State : string }.
Record RAIDStatus : Type := mkRAID {
  rs_Device : string; rs_Level : string; rs_State : string; rs_ActiveDisks : Z; rs_TotalDisks : Z; rs_Members : list DiskMember }.

Definition after (line prefix : string) : option string := drop_prefix prefix line.

Definition member_of (line : string) : list DiskMember :=
  if Contains line "/dev/sd" || Contains line "/dev/nvme" then
    let fields := Fields line in
    if (7 <=? length fields)%nat then [mkMember (List.last fields "") (nth 4 fields "")] else []
  else [].

Definition applyDetailLine (st : RAIDStatus) (line : string) : RAIDStatus :=
  mkRAID (rs_Device st)
    (match after line "Raid Level :" with Some a => TrimSpace a | None => rs_Level st end)
    (match after line "State :" with Some a => TrimSpace a | None => rs_State st end)
    (match after line "Active Devices :" with Some a => Sscanf_d (rs_ActiveDisks st) a | None => rs_ActiveDisks st end)
    (match after line "Total Devices :" with Some a => Sscanf_d (rs_TotalDisks st) a | None => rs_TotalDisks st end)
    (rs_Members st ++ member_of line).

Definition GetRAIDStatus : svc Config (result RAIDStatus) :=
  c ← get;
  try! out := wrapping "mdadm detail: %w" [] (Run "mdadm" ["--detail"; raid_device c]) in
  mret (Ok (foldl (fun st l => applyDetailLine st (TrimSpace l)) (mkRAID (raid_device c) "" "" 0 0 []) (split_byte lf out))).

Record SMARTInfo : Type := mkSMART {
  si_Device : string; si_Model : string; si_Temperature : Z; si_PowerOnHours : Z; si_HealthOK : bool; si_Errors : Z }.

Definition field9 (fields : list string) (cur : Z) : Z :=
  if (10 <=? length fields)%nat then Sscanf_d cur (nth 9 fields "") else cur.

(** The number before each "Celsius", the last one that can be read. *)
Fixpoint before_celsius (prev : option string) (fields : list string) (temp : Z) : Z :=
  match fields with
  | [] => temp
  | f :: rest =>
      let temp := match prev with
        | Some p => if String.eqb f "Celsius" then Sscanf_d temp p else temp
        | None => temp
        end in
      before_celsius (Some f) rest temp
  end.

Definition scanTemperature (fields : list string) (temp : Z) : Z :=
  let temp := before_celsius None fields temp in
  if temp =? 0 then field9 fields temp else temp.

Definition scanRawValue (line : string) (cur : Z) : Z := field9 (Fields line) cur.

Definition applySMARTLine (i : SMARTInfo) (line : string) : SMARTInfo :=
  mkSMART (si_Device i)
    (if HasPrefix line "Device Model:" || HasPrefix line "Model Number:"
     then TrimSpace (match cut_byte ":" line with Some (_, a) => a | None => line end) else si_Model i)
    (if Contains line "Temperature_Celsius" || Contains line "Temperature Sensor"
     then scanTemperature (Fields line) (si_Temperature i) else si_Temperature i)
    (if Contains line "Power_On_Hours" then scanRawValue line (si_PowerOnHours i) else si_PowerOnHours i)
    (if Contains line "SMART overall-health" && Contains line "FAILED" then false else si_HealthOK i)
    (if Contains line "Reallocated_Sector" then scanRawValue line (si_Errors i) else si_Errors i).

Definition GetSMARTInfo (device : string) : svc Config (result SMARTInfo) :=
  try! out := wrapping "smartctl: %w" [] (Run "smartctl" ["-a"; device]) in
  mret (Ok (foldl (fun i l => applySMARTLine i (TrimSpace l)) (mkSMART device "" 0 0 true 0) (split_byte lf out))).

Record DiskUsage : Type := mkDiskUsage {
  du_Filesystem : string; du_Size : string; du_Used : string; du_Available : string; du_UsePercent : string; du_MountPoint : string }.

Definition usage_of (line : string) : option DiskUsage :=
  match Fields line with
  | f0 :: f1 :: f2 :: f3 :: f4 :: f5 :: _ => if HasPrefix f0 "/dev/" then Some (mkDiskUsage f0 f1 f2 f3 f4 f5) else None
  | _ => None
  end.

Definition GetDiskUsage : svc Config (result (list DiskUsage)) :=
  try! out := wrapping "df: %w" [] (Run "df" ["-h"; "--output=source,size,used,avail,pcent,target"]) in
  mret (Ok (omap usage_of (List.tl (split_byte lf out)))).

(** What the page shows: a card that failed is left out. *)
Definition storage_HandlePage : svc Config (option RAIDStatus * option (list DiskUsage)) :=
  r ← GetRAIDStatus; u ← GetDiskUsage;
  mret (match r with Ok x => Some x | Err _ => None end, match u with Ok x => Some x | Err _ => None end).

Definition SetHDDStandby (device : string) (timeout : Z) : svc Config (result unit) :=
  try! _ := Run "hdparm" ["-S"; itoa timeout; device] in mret (Ok tt).

(** ** Disks *)

Record AvailableDisk : Type := mkDisk { ad_Device : string; ad_Model : string; ad_Size : string; ad_Type : string; ad_InUse : bool }.

(** One node of lsblk's tree; [None] is null. *)
Inductive blockDevice : Type :=
| mkBlock (bd_Name bd_Size : string) (bd_Model : option string) (bd_Type : string) (bd_Mountpoint : option string)
    (bd_Children : list blockDevice).

Fixpoint mounted (d : blockDevice) : bool :=
  match d with
  | mkBlock _ _ _ _ mountpoint children =>
      match mountpoint with Some m => nonempty m | None => false end || existsb mounted children
  end.

Definition disk_of (d : blockDevice) : option AvailableDisk :=
  match d with
  | mkBlock name size model type _ _ =>
      if negb (String.eqb type "disk") then None
      else Some (mkDisk ("/dev/" +:+ name) (match model with Some m => TrimSpace m | None => "" end) size type (mounted d))
  end.

Section Disks.
(** The block devices of lsblk's JSON. *)
Variable decode_lsblk : string -> result (list blockDevice).

Definition DiscoverDisks : svc Config (result (list AvailableDisk)) :=
  try! out := wrapping "lsblk: %w" [] (Run "lsblk" ["--json"; "-o"; "NAME,SIZE,MODEL,TYPE,MOUNTPOINT"]) in
  mret (let? tree := wrap_err "decode lsblk: %w" [] (decode_lsblk out) in Ok (omap disk_of tree)).
End Disks.

(** ** /etc/fstab *)

Definition fstab_char (a : ascii) : bool := is_alnum a || char_in "/_.-" a.
Definition fstabDevicePattern : regex := RSeq (rlit "/dev/") (RSeq (RCls is_alnum) (RStar (RCls fstab_char))).
Definition fstabMountPattern : regex := RSeq (rlit "/") (RSeq (RCls is_alnum) (RStar (RCls fstab_char))).
Definition fstabTypePattern : regex := rplus (RCls (fun a => is_lower a || is_digit a)).

Definition validateFstabEntry (device mountPoint fsType : string) : result unit :=
  guard! fail_if (negb (matchb fstabDevicePattern device)) (Errorf "refusing fstab entry: %q is not a device path" [device]) ;;
  guard! fail_if (negb (matchb fstabMountPattern mountPoint)) (Errorf "refusing fstab entry: %q is not a mount point" [mountPoint]) ;;
  guard! fail_if (negb (matchb fstabTypePattern fsType)) (Errorf "refusing fstab entry: %q is not a filesystem type" [fsType]) ;;
  fail_if (mem ".." (split_byte "/" mountPoint)) (Errorf "refusing fstab entry: mount point %q escapes upward" [mountPoint]).

(** [strings.TrimRight] of line breaks. *)
Fixpoint trim_newlines (s : string) : string :=
  match s with
  | "" => ""
  | String a r => let t := trim_newlines r in if String.eqb t "" && Ascii.eqb a lf then "" else String a t
  end.

Definition fstab_entry (device mountPoint fsType : string) : string :=
  device +:+ " " +:+ mountPoint +:+ " " +:+ fsType +:+ " defaults 0 2".

Definition appendFstabEntry (device mountPoint fsType : string) : svc Config (result unit) :=
  match validateFstabEntry device mountPoint fsType with
  | Err e => mret (Err e)
  | Ok _ =>
      try! existing := wrapping "read fstab: %w" [] (ReadFile "/etc/fstab") in
      let entry := fstab_entry device mountPoint fsType in
      if Contains existing entry then mret (Ok tt)
      else wrapping "write fstab: %w" [] (WriteFile "/etc/fstab" (trim_newlines existing +:+ nl +:+ entry +:+ nl) 420)
  end.

(** ** Arrays and file systems *)

Definition mount_new (device mountPoint : string) (mkfsFmt mountFmt : string) (args : list string) : svc Config (result unit) :=
  try! _ := wrapping mkfsFmt args (Run "mkfs.ext4" ["-F"; device]) in
  try! _ := wrapping "mkdir mount point: %w" [] (Run "mkdir" ["-p"; mountPoint]) in
  try! _ := wrapping mountFmt args (Run "mount" [device; mountPoint]) in
  wrapping "persist mount: %w" [] (appendFstabEntry device mountPoint "ext4").

Definition CreateRAID (level : Z) (devices : list string) (mountPoint : string) : svc Config (result unit) :=
  if (length devices <? 2)%nat && negb (level =? 0)
  then mret (Err (Errorf "RAID-%d requires at least 2 devices" [itoa level]))
  else
    c ← get;
    let mdDevice := raid_device c in
    try! _ := wrapping "mdadm create: %w" []
                (Run "mdadm" (["--create"; mdDevice; "--level"; itoa level; "--raid-devices"; itoa (Z.of_nat (length devices))] ++ devices)) in
    try! _ := mount_new mdDevice mountPoint "mkfs: %w" "mount: %w" [] in
    Run "mdadm" ["--detail"; "--scan"; "--verbose"] ;;
    c ← get;
    put (set_raid (mkRAIDConfig mdDevice level devices (RAIDConfig_MountPoint (raid c))) c) ;;
    mret (Ok tt).

Definition FormatAndMount (device mountPoint : string) : svc Config (result unit) :=
  mount_new device mountPoint "mkfs %s: %w" "mount %s: %w" [device].

(** ** What fstab says *)

(** The records of the file: the fields of each line that is neither blank nor
    a comment. *)
Definition fstab_records (text : string) : list (list string) :=
  List.filter (fun fs => match fs with [] => false | f :: _ => negb (HasPrefix f "#") end) (List.map Fields (split_byte lf text)).

Lemma fstab_records_app s t : fstab_records (s +:+ nl +:+ t) = fstab_records s ++ fstab_records t.
Proof.
  unfold fstab_records. change (s +:+ nl +:+ t) with (s +:+ String lf t). rewrite GoPath.split_byte_app, List.map_app.
  apply List.filter_app.
Qed.

Lemma trim_newlines_split s : exists n, s = trim_newlines s +:+ String.concat "" (repeat nl n).
Proof.
  induction s as [|a s [n IH]]; [by exists 0%nat|]. cbn [trim_newlines].
  destruct (String.eqb_spec (trim_newlines s) "") as [E|E]; cbn [andb].
  - destruct (Ascii.eqb_spec a lf) as [->|].
    + exists (S n). rewrite E in IH. rewrite IH at 1. by destruct n.
    + exists n. rewrite IH at 1. by rewrite E.
  - exists n. rewrite IH at 1. done.
Qed.

Lemma fstab_records_newline s : fstab_records (s +:+ nl) = fstab_records s.
Proof. rewrite <- (append_empty_r nl), fstab_records_app. by rewrite app_nil_r. Qed.

(** Dropping line breaks at the end drops no record. *)
Lemma trim_newlines_records s : fstab_records (trim_newlines s) = fstab_records s.
Proof.
  destruct (trim_newlines_split s) as [n E]. rewrite E at 2. clear E. generalize (trim_newlines s) as t.
  induction n as [|n IH]; intros t; [by rewrite append_empty_r|].
  assert (String.concat "" (repeat nl (S n)) = nl +:+ String.concat "" (repeat nl n)) as -> by (by destruct n).
  rewrite <- append_assoc, <- IH. by rewrite fstab_records_newline.
Qed.

Lemma lang_rlit p s : lang (rlit p) s -> s = p.
Proof.
  revert s. induction p as [|a p IH]; intros s H; inversion H as [| | | |r1 r2 x y H1 H2| |]; subst; [done|].
  inversion H1 as [|P b Hb| | | | |]; subst. apply Ascii.eqb_eq in Hb as <-. by rewrite (IH _ H2).
Qed.

(** A path of the file: a plain word that starts with a slash. *)
Lemma fstab_path_ok pre s : all_chars plain_char pre = true -> pre <> "" ->
  matchb (RSeq (rlit pre) (RSeq (RCls is_alnum) (RStar (RCls fstab_char)))) s = true ->
  field_ok s /\ HasPrefix s pre = true.
Proof.
  intros Hp Hne H. apply matchb_lang in H. inversion H as [| | | |r1 r2 x y H1 H2| |]; subst.
  apply lang_rlit in H1 as ->. split; [|apply HasPrefix_append]. split; [by destruct pre|]. rewrite all_chars_append, Hp. cbn [andb].
  eapply lang_over; [|exact H2]. split; intros a; apply ascii_impl; vm_compute; reflexivity.
Qed.

Lemma fstab_type_ok s : matchb fstabTypePattern s = true -> field_ok s.
Proof.
  unfold fstabTypePattern. rewrite matchb_plus_cls. intros H. bool_hyps. split; [done|].
  eapply all_chars_impl; [|eassumption]. apply ascii_impl. vm_compute. reflexivity.
Qed.

(** The line of an accepted entry is one record of six fields. *)
Lemma fstab_entry_record device mountPoint fsType : validateFstabEntry device mountPoint fsType = Ok tt ->
  fstab_records (fstab_entry device mountPoint fsType +:+ nl) = [[device; mountPoint; fsType; "defaults"; "0"; "2"]].
Proof.
  unfold validateFstabEntry. intros H. inv_ok. bool_hyps.
  match goal with H : matchb fstabDevicePattern _ = true |- _ => apply (fstab_path_ok "/dev/") in H as [Hd Hdp]; [|done..] end.
  match goal with H : matchb fstabMountPattern _ = true |- _ => apply (fstab_path_ok "/") in H as [Hm _]; [|done..] end.
  match goal with H : matchb fstabTypePattern _ = true |- _ => apply fstab_type_ok in H as Ht end.
  set (fs := [device; mountPoint; fsType; "defaults"; "0"; "2"]).
  assert (E : fstab_entry device mountPoint fsType = join " " fs) by (unfold fstab_entry, fs; cbn; done).
  assert (Hf : Forall field_ok fs) by (repeat constructor; try done; try apply Hd; try apply Hm; try apply Ht).
  rewrite fstab_records_newline. unfold fstab_records. rewrite E, split_byte_none.
  - cbn [List.map List.filter]. rewrite Fields_join by done. unfold fs. cbn [List.filter].
    apply HasPrefix_true in Hdp as [t ->]. done.
  - clear -Hf. induction Hf as [|x l [_ Hx] Hl IH]; [done|].
    assert (has_char lf x = false) as Hxl by (eapply chars_avoid; [exact Hx|vm_compute; reflexivity]).
    destruct l as [|y l]; [done|]. rewrite join_cons, !has_char_append, Hxl by done. exact IH.
Qed.

(** Recording a mount keeps every record of fstab and adds one.  Nothing is
    touched for values that would not make one record of six fields or point
    upwards; a file that could not be read is not written; and what is
    written has the records it had, in order, followed by exactly the new
    one.  Success means that the record was written or that its text was
    already in the file. *)
Theorem fstab_append_exact device mountPoint fsType w c (m := appendFstabEntry device mountPoint fsType) :
  state_after m w c = c
  /\ Forall (fun k => match k with
       | CReadFile p => p = "/etc/fstab"
       | CWriteFile p text _ => p = "/etc/fstab" /\ exists old, w [] (CReadFile "/etc/fstab") = Ok old
           /\ fstab_records text = fstab_records old ++ [[device; mountPoint; fsType; "defaults"; "0"; "2"]]
       | _ => False
       end) (calls_of m w c)
  /\ (is_ok (Sys.outcome m w c) = true ->
      ~ In ".." (split_byte "/" mountPoint)
      /\ exists old, w [] (CReadFile "/etc/fstab") = Ok old
         /\ (Contains old (fstab_entry device mountPoint fsType) = true
             \/ exists text, In (CWriteFile "/etc/fstab" text 420) (calls_of m w c))).
Proof.
  subst m. unfold state_after, calls_of, Sys.outcome, appendFstabEntry.
  destruct (validateFstabEntry device mountPoint fsType) as [[]|e] eqn:Ev; [|by split_and!].
  assert (Hup : ~ In ".." (split_byte "/" mountPoint)).
  { unfold validateFstabEntry in Ev. inv_ok. intros Hin. apply mem_In in Hin. congruence. }
  unfold try_bind, wrapping, ReadFile, WriteFile, perform, mbind, svc_bind, mret, svc_ret.
  destruct (w [] (CReadFile "/etc/fstab")) as [old|e] eqn:Er; cbn [wrap_err fst snd is_ok app];
    [|split; [done|]; split; [by repeat constructor|done]].
  destruct (Contains old _) eqn:Ec; cbn [fst snd is_ok].
  - split; [done|]. split; [by repeat constructor|]. intros _. split; [done|]. exists old. split; [done|by left].
  - split; [by destruct (w _ _)|]. assert (Hrec : fstab_records (trim_newlines old +:+ nl +:+ fstab_entry device mountPoint fsType +:+ nl)
      = fstab_records old ++ [[device; mountPoint; fsType; "defaults"; "0"; "2"]]).
    { by rewrite fstab_records_app, trim_newlines_records, fstab_entry_record. }
    destruct (w [CReadFile "/etc/fstab"] _) as [o|e]; cbn [discard wrap_err fst snd is_ok];
      (split; [repeat constructor; try done; by exists old|]); [|done].
    intros _. split; [done|]. exists old. split; [done|]. right. eexists. right. by left.
Qed.

(** ** Which disks are free *)

Inductive in_tree (x : blockDevice) : blockDevice -> Prop :=
| tree_here : in_tree x x
| tree_child n s m t mp children c : In c children -> in_tree x c -> in_tree x (mkBlock n s m t mp children).

Lemma mounted_sound : forall d, mounted d = true ->
  exists n s m t mp ch, in_tree (mkBlock n s m t (Some mp) ch) d /\ mp <> "".
Proof.
  fix IH 1. intros [n s m t mp children] H. cbn [mounted] in H. apply orb_prop in H as [H|H].
  - destruct mp as [mp|]; [|done]. exists n, s, m, t, mp, children. split; [constructor|].
    unfold nonempty in H. by apply negb_true_iff, String.eqb_neq in H.
  - assert (Hc : exists c, In c children /\ exists n s m t mp ch, in_tree (mkBlock n s m t (Some mp) ch) c /\ mp <> "").
    { clear n s m t mp. induction children as [|c children IHc]; [done|]. cbn [existsb] in H. apply orb_prop in H as [H|H].
      - exists c. split; [by left|]. by apply IH.
      - destruct (IHc H) as (c' & Hc & E). exists c'. split; [by right|done]. }
    destruct Hc as (c & Hc & n' & s' & m' & t' & mp' & ch' & Ht & Hne). exists n', s', m', t', mp', ch'. split; [|done].
    by apply (tree_child _ n s m t mp children c).
Qed.

Lemma mounted_complete x d : in_tree x d -> mounted x = true -> mounted d = true.
Proof.
  induction 1 as [|n s m t mp children c Hc Ht IH]; [done|]. intros Hx. cbn [mounted]. apply orb_true_iff. right.
  apply existsb_exists. exists c. split; [done|by apply IH].
Qed.

(** A disk is reported as free exactly when nothing on it, down to the last
    volume stacked on it, is mounted. *)
Lemma disk_in_use_iff d disk : disk_of d = Some disk ->
  ad_InUse disk = true <-> exists n s m t mp ch, in_tree (mkBlock n s m t (Some mp) ch) d /\ mp <> "".
Proof.
  destruct d as [n s m t mp ch]. cbn [disk_of]. destruct (negb (String.eqb t "disk")); [done|]. intros [= <-]. cbn [ad_InUse]. split.
  - exact (mounted_sound (mkBlock n s m t mp ch)).
  - intros (n' & s' & m' & t' & mp' & ch' & Ht & Hne). apply (mounted_complete _ _ Ht). cbn [mounted].
    unfold nonempty. apply String.eqb_neq in Hne. by rewrite Hne.
Qed.

(** ** Arrays *)

(** Formatting changes no state of the service. *)
Lemma mount_new_keeps device mountPoint f1 f2 args w h c : snd (fst (mount_new device mountPoint f1 f2 args w h c)) = c.
Proof.
  assert (Hk : keeps (fun _ => True) (eq c) (mount_new device mountPoint f1 f2 args))
    by (unfold mount_new, appendFstabEntry; walk; done).
  symmetry. by destruct (Hk w h c eq_refl).
Qed.

(** The configuration names the array once every step has succeeded, and is
    untouched otherwise. *)
Lemma CreateRAID_state level devices mountPoint w c (m := CreateRAID level devices mountPoint) :
  state_after m w c
  = if is_ok (Sys.outcome m w c) then set_raid (mkRAIDConfig (raid_device c) level devices (RAIDConfig_MountPoint (raid c))) c else c.
Proof.
  subst m. unfold state_after, Sys.outcome, CreateRAID. destruct ((length devices <? 2)%nat && _); [done|].
  unfold try_bind, wrapping, Run, perform, mbind, svc_bind, get, put, mret, svc_ret.
  destruct (w [] _) as [o|e]; cbn [wrap_err fst snd is_ok]; [|done].
  match goal with |- context [mount_new ?d ?p ?f ?g ?a w ?h c] =>
    pose proof (mount_new_keeps d p f g a w h c) as Hk; destruct (mount_new d p f g a w h c) as [[[u|e] c'] h'] end;
    cbn [fst snd is_ok] in *; by subst.
Qed.

(** ** Behaviours worth knowing *)

(** An entry that is commented out counts as present, so the mount is not
    recorded. *)
Example commented_entry_blocks_record :
  let old := "#/dev/sda1 /mnt/data ext4 defaults 0 2" +:+ nl in
  let w := (fun _ c => match c with CReadFile _ => Ok old | _ => Ok "" end) : world in
  let m := appendFstabEntry "/dev/sda1" "/mnt/data" "ext4" in
  Sys.outcome m w Config_zero = Ok tt /\ calls_of m w Config_zero = [CReadFile "/etc/fstab"] /\ fstab_records old = [].
Proof. vm_compute. by split_and!. Qed.

(** The patterns admit dots and slashes, so a device can point out of /dev. *)
Example device_may_escape : validateFstabEntry "/dev/a/../../etc/x" "/mnt/data" "ext4" = Ok tt.
Proof. vm_compute. reflexivity. Qed.

(** The mount point is checked only after the disk has been formatted and
    mounted. *)
Example formatted_before_checked :
  let w := (fun _ _ => Ok "") : world in
  let m := FormatAndMount "/dev/sdb" "/mnt/my disk" in
  is_ok (Sys.outcome m w Config_zero) = false
  /\ calls_of m w Config_zero = [CRun "mkfs.ext4" ["-F"; "/dev/sdb"] ""; CRun "mkdir" ["-p"; "/mnt/my disk"] ""; CRun "mount" ["/dev/sdb"; "/mnt/my disk"] ""].
Proof. vm_compute. by split. Qed.

(** ** The agent's verdict *)

Lemma storage_page_allowed : keeps allowed (fun _ => True) storage_HandlePage.
Proof. unfold storage_HandlePage, GetRAIDStatus, GetDiskUsage. walk; allow_call. Qed.

Lemma fstab_append_allowed device mountPoint fsType : keeps allowed (fun _ => True) (appendFstabEntry device mountPoint fsType).
Proof. unfold appendFstabEntry. walk; allow_call. Qed.

Lemma disk_tools_allowed decode device timeout :
  keeps allowed (fun _ => True) (DiscoverDisks decode) /\ keeps allowed (fun _ => True) (GetSMARTInfo device)
  /\ keeps allowed (fun _ => True) (SetHDDStandby device timeout).
Proof. unfold DiscoverDisks, GetSMARTInfo, SetHDDStandby. split_and!; walk; allow_call. Qed.

(** ** Witnesses *)

Lemma fstab_append_exact_witness :
  let old := "UUID=1 / ext4 errors=remount-ro 0 1" +:+ nl +:+ nl in
  let w := (fun _ c => match c with CReadFile _ => Ok old | _ => Ok "" end) : world in
  exists content, In (CWriteFile "/etc/fstab" content 420) (calls_of (appendFstabEntry "/dev/sda1" "/mnt/data" "ext4") w Config_zero).
Proof.
  intros old w.
  destruct (proj2 (proj2 (fstab_append_exact "/dev/sda1" "/mnt/data" "ext4" w Config_zero)) ltac:(vm_compute; reflexivity))
    as (_ & old' & E & [H|H]); [|exact H].
  exfalso. cbn in E. apply Ok_inj in E. subst old'. vm_compute in H. discriminate H.
Defined.
