(* ===== verification/Tls.v ===== *)
(** * internal/config/tls.go, internal/services/tls.go and internal/web/certreload.go

    The certificate of the web interface: where the pair lives, the self-signed
    generator, the mkcert mode, the installation of a pair issued elsewhere,
    the switch between modes, and the hook that serves the pair on disk.
    Certificates and their encoding are behind the class [X509]. *)

From S2P Require Import Prelude GoStrings GoTime GoPath GoNet GoIP Regex ConfigTypes Config AgentRules FirewallRender Sys SystemService Dns Schedule.

Local Open Scope Z_scope.
Local Open Scope go_scope.
Local Open Scope sys_scope.

(** ** Certificates *)

(** What the code reads of a parsed certificate. *)
Record Certificate : Type := mkCertificate {
  x_DNSNames : list string; x_IPAddresses : list IP; x_NotBefore : Z; x_NotAfter : Z; x_Issuer : string }.

(** What it asks for in one it signs. *)
Record Template : Type := mkTemplate {
  t_Serial : string; t_CommonName : string; t_Organization : list string; t_NotBefore : Z; t_NotAfter : Z;
  t_KeyUsage : Z; t_ExtKeyUsage : list Z; t_BasicConstraintsValid : bool; t_DNSNames : list string; t_IPAddresses : list IP }.

(** Packages encoding/pem and crypto/x509: the first block of a PEM text, the
    text of a block, the parser, the signer of a template with a key, and the
    encoding of a key.  A block can be read back, and a signed certificate
    parses to the names, addresses and expiry of its template, in whole seconds. *)
Class X509 : Type := {
  pem_Decode : string -> option string;
  pem_Encode : string -> string -> string;
  ParseCertificate : string -> result Certificate;
  CreateCertificate : Template -> string -> result string;
  MarshalECPrivateKey : string -> result string;
  pem_roundtrip kind bytes : pem_Decode (pem_Encode kind bytes) = Some bytes;
  created_parses t key der : CreateCertificate t key = Ok der ->
    exists c, ParseCertificate der = Ok c /\ x_DNSNames c = t_DNSNames t
              /\ List.map IP_String (x_IPAddresses c) = List.map IP_String (t_IPAddresses t)
              /\ x_Issuer c = t_CommonName t /\ x_NotAfter c = t_NotAfter t - t_NotAfter t mod second }.

Record TLSCertInfo : Type := mkCertInfo {
  ci_CertPath : string; ci_KeyPath : string; ci_NotBefore : Z; ci_NotAfter : Z; ci_Issuer : string; ci_SANs : list string }.

Definition tls_of (c : Config) : TLSConfig := SystemConfig_TLS (Config_System c).
Definition set_tls (t : TLSConfig) (c : Config) : Config := set_Config_System (set_SystemConfig_TLS t (Config_System c)) c.

(** [os.MkdirAll], [os.ReadFile], [os.Chmod] and [atomicWrite] on the
    process's own account. *)
Definition os_do {S} (what : string) (args : list string) : svc S (result unit) :=
  r ← LocalCall what args; mret (discard r).
Definition atomic_write {S} (path data : string) : svc S (result unit) := os_do "atomicWrite" [path; data].

(** The end of [time.Date]: the instant at which the clock of [loc] shows
    [unix] seconds. *)
Definition date_unix (loc : location) (unix : Z) : Z :=
  if loc_offset loc unix =? 0 then unix else unix - loc_offset loc (unix - loc_offset loc unix).

(** [t.AddDate(0, 0, days)]. *)
Definition AddDays (loc : location) (days t : Z) : Z := date_unix loc (wall loc t + days * 86400) * second + t mod second.

(** ** Paths *)

Definition tls_files (cfg : TLSConfig) (dataDir : string) : string * string :=
  if negb (String.eqb (TLSConfig_CertFile cfg) "") && negb (String.eqb (TLSConfig_KeyFile cfg) "")
  then (TLSConfig_CertFile cfg, TLSConfig_KeyFile cfg)
  else (Join [Join [dataDir; "tls"]; "server.crt"], Join [Join [dataDir; "tls"]; "server.key"]).

Definition certPaths {S} (cfg : TLSConfig) (dataDir : string) : svc S (result (string * string)) :=
  try! _ := wrapping "create tls dir: %w" [] (os_do "os.MkdirAll" [Join [dataDir; "tls"]; "0700"]) in
  mret (Ok (tls_files cfg dataDir)).

(** ** Self-signed certificates *)

(** [net.InterfaceAddrs], the addresses that are networks, without the
    loopback and the IPv6 ones. *)
Definition localIPv4Addrs (addrs : result (list IPNet)) : list IP :=
  match addrs with
  | Err _ => []
  | Ok l => List.filter (fun ip => negb (IsLoopback ip) && match To4 ip with Some _ => true | None => false end) (List.map net_ip l)
  end.

Definition san_ips (sans : list string) : list IP := omap ParseIP sans.
Definition san_names (sans : list string) : list string :=
  List.filter (fun s => match ParseIP s with Some _ => false | None => true end) sans.

Definition selfSignedTemplate (cfg : TLSConfig) (loc : location) (now : Z) (addrs : result (list IPNet)) (serial : string) : Template :=
  let ss := TLSConfig_SelfSigned cfg in
  let cn := orDefault (SelfSignedConfig_CN ss) "hermes.lan" in
  let validDays := if SelfSignedConfig_ValidDays ss <=? 0 then 3650 else SelfSignedConfig_ValidDays ss in
  let names := san_names (SelfSignedConfig_SANs ss) in
  let ips := san_ips (SelfSignedConfig_SANs ss) in
  let none := match names, ips with [], [] => true | _, _ => false end in
  mkTemplate serial cn ["LANKeeper"] now (AddDays loc validDays now) (Z.lor 1 4) [1] true
    (if none then [cn; "localhost"] else names)
    (if none then default [] (ParseIP "127.0.0.1") :: localIPv4Addrs addrs else ips).

Section Certs.
Context `{X509}.
(** The clock, its zone and the addresses of the machine. *)
Variable loc : location.
Variable now : Z.
Variable addrs : result (list IPNet).

Definition info_of (certPath keyPath : string) (c : Certificate) : TLSCertInfo :=
  mkCertInfo certPath keyPath (x_NotBefore c) (x_NotAfter c) (x_Issuer c) (x_DNSNames c ++ List.map IP_String (x_IPAddresses c)).

Definition cert_of (text : string) : result Certificate :=
  match pem_Decode text with
  | None => Err (Errorf "decode PEM: no valid block found" [])
  | Some der => wrap_err "parse cert: %w" [] (ParseCertificate der)
  end.

Definition readCertInfo {S} (certPath keyPath : string) : svc S (result TLSCertInfo) :=
  try! text := wrapping "read cert: %w" [] (LocalCall "os.ReadFile" [certPath]) in
  mret (let? c := cert_of text in Ok (info_of certPath keyPath c)).

Definition writeKeyPair {S} (certPath keyPath certDER key : string) : svc S (result unit) :=
  match MarshalECPrivateKey key with
  | Err e => mret (Err (Errorw "marshal key: %w" [] e))
  | Ok keyDER =>
      try! _ := wrapping "write cert: %w" [] (atomic_write certPath (pem_Encode "CERTIFICATE" certDER)) in
      try! _ := wrapping "write key: %w" [] (atomic_write keyPath (pem_Encode "EC PRIVATE KEY" keyDER)) in
      wrapping "chmod key: %w" [] (os_do "os.Chmod" [keyPath; "0600"])
  end.

Definition generateSelfSigned {S} (cfg : TLSConfig) (certPath keyPath : string) : svc S (result TLSCertInfo) :=
  try! key := wrapping "generate key: %w" [] (LocalCall "ecdsa.GenerateKey" []) in
  try! serial := wrapping "generate serial: %w" [] (LocalCall "rand.Int" ["128"]) in
  match CreateCertificate (selfSignedTemplate cfg loc now addrs serial) key with
  | Err e => mret (Err (Errorw "create certificate: %w" [] e))
  | Ok certDER =>
      try! _ := writeKeyPair certPath keyPath certDER key in
      readCertInfo certPath keyPath
  end.

Definition RegenerateSelfSigned {S} (cfg : TLSConfig) (dataDir : string) : svc S (result TLSCertInfo) :=
  try! p := certPaths cfg dataDir in generateSelfSigned cfg (fst p) (snd p).

Definition ReadTLSCertInfo {S} (cfg : TLSConfig) (dataDir : string) : svc S (result TLSCertInfo) :=
  try! p := certPaths cfg dataDir in readCertInfo (fst p) (snd p).

Definition ensureSelfSigned {S} (cfg : TLSConfig) (certPath keyPath : string) : svc S (result TLSCertInfo) :=
  st ← LocalCall "os.Stat" [certPath];
  if is_ok st then
    r ← readCertInfo certPath keyPath;
    match r with
    | Ok info => if now <? ci_NotAfter info then mret (Ok info) else generateSelfSigned cfg certPath keyPath
    | Err _ => generateSelfSigned cfg certPath keyPath
    end
  else generateSelfSigned cfg certPath keyPath.

(** The certificate of a mode that is issued elsewhere. *)
Definition existing {S} (certPath keyPath format : string) : svc S (result TLSCertInfo) :=
  st ← LocalCall "os.Stat" [certPath];
  if is_ok st then readCertInfo certPath keyPath else mret (Err (Errorf format [certPath])).

Definition EnsureTLSCert {S} (cfg : TLSConfig) (dataDir : string) : svc S (result TLSCertInfo) :=
  try! p := certPaths cfg dataDir in
  let mode := TLSConfig_Mode cfg in
  if String.eqb mode "self-signed" || String.eqb mode "" then ensureSelfSigned cfg (fst p) (snd p)
  else if String.eqb mode "mkcert"
  then existing (fst p) (snd p) "mkcert certificates not found at %s; run 'mkcert' to generate"
  else if String.eqb mode "acme"
  then existing (fst p) (snd p) "ACME certificates not found at %s; configure DNS-01 challenge"
  else mret (Err (Errorf "unknown TLS mode: %s" [mode])).

(** The texts [InstallTLSPair] is willing to write. *)
Definition pair_checked (certPEM keyPEM : string) : result unit :=
  match pem_Decode certPEM with
  | None => Err (Errorf "decode certificate PEM: no valid block found" [])
  | Some der =>
      let? _ := wrap_err "parse certificate: %w" [] (ParseCertificate der) in
      match pem_Decode keyPEM with
      | None => Err (Errorf "decode key PEM: no valid block found" [])
      | Some _ => Ok tt
      end
  end.

Definition InstallTLSPair {S} (cfg : TLSConfig) (dataDir certPEM keyPEM : string) : svc S (result TLSCertInfo) :=
  match pair_checked certPEM keyPEM with
  | Err e => mret (Err e)
  | Ok _ =>
      try! p := certPaths cfg dataDir in
      let '(certPath, keyPath) := p in
      try! _ := wrapping "write key: %w" [] (atomic_write keyPath keyPEM) in
      try! _ := wrapping "chmod key: %w" [] (os_do "os.Chmod" [keyPath; "0600"]) in
      try! _ := wrapping "write cert: %w" [] (atomic_write certPath certPEM) in
      readCertInfo certPath keyPath
  end.

(** ** The service *)

Definition maxSelfSignedValidDays : Z := 3650.
Definition maxSANs : nat := 16.

Definition ErrInvalidSAN : error := Errorf "a subject alternative name must be an IP address or a hostname" [].
Definition ErrTooManySANs : error := Errorf "at most %d subject alternative names are allowed" [itoa (Z.of_nat maxSANs)].
Definition ErrInvalidValidity : error := Errorf "validity must be between 1 and %d days" [itoa maxSelfSignedValidDays].
Definition ErrNotSelfSigned : error := Errorf "the TLS mode is not self-signed, so there is nothing to regenerate" [].
Definition ErrNoSANs : error := Errorf "mkcert needs at least one name or address to issue for" [].
Definition ErrNoMkcertCA : error := Errorf "no mkcert CA certificate on disk" [].
Definition ErrUnknownTLSMode : error := Errorf "unknown TLS mode" [].

Definition ValidateSAN (s : string) : result unit :=
  match ParseIP s with
  | Some _ => Ok tt
  | None => match ValidateDomain s with Ok _ => Ok tt | Err _ => Err (Errorw "%w: %q" [s] ErrInvalidSAN) end
  end.

(** The loop over the names. *)
Fixpoint check_sans (sans : list string) : result unit :=
  match sans with
  | [] => Ok tt
  | s :: rest => let? _ := ValidateSAN s in check_sans rest
  end.

(** [strings.FieldsFunc]; [cur] is the field being read, reversed. *)
Fixpoint fields_func (sep : ascii -> bool) (cur s : string) : list string :=
  let flush := if String.eqb cur "" then [] else [cur] in
  match s with
  | "" => flush
  | String a r => if sep a then flush ++ fields_func sep "" r else fields_func sep (cur +:+ char_str a) r
  end.

Definition san_sep (a : ascii) : bool := Ascii.eqb a "," || char_in (" " +:+ char_str "009" +:+ nl +:+ char_str "013") a.

Definition ParseSANs (raw : string) : result (list string) :=
  let fields := fields_func san_sep "" raw in
  if (maxSANs <? length fields)%nat then Err ErrTooManySANs
  else let? _ := check_sans fields in Ok fields.

Definition validateSANs (sans : list string) : result unit :=
  match sans with
  | [] => Err ErrNoSANs
  | _ => guard! fail_if (maxSANs <? length sans)%nat ErrTooManySANs ;; check_sans sans
  end.

Variable dataDir : string.

Definition tls_Info : svc Config (result TLSCertInfo) := c ← get; ReadTLSCertInfo (tls_of c) dataDir.
Definition Settings : svc Config TLSConfig := c ← get; mret (tls_of c).

(** [s.cfg.System.TLS = next] and the save. *)
Definition record_tls (next : TLSConfig) (info : TLSCertInfo) : svc Config (result TLSCertInfo) :=
  c ← get;
  put (set_tls next c) ;;
  try! _ := wrapping "persist tls settings: %w" [] (SaveToFile (set_tls next c)) in
  mret (Ok info).

Definition self_signed_checked (cn : string) (sans : list string) (validDays : Z) : result unit :=
  let? _ := ValidateDomain cn in
  guard! fail_if ((validDays <? 1) || (maxSelfSignedValidDays <? validDays)) (Errorw "%w: %d" [itoa validDays] ErrInvalidValidity) ;;
  let? _ := check_sans sans in
  fail_if (maxSANs <? length sans)%nat ErrTooManySANs.

Definition next_self_signed (cn : string) (sans : list string) (validDays : Z) (c : Config) : TLSConfig :=
  set_TLSConfig_SelfSigned (mkSelfSignedConfig cn validDays sans) (set_TLSConfig_Mode "self-signed" (tls_of c)).

Definition issueSelfSigned (cn : string) (sans : list string) (validDays : Z) : svc Config (result TLSCertInfo) :=
  match self_signed_checked cn sans validDays with
  | Err e => mret (Err e)
  | Ok _ =>
      c ← get;
      let next := next_self_signed cn sans validDays c in
      try! info := wrapping "generate certificate: %w" [] (RegenerateSelfSigned next dataDir) in
      record_tls next info
  end.

Definition Regenerate (cn : string) (sans : list string) (validDays : Z) : svc Config (result TLSCertInfo) :=
  c ← get;
  let mode := TLSConfig_Mode (tls_of c) in
  if negb (String.eqb mode "") && negb (String.eqb mode "self-signed")
  then mret (Err (Errorw "%w: mode is %q" [mode] ErrNotSelfSigned))
  else issueSelfSigned cn sans validDays.

Definition stageCert : string := Join [MkcertCARoot; "staged.crt"].
Definition stageKey : string := Join [MkcertCARoot; "staged.key"].

Definition issueMkcertPair (sans : list string) : svc Config (result (string * string)) :=
  try! _ := wrapping "create mkcert root: %w" [] (MkdirAll MkcertCARoot 448) in
  try! _ := wrapping "issue mkcert certificate: %w" []
              (Run "mkcert" (["-cert-file"; stageCert; "-key-file"; stageKey] ++ sans)) in
  r ← (try! certPEM := wrapping "read issued certificate: %w" [] (ReadFile stageCert) in
       try! keyPEM := wrapping "read issued key: %w" [] (ReadFile stageKey) in
       mret (Ok (certPEM, keyPEM)));
  Run "rm" ["-f"; stageCert; stageKey] ;;
  mret r.

Definition next_mkcert (sans : list string) (c : Config) : TLSConfig :=
  set_TLSConfig_Mkcert (set_MkcertConfig_SANs sans (TLSConfig_Mkcert (tls_of c))) (set_TLSConfig_Mode "mkcert" (tls_of c)).

Definition enableMkcert (sans : list string) : svc Config (result TLSCertInfo) :=
  match validateSANs sans with
  | Err e => mret (Err e)
  | Ok _ =>
      try! p := issueMkcertPair sans in
      c ← get;
      let next := next_mkcert sans c in
      try! info := wrapping "install mkcert certificate: %w" [] (InstallTLSPair next dataDir (fst p) (snd p)) in
      record_tls next info
  end.

Definition EnableMkcert (sans : list string) : svc Config (result TLSCertInfo) := enableMkcert sans.

Definition SwitchMode (mode cn : string) (sans : list string) (validDays : Z) : svc Config (result TLSCertInfo) :=
  if String.eqb mode "self-signed" || String.eqb mode "" then issueSelfSigned cn sans validDays
  else if String.eqb mode "mkcert" then enableMkcert sans
  else mret (Err (Errorw "%w: %q" [mode] ErrUnknownTLSMode)).

Definition MkcertCA : svc Config (result string) :=
  r ← ReadFile (Join [MkcertCARoot; "rootCA.pem"]);
  mret (match r with Ok pem => Ok pem | Err e => Err (Errorw "%w: %v" (Config.error_text e) ErrNoMkcertCA) end).

Definition Restart {S} : svc S (result unit) :=
  try! _ := wrapping "restart service: %w" [] (Run "systemctl" ["restart"; "lankeeper.target"]) in mret (Ok tt).

End Certs.

(** ** Lemmas: runs that succeed *)

Section Runs.
Context {S : Type}.
Implicit Types (w : world) (h : list call) (s : S).

Lemma try_ok {A B} (m : svc S (result A)) (k : A -> svc S (result B)) w h s b s' h' :
  try_bind m k w h s = (Ok b, s', h') -> exists a s1 h1, m w h s = (Ok a, s1, h1) /\ k a w h1 s1 = (Ok b, s', h').
Proof.
  unfold try_bind, mbind, svc_bind. destruct (m w h s) as [[[a|e] s1] h1] eqn:E; [|done].
  intros Hk. by exists a, s1, h1.
Qed.

Lemma wrapping_ok {A} f args (m : svc S (result A)) w h s a s' h' :
  wrapping f args m w h s = (Ok a, s', h') -> m w h s = (Ok a, s', h').
Proof.
  unfold wrapping, mbind, svc_bind, mret, svc_ret. destruct (m w h s) as [[[x|e] s1] h1]; cbn [wrap_err]; [|done].
  by intros [= -> -> ->].
Qed.

Lemma perform_ok c w h s o s' h' : perform c w h s = (Ok o, s', h') -> w h c = Ok o /\ s' = s /\ h' = h ++ [c].
Proof. unfold perform. by intros [= -> -> ->]. Qed.

Lemma os_do_ok what args w h s u s' h' :
  os_do what args w h s = (Ok u, s', h') -> is_ok (w h (CLocal what args)) = true /\ s' = s /\ h' = h ++ [CLocal what args].
Proof.
  unfold os_do, LocalCall, perform, mbind, svc_bind, mret, svc_ret. destruct (w h _) as [o|e]; cbn [discard]; [|done].
  by intros [= <- <- <-].
Qed.
End Runs.

(** Takes apart the run of a program that succeeded. *)
Ltac inv_run :=
  repeat match goal with
  | H : try_bind _ _ _ _ _ = (Ok _, _, _) |- _ =>
      apply try_ok in H; let a := fresh "a" in let s := fresh "s" in let h := fresh "h" in
      let H1 := fresh "Hr" in destruct H as (a & s & h & H1 & H)
  | H : wrapping _ _ _ _ _ _ = (Ok _, _, _) |- _ => apply wrapping_ok in H
  | H : perform _ _ _ _ = (Ok _, _, _) |- _ =>
      apply perform_ok in H; let Hw := fresh "Hw" in destruct H as (Hw & ? & ?); subst
  | H : LocalCall _ _ _ _ _ = (Ok _, _, _) |- _ => unfold LocalCall in H
  | H : atomic_write _ _ _ _ _ = (Ok _, _, _) |- _ => unfold atomic_write in H
  | H : os_do _ _ _ _ _ = (Ok _, _, _) |- _ =>
      apply os_do_ok in H; let Hw := fresh "Hw" in destruct H as (Hw & ? & ?); subst
  | H : mret _ _ _ _ = (_, _, _) |- _ => unfold mret, svc_ret in H; simplify_eq
  end.

(** ** The pair and the mode *)

(** The call was made in the run [h] and answered with success. *)
Definition succeeded (w : world) (h : list call) (c : call) : Prop :=
  exists h1 h2, h = h1 ++ c :: h2 /\ is_ok (w h1 c) = true.

Lemma succeeded_app w h l c : succeeded w h c -> succeeded w (h ++ l) c.
Proof. intros (h1 & h2 & -> & Hc). exists h1, (h2 ++ l). split; [by rewrite <- app_assoc|done]. Qed.

Lemma succeeded_here w h c : is_ok (w h c) = true -> succeeded w (h ++ [c]) c.
Proof. intros Hc. by exists h, []. Qed.
#[export] Hint Resolve succeeded_app succeeded_here : sys.

Definition no_save (c : call) : Prop := match c with CSave _ => False | _ => True end.

(** Both files of the pair that [t] serves were written, the key readable by
    its owner only, with texts that hold a certificate and a key. *)
Definition pair_in_place `{X509} (dataDir : string) (w : world) (h : list call) (t : TLSConfig) : Prop :=
  exists certPEM keyPEM,
    succeeded w h (CLocal "atomicWrite" [fst (tls_files t dataDir); certPEM])
    /\ succeeded w h (CLocal "atomicWrite" [snd (tls_files t dataDir); keyPEM])
    /\ succeeded w h (CLocal "os.Chmod" [snd (tls_files t dataDir); "0600"])
    /\ is_ok (cert_of certPEM) = true /\ pem_Decode keyPEM <> None.

(** The run either changed nothing and saved nothing, or put the pair of the
    settings [next] in place, then took them over, then saved them. *)
Definition follows `{X509} (dataDir : string) (w : world) (h : list call) (c : Config) (next : TLSConfig)
    (x : result TLSCertInfo * Config * list call) : Prop :=
  exists l, snd x = h ++ l
    /\ ((snd (fst x) = c /\ Forall no_save l /\ is_ok (fst (fst x)) = false)
        \/ (snd (fst x) = set_tls next c /\ exists pre, l = pre ++ [CSave (set_tls next c)] /\ Forall no_save pre
            /\ pair_in_place dataDir w (h ++ pre) next
            /\ is_ok (fst (fst x)) = is_ok (w (h ++ pre) (CSave (set_tls next c))))).

Section Mode.
Context `{X509} (loc : location) (now : Z) (addrs : result (list IPNet)) (dataDir : string).

Lemma pair_in_place_app w h l t : pair_in_place dataDir w h t -> pair_in_place dataDir w (h ++ l) t.
Proof. intros (c & k & H1 & H2 & H3 & H4). exists c, k. eauto 7 with sys. Qed.

Lemma certPaths_ok {S} t w h (s : S) p s' h' : certPaths t dataDir w h s = (Ok p, s', h') -> p = tls_files t dataDir.
Proof. unfold certPaths. intros E. by inv_run. Qed.

Lemma cert_of_encoded t key der : CreateCertificate t key = Ok der -> is_ok (cert_of (pem_Encode "CERTIFICATE" der)) = true.
Proof. intros E. unfold cert_of. rewrite pem_roundtrip. by destruct (created_parses _ _ _ E) as (c & -> & _). Qed.

Lemma readCertInfo_ok {S} cp kp w h (s : S) i s' h' : readCertInfo cp kp w h s = (Ok i, s', h') ->
  exists text c, w h (CLocal "os.ReadFile" [cp]) = Ok text /\ cert_of text = Ok c /\ i = info_of cp kp c
    /\ s' = s /\ h' = h ++ [CLocal "os.ReadFile" [cp]].
Proof.
  unfold readCertInfo. intros E. inv_run. destruct (cert_of _) as [c|] eqn:Ec; [|done]. cbn [result_bind] in *. simplify_eq.
  by eexists _, c.
Qed.

Lemma regenerated_in_place {S} t w h (s : S) i s' h' :
  RegenerateSelfSigned loc now addrs t dataDir w h s = (Ok i, s', h') -> pair_in_place dataDir w h' t.
Proof.
  unfold RegenerateSelfSigned, generateSelfSigned, writeKeyPair. intros E. inv_run.
  match goal with H : certPaths _ _ _ _ _ = _ |- _ => apply certPaths_ok in H end. subst.
  destruct (CreateCertificate _ _) as [der|] eqn:Ec; [|done]. destruct (MarshalECPrivateKey _) as [kd|]; [|by inv_run].
  inv_run. apply readCertInfo_ok in E as (text & c & _ & _ & _ & -> & ->).
  exists (pem_Encode "CERTIFICATE" der), (pem_Encode "EC PRIVATE KEY" kd).
  split_and!; eauto 6 using cert_of_encoded with sys. by rewrite pem_roundtrip.
Qed.

Lemma pair_checked_ok c k : pair_checked c k = Ok tt -> is_ok (cert_of c) = true /\ pem_Decode k <> None.
Proof.
  unfold pair_checked, cert_of. destruct (pem_Decode c) as [der|]; [|done]. destruct (ParseCertificate der); [|done].
  cbn. by destruct (pem_Decode k).
Qed.

Lemma installed_in_place {S} t certPEM keyPEM w h (s : S) i s' h' :
  InstallTLSPair t dataDir certPEM keyPEM w h s = (Ok i, s', h') -> pair_in_place dataDir w h' t.
Proof.
  unfold InstallTLSPair. destruct (pair_checked certPEM keyPEM) as [[]|] eqn:Ep; [|done]. intros E. inv_run.
  match goal with H : certPaths _ _ _ _ _ = _ |- _ => apply certPaths_ok in H end. subst.
  destruct (tls_files t dataDir) as [cp kp] eqn:Ef. inv_run. apply readCertInfo_ok in E as (text & c & _ & _ & _ & -> & ->).
  apply pair_checked_ok in Ep as [Hc Hk]. exists certPEM, keyPEM. rewrite Ef. cbn [fst snd]. split_and!; eauto 6 with sys.
Qed.

Lemma regenerate_quiet {S} (I : S -> Prop) t : keeps no_save I (RegenerateSelfSigned loc now addrs t dataDir).
Proof. unfold RegenerateSelfSigned, certPaths, generateSelfSigned, writeKeyPair, readCertInfo, atomic_write, os_do. walk; done. Qed.

Lemma install_quiet {S} (I : S -> Prop) t c k : keeps no_save I (InstallTLSPair t dataDir c k).
Proof. unfold InstallTLSPair, certPaths, readCertInfo, atomic_write, os_do. walk; done. Qed.

Lemma mkcert_quiet (I : Config -> Prop) sans : keeps no_save I (issueMkcertPair sans).
Proof. unfold issueMkcertPair. walk; done. Qed.

(** A step that saves nothing and leaves the settings alone. *)
Lemma follows_after {A} (m : svc Config (result A)) k w h c next :
  keeps no_save (eq c) m -> (forall a h1, m w h c = (Ok a, c, h1) -> follows dataDir w h1 c next (k a w h1 c)) ->
  follows dataDir w h c next (try_bind m k w h c).
Proof.
  intros Hm Hk. destruct (Hm w h c eq_refl) as [Hc (t & Ht & HP)]. unfold try_bind, mbind, svc_bind.
  destruct (m w h c) as [[[a|e] c1] h1] eqn:Em; cbn [fst snd] in *; subst.
  - destruct (Hk a (h ++ t) eq_refl) as (l & El & Hl). exists (t ++ l). rewrite app_assoc. split; [done|].
    destruct Hl as [(H1 & H2 & H3)|(H1 & pre & -> & H2 & H3 & H4)].
    + left. split_and!; try done. by apply List.Forall_app.
    + right. split; [done|]. exists (t ++ pre). rewrite !app_assoc in *. split_and!; try done. by apply List.Forall_app.
  - exists t. split; [done|]. by left.
Qed.

Lemma keeps_eq_wrapping {A} f args (m : svc Config (result A)) c : keeps no_save (eq c) m -> keeps no_save (eq c) (wrapping f args m).
Proof. apply keeps_wrapping. Qed.

Lemma record_follows w h c next info : pair_in_place dataDir w h next -> follows dataDir w h c next (record_tls next info w h c).
Proof.
  intros Hp. unfold record_tls, try_bind, wrapping, SaveToFile, perform, get, put, mbind, svc_bind, mret, svc_ret. cbn [fst snd].
  exists [CSave (set_tls next c)]. destruct (w h (CSave (set_tls next c))) as [o|e] eqn:E; cbn [discard wrap_err fst snd];
    (split; [done|]); right; (split; [done|]); exists []; rewrite app_nil_r, E; by split_and!.
Qed.

(** What every operation that records a mode is made of: issue, then record. *)
Lemma issue_then_record f args (m : svc Config (result TLSCertInfo)) w h c next :
  keeps no_save (eq c) m ->
  (forall i c' h', m w h c = (Ok i, c', h') -> pair_in_place dataDir w h' next) ->
  follows dataDir w h c next ((try! info := wrapping f args m in record_tls next info) w h c).
Proof.
  intros Hq Hp. apply follows_after; [by apply keeps_wrapping|]. intros i h1 E. apply wrapping_ok in E.
  apply record_follows. by eapply Hp.
Qed.

Lemma follows_error w h c next e : follows dataDir w h c next (Err e, c, h).
Proof. exists []. rewrite app_nil_r. split; [done|]. by left. Qed.

Lemma issueSelfSigned_follows cn sans days w h c :
  follows dataDir w h c (next_self_signed cn sans days c) (issueSelfSigned loc now addrs dataDir cn sans days w h c).
Proof.
  unfold issueSelfSigned. destruct (self_signed_checked cn sans days) as [u|e]; [|apply follows_error].
  unfold mbind, svc_bind, get. apply issue_then_record; [apply regenerate_quiet|]. apply regenerated_in_place.
Qed.

Lemma enableMkcert_follows sans w h c :
  follows dataDir w h c (next_mkcert sans c) (enableMkcert dataDir sans w h c).
Proof.
  unfold enableMkcert. destruct (validateSANs sans) as [u|e]; [|apply follows_error].
  apply follows_after; [apply mkcert_quiet|]. intros p h1 _. unfold mbind, svc_bind, get.
  apply issue_then_record; [apply install_quiet|]. apply installed_in_place.
Qed.

End Mode.

(** ** Lemmas: names *)

Lemma ContainsFunc_plain f s : all_chars (fun a => (byte_val a <? 128) && negb (f (byte_val a))) s = true -> ContainsFunc s f = false.
Proof.
  intros Hs. unfold ContainsFunc. rewrite runes_ascii.
  - induction s as [|a s IH]; [done|]. cbn [all_chars] in Hs. bool_hyps. cbn [list_ascii_of_string fmap list_fmap existsb].
    change (rune_of (Some (byte_val a), char_str a)) with (byte_val a).
    match goal with H : f _ = false |- _ => rewrite H end. by apply IH.
  - eapply all_chars_impl; [|exact Hs]. intros a Ha. by apply andb_prop in Ha as [Ha _].
Qed.

(** The characters of an address or a domain. *)
Definition san_char (a : ascii) : bool := is_alnum a || char_in ".:-" a.

Lemma san_ok s : ValidateSAN s = Ok tt -> s <> "" /\ all_chars san_char s = true /\ HasPrefix s "-" = false.
Proof.
  unfold ValidateSAN. destruct (ParseIP s) as [ip|] eqn:Ep.
  - intros _. split; [by intros ->|].
    assert (Hc : all_chars addr_char s = true) by (by eapply ParseIP_chars). split.
    + eapply all_chars_impl; [|exact Hc]. apply ascii_impl. vm_compute. reflexivity.
    + destruct s as [|a s]; [done|]. cbn [all_chars] in Hc. bool_hyps.
      destruct (HasPrefix (String a s) "-") eqn:E; [|done]. apply HasPrefix_true in E as [t [= -> _]]. done.
  - destruct (ValidateDomain s) as [[]|] eqn:Ed; [|done]. intros _.
    destruct (ValidateDomain_head s Ed) as (a & t & -> & Ha). split; [done|]. split.
    + eapply all_chars_impl; [|exact (ValidateDomain_chars _ Ed)]. apply ascii_impl. vm_compute. reflexivity.
    + destruct (HasPrefix (String a t) "-") eqn:E; [|done]. apply HasPrefix_true in E as [u [= -> _]]. done.
Qed.

Lemma san_host_name s : ValidateSAN s = Ok tt -> host_name s.
Proof.
  intros H. destruct (san_ok s H) as (Hne & Hc & Hd). split; [done|]. split; [done|]. apply ContainsFunc_plain.
  eapply all_chars_impl; [|exact Hc]. apply ascii_impl. vm_compute. reflexivity.
Qed.

Lemma check_sans_iff sans : check_sans sans = Ok tt <-> Forall (fun s => ValidateSAN s = Ok tt) sans.
Proof.
  induction sans as [|s sans IH]; cbn [check_sans]; [by split|]. rewrite List.Forall_cons_iff, <- IH.
  destruct (ValidateSAN s) as [[]|]; cbn [result_bind]; (split; [intros Hs|intros [Hv Hs]]); by try split.
Qed.

(** A word without separators in front of the rest. *)
Lemma fields_word sep cur x s : all_chars (fun a => negb (sep a)) x = true ->
  fields_func sep cur (x +:+ s) = fields_func sep (cur +:+ x) s.
Proof.
  revert cur. induction x as [|a x IH]; intros cur Hx; [by rewrite append_empty_r|]. cbn [all_chars] in Hx. bool_hyps.
  cbn [append fields_func]. match goal with H : sep a = false |- _ => rewrite H end. rewrite IH by done.
  by rewrite append_assoc.
Qed.

Lemma fields_join sep pre l : all_chars sep pre = true -> pre <> "" ->
  Forall (fun x => x <> "" /\ all_chars (fun a => negb (sep a)) x = true) l -> fields_func sep "" (join pre l) = l.
Proof.
  intros Hp Hne. assert (Hskip : forall s, fields_func sep "" (pre +:+ s) = fields_func sep "" s).
  { intros s. clear Hne. induction pre as [|a p IH]; [done|]. cbn [all_chars] in Hp. bool_hyps. cbn [append fields_func].
    match goal with H : sep a = true |- _ => rewrite H end. by apply IH. }
  assert (Hend : forall x s, x <> "" -> fields_func sep x (pre +:+ s) = x :: fields_func sep "" (pre +:+ s)).
  { intros x s Hx. destruct pre as [|a p]; [done|]. cbn [all_chars] in Hp. bool_hyps. cbn [append fields_func].
    match goal with H : sep a = true |- _ => rewrite H end. apply String.eqb_neq in Hx. by rewrite Hx. }
  induction 1 as [|x l [Hx Hc] Hl IH]; [done|]. destruct l as [|y l].
  - change (join pre [x]) with x. pose proof (fields_word sep "" x "" Hc) as E. rewrite append_empty_r in E. rewrite E.
    cbn [append fields_func]. apply String.eqb_neq in Hx. by rewrite Hx.
  - rewrite join_cons, fields_word by done. cbn [append]. by rewrite Hend, Hskip, IH.
Qed.

(** The names the settings page shows are the names it sends back. *)
Lemma ParseSANs_roundtrip sans : check_sans sans = Ok tt -> (length sans <= maxSANs)%nat -> ParseSANs (join ", " sans) = Ok sans.
Proof.
  intros Hs Hn. unfold ParseSANs. rewrite fields_join; [| done..|].
  - apply Nat.ltb_ge in Hn. by rewrite Hn, Hs.
  - apply check_sans_iff in Hs. eapply Forall_impl; [|exact Hs]. intros s H. destruct (san_ok s H) as (Hne & Hc & _).
    split; [done|]. eapply all_chars_impl; [|exact Hc]. apply ascii_impl. vm_compute. reflexivity.
Qed.

Lemma ParseSANs_ok raw sans : ParseSANs raw = Ok sans -> check_sans sans = Ok tt /\ (length sans <= maxSANs)%nat.
Proof.
  unfold ParseSANs. destruct (maxSANs <? _)%nat eqn:E; [done|]. apply Nat.ltb_ge in E.
  destruct (check_sans _) as [[]|] eqn:Ec; cbn [result_bind]; [|done]. by intros [= <-].
Qed.

(** ** The agent's verdict *)

Lemma mkcert_call_allowed sans : validateSANs sans = Ok tt ->
  allowed (CRun "mkcert" (["-cert-file"; stageCert; "-key-file"; stageKey] ++ sans) "").
Proof.
  intros Hs. unfold allowed, allowedb. change (Base "mkcert") with "mkcert". change (mem "mkcert" allowedCommands) with true.
  unfold validateInvocation. change (argValidators no_links W0 R0 "mkcert") with (Some validateMkcertArgs).
  change (stdinValidators "mkcert") with (@None (string -> result unit)).
  assert (Hv : validateMkcertArgs (["-cert-file"; stageCert; "-key-file"; stageKey] ++ sans) = Ok tt).
  { apply (mkcert_iff no_links W0 R0). destruct sans as [|s sans]; [done|]. apply permit_mkcert; [done|].
    unfold validateSANs in Hs. destruct (fail_if _ _); [|done]. cbn [result_bind] in Hs. apply check_sans_iff in Hs.
    eapply List.Forall_impl; [|exact Hs]. exact san_host_name. }
  revert Hv. generalize (["-cert-file"; stageCert; "-key-file"; stageKey] ++ sans). intros l Hv. cbn [andb]. by rewrite Hv.
Qed.

Section Verdict.
Context `{X509} (loc : location) (now : Z) (addrs : result (list IPNet)) (dataDir : string).

(** What the certificate service asks of the agent is within its tables. *)
Lemma tls_allowed mode cn sans days :
  keeps allowed (fun _ => True) (SwitchMode loc now addrs dataDir mode cn sans days)
  /\ keeps allowed (fun _ => True) (Regenerate loc now addrs dataDir cn sans days)
  /\ keeps allowed (fun _ => True) MkcertCA /\ keeps allowed (fun _ : Config => True) Restart.
Proof.
  assert (H1 : forall S (I : S -> Prop) t, keeps allowed I (RegenerateSelfSigned loc now addrs t dataDir)).
  { intros. unfold RegenerateSelfSigned, certPaths, generateSelfSigned, writeKeyPair, readCertInfo, atomic_write, os_do.
    walk; allow_call. }
  assert (H2 : forall S (I : S -> Prop) t c k, keeps allowed I (InstallTLSPair t dataDir c k)).
  { intros. unfold InstallTLSPair, certPaths, readCertInfo, atomic_write, os_do. walk; allow_call. }
  assert (H3 : forall next info, keeps allowed (fun _ => True) (record_tls next info)) by (intros; unfold record_tls; walk; done).
  assert (H4 : keeps allowed (fun _ => True) (issueSelfSigned loc now addrs dataDir cn sans days))
    by (unfold issueSelfSigned; walk; try apply H1; apply H3).
  assert (H5 : keeps allowed (fun _ => True) (enableMkcert dataDir sans)).
  { unfold enableMkcert, issueMkcertPair. destruct (validateSANs sans) as [[]|] eqn:Ev; [|walk]. walk; try apply H2; try apply H3.
    all: lazymatch goal with |- allowed (CRun "mkcert" _ _) => by apply mkcert_call_allowed | _ => allow_call end. }
  split_and!.
  - unfold SwitchMode. walk; done.
  - unfold Regenerate. walk; done.
  - unfold MkcertCA. walk; allow_call.
  - unfold Restart. walk; allow_call.
Qed.
End Verdict.

(** ** What a self-signed certificate says *)

(** A file holds what was last written to it. *)
Definition files_kept (w : world) : Prop := forall h1 p data h2 text,
  is_ok (w h1 (CLocal "atomicWrite" [p; data])) = true ->
  Forall (fun c => forall d, c <> CLocal "atomicWrite" [p; d]) h2 ->
  w (h1 ++ CLocal "atomicWrite" [p; data] :: h2) (CLocal "os.ReadFile" [p]) = Ok text -> text = data.

Section Names.
Context `{X509} (loc : location) (now : Z) (addrs : result (list IPNet)) (dataDir : string).

(** The names of a certificate for the given settings. *)
Definition names_for (cn : string) (sans : list string) : list string :=
  match sans with
  | [] => [cn; "localhost"; "127.0.0.1"] ++ List.map IP_String (localIPv4Addrs addrs)
  | _ => san_names sans ++ List.map IP_String (san_ips sans)
  end.

Lemma san_split_empty sans : san_names sans = [] -> san_ips sans = [] -> sans = [].
Proof.
  destruct sans as [|s sans]; [done|]. unfold san_names, san_ips. cbn [List.filter omap list_omap].
  by destruct (ParseIP s).
Qed.

Lemma template_names t serial : let ss := TLSConfig_SelfSigned t in SelfSignedConfig_CN ss <> "" ->
  let x := selfSignedTemplate t loc now addrs serial in
  t_CommonName x = SelfSignedConfig_CN ss
  /\ t_DNSNames x ++ List.map IP_String (t_IPAddresses x) = names_for (SelfSignedConfig_CN ss) (SelfSignedConfig_SANs ss).
Proof.
  intros ss Hcn. subst ss. unfold selfSignedTemplate, orDefault. apply String.eqb_neq in Hcn. rewrite Hcn.
  cbn [t_CommonName t_DNSNames t_IPAddresses]. split; [done|]. unfold names_for.
  destruct (san_names _) as [|n ns] eqn:En, (san_ips _) as [|i js] eqn:Ei.
  - rewrite (san_split_empty _ En Ei). done.
  - destruct (SelfSignedConfig_SANs _); done.
  - destruct (SelfSignedConfig_SANs _); done.
  - destruct (SelfSignedConfig_SANs _); done.
Qed.

Lemma generated_info {S} t cp kp w h (s : S) i s' h' : files_kept w -> cp <> kp ->
  generateSelfSigned loc now addrs t cp kp w h s = (Ok i, s', h') ->
  exists serial key der c, CreateCertificate (selfSignedTemplate t loc now addrs serial) key = Ok der
    /\ ParseCertificate der = Ok c /\ i = info_of cp kp c.
Proof.
  intros Hf Hne. unfold generateSelfSigned, writeKeyPair. intros E. inv_run.
  destruct (CreateCertificate _ _) as [der|] eqn:Ec; [|done]. destruct (MarshalECPrivateKey _) as [kd|]; [|by inv_run].
  inv_run. apply readCertInfo_ok in E as (text & c & Ht & Hc & -> & -> & ->).
  rewrite <- !app_assoc in Ht. cbn [app] in Ht.
  match goal with Hw : is_ok (w _ (CLocal "atomicWrite" [cp; _])) = true |- _ =>
    rename Hw into Hcert; rewrite <- app_assoc in Hcert; cbn [app] in Hcert end.
  match type of Ht with w (?hh ++ ?x :: ?y :: CLocal ?a ?b :: ?rest) _ = _ =>
    change (w (hh ++ ([x; y] ++ CLocal a b :: rest)) (CLocal "os.ReadFile" [cp]) = Ok text) in Ht; rewrite app_assoc in Ht end.
  eapply Hf in Ht; [|done|].
  - subst text. unfold cert_of in Hc. rewrite pem_roundtrip in Hc. destruct (ParseCertificate der) as [x|] eqn:Ex; [|done].
    cbn [wrap_err] in Hc. injection Hc as ->. by eexists _, _, der, c.
  - repeat constructor; intros d [=]. by subst.
Qed.

(** A self-signed certificate that was issued carries what was asked for: the
    names and addresses, the common name and the lifetime. *)
Theorem self_signed_as_asked cn sans days w c i (x := issueSelfSigned loc now addrs dataDir cn sans days) :
  files_kept w -> fst (tls_files (tls_of c) dataDir) <> snd (tls_files (tls_of c) dataDir) ->
  Sys.outcome x w c = Ok i ->
  ci_SANs i = names_for cn sans /\ ci_Issuer i = cn /\ 1 <= days <= maxSelfSignedValidDays
  /\ ci_NotAfter i = AddDays loc days now - AddDays loc days now mod second
  /\ (ci_CertPath i, ci_KeyPath i) = tls_files (tls_of c) dataDir.
Proof.
  intros Hf Hne E. unfold Sys.outcome in E. destruct (x w [] c) as [[r c'] h'] eqn:Ex. cbn [fst] in E. subst r x.
  unfold issueSelfSigned, self_signed_checked in Ex. destruct (ValidateDomain cn) as [[]|] eqn:Ed; [|done].
  destruct (_ || _) eqn:Eb; [done|]. destruct (check_sans sans) as [[]|]; [|done]. destruct (_ <? _)%nat; [done|].
  cbn [fail_if result_bind] in Ex. unfold mbind at 1, svc_bind at 1, get in Ex. inv_run. unfold RegenerateSelfSigned in *. inv_run.
  match goal with H : certPaths _ _ _ _ _ = _ |- _ => apply certPaths_ok in H end. subst.
  match goal with H : generateSelfSigned _ _ _ _ _ _ _ _ _ = _ |- _ =>
    apply generated_info in H as (serial & key & der & crt & Hc & Hp & ->); [|done..] end.
  assert (Hi : i = info_of (fst (tls_files (tls_of c) dataDir)) (snd (tls_files (tls_of c) dataDir)) crt).
  { revert Ex. unfold record_tls, mbind, svc_bind, get, put. intros Ex. inv_run. done. }
  destruct (created_parses _ _ _ Hc) as (crt' & Hp' & Hd & Hip & His & Hna). rewrite Hp in Hp'. injection Hp' as <-.
  destruct (ValidateDomain_head cn Ed) as (a0 & t0 & Ecn & _).
  destruct (template_names (next_self_signed cn sans days c) serial) as [Htc Htn]; [by cbn; rewrite Ecn|].
  bool_hyps. subst i. cbn [info_of ci_SANs ci_Issuer ci_NotAfter ci_CertPath ci_KeyPath]. split_and!; try lia.
  - by rewrite Hd, Hip, Htn.
  - by rewrite His, Htc.
  - rewrite Hna. cbn [selfSignedTemplate t_NotAfter next_self_signed TLSConfig_SelfSigned set_TLSConfig_SelfSigned SelfSignedConfig_ValidDays].
    by destruct (Z.leb_spec days 0); [lia|].
  - by destruct (tls_files _ _).
Qed.

(** In UTC a lifetime is that many days of 24 hours. *)
Lemma AddDays_UTC days t : AddDays UTC days t = t + days * 86400 * second.
Proof. unfold AddDays, date_unix, wall. cbn [UTC loc_offset]. cbn. pose proof (Z.div_mod t second ltac:(done)). unfold second in *. lia. Qed.

(** A restart keeps an unexpired self-signed certificate and writes nothing. *)
Lemma ensure_keeps_unexpired {S} t w h (s : S) text crt i :
  TLSConfig_Mode t = "" \/ TLSConfig_Mode t = "self-signed" ->
  let cp := fst (tls_files t dataDir) in
  let h1 := h ++ [CLocal "os.MkdirAll" [Join [dataDir; "tls"]; "0700"]] in
  is_ok (w h (CLocal "os.MkdirAll" [Join [dataDir; "tls"]; "0700"])) = true ->
  is_ok (w h1 (CLocal "os.Stat" [cp])) = true ->
  w (h1 ++ [CLocal "os.Stat" [cp]]) (CLocal "os.ReadFile" [cp]) = Ok text -> cert_of text = Ok crt ->
  i = info_of cp (snd (tls_files t dataDir)) crt -> now < x_NotAfter crt ->
  EnsureTLSCert loc now addrs t dataDir w h s = (Ok i, s, h1 ++ [CLocal "os.Stat" [cp]; CLocal "os.ReadFile" [cp]]).
Proof.
  intros Hm cp h1 Hmk Hst Hr Hc -> Hn.
  unfold EnsureTLSCert, certPaths, os_do, try_bind, wrapping, LocalCall, perform, mbind, svc_bind, mret, svc_ret.
  destruct (w h _) as [o|]; [|done]. cbn [discard wrap_err].
  assert (String.eqb (TLSConfig_Mode t) "self-signed" || String.eqb (TLSConfig_Mode t) "" = true) as -> by (by destruct Hm as [-> | ->]).
  unfold ensureSelfSigned, readCertInfo, try_bind, wrapping, LocalCall, perform, mbind, svc_bind, mret, svc_ret.
  fold h1 cp. rewrite Hst, Hr. cbn [wrap_err]. rewrite Hc. cbn [result_bind info_of ci_NotAfter].
  apply Z.ltb_lt in Hn. rewrite Hn. by rewrite <- app_assoc.
Qed.
End Names.

(** ** Serving the pair on disk

    The reloader makes its system calls one by one while other processes
    replace the files, so each call sees the disk of its own moment:
    [disk_at i] is the disk at the [i]-th system call. *)
Module Reloader.

Record file : Type := mkFile { f_mtime : Z; f_data : string }.
Record disk : Type := mkDisk { d_cert : option file; d_key : option file }.

Definition reloadCheckInterval : Z := minute.

Record certReloader : Type := mkReloader { cr_cert : string; cr_certMod : Z; cr_keyMod : Z; cr_lastCheck : Z }.

Section Serving.
(** [tls.X509KeyPair]: the certificate of two PEM texts that belong
    together. *)
Variable X509KeyPair : string -> string -> result string.
Variable disk_at : nat -> disk.

(** A computation that makes system calls, counted from the given one. *)
Definition io (A : Type) : Type := nat -> A * nat.

Definition os_Stat (field : disk -> option file) (what : string) : io (result Z) := fun i =>
  (match field (disk_at i) with Some f => Ok (f_mtime f) | None => Err (Errorw what [] (Errorf "no such file" [])) end, S i).
Definition os_ReadFile (field : disk -> option file) : io (result string) := fun i =>
  (match field (disk_at i) with Some f => Ok (f_data f) | None => Err (Errorf "no such file" []) end, S i).

Definition modTimes : io (result (Z * Z)) := fun i =>
  match os_Stat d_cert "stat certificate: %w" i with
  | (Err e, i) => (Err e, i)
  | (Ok cm, i) =>
      match os_Stat d_key "stat key: %w" i with
      | (Err e, i) => (Err e, i)
      | (Ok km, i) => (Ok (cm, km), i)
      end
  end.

Definition LoadX509KeyPair : io (result string) := fun i =>
  match os_ReadFile d_cert i with
  | (Err e, i) => (Err e, i)
  | (Ok certPEM, i) =>
      match os_ReadFile d_key i with
      | (Err e, i) => (Err e, i)
      | (Ok keyPEM, i) => (X509KeyPair certPEM keyPEM, i)
      end
  end.

Definition load (lastCheck : Z) : io (result certReloader) := fun i =>
  match modTimes i with
  | (Err e, i) => (Err e, i)
  | (Ok (cm, km), i) =>
      match LoadX509KeyPair i with
      | (Err e, i) => (Err (Errorw "load TLS key pair: %w" [] e), i)
      | (Ok cert, i) => (Ok (mkReloader cert cm km lastCheck), i)
      end
  end.

Definition newCertReloader : io (result certReloader) := load zero_time.

Definition reloadIfChanged (r : certReloader) : io certReloader := fun i =>
  match modTimes i with
  | (Err _, i) => (r, i)
  | (Ok (cm, km), i) =>
      if (cm =? cr_certMod r) && (km =? cr_keyMod r) then (r, i)
      else match load (cr_lastCheck r) i with
           | (Ok r', i) => (r', i)
           | (Err _, i) => (r, i)
           end
  end.

Definition GetCertificate (now : Z) (r : certReloader) : io (certReloader * string) := fun i =>
  let '(r, i) :=
    if reloadCheckInterval <=? time_Sub now (cr_lastCheck r)
    then reloadIfChanged (mkReloader (cr_cert r) (cr_certMod r) (cr_keyMod r) now) i else (r, i) in
  ((r, cr_cert r), i).

(** Handshakes one after another: the state they leave and the certificates
    they were given. *)
Fixpoint handshakes (times : list Z) (r : certReloader) : io (certReloader * list string) := fun i =>
  match times with
  | [] => ((r, []), i)
  | t :: rest =>
      let '((r, c), i) := GetCertificate t r i in
      let '((r, cs), i) := handshakes rest r i in ((r, c :: cs), i)
  end.

(** *** Correctness *)

(** The file bore the modification time it has at call [n] before, and held
    other contents then or since: a replacement reproduced the time. *)
Definition stamp_reused (field : disk -> option file) (n : nat) : Prop := exists a b f g h,
  (a <= b < n)%nat /\ field (disk_at a) = Some f /\ field (disk_at b) = Some g /\ field (disk_at n) = Some h
  /\ f_mtime f = f_mtime h /\ f_data g <> f_data h.

(** The file was stamped [m] at some call and read as [data] at a later one
    before call [n]. *)
Definition read_after (field : disk -> option file) (m : Z) (data : string) (n : nat) : Prop :=
  exists a b f g, (a <= b < n)%nat /\ field (disk_at a) = Some f /\ f_mtime f = m
    /\ field (disk_at b) = Some g /\ f_data g = data.

Definition sound (r : certReloader) (n : nat) : Prop :=
  exists cp kp, X509KeyPair cp kp = Ok (cr_cert r)
    /\ read_after d_cert (cr_certMod r) cp n /\ read_after d_key (cr_keyMod r) kp n.

(** A served certificate came from two files that were on disk. *)
Definition was_on_disk (cert : string) (n : nat) : Prop :=
  exists a b f g, (a < n)%nat /\ (b < n)%nat /\ d_cert (disk_at a) = Some f /\ d_key (disk_at b) = Some g
    /\ X509KeyPair (f_data f) (f_data g) = Ok cert.

Lemma read_after_le field m data n n' : (n <= n')%nat -> read_after field m data n -> read_after field m data n'.
Proof. intros Hn (a & b & f & g & H & Hr). exists a, b, f, g. split; [lia|done]. Qed.

Lemma sound_le r n n' : (n <= n')%nat -> sound r n -> sound r n'.
Proof. intros Hn (cp & kp & H & H1 & H2). exists cp, kp. split_and!; eauto using read_after_le. Qed.

Lemma sound_on_disk r n : sound r n -> was_on_disk (cr_cert r) n.
Proof.
  intros (cp & kp & H & (a & b & f & g & H1 & _ & _ & H2 & <-) & (a' & b' & f' & g' & H3 & _ & _ & H4 & <-)).
  exists b, b', g, g'. split_and!; try done; lia.
Qed.

Lemma modTimes_ok i cm km j : modTimes i = (Ok (cm, km), j) ->
  j = S (S i) /\ exists f g, d_cert (disk_at i) = Some f /\ f_mtime f = cm /\ d_key (disk_at (S i)) = Some g /\ f_mtime g = km.
Proof.
  unfold modTimes, os_Stat. destruct (d_cert (disk_at i)) as [f|] eqn:E1; [|done].
  destruct (d_key (disk_at (S i))) as [g|] eqn:E2; [|done]. intros [= <- <- <-]. split; [done|]. by exists f, g.
Qed.

Lemma modTimes_tick i : (i <= snd (modTimes i))%nat.
Proof. unfold modTimes, os_Stat. destruct (d_cert _); [|cbn; lia]. destruct (d_key _); cbn; lia. Qed.

Lemma load_ok last i r j : load last i = (Ok r, j) -> sound r j /\ (i <= j)%nat.
Proof.
  unfold load. destruct (modTimes i) as [[[cm km]|e] i1] eqn:Em; [|done].
  apply modTimes_ok in Em as (-> & f & g & Hf & <- & Hg & <-). unfold LoadX509KeyPair, os_ReadFile.
  destruct (d_cert (disk_at (S (S i)))) as [f'|] eqn:E1; [|done].
  destruct (d_key (disk_at (S (S (S i))))) as [g'|] eqn:E2; [|done].
  destruct (X509KeyPair _ _) as [crt|] eqn:E3; [|done]. intros [= <- <-]. split; [|lia].
  exists (f_data f'), (f_data g'). split; [done|]. split.
  - exists i, (S (S i)), f, f'. split_and!; try done; lia.
  - exists (S i), (S (S (S i))), g, g'. split_and!; try done; lia.
Qed.

Lemma load_tick last i : (i <= snd (load last i))%nat.
Proof.
  unfold load. pose proof (modTimes_tick i). destruct (modTimes i) as [[[cm km]|e] i1]; cbn [snd] in *; [|lia].
  unfold LoadX509KeyPair, os_ReadFile. destruct (d_cert _); [|cbn; lia]. destruct (d_key _); [|cbn; lia].
  destruct (X509KeyPair _ _); cbn; lia.
Qed.

Lemma reload_sound r i : sound r i -> let '(r', j) := reloadIfChanged r i in sound r' j /\ (i <= j)%nat.
Proof.
  intros Hs. unfold reloadIfChanged. pose proof (modTimes_tick i).
  destruct (modTimes i) as [[[cm km]|e] i1]; cbn [snd] in *; [|eauto using sound_le].
  destruct (_ && _); [eauto using sound_le|]. pose proof (load_tick (cr_lastCheck r) i1).
  destruct (load _ i1) as [[r'|e] j] eqn:El; cbn [snd] in *.
  - apply load_ok in El as [? ?]. split; [done|lia].
  - split; [|lia]. eapply sound_le; [|exact Hs]. lia.
Qed.

Lemma get_sound now r i : sound r i -> let '((r', c), j) := GetCertificate now r i in sound r' j /\ (i <= j)%nat /\ c = cr_cert r'.
Proof.
  intros Hs. unfold GetCertificate. destruct (_ <=? _).
  - pose proof (reload_sound (mkReloader (cr_cert r) (cr_certMod r) (cr_keyMod r) now) i Hs) as Hr.
    destruct (reloadIfChanged _ i) as [r' j]. by destruct Hr.
  - by split_and!.
Qed.

Lemma was_on_disk_le cert n n' : (n <= n')%nat -> was_on_disk cert n -> was_on_disk cert n'.
Proof. intros Hn (a & b & f & g & H1 & H2 & Hr). exists a, b, f, g. split; [lia|]. split; [lia|done]. Qed.

Lemma handshakes_sound times r i : sound r i ->
  let '((r', cs), j) := handshakes times r i in sound r' j /\ (i <= j)%nat /\ Forall (fun c => was_on_disk c j) cs.
Proof.
  revert r i. induction times as [|t times IH]; intros r i Hs; cbn [handshakes]; [by split_and!|].
  pose proof (get_sound t r i Hs) as Hg. destruct (GetCertificate t r i) as [[r1 c] i1]. destruct Hg as (Hs1 & Hi1 & ->).
  specialize (IH r1 i1 Hs1). destruct (handshakes times r1 i1) as [[r2 cs] i2]. destruct IH as (Hs2 & Hi2 & Hcs).
  split_and!; [done|lia|]. constructor; [|done]. eapply was_on_disk_le; [exact Hi2|]. by apply sound_on_disk.
Qed.

Lemma handshakes_length times r i : length (snd (fst (handshakes times r i))) = length times.
Proof.
  revert r i. induction times as [|t times IH]; intros r i; cbn [handshakes]; [done|].
  destruct (GetCertificate t r i) as [[r1 c] i1]. specialize (IH r1 i1). destruct (handshakes times r1 i1) as [[r2 cs] i2].
  cbn [fst snd length] in *. by rewrite IH.
Qed.

(** A file read with a stamp it still has was read as it is now, unless the
    stamp was reused. *)
Lemma current field m data n f : read_after field m data n -> field (disk_at n) = Some f -> f_mtime f = m ->
  f_data f = data \/ stamp_reused field n.
Proof.
  intros (a & b & fa & fb & Hab & Ha & Hm & Hb & <-) Hn Hf.
  destruct (decide (f_data f = f_data fb)) as [E|E]; [by left|]. right.
  exists a, b, fa, fb, f. split_and!; done || lia || congruence.
Qed.

(** A due check that finds the disk settled on a pair that loads serves it. *)
Lemma due_check_current r n now f g cert : sound r n ->
  reloadCheckInterval <= time_Sub now (cr_lastCheck r) ->
  (forall j, (n <= j)%nat -> disk_at j = mkDisk (Some f) (Some g)) -> X509KeyPair (f_data f) (f_data g) = Ok cert ->
  snd (fst (GetCertificate now r n)) = cert \/ stamp_reused d_cert n \/ stamp_reused d_key n.
Proof.
  intros Hs Hdue Hd Hp. unfold GetCertificate. apply Z.leb_le in Hdue. rewrite Hdue.
  unfold reloadIfChanged. assert (Em : forall j, (n <= j)%nat -> modTimes j = (Ok (f_mtime f, f_mtime g), S (S j))).
  { intros j Hj. unfold modTimes, os_Stat. rewrite !Hd by lia. done. }
  rewrite Em by lia. cbn [cr_certMod cr_keyMod cr_lastCheck].
  destruct ((f_mtime f =? cr_certMod r) && (f_mtime g =? cr_keyMod r)) eqn:E.
  - apply andb_prop in E as [E1%Z.eqb_eq E2%Z.eqb_eq]. cbn [fst snd cr_cert].
    destruct Hs as (cp & kp & Hx & Hrc & Hrk). pose proof (Hd n ltac:(lia)) as Hn.
    destruct (current d_cert _ _ _ f Hrc ltac:(by rewrite Hn) E1) as [Ec|]; [|by right; left].
    destruct (current d_key _ _ _ g Hrk ltac:(by rewrite Hn) E2) as [Ek|]; [|by right; right].
    left. congruence.
  - left. unfold load. rewrite Em by lia. unfold LoadX509KeyPair, os_ReadFile. rewrite !Hd by lia. cbn [d_cert d_key]. by rewrite Hp.
Qed.

(** C33: The interface never serves a certificate that did not come with its
    key from the disk, and follows a replacement.  Whatever replaced, removed
    or half wrote the files between any two system calls of the reloader,
    every handshake is answered, with a pair that was read and matches; and
    once the files are settled on a pair that loads, a handshake a minute
    after the last check gets that pair, unless a replacement reproduced the
    modification time its file had before with other contents, the only way a
    replacement can go unnoticed. *)
Theorem reloader_serves_disk r0 i0 times now f g cert :
  newCertReloader 0%nat = (Ok r0, i0) ->
  let '((r, cs), n) := handshakes times r0 i0 in
  length cs = length times
  /\ Forall (fun c => was_on_disk c n) cs
  /\ (reloadCheckInterval <= time_Sub now (cr_lastCheck r) ->
      (forall j, (n <= j)%nat -> disk_at j = mkDisk (Some f) (Some g)) -> X509KeyPair (f_data f) (f_data g) = Ok cert ->
      snd (fst (GetCertificate now r n)) = cert \/ stamp_reused d_cert n \/ stamp_reused d_key n).
Proof.
  intros H0. apply load_ok in H0 as [Hs _]. pose proof (handshakes_sound times r0 i0 Hs) as Hh.
  pose proof (handshakes_length times r0 i0) as Hl.
  destruct (handshakes times r0 i0) as [[r cs] n]. destruct Hh as (Hr & _ & Hcs). split; [exact Hl|]. split; [done|].
  intros Hdue Hd Hp. by eapply due_check_current.
Qed.
End Serving.

(** A renewal that a check finds half done: the pair does not match, the old
    one is served, and a minute later the new one. *)
Definition renewal (i : nat) : disk :=
  if (i <? 6)%nat then mkDisk (Some (mkFile 1 "c1")) (Some (mkFile 1 "k1"))
  else if (i <? 12)%nat then mkDisk (Some (mkFile 2 "c2")) (Some (mkFile 1 "k1"))
  else mkDisk (Some (mkFile 2 "c2")) (Some (mkFile 2 "k2")).

Definition same_digit (c k : string) : result string :=
  if (String.eqb c "c1" && String.eqb k "k1") || (String.eqb c "c2" && String.eqb k "k2") then Ok c
  else Err (Errorf "tls: private key does not match public key" []).

Lemma renewal_stamps field n : field = d_cert \/ field = d_key -> ~ stamp_reused renewal field n.
Proof.
  intros Hf (a & b & f & g & h & Hab & Ha & Hb & Hn & Hm & Hd). unfold renewal in *.
  destruct (Nat.ltb_spec a 6), (Nat.ltb_spec a 12), (Nat.ltb_spec b 6), (Nat.ltb_spec b 12), (Nat.ltb_spec n 6), (Nat.ltb_spec n 12);
    try lia; destruct Hf as [-> | ->]; cbn in *; simplify_eq; cbn in *; done.
Qed.

(** A pair replaced within the resolution of the clock, or by files that keep
    their times, goes unnoticed for ever. *)
Example equal_stamp_never_seen :
  let d i := if (i <? 4)%nat then mkDisk (Some (mkFile 1 "c1")) (Some (mkFile 1 "k1")) else mkDisk (Some (mkFile 1 "c2")) (Some (mkFile 1 "k2")) in
  exists r0, newCertReloader same_digit d 0%nat = (Ok r0, 4%nat)
    /\ snd (fst (handshakes same_digit d [minute; 2 * minute; 3 * minute] r0 4%nat)) = ["c1"; "c1"; "c1"].
Proof. exists (mkReloader "c1" 1 1 zero_time). split; vm_compute; reflexivity. Qed.

Lemma reloader_serves_disk_witness :
  exists r0 i0 n r, newCertReloader same_digit renewal 0%nat = (Ok r0, i0)
    /\ handshakes same_digit renewal [1; 2; 1 + minute] r0 i0 = ((r, ["c1"; "c1"; "c1"]), n)
    /\ snd (fst (GetCertificate same_digit renewal (1 + 2 * minute) r n)) = "c2".
Proof.
  pose proof (reloader_serves_disk same_digit renewal (mkReloader "c1" 1 1 zero_time) 4%nat [1; 2; 1 + minute] (1 + 2 * minute)
    (mkFile 2 "c2") (mkFile 2 "k2") "c2" eq_refl) as T.
  destruct (handshakes same_digit renewal [1; 2; 1 + minute] (mkReloader "c1" 1 1 zero_time) 4%nat) as [[r cs] n] eqn:E.
  destruct T as (_ & _ & T). exists (mkReloader "c1" 1 1 zero_time), 4%nat, n, r. vm_compute in E. simplify_eq.
  split; [reflexivity|]. split; [reflexivity|].
  destruct T as [T|[T|T]]; [vm_compute; discriminate| |reflexivity|exact T| |].
  - intros j Hj. unfold renewal. destruct (Nat.ltb_spec j 6); [lia|]. destruct (Nat.ltb_spec j 12); [lia|]. reflexivity.
  - by apply renewal_stamps in T; [|left].
  - by apply renewal_stamps in T; [|right].
Defined.

End Reloader.
