(* ===== verification/Acme.v ===== *)
(** * internal/services/acme.go and acme_dns.go

    Certificates from an ACME authority over DNS-01: the account key, the
    order, the challenge record and its withdrawal, the installation, and the
    renewal loop.  The authority's client library, the JSON of the Cloudflare
    API and the encodings of keys are parameters. *)

From S2P Require Import Prelude GoStrings GoTime GoPath GoNet GoIP Regex ConfigTypes Config AgentRules FirewallRender Sys SystemService Dns Schedule Openvpn Ipv6 Tls.

Local Open Scope Z_scope.
Local Open Scope go_scope.
Local Open Scope sys_scope.

Definition LetsEncryptProductionURL : string := "https://acme-v02.api.letsencrypt.org/directory".
Definition LetsEncryptStagingURL : string := "https://acme-staging-v02.api.letsencrypt.org/directory".
Definition renewBefore : Z := 30 * 24 * hour.
Definition renewCheckInterval : Z := 12 * hour.

Definition ErrACMEDomainRequired : error := Errorf "a domain is required to request a certificate" [].
Definition ErrACMEEmailRequired : error := Errorf "an account email is required to register with the CA" [].
Definition ErrACMEUnknownProvider : error := Errorf "unknown DNS-01 provider" [].
Definition ErrACMENoDNSChallenge : error := Errorf "the CA offered no dns-01 challenge for this domain" [].
Definition ErrACMEModeChanged : error := Errorf "the TLS mode changed during renewal, so the renewed certificate was discarded" [].
Definition ErrManualRecordPending : error := Errorf "publish the DNS record, then run this again" [].

Record ManualRecord : Type := mkRecord { mr_Name : string; mr_Value : string }.

Definition manual_format : string := "%s: %s TXT %s".
Definition ManualChallengeError (r : ManualRecord) : error := Errorw manual_format [mr_Name r; mr_Value r] ErrManualRecordPending.

(** [errors.AsType] of a [ManualChallengeError]. *)
Fixpoint as_manual (e : error) : option ManualRecord :=
  match e with
  | Errorf _ _ => None
  | Errorw f args inner =>
      match args with
      | [name; value] => if String.eqb f manual_format then Some (mkRecord name value) else as_manual inner
      | _ => as_manual inner
      end
  end.

(** The outcome of the last automatic renewal; [None] is before the first. *)
Record RenewalStatus : Type := mkStatus { rn_At : Z; rn_Error : option error; rn_Pending : option ManualRecord }.

(** The service: the configuration, the endpoint it was built with and the
    last renewal. *)
Record acme : Type := mkAcme { ac_cfg : Config; ac_directory : string; ac_renewal : option RenewalStatus }.

Definition with_cfg (c : Config) (s : acme) : acme := mkAcme c (ac_directory s) (ac_renewal s).

Definition acmeDirectoryURL (cfg : Config) : string := orDefault (ACMEConfig_DirectoryURL (TLSConfig_ACME (tls_of cfg))) LetsEncryptStagingURL.

Definition NewACMEService (cfg : Config) : acme := mkAcme cfg (acmeDirectoryURL cfg) None.

Definition ACMEDirectoryForChoice (choice : string) : string :=
  if String.eqb choice "production" then LetsEncryptProductionURL else LetsEncryptStagingURL.

(** A program over the configuration, run on the service. *)
Definition on_cfg {A} (m : svc Config A) : svc acme A := fun w h s =>
  let '(a, c, h') := m w h (ac_cfg s) in (a, with_cfg c s, h').

Definition tlsSettings : svc acme TLSConfig := s ← get; mret (tls_of (ac_cfg s)).

Definition set_acme_settings (next : ACMEConfig) (c : Config) : Config := set_tls (set_TLSConfig_ACME next (tls_of c)) c.

Definition SetSettings (next : ACMEConfig) (persist : bool) : svc acme (ACMEConfig * result unit) :=
  s ← get;
  let c' := set_acme_settings next (ac_cfg s) in
  put (with_cfg c' s) ;;
  r ← (if persist then SaveToFile c' else mret (Ok tt));
  mret (TLSConfig_ACME (tls_of (ac_cfg s)), r).

(** ** Publishing the challenge record *)

Definition cloudflareAPIBase : string := "https://api.cloudflare.com/client/v4".
Definition maxCloudflareBody : nat := Z.to_nat (2 ^ 20).
Definition ErrCloudflareTokenRequired : error := Errorf "a Cloudflare API token is required" [].
Definition ErrCloudflareZoneNotFound : error := Errorf "no Cloudflare zone covers this domain" [].

Record cloudflareEnvelope : Type := mkEnvelope { ce_Success : bool; ce_Errors : list (Z * string); ce_Result : string }.

(** [cloudflareProvider] and [manualProvider]; the record of the first is
    remembered from [Present] to [CleanUp]. *)
Inductive dnsProvider : Type :=
| manualProvider
| cloudflareProvider (token recordID zoneID : string).

Definition provider (cfg : ACMEConfig) : result dnsProvider :=
  let p := DNSChallengeConfig_Provider (ACMEConfig_DNSChallenge cfg) in
  if String.eqb p "cloudflare" then Ok (cloudflareProvider (DNSChallengeConfig_APIToken (ACMEConfig_DNSChallenge cfg)) "" "")
  else if String.eqb p "manual" || String.eqb p "" then Ok manualProvider
  else Err (Errorw "%w: %q" [p] ErrACMEUnknownProvider).

(** An HTTP response: its status and its body. *)
Record response : Type := mkResponse { rs_status : Z; rs_body : result string }.

(** The JSON of the API. *)
Class CloudflareJSON : Type := {
  response_of : string -> response;
  json_envelope : string -> result cloudflareEnvelope;
  json_ids : string -> result (list string);
  json_id : string -> result string;
  record_json : string -> string -> string }.

Section Cloudflare.
Context `{CloudflareJSON} {S : Type}.

(** What [call] makes of the answer to its request. *)
Definition envelope_result (answer : result string) : result string :=
  let? text := answer in
  let resp := response_of text in
  let? raw := wrap_err "read response: %w" [] (rs_body resp) in
  let? env := wrap_err "decode response (HTTP %d): %w" [itoa (rs_status resp)] (json_envelope (substring 0 maxCloudflareBody raw)) in
  if negb (ce_Success env) then
    match ce_Errors env with
    | (code, message) :: _ => Err (Errorf "cloudflare: %s (code %d)" [message; itoa code])
    | [] => Err (Errorf "cloudflare: request failed with HTTP %d" [itoa (rs_status resp)])
    end
  else Ok (ce_Result env).

Definition request (token method path body : string) : call := CLocal "http" [method; cloudflareAPIBase +:+ path; token; body].

Definition cf_call (token method path body : string) : svc S (result string) :=
  r ← perform (request token method path body); mret (envelope_result r).

(** The loop of [zoneFor]; every turn drops a label, so the length of the name
    bounds the turns. *)
Fixpoint zone_loop (fuel : nat) (token fqdn name : string) : svc S (result string) :=
  match fuel with
  | O => mret (Err (Errorf "out of fuel" []))
  | Datatypes.S fuel =>
      try! raw := wrapping "look up zone %q: %w" [name] (cf_call token "GET" ("/zones?name=" +:+ QueryEscape name) "") in
      match json_ids raw with
      | Err e => mret (Err (Errorw "decode zone list: %w" [] e))
      | Ok (id :: _) => mret (Ok id)
      | Ok [] =>
          match cut_byte "." name with
          | None => mret (Err (Errorw "%w: %s" [fqdn] ErrCloudflareZoneNotFound))
          | Some (_, rest) => zone_loop fuel token fqdn rest
          end
      end
  end.

Definition zoneFor (token fqdn : string) : svc S (result string) :=
  let name := TrimPrefix (TrimSuffix fqdn ".") "_acme-challenge." in
  zone_loop (Datatypes.S (String.length name)) token fqdn name.

Definition cf_Present (token recordID zoneID fqdn value : string) : svc S (dnsProvider * result unit) :=
  if String.eqb (TrimSpace token) "" then mret (cloudflareProvider token recordID zoneID, Err ErrCloudflareTokenRequired)
  else
    z ← zoneFor token fqdn;
    match z with
    | Err e => mret (cloudflareProvider token recordID zoneID, Err e)
    | Ok zone =>
        r ← cf_call token "POST" ("/zones/" +:+ zone +:+ "/dns_records") (record_json fqdn value);
        match r with
        | Err e => mret (cloudflareProvider token recordID zone, Err (Errorw "create TXT record: %w" [] e))
        | Ok raw =>
            match json_id raw with
            | Err e => mret (cloudflareProvider token recordID zone, Err (Errorw "decode created record: %w" [] e))
            | Ok id => mret (cloudflareProvider token id zone, Ok tt)
            end
        end
    end.

Definition Present (p : dnsProvider) (fqdn value : string) : svc S (dnsProvider * result unit) :=
  match p with
  | manualProvider => mret (p, Err (ManualChallengeError (mkRecord fqdn value)))
  | cloudflareProvider token recordID zoneID => cf_Present token recordID zoneID fqdn value
  end.

Definition CleanUp (p : dnsProvider) : svc S (dnsProvider * result unit) :=
  match p with
  | manualProvider => mret (p, Ok tt)
  | cloudflareProvider token recordID zoneID =>
      if String.eqb recordID "" || String.eqb zoneID "" then mret (p, Ok tt)
      else
        r ← cf_call token "DELETE" ("/zones/" +:+ zoneID +:+ "/dns_records/" +:+ recordID) "";
        match r with
        | Err e => mret (p, Err (Errorw "delete TXT record: %w" [] e))
        | Ok _ => mret (cloudflareProvider token "" zoneID, Ok tt)
        end
  end.
End Cloudflare.

(** ** The order *)

Record Order : Type := mkOrder { o_AuthzURLs : list string; o_URI : string; o_FinalizeURL : string }.
Record Challenge : Type := mkChallenge { ch_Type : string; ch_Token : string; ch_URI : string }.
Record Authorization : Type := mkAuthz { az_Status : string; az_URI : string; az_Identifier : string; az_Challenges : list Challenge }.

(** Package golang.org/x/crypto/acme: what its answers stand for, and the
    value of a challenge record under an account key. *)
Class AcmeClient : Type := {
  order_of : string -> Order;
  authz_of : string -> Authorization;
  chain_of : string -> list string;
  DNS01ChallengeRecord : string -> string -> result string;
  ErrAccountAlreadyExists : error;
  CreateCertificateRequest : string -> string -> result string;
  ParseECPrivateKey : string -> result string }.

Definition os_ErrNotExist : error := Errorf "file does not exist" [].

Section Issue.
Context `{X509} `{CloudflareJSON} `{AcmeClient}.
(** The data directory, the path of the account key, and what other requests
    do to the configuration while the authority is being asked, which happens
    without the lock. *)
Variable dataDir : string.
Variable keyPath : string.
Variable others : Config -> Config.

Section Flow.
Context {S : Type}.

Definition loadOrCreateAccountKey : svc S (result string) :=
  r ← LocalCall "os.ReadFile" [keyPath];
  match r with
  | Ok raw =>
      mret (match pem_Decode raw with
            | None => Err (Errorf "decode account key: no valid PEM block" [])
            | Some block => wrap_err "parse account key: %w" [] (ParseECPrivateKey block)
            end)
  | Err e =>
      if negb (bool_decide (e = os_ErrNotExist)) then mret (Err (Errorw "read account key: %w" [] e))
      else
        try! key := wrapping "generate account key: %w" [] (LocalCall "ecdsa.GenerateKey" []) in
        match MarshalECPrivateKey key with
        | Err e => mret (Err (Errorw "marshal account key: %w" [] e))
        | Ok der =>
            try! _ := wrapping "create credentials dir: %w" [] (os_do "os.MkdirAll" [Dir keyPath; "0700"]) in
            try! _ := wrapping "write account key: %w" [] (os_do "os.WriteFile" [keyPath; pem_Encode "EC PRIVATE KEY" der; "0600"]) in
            mret (Ok key)
        end
  end.

(** One request of the client, under an account key at a directory. *)
Definition ca (dir key what : string) (args : list string) : svc S (result string) := LocalCall ("acme." +:+ what) (dir :: key :: args).

Definition dns01Challenge (a : Authorization) : result Challenge :=
  match List.find (fun c => String.eqb (ch_Type c) "dns-01") (az_Challenges a) with
  | Some c => Ok c
  | None => Err (Errorw "%w: %s" [az_Identifier a] ErrACMENoDNSChallenge)
  end.

(** The accepted challenge and its validation. *)
Definition validate (dir key : string) (chal : Challenge) (a : Authorization) : svc S (result unit) :=
  try! _ := wrapping "accept challenge: %w" [] (ca dir key "Accept" [ch_URI chal]) in
  try! _ := wrapping "wait for validation: %w" [] (ca dir key "WaitAuthorization" [az_URI a]) in
  mret (Ok tt).

Definition satisfy (dir key : string) (p : dnsProvider) (authzURL : string) : svc S (dnsProvider * result unit) :=
  r ← wrapping "get authorization: %w" [] (ca dir key "GetAuthorization" [authzURL]);
  match r with
  | Err e => mret (p, Err e)
  | Ok text =>
      let authz := authz_of text in
      if String.eqb (az_Status authz) "valid" then mret (p, Ok tt)
      else
        match dns01Challenge authz with
        | Err e => mret (p, Err e)
        | Ok chal =>
            match DNS01ChallengeRecord key (ch_Token chal) with
            | Err e => mret (p, Err (Errorw "compute challenge record: %w" [] e))
            | Ok value =>
                q ← Present p ("_acme-challenge." +:+ az_Identifier authz) value;
                match q with
                | (p, Err e) => mret (p, Err e)
                | (p, Ok _) =>
                    r ← validate dir key chal authz;
                    q ← CleanUp p;
                    mret (fst q, r)
                end
            end
        end
  end.

Fixpoint satisfy_all (dir key : string) (p : dnsProvider) (urls : list string) : svc S (result unit) :=
  match urls with
  | [] => mret (Ok tt)
  | u :: rest =>
      q ← satisfy dir key p u;
      match q with
      | (p, Ok _) => satisfy_all dir key p rest
      | (_, Err e) => mret (Err e)
      end
  end.

Definition authorizeOrder (dir key : string) (p : dnsProvider) (email domain : string) : svc S (result Order) :=
  r ← ca dir key "Register" ["mailto:" +:+ email];
  let registered := match r with
    | Err e => if errors_Is e ErrAccountAlreadyExists then Ok tt else Err (Errorw "register acme account: %w" [] e)
    | Ok _ => Ok tt
    end in
  match registered with
  | Err e => mret (Err e)
  | Ok _ =>
      try! text := wrapping "create order: %w" [] (ca dir key "AuthorizeOrder" [domain]) in
      try! _ := satisfy_all dir key p (o_AuthzURLs (order_of text)) in
      try! text := wrapping "wait for order: %w" [] (ca dir key "WaitOrder" [o_URI (order_of text)]) in
      mret (Ok (order_of text))
  end.

Definition finalizeOrder (dir key : string) (order : Order) (domain : string) : svc S (result (string * string)) :=
  try! certKey := wrapping "generate certificate key: %w" [] (LocalCall "ecdsa.GenerateKey" []) in
  match CreateCertificateRequest domain certKey with
  | Err e => mret (Err (Errorw "create CSR: %w" [] e))
  | Ok csr =>
      try! text := wrapping "finalize order: %w" [] (ca dir key "CreateOrderCert" [o_FinalizeURL order; csr]) in
      let certPEM := String.concat "" (List.map (pem_Encode "CERTIFICATE") (chain_of text)) in
      mret (match MarshalECPrivateKey certKey with
            | Err e => Err (Errorw "marshal certificate key: %w" [] e)
            | Ok keyDER => Ok (certPEM, pem_Encode "EC PRIVATE KEY" keyDER)
            end)
  end.
End Flow.

Definition validateACMEConfig (cfg : ACMEConfig) : result string :=
  let domain := TrimSpace (ACMEConfig_Domain cfg) in
  guard! fail_if (String.eqb domain "") ErrACMEDomainRequired ;;
  let? _ := ValidateDomain domain in
  guard! fail_if (String.eqb (TrimSpace (ACMEConfig_Email cfg)) "") ErrACMEEmailRequired ;;
  Ok domain.

Definition acmeActive (t : TLSConfig) : bool := String.eqb (TLSConfig_Mode t) "acme" && ACMEConfig_Enabled (TLSConfig_ACME t).

Definition next_acme (c : Config) : TLSConfig :=
  set_TLSConfig_ACME (set_ACMEConfig_Enabled true (TLSConfig_ACME (tls_of c))) (set_TLSConfig_Mode "acme" (tls_of c)).

Definition installACMEPair (certPEM keyPEM : string) (renewal : bool) : svc Config (result TLSCertInfo) :=
  c ← get;
  if renewal && negb (acmeActive (tls_of c)) then mret (Err ErrACMEModeChanged)
  else
    let next := next_acme c in
    try! info := wrapping "install certificate: %w" [] (InstallTLSPair next dataDir certPEM keyPEM) in
    record_tls next info.

(** The round trips with the authority and the DNS, and the pair they end
    with. *)
Definition obtain : svc acme (result (string * string)) :=
  s ← get;
  let cfg := TLSConfig_ACME (tls_of (ac_cfg s)) in
  match validateACMEConfig cfg with
  | Err e => mret (Err e)
  | Ok domain =>
      match provider cfg with
      | Err e => mret (Err e)
      | Ok prov =>
          try! key := loadOrCreateAccountKey in
          try! order := authorizeOrder (ac_directory s) key prov (ACMEConfig_Email cfg) domain in
          finalizeOrder (ac_directory s) key order domain
      end
  end.

Definition issue (renewal : bool) : svc acme (result TLSCertInfo) :=
  r ← obtain;
  s ← get;
  put (with_cfg (others (ac_cfg s)) s) ;;
  match r with
  | Err e => mret (Err e)
  | Ok p => on_cfg (installACMEPair (fst p) (snd p) renewal)
  end.

Definition Issue : svc acme (result TLSCertInfo) := issue false.

(** ** Renewal *)

Variable now : Z.

Definition recordRenewal (r : result TLSCertInfo) : svc acme unit :=
  s ← get;
  let status := match r with
    | Ok _ => mkStatus now None None
    | Err e => match as_manual e with Some m => mkStatus now None (Some m) | None => mkStatus now (Some e) None end
    end in
  put (mkAcme (ac_cfg s) (ac_directory s) (Some status)).

Definition RenewIfDue : svc acme unit :=
  t ← tlsSettings;
  if negb (acmeActive t) then mret tt
  else
    r ← ReadTLSCertInfo t dataDir;
    match r with
    | Err _ => mret tt
    | Ok info =>
        if renewBefore <? time_Sub (ci_NotAfter info) now then mret tt
        else r ← issue true; recordRenewal r
    end.
End Issue.

(** The loop: once at the start and once per tick, each at its time and with
    what other requests do meanwhile. *)
Definition StartRenewal `{X509} `{CloudflareJSON} `{AcmeClient} (dataDir keyPath : string) (ticks : list (Z * (Config -> Config))) :
    svc acme unit :=
  for_each ticks (fun t => RenewIfDue dataDir keyPath (snd t) (fst t)).

(** ** Lemmas: the zone *)

Section Zone.
Context `{CloudflareJSON} {S : Type}.

(** The turns of the loop never run out. *)
Lemma zone_loop_enough f1 f2 token fqdn name w h (s : S) :
  (String.length name < f1)%nat -> (String.length name < f2)%nat ->
  zone_loop f1 token fqdn name w h s = zone_loop f2 token fqdn name w h s.
Proof.
  revert f2 name w h s. induction f1 as [|f1 IH]; intros f2 name w h s H1 H2; [lia|]. destruct f2 as [|f2]; [lia|].
  cbn [zone_loop]. unfold try_bind, mbind, svc_bind. destruct (wrapping _ _ _ w h s) as [[[raw|e] s1] h1]; [|done].
  destruct (json_ids raw) as [[|id ids]|e]; try done.
  destruct (cut_byte "." name) as [[a rest]|] eqn:E; [|done]. apply cut_byte_Some in E as [-> _].
  apply IH; rewrite append_length in *; cbn in *; lia.
Qed.

Definition http_of (c : call) : option (string * string) :=
  match c with
  | CLocal what [m; url; _; _] => if String.eqb what "http" then Some (m, url) else None
  | _ => None
  end.

(** The two requests of a validation: the challenge is declared ready, and the
    authority's verdict is awaited. *)
Definition validating (c : call) : option bool :=
  match c with
  | CLocal what _ => if String.eqb what "acme.Accept" then Some false else if String.eqb what "acme.WaitAuthorization" then Some true else None
  | _ => None
  end.

(** A call that neither creates nor deletes a record, nor is part of a
    validation. *)
Definition harmless (c : call) : Prop :=
  validating c = None /\ match http_of c with Some (m, _) => m = "GET" | None => True end.

Lemma zone_loop_harmless (I : S -> Prop) fuel token fqdn name : keeps harmless I (zone_loop fuel token fqdn name).
Proof.
  revert name. induction fuel as [|fuel IH]; intros name; cbn [zone_loop]; [apply keeps_ret|].
  unfold cf_call. walk; first [apply IH | by apply keeps_perform].
Qed.

(** ** Lemmas: the record *)

(** The record that the answer to a creation names. *)
Definition created (answer : result string) : option string :=
  match envelope_result answer with
  | Ok raw => match json_id raw with Ok id => if String.eqb id "" then None else Some id | Err _ => None end
  | Err _ => None
  end.

(** How far the validation of a published record is: not begun, declared
    ready, or over, by the verdict or by the refusal of the declaration. *)
Inductive stage : Type := Offered | Declared | Over.
#[export] Instance stage_eq_dec : EqDecision stage.
Proof. solve_decision. Defined.

(** The record that is published, if one is, by the address it is deleted at,
    and the records whose deletion was refused. *)
Record ledger : Type := mkLedger { lg_open : option (string * stage); lg_left : list string }.

(** What a call and its answer make of the ledger; [None] is a violation.  A
    record is created only when none is published; a published record is
    declared ready once, then awaited; it is deleted only when its validation
    is over, and nothing else is deleted. *)
Definition entry (answer : result string) (c : call) (g : ledger) : option ledger :=
  match http_of c, validating c, lg_open g with
  | Some (m, url), _, open =>
      if String.eqb m "POST" then
        match open with
        | Some _ => None
        | None => Some (mkLedger ((fun id => (url +:+ "/" +:+ id, Offered)) <$> created answer) (lg_left g))
        end
      else if String.eqb m "DELETE" then
        if bool_decide (open = Some (url, Over)) then
          Some (mkLedger None (if is_ok (envelope_result answer) then lg_left g else lg_left g ++ [url]))
        else None
      else Some g
  | None, Some false, Some (url, Offered) => Some (mkLedger (Some (url, if is_ok answer then Declared else Over)) (lg_left g))
  | None, Some true, Some (url, Declared) => Some (mkLedger (Some (url, Over)) (lg_left g))
  | None, Some _, Some _ => None
  | None, _, _ => Some g
  end.

Fixpoint track (w : world) (pre l : list call) (g : ledger) : option ledger :=
  match l with
  | [] => Some g
  | c :: rest => g' ← entry (w pre c) c g; track w (pre ++ [c]) rest g'
  end.

Lemma track_app w h l1 l2 g : track w h (l1 ++ l2) g = g' ← track w h l1 g; track w (h ++ l1) l2 g'.
Proof.
  revert h g. induction l1 as [|c l1 IH]; intros h g; [by rewrite app_nil_r|]. cbn [app track].
  destruct (entry _ c g) as [g'|]; [|done]. cbn [mbind option_bind]. by rewrite IH, <- app_assoc.
Qed.

Lemma entry_harmless answer c g : harmless c -> entry answer c g = Some g.
Proof. intros [Hv Hc]. unfold entry. rewrite Hv. destruct (http_of c) as [[m url]|]; [by subst m|by destruct (lg_open g) as [[]|]]. Qed.

Lemma track_harmless w h l g : Forall harmless l -> track w h l g = Some g.
Proof.
  intros Hl. revert h. induction Hl as [|c l Hc Hl IH]; intros h; [done|]. cbn [track]. rewrite entry_harmless by done. apply IH.
Qed.

(** The deletion of the record at [url] was asked for in the run [l], and
    refused. *)
Definition refused (w : world) (h l : list call) (url : string) : Prop :=
  exists l1 c l2, l = l1 ++ c :: l2 /\ http_of c = Some ("DELETE", url) /\ is_ok (envelope_result (w (h ++ l1) c)) = false.

Lemma refused_skip w h c l url : refused w (h ++ [c]) l url -> refused w h (c :: l) url.
Proof. intros (l1 & d & l2 & -> & Hd & He). exists (c :: l1), d, l2. by rewrite <- app_assoc in He. Qed.

(** What is left published is only what the provider refused to delete. *)
Lemma track_left w h l g g' : track w h l g = Some g' -> exists more, lg_left g' = lg_left g ++ more /\ Forall (refused w h l) more.
Proof.
  revert h g. induction l as [|c l IH]; intros h g; cbn [track].
  { intros [= <-]. exists []. by rewrite app_nil_r. }
  destruct (entry (w h c) c g) as [g1|] eqn:E; [|done]. cbn [mbind option_bind]. intros Ht.
  destruct (IH _ _ Ht) as (more & -> & Hm).
  assert (Hs : exists now, lg_left g1 = lg_left g ++ now /\ Forall (refused w h (c :: l)) now).
  { unfold entry in E. destruct (http_of c) as [[m url]|] eqn:Eh.
    - destruct (String.eqb m "POST"); [destruct (lg_open g); [done|]; injection E as <-; exists []; by rewrite app_nil_r|].
      destruct (String.eqb m "DELETE") eqn:Em; [|injection E as <-; exists []; by rewrite app_nil_r].
      destruct (bool_decide _); [|done]. injection E as <-. cbn [lg_left].
      destruct (is_ok _) eqn:Eo; [exists []; by rewrite app_nil_r|]. exists [url]. split; [done|].
      apply String.eqb_eq in Em as ->. repeat constructor. exists [], c, l. by rewrite app_nil_r.
    - exists []. rewrite app_nil_r. split; [|done].
      destruct (validating c) as [[]|], (lg_open g) as [[url []]|]; by simplify_eq. }
  destruct Hs as (now & -> & Hn). exists (now ++ more). rewrite app_assoc. split; [done|]. apply Forall_app. split; [done|].
  eapply List.Forall_impl; [|exact Hm]. intros u. apply refused_skip.
Qed.

(** What the provider owes. *)
Definition owed (p : dnsProvider) : option string :=
  match p with
  | manualProvider => None
  | cloudflareProvider _ id zone =>
      if String.eqb id "" then None else Some ((cloudflareAPIBase +:+ "/zones/" +:+ zone +:+ "/dns_records") +:+ "/" +:+ id)
  end.

Definition zones_named : Prop := forall raw id ids, json_ids raw = Ok (id :: ids) -> id <> "".
Definition zone_known (p : dnsProvider) : Prop :=
  match p with manualProvider => True | cloudflareProvider _ id zone => id = "" \/ zone <> "" end.

Lemma zone_loop_named fuel token fqdn name w h (s : S) z s' h' : zones_named ->
  zone_loop fuel token fqdn name w h s = (Ok z, s', h') -> z <> "".
Proof.
  intros Hz. revert name h s. induction fuel as [|fuel IH]; intros name h s; cbn [zone_loop]; [done|]. intros E. inv_run.
  destruct (json_ids _) as [[|id ids]|e] eqn:Ej; [|by inv_run; eapply Hz|done].
  destruct (cut_byte "." name) as [[a' rest]|]; [by eapply IH|done].
Qed.

Lemma owed_cloudflare token id zone : owed (cloudflareProvider token id zone)
  = if String.eqb id "" then None else Some ((cloudflareAPIBase +:+ "/zones/" +:+ zone +:+ "/dns_records") +:+ "/" +:+ id).
Proof. reflexivity. Qed.

Lemma Present_tracked p fqdn value w h (s : S) : zones_named -> zone_known p ->
  let '(q, s', h') := Present p fqdn value w h s in
  s' = s /\ exists l, h' = h ++ l
    /\ (forall left, track w h l (mkLedger None left)
          = Some (mkLedger (match snd q with Ok _ => (fun url => (url, Offered)) <$> owed (fst q) | Err _ => None end) left))
    /\ (is_ok (snd q) = true -> zone_known (fst q)).
Proof.
  intros Hz _. destruct p as [|token rid zid]; cbn [Present].
  { unfold mret, svc_ret. split; [done|]. exists []. by rewrite app_nil_r. }
  unfold cf_Present. destruct (String.eqb _ _).
  { unfold mret, svc_ret. split; [done|]. exists []. by rewrite app_nil_r. }
  unfold mbind at 1, svc_bind at 1. pose proof (zone_loop_harmless (eq s) (Datatypes.S (String.length
    (TrimPrefix (TrimSuffix fqdn ".") "_acme-challenge."))) token fqdn (TrimPrefix (TrimSuffix fqdn ".") "_acme-challenge.") w h s eq_refl) as Hk.
  change (zone_loop _ token fqdn _ w h s) with (zoneFor token fqdn w h s) in Hk.
  destruct (zoneFor token fqdn w h s) as [[z s1] h1] eqn:Ez. cbn [fst snd] in Hk. destruct Hk as [<- (t & -> & Ht)].
  destruct z as [zone|e]; unfold mret, svc_ret; [|split; [done|]; exists t; split; [done|]; split; [|done]; intros left; by rewrite track_harmless].
  unfold cf_call, perform, mbind, svc_bind, mret, svc_ret.
  set (c := request token "POST" ("/zones/" +:+ zone +:+ "/dns_records") (record_json fqdn value)).
  assert (Hpost : forall left, track w h (t ++ [c]) (mkLedger None left)
    = Some (mkLedger ((fun id => ((cloudflareAPIBase +:+ "/zones/" +:+ zone +:+ "/dns_records") +:+ "/" +:+ id, Offered)) <$> created (w (h ++ t) c)) left))
    by (intros left; rewrite track_app, track_harmless by done; reflexivity).
  unfold created in Hpost.
  destruct (envelope_result (w (h ++ t) c)) as [raw|e] eqn:Ee; [destruct (json_id raw) as [id|e] eqn:Ei|];
    (split; [done|]; exists (t ++ [c]); rewrite app_assoc; split; [done|]; split; [|done || (intros _; right; by eapply zone_loop_named)]);
    intros left; rewrite Hpost; [|done..].
  cbn [fst snd]. rewrite owed_cloudflare. by destruct (String.eqb id "").
Qed.

(** A validation takes a published record from not begun to over. *)
Lemma validate_tracked `{AcmeClient} dir key chal a w h (s : S) :
  let '(r, s', h') := validate dir key chal a w h s in
  s' = s /\ exists l, h' = h ++ l
    /\ forall open left, track w h l (mkLedger ((fun url => (url, Offered)) <$> open) left)
                         = Some (mkLedger ((fun url => (url, Over)) <$> open) left).
Proof.
  unfold validate, try_bind, wrapping, ca, LocalCall, perform, mbind, svc_bind, mret, svc_ret.
  destruct (w h _) as [t1|e] eqn:E1; cbn [wrap_err].
  - destruct (w (h ++ _) _) as [t2|e] eqn:E2; cbn [wrap_err]; (split; [done|]; eexists; split; [by rewrite <- app_assoc|]);
      intros [url|] left; cbn [track app]; by rewrite E1.
  - split; [done|]. eexists. split; [done|]. intros [url|] left; cbn [track app]; by rewrite E1.
Qed.

Lemma CleanUp_tracked p w h (s : S) : zone_known p ->
  let '(q, s', h') := CleanUp p w h s in
  s' = s /\ zone_known (fst q) /\ exists l, h' = h ++ l
    /\ forall left, exists left', track w h l (mkLedger ((fun url => (url, Over)) <$> owed p) left) = Some (mkLedger None left').
Proof.
  intros Hz. destruct p as [|token id zone]; cbn [CleanUp].
  { unfold mret, svc_ret. split; [done|]. split; [done|]. exists []. rewrite app_nil_r. split; [done|]. by eexists. }
  destruct (String.eqb id "" || String.eqb zone "") eqn:E.
  - unfold mret, svc_ret. split; [done|]. split; [done|]. exists []. rewrite app_nil_r. split; [done|]. intros left. exists left.
    cbn [track]. rewrite owed_cloudflare. apply orb_prop in E as [E%String.eqb_eq|E%String.eqb_eq]; [by subst|].
    subst. destruct Hz as [-> |]; done.
  - apply orb_false_elim in E as [Ei Ez]. unfold cf_call, perform, mbind, svc_bind, mret, svc_ret.
    set (c := request token "DELETE" ("/zones/" +:+ zone +:+ "/dns_records/" +:+ id) "").
    assert (Ht : forall left, exists left', track w h [c] (mkLedger ((fun url => (url, Over)) <$> owed (cloudflareProvider token id zone)) left)
      = Some (mkLedger None left')).
    { intros left. eexists. rewrite owed_cloudflare, Ei. unfold track, entry. cbn -[append envelope_result].
      rewrite bool_decide_true; [reflexivity|]. by rewrite !append_assoc. }
    destruct (envelope_result _); (split; [done|]; split; [|by exists [c]]); [by left|done].
Qed.
End Zone.

(** A program that withdraws what it publishes, whatever was left before: it
    obeys the ledger, it ends with no record published, and what it leaves is
    only what it asked the provider to delete and the provider refused. *)
Definition tracked `{CloudflareJSON} {S A} (m : svc S A) : Prop :=
  forall w h s left, exists l more, snd (m w h s) = h ++ l
    /\ track w h l (mkLedger None left) = Some (mkLedger None (left ++ more)) /\ Forall (refused w h l) more.

Section Tracked.
Context `{CloudflareJSON} {S : Type}.

(** The part about what is left follows from the rest. *)
Lemma tracked_by {A} (m : svc S A) :
  (forall w h s, exists l, snd (m w h s) = h ++ l /\ forall left, exists left', track w h l (mkLedger None left) = Some (mkLedger None left')) ->
  tracked m.
Proof.
  intros Hm w h s left. destruct (Hm w h s) as (l & Hl & Ht). destruct (Ht left) as [left' Hleft].
  destruct (track_left _ _ _ _ _ Hleft) as (more & Hmore & Hr). cbn [lg_left] in Hmore. subst left'. by exists l, more.
Qed.

Lemma tracked_harmless {A} (m : svc S A) : keeps harmless (fun _ => True) m -> tracked m.
Proof.
  intros Hm. apply tracked_by. intros w h s. destruct (Hm w h s I) as [_ (t & -> & Ht)]. exists t. split; [done|].
  intros left. exists left. by apply track_harmless.
Qed.

(** The calls of a run are determined, so a run is tracked from any start. *)
Lemma tracked_run {A} (m : svc S A) w h s : tracked m ->
  exists l, snd (m w h s) = h ++ l /\ forall left, exists left', track w h l (mkLedger None left) = Some (mkLedger None left').
Proof.
  intros Hm. destruct (Hm w h s []) as (l & _ & Hl & _). exists l. split; [done|]. intros left.
  destruct (Hm w h s left) as (l' & more & Hl' & Ht & _). rewrite Hl in Hl'. apply app_inv_head in Hl' as ->. by eexists.
Qed.

Lemma tracked_bind {A B} (m : svc S A) (k : A -> svc S B) : tracked m -> (forall a, tracked (k a)) -> tracked (mbind k m).
Proof.
  intros Hm Hk. apply tracked_by. intros w h s. pose proof (tracked_run m w h s Hm) as Hr. unfold mbind, svc_bind.
  destruct (m w h s) as [[a s1] h1]. cbn [snd] in Hr. destruct Hr as (l1 & -> & H1).
  destruct (tracked_run (k a) w (h ++ l1) s1 (Hk a)) as (l2 & -> & H2). exists (l1 ++ l2).
  split; [by rewrite app_assoc|]. intros left. destruct (H1 left) as [left1 E1]. rewrite track_app, E1. apply H2.
Qed.

Lemma tracked_try {A B} (m : svc S (result A)) (k : A -> svc S (result B)) :
  tracked m -> (forall a, tracked (k a)) -> tracked (try_bind m k).
Proof. intros Hm Hk. apply tracked_bind; [done|]. intros [a|e]; [apply Hk|]. apply tracked_harmless, keeps_ret. Qed.

Lemma tracked_for_each {A B} (l : list A) (body : A -> svc S B) : (forall x, tracked (body x)) -> tracked (for_each l body).
Proof.
  intros Hb. induction l as [|x l IH]; cbn [for_each]; [apply tracked_harmless, keeps_ret|].
  apply tracked_bind; [apply Hb|]. by intros _.
Qed.

Context `{AcmeClient}.

Lemma ca_harmless (P : S -> Prop) dir key what args : validating (CLocal ("acme." +:+ what) []) = None -> keeps harmless P (ca dir key what args).
Proof.
  intros Hv. apply keeps_perform. split; [exact Hv|]. unfold http_of. destruct args as [|a [|b [|c args]]]; exact I.
Qed.

Lemma satisfy_tracked dir key p url w h (s : S) : zones_named -> zone_known p ->
  let '(q, s', h') := satisfy dir key p url w h s in
  (is_ok (snd q) = true -> zone_known (fst q))
  /\ exists l, h' = h ++ l /\ forall left, exists left', track w h l (mkLedger None left) = Some (mkLedger None left').
Proof.
  intros Hz Hp. unfold satisfy. unfold mbind at 1, svc_bind at 1.
  assert (Hk : keeps harmless (eq s) (wrapping "get authorization: %w" [] (ca dir key "GetAuthorization" [url])))
    by (by apply keeps_wrapping, ca_harmless).
  destruct (Hk w h s eq_refl) as [Hs (t & Ht & Hh)].
  destruct (wrapping _ _ _ w h s) as [[r s1] h1]; cbn [fst snd] in *; subst s1 h1.
  assert (Hquiet : exists l, h ++ t = h ++ l /\ forall left, exists left', track w h l (mkLedger None left) = Some (mkLedger None left')).
  { exists t. split; [done|]. intros left. exists left. by apply track_harmless. }
  destruct r as [text|e]; [|by split]. destruct (String.eqb _ "valid"); [by split|].
  destruct (dns01Challenge _) as [chal|e]; [|by split]. destruct (DNS01ChallengeRecord _ _) as [value|e]; [|by split].
  unfold mbind at 1, svc_bind at 1.
  pose proof (Present_tracked p ("_acme-challenge." +:+ az_Identifier (authz_of text)) value w (h ++ t) s Hz Hp) as Hpr.
  destruct (Present _ _ _ w (h ++ t) s) as [[[p1 [u|e]] s2] h2]; destruct Hpr as (-> & l1 & -> & Hl1 & Hk1); cbn [fst snd] in *.
  - unfold mbind at 1, svc_bind at 1. pose proof (validate_tracked dir key chal (authz_of text) w ((h ++ t) ++ l1) s) as Hv.
    destruct (validate _ _ _ _ w _ s) as [[r2 s3] h3]. destruct Hv as (-> & t2 & -> & Hv). unfold mbind, svc_bind.
    pose proof (CleanUp_tracked p1 w (((h ++ t) ++ l1) ++ t2) s (Hk1 eq_refl)) as Hcl.
    destruct (CleanUp p1 w _ s) as [[q s4] h4]. destruct Hcl as (-> & Hk3 & l3 & -> & Hl3).
    unfold mret, svc_ret. cbn [fst snd]. split; [done|]. exists (t ++ l1 ++ t2 ++ l3). split; [by rewrite !app_assoc|].
    intros left. rewrite track_app, track_harmless by done. cbn [mbind option_bind]. rewrite track_app, Hl1. cbn [mbind option_bind].
    rewrite track_app, Hv. apply Hl3.
  - unfold mret, svc_ret. split; [done|]. exists (t ++ l1). split; [by rewrite app_assoc|]. intros left. exists left.
    rewrite track_app, track_harmless by done. cbn [mbind option_bind]. apply Hl1.
Qed.

Lemma satisfy_all_tracked dir key p urls : zones_named -> zone_known p -> tracked (S := S) (satisfy_all dir key p urls).
Proof.
  intros Hz. revert p. induction urls as [|u urls IH]; intros p Hp; cbn [satisfy_all]; [apply tracked_harmless, keeps_ret|].
  apply tracked_by. intros w h s. unfold mbind, svc_bind. pose proof (satisfy_tracked dir key p u w h s Hz Hp) as Hs.
  destruct (satisfy dir key p u w h s) as [[[p1 [v|e]] s1] h1]; destruct Hs as (Hk & l & -> & Hl).
  - destruct (tracked_run _ w (h ++ l) s1 (IH p1 (Hk eq_refl))) as (l2 & -> & Hl2). exists (l ++ l2). split; [by rewrite app_assoc|].
    intros left. destruct (Hl left) as [left1 E]. rewrite track_app, E. apply Hl2.
  - by exists l.
Qed.

Lemma authorizeOrder_tracked dir key p email domain : zones_named -> zone_known p ->
  tracked (S := S) (authorizeOrder dir key p email domain).
Proof.
  intros Hz Hp. unfold authorizeOrder. apply tracked_bind; [apply tracked_harmless, ca_harmless; reflexivity|]. intros r.
  destruct (match r with Ok _ => _ | Err _ => _ end) as [u|e]; [|apply tracked_harmless, keeps_ret].
  apply tracked_try; [apply tracked_harmless, keeps_wrapping, ca_harmless; reflexivity|]. intros text.
  apply tracked_try; [by apply satisfy_all_tracked|]. intros _.
  apply tracked_try; [apply tracked_harmless, keeps_wrapping, ca_harmless; reflexivity|]. intros t2. apply tracked_harmless, keeps_ret.
Qed.
End Tracked.

Section Whole.
Context `{X509} `{CloudflareJSON} `{AcmeClient} (dataDir keyPath : string).

Lemma provider_known cfg p : provider cfg = Ok p -> zone_known p.
Proof. unfold provider. destruct (String.eqb _ "cloudflare"); [intros [= <-]; by left|]. by destruct (_ || _); [intros [= <-]|]. Qed.

Lemma key_harmless {S} (P : S -> Prop) : keeps harmless P (loadOrCreateAccountKey keyPath).
Proof. unfold loadOrCreateAccountKey, os_do. walk; done. Qed.

Lemma finalize_harmless {S} (P : S -> Prop) dir key o d : keeps harmless P (finalizeOrder dir key o d).
Proof. unfold finalizeOrder. walk; first [by apply ca_harmless | done]. Qed.

Lemma obtain_tracked : zones_named -> tracked (obtain keyPath).
Proof.
  intros Hz w h s. unfold obtain. unfold mbind at 1, svc_bind at 1, get.
  destruct (validateACMEConfig _) as [domain|e]; [|by apply (tracked_harmless (mret (Err e))), keeps_ret].
  destruct (provider _) as [p|e] eqn:Ep; [|by apply (tracked_harmless (mret (Err e))), keeps_ret].
  apply tracked_try; [apply tracked_harmless, key_harmless|]. intros key.
  apply tracked_try; [apply authorizeOrder_tracked; [done|by eapply provider_known]|]. intros o.
  apply tracked_harmless, finalize_harmless.
Qed.

Lemma on_cfg_keeps {A} (P : call -> Prop) (m : svc Config A) : keeps P (fun _ => True) m -> keeps P (fun _ => True) (on_cfg m).
Proof.
  intros Hm w h s _. split; [done|]. unfold on_cfg. destruct (Hm w h (ac_cfg s) I) as [_ Ht].
  by destruct (m w h (ac_cfg s)) as [[a c] h'].
Qed.

Lemma install_harmless c k renewal : keeps harmless (fun _ => True) (installACMEPair dataDir c k renewal).
Proof. unfold installACMEPair, InstallTLSPair, certPaths, readCertInfo, record_tls, atomic_write, os_do. walk; done. Qed.

Lemma issue_tracked others renewal : zones_named -> tracked (issue dataDir keyPath others renewal).
Proof.
  intros Hz. unfold issue. apply tracked_bind; [by apply obtain_tracked|]. intros r.
  apply tracked_harmless. apply keeps_get_bind. intros s _. apply keeps_bind; [by apply keeps_put|]. intros _.
  destruct r as [p|e]; [|apply keeps_ret]. apply on_cfg_keeps, install_harmless.
Qed.

End Whole.

(** ** Lemmas: asking the authority saves nothing and writes no pair *)

Section Quiet.
Context `{X509} `{CloudflareJSON} `{AcmeClient} {S : Type} (P : S -> Prop) (Q : call -> Prop).
Hypothesis HQ : forall what args, String.eqb what "atomicWrite" = false -> Q (CLocal what args).

Lemma cf_call_quiet token m path body : keeps Q P (cf_call token m path body).
Proof. unfold cf_call. walk. by apply keeps_perform, HQ. Qed.

Lemma zone_loop_quiet fuel token fqdn name : keeps Q P (zone_loop fuel token fqdn name).
Proof.
  revert name. induction fuel as [|fuel IH]; intros name; cbn [zone_loop]; [apply keeps_ret|].
  walk; first [apply IH | apply cf_call_quiet].
Qed.

Lemma Present_quiet p fqdn value : keeps Q P (Present p fqdn value).
Proof. unfold Present, cf_Present, zoneFor. walk; first [apply zone_loop_quiet | apply cf_call_quiet]. Qed.

Lemma CleanUp_quiet p : keeps Q P (CleanUp p).
Proof. unfold CleanUp. walk; apply cf_call_quiet. Qed.

Lemma ca_quiet dir key what args : keeps Q P (ca dir key what args).
Proof. by apply keeps_perform, HQ. Qed.

Lemma satisfy_quiet dir key p url : keeps Q P (satisfy dir key p url).
Proof. unfold satisfy, validate. walk; first [apply ca_quiet | apply Present_quiet | apply CleanUp_quiet]. Qed.

Lemma satisfy_all_quiet dir key p urls : keeps Q P (satisfy_all dir key p urls).
Proof. revert p. induction urls as [|u urls IH]; intros p; cbn [satisfy_all]; walk; first [apply satisfy_quiet | apply IH]. Qed.

Lemma flow_quiet keyPath dir key p email domain o :
  keeps Q P (loadOrCreateAccountKey keyPath) /\ keeps Q P (authorizeOrder dir key p email domain)
  /\ keeps Q P (finalizeOrder dir key o domain).
Proof.
  split_and!.
  - unfold loadOrCreateAccountKey, os_do. walk; by apply HQ.
  - unfold authorizeOrder. walk; first [apply ca_quiet | apply satisfy_all_quiet].
  - unfold finalizeOrder. walk; first [apply ca_quiet | by apply HQ].
Qed.
End Quiet.

Section Renewals.
Context `{X509} `{CloudflareJSON} `{AcmeClient} (dataDir keyPath : string).

(** A call that is the process's own and replaces no file of the pair. *)
Definition asks (c : call) : Prop := match c with CLocal what _ => what <> "atomicWrite" | _ => False end.

Lemma asks_local what args : String.eqb what "atomicWrite" = false -> asks (CLocal what args).
Proof. apply String.eqb_neq. Qed.

Lemma obtain_quiet s : keeps asks (eq s) (obtain keyPath).
Proof.
  unfold obtain. apply keeps_get_bind. intros s1 <-. destruct (validateACMEConfig _) as [domain|e]; [|apply keeps_ret].
  destruct (provider _) as [p|e]; [|apply keeps_ret].
  apply keeps_try; [by apply (flow_quiet (eq s) asks asks_local keyPath "" "" p "" "" (mkOrder [] "" ""))|]. intros key.
  apply keeps_try; [by apply (flow_quiet (eq s) asks asks_local keyPath (ac_directory s) key p _ domain (mkOrder [] "" ""))|]. intros o.
  by apply (flow_quiet (eq s) asks asks_local keyPath (ac_directory s) key p "" domain o).
Qed.

Lemma installACMEPair_follows certPEM keyPEM renewal w h c :
  follows dataDir w h c (next_acme c) (installACMEPair dataDir certPEM keyPEM renewal w h c).
Proof.
  unfold installACMEPair. unfold mbind at 1, svc_bind at 1, get. destruct (renewal && _); [apply follows_error|].
  apply issue_then_record; [apply install_quiet|]. apply installed_in_place.
Qed.

(** What an issuance does, with [others] for what other requests did to the
    configuration meanwhile. *)
Lemma issue_run others renewal w h s (x := issue dataDir keyPath others renewal w h s) (c := others (ac_cfg s)) :
  exists l r, snd (obtain keyPath w h s) = h ++ l /\ Forall asks l /\ fst (fst (obtain keyPath w h s)) = r
    /\ x = match r with
           | Err e => (Err e, with_cfg c s, h ++ l)
           | Ok p => let '(i, c', h') := installACMEPair dataDir (fst p) (snd p) renewal w (h ++ l) c in (i, with_cfg c' s, h')
           end.
Proof.
  subst x. unfold issue. unfold mbind at 1, svc_bind at 1. destruct (obtain_quiet s w h s eq_refl) as [Hs (l & Hl & Hq)].
  destruct (obtain keyPath w h s) as [[r s1] h1]; cbn [fst snd] in *; subst s1 h1. exists l, r. split_and!; try done.
  unfold mbind, svc_bind, get, put, mret, svc_ret. destruct r as [p|e]; [|done]. unfold on_cfg, with_cfg. cbn [ac_cfg ac_directory ac_renewal].
  fold c. by destruct (installACMEPair _ _ _ _ w (h ++ l) c) as [[i c'] h'].
Qed.

Definition cfg_run {A} (x : A * acme * list call) : A * Config * list call := (fst (fst x), ac_cfg (snd (fst x)), snd x).

Lemma issue_follows others renewal w h s (c := others (ac_cfg s)) :
  follows dataDir w h c (next_acme c) (cfg_run (issue dataDir keyPath others renewal w h s)).
Proof.
  destruct (issue_run others renewal w h s) as (l & r & _ & Hq & _ & ->). fold c.
  assert (Hn : Forall no_save l) by (eapply List.Forall_impl; [|exact Hq]; by intros []). destruct r as [p|e].
  - pose proof (installACMEPair_follows (fst p) (snd p) renewal w (h ++ l) c) as Hf.
    destruct (installACMEPair _ _ _ _ w (h ++ l) c) as [[i c'] h']. destruct Hf as (l2 & Hl2 & Hf). unfold cfg_run. cbn [fst snd] in *.
    exists (l ++ l2). rewrite app_assoc. split; [done|]. destruct Hf as [(H1' & H2' & H3')|(H1' & pre & -> & H2' & H3' & H4')].
    + left. split_and!; try done. by apply List.Forall_app.
    + right. split; [done|]. exists (l ++ pre). rewrite !app_assoc in *. split_and!; try done. by apply List.Forall_app.
  - exists l. unfold cfg_run. cbn [fst snd]. split; [done|]. by left.
Qed.

(** C31: The mode is recorded only once its pair is in place.  Whatever the form
    says and whatever the machine, the agent, the authority and other
    requests do: regenerating, switching to self-signed or mkcert, issuing
    and renewing over ACME each either leave the settings as they found them
    and save nothing, or have written a certificate that parses and its key,
    owner-only, to the files the new settings serve, and only then take the
    settings over and save them, as the last thing they do; and success is
    reported exactly when that save succeeded. *)
Theorem mode_follows_pair loc now addrs others w c s :
  (forall cn sans days, let m := TLSConfig_Mode (tls_of c) in
     (m <> "" /\ m <> "self-signed" /\ state_after (Regenerate loc now addrs dataDir cn sans days) w c = c
      /\ calls_of (Regenerate loc now addrs dataDir cn sans days) w c = [])
     \/ follows dataDir w [] c (next_self_signed cn sans days c) (Regenerate loc now addrs dataDir cn sans days w [] c))
  /\ (forall mode cn sans days,
        follows dataDir w [] c (if String.eqb mode "mkcert" then next_mkcert sans c else next_self_signed cn sans days c)
          (SwitchMode loc now addrs dataDir mode cn sans days w [] c))
  /\ (forall sans, follows dataDir w [] c (next_mkcert sans c) (EnableMkcert dataDir sans w [] c))
  /\ (forall renewal, let c1 := others (ac_cfg s) in
        follows dataDir w [] c1 (next_acme c1) (cfg_run (issue dataDir keyPath others renewal w [] s))).
Proof.
  split_and!.
  - intros cn sans days m. unfold Regenerate, state_after, calls_of. unfold mbind, svc_bind, get. fold m.
    destruct (negb (String.eqb m "") && negb (String.eqb m "self-signed")) eqn:E.
    + left. bool_hyps. by split_and!.
    + right. apply issueSelfSigned_follows.
  - intros mode cn sans days. unfold SwitchMode. destruct (String.eqb_spec mode "mkcert") as [->|Hm].
    + cbn [String.eqb Ascii.eqb Bool.eqb orb]. apply enableMkcert_follows.
    + destruct (_ || _); [apply issueSelfSigned_follows|]. apply follows_error.
  - intros sans. apply enableMkcert_follows.
  - intros renewal c1. apply issue_follows.
Qed.

(** ** Renewal *)

(** The status a finished renewal leaves. *)
Definition status_of (now : Z) (r : result TLSCertInfo) : RenewalStatus :=
  match r with
  | Ok _ => mkStatus now None None
  | Err e => match as_manual e with Some m => mkStatus now None (Some m) | None => mkStatus now (Some e) None end
  end.

(** A renewal is attempted exactly when it should be and never overrides the
    operator.  Nothing at all happens unless the mode is acme with a
    certificate that can be read; outside the last thirty days of its life
    nothing but that reading; inside them one issuance runs and its outcome
    is what the settings page shows, a challenge left to the operator as the
    record to publish.  When another request has meanwhile switched the mode
    away or ACME off, its settings stand, nothing is saved, and no
    certificate is written. *)
Theorem renewal_respects_mode others now w s (m := RenewIfDue dataDir keyPath others now) (t := tls_of (ac_cfg s)) :
  (acmeActive t = false -> m w [] s = (tt, s, []))
  /\ (acmeActive t = true ->
      let '(r, _, h) := ReadTLSCertInfo (S := acme) t dataDir w [] s in
      match r with
      | Err _ => m w [] s = (tt, s, h)
      | Ok info =>
          if renewBefore <? time_Sub (ci_NotAfter info) now then m w [] s = (tt, s, h)
          else exists i s1 h1, issue dataDir keyPath others true w h s = (i, s1, h1)
               /\ m w [] s = (tt, mkAcme (ac_cfg s1) (ac_directory s1) (Some (status_of now i)), h1)
               /\ (acmeActive (tls_of (others (ac_cfg s))) = false ->
                   is_ok i = false /\ ac_cfg s1 = others (ac_cfg s)
                   /\ exists l, h1 = h ++ l /\ Forall asks l)
      end).
Proof.
  subst m t. unfold RenewIfDue, tlsSettings. unfold mbind, svc_bind, get, mret, svc_ret. split.
  - intros ->. done.
  - intros ->. cbn [negb].
    assert (Hk : keeps (fun _ => True) (eq s) (ReadTLSCertInfo (S := acme) (tls_of (ac_cfg s)) dataDir))
      by (unfold ReadTLSCertInfo, certPaths, readCertInfo, os_do; walk; done).
    destruct (Hk w [] s eq_refl) as [Hs _].
    destruct (ReadTLSCertInfo (tls_of (ac_cfg s)) dataDir w [] s) as [[[info|e] s0] h]; cbn [fst snd] in Hs; subst s0; [|done].
    destruct (_ <? _); [done|].
    destruct (issue_run others true w h s) as (l & r & Hl & Hq & Hr & Hx).
    destruct (issue dataDir keyPath others true w h s) as [[i s1] h1]. exists i, s1, h1. split_and!; [done| |].
    + unfold recordRenewal, mbind, svc_bind, get, put. by destruct i.
    + intros Hoff. destruct r as [p|e].
      * unfold installACMEPair, mbind, svc_bind, get in Hx. rewrite Hoff in Hx. cbn [negb andb] in Hx. unfold mret, svc_ret in Hx.
        injection Hx as -> -> ->. split_and!; try done. by exists l.
      * injection Hx as -> -> ->. split_and!; try done. by exists l.
Qed.
End Renewals.

(** ** A small authority *)

(** Encodings that know one certificate. *)
Definition lan_expiry : Z := 3650 * 86400 * second.

#[local] Instance toy_x509 : X509.
Proof.
  refine {| pem_Decode := fun s => match s with String "P" b => Some b | _ => None end;
            pem_Encode := fun _ b => String "P" b;
            ParseCertificate := fun der => if String.eqb der "cert" then Ok (mkCertificate ["router.lan"] [] 0 lan_expiry "router.lan")
                                           else Err (Errorf "x509: malformed certificate" []);
            CreateCertificate := fun t _ => if bool_decide (t_DNSNames t = ["router.lan"] /\ t_IPAddresses t = [] /\ t_CommonName t = "router.lan"
                                              /\ t_NotAfter t - t_NotAfter t mod second = lan_expiry) then Ok "cert"
                                            else Err (Errorf "x509: only one template is known" []);
            MarshalECPrivateKey := fun k => Ok k |}.
  - done.
  - intros t key der Hc. case_bool_decide as Ht; [|done]. injection Hc as <-. destruct Ht as (-> & -> & -> & ->). by eexists.
Defined.

#[local] Instance toy_cloudflare : CloudflareJSON := {|
  response_of text := mkResponse 200 (Ok text);
  json_envelope text := Ok (mkEnvelope true [] text);
  json_ids _ := Ok ["z1"];
  json_id _ := Ok "r1";
  record_json name value := name +:+ " " +:+ value |}.

#[local] Instance toy_acme : AcmeClient := {|
  order_of _ := mkOrder ["authz"] "order" "finalize";
  authz_of _ := mkAuthz "pending" "authz" "router.lan" [mkChallenge "http-01" "a" "b"; mkChallenge "dns-01" "token" "chal"];
  chain_of _ := ["cert"];
  DNS01ChallengeRecord key token := Ok (key +:+ token);
  ErrAccountAlreadyExists := Errorf "acme: account already exists" [];
  CreateCertificateRequest domain key := Ok domain;
  ParseECPrivateKey der := Ok der |}.

Definition toy_world : world := fun h c =>
  match c with
  | CLocal "os.ReadFile" ["/key"] => Err os_ErrNotExist
  | CLocal "os.ReadFile" _ => Ok "Pcert"
  | CLocal "acme.Register" _ => Err (Errorf "acme: account already exists" [])
  | _ => Ok ""
  end.

Definition acme_cfg (mode provider : string) : Config :=
  set_tls (set_TLSConfig_Mode mode (set_TLSConfig_ACME
    (mkACMEConfig true "admin@router.lan" "router.lan" "" "" (mkDNSChallengeConfig provider "token")) (tls_of Config_zero))) Config_zero.

Lemma toy_zones : zones_named.
Proof. intros raw id ids [= <- <-]. done. Qed.


Lemma mode_follows_pair_witness :
  let c := acme_cfg "" "" in
  let s := NewACMEService (acme_cfg "acme" "cloudflare") in
  let x := SwitchMode UTC 0 (Ok []) "/data" "" "router.lan" ["router.lan"] 3650 toy_world [] c in
  follows "/data" toy_world [] c (next_self_signed "router.lan" ["router.lan"] 3650 c) x
  /\ is_ok (fst (fst x)) = true
  /\ is_ok (Sys.outcome (issue "/data" "/key" (fun c => c) true) toy_world s) = true.
Proof.
  intros c s x. split; [|split; vm_compute; reflexivity].
  exact (proj1 (proj2 (mode_follows_pair "/data" "/key" UTC 0 (Ok []) (fun c => c) toy_world c s)) "" "router.lan" ["router.lan"] 3650).
Defined.

Lemma renewal_respects_mode_witness :
  let s := NewACMEService (acme_cfg "acme" "cloudflare") in
  let other := acme_cfg "mkcert" "cloudflare" in
  let run now others := state_after (RenewIfDue "/data" "/key" others now) toy_world s in
  ac_cfg (run (lan_expiry - 10 * 24 * hour) (fun _ => other)) = other
  /\ (rn_Error <$> ac_renewal (run (lan_expiry - 10 * 24 * hour) (fun _ => other))) = Some (Some ErrACMEModeChanged)
  /\ run (lan_expiry - 60 * 24 * hour) (fun c => c) = s.
Proof.
  intros s other run.
  pose proof (renewal_respects_mode "/data" "/key" (fun _ => other) (lan_expiry - 10 * 24 * hour) toy_world s) as [_ T].
  specialize (T eq_refl). split; [|split; vm_compute; reflexivity].
  destruct (ReadTLSCertInfo _ _ _ _ _) as [[r s0] h] eqn:E. vm_compute in E. injection E as <- <- <-.
  cbv beta iota in T. change (renewBefore <? _) with false in T. destruct T as (i & s1 & h1 & _ & Hm & Hoff).
  unfold run, state_after. rewrite Hm. exact (proj1 (proj2 (Hoff eq_refl))).
Defined.

(** With the manual provider the record to publish reaches the page. *)
Example manual_renewal_pending :
  ac_renewal (state_after (RenewIfDue "/data" "/key" (fun c => c) (lan_expiry - 10 * 24 * hour)) toy_world (NewACMEService (acme_cfg "acme" "manual")))
  = Some (mkStatus (lan_expiry - 10 * 24 * hour) None (Some (mkRecord "_acme-challenge.router.lan" "token"))).
Proof. vm_compute. reflexivity. Qed.

(** A record whose creation cannot be read back stays published: the
    withdrawal is set up only after [Present] succeeded. *)
Example unread_record_stays :
  let json : CloudflareJSON := {| response_of := response_of; json_envelope := json_envelope; json_ids := json_ids;
    json_id := fun _ => Err (Errorf "unexpected end of JSON input" []); record_json := record_json |} in
  omap http_of (calls_of (issue (H0 := json) "/data" "/key" (fun c => c) false) toy_world (NewACMEService (acme_cfg "" "cloudflare")))
  = [("GET", cloudflareAPIBase +:+ "/zones?name=router.lan"); ("POST", cloudflareAPIBase +:+ "/zones/z1/dns_records")].
Proof. vm_compute. reflexivity. Qed.

(** The endpoint is fixed when the service is built: after the settings ask
    for production, the order still goes to the staging directory. *)
Example endpoint_fixed_at_start :
  let s := NewACMEService (acme_cfg "" "cloudflare") in
  let prod := set_ACMEConfig_DirectoryURL LetsEncryptProductionURL (TLSConfig_ACME (tls_of (ac_cfg s))) in
  let m := SetSettings prod false ;; Issue "/data" "/key" (fun c => c) in
  omap (fun c => match c with CLocal "acme.AuthorizeOrder" (dir :: _) => Some dir | _ => None end) (calls_of m toy_world s) = [LetsEncryptStagingURL]
  /\ acmeDirectoryURL (ac_cfg (state_after m toy_world s)) = LetsEncryptProductionURL.
Proof. vm_compute. by split. Qed.

(** ** The account key *)

Section AccountKey.
Context `{X509} `{AcmeClient} (keyPath : string) {S : Type}.

(** The key that was stored is the key that is used from then on. *)
Lemma account_key_kept key der w h (s : S) : MarshalECPrivateKey key = Ok der -> ParseECPrivateKey der = Ok key ->
  w h (CLocal "os.ReadFile" [keyPath]) = Ok (pem_Encode "EC PRIVATE KEY" der) ->
  loadOrCreateAccountKey keyPath w h s = (Ok key, s, h ++ [CLocal "os.ReadFile" [keyPath]]).
Proof.
  intros _ Hp Hr. unfold loadOrCreateAccountKey, LocalCall, perform, mbind, svc_bind, mret, svc_ret. rewrite Hr, pem_roundtrip, Hp. done.
Qed.

(** A key that exists is never replaced, not even when it cannot be read. *)
Lemma account_key_not_replaced w h (s : S) : w h (CLocal "os.ReadFile" [keyPath]) <> Err os_ErrNotExist ->
  snd (loadOrCreateAccountKey keyPath w h s) = h ++ [CLocal "os.ReadFile" [keyPath]].
Proof.
  intros Hr. unfold loadOrCreateAccountKey, LocalCall, perform, mbind, svc_bind, mret, svc_ret.
  destruct (w h _) as [raw|e]; [done|]. rewrite bool_decide_false by congruence. done.
Qed.
End AccountKey.
