(* ===== verification/SystemPages.v ===== *)
(** * internal/web/handlers/system.go

    The settings page: the two passwords, host name and time zone, the
    certificate and its ACME account, reboot and factory reset, export and
    import, and the update buttons.  Rendering and the version document are
    left out. *)

From S2P Require Import Prelude GoStrings GoTime GoPath GoNet ConfigTypes Secrets Config Sys SystemService Dns Dhcp WebAuth Schedule Update Respond Openvpn Backup Tls Acme.

Local Open Scope Z_scope.
Local Open Scope go_scope.
Local Open Scope sys_scope.

Definition StatusAccepted : Z := 202.
Definition StatusForbidden : Z := 403.
Definition StatusNotFound : Z := 404.
Definition StatusRequestEntityTooLarge : Z := 413.
Definition StatusNotImplemented : Z := 501.
Definition StatusBadGateway : Z := 502.

(** ** Passwords *)

(** The configuration and the live authentication state. *)
Record panel : Type := mkPanel { pn_cfg : Config; pn_auth : Auth }.

Definition admin_hash (c : Config) : string := SystemConfig_AdminPasswordHash (Config_System c).
Definition set_admin_hash (hash : string) (c : Config) : Config := set_Config_System (set_SystemConfig_AdminPasswordHash hash (Config_System c)) c.

(** The form's new password and its confirmation. *)
Definition new_password_ok (password confirmation : string) : bool := String.eqb password confirmation && (8 <=? len password).

Section Passwords.
(** [bcrypt.CompareHashAndPassword(hash, password) == nil]. *)
Variable bcrypt_compare : string -> string -> bool.

Definition currentPasswordMatches (cfg : Config) (r : hreq) : bool :=
  let current := hq_form r "currentPassword" in
  if String.eqb current "" || String.eqb (admin_hash cfg) "" then false else bcrypt_compare (admin_hash cfg) current.

(** [sink] and [rotator]: whether the two callbacks are wired, as [NewServer]
    does (server.go:198). *)
Definition HandleChangeWebPassword (sink rotator : bool) (r : hreq) (c : cookie) : svc panel hresp :=
  if negb (is_ok (hq_parse r)) then mret (clientError StatusBadRequest "error.badForm")
  else
    s ← get;
    if negb (currentPasswordMatches (pn_cfg s) r) then mret (clientError StatusForbidden "error.currentPasswordWrong")
    else
      let newPassword := hq_form r "newPassword" in
      if negb (new_password_ok newPassword (hq_form r "confirmPassword")) then mret (clientError StatusBadRequest "error.passwordMismatchOrShort")
      else
        hashed ← LocalCall "bcrypt.GenerateFromPassword" [newPassword];
        match hashed with
        | Err e => mret (serverError "error.internal" e)
        | Ok hash =>
            let cfg := set_admin_hash hash (pn_cfg s) in
            put (mkPanel cfg (pn_auth s)) ;;
            saved ← SaveToFile cfg;
            match saved with
            | Err e => mret (serverError "error.saveFailed" e)
            | Ok _ =>
                (if sink then put (mkPanel cfg (ChangePassword c hash (pn_auth s))) else mret tt) ;;
                (if rotator then LocalCall "rotateCSRFToken" [] else mret (Ok "")) ;;
                mret (respondTrigger r "settingsUpdated" "/settings")
            end
        end.

Definition HandleChangeRootPassword (r : hreq) : svc panel hresp :=
  if negb (is_ok (hq_parse r)) then mret (clientError StatusBadRequest "error.badForm")
  else
    s ← get;
    if negb (currentPasswordMatches (pn_cfg s) r) then mret (clientError StatusForbidden "error.currentPasswordWrong")
    else
      let newPassword := hq_form r "rootPassword" in
      if negb (new_password_ok newPassword (hq_form r "rootPasswordConfirm")) then mret (clientError StatusBadRequest "error.passwordMismatchOrShort")
      else
        done ← SetRootPassword newPassword;
        mret (match done with
              | Err e => clientError StatusInternalServerError "error.rootPasswordFailed"
              | Ok _ => respondTrigger r "settingsUpdated" "/settings"
              end).
End Passwords.

(** ** Host name and time zone *)

Definition set_hostname (h : string) (c : Config) : Config := set_Config_System (set_SystemConfig_Hostname h (Config_System c)) c.
Definition set_domain (d : string) (c : Config) : Config := set_Config_System (set_SystemConfig_Domain d (Config_System c)) c.
Definition set_timezone (t : string) (c : Config) : Config := set_Config_System (set_SystemConfig_Timezone t (Config_System c)) c.

Section Names.
(** What [RebuildDNSRecords] takes: case folding, whether a DNS service is
    wired, the unbound template, the clock and the lease file. *)
Variable unicode_fold : Z -> Z.
Variable mirror : bool.
Variable execute_unbound : unboundTemplateData -> result string.
Variable now : Z.
Variable leases : result (option string).

Definition rebuildDNSRecords : svc dns unit :=
  s ← get;
  RebuildDNSRecords unicode_fold mirror execute_unbound now leases (SystemConfig_Domain (Config_System (dn_cfg s))) ;;
  mret tt.

Definition HandleUpdateHostname (r : hreq) : svc dns hresp :=
  if negb (is_ok (hq_parse r)) then mret (clientError StatusBadRequest "error.badForm")
  else
    let hostname := hq_form r "hostname" in
    let domain := hq_form r "domain" in
    let key := firstFailed [
      mkFormCheck (negb (is_ok (ValidateHostname hostname))) "error.invalidHostname";
      mkFormCheck (negb (String.eqb domain "") && negb (is_ok (ValidateDomain domain))) "error.invalidDomain"] in
    if negb (String.eqb key "") then mret (clientError StatusBadRequest key)
    else
      s ← get;
      let oldDomain := SystemConfig_Domain (Config_System (dn_cfg s)) in
      let cfg := set_hostname hostname (dn_cfg s) in
      put (set_cfg (if String.eqb domain "" then cfg else set_domain domain cfg) s) ;;
      SetHostname hostname ;;
      (if negb (String.eqb domain "") && negb (String.eqb domain oldDomain) then rebuildDNSRecords else mret tt) ;;
      s ← get;
      saved ← SaveToFile (dn_cfg s);
      mret (match saved with Err e => serverError "error.saveFailed" e | Ok _ => respondTrigger r "settingsUpdated" "/settings" end).
End Names.

Definition HandleUpdateTimezone (r : hreq) : svc Config hresp :=
  if negb (is_ok (hq_parse r)) then mret (clientError StatusBadRequest "error.badForm")
  else
    let tz := hq_form r "timezone" in
    if negb (is_ok (ValidateTimezone tz)) then mret (clientError StatusBadRequest "error.invalidTimezone")
    else
      c ← get;
      put (set_timezone tz c) ;;
      saved ← SaveToFile (set_timezone tz c);
      match saved with
      | Err e => mret (serverError "error.saveFailed" e)
      | Ok _ => SetTimezone tz ;; mret (respondTrigger r "settingsUpdated" "/settings")
      end.

(** ** Certificates *)

Definition defaultSelfSignedDays : Z := 3650.

(** A page of its own: a refusal, or a file with its type and name. *)
Inductive download : Type :=
| Refused (h : hresp)
| Attachment (contentType filename body : string).

Section Certificates.
Context `{X509} `{CloudflareJSON} `{AcmeClient}.
Variable loc : location.
Variable now : Z.
Variable addrs : result (list IPNet).
Variables dataDir keyPath : string.
Variable others : Config -> Config.
(** [err.Error()], and whether the services are wired. *)
Variable err_text : error -> string.
Variables has_tls has_acme : bool.

Definition HandleRegenerateTLS (r : hreq) : svc Config hresp :=
  if negb has_tls then mret (clientError StatusNotImplemented "error.internal")
  else if negb (is_ok (hq_parse r)) then mret (clientError StatusBadRequest "error.badForm")
  else
    match ParseSANs (hq_form r "sans") with
    | Err e => mret (clientErrorf StatusBadRequest "error.badForm" (err_text e))
    | Ok sans =>
        match Atoi (hq_form r "validDays") with
        | None => mret (clientErrorf StatusBadRequest "error.badForm" (err_text ErrInvalidValidity))
        | Some validDays =>
            info ← Regenerate loc now addrs dataDir (hq_form r "cn") sans validDays;
            match info with
            | Err e => mret (fail (if errors_Is e ErrNotSelfSigned then StatusConflict else StatusBadRequest) e)
            | Ok _ => Restart ;; mret (respondRefresh r "/settings")
            end
        end
    end.

Definition HandleSetTLSMode (r : hreq) : svc Config hresp :=
  if negb has_tls then mret (clientError StatusNotImplemented "error.internal")
  else if negb (is_ok (hq_parse r)) then mret (clientError StatusBadRequest "error.badForm")
  else
    match ParseSANs (hq_form r "sans") with
    | Err e => mret (clientErrorf StatusBadRequest "error.badForm" (err_text e))
    | Ok sans =>
        c ← get;
        let raw := hq_form r "validDays" in
        match (if String.eqb raw "" then Some (SelfSignedConfig_ValidDays (TLSConfig_SelfSigned (tls_of c))) else Atoi raw) with
        | None => mret (clientErrorf StatusBadRequest "error.badForm" (err_text ErrInvalidValidity))
        | Some validDays =>
            let validDays := if validDays =? 0 then defaultSelfSignedDays else validDays in
            let sys := Config_System c in
            let cn := if String.eqb (hq_form r "cn") "" then SystemConfig_Hostname sys +:+ "." +:+ SystemConfig_Domain sys else hq_form r "cn" in
            info ← SwitchMode loc now addrs dataDir (hq_form r "mode") cn sans validDays;
            match info with
            | Err e => mret (fail StatusBadRequest e)
            | Ok _ => Restart ;; mret (respondRefresh r "/settings")
            end
        end
    end.

Definition HandleDownloadMkcertCA (r : hreq) : svc Config download :=
  if negb has_tls then mret (Refused (clientError StatusNotImplemented "error.internal"))
  else
    pem ← MkcertCA;
    mret (match pem with
          | Err _ => Refused (clientError StatusNotFound "tls.noCa")
          | Ok pem => Attachment "application/x-x509-ca-cert" "lankeeper-ca.pem" pem
          end).

Definition acmeIssueFailed (e : error) (previous next : ACMEConfig) : svc acme hresp :=
  match as_manual e with
  | None =>
      SetSettings previous false ;;
      mret (fail StatusBadGateway e)
  | Some m =>
      SetSettings next true ;;
      mret (HMessage StatusAccepted "tls.acmeManualPending" (mr_Name m +:+ " TXT " +:+ mr_Value m))
  end.

(** The settings of the form, over the ones in force. *)
Definition acme_form (r : hreq) (previous : ACMEConfig) : ACMEConfig :=
  let token := hq_form r "apiToken" in
  let chal := set_DNSChallengeConfig_Provider (hq_form r "provider") (ACMEConfig_DNSChallenge previous) in
  let chal := if String.eqb token "" then chal else set_DNSChallengeConfig_APIToken token chal in
  set_ACMEConfig_DNSChallenge chal
    (set_ACMEConfig_DirectoryURL (ACMEDirectoryForChoice (hq_form r "endpoint"))
      (set_ACMEConfig_Email (hq_form r "email") (set_ACMEConfig_Domain (hq_form r "domain") previous))).

Definition HandleConfigureACME (r : hreq) : svc acme hresp :=
  if negb has_acme then mret (clientError StatusNotImplemented "error.internal")
  else if negb (is_ok (hq_parse r)) then mret (clientError StatusBadRequest "error.badForm")
  else if negb (is_ok (ValidateDomain (hq_form r "domain"))) then mret (clientError StatusBadRequest "error.invalidDomain")
  else
    t ← tlsSettings;
    let previous := TLSConfig_ACME t in
    let next := acme_form r previous in
    SetSettings next false ;;
    info ← Issue dataDir keyPath others;
    match info with
    | Err e => acmeIssueFailed e previous next
    | Ok _ => Restart ;; mret (respondRefresh r "/settings")
    end.
End Certificates.

(** ** Reboot and factory reset *)

Definition HandleReboot : svc Config hresp := answer StatusInternalServerError (HStatus StatusOK) Reboot.

Definition HandleFactoryReset (configDir : string) (defaults : result (list default_entry)) : svc Config hresp :=
  done ← FactoryReset configDir defaults;
  match done with
  | Err e => mret (fail StatusInternalServerError e)
  | Ok _ => Reboot ;; mret (HStatus StatusOK)
  end.

(** ** Export and import *)

Definition maxBackupUploadBytes : Z := Z.shiftl 64 20.

(** [http.MaxBytesError]. *)
Definition ErrMaxBytes : error := Errorf "http: request body too large" [].
Definition too_large (e : error) : bool := errors_Is e ErrMaxBytes.

Section Files.
Context `{AEAD} `{YAML}.
Variable scrypt : string -> string -> result string.
Variable untar : string -> result archive.
Variable tar_gz : list member -> result string.
Variables configDir dataDir tempDir stamp : string.
Variable keyFile : read_result.
Variables salt nonce : result string.
Variable has_tls : bool.

Definition exportPath : string := Join [tempDir; "lankeeper-backup-" +:+ stamp +:+ ".tar.gz.enc"].

Definition HandleExport (r : hreq) : svc Config download :=
  let passphrase := hq_form r "passphrase" in
  if String.eqb passphrase "" then mret (Refused (clientError StatusBadRequest "error.passphraseRequired"))
  else if negb (is_ok (ValidateBackupPassphrase passphrase)) then mret (Refused (clientError StatusBadRequest "error.passphraseTooShort"))
  else
    done ← Export scrypt untar tar_gz configDir dataDir stamp stamp keyFile salt nonce exportPath passphrase;
    match done with
    | Err e => mret (Refused (serverError "error.exportFailed" e))
    | Ok _ =>
        body ← LocalCall "http.ServeFile" [exportPath];
        LocalCall "os.Remove" [exportPath] ;;
        mret (match body with
              | Ok b => Attachment "application/octet-stream" (Base exportPath) b
              | Err e => Refused (HStatus StatusNotFound)
              end)
    end.

(** What [ParseMultipartForm] and [FormFile] make of the body, which is cut
    off at [maxBackupUploadBytes]. *)
Inductive upload : Type :=
| BadBody (e : error)
| NoFile (e : error)
| Upload (content : string).

Definition restartAfterImport : svc Config unit := if negb has_tls then mret tt else Restart ;; mret tt.

Definition HandleImport (u : upload) (r : hreq) : svc Config hresp :=
  match u with
  | BadBody e =>
      mret (if too_large e then clientError StatusRequestEntityTooLarge "error.backupTooLarge"
            else clientError StatusBadRequest "error.backupFileRequired")
  | NoFile _ => mret (clientError StatusBadRequest "error.backupFileRequired")
  | Upload content =>
      tmp ← LocalCall "os.CreateTemp" ["lankeeper-import-*.tar.gz"];
      match tmp with
      | Err e => mret (serverError "error.tempFileFailed" e)
      | Ok name =>
          copied ← LocalCall "io.Copy" [name; content];
          match copied with
          | Err e =>
              LocalCall "os.Remove" [name] ;;
              mret (if too_large e then clientError StatusRequestEntityTooLarge "error.backupTooLarge"
                    else serverError "error.uploadSaveFailed" e)
          | Ok _ =>
              done ← Import scrypt untar configDir name (hq_form r "passphrase");
              LocalCall "os.Remove" [name] ;;
              match done with
              | Err e => mret (serverError "error.importFailed" e)
              | Ok _ => restartAfterImport ;; mret (respondRefresh r "/settings")
              end
          end
      end
  end.
End Files.

(** ** Updates *)

Section Updates.
Variable sha256 : string -> string.
Variable untar : string -> result tar_stream.
Variable unicode_lower : string -> string.
Variable ed25519_verify : string -> string -> string -> bool.
Variable arch : string.
(** The release that GitHub answers with. *)
Variable latest : result (Z * result ghRelease).

Definition updated : Type := service * disk * list command * hresp.

Definition HandleApplyUpdate (e : env) (s : service) (d : disk) : updated :=
  match CheckForUpdate (u_version s) arch latest with
  | Err er => (s, d, [], fail StatusInternalServerError er)
  | Ok info =>
      if negb (ui_Available info) then (s, d, [], clientError StatusBadRequest "error.noUpdateAvailable")
      else
        let '(s, d, cmds, done) := ApplyUpdate sha256 untar unicode_lower ed25519_verify arch e info s d in
        (s, d, cmds, match done with Err er => fail StatusInternalServerError er | Ok _ => HStatus StatusOK end)
  end.

Definition HandleConfirmUpdate (r : hreq) (e : env) (s : service) (d : disk) : updated :=
  let '(s, d, cmds) := ConfirmUpdate e s d in (s, d, cmds, respondRefresh r "/settings").

Definition HandleRollbackUpdate (e : env) (s : service) (d : disk) : updated :=
  let '(s, d, cmds, done) := Rollback e s d in
  (s, d, cmds, match done with
               | Err er => fail (if errors_Is er ErrNoPendingUpdate then StatusConflict else StatusInternalServerError) er
               | Ok _ => HStatus StatusOK
               end).
End Updates.

(** ** Credentials *)

(** What a form must carry to change a credential: the admin password in
    force, and a new one of eight bytes or more, twice. *)
Definition entitled (bcrypt_compare : string -> string -> bool) (c : Config) (r : hreq) (new confirm : string) : Prop :=
  is_ok (hq_parse r) = true /\ hq_form r "currentPassword" <> "" /\ admin_hash c <> ""
  /\ bcrypt_compare (admin_hash c) (hq_form r "currentPassword") = true
  /\ hq_form r new = hq_form r confirm /\ 8 <= len (hq_form r new).

Section Credentials.
Variable bcrypt_compare : string -> string -> bool.

Lemma matches_iff c r : currentPasswordMatches bcrypt_compare c r = true
  <-> hq_form r "currentPassword" <> "" /\ admin_hash c <> "" /\ bcrypt_compare (admin_hash c) (hq_form r "currentPassword") = true.
Proof.
  unfold currentPasswordMatches. rewrite <- !String.eqb_neq.
  destruct (String.eqb _ ""), (String.eqb (admin_hash c) ""); cbn [orb]; intuition discriminate.
Qed.

Lemma new_password_iff p q : new_password_ok p q = true <-> p = q /\ 8 <= len p.
Proof. unfold new_password_ok. rewrite andb_true_iff, String.eqb_eq, Z.leb_le. done. Qed.

Lemma entitled_iff c r new confirm : entitled bcrypt_compare c r new confirm
  <-> is_ok (hq_parse r) = true /\ currentPasswordMatches bcrypt_compare c r = true /\ new_password_ok (hq_form r new) (hq_form r confirm) = true.
Proof. unfold entitled. rewrite matches_iff, new_password_iff. intuition. Qed.

(** A form that is not entitled is refused by both handlers. *)
Lemma web_refused w s r c : ~ entitled bcrypt_compare (pn_cfg s) r "newPassword" "confirmPassword" ->
  exists a, HandleChangeWebPassword bcrypt_compare true true r c w [] s = (a, s, []) /\ accepted a = false.
Proof.
  rewrite entitled_iff. unfold HandleChangeWebPassword. destruct (is_ok (hq_parse r)); cbn [negb]; [|intros _; by eexists].
  unfold mbind at 1, svc_bind at 1, get. destruct (currentPasswordMatches _ _ _); cbn [negb]; [|intros _; by eexists].
  destruct (new_password_ok _ _); cbn [negb]; [|intros _; by eexists]. intros Hn. exfalso. by apply Hn.
Qed.

Lemma root_refused w s r : ~ entitled bcrypt_compare (pn_cfg s) r "rootPassword" "rootPasswordConfirm" ->
  exists a, HandleChangeRootPassword bcrypt_compare r w [] s = (a, s, []) /\ accepted a = false.
Proof.
  rewrite entitled_iff. unfold HandleChangeRootPassword. destruct (is_ok (hq_parse r)); cbn [negb]; [|intros _; by eexists].
  unfold mbind at 1, svc_bind at 1, get. destruct (currentPasswordMatches _ _ _); cbn [negb]; [|intros _; by eexists].
  destruct (new_password_ok _ _); cbn [negb]; [|intros _; by eexists]. intros Hn. exfalso. by apply Hn.
Qed.

Lemma trigger_accepted r e p : accepted (respondTrigger r e p) = true.
Proof. unfold accepted, respondTrigger. by destruct (String.eqb _ _). Qed.

(** The three steps of a change: the submitted password hashed, the
    configuration with the hash saved, and the form token reissued. *)
Definition hash_call (r : hreq) : call := CLocal "bcrypt.GenerateFromPassword" [hq_form r "newPassword"].
Definition save_call (c : Config) (hash : string) : call := CSave (set_admin_hash hash c).
Definition change_calls (r : hreq) (c : Config) (hash : string) : list call :=
  [hash_call r; save_call c hash; CLocal "rotateCSRFToken" []].

(** The first two succeeded. *)
Definition changed (w : world) (r : hreq) (c : Config) (hash : string) : Prop :=
  w [] (hash_call r) = Ok hash /\ is_ok (w [hash_call r] (save_call c hash)) = true.

Lemma web_entitled w s r c : entitled bcrypt_compare (pn_cfg s) r "newPassword" "confirmPassword" ->
  let x := HandleChangeWebPassword bcrypt_compare true true r c w [] s in
  (accepted (fst (fst x)) = false /\ pn_auth (snd (fst x)) = pn_auth s /\ forall hash, ~ changed w r (pn_cfg s) hash)
  \/ (accepted (fst (fst x)) = true /\ exists hash, changed w r (pn_cfg s) hash
      /\ snd x = change_calls r (pn_cfg s) hash
      /\ snd (fst x) = mkPanel (set_admin_hash hash (pn_cfg s)) (ChangePassword c hash (pn_auth s))).
Proof.
  intros (E1 & E2 & E3)%entitled_iff x. remember (HandleChangeWebPassword bcrypt_compare true true r c w [] s) as y eqn:Hy. subst x.
  unfold HandleChangeWebPassword in Hy. rewrite E1 in Hy. cbn [negb] in Hy.
  unfold mbind at 1, svc_bind at 1, get in Hy. rewrite E2, E3 in Hy. cbn [negb] in Hy.
  unfold LocalCall, SaveToFile, perform, put, mbind, svc_bind, mret, svc_ret in Hy. cbv beta iota in Hy.
  fold (hash_call r) in Hy. unfold changed.
  destruct (w [] (hash_call r)) as [hash|e] eqn:Eh; [|subst y; left; split_and!; try done; by intros hash []]. cbn [app] in Hy.
  fold (save_call (pn_cfg s) hash) in Hy.
  destruct (w [_] (save_call (pn_cfg s) hash)) as [o|e] eqn:Es; cbn [discard] in Hy; subst y; cbn [fst snd].
  - right. split; [apply trigger_accepted|]. exists hash. rewrite Es. by split_and!.
  - left. split_and!; try done. intros h [[= <-] Hs]. by rewrite Es in Hs.
Qed.

(** The sessions a change leaves. *)
Lemma change_sessions c hash a id : id ∈ au_sessions (ChangePassword c hash a) <-> id ∈ au_sessions a /\ id = sessionID c.
Proof. unfold ChangePassword. cbn [au_sessions]. rewrite elem_of_filter. intuition. Qed.

(** No control character, in particular no end of line. *)
Definition one_line (p : string) : Prop := forall a, byte_val a < 32 \/ byte_val a = 127 -> has_char a p = false.

Lemma no_control_one_line p : ContainsFunc p IsControl = false -> one_line p.
Proof.
  intros Hp a Ha. eapply ContainsFunc_ascii; [exact Hp|lia|]. pose proof (byte_val_range a). unfold IsControl. lia.
Qed.

Definition chpasswd_call (r : hreq) : call := CRun "chpasswd" [] ("root:" +:+ hq_form r "rootPassword" +:+ nl).

Lemma root_run w s r : let x := HandleChangeRootPassword bcrypt_compare r w [] s in
  snd (fst x) = s
  /\ (snd x = [] /\ accepted (fst (fst x)) = false
      \/ entitled bcrypt_compare (pn_cfg s) r "rootPassword" "rootPasswordConfirm" /\ one_line (hq_form r "rootPassword")
         /\ snd x = [chpasswd_call r] /\ accepted (fst (fst x)) = is_ok (w [] (chpasswd_call r))).
Proof.
  intros x. subst x. remember (HandleChangeRootPassword bcrypt_compare r w [] s) as y eqn:Hy. rewrite entitled_iff.
  unfold HandleChangeRootPassword in Hy. destruct (is_ok (hq_parse r)); cbn [negb] in Hy; [|subst y; split; [done|by left]].
  unfold mbind at 1, svc_bind at 1, get in Hy. destruct (currentPasswordMatches _ _ _); cbn [negb] in Hy; [|subst y; split; [done|by left]].
  destruct (new_password_ok _ _); cbn [negb] in Hy; [|subst y; split; [done|by left]]. unfold SetRootPassword in Hy.
  destruct (_ <? _); [subst y; split; [done|by left]|]. destruct (ContainsFunc _ _) eqn:Ec; [subst y; split; [done|by left]|].
  apply no_control_one_line in Ec.
  unfold try_bind, wrapping, RunWithStdin, perform, mbind, svc_bind, mret, svc_ret in Hy.
  change (CRun "chpasswd" [] _) with (chpasswd_call r) in Hy.
  destruct (w [] (chpasswd_call r)); cbn [wrap_err app] in Hy; subst y; cbn [fst snd]; (split; [done|]); right; split_and!; try done.
  apply trigger_accepted.
Qed.

(** C34: A credential changes only for someone who knows the admin password.
    A form that does not carry the password in force and a new one of eight
    bytes or more twice is refused, asks nothing of the machine and changes
    nothing.  A change of the admin password is accepted exactly when the
    form is entitled, the submitted new password was hashed and the
    configuration with that hash was saved; then the configuration in memory
    and the live login hold that hash, the calls were these and no others,
    and the only session that is left is the requester's, if it was live.
    When it is not accepted, the failed save included, no session ends and
    the login keeps its hash.  The root password reaches the system only for
    an entitled form and only as one line for root, free of control
    characters, and is reported changed exactly when the system took it. *)
Theorem credential_changes_guarded w s r c
    (web := HandleChangeWebPassword bcrypt_compare true true r c) (root := HandleChangeRootPassword bcrypt_compare r) :
  (accepted (Sys.outcome web w s) = true <->
     entitled bcrypt_compare (pn_cfg s) r "newPassword" "confirmPassword" /\ exists hash, changed w r (pn_cfg s) hash)
  /\ (accepted (Sys.outcome web w s) = true -> exists hash, changed w r (pn_cfg s) hash
        /\ calls_of web w s = change_calls r (pn_cfg s) hash
        /\ pn_cfg (state_after web w s) = set_admin_hash hash (pn_cfg s)
        /\ au_hash (pn_auth (state_after web w s)) = hash
        /\ forall id, id ∈ au_sessions (pn_auth (state_after web w s)) <-> id ∈ au_sessions (pn_auth s) /\ id = sessionID c)
  /\ (accepted (Sys.outcome web w s) = false -> pn_auth (state_after web w s) = pn_auth s)
  /\ (~ entitled bcrypt_compare (pn_cfg s) r "newPassword" "confirmPassword" -> state_after web w s = s /\ calls_of web w s = [])
  /\ state_after root w s = s
  /\ (calls_of root w s = [] /\ accepted (Sys.outcome root w s) = false
      \/ entitled bcrypt_compare (pn_cfg s) r "rootPassword" "rootPasswordConfirm" /\ one_line (hq_form r "rootPassword")
         /\ calls_of root w s = [chpasswd_call r] /\ accepted (Sys.outcome root w s) = is_ok (w [] (chpasswd_call r))).
Proof.
  subst web root. unfold Sys.outcome, state_after, calls_of. pose proof (root_run w s r) as [R1 R2].
  assert (Hdec : entitled bcrypt_compare (pn_cfg s) r "newPassword" "confirmPassword" \/ ~ entitled bcrypt_compare (pn_cfg s) r "newPassword" "confirmPassword").
  { rewrite entitled_iff. destruct (is_ok (hq_parse r)), (currentPasswordMatches _ _ _), (new_password_ok _ _); intuition discriminate. }
  destruct Hdec as [Hy|Hn].
  - pose proof (web_entitled w s r c Hy) as Hw. cbn zeta in Hw.
    destruct Hw as [(-> & Ha & Hno)|(-> & hash & Hc & -> & ->)]; cbn [pn_cfg pn_auth].
    + split_and!; try done. split; [done|]. intros [_ [hash Hc]]. by apply Hno in Hc.
    + split_and!; try done; [split; [by eauto|done]|]. intros _. exists hash. split_and!; try done. intros id. apply change_sessions.
  - destruct (web_refused w s r c Hn) as (a & -> & Ha). cbn [fst snd]. rewrite Ha. split_and!; try done. split; [done|by intros []].
Qed.
End Credentials.

(** A save that fails leaves the new hash in the configuration in memory while
    the login keeps the old one. *)
Example failed_save_splits_hash :
  let w := (fun _ c => match c with CSave _ => Err (Errorf "disk full" []) | _ => Ok "new" end) : world in
  let s := mkPanel (set_admin_hash "old" Config_zero) (NewAuth "old") in
  let r := mkHreq (Ok tt) (fun k => if String.eqb k "currentPassword" then "old" else "12345678") (fun _ => "") "" in
  let x := HandleChangeWebPassword (fun h p => String.eqb h p) true true r CookieErr in
  hstatus (Sys.outcome x w s) = 500 /\ admin_hash (pn_cfg (state_after x w s)) = "new" /\ au_hash (pn_auth (state_after x w s)) = "old".
Proof. vm_compute. by split_and!. Qed.

(** ** The ACME form *)

Section AcmeForm.
Context `{X509} `{CloudflareJSON} `{AcmeClient} (dataDir keyPath : string) (others : Config -> Config).

Lemma tls_set_acme a c : TLSConfig_ACME (tls_of (set_acme_settings a c)) = a.
Proof. done. Qed.

(** A request for a certificate leaves the settings of the form in force when
    the certificate was issued or waits for the operator's record, and the
    previous ones otherwise; only the second of the three is saved by the
    handler itself. *)
Lemma acme_request_settles w r s (previous := TLSConfig_ACME (tls_of (ac_cfg s))) (next := acme_form r previous)
    (m := HandleConfigureACME dataDir keyPath others true r) :
  is_ok (hq_parse r) = true -> is_ok (ValidateDomain (hq_form r "domain")) = true ->
  exists i s2 h2, issue dataDir keyPath others false w [] (with_cfg (set_acme_settings next (ac_cfg s)) s) = (i, s2, h2)
    /\ match i with
       | Ok _ => accepted (Sys.outcome m w s) = true /\ state_after m w s = s2
                 /\ calls_of m w s = h2 ++ [CRun "systemctl" ["restart"; "lankeeper.target"] ""]
       | Err e =>
           match as_manual e with
           | None => Sys.outcome m w s = fail StatusBadGateway e /\ calls_of m w s = h2
                     /\ ac_cfg (state_after m w s) = set_acme_settings previous (ac_cfg s2)
           | Some rec => hstatus (Sys.outcome m w s) = StatusAccepted
                         /\ ac_cfg (state_after m w s) = set_acme_settings next (ac_cfg s2)
                         /\ calls_of m w s = h2 ++ [CSave (set_acme_settings next (ac_cfg s2))]
           end
       end.
Proof.
  intros Hp Hd. destruct (issue dataDir keyPath others false w [] _) as [[i s2] h2] eqn:Ei. exists i, s2, h2. split; [done|].
  subst m. unfold Sys.outcome, state_after, calls_of. remember (HandleConfigureACME dataDir keyPath others true r w [] s) as y eqn:Hy.
  unfold HandleConfigureACME in Hy. rewrite Hp, Hd in Hy. cbn [negb] in Hy.
  unfold tlsSettings, SetSettings, mbind, svc_bind, get, put, mret, svc_ret in Hy. cbv beta iota zeta in Hy.
  fold previous in Hy. fold next in Hy. unfold Issue in Hy. rewrite Ei in Hy. destruct i as [info|e].
  - unfold Restart, try_bind, wrapping, Run, perform, mbind, svc_bind, mret, svc_ret in Hy.
    destruct (w h2 _); cbn [wrap_err] in Hy; subst y; unfold accepted, respondRefresh; cbn [fst snd]; split_and!; try done;
      by destruct (String.eqb _ _).
  - unfold acmeIssueFailed in Hy. destruct (as_manual e) as [rec|].
    + unfold SetSettings, SaveToFile, perform, mbind, svc_bind, get, put, mret, svc_ret in Hy. subst y. by split_and!.
    + unfold SetSettings, mbind, svc_bind, get, put, mret, svc_ret in Hy. subst y. by split_and!.
Qed.
End AcmeForm.

(** ** Host name *)

(** The name and the domain of the configuration, as the templates that
    escape nothing see them. *)
Definition names_checked (c : Config) : Prop :=
  ValidateHostname (SystemConfig_Hostname (Config_System c)) = Ok tt
  /\ (SystemConfig_Domain (Config_System c) = "" \/ ValidateDomain (SystemConfig_Domain (Config_System c)) = Ok tt).

Lemma is_ok_unit (x : result unit) : is_ok x = true -> x = Ok tt.
Proof. by destruct x as [[]|]. Qed.

(** A form that fails its checks reaches neither the configuration nor the
    machine. *)
Lemma hostname_refused fold mirror execute now leases r w s (m := HandleUpdateHostname fold mirror execute now leases r) :
  ValidateHostname (hq_form r "hostname") <> Ok tt
  \/ (hq_form r "domain" <> "" /\ ValidateDomain (hq_form r "domain") <> Ok tt) ->
  state_after m w s = s /\ calls_of m w s = [] /\ hstatus (Sys.outcome m w s) = 400.
Proof.
  intros Hbad. subst m. unfold state_after, calls_of, Sys.outcome, HandleUpdateHostname.
  destruct (is_ok (hq_parse r)); cbn [negb]; [|done]. unfold firstFailed. cbn [List.find chk_failed chk_key].
  destruct (is_ok (ValidateHostname _)) eqn:Eh; cbn [negb]; [|done]. apply is_ok_unit in Eh.
  destruct Hbad as [|[Hne Hd]]; [done|]. apply String.eqb_neq in Hne. rewrite Hne.
  destruct (is_ok (ValidateDomain _)) eqn:Ed; cbn [negb andb]; [|done]. apply is_ok_unit in Ed. done.
Qed.

(** ** Import *)

Section Imports.
Context `{AEAD} `{YAML}.

(** The uploaded copy does not outlive the request. *)
Lemma upload_removed scrypt untar configDir has_tls u r w c name (m := HandleImport scrypt untar configDir has_tls u r) :
  w [] (CLocal "os.CreateTemp" ["lankeeper-import-*.tar.gz"]) = Ok name -> calls_of m w c <> [] ->
  In (CLocal "os.Remove" [name]) (calls_of m w c).
Proof.
  intros Hw. subst m. unfold calls_of, HandleImport. destruct u as [e|e|content]; [done..|]. intros _.
  unfold restartAfterImport, Restart, try_bind, wrapping, Run, LocalCall, perform, mbind, svc_bind, mret, svc_ret. rewrite Hw.
  destruct (w _ (CLocal "io.Copy" _)) as [o|e].
  - destruct (Import scrypt untar configDir name _ w _ c) as [[d c'] h].
    destruct d; [destruct has_tls; cbn [negb]; [destruct (w _ (CRun _ _ _))|]|]; cbn [snd wrap_err]; rewrite ?in_app_iff; cbn; intuition.
  - cbn [snd]. rewrite in_app_iff. right. by left.
Qed.
End Imports.

(** ** Updates *)

(** An update is started only when the release is newer. *)
Lemma apply_needs_newer sha untar lower verify arch latest e s d :
  match CheckForUpdate (u_version s) arch latest with Ok info => ui_Available info | Err _ => false end = false ->
  exists a, HandleApplyUpdate sha untar lower verify arch latest e s d = (s, d, [], a) /\ accepted a = false.
Proof.
  unfold HandleApplyUpdate. destruct (CheckForUpdate _ _ _) as [info|er]; [|intros _; by eexists].
  intros ->. cbn [negb]. by eexists.
Qed.

(** ** The agent's verdict *)

Section Verdict.
Context `{X509}.

Lemma panel_allowed compare sink rotator r c :
  keeps allowed (fun _ => True) (HandleChangeWebPassword compare sink rotator r c)
  /\ keeps allowed (fun _ => True) HandleReboot /\ keeps allowed (fun _ => True) (HandleUpdateTimezone r).
Proof.
  split_and!.
  - unfold HandleChangeWebPassword. walk; done.
  - unfold HandleReboot, answer, Reboot. walk. allow_call.
  - unfold HandleUpdateTimezone, SetTimezone. walk; first [done | allow_call].
Qed.

Lemma tls_pages_allowed loc now addrs dataDir text has r :
  keeps allowed (fun _ => True) (HandleRegenerateTLS loc now addrs dataDir text has r)
  /\ keeps allowed (fun _ => True) (HandleSetTLSMode loc now addrs dataDir text has r)
  /\ keeps allowed (fun _ => True) (HandleDownloadMkcertCA has r).
Proof.
  destruct (tls_allowed loc now addrs dataDir "" "" [] 0) as (_ & _ & Hca & Hrestart). split_and!.
  - unfold HandleRegenerateTLS. walk; [|exact Hrestart]. by destruct (tls_allowed loc now addrs dataDir "" (hq_form r "cn") a z) as (_ & Hr & _).
  - unfold HandleSetTLSMode. walk; [|exact Hrestart]. match goal with |- keeps _ _ (SwitchMode _ _ _ _ ?m ?cn ?sans ?d) =>
      by destruct (tls_allowed loc now addrs dataDir m cn sans d) as [Hs _] end.
  - unfold HandleDownloadMkcertCA. walk. exact Hca.
Qed.
End Verdict.

(** A certificate that was installed while its settings could not be saved:
    the handler puts the previous ACME settings back but not the mode, so the
    process serves acme with renewals off. *)
Example failed_save_leaves_mode :
  let w := (fun h c => match c with CSave _ => Err (Errorf "disk full" []) | _ => toy_world h c end) : world in
  let s := NewACMEService Config_zero in
  let r := mkHreq (Ok tt) (fun k => if String.eqb k "provider" then "cloudflare" else if String.eqb k "email" then "a@b" else "router.lan") (fun _ => "") "" in
  let m := HandleConfigureACME (H := toy_x509) (H0 := toy_cloudflare) (H1 := toy_acme) "/data" "/key" (fun c => c) true r in
  let t := tls_of (ac_cfg (state_after m w s)) in
  hstatus (Sys.outcome m w s) = 502 /\ TLSConfig_Mode t = "acme" /\ acmeActive t = false.
Proof. vm_compute. by split_and!. Qed.
