(* ===== verification/Remote.v ===== *)
(** * internal/services/backup_s3.go and backup_sftp.go

    The remote backup targets: requests to an S3-compatible store with their
    version 4 signature, the paged listing, and the same over SFTP with the
    pinned host key and the upload under a temporary name; and the retention
    of both.  Hashes, the URL parser, XML, RFC 3339 times and the SSH
    transport are parameters. *)

From stdpp Require Import sorting.
From S2P Require Import Prelude GoStrings GoTime GoPath GoNet GoIP Regex Encoding ConfigTypes FirewallRender Sys Dns Schedule Update Ipv6 Doh Tls.

Local Open Scope Z_scope.
Local Open Scope go_scope.
Local Open Scope sys_scope.

(** ** Order of keys *)

(** [sort.Strings]: bytewise. *)
Definition str_le (a b : string) : Prop := String.leb a b = true.

#[export] Instance str_le_dec a b : Decision (str_le a b) := decide (String.leb a b = true).
#[export] Instance str_le_total : Total str_le.
Proof. intros a b. apply String.leb_total. Qed.
#[export] Instance str_le_antisym : AntiSymm (=) str_le.
Proof. intros a b. apply String.leb_antisym. Qed.

Lemma str_le_cons a s b t : str_le (String a s) (String b t) <-> (N_of_ascii a < N_of_ascii b)%N \/ (a = b /\ str_le s t).
Proof.
  unfold str_le, String.leb. cbn [String.compare]. unfold Ascii.compare. destruct (N.compare_spec (N_of_ascii a) (N_of_ascii b)) as [E|E|E].
  - assert (a = b) as -> by (rewrite <- (ascii_N_embedding a), E; apply ascii_N_embedding). split; [right; by split|].
    intros [H|[_ H]]; [lia|done].
  - split; [by left|done].
  - split; [done|]. intros [H|[-> _]]; lia.
Qed.

#[export] Instance str_le_trans : Transitive str_le.
Proof.
  intros s. induction s as [|a s IH]; intros [|b t] [|c u]; try done. rewrite !str_le_cons.
  intros [H|[-> H]] [H'|[-> H']]; [left; lia|by left|by left|]. right. split; [done|]. by apply (IH t).
Qed.

Definition sorted_keys (keys : list string) : list string := merge_sort str_le (remove_dups keys).

(** ** Queries *)

(** [url.Values] as its pairs, in the order of the text for one key. *)
Definition values : Type := list (string * string).

(** The pairs by key, the values of a key in their order. *)
Definition grouped (q : values) : values := flat_map (fun k => List.filter (fun kv => String.eqb (fst kv) k) q) (sorted_keys (List.map fst q)).

Definition url_Set (k v : string) (q : values) : values := List.filter (fun kv => negb (String.eqb (fst kv) k)) q ++ [(k, v)].

Definition encode_pair (esc : string -> string) (kv : string * string) : string := esc (fst kv) +:+ "=" +:+ esc (snd kv).

(** [url.Values.Encode]. *)
Definition url_Encode (q : values) : string := join "&" (List.map (encode_pair QueryEscape) (grouped q)).

(** [url.QueryUnescape]. *)
Fixpoint QueryUnescape (s : string) : option string :=
  match s with
  | "" => Some ""
  | String a r =>
      if Ascii.eqb a "%" then
        match r with
        | String x (String y r) =>
            match hex_val x, hex_val y with
            | Some hx, Some hy => String (ascii_of_N (Z.to_N (16 * hx + hy))) <$> QueryUnescape r
            | _, _ => None
            end
        | _ => None
        end
      else String (if Ascii.eqb a "+" then " "%char else a) <$> QueryUnescape r
  end.

(** One setting of [url.ParseQuery]; one that cannot be read is dropped. *)
Definition query_pair (s : string) : option (string * string) :=
  if String.eqb s "" || has_char ";" s then None
  else
    let '(k, v) := match cut_byte "=" s with Some p => p | None => (s, "") end in
    k ← QueryUnescape k; v ← QueryUnescape v; Some (k, v).

Definition Query (raw : string) : values := omap query_pair (split_byte "&" raw).

(** ** Signatures *)

Fixpoint sigvEscape (s : string) : string :=
  match s with
  | "" => ""
  | String a s =>
      if is_alnum a || char_in "-_.~" a then String a (sigvEscape s)
      else String "%" (String (upper_hex (byte_val a / 16)) (String (upper_hex (byte_val a mod 16)) (sigvEscape s)))
  end.

Definition canonicalQuery (raw : string) : string := join "&" (List.map (encode_pair sigvEscape) (grouped (Query raw))).

(** A URL by the parts the client touches. *)
Record URL : Type := mkURL { url_Prefix : string; url_Host : string; url_Path : string; url_RawQuery : string }.

Class URLs : Type := { url_Parse : string -> result URL; url_String : URL -> string; EscapedPath : URL -> string }.

(** Header names are kept in lower case, as [canonicalHeaders] reads them; a
    name has one value. *)
Record s3Request : Type := mkS3Request { rq_Method : string; rq_URL : URL; rq_Header : list (string * string) }.

Definition Header_Get (name : string) (h : list (string * string)) : string :=
  match List.find (fun kv => String.eqb (fst kv) name) h with Some kv => snd kv | None => "" end.
Definition Header_Set (name value : string) (h : list (string * string)) : list (string * string) :=
  List.filter (fun kv => negb (String.eqb (fst kv) name)) h ++ [(name, value)].

Definition signed_name (k : string) : bool := String.eqb k "host" || HasPrefix k "x-amz-" || String.eqb k "content-type".

Definition key_le (a b : string * string) : Prop := str_le (fst a) (fst b).
#[export] Instance key_le_dec a b : Decision (key_le a b) := str_le_dec _ _.
#[export] Instance key_le_total : Total key_le.
Proof. intros a b. apply str_le_total. Qed.
#[export] Instance key_le_trans : Transitive key_le.
Proof. intros a b c. apply str_le_trans. Qed.

(** The pairs that are signed, sorted. *)
Definition signed_pairs (req : s3Request) : list (string * string) :=
  let pairs := List.map (fun kv => (fst kv, TrimSpace (snd kv))) (List.filter (fun kv => signed_name (fst kv)) (rq_Header req)) in
  let pairs := if String.eqb (Header_Get "host" (rq_Header req)) "" then pairs ++ [("host", url_Host (rq_URL req))] else pairs in
  merge_sort key_le pairs.

Definition canonicalHeaders (req : s3Request) : string * string :=
  let ps := signed_pairs req in
  (String.concat "" (List.map (fun kv => fst kv +:+ ":" +:+ snd kv +:+ nl) ps), join ";" (List.map fst ps)).

Record s3Client : Type := mkS3Client { s3_Endpoint : string; s3_Region : string; s3_AccessKey : string; s3_SecretKey : string; s3_PathStyle : bool }.

Definition newS3Client (t : BackupTarget) : s3Client :=
  let endpoint := if String.eqb (BackupTarget_Endpoint t) "" then "https://s3." +:+ BackupTarget_Region t +:+ ".amazonaws.com" else BackupTarget_Endpoint t in
  mkS3Client (TrimSuffix endpoint "/") (BackupTarget_Region t) (BackupTarget_AccessKeyID t) (BackupTarget_SecretAccessKey t) (BackupTarget_UsePathStyle t).

(** [now.Format("20060102")] and [now.Format("20060102T150405Z")] in UTC. *)
Definition amz_day (now : Z) : string :=
  let '(y, m, d) := civil (wall UTC now / 86400) in pad 4 (itoa y) +:+ pad 2 (itoa m) +:+ pad 2 (itoa d).
Definition amz_time (now : Z) : string :=
  amz_day now +:+ "T" +:+ pad 2 (itoa (Hour UTC now)) +:+ pad 2 (itoa (Minute UTC now)) +:+ pad 2 (itoa (Second UTC now)) +:+ "Z".

Record s3Object : Type := mkObject { so_Key : string; so_LastModified : Z; so_Size : Z }.

(** A listing as its XML says it. *)
Record listing : Type := mkListing { ls_IsTruncated : bool; ls_NextToken : string; ls_Contents : list (string * string * Z) }.

Definition maxListPages : nat := 1000.

Section S3.
Context `{URLs}.
Variable sha256Hex : string -> string.
Variable hmacSHA256 : string -> string -> string.
Variable now : Z.
(** What an answer of the store stands for: its status line and body, the
    listing in it, and the time a text stands for. *)
Variable response_of : string -> Z * string * string.
Variable decode_xml : string -> result listing.
Variable parse_time : string -> result Z.
(** [sort.Slice], newest first. *)
Variable newest_first : list s3Object -> list s3Object.
Context {S : Type}.

Definition with_path (path : string) (host : string) (u : URL) : URL := mkURL (url_Prefix u) host path (url_RawQuery u).

Definition bucketURL (c : s3Client) (bucket key : string) : result (string * string) :=
  let? u := url_Parse (s3_Endpoint c) in
  let u := if s3_PathStyle c then with_path ("/" +:+ bucket +:+ "/" +:+ key) (url_Host u) u
           else with_path ("/" +:+ key) (bucket +:+ "." +:+ url_Host u) u in
  Ok (url_String u, url_Host u).

(** The text that is signed. *)
Definition canonical_request (req : s3Request) (payloadHash : string) : string :=
  let '(hs, names) := canonicalHeaders req in
  join nl [rq_Method req; EscapedPath (rq_URL req); canonicalQuery (url_RawQuery (rq_URL req)); hs; names; payloadHash].

Definition sign (c : s3Client) (req : s3Request) (payloadHash : string) : s3Request :=
  let amzDate := amz_time now in
  let dateOnly := amz_day now in
  let h := Header_Set "x-amz-date" amzDate (rq_Header req) in
  let h := if String.eqb (Header_Get "host" h) "" then Header_Set "host" (url_Host (rq_URL req)) h else h in
  let u := mkURL (url_Prefix (rq_URL req)) (url_Host (rq_URL req)) (url_Path (rq_URL req)) (canonicalQuery (url_RawQuery (rq_URL req))) in
  let req := mkS3Request (rq_Method req) u h in
  let scope := join "/" [dateOnly; s3_Region c; "s3"; "aws4_request"] in
  let stringToSign := join nl ["AWS4-HMAC-SHA256"; amzDate; scope; sha256Hex (canonical_request req payloadHash)] in
  let kDate := hmacSHA256 ("AWS4" +:+ s3_SecretKey c) dateOnly in
  let kRegion := hmacSHA256 kDate (s3_Region c) in
  let kService := hmacSHA256 kRegion "s3" in
  let kSigning := hmacSHA256 kService "aws4_request" in
  let signature := hex_encode (hmacSHA256 kSigning stringToSign) in
  let auth := "AWS4-HMAC-SHA256 Credential=" +:+ s3_AccessKey c +:+ "/" +:+ scope +:+ ", SignedHeaders=" +:+ snd (canonicalHeaders req)
              +:+ ", Signature=" +:+ signature in
  mkS3Request (rq_Method req) u (Header_Set "authorization" auth h).

(** One signed request. *)
Definition signed_request (c : s3Client) (method endpoint host payloadHash : string) : result s3Request :=
  let? u := url_Parse endpoint in
  Ok (sign c (mkS3Request method u (Header_Set "x-amz-content-sha256" payloadHash (Header_Set "host" host []))) payloadHash).

Definition s3_call (req : s3Request) (body : string) : call :=
  CLocal "http.Do" (rq_Method req :: url_String (rq_URL req) :: body :: List.concat (List.map (fun kv => [fst kv; snd kv]) (rq_Header req))).

Definition s3Failure (op target : string) (status : string) : error := Errorf "s3 %s %s: %s" [op; target; status].

(** [c.HTTP.Do] and the check of the status. *)
Definition s3_do (req : s3Request) (body op target : string) : svc S (result string) :=
  try! text := perform (s3_call req body) in
  let '(code, status, body) := response_of text in
  mret (if Z.quot code 100 =? 2 then Ok body else Err (s3Failure op target status)).

Definition putObject (c : s3Client) (bucket key srcPath : string) : svc S (result unit) :=
  try! content := wrapping "hash %s: %w" [srcPath] (LocalCall "os.Open" [srcPath]) in
  try! body := LocalCall "os.Open" [srcPath] in
  match bucketURL c bucket key with
  | Err e => mret (Err e)
  | Ok (endpoint, host) =>
      match signed_request c "PUT" endpoint host (sha256Hex content) with
      | Err e => mret (Err e)
      | Ok req => try! _ := s3_do req body "PUT" key in mret (Ok tt)
      end
  end.

Fixpoint read_objects (l : list (string * string * Z)) : result (list s3Object) :=
  match l with
  | [] => Ok []
  | (key, modified, size) :: l =>
      let? t := wrap_err "s3 LIST: object %q has an unreadable LastModified %q: %w" [key; modified] (parse_time modified) in
      let? rest := read_objects l in
      Ok (mkObject key t size :: rest)
  end.

Definition decodeListing (body : string) : result (list s3Object * string) :=
  let? p := decode_xml body in
  guard! fail_if (ls_IsTruncated p && String.eqb (ls_NextToken p) "") (Errorf "s3 LIST: truncated page carries no continuation token" []) ;;
  let? out := read_objects (ls_Contents p) in
  Ok (out, if ls_IsTruncated p then ls_NextToken p else "").

Definition listURL (c : s3Client) (bucket prefix token : string) : result (string * string) :=
  let? (endpoint, host) := bucketURL c bucket "" in
  let? u := url_Parse endpoint in
  let q := url_Set "list-type" "2" (Query (url_RawQuery u)) in
  let q := if String.eqb prefix "" then q else url_Set "prefix" prefix q in
  let q := if String.eqb token "" then q else url_Set "continuation-token" token q in
  Ok (url_String (mkURL (url_Prefix u) (url_Host u) (url_Path u) (url_Encode q)), host).

Definition listPage (c : s3Client) (bucket prefix token : string) : svc S (result (list s3Object * string)) :=
  match listURL c bucket prefix token with
  | Err e => mret (Err e)
  | Ok (u, host) =>
      match signed_request c "GET" u host (sha256Hex "") with
      | Err e => mret (Err e)
      | Ok req => try! body := s3_do req "" "LIST" bucket in mret (decodeListing body)
      end
  end.

Fixpoint list_loop (pages : nat) (c : s3Client) (bucket prefix token : string) (all : list s3Object) : svc S (result (list s3Object)) :=
  match pages with
  | O => mret (Err (Errorf "s3 LIST: more than %d pages under %q" [itoa (Z.of_nat maxListPages); prefix]))
  | Datatypes.S pages =>
      try! p := listPage c bucket prefix token in
      if String.eqb (snd p) "" then mret (Ok (all ++ fst p)) else list_loop pages c bucket prefix (snd p) (all ++ fst p)
  end.

Definition listObjects (c : s3Client) (bucket prefix : string) : svc S (result (list s3Object)) := list_loop maxListPages c bucket prefix "" [].

(** The request of [deleteObject]. *)
Definition delete_request (c : s3Client) (bucket key : string) : result s3Request :=
  let? (endpoint, host) := bucketURL c bucket key in signed_request c "DELETE" endpoint host (sha256Hex "").

Definition deleteObject (c : s3Client) (bucket key : string) : svc S (result unit) :=
  match delete_request c bucket key with
  | Err e => mret (Err e)
  | Ok req => try! _ := s3_do req "" "DELETE" key in mret (Ok tt)
  end.

(** The prefix of a target, ending in a slash unless it is empty. *)
Definition s3_prefix (t : BackupTarget) : string :=
  let p := TrimPrefix (BackupTarget_Prefix t) "/" in
  if negb (String.eqb p "") && negb (HasSuffix p "/") then p +:+ "/" else p.

Definition filepathBase (p : string) : string := match cut_last "/" p with Some (_, b) => b | None => p end.

Definition uploadS3 (srcPath : string) (t : BackupTarget) : svc S (result string) :=
  if String.eqb (BackupTarget_Bucket t) "" then mret (Err (Errorf "s3 bucket required" []))
  else if String.eqb (BackupTarget_Region t) "" then mret (Err (Errorf "s3 region required" []))
  else
    let key := s3_prefix t +:+ filepathBase srcPath in
    try! _ := putObject (newS3Client t) (BackupTarget_Bucket t) key srcPath in
    mret (Ok key).

Definition own_object (prefix : string) (o : s3Object) : bool :=
  let '(name, ok) := CutPrefix (so_Key o) prefix in ok && negb (Contains name "/") && HasPrefix name "lankeeper-backup-".

Definition ownBackupObjects (objects : list s3Object) (prefix : string) : list s3Object := List.filter (own_object prefix) objects.

Fixpoint delete_objects (c : s3Client) (bucket : string) (objects : list s3Object) (deleted : list string) : svc S (list string * result unit) :=
  match objects with
  | [] => mret (deleted, Ok tt)
  | o :: rest =>
      r ← deleteObject c bucket (so_Key o);
      match r with
      | Err e => mret (deleted, Err e)
      | Ok _ => delete_objects c bucket rest (deleted ++ [so_Key o])
      end
  end.

Definition cleanupS3 (t : BackupTarget) (keep : Z) : svc S (list string * result unit) :=
  if keep <? 1 then mret ([], Err (Errorf "retention must be >= 1" []))
  else
    let c := newS3Client t in
    r ← listObjects c (BackupTarget_Bucket t) (s3_prefix t);
    match r with
    | Err e => mret ([], Err e)
    | Ok all => delete_objects c (BackupTarget_Bucket t) (drop (Z.to_nat keep) (newest_first (ownBackupObjects all (s3_prefix t)))) []
    end.
End S3.

(** ** SFTP *)

Definition pinnedHostKeyCallback (t : BackupTarget) (got : string) : result unit :=
  let want := TrimSpace (BackupTarget_HostKeyFingerprint t) in
  if String.eqb want "" then
    Err (Errorf "host key not pinned: server presented %s, set the host key fingerprint on this target to trust it" [got])
  else if negb (String.eqb got want) then Err (Errorf "host key mismatch: expected %s, server presented %s" [want; got])
  else Ok tt.

Record sftpBackup : Type := mkSftpBackup { sf_path : string; sf_mtime : Z }.

(** An entry of a remote listing. *)
Record sftpEntry : Type := mkSftpEntry { se_name : string; se_isDir : bool; se_mtime : Z }.

Definition sftp_backup (dir : string) (e : sftpEntry) : option sftpBackup :=
  if se_isDir e || negb (HasPrefix (se_name e) "lankeeper-backup-") || HasSuffix (se_name e) ".tmp" then None
  else Some (mkSftpBackup (Join [dir; se_name e]) (se_mtime e)).

Definition sftpBackups (entries : list sftpEntry) (dir : string) : list sftpBackup := omap (sftp_backup dir) entries.

(** The fields of [ssh.ClientConfig] the code sets. *)
Record ClientConfig : Type := mkClientConfig {
  cc_User : string; cc_Auth : list string; cc_HostKeyCallback : string -> result unit; cc_Timeout : Z }.

(** [ssh.NewClientConn] of golang.org/x/crypto/ssh: given the configuration,
    it exchanges messages with the server over the open connection. *)
Definition handshake : Type := ClientConfig -> world -> list call -> result unit * list call.

Section SFTP.
Variable NewClientConn : handshake.
Variable ParsePrivateKey : string -> result string.
Variable entries_of : string -> list sftpEntry.
Variable newest_first : list sftpBackup -> list sftpBackup.
Context {S : Type}.

Definition sftpAuthMethods (t : BackupTarget) : svc S (result (list string)) :=
  try! keys := (if String.eqb (BackupTarget_KeyPath t) "" then mret (Ok [])
                else
                  try! raw := wrapping "read key %s: %w" [BackupTarget_KeyPath t] (LocalCall "os.ReadFile" [BackupTarget_KeyPath t]) in
                  mret (let? signer := wrap_err "parse private key: %w" [] (ParsePrivateKey raw) in Ok [signer])) in
  let auths := keys ++ (if String.eqb (BackupTarget_Password t) "" then [] else [BackupTarget_Password t]) in
  mret (match auths with [] => Err (Errorf "sftp requires KeyPath or Password" []) | _ => Ok auths end).

Definition sftp_close : svc S unit := LocalCall "sftp.Close" [] ;; LocalCall "ssh.Close" [] ;; mret tt.

(** The handshake leaves the state of the program alone. *)
Definition ssh_connect (cfg : ClientConfig) : svc S (result unit) := fun w h s => let '(r, h') := NewClientConn cfg w h in (r, s, h').

Definition dialSFTP (t : BackupTarget) : svc S (result unit) :=
  if String.eqb (BackupTarget_Host t) "" then mret (Err (Errorf "sftp host required" []))
  else
    let port := if BackupTarget_Port t =? 0 then 22 else BackupTarget_Port t in
    try! auths := sftpAuthMethods t in
    let cfg := mkClientConfig (BackupTarget_User t) auths (pinnedHostKeyCallback t) (15 * second) in
    let addr := JoinHostPort (BackupTarget_Host t) (itoa port) in
    try! _ := wrapping "dial %s: %w" [addr] (LocalCall "net.Dial" [addr]) in
    r ← wrapping "ssh handshake: %w" [] (ssh_connect cfg);
    match r with
    | Err e => LocalCall "net.Close" [] ;; mret (Err e)
    | Ok _ =>
        r ← wrapping "sftp client: %w" [] (LocalCall "sftp.NewClient" []);
        match r with
        | Err e => LocalCall "ssh.Close" [] ;; mret (Err e)
        | Ok _ => mret (Ok tt)
        end
    end.

(** The copy of an open archive under a temporary name and the rename.
    [io.Copy] into the remote file is one call; one that fails may have
    written any part. *)
Definition sftp_copy (tmp final content : string) : svc S (result string) :=
  try! _ := wrapping "create tmp: %w" [] (LocalCall "sftp.OpenFile" [tmp; "O_CREATE"; "O_WRONLY"; "O_TRUNC"]) in
  let abandon format e : svc S (result string) := LocalCall "sftp.Remove" [tmp] ;; mret (Err (Errorw format [] e)) in
  copied ← LocalCall "sftp.Copy" [tmp; content];
  match copied with
  | Err e => LocalCall "sftp.CloseFile" [tmp] ;; abandon "copy: %w" e
  | Ok _ =>
      closed ← LocalCall "sftp.CloseFile" [tmp];
      match closed with
      | Err e => abandon "close tmp: %w" e
      | Ok _ =>
          renamed ← LocalCall "sftp.PosixRename" [tmp; final];
          match renamed with
          | Err e => abandon "rename: %w" e
          | Ok _ => mret (Ok final)
          end
      end
  end.

(** What the connected client does. *)
Definition sftp_store (srcPath : string) (t : BackupTarget) : svc S (result string) :=
  try! _ := (if String.eqb (BackupTarget_RemoteDir t) "" then mret (Ok "")
             else wrapping "mkdir %s: %w" [BackupTarget_RemoteDir t] (LocalCall "sftp.MkdirAll" [BackupTarget_RemoteDir t])) in
  try! content := LocalCall "os.Open" [srcPath] in
  let final := Join [BackupTarget_RemoteDir t; filepathBase srcPath] in
  let tmp := final +:+ ".tmp" in
  sftp_copy tmp final content.

Definition uploadSFTP (srcPath : string) (t : BackupTarget) : svc S (result string) :=
  try! _ := dialSFTP t in
  r ← sftp_store srcPath t;
  sftp_close ;;
  mret r.

Fixpoint remove_remote (files : list sftpBackup) (deleted : list string) : svc S (list string * result unit) :=
  match files with
  | [] => mret (deleted, Ok tt)
  | f :: rest =>
      r ← LocalCall "sftp.Remove" [sf_path f];
      match r with
      | Err e => mret (deleted, Err (Errorw "remove %s: %w" [sf_path f] e))
      | Ok _ => remove_remote rest (deleted ++ [sf_path f])
      end
  end.

Definition cleanupSFTP (t : BackupTarget) (keep : Z) : svc S (list string * result unit) :=
  if keep <? 1 then mret ([], Err (Errorf "retention must be >= 1" []))
  else
    c ← dialSFTP t;
    match c with
    | Err e => mret ([], Err e)
    | Ok _ =>
        let dir := if String.eqb (BackupTarget_RemoteDir t) "" then "." else BackupTarget_RemoteDir t in
        listed ← LocalCall "sftp.ReadDir" [dir];
        r ← match listed with
            | Err e => mret (if bool_decide (e = Errorf "file does not exist" []) then ([], Ok tt) else ([], Err (Errorw "readdir %s: %w" [dir] e)))
            | Ok text => remove_remote (drop (Z.to_nat keep) (newest_first (sftpBackups (entries_of text) dir))) []
            end;
        sftp_close ;;
        mret r
    end.
End SFTP.

(** ** Lemmas: escaping *)

Lemma upper_hex_byte a :
  hex_val (upper_hex (byte_val a / 16)) = Some (byte_val a / 16) /\ hex_val (upper_hex (byte_val a mod 16)) = Some (byte_val a mod 16)
  /\ ascii_of_N (Z.to_N (16 * (byte_val a / 16) + byte_val a mod 16)) = a.
Proof.
  enough (H : bool_decide (hex_val (upper_hex (byte_val a / 16)) = Some (byte_val a / 16) /\ hex_val (upper_hex (byte_val a mod 16)) = Some (byte_val a mod 16)
    /\ ascii_of_N (Z.to_N (16 * (byte_val a / 16) + byte_val a mod 16)) = a) = true) by (by apply bool_decide_eq_true in H).
  revert a. apply ascii_forall. vm_compute. reflexivity.
Qed.

Lemma unescape_sigv s : QueryUnescape (sigvEscape s) = Some s.
Proof.
  induction s as [|a s IH]; [done|]. cbn [sigvEscape]. destruct (is_alnum a || char_in "-_.~" a) eqn:E.
  - cbn [QueryUnescape]. assert (Hp : Ascii.eqb a "%" = false /\ Ascii.eqb a "+" = false).
    { split; [destruct (Ascii.eqb_spec a "%") as [->|]|destruct (Ascii.eqb_spec a "+") as [->|]]; done. }
    destruct Hp as [-> ->]. by rewrite IH.
  - cbn [QueryUnescape Ascii.eqb Bool.eqb]. destruct (upper_hex_byte a) as (-> & -> & ->). by rewrite IH.
Qed.

(** The characters of an escaped text. *)
Definition sigv_char (a : ascii) : bool := is_alnum a || char_in "-_.~%" a.

Lemma sigv_chars s : all_chars sigv_char (sigvEscape s) = true.
Proof.
  induction s as [|a s IH]; [done|]. cbn [sigvEscape]. destruct (is_alnum a || char_in "-_.~" a) eqn:E; cbn [all_chars]; rewrite IH, andb_true_r.
  - revert E. apply (ascii_impl (fun a => is_alnum a || char_in "-_.~" a) sigv_char). vm_compute. reflexivity.
  - assert (H : forall a, sigv_char (upper_hex (byte_val a / 16)) && sigv_char (upper_hex (byte_val a mod 16)) = true)
      by (apply (ascii_forall (fun a => sigv_char (upper_hex (byte_val a / 16)) && sigv_char (upper_hex (byte_val a mod 16)))); vm_compute; reflexivity).
    specialize (H a). apply andb_prop in H as [-> ->]. done.
Qed.

Lemma sigv_no_char c s : sigv_char c = false -> has_char c (sigvEscape s) = false.
Proof. intros Hc. eapply all_chars_not_has; [exact Hc|apply sigv_chars]. Qed.

Lemma query_pair_encoded kv : query_pair (encode_pair sigvEscape kv) = Some kv.
Proof.
  destruct kv as [k v]. unfold query_pair, encode_pair. cbn [fst snd].
  assert (Hsemi : has_char ";" (sigvEscape k +:+ "=" +:+ sigvEscape v) = false)
    by (rewrite !has_char_append; by rewrite !sigv_no_char).
  rewrite Hsemi. destruct (String.eqb_spec (sigvEscape k +:+ "=" +:+ sigvEscape v) "") as [E|_]; [by destruct (sigvEscape k)|].
  cbn [orb]. change ("=" +:+ sigvEscape v) with (String "=" (sigvEscape v)). rewrite cut_byte_append by (by rewrite sigv_no_char).
  rewrite !unescape_sigv. done.
Qed.

Lemma Query_encoded l : Query (join "&" (List.map (encode_pair sigvEscape) l)) = l.
Proof.
  unfold Query. destruct l as [|kv l]; [done|]. change (join "&") with (join (char_str "&")). rewrite split_join.
  - remember (kv :: l) as q. clear. induction q as [|kv q IH]; [done|]. cbn [List.map omap list_omap]. rewrite query_pair_encoded.
    f_equal. exact IH.
  - done.
  - apply List.Forall_map, List.Forall_forall. intros [k v] _. unfold encode_pair. cbn [fst snd]. rewrite !has_char_append.
    by rewrite !sigv_no_char.
Qed.

(** ** Lemmas: grouping *)

Lemma sorted_keys_NoDup keys : NoDup (sorted_keys keys).
Proof. unfold sorted_keys. rewrite merge_sort_Permutation. apply NoDup_remove_dups. Qed.

Lemma sorted_keys_elem k keys : k ∈ sorted_keys keys <-> k ∈ keys.
Proof. unfold sorted_keys. rewrite merge_sort_Permutation. apply elem_of_remove_dups. Qed.

(** The keys of a text depend only on which there are. *)
Lemma sorted_keys_ext l1 l2 : (forall k, k ∈ l1 <-> k ∈ l2) -> sorted_keys l1 = sorted_keys l2.
Proof.
  intros Hk. apply (StronglySorted_unique str_le); try apply StronglySorted_merge_sort; try apply _.
  unfold sorted_keys. rewrite !merge_sort_Permutation. apply list_relations.list.NoDup_Permutation; try apply NoDup_remove_dups.
  intros x. rewrite !elem_of_remove_dups. apply Hk.
Qed.

Lemma filter_flat_map_key (f : string -> values) ks k : NoDup ks -> (forall x kv, In kv (f x) -> fst kv = x) ->
  List.filter (fun kv => String.eqb (fst kv) k) (flat_map f ks) = if bool_decide (k ∈ ks) then f k else [].
Proof.
  intros Hnd Hf. assert (Hsame : forall x, List.filter (fun kv => String.eqb (fst kv) k) (f x) = if String.eqb x k then f x else []).
  { intros x. specialize (Hf x). induction (f x) as [|kv l IH]; [by destruct (String.eqb x k)|]. cbn [List.filter].
    rewrite IH by (intros y Hy; apply Hf; by right). rewrite (Hf kv (or_introl eq_refl)). by destruct (String.eqb x k). }
  induction Hnd as [|x ks Hx Hnd IH]; [done|]. cbn [flat_map]. rewrite List.filter_app, Hsame, IH.
  destruct (String.eqb_spec x k) as [->|Hne].
  - rewrite (bool_decide_false (k ∈ ks)) by done. rewrite (bool_decide_true (k ∈ k :: ks)) by left. apply app_nil_r.
  - cbn [app]. destruct (decide (k ∈ ks)) as [Hin|Hin].
    + rewrite !bool_decide_true; [done|by right|done].
    + rewrite !bool_decide_false; [done| |done]. by intros [?|?]%elem_of_cons.
Qed.

Lemma grouped_keys q k : k ∈ List.map fst (grouped q) <-> k ∈ List.map fst q.
Proof.
  rewrite !list_elem_of_In, !in_map_iff. unfold grouped. split.
  - intros (kv & <- & Hin). apply in_flat_map in Hin as (x & _ & Hin). apply filter_In in Hin as [Hin _]. by exists kv.
  - intros (kv & <- & Hin). exists kv. split; [done|]. apply in_flat_map. exists (fst kv). split.
    + apply list_elem_of_In, sorted_keys_elem, list_elem_of_In, in_map_iff. by exists kv.
    + apply filter_In. split; [done|apply String.eqb_refl].
Qed.

Lemma grouped_idem q : grouped (grouped q) = grouped q.
Proof.
  unfold grouped at 1. rewrite (sorted_keys_ext (List.map fst (grouped q)) (List.map fst q)) by apply grouped_keys.
  unfold grouped at 2. rewrite !flat_map_concat_map. f_equal. apply map_ext_in. intros k Hk. unfold grouped.
  rewrite filter_flat_map_key; [|apply sorted_keys_NoDup|].
  - rewrite bool_decide_true; [done|]. by apply list_elem_of_In.
  - intros x kv Hin. apply filter_In in Hin as [_ Hin]. by apply String.eqb_eq.
Qed.

(** The query on the wire is the one that is signed, and says what the query
    it was made from says. *)
Lemma canonicalQuery_fixed raw : canonicalQuery (canonicalQuery raw) = canonicalQuery raw /\ Query (canonicalQuery raw) = grouped (Query raw).
Proof. unfold canonicalQuery. rewrite Query_encoded, grouped_idem. done. Qed.

(** ** Lemmas: headers *)

Lemma Header_Set_keys name value h : NoDup (List.map fst h) -> NoDup (List.map fst (Header_Set name value h)).
Proof.
  intros Hnd. unfold Header_Set. rewrite List.map_app. apply list_relations.list.NoDup_app. split_and!.
  - induction h as [|kv h IH]; [constructor|]. cbn [List.map List.filter] in *. apply list_relations.list.NoDup_cons in Hnd as [Hx Hnd].
    destruct (negb _); [|by apply IH]. cbn [List.map]. constructor; [|by apply IH]. intros Hin. apply Hx.
    apply list_elem_of_In in Hin. apply in_map_iff in Hin as (y & Hy & Hin). apply filter_In in Hin as [Hin _].
    apply list_elem_of_In, in_map_iff. by exists y.
  - intros x Hx Hn. apply list_elem_of_singleton in Hn as ->. apply list_elem_of_In, in_map_iff in Hx as (y & Hy & Hin).
    apply filter_In in Hin as [_ Hin]. cbn in Hy. subst. by rewrite String.eqb_refl in Hin.
  - apply NoDup_singleton.
Qed.

Lemma Header_Get_other k name value h : String.eqb name k = false -> Header_Get k (Header_Set name value h) = Header_Get k h.
Proof.
  intros Hk. unfold Header_Get, Header_Set. induction h as [|kv h IH]; cbn [List.filter app List.find fst]; [by rewrite Hk|].
  destruct (String.eqb (fst kv) name) eqn:E; cbn [negb app List.find].
  - rewrite IH. apply String.eqb_eq in E. by rewrite E, Hk.
  - destruct (String.eqb (fst kv) k); [done|]. exact IH.
Qed.

(** A header that is not signed does not change what is. *)
Lemma signed_pairs_other m u h name value : signed_name name = false -> String.eqb name "host" = false ->
  signed_pairs (mkS3Request m u (Header_Set name value h)) = signed_pairs (mkS3Request m u h).
Proof.
  intros Hs Hh. unfold signed_pairs. cbn [rq_Header rq_URL].
  assert (Hf : List.filter (fun kv : string * string => signed_name (fst kv)) (Header_Set name value h) = List.filter (fun kv => signed_name (fst kv)) h).
  { unfold Header_Set. rewrite List.filter_app. cbn [List.filter fst]. rewrite Hs, app_nil_r.
    induction h as [|kv h IH]; [done|]. cbn [List.filter]. destruct (String.eqb_spec (fst kv) name) as [E|E]; cbn [negb].
    - rewrite E, Hs. exact IH.
    - cbn [List.filter]. by rewrite IH. }
  by rewrite Hf, Header_Get_other.
Qed.

(** Two entries of a header map under one name are the same entry. *)
Lemma header_unique {V} (h : list (string * V)) x y : NoDup (List.map fst h) -> In x h -> In y h -> fst x = fst y -> x = y.
Proof.
  induction h as [|z h IH]; [done|]. cbn [List.map]. intros [Hz Hnd]%list_relations.list.NoDup_cons Hx Hy E.
  destruct Hx as [->|Hx], Hy as [->|Hy]; [done|..|by apply IH]; destruct Hz; apply list_elem_of_In, in_map_iff; eauto.
Qed.

Lemma Header_Get_order name h1 h2 : NoDup (List.map fst h1) -> Permutation h1 h2 -> Header_Get name h1 = Header_Get name h2.
Proof.
  intros Hnd Hp. unfold Header_Get.
  destruct (List.find _ h1) as [x|] eqn:E1, (List.find _ h2) as [y|] eqn:E2; [| | |done].
  - apply List.find_some in E1 as [H1 E1%String.eqb_eq]. apply List.find_some in E2 as [H2 E2%String.eqb_eq].
    apply (Permutation_in _ (Permutation_sym Hp)) in H2. by rewrite (header_unique h1 x y Hnd H1 H2 ltac:(congruence)).
  - apply List.find_some in E1 as [H1 E1]. apply (Permutation_in _ Hp) in H1. pose proof (List.find_none _ _ E2 _ H1) as Hn. cbn in *. congruence.
  - apply List.find_some in E2 as [H2 E2]. apply (Permutation_in _ (Permutation_sym Hp)) in H2.
    pose proof (List.find_none _ _ E1 _ H2) as Hn. cbn in *. congruence.
Qed.

(** What is signed does not depend on the order of the header map. *)
Lemma signed_pairs_order m u h1 h2 : NoDup (List.map fst h1) -> Permutation h1 h2 -> Header_Get "host" h1 <> "" ->
  signed_pairs (mkS3Request m u h1) = signed_pairs (mkS3Request m u h2).
Proof.
  intros Hnd Hp Hh. unfold signed_pairs. cbn [rq_Header rq_URL]. rewrite <- (Header_Get_order "host" h1 h2 Hnd Hp).
  apply String.eqb_neq in Hh. rewrite Hh.
  set (sel := fun h : list (string * string) => List.map (fun kv => (fst kv, TrimSpace (snd kv))) (List.filter (fun kv => signed_name (fst kv)) h)).
  assert (Hsel : forall h x, In x (sel h) -> exists kv, In kv h /\ x = (fst kv, TrimSpace (snd kv))).
  { intros h x Hx. unfold sel in Hx. apply in_map_iff in Hx as (kv & <- & Hin). apply filter_In in Hin as [Hin _]. by exists kv. }
  assert (Hps : Permutation (sel h1) (sel h2)).
  { unfold sel. apply Permutation_map. clear -Hp. induction Hp; cbn [List.filter]; [done| | |by etrans].
    - destruct (signed_name _); [by constructor|done].
    - destruct (signed_name (fst x)), (signed_name (fst y)); try done; constructor. }
  apply (StronglySorted_unique_strong key_le); try (apply StronglySorted_merge_sort; apply _).
  - intros x y Hx Hy Hxy Hyx. rewrite merge_sort_Permutation in Hx, Hy. rewrite list_elem_of_In in Hx, Hy.
    destruct (Hsel _ _ Hx) as (a & Ha & ->). destruct (Hsel _ _ Hy) as (b & Hb & ->).
    apply (Permutation_in _ (Permutation_sym Hp)) in Hb.
    rewrite (header_unique h1 a b Hnd Ha Hb); [done|]. by apply (anti_symm str_le).
  - by rewrite !merge_sort_Permutation.
Qed.

(** ** Signatures cover what is sent *)

Section Signed.
Context `{URLs} (sha256Hex : string -> string) (hmac : string -> string -> string) (now : Z).

(** The signature of a text. *)
Definition signature_of (c : s3Client) (text : string) : string :=
  let scope := join "/" [amz_day now; s3_Region c; "s3"; "aws4_request"] in
  let key := hmac (hmac (hmac (hmac ("AWS4" +:+ s3_SecretKey c) (amz_day now)) (s3_Region c)) "s3") "aws4_request" in
  hex_encode (hmac key (join nl ["AWS4-HMAC-SHA256"; amz_time now; scope; sha256Hex text])).

Lemma canonical_request_other m u h name value hash : signed_name name = false -> String.eqb name "host" = false ->
  canonical_request (mkS3Request m u (Header_Set name value h)) hash = canonical_request (mkS3Request m u h) hash
  /\ canonicalHeaders (mkS3Request m u (Header_Set name value h)) = canonicalHeaders (mkS3Request m u h).
Proof. intros Hs Hh. unfold canonical_request, canonicalHeaders. by rewrite (signed_pairs_other m u h name value Hs Hh). Qed.

Lemma Header_Get_Set name value h : Header_Get name (Header_Set name value h) = value.
Proof.
  unfold Header_Get, Header_Set. induction h as [|kv h IH]; cbn [List.filter app List.find fst]; [by rewrite String.eqb_refl|].
  destruct (String.eqb (fst kv) name) eqn:E; cbn [negb]; [exact IH|]. cbn [app List.find]. by rewrite E.
Qed.

(** The store accepts what was sent.  The query that goes on the wire is in
    canonical form already and holds exactly the settings of the request; a
    store that recomputes the canonical request from the request as it
    arrives, headers in any order, gets the text that was signed, with the
    signed headers the authorization names: host, the x-amz headers and the
    content type, no others. *)
Theorem signature_covers_request c req hash (out := sign sha256Hex hmac now c req hash) arrived :
  NoDup (List.map fst (rq_Header req)) -> url_Host (rq_URL req) <> "" -> Permutation (rq_Header out) arrived ->
  let got := mkS3Request (rq_Method out) (rq_URL out) arrived in
  canonicalQuery (url_RawQuery (rq_URL out)) = url_RawQuery (rq_URL out)
  /\ Query (url_RawQuery (rq_URL out)) = grouped (Query (url_RawQuery (rq_URL req)))
  /\ Forall (fun kv => signed_name (fst kv) = true) (signed_pairs got)
  /\ Header_Get "authorization" arrived
     = "AWS4-HMAC-SHA256 Credential=" +:+ s3_AccessKey c +:+ "/" +:+ join "/" [amz_day now; s3_Region c; "s3"; "aws4_request"]
       +:+ ", SignedHeaders=" +:+ snd (canonicalHeaders got) +:+ ", Signature=" +:+ signature_of c (canonical_request got hash).
Proof.
  intros Hnd Hhost Hp got.
  set (h1 := Header_Set "x-amz-date" (amz_time now) (rq_Header req)).
  set (h2 := if String.eqb (Header_Get "host" h1) "" then Header_Set "host" (url_Host (rq_URL req)) h1 else h1).
  set (u := rq_URL out).
  assert (Hnd2 : NoDup (List.map fst h2)) by (unfold h2, h1; destruct (String.eqb _ _); by repeat apply Header_Set_keys).
  assert (Hh2 : Header_Get "host" h2 <> "").
  { unfold h2. destruct (String.eqb_spec (Header_Get "host" h1) "") as [E|E]; [|done]. by rewrite Header_Get_Set. }
  set (auth := Header_Get "authorization" (rq_Header out)).
  assert (Hout : rq_Header out = Header_Set "authorization" auth h2) by (unfold auth, out, sign; cbn [rq_Header]; by rewrite Header_Get_Set).
  assert (Hnd3 : NoDup (List.map fst (rq_Header out))) by (rewrite Hout; by apply Header_Set_keys).
  assert (Hpairs : signed_pairs got = signed_pairs (mkS3Request (rq_Method req) u h2)).
  { unfold got. rewrite <- (signed_pairs_order _ _ _ _ Hnd3 Hp) by (by rewrite Hout, Header_Get_other).
    by rewrite Hout, signed_pairs_other. }
  split; [apply canonicalQuery_fixed|]. split; [apply canonicalQuery_fixed|]. split.
  - rewrite Hpairs. unfold signed_pairs. apply String.eqb_neq in Hh2. cbn [rq_Header]. rewrite Hh2.
    apply List.Forall_forall. intros kv Hin. apply list_elem_of_In in Hin. rewrite merge_sort_Permutation in Hin.
    apply list_elem_of_In, in_map_iff in Hin as (x & <- & Hin). by apply filter_In in Hin as [_ Hin].
  - rewrite <- (Header_Get_order "authorization" _ _ Hnd3 Hp). unfold out, sign. cbn [rq_Header]. rewrite Header_Get_Set.
    unfold canonical_request, canonicalHeaders. rewrite Hpairs. done.
Qed.
End Signed.

(** ** Retention *)

(** The newest [keep] of a list sorted newest first, and the rest. *)
Definition newest_split {A} (mtime : A -> Z) (keep : Z) (l kept gone : list A) : Prop :=
  Permutation (kept ++ gone) l /\ Z.of_nat (length kept) = Z.min keep (Z.of_nat (length l))
  /\ forall k g, In k kept -> In g gone -> mtime g <= mtime k.

Definition newest_law {A} (mtime : A -> Z) (sort : list A -> list A) : Prop :=
  forall l, Permutation (sort l) l /\ StronglySorted (fun a b => mtime b <= mtime a) (sort l).

Lemma newest_split_take {A} (mtime : A -> Z) sort keep (l : list A) : newest_law mtime sort -> 1 <= keep ->
  newest_split mtime keep l (take (Z.to_nat keep) (sort l)) (drop (Z.to_nat keep) (sort l)).
Proof.
  intros Hs Hk. destruct (Hs l) as [Hp Hsort]. split; [by rewrite take_drop|].
  split; [rewrite length_take, <- (Permutation_length Hp); lia|].
  rewrite <- (take_drop (Z.to_nat keep) (sort l)) in Hsort. intros k g Hin Hg.
  induction (take (Z.to_nat keep) (sort l)) as [|x m IH]; [done|]. cbn [app] in Hsort.
  apply StronglySorted_inv in Hsort as [Hsort Hx]. destruct Hin as [->|Hin]; [|by apply IH].
  rewrite List.Forall_forall in Hx. apply Hx, in_app_iff. by right.
Qed.

Definition http_method (c : call) : string := match c with CLocal "http.Do" (m :: _) => m | _ => "" end.

Section Retention.
Context `{URLs} (sha256Hex : string -> string) (hmac : string -> string -> string) (now : Z)
  (response_of : string -> Z * string * string) (decode_xml : string -> result listing) (parse_time : string -> result Z)
  (newest_first : list s3Object -> list s3Object) {S : Type}.

Abbreviation list_page := (listPage sha256Hex hmac now response_of decode_xml parse_time (S := S)).
Abbreviation list_all := (listObjects sha256Hex hmac now response_of decode_xml parse_time (S := S)).
Abbreviation cleanup := (cleanupS3 sha256Hex hmac now response_of decode_xml parse_time newest_first (S := S)).

(** The store answered the call made after [h] with a status of the 200s and
    this body. *)
Definition answered (w : world) (h : list call) (k : call) (body : string) : Prop :=
  exists text code status, w h k = Ok text /\ response_of text = (code, status, body) /\ 200 <= code < 300.

(** A page of the listing as the store sent it: the call that asked for it,
    whether more follow, from which token, and the objects. *)
Definition page_sent (c : s3Client) (bucket prefix : string) (w : world) (token : string) (h : list call) (k : call)
    (truncated : bool) (next : string) (objs : list s3Object) : Prop :=
  exists u host req body p, listURL c bucket prefix token = Ok (u, host)
    /\ signed_request sha256Hex hmac now c "GET" u host (sha256Hex "") = Ok req /\ k = s3_call req ""
    /\ answered w h k body /\ decode_xml body = Ok p /\ ls_IsTruncated p = truncated /\ ls_NextToken p = next
    /\ Forall2 (fun e o => so_Key o = fst (fst e) /\ parse_time (snd (fst e)) = Ok (so_LastModified o) /\ so_Size o = snd e) (ls_Contents p) objs.

(** A complete listing from a token: pages that say more follow and from
    where, then one that says none does. *)
Inductive paged (c : s3Client) (bucket prefix : string) (w : world) : string -> list call -> list s3Object -> list call -> Prop :=
| paged_last token h k next objs :
    page_sent c bucket prefix w token h k false next objs -> paged c bucket prefix w token h objs (h ++ [k])
| paged_more token h k next objs rest h2 :
    page_sent c bucket prefix w token h k true next objs -> next <> "" ->
    paged c bucket prefix w next (h ++ [k]) rest h2 -> paged c bucket prefix w token h (objs ++ rest) h2.

Lemma signed_method c m endpoint host hash req : signed_request sha256Hex hmac now c m endpoint host hash = Ok req -> rq_Method req = m.
Proof. unfold signed_request. destruct (url_Parse endpoint); [|done]. by intros [= <-]. Qed.

Lemma listPage_reads c bucket prefix token (s : S) : keeps (fun k => http_method k = "GET") (eq s) (list_page c bucket prefix token).
Proof.
  unfold listPage. destruct (listURL _ _ _ _) as [[u host]|e]; [|apply keeps_ret].
  destruct (signed_request _ _ _ _ _ _ _ _) as [req|e] eqn:E; [|apply keeps_ret]. apply signed_method in E.
  unfold s3_do. apply keeps_try; [apply keeps_try; [by apply keeps_perform|]|]; intros a; [|apply keeps_ret].
  destruct (response_of a) as [[code status] body]. apply keeps_ret.
Qed.

Lemma quot_success code : (Z.quot code 100 =? 2) = true <-> 200 <= code < 300.
Proof.
  rewrite Z.eqb_eq. Z.to_euclidean_division_equations. lia.
Qed.

(** One request and the check of its status. *)
Lemma s3_do_run req body op target w h (s : S) :
  let '(r, s', h') := s3_do response_of req body op target w h s in
  s' = s /\ h' = h ++ [s3_call req body] /\ forall b, r = Ok b -> answered w h (s3_call req body) b.
Proof.
  unfold s3_do, try_bind, perform, mbind, svc_bind, mret, svc_ret. destruct (w h _) as [text|e] eqn:Ew; [|by split_and!].
  destruct (response_of text) as [[code status] b] eqn:Er. cbv beta iota. split_and!; [done..|]. intros b'.
  destruct (Z.quot code 100 =? 2) eqn:Ec; [|done]. intros [= <-]. exists text, code, status. split_and!; try done; by apply quot_success in Ec as [? ?].
Qed.

Lemma read_objects_all l objs : read_objects parse_time l = Ok objs ->
  Forall2 (fun e o => so_Key o = fst (fst e) /\ parse_time (snd (fst e)) = Ok (so_LastModified o) /\ so_Size o = snd e) l objs.
Proof.
  revert objs. induction l as [|[[key modified] size] l IH]; intros objs; cbn [read_objects]; [by intros [= <-]|].
  destruct (parse_time modified) as [t|e] eqn:Et; cbn [wrap_err]; [|done]. destruct (read_objects parse_time l) as [rest|e]; [|done].
  intros [= <-]. constructor; [by split_and!|by apply IH].
Qed.

(** A page that was listed is the one that was sent, and one that is
    truncated names the next. *)
Lemma listPage_sent c bucket prefix token w h (s : S) objs next s1 h1 : list_page c bucket prefix token w h s = (Ok (objs, next), s1, h1) ->
  exists k, h1 = h ++ [k] /\ ((next = "" /\ exists tok, page_sent c bucket prefix w token h k false tok objs)
    \/ (next <> "" /\ page_sent c bucket prefix w token h k true next objs)).
Proof.
  unfold listPage. destruct (listURL c bucket prefix token) as [[u host]|e] eqn:Eu; [|done].
  destruct (signed_request _ _ _ c "GET" u host _) as [req|e] eqn:Eq; [|done]. unfold try_bind, mbind, svc_bind.
  pose proof (s3_do_run req "" "LIST" bucket w h s) as Hd.
  destruct (s3_do response_of req "" "LIST" bucket w h s) as [[[body|e] s2] h2]; destruct Hd as (-> & -> & Ha); [|done].
  unfold mret, svc_ret, decodeListing. intros [= E _ <-]. exists (s3_call req ""). split; [done|].
  destruct (decode_xml body) as [p|e] eqn:Ex; [|done].
  specialize (Ha body eq_refl). unfold page_sent. cbn in E.
  destruct (ls_IsTruncated p) eqn:Et, (String.eqb_spec (ls_NextToken p) "") as [En|En]; cbn in E; try done;
    (destruct (read_objects parse_time (ls_Contents p)) as [out|e] eqn:Eo; [|done]); apply read_objects_all in Eo; injection E as <- <-.
  - right. split; [done|]. by exists u, host, req, body, p.
  - left. split; [done|]. exists (ls_NextToken p). by exists u, host, req, body, p.
  - left. split; [done|]. exists (ls_NextToken p). by exists u, host, req, body, p.
Qed.

Lemma list_loop_run pages c bucket prefix token all w h (s : S) :
  let '(r, s', h') := list_loop sha256Hex hmac now response_of decode_xml parse_time pages c bucket prefix token all w h s in
  s' = s /\ (exists l, h' = h ++ l /\ Forall (fun k => http_method k = "GET") l)
  /\ forall objs, r = Ok objs -> exists found, objs = all ++ found /\ paged c bucket prefix w token h found h'.
Proof.
  revert token all h. induction pages as [|pages IH]; intros token all h; cbn [list_loop].
  { unfold mret, svc_ret. split; [done|]. split; [|done]. exists []. by rewrite app_nil_r. }
  unfold try_bind, mbind, svc_bind. destruct (listPage_reads c bucket prefix token s w h s eq_refl) as [Hs (l & Hl & Hg)].
  destruct (list_page c bucket prefix token w h s) as [[[[objs next]|e] s1] h1] eqn:Ep; cbn [fst snd] in *; subst s1 h1;
    [|unfold mret, svc_ret; split; [done|]; split; [by exists l|done]].
  apply listPage_sent in Ep as (k & Ek & Hp). apply app_inv_head in Ek as ->. destruct (String.eqb_spec next "") as [->|Hne].
  - unfold mret, svc_ret. split; [done|]. split; [by exists [k]|]. intros o [= <-]. exists objs. split; [done|].
    destruct Hp as [[_ [tok Hp]]|[? _]]; [by eapply paged_last|done].
  - specialize (IH next (all ++ objs) (h ++ [k])). destruct (list_loop _ _ _ _ _ _ pages c bucket prefix next _ w _ s) as [[r s2] h2].
    destruct IH as (-> & (l2 & -> & Hg2) & Hr). split; [done|]. split.
    + exists ([k] ++ l2). rewrite app_assoc. split; [done|]. by apply List.Forall_app.
    + intros o Ho. destruct (Hr o Ho) as (found & -> & Hpg). exists (objs ++ found). rewrite app_assoc. split; [done|].
      destruct Hp as [[? _]|[_ Hp]]; [done|by eapply paged_more].
Qed.

(** The call that asks for the deletion of the object of that key. *)
Definition deletes (c : s3Client) (bucket key : string) (k : call) : Prop :=
  exists req, delete_request sha256Hex hmac now c bucket key = Ok req /\ k = s3_call req "".

(** It was made in the run and the store answered that it is done. *)
Definition gone_from (c : s3Client) (bucket : string) (w : world) (calls : list call) (key : string) : Prop :=
  exists h1 k h2 body, calls = h1 ++ k :: h2 /\ deletes c bucket key k /\ answered w h1 k body.

Lemma gone_from_app c bucket w l more key : gone_from c bucket w l key -> gone_from c bucket w (l ++ more) key.
Proof. intros (h1 & k & h2 & body & -> & Hk). exists h1, k, (h2 ++ more), body. by rewrite <- app_assoc. Qed.

(** The deletions: requests for the objects in order; what is reported is
    gone, and all is reported on success. *)
Lemma delete_objects_run c bucket objects deleted w h (s : S) : Forall (gone_from c bucket w h) deleted ->
  let '(r, s', h') := delete_objects sha256Hex hmac now response_of c bucket objects deleted w h s in
  s' = s /\ Forall (gone_from c bucket w h') (fst r) /\ exists l, h' = h ++ l
    /\ Forall (fun k => exists o, In o objects /\ deletes c bucket (so_Key o) k) l
    /\ (is_ok (snd r) = true -> fst r = deleted ++ List.map so_Key objects).
Proof.
  revert deleted h. induction objects as [|o objects IH]; intros deleted h Hdel; cbn [delete_objects].
  { unfold mret, svc_ret. split_and!; try done. exists []. rewrite !app_nil_r. by split_and!. }
  unfold mbind, svc_bind, deleteObject.
  destruct (delete_request _ _ _ _ _ (so_Key o)) as [req|e] eqn:Er;
    [|unfold mret, svc_ret; split_and!; try done; exists []; rewrite app_nil_r; by split_and!].
  unfold try_bind, mbind, svc_bind. pose proof (s3_do_run req "" "DELETE" (so_Key o) w h s) as Hd.
  assert (Hk : deletes c bucket (so_Key o) (s3_call req "")) by (by exists req).
  destruct (s3_do response_of req "" "DELETE" (so_Key o) w h s) as [[[body|e] s1] h1]; destruct Hd as (-> & -> & Ha); unfold mret, svc_ret; cycle 1.
  { split_and!; try done; [eapply List.Forall_impl; [|exact Hdel]; intros key; apply gone_from_app|].
    exists [s3_call req ""]. split_and!; try done. repeat constructor. exists o. split; [by left|done]. }
  assert (Hdel' : Forall (gone_from c bucket w (h ++ [s3_call req ""])) (deleted ++ [so_Key o])).
  { apply List.Forall_app. split; [eapply List.Forall_impl; [|exact Hdel]; intros key; apply gone_from_app|]. repeat constructor.
    exists h, (s3_call req ""), [], body. split_and!; try done. by apply Ha. }
  specialize (IH (deleted ++ [so_Key o]) (h ++ [s3_call req ""]) Hdel').
  destruct (delete_objects _ _ _ _ c bucket objects _ w _ s) as [[r s1] h1]. destruct IH as (-> & Hr & l & -> & Hl & Hd).
  split_and!; try done. exists (s3_call req "" :: l). split; [by rewrite <- app_assoc|]. split.
  - constructor; [exists o; split; [by left|done]|]. eapply List.Forall_impl; [|exact Hl].
    intros k (o' & Ho & Hk'). exists o'. split; [by right|done].
  - intros Hok. rewrite (Hd Hok). cbn [List.map]. by rewrite <- app_assoc.
Qed.

(** The key of a backup directly below the prefix. *)
Definition backup_key (prefix key : string) : Prop :=
  exists name, key = prefix +:+ name /\ Contains name "/" = false /\ HasPrefix name "lankeeper-backup-" = true.

Lemma own_object_iff prefix o : own_object prefix o = true <-> backup_key prefix (so_Key o).
Proof.
  unfold own_object, CutPrefix, backup_key. split.
  - destruct (drop_prefix prefix (so_Key o)) as [name|] eqn:E; [|done]. intros Hn. bool_hyps.
    exists name. split_and!; try done. by apply drop_prefix_Some in E.
  - intros (name & -> & H1 & H2). rewrite (proj2 (drop_prefix_Some _ _ _) eq_refl). by rewrite H1, H2.
Qed.

Lemma own_in prefix objects o : In o (ownBackupObjects objects prefix) <-> In o objects /\ backup_key prefix (so_Key o).
Proof. unfold ownBackupObjects. by rewrite filter_In, own_object_iff. Qed.

Lemma own_sublist prefix objects : sublist (ownBackupObjects objects prefix) objects.
Proof.
  unfold ownBackupObjects. induction objects as [|o objects IH]; [constructor|]. cbn [List.filter]. destruct (own_object prefix o); by constructor.
Qed.

(** C36: Retention on a store removes old backups of this router and nothing
    else.  Nothing is deleted unless the listing is complete: every page was
    answered with a status of the 200s, every page but the last says it is
    truncated and names the next, and the last says it is not.  The backups in
    the listing, which are its objects directly below the configured prefix
    under the name of a backup, are split into the newest ones, as many as are
    to be kept, and the rest, none of which is younger than a kept one; every
    deletion asked for is of an object of the rest; every key that is reported
    deleted was asked for and acknowledged by the store; and when no error is
    reported these are the keys of the whole rest. *)
Theorem remote_retention_exact t keep w (s : S) (x := cleanup t keep) (c := newS3Client t) (bucket := BackupTarget_Bucket t) :
  newest_law so_LastModified newest_first -> 1 <= keep ->
  state_after x w s = s
  /\ Forall (gone_from c bucket w (calls_of x w s)) (fst (Sys.outcome x w s))
  /\ ((Forall (fun k => http_method k = "GET") (calls_of x w s) /\ is_ok (snd (Sys.outcome x w s)) = false)
      \/ exists listed own h1 kept gone l,
           paged c bucket (s3_prefix t) w "" [] listed h1
           /\ (sublist own listed /\ forall o, In o own <-> In o listed /\ backup_key (s3_prefix t) (so_Key o))
           /\ newest_split so_LastModified keep own kept gone
           /\ calls_of x w s = h1 ++ l
           /\ Forall (fun k => http_method k = "GET") h1
           /\ Forall (fun k => exists o, In o gone /\ deletes c bucket (so_Key o) k) l
           /\ (is_ok (snd (Sys.outcome x w s)) = true -> fst (Sys.outcome x w s) = List.map so_Key gone)).
Proof.
  intros Hlaw Hkeep. subst x. unfold state_after, calls_of, Sys.outcome, cleanupS3. destruct (Z.ltb_spec keep 1); [lia|].
  fold c bucket. unfold mbind, svc_bind.
  pose proof (list_loop_run maxListPages c bucket (s3_prefix t) "" [] w [] s) as Hl.
  change (list_loop _ _ _ _ _ _ maxListPages c bucket (s3_prefix t) "" []) with (list_all c bucket (s3_prefix t)) in Hl.
  destruct (list_all c bucket (s3_prefix t) w [] s) as [[r s1] h1]. destruct Hl as (-> & (l1 & -> & Hg) & Hr). cbn [app] in *.
  destruct r as [listed|e]; [|unfold mret, svc_ret; split_and!; try done; left; by split].
  destruct (Hr listed eq_refl) as (found & -> & Hpg). cbn [app] in *.
  set (own := ownBackupObjects found (s3_prefix t)).
  pose proof (newest_split_take so_LastModified newest_first keep own Hlaw Hkeep) as Hsplit.
  set (kept := take (Z.to_nat keep) (newest_first own)) in Hsplit. set (gone := drop (Z.to_nat keep) (newest_first own)) in *.
  pose proof (delete_objects_run c bucket gone [] w l1 s (List.Forall_nil _)) as Hd.
  destruct (delete_objects _ _ _ _ c bucket gone [] w l1 s) as [[r s2] h2]. destruct Hd as (-> & Hf & l2 & -> & Hl2 & Hok).
  cbn [fst snd]. split_and!; try done. right. exists found, own, l1, kept, gone, l2. split_and!; try done.
  - apply own_sublist.
  - intros o. apply own_in.
Qed.
End Retention.

(** ** SFTP: the pinned host and the finished file *)

(** A call that gives the server a credential or a file. *)
Definition trusting (c : call) : bool :=
  match c with CLocal what _ => String.eqb what "ssh.Authenticate" || HasPrefix what "sftp." | _ => false end.

(** The call is a key exchange in which the server presented a key that is
    [good], by its fingerprint. *)
Definition pins (good : string -> bool) (answer : result string) (c : call) : bool :=
  match c, answer with CLocal what _, Ok fp => String.eqb what "ssh.KeyExchange" && good fp | _, _ => false end.

(** Every trusting call of the run comes after such an exchange. *)
Fixpoint trust_ok (w : world) (good : string -> bool) (pre l : list call) (ok : bool) : Prop :=
  match l with
  | [] => True
  | c :: rest => (trusting c = true -> ok = true) /\ trust_ok w good (pre ++ [c]) rest (ok || pins good (w pre c) c)
  end.

Fixpoint trust_after (w : world) (good : string -> bool) (pre l : list call) (ok : bool) : bool :=
  match l with
  | [] => ok
  | c :: rest => trust_after w good (pre ++ [c]) rest (ok || pins good (w pre c) c)
  end.

(** What the package documents of [HostKeyCallback], "called during the
    cryptographic handshake to validate the server's host key": the handshake
    consists of key exchanges and authentication, no credential is sent
    before the callback accepted a key the server presented, and it does not
    succeed without. *)
Definition handshake_call (c : call) : Prop := exists args, c = CLocal "ssh.KeyExchange" args \/ c = CLocal "ssh.Authenticate" args.
Definition verifies_host_key (conn : handshake) : Prop := forall cfg w h,
  let good fp := is_ok (cc_HostKeyCallback cfg fp) in
  exists l, snd (conn cfg w h) = h ++ l /\ Forall handshake_call l /\ trust_ok w good h l false
    /\ (is_ok (fst (conn cfg w h)) = true -> trust_after w good h l false = true).

(** The key pinned on the target. *)
Definition pinned (t : BackupTarget) (fp : string) : bool :=
  bool_decide (TrimSpace (BackupTarget_HostKeyFingerprint t) <> "" /\ fp = TrimSpace (BackupTarget_HostKeyFingerprint t)).

Lemma callback_pinned t fp : is_ok (pinnedHostKeyCallback t fp) = true -> pinned t fp = true.
Proof.
  unfold pinnedHostKeyCallback, pinned. destruct (String.eqb_spec (TrimSpace (BackupTarget_HostKeyFingerprint t)) ""); [done|].
  destruct (String.eqb_spec fp (TrimSpace (BackupTarget_HostKeyFingerprint t))); [|done]. intros _. by apply bool_decide_eq_true.
Qed.

Section Trust.
Context (w : world).

Lemma trust_true good pre l : trust_ok w good pre l true.
Proof. revert pre. induction l as [|c l IH]; intros pre; [done|]. split; [done|]. apply IH. Qed.

Lemma trust_app good pre l1 l2 ok :
  trust_ok w good pre (l1 ++ l2) ok <-> trust_ok w good pre l1 ok /\ trust_ok w good (pre ++ l1) l2 (trust_after w good pre l1 ok).
Proof.
  revert pre ok. induction l1 as [|c l1 IH]; intros pre ok; cbn [app trust_ok trust_after]; [rewrite app_nil_r; by intuition|].
  rewrite IH, <- app_assoc. cbn [app]. by intuition.
Qed.

Lemma trust_after_app good pre l1 l2 ok : trust_after w good pre (l1 ++ l2) ok = trust_after w good (pre ++ l1) l2 (trust_after w good pre l1 ok).
Proof. revert pre ok. induction l1 as [|c l1 IH]; intros pre ok; cbn [app trust_after]; [by rewrite app_nil_r|]. by rewrite IH, <- app_assoc. Qed.

Lemma trust_after_true good pre l : trust_after w good pre l true = true.
Proof. revert pre. induction l as [|c l IH]; intros pre; [done|]. apply IH. Qed.

(** Calls that trust nobody. *)
Lemma trust_plain good pre l ok : Forall (fun c => trusting c = false) l -> trust_ok w good pre l ok.
Proof.
  intros Hl. revert pre ok. induction Hl as [|c l Hc Hl IH]; intros pre ok; [done|]. split; [by rewrite Hc|]. apply IH.
Qed.

Lemma trust_mono (good good' : string -> bool) pre l ok ok' : (forall fp, good fp = true -> good' fp = true) -> (ok = true -> ok' = true) ->
  (trust_ok w good pre l ok -> trust_ok w good' pre l ok') /\ (trust_after w good pre l ok = true -> trust_after w good' pre l ok' = true).
Proof.
  intros Hg. revert pre ok ok'. induction l as [|c l IH]; intros pre ok ok' Ho; cbn [trust_ok trust_after]; [by split|].
  assert (Hn : ok || pins good (w pre c) c = true -> ok' || pins good' (w pre c) c = true).
  { rewrite !orb_true_iff. intros [H|H]; [by left; apply Ho|right]. revert H. unfold pins. destruct c; try done. destruct (w pre _); [|done].
    rewrite !andb_true_iff. intros [-> H]. split; [done|by apply Hg]. }
  destruct (IH (pre ++ [c]) _ _ Hn) as [I1 I2]. split; [|done]. intros [H1 H2]. split; [auto|by apply I1].
Qed.
End Trust.

(** ** SFTP: the remote files *)

(** The files of the server, and what a call does to them when it is carried
    out.  Opening creates and empties the file as its flags say; a copy
    overwrites from the start; the rename replaces. *)
Abbreviation remote := (gmap string string).

Definition opened (flags : list string) (old : option string) : option string :=
  match old with
  | Some d => Some (if existsb (String.eqb "O_TRUNC") flags then "" else d)
  | None => if existsb (String.eqb "O_CREATE") flags then Some "" else None
  end.
Definition overwritten (content old : string) : string := content +:+ substring (String.length content) (String.length old) old.

Definition server_apply (c : call) (R : remote) : remote :=
  match c with
  | CLocal what (path :: args) =>
      if String.eqb what "sftp.OpenFile" then partial_alter (opened args) path R
      else if String.eqb what "sftp.Copy" then
        match args, R !! path with [content], Some old => <[path := overwritten content old]> R | _, _ => R end
      else if String.eqb what "sftp.Remove" then delete path R
      else if String.eqb what "sftp.PosixRename" then
        match args, R !! path with [to], Some d => <[to := d]> (delete path R) | _, _ => R end
      else R
  | _ => R
  end.

(** What a call may have done, by its answer: a call that failed was carried
    out or not, and a copy that failed may have left anything. *)
Definition effect (c : call) (answer : result string) (R R1 : remote) : Prop :=
  match answer with
  | Ok _ => R1 = server_apply c R
  | Err _ => R1 = R \/ R1 = server_apply c R \/ exists path args d, c = CLocal "sftp.Copy" (path :: args) /\ R1 = <[path := d]> R
  end.

(** Whatever the calls of the run do to the remote files, [P] holds at every
    moment and [Q] at the end. *)
Fixpoint throughout (w : world) (P Q : remote -> Prop) (pre l : list call) (R : remote) : Prop :=
  P R /\ match l with [] => Q R | c :: rest => forall R1, effect c (w pre c) R R1 -> throughout w P Q (pre ++ [c]) rest R1 end.

Lemma throughout_mono w (P P' Q Q' : remote -> Prop) pre l R : (forall R, P R -> P' R) -> (forall R, P R -> Q R -> Q' R) ->
  throughout w P Q pre l R -> throughout w P' Q' pre l R.
Proof.
  intros HP HQ. revert pre R. induction l as [|c l IH]; intros pre R [H1 H2]; (split; [by apply HP|]); [by apply HQ|].
  intros R1 He. apply IH. by apply H2.
Qed.

Lemma throughout_app w (P Q : remote -> Prop) pre l1 l2 R :
  throughout w P (throughout w P Q (pre ++ l1) l2) pre l1 R -> throughout w P Q pre (l1 ++ l2) R.
Proof.
  revert pre R. induction l1 as [|c l1 IH]; intros pre R; cbn [app throughout]; [rewrite app_nil_r; by intros [_ H]|].
  intros [H1 H2]. split; [done|]. intros R1 He. apply IH. rewrite <- app_assoc. by apply H2.
Qed.

(** The calls that act on files. *)
Definition file_op (c : call) : bool :=
  match c with CLocal what _ => existsb (String.eqb what) ["sftp.OpenFile"; "sftp.Copy"; "sftp.Remove"; "sftp.PosixRename"] | _ => false end.

Lemma effect_inert c answer R R1 : file_op c = false -> effect c answer R R1 -> R1 = R.
Proof.
  intros Hc He. assert (Ha : server_apply c R = R).
  { destruct c; try done. cbn [file_op existsb] in Hc. destruct args as [|path args]; [done|]. cbn [server_apply].
    rewrite !orb_false_iff in Hc. by destruct Hc as (-> & -> & -> & -> & _). }
  destruct answer; [congruence|]. destruct He as [->|[->|(path & args & d & -> & ->)]]; done.
Qed.

Lemma throughout_inert w (P Q : remote -> Prop) pre l R : Forall (fun c => file_op c = false) l -> P R -> Q R -> throughout w P Q pre l R.
Proof.
  intros Hl HP HQ. revert pre. induction Hl as [|c l Hc _ IH]; intros pre; split; try done. intros R1 He.
  apply effect_inert in He as ->; [apply IH|done].
Qed.

(** Only the file of that name differs. *)
Definition same_but (path : string) (R R1 : remote) : Prop := forall q, q <> path -> R1 !! q = R !! q.

Lemma effect_same_but what path args answer R R1 : what <> "sftp.PosixRename" -> effect (CLocal what (path :: args)) answer R R1 -> same_but path R R1.
Proof.
  intros Hw He. assert (Ha : same_but path R (server_apply (CLocal what (path :: args)) R)).
  { intros q Hq. cbn [server_apply]. destruct (String.eqb what "sftp.OpenFile"); [by rewrite lookup_partial_alter_ne|].
    destruct (String.eqb what "sftp.Copy"); [destruct args as [|c [|]], (R !! path); by rewrite ?lookup_insert_ne|].
    destruct (String.eqb what "sftp.Remove"); [by rewrite lookup_delete_ne|]. by apply String.eqb_neq in Hw as ->. }
  destruct answer as [a|e]; [cbn [effect] in He; by rewrite He|].
  destruct He as [->|[->|(p & a & d & [= _ <- _] & ->)]]; [done|done|]. intros q Hq. by rewrite lookup_insert_ne.
Qed.

(** Nothing but the archive and its temporary file differs from [R], and the
    archive is what it was or the whole content. *)
Definition intact (final content : string) (R R1 : remote) : Prop :=
  (forall p, p <> final -> p <> final +:+ ".tmp" -> R1 !! p = R !! p) /\ (R1 !! final = R !! final \/ R1 !! final = Some content).

Lemma tmp_differs p : p +:+ ".tmp" <> p.
Proof. intros E. apply (f_equal String.length) in E. rewrite append_length in E. cbn in E. lia. Qed.

Lemma same_intact final content R R1 : same_but (final +:+ ".tmp") R R1 -> intact final content R R1.
Proof. intros H. split; [intros p _; apply H|]. left. apply H. intros E. by apply (tmp_differs final). Qed.

Lemma intact_tmp final content R R1 R2 : intact final content R R1 -> same_but (final +:+ ".tmp") R1 R2 -> intact final content R R2.
Proof.
  intros [H1 H2] H. split; [intros p Hf Ht; rewrite H by done; by apply H1|].
  rewrite H by (intros E; by apply (tmp_differs final)). done.
Qed.

(** The rename of the finished copy. *)
Lemma renamed_intact final content R R3 answer R4 (rename := CLocal "sftp.PosixRename" [final +:+ ".tmp"; final]) :
  same_but (final +:+ ".tmp") R R3 -> R3 !! (final +:+ ".tmp") = Some content -> effect rename answer R3 R4 ->
  intact final content R R4 /\ (is_ok answer = true -> R4 !! final = Some content /\ R4 !! (final +:+ ".tmp") = None).
Proof.
  intros Hs Ht He. assert (Hd : intact final content R (server_apply rename R3) /\ server_apply rename R3 !! final = Some content
    /\ server_apply rename R3 !! (final +:+ ".tmp") = None).
  { cbn [rename server_apply String.eqb Ascii.eqb Bool.eqb]. rewrite Ht. pose proof (tmp_differs final) as Hne. split_and!.
    - split; [|right; by rewrite lookup_insert_eq]. intros p Hp Hp'. rewrite lookup_insert_ne, lookup_delete_ne by done. by apply Hs.
    - by rewrite lookup_insert_eq.
    - rewrite lookup_insert_ne by done. by rewrite lookup_delete_eq. }
  destruct answer as [a|e]; [cbn [effect] in He; rewrite He; by destruct Hd|]. split; [|done].
  destruct He as [->|[->|(p & a & d & [=] & _)]]; [by apply same_intact|by destruct Hd].
Qed.

Section Sftp.
Context (NewClientConn : handshake) (ParsePrivateKey : string -> result string) (entries_of : string -> list sftpEntry)
  (newest_first : list sftpBackup -> list sftpBackup) {S : Type}.
Hypothesis host_key_verified : verifies_host_key NewClientConn.

Lemma auth_plain t (s : S) : keeps (fun c => trusting c = false) (eq s) (sftpAuthMethods ParsePrivateKey t).
Proof. unfold sftpAuthMethods. walk; done. Qed.

(** A connection that stands was pinned before anything was entrusted to it. *)
Lemma dialSFTP_trust t w (s : S) :
  let '(r, s', h') := dialSFTP NewClientConn ParsePrivateKey t w [] s in
  s' = s /\ trust_ok w (pinned t) [] h' false /\ (is_ok r = true -> trust_after w (pinned t) [] h' false = true).
Proof.
  unfold dialSFTP. destruct (String.eqb _ _); [done|]. unfold try_bind at 1, mbind, svc_bind.
  destruct (auth_plain t s w [] s eq_refl) as [Hs (l & Hl & Hp)].
  destruct (sftpAuthMethods ParsePrivateKey t w [] s) as [[[auths|e] s1] h1]; cbn [fst snd app] in *; subst s1 h1;
    [|unfold mret, svc_ret; split; [done|]; split; [by apply trust_plain|done]].
  unfold ssh_connect, try_bind, wrapping, LocalCall, perform, mbind, svc_bind, mret, svc_ret.
  set (dial := CLocal "net.Dial" _). set (cfg := mkClientConfig _ _ _ _).
  assert (H1 : forall good, trust_ok w good [] (l ++ [dial]) false) by (intros good; apply trust_plain, List.Forall_app; split; [done|by repeat constructor]).
  destruct (w l dial) as [o|e]; cbn [wrap_err]; [|split; [done|]; split; [apply H1|done]].
  destruct (host_key_verified cfg w (l ++ [dial])) as (l2 & El2 & _ & Ht & Ha).
  destruct (NewClientConn cfg w (l ++ [dial])) as [r h2]. cbn [fst snd] in *. subst h2.
  destruct (trust_mono w _ (pinned t) (l ++ [dial]) l2 false (trust_after w (pinned t) [] (l ++ [dial]) false) (callback_pinned t) ltac:(done)) as [M1 M2].
  assert (H2 : trust_ok w (pinned t) [] ((l ++ [dial]) ++ l2) false) by (apply trust_app; split; [apply H1|by apply M1]).
  destruct r as [u|e]; cbn [wrap_err]; [|split; [done|]; split; [|done]; apply trust_app; split; [done|]; by split].
  assert (Hpin : forall rest, trust_ok w (pinned t) [] (((l ++ [dial]) ++ l2) ++ rest) false
                 /\ trust_after w (pinned t) [] (((l ++ [dial]) ++ l2) ++ rest) false = true).
  { intros rest. assert (Hk : trust_after w (pinned t) [] ((l ++ [dial]) ++ l2) false = true) by (rewrite trust_after_app; apply M2; by apply Ha).
    split; [apply trust_app; rewrite Hk; split; [done|apply trust_true]|rewrite trust_after_app, Hk; apply trust_after_true]. }
  destruct (w _ (CLocal "sftp.NewClient" [])); cbn [wrap_err]; rewrite <- ?(app_assoc ((l ++ [dial]) ++ l2));
    (split; [done|]; split; [apply Hpin|]; intros _; apply Hpin).
Qed.

(** Connecting does nothing but read the key, dial and shake hands. *)
Lemma connect_keeps (P : call -> Prop) cfg (s : S) : (forall c, handshake_call c -> P c) -> keeps P (eq s) (ssh_connect NewClientConn cfg).
Proof.
  intros HP w h s' <-. unfold ssh_connect. destruct (host_key_verified cfg w h) as (l & Hl & Hh & _).
  destruct (NewClientConn cfg w h) as [r h']. cbn [fst snd] in *. split; [done|]. exists l. split; [done|]. eapply List.Forall_impl; [|exact Hh]. auto.
Qed.

Lemma dial_inert t (s : S) : keeps (fun c => file_op c = false) (eq s) (dialSFTP NewClientConn ParsePrivateKey t).
Proof.
  unfold dialSFTP, sftpAuthMethods. walk; try done. apply connect_keeps. by intros c (args & [->| ->]).
Qed.

(** Calls on the temporary file alone. *)
Definition tmp_call (tmp : string) (c : call) : Prop := exists what args, c = CLocal what (tmp :: args) /\ what <> "sftp.PosixRename".

Lemma throughout_tmp final content w h l R R1 : Forall (tmp_call (final +:+ ".tmp")) l -> intact final content R R1 ->
  throughout w (intact final content R) (intact final content R) h l R1.
Proof.
  intros Hl. revert h R1. induction Hl as [|c l (what & args & -> & Hw) _ IH]; intros h R1 Hi; (split; [done|]); [done|].
  intros R2 He. apply IH. eapply intact_tmp; [exact Hi|]. by eapply effect_same_but.
Qed.

(** The file that is opened is emptied, so the copy is all there is. *)
Lemma copied_whole final content (h : list call) (w : world) o o2 R R1 R2 R3 (tmp := final +:+ ".tmp") :
  effect (CLocal "sftp.OpenFile" [tmp; "O_CREATE"; "O_WRONLY"; "O_TRUNC"]) (Ok o) R R1 ->
  effect (CLocal "sftp.Copy" [tmp; content]) (Ok o2) R1 R2 -> effect (CLocal "sftp.CloseFile" [tmp]) (w h (CLocal "sftp.CloseFile" [tmp])) R2 R3 ->
  same_but tmp R R3 /\ R3 !! tmp = Some content.
Proof.
  intros E1 E2 E3. split.
  - apply effect_same_but in E1, E2, E3; [|done..]. intros q Hq. by rewrite E3, E2, E1.
  - apply effect_inert in E3 as ->; [|done]. cbn [effect] in E1, E2. subst R2 R1.
    cbn [server_apply String.eqb Ascii.eqb Bool.eqb]. rewrite lookup_partial_alter_eq.
    assert (Ho : opened ["O_CREATE"; "O_WRONLY"; "O_TRUNC"] (R !! tmp) = Some "") by (by destruct (R !! tmp)). rewrite Ho.
    rewrite lookup_insert_eq. unfold overwritten. destruct (String.length content); cbn [substring String.length]; by rewrite append_empty_r.
Qed.

(** The copy of the archive, step by step. *)
Lemma sftp_copy_run final content w h (s : S) (tmp := final +:+ ".tmp") :
  let '(r, s', h') := sftp_copy tmp final content w h s in
  s' = s /\ (is_ok r = true -> r = Ok final) /\ exists l, h' = h ++ l
  /\ forall R, throughout w (intact final content R)
       (fun R' => is_ok r = true -> R' !! final = Some content /\ R' !! tmp = None) h l R.
Proof.
  unfold sftp_copy, try_bind, wrapping, LocalCall, perform, mbind, svc_bind, mret, svc_ret.
  set (create := CLocal "sftp.OpenFile" _). set (copy := CLocal "sftp.Copy" _).
  set (close := CLocal "sftp.CloseFile" [tmp]). set (rename := CLocal "sftp.PosixRename" [tmp; final]). set (remove := CLocal "sftp.Remove" [tmp]).
  assert (H0 : forall R, intact final content R R) by (intros R; by apply same_intact).
  assert (Hfail : forall l (e : error), Forall (tmp_call tmp) l -> forall R, throughout w (intact final content R)
    (fun R' => is_ok (@Err string e) = true -> R' !! final = Some content /\ R' !! tmp = None) h l R).
  { intros l e Hl R. eapply throughout_mono; [| |apply throughout_tmp; [exact Hl|apply H0]]; done. }
  assert (Hcalls : tmp_call tmp create /\ tmp_call tmp copy /\ tmp_call tmp close /\ tmp_call tmp remove)
    by (split_and!; eexists _, _; (split; [reflexivity|done])).
  destruct Hcalls as (T1 & T2 & T3 & T4).
  destruct (w h create) as [o|e] eqn:Ec; cbn [wrap_err].
  2: { split_and!; try done. exists [create]. split; [done|]. apply Hfail. by repeat constructor. }
  destruct (w (h ++ [create]) copy) as [o2|e] eqn:Ew; cycle 1.
  { split_and!; try done. exists [create; copy; close; remove]. rewrite <- !app_assoc. split; [done|]. apply Hfail. by repeat constructor. }
  destruct (w ((h ++ [create]) ++ [copy]) close) as [o3|e] eqn:Ek; cycle 1.
  { split_and!; try done. exists [create; copy; close; remove]. rewrite <- !app_assoc. split; [done|]. apply Hfail. by repeat constructor. }
  set (h3 := ((h ++ [create]) ++ [copy]) ++ [close]).
  assert (Hren : forall rest (Q : remote -> Prop) R, (forall R4, intact final content R R4 ->
      (is_ok (w h3 rename) = true -> R4 !! final = Some content /\ R4 !! tmp = None) ->
      throughout w (intact final content R) Q (h3 ++ [rename]) rest R4) ->
    throughout w (intact final content R) Q h (create :: copy :: close :: rename :: rest) R).
  { intros rest Q R Hrest. split; [done|]. intros R1 E1. rewrite Ec in E1.
    assert (S1 : same_but tmp R R1) by (by eapply effect_same_but; [|exact E1]). split; [by apply same_intact|]. intros R2 E2.
    rewrite Ew in E2. assert (S2 : same_but tmp R1 R2) by (by eapply effect_same_but; [|exact E2]).
    split; [by eapply intact_tmp; [apply same_intact|]|]. intros R3 E3.
    destruct (copied_whole final content _ w o o2 R R1 R2 R3 E1 E2 E3) as [S3 W3]. split; [by apply same_intact|]. intros R4 E4.
    destruct (renamed_intact final content R R3 _ R4 S3 W3 E4) as [I4 O4]. by apply Hrest. }
  destruct (w h3 rename) as [o4|e] eqn:Er; cbv zeta.
  - split_and!; try done. exists [create; copy; close; rename]. split; [unfold h3; by rewrite <- !app_assoc|]. intros R.
    apply Hren. intros R4 I4 O4. by split.
  - split_and!; try done. exists [create; copy; close; rename; remove]. split; [unfold h3; by rewrite <- !app_assoc|]. intros R.
    apply Hren. intros R4 I4 _. eapply throughout_mono; [| |apply throughout_tmp; [by repeat constructor|exact I4]]; done.
Qed.

(** The local archive was read as [content] in the run. *)
Definition read_from (w : world) (srcPath : string) (calls : list call) (content : string) : Prop :=
  exists h1 h2, calls = h1 ++ CLocal "os.Open" [srcPath] :: h2 /\ w h1 (CLocal "os.Open" [srcPath]) = Ok content.

(** [intact], for a content that was read in the run. *)
Definition archived (w : world) (srcPath : string) (calls : list call) (final : string) (R R1 : remote) : Prop :=
  (forall p, p <> final -> p <> final +:+ ".tmp" -> R1 !! p = R !! p)
  /\ (R1 !! final = R !! final \/ exists content, read_from w srcPath calls content /\ R1 !! final = Some content).

Definition finished (w : world) (srcPath : string) (calls : list call) (final : string) (R1 : remote) : Prop :=
  exists content, read_from w srcPath calls content /\ R1 !! final = Some content /\ R1 !! (final +:+ ".tmp") = None.

Lemma read_from_app w srcPath l more content : read_from w srcPath l content -> read_from w srcPath (l ++ more) content.
Proof. intros (h1 & h2 & -> & H). exists h1, (h2 ++ more). by rewrite <- app_assoc. Qed.

Lemma intact_archived w srcPath calls final content R R1 : read_from w srcPath calls content -> intact final content R R1 ->
  archived w srcPath calls final R R1.
Proof. intros Hc [H1 [H2|H2]]; (split; [done|]); [by left|right; by exists content]. Qed.

Lemma sftp_store_run srcPath t w h (s : S) (final := Join [BackupTarget_RemoteDir t; filepathBase srcPath]) :
  let '(r, s', h') := sftp_store srcPath t w h s in
  s' = s /\ (is_ok r = true -> r = Ok final) /\ exists l, h' = h ++ l
  /\ forall R more, throughout w (archived w srcPath (h' ++ more) final R)
       (fun R' => is_ok r = true -> finished w srcPath (h' ++ more) final R') h l R.
Proof.
  set (mk := CLocal "sftp.MkdirAll" [BackupTarget_RemoteDir t]). set (op := CLocal "os.Open" [srcPath]).
  assert (Hrest : forall pre, Forall (fun c => file_op c = false) pre ->
    let '(r, s', h') := (try! content := LocalCall "os.Open" [srcPath] in sftp_copy (final +:+ ".tmp") final content) w (h ++ pre) s in
    s' = s /\ (is_ok r = true -> r = Ok final) /\ exists l, h' = h ++ l
    /\ forall R more, throughout w (archived w srcPath (h' ++ more) final R) (fun R' => is_ok r = true -> finished w srcPath (h' ++ more) final R') h l R).
  { intros pre Hpre. unfold try_bind, LocalCall, perform, mbind, svc_bind, mret, svc_ret. fold op.
    assert (Hi : Forall (fun c => file_op c = false) (pre ++ [op])) by (apply List.Forall_app; split; [done|by repeat constructor]).
    assert (H0 : forall calls R, archived w srcPath calls final R R) by (intros calls R; split; [done|by left]).
    destruct (w (h ++ pre) op) as [content|e] eqn:Eo.
    2: { split_and!; try done. exists (pre ++ [op]). split; [by rewrite app_assoc|]. intros R more. by apply throughout_inert. }
    pose proof (sftp_copy_run final content w ((h ++ pre) ++ [op]) s) as Hc. cbv zeta in Hc.
    destruct (sftp_copy _ final content w ((h ++ pre) ++ [op]) s) as [[r s'] h']. destruct Hc as (-> & Hr & l & -> & Hl).
    split_and!; try done. exists ((pre ++ [op]) ++ l). split; [by rewrite <- !app_assoc|]. intros R more.
    assert (Hread : read_from w srcPath ((((h ++ pre) ++ [op]) ++ l) ++ more) content).
    { exists (h ++ pre), (l ++ more). by rewrite <- !app_assoc. }
    apply throughout_app, throughout_inert; [done|done|]. rewrite app_assoc.
    eapply throughout_mono; [| |apply Hl]; [intros R1; by apply intact_archived|]. intros R1 _ HQ Hok. destruct (HQ Hok) as [F T]. by exists content. }
  unfold sftp_store. fold final. destruct (String.eqb (BackupTarget_RemoteDir t) "").
  - specialize (Hrest []). rewrite app_nil_r in Hrest. apply Hrest. constructor.
  - specialize (Hrest [mk]). unfold try_bind, wrapping, LocalCall, perform, mbind, svc_bind, mret, svc_ret in *. fold mk.
    destruct (w h mk); cbn [wrap_err]; [apply Hrest; by repeat constructor|].
    split_and!; try done. exists [mk]. split; [done|]. intros R more. apply throughout_inert; [by repeat constructor| |done]. split; [done|by left].
Qed.

(** C35: An upload hands nothing to a host it does not know and leaves no
    half-written archive.  Every credential sent and every remote file
    operation comes after a key exchange in which the server presented the
    fingerprint pinned on the target, given that the SSH package asks the
    host key callback before it authenticates.  Whatever the server does with
    the calls, failed ones included, and whatever an earlier run left there,
    at every moment the archive's name holds what it held before or the whole
    file read from the disk, and no other remote file but the temporary one
    changes; when the upload reports success it is the whole file and the
    temporary one is gone.  Nobody else is taken to write these two names
    meanwhile. *)
Theorem sftp_upload_guarded srcPath t w (s : S) (R : remote) (x := uploadSFTP NewClientConn ParsePrivateKey srcPath t)
    (calls := calls_of x w s) (ok := is_ok (Sys.outcome x w s)) (final := Join [BackupTarget_RemoteDir t; filepathBase srcPath]) :
  state_after x w s = s
  /\ trust_ok w (pinned t) [] calls false
  /\ throughout w (archived w srcPath calls final R) (fun R' => ok = true -> finished w srcPath calls final R') [] calls R
  /\ (ok = true -> Sys.outcome x w s = Ok final).
Proof.
  subst ok calls x. unfold state_after, calls_of, Sys.outcome, uploadSFTP, try_bind, mbind, svc_bind.
  pose proof (dialSFTP_trust t w s) as Hd. destruct (dial_inert t s w [] s eq_refl) as [_ (l1 & Hl1 & Hu)].
  assert (H0 : forall calls, archived w srcPath calls final R R) by (intros calls; split; [done|by left]).
  destruct (dialSFTP NewClientConn ParsePrivateKey t w [] s) as [[[u|e] s1] h1]; destruct Hd as (-> & Ht & Ha); cbn [fst snd app] in *; subst h1;
    [|unfold mret, svc_ret; cbn [fst snd]; split_and!; try done; by apply throughout_inert].
  pose proof (sftp_store_run srcPath t w l1 s) as Hs. cbv zeta in Hs. fold final in Hs. destruct (sftp_store srcPath t w l1 s) as [[r s2] h2].
  destruct Hs as (-> & Hr & l & -> & Hl).
  unfold sftp_close, LocalCall, perform, mbind, svc_bind, mret, svc_ret. cbn [fst snd]. rewrite <- (app_assoc (l1 ++ l)). cbn [app].
  set (closing := [CLocal "sftp.Close" []; CLocal "ssh.Close" []]). split_and!; try done.
  - rewrite <- app_assoc. apply trust_app. split; [done|]. rewrite (Ha eq_refl). apply trust_true.
  - specialize (Hl R closing). rewrite <- app_assoc in Hl |- *. apply throughout_app, throughout_inert; [done|apply H0|].
    apply throughout_app. eapply throughout_mono; [| |exact Hl]; [done|]. intros R1 HP HQ. apply throughout_inert; [|done|done]. by repeat constructor.
Qed.

Lemma remove_remote_run files deleted w h (s : S) :
  let '(r, s', h') := remove_remote files deleted w h s in
  s' = s /\ exists n, h' = h ++ List.map (fun f => CLocal "sftp.Remove" [sf_path f]) (take n files)
  /\ (is_ok (snd r) = true -> take n files = files /\ fst r = deleted ++ List.map sf_path files).
Proof.
  revert deleted h. induction files as [|f files IH]; intros deleted h; cbn [remove_remote].
  { unfold mret, svc_ret. split; [done|]. exists 0%nat. cbn. by rewrite !app_nil_r. }
  unfold LocalCall, perform, mbind, svc_bind. destruct (w h _) as [o|e].
  - specialize (IH (deleted ++ [sf_path f]) (h ++ [CLocal "sftp.Remove" [sf_path f]])).
    destruct (remove_remote files _ w _ s) as [[r s1] h1]. destruct IH as (-> & n & -> & Hr). split; [done|]. exists (Datatypes.S n).
    cbn [take List.map]. rewrite <- app_assoc. split; [done|]. intros Hok. destruct (Hr Hok) as [-> ->]. by rewrite <- app_assoc.
  - unfold mret, svc_ret. split; [done|]. by exists 1%nat.
Qed.

(** Retention over SFTP: nothing is entrusted to a host before its pinned key
    was seen; what is removed is a stretch of the finished archives of the
    directory that are not among the newest ones to be kept, all of them when
    no error is reported; a directory that is not there is an empty one. *)
Theorem sftp_retention_exact t keep w (s : S) (x := cleanupSFTP NewClientConn ParsePrivateKey entries_of newest_first t keep)
    (dir := if String.eqb (BackupTarget_RemoteDir t) "" then "." else BackupTarget_RemoteDir t) :
  newest_law sf_mtime newest_first -> 1 <= keep ->
  state_after x w s = s
  /\ trust_ok w (pinned t) [] (calls_of x w s) false
  /\ exists h1 l h2, calls_of x w s = h1 ++ l ++ h2 /\ Forall (fun c => ~ (exists args, c = CLocal "sftp.Remove" args)) (h1 ++ h2)
     /\ (l = []
         \/ exists pre text kept gone n, h1 = pre ++ [CLocal "sftp.ReadDir" [dir]] /\ w pre (CLocal "sftp.ReadDir" [dir]) = Ok text
              /\ newest_split sf_mtime keep (sftpBackups (entries_of text) dir) kept gone
              /\ l = List.map (fun f => CLocal "sftp.Remove" [sf_path f]) (take n gone)
              /\ (is_ok (snd (Sys.outcome x w s)) = true -> take n gone = gone /\ fst (Sys.outcome x w s) = List.map sf_path gone)).
Proof.
  intros Hlaw Hkeep. subst x. unfold state_after, calls_of, Sys.outcome, cleanupSFTP. destruct (Z.ltb_spec keep 1); [lia|].
  fold dir. unfold mbind, svc_bind. pose proof (dialSFTP_trust t w s) as Hd.
  assert (Hkeeps : keeps (fun c => ~ (exists args, c = CLocal "sftp.Remove" args)) (eq s) (dialSFTP NewClientConn ParsePrivateKey t)).
  { unfold dialSFTP, sftpAuthMethods. walk; try done; try (by intros [args [=]]). apply connect_keeps. by intros c (args & [->| ->]) [args' [=]]. }
  destruct (Hkeeps w [] s eq_refl) as [_ (l1 & Hl1 & Hn)].
  destruct (dialSFTP NewClientConn ParsePrivateKey t w [] s) as [[[u|e] s1] h1]; destruct Hd as (-> & Ht & Ha); cbn [fst snd app] in *; subst h1.
  2: { unfold mret, svc_ret. cbn [fst snd]. split; [done|]. split; [done|]. exists l1, [], []. rewrite !app_nil_r. auto. }
  unfold LocalCall, perform, sftp_close. unfold LocalCall, perform, mbind, svc_bind, mret, svc_ret.
  set (rd := CLocal "sftp.ReadDir" [dir]). set (closing := [CLocal "sftp.Close" []; CLocal "ssh.Close" []]).
  assert (Htrust : forall l, trust_ok w (pinned t) [] (l1 ++ l) false) by (intros l; apply trust_app; split; [done|]; rewrite (Ha eq_refl); apply trust_true).
  assert (Hq : Forall (fun c => ~ (exists args, c = CLocal "sftp.Remove" args)) ((l1 ++ [rd]) ++ closing)).
  { rewrite <- app_assoc. apply List.Forall_app. split; [done|]. repeat (apply List.Forall_cons; [by intros [args [=]]|]). apply List.Forall_nil. }
  destruct (w l1 rd) as [text|e] eqn:Erd.
  - set (files := sftpBackups (entries_of text) dir).
    pose proof (newest_split_take sf_mtime newest_first keep files Hlaw Hkeep) as Hsplit.
    pose proof (remove_remote_run (drop (Z.to_nat keep) (newest_first files)) [] w (l1 ++ [rd]) s) as Hr.
    destruct (remove_remote _ [] w (l1 ++ [rd]) s) as [[r s1] h1]. destruct Hr as (-> & n & -> & Hr). cbn [fst snd].
    rewrite <- !app_assoc. cbn [app]. split; [done|]. split; [apply Htrust|].
    exists (l1 ++ [rd]), (List.map (fun f => CLocal "sftp.Remove" [sf_path f]) (take n (drop (Z.to_nat keep) (newest_first files)))), closing. split; [by rewrite <- !app_assoc|]. split; [done|]. right.
    by exists l1, text, (take (Z.to_nat keep) (newest_first files)), (drop (Z.to_nat keep) (newest_first files)), n.
  - cbn [fst snd]. rewrite <- !app_assoc. cbn [app]. split; [done|]. split; [apply Htrust|].
    exists (l1 ++ [rd]), [], closing. split; [by rewrite <- !app_assoc|]. auto.
Qed.
End Sftp.

(** ** Samples *)

Definition sample_urls : URLs := {|
  url_Parse s := Ok (mkURL "https://" "s3.example" s "");
  url_String u := url_Path u +:+ "?" +:+ url_RawQuery u;
  EscapedPath := url_Path |}.

Definition younger (a b : s3Object) : Prop := so_LastModified b <= so_LastModified a.
#[local] Instance younger_decision a b : Decision (younger a b) := Z_le_dec _ _.
#[local] Instance younger_total : Total younger.
Proof. intros a b. unfold younger. lia. Qed.
#[local] Instance younger_trans : Transitive younger.
Proof. intros a b c. unfold younger. lia. Qed.

Lemma merge_younger_law : newest_law so_LastModified (merge_sort younger).
Proof. intros l. split; [apply merge_sort_Permutation|]. apply (StronglySorted_merge_sort younger). Qed.

(** A handshake that asks the callback, then authenticates. *)
Definition sample_handshake : handshake := fun cfg w h =>
  let kex := CLocal "ssh.KeyExchange" [] in
  let auth := CLocal "ssh.Authenticate" (cc_User cfg :: cc_Auth cfg) in
  match w h kex with
  | Err e => (Err e, h ++ [kex])
  | Ok fp =>
      match cc_HostKeyCallback cfg fp with
      | Err e => (Err e, h ++ [kex])
      | Ok _ => (discard (w (h ++ [kex]) auth), (h ++ [kex]) ++ [auth])
      end
  end.

Lemma sample_handshake_verifies : verifies_host_key sample_handshake.
Proof.
  intros cfg w h. unfold sample_handshake. set (kex := CLocal "ssh.KeyExchange" []). set (auth := CLocal "ssh.Authenticate" _).
  assert (Hk : handshake_call kex /\ handshake_call auth) by (split; eexists; [by left|by right]). destruct Hk as [Hk Ha].
  destruct (w h kex) as [fp|e] eqn:E; [|exists [kex]; split_and!; try done; by repeat constructor].
  destruct (cc_HostKeyCallback cfg fp) as [[]|e] eqn:Ec; [|exists [kex]; split_and!; try done; by repeat constructor].
  exists [kex; auth]. rewrite <- app_assoc. cbn [trust_ok trust_after]. rewrite E. cbn. rewrite Ec. split_and!; try done. by repeat constructor.
Qed.

(** A target that has a longer half-written copy of an earlier run. *)
Definition sample_host (fingerprint : string) : BackupTarget :=
  mkBackupTarget "sftp" "" "" "" "" "" "" "" "" false "nas.lan" 0 "backup" "pw" "" "/b" fingerprint.
Definition sample_server : world := fun _ c =>
  match c with
  | CLocal "ssh.KeyExchange" _ => Ok "SHA256:nas"
  | CLocal "os.Open" _ => Ok "archive"
  | _ => Ok ""
  end.
Definition sample_upload (fingerprint : string) : svc unit (result string) :=
  uploadSFTP sample_handshake (fun _ => Err (Errorf "no key" [])) "/tmp/lankeeper-backup-1" (sample_host fingerprint).
Definition sample_remote : gmap string string := {["/b/lankeeper-backup-1.tmp" := "half of an older archive"]}.

Lemma sftp_upload_guarded_witness :
  Sys.outcome (sample_upload "SHA256:nas") sample_server tt = Ok "/b/lankeeper-backup-1"
  /\ throughout sample_server (fun _ => True) (fun R' => R' !! "/b/lankeeper-backup-1" = Some "archive" /\ R' !! "/b/lankeeper-backup-1.tmp" = None)
       [] (calls_of (sample_upload "SHA256:nas") sample_server tt) sample_remote
  /\ is_ok (Sys.outcome (sample_upload "") sample_server tt) = false.
Proof.
  assert (Ho : Sys.outcome (sample_upload "SHA256:nas") sample_server tt = Ok "/b/lankeeper-backup-1") by (vm_compute; reflexivity).
  split; [exact Ho|]. split; [|vm_compute; reflexivity].
  destruct (sftp_upload_guarded sample_handshake (fun _ => Err (Errorf "no key" [])) sample_handshake_verifies "/tmp/lankeeper-backup-1"
    (sample_host "SHA256:nas") sample_server tt sample_remote) as (_ & _ & T & _).
  eapply throughout_mono; [| |exact T]; [done|]. intros R' _ HQ. destruct HQ as (content & (h1 & h2 & _ & Hc) & F & Tmp).
  - change (is_ok (Sys.outcome (sample_upload "SHA256:nas") sample_server tt) = true). by rewrite Ho.
  - cbn in Hc. injection Hc as <-. split; [exact F|exact Tmp].
Defined.

(** A store with three backups and a file of somebody else, on one page. *)
Definition sample_listing : listing :=
  mkListing false "" [("b/lankeeper-backup-1", "1", 5); ("b/notes", "9", 5); ("b/lankeeper-backup-3", "3", 5); ("b/lankeeper-backup-2", "2", 5)].
Definition sample_store : BackupTarget := mkBackupTarget "s3" "" "" "" "eu" "bk" "b" "id" "key" false "" 0 "" "" "" "" "".
Definition sample_cleanup : svc unit (list string * result unit) :=
  cleanupS3 (H := sample_urls) (fun s => s) (fun _ s => s) 0 (fun text => (200, "200 OK", text)) (fun _ => Ok sample_listing)
    (fun t => match t with "1" => Ok 1 | "2" => Ok 2 | "3" => Ok 3 | _ => Ok 9 end) (merge_sort younger) sample_store 1.

Lemma remote_retention_exact_witness :
  fst (Sys.outcome sample_cleanup (fun _ _ => Ok "") tt) = ["b/lankeeper-backup-2"; "b/lankeeper-backup-1"]
  /\ is_ok (snd (Sys.outcome sample_cleanup (fun _ _ => Ok "") tt)) = true
  /\ exists own kept gone, newest_split so_LastModified 1 own kept gone
       /\ fst (Sys.outcome sample_cleanup (fun _ _ => Ok "") tt) = List.map so_Key gone.
Proof.
  split; [vm_compute; reflexivity|]. assert (Hok : is_ok (snd (Sys.outcome sample_cleanup (fun _ _ => Ok "") tt)) = true) by (vm_compute; reflexivity).
  split; [exact Hok|].
  destruct (remote_retention_exact (H := sample_urls) (fun s => s) (fun _ s => s) 0 (fun text => (200, "200 OK", text)) (fun _ => Ok sample_listing)
    (fun t => match t with "1" => Ok 1 | "2" => Ok 2 | "3" => Ok 3 | _ => Ok 9 end) (merge_sort younger) sample_store 1 (fun _ _ => Ok "") tt
    merge_younger_law ltac:(lia)) as (_ & _ & [[_ E]|(listed & own & h1 & kept & gone & l & _ & _ & Hsplit & _ & _ & _ & Hdone)]).
  - change (is_ok (snd (Sys.outcome sample_cleanup (fun _ _ => Ok "") tt)) = false) in E. rewrite Hok in E. discriminate.
  - exists own, kept, gone. split; [exact Hsplit|]. apply Hdone. exact Hok.
Defined.
