(* ===== verification/FirewallPages.v ===== *)
(** * internal/web/handlers/firewall.go

    The firewall page: apply, confirm and roll back, port forwards, custom
    rules, open ports and the hop limit.  A handler runs on the firewall
    service's machine and process, so that what is proved of the protocol
    holds of the page.  Rendering is left out. *)

From S2P Require Import Prelude GoStrings GoNet GoIP Regex Validate ConfigTypes FirewallRender FirewallService Sys WebAuth Respond Openvpn.

Local Open Scope Z_scope.
Local Open Scope go_scope.

(** ** Forms *)

Definition parsePortForwardForm (r : hreq) : PortForward * string :=
  let '(extPort, extOK) := formPort r "extPort" in
  let '(intPort, intOK) := formPort r "intPort" in
  let pf := {| PortForward_Name := hq_form r "name"; PortForward_Protocol := hq_form r "protocol"; PortForward_ExtPort := extPort;
               PortForward_IntIP := hq_form r "intIP"; PortForward_IntPort := intPort; PortForward_Enabled := true |} in
  (pf, firstFailed [
    mkFormCheck (negb extOK) "error.invalidPort";
    mkFormCheck (negb intOK) "error.invalidPort";
    mkFormCheck (negb (oneOf (PortForward_Protocol pf) ["tcp"; "udp"; "both"])) "error.invalidProtocol";
    mkFormCheck (negb (is_ok (ValidateIP (PortForward_IntIP pf)))) "error.invalidInternalIP"]).

Definition parseRuleForm (r : hreq) : FirewallRule * string :=
  let '(port, portOK) := formPort r "port" in
  let rule := {| FirewallRule_Name := hq_form r "name"; FirewallRule_Chain := hq_form r "chain"; FirewallRule_Action := hq_form r "action";
                 FirewallRule_SrcIP := hq_form r "srcIP"; FirewallRule_DstIP := hq_form r "dstIP"; FirewallRule_Protocol := hq_form r "protocol";
                 FirewallRule_Port := port; FirewallRule_Interface := hq_form r "interface"; FirewallRule_Direction := hq_form r "direction";
                 FirewallRule_Enabled := true; FirewallRule_Priority := 0 |} in
  (rule, firstFailed [
    mkFormCheck (negb portOK) "error.invalidPort";
    mkFormCheck (negb (oneOf (FirewallRule_Chain rule) ["input"; "forward"; "output"])) "error.invalidChain";
    mkFormCheck (negb (oneOf (FirewallRule_Action rule) ["accept"; "drop"; "reject"])) "error.invalidAction";
    mkFormCheck (negb (oneOf (FirewallRule_Protocol rule) [""; "tcp"; "udp"; "icmp"])) "error.invalidProtocol";
    mkFormCheck (negb (oneOf (FirewallRule_Direction rule) [""; "in"; "out"])) "error.invalidDirection";
    mkFormCheck (negb (optionalAddress (FirewallRule_SrcIP rule))) "error.invalidSourceAddress";
    mkFormCheck (negb (optionalAddress (FirewallRule_DstIP rule))) "error.invalidDestinationAddress";
    mkFormCheck (negb (is_ok (ValidateRuleName (FirewallRule_Name rule)))) "error.invalidRuleName";
    mkFormCheck (negb (String.eqb (FirewallRule_Interface rule) "") && negb (is_ok (ValidateInterfaceName (FirewallRule_Interface rule))))
      "error.invalidInterface"]).

Definition openPortForm (r : hreq) : OpenPort * string :=
  let '(port, portOK) := formPort r "port" in
  let op := {| OpenPort_Name := hq_form r "name"; OpenPort_Protocol := hq_form r "protocol"; OpenPort_Port := port;
               OpenPort_Source := hq_form r "source"; OpenPort_Enabled := true; OpenPort_RateLimit := TrimSpace (hq_form r "rateLimit") |} in
  (op, firstFailed [
    mkFormCheck (negb portOK) "error.invalidPort";
    mkFormCheck (negb (oneOf (OpenPort_Protocol op) ["tcp"; "udp"; "both"])) "error.invalidProtocol";
    mkFormCheck (negb (optionalAddress (OpenPort_Source op))) "error.invalidSourceAddress";
    mkFormCheck (negb (is_ok (ValidateOpenPortRateLimit (OpenPort_RateLimit op)))) "error.invalidRateLimit"]).

(** ** Handlers *)

Section Handlers.
Context `{NFT}.
Variable execute : nftTemplateData -> result string.
Variable afterReload : ruleset -> ruleset.
Variable save : Config -> result unit.

Definition edited (x : edit) (st : state) : state * result unit :=
  let '(m, p) := st in
  let '(cfg, err) := run_edit save x (p_cfg p) in
  ((m, mkProcess cfg (p_change p) (p_applied p) (p_nextId p)), err).

Definition HandleApply (e : env) (r : hreq) (st : state) : state * hresp :=
  match Apply execute afterReload e st with
  | (st, Err err) => (st, fail (if errors_Is err ErrChangePending then StatusConflict else StatusInternalServerError) err)
  | (st, Ok _) => (st, respondTrigger r "firewallApplied" "/firewall")
  end.

Definition HandleConfirm (e : env) (r : hreq) (st : state) : state * hresp :=
  (Confirm execute e st, respondTrigger r "firewallConfirmed" "/firewall").

Definition HandleRollback (e : env) (r : hreq) (st : state) : state * hresp :=
  match Rollback afterReload e st with
  | (st, Err err) => (st, fail StatusInternalServerError err)
  | (st, Ok _) => (st, respondTrigger r "firewallRolledBack" "/firewall")
  end.

Definition HandleAddPortForward (r : hreq) (st : state) : state * hresp :=
  if negb (is_ok (hq_parse r)) then (st, clientError StatusBadRequest "error.badForm")
  else
    let '(pf, key) := parsePortForwardForm r in
    if negb (String.eqb key "") then (st, clientError StatusBadRequest key)
    else match edited (EAddPortForward pf) st with
         | (st, Err err) => (st, serverError "error.saveFailed" err)
         | (st, Ok _) => (st, respondTrigger r "portForwardAdded" "/firewall")
         end.

Definition HandleDeletePortForward (r : hreq) (st : state) : state * hresp :=
  match Atoi (hq_path r "index") with
  | None => (st, clientError StatusBadRequest "error.invalidIndex")
  | Some idx =>
      match edited (ERemovePortForward idx) st with
      | (st, Err err) => (st, fail StatusBadRequest err)
      | (st, Ok _) => (st, respondTrigger r "portForwardDeleted" "/firewall")
      end
  end.

Definition HandleAddRule (r : hreq) (st : state) : state * hresp :=
  if negb (is_ok (hq_parse r)) then (st, clientError StatusBadRequest "error.badForm")
  else
    let '(rule, key) := parseRuleForm r in
    if negb (String.eqb key "") then (st, clientError StatusBadRequest key)
    else match edited (EAddRule rule) st with
         | (st, Err err) => (st, serverError "error.saveFailed" err)
         | (st, Ok _) => (st, respondRefresh r "/firewall")
         end.

Definition HandleDeleteRule (r : hreq) (st : state) : state * hresp :=
  match Atoi (hq_path r "index") with
  | None => (st, clientError StatusBadRequest "error.invalidIndex")
  | Some idx =>
      match edited (ERemoveRule idx) st with
      | (st, Err err) => (st, fail StatusBadRequest err)
      | (st, Ok _) => (st, respondRefresh r "/firewall")
      end
  end.

Definition HandleToggleRule (r : hreq) (st : state) : state * hresp :=
  match Atoi (hq_path r "index") with
  | None => (st, clientError StatusBadRequest "error.invalidIndex")
  | Some idx =>
      let enabled := String.eqb (hq_form r "enabled") "true" in
      match edited (EToggleRule idx enabled) st with
      | (st, Err err) => (st, fail StatusBadRequest err)
      | (st, Ok _) => (st, respondRefresh r "/firewall")
      end
  end.

Definition HandleAddOpenPort (r : hreq) (st : state) : state * hresp :=
  if negb (is_ok (hq_parse r)) then (st, clientError StatusBadRequest "error.badForm")
  else
    let '(op, key) := openPortForm r in
    if negb (String.eqb key "") then (st, clientError StatusBadRequest key)
    else match edited (EAddOpenPort op) st with
         | (st, Err err) => (st, serverError "error.saveFailed" err)
         | (st, Ok _) => (st, respondRefresh r "/firewall")
         end.

Definition HandleDeleteOpenPort (r : hreq) (st : state) : state * hresp :=
  match Atoi (hq_path r "index") with
  | None => (st, clientError StatusBadRequest "error.invalidIndex")
  | Some idx =>
      match edited (ERemoveOpenPort idx) st with
      | (st, Err err) => (st, fail StatusBadRequest err)
      | (st, Ok _) => (st, respondRefresh r "/firewall")
      end
  end.

Definition HandleToggleOpenPort (r : hreq) (st : state) : state * hresp :=
  match Atoi (hq_path r "index") with
  | None => (st, clientError StatusBadRequest "error.invalidIndex")
  | Some idx =>
      let enabled := String.eqb (hq_form r "enabled") "true" in
      match edited (EToggleOpenPort idx enabled) st with
      | (st, Err err) => (st, fail StatusBadRequest err)
      | (st, Ok _) => (st, respondRefresh r "/firewall")
      end
  end.

(** The hop limit of the form, the stored one when the field is blank. *)
Definition ttl_field (r : hreq) (stored : Z) : option Z :=
  let raw := TrimSpace (hq_form r "value") in
  if String.eqb raw "" then Some stored else Atoi raw.

Definition HandleSetTTLFix (r : hreq) (st : state) : state * hresp :=
  if negb (is_ok (hq_parse r)) then (st, clientError StatusBadRequest "error.badForm")
  else
    let enabled := String.eqb (hq_form r "enabled") "true" in
    match ttl_field r (TTLFixConfig_Value (FirewallConfig_TTLFix (Config_Firewall (p_cfg (snd st))))) with
    | None => (st, clientError StatusBadRequest "error.invalidTTL")
    | Some value =>
        match edited (ESetTTLFix enabled value) st with
        | (st, Err err) =>
            (st, if errors_Is err ErrInvalidTTL then clientError StatusBadRequest "error.invalidTTL" else fail StatusInternalServerError err)
        | (st, Ok _) => (st, respondRefresh r "/firewall")
        end
    end.

(** ** The page *)

Inductive button : Type :=
| BApply | BConfirm | BRollback | BAddPortForward | BDeletePortForward | BAddRule | BDeleteRule | BToggleRule
| BAddOpenPort | BDeleteOpenPort | BToggleOpenPort | BSetTTLFix.

Definition press (b : button) (e : env) (r : hreq) : state -> state * hresp :=
  match b with
  | BApply => HandleApply e r | BConfirm => HandleConfirm e r | BRollback => HandleRollback e r
  | BAddPortForward => HandleAddPortForward r | BDeletePortForward => HandleDeletePortForward r
  | BAddRule => HandleAddRule r | BDeleteRule => HandleDeleteRule r | BToggleRule => HandleToggleRule r
  | BAddOpenPort => HandleAddOpenPort r | BDeleteOpenPort => HandleDeleteOpenPort r | BToggleOpenPort => HandleToggleOpenPort r
  | BSetTTLFix => HandleSetTTLFix r
  end.
End Handlers.

(** ** The page and the protocol *)

(** What a press asks of the protocol, if the form is one. *)
Definition asks (b : button) (e : env) (r : hreq) (cfg : Config) `{NFT} : option event :=
  let form {A} (p : A * string) (x : A -> edit) : option event :=
    if is_ok (hq_parse r) && String.eqb (snd p) "" then Some (EvEdit (x (fst p))) else None in
  let indexed (x : Z -> edit) : option event := (fun i => EvEdit (x i)) <$> Atoi (hq_path r "index") in
  let enabled := String.eqb (hq_form r "enabled") "true" in
  match b with
  | BApply => Some (EvApply e) | BConfirm => Some (EvConfirm e) | BRollback => Some (EvRollback e)
  | BAddPortForward => form (parsePortForwardForm r) EAddPortForward
  | BAddRule => form (parseRuleForm r) EAddRule
  | BAddOpenPort => form (openPortForm r) EAddOpenPort
  | BDeletePortForward => indexed ERemovePortForward
  | BDeleteRule => indexed ERemoveRule
  | BDeleteOpenPort => indexed ERemoveOpenPort
  | BToggleRule => indexed (fun i => EToggleRule i enabled)
  | BToggleOpenPort => indexed (fun i => EToggleOpenPort i enabled)
  | BSetTTLFix => if is_ok (hq_parse r) then (fun v => EvEdit (ESetTTLFix enabled v)) <$> ttl_field r (TTLFixConfig_Value (FirewallConfig_TTLFix (Config_Firewall cfg)))
                  else None
  end.

(** The firewall page is a client of the protocol and nothing more.
    Whatever is pressed, a request that does not parse leaves machine, process
    and configuration as they are and is refused; any other is exactly one
    step of the protocol, with the operation and the values of the form, and
    it is answered as carried out if and only if that step succeeded. *)
Theorem page_refines_protocol `{NFT} execute afterReload save b e r st :
  let '(st', answer) := press execute afterReload save b e r st in
  match asks b e r (p_cfg (snd st)) with
  | None => st' = st /\ accepted answer = false
  | Some ev => st' = fst (step execute afterReload save ev st) /\ accepted answer = is_ok (snd (step execute afterReload save ev st))
  end.
Proof.
  destruct st as [m p].
  assert (Hform : forall {A} (q : A * string) (x : A -> edit) (ok : hresp), accepted ok = true ->
    let '(st', answer) := (if negb (is_ok (hq_parse r)) then ((m, p), clientError StatusBadRequest "error.badForm")
      else let '(a, key) := q in if negb (String.eqb key "") then ((m, p), clientError StatusBadRequest key)
           else match edited save (x a) (m, p) with (st, Err err) => (st, serverError "error.saveFailed" err) | (st, Ok _) => (st, ok) end) in
    match (if is_ok (hq_parse r) && String.eqb (snd q) "" then Some (EvEdit (x (fst q))) else None) with
    | None => st' = (m, p) /\ accepted answer = false
    | Some ev => st' = fst (step execute afterReload save ev (m, p)) /\ accepted answer = is_ok (snd (step execute afterReload save ev (m, p)))
    end).
  { intros A [a key] x ok Hok. cbn [fst snd]. destruct (is_ok (hq_parse r)); cbn [negb andb]; [|done].
    destruct (String.eqb key ""); cbn [negb]; [|done]. unfold edited, step. destruct (run_edit save (x a) (p_cfg p)) as [cfg [u|err]]; done. }
  assert (Hindex : forall (x : Z -> edit) (ok : hresp), accepted ok = true ->
    let '(st', answer) := match Atoi (hq_path r "index") with
      | None => ((m, p), clientError StatusBadRequest "error.invalidIndex")
      | Some idx => match edited save (x idx) (m, p) with (st, Err err) => (st, fail StatusBadRequest err) | (st, Ok _) => (st, ok) end end in
    match (fun i => EvEdit (x i)) <$> Atoi (hq_path r "index") with
    | None => st' = (m, p) /\ accepted answer = false
    | Some ev => st' = fst (step execute afterReload save ev (m, p)) /\ accepted answer = is_ok (snd (step execute afterReload save ev (m, p)))
    end).
  { intros x ok Hok. destruct (Atoi _) as [i|]; cbn [fmap option_fmap option_map]; [|done].
    unfold edited, step. destruct (run_edit save (x i) (p_cfg p)) as [cfg [u|err]]; done. }
  destruct b; cbn [press asks snd].
  - unfold HandleApply, step. destruct (Apply _ _ _ _) as [st' [u|err]]; cbn [fst snd is_ok]; [by rewrite accepted_trigger|].
    split; [done|]. by destruct (errors_Is _ _).
  - unfold HandleConfirm, step. by rewrite accepted_trigger.
  - unfold HandleRollback, step. destruct (Rollback _ _ _) as [st' [u|err]]; cbn [fst snd is_ok]; [by rewrite accepted_trigger|done].
  - apply (Hform _ (parsePortForwardForm r) EAddPortForward), accepted_trigger.
  - apply (Hindex ERemovePortForward), accepted_trigger.
  - apply (Hform _ (parseRuleForm r) EAddRule), accepted_refresh.
  - apply (Hindex ERemoveRule), accepted_refresh.
  - apply (Hindex (fun i => EToggleRule i (String.eqb (hq_form r "enabled") "true"))), accepted_refresh.
  - apply (Hform _ (openPortForm r) EAddOpenPort), accepted_refresh.
  - apply (Hindex ERemoveOpenPort), accepted_refresh.
  - apply (Hindex (fun i => EToggleOpenPort i (String.eqb (hq_form r "enabled") "true"))), accepted_refresh.
  - unfold HandleSetTTLFix. cbn [snd]. destruct (is_ok (hq_parse r)); cbn [negb]; [|done].
    destruct (ttl_field r _) as [v|]; cbn [fmap option_fmap option_map]; [|done]. unfold edited, step.
    destruct (run_edit save (ESetTTLFix _ v) (p_cfg p)) as [cfg [u|err]]; cbn [fst snd is_ok]; [by rewrite accepted_refresh|].
    split; [done|]. by destruct (errors_Is _ _).
Qed.

(** ** Accepted forms are in force *)

(** Every check of a form passed. *)
Ltac form_checks H :=
  apply firstFailed_none in H; [|by repeat constructor];
  repeat match goal with
  | H : Forall _ (_ :: _) |- _ => let H1 := fresh "Hc" in apply List.Forall_cons_iff in H as [H1 H]; cbn [chk_failed] in H1
  end.

Lemma oneOf_In v l : oneOf v l = true -> In v l.
Proof. unfold oneOf. intros Hv. apply existsb_exists in Hv as (x & Hx & E). apply String.eqb_eq in E. by subst. Qed.

Lemma optionalAddress_condition label sel a : optionalAddress a = true ->
  exists s, addressCondition label sel a = Ok s /\ (s = "" <-> a = "").
Proof.
  unfold optionalAddress, addressCondition, validateAddressOrCIDR. destruct (String.eqb_spec a "") as [->|Hne]; cbn [orb]; [by exists ""|].
  intros Ha. eexists. split; [destruct (is_ok (ValidateCIDR a)); [reflexivity|]; cbn [orb] in Ha; by rewrite Ha|].
  split; [|done]. unfold addressFamilyMatcher. repeat case_match; discriminate.
Qed.

(** Addresses and rates have no blanks around them. *)
Lemma address_plain a : validateAddressOrCIDR a = Ok tt -> TrimSpace a = a.
Proof.
  intros Ha. apply TrimSpace_plain. unfold validateAddressOrCIDR in Ha.
  destruct (ValidateCIDR a) as [[]|] eqn:E1; cbn in Ha; [|destruct (ValidateIP a) as [[]|] eqn:E2; cbn in Ha; [|done]].
  - eapply all_chars_impl; [|by apply ValidateCIDR_chars]. apply (ascii_impl cidr_char plain_char). vm_compute. reflexivity.
  - eapply all_chars_impl; [|by apply ValidateIP_chars]. apply (ascii_impl addr_char plain_char). vm_compute. reflexivity.
Qed.

Lemma rate_plain rate : matchb openPortRateLimitPattern rate = true -> TrimSpace rate = rate.
Proof. intros Hm. apply TrimSpace_plain. eapply matchb_over; [|exact Hm]. unfold openPortRateLimitPattern. solve_over. Qed.

(** A rule the form accepted has something to match on. *)
Definition has_condition (r : FirewallRule) : bool :=
  nonempty (FirewallRule_Interface r) || nonempty (FirewallRule_SrcIP r) || nonempty (FirewallRule_DstIP r) || nonempty (FirewallRule_Protocol r).

Lemma accepted_interface rule : String.eqb (FirewallRule_Interface rule) "" || is_ok (ValidateInterfaceName (FirewallRule_Interface rule)) = true ->
  exists s, interfaceCondition rule = Ok s /\ (s = "" <-> FirewallRule_Interface rule = "").
Proof.
  unfold interfaceCondition. destruct (String.eqb_spec (FirewallRule_Interface rule) "") as [->|Hne]; cbn [orb]; [by exists ""|].
  intros Hv. destruct (ValidateInterfaceName _) as [u|]; [|done]. destruct (String.eqb _ "in"); eexists; (split; [reflexivity|]); by split.
Qed.

Lemma accepted_protocol rule : oneOf (FirewallRule_Protocol rule) [""; "tcp"; "udp"; "icmp"] = true -> 1 <= FirewallRule_Port rule <= 65535 ->
  exists s, protocolCondition rule = Ok s /\ (s = "" <-> FirewallRule_Protocol rule = "").
Proof.
  intros Hp Hport. apply oneOf_In in Hp. unfold protocolCondition.
  assert (Hv : ValidatePort (FirewallRule_Port rule) = Ok tt) by (by apply ValidatePort_iff).
  destruct (Z.leb_spec (FirewallRule_Port rule) 0); [lia|]. rewrite Hv.
  destruct Hp as [<-|[<-|[<-|[<-|[]]]]]; (eexists; split; [reflexivity|]); by split.
Qed.

(** What the form checks is what the renderer checks. *)
Lemma accepted_rule_renders r rule : parseRuleForm r = (rule, "") ->
  In (FirewallRule_Chain rule) ["input"; "forward"; "output"] /\ FirewallRule_Enabled rule = true /\ FirewallRule_Priority rule = 0
  /\ exists line, renderCustomRule rule = Ok line /\ (line = "" <-> has_condition rule = false).
Proof.
  unfold parseRuleForm. destruct (formPort r "port") as [port ok] eqn:Ep. intros [= <- Hk]. form_checks Hk. bool_hyps.
  subst ok. apply formPort_ok in Ep. split; [by apply oneOf_In|]. split; [done|]. split; [done|].
  set (rule := mkFirewallRule _ _ _ _ _ _ _ _ _ _ _).
  destruct (accepted_interface rule) as (si & Ei & Hi).
  { change (FirewallRule_Interface rule) with (hq_form r "interface"). destruct (String.eqb (hq_form r "interface") ""); [done|].
    by apply negb_false_iff in Hc7. }
  destruct (optionalAddress_condition "source" "saddr" (FirewallRule_SrcIP rule)) as (ss & Es & Hs); [exact Hc4|].
  destruct (optionalAddress_condition "destination" "daddr" (FirewallRule_DstIP rule)) as (sd & Ed & Hd); [exact Hc5|].
  destruct (accepted_protocol rule) as (sp & Epr & Hpr); [exact Hc2|exact Ep|].
  destruct (ValidateRuleName (hq_form r "name")) as [u|] eqn:En; [|done].
  assert (Hact : In (hq_form r "action") ["accept"; "drop"; "reject"]) by (by apply oneOf_In).
  assert (Hne : forall a b : string, (a = "" <-> b = "") -> nonempty a = nonempty b).
  { intros a b Hab. unfold nonempty. destruct (String.eqb_spec a ""), (String.eqb_spec b ""); naive_solver. }
  assert (Hcond : forall conds, conds = List.filter nonempty [si; ss; sd; sp] -> conds = [] <-> has_condition rule = false).
  { intros conds ->. unfold has_condition. rewrite <- (Hne _ _ Hi), <- (Hne _ _ Hs), <- (Hne _ _ Hd), <- (Hne _ _ Hpr).
    cbn [List.filter]. destruct (nonempty si), (nonempty ss), (nonempty sd), (nonempty sp); by split. }
  assert (Ec : customRuleConditions rule = Ok (List.filter nonempty [si; ss; sd; sp])) by (unfold customRuleConditions; by rewrite Ei, Es, Ed, Epr).
  unfold renderCustomRule. rewrite Ec. change (FirewallRule_Name rule) with (hq_form r "name"). rewrite En.
  change (FirewallRule_Action rule) with (hq_form r "action"). specialize (Hcond _ eq_refl).
  destruct (List.filter nonempty [si; ss; sd; sp]) as [|c conds];
    destruct Hact as [<-|[<-|[<-|[]]]]; cbv beta iota; cbn [String.eqb Ascii.eqb Bool.eqb negb andb];
    (eexists; split; [reflexivity|]); (split; [intros E|intros E]); try (by apply Hcond); try done.
  all: try (apply Hcond in E; discriminate). all: destruct (String.eqb (hq_form r "name") ""); discriminate E.
Qed.

(** The form checks all that the renderer does but the name. *)
Lemma accepted_port_renders r op : openPortForm r = (op, "") ->
  OpenPort_Enabled op = true
  /\ (exists protocols, openPortProtocols (OpenPort_Protocol op) = Ok protocols
        /\ length protocols = (if String.eqb (OpenPort_Protocol op) "both" then 2 else 1)%nat)
  /\ ValidatePort (OpenPort_Port op) = Ok tt /\ is_ok (openPortSourcePrefix (OpenPort_Source op)) = true
  /\ is_ok (openPortLimit (OpenPort_RateLimit op)) = true.
Proof.
  unfold openPortForm. destruct (formPort r "port") as [port ok] eqn:Ep. intros [= <- Hk]. form_checks Hk. bool_hyps. subst ok.
  apply formPort_ok in Ep. cbn [OpenPort_Enabled OpenPort_Protocol OpenPort_Port OpenPort_Source OpenPort_RateLimit].
  split; [done|]. split; [|split; [by apply ValidatePort_iff|split]].
  - assert (Hp : In (hq_form r "protocol") ["tcp"; "udp"; "both"]) by (by apply oneOf_In).
    destruct Hp as [<-|[<-|[<-|[]]]]; eexists; (split; [reflexivity|done]).
  - unfold openPortSourcePrefix. assert (Ha : hq_form r "source" = "" \/ validateAddressOrCIDR (hq_form r "source") = Ok tt).
    { unfold optionalAddress in Hc1. unfold validateAddressOrCIDR. destruct (String.eqb_spec (hq_form r "source") ""); [by left|right].
      destruct (is_ok (ValidateCIDR _)); [done|]. cbn [orb] in Hc1. by rewrite Hc1. }
    destruct Ha as [->|Ha]; [done|]. rewrite (address_plain _ Ha), Ha. by destruct (String.eqb _ "").
  - unfold openPortLimit. set (rate := TrimSpace (hq_form r "rateLimit")) in *. revert Hc2. unfold ValidateOpenPortRateLimit.
    destruct (String.eqb_spec (TrimSpace rate) "") as [|Hne]; [done|]. destruct (matchb openPortRateLimitPattern rate) eqn:Em; [|done].
    intros _. cbv zeta. rewrite (rate_plain _ Em) in *. cbn [negb]. rewrite ?Em. by destruct (String.eqb _ "").
Qed.

Section InForce.
Context `{NFT} (save : Config -> result unit).

Lemma accepted_edit (x : edit) (st : state) (a : string) (ok : hresp) out :
  match edited save x st with (st, Err err) => (st, serverError a err) | (st, Ok _) => (st, ok) end = out ->
  accepted (snd out) = true -> run_edit save x (p_cfg (snd st)) = (p_cfg (snd (fst out)), Ok tt) /\ fst (fst out) = fst st.
Proof.
  destruct st as [m p]. unfold edited. cbn [snd]. destruct (run_edit save x (p_cfg p)) as [cfg [[]|err]]; intros <- Hacc; done.
Qed.

Lemma lines_of_app keep l1 l2 : lines_of keep (l1 ++ l2) = lines_of keep l1 ++ lines_of keep l2.
Proof. unfold lines_of. by rewrite List.filter_app, flat_map_app. Qed.

(** The custom lines of one chain. *)
Definition chain_lines (chain : string) (cfg : Config) : list string :=
  let d := buildTemplateData cfg in
  if String.eqb chain "forward" then CustomForwardRules d else if String.eqb chain "output" then CustomOutputRules d else CustomInputRules d.

Lemma chain_lines_rules chain cfg : In chain ["input"; "forward"; "output"] ->
  chain_lines chain cfg = lines_of (fun r => if String.eqb chain "input" then chain_input r else chain_is chain r) (FirewallConfig_Rules (Config_Firewall cfg)).
Proof.
  intros Hc. unfold chain_lines, buildTemplateData. cbn [CustomInputRules CustomForwardRules CustomOutputRules].
  unfold buildCustomRules. rewrite foldl_addCustomRule. by destruct Hc as [<-|[<-|[<-|[]]]].
Qed.

(** C37: A rule the page accepts is in force with the next apply.  When the
    form is answered with success it has been appended, saved with the rest of
    the configuration unchanged, and the ruleset rendered from then on has one
    more line in the chain the form names, at its end and of the closed form,
    with every other chain as it was; only a rule that names no interface, no
    address and no protocol adds no line. *)
Theorem accepted_rule_in_force r st (Hacc : accepted (snd (HandleAddRule save r st)) = true) :
  let rule := fst (parseRuleForm r) in
  let cfg := p_cfg (snd st) in
  let cfg' := p_cfg (snd (fst (HandleAddRule save r st))) in
  save cfg' = Ok tt /\ fst (fst (HandleAddRule save r st)) = fst st
  /\ (exists prio, cfg' = set_Config_Firewall (set_FirewallConfig_Rules (FirewallConfig_Rules (Config_Firewall cfg) ++ [set_FirewallRule_Priority prio rule])
                                               (Config_Firewall cfg)) cfg)
  /\ In (FirewallRule_Chain rule) ["input"; "forward"; "output"]
  /\ exists added, (forall chain, In chain ["input"; "forward"; "output"] ->
        chain_lines chain cfg' = chain_lines chain cfg ++ (if String.eqb chain (FirewallRule_Chain rule) then added else []))
     /\ (if has_condition rule then exists line, added = [line] /\ custom_line line else added = []).
Proof.
  revert Hacc. cbv zeta. unfold HandleAddRule. destruct (is_ok (hq_parse r)); cbn [negb]; [|done].
  destruct (parseRuleForm r) as [rule key] eqn:Ef. destruct (String.eqb_spec key "") as [->|]; cbn [negb]; [|done]. cbn [fst].
  intros Hacc. remember (match edited save (EAddRule rule) st with (st, Err err) => (st, serverError "error.saveFailed" err) | (st, Ok _) => (st, respondRefresh r "/firewall") end) as out eqn:Eout.
  destruct (accepted_edit (EAddRule rule) st _ _ out (eq_sym Eout) Hacc) as [Hrun Hm]. clear Eout Hacc.
  destruct (accepted_rule_renders r rule Ef) as (Hchain & Hen & Hprio & line & Hline & Hempty).
  revert Hrun. cbn [run_edit]. unfold AddRule, mutate. rewrite Hprio. cbn [Z.eqb].
  set (prio := wrap64 _). set (rule' := set_FirewallRule_Priority prio rule). intros [= Hcfg Hsave]. rewrite Hcfg in Hsave.
  split; [done|]. split; [done|]. split; [by exists prio|]. split; [done|].
  assert (Hrender : renderCustomRule rule' = renderCustomRule rule) by (by destruct rule).
  exists (rule_line rule'). split.
  - intros chain Hin. rewrite !chain_lines_rules by done. rewrite <- Hcfg. cbn [Config_Firewall FirewallConfig_Rules set_Config_Firewall set_FirewallConfig_Rules].
    rewrite lines_of_app. f_equal. unfold lines_of. cbn [List.filter]. unfold chain_input, chain_is.
    change (FirewallRule_Chain rule') with (FirewallRule_Chain rule).
    destruct Hin as [<-|[<-|[<-|[]]]], Hchain as [<-|[<-|[<-|[]]]]; cbn [String.eqb Ascii.eqb Bool.eqb negb andb flat_map]; by rewrite ?app_nil_r.
  - unfold rule_line. change (FirewallRule_Enabled rule') with (FirewallRule_Enabled rule). rewrite Hen, Hrender, Hline.
    destruct (has_condition rule) eqn:Ehc.
    + destruct (String.eqb_spec line "") as [E|E]; [by apply Hempty in E|]. exists line. split; [done|].
      by destruct (renderCustomRule_shape _ _ Hline).
    + destruct (String.eqb_spec line "") as [E|E]; [done|]. destruct E. by apply Hempty.
Qed.
(** An accepted open port is in force exactly when its name is one the
    renderer writes: blank, or of the characters of a rule name.  The form
    checks everything the renderer does but the name. *)
Theorem accepted_port_in_force r st (Hacc : accepted (snd (HandleAddOpenPort save r st)) = true) :
  let op := fst (openPortForm r) in
  let cfg := p_cfg (snd st) in
  let cfg' := p_cfg (snd (fst (HandleAddOpenPort save r st))) in
  save cfg' = Ok tt
  /\ cfg' = set_Config_Firewall (set_FirewallConfig_OpenPorts (FirewallConfig_OpenPorts (Config_Firewall cfg) ++ [op]) (Config_Firewall cfg)) cfg
  /\ exists added, OpenPortRules (buildTemplateData cfg') = OpenPortRules (buildTemplateData cfg) ++ added
     /\ if is_ok (openPortComment (OpenPort_Name op))
        then Forall open_port_line added /\ length added = (if String.eqb (OpenPort_Protocol op) "both" then 2 else 1)%nat
        else added = [].
Proof.
  revert Hacc. cbv zeta. unfold HandleAddOpenPort. destruct (is_ok (hq_parse r)); cbn [negb]; [|done].
  destruct (openPortForm r) as [op key] eqn:Ef. destruct (String.eqb_spec key "") as [->|]; cbn [negb]; [|done]. cbn [fst].
  intros Hacc. remember (match edited save (EAddOpenPort op) st with (st, Err err) => (st, serverError "error.saveFailed" err) | (st, Ok _) => (st, respondRefresh r "/firewall") end) as out eqn:Eout.
  destruct (accepted_edit (EAddOpenPort op) st _ _ out (eq_sym Eout) Hacc) as [Hrun Hm]. clear Eout Hacc.
  revert Hrun. cbn [run_edit]. unfold AddOpenPort, mutate. intros [= Hcfg Hsave]. rewrite Hcfg in Hsave.
  split; [done|]. split; [done|].
  assert (Hen : OpenPort_Enabled op = true /\ (exists protocols, openPortProtocols (OpenPort_Protocol op) = Ok protocols
            /\ length protocols = (if String.eqb (OpenPort_Protocol op) "both" then 2 else 1)%nat)
          /\ ValidatePort (OpenPort_Port op) = Ok tt /\ is_ok (openPortSourcePrefix (OpenPort_Source op)) = true
          /\ is_ok (openPortLimit (OpenPort_RateLimit op)) = true).
  { clear -Ef. by apply (accepted_port_renders r). }
  destruct Hen as (Hen & (ps & Hps & Hlen) & Hport & Hsrc & Hlim).
  exists (match renderOpenPortRules op with Ok lines => lines | Err _ => [] end). split.
  - rewrite <- Hcfg. unfold buildTemplateData. cbn [OpenPortRules]. unfold buildOpenPortRules. cbn.
    rewrite flat_map_app. cbn [flat_map]. rewrite Hen, app_nil_r. done.
  - unfold renderOpenPortRules. rewrite Hport, Hps. destruct (openPortSourcePrefix _) as [src|] eqn:Es; [|done].
    destruct (openPortComment _) as [com|] eqn:Ec; [|done]. destruct (openPortLimit _) as [lim|] eqn:El; [|done]. cbn [is_ok]. cbv beta iota.
    split; [|cbn; by rewrite List.length_map]. eapply (renderOpenPortRules_shape op). unfold renderOpenPortRules. by rewrite Hport, Hps, Es, Ec, El.
Qed.
End InForce.

(** ** Port forwards in the ruleset *)

(** A new connection as the chains see it. *)
Record packet : Type := mkPacket { pk_iif : string; pk_proto : string; pk_dst : string; pk_dport : Z }.

(** The match both lines of a forward start with in nftables.conf.tmpl. *)
Definition pf_matches (wan : string) (k : packet) (pf : PortForward) : bool :=
  PortForward_Enabled pf && String.eqb (pk_iif k) wan && String.eqb (pk_proto k) (PortForward_Protocol pf) && (pk_dport k =? PortForward_ExtPort pf).

(** The nat chain rewrites the destination before the forward chain runs. *)
Definition prerouting (wan : string) (pfs : list PortForward) (k : packet) : packet :=
  match List.find (pf_matches wan k) pfs with
  | Some pf => mkPacket (pk_iif k) (pk_proto k) (PortForward_IntIP pf) (PortForward_IntPort pf)
  | None => k
  end.
Definition forward_accepts (wan : string) (pfs : list PortForward) (k : packet) : bool := existsb (pf_matches wan k) pfs.

(** A forward lets its connections through only when it keeps the port: the
    line in the forward chain names the outer port, which the packet no longer
    has. *)
Lemma port_forward_passes wan pf k : pf_matches wan k pf = true ->
  forward_accepts wan [pf] (prerouting wan [pf] k) = (PortForward_IntPort pf =? PortForward_ExtPort pf).
Proof.
  intros Hm. unfold forward_accepts, prerouting. cbn [List.find]. rewrite Hm. cbn [existsb]. unfold pf_matches in *.
  cbn [pk_iif pk_proto pk_dport]. bool_hyps. rewrite H, H1, H2, !String.eqb_refl. cbn [andb]. by rewrite orb_false_r.
Qed.

(** The page accepts the protocol both and an IPv6 host for a forward, which
    its two lines, in a table of IPv4, cannot say. *)
Definition forward_form (protocol ip : string) : hreq :=
  mkHreq (Ok tt) (fun f => if String.eqb f "protocol" then protocol else if String.eqb f "intIP" then ip
                           else if String.eqb f "extPort" then "8080" else if String.eqb f "intPort" then "80" else "web") (fun _ => "") "".
Lemma forward_both_accepted : snd (parsePortForwardForm (forward_form "both" "192.168.1.2")) = "".
Proof. vm_compute. reflexivity. Qed.
Lemma forward_ipv6_accepted : snd (parsePortForwardForm (forward_form "tcp" "fd00::2")) = "".
Proof. vm_compute. reflexivity. Qed.

(** An open port whose name the renderer refuses is accepted and saved, and no
    line of the ruleset opens it. *)
Definition port_form : hreq :=
  mkHreq (Ok tt) (fun f => if String.eqb f "protocol" then "tcp" else if String.eqb f "port" then "8080"
                           else if String.eqb f "name" then "web; test" else "") (fun _ => "") "".
Lemma unnamed_port_dropped : snd (openPortForm port_form) = "" /\ is_ok (renderOpenPortRules (fst (openPortForm port_form))) = false.
Proof. split; vm_compute; reflexivity. Qed.

(** ** Samples *)

Definition rule_form : hreq :=
  mkHreq (Ok tt) (fun f => if String.eqb f "name" then "block" else if String.eqb f "chain" then "forward" else if String.eqb f "action" then "drop"
                           else if String.eqb f "srcIP" then "192.168.1.0/24" else if String.eqb f "protocol" then "tcp"
                           else if String.eqb f "port" then "25" else "") (fun _ => "") "true".

Lemma accepted_rule_in_force_witness :
  accepted (snd (HandleAddRule save_ok rule_form toy_state)) = true
  /\ exists added, chain_lines "forward" (p_cfg (snd (fst (HandleAddRule save_ok rule_form toy_state))))
       = chain_lines "forward" (p_cfg (snd toy_state)) ++ added
     /\ exists line, added = [line] /\ custom_line line.
Proof.
  split; [vm_compute; reflexivity|].
  destruct (accepted_rule_in_force save_ok rule_form toy_state ltac:(vm_compute; reflexivity)) as (_ & _ & _ & _ & added & Hc & Hl).
  exists added. split; [exact (Hc "forward" (or_intror (or_introl eq_refl)))|exact Hl].
Defined.
