(* ===== verification/Escape.v ===== *)
(** * Escaping of text, rune by rune

    [jsonString] of internal/web/handlers/vpn.go and [escapeLabelValue] of
    internal/services/metrics_exposition.go, each with the reader of the
    format it writes.  Both range over the runes of a string, so a byte that
    starts no encoding comes out as U+FFFD; on the text so repaired they work
    byte by byte. *)

From S2P Require Import Prelude GoStrings GoNet Encoding.

Local Open Scope Z_scope.
Local Open Scope go_scope.

(** [for _, r := range s] that writes [f r] for an ASCII rune, which is one
    byte long, and the rune itself for any other. *)
Definition escape_runes (f : ascii -> string) (s : string) : string :=
  String.concat "" (List.map (fun seg : option Z * string =>
    match seg with
    | (None, _) => replacement
    | (Some _, String a "") => if byte_val a <? 128 then f a else char_str a
    | (Some _, b) => b
    end) (runes s)).

Definition map_bytes (f : ascii -> string) : string -> string :=
  fix go s := match s with
              | "" => ""
              | String a r => (if byte_val a <? 128 then f a else char_str a) +:+ go r
              end.

Lemma map_bytes_app f s t : map_bytes f (s +:+ t) = map_bytes f s +:+ map_bytes f t.
Proof. induction s as [|a s IH]; [done|]. cbn. by rewrite IH, append_assoc. Qed.

Lemma map_bytes_high f s : all_chars (fun b => 128 <=? byte_val b) s = true -> map_bytes f s = s.
Proof.
  induction s as [|a s IH]; [done|]. cbn [all_chars map_bytes]. intros Hs. bool_hyps. rewrite IH by done.
  destruct (Z.ltb_spec (byte_val a) 128); [lia|done].
Qed.

Lemma concat_cons x l : String.concat "" (x :: l) = x +:+ String.concat "" l.
Proof. destruct l; [by rewrite append_empty_r|done]. Qed.

(** Escaping works on the repaired text, byte by byte. *)
Lemma escape_runes_bytes f s : escape_runes f s = map_bytes f (to_valid_utf8 s).
Proof.
  unfold escape_runes, to_valid_utf8. remember (String.length s) as n eqn:Hn. assert (Hle : (String.length s <= n)%nat) by lia. clear Hn.
  revert s Hle. induction n as [|n IH]; intros [|a r] Hle; try done; [cbn in Hle; lia|].
  destruct (runes_step_ascii a r) as (seg & r' & -> & _ & Hlen & Hseg). cbn [List.map]. rewrite !concat_cons, map_bytes_app.
  rewrite IH by (cbn in Hle; lia). f_equal. destruct Hseg as [->|Hhigh].
  - cbn. destruct (byte_val a <? 128); by rewrite append_empty_r.
  - destruct seg as [[z|] b]; cbn [fst snd] in *; [|symmetry; by apply map_bytes_high].
    rewrite map_bytes_high by done. destruct b as [|c [|d b]]; try done. cbn [all_chars] in Hhigh. bool_hyps.
    destruct (Z.ltb_spec (byte_val c) 128); [lia|done].
Qed.

(** ** JSON strings *)

(** What [jsonString] writes for a rune below 0x80. *)
Definition json_rune (a : ascii) : string :=
  if Ascii.eqb a dquote then String "\" (char_str dquote)
  else if Ascii.eqb a "\" then String "\" "\"
  else if Ascii.eqb a "010" then "\n"
  else if Ascii.eqb a "013" then "\r"
  else if Ascii.eqb a "009" then "\t"
  else if byte_val a <? 32 then "\u00" +:+ hex_encode (char_str a)
  else char_str a.

Definition jsonString (s : string) : string := String dquote (escape_runes json_rune s +:+ char_str dquote).

(** The characters of a JSON string up to its closing quote, and the rest; a
    raw control character ends it in error.  Escapes of runes beyond ASCII are
    left out, nothing writes them. *)
Fixpoint json_chars (s : string) : option (string * string) :=
  match s with
  | "" => None
  | String a r =>
      if Ascii.eqb a dquote then Some ("", r)
      else if byte_val a <? 32 then None
      else if Ascii.eqb a "\" then
        match r with
        | String e r =>
            let one (c : ascii) (r : string) := match json_chars r with Some (t, rest) => Some (String c t, rest) | None => None end in
            if Ascii.eqb e dquote || Ascii.eqb e "\" || Ascii.eqb e "/" then one e r
            else if Ascii.eqb e "n" then one "010"%char r
            else if Ascii.eqb e "r" then one "013"%char r
            else if Ascii.eqb e "t" then one "009"%char r
            else if Ascii.eqb e "b" then one "008"%char r
            else if Ascii.eqb e "f" then one "012"%char r
            else if Ascii.eqb e "u" then
              match r with
              | String "0" (String "0" (String x (String y r))) =>
                  match hex_val x, hex_val y with
                  | Some hx, Some hy => if hx <? 8 then one (ascii_of_N (Z.to_N (16 * hx + hy))) r else None
                  | _, _ => None
                  end
              | _ => None
              end
            else None
        | "" => None
        end
      else match json_chars r with Some (t, rest) => Some (String a t, rest) | None => None end
  end.

Definition json_string (s : string) : option (string * string) :=
  match s with String a r => if Ascii.eqb a dquote then json_chars r else None | "" => None end.

Lemma json_step a x : json_chars ((if byte_val a <? 128 then json_rune a else char_str a) +:+ x)
  = match json_chars x with Some (t, rest) => Some (String a t, rest) | None => None end.
Proof. destruct a as [[] [] [] [] [] [] [] []]; reflexivity. Qed.

(** A JSON reader gets back the string that was written, repaired, whatever
    follows it. *)
Lemma json_string_read s rest : json_string (jsonString s +:+ rest) = Some (to_valid_utf8 s, rest).
Proof.
  unfold jsonString. rewrite escape_runes_bytes. cbn [append json_string]. rewrite Ascii.eqb_refl, append_assoc.
  induction (to_valid_utf8 s) as [|a t IH]; [done|]. cbn [map_bytes]. rewrite append_assoc, json_step. by rewrite IH.
Qed.

(** ** Label values of the exposition format *)

(** What [escapeLabelValue] writes for a rune below 0x80. *)
Definition label_rune (a : ascii) : string :=
  if Ascii.eqb a "\" then String "\" "\"
  else if Ascii.eqb a dquote then String "\" (char_str dquote)
  else if Ascii.eqb a "010" then "\n"
  else if Ascii.eqb a "013" || Ascii.eqb a "009" then ""
  else if byte_val a <? 32 then ""
  else char_str a.

Definition escapeLabelValue (s : string) : string := if String.eqb s "" then "" else escape_runes label_rune s.

(** A label value up to its closing quote, and the rest: a backslash, a quote
    and a line feed are written with a backslash. *)
Fixpoint label_chars (s : string) : option (string * string) :=
  match s with
  | "" => None
  | String a r =>
      if Ascii.eqb a dquote then Some ("", r)
      else if Ascii.eqb a "010" then None
      else
        let one (c : ascii) (r : string) := match label_chars r with Some (t, rest) => Some (String c t, rest) | None => None end in
        if Ascii.eqb a "\" then
          match r with
          | String e r => if Ascii.eqb e dquote || Ascii.eqb e "\" then one e r else if Ascii.eqb e "n" then one "010"%char r else None
          | "" => None
          end
        else one a r
  end.

(** Control characters other than the line feed are dropped. *)
Definition label_char (a : ascii) : bool := (32 <=? byte_val a) || Ascii.eqb a "010".
Fixpoint filter_bytes (keep : ascii -> bool) (s : string) : string :=
  match s with "" => "" | String a r => if keep a then String a (filter_bytes keep r) else filter_bytes keep r end.
Definition label_text (s : string) : string := filter_bytes label_char (to_valid_utf8 s).

Lemma label_step a x : label_chars ((if byte_val a <? 128 then label_rune a else char_str a) +:+ x)
  = if label_char a then match label_chars x with Some (t, rest) => Some (String a t, rest) | None => None end else label_chars x.
Proof. destruct a as [[] [] [] [] [] [] [] []]; reflexivity. Qed.

Lemma label_read s rest : label_chars (escapeLabelValue s +:+ String dquote rest) = Some (label_text s, rest).
Proof.
  unfold escapeLabelValue, label_text. destruct (String.eqb_spec s "") as [->|_]; [done|]. rewrite escape_runes_bytes.
  induction (to_valid_utf8 s) as [|a t IH]; [done|]. cbn [map_bytes filter_bytes]. rewrite append_assoc, label_step, IH.
  by destruct (label_char a).
Qed.

(** The escaped value stays on its line. *)
Lemma label_one_line s : has_char "010" (escapeLabelValue s) = false.
Proof.
  unfold escapeLabelValue. destruct (String.eqb s ""); [done|]. rewrite escape_runes_bytes.
  induction (to_valid_utf8 s) as [|a t IH]; [done|]. cbn [map_bytes]. rewrite has_char_append, IH, orb_false_r.
  clear. destruct a as [[] [] [] [] [] [] [] []]; reflexivity.
Qed.
