(* ===== verification/VpnPages.v ===== *)
(** * internal/web/handlers/vpn.go, dhcp.go, healthcheck.go and download.go

    The VPN page with its peers, tunnels and site-to-site wizard, the static
    leases of the DHCP page, and the counter reset of the health checks.  A
    handler runs on the service's state and calls.  Rendering is left out. *)

From S2P Require Import Prelude GoStrings GoTime GoIP Regex Validate ConfigTypes Encoding FirewallRender Sys SystemService Dns Dhcp Vpn VpnLink HealthCheck WebAuth Respond Openvpn Tls Escape.

Local Open Scope Z_scope.
Local Open Scope go_scope.
Local Open Scope sys_scope.

(** ** Answers with a body *)

Inductive reply : Type :=
| Plain (h : hresp)
| SecretFile (headers : list (string * string)) (body : string)
| JsonBody (body : string).

Definition setSecretDownloadHeaders (contentType filename : string) : list (string * string) :=
  [("Content-Type", contentType);
   ("Content-Disposition", "attachment; filename=" +:+ char_str dquote +:+ filename +:+ char_str dquote);
   ("Cache-Control", "no-store")].

Definition boolStr (b : bool) : string := if b then "true" else "false".
Definition intStr (i : Z) : string := itoa i.
Definition uintStr (u : Z) : string := itoa u.

(** [`{"k1":v1,"k2":v2}`] as the handlers write it, values as they are. *)
Definition json_object (members : list (string * string)) : string :=
  "{" +:+ join "," (List.map (fun kv => char_str dquote +:+ fst kv +:+ char_str dquote +:+ ":" +:+ snd kv) members) +:+ "}".

Definition StatusNotFound : Z := 404.
Definition StatusGone : Z := 410.
Definition StatusNoContent : Z := 204.
Definition StatusBadGateway : Z := 502.

Definition vpnNamePattern : regex := rplus (RCls name_char).

(** ** Peers and the server *)

Section Pages.
Variable execute_client : WGClientTunnel -> result string.
Variable execute_server : WGServerConfig -> result string.
Variables (json_text : json -> string) (json_read : string -> option json).
Variables (time_text : Z -> string) (time_read : string -> option Z).
Variable hmac : string -> string -> string.
(** [time.Now()] and its Unix seconds. *)
Variable clock : Z.

Definition addPeerFailed (e : error) : hresp :=
  if errors_Is e ErrPeerSubnetConflict then clientError StatusBadRequest "error.peerSubnetConflict"
  else if errors_Is e ErrPeerSubnetNotPrivate then clientError StatusBadRequest "error.peerSubnetNotPrivate"
  else if errors_Is e ErrPeerNameInUse then clientError StatusBadRequest "error.duplicateName"
  else fail StatusInternalServerError e.

Definition vpn_bad_name (name : string) : bool := (64 <? len name) || negb (matchb vpnNamePattern name).

Definition HandleAddPeer (r : hreq) : svc vpn reply :=
  if negb (is_ok (hq_parse r)) then mret (Plain (clientError StatusBadRequest "error.badForm"))
  else
    let name := hq_form r "name" in
    let endpoint := hq_form r "endpoint" in
    let key := firstFailed [
      mkFormCheck (String.eqb name "") "error.nameRequired";
      mkFormCheck (vpn_bad_name name) "error.invalidNameCharacters";
      mkFormCheck (negb (String.eqb endpoint "") && negb (is_ok (ValidatePeerEndpoint endpoint))) "error.endpointFormat"] in
    if negb (String.eqb key "") then mret (Plain (clientError StatusBadRequest key))
    else
      let siteToSite := String.eqb (hq_form r "peerType") "site-to-site" in
      let '(remoteSubnets, bad) := if siteToSite then parseRemoteSubnets (hq_form r "remoteSubnets") else ([], "") in
      if negb (String.eqb bad "") then mret (Plain (clientErrorf StatusBadRequest "error.invalidRemoteSubnet" bad))
      else
        a ← AddPeer name siteToSite remoteSubnets endpoint;
        s ← get;
        mret (match a with
              | Err e => Plain (addPeerFailed e)
              | Ok (peer, privKey) => SecretFile (setSecretDownloadHeaders "text/plain" (name +:+ ".conf")) (GeneratePeerConfig (vp_cfg s) peer privKey)
              end).

Definition HandleDownloadPeerConfig (r : hreq) : svc vpn reply :=
  let name := hq_path r "name" in
  if vpn_bad_name name then mret (Plain (clientError StatusBadRequest "error.invalidPeerName"))
  else
    s ← get;
    mret (match PeerConfig name s with
          | Err e => Plain (if errors_Is e ErrPeerNotFound then clientError StatusNotFound "error.peerNotFound"
                            else if errors_Is e ErrPeerKeyUnavailable then clientError StatusGone "error.peerKeyUnavailable"
                            else fail StatusInternalServerError e)
          | Ok conf => SecretFile (setSecretDownloadHeaders "text/plain" (name +:+ ".conf")) conf
          end).

Definition HandleRemovePeer (r : hreq) : svc vpn hresp :=
  answer StatusBadRequest (respondRefresh r "/vpn") (RemovePeer (hq_path r "name")).

Definition HandleServerStart (r : hreq) : svc vpn hresp :=
  a ← ServerUp execute_server;
  mret (match a with
        | Err e => if errors_Is e ErrVPNAlreadyRunning then respondRefresh r "/vpn" else fail StatusInternalServerError e
        | Ok _ => respondRefresh r "/vpn"
        end).

Definition HandleServerStop (r : hreq) : svc vpn hresp :=
  a ← ServerDown;
  mret (match a with
        | Err e => if errors_Is e ErrVPNAlreadyStopped then respondRefresh r "/vpn" else fail StatusInternalServerError e
        | Ok _ => respondRefresh r "/vpn"
        end).

Definition HandleConnectClient (r : hreq) : svc vpn hresp :=
  let name := hq_path r "name" in
  if negb (matchb vpnNamePattern name) then mret (clientError StatusBadRequest "error.invalidClientName")
  else answer StatusInternalServerError (respondRefresh r "/vpn") (Vpn.ConnectClient execute_client name).

Definition HandleDisconnectClient (r : hreq) : svc vpn hresp :=
  let name := hq_path r "name" in
  if negb (matchb vpnNamePattern name) then mret (clientError StatusBadRequest "error.invalidClientName")
  else answer StatusInternalServerError (respondRefresh r "/vpn") (Vpn.DisconnectClient name).

(** ** The site-to-site wizard *)

Definition HandleS2SInvite (r : hreq) : svc vpn reply :=
  if negb (is_ok (hq_parse r)) then mret (Plain (clientError StatusBadRequest "error.badForm"))
  else
    let name := hq_form r "name" in
    let endpoint := hq_form r "endpoint" in
    let key := firstFailed [
      mkFormCheck (String.eqb name "" || negb (matchb vpnNamePattern name)) "error.invalidName";
      mkFormCheck (String.eqb endpoint "" || negb (Contains endpoint ":")) "error.endpointFormat"] in
    if negb (String.eqb key "") then mret (Plain (clientError StatusBadRequest key))
    else
      let '(remote, bad) := parseRemoteSubnets (hq_form r "remoteSubnets") in
      if negb (String.eqb bad "") then mret (Plain (clientErrorf StatusBadRequest "error.invalidCIDR" bad))
      else match remote with
      | [] => mret (Plain (clientError StatusBadRequest "error.remoteSubnetRequired"))
      | _ =>
          a ← CreateS2SInvite json_text time_text clock name (hq_form r "siteName") endpoint remote;
          mret (match a with
                | Err e => Plain (fail StatusBadRequest e)
                | Ok (token, peer) => JsonBody (json_object [("token", jsonString token); ("peerName", jsonString (WGServerPeer_Name peer));
                                                             ("expiresAt", jsonString (time_text (WGServerPeer_InviteExpiresAt peer)))])
                end)
      end.

Definition HandleS2SJoin (r : hreq) : svc vpn reply :=
  if negb (is_ok (hq_parse r)) then mret (Plain (clientError StatusBadRequest "error.badForm"))
  else
    let token := TrimSpace (hq_form r "token") in
    if String.eqb token "" then mret (Plain (clientError StatusBadRequest "error.tokenRequired"))
    else
      a ← ConsumeInvite json_text json_read time_text time_read hmac clock token;
      mret (match a with
            | Err e => Plain (fail StatusBadRequest e)
            | Ok (ack, pub, peer) => JsonBody (json_object [("ackToken", jsonString ack); ("publicKey", jsonString pub);
                                                            ("peerName", jsonString (WGServerPeer_Name peer))])
            end).

Definition HandleS2SFinalize (r : hreq) : svc vpn hresp :=
  if negb (is_ok (hq_parse r)) then mret (clientError StatusBadRequest "error.badForm")
  else
    let name := hq_form r "peerName" in
    let ack := TrimSpace (hq_form r "ackToken") in
    if String.eqb name "" || negb (matchb vpnNamePattern name) then mret (clientError StatusBadRequest "error.invalidPeerName")
    else if String.eqb ack "" then mret (clientError StatusBadRequest "error.ackTokenRequired")
    else
      a ← FinalizeInvite json_read time_read hmac clock name ack;
      match a with
      | Err e => mret (fail StatusBadRequest e)
      | Ok _ => SyncWGServer execute_server ;; mret (respondRefresh r "/vpn")
      end.

Definition HandleS2SCancel (r : hreq) : svc vpn hresp :=
  let name := hq_path r "name" in
  if String.eqb name "" || negb (matchb vpnNamePattern name) then mret (clientError StatusBadRequest "error.invalidName")
  else answer StatusBadRequest (respondRefresh r "/vpn/s2s") (CancelInvite name).

Definition HandleS2SHealth (r : hreq) : svc vpn reply :=
  let name := hq_path r "name" in
  if String.eqb name "" || negb (matchb vpnNamePattern name) then mret (Plain (clientError StatusBadRequest "error.invalidName"))
  else
    a ← S2SHealth (clock / second) name;
    mret (match a with
          | Err e => Plain (fail StatusInternalServerError e)
          | Ok info => JsonBody (json_object [("name", jsonString (sh_Name info)); ("online", boolStr (sh_Online info));
                                              ("handshakeAgeSec", intStr (sh_HandshakeAgeSec info)); ("rxBytes", uintStr (sh_RxBytes info));
                                              ("txBytes", uintStr (sh_TxBytes info))])
          end).

Definition HandleS2SReachability (r : hreq) : svc vpn hresp :=
  let name := hq_path r "name" in
  if String.eqb name "" || negb (matchb vpnNamePattern name) then mret (clientError StatusBadRequest "error.invalidName")
  else answer StatusBadGateway (HStatus StatusNoContent) (S2SReachability name).
End Pages.

(** ** The DHCP page *)

Section Leases.
Variable unicode_fold : Z -> Z.
Variable mirror : bool.
Variable execute_unbound : unboundTemplateData -> result string.
Variable execute : dnsmasqTemplateData -> result string.

(** Both daemons, the failures only logged. *)
Definition apply_leases : svc dns unit := Dhcp.ApplyConfig execute ;; ApplyDNSMirror mirror execute_unbound ;; mret tt.

Definition HandleAddStatic (r : hreq) : svc dns hresp :=
  if negb (is_ok (hq_parse r)) then mret (clientError StatusBadRequest "error.badForm")
  else
    let mac := hq_form r "mac" in
    let ip := hq_form r "ip" in
    let hostname := hq_form r "hostname" in
    if negb (is_ok (ValidateMAC mac)) then mret (clientError StatusBadRequest "error.invalidMAC")
    else if negb (is_ok (ValidateIP ip)) then mret (clientError StatusBadRequest "error.invalidIP")
    else if String.eqb hostname "" then mret (clientError StatusBadRequest "error.hostnameRequired")
    else if negb (is_ok (ValidateHostname hostname)) then mret (clientError StatusBadRequest "error.invalidHostname")
    else
      a ← AddStaticLease unicode_fold mirror mac ip hostname;
      match a with
      | Err e => mret (if errors_Is e ErrStaticLeaseAddress then clientError StatusBadRequest "error.invalidIP" else serverError "error.saveFailed" e)
      | Ok _ => apply_leases ;; mret (respondRefresh r "/dhcp")
      end.

Definition HandleDeleteStatic (r : hreq) : svc dns hresp :=
  match Atoi (hq_path r "index") with
  | None => mret (clientError StatusBadRequest "error.invalidIndex")
  | Some idx =>
      a ← RemoveStaticLease unicode_fold mirror idx;
      match a with
      | Err e => mret (fail StatusBadRequest e)
      | Ok _ => apply_leases ;; mret (respondRefresh r "/dhcp")
      end
  end.
End Leases.

(** ** The health check counter *)

Definition HandleReset (r : hreq) (s : hc) : hc * hresp := (ResetCounter (hq_path r "name") s, respondRefresh r "/network").

(** ** JSON answers are read back *)

(** What a member of an answer holds. *)
Inductive jvalue : Type := VStr (s : string) | VBool (b : bool) | VInt (z : Z).

Definition jvalue_text (v : jvalue) : string := match v with VStr s => jsonString s | VBool b => boolStr b | VInt z => itoa z end.
Definition jvalue_json (v : jvalue) : json := match v with VStr s => JStr (to_valid_utf8 s) | VBool b => JBool b | VInt z => JInt z end.

Definition int_text (s : string) : option (Z * string) :=
  let '(neg, s) := match s with String "-" r => (true, r) | _ => (false, s) end in
  match span is_digit s with
  | ("", _) => None
  | (ds, rest) => match digits_value 0 ds with Some v => Some (if neg : bool then - v else v, rest) | None => None end
  end.

(** A value of a flat document: a string, a truth value or an integer. *)
Definition json_value (s : string) : option (json * string) :=
  match json_string s with
  | Some (t, rest) => Some (JStr t, rest)
  | None =>
      match drop_prefix "true" s with
      | Some rest => Some (JBool true, rest)
      | None => match drop_prefix "false" s with
                | Some rest => Some (JBool false, rest)
                | None => match int_text s with Some (z, rest) => Some (JInt z, rest) | None => None end
                end
      end
  end.

Fixpoint json_members (fuel : nat) (s : string) : option (list (string * json)) :=
  match fuel with
  | O => None
  | S fuel =>
      '(k, s) ← json_string s;
      s ← drop_prefix ":" s;
      '(v, s) ← json_value s;
      match s with
      | "}" => Some [(k, v)]
      | String "," s => l ← json_members fuel s; Some ((k, v) :: l)
      | _ => None
      end
  end.

Definition json_document (s : string) : option json :=
  s ← drop_prefix "{" s; l ← json_members (String.length s) s; Some (JObj l).

Lemma span_app P s t : all_chars P s = true -> span P (s +:+ t) = let '(h, r) := span P t in (s +:+ h, r).
Proof.
  induction s as [|a s IH]; cbn [append span all_chars]; [by destruct (span P t)|]. intros Hs. bool_hyps.
  rewrite H, IH by done. by destruct (span P t).
Qed.

(** What follows a value in a document. *)
Definition ends_value (rest : string) : Prop := match rest with String a _ => is_digit a = false | "" => True end.

Lemma int_text_read z rest : ends_value rest -> int_text (itoa z +:+ rest) = Some (z, rest).
Proof.
  intros Hrest. assert (Hspan : span is_digit rest = ("", rest)) by (destruct rest as [|a r]; [done|]; cbn in *; by rewrite Hrest).
  assert (Hnn : forall n, 0 <= n -> span is_digit (itoa n +:+ rest) = (itoa n, rest) /\ itoa n <> "" /\ digits_value 0 (itoa n) = Some n).
  { intros n Hn. destruct (itoa_nonneg_value n Hn) as (Hne & Hv & Hd). rewrite span_app by done. rewrite Hspan, append_empty_r. done. }
  unfold int_text. destruct (Z.ltb_spec z 0) as [Hz|Hz].
  - assert (E : itoa z = String "-" (itoa (- z))).
    { unfold itoa at 1. destruct (Z.ltb_spec z 0); [|lia]. unfold itoa. destruct (Z.ltb_spec (- z) 0); [lia|]. by rewrite Z.abs_opp. }
    rewrite E. destruct (Hnn (- z) ltac:(lia)) as (Hs & Hne & Hv). cbn [append]. rewrite Hs. destruct (itoa (- z)); [done|]. rewrite Hv.
    by rewrite Z.opp_involutive.
  - destruct (Hnn z Hz) as (Hs & Hne & Hv). destruct (itoa_nonneg_value z Hz) as (_ & _ & Hd).
    assert (E : (match itoa z +:+ rest with String "-" r => (true, r) | _ => (false, itoa z +:+ rest) end) = (false, itoa z +:+ rest)).
    { destruct (itoa z) as [|a s]; [done|]. cbn [all_chars] in Hd. bool_hyps. cbn [append]. destruct a as [[] [] [] [] [] [] [] []]; done. }
    rewrite E, Hs. destruct (itoa z); [done|]. by rewrite Hv.
Qed.

Lemma json_value_read v rest : ends_value rest -> json_value (jvalue_text v +:+ rest) = Some (jvalue_json v, rest).
Proof.
  intros Hrest. unfold json_value. destruct v as [s|[]|z]; cbn [jvalue_text jvalue_json].
  - by rewrite json_string_read.
  - done.
  - done.
  - rewrite int_text_read by done. destruct (itoa z) as [|a t] eqn:E; [destruct (Z.ltb_spec z 0); unfold itoa in E|].
    { destruct (Z.ltb_spec z 0); [done|lia]. }
    { exfalso. by destruct (itoa_nonneg_value z) as (Hne & _). }
    pose proof (itoa_chars z) as Hc. rewrite E in Hc. cbn [all_chars] in Hc. bool_hyps. cbn [append].
    destruct a as [[] [] [] [] [] [] [] []]; done.
Qed.

(** A key that is written as it is. *)
Definition plain_key (k : string) : Prop := jsonString k = char_str dquote +:+ k +:+ char_str dquote /\ to_valid_utf8 k = k.

Lemma json_members_read members fuel : Forall (fun kv => plain_key (fst kv)) members -> members <> [] -> (length members <= fuel)%nat ->
  json_members fuel (join "," (List.map (fun kv => char_str dquote +:+ fst kv +:+ char_str dquote +:+ ":" +:+ jvalue_text (snd kv)) members) +:+ "}")
  = Some (List.map (fun kv => (fst kv, jvalue_json (snd kv))) members).
Proof.
  revert fuel. induction members as [|[k v] members IH]; intros fuel Hk Hne Hf; [done|]. destruct fuel as [|fuel]; [cbn in Hf; lia|].
  inversion_clear Hk as [|? ? [Hkey Hvalid] Hrest]. cbn [fst snd] in *. cbn [List.map json_members].
  assert (Hread : forall rest, json_string ((char_str dquote +:+ k +:+ char_str dquote +:+ ":" +:+ jvalue_text v) +:+ rest)
                  = Some (k, ":" +:+ (jvalue_text v +:+ rest))).
  { intros rest. replace ((char_str dquote +:+ k +:+ char_str dquote +:+ ":" +:+ jvalue_text v) +:+ rest)
      with (jsonString k +:+ (":" +:+ (jvalue_text v +:+ rest))) by (rewrite Hkey; by rewrite !append_assoc).
    by rewrite json_string_read, Hvalid. }
  destruct members as [|kv members].
  - cbn [List.map join String.concat]. rewrite Hread. cbn [mbind option_bind drop_prefix append Ascii.eqb Bool.eqb]. by rewrite json_value_read.
  - rewrite join_cons by done. rewrite !(append_assoc _ ("," +:+ _)). rewrite (append_assoc "," _).
    rewrite Hread. cbn [mbind option_bind drop_prefix append Ascii.eqb Bool.eqb]. rewrite json_value_read by done.
    specialize (IH fuel Hrest ltac:(done) ltac:(cbn in *; lia)). cbn [mbind option_bind].
    cbn [List.map append] in IH |- *. by rewrite IH.
Qed.

Lemma length_le_join (members : list (string * jvalue)) : (length members <= String.length (join "," (List.map (fun kv => char_str dquote +:+ fst kv +:+ char_str dquote +:+ ":" +:+ jvalue_text (snd kv)) members) +:+ "}"))%nat.
Proof.
  rewrite append_length. induction members as [|kv members IH]; [cbn; lia|].
  destruct members as [|kv' members]; [cbn; lia|]. cbn [List.map] in *. rewrite join_cons by done. rewrite !append_length. cbn [length] in *.
  cbn [String.length char_str] in *. lia.
Qed.

Lemma json_document_read members : Forall (fun kv => plain_key (fst kv)) members -> members <> [] ->
  json_document (json_object (List.map (fun kv => (fst kv, jvalue_text (snd kv))) members))
  = Some (JObj (List.map (fun kv => (fst kv, jvalue_json (snd kv))) members)).
Proof.
  intros Hk Hne. unfold json_document, json_object. rewrite List.map_map. cbn [fst snd append drop_prefix Ascii.eqb Bool.eqb mbind option_bind].
  rewrite json_members_read; [done|done|done|apply length_le_join].
Qed.

Lemma plain_keys : Forall plain_key ["token"; "peerName"; "expiresAt"; "ackToken"; "publicKey"; "name"; "online"; "handshakeAgeSec"; "rxBytes"; "txBytes"].
Proof. repeat constructor; vm_compute; reflexivity. Qed.

Ltac plain_members :=
  repeat (apply List.Forall_cons; [cbn [fst]; eapply List.Forall_forall; [exact plain_keys|cbn; tauto]|]); apply List.Forall_nil.

Section Answers.
Context (execute_client : WGClientTunnel -> result string) (execute_server : WGServerConfig -> result string)
  (json_text : json -> string) (json_read : string -> option json) (time_text : Z -> string) (time_read : string -> option Z)
  (hmac : string -> string -> string) (clock : Z).

Abbreviation invite := (HandleS2SInvite json_text time_text clock).
Abbreviation join_site := (HandleS2SJoin json_text json_read time_text time_read hmac clock).
Abbreviation health := (HandleS2SHealth clock).

(** The wizard's hand-written JSON says what the service returned.  Every
    body the page answers with is a JSON document whose members are the token,
    names, key, expiry and counters of the result, strings with bytes outside
    UTF-8 replaced, whatever they contain: no value can end its string early,
    add a member or make the document unreadable. *)
Theorem wizard_answers_json r w h s body :
  (fst (fst (invite r w h s)) = JsonBody body ->
     exists remote token peer,
       fst (fst (CreateS2SInvite json_text time_text clock (hq_form r "name") (hq_form r "siteName") (hq_form r "endpoint") remote w h s)) = Ok (token, peer)
       /\ json_document body = Some (JObj [("token", JStr (to_valid_utf8 token)); ("peerName", JStr (to_valid_utf8 (WGServerPeer_Name peer)));
                                           ("expiresAt", JStr (to_valid_utf8 (time_text (WGServerPeer_InviteExpiresAt peer))))]))
  /\ (fst (fst (join_site r w h s)) = JsonBody body ->
     exists ack pub peer,
       fst (fst (ConsumeInvite json_text json_read time_text time_read hmac clock (TrimSpace (hq_form r "token")) w h s)) = Ok (ack, pub, peer)
       /\ json_document body = Some (JObj [("ackToken", JStr (to_valid_utf8 ack)); ("publicKey", JStr (to_valid_utf8 pub));
                                           ("peerName", JStr (to_valid_utf8 (WGServerPeer_Name peer)))]))
  /\ (fst (fst (health r w h s)) = JsonBody body ->
     exists info, fst (fst (S2SHealth (clock / second) (hq_path r "name") w h s)) = Ok info
       /\ json_document body = Some (JObj [("name", JStr (to_valid_utf8 (sh_Name info))); ("online", JBool (sh_Online info));
                                           ("handshakeAgeSec", JInt (sh_HandshakeAgeSec info)); ("rxBytes", JInt (sh_RxBytes info));
                                           ("txBytes", JInt (sh_TxBytes info))])).
Proof.
  split_and!.
  - unfold HandleS2SInvite. destruct (is_ok (hq_parse r)); cbn [negb]; [|done]. destruct (String.eqb (firstFailed _) ""); cbn [negb]; [|done].
    destruct (parseRemoteSubnets _) as [remote bad]. destruct (String.eqb bad ""); cbn [negb]; [|done]. destruct remote as [|x remote]; [done|].
    unfold mbind, svc_bind, mret, svc_ret. intros Hb. exists (x :: remote).
    destruct (CreateS2SInvite _ _ _ _ _ _ _ w h s) as [[[[token peer]|e] s1] h1]; [|done]. cbn [fst] in *. injection Hb as <-.
    exists token, peer. split; [done|].
    apply (json_document_read [("token", VStr token); ("peerName", VStr (WGServerPeer_Name peer)); ("expiresAt", VStr (time_text (WGServerPeer_InviteExpiresAt peer)))]);
      [plain_members|done].
  - unfold HandleS2SJoin. destruct (is_ok (hq_parse r)); cbn [negb]; [|done]. destruct (String.eqb _ ""); [done|].
    unfold mbind, svc_bind, mret, svc_ret. intros Hb.
    destruct (ConsumeInvite _ _ _ _ _ _ _ w h s) as [[[[[ack pub] peer]|e] s1] h1]; [|done]. cbn [fst] in *. injection Hb as <-.
    exists ack, pub, peer. split; [done|].
    apply (json_document_read [("ackToken", VStr ack); ("publicKey", VStr pub); ("peerName", VStr (WGServerPeer_Name peer))]); [plain_members|done].
  - unfold HandleS2SHealth. destruct (String.eqb (hq_path r "name") "" || _); [done|].
    unfold mbind, svc_bind, mret, svc_ret. intros Hb.
    destruct (S2SHealth _ _ w h s) as [[[info|e] s1] h1]; [|done]. cbn [fst] in *. injection Hb as <-.
    exists info. split; [done|].
    apply (json_document_read [("name", VStr (sh_Name info)); ("online", VBool (sh_Online info)); ("handshakeAgeSec", VInt (sh_HandshakeAgeSec info));
      ("rxBytes", VInt (sh_RxBytes info)); ("txBytes", VInt (sh_TxBytes info))]); [plain_members|done].
Qed.
(** What the page does to the peers is one operation of the service at a time,
    so every request keeps the peer list as [peer_list_invariant] has it. *)
Theorem vpn_pages_keep_peers k r : k <> "" ->
  keeps (fun _ => True) (peers_ok k) (HandleAddPeer r) /\ keeps (fun _ => True) (peers_ok k) (HandleDownloadPeerConfig r)
  /\ keeps (fun _ => True) (peers_ok k) (HandleRemovePeer r)
  /\ keeps (fun _ => True) (peers_ok k) (HandleServerStart execute_server r) /\ keeps (fun _ => True) (peers_ok k) (HandleServerStop r)
  /\ keeps (fun _ => True) (peers_ok k) (HandleConnectClient execute_client r) /\ keeps (fun _ => True) (peers_ok k) (HandleDisconnectClient r)
  /\ keeps (fun _ => True) (peers_ok k) (invite r) /\ keeps (fun _ => True) (peers_ok k) (join_site r)
  /\ keeps (fun _ => True) (peers_ok k) (HandleS2SFinalize execute_server json_read time_read hmac clock r)
  /\ keeps (fun _ => True) (peers_ok k) (HandleS2SCancel r).
Proof.
  intros Hk. assert (Hop := fun o => run_op_keeps json_text json_read time_text time_read hmac execute_client execute_server k o Hk).
  split_and!.
  - unfold HandleAddPeer. walk. apply keeps_dropped, (Hop (OpAddPeer _ _ _ _)).
  - unfold HandleDownloadPeerConfig. walk.
  - unfold HandleRemovePeer, answer. walk. apply keeps_dropped, (Hop (OpRemovePeer _)).
  - unfold HandleServerStart. walk. apply keeps_dropped, (Hop OpServerUp).
  - unfold HandleServerStop. walk. apply keeps_dropped, (Hop OpServerDown).
  - unfold HandleConnectClient, answer. walk. apply keeps_dropped, (Hop (OpConnect _)).
  - unfold HandleDisconnectClient, answer. walk. apply keeps_dropped, (Hop (OpDisconnect _)).
  - unfold HandleS2SInvite. walk. apply keeps_dropped, (Hop (OpCreateInvite _ _ _ _ _)).
  - unfold HandleS2SJoin. walk. apply keeps_dropped, (Hop (OpConsumeInvite _ _)).
  - unfold HandleS2SFinalize. walk; [apply keeps_dropped, (Hop (OpFinalizeInvite _ _ _))|apply keeps_dropped, (Hop OpSyncWGServer)].
  - unfold HandleS2SCancel, answer. walk. apply keeps_dropped, (Hop (OpCancelInvite _)).
Qed.
End Answers.

(** ** Peer configurations *)

(** Removing a peer saves the configuration and does nothing to the running
    interface: no daemon is told. *)
Lemma removed_peer_not_synced r w s : Forall (fun c => exists cfg, c = CSave cfg) (calls_of (HandleRemovePeer r) w s).
Proof.
  apply (keeps_calls (fun c => exists cfg, c = CSave cfg) (fun _ => True)); [|done]. unfold HandleRemovePeer, answer, RemovePeer, persist. walk; eauto.
Qed.

Lemma addPeerCommit_run name s2s remote ep priv pub psk w h s :
  let '(r, s', h') := addPeerCommit name s2s remote ep priv pub psk w h s in
  forall peer key, r = Ok (peer, key) ->
    peerNameTaken name s = false /\ s' = with_peers (Peers s ++ [peer]) s /\ WGServerPeer_Name peer = name /\ WGServerPeer_PrivateKey peer = key.
Proof.
  unfold addPeerCommit, mbind at 1, svc_bind at 1, get. destruct (peerNameTaken name s); [done|].
  destruct (nextTunnelIP s) as [next|e]; [|done]. unfold try_bind, wrapping, persist, mbind, svc_bind, put, get, mret, svc_ret.
  destruct (SaveToFile _ w h _) as [[[u|e] s'] h'] eqn:Es; cbn [wrap_err]; [|done]. intros peer key [= <- <-].
  unfold SaveToFile, perform, mbind, svc_bind, mret, svc_ret in Es. injection Es as _ <- _. done.
Qed.

Lemma AddPeer_run name s2s remote ep w h s peer key s' h' : AddPeer name s2s remote ep w h s = (Ok (peer, key), s', h') ->
  peerNameTaken name s = false /\ s' = with_peers (Peers s ++ [peer]) s /\ WGServerPeer_Name peer = name /\ WGServerPeer_PrivateKey peer = key.
Proof.
  unfold AddPeer. intros Hr. apply try_ok in Hr as (u & s1 & h1 & Hc & Hr).
  assert (s1 = s) as -> by (unfold addPeerCheck, mbind, svc_bind, get, mret, svc_ret in Hc; by injection Hc).
  apply try_ok in Hr as ([priv pub] & s2 & h2 & Hk & Hr).
  assert (Hgen : keeps (fun _ => True) (eq s) GenerateKeypair) by (unfold GenerateKeypair; walk; done).
  destruct (Hgen w h1 s eq_refl) as [E _]. rewrite Hk in E. cbn in E. subst s2.
  unfold mbind, svc_bind in Hr. assert (Hpsk : keeps (fun _ => True) (eq s) GeneratePresharedKey) by (unfold GeneratePresharedKey; walk; done).
  destruct (Hpsk w h2 s eq_refl) as [E _]. destruct (GeneratePresharedKey w h2 s) as [[psk s3] h3]. cbn in E. subst s3.
  pose proof (addPeerCommit_run name s2s remote ep priv pub (match psk with Ok k => k | Err _ => "" end) w h3 s) as Hrun.
  rewrite Hr in Hrun. by apply Hrun.
Qed.

Lemma peer_index_appended name s peer : peerNameTaken name s = false -> WGServerPeer_Name peer = name ->
  peer_index name (with_peers (Peers s ++ [peer]) s) = Some (length (Peers s), peer).
Proof.
  intros Ht Hn. apply taken_false in Ht. unfold peer_index. change (Peers (with_peers _ s)) with (Peers s ++ [peer]).
  apply list_find_Some. split; [apply list_lookup_middle; done|]. split; [done|].
  intros j y Hj Hlt. rewrite lookup_app_l in Hj by done. rewrite List.Forall_forall in Ht. apply Ht.
  apply list_elem_of_In. by eapply list_elem_of_lookup_2.
Qed.

(** A peer's file is the same whenever it is fetched.  The file answered to an
    accepted form is the new peer's configuration with its own key, under
    headers that forbid keeping a copy, and fetching it by name right after
    gives the same headers and the same bytes, provided the key the machine
    generated is not blank. *)
Theorem peer_file_redelivered r r' w w' s hs body :
  fst (fst (HandleAddPeer r w [] s)) = SecretFile hs body -> hq_path r' "name" = hq_form r "name" ->
  let s' := state_after (HandleAddPeer r) w s in
  In ("Cache-Control", "no-store") hs
  /\ exists peer, Peers s' = Peers s ++ [peer] /\ WGServerPeer_Name peer = hq_form r "name"
     /\ body = GeneratePeerConfig (vp_cfg s') peer (WGServerPeer_PrivateKey peer)
     /\ (WGServerPeer_PrivateKey peer <> "" -> Sys.outcome (HandleDownloadPeerConfig r') w' s' = SecretFile hs body).
Proof.
  intros Hadd Hname. cbv zeta. unfold state_after. revert Hadd. unfold HandleAddPeer. destruct (is_ok (hq_parse r)); cbn [negb]; [|done].
  set (name := hq_form r "name") in *.
  match goal with |- context [firstFailed ?l] => destruct (String.eqb_spec (firstFailed l) "") as [Hkey|]; cbn [negb]; [|done] end.
  destruct (if String.eqb (hq_form r "peerType") "site-to-site" then _ else _) as [remote bad].
  destruct (String.eqb bad ""); cbn [negb]; [|done].
  assert (Hok : vpn_bad_name name = false).
  { apply firstFailed_none in Hkey; [|by repeat constructor]. apply List.Forall_cons_iff in Hkey as [_ Hkey].
    by apply List.Forall_cons_iff in Hkey as [Hkey _]. }
  unfold mbind, svc_bind, get, mret, svc_ret.
  destruct (AddPeer name _ remote _ w [] s) as [[[[peer key]|e] s1] h1] eqn:Ea; [|done]. cbn [fst snd]. intros [= <- <-].
  apply AddPeer_run in Ea as (Ht & -> & Hn & Hk). split; [cbn; auto|]. exists peer. split; [done|]. split; [done|].
  rewrite Hk. split; [done|]. intros Hne. unfold Sys.outcome, HandleDownloadPeerConfig. rewrite Hname, Hok.
  unfold mbind, svc_bind, get, mret, svc_ret. unfold PeerConfig. rewrite (peer_index_appended name s peer) by done.
  rewrite Hk. apply String.eqb_neq in Hne. by rewrite Hne.
Qed.

(** ** Lease forms *)

Lemma apply_leases_keeps mirror unbound execute s : keeps (fun _ => True) (eq s) (apply_leases mirror unbound execute).
Proof.
  unfold apply_leases, Dhcp.ApplyConfig, Dhcp.RenderToDisk, Dhcp.Reload, ApplyDNSMirror, Dns.ApplyConfig, Dns.RenderToDisk, Dns.Reload.
  walk; done.
Qed.

(** A lease is reserved for the form that asks for it: a form answered with
    success has appended exactly its lease, with a MAC address and a host name
    that are valid; a form that leaves the leases alone is refused. *)
Theorem lease_form_exact fold mirror unbound execute r w s
    (lease := mkStaticLease (hq_form r "mac") (hq_form r "ip") (hq_form r "hostname"))
    (x := HandleAddStatic fold mirror unbound execute r) :
  (static_leases (state_after x w s) = static_leases s /\ accepted (Sys.outcome x w s) = false)
  \/ (static_leases (state_after x w s) = static_leases s ++ [lease]
      /\ is_ok (ValidateMAC (hq_form r "mac")) = true /\ is_ok (ValidateHostname (hq_form r "hostname")) = true).
Proof.
  subst x. unfold state_after, Sys.outcome, HandleAddStatic.
  destruct (is_ok (hq_parse r)); cbn [negb]; [|by left]. destruct (is_ok (ValidateMAC _)); cbn [negb]; [|by left].
  destruct (is_ok (ValidateIP _)); cbn [negb]; [|by left]. destruct (String.eqb (hq_form r "hostname") ""); [by left|].
  destruct (is_ok (ValidateHostname _)); cbn [negb]; [|by left].
  unfold mbind, svc_bind.
  destruct (AddStaticLease_leases fold mirror (hq_form r "mac") (hq_form r "ip") (hq_form r "hostname") w [] s) as [Hl Hf].
  destruct (AddStaticLease _ _ _ _ _ w [] s) as [[a s1] h1]. cbn [fst snd] in *.
  set (ok := is_ok _) in Hl, Hf. destruct a as [u|e].
  - destruct ok eqn:Eok; [|destruct (Hf eq_refl) as [E _]; unfold ok in Eok; rewrite <- E in Eok; done].
    destruct (apply_leases_keeps mirror unbound execute s1 w h1 s1 eq_refl) as [E _].
    destruct (apply_leases _ _ _ w h1 s1) as [[a s2] h2]. cbn [fst snd] in *. subst s2. right. unfold mret, svc_ret. cbn [fst snd].
    by split_and!.
  - unfold mret, svc_ret. cbn [fst snd]. destruct ok eqn:Eok.
    + right. by split_and!.
    + left. rewrite Hl, app_nil_r. split; [done|]. by destruct (errors_Is _ _).
Qed.
