(* ===== verification/Sse.v ===== *)
(** * internal/web/sse.go and static.go

    The event streams of the dashboard: the broker with its subscribers and
    their bounded queues, the pump of one stream, and the handler; and the
    handler of the embedded assets.  Each broker has one publishing goroutine,
    the streams are any number of others; the steps below are the sections the
    lock makes atomic, interleaved in any order. *)

From S2P Require Import Prelude GoStrings GoPath Encoding Sys Dns WebAuth Respond.

Local Open Scope Z_scope.
Local Open Scope go_scope.

Definition maxSSESubscribers : nat := 32.
Definition sseChannelBuffer : nat := 16.
Definition sseKeepAliveFrame : string := ": keep-alive" +:+ nl +:+ nl.
Definition ErrTooManySubscribers : error := Errorf "sse: too many concurrent subscribers" [].

(** ** The broker *)

(** Where the stream of a channel is: pumping, taken out of the broker, or
    with its channel closed. *)
Inductive phase : Type := Open | Deleted | Closed.
#[export] Instance phase_eq_dec : EqDecision phase.
Proof. solve_decision. Defined.

(** A channel: what waits in it. *)
Record channel : Type := mkChannel { ch_queue : list string; ch_phase : phase }.

(** The clients, every channel ever made (its position is its identity), and
    the message being published with the clients it has yet to reach. *)
Record broker : Type := mkBroker { b_clients : list nat; b_chans : list channel; b_sending : option (string * list nat) }.

Definition NewSSEBroker : broker := mkBroker [] [] None.

Definition Subscribe (b : broker) : broker * result nat :=
  if (maxSSESubscribers <=? length (b_clients b))%nat then (b, Err ErrTooManySubscribers)
  else
    let ch := length (b_chans b) in
    (mkBroker (b_clients b ++ [ch]) (b_chans b ++ [mkChannel [] Open]) (b_sending b), Ok ch).

(** The two halves of [Unsubscribe]: under the lock, and after it; closing a
    closed channel panics. *)
Definition unsubscribe_delete (ch : nat) (b : broker) : broker :=
  mkBroker (List.filter (fun x => negb (x =? ch)%nat) (b_clients b))
    (alter (fun c => mkChannel (ch_queue c) Deleted) ch (b_chans b)) (b_sending b).
Definition unsubscribe_close (ch : nat) (b : broker) : option broker :=
  match b_chans b !! ch with
  | Some c => if decide (ch_phase c = Closed) then None
              else Some (mkBroker (b_clients b) (<[ch := mkChannel (ch_queue c) Closed]> (b_chans b)) (b_sending b))
  | None => None
  end.

(** The message of an event; [None] is data that does not marshal. *)
Definition event_frame (event : string) (data : option string) : option string :=
  (fun d => "event: " +:+ event +:+ nl +:+ "data: " +:+ d +:+ nl +:+ nl) <$> data.

(** [ch <- msg] with a default: sending on a closed channel panics, a full one
    drops the message. *)
Definition send (msg : string) (ch : nat) (b : broker) : option broker :=
  match b_chans b !! ch with
  | None => None
  | Some c =>
      if decide (ch_phase c = Closed) then None
      else if (length (ch_queue c) <? sseChannelBuffer)%nat
      then Some (mkBroker (b_clients b) (<[ch := mkChannel (ch_queue c ++ [msg]) (ch_phase c)]> (b_chans b)) (b_sending b))
      else Some b
  end.

(** [msg := <-ch] in the pump. *)
Definition receive (ch : nat) (b : broker) : option (string * broker) :=
  match b_chans b !! ch with
  | Some c => match ch_queue c with
              | m :: q => Some (m, mkBroker (b_clients b) (<[ch := mkChannel q (ch_phase c)]> (b_chans b)) (b_sending b))
              | [] => None
              end
  | None => None
  end.

Definition ClientCount (b : broker) : nat := length (b_clients b).

Definition with_sending (s : option (string * list nat)) (b : broker) : broker := mkBroker (b_clients b) (b_chans b) s.

(** What happens, by name: a subscription and its answer, the halves of a
    departure, a publication, its turn for one client and its end, and a
    message a pump got. *)
Inductive event : Type :=
| ESubscribe (answer : result nat)
| EDelete (ch : nat)
| EClose (ch : nat)
| EPublish (msg : string)
| ESend (msg : string) (ch : nat)
| EPublished
| EReceive (ch : nat) (msg : string).

(** What can happen next; [None] is a panic.  [Subscribe] and the deletion take
    the lock that a publication holds shared from its first client to its
    last, in the order the map yields them. *)
Inductive step (b : broker) : event -> option broker -> Prop :=
| step_subscribe : b_sending b = None -> step b (ESubscribe (snd (Subscribe b))) (Some (fst (Subscribe b)))
| step_delete ch c : b_sending b = None -> b_chans b !! ch = Some c -> ch_phase c = Open -> step b (EDelete ch) (Some (unsubscribe_delete ch b))
| step_close ch c : b_chans b !! ch = Some c -> ch_phase c = Deleted -> step b (EClose ch) (unsubscribe_close ch b)
| step_publish msg order : b_sending b = None -> Permutation order (b_clients b) -> step b (EPublish msg) (Some (with_sending (Some (msg, order)) b))
| step_send msg ch rest : b_sending b = Some (msg, ch :: rest) ->
    step b (ESend msg ch) (with_sending (Some (msg, rest)) <$> send msg ch b)
| step_published msg : b_sending b = Some (msg, []) -> step b EPublished (Some (with_sending None b))
| step_receive ch c m b' : b_chans b !! ch = Some c -> ch_phase c = Open -> receive ch b = Some (m, b') -> step b (EReceive ch m) (Some b').

(** The runs of a broker from its start. *)
Inductive run : list event -> broker -> Prop :=
| run_start : run [] NewSSEBroker
| run_step tr b e b' : run tr b -> step b e (Some b') -> run (tr ++ [e]) b'.

(** ** One stream *)

(** What the pump's select picks: the request ended, the ticker, a message, or
    the channel closed; with whether a write that it makes succeeds. *)
Inductive pumped : Type := PDone | PTick (ok : bool) | PMessage (msg : string) (ok : bool) | PClosed.

(** The frames written, the last of which may have failed. *)
Fixpoint pump (events : list pumped) : list string :=
  match events with
  | [] | PDone :: _ | PClosed :: _ => []
  | PTick ok :: rest => sseKeepAliveFrame :: (if ok : bool then pump rest else [])
  | PMessage msg ok :: rest => msg :: (if ok : bool then pump rest else [])
  end.

Inductive stream : Type :=
| StreamRefused (headers : list (string * string)) (h : hresp)
| StreamOpen (ch : nat) (headers : list (string * string)).

Definition StatusServiceUnavailable : Z := 503.

(** [ServeHTTP] up to the pump; the deferred [Unsubscribe] is the two steps of
    the broker. *)
Definition ServeHTTP (flusher : bool) (b : broker) : broker * stream :=
  if negb flusher then (b, StreamRefused [] (HMessage StatusInternalServerError "error.streamingUnsupported" ""))
  else match Subscribe b with
       | (b, Err _) => (b, StreamRefused [("Retry-After", "5")] (HMessage StatusServiceUnavailable "error.tooManyStreams" ""))
       | (b, Ok ch) => (b, StreamOpen ch [("Content-Type", "text/event-stream"); ("Cache-Control", "no-store"); ("Connection", "keep-alive"); ("X-Accel-Buffering", "no")])
       end.

(** ** What a stream is owed *)

(** A stream as its events tell it: whether it is subscribed, the messages
    published while it was, those whose turn for it has come, those of them
    that found fewer than sixteen waiting, and those it received. *)
Record view : Type := mkView {
  v_on : bool; v_published : list string; v_offered : list string; v_accepted : list string; v_received : list string }.

Definition view_start : view := mkView false [] [] [] [].

Definition view_step (ch : nat) (v : view) (e : event) : view :=
  match e with
  | ESubscribe (Ok x) => if (x =? ch)%nat then mkView true (v_published v) (v_offered v) (v_accepted v) (v_received v) else v
  | EDelete x => if (x =? ch)%nat then mkView false (v_published v) (v_offered v) (v_accepted v) (v_received v) else v
  | EPublish m => if v_on v then mkView true (v_published v ++ [m]) (v_offered v) (v_accepted v) (v_received v) else v
  | ESend m x =>
      if (x =? ch)%nat then
        mkView (v_on v) (v_published v) (v_offered v ++ [m])
          (if (length (v_accepted v) - length (v_received v) <? 16)%nat then v_accepted v ++ [m] else v_accepted v) (v_received v)
      else v
  | EReceive x m => if (x =? ch)%nat then mkView (v_on v) (v_published v) (v_offered v) (v_accepted v) (v_received v ++ [m]) else v
  | _ => v
  end.

Definition view_of (ch : nat) (tr : list event) : view := foldl (view_step ch) view_start tr.

Lemma view_snoc ch tr e : view_of ch (tr ++ [e]) = view_step ch (view_of ch tr) e.
Proof. unfold view_of. by rewrite foldl_app. Qed.

(** The message under way that has not had its turn for the stream. *)
Definition pending (b : broker) (ch : nat) : list string :=
  match b_sending b with Some (msg, rest) => if decide (ch ∈ rest) then [msg] else [] | None => [] end.

(** ** The broker's invariant *)

(** The clients are the open streams, no more than allowed; queues are
    bounded; and a publication under way has only clients ahead of it. *)
Record sound (b : broker) : Prop := {
  so_nodup : NoDup (b_clients b);
  so_open : forall ch, ch ∈ b_clients b <-> exists c, b_chans b !! ch = Some c /\ ch_phase c = Open;
  so_max : (length (b_clients b) <= maxSSESubscribers)%nat;
  so_queue : forall ch c, b_chans b !! ch = Some c -> (length (ch_queue c) <= sseChannelBuffer)%nat;
  so_sending : forall msg rest, b_sending b = Some (msg, rest) -> NoDup rest /\ forall ch, ch ∈ rest -> ch ∈ b_clients b;
}.

(** What a stream got and has waiting is what it is owed. *)
Definition delivers (b : broker) (ch : nat) (c : channel) (v : view) : Prop :=
  v_accepted v = v_received v ++ ch_queue c /\ v_published v = v_offered v ++ pending b ch /\ (v_on v = true <-> ch_phase c = Open).

(** For every stream there was; nothing has happened to the ones to come. *)
Definition owed (b : broker) (tr : list event) : Prop :=
  (forall ch c, b_chans b !! ch = Some c -> delivers b ch c (view_of ch tr))
  /\ (forall ch, b_chans b !! ch = None -> view_of ch tr = view_start).

Lemma sound_start : sound NewSSEBroker.
Proof.
  split; cbn; try done; try constructor; try lia.
  - intros Hin. by apply elem_of_nil in Hin.
  - intros (c & Hc & _). done.
Qed.

Lemma elem_of_filter_ne ch x l : x ∈ List.filter (fun y => negb (y =? ch)%nat) l <-> x ∈ l /\ x <> ch.
Proof.
  rewrite !list_elem_of_In, filter_In, negb_true_iff, Nat.eqb_neq. done.
Qed.

Lemma NoDup_filter_ne ch (l : list nat) : NoDup l -> NoDup (List.filter (fun y => negb (y =? ch)%nat) l).
Proof. rewrite !NoDup_ListNoDup. apply List.NoDup_filter. Qed.

Lemma subscribed_lookup b ch' c : (b_chans b ++ [mkChannel [] Open]) !! ch' = Some c <->
  b_chans b !! ch' = Some c \/ (ch' = length (b_chans b) /\ c = mkChannel [] Open).
Proof.
  rewrite lookup_snoc_Some. split; [naive_solver|]. intros [Hc|[-> ->]]; [left|by right]. split; [|done]. by apply lookup_lt_Some in Hc.
Qed.

Lemma fresh_lookup b : b_chans b !! length (b_chans b) = None.
Proof. apply lookup_ge_None. lia. Qed.

Lemma sound_subscribe b : sound b -> b_sending b = None -> sound (fst (Subscribe b)).
Proof.
  intros Hb Hs. unfold Subscribe. destruct (Nat.leb_spec maxSSESubscribers (length (b_clients b))); [done|]. cbn [fst].
  pose proof (subscribed_lookup b) as Hnew. pose proof (fresh_lookup b) as Hfresh. set (ch := length (b_chans b)) in *.
  split; cbn [b_clients b_chans b_sending].
  - apply list_relations.list.NoDup_app. split; [apply Hb|]. split; [|apply NoDup_singleton].
    intros x Hx Hy. apply list_elem_of_singleton in Hy as ->. apply (so_open b Hb) in Hx as (c & Hc & _). by rewrite Hfresh in Hc.
  - intros x. rewrite elem_of_app, list_elem_of_singleton, (so_open b Hb). split.
    + intros [(c & Hc & Ho)| ->]; [exists c; rewrite Hnew; auto|exists (mkChannel [] Open); rewrite Hnew; auto].
    + intros (c & Hc & Ho). apply Hnew in Hc as [Hc|[-> _]]; [left; by exists c|by right].
  - rewrite length_app. cbn. lia.
  - intros x c Hc. apply Hnew in Hc as [Hc|[_ ->]]; [by eapply so_queue|cbn; lia].
  - intros msg rest E. by rewrite Hs in E.
Qed.

Lemma owed_subscribe b tr : sound b -> owed b tr -> b_sending b = None -> owed (fst (Subscribe b)) (tr ++ [ESubscribe (snd (Subscribe b))]).
Proof.
  intros Hb [Ho Hf] Hs. unfold Subscribe. destruct (Nat.leb_spec maxSSESubscribers (length (b_clients b))); cbn [fst snd].
  { split; intros ch *; rewrite view_snoc; cbn [view_step]; [apply Ho|apply Hf]. }
  pose proof (subscribed_lookup b) as Hnew. pose proof (fresh_lookup b) as Hfresh. set (ch := length (b_chans b)) in *.
  split; cbn [b_chans].
  - intros x c Hc. rewrite view_snoc. cbn [view_step]. apply Hnew in Hc as [Hc|[-> ->]].
    + destruct (Nat.eqb_spec ch x) as [<-|Hne]; [by rewrite Hfresh in Hc|by apply Ho].
    + rewrite Nat.eqb_refl, (Hf ch Hfresh). unfold delivers, pending. cbn. by rewrite Hs.
  - intros x Hx. rewrite view_snoc. cbn [view_step]. apply lookup_ge_None in Hx. rewrite length_app in Hx. cbn in Hx.
    destruct (Nat.eqb_spec ch x) as [<-|Hne]; [unfold ch in Hx; lia|]. apply Hf, lookup_ge_None. lia.
Qed.

(** The channels after a deletion. *)
Lemma deleted_lookup b ch x d : alter (fun c => mkChannel (ch_queue c) Deleted) ch (b_chans b) !! x = Some d ->
  exists d0, b_chans b !! x = Some d0 /\ ch_queue d = ch_queue d0 /\ (x <> ch -> d = d0) /\ (x = ch -> ch_phase d = Deleted).
Proof.
  intros Hd. destruct (decide (x = ch)) as [->|Hne].
  - rewrite list_lookup_alter_eq in Hd. destruct (b_chans b !! ch) as [c|]; [|done]. cbn in Hd. simplify_eq. by exists c.
  - rewrite list_lookup_alter_ne in Hd by done. by exists d.
Qed.

Lemma sound_delete b ch : sound b -> b_sending b = None -> sound (unsubscribe_delete ch b).
Proof.
  intros Hb Hs. unfold unsubscribe_delete. pose proof (deleted_lookup b ch) as Hl.
  split; cbn [b_clients b_chans b_sending].
  - by apply NoDup_filter_ne, Hb.
  - intros x. rewrite elem_of_filter_ne, (so_open b Hb). split.
    + intros ((d & Hd & Hp) & Hne). exists d. by rewrite list_lookup_alter_ne.
    + intros (d & Hd & Hp). destruct (Hl x d Hd) as (d0 & H0 & _ & Hsame & Hdel). destruct (decide (x = ch)) as [->|Hne].
      * rewrite Hdel in Hp by done. done.
      * rewrite Hsame in Hp by done. split; [by exists d0|done].
  - pose proof (so_max b Hb). pose proof (List.filter_length_le (fun x => negb (x =? ch)%nat) (b_clients b)). lia.
  - intros x d Hd. destruct (Hl x d Hd) as (d0 & H0 & -> & _). by eapply so_queue.
  - intros msg rest E. by rewrite Hs in E.
Qed.

Lemma owed_delete b ch c tr : owed b tr -> b_sending b = None -> b_chans b !! ch = Some c -> owed (unsubscribe_delete ch b) (tr ++ [EDelete ch]).
Proof.
  intros [Ho Hf] Hs Hc. split; intros x *; rewrite view_snoc; cbn [view_step unsubscribe_delete b_chans].
  - intros Hd. destruct (deleted_lookup b ch _ _ Hd) as (d0 & H0 & Hq & Hsame & Hdel). destruct (Ho x d0 H0) as (H1 & H2 & H3).
    unfold delivers, pending in *. cbn [unsubscribe_delete b_sending]. rewrite Hs in *. rewrite Hq.
    destruct (Nat.eqb_spec ch x) as [->|Hne]; cbn; (split; [done|]; split; [done|]); [by rewrite Hdel|by rewrite Hsame].
  - intros Hx. destruct (Nat.eqb_spec ch x) as [->|Hne]; [by rewrite list_lookup_alter_eq, Hc in Hx|].
    rewrite list_lookup_alter_ne in Hx by done. by apply Hf.
Qed.

(** The channels after a change of one. *)
Lemma updated_lookup b ch c c' x d : b_chans b !! ch = Some c -> <[ch := c']> (b_chans b) !! x = Some d ->
  (x = ch /\ d = c') \/ (x <> ch /\ b_chans b !! x = Some d).
Proof.
  intros Hc Hd. destruct (decide (x = ch)) as [->|Hne].
  - rewrite list_lookup_insert_eq in Hd by (by eapply lookup_lt_Some). left. by simplify_eq.
  - rewrite list_lookup_insert_ne in Hd by done. by right.
Qed.

(** A change of one channel that keeps whether it is open. *)
Lemma sound_update b ch c c' sending :
  sound b -> b_chans b !! ch = Some c -> (ch_phase c' = Open <-> ch_phase c = Open) ->
  (length (ch_queue c') <= sseChannelBuffer)%nat ->
  (forall msg rest', sending = Some (msg, rest') -> exists rest, b_sending b = Some (msg, rest) /\ sublist rest' rest) ->
  sound (mkBroker (b_clients b) (<[ch := c']> (b_chans b)) sending).
Proof.
  intros Hb Hc Hopen Hq Hs. pose proof (fun x d => updated_lookup b ch c c' x d Hc) as Hl.
  split; cbn [b_clients b_chans b_sending]; try apply Hb.
  - intros x. rewrite (so_open b Hb). split.
    + intros (d & Hd & Hp). destruct (decide (x = ch)) as [->|Hne].
      * exists c'. rewrite list_lookup_insert_eq by (by eapply lookup_lt_Some). simplify_eq. naive_solver.
      * exists d. by rewrite list_lookup_insert_ne.
    + intros (d & Hd & Hp). destruct (Hl x d Hd) as [[-> ->]|[Hne Hd0]]; [exists c; naive_solver|by exists d].
  - intros x d Hd. destruct (Hl x d Hd) as [[-> ->]|[Hne Hd0]]; [done|by eapply so_queue].
  - intros msg rest' E. destruct (Hs msg rest' E) as (rest & Er & Hsub). destruct (so_sending b Hb msg rest Er) as [Hn Hin].
    split; [by eapply sublist_NoDup|]. intros x Hx. apply Hin. by eapply elem_of_sublist.
Qed.

(** ... and what is owed: the other streams are untouched, and the changed
    one is owed what it has. *)
Lemma owed_update b ch c c' sending tr e : owed b tr -> b_chans b !! ch = Some c ->
  (forall x, x <> ch -> view_step x (view_of x tr) e = view_of x tr) ->
  (forall x, x <> ch -> pending (mkBroker (b_clients b) (<[ch := c']> (b_chans b)) sending) x = pending b x) ->
  delivers (mkBroker (b_clients b) (<[ch := c']> (b_chans b)) sending) ch c' (view_step ch (view_of ch tr) e) ->
  owed (mkBroker (b_clients b) (<[ch := c']> (b_chans b)) sending) (tr ++ [e]).
Proof.
  intros [Ho Hf] Hc Hv Hp Hd. split; cbn [b_chans].
  - intros x d Hx. rewrite view_snoc. destruct (updated_lookup b ch c c' x d Hc Hx) as [[-> ->]|[Hne Hx0]]; [done|].
    rewrite Hv by done. destruct (Ho x d Hx0) as (H1 & H2 & H3). split_and!; try done; by rewrite ?Hp.
  - intros x Hx. rewrite view_snoc. destruct (decide (x = ch)) as [->|Hne].
    + rewrite list_lookup_insert_eq in Hx by (by eapply lookup_lt_Some). done.
    + rewrite list_lookup_insert_ne in Hx by done. rewrite Hv by done. by apply Hf.
Qed.

Lemma view_other x ch v e : x <> ch -> (e = EClose ch \/ (exists m, e = ESend m ch) \/ exists m, e = EReceive ch m) -> view_step x v e = v.
Proof. intros Hne [->|[[m ->]|[m ->]]]; cbn [view_step]; [done|..]; by (destruct (Nat.eqb_spec ch x); [congruence|]). Qed.

Lemma step_close_ok b ch c tr : sound b -> owed b tr -> b_chans b !! ch = Some c -> ch_phase c = Deleted ->
  exists b', unsubscribe_close ch b = Some b' /\ sound b' /\ owed b' (tr ++ [EClose ch]).
Proof.
  intros Hb Ho Hc Hp. unfold unsubscribe_close. rewrite Hc, Hp. destruct (decide (Deleted = Closed)); [done|]. eexists. split; [done|]. split.
  - apply (sound_update b ch c); try done; [cbn; rewrite Hp; by split|exact (so_queue b Hb ch c Hc)|]. intros msg rest E. by exists rest.
  - apply (owed_update b ch c); try done. destruct (proj1 Ho ch c Hc) as (H1 & H2 & H3). cbn [view_step]. rewrite Hp in H3.
    split_and!; try done. cbn [ch_phase]. rewrite H3. by split.
Qed.

Lemma sound_publish b msg order : sound b -> b_sending b = None -> Permutation order (b_clients b) -> sound (with_sending (Some (msg, order)) b).
Proof.
  intros Hb Hs Hp. split; cbn [with_sending b_clients b_chans b_sending]; try apply Hb.
  intros m rest [= <- <-]. split; [rewrite Hp; apply Hb|]. intros ch Hch. by rewrite <- Hp.
Qed.

Lemma owed_publish b msg order tr : sound b -> owed b tr -> b_sending b = None -> Permutation order (b_clients b) ->
  owed (with_sending (Some (msg, order)) b) (tr ++ [EPublish msg]).
Proof.
  intros Hb [Ho Hf] Hs Hp. split; intros ch *; rewrite view_snoc; cbn [with_sending b_chans view_step].
  - intros Hc. destruct (Ho ch c Hc) as (H1 & H2 & H3). unfold delivers, pending in *. cbn [with_sending b_sending]. rewrite Hs, app_nil_r in H2.
    assert (Hin : ch ∈ order <-> ch_phase c = Open).
    { rewrite Hp, (so_open b Hb). split; [intros (d & Hd & Hop); by simplify_eq|by exists c]. }
    destruct (v_on (view_of ch tr)) eqn:Eon; cbn.
    + rewrite decide_True by (apply Hin, H3; done). rewrite H2. by split_and!.
    + rewrite decide_False by (intros Hx; apply Hin, H3 in Hx; done). rewrite app_nil_r, Eon. by split_and!.
  - intros Hc. rewrite (Hf ch Hc). done.
Qed.

(** The turn of a client: nothing is lost but to a full queue. *)
Lemma step_send_ok b msg ch rest tr : sound b -> owed b tr -> b_sending b = Some (msg, ch :: rest) ->
  exists b', with_sending (Some (msg, rest)) <$> send msg ch b = Some b' /\ sound b' /\ owed b' (tr ++ [ESend msg ch]).
Proof.
  intros Hb Ho Hs. destruct (so_sending b Hb _ _ Hs) as [Hn Hin]. apply list_relations.list.NoDup_cons in Hn as [Hnot Hn].
  destruct (proj1 (so_open b Hb ch)) as (c & Hc & Hop); [apply Hin; left|]. unfold send. rewrite Hc, Hop.
  destruct (decide (Open = Closed)); [done|].
  destruct (proj1 Ho ch c Hc) as (H1 & H2 & H3). unfold pending in H2. rewrite Hs, decide_True in H2 by left.
  assert (Hlen : (length (v_accepted (view_of ch tr)) - length (v_received (view_of ch tr)))%nat = length (ch_queue c)) by (rewrite H1, length_app; lia).
  assert (Hsend : forall m r, Some (msg, rest) = Some (m, r) -> exists rest0, b_sending b = Some (m, rest0) /\ sublist r rest0)
    by (intros m r [= <- <-]; exists (ch :: rest); split; [done|by apply sublist_cons]).
  assert (Hpend : forall chans x, x <> ch -> pending (mkBroker (b_clients b) chans (Some (msg, rest))) x = pending b x).
  { intros chans x Hne. unfold pending. cbn [b_sending]. rewrite Hs.
    destruct (decide (x ∈ rest)); [by rewrite decide_True by (by right)|]. rewrite decide_False; [done|]. rewrite elem_of_cons. naive_solver. }
  assert (Hother : forall x, x <> ch -> view_step x (view_of x tr) (ESend msg ch) = view_of x tr) by (intros x Hne; apply (view_other x ch); [done|by eauto]).
  assert (Hfinal : forall c', ch_queue c' = ch_queue c ++ (if (length (ch_queue c) <? 16)%nat then [msg] else []) -> ch_phase c' = Open ->
      delivers (mkBroker (b_clients b) (<[ch := c']> (b_chans b)) (Some (msg, rest))) ch c' (view_step ch (view_of ch tr) (ESend msg ch))).
  { intros c' Hq Hp'. cbn [view_step]. rewrite Nat.eqb_refl, Hlen. unfold delivers, pending. cbn [b_sending v_accepted v_received v_published v_offered v_on].
    rewrite decide_False, app_nil_r by done. rewrite Hq, Hp'. split_and!; [|done|by rewrite H3].
    destruct (_ <? 16)%nat; rewrite H1; by rewrite ?app_nil_r, ?app_assoc. }
  destruct (Nat.ltb_spec (length (ch_queue c)) sseChannelBuffer) as [Hlt|Hge]; eexists; (split; [reflexivity|]);
    unfold with_sending; cbn [b_clients b_chans b_sending].
  - assert (E16 : (length (ch_queue c) <? 16)%nat = true) by (by apply Nat.ltb_lt). split.
    + apply (sound_update b ch c); try done. cbn [ch_queue]. rewrite length_app. cbn. lia.
    + apply (owed_update b ch c); try done; [apply Hpend|]. apply Hfinal; [cbn [ch_queue]; by rewrite E16|done].
  - assert (E16 : (length (ch_queue c) <? 16)%nat = false) by (by apply Nat.ltb_ge).
    replace (b_chans b) with (<[ch := c]> (b_chans b)) by (by apply list_insert_id). split.
    + apply (sound_update b ch c); try done. by eapply so_queue.
    + apply (owed_update b ch c); try done; [apply Hpend|]. apply Hfinal; [by rewrite E16, app_nil_r|done].
Qed.

Lemma step_receive_ok b ch c m b' tr : sound b -> owed b tr -> b_chans b !! ch = Some c -> receive ch b = Some (m, b') ->
  sound b' /\ owed b' (tr ++ [EReceive ch m]).
Proof.
  intros Hb Ho Hc. unfold receive. rewrite Hc. destruct (ch_queue c) as [|x q] eqn:Eq; [done|]. intros [= <- <-].
  pose proof (so_queue b Hb ch c Hc) as Hq. rewrite Eq in Hq. destruct (proj1 Ho ch c Hc) as (H1 & H2 & H3). split.
  - apply (sound_update b ch c); try done; [cbn in *; lia|]. intros msg rest E. by exists rest.
  - apply (owed_update b ch c); try done; [intros y Hne; apply (view_other y ch); [done|by eauto]|].
    cbn [view_step]. rewrite Nat.eqb_refl. split_and!; try done. cbn. by rewrite H1, Eq, <- app_assoc.
Qed.

Lemma step_ok b e next tr : sound b -> owed b tr -> step b e next -> exists b', next = Some b' /\ sound b' /\ owed b' (tr ++ [e]).
Proof.
  intros Hb Ho [Hs|ch c Hs Hc Hop|ch c Hc Hp|msg order Hs Hp|msg ch rest Hs|msg Hs|ch c m b' Hc Hop Hr].
  - eexists. split; [done|]. split; [by apply sound_subscribe|by apply owed_subscribe].
  - eexists. split; [done|]. split; [by apply sound_delete|by eapply owed_delete].
  - by eapply step_close_ok.
  - eexists. split; [done|]. split; [by apply sound_publish|by apply owed_publish].
  - by apply step_send_ok.
  - eexists. split; [done|]. split; [split; cbn; try apply Hb; done|]. destruct Ho as [Ho Hf].
    split; intros ch *; rewrite view_snoc; cbn [view_step]; [|apply Hf]. intros Hc. destruct (Ho ch c Hc) as (H1 & H2 & H3).
    split_and!; try done. unfold pending in *. rewrite Hs in H2. rewrite decide_False in H2 by (intros Hx; by apply elem_of_nil in Hx). done.
  - eexists. split; [done|]. by eapply step_receive_ok.
Qed.

Lemma run_ok tr b : run tr b -> sound b /\ owed b tr.
Proof.
  induction 1 as [|tr b e b' _ [IHs IHo] Hs]; [split; [apply sound_start|by split]|].
  by destruct (step_ok b e _ tr IHs IHo Hs) as (b2 & [= <-] & Hb).
Qed.

(** C38: The broker under any interleaving of subscriptions, departures,
    publications and reads.  It never sends on a closed channel nor closes one
    twice, so no step panics; its clients are exactly the streams that are
    open, at most thirty-two of them with at most sixteen messages waiting
    each; and for every stream there ever was: the messages whose turn for it
    has come are all that were published while it was subscribed, in that
    order, but for the one under way; and what it received, followed by what
    waits for it, is exactly those of them that found fewer than sixteen
    waiting. *)
Theorem broker_safe tr b : run tr b ->
  (forall e next, step b e next -> next <> None)
  /\ NoDup (b_clients b) /\ (length (b_clients b) <= 32)%nat
  /\ (forall ch, ch ∈ b_clients b <-> exists c, b_chans b !! ch = Some c /\ ch_phase c = Open)
  /\ (forall ch c, b_chans b !! ch = Some c -> let v := view_of ch tr in
        (length (ch_queue c) <= 16)%nat
        /\ v_offered v ++ pending b ch = v_published v
        /\ v_received v ++ ch_queue c = v_accepted v).
Proof.
  intros Hr. apply run_ok in Hr as [Hb Ho]. split_and!; try apply Hb.
  - intros e next Hs ->. by destruct (step_ok b e None tr Hb Ho Hs) as (b' & ? & _).
  - intros ch c Hc v. destruct (proj1 Ho ch c Hc) as (H1 & H2 & _). split_and!; [by eapply so_queue|done|done].
Qed.

(** A stream that leaves makes room for another. *)
Theorem leaving_frees_slot tr b ch c : run tr b -> b_sending b = None -> b_chans b !! ch = Some c -> ch_phase c = Open ->
  is_ok (snd (Subscribe (unsubscribe_delete ch b))) = true.
Proof.
  intros Hr Hs Hc Ho. apply run_ok in Hr as [Hb _]. unfold Subscribe, unsubscribe_delete. cbn [b_clients].
  assert (Hlt : (length (List.filter (fun x => negb (x =? ch)%nat) (b_clients b)) < length (b_clients b))%nat).
  { assert (Hin : ch ∈ b_clients b) by (apply (so_open b Hb); eauto). apply list_elem_of_In in Hin.
    clear -Hin. induction (b_clients b) as [|x l IH]; [done|]. cbn [List.filter]. destruct (Nat.eqb_spec x ch) as [->|Hne]; cbn [negb length].
    - pose proof (List.filter_length_le (fun x => negb (x =? ch)%nat) l). lia.
    - destruct Hin as [->|Hin]; [done|]. specialize (IH Hin). lia. }
  pose proof (so_max b Hb). destruct (Nat.leb_spec maxSSESubscribers (length (List.filter (fun x => negb (x =? ch)%nat) (b_clients b)))); [lia|done].
Qed.

(** The frames a stream writes: what it took from its channel up to the end,
    with keep-alives between; a failed write is the last. *)
Lemma pump_messages events : sublist (List.filter (fun f => negb (String.eqb f sseKeepAliveFrame)) (pump events))
  (omap (fun e => match e with PMessage m _ => Some m | _ => None end) events).
Proof.
  induction events as [|[|ok|m ok|] events IH]; cbn [pump omap list_omap]; try apply sublist_nil_l.
  - cbn [List.filter]. rewrite String.eqb_refl. cbn [negb]. destruct ok; [exact IH|apply sublist_nil_l].
  - cbn [List.filter]. destruct (negb _); destruct ok; try (by constructor); by (constructor; apply sublist_nil_l).
Qed.

(** ** Embedded assets *)

Section Static.
(** The embedded tree by path, and SHA-256. *)
Variable files : list (string * string).
Variable sha256 : string -> string.

Record staticAsset : Type := mkAsset { sa_data : string; sa_etag : string }.

Definition asset_of (data : string) : staticAsset := mkAsset data (char_str dquote +:+ hex_encode (sha256 data) +:+ char_str dquote).

(** The map built at start: one entry per file that was read. *)
Definition assets : list (string * staticAsset) := List.map (fun f => (fst f, asset_of (snd f))) files.

(** The headers and the body handed to [http.ServeContent]; [None] is a 404. *)
Definition serve_static (urlPath : string) : option (list (string * string) * string) :=
  let name := Clean (TrimPrefix urlPath "/") in
  match List.find (fun a => String.eqb (fst a) name) assets with
  | None => None
  | Some (_, a) => Some ([("Cache-Control", "no-cache"); ("ETag", sa_etag a)], sa_data a)
  end.

(** What is served under a path is the file of that name, with a validator
    that depends on its bytes only. *)
Theorem static_serves_file urlPath headers body : serve_static urlPath = Some (headers, body) ->
  In (Clean (TrimPrefix urlPath "/"), body) files /\ headers = [("Cache-Control", "no-cache"); ("ETag", sa_etag (asset_of body))].
Proof.
  unfold serve_static. destruct (List.find _ assets) as [[p a]|] eqn:E; [|done]. intros [= <- <-].
  apply find_some in E as [Hin Hp]. cbn [fst] in Hp. apply String.eqb_eq in Hp as ->.
  unfold assets in Hin. apply in_map_iff in Hin as ([q d] & [= <- <-] & Hin). done.
Qed.
End Static.

(** ** Samples *)

(** One stream that got one message. *)
Definition sample_broker : broker := mkBroker [0%nat] [mkChannel [] Open] None.
Definition sample_trace : list event := [ESubscribe (Ok 0%nat); EPublish "m"; ESend "m" 0; EPublished; EReceive 0 "m"].

Lemma sample_run : run sample_trace sample_broker.
Proof.
  set (b1 := mkBroker [0%nat] [mkChannel [] Open] None).
  set (b2 := mkBroker [0%nat] [mkChannel [] Open] (Some ("m", [0%nat]))).
  set (b3 := mkBroker [0%nat] [mkChannel ["m"] Open] (Some ("m", []))).
  set (b4 := mkBroker [0%nat] [mkChannel ["m"] Open] None).
  pose proof (run_step [] NewSSEBroker _ b1 run_start (step_subscribe NewSSEBroker eq_refl)) as R1.
  pose proof (run_step _ b1 _ b2 R1 (step_publish b1 "m" [0%nat] eq_refl (Permutation_refl _))) as R2.
  pose proof (run_step _ b2 _ b3 R2 (step_send b2 "m" 0%nat [] eq_refl)) as R3.
  pose proof (run_step _ b3 _ b4 R3 (step_published b3 "m" eq_refl)) as R4.
  exact (run_step _ b4 _ sample_broker R4 (step_receive b4 0%nat _ "m" _ eq_refl eq_refl eq_refl)).
Qed.

Lemma broker_safe_witness :
  v_received (view_of 0 sample_trace) ++ [] = v_accepted (view_of 0 sample_trace) /\ v_accepted (view_of 0 sample_trace) = ["m"].
Proof.
  destruct (broker_safe sample_trace sample_broker sample_run) as (_ & _ & _ & _ & H).
  split; [exact (proj2 (proj2 (H 0%nat _ eq_refl)))|reflexivity].
Defined.
