(* ===== verification/Metrics.v ===== *)
(** * internal/services/monitor.go, metrics.go, metrics_collectors.go and metrics_exposition.go

    The sampler of the host's readings with its history, the cached snapshot
    behind the metrics page, the collectors that fill it, and the text
    exposition.  Floating point is a parameter; the readings of a tick and the
    answers of the other services are arguments. *)

From stdpp Require Import sorting.
From S2P Require Import Prelude GoStrings GoTime GoPath GoNet Encoding ConfigTypes FirewallRender Sys Dns Vpn VpnLink HealthCheck WebAuth Update Respond Qos Remote Escape.

Local Open Scope Z_scope.
Local Open Scope go_scope.
Local Open Scope sys_scope.

(** Floating point: conversions, [Duration.Seconds], division and product, and
    the text of [%g], which has no white space in it. *)
Class Floats : Type := {
  F : Type;
  float_of : Z -> F;
  to_uint64 : F -> Z;
  seconds : Z -> F;
  fdiv : F -> F -> F;
  fmul : F -> F -> F;
  fmt_g : F -> string;
  fmt_g_plain : forall x, all_chars plain_char (fmt_g x) = true /\ fmt_g x <> "";
}.

Definition uint64 (z : Z) : Z := z mod 2 ^ 64.

(** [strconv.ParseUint(s, 10, 64)] with its error dropped. *)
Definition ParseUint_value (s : string) : Z :=
  if String.eqb s "" then 0 else match digits_value 0 s with Some v => Z.min v (2 ^ 64 - 1) | None => 0 end.

(** ** The monitor *)

Section Monitor.
Context `{Floats}.
(** [strconv.ParseFloat] of the first field of /proc/uptime, as a duration. *)
Variable uptime_of : string -> Z.

Record IfaceStats : Type := mkIfaceStats { is_RxBytesPerSec : Z; is_TxBytesPerSec : Z; is_RxBytes : Z; is_TxBytes : Z }.

Record SystemStats : Type := mkSystemStats {
  ss_Timestamp : Z; ss_CPUPercent : F; ss_RAMTotal : Z; ss_RAMUsed : Z; ss_RAMPercent : F; ss_Temperature : F; ss_Uptime : Z;
  ss_Interfaces : gmap string IfaceStats }.

Definition maxHist : nat := 60.

Record monitor : Type := mkMonitor {
  mn_current : option SystemStats; mn_history : list SystemStats; mn_prevCPUIdle : Z; mn_prevCPUTotal : Z;
  mn_prevRx : gmap string Z; mn_prevTx : gmap string Z; mn_prevTime : Z }.

Definition NewMonitorService : monitor := mkMonitor None [] 0 0 ∅ ∅ zero_time.

(** What a tick finds: the first line of /proc/stat, the lines of
    /proc/meminfo with the scanner's error, the two one-line files, and the
    counters of an interface. *)
Record readings : Type := mkReadings {
  rd_now : Z; rd_stat : option string; rd_meminfo : result (list string * result unit); rd_temp : result string;
  rd_uptime : result string; rd_iface : string -> result (Z * Z) }.

(** The sum of the columns and the fourth one. *)
Definition cpu_columns (fields : list string) : Z * Z :=
  let vals := List.map ParseUint_value fields in
  (foldl (fun acc v => uint64 (acc + v)) 0 vals, default 0 (vals !! 3%nat)).

Definition readCPU (line : option string) (m : monitor) : F * monitor :=
  match line with
  | None => (float_of 0, m)
  | Some text =>
      match Fields text with
      | name :: cols =>
          if (length (name :: cols) <? 5)%nat || negb (String.eqb name "cpu") then (float_of 0, m)
          else
            let '(total, idle) := cpu_columns cols in
            let deltaTotal := uint64 (total - mn_prevCPUTotal m) in
            let deltaIdle := uint64 (idle - mn_prevCPUIdle m) in
            let m := mkMonitor (mn_current m) (mn_history m) idle total (mn_prevRx m) (mn_prevTx m) (mn_prevTime m) in
            if deltaTotal =? 0 then (float_of 0, m)
            else (fmul (fdiv (float_of (uint64 (deltaTotal - deltaIdle))) (float_of deltaTotal)) (float_of 100), m)
      | [] => (float_of 0, m)
      end
  end.

(** [fmt.Sscanf(line, label + " %d kB", &v)]: the value when all of it matched. *)
Definition scan_kB (label line : string) : option Z :=
  s ← drop_prefix label line;
  '(_, s) ← run1 is_ws s;
  '(ds, s) ← run1 is_digit s;
  v ← digits_value 0 ds;
  '(_, s) ← run1 is_ws s;
  if v <? 2 ^ 64 then match drop_prefix "kB" s with Some _ => Some v | None => None end else None.

(** Total and available, each with whether its last line was read. *)
Definition meminfo_line (st : option Z * option Z) (line : string) : option Z * option Z :=
  if HasPrefix line "MemTotal:" then (scan_kB "MemTotal:" line, snd st)
  else if HasPrefix line "MemAvailable:" then (fst st, scan_kB "MemAvailable:" line)
  else st.

Definition ErrMemInfo : error := Errorf "MemTotal or MemAvailable missing or inconsistent" [].

Definition parseMemInfo (lines : list string) (scan_err : result unit) : result (Z * Z * F) :=
  let '(t, a) := foldl meminfo_line (None, None) lines in
  guard! scan_err ;;
  match t, a with
  | Some memTotal, Some memAvailable =>
      if (memTotal =? 0) || (memTotal <? memAvailable) then Err ErrMemInfo
      else Ok (uint64 (memTotal * 1024), uint64 ((memTotal - memAvailable) * 1024),
               fmul (fdiv (float_of (memTotal - memAvailable)) (float_of memTotal)) (float_of 100))
  | _, _ => Err ErrMemInfo
  end.

Definition readMemInfo (r : result (list string * result unit)) : Z * Z * F :=
  match (let? (lines, err) := r in parseMemInfo lines err) with Ok v => v | Err _ => (0, 0, float_of 0) end.

Definition readTemperature (r : result string) : F :=
  match r with Err _ => float_of 0 | Ok data => fdiv (float_of (Atoi_value (TrimSpace data))) (float_of 1000) end.

Definition readUptime (r : result string) : Z :=
  match r with Err _ => 0 | Ok data => match Fields data with [] => 0 | f :: _ => uptime_of f end end.

(** The rate since the last reading, nothing for a counter that went back. *)
Definition rate (prev : option Z) (cur : Z) (elapsed : F) : Z :=
  match prev with
  | Some p => if p <=? cur then to_uint64 (fdiv (float_of (cur - p)) elapsed) else 0
  | None => 0
  end.

(** The counters of one interface; one that cannot be read is left out. *)
Definition sample_iface (read : string -> result (Z * Z)) (elapsed : F) (acc : monitor * gmap string IfaceStats) (name : string)
  : monitor * gmap string IfaceStats :=
  let '(m, out) := acc in
  match read name with
  | Err _ => acc
  | Ok (rx, tx) =>
      let st := mkIfaceStats (rate (mn_prevRx m !! name) rx elapsed) (rate (mn_prevTx m !! name) tx elapsed) rx tx in
      (mkMonitor (mn_current m) (mn_history m) (mn_prevCPUIdle m) (mn_prevCPUTotal m) (<[name := rx]> (mn_prevRx m)) (<[name := tx]> (mn_prevTx m)) (mn_prevTime m),
       <[name := st]> out)
  end.

Definition mon_collect (ifaces : list string) (r : readings) (m : monitor) : SystemStats * monitor :=
  let '(cpu, m) := readCPU (rd_stat r) m in
  let '(ramTotal, ramUsed, ramPercent) := readMemInfo (rd_meminfo r) in
  let elapsed := rd_now r - mn_prevTime m in
  let elapsed := if elapsed <=? 0 then float_of 1 else seconds elapsed in
  let '(m, out) := foldl (sample_iface (rd_iface r) elapsed) (m, ∅) ifaces in
  (mkSystemStats (rd_now r) cpu ramTotal ramUsed ramPercent (readTemperature (rd_temp r)) (readUptime (rd_uptime r)) out,
   mkMonitor (mn_current m) (mn_history m) (mn_prevCPUIdle m) (mn_prevCPUTotal m) (mn_prevRx m) (mn_prevTx m) (rd_now r)).

(** One tick of [Start]. *)
Definition mon_tick (ifaces : list string) (r : readings) (m : monitor) : monitor :=
  let '(stats, m) := mon_collect ifaces r m in
  let history := mn_history m ++ [stats] in
  mkMonitor (Some stats) (if (maxHist <? length history)%nat then List.tl history else history)
    (mn_prevCPUIdle m) (mn_prevCPUTotal m) (mn_prevRx m) (mn_prevTx m) (mn_prevTime m).

Definition GetCurrent (m : monitor) : option SystemStats := mn_current m.
Definition GetHistory (m : monitor) : list SystemStats := mn_history m.
End Monitor.

(** ** The snapshot *)

Section Snapshot.
Context `{Floats}.
Variables (sha1 unicode_lower : string -> string).

Record IfaceMetric : Type := mkIfaceMetric { im_Device : string; im_RxBytes : Z; im_TxBytes : Z }.
Record ClientBandwidthMetric : Type := mkClientMetric { cm_MAC : string; cm_RxBytes : Z; cm_TxBytes : Z; cm_RxBPS : Z; cm_TxBPS : Z }.
Record WGPeerMetric : Type := mkPeerMetric { pm_Name : string; pm_HandshakeAge : Z; pm_Online : Z; pm_RxBytes : Z; pm_TxBytes : Z }.

Record MetricsSnapshot : Type := mkSnapshot {
  sn_BuildVersion : string; sn_BuildCommit : string;
  sn_UptimeSeconds : F; sn_ProcessStartTime : F; sn_CPUPercent : F; sn_MemoryTotal : Z; sn_MemoryUsed : Z; sn_Temperature : F;
  sn_Interfaces : list IfaceMetric;
  sn_DHCPLeases : option Z;
  sn_DNSStats : option (Z * Z * Z);
  sn_DNSBlocked : option Z;
  sn_Clients : list ClientBandwidthMetric;
  sn_WGPeers : list WGPeerMetric; sn_S2SPeers : list WGPeerMetric; sn_OpenVPNPeers : Z;
  sn_BackupLastRunUnix : Z; sn_BackupLastStatusOK : Z; sn_BackupHistorySize : Z;
  sn_PPPoEConnected : Z; sn_IPv6Active : Z; sn_IPv6Mode : string;
  sn_Firewall : option Z }.

Definition metricsCacheTTL : Z := 10 * second.

(** The cache; [None] is the zero time. *)
Record cache : Type := mkCache { mc_cached : option (MetricsSnapshot * Z) }.

(** [Snapshot]: the clock when the cache is looked at and when the collection
    is stored, and what a collection would find. *)
Definition Snapshot (before after : Z) (collected : MetricsSnapshot) (c : cache) : MetricsSnapshot * cache :=
  match mc_cached c with
  | Some (snap, at_) => if before - at_ <? metricsCacheTTL then (snap, c) else (collected, mkCache (Some (collected, after)))
  | None => (collected, mkCache (Some (collected, after)))
  end.

(** ** Collectors *)

(** The label of a MAC address and of a peer: the first four bytes of a hash. *)
Definition macHash (mac : string) : string :=
  hex_encode (String.substring 0 4 (sha1 (ToLower unicode_lower (filter_bytes (fun a => negb (Ascii.eqb a ":")) mac)))).
Definition peerHash (name : string) : string := hex_encode (String.substring 0 4 (sha1 name)).

(** One pass of the inner loop: the least of the rest is brought to the front,
    by swaps. *)
Fixpoint bring_least (x : IfaceMetric) (l : list IfaceMetric) : IfaceMetric * list IfaceMetric :=
  match l with
  | [] => (x, [])
  | y :: l =>
      if String.ltb (im_Device y) (im_Device x) then let '(m, r) := bring_least y l in (m, x :: r)
      else let '(m, r) := bring_least x l in (m, y :: r)
  end.

Fixpoint swap_sort (n : nat) (l : list IfaceMetric) : list IfaceMetric :=
  match n, l with
  | S n, x :: l => let '(m, r) := bring_least x l in m :: swap_sort n r
  | _, _ => l
  end.

(** The map as a slice in any order, then sorted by device. *)
Definition iface_metric (kv : string * IfaceStats) : IfaceMetric := mkIfaceMetric (fst kv) (is_RxBytes (snd kv)) (is_TxBytes (snd kv)).
Definition ifaceMetricsFromMonitor (entries : list (string * IfaceStats)) : list IfaceMetric :=
  let out := List.map iface_metric entries in swap_sort (length out) out.

Definition maxClients : nat := 64.

Definition collectClientMetrics (usages : result (list ClientUsage)) : list ClientBandwidthMetric :=
  match usages with
  | Err _ => []
  | Ok us => List.map (fun u => mkClientMetric (macHash (cu_MAC u)) (cu_InBytes u) (cu_OutBytes u) (cu_InBPS u) (cu_OutBPS u)) (take maxClients us)
  end.

Record wgDumpRow : Type := mkDumpRow { dr_lastHandshake : Z; dr_rxBytes : Z; dr_txBytes : Z }.

Definition dump_row (line : string) : option (string * wgDumpRow) :=
  match split_byte "009" line with
  | f0 :: _ :: _ :: _ :: f4 :: f5 :: f6 :: _ :: _ => Some (f0, mkDumpRow (Sscanf_d 0 f4) (Sscanf_u f5) (Sscanf_u f6))
  | _ => None
  end.

(** The interface's own line is dropped; of two rows of one key the later
    stands. *)
Definition parseWGDump (out : string) : gmap string wgDumpRow :=
  foldl (fun rows line => match dump_row line with Some (k, r) => <[k := r]> rows | None => rows end) ∅ (List.tl (split_byte lf out)).

Definition road_warrior (now : Z) (dump : gmap string wgDumpRow) (p : WGServerPeer) : WGPeerMetric :=
  match dump !! WGServerPeer_PublicKey p with
  | None => mkPeerMetric (peerHash (WGServerPeer_Name p)) (-1) 0 0 0
  | Some row =>
      let seen := 0 <? dr_lastHandshake row in
      let age := if seen then now - dr_lastHandshake row else -1 in
      mkPeerMetric (peerHash (WGServerPeer_Name p)) age (if seen && (age <? 180) then 1 else 0) (dr_rxBytes row) (dr_txBytes row)
  end.

Definition collectRoadWarriorPeers (nowUnix : Z) : svc vpn (list WGPeerMetric) :=
  s ← get;
  if negb (WGServerConfig_Enabled (server s)) || bool_decide (Peers s = []) then mret []
  else
    out ← Run "wg" ["show"; "wg0"; "dump"];
    mret (match out with
          | Err _ => []
          | Ok text => List.map (road_warrior nowUnix (parseWGDump text))
                         (List.filter (fun p => negb (WGServerPeer_IsSiteToSite p || WGServerPeer_Pending p)) (Peers s))
          end).

Definition s2s_metric (p : WGServerPeer) (health : result S2SHealthInfo) : WGPeerMetric :=
  match health with
  | Err _ => mkPeerMetric (peerHash (WGServerPeer_Name p)) (-1) 0 0 0
  | Ok h => mkPeerMetric (peerHash (sh_Name h)) (sh_HandshakeAgeSec h) (if sh_Online h then 1 else 0) (sh_RxBytes h) (sh_TxBytes h)
  end.

Fixpoint s2s_metrics (nowUnix : Z) (ps : list WGServerPeer) : svc vpn (list WGPeerMetric) :=
  match ps with
  | [] => mret []
  | p :: ps =>
      if negb (WGServerPeer_IsSiteToSite p) || WGServerPeer_Pending p then s2s_metrics nowUnix ps
      else
        h ← S2SHealth nowUnix (WGServerPeer_Name p);
        rest ← s2s_metrics nowUnix ps;
        mret (s2s_metric p h :: rest)
  end.

Definition collectS2SPeers (nowUnix : Z) : svc vpn (list WGPeerMetric) := s ← get; s2s_metrics nowUnix (Peers s).

Definition firewallActive : svc vpn (option Z) :=
  out ← Run "nft" ["list"; "ruleset"];
  mret (match out with Err _ => None | Ok text => Some (if String.eqb (TrimSpace text) "" then 0 else 1) end).

Definition pppoeConnectedFromCfg : svc vpn Z :=
  s ← get;
  if String.eqb (PPPoEConfig_Username (Config_PPPoE (vp_cfg s))) "" then mret 0
  else
    out ← Run "pgrep" ["-x"; "pppd"];
    mret (match out with Err _ => 0 | Ok text => if String.eqb (TrimSpace text) "" then 0 else 1 end).

Definition ipv6StateFromCfg (cfg : Config) : Z * string :=
  let mode := if String.eqb (IPv6Config_Mode (Config_IPv6 cfg)) "" then "off" else IPv6Config_Mode (Config_IPv6 cfg) in
  if String.eqb (IPv6Config_Enabled (Config_IPv6 cfg)) "off" || String.eqb mode "off" then (0, mode) else (1, mode).

(** What the other services answer during a collection: the version, the
    monitor's current readings, the leases, the blocked count with the
    statistics, the bandwidth rows, the sessions and the backup settings. *)
Record sources : Type := mkSources {
  src_version : string * string; src_start : F; src_host : option (SystemStats * list (string * IfaceStats));
  src_leases : result Z; src_blocked : Z; src_stats : result DNSStats; src_usages : result (list ClientUsage);
  src_sessions : Z; src_backup : BackupConfig }.

(** [collect], with every service wired in. *)
Definition collect (src : sources) (nowUnix : Z) : svc vpn MetricsSnapshot :=
  let host {A} (f : SystemStats -> A) (zero : A) := match src_host src with Some (h, _) => f h | None => zero end in
  wg ← collectRoadWarriorPeers nowUnix;
  s2s ← collectS2SPeers nowUnix;
  pppoe ← pppoeConnectedFromCfg;
  s ← get;
  let '(active, mode) := ipv6StateFromCfg (vp_cfg s) in
  fw ← firewallActive;
  let clamp z := Z.max z 0 in
  mret (mkSnapshot (fst (src_version src)) (snd (src_version src))
    (host (fun h => seconds (ss_Uptime h)) (float_of 0)) (src_start src) (host ss_CPUPercent (float_of 0)) (host ss_RAMTotal 0) (host ss_RAMUsed 0)
    (host ss_Temperature (float_of 0))
    (match src_host src with Some (_, entries) => ifaceMetricsFromMonitor entries | None => [] end)
    (match src_leases src with Ok n => Some n | Err _ => None end)
    (match src_stats src with Ok st => Some (clamp (st_TotalQueries st), clamp (st_CacheHits st), clamp (st_CacheMisses st)) | Err _ => None end)
    (Some (clamp (src_blocked src)))
    (collectClientMetrics (src_usages src)) wg s2s (src_sessions src)
    (BackupConfig_LastRun (src_backup src) / second) (if String.eqb (BackupConfig_LastStatus (src_backup src)) "ok" then 1 else 0)
    (Z.of_nat (length (BackupConfig_History (src_backup src))))
    pppoe active mode fw).
End Snapshot.

(** ** The text exposition *)

Section Exposition.
Context `{Floats}.

Definition metricGauge : string := "gauge".
Definition metricCounter : string := "counter".

Definition writeHelp (name help kind : string) : string :=
  "# HELP " +:+ name +:+ " " +:+ help +:+ nl +:+ "# TYPE " +:+ name +:+ " " +:+ kind +:+ nl.

(** The labels by key; a label map has each key once. *)
Definition sorted_labels (labels : list (string * string)) : list (string * string) := merge_sort key_le labels.

Definition label_pair (kv : string * string) : string := fst kv +:+ "=" +:+ char_str dquote +:+ escapeLabelValue (snd kv) +:+ char_str dquote.

Definition sample_head (name : string) (labels : list (string * string)) : string :=
  match labels with
  | [] => name
  | _ => name +:+ "{" +:+ join "," (List.map label_pair (sorted_labels labels)) +:+ "}"
  end.
Definition writeMetric (name : string) (labels : list (string * string)) (value : F) : string :=
  sample_head name labels +:+ " " +:+ fmt_g value +:+ nl.

(** A family: its name, help and kind, and its samples. *)
Record family : Type := mkFamily { fm_name : string; fm_help : string; fm_kind : string; fm_samples : list (list (string * string) * F) }.

Definition writeFamily (f : family) : string :=
  writeHelp (fm_name f) (fm_help f) (fm_kind f)
  +:+ String.concat "" (List.map (fun s => writeMetric (fm_name f) (fst s) (snd s)) (fm_samples f)).

(** [writeScalar] and the instances of [writeFamily], as the family each
    writes. *)
Definition writeScalar (name help kind : string) (value : F) : family := mkFamily name help kind [([], value)].
Definition per_item {A} (name help kind : string) (items : list A) (sample : A -> list (string * string) * F) : family :=
  mkFamily name help kind (List.map sample items).

Definition writeHost (snap : MetricsSnapshot) : list family :=
  (if String.eqb (sn_BuildVersion snap) "" && String.eqb (sn_BuildCommit snap) "" then []
   else [mkFamily "lankeeper_build_info" "Build version and commit reported by the running binary." metricGauge
           [([("version", sn_BuildVersion snap); ("commit", sn_BuildCommit snap)], float_of 1)]])
  ++ [writeScalar "lankeeper_uptime_seconds" "Host uptime since boot." metricGauge (sn_UptimeSeconds snap);
      writeScalar "lankeeper_process_start_time_seconds" "Start time of the web process since the Unix epoch, in seconds." metricGauge (sn_ProcessStartTime snap);
      writeScalar "lankeeper_cpu_percent" "Current system-wide CPU usage in percent (0-100)." metricGauge (sn_CPUPercent snap);
      writeScalar "lankeeper_memory_total_bytes" "Total system memory in bytes." metricGauge (float_of (sn_MemoryTotal snap));
      writeScalar "lankeeper_memory_used_bytes" "Resident system memory in bytes." metricGauge (float_of (sn_MemoryUsed snap));
      writeScalar "lankeeper_temperature_celsius" "Hottest CPU/SoC sensor reading; 0 when no sensor is available." metricGauge (sn_Temperature snap)].

Definition writeInterfaces (snap : MetricsSnapshot) : list family :=
  match sn_Interfaces snap with
  | [] => []
  | ifs =>
      let device i := [("device", im_Device i)] in
      [per_item "lankeeper_interface_rx_bytes_total" "Cumulative bytes received per OS interface." metricCounter ifs (fun i => (device i, float_of (im_RxBytes i)));
       per_item "lankeeper_interface_tx_bytes_total" "Cumulative bytes transmitted per OS interface." metricCounter ifs (fun i => (device i, float_of (im_TxBytes i)))]
  end.

Definition writeDHCPAndDNS (snap : MetricsSnapshot) : list family :=
  match sn_DHCPLeases snap with
  | Some n => [writeScalar "lankeeper_dhcp_active_leases" "Number of currently active DHCP leases." metricGauge (float_of n)]
  | None => []
  end
  ++ match sn_DNSStats snap with
     | Some (q, hits, misses) =>
         [writeScalar "lankeeper_dns_queries_total" "Total DNS queries served by Unbound." metricCounter (float_of q);
          writeScalar "lankeeper_dns_cache_hits_total" "Total DNS cache hits." metricCounter (float_of hits);
          writeScalar "lankeeper_dns_cache_misses_total" "Total DNS cache misses." metricCounter (float_of misses)]
     | None => []
     end
  ++ match sn_DNSBlocked snap with
     | Some n => [writeScalar "lankeeper_dns_blocked_total" "Total DNS responses that hit a blocklist." metricCounter (float_of n)]
     | None => []
     end.

Definition clientLabels (c : ClientBandwidthMetric) : list (string * string) := [("mac", cm_MAC c)].
Definition peerLabels (p : WGPeerMetric) : list (string * string) := [("peer", pm_Name p)].

Definition writeClients (snap : MetricsSnapshot) : list family :=
  match sn_Clients snap with
  | [] => []
  | cs =>
      [per_item "lankeeper_client_rx_bytes_total" "Cumulative bytes received from each LAN client (post-NAT)." metricCounter cs (fun c => (clientLabels c, float_of (cm_RxBytes c)));
       per_item "lankeeper_client_tx_bytes_total" "Cumulative bytes transmitted to each LAN client." metricCounter cs (fun c => (clientLabels c, float_of (cm_TxBytes c)));
       per_item "lankeeper_client_rx_bps" "Instantaneous bits per second received from each LAN client." metricGauge cs (fun c => (clientLabels c, float_of (cm_RxBPS c)));
       per_item "lankeeper_client_tx_bps" "Instantaneous bits per second transmitted to each LAN client." metricGauge cs (fun c => (clientLabels c, float_of (cm_TxBPS c)))]
  end.

Definition writeWireGuardPeers (snap : MetricsSnapshot) : list family :=
  match sn_WGPeers snap with
  | [] => []
  | ps =>
      [per_item "lankeeper_wireguard_peer_online" "1 when the WireGuard peer's last handshake is younger than 180s." metricGauge ps (fun p => (peerLabels p, float_of (pm_Online p)));
       per_item "lankeeper_wireguard_peer_handshake_age_seconds" "Seconds since the WireGuard peer's last handshake; -1 means never." metricGauge ps (fun p => (peerLabels p, float_of (pm_HandshakeAge p)));
       per_item "lankeeper_wireguard_peer_rx_bytes_total" "Cumulative bytes received from the WireGuard peer." metricCounter ps (fun p => (peerLabels p, float_of (pm_RxBytes p)));
       per_item "lankeeper_wireguard_peer_tx_bytes_total" "Cumulative bytes transmitted to the WireGuard peer." metricCounter ps (fun p => (peerLabels p, float_of (pm_TxBytes p)))]
  end.

Definition writeS2SPeers (snap : MetricsSnapshot) : list family :=
  match sn_S2SPeers snap with
  | [] => []
  | ps =>
      [per_item "lankeeper_s2s_peer_online" "1 when the site-to-site peer's last handshake is younger than 180s." metricGauge ps (fun p => (peerLabels p, float_of (pm_Online p)));
       per_item "lankeeper_s2s_peer_handshake_age_seconds" "Seconds since the S2S peer's last handshake; -1 means never." metricGauge ps (fun p => (peerLabels p, float_of (pm_HandshakeAge p)));
       per_item "lankeeper_s2s_peer_rx_bytes_total" "Cumulative bytes received from the site-to-site peer." metricCounter ps (fun p => (peerLabels p, float_of (pm_RxBytes p)));
       per_item "lankeeper_s2s_peer_tx_bytes_total" "Cumulative bytes transmitted to the site-to-site peer." metricCounter ps (fun p => (peerLabels p, float_of (pm_TxBytes p)))]
  end.

Definition writeSubsystems (snap : MetricsSnapshot) : list family :=
  [writeScalar "lankeeper_openvpn_active_sessions" "Currently connected OpenVPN clients." metricGauge (float_of (sn_OpenVPNPeers snap));
   writeScalar "lankeeper_backup_last_run_timestamp" "UNIX timestamp of the most recent backup attempt." metricGauge (float_of (sn_BackupLastRunUnix snap));
   writeScalar "lankeeper_backup_last_status_ok" "1 when the most recent backup completed successfully." metricGauge (float_of (sn_BackupLastStatusOK snap));
   writeScalar "lankeeper_backup_history_total" "Backup history ring-buffer size (max 50)." metricGauge (float_of (sn_BackupHistorySize snap));
   writeScalar "lankeeper_pppoe_connected" "1 when pppd is running for the configured PPPoE peer." metricGauge (float_of (sn_PPPoEConnected snap));
   writeScalar "lankeeper_ipv6_active" "1 when an IPv6 plane (PD or 6in4) is enabled." metricGauge (float_of (sn_IPv6Active snap));
   mkFamily "lankeeper_ipv6_mode_info" "Info-style metric carrying the configured IPv6 mode as a label." metricGauge [([("mode", sn_IPv6Mode snap)], float_of 1)]]
  ++ match sn_Firewall snap with
     | Some v => [writeScalar "lankeeper_firewall_active" "1 when nftables ruleset is loaded." metricGauge (float_of v)]
     | None => []
     end.

Definition families (snap : MetricsSnapshot) : list family :=
  writeHost snap ++ writeInterfaces snap ++ writeDHCPAndDNS snap ++ writeClients snap ++ writeWireGuardPeers snap ++ writeS2SPeers snap
  ++ writeSubsystems snap.

Definition Write (snap : MetricsSnapshot) : string := String.concat "" (List.map writeFamily (families snap)).
End Exposition.

(** [HandleMetrics] of internal/web/handlers/metrics.go. *)
Definition HandleMetrics `{Floats} (before after : Z) (collected : MetricsSnapshot) (c : cache)
  : (list (string * string) * string) * cache :=
  let '(snap, c) := Snapshot before after collected c in
  (([("Content-Type", "text/plain; version=0.0.4; charset=utf-8"); ("Cache-Control", "no-store")], Write snap), c).

(** ** Reading the exposition *)

(** A line of the format: help, type, or a sample with its labels. *)
Inductive line : Type :=
| LHelp (name help : string)
| LType (name kind : string)
| LSample (name : string) (labels : list (string * string)) (value : string).

Definition metric_char (a : ascii) : bool := is_alnum a || char_in "_:" a.

Fixpoint read_labels (fuel : nat) (s : string) : option (list (string * string) * string) :=
  match fuel with
  | O => None
  | S fuel =>
      '(k, s) ← run1 metric_char s;
      s ← drop_prefix (String "=" (char_str dquote)) s;
      '(v, s) ← label_chars s;
      match s with
      | String "}" s => Some ([(k, v)], s)
      | String "," s => '(l, s) ← read_labels fuel s; Some ((k, v) :: l, s)
      | _ => None
      end
  end.

Definition read_value (s : string) : option string :=
  v ← drop_prefix " " s; if all_chars plain_char v && negb (String.eqb v "") then Some v else None.

Definition read_line (s : string) : option line :=
  match drop_prefix "# HELP " s with
  | Some r => '(name, help) ← cut_byte " " r; Some (LHelp name help)
  | None =>
      match drop_prefix "# TYPE " s with
      | Some r => '(name, kind) ← cut_byte " " r; Some (LType name kind)
      | None =>
          '(name, r) ← run1 metric_char s;
          match r with
          | String "{" r => '(labels, r) ← read_labels (String.length r) r; v ← read_value r; Some (LSample name labels v)
          | _ => v ← read_value r; Some (LSample name [] v)
          end
      end
  end.

(** Every line ends in a line feed. *)
Definition read_text (s : string) : option (list line) := mapM read_line (List.removelast (split_byte lf s)).

(** ** Lemmas: reading back *)

Section ReadBack.
Context `{Floats}.

Definition family_lines (f : family) : list line :=
  LHelp (fm_name f) (fm_help f) :: LType (fm_name f) (fm_kind f)
  :: List.map (fun s => LSample (fm_name f) (List.map (fun kv => (fst kv, label_text (snd kv))) (sorted_labels (fst s))) (fmt_g (snd s))) (fm_samples f).

Definition name_ok (name : string) : bool := all_chars metric_char name && negb (String.eqb name "").

(** Names, help and kind as the format wants them. *)
Definition family_ok (f : family) : Prop :=
  name_ok (fm_name f) = true /\ has_char lf (fm_help f) = false /\ has_char lf (fm_kind f) = false
  /\ Forall (fun s => Forall (fun kv => name_ok (fst kv) = true) (fst s)) (fm_samples f).

(** The lines of a family without their ends. *)
Definition family_texts (f : family) : list string :=
  ("# HELP " +:+ fm_name f +:+ " " +:+ fm_help f) :: ("# TYPE " +:+ fm_name f +:+ " " +:+ fm_kind f)
  :: List.map (fun s => sample_head (fm_name f) (fst s) +:+ " " +:+ fmt_g (snd s)) (fm_samples f).

Lemma writeFamily_texts f : writeFamily f = String.concat "" (List.map (fun t => t +:+ nl) (family_texts f)).
Proof.
  unfold writeFamily, writeHelp, family_texts. cbn [List.map]. rewrite !concat_cons, List.map_map. 
  assert (E : List.map (fun s => writeMetric (fm_name f) (fst s) (snd s)) (fm_samples f)
              = List.map (fun s => (sample_head (fm_name f) (fst s) +:+ " " +:+ fmt_g (snd s)) +:+ nl) (fm_samples f)).
  { apply List.map_ext. intros s. unfold writeMetric. by rewrite !append_assoc. }
  rewrite E. by rewrite !append_assoc.
Qed.

Lemma concat_concat_map {A} (g : A -> list string) l :
  String.concat "" (List.map (fun x => String.concat "" (g x)) l) = String.concat "" (List.flat_map g l).
Proof. induction l as [|x l IH]; [done|]. cbn [List.map flat_map]. by rewrite concat_cons, concat_app, IH. Qed.

(** Lines that have no line feed are the lines of their text. *)
Lemma split_lines ls : Forall (fun l => has_char lf l = false) ls ->
  split_byte lf (String.concat "" (List.map (fun t => t +:+ nl) ls)) = ls ++ [""].
Proof.
  induction 1 as [|l ls Hl _ IH]; [done|]. cbn [List.map]. rewrite concat_cons, append_assoc.
  change (nl +:+ ?x) with (String lf x). rewrite split_byte_app, IH, split_byte_none by done. done.
Qed.

Lemma name_chars name : name_ok name = true -> all_chars metric_char name = true /\ name <> "".
Proof. unfold name_ok. intros Hn. bool_hyps. done. Qed.

Lemma metric_no c name : metric_char c = false -> all_chars metric_char name = true -> has_char c name = false.
Proof. intros Hc Hn. by eapply all_chars_not_has. Qed.

Lemma run1_name name rest : name_ok name = true -> match rest with String a _ => metric_char a = false | "" => True end ->
  run1 metric_char (name +:+ rest) = Some (name, rest).
Proof.
  intros Hn Hr. apply name_chars in Hn as [Hc Hne]. unfold run1.
  assert (Hs : span metric_char (name +:+ rest) = (name, rest)).
  { clear Hne. induction name as [|a s IH]; cbn [append span].
    - destruct rest as [|a r]; [done|]. cbn. by rewrite Hr.
    - cbn [all_chars] in Hc. bool_hyps. by rewrite H0, IH. }
  rewrite Hs. by destruct name.
Qed.

Lemma read_labels_back kvs rest fuel : kvs <> [] -> Forall (fun kv => name_ok (fst kv) = true) kvs -> (length kvs <= fuel)%nat ->
  read_labels fuel (join "," (List.map label_pair kvs) +:+ String "}" rest) = Some (List.map (fun kv => (fst kv, label_text (snd kv))) kvs, rest).
Proof.
  revert fuel. induction kvs as [|[k v] kvs IH]; intros fuel Hne Hk Hf; [done|]. destruct fuel as [|fuel]; [cbn in Hf; lia|].
  inversion_clear Hk as [|? ? Hkey Hrest]. cbn [fst snd] in *. cbn [List.map read_labels].
  assert (Hpair : forall t, run1 metric_char (label_pair (k, v) +:+ t) = Some (k, String "=" (String dquote (escapeLabelValue v +:+ String dquote t)))).
  { intros t. unfold label_pair. cbn [fst snd]. rewrite !append_assoc. by apply run1_name. }
  assert (Hlab : forall t, drop_prefix (String "=" (char_str dquote)) (String "=" (String dquote t)) = Some t) by done.
  destruct kvs as [|kv kvs].
  - cbn [List.map join String.concat]. rewrite Hpair. cbn [mbind option_bind]. rewrite Hlab. cbn [mbind option_bind]. rewrite label_read. done.
  - cbn [List.map]. rewrite join_cons by done. rewrite !append_assoc. rewrite Hpair. cbn [mbind option_bind]. rewrite Hlab. cbn [mbind option_bind].
    rewrite label_read. cbn [mbind option_bind append]. specialize (IH fuel ltac:(done) Hrest ltac:(cbn in *; lia)).
    cbn [List.map] in IH. rewrite IH. done.
Qed.

Lemma length_le_labels kvs : (length kvs <= String.length (join "," (List.map label_pair kvs)))%nat.
Proof.
  induction kvs as [|kv kvs IH]; [cbn; lia|]. cbn [List.map]. destruct kvs as [|kv' kvs].
  - cbn [List.map join String.concat length]. unfold label_pair. rewrite !append_length. cbn. lia.
  - cbn [List.map] in *. rewrite join_cons by done. rewrite !append_length. unfold label_pair at 1. rewrite !append_length. cbn [length String.length char_str] in *. lia.
Qed.

Lemma read_value_back x : read_value (String " " (fmt_g x)) = Some (fmt_g x).
Proof.
  unfold read_value. cbn [drop_prefix Ascii.eqb Bool.eqb mbind option_bind]. destruct (fmt_g_plain x) as [-> Hne].
  apply String.eqb_neq in Hne. by rewrite Hne.
Qed.

(** A line that starts with a name is no comment. *)
Lemma name_no_comment name rest p : name_ok name = true -> drop_prefix (String "#" p) (name +:+ rest) = None.
Proof.
  intros Hn. apply name_chars in Hn as [Hc Hne]. destruct name as [|a s]; [done|]. cbn [all_chars] in Hc. bool_hyps. cbn [append drop_prefix].
  destruct (Ascii.eqb_spec "#" a) as [<-|]; [done|]. done.
Qed.

Lemma read_sample name labels x : name_ok name = true -> Forall (fun kv => name_ok (fst kv) = true) labels ->
  read_line (sample_head name labels +:+ " " +:+ fmt_g x)
  = Some (LSample name (List.map (fun kv => (fst kv, label_text (snd kv))) (sorted_labels labels)) (fmt_g x)).
Proof.
  intros Hn Hl. unfold read_line, sample_head. destruct labels as [|kv labels].
  - rewrite !name_no_comment by done. rewrite run1_name by done. cbn [mbind option_bind append]. by rewrite read_value_back.
  - set (kvs := sorted_labels (kv :: labels)).
    assert (Hp : kvs ≡ₚ kv :: labels) by (unfold kvs, sorted_labels; apply merge_sort_Permutation).
    rewrite !append_assoc, !name_no_comment by done. rewrite run1_name by done. cbn [mbind option_bind append].
    rewrite read_labels_back.
    + cbn [mbind option_bind]. by rewrite read_value_back.
    + intros E. rewrite E in Hp. by apply Permutation_nil_l in Hp.
    + rewrite List.Forall_forall in Hl |- *. intros x' Hx. apply Hl. by apply (Permutation_in _ Hp).
    + rewrite append_length. pose proof (length_le_labels kvs). lia.
Qed.

Lemma read_family f : family_ok f -> mapM read_line (family_texts f) = Some (family_lines f).
Proof.
  intros (Hn & Hh & Hk & Hs). unfold family_texts, family_lines.
  assert (Hblank : has_char " " (fm_name f) = false) by (apply metric_no; [done|]; by apply name_chars).
  assert (Hsamples : mapM read_line (List.map (fun s => sample_head (fm_name f) (fst s) +:+ " " +:+ fmt_g (snd s)) (fm_samples f))
    = Some (List.map (fun s => LSample (fm_name f) (List.map (fun kv => (fst kv, label_text (snd kv))) (sorted_labels (fst s))) (fmt_g (snd s))) (fm_samples f))).
  { induction Hs as [|s ss Hs _ IH]; [done|]. cbn [List.map mapM]. rewrite read_sample by done. cbn [mbind option_bind]. rewrite IH. done. }
  assert (Hhelp : read_line ("# HELP " +:+ fm_name f +:+ " " +:+ fm_help f) = Some (LHelp (fm_name f) (fm_help f))).
  { unfold read_line. change (" " +:+ fm_help f) with (String " " (fm_help f)). change (drop_prefix "# HELP " ("# HELP " +:+ ?x)) with (Some x).
    cbv iota. by rewrite cut_byte_append. }
  assert (Htype : read_line ("# TYPE " +:+ fm_name f +:+ " " +:+ fm_kind f) = Some (LType (fm_name f) (fm_kind f))).
  { unfold read_line. change (" " +:+ fm_kind f) with (String " " (fm_kind f)). change (drop_prefix "# HELP " ("# TYPE " +:+ ?x)) with (@None string).
    change (drop_prefix "# TYPE " ("# TYPE " +:+ ?x)) with (Some x). cbv iota. by rewrite cut_byte_append. }
  cbn [mapM]. rewrite Hhelp, Htype. cbn [mbind option_bind].
  by rewrite Hsamples.
Qed.
Lemma no_lf_join sep l : has_char lf sep = false -> Forall (fun x => has_char lf x = false) l -> has_char lf (join sep l) = false.
Proof.
  intros Hs. induction 1 as [|x l Hx Hl IH]; [done|]. destruct l as [|y l]; [done|]. rewrite join_cons by done.
  by rewrite !has_char_append, Hx, Hs, IH.
Qed.

Lemma family_texts_lines f : family_ok f -> Forall (fun l => has_char lf l = false) (family_texts f).
Proof.
  intros (Hn & Hh & Hk & Hs). unfold family_texts. apply name_chars in Hn as [Hc _].
  assert (Hname : has_char lf (fm_name f) = false) by (by apply metric_no).
  apply List.Forall_cons; [by rewrite !has_char_append, Hname, Hh|]. apply List.Forall_cons; [by rewrite !has_char_append, Hname, Hk|].
  apply List.Forall_map. eapply List.Forall_impl; [|exact Hs]. intros [labels x] Hl. cbn [fst snd] in *.
  rewrite !has_char_append. destruct (fmt_g_plain x) as [Hx _].
  assert (has_char lf (fmt_g x) = false) as -> by (eapply all_chars_not_has; [|exact Hx]; done).
  rewrite !orb_false_r. unfold sample_head. destruct labels as [|kv labels]; [done|]. rewrite !has_char_append, Hname.
  rewrite no_lf_join; [done|done|]. apply List.Forall_map, List.Forall_forall. intros kv' Hin. unfold label_pair.
  rewrite !has_char_append, label_one_line. rewrite List.Forall_forall in Hl.
  assert (Hkv : name_ok (fst kv') = true) by (apply Hl; by apply (Permutation_in _ (merge_sort_Permutation key_le (kv :: labels)))).
  apply name_chars in Hkv as [Hkv _]. by rewrite (metric_no lf _ eq_refl Hkv).
Qed.

Lemma read_families fams : Forall family_ok fams -> read_text (String.concat "" (List.map writeFamily fams)) = Some (List.flat_map family_lines fams).
Proof.
  intros Hok. rewrite (List.map_ext _ _ writeFamily_texts), concat_concat_map.
  assert (E : List.flat_map (fun x => List.map (fun t => t +:+ nl) (family_texts x)) fams = List.map (fun t => t +:+ nl) (List.flat_map family_texts fams)).
  { clear. induction fams as [|f fams IH]; [done|]. cbn [flat_map]. by rewrite List.map_app, IH. }
  rewrite E. clear E. unfold read_text. rewrite split_lines.
  - rewrite List.removelast_last. induction Hok as [|f fams Hf _ IH]; [done|]. cbn [flat_map].
    apply mapM_Some, Forall2_app; apply mapM_Some; [by apply read_family|exact IH].
  - induction Hok as [|f fams Hf _ IH]; [done|]. cbn [flat_map]. apply List.Forall_app. split; [by apply family_texts_lines|done].
Qed.

Lemma item_ok {A} name help kind (items : list A) sample :
  name_ok name && negb (has_char lf help) && negb (has_char lf kind) = true ->
  (forall x, Forall (fun kv => name_ok (fst kv) = true) (fst (sample x))) -> family_ok (per_item name help kind items sample).
Proof.
  intros Hn Hs. bool_hyps. split_and!; try done. cbn [fm_samples per_item]. apply List.Forall_map, List.Forall_forall. intros x _. apply Hs.
Qed.

Lemma scalar_ok name help kind v : name_ok name && negb (has_char lf help) && negb (has_char lf kind) = true -> family_ok (writeScalar name help kind v).
Proof. intros Hn. bool_hyps. split_and!; try done. by repeat constructor. Qed.

Lemma families_ok snap : Forall family_ok (families snap).
Proof.
  unfold families, writeHost, writeInterfaces, writeDHCPAndDNS, writeClients, writeWireGuardPeers, writeS2SPeers, writeSubsystems.
  repeat (apply List.Forall_app; split).
  all: repeat (case_match || (apply List.Forall_cons) || apply List.Forall_nil).
  all: try (apply scalar_ok; vm_compute; reflexivity).
  all: try (apply item_ok; [vm_compute; reflexivity|intros; by repeat constructor]).
  all: split_and!; try done; by repeat constructor.
Qed.
End ReadBack.

(** ** What a scrape says *)

Section Measured.
Context `{Floats}.

(** The samples of a family: one number, one that may be missing, one per
    item under the item's label. *)
Definition one (v : F) : list (list (string * string) * F) := [([], v)].
Definition if_known (v : option Z) : list (list (string * string) * F) := match v with Some z => one (float_of z) | None => [] end.
Definition each {A} (label : string) (name : A -> string) (value : A -> Z) (items : list A) : list (list (string * string) * F) :=
  List.map (fun x => ([(label, name x)], float_of (value x))) items.

(** The families there are, with their kinds and the measurement each one is
    for. *)
Definition measured (snap : MetricsSnapshot) : list (string * string * list (list (string * string) * F)) := [
  ("lankeeper_build_info", "gauge",
     if String.eqb (sn_BuildVersion snap +:+ sn_BuildCommit snap) "" then []
     else [([("commit", sn_BuildCommit snap); ("version", sn_BuildVersion snap)], float_of 1)]);
  ("lankeeper_uptime_seconds", "gauge", one (sn_UptimeSeconds snap));
  ("lankeeper_process_start_time_seconds", "gauge", one (sn_ProcessStartTime snap));
  ("lankeeper_cpu_percent", "gauge", one (sn_CPUPercent snap));
  ("lankeeper_memory_total_bytes", "gauge", one (float_of (sn_MemoryTotal snap)));
  ("lankeeper_memory_used_bytes", "gauge", one (float_of (sn_MemoryUsed snap)));
  ("lankeeper_temperature_celsius", "gauge", one (sn_Temperature snap));
  ("lankeeper_interface_rx_bytes_total", "counter", each "device" im_Device im_RxBytes (sn_Interfaces snap));
  ("lankeeper_interface_tx_bytes_total", "counter", each "device" im_Device im_TxBytes (sn_Interfaces snap));
  ("lankeeper_dhcp_active_leases", "gauge", if_known (sn_DHCPLeases snap));
  ("lankeeper_dns_queries_total", "counter", if_known ((fun s => fst (fst s)) <$> sn_DNSStats snap));
  ("lankeeper_dns_cache_hits_total", "counter", if_known ((fun s => snd (fst s)) <$> sn_DNSStats snap));
  ("lankeeper_dns_cache_misses_total", "counter", if_known (snd <$> sn_DNSStats snap));
  ("lankeeper_dns_blocked_total", "counter", if_known (sn_DNSBlocked snap));
  ("lankeeper_client_rx_bytes_total", "counter", each "mac" cm_MAC cm_RxBytes (sn_Clients snap));
  ("lankeeper_client_tx_bytes_total", "counter", each "mac" cm_MAC cm_TxBytes (sn_Clients snap));
  ("lankeeper_client_rx_bps", "gauge", each "mac" cm_MAC cm_RxBPS (sn_Clients snap));
  ("lankeeper_client_tx_bps", "gauge", each "mac" cm_MAC cm_TxBPS (sn_Clients snap));
  ("lankeeper_wireguard_peer_online", "gauge", each "peer" pm_Name pm_Online (sn_WGPeers snap));
  ("lankeeper_wireguard_peer_handshake_age_seconds", "gauge", each "peer" pm_Name pm_HandshakeAge (sn_WGPeers snap));
  ("lankeeper_wireguard_peer_rx_bytes_total", "counter", each "peer" pm_Name pm_RxBytes (sn_WGPeers snap));
  ("lankeeper_wireguard_peer_tx_bytes_total", "counter", each "peer" pm_Name pm_TxBytes (sn_WGPeers snap));
  ("lankeeper_s2s_peer_online", "gauge", each "peer" pm_Name pm_Online (sn_S2SPeers snap));
  ("lankeeper_s2s_peer_handshake_age_seconds", "gauge", each "peer" pm_Name pm_HandshakeAge (sn_S2SPeers snap));
  ("lankeeper_s2s_peer_rx_bytes_total", "counter", each "peer" pm_Name pm_RxBytes (sn_S2SPeers snap));
  ("lankeeper_s2s_peer_tx_bytes_total", "counter", each "peer" pm_Name pm_TxBytes (sn_S2SPeers snap));
  ("lankeeper_openvpn_active_sessions", "gauge", one (float_of (sn_OpenVPNPeers snap)));
  ("lankeeper_backup_last_run_timestamp", "gauge", one (float_of (sn_BackupLastRunUnix snap)));
  ("lankeeper_backup_last_status_ok", "gauge", one (float_of (sn_BackupLastStatusOK snap)));
  ("lankeeper_backup_history_total", "gauge", one (float_of (sn_BackupHistorySize snap)));
  ("lankeeper_pppoe_connected", "gauge", one (float_of (sn_PPPoEConnected snap)));
  ("lankeeper_ipv6_active", "gauge", one (float_of (sn_IPv6Active snap)));
  ("lankeeper_ipv6_mode_info", "gauge", [([("mode", sn_IPv6Mode snap)], float_of 1)]);
  ("lankeeper_firewall_active", "gauge", if_known (sn_Firewall snap))].

(** The lines of a family that has a sample, without the words of its help. *)
Definition row_lines (row : string * string * list (list (string * string) * F)) : list line :=
  let '(name, kind, samples) := row in
  match samples with
  | [] => []
  | _ => LHelp name "" :: LType name kind
         :: List.map (fun s => LSample name (List.map (fun kv => (fst kv, label_text (snd kv))) (fst s)) (fmt_g (snd s))) samples
  end.
Definition no_help (l : line) : line := match l with LHelp name _ => LHelp name "" | _ => l end.

Definition group_lines (fams : list family) : list line := List.flat_map (fun f => List.map no_help (family_lines f)) fams.

Ltac same_rows := unfold group_lines, per_item, family_lines, each, if_known; cbn -[label_text append];
  rewrite ?List.map_map; reflexivity.

Lemma host_rows snap : group_lines (writeHost snap) = List.flat_map row_lines (take 7 (measured snap)).
Proof.
  unfold writeHost, measured. destruct (sn_BuildVersion snap) as [|a v]; [destruct (sn_BuildCommit snap)|]; same_rows.
Qed.
Lemma interface_rows snap : group_lines (writeInterfaces snap) = List.flat_map row_lines (take 2 (drop 7 (measured snap))).
Proof. unfold writeInterfaces, measured. cbn [take drop]. destruct (sn_Interfaces snap); same_rows. Qed.
Lemma dns_rows snap : group_lines (writeDHCPAndDNS snap) = List.flat_map row_lines (take 5 (drop 9 (measured snap))).
Proof.
  unfold writeDHCPAndDNS, measured. cbn [take drop]. destruct (sn_DHCPLeases snap), (sn_DNSStats snap) as [[[q hits] misses]|], (sn_DNSBlocked snap); same_rows.
Qed.
Lemma client_rows snap : group_lines (writeClients snap) = List.flat_map row_lines (take 4 (drop 14 (measured snap))).
Proof. unfold writeClients, measured. cbn [take drop]. destruct (sn_Clients snap); same_rows. Qed.
Lemma peer_rows snap : group_lines (writeWireGuardPeers snap) = List.flat_map row_lines (take 4 (drop 18 (measured snap))).
Proof. unfold writeWireGuardPeers, measured. cbn [take drop]. destruct (sn_WGPeers snap); same_rows. Qed.
Lemma s2s_rows snap : group_lines (writeS2SPeers snap) = List.flat_map row_lines (take 4 (drop 22 (measured snap))).
Proof. unfold writeS2SPeers, measured. cbn [take drop]. destruct (sn_S2SPeers snap); same_rows. Qed.
Lemma subsystem_rows snap : group_lines (writeSubsystems snap) = List.flat_map row_lines (drop 26 (measured snap)).
Proof. unfold writeSubsystems, measured. cbn [drop]. destruct (sn_Firewall snap); same_rows. Qed.

Lemma families_rows snap : List.map no_help (List.flat_map family_lines (families snap)) = List.flat_map row_lines (measured snap).
Proof.
  transitivity (group_lines (families snap)); [unfold group_lines; induction (families snap) as [|f fs IH]; [done|]; cbn [List.flat_map]; by rewrite List.map_app, IH|].
  unfold families, group_lines. rewrite !List.flat_map_app.
  rewrite <- (take_drop 7 (measured snap)), <- (take_drop 2 (drop 7 (measured snap))), <- (take_drop 5 (drop 2 (drop 7 (measured snap)))),
    <- (take_drop 4 (drop 5 (drop 2 (drop 7 (measured snap))))), <- (take_drop 4 (drop 4 (drop 5 (drop 2 (drop 7 (measured snap)))))),
    <- (take_drop 4 (drop 4 (drop 4 (drop 5 (drop 2 (drop 7 (measured snap))))))), !List.flat_map_app, !drop_drop.
  fold (group_lines (writeHost snap)). f_equal; [apply host_rows|]. f_equal; [apply interface_rows|]. f_equal; [apply dns_rows|].
  f_equal; [apply client_rows|]. f_equal; [apply peer_rows|]. f_equal; [apply s2s_rows|apply subsystem_rows].
Qed.
End Measured.

(** C39: A scrape reads back as what was measured.  Read by the rules of the
    exposition format, the text is, for every family of the table [measured]
    that has a sample, one help line, one line with its kind, and its samples,
    each with the value of its measurement and its labels, control characters
    dropped and bytes outside UTF-8 replaced, whatever text the build, the
    devices, the mode or the peers put into a label: no value can break a
    line or start a sample of its own.  A family of which nothing was measured
    is left out, and none occurs twice. *)
Theorem scrape_reads_back `{Floats} snap :
  List.map no_help <$> read_text (Write snap) = Some (List.flat_map row_lines (measured snap))
  /\ NoDup (List.map (fun row => fst (fst row)) (measured snap)).
Proof.
  split; [unfold Write; rewrite read_families by apply families_ok; cbn; by rewrite families_rows|].
  cbn [measured List.map fst]. apply (bool_decide_unpack _). vm_compute. done.
Qed.

(** ** The cache, the history and the order of the interfaces *)

Section Sampling.
Context `{Floats}.

(** The clock readings of the scrapes that collected. *)
Fixpoint collections (reqs : list (Z * Z * MetricsSnapshot)) (c : cache) : list (Z * Z) :=
  match reqs with
  | [] => []
  | (before, after, snap) :: reqs =>
      let c' := snd (Snapshot before after snap c) in
      match mc_cached c with
      | Some (_, at_) => if before - at_ <? metricsCacheTTL then collections reqs c' else (before, after) :: collections reqs c'
      | None => (before, after) :: collections reqs c'
      end
  end.

Lemma collections_after reqs snap at_ : Forall (fun r => fst (fst r) <= snd (fst r)) reqs ->
  Forall (fun r => at_ + metricsCacheTTL <= fst r) (collections reqs (mkCache (Some (snap, at_)))).
Proof.
  intros Hr. revert snap at_. induction Hr as [|[[b a] s] reqs Hba _ IH]; intros snap at_; [done|]. cbn [collections Snapshot mc_cached]. cbn in Hba.
  destruct (b - at_ <? metricsCacheTTL) eqn:E; cbn [snd]; [apply IH|]. apply Z.ltb_ge in E. constructor; [cbn; lia|].
  eapply List.Forall_impl; [|exact (IH s a)]. intros r Hle. cbn in *. assert (0 <= metricsCacheTTL) by done. lia.
Qed.

(** However often the page is scraped, two collections are at least the cache
    time apart, and an answer is either just collected or was stored less than
    the cache time ago. *)
Theorem collections_apart reqs c : Forall (fun r => fst (fst r) <= snd (fst r)) reqs ->
  StronglySorted (fun r1 r2 => snd r1 + metricsCacheTTL <= fst r2) (collections reqs c)
  /\ (forall before after snap, fst (Snapshot before after snap c) = snap
        \/ exists at_, mc_cached c = Some (fst (Snapshot before after snap c), at_) /\ before - at_ < metricsCacheTTL).
Proof.
  intros Hr. split.
  - revert c. induction Hr as [|[[b a] s] reqs Hba Hr IH]; intros c; [constructor|]. cbn [collections]. unfold Snapshot.
    destruct (mc_cached c) as [[old at_]|]; [destruct (_ <? _); [apply IH|]|]; (constructor; [apply IH|]); by apply (collections_after _ s a).
  - intros b a s. unfold Snapshot. destruct (mc_cached c) as [[old at_]|]; [|by left]. destruct (_ <? _) eqn:E; [|by left].
    right. exists at_. split; [done|]. cbn. lia.
Qed.

(** The readings of a run of the monitor. *)
Fixpoint samples (uptime_of : string -> Z) (ifaces : list string) (rs : list readings) (m : monitor) : list SystemStats :=
  match rs with
  | [] => []
  | r :: rs => fst (mon_collect uptime_of ifaces r m) :: samples uptime_of ifaces rs (mon_tick uptime_of ifaces r m)
  end.

Lemma sample_iface_history read elapsed ifaces acc :
  mn_history (fst (foldl (sample_iface read elapsed) acc ifaces)) = mn_history (fst acc).
Proof.
  revert acc. induction ifaces as [|i ifaces IH]; intros [m out]; [done|]. cbn [foldl]. rewrite IH. cbn [sample_iface]. by destruct (read i) as [[? ?]|].
Qed.

Lemma collect_history uptime_of ifaces r m : mn_history (snd (mon_collect uptime_of ifaces r m)) = mn_history m.
Proof.
  unfold mon_collect. destruct (readCPU (rd_stat r) m) as [cpu m1] eqn:E. destruct (readMemInfo _) as [[? ?] ?].
  match goal with |- context [foldl ?f ?a ?l] => pose proof (sample_iface_history (rd_iface r) (if rd_now r - mn_prevTime m1 <=? 0 then float_of 1 else seconds (rd_now r - mn_prevTime m1)) l a) as Hh; destruct (foldl f a l) as [m2 out] eqn:E2 end.
  cbn in *. rewrite Hh. unfold readCPU in E. by repeat case_match; simplify_eq/=.
Qed.

Lemma keep_last {A} n (past : list A) x :
  (if (n <? length (drop (length past - n) past ++ [x]))%nat then List.tl (drop (length past - n) past ++ [x]) else drop (length past - n) past ++ [x])
  = drop (length (past ++ [x]) - n) (past ++ [x]).
Proof.
  rewrite !length_app, length_drop. cbn [length]. destruct (Nat.ltb_spec n (length past - (length past - n) + 1)) as [Hlt|Hge].
  - change (List.tl ?l) with (drop 1 l). rewrite <- drop_app_le by lia. rewrite drop_drop. f_equal. lia.
  - replace (length past - n)%nat with 0%nat by lia. by replace (length past + 1 - n)%nat with 0%nat by lia.
Qed.

(** The history of the monitor is the last sixty readings, in order. *)
Theorem monitor_history uptime_of ifaces rs :
  let all := samples uptime_of ifaces rs NewMonitorService in
  GetHistory (foldl (fun m r => mon_tick uptime_of ifaces r m) NewMonitorService rs) = drop (length all - maxHist) all.
Proof.
  cbn zeta.
  assert (Hgen : forall past m, (mn_history m = drop (length past - maxHist) past) ->
    mn_history (foldl (fun m r => mon_tick uptime_of ifaces r m) m rs)
    = drop (length (past ++ samples uptime_of ifaces rs m) - maxHist) (past ++ samples uptime_of ifaces rs m)).
  2: { apply (Hgen [] NewMonitorService). done. }
  induction rs as [|r rs IH]; intros past m Hm; [by rewrite app_nil_r|]. cbn [foldl samples].
  rewrite (IH (past ++ [fst (mon_collect uptime_of ifaces r m)])); [by rewrite <- app_assoc|].
  unfold mon_tick. pose proof (collect_history uptime_of ifaces r m) as Hh. destruct (mon_collect uptime_of ifaces r m) as [st m'].
  cbn [snd fst mn_history] in *. rewrite Hh, Hm. apply keep_last.
Qed.

(** The order of the map's entries does not show: the interfaces come out
    sorted by device. *)
Definition device_le (a b : IfaceMetric) : Prop := str_le (im_Device a) (im_Device b).

Lemma device_le_refl x : device_le x x.
Proof. by destruct (str_le_total (im_Device x) (im_Device x)). Qed.

#[local] Instance device_le_trans : Transitive device_le.
Proof. intros a b c. apply str_le_trans. Qed.

Lemma ltb_device y x : if String.ltb (im_Device y) (im_Device x) then device_le y x else device_le x y.
Proof.
  unfold device_le, str_le, String.leb, String.ltb. rewrite (String.compare_antisym (im_Device x)). by destruct (String.compare _ _).
Qed.

Lemma bring_least_spec x l : let '(m, r) := bring_least x l in Permutation (m :: r) (x :: l) /\ Forall (device_le m) r /\ device_le m x.
Proof.
  revert x. induction l as [|y l IH]; intros x; cbn [bring_least]; [by split_and!; [done|apply List.Forall_nil|apply device_le_refl]|].
  pose proof (ltb_device y x) as Hc. destruct (String.ltb _ _).
  - pose proof (IH y) as Hy. destruct (bring_least y l) as [m r]. destruct Hy as (Hp & Hf & Hle).
    assert (device_le m x) by (by etrans). split_and!; [|by constructor|done]. by rewrite Permutation_swap, Hp.
  - pose proof (IH x) as Hx. destruct (bring_least x l) as [m r]. destruct Hx as (Hp & Hf & Hle).
    assert (device_le m y) by (by etrans). split_and!; [|by constructor|done]. by rewrite Permutation_swap, Hp, Permutation_swap.
Qed.

Lemma swap_sort_spec n l : (length l <= n)%nat -> Permutation (swap_sort n l) l /\ StronglySorted device_le (swap_sort n l).
Proof.
  revert l. induction n as [|n IH]; intros [|x l] Hn; cbn in Hn; try (by split; [done|constructor]); [lia|]. cbn [swap_sort].
  pose proof (bring_least_spec x l) as Hb. destruct (bring_least x l) as [m r]. destruct Hb as (Hp & Hf & _).
  destruct (IH r) as [Hp' Hs]; [apply Permutation_length in Hp; cbn in Hp; lia|].
  split; [by rewrite Hp'|]. constructor; [done|]. by rewrite Hp'.
Qed.

Lemma device_unique (l : list (string * IfaceStats)) a b : NoDup (List.map fst l) ->
  a ∈ List.map iface_metric l -> b ∈ List.map iface_metric l -> im_Device a = im_Device b -> a = b.
Proof.
  intros Hnd Ha Hb. apply list_elem_of_In, List.in_map_iff in Ha as (x & <- & Hx). apply list_elem_of_In, List.in_map_iff in Hb as (y & <- & Hy).
  cbn. intros Heq. by rewrite (header_unique l x y Hnd Hx Hy Heq).
Qed.

Theorem interfaces_in_any_order l1 l2 : Permutation l1 l2 -> NoDup (List.map fst l1) ->
  ifaceMetricsFromMonitor l1 = ifaceMetricsFromMonitor l2
  /\ StronglySorted device_le (ifaceMetricsFromMonitor l1) /\ Permutation (ifaceMetricsFromMonitor l1) (List.map iface_metric l1).
Proof.
  intros Hp Hnd. unfold ifaceMetricsFromMonitor.
  destruct (swap_sort_spec (length (List.map iface_metric l1)) (List.map iface_metric l1)) as [P1 S1]; [done|].
  destruct (swap_sort_spec (length (List.map iface_metric l2)) (List.map iface_metric l2)) as [P2 S2]; [done|].
  split; [|done]. apply (StronglySorted_unique_strong device_le); try done.
  - intros x y Hx Hy H1 H2. rewrite P1 in Hx. rewrite P2, <- Hp in Hy. apply (device_unique l1); try done. by apply (anti_symm str_le).
  - rewrite P1, P2. by apply Permutation_map.
Qed.
End Sampling.

(** The road-warrior collector looks at no interface but [wg0]: all it runs is
    one command, and none with no server or no peer. *)
Lemma road_warriors_of_wg0 sha1 now w tr (s : vpn) :
  snd (collectRoadWarriorPeers sha1 now w tr s)
  = if negb (WGServerConfig_Enabled (server s)) || bool_decide (Peers s = []) then tr else tr ++ [CRun "wg" ["show"; "wg0"; "dump"] ""].
Proof. unfold collectRoadWarriorPeers, Run, perform, mbind, svc_bind, get. by case_match. Qed.
