(* ===== verification/I18n.v ===== *)
(** * internal/i18n, internal/web/errors.go, internal/web/handlers/errors.go and internal/tmpl/funcs.go

    The message catalogue with its fallback, the language of a request, the
    texts an error is answered with, and the helpers the pages are rendered
    with.  The JSON reader of a locale file, the text of an error and the
    decimal text of a quotient are parameters. *)

From stdpp Require Import gmap strings.
From S2P Require Import Prelude GoStrings GoTime GoPath Sys AgentClient Respond.

Local Open Scope Z_scope.
Local Open Scope go_scope.

(** ** The catalogue *)

Record Locale : Type := mkLocale { lc_Code : string; lc_Messages : gmap string string }.
Record I18n : Type := mkI18n { i_locales : gmap string Locale; i_fallback : string }.

Definition New (fallback : string) : I18n := mkI18n ∅ (if String.eqb fallback "" then "en" else fallback).

(** An entry of the directory: its name, whether it is a directory, and what
    reading it gives. *)
Record dirEntry : Type := mkDirEntry { de_name : string; de_isDir : bool; de_read : result string }.

Section Load.
(** [json.Unmarshal] into a map of strings. *)
Variable unmarshal : string -> result (gmap string string).

Definition is_locale (e : dirEntry) : bool := negb (de_isDir e) && HasSuffix (de_name e) ".json".
Definition locale_code (e : dirEntry) : string := TrimSuffix (de_name e) ".json".

Fixpoint load_entries (dir : string) (entries : list dirEntry) (i : I18n) : I18n * result unit :=
  match entries with
  | [] => (i, Ok tt)
  | e :: entries =>
      if negb (is_locale e) then load_entries dir entries i
      else
        let path := dir +:+ "/" +:+ de_name e in
        match de_read e with
        | Err err => (i, Err (Errorw "read locale file %q: %w" [path] err))
        | Ok data =>
            match unmarshal data with
            | Err err => (i, Err (Errorw "parse locale file %q: %w" [path] err))
            | Ok messages => load_entries dir entries (mkI18n (<[locale_code e := mkLocale (locale_code e) messages]> (i_locales i)) (i_fallback i))
            end
        end
  end.

Definition LoadFromFS (dir : string) (entries : result (list dirEntry)) (i : I18n) : I18n * result unit :=
  match entries with
  | Err err => (i, Err (Errorw "read locale dir %q: %w" [dir] err))
  | Ok es => load_entries dir es i
  end.
End Load.

Definition message (i : I18n) (lang key : string) : option string := loc ← i_locales i !! lang; lc_Messages loc !! key.

Definition T (i : I18n) (lang key : string) : string :=
  match message i lang key with
  | Some msg => msg
  | None =>
      match (if negb (String.eqb lang (i_fallback i)) then message i (i_fallback i) key else None) with
      | Some msg => msg
      | None => key
      end
  end.

(** [strings.ReplaceAll] for a text that is not empty. *)
Fixpoint replace_from (fuel : nat) (old new s : string) : string :=
  match fuel, s with
  | S fuel, String a r =>
      match drop_prefix old s with
      | Some rest => new +:+ replace_from fuel old new rest
      | None => String a (replace_from fuel old new r)
      end
  | _, _ => s
  end.
Definition ReplaceAll (s old new : string) : string := replace_from (String.length s) old new s.

Definition placeholder (k : string) : string := "{{" +:+ k +:+ "}}".

(** The parameters in the order the map yields them. *)
Definition WithParams (i : I18n) (lang key : string) (params : list (string * string)) : string :=
  foldl (fun msg kv => ReplaceAll msg (placeholder (fst kv)) (snd kv)) (T i lang key) params.

Definition Fallback (i : I18n) : string := i_fallback i.
Definition HasLocale (i : I18n) (code : string) : bool := bool_decide (is_Some (i_locales i !! code)).

(** The process-wide bundle. *)
Definition T_default (bundle : option I18n) (lang key : string) : string :=
  match bundle with Some i => T i lang key | None => key end.

(** ** The language of a request *)

Definition LangFromContext (ctx : option string) : string := default "en" ctx.

(** The language a part of Accept-Language names. *)
Definition part_code (part : string) : string :=
  let tag := TrimSpace (match cut_byte ";" part with Some (t, _) => t | None => part end) in
  match cut_byte "-" tag with Some (code, _) => code | None => tag end.

Definition detectLang (cookie : option string) (accept : string) (i : I18n) : string :=
  let by_header :=
    if String.eqb accept "" then i_fallback i
    else default (i_fallback i) (List.find (HasLocale i) (List.map part_code (split_byte "," accept))) in
  match cookie with
  | Some c => if HasLocale i c then c else by_header
  | None => by_header
  end.

(** [Middleware]: what the handlers find in the context. *)
Definition Middleware (i : I18n) (cookie : option string) (accept : string) : option string := Some (detectLang cookie accept i).

(** [handleLangSwitch] of internal/web/server.go: the value of the cookie and
    the answer. *)
Definition handleLangSwitch (i : I18n) (r : hreq) : string * hresp :=
  let lang := hq_form r "lang" in
  (if HasLocale i lang then lang else Fallback i, respondRefresh r "/").

(** [lockoutMessage] of internal/web/server.go; both durations round up, which
    floating point does exactly for the waits of the lockout. *)
Definition ceil_div (d unit_ : Z) : Z := - (- d / unit_).
Definition lockout_wait (d : Z) : string * Z :=
  if d <? 60 * second then ("auth.lockedOutSeconds", ceil_div d second) else ("auth.lockedOutMinutes", ceil_div d (60 * second)).
Definition lockoutMessage (i : I18n) (lang : string) (d : Z) : string :=
  let '(key, n) := lockout_wait d in WithParams i lang key [("wait", itoa n)].

(** ** The text of an error *)

Section Errors.
(** [err.Error()] and [http.StatusText]. *)
Variables (error_text : error -> string) (StatusText : Z -> string).

(** [errors.As] for [*netutil.AgentError]: the error or one it wraps. *)
Fixpoint from_agent (e : error) : bool :=
  match e with
  | Errorf _ _ => false
  | Errorw format _ inner => String.eqb format "agent %s %s: %v" || from_agent inner
  end.

Definition safeErrorMessage (e : option error) (status : Z) : string :=
  match e with
  | None => StatusText status
  | Some e => if from_agent e then StatusText status else error_text e
  end.

Definition httpErrorT (bundle : option I18n) (ctx : option string) (status : Z) (key : string) : Z * string :=
  (status, T_default bundle (LangFromContext ctx) key).
Definition fail_answer (status : Z) (e : option error) : Z * string := (status, safeErrorMessage e status).
Definition clientError_answer (bundle : option I18n) (ctx : option string) (status : Z) (key : string) : Z * string :=
  (status, T_default bundle (LangFromContext ctx) key).
Definition clientErrorf_answer (bundle : option I18n) (ctx : option string) (status : Z) (key detail : string) : Z * string :=
  (status, T_default bundle (LangFromContext ctx) key +:+ ": " +:+ detail).
Definition serverError_answer (bundle : option I18n) (ctx : option string) (key : string) : Z * string :=
  clientError_answer bundle ctx StatusInternalServerError key.
End Errors.

(** ** Template helpers *)

(** The arguments of [tp] as pairs; a later name stands for an earlier one. *)
Fixpoint arg_pairs (args : list string) : list (string * string) :=
  match args with k :: v :: args => (k, v) :: arg_pairs args | _ => [] end.
Definition tp (order : gmap string string -> list (string * string)) (i : I18n) (lang key : string) (args : list string) : string :=
  if Nat.odd (length args) then T i lang key
  else WithParams i lang key (order (foldl (fun m kv => <[fst kv := snd kv]> m) ∅ (arg_pairs args))).

Definition unit_letters : string := "KMGTPE".

(** The loop of [formatBytes]: the divisor and the index of the unit. *)
Fixpoint unit_loop (fuel : nat) (n div : Z) (exp : nat) : Z * nat :=
  match fuel with
  | O => (div, exp)
  | S fuel => if 1024 <=? n then unit_loop fuel (n / 1024) ((div * 1024) mod 2 ^ 64) (S exp) else (div, exp)
  end.

(** [None] is the panic of an index out of range. *)
Definition formatBytes (quotient_text : Z -> Z -> string) (b : Z) : option string :=
  if b <? 1024 then Some (itoa b +:+ " B")
  else
    let '(div, exp) := unit_loop 64 (b / 1024) 1024 0 in
    match String.get exp unit_letters with
    | Some c => Some (quotient_text b div +:+ " " +:+ char_str c +:+ "B")
    | None => None
    end.

(** [int(d.Hours())] and [int(d.Minutes())] are floating point. *)
Definition humanTime (whole_hours whole_minutes : Z -> Z) (d : Z) : string :=
  let days := Z.quot (whole_hours d) 24 in
  let hours := Z.rem (whole_hours d) 24 in
  let minutes := Z.rem (whole_minutes d) 60 in
  if 0 <? days then itoa days +:+ "d " +:+ itoa hours +:+ "h " +:+ itoa minutes +:+ "m"
  else if 0 <? hours then itoa hours +:+ "h " +:+ itoa minutes +:+ "m"
  else itoa minutes +:+ "m".

(** ** Theorems *)

Section Catalogue.
Variable unmarshal : string -> result (gmap string string).

Lemma loaded_kept dir entries i i' code : load_entries unmarshal dir entries i = (i', Ok tt) -> HasLocale i code = true -> HasLocale i' code = true.
Proof.
  revert i. induction entries as [|e entries IH]; intros i; cbn [load_entries]; [by intros [= <-]|].
  destruct (is_locale e); cbn [negb]; [|apply IH]. destruct (de_read e) as [data|]; [|done]. destruct (unmarshal data) as [msgs|]; [|done].
  intros Hl Hc. apply (IH _ Hl). unfold HasLocale in *. cbn [i_locales]. apply bool_decide_eq_true in Hc. apply bool_decide_eq_true.
  apply lookup_insert_is_Some'. by right.
Qed.

(** After a load that succeeds the locales are those that were there and one
    per JSON file of the directory, with the messages of the file. *)
Theorem load_exact dir entries i i' : LoadFromFS unmarshal dir (Ok entries) i = (i', Ok tt) ->
  i_fallback i' = i_fallback i
  /\ (forall code loc, i_locales i' !! code = Some loc ->
        (exists e data, In e entries /\ is_locale e = true /\ locale_code e = code /\ de_read e = Ok data /\ unmarshal data = Ok (lc_Messages loc))
        \/ (i_locales i !! code = Some loc /\ forall e, In e entries -> is_locale e = true -> locale_code e <> code))
  /\ (forall e, In e entries -> is_locale e = true -> HasLocale i' (locale_code e) = true).
Proof.
  cbn [LoadFromFS]. revert i i'. induction entries as [|e entries IH]; intros i i'; cbn [load_entries].
  { intros [= <-]. split; [done|]. split; [|by intros e []]. intros code loc Hc. right. split; [done|by intros e []]. }
  destruct (is_locale e) eqn:El; cbn [negb].
  2: { intros Hl. destruct (IH _ _ Hl) as (Hf & Hs & Hh). split; [done|]. split.
       - intros code loc Hc. destruct (Hs code loc Hc) as [(e' & d & Hin & Hr)|(Hc' & Hn)]; [left; exists e', d; split; [by right|done]|].
         right. split; [done|]. intros e' [<-|Hin] Hl'; [congruence|by apply Hn].
       - intros e' [<-|Hin] Hl'; [congruence|by apply Hh]. }
  destruct (de_read e) as [data|err] eqn:Er; [|done]. destruct (unmarshal data) as [msgs|err] eqn:Eu; [|done]. intros Hl.
  destruct (IH _ _ Hl) as (Hf & Hs & Hh). cbn [i_fallback i_locales] in *. split; [done|]. split.
  - intros code loc Hc. destruct (Hs code loc Hc) as [(e' & d & Hin & Hr)|(Hc' & Hn)]; [left; exists e', d; split; [by right|done]|].
    destruct (decide (locale_code e = code)) as [<-|Hne].
    + rewrite lookup_insert_eq in Hc'. simplify_eq/=. left. exists e, data. split_and!; try done. by left.
    + rewrite lookup_insert_ne in Hc' by done. right. split; [done|]. intros e' [<-|Hin] Hl'; [done|by apply Hn].
  - intros e' [<-|Hin] Hl'; [|by apply Hh]. apply (loaded_kept _ _ _ _ _ Hl). unfold HasLocale. cbn [i_locales]. by rewrite lookup_insert_eq.
Qed.
End Catalogue.

(** A request is answered in the language it asks for: that of its cookie when
    there is such a locale, else the first one its header names that there is,
    else the fallback. *)
Theorem language_negotiated cookie accept i :
  let lang := detectLang cookie accept i in
  (forall c, cookie = Some c -> HasLocale i c = true -> lang = c)
  /\ ((forall c, cookie = Some c -> HasLocale i c = false) ->
        (exists before after part, split_byte "," accept = before ++ part :: after /\ lang = part_code part /\ HasLocale i lang = true
           /\ Forall (fun p => HasLocale i (part_code p) = false) before)
        \/ (lang = i_fallback i /\ (accept = "" \/ Forall (fun p => HasLocale i (part_code p) = false) (split_byte "," accept)))).
Proof.
  cbv zeta. unfold detectLang. split; [by intros c -> ->|]. intros Hno.
  assert (Hhdr : forall x, (if String.eqb accept "" then i_fallback i else default (i_fallback i) (List.find (HasLocale i) (List.map part_code (split_byte "," accept)))) = x ->
    (exists before after part, split_byte "," accept = before ++ part :: after /\ x = part_code part /\ HasLocale i x = true
           /\ Forall (fun p => HasLocale i (part_code p) = false) before)
        \/ (x = i_fallback i /\ (accept = "" \/ Forall (fun p => HasLocale i (part_code p) = false) (split_byte "," accept)))).
  2: { apply Hhdr. destruct cookie as [c|]; [|done]. by rewrite (Hno c eq_refl). }
  intros x <-. destruct (String.eqb_spec accept "") as [->|_]; [right; split; [done|by left]|].
  generalize (split_byte "," accept). induction l as [|p l IH]; cbn [List.map List.find]; [right; split; [done|by right]|].
  destruct (HasLocale i (part_code p)) eqn:E; [left; exists [], l, p; split_and!; try done; by rewrite E|].
  destruct IH as [(b & a & q & -> & Hx & Hh & Hb)|(Hx & [->|Hall])].
  - left. exists (p :: b), a, q. split_and!; try done. by constructor.
  - right. split; [done|by left].
  - right. split; [done|]. right. by constructor.
Qed.

(** The language an operator switches to is the one of the next request, when
    the fallback is a locale. *)
Theorem switched_language_used i r accept : HasLocale i (Fallback i) = true ->
  let lang := detectLang (Some (fst (handleLangSwitch i r))) accept i in
  HasLocale i lang = true /\ (HasLocale i (hq_form r "lang") = true -> lang = hq_form r "lang").
Proof.
  intros Hf. cbv zeta. unfold handleLangSwitch. cbn [fst]. destruct (HasLocale i (hq_form r "lang")) eqn:E; unfold detectLang; [by rewrite E|].
  rewrite Hf. by split.
Qed.

(** The wait a locked-out operator reads is not shorter than the lockout, nor
    longer by a whole unit. *)
Theorem lockout_text_covers d : 0 < d ->
  let '(key, n) := lockout_wait d in
  let unit_ := if String.eqb key "auth.lockedOutSeconds" then second else 60 * second in
  d <= n * unit_ < d + unit_ /\ 1 <= n.
Proof.
  intros Hd. unfold lockout_wait, ceil_div. assert (Hs : second = 1000000000) by reflexivity.
  destruct (Z.ltb_spec d (60 * second)); cbn [String.eqb Ascii.eqb Bool.eqb]; rewrite Hs in *;
    [pose proof (Z.div_mod (- d) 1000000000 ltac:(lia)); pose proof (Z.mod_pos_bound (- d) 1000000000 ltac:(lia))
    |pose proof (Z.div_mod (- d) (60 * 1000000000) ltac:(lia)); pose proof (Z.mod_pos_bound (- d) (60 * 1000000000) ltac:(lia))]; lia.
Qed.

(** With a fallback locale that has a message, no request gets the bare key:
    the answer is the message of its own language or of the fallback. *)
Theorem every_request_translated cookie accept i key : is_Some (message i (i_fallback i) key) ->
  exists code, Some (T i (detectLang cookie accept i) key) = message i code key /\ (code = detectLang cookie accept i \/ code = i_fallback i).
Proof.
  intros [m Hm]. set (lang := detectLang cookie accept i). unfold T. destruct (message i lang key) as [t|] eqn:E; [exists lang; auto|].
  exists (i_fallback i). destruct (String.eqb_spec lang (i_fallback i)) as [El|El]; cbn [negb]; [congruence|]. rewrite Hm. auto.
Qed.

(** A message without a placeholder is shown whole, whatever is passed. *)
Lemma replace_none fuel k v s : has_char "{" s = false -> replace_from fuel (placeholder k) v s = s.
Proof.
  revert s. induction fuel as [|fuel IH]; intros [|a s]; try done. cbn [has_char replace_from]. intros [Ha Hs]%orb_false_iff.
  assert (Hd : drop_prefix (placeholder k) (String a s) = None) by (destruct (drop_prefix _ _) as [rest|] eqn:E; [|done]; apply drop_prefix_Some in E; injection E as -> _; done).
  by rewrite Hd, IH.
Qed.

Theorem plain_message_whole i lang key params : has_char "{" (T i lang key) = false -> WithParams i lang key params = T i lang key.
Proof.
  unfold WithParams. intros Hm. induction params as [|[k v] params IH]; [done|]. cbn [foldl fst snd]. unfold ReplaceAll. by rewrite replace_none.
Qed.

(** ** What an error shows *)

(** An error that crossed the agent's boundary, wrapped however often, shows
    nothing but the status: two such failures cannot be told apart by the
    answer.  An error of the program's own is shown as it is. *)
Inductive wraps : error -> error -> Prop :=
| wraps_self e : wraps e e
| wraps_layer format args inner e : wraps inner e -> wraps (Errorw format args inner) e.

Lemma wraps_agent outer op target e : wraps outer (AgentError op target e) -> from_agent outer = true.
Proof.
  intros Hw. remember (AgentError op target e) as inner eqn:E. induction Hw as [x|format args inner x _ IH]; [by subst|].
  cbn [from_agent]. by rewrite IH, orb_true_r.
Qed.

Lemma from_agent_wraps outer : from_agent outer = true <-> exists args e, wraps outer (Errorw "agent %s %s: %v" args e).
Proof.
  split.
  - induction outer as [|format args inner IH]; [done|]. cbn [from_agent]. intros [Hf|Hi]%orb_true_iff.
    + apply String.eqb_eq in Hf as ->. exists args, inner. constructor.
    + destruct (IH Hi) as (a & e & Hw). exists a, e. by constructor.
  - intros (a & e & Hw). remember (Errorw _ a e) as inner eqn:E. induction Hw as [x|format args inner x _ IH]; [by subst|].
    cbn [from_agent]. by rewrite IH, orb_true_r.
Qed.

Lemma own_error_shown error_text StatusText status e : (forall args x, ~ wraps e (Errorw "agent %s %s: %v" args x)) ->
  fail_answer error_text StatusText status (Some e) = (status, error_text e).
Proof.
  intros Hn. unfold fail_answer, safeErrorMessage. destruct (from_agent e) eqn:E; [|done].
  apply from_agent_wraps in E as (args & x & Hw). by destruct (Hn args x).
Qed.

Theorem agent_text_hidden error_text StatusText status o1 o2 op1 op2 target1 target2 e1 e2 :
  wraps o1 (AgentError op1 target1 e1) -> wraps o2 (AgentError op2 target2 e2) ->
  fail_answer error_text StatusText status (Some o1) = fail_answer error_text StatusText status (Some o2)
  /\ fail_answer error_text StatusText status (Some o1) = (status, StatusText status).
Proof. intros H1 H2. unfold fail_answer, safeErrorMessage. by rewrite (wraps_agent _ _ _ _ H1), (wraps_agent _ _ _ _ H2). Qed.

(** Every refusal of the agent that a command, a write, a directory or a read
    gets is such an error. *)
Theorem agent_refusal_hidden error_text StatusText status call run mk wr rd format args e :
  (forall name a, call "exec.run" (execParams_json name a "") = Err e -> exists x, Run (Some call) run name a = Err x
     /\ fail_answer error_text StatusText status (Some (Errorw format args x)) = (status, StatusText status))
  /\ (forall path content mode, call "file.write" (fileWriteParams_json path content mode) = Err e -> exists x, WriteFile (Some call) mk wr path content mode = Err x
     /\ fail_answer error_text StatusText status (Some (Errorw format args x)) = (status, StatusText status))
  /\ (forall path mode, call "file.mkdir" (mkdirParams_json path mode) = Err e -> exists x, MkdirAll (Some call) mk path mode = Err x
     /\ fail_answer error_text StatusText status (Some (Errorw format args x)) = (status, StatusText status))
  /\ (forall path, call "file.read" (readParams_json path) = Err e -> exists x, ReadFile (Some call) rd path = Err x
     /\ fail_answer error_text StatusText status (Some (Errorw format args x)) = (status, StatusText status)).
Proof.
  assert (Hhid : forall op target, fail_answer error_text StatusText status (Some (Errorw format args (AgentError op target e))) = (status, StatusText status)).
  { intros op target. unfold fail_answer, safeErrorMessage. by rewrite (wraps_agent _ op target e) by (do 2 constructor). }
  split_and!; intros * Hc; eexists; (split; [|apply Hhid]).
  - unfold Run, runViaAgentFull. by rewrite Hc.
  - unfold WriteFile. by rewrite Hc.
  - unfold MkdirAll. by rewrite Hc.
  - unfold ReadFile. by rewrite Hc.
Qed.

(** A refusal ahead of the language middleware is in English, not in the
    language of the installation. *)
Lemma early_refusal_in_english i key en : message i "en" key = Some en -> httpErrorT (Some i) None 403 key = (403, en).
Proof. intros Hm. unfold httpErrorT, T_default, LangFromContext, T. cbn [default]. by rewrite Hm. Qed.

(** ** Sizes and durations *)

Lemma unit_loop_spec fuel n div exp b : 0 < div -> div <= b -> n = b / div -> div = 1024 ^ Z.of_nat (S exp) -> b < 2 ^ 64 -> b < div * 1024 ^ Z.of_nat (S fuel) ->
  let '(d, e) := unit_loop fuel n div exp in d = 1024 ^ Z.of_nat (S e) /\ d <= b < d * 1024.
Proof.
  revert n div exp. induction fuel as [|fuel IH]; intros n div exp Hd Hdb Hn Hexp Hb Hf; cbn [unit_loop].
  { change (1024 ^ Z.of_nat 1) with 1024 in Hf. split; [done|lia]. }
  destruct (Z.leb_spec 1024 n) as [Hle|Hlt].
  - assert (Hmul : div * 1024 <= b) by (subst n; pose proof (Z.mul_div_le b div Hd); nia).
    rewrite Z.mod_small by lia. apply IH; try lia.
    + rewrite <- Z.div_div by lia. by subst n.
    + rewrite Hexp, (Nat2Z.inj_succ (S exp)), Z.pow_succ_r by lia. lia.
    + rewrite (Nat2Z.inj_succ (S fuel)), Z.pow_succ_r in Hf by lia. lia.
  - split; [done|]. split; [done|]. subst n. pose proof (Z.mod_pos_bound b div Hd). pose proof (Z.div_mod b div ltac:(lia)). nia.
Qed.

(** A size is shown in the largest unit it reaches: the quotient printed is at
    least one and below 1024, and every 64-bit size has its letter. *)
Theorem size_in_its_unit quotient_text b : 1024 <= b < 2 ^ 64 ->
  exists exp c, String.get exp unit_letters = Some c
    /\ 1024 ^ Z.of_nat (S exp) <= b < 1024 ^ Z.of_nat (S (S exp))
    /\ formatBytes quotient_text b = Some (quotient_text b (1024 ^ Z.of_nat (S exp)) +:+ " " +:+ char_str c +:+ "B").
Proof.
  intros Hb. unfold formatBytes. destruct (Z.ltb_spec b 1024) as [|_]; [lia|].
  pose proof (unit_loop_spec 64 (b / 1024) 1024 0 b) as Hu. destruct (unit_loop 64 (b / 1024) 1024 0) as [div exp].
  destruct Hu as [-> Hr]; try lia; try done.
  assert (Hexp : (exp < 6)%nat).
  { destruct (Nat.lt_ge_cases exp 6) as [|Hge]; [done|]. exfalso.
    assert (1024 ^ 7 <= 1024 ^ Z.of_nat (S exp)) by (apply Z.pow_le_mono_r; lia). assert (2 ^ 64 < 1024 ^ 7) by done. lia. }
  exists exp. rewrite (Nat2Z.inj_succ (S exp)), Z.pow_succ_r by lia.
  assert (Hc : exists c, String.get exp unit_letters = Some c) by (do 6 (destruct exp as [|exp]; [eexists; reflexivity|]); lia).
  destruct Hc as [c Hc]. exists c. rewrite Hc. split_and!; try done; lia.
Qed.

Lemma size_in_its_unit_witness : exists exp c, String.get exp unit_letters = Some c /\ 1024 ^ Z.of_nat (S exp) <= 1536 < 1024 ^ Z.of_nat (S (S exp)).
Proof. destruct (size_in_its_unit (fun _ _ => "1.5") 1536) as (exp & c & Hc & Hr & _); [lia|]. by exists exp, c. Defined.
