(* ===== verification/RateLimit.v ===== *)
(** * internal/web/middleware.go: the rate limiters

    One token bucket per client address, counted in floating point, and the
    sweeper of idle buckets.  The class [Float64] states what the code relies
    on of the finite values of the type: every operation is the exact result
    with a relative error of at most 2^-53 within a range, comparison is exact.
    Times are nanoseconds of the monotonic clock. *)

From Stdlib Require Import Reals Lra QArith Qreals.
From S2P Require Import Prelude GoStrings GoTime Sys WebAuth Respond.

Local Open Scope Z_scope.
Local Open Scope go_scope.

(** ** Floating point *)

Definition ulp : R := (/ 9007199254740992)%R.
Definition near (x e : R) : Prop := (Rabs (x - e) <= ulp * Rabs e)%R.
Definition top_range : R := 1000000000000000000000000000000%R.

Class Float64 : Type := {
  f64 : Type;
  val : f64 -> R;
  of_int : Z -> f64;
  to_int : f64 -> Z;
  fadd : f64 -> f64 -> f64;
  fsub : f64 -> f64 -> f64;
  fmul : f64 -> f64 -> f64;
  fdiv : f64 -> f64 -> f64;
  flt : f64 -> f64 -> bool;
  of_int_near : forall z, Z.abs z <= 2 ^ 63 -> near (val (of_int z)) (IZR z);
  of_int_exact : forall z, Z.abs z <= 2 ^ 53 -> val (of_int z) = IZR z;
  fadd_near : forall x y, (Rabs (val x + val y) <= top_range)%R -> near (val (fadd x y)) (val x + val y);
  fsub_near : forall x y, (Rabs (val x - val y) <= top_range)%R -> near (val (fsub x y)) (val x - val y);
  fdiv_near : forall x y, val y <> 0%R -> (val x / val y = 0 \/ / top_range <= Rabs (val x / val y) <= top_range)%R ->
    near (val (fdiv x y)) (val x / val y);
  flt_spec : forall x y, flt x y = true <-> (val x < val y)%R;
}.

(** ** The limiter *)

Section Limiter.
Context `{Float64}.

Record tokenBucket : Type := mkBucket { tb_tokens : f64; tb_lastCheck : Z }.
Record RateLimiter : Type := mkLimiter { rl_clients : gmap string tokenBucket; rl_refill : Z; rl_burst : Z }.

Definition millisecond : Z := 1000000.

(** [None] is the panic on an interval below the floor. *)
Definition NewRateLimiter (refill burst : Z) : option RateLimiter :=
  if refill <? millisecond then None else Some (mkLimiter ∅ refill burst).

Definition rateLimiterIdleWindow : Z := 5 * 60 * second.

(** One bucket: the verdict, the wait after a refusal, and the bucket. *)
Definition take_token (refill burst now : Z) (ob : option tokenBucket) : bool * Z * tokenBucket :=
  match ob with
  | None => (true, 0, mkBucket (fsub (of_int burst) (of_int 1)) now)
  | Some b =>
      let tokens := fadd (tb_tokens b) (fdiv (of_int (time_Sub now (tb_lastCheck b))) (of_int refill)) in
      let tokens := if flt (of_int burst) tokens then of_int burst else tokens in
      if flt tokens (of_int 1) then (false, to_int (fmul (fsub (of_int 1) tokens) (of_int refill)), mkBucket tokens now)
      else (true, 0, mkBucket (fsub tokens (of_int 1)) now)
  end.

Definition allow (now : Z) (ip : string) (rl : RateLimiter) : bool * Z * RateLimiter :=
  let '(ok, wait, b) := take_token (rl_refill rl) (rl_burst rl) now (rl_clients rl !! ip) in
  (ok, wait, mkLimiter (<[ip := b]> (rl_clients rl)) (rl_refill rl) (rl_burst rl)).

Definition Allow (now : Z) (ip : string) (rl : RateLimiter) : bool * RateLimiter :=
  let '(ok, _, rl) := allow now ip rl in (ok, rl).

(** One tick of [cleanup]. *)
Definition idle (now : Z) (b : tokenBucket) : bool := rateLimiterIdleWindow <? time_Sub now (tb_lastCheck b).
Definition cleanup (now : Z) (rl : RateLimiter) : RateLimiter :=
  mkLimiter (filter (fun kv => idle now (snd kv) = false) (rl_clients rl)) (rl_refill rl) (rl_burst rl).

(** The ceiling of [wait.Seconds()], which floating point gives exactly for a
    wait of less than a month. *)
Definition retry_after (wait : Z) : Z := Z.max (- (- wait / second)) 1.

Definition StatusTooManyRequests : Z := 429.

(** [Middleware]: [None] lets the request through. *)
Definition limit_request (now : Z) (ip : string) (rl : RateLimiter) : option (list (string * string) * hresp) * RateLimiter :=
  let '(ok, wait, rl) := allow now ip rl in
  (if ok then None else Some ([("Retry-After", itoa (retry_after wait))], HMessage StatusTooManyRequests "error.tooManyRequests" ""), rl).

(** The header never asks for less than the wait, nor for nothing. *)
Lemma retry_covers wait : 1 <= retry_after wait /\ wait <= retry_after wait * second.
Proof.
  unfold retry_after. assert (Hs : second = 1000000000) by reflexivity. rewrite Hs.
  pose proof (Z.div_mod (- wait) 1000000000 ltac:(lia)). pose proof (Z.mod_pos_bound (- wait) 1000000000 ltac:(lia)). lia.
Qed.

(** ** Runs *)

Inductive event : Type := Request (ip : string) | Sweep.

Definition rl_step (rl : RateLimiter) (e : Z * event) : RateLimiter :=
  match snd e with Request ip => snd (allow (fst e) ip rl) | Sweep => cleanup (fst e) rl end.

(** The requests of an address in a run, and those let through. *)
Definition asks (ip : string) (e : Z * event) : bool := match snd e with Request ip' => String.eqb ip' ip | Sweep => false end.
Definition asked (ip : string) (es : list (Z * event)) : nat := length (List.filter (asks ip) es).
Fixpoint admitted (ip : string) (es : list (Z * event)) (rl : RateLimiter) : nat :=
  match es with
  | [] => 0
  | e :: es => (if asks ip e && fst (fst (allow (fst e) ip rl)) then 1 else 0) + admitted ip es (rl_step rl e)
  end.

(** The clock of the run goes forward, from [t0] on. *)
Fixpoint chronological (t0 : Z) (es : list (Z * event)) : Prop :=
  match es with [] => True | e :: es => t0 <= fst e /\ chronological (fst e) es end.
End Limiter.

(** ** Rounding *)

Section Rounding.
Local Open Scope R_scope.

Lemma ulp_small : 0 < ulp <= / 1000000000000000.
Proof. unfold ulp. split; [lra|]. apply Rinv_le_contravar; lra. Qed.

Lemma near_bounds x e : 0 <= e -> near x e -> e * (1 - ulp) <= x <= e * (1 + ulp).
Proof.
  unfold near. intros He Hn. rewrite (Rabs_pos_eq e He) in Hn. revert Hn. unfold Rabs. destruct (Rcase_abs _); lra.
Qed.

Lemma near_zero x : near x 0 -> x = 0.
Proof. unfold near. rewrite Rabs_R0, Rminus_0_r, Rmult_0_r. intros Hx. destruct (Req_dec x 0) as [|Hne]; [done|]. apply Rabs_pos_lt in Hne. lra. Qed.

Lemma ulp_squares : 1 - 4 * ulp <= (1 - ulp) * (1 - ulp) /\ (1 + ulp) * (1 + ulp) <= 1 + 4 * ulp.
Proof.
  pose proof ulp_small as Hu. assert (0 <= ulp * ulp <= ulp) by (split; [apply Rmult_le_pos; lra|rewrite <- (Rmult_1_r ulp) at 3; apply Rmult_le_compat_l; lra]). lra.
Qed.

Lemma mul_bounds a x b c y d : 0 <= a -> 0 <= c -> a <= x <= b -> c <= y <= d -> a * c <= x * y <= b * d.
Proof. intros. split; apply Rmult_le_compat; lra. Qed.

(** The tokens earned over a time, to a relative error of four units. *)
Lemma earned_bounds `{Float64} el refill : (0 <= el < 2 ^ 63)%Z -> (1 <= refill <= 2 ^ 53)%Z ->
  let a := IZR el / IZR refill in let q := val (fdiv (of_int el) (of_int refill)) in a * (1 - 4 * ulp) <= q <= a * (1 + 4 * ulp).
Proof.
  intros Hel Hr a q. pose proof ulp_small as Hu.
  assert (Hrr : 1 <= IZR refill <= 9007199254740992) by (split; apply IZR_le; [lia|exact (proj2 Hr)]).
  assert (Her : val (of_int refill) = IZR refill) by (apply of_int_exact; lia).
  destruct (Z.eq_dec el 0%Z) as [->|Hne].
  { assert (Hz : val (of_int 0%Z) = 0) by (apply of_int_exact; lia).
    assert (Hq : near q (val (of_int 0%Z) / val (of_int refill))).
    { apply fdiv_near; rewrite ?Her, ?Hz; [lra|]. left. unfold Rdiv. ring. }
    rewrite Hz in Hq. unfold Rdiv in Hq. rewrite Rmult_0_l in Hq. apply near_zero in Hq. unfold a, Rdiv. rewrite Rmult_0_l. lra. }
  assert (Hei : 1 <= IZR el <= 9223372036854775808) by (split; apply IZR_le; [lia|]; change 9223372036854775808%Z with (2 ^ 63)%Z; lia).
  pose proof (near_bounds _ (IZR el) ltac:(lra) (of_int_near el ltac:(lia))) as He. set (x := val (of_int el)) in *.
  assert (Hx : / 2 <= x <= 20000000000000000000).
  { pose proof (mul_bounds 1 (IZR el) _ (/ 2) (1 - ulp) 1 ltac:(lra) ltac:(lra) Hei ltac:(lra)).
    pose proof (mul_bounds 1 (IZR el) _ 1 (1 + ulp) 2 ltac:(lra) ltac:(lra) Hei ltac:(lra)). lra. }
  assert (Hinv : / 9007199254740992 <= / IZR refill <= 1) by (split; [apply Rinv_le_contravar; lra|rewrite <- Rinv_1; apply Rinv_le_contravar; lra]).
  set (i := / IZR refill) in *. assert (Hxi : / 100000000000000000000 <= x * i <= 20000000000000000000).
  { pose proof (mul_bounds (/ 2) x 20000000000000000000 (/ 9007199254740992) i 1 ltac:(lra) ltac:(lra) Hx Hinv). lra. }
  assert (Hq : near q (x * i)).
  { change (x * i) with (x / IZR refill). unfold x, q. rewrite <- Her. apply fdiv_near; rewrite ?Her; [lra|]. right. fold x. change (x / IZR refill) with (x * i).
    rewrite Rabs_pos_eq by lra. unfold top_range. split; [|lra]. apply (Rle_trans _ (/ 100000000000000000000)); [apply Rinv_le_contravar; lra|lra]. }
  apply near_bounds in Hq; [|lra]. unfold a, Rdiv. fold i. set (e := IZR el) in *.
  assert (Hpos : 0 <= e * i) by (apply Rmult_le_pos; lra). destruct ulp_squares as [Hlo2 Hup2].
  assert (Hlo : e * (1 - ulp) * i <= x * i) by (apply Rmult_le_compat_r; lra).
  assert (Hup : x * i <= e * (1 + ulp) * i) by (apply Rmult_le_compat_r; lra).
  split.
  - apply (Rle_trans _ (e * i * ((1 - ulp) * (1 - ulp)))); [by apply Rmult_le_compat_l|].
    apply (Rle_trans _ (e * (1 - ulp) * i * (1 - ulp))); [lra|]. eapply Rle_trans; [|apply Hq]. apply Rmult_le_compat_r; lra.
  - apply (Rle_trans _ (e * i * ((1 + ulp) * (1 + ulp)))); [|by apply Rmult_le_compat_l].
    apply (Rle_trans _ (e * (1 + ulp) * i * (1 + ulp))); [|lra]. eapply Rle_trans; [apply Hq|]. apply Rmult_le_compat_r; lra.
Qed.
End Rounding.

(** ** One bucket *)

Section Bucket.
Context `{Float64}.
Variables (refill burst : Z).
Hypothesis Hrefill : millisecond <= refill <= 2 ^ 53.
Hypothesis Hburst : 1 <= burst <= 2 ^ 20.
Hypothesis Hwindow : burst * refill <= rateLimiterIdleWindow.
Local Open Scope R_scope.
Local Abbreviation B := (IZR burst).

(** The rounding of one request. *)
Definition slack : R := 8 * (ulp * B).

(** Between nothing and the burst, and not from the future. *)
Definition sound_bucket (now : Z) (b : tokenBucket) : Prop := 0 <= val (tb_tokens b) <= B /\ (tb_lastCheck b <= now)%Z.

(** What an address has to spend: what its bucket holds with what it has
    earned since, or the burst. *)
Definition credit (ob : option tokenBucket) (now : Z) : R :=
  match ob with
  | None => B
  | Some b => Rmin B (val (tb_tokens b) + IZR (now - tb_lastCheck b) / IZR refill)
  end.

Lemma burst_range : 1 <= B <= 1048576.
Proof. split; apply IZR_le; lia. Qed.
Lemma refill_range : 1 <= IZR refill <= 9007199254740992.
Proof. split; apply IZR_le; unfold millisecond in *; lia. Qed.
Lemma burst_val : val (of_int burst) = B.
Proof. apply of_int_exact. lia. Qed.
Lemma one_val : val (of_int 1) = 1.
Proof. apply of_int_exact. lia. Qed.
Lemma ulp_burst : 0 < ulp * B <= / 1000.
Proof.
  pose proof ulp_small as Hu. pose proof burst_range as Hb. split; [apply Rmult_lt_0_compat; lra|].
  apply (Rle_trans _ (/ 1000000000000000 * 1048576)); [apply Rmult_le_compat; lra|lra].
Qed.

Lemma spend t : 1 <= val t <= B -> let t' := val (fsub t (of_int 1)) in 0 <= t' <= B /\ t' <= val t - 1 + ulp * B.
Proof.
  intros Ht t'. pose proof burst_range as Hb. pose proof ulp_burst as Hub. pose proof ulp_small as Hu.
  assert (Hn : near t' (val t - 1)).
  { unfold t'. rewrite <- one_val. apply fsub_near. rewrite one_val, Rabs_pos_eq by lra. unfold top_range. lra. }
  apply near_bounds in Hn; [|lra]. assert ((val t - 1) * ulp <= ulp * B) by (rewrite (Rmult_comm ulp); apply Rmult_le_compat_r; lra).
  assert (0 <= (val t - 1) * (1 - ulp)) by (apply Rmult_le_pos; lra). lra.
Qed.

Lemma sum_bound t a q : 0 <= t -> 0 <= a -> t + a < B -> q <= a * (1 + 4 * ulp) -> (t + q) * (1 + ulp) <= t + a + 6 * (ulp * B).
Proof.
  intros Ht Ha Hlt Hq. pose proof ulp_small as Hu. pose proof burst_range as Hb.
  assert (Hp : ulp * a <= ulp * B) by (apply Rmult_le_compat_l; lra).
  assert (Hub := ulp_burst). assert (Hs : ulp * (t + q) <= ulp * (2 * B)) by (apply Rmult_le_compat_l; lra). lra.
Qed.

Definition refilled (now : Z) (b : tokenBucket) : f64 :=
  let tokens := fadd (tb_tokens b) (fdiv (of_int (time_Sub now (tb_lastCheck b))) (of_int refill)) in
  if flt (of_int burst) tokens then of_int burst else tokens.

Lemma refilled_bounds now b : sound_bucket now b ->
  0 <= val (refilled now b) <= B /\ val (refilled now b) <= credit (Some b) now + 7 * (ulp * B).
Proof.
  intros [Ht Hl]. pose proof ulp_small as Hu. pose proof burst_range as Hb. pose proof ulp_burst as Hub. pose proof refill_range as Hrr.
  unfold refilled. set (el := time_Sub now (tb_lastCheck b)). set (t := val (tb_tokens b)) in *.
  assert (Hel : (0 <= el < 2 ^ 63 /\ el <= now - tb_lastCheck b)%Z) by (unfold el, time_Sub, int64_min, int64_max; lia).
  pose proof (earned_bounds el refill (proj1 Hel) ltac:(unfold millisecond in *; lia)) as Hq. cbv zeta in Hq.
  set (q := val (fdiv (of_int el) (of_int refill))) in *. set (a := IZR el / IZR refill) in *.
  assert (Hinv : 0 < / IZR refill <= 1) by (split; [apply Rinv_0_lt_compat; lra|rewrite <- Rinv_1; apply Rinv_le_contravar; lra]).
  assert (Hel' : 0 <= IZR el <= 9223372036854775808) by (split; apply IZR_le; lia).
  assert (Ha : 0 <= a <= 9223372036854775808).
  { unfold a, Rdiv. pose proof (mul_bounds 0 (IZR el) 9223372036854775808 0 (/ IZR refill) 1 ltac:(lra) ltac:(lra) Hel' ltac:(lra)). lra. }
  assert (Hq0 : 0 <= q <= 20000000000000000000).
  { pose proof (mul_bounds 0 a 9223372036854775808 0 (1 - 4 * ulp) 1 ltac:(lra) ltac:(lra) Ha ltac:(lra)).
    pose proof (mul_bounds 0 a 9223372036854775808 0 (1 + 4 * ulp) 2 ltac:(lra) ltac:(lra) Ha ltac:(lra)). lra. }
  set (s := fadd (tb_tokens b) (fdiv (of_int el) (of_int refill))).
  assert (Hs : near (val s) (t + q)) by (apply fadd_near; fold t q; rewrite Rabs_pos_eq by lra; unfold top_range; lra).
  apply near_bounds in Hs; [|lra]. assert (Hs0 : 0 <= (t + q) * (1 - ulp)) by (apply Rmult_le_pos; lra).
  assert (Hcap : val (if flt (of_int burst) s then of_int burst else s) <= B /\ val (if flt (of_int burst) s then of_int burst else s) <= val s
                 /\ 0 <= val (if flt (of_int burst) s then of_int burst else s)).
  { destruct (flt (of_int burst) s) eqn:E; [apply flt_spec in E; rewrite burst_val in *; lra|].
    assert (~ B < val s) by (rewrite <- burst_val; rewrite <- flt_spec; congruence). lra. }
  split; [lra|]. cbn [credit]. fold t.
  assert (Hle : a <= IZR (now - tb_lastCheck b) / IZR refill) by (apply Rmult_le_compat_r; [lra|apply IZR_le; lia]).
  unfold Rmin. destruct (Rle_dec _ _) as [HB|HB]; [lra|].
  pose proof (sum_bound t a q ltac:(lra) ltac:(lra) ltac:(lra) ltac:(lra)). lra.
Qed.

(** After an interval and a millisecond there is a whole token. *)
Lemma refilled_enough now b : sound_bucket now b -> (refill + millisecond <= now - tb_lastCheck b)%Z -> 1 <= val (refilled now b).
Proof.
  intros [Ht Hl] Hgap. pose proof ulp_small as Hu. pose proof burst_range as Hb. pose proof refill_range as Hrr.
  unfold refilled. set (el := time_Sub now (tb_lastCheck b)). set (t := val (tb_tokens b)) in *.
  assert (Hel : (0 <= el < 2 ^ 63 /\ refill + millisecond <= el)%Z) by (unfold el, time_Sub, int64_min, int64_max, millisecond in *; lia).
  destruct (earned_bounds el refill (proj1 Hel) ltac:(unfold millisecond in *; lia)) as [Hq Hq'].
  set (q := val (fdiv (of_int el) (of_int refill))) in *. set (a := IZR el / IZR refill) in *.
  assert (Hinv : / 9007199254740992 <= / IZR refill <= 1) by (split; [apply Rinv_le_contravar; lra|rewrite <- Rinv_1; apply Rinv_le_contravar; lra]).
  assert (Hel' : IZR refill + 1000000 <= IZR el <= 9223372036854775808) by (rewrite <- plus_IZR; split; apply IZR_le; unfold millisecond in *; lia).
  assert (Ha : 1 + / 10000000000 <= a <= 9223372036854775808).
  { unfold a, Rdiv. set (i := / IZR refill) in *. assert (Hi1 : IZR refill * i = 1) by (apply Rinv_r; lra). split.
    - apply (Rle_trans _ ((IZR refill + 1000000) * i)); [lra|apply Rmult_le_compat_r; lra].
    - pose proof (mul_bounds 0 (IZR el) 9223372036854775808 0 i 1 ltac:(lra) ltac:(lra) ltac:(lra) ltac:(lra)). lra. }
  assert (Hlow : 1 + / 100000000000 <= q).
  { pose proof (mul_bounds (1 + / 10000000000) a 9223372036854775808 (1 - / 100000000000000) (1 - 4 * ulp) 1 ltac:(lra) ltac:(lra) Ha ltac:(lra)). lra. }
  assert (Hhigh : q <= 20000000000000000000).
  { pose proof (mul_bounds 0 a 9223372036854775808 0 (1 + 4 * ulp) 2 ltac:(lra) ltac:(lra) ltac:(lra) ltac:(lra)). lra. }
  set (s := fadd (tb_tokens b) (fdiv (of_int el) (of_int refill))).
  assert (Hs : near (val s) (t + q)) by (apply fadd_near; fold t q; rewrite Rabs_pos_eq by lra; unfold top_range; lra).
  apply near_bounds in Hs; [|lra]. destruct (flt (of_int burst) s); [rewrite burst_val; lra|].
  pose proof (mul_bounds (1 + / 100000000000) (t + q) (t + q) (1 - / 1000000000000000) (1 - ulp) 1 ltac:(lra) ltac:(lra) ltac:(lra) ltac:(lra)). lra.
Qed.

(** A request costs its address one token, up to the rounding. *)
Lemma take_token_credit now ob : (forall b, ob = Some b -> sound_bucket now b) ->
  let '(ok, _, b') := take_token refill burst now ob in
  sound_bucket now b' /\ tb_lastCheck b' = now /\ val (tb_tokens b') + (if ok then 1 else 0) <= credit ob now + slack.
Proof.
  intros Hob. pose proof burst_range as Hb. pose proof ulp_burst as Hub. unfold slack. destruct ob as [b|]; cbn [take_token].
  - change (if flt (of_int burst) _ then _ else _) with (refilled now b).
    pose proof (refilled_bounds now b (Hob b eq_refl)) as [Hr Hc]. destruct (flt (refilled now b) (of_int 1)) eqn:E.
    + unfold sound_bucket. cbn [tb_tokens tb_lastCheck]. split_and!; try lra; try done.
    + assert (~ val (refilled now b) < 1) by (rewrite <- one_val; rewrite <- flt_spec; congruence).
      pose proof (spend (refilled now b) ltac:(lra)) as [Hs Hs']. unfold sound_bucket. cbn [tb_tokens tb_lastCheck]. split_and!; try lra; try done.
  - pose proof (spend (of_int burst)) as Hs. rewrite burst_val in Hs. specialize (Hs ltac:(lra)) as [Hs Hs'].
    unfold sound_bucket. cbn [tb_tokens tb_lastCheck credit]. split_and!; try lra; try done.
Qed.

(** Time earns one token per interval. *)
Lemma credit_later ob t0 t1 : (t0 <= t1)%Z -> credit ob t1 <= credit ob t0 + IZR (t1 - t0) / IZR refill.
Proof.
  intros Ht. pose proof refill_range as Hrr. assert (Hd : 0 <= IZR (t1 - t0) / IZR refill) by (apply Rmult_le_pos; [apply IZR_le; lia|apply Rlt_le, Rinv_0_lt_compat; lra]).
  destruct ob as [b|]; cbn [credit]; [|lra].
  replace (IZR (t1 - tb_lastCheck b) / IZR refill) with (IZR (t0 - tb_lastCheck b) / IZR refill + IZR (t1 - t0) / IZR refill).
  2: { unfold Rdiv. rewrite <- Rmult_plus_distr_r, <- plus_IZR. do 2 f_equal. lia. }
  unfold Rmin. repeat destruct (Rle_dec _ _); lra.
Qed.

Lemma credit_most ob now : credit ob now <= B.
Proof. destruct ob; cbn [credit]; [apply Rmin_l|lra]. Qed.

(** A bucket that the sweeper drops had refilled. *)
Lemma idle_full now b : sound_bucket now b -> idle now b = true -> credit (Some b) now = B.
Proof.
  intros [Ht Hl] Hi%Z.ltb_lt. cbn [credit]. apply Rmin_left. pose proof refill_range as Hrr.
  assert (Hge : (burst * refill <= now - tb_lastCheck b)%Z) by (unfold time_Sub, int64_min, int64_max in Hi; lia).
  apply IZR_le in Hge. rewrite mult_IZR in Hge. assert (B <= IZR (now - tb_lastCheck b) / IZR refill); [|lra].
  apply (Rmult_le_reg_r (IZR refill)); [lra|]. unfold Rdiv. rewrite Rmult_assoc, Rinv_l, Rmult_1_r by lra. done.
Qed.

(** ** Runs of the limiter *)

Definition sound_limiter (now : Z) (rl : RateLimiter) : Prop :=
  rl_refill rl = refill /\ rl_burst rl = burst /\ forall ip b, rl_clients rl !! ip = Some b -> sound_bucket now b.

Lemma sound_later t0 t1 rl : (t0 <= t1)%Z -> sound_limiter t0 rl -> sound_limiter t1 rl.
Proof. intros Ht (Hr & Hb & Hs). split_and!; try done. intros ip b Hip. destruct (Hs ip b Hip) as [? ?]. split; [done|lia]. Qed.

Lemma cleaned now rl ip : rl_clients (cleanup now rl) !! ip = match rl_clients rl !! ip with Some b => if idle now b then None else Some b | None => None end.
Proof.
  unfold cleanup. cbn [rl_clients]. rewrite map_lookup_filter. destruct (rl_clients rl !! ip) as [b|]; [|done]. cbn.
  destruct (idle now b) eqn:E; by rewrite ?option_guard_True, ?option_guard_False by (cbn; congruence).
Qed.

Lemma allow_client now ip rl ip' :
  rl_clients (snd (allow now ip rl)) !! ip' = if decide (ip = ip') then Some (snd (take_token (rl_refill rl) (rl_burst rl) now (rl_clients rl !! ip))) else rl_clients rl !! ip'.
Proof.
  unfold allow. destruct (take_token _ _ _ _) as [[ok wait] b]. cbn [snd rl_clients]. destruct (decide (ip = ip')) as [<-|Hne]; [by rewrite lookup_insert_eq|by rewrite lookup_insert_ne].
Qed.

Lemma step_sound rl e : sound_limiter (fst e) rl -> sound_limiter (fst e) (rl_step rl e).
Proof.
  intros (Hr & Hb & Hs). destruct e as [now [ip|]]; cbn [rl_step snd fst] in *.
  - unfold sound_limiter. unfold allow at 1 2. pose proof (take_token_credit now (rl_clients rl !! ip) (Hs ip)) as Ht.
    rewrite Hr, Hb. destruct (take_token refill burst now _) as [[ok wait] b'] eqn:E. cbn [snd rl_refill rl_burst]. split_and!; try done.
    intros ip' b. rewrite allow_client, Hr, Hb, E. destruct (decide (ip = ip')); [intros [= <-]; apply Ht|apply Hs].
  - split_and!; try done. intros ip b. rewrite cleaned. destruct (rl_clients rl !! ip) as [b'|] eqn:E; [|done]. destruct (idle now b'); [done|]. intros [= <-]. by apply (Hs ip).
Qed.

Lemma step_credit ip rl e : sound_limiter (fst e) rl ->
  credit (rl_clients (rl_step rl e) !! ip) (fst e) + (if asks ip e && fst (fst (allow (fst e) ip rl)) then 1 else 0)
  <= credit (rl_clients rl !! ip) (fst e) + (if asks ip e then slack else 0).
Proof.
  intros (Hr & Hb & Hs). destruct e as [now [ip'|]]; cbn [rl_step asks snd fst] in *.
  - rewrite allow_client. destruct (String.eqb_spec ip' ip) as [->|Hne]; cbn [andb].
    + rewrite decide_True by done. pose proof (take_token_credit now (rl_clients rl !! ip) (Hs ip)) as Ht. unfold allow. rewrite Hr, Hb.
      destruct (take_token refill burst now _) as [[ok wait] b']. cbn [fst snd credit]. destruct Ht as (_ & -> & Hle).
      rewrite Z.sub_diag. unfold Rdiv. rewrite Rmult_0_l, Rplus_0_r. pose proof (Rmin_r B (val (tb_tokens b'))). lra.
    + rewrite decide_False by done. lra.
  - cbn [andb]. rewrite cleaned. destruct (rl_clients rl !! ip) as [b|] eqn:E; [|lra]. destruct (idle now b) eqn:Ei; [|lra].
    rewrite (idle_full now b (Hs ip b E) Ei). cbn [credit]. lra.
Qed.

Lemma run_bound ip es : forall t0 t1 rl, sound_limiter t0 rl -> chronological t0 es -> Forall (fun e => (fst e <= t1)%Z) es -> (t0 <= t1)%Z ->
  INR (admitted ip es rl) <= credit (rl_clients rl !! ip) t0 + IZR (t1 - t0) / IZR refill + INR (asked ip es) * slack.
Proof.
  pose proof refill_range as Hrr. assert (Hi : 0 < / IZR refill) by (apply Rinv_0_lt_compat; lra).
  induction es as [|e es IH]; intros t0 t1 rl Hs Hc Hall Ht.
  - cbn [admitted asked List.filter length INR]. assert (0 <= IZR (t1 - t0) / IZR refill) by (apply Rmult_le_pos; [apply IZR_le; lia|lra]).
    assert (0 <= credit (rl_clients rl !! ip) t0); [|lra]. pose proof burst_range as Hb. destruct (rl_clients rl !! ip) as [b|] eqn:E; cbn [credit]; [|lra].
    destruct Hs as (_ & _ & Hs). destruct (Hs ip b E) as [Hv Hl]. apply Rmin_glb; [lra|].
    assert (0 <= IZR (t0 - tb_lastCheck b) / IZR refill) by (apply Rmult_le_pos; [apply IZR_le; lia|lra]). lra.
  - destruct Hc as [Hte Hc]. inversion Hall as [|? ? He Hall']; subst. cbn [admitted]. rewrite plus_INR.
    pose proof (sound_later t0 (fst e) rl Hte Hs) as Hse.
    pose proof (IH (fst e) t1 (rl_step rl e) (step_sound rl e Hse) Hc Hall' He) as Hrest.
    pose proof (step_credit ip rl e Hse) as Hstep. pose proof (credit_later (rl_clients rl !! ip) t0 (fst e) Hte) as Hlater.
    assert (Hsum : IZR (t1 - t0) / IZR refill = IZR (fst e - t0) / IZR refill + IZR (t1 - fst e) / IZR refill).
    { unfold Rdiv. rewrite <- Rmult_plus_distr_r, <- plus_IZR. do 2 f_equal. lia. }
    assert (Hask : INR (asked ip (e :: es)) * slack = (if asks ip e then slack else 0) + INR (asked ip es) * slack).
    { unfold asked. cbn [List.filter]. destruct (asks ip e); cbn [length]; [rewrite S_INR|]; lra. }
    rewrite Hask. destruct (asks ip e && _); cbn [INR] in *; lra.
Qed.
End Bucket.

(** ** Theorems *)

Section Limits.
Context `{Float64}.

Definition after (es : list (Z * event)) (rl : RateLimiter) : RateLimiter := foldl rl_step rl es.

Lemma after_sound refill burst es : (millisecond <= refill <= 2 ^ 53)%Z -> (1 <= burst <= 2 ^ 20)%Z -> forall t0 rl,
  sound_limiter refill burst t0 rl -> chronological t0 es -> sound_limiter refill burst (List.last (List.map fst es) t0) (after es rl).
Proof.
  intros Hr Hb. induction es as [|e es IH]; intros t0 rl Hs Hc; [done|]. destruct Hc as [Ht Hc]. cbn [after foldl List.map].
  pose proof (IH (fst e) (rl_step rl e) ltac:(apply step_sound; [done..|]; by apply (sound_later _ _ t0)) Hc) as Hn.
  replace (List.last (fst e :: List.map fst es) t0) with (List.last (List.map fst es) (fst e)); [done|].
  clear. generalize (fst e). induction (List.map fst es) as [|x l IHl]; intros y; [done|]. destruct l; [done|]. cbn in *. apply IHl.
Qed.

(** C40: The limiter keeps its promise.  Whatever every address asks and
    whenever the sweeper runs, over any stretch of time an address is let
    through at most as often as the burst and one request per interval of that
    stretch allow, up to a rounding of eight units in 2^53 times the burst for
    each of its requests; what other addresses do does not matter. *)
Theorem rate_bounded refill burst rl t0 before s window t ip :
  NewRateLimiter refill burst = Some rl -> (refill <= 2 ^ 53)%Z -> (1 <= burst <= 2 ^ 20)%Z -> (burst * refill <= rateLimiterIdleWindow)%Z ->
  chronological t0 before -> (List.last (List.map fst before) t0 <= s <= t)%Z -> chronological s window -> Forall (fun e => (fst e <= t)%Z) window ->
  (INR (admitted ip window (after before rl)) <= IZR burst + IZR (t - s) / IZR refill + INR (asked ip window) * (8 * (/ 9007199254740992 * IZR burst)))%R.
Proof.
  unfold NewRateLimiter. destruct (Z.ltb_spec refill millisecond) as [|Hmin]; [done|]. intros [= <-] Hr Hb Hw Hbefore Hs Hc Hall.
  assert (Hstart : sound_limiter refill burst t0 (mkLimiter ∅ refill burst)) by (split_and!; try done).
  pose proof (after_sound refill burst before ltac:(lia) Hb t0 _ Hstart Hbefore) as Ha.
  pose proof (run_bound refill burst ltac:(lia) Hb Hw ip window s t _ (sound_later refill burst _ s _ (proj1 Hs) Ha) Hc Hall ltac:(lia)) as Hrun.
  pose proof (credit_most refill burst (rl_clients (after before (mkLimiter ∅ refill burst)) !! ip) s) as Hm. unfold slack, ulp in Hrun. lra.
Qed.

(** An address that lets an interval and a millisecond pass is let through. *)
Theorem patient_client_admitted refill burst now ip rl :
  (millisecond <= refill <= 2 ^ 53)%Z -> (1 <= burst <= 2 ^ 20)%Z -> sound_limiter refill burst now rl ->
  (forall b, rl_clients rl !! ip = Some b -> (refill + millisecond <= now - tb_lastCheck b)%Z) -> fst (Allow now ip rl) = true.
Proof.
  intros Hr Hb (Er & Eb & Hs) Hgap. unfold Allow, allow. rewrite Er, Eb. destruct (rl_clients rl !! ip) as [b|] eqn:E; [|done]. cbn [take_token].
  assert (Hone : flt (refilled refill burst now b) (of_int 1) = false).
  2: { unfold refilled in Hone. cbv zeta in *. by rewrite Hone. }
  destruct (flt _ _) eqn:Ef; [|done]. exfalso. apply flt_spec in Ef. rewrite one_val in Ef. revert Ef. apply Rle_not_lt.
  apply refilled_enough; try done; [by apply (Hs ip)|by apply Hgap].
Qed.
End Limits.

(** ** Exact arithmetic *)

(** Rational arithmetic is one that the bounds hold for. *)
Lemma near_self x : near x x.
Proof. unfold near. rewrite Rminus_diag, Rabs_R0. apply Rmult_le_pos; [|apply Rabs_pos]. pose proof ulp_small. lra. Qed.

Lemma Q2R_int z : Q2R (inject_Z z) = IZR z.
Proof. unfold Q2R, inject_Z. cbn. lra. Qed.

#[refine] Instance exact_float : Float64 := {
  f64 := Q; val := Q2R; of_int := inject_Z; to_int := Qround.Qfloor;
  fadd x y := Qplus x y; fsub x y := Qminus x y; fmul x y := Qmult x y; fdiv x y := Qdiv x y; flt x y := negb (Qle_bool y x) }.
Proof.
  - intros z _. rewrite Q2R_int. apply near_self.
  - intros z _. apply Q2R_int.
  - intros x y _. rewrite Q2R_plus. apply near_self.
  - intros x y _. rewrite Q2R_minus. apply near_self.
  - intros x y Hy _. rewrite Q2R_div; [apply near_self|]. intros Hq. apply Hy. rewrite (Qeq_eqR _ _ Hq). apply RMicromega.Q2R_0.
  - intros x y. rewrite negb_true_iff, <- not_true_iff_false, Qle_bool_iff. split.
    + intros Hn. apply Qlt_Rlt, Qnot_le_lt, Hn.
    + intros Hlt%Rlt_Qlt. by apply Qlt_not_le.
Defined.

(** The login limiter under eight attempts at once and one a second later. *)
Definition login_burst : list (Z * event) := List.repeat (0, Request "10.0.0.2") 8 ++ [(second, Request "10.0.0.2"); (2 * second, Sweep)].

Lemma rate_bounded_witness :
  let rl := mkLimiter ∅ (5 * second) 5 in
  admitted "10.0.0.2" login_burst rl = 5%nat
  /\ (INR (admitted "10.0.0.2" login_burst (after [] rl)) <= 5 + IZR (2 * second - 0) / IZR (5 * second) + 9 * (8 * (/ 9007199254740992 * 5)))%R.
Proof.
  cbv zeta. split; [vm_compute; reflexivity|].
  assert (H := rate_bounded (5 * second) 5 (mkLimiter ∅ (5 * second) 5) 0 [] 0 login_burst (2 * second) "10.0.0.2").
  replace (INR (asked "10.0.0.2" login_burst)) with 9%R in H by (change (asked "10.0.0.2" login_burst) with 9%nat; cbn; lra).
  apply H; clear H.
  - reflexivity.
  - unfold second. lia.
  - lia.
  - unfold rateLimiterIdleWindow, second. lia.
  - exact I.
  - cbn. unfold second. lia.
  - cbn. unfold second. lia.
  - unfold login_burst, second. repeat constructor; cbn; lia.
Defined.
